(* ===== verification/_CoqProject ===== *)
-Q . S2P
Prelude.v
GoStrings.v
Text.v
Digest.v
Encoding.v
Model.v
Ordering.v
Listing.v
Calendar.v
Inventory.v
Store.v
Operations.v
Recovery.v
Evidence.v
Compensation.v
OwnerOperations.v
Lifecycle.v
OperationSystem.v
OperationRuns.v
Neutrality.v
Demo.v
Authority.v
EngineTheorems.v
Capabilities.v
Records.v
CompensationTheorems.v
Rollback.v
Divergences.v
Backoff.v
Outbox.v
Collections.v
Organizations.v
TenancyTheorems.v
FleetGateway.v
FleetGatewayTheorems.v
Targets.v
Compatibility.v
CompatibilityTheorems.v
Impact.v
ImpactTheorems.v
Fleet.v
FleetTheorems.v
Admission.v
FleetProperties.v
OwnerRuns.v
Tenants.v
TenantTheorems.v
TenantProperties.v
Baselines.v
BaselineTheorems.v
BaselineProperties.v
Campaigns.v
CampaignTheorems.v
CampaignProperties.v
Access.v
AccessTheorems.v
ControlJobs.v
ControlJobTheorems.v
GitRevisions.v
GitRevisionTheorems.v
Drift.v
DriftTheorems.v
NodeLifecycle.v
NodeLifecycleTheorems.v
Maintenance.v
MaintenanceTheorems.v
Pages.v
PageTheorems.v
Catalog.v
CatalogTheorems.v
Blueprints.v
BlueprintTheorems.v
Interference.v
BackupSchedule.v
