(* ===== verification/Prelude.v ===== *)
(** * 4SO Platform Factory control plane: verification development

    The repository is a Go control plane for fleets of Kubernetes clusters.  Its
    core is [MemoryStore] in [src/internal/controlplane]: one mutex-protected
    store of organizations, projects, blueprints, catalogs, clusters, tenants
    and the durable operations that change them.  The HTTP API, the agents and
    the workers only reach the system's state through the methods of this store;
    the PostgreSQL store mirrors them in SQL.  The development models those
    methods one by one and proves what they promise each other.

    ** How the code is represented

    A handler (a method that takes the lock) is a function in the monad
    [M MemoryStore] below: it maps the store to the store it leaves and to its
    result.  A handler that fails keeps the writes it made before failing, as in
    Go; the lock makes a handler one atomic step, so concurrency is the
    interleaving of handlers.  Structs are records, maps are [gmap string _],
    enumerations are inductive types where the code only ever holds their
    constants and strings where requests choose the text.  Times are integers
    (nanoseconds since the zero time); [ms_now] and [ms_id] are the injected
    clock and identifier source, read once per use and otherwise arbitrary;
    identifiers never repeat where a theorem needs it ([id_source]).  An error is
    the sentinel [errors.Is] finds.  [int64] arithmetic wraps ([wrap64],
    [inc64]); theorems bound the number of steps instead of assuming that a
    counter never wraps.  A Go loop over a map visits it in the order of
    [map_to_list]; where the outcome depends on that order, the invariant that
    makes it independent is stated.

    ** The files

    Foundations.  [Prelude]: monad, symbolic execution ([wp], [wp_go]), record
    update, loops over maps, tactics.  [GoStrings] and [Text] (strings, taking
    text apart), [Digest] (SHA-256, executable, with hex), [Encoding] (JSON text,
    base64), [Calendar] (RFC 3339 text of a time), [Model] and [Inventory] (the
    structs of [model.go]), [Ordering] and [Listing] (sorting), [Store]
    ([memory_store.go]: the store itself, clock, identifiers, audit trail, outbox
    writer).

    The operation engine.  [Operations] ([memory_store.go], [operation_retry.go],
    [state_machine.go]: create, claim, renew, release, start, verify, fail,
    complete, cancel), [Recovery] (request payloads, approval, unknown outcomes,
    recovery checkpoints), [Evidence] ([operation_trace.go]: traces and sealed
    evidence), [Compensation] ([compensation.go]: rollback), [OwnerOperations]
    ([owner_destructive_operation.go]).  [Lifecycle] is the abstract machine that
    an operation follows, as a step relation with capabilities; [OperationSystem]
    and [OperationRuns] show that every handler refines it and define the engine's
    calls ([Call], [exec]), steps, reachable stores and invariant.  [Authority]
    (leases and fencing), [EngineTheorems] (refinement, well-formedness, terminal
    states, refused calls), [Capabilities] (who may approve, what an attempt and
    a success need), [Records] (idempotency, append-only records, evidence),
    [CompensationTheorems] and [Rollback] (order, soundness and completion of
    rollbacks), [Backoff], [Divergences] (behaviours that contradict the code's
    own tables).  [Neutrality] is the interface between the engine and everything
    else: [EngineNeutral] calls never touch engine state, [EngineDriven] ones
    only through the engine's handlers; [Interference] shows which component is
    which and interleaves their calls with the engine's; the maintenance handlers,
    which write their operation themselves, are neither.  [Demo] is the concrete store in which witnesses are evaluated.

    The other components.  [Organizations]/[TenancyTheorems] (organizations,
    projects, memberships), [Outbox], [FleetGateway] and its theorems (gateway
    sessions), [Targets]/[Fleet]/[FleetTheorems]/[FleetProperties] (imports,
    clusters, inventories, mutation authority, agent certificates: [fleet_store.go],
    [okd_authority.go], [agent_certificate_store.go]), [Tenants] and its theorems
    ([tenant_store.go]: entitlements, tenants, agent tasks), [Compatibility] and
    [CompatibilityTheorems] ([compatibility/authority.go]), [Impact] and
    [ImpactTheorems] ([planning_impact.go]: the seals of a plan's impact and of its
    completion evidence), [Baselines] and its theorems ([baseline_store.go]),
    [Campaigns] and its theorems ([fleet_upgrade_store.go], [day2_campaign.go]:
    fleet groups, upgrade campaigns), [OwnerRuns] (what the workflows that drive
    the engine share), [Catalog] and [Blueprints] with their theorems (revisions, releases, signatures,
    publication), [Pages]/[PageTheorems] (listings, pages, worker queues, cursors),
    [BackupSchedule] (the cron matcher and the grammar of schedules), [Access]/[AccessTheorems] (service accounts,
    API tokens, trusted clients, delegation grants: [service_account_store.go],
    [mcp_delegation.go]), [ControlJobs]/[ControlJobTheorems] ([mcp_control_job.go]),
    [GitRevisions]/[GitRevisionTheorems] ([git_drift_store.go]), [Drift]/[DriftTheorems]
    (drift scans and the history of findings: [fleet_upgrade_store.go],
    [drift_findings.go]), [NodeLifecycle]/[NodeLifecycleTheorems]
    ([target_node_lifecycle.go]) and [Maintenance]/[MaintenanceTheorems]
    ([cluster_maintenance_store.go]).  [Admission] (agents are admitted by reading
    only) and [Collections] are shared: the latter holds lemmas about collections
    filed under fresh identifiers and about loops that update a collection in place.

    ** What the theorems show

    Engine: every handler moves an operation along the abstract lifecycle or not
    at all; reachable operations are well formed and revisions identify them;
    only the holder of the current lease and fence changes an operation; refused
    calls write nothing, but for the two refusals of a compensation claim that end the
    rollback; approval needs a second person, destructive attempts a
    valid recovery checkpoint, success verified authority; rollbacks run latest
    step first, finish when every step is undone, and run to completion;
    histories in which the calls of other components are
    interleaved keep all of this.
    Components: their invariants hold in every reachable store, published records
    are frozen and signed, epochs and revisions only grow, inventories cannot
    grant authority; tenants and baseline deployments follow their lifecycles with
    the operations they drive, no stale approval starts a baseline and a succeeded
    one has sealed evidence, whose digest does not depend on the order it arrived
    in; accepted compatibility decisions follow from the constraints; a campaign
    never exposes more clusters than its policy, keeps its rollout plan, is approved
    by somebody else and starts a target only where it can be recovered; machine
    identities are bounded by their account and their client and die with them, schedules
    match exactly the instants their grammar lists, the
    outcome of a control job is written once, a branch has one known good revision,
    the classification of Git drift is a table, drift scans sum up their targets and
    merging findings loses none; maintenance starts in its window on the nodes that
    were approved, its reports are accounted for, and plans of node actions are
    executable exactly when the target admits them; pages miss no stable row and terminate, queues offer exactly claimable work.  Where the
    code does not keep such a promise, an [Example] of the component's file shows
    the history that breaks it.

    ** Bounds and fuel

    [unwind] takes one more than the number of compensation steps left as fuel and
    [rollback_runs_to_completion] proves it enough, allowing twelve clock readings
    a step.  [followCursors] makes one request per element of its list;
    [page_walks_terminate] gives the number that suffices.  All other loops are
    structural.

    ** Not modelled

    Text: [strings.ToLower]/[ToUpper] are exact on ASCII and leave other bytes
    alone; JSON text assumes valid UTF-8.  Ed25519 verification is a parameter.
    Nil and empty slices are the same list.  [time.Now] readings outside the
    injected clock are arguments.  The error text around a sentinel is dropped,
    except where it becomes the reason of a failed maintenance run.
    Cursors travel as values, their base64 text is not modelled.  Components that
    are not modelled: the stores of providers, notifications, data protection,
    certification, compliance, FinOps, identity authority, AI runs, application
    platform, virtual clusters, git delivery and reliability; blueprint overlays, templates and workspaces; the
    audit page by scopes, which reads all of those.  File and PostgreSQL
    persistence, HTTP, the agent, installers, archives and registries are input
    and output around this core. *)
From stdpp Require Export base tactics gmap strings list fin_maps sorting pretty.
From Stdlib Require Export ZArith Lia.

(** ** Scope, boolean tests *)

Declare Scope go_scope.
Delimit Scope go_scope with go.
#[global] Open Scope string_scope.
#[global] Open Scope Z_scope.
#[global] Open Scope go_scope.

Notation "x == y" := (bool_decide (x = y)) (at level 70, no associativity) : go_scope.
Notation "x != y" := (negb (bool_decide (x = y))) (at level 70, no associativity) : go_scope.

(** ** Record update

    [r <| p := v |>] is the record [r] with the field read by [p] replaced.
    A record declares its eta expansion once ([Eta]); each updatable field has
    a [Setter] instance derived from it. *)

Class Eta (R : Type) := eta : R -> R.
Class Setter {R T : Type} (proj : R -> T) := setf : T -> R -> R.

Ltac derive_setter :=
  lazymatch goal with
  | |- @Setter ?R ?T ?proj =>
      let i := constr:(_ : Eta R) in
      let b := eval hnf in i in
      exact (fun (v : T) (r : R) =>
        ltac:(let t := eval cbv beta in (b r) in
              lazymatch eval pattern (proj r) in t with
              | ?F _ => let u := eval cbv beta in (F v) in exact u
              end))
  end.

Notation "r <| p := v |>" := (@setf _ _ p _ v r)
  (at level 1, left associativity, p constr, v at level 200,
   format "r  <|  p  :=  v  |>") : go_scope.

(** ** Machine integers

    [int64] and [int] are 64-bit two's complement; arithmetic wraps. *)

Definition int64_min : Z := - 2 ^ 63.
Definition int64_max : Z := 2 ^ 63 - 1.
Definition wrap64 (z : Z) : Z := (z + 2 ^ 63) mod 2 ^ 64 - 2 ^ 63.
Definition inc64 (z : Z) : Z := wrap64 (z + 1).
Definition in_int64 (z : Z) : Prop := int64_min <= z <= int64_max.

(** ** Errors and results

    An error is represented by the sentinel that [errors.Is] finds in it; the
    text that [fmt.Errorf] wraps around the sentinel is not kept. *)

Inductive Error : Type :=
| ErrNotFound
| ErrConflict
| ErrDuplicateName
| ErrIdempotencyConflict
| ErrInvalidTransition
| ErrLeaseHeld
| ErrNotClaimable
| ErrStaleFence
| ErrImmutable
| ErrPlanStale
| ErrMaintenanceWindow
| ErrPrerequisite
| ErrValidation.

#[global] Instance Error_eq_dec : EqDecision Error.
Proof. solve_decision. Defined.

Inductive result (A : Type) : Type :=
| Ok (a : A)
| Fail (e : Error).
Arguments Ok {A} a.
Arguments Fail {A} e.

(** ** The store monad

    A handler runs under the store's lock: it maps the store to the store it
    leaves behind and to its result.  The store component is present in the
    failing case too, because a Go handler that returns an error keeps every
    write it made before. *)

Definition M (S A : Type) : Type := S -> S * result A.

Section monad.
Context {S : Type}.

Definition ret {A} (a : A) : M S A := fun s => (s, Ok a).
Definition raise {A} (e : Error) : M S A := fun s => (s, Fail e).
Definition bind {A B} (m : M S A) (k : A -> M S B) : M S B :=
  fun s => match m s with
           | (s', Ok a) => k a s'
           | (s', Fail e) => (s', Fail e)
           end.
Definition get : M S S := fun s => (s, Ok s).
Definition modify (f : S -> S) : M S unit := fun s => (f s, Ok tt).
(** [if b { return err }] *)
Definition fail_if (b : bool) (e : Error) : M S unit :=
  if b then raise e else ret tt.
(** [v, ok := m[k]; if !ok { return err }] *)
Definition get_opt {A} (o : option A) (e : Error) : M S A :=
  match o with Some a => ret a | None => raise e end.
(** a call that returns [(value, error)] without touching the store *)
Definition lift {A} (r : result A) : M S A := fun s => (s, r).
(** [if b { action }] *)
Definition when (b : bool) (m : M S unit) : M S unit :=
  if b then m else ret tt.
End monad.

Notation "'let!' x ':=' m 'in' k" := (bind m (fun x => k))
  (at level 100, x pattern, m at level 99, k at level 200,
   format "'[v' 'let!'  x  ':='  m  'in' '/' k ']'") : go_scope.
Notation "m ;;; k" := (bind m (fun _ => k))
  (at level 100, k at level 200, right associativity,
   format "'[v' m  ;;; '/' k ']'") : go_scope.

(** ** Iteration over Go maps

    Go ranges over a map in an unspecified order.  A loop that only asks
    whether some entry satisfies a test is [map_any]; a loop that stops at the
    first entry satisfying it is [map_find], and what depends on which entry
    it finds is stated under the uniqueness invariant that makes the answer
    independent of the order. *)

Section ranges.
Context {V : Type}.
Implicit Types (m : gmap string V) (P : string -> V -> bool).

Definition map_any P m : bool :=
  existsb (fun kv => P kv.1 kv.2) (map_to_list m).
Definition map_all P m : bool :=
  forallb (fun kv => P kv.1 kv.2) (map_to_list m).
Definition map_find P m : option (string * V) :=
  find (fun kv => P kv.1 kv.2) (map_to_list m).
(** the values satisfying a test, in iteration order *)
Definition map_select P m : list V :=
  snd <$> List.filter (fun kv => P kv.1 kv.2) (map_to_list m).
Definition map_count P m : nat := length (map_select P m).

Lemma map_any_true P m :
  map_any P m = true <-> exists k v, m !! k = Some v /\ P k v = true.
Proof.
  unfold map_any. rewrite existsb_exists. split.
  - intros ([k v] & Hin & HP). exists k, v. split; [|done].
    by apply elem_of_map_to_list, list_elem_of_In.
  - intros (k & v & Hk & HP). exists (k, v). split; [|done].
    by apply list_elem_of_In, elem_of_map_to_list.
Qed.

Lemma map_any_false P m :
  map_any P m = false <-> forall k v, m !! k = Some v -> P k v = false.
Proof.
  rewrite <- not_true_iff_false, map_any_true. split.
  - intros H k v Hk. destruct (P k v) eqn:E; [|done]. exfalso; eauto.
  - intros H (k & v & Hk & HP). rewrite (H k v Hk) in HP. done.
Qed.

Lemma map_all_true P m :
  map_all P m = true <-> forall k v, m !! k = Some v -> P k v = true.
Proof.
  unfold map_all. rewrite forallb_forall. split.
  - intros H k v Hk. apply (H (k, v)).
    by apply list_elem_of_In, elem_of_map_to_list.
  - intros H [k v] Hin. apply H.
    by apply elem_of_map_to_list, list_elem_of_In.
Qed.

Lemma map_find_Some P m k v :
  map_find P m = Some (k, v) -> m !! k = Some v /\ P k v = true.
Proof.
  intros H. apply find_some in H as [Hin HP]. split; [|done].
  by apply elem_of_map_to_list, list_elem_of_In.
Qed.

Lemma map_find_None P m :
  map_find P m = None <-> forall k v, m !! k = Some v -> P k v = false.
Proof.
  unfold map_find. split.
  - intros H k v Hk. apply (find_none _ _ H (k, v)).
    by apply list_elem_of_In, elem_of_map_to_list.
  - intros H. destruct (find _ _) as [[k v]|] eqn:E; [|done].
    apply find_some in E as [Hin HP]. cbn in HP.
    rewrite (H k v) in HP; [done|]. by apply elem_of_map_to_list, list_elem_of_In.
Qed.

(** with at most one entry satisfying the test, the loop finds exactly it *)
Lemma map_find_unique P m k v :
  m !! k = Some v -> P k v = true ->
  (forall k' v', m !! k' = Some v' -> P k' v' = true -> k' = k) ->
  map_find P m = Some (k, v).
Proof.
  intros Hk HP Huniq. destruct (map_find P m) as [[k' v']|] eqn:E.
  - apply map_find_Some in E as [Hk' HP'].
    pose proof (Huniq _ _ Hk' HP') as ->. congruence.
  - rewrite map_find_None in E. specialize (E _ _ Hk). congruence.
Qed.

Lemma elem_of_map_select P m v :
  v ∈ map_select P m <-> exists k, m !! k = Some v /\ P k v = true.
Proof.
  unfold map_select. rewrite list_elem_of_fmap. split.
  - intros ([k v'] & -> & Hin). exists k.
    apply list_elem_of_In, filter_In in Hin as [Hin HP]. split; [|done].
    by apply elem_of_map_to_list, list_elem_of_In.
  - intros (k & Hk & HP). exists (k, v). split; [done|].
    apply list_elem_of_In, filter_In. split; [|done].
    by apply list_elem_of_In, elem_of_map_to_list.
Qed.
End ranges.

(** ** Machine-integer lemmas *)

Lemma wrap64_id z : in_int64 z -> wrap64 z = z.
Proof.
  unfold in_int64, int64_min, int64_max, wrap64. intros H.
  rewrite Z.mod_small; lia.
Qed.

Lemma wrap64_range z : in_int64 (wrap64 z).
Proof.
  unfold in_int64, int64_min, int64_max, wrap64.
  pose proof (Z.mod_pos_bound (z + 2 ^ 63) (2 ^ 64) ltac:(lia)). lia.
Qed.

Lemma inc64_range z : in_int64 (inc64 z).
Proof. apply wrap64_range. Qed.

Lemma inc64_lt z b : int64_min <= z -> z < b -> b <= int64_max -> inc64 z = z + 1.
Proof. intros. apply wrap64_id. unfold in_int64, int64_min in *. lia. Qed.

(** even a counter that wraps never repeats its previous value *)
Lemma inc64_neq z : inc64 z <> z.
Proof.
  unfold inc64, wrap64. intros H.
  pose proof (Z.div_mod (z + 1 + 2 ^ 63) (2 ^ 64) ltac:(lia)). lia.
Qed.

(** ** Weakest preconditions

    [wp m Q s]: running [m] in [s] ends with a result and a store that satisfy
    [Q].  Handlers are total functions, so this is total correctness. *)

Definition wp {S A} (m : M S A) (Q : result A -> S -> Prop) (s : S) : Prop :=
  Q (m s).2 (m s).1.

Section wp_rules.
Context {S : Type}.
Implicit Types s : S.

Lemma wp_mono {A} (m : M S A) (Q Q' : result A -> S -> Prop) s :
  wp m Q s -> (forall r s', Q r s' -> Q' r s') -> wp m Q' s.
Proof. unfold wp. auto. Qed.

Lemma wp_and {A} (m : M S A) (Q Q' : result A -> S -> Prop) s :
  wp m Q s -> wp m Q' s -> wp m (fun r s' => Q r s' /\ Q' r s') s.
Proof. unfold wp. auto. Qed.

Lemma wp_any {A} (m : M S A) (Q : result A -> S -> Prop) s : (forall r s', Q r s') -> wp m Q s.
Proof. unfold wp. auto. Qed.

Lemma wp_run {A} (m : M S A) Q s s' r : wp m Q s -> m s = (s', r) -> Q r s'.
Proof. unfold wp. intros H E. by rewrite E in H. Qed.

Lemma wp_ret {A} (a : A) Q s : Q (Ok a) s -> wp (ret a) Q s.
Proof. done. Qed.
Lemma wp_raise {A} e (Q : result A -> S -> Prop) s : Q (Fail e) s -> wp (raise e) Q s.
Proof. done. Qed.
Lemma wp_lift {A} (r : result A) (Q : result A -> S -> Prop) s :
  Q r s -> wp (lift r) Q s.
Proof. done. Qed.

Lemma wp_bind {A B} (m : M S A) (k : A -> M S B) Q s :
  wp m (fun r s' => match r with Ok a => wp (k a) Q s' | Fail e => Q (Fail e) s' end) s ->
  wp (bind m k) Q s.
Proof. unfold wp, bind. destruct (m s) as [s' [a|e]]; done. Qed.

Lemma wp_bind_ret {A B} (a : A) (k : A -> M S B) Q s :
  wp (k a) Q s -> wp (bind (ret a) k) Q s.
Proof. done. Qed.
Lemma wp_bind_raise {A B} e (k : A -> M S B) Q s : Q (Fail e) s -> wp (bind (raise e) k) Q s.
Proof. done. Qed.
Lemma wp_bind_get {B} (k : S -> M S B) Q s : wp (k s) Q s -> wp (bind get k) Q s.
Proof. done. Qed.
Lemma wp_bind_modify {B} f (k : unit -> M S B) Q s :
  wp (k tt) Q (f s) -> wp (bind (modify f) k) Q s.
Proof. done. Qed.
Lemma wp_bind_fail_if {B} b e (k : unit -> M S B) Q s :
  (b = true -> Q (Fail e) s) -> (b = false -> wp (k tt) Q s) ->
  wp (bind (fail_if b e) k) Q s.
Proof. destruct b; intros H1 H2; [by apply H1|by apply H2]. Qed.
Lemma wp_bind_get_opt {A B} (o : option A) e (k : A -> M S B) Q s :
  (o = None -> Q (Fail e) s) -> (forall a, o = Some a -> wp (k a) Q s) ->
  wp (bind (get_opt o e) k) Q s.
Proof. destruct o as [a|]; intros H1 H2; [by apply (H2 a)|by apply H1]. Qed.
(** commands whose outcome is known *)
Lemma wp_bind_pass {B} b e (k : unit -> M S B) Q s :
  b = false -> wp (k tt) Q s -> wp (bind (fail_if b e) k) Q s.
Proof. by intros ->. Qed.
Lemma wp_bind_found {A B} (a : A) o e (k : A -> M S B) Q s :
  o = Some a -> wp (k a) Q s -> wp (bind (get_opt o e) k) Q s.
Proof. by intros ->. Qed.
Lemma wp_bind_lift_ok {A B} (a : A) r (k : A -> M S B) Q s :
  r = Ok a -> wp (k a) Q s -> wp (bind (lift r) k) Q s.
Proof. by intros ->. Qed.
Lemma wp_bind_lift {A B} (r : result A) (k : A -> M S B) Q s :
  (forall e, r = Fail e -> Q (Fail e) s) -> (forall a, r = Ok a -> wp (k a) Q s) ->
  wp (bind (lift r) k) Q s.
Proof. destruct r as [a|e]; intros H1 H2; [by apply (H2 a)|by apply (H1 e)]. Qed.
Lemma wp_bind_assoc {A B C} (m : M S A) (k : A -> M S B) (l : B -> M S C) Q s :
  wp (bind m (fun a => bind (k a) l)) Q s -> wp (bind (bind m k) l) Q s.
Proof. unfold wp, bind. destruct (m s) as [s' [a|e]]; done. Qed.
Lemma wp_bind_when {B} b m (k : unit -> M S B) Q s :
  (b = true -> wp (bind m k) Q s) -> (b = false -> wp (k tt) Q s) ->
  wp (bind (when b m) k) Q s.
Proof. destruct b; intros H1 H2; [by apply H1|by apply H2]. Qed.
Lemma wp_if {A} (b : bool) (m1 m2 : M S A) Q s :
  (b = true -> wp m1 Q s) -> (b = false -> wp m2 Q s) ->
  wp (if b then m1 else m2) Q s.
Proof. destruct b; auto. Qed.
Lemma wp_bind_if {A B} (b : bool) (m1 m2 : M S A) (k : A -> M S B) Q s :
  (b = true -> wp (bind m1 k) Q s) -> (b = false -> wp (bind m2 k) Q s) ->
  wp (bind (if b then m1 else m2) k) Q s.
Proof. destruct b; auto. Qed.
End wp_rules.

(** ** Automation

    [norm_bool] turns boolean test outcomes into propositions; [wp_step] runs
    one command of a handler symbolically, [wp_go] runs it to the end.  The
    primitives of the store extend [wp_prim]. *)

Ltac norm_bool :=
  repeat match goal with
  | T : bool_decide _ = true |- _ => apply bool_decide_eq_true in T
  | T : (_ || _)%bool = false |- _ => apply orb_false_iff in T as [? ?]
  | T : (_ <? _)%Z = true |- _ => apply Z.ltb_lt in T
  | T : negb _ = true |- _ => apply negb_true_iff in T
  | T : (_ <=? _)%Z = true |- _ => apply Z.leb_le in T
  | T : (_ && _)%bool = true |- _ => apply andb_true_iff in T as [? ?]
  | T : bool_decide _ = false |- _ => apply bool_decide_eq_false in T
  | T : negb _ = false |- _ => apply negb_false_iff in T
  | T : (_ <? _)%Z = false |- _ => apply Z.ltb_ge in T
  | T : (_ <=? _)%Z = false |- _ => apply Z.leb_gt in T
  end.

Ltac wp_prim := fail.

Ltac wp_step :=
  lazymatch goal with
  | |- wp (bind (fail_if _ _) _) _ _ => apply wp_bind_fail_if; intros ?
  | |- wp (bind (get_opt _ _) _) _ _ => apply wp_bind_get_opt; [intros ?|intros ? ?]
  | |- wp (bind get _) _ _ => apply wp_bind_get
  | |- wp (bind (modify _) _) _ _ => apply wp_bind_modify
  | |- wp (bind (ret _) _) _ _ => apply wp_bind_ret
  | |- wp (bind (raise _) _) _ _ => apply wp_bind_raise
  | |- wp (bind (lift _) _) _ _ => apply wp_bind_lift; [intros ? ?|intros ? ?]
  | |- wp (bind (when _ _) _) _ _ => apply wp_bind_when; intros ?
  | |- wp (bind (bind _ _) _) _ _ => apply wp_bind_assoc
  | |- wp (bind (if _ then _ else _) _) _ _ => apply wp_bind_if; intros ?
  | |- wp (ret _) _ _ => apply wp_ret
  | |- wp (raise _) _ _ => apply wp_raise
  | |- wp (lift _) _ _ => apply wp_lift
  | |- wp (if _ then _ else _) _ _ => apply wp_if; intros ?
  | |- wp (let _ := _ in _) _ _ => cbv zeta
  | |- wp (match ?x with _ => _ end) _ _ => destruct x eqn:?
  | |- wp ((fun _ => _) _) _ _ => cbv beta
  | |- wp (bind (match ?x with _ => _ end) _) _ _ => destruct x eqn:?
  | _ => wp_prim
  end; cbv beta.

Ltac wp_go := repeat wp_step.

(** decides the comparisons of a guard *)
Ltac decided := repeat first [rewrite bool_decide_eq_true_2 by done | rewrite bool_decide_eq_false_2 by done]; done.
(** the next command is a guard that passes, by [tac] *)
Ltac wp_pass tac := apply wp_bind_pass; [solve [tac]|].

Create HintDb store discriminated.
