(* ===== verification/GoStrings.v ===== *)
(** * Go strings

    The functions of the Go packages [strings], [strconv] and [encoding/hex]
    that the control plane uses, on byte strings.  [TrimSpace] removes the
    UTF-8 encodings of every rune of [unicode.IsSpace]; [ToLower]/[ToUpper]
    are exact on ASCII text and leave other bytes alone (names, digests,
    roles and enum spellings are ASCII). *)
From S2P Require Import Prelude.
From Stdlib Require Import Ascii Structures.OrdersEx.
From Stdlib Require String.

Definition byte_of (a : ascii) : Z := Z.of_N (N_of_ascii a).
Definition in_range (lo hi : Z) (a : ascii) : bool :=
  (lo <=? byte_of a) && (byte_of a <=? hi).

(** ** strings.TrimSpace *)

(** one-byte spaces: tab, LF, VT, FF, CR, space *)
Definition space1 (a : ascii) : bool := in_range 9 13 a || (byte_of a =? 32).
(** two-byte spaces: U+0085, U+00A0 *)
Definition space2 (a b : ascii) : bool :=
  (byte_of a =? 194) && ((byte_of b =? 133) || (byte_of b =? 160)).
(** three-byte spaces: U+1680, U+2000..U+200A, U+2028, U+2029, U+202F, U+205F, U+3000 *)
Definition space3 (a b c : ascii) : bool :=
  ((byte_of a =? 225) && (byte_of b =? 154) && (byte_of c =? 128))
  || ((byte_of a =? 226) && (byte_of b =? 128)
      && (in_range 128 138 c || in_range 168 169 c || (byte_of c =? 175)))
  || ((byte_of a =? 226) && (byte_of b =? 129) && (byte_of c =? 159))
  || ((byte_of a =? 227) && (byte_of b =? 128) && (byte_of c =? 128)).

Section trim.
(** the tests are parameters because the right end is trimmed on the
    reversed bytes, where an encoding is read backwards *)
Context (is2 : ascii -> ascii -> bool) (is3 : ascii -> ascii -> ascii -> bool).

Fixpoint trim (s : list ascii) : list ascii :=
  match s with
  | [] => []
  | a :: s1 =>
      if space1 a then trim s1 else
      match s1 with
      | [] => s
      | b :: s2 =>
          if is2 a b then trim s2 else
          match s2 with
          | [] => s
          | c :: s3 => if is3 a b c then trim s3 else s
          end
      end
  end.

(** does the list start with a space encoding? *)
Definition leads (s : list ascii) : bool :=
  match s with
  | [] => false
  | a :: s1 => space1 a ||
      match s1 with
      | [] => false
      | b :: s2 => is2 a b || match s2 with [] => false | c :: _ => is3 a b c end
      end
  end.

Lemma trim_fixed s : leads s = false -> trim s = s.
Proof.
  destruct s as [|a [|b [|c s]]]; cbn; try done; intros H; norm_bool;
    repeat match goal with E : _ = false |- _ => rewrite E; clear E end; done.
Qed.

Lemma trim_leads_le n s : (length s <= n)%nat -> leads (trim s) = false.
Proof.
  revert s; induction n as [|n IH]; intros s Hn; destruct s as [|a s1];
    cbn [length] in Hn; [done|lia|done|].
  cbn [trim]. destruct (space1 a) eqn:E1; [apply IH; lia|].
  destruct s1 as [|b s2]; [cbn; by rewrite E1|].
  destruct (is2 a b) eqn:E2; [apply IH; cbn in Hn; lia|].
  destruct s2 as [|c s3]; [cbn; by rewrite E1, E2|].
  destruct (is3 a b c) eqn:E3; [apply IH; cbn in Hn; lia|].
  cbn. by rewrite E1, E2, E3.
Qed.

Lemma trim_leads s : leads (trim s) = false.
Proof. by apply (trim_leads_le (length s)). Qed.

Lemma trim_idem s : trim (trim s) = trim s.
Proof. apply trim_fixed, trim_leads. Qed.

Lemma trim_suffix s : exists p, s = (p ++ trim s)%list.
Proof.
  remember (length s) as n eqn:Hn. revert s Hn.
  induction n as [n IH] using lt_wf_ind; intros [|a s1] ->; [by exists []|].
  cbn [trim]. destruct (space1 a).
  { destruct (IH (length s1) ltac:(cbn; lia) s1 eq_refl) as [p Hp].
    exists (a :: p). cbn. by rewrite <- Hp. }
  destruct s1 as [|b s2]; [by exists []|]. destruct (is2 a b).
  { destruct (IH (length s2) ltac:(cbn; lia) s2 eq_refl) as [p Hp].
    exists (a :: b :: p). cbn. by rewrite <- Hp. }
  destruct s2 as [|c s3]; [by exists []|]. destruct (is3 a b c); [|by exists []].
  destruct (IH (length s3) ltac:(cbn; lia) s3 eq_refl) as [p Hp].
  exists (a :: b :: c :: p). cbn. by rewrite <- Hp.
Qed.

Lemma leads_app s t : leads s = true -> leads (s ++ t) = true.
Proof.
  destruct s as [|a [|b [|c s]]]; cbn; [done| | |done];
    rewrite ?orb_false_r; intros H; [by rewrite H|].
  apply orb_true_iff in H as [H|H]; rewrite H; by rewrite ?orb_true_r.
Qed.
End trim.

Definition trimLeft := trim space2 space3.
Definition trimRight (s : list ascii) : list ascii :=
  rev (trim (fun b a => space2 a b) (fun c b a => space3 a b c) (rev s)).

Definition TrimSpace (s : string) : string :=
  String.string_of_list_ascii (trimRight (trimLeft (String.list_ascii_of_string s))).

Lemma trimRight_prefix s : exists p, s = (trimRight s ++ p)%list.
Proof.
  unfold trimRight.
  destruct (trim_suffix (fun b a => space2 a b) (fun c b a => space3 a b c) (rev s)) as [p Hp].
  exists (rev p). rewrite <- rev_app_distr, <- Hp. by rewrite rev_involutive.
Qed.

Lemma trimLeft_right s : trimLeft (trimRight (trimLeft s)) = trimRight (trimLeft s).
Proof.
  apply trim_fixed. apply not_true_iff_false. intros H.
  destruct (trimRight_prefix (trimLeft s)) as [p Hp].
  apply (leads_app _ _ _ p) in H. rewrite <- Hp in H.
  by unfold trimLeft in H; rewrite trim_leads in H.
Qed.

Lemma TrimSpace_idem s : TrimSpace (TrimSpace s) = TrimSpace s.
Proof.
  unfold TrimSpace. rewrite String.list_ascii_of_string_of_list_ascii, trimLeft_right.
  unfold trimRight at 1. unfold trimRight at 1.
  by rewrite rev_involutive, trim_idem.
Qed.

Lemma TrimSpace_empty : TrimSpace "" = "".
Proof. done. Qed.

(** ** Case mapping and prefixes *)

Definition lower_ascii (a : ascii) : ascii :=
  if in_range 65 90 a then ascii_of_N (N_of_ascii a + 32) else a.
Definition upper_ascii (a : ascii) : ascii :=
  if in_range 97 122 a then ascii_of_N (N_of_ascii a - 32) else a.

Fixpoint map_ascii (f : ascii -> ascii) (s : string) : string :=
  match s with
  | EmptyString => EmptyString
  | String a s' => String (f a) (map_ascii f s')
  end.

Definition ToLower : string -> string := map_ascii lower_ascii.
Definition ToUpper : string -> string := map_ascii upper_ascii.

Definition HasPrefix (s p : string) : bool := String.prefix p s.

(** [strings.TrimPrefix] *)
Definition TrimPrefix (s p : string) : string :=
  if HasPrefix s p then String.substring (String.length p) (String.length s) s else s.

(** "\x00" *)
Definition nul : string := String.String (ascii_of_N 0) "".

(** [len(s)] *)
Definition len (s : string) : Z := Z.of_nat (String.length s).

(** [fmt.Sprintf("%d", z)] *)
Definition itoa (z : Z) : string := pretty z.

(** ** encoding/hex *)

Definition is_hex_lower (a : ascii) : bool := in_range 48 57 a || in_range 97 102 a.
Definition is_hex (a : ascii) : bool := is_hex_lower a || in_range 65 70 a.

Definition string_all (P : ascii -> bool) (s : string) : bool :=
  forallb P (String.list_ascii_of_string s).

(** [_, err := hex.DecodeString(s); err == nil] *)
Definition hex_decodable (s : string) : bool :=
  Nat.even (String.length s) && string_all is_hex s.

(** "sha256:" digests *)
Definition sha256_prefix : string := "sha256:".

(** ** Byte order of strings, as used by Go's [<] *)
Definition string_lt (a b : string) : bool := String.ltb a b.

Lemma string_lt_spec a b : string_lt a b = true <-> String_as_OT.lt a b.
Proof.
  unfold string_lt, String.ltb, String_as_OT.lt.
  change (String_as_OT.compare a b) with (String.compare a b). by destruct (String.compare a b).
Qed.

Lemma string_lt_asym a b : string_lt a b = true -> string_lt b a = false.
Proof.
  rewrite string_lt_spec. intros H. destruct (string_lt b a) eqn:E; [|done].
  apply string_lt_spec in E. exfalso.
  apply (StrictOrder_Irreflexive (R := String_as_OT.lt) a). by etrans.
Qed.

Lemma string_not_lt_trans a b c : string_lt b a = false -> string_lt c b = false -> string_lt c a = false.
Proof.
  intros H1 H2. destruct (string_lt c a) eqn:E; [|done]. apply string_lt_spec in E.
  destruct (String_as_OT.compare_spec b c) as [->|Hlt|Hlt].
  - apply string_lt_spec in E. congruence.
  - assert (string_lt b a = true); [|congruence]. apply string_lt_spec. by etrans.
  - apply string_lt_spec in Hlt. congruence.
Qed.

(** [sort.Strings] *)
Definition string_le (a b : string) : Prop := string_lt b a = false.
#[export] Instance string_le_dec : RelDecision string_le.
Proof. intros a b. unfold string_le. apply _. Defined.
Definition sortStrings (l : list string) : list string := merge_sort string_le l.

Lemma elem_of_sortStrings x l : x ∈ sortStrings l <-> x ∈ l.
Proof. unfold sortStrings. by rewrite merge_sort_Permutation. Qed.

(** ** strings.Contains, strings.HasSuffix, strings.EqualFold *)

Fixpoint ContainsString (s sub : string) : bool :=
  String.prefix sub s || match s with EmptyString => false | String _ s' => ContainsString s' sub end.

Definition HasSuffix (s suffix : string) : bool :=
  (String.length suffix <=? String.length s)%nat
  && (String.substring (String.length s - String.length suffix) (String.length suffix) s == suffix).

(** simple case folding onto ASCII: besides the upper-case letters, U+017F
    folds to "s" and U+212A to "k"; exact when one side is ASCII text *)
Fixpoint foldBytes (s : list ascii) : list ascii :=
  match s with
  | [] => []
  | a :: s1 =>
      match s1 with
      | b :: s2 =>
          if (byte_of a =? 197) && (byte_of b =? 191) then ascii_of_N 115 :: foldBytes s2 else
          match s2 with
          | c :: s3 => if (byte_of a =? 226) && (byte_of b =? 132) && (byte_of c =? 170)
                       then ascii_of_N 107 :: foldBytes s3 else lower_ascii a :: foldBytes s1
          | [] => lower_ascii a :: foldBytes s1
          end
      | [] => [lower_ascii a]
      end
  end.
Definition EqualFold (s t : string) : bool :=
  bool_decide (foldBytes (String.list_ascii_of_string s) = foldBytes (String.list_ascii_of_string t)).
