(* ===== verification/Text.v ===== *)
(** * Splitting and reading text

    The functions of [strings] and [strconv] that take text apart. *)
From S2P Require Import Prelude GoStrings.
From Stdlib Require Import Ascii.
From Stdlib Require String.

(** ** strings, strconv *)

Definition ofList (l : list ascii) : string := String.string_of_list_ascii l.
Definition toList (s : string) : list ascii := String.list_ascii_of_string s.

(** [strings.Split(s, sep)] for a one-byte separator *)
Fixpoint splitBytes (sep : ascii) (s cur : list ascii) : list string :=
  match s with
  | [] => [ofList (rev cur)]
  | a :: s' => if bool_decide (a = sep) then ofList (rev cur) :: splitBytes sep s' [] else splitBytes sep s' (a :: cur)
  end.
Definition Split (s : string) (sep : ascii) : list string := splitBytes sep (toList s) [].

(** [strings.Contains(s, sep)] for a one-byte [sep] *)
Definition Contains (s : string) (sep : ascii) : bool := existsb (fun a => bool_decide (a = sep)) (toList s).

(** [strings.Fields] *)
Definition flush (cur : list ascii) (rest : list string) : list string :=
  match cur with [] => rest | _ => ofList (rev cur) :: rest end.
Fixpoint fieldsBytes (s cur : list ascii) : list string :=
  match s with
  | [] => flush cur []
  | a :: s1 =>
      if space1 a then flush cur (fieldsBytes s1 []) else
      match s1 with
      | [] => flush (a :: cur) []
      | b :: s2 =>
          if space2 a b then flush cur (fieldsBytes s2 []) else
          match s2 with
          | [] => fieldsBytes s1 (a :: cur)
          | c :: s3 => if space3 a b c then flush cur (fieldsBytes s3 []) else fieldsBytes s1 (a :: cur)
          end
      end
  end.
Definition Fields (s : string) : list string := fieldsBytes (toList s) [].

Example fields_case : Fields " a  bc d " = ["a"; "bc"; "d"].
Proof. reflexivity. Qed.

(** [strings.Join(l, " ")] *)
Fixpoint JoinSpace (l : list string) : string :=
  match l with
  | [] => ""
  | [x] => x
  | x :: rest => x +:+ " " +:+ JoinSpace rest
  end.

Fixpoint digitsValue (l : list ascii) (acc : Z) : option Z :=
  match l with
  | [] => Some acc
  | a :: l' => if in_range 48 57 a then digitsValue l' (acc * 10 + (byte_of a - 48)) else None
  end.

(** [strconv.Atoi]: an optional sign, at least one digit, within 64 bits *)
Definition Atoi (s : string) : option Z :=
  let parse sign l :=
    match l with
    | [] => None
    | _ => match digitsValue l 0 with
           | Some v => let v := sign * v in
                       if (int64_min <=? v) && (v <=? int64_max) then Some v else None
           | None => None
           end
    end in
  match toList s with
  | a :: l => if byte_of a =? 45 then parse (-1) l else if byte_of a =? 43 then parse 1 l else parse 1 (a :: l)
  | [] => None
  end.
