(* ===== verification/Digest.v ===== *)
(** * Digests: crypto/sha256, encoding/hex and the JSON documents they seal

    The control plane identifies requests, plans and evidence by
    "sha256:" followed by the hexadecimal SHA-256 of their bytes.  SHA-256 is
    defined here in full (FIPS 180-4) so that digests compute; the JSON texts
    are those of [encoding/json] with its default HTML escaping, for strings
    of valid UTF-8. *)
From S2P Require Import Prelude GoStrings.
From Stdlib Require Import Ascii.
From Stdlib Require String.

(** ** SHA-256 *)

Module SHA256.

(** the low 32 bits of [z], see [word_mod] *)
Definition mask32 : Z := 0xffffffff.
Definition word (z : Z) : Z := Z.land z mask32.
Definition add32 (x y : Z) : Z := word (x + y).
Definition rotr (n x : Z) : Z :=
  Z.lor (Z.shiftr x n) (word (Z.shiftl x (32 - n))).
Definition ch (x y z : Z) : Z := Z.lxor (Z.land x y) (Z.land (Z.lxor x mask32) z).
Definition maj (x y z : Z) : Z := Z.lxor (Z.lxor (Z.land x y) (Z.land x z)) (Z.land y z).
Definition bsig0 (x : Z) : Z := Z.lxor (Z.lxor (rotr 2 x) (rotr 13 x)) (rotr 22 x).
Definition bsig1 (x : Z) : Z := Z.lxor (Z.lxor (rotr 6 x) (rotr 11 x)) (rotr 25 x).
Definition ssig0 (x : Z) : Z := Z.lxor (Z.lxor (rotr 7 x) (rotr 18 x)) (Z.shiftr x 3).
Definition ssig1 (x : Z) : Z := Z.lxor (Z.lxor (rotr 17 x) (rotr 19 x)) (Z.shiftr x 10).

Lemma word_mod z : word z = z mod 2 ^ 32.
Proof. unfold word. change mask32 with (Z.ones 32). by apply Z.land_ones. Qed.

(** The standard derives its constants: the round constants are the first 32
    fractional bits of the cube roots of the first 64 primes, the initial hash
    value those of the square roots of the first eight. *)
Definition is_prime (p : Z) : bool :=
  forallb (fun d => negb (p mod d =? 0)) (seqZ 2 (Z.sqrt p - 1)).
Definition primes64 : list Z := List.filter is_prime (seqZ 2 310).

(** the largest [r + x] with [r] built bit by bit from bit [n - 1] whose cube
    is at most [v] *)
Fixpoint cube_root (n : nat) (x v : Z) : Z :=
  match n with
  | O => x
  | S n' =>
      let y := x + 2 ^ Z.of_nat n' in
      cube_root n' (if y * y * y <=? v then y else x) v
  end.

Definition K : list Z :=
  Eval vm_compute in (fun p => word (cube_root 36 0 (p * 2 ^ 96))) <$> primes64.
Definition H0 : list Z :=
  Eval vm_compute in (fun p => word (Z.sqrt (p * 2 ^ 64))) <$> firstn 8 primes64.

(** big-endian bytes of a [n]-byte integer *)
Fixpoint be_bytes (n : nat) (z : Z) : list Z :=
  match n with
  | O => []
  | S n' => (be_bytes n' (z / 256) ++ [z mod 256])%list
  end.

(** message || 0x80 || zeros || 64-bit bit length, a multiple of 64 bytes *)
Definition pad (msg : list Z) : list Z :=
  let l := Z.of_nat (length msg) in
  (msg ++ [0x80] ++ repeat 0 (Z.to_nat ((55 - l) mod 64)) ++ be_bytes 8 (8 * l))%list.

Fixpoint words (bs : list Z) : list Z :=
  match bs with
  | a :: b :: c :: d :: t => (a * 2 ^ 24 + b * 2 ^ 16 + c * 2 ^ 8 + d) :: words t
  | _ => []
  end.

(** message schedule, kept most recent word first: w(t) from w(t-2), w(t-7),
    w(t-15) and w(t-16) *)
Fixpoint schedule (n : nat) (rev_w : list Z) : list Z :=
  match n with
  | O => rev rev_w
  | S n' =>
      let w i := nth i rev_w 0 in
      schedule n' (add32 (add32 (ssig1 (w 1%nat)) (w 6%nat))
                         (add32 (ssig0 (w 14%nat)) (w 15%nat)) :: rev_w)
  end.

Definition round (st : list Z) (kw : Z * Z) : list Z :=
  match st with
  | [a; b; c; d; e; f; g; h] =>
      let t1 := add32 (add32 h (bsig1 e)) (add32 (ch e f g) (add32 kw.1 kw.2)) in
      let t2 := add32 (bsig0 a) (maj a b c) in
      [add32 t1 t2; a; b; c; add32 d t1; e; f; g]
  | _ => st
  end.

Definition compress (st : list Z) (block : list Z) : list Z :=
  let w := schedule 48 (rev block) in
  zip_with add32 st (fold_left round (zip K w) st).

Fixpoint blocks (fuel : nat) (ws : list Z) (st : list Z) : list Z :=
  match fuel with
  | O => st
  | S fuel' =>
      match ws with
      | [] => st
      | _ => blocks fuel' (skipn 16 ws) (compress st (firstn 16 ws))
      end
  end.

(** one block is sixteen words, so the word count is fuel enough *)
Definition Sum256 (msg : list Z) : list Z :=
  let ws := words (pad msg) in
  blocks (length ws) ws H0.

End SHA256.

(** ** Hexadecimal text *)

Definition hex_digit (n : Z) : ascii :=
  ascii_of_N (Z.to_N (if n <? 10 then 48 + n else 87 + n)).

Fixpoint hex_word (n : nat) (z : Z) : string :=
  match n with
  | O => ""
  | S n' => hex_word n' (z / 16) +:+ String.String (hex_digit (z mod 16)) ""
  end.

Definition bytes_of_string (s : string) : list Z :=
  byte_of <$> String.list_ascii_of_string s.

(** "sha256:" + hex.EncodeToString(sha256.Sum256(raw)); payloads are byte strings *)
Definition sha256Digest (raw : string) : string :=
  sha256_prefix +:+ String.concat "" (hex_word 8 <$> SHA256.Sum256 (bytes_of_string raw)).

Example sha256_abc :
  sha256Digest "abc" =
  "sha256:ba7816bf8f01cfea414140de5dae2223b00361a396177a9cb410ff61f20015ad".
Proof. vm_compute. reflexivity. Qed.

Example sha256_two_blocks :
  sha256Digest "abcdbcdecdefdefgefghfghighijhijkijkljklmklmnlmnomnopnopq" =
  "sha256:248d6a61d20638b8e5c026930c3e6039a33ce45964ff2167f6ecedd419db06c1".
Proof. vm_compute. reflexivity. Qed.

(** ** encoding/json: strings, objects and arrays *)

Definition json_escape (a : ascii) : string :=
  let b := byte_of a in
  let bs := String.String (ascii_of_N 92) "" in
  if b =? 34 then bs +:+ String.String (ascii_of_N 34) ""
  else if b =? 92 then bs +:+ bs
  else if b =? 8 then bs +:+ "b"
  else if b =? 12 then bs +:+ "f"
  else if b =? 10 then bs +:+ "n"
  else if b =? 13 then bs +:+ "r"
  else if b =? 9 then bs +:+ "t"
  else if (b <? 32) || (b =? 60) || (b =? 62) || (b =? 38)
       then bs +:+ "u00" +:+ hex_word 2 b
  else String.String a "".

(** U+2028 and U+2029 are escaped too *)
Fixpoint json_chars (s : list ascii) : string :=
  match s with
  | [] => ""
  | a :: s1 =>
      match s1 with
      | b :: c :: s3 =>
          if (byte_of a =? 226) && (byte_of b =? 128) && in_range 168 169 c
          then String.String (ascii_of_N 92) "u202" +:+ hex_word 1 (byte_of c - 160)
               +:+ json_chars s3
          else json_escape a +:+ json_chars s1
      | _ => json_escape a +:+ json_chars s1
      end
  end.

Definition quote : string := String.String (ascii_of_N 34) "".
Definition json_string (s : string) : string :=
  quote +:+ json_chars (String.list_ascii_of_string s) +:+ quote.
Definition json_object (fields : list (string * string)) : string :=
  "{" +:+ String.concat "," ((fun kv => json_string kv.1 +:+ ":" +:+ kv.2) <$> fields) +:+ "}".
Definition json_array (elems : list string) : string :=
  "[" +:+ String.concat "," elems +:+ "]".
(** a string field tagged [omitempty] *)
Definition json_opt (k v : string) : list (string * string) :=
  if v == "" then [] else [(k, json_string v)].

(** ** The form of a digest: the prefix and 64 visible characters *)

Definition visible (a : ascii) : bool := in_range 33 126 a.

Lemma visible_no_space a b c :
  visible a = true -> space1 a = false /\ space2 a b = false /\ space3 a b c = false /\
  space2 b a = false /\ space3 c b a = false.
Proof.
  intros H. assert (Hb : 33 <= byte_of a <= 126) by (unfold visible, in_range in H; norm_bool; lia).
  assert (E : forall z, z < 33 \/ 126 < z -> (byte_of a =? z) = false) by (intros z Hz; apply Z.eqb_neq; lia).
  unfold space1, space2, space3, in_range. rewrite !E by lia.
  replace (byte_of a <=? 13) with false by (symmetry; apply Z.leb_gt; lia).
  replace (128 <=? byte_of a) with false by (symmetry; apply Z.leb_gt; lia).
  replace (168 <=? byte_of a) with false by (symmetry; apply Z.leb_gt; lia).
  rewrite ?andb_false_r. done.
Qed.

Definition all_visible (s : string) : Prop := Forall (fun a => visible a = true) (String.list_ascii_of_string s).

Lemma TrimSpace_visible s : all_visible s -> TrimSpace s = s.
Proof.
  unfold all_visible, TrimSpace. rewrite <- (String.string_of_list_ascii_of_string s) at 3.
  generalize (String.list_ascii_of_string s) as l. intros l H. f_equal.
  assert (Ht : forall is2 is3 l, Forall (fun a => visible a = true) l ->
    (forall a b c, visible a = true -> is2 a b = false /\ is3 a b c = false) -> trim is2 is3 l = l).
  { clear. intros is2 is3 l Hl Hs. apply trim_fixed. destruct l as [|a l]; [done|].
    apply Forall_cons in Hl as [Ha _]. destruct (visible_no_space a a a Ha) as (H1 & _).
    destruct l as [|b l]; cbn; rewrite H1; [done|]. destruct l as [|c l].
    - by destruct (Hs a b b Ha) as [-> _].
    - by destruct (Hs a b c Ha) as [-> ->]. }
  unfold trimLeft. rewrite Ht; [|done|intros a b c Ha; by destruct (visible_no_space a b c Ha) as (_ & -> & -> & _)].
  unfold trimRight. rewrite Ht; [by rewrite rev_involutive|by apply Forall_rev|].
  intros a b c Ha. by destruct (visible_no_space a b c Ha) as (_ & _ & _ & -> & ->).
Qed.

Lemma list_ascii_app s t :
  String.list_ascii_of_string (s +:+ t) = (String.list_ascii_of_string s ++ String.list_ascii_of_string t)%list.
Proof. induction s as [|a s IH]; [done|]. exact (f_equal (cons a) IH). Qed.
Lemma all_visible_app s t : all_visible s -> all_visible t -> all_visible (s +:+ t).
Proof. intros Hs Ht. unfold all_visible in *. rewrite (list_ascii_app s t). by apply Forall_app_2. Qed.

Lemma hex_digit_visible z : visible (hex_digit (z mod 16)) = true.
Proof.
  assert (Hall : Forall (fun d => visible (hex_digit d) = true) (seqZ 0 16)) by (vm_compute; repeat constructor).
  rewrite Forall_forall in Hall. apply Hall, elem_of_seqZ. pose proof (Z.mod_pos_bound z 16). lia.
Qed.
Lemma hex_word_visible n z : all_visible (hex_word n z).
Proof.
  revert z. induction n as [|n IH]; intros z; [constructor|]. cbn. apply all_visible_app; [apply IH|].
  constructor; [apply hex_digit_visible|constructor].
Qed.

Lemma sha256_visible raw : all_visible (sha256Digest raw).
Proof.
  unfold sha256Digest. apply all_visible_app; [repeat constructor|].
  induction (SHA256.Sum256 _) as [|w [|w' ws] IH]; [constructor|apply hex_word_visible|].
  change (all_visible (hex_word 8 w +:+ "" +:+ String.concat "" (hex_word 8 <$> w' :: ws))).
  apply all_visible_app; [apply hex_word_visible|exact IH].
Qed.
Lemma sha256_trimmed raw : TrimSpace (sha256Digest raw) = sha256Digest raw.
Proof. apply TrimSpace_visible, sha256_visible. Qed.
Lemma sha256_prefixed raw : HasPrefix (sha256Digest raw) sha256_prefix = true.
Proof.
  unfold sha256Digest. generalize (String.concat "" (hex_word 8 <$> SHA256.Sum256 (bytes_of_string raw))).
  intros t. by destruct t.
Qed.

Lemma round_length st kw : length (SHA256.round st kw) = length st.
Proof. unfold SHA256.round. by repeat case_match. Qed.
Lemma rounds_length kws st : length (fold_left SHA256.round kws st) = length st.
Proof. revert st. induction kws as [|kw kws IH]; intros st; [done|]. cbn. by rewrite IH, round_length. Qed.
Lemma blocks_length fuel ws st : length (SHA256.blocks fuel ws st) = length st.
Proof.
  revert ws st. induction fuel as [|n IH]; intros ws st; [done|]. cbn. case_match; [done|].
  rewrite IH. unfold SHA256.compress. rewrite length_zip_with, rounds_length. lia.
Qed.
Lemma len_app s t : len (s +:+ t) = len s + len t.
Proof.
  unfold len. rewrite <- Nat2Z.inj_add. f_equal. induction s as [|a s IH]; [done|]. exact (f_equal S IH).
Qed.
Lemma hex_word_length n z : len (hex_word n z) = Z.of_nat n.
Proof. revert z. induction n as [|n IH]; intros z; [done|]. cbn [hex_word]. rewrite len_app, IH. unfold len. cbn [String.length]. lia. Qed.
Lemma hex_words_length ws : len (String.concat "" (hex_word 8 <$> ws)) = 8 * Z.of_nat (length ws).
Proof.
  induction ws as [|w [|w' ws] IH]; [done|rewrite fmap_cons; cbn [String.concat]; apply hex_word_length|].
  change (String.concat "" (hex_word 8 <$> w :: w' :: ws))
    with (hex_word 8 w +:+ "" +:+ String.concat "" (hex_word 8 <$> w' :: ws)).
  rewrite !len_app, hex_word_length, IH. cbn [length]. change (len "") with 0. lia.
Qed.
Lemma sha256_length raw : len (sha256Digest raw) = 71.
Proof.
  unfold sha256Digest, SHA256.Sum256. rewrite len_app, hex_words_length, blocks_length. reflexivity.
Qed.
