(* ===== verification/Encoding.v ===== *)
(** * Text encodings of the Go standard library

    [json.Valid] of [encoding/json], written as the library writes it: a
    scanner that consumes one byte at a time with a stack of enclosing objects
    and arrays; and [StdEncoding.DecodeString] of [encoding/base64].  JSON objects of
    strings, as the encoder of [Digest] writes them, determine their entries. *)
From S2P Require Import Prelude GoStrings Digest.
From Stdlib Require Import Ascii.

Module JSON.

(** what the scanner is inside of *)
Inductive parseState : Type :=
| parseObjectKey
| parseObjectValue
| parseArrayValue.

(** the function that handles the next byte *)
Inductive stepState : Type :=
| BeginValueOrEmpty | BeginValue | BeginStringOrEmpty | BeginString | EndValue | EndTop
| InString | InStringEsc | InStringEscU | InStringEscU1 | InStringEscU12 | InStringEscU123
| Neg | State1 | State0 | Dot | Dot0 | StateE | StateESign | StateE0
| Lit (rest : list ascii).

Record scanner := mkScanner { sc_step : stepState; sc_stack : list parseState }.

Definition maxNestingDepth : Z := 10000.

Definition isSpace (c : ascii) : bool :=
  let b := byte_of c in (b =? 32) || (b =? 9) || (b =? 13) || (b =? 10).
Definition isDigit (c : ascii) : bool := in_range 48 57 c.

Definition goto (s : scanner) (st : stepState) : option scanner := Some (mkScanner st (sc_stack s)).

Definition pushParseState (s : scanner) (st : stepState) (p : parseState) : option scanner :=
  if Z.of_nat (length (sc_stack s)) <? maxNestingDepth then Some (mkScanner st (p :: sc_stack s)) else None.

Definition popParseState (rest : list parseState) : option scanner :=
  Some (mkScanner (match rest with [] => EndTop | _ => EndValue end) rest).

Definition stateEndTop (s : scanner) (c : ascii) : option scanner :=
  if isSpace c then goto s EndTop else None.

Definition stateEndValue (s : scanner) (c : ascii) : option scanner :=
  match sc_stack s with
  | [] => stateEndTop s c
  | p :: rest =>
      if isSpace c then goto s EndValue else
      match p with
      | parseObjectKey =>
          if byte_of c =? 58 then Some (mkScanner BeginValue (parseObjectValue :: rest)) else None
      | parseObjectValue =>
          if byte_of c =? 44 then Some (mkScanner BeginString (parseObjectKey :: rest))
          else if byte_of c =? 125 then popParseState rest else None
      | parseArrayValue =>
          if byte_of c =? 44 then goto s BeginValue
          else if byte_of c =? 93 then popParseState rest else None
      end
  end.

Definition stateBeginValue (s : scanner) (c : ascii) : option scanner :=
  let b := byte_of c in
  if isSpace c then Some s
  else if b =? 123 then pushParseState s BeginStringOrEmpty parseObjectKey
  else if b =? 91 then pushParseState s BeginValueOrEmpty parseArrayValue
  else if b =? 34 then goto s InString
  else if b =? 45 then goto s Neg
  else if b =? 48 then goto s State0
  else if b =? 116 then goto s (Lit ["r"; "u"; "e"]%char)
  else if b =? 102 then goto s (Lit ["a"; "l"; "s"; "e"]%char)
  else if b =? 110 then goto s (Lit ["u"; "l"; "l"]%char)
  else if in_range 49 57 c then goto s State1
  else None.

Definition stateBeginString (s : scanner) (c : ascii) : option scanner :=
  if isSpace c then Some s else if byte_of c =? 34 then goto s InString else None.

Definition state0 (s : scanner) (c : ascii) : option scanner :=
  let b := byte_of c in
  if b =? 46 then goto s Dot
  else if (b =? 101) || (b =? 69) then goto s StateE
  else stateEndValue s c.

Definition stateESign (s : scanner) (c : ascii) : option scanner :=
  if isDigit c then goto s StateE0 else None.

Definition hexStep (s : scanner) (c : ascii) (next : stepState) : option scanner :=
  if is_hex c then goto s next else None.

(** one byte; [None] is the library's scanError *)
Definition step (s : scanner) (c : ascii) : option scanner :=
  let b := byte_of c in
  match sc_step s with
  | BeginValueOrEmpty =>
      if isSpace c then Some s else if b =? 93 then stateEndValue s c else stateBeginValue s c
  | BeginValue => stateBeginValue s c
  | BeginStringOrEmpty =>
      if isSpace c then Some s
      else if b =? 125
           then stateEndValue (mkScanner (sc_step s) (parseObjectValue :: tail (sc_stack s))) c
      else stateBeginString s c
  | BeginString => stateBeginString s c
  | EndValue => stateEndValue s c
  | EndTop => stateEndTop s c
  | InString =>
      if b =? 34 then goto s EndValue
      else if b =? 92 then goto s InStringEsc
      else if b <? 32 then None else Some s
  | InStringEsc =>
      if (b =? 98) || (b =? 102) || (b =? 110) || (b =? 114) || (b =? 116) || (b =? 92) || (b =? 47) || (b =? 34)
      then goto s InString
      else if b =? 117 then goto s InStringEscU else None
  | InStringEscU => hexStep s c InStringEscU1
  | InStringEscU1 => hexStep s c InStringEscU12
  | InStringEscU12 => hexStep s c InStringEscU123
  | InStringEscU123 => hexStep s c InString
  | Neg => if b =? 48 then goto s State0 else if in_range 49 57 c then goto s State1 else None
  | State1 => if isDigit c then goto s State1 else state0 s c
  | State0 => state0 s c
  | Dot => if isDigit c then goto s Dot0 else None
  | Dot0 =>
      if isDigit c then Some s
      else if (b =? 101) || (b =? 69) then goto s StateE else stateEndValue s c
  | StateE => if (b =? 43) || (b =? 45) then goto s StateESign else stateESign s c
  | StateESign => stateESign s c
  | StateE0 => if isDigit c then Some s else stateEndValue s c
  | Lit [] => stateEndValue s c
  | Lit (a :: rest) =>
      if bool_decide (a = c) then goto s (match rest with [] => EndValue | _ => Lit rest end) else None
  end.

Fixpoint scan (s : scanner) (data : list ascii) : option scanner :=
  match data with
  | [] => Some s
  | c :: rest => match step s c with Some s' => scan s' rest | None => None end
  end.

Definition atEndTop (s : scanner) : bool := match sc_step s with EndTop => true | _ => false end.

(** [scan.eof()]: a value that only a following byte would end is complete *)
Definition eof (s : scanner) : bool :=
  atEndTop s || match step s " "%char with Some s' => atEndTop s' | None => false end.

(** [json.Valid] *)
Definition Valid (data : string) : bool :=
  match scan (mkScanner BeginValue []) (String.list_ascii_of_string data) with
  | Some s => eof s
  | None => false
  end.

End JSON.

Definition dquote (s : string) : string := quote +:+ s +:+ quote.

Example json_valid_documents :
  forallb JSON.Valid
    [" {} "; "[]"; "-0.5e+10"; "0"; "true"; dquote "a"; "[1, 2 ,[null,false]]";
     "{" +:+ dquote "a" +:+ " : [ {" +:+ dquote "b" +:+ ":" +:+ dquote "" +:+ "} ] }"] = true.
Proof. vm_compute. reflexivity. Qed.
Example json_invalid_documents :
  forallb (fun d => negb (JSON.Valid d))
    [""; " "; "{"; "[1,]"; "01"; "1."; "+1"; "tru"; "truex"; "nul l"; "{} {}"; "]"; "{" +:+ dquote "a" +:+ "}"; "1e"] = true.
Proof. vm_compute. reflexivity. Qed.

(** ** encoding/base64, standard alphabet with padding *)

Definition base64Value (a : ascii) : option Z :=
  let b := byte_of a in
  if in_range 65 90 a then Some (b - 65)
  else if in_range 97 122 a then Some (b - 71)
  else if in_range 48 57 a then Some (b + 4)
  else if b =? 43 then Some 62
  else if b =? 47 then Some 63
  else None.

Definition byteOf (z : Z) : ascii := ascii_of_N (Z.to_N (z mod 256)).
Definition isPad (a : ascii) : bool := byte_of a =? 61.

Fixpoint base64Quanta (s : list ascii) : option (list ascii) :=
  match s with
  | [] => Some []
  | a :: b :: c :: d :: rest =>
      match base64Value a, base64Value b with
      | Some x, Some y =>
          match base64Value c with
          | None =>
              if isPad c && isPad d && (match rest with [] => true | _ => false end)
              then Some [byteOf (x * 4 + y / 16)] else None
          | Some z =>
              match base64Value d with
              | None =>
                  if isPad d && (match rest with [] => true | _ => false end)
                  then Some [byteOf (x * 4 + y / 16); byteOf (y * 16 + z / 4)] else None
              | Some w =>
                  match base64Quanta rest with
                  | Some out => Some (byteOf (x * 4 + y / 16) :: byteOf (y * 16 + z / 4) :: byteOf (z * 64 + w) :: out)
                  | None => None
                  end
              end
          end
      | _, _ => None
      end
  | _ => None
  end.

(** line breaks are skipped anywhere *)
Definition base64Decode (s : string) : option string :=
  option_map String.string_of_list_ascii
    (base64Quanta (List.filter (fun a => negb ((byte_of a =? 10) || (byte_of a =? 13)))
                     (String.list_ascii_of_string s))).

Example base64_words :
  base64Decode "Zm9vYmFy" = Some "foobar" /\ base64Decode "Zm9vYmE=" = Some "fooba" /\
  base64Decode "Zm9vYg==" = Some "foob" /\ base64Decode "" = Some "" /\
  base64Decode "Zm9vYg" = None /\ base64Decode "Zm9=YmFy" = None /\ base64Decode "Zg==Zg==" = None /\
  base64Decode "Z" = None.
Proof. vm_compute. done. Qed.

(** ** JSON strings can be read back

    The encoder of [Digest] is for valid UTF-8, so nothing is replaced and what it
    wrote tells which strings it was given. *)

Definition closing_quote : ascii := ascii_of_N 34.
Definition backslash : ascii := ascii_of_N 92.
Definition hex_value (c : ascii) : Z := if byte_of c <? 58 then byte_of c - 48 else byte_of c - 87.

(** what a four-digit escape of the encoder stands for *)
Definition unescaped (h1 h3 h4 : ascii) : list ascii :=
  if Ascii.eqb h1 "2"%char then [ascii_of_N 226; ascii_of_N 128; ascii_of_N (Z.to_N (160 + hex_value h4))]
  else [ascii_of_N (Z.to_N (16 * hex_value h3 + hex_value h4))].
Definition unescape (e : ascii) : ascii :=
  match e with
  | "b"%char => ascii_of_N 8 | "f"%char => ascii_of_N 12 | "n"%char => ascii_of_N 10
  | "r"%char => ascii_of_N 13 | "t"%char => ascii_of_N 9 | _ => e
  end.

(** the characters up to the closing quote, and what follows it *)
Fixpoint json_read (t : string) : option (list ascii * string) :=
  match t with
  | String.EmptyString => None
  | String.String c t1 =>
      if Ascii.eqb c closing_quote then Some ([], t1)
      else if Ascii.eqb c backslash then
        match t1 with
        | String.String e t2 =>
            if Ascii.eqb e "u"%char then
              match t2 with
              | String.String h1 (String.String h2 (String.String h3 (String.String h4 t3))) =>
                  match json_read t3 with Some (s, r) => Some ((unescaped h1 h3 h4 ++ s)%list, r) | None => None end
              | _ => None
              end
            else match json_read t2 with Some (s, r) => Some (unescape e :: s, r) | None => None end
        | _ => None
        end
      else match json_read t1 with Some (s, r) => Some (c :: s, r) | None => None end
  end.

Definition read_more (s : list ascii) (x : option (list ascii * string)) : option (list ascii * string) :=
  match x with Some (s1, r) => Some ((s ++ s1)%list, r) | None => None end.

Lemma read_escape a t : json_read (json_escape a +:+ t) = read_more [a] (json_read t).
Proof. destruct a as [[] [] [] [] [] [] [] []]; reflexivity. Qed.

Lemma ascii_byte a n : (n < 256)%N -> byte_of a = Z.of_N n -> a = ascii_of_N n.
Proof. intros Hn H. unfold byte_of in H. apply N2Z.inj in H. by rewrite <- H, ascii_N_embedding. Qed.

Lemma read_separator c t :
  in_range 168 169 c = true ->
  json_read (String.String (ascii_of_N 92) "u202" +:+ hex_word 1 (byte_of c - 160) +:+ t) =
    read_more [ascii_of_N 226; ascii_of_N 128; c] (json_read t).
Proof.
  unfold in_range. intros H. apply andb_true_iff in H as [H1 H2]. apply Z.leb_le in H1, H2.
  assert (byte_of c = Z.of_N 168 \/ byte_of c = Z.of_N 169) as [E|E] by lia; apply ascii_byte in E as ->; reflexivity.
Qed.

Lemma string_app_assoc (a b c : string) : (a +:+ b) +:+ c = a +:+ (b +:+ c).
Proof. induction a as [|x a IH]; [done|]. exact (f_equal (String.String x) IH). Qed.

Lemma read_chars n : forall s t, (length s < n)%nat -> json_read (json_chars s +:+ quote +:+ t) = Some (s, t).
Proof.
  induction n as [|n IH]; intros s t Hn; [lia|]. destruct s as [|a s1]; [reflexivity|]. cbn [length] in Hn.
  assert (H1 : json_read ((json_escape a +:+ json_chars s1) +:+ quote +:+ t) = Some (a :: s1, t)).
  { rewrite string_app_assoc, read_escape, IH by lia. done. }
  destruct s1 as [|b [|c s3]]; [exact H1|exact H1|]. cbn [json_chars].
  destruct ((byte_of a =? 226) && (byte_of b =? 128) && in_range 168 169 c) eqn:E; [|exact H1].
  apply andb_true_iff in E as [E Ec]. apply andb_true_iff in E as [Ea Eb]. apply Z.eqb_eq in Ea, Eb.
  apply (ascii_byte a 226) in Ea as ->; [|done]. apply (ascii_byte b 128) in Eb as ->; [|done].
  rewrite !string_app_assoc, read_separator by done. cbn [length] in Hn. rewrite IH by lia. done.
Qed.

(** a JSON string ends where it ends, and says what was encoded *)
Lemma json_string_prefix x y t u : json_string x +:+ t = json_string y +:+ u -> x = y /\ t = u.
Proof.
  unfold json_string. rewrite !string_app_assoc. intros H. apply (inj (String.append quote)) in H.
  pose proof (read_chars _ (String.list_ascii_of_string x) t (Nat.lt_succ_diag_r _)) as Hx.
  rewrite H, (read_chars _ (String.list_ascii_of_string y) u (Nat.lt_succ_diag_r _)) in Hx. injection Hx as E ->.
  split; [|done]. by rewrite <- (String.string_of_list_ascii_of_string x), <- E, String.string_of_list_ascii_of_string.
Qed.

(** objects whose values are strings *)
Definition json_entry (kv : string * string) : string * string := (kv.1, json_string kv.2).

Lemma json_entries_inj l l' :
  String.concat "," ((fun kv => json_string kv.1 +:+ ":" +:+ kv.2) <$> (json_entry <$> l)) +:+ "}" =
  String.concat "," ((fun kv => json_string kv.1 +:+ ":" +:+ kv.2) <$> (json_entry <$> l')) +:+ "}" -> l = l'.
Proof.
  revert l'. induction l as [|[k v] l IH]; intros [|[k' v'] l'].
  - done.
  - destruct l'; discriminate.
  - destruct l; discriminate.
  - assert (Hc : forall kv (l : list (string * string)), exists rest,
      String.concat "," ((fun kv => json_string kv.1 +:+ ":" +:+ kv.2) <$> (json_entry <$> kv :: l)) +:+ "}" =
        json_string kv.1 +:+ (":" +:+ (json_string kv.2 +:+ rest)) /\
      rest = match l with [] => "}" | _ => "," +:+ (String.concat "," ((fun kv => json_string kv.1 +:+ ":" +:+ kv.2) <$> (json_entry <$> l)) +:+ "}") end).
    { intros kv [|kv2 l2]; eexists; split; try reflexivity; cbn [fmap list_fmap String.concat json_entry fst snd];
        by rewrite !string_app_assoc. }
    destruct (Hc (k, v) l) as (r & -> & Er). destruct (Hc (k', v') l') as (r' & -> & Er'). cbn [fst snd].
    intros H. apply json_string_prefix in H as [-> H]. apply (inj (String.append ":")) in H.
    apply json_string_prefix in H as [-> H]. f_equal. rewrite Er, Er' in H.
    destruct l as [|kv l], l' as [|kv' l']; try discriminate H; [done|].
    apply (inj (String.append ",")) in H. by apply IH.
Qed.

Lemma json_object_inj l l' : json_object (json_entry <$> l) = json_object (json_entry <$> l') -> l = l'.
Proof. unfold json_object. intros H. apply (inj (String.append "{")) in H. by apply json_entries_inj. Qed.
