(* ===== verification/Model.v ===== *)
(** * The data model

    The records and enumerations of [internal/controlplane/model.go] that the
    modelled stores keep.  A Go struct is a record with all its fields (the
    prefix of a field name is the record's, because Rocq has one name space);
    an embedded [ResourceMeta] is the field [.._Meta]; [*time.Time] is
    [option Time]; [int] and [int64] are [Z].  Enumerations that only the store
    writes are inductive types; enumerations that callers send as text and the
    store validates stay strings. *)
From S2P Require Import Prelude GoStrings.

(** Nanoseconds since the zero instant of [time.Time]; [IsZero] is [t = 0]. *)
Abbreviation Time := Z (only parsing).
(** [[]byte] payloads are byte strings *)
Abbreviation Bytes := string (only parsing).

(** [ResourceMeta] *)
Record ResourceMeta := mkResourceMeta {
  rm_ID : string;
  rm_Revision : Z;
  rm_CreatedAt : Time;
  rm_UpdatedAt : Time;
}.
#[export] Instance eta_ResourceMeta : Eta ResourceMeta := fun r =>
  mkResourceMeta
    (rm_ID r) (rm_Revision r) (rm_CreatedAt r) (rm_UpdatedAt r).

(** [v.Revision++; v.UpdatedAt = now] *)
Definition bump (m : ResourceMeta) (now : Time) : ResourceMeta :=
  mkResourceMeta (rm_ID m) (inc64 (rm_Revision m)) (rm_CreatedAt m) now.
(** [ResourceMeta{ID: id, Revision: 1, CreatedAt: now, UpdatedAt: now}] *)
Definition newMeta (id : string) (now : Time) : ResourceMeta :=
  mkResourceMeta id 1 now now.

(** ** Organizations and projects *)

(** [Organization] *)
Record Organization := mkOrganization {
  org_Meta : ResourceMeta;
  org_Name : string;
  org_DisplayName : string;
}.
#[export] Instance eta_Organization : Eta Organization := fun r =>
  mkOrganization
    (org_Meta r) (org_Name r) (org_DisplayName r).
#[export] Instance set_org_Meta : Setter org_Meta := ltac:(derive_setter).
#[export] Instance set_org_Name : Setter org_Name := ltac:(derive_setter).
#[export] Instance set_org_DisplayName : Setter org_DisplayName := ltac:(derive_setter).

(** [Project] *)
Record Project := mkProject {
  prj_Meta : ResourceMeta;
  prj_OrganizationID : string;
  prj_Name : string;
  prj_DisplayName : string;
}.
#[export] Instance eta_Project : Eta Project := fun r =>
  mkProject
    (prj_Meta r) (prj_OrganizationID r) (prj_Name r) (prj_DisplayName r).
#[export] Instance set_prj_Meta : Setter prj_Meta := ltac:(derive_setter).
#[export] Instance set_prj_OrganizationID : Setter prj_OrganizationID := ltac:(derive_setter).
#[export] Instance set_prj_Name : Setter prj_Name := ltac:(derive_setter).
#[export] Instance set_prj_DisplayName : Setter prj_DisplayName := ltac:(derive_setter).

(** [OrganizationMembershipRole], sent by callers *)
Abbreviation OrganizationMembershipRole := string (only parsing).
Definition OrganizationAdmin : OrganizationMembershipRole := "organization-admin".
Definition OrganizationOperator : OrganizationMembershipRole := "organization-operator".
Definition OrganizationViewer : OrganizationMembershipRole := "organization-viewer".

(** [OrganizationMembershipState] *)
Inductive OrganizationMembershipState : Type :=
| OrganizationMembershipActive
| OrganizationMembershipRevoked.
#[export] Instance OrganizationMembershipState_eq_dec : EqDecision OrganizationMembershipState.
Proof. solve_decision. Defined.

(** [OrganizationMembership] *)
Record OrganizationMembership := mkOrganizationMembership {
  mem_Meta : ResourceMeta;
  mem_OrganizationID : string;
  mem_Subject : string;
  mem_Role : OrganizationMembershipRole;
  mem_State : OrganizationMembershipState;
  mem_GrantedBy : string;
  mem_RevokedBy : string;
  mem_RevokedAt : option Time;
}.
#[export] Instance eta_OrganizationMembership : Eta OrganizationMembership := fun r =>
  mkOrganizationMembership
    (mem_Meta r) (mem_OrganizationID r) (mem_Subject r) (mem_Role r) (mem_State r)
    (mem_GrantedBy r) (mem_RevokedBy r) (mem_RevokedAt r).
#[export] Instance set_mem_Meta : Setter mem_Meta := ltac:(derive_setter).
#[export] Instance set_mem_OrganizationID : Setter mem_OrganizationID := ltac:(derive_setter).
#[export] Instance set_mem_Subject : Setter mem_Subject := ltac:(derive_setter).
#[export] Instance set_mem_Role : Setter mem_Role := ltac:(derive_setter).
#[export] Instance set_mem_State : Setter mem_State := ltac:(derive_setter).
#[export] Instance set_mem_GrantedBy : Setter mem_GrantedBy := ltac:(derive_setter).
#[export] Instance set_mem_RevokedBy : Setter mem_RevokedBy := ltac:(derive_setter).
#[export] Instance set_mem_RevokedAt : Setter mem_RevokedAt := ltac:(derive_setter).

(** ** Operations *)

(** [OperationState] *)
Inductive OperationState : Type :=
| OperationDraft
| OperationPlanning
| OperationPlanFailed
| OperationAwaitingApproval
| OperationApproved
| OperationQueued
| OperationRunning
| OperationRetryWait
| OperationCancelRequested
| OperationVerifying
| OperationSucceeded
| OperationFailed
| OperationRollingBack
| OperationRolledBack
| OperationRollbackFailed
| OperationNeedsOperator
| OperationCancelled.
#[export] Instance OperationState_eq_dec : EqDecision OperationState.
Proof. solve_decision. Defined.
Definition OperationState_string (v : OperationState) : string :=
  match v with
  | OperationDraft => "DRAFT"
  | OperationPlanning => "PLANNING"
  | OperationPlanFailed => "PLAN_FAILED"
  | OperationAwaitingApproval => "AWAITING_APPROVAL"
  | OperationApproved => "APPROVED"
  | OperationQueued => "QUEUED"
  | OperationRunning => "RUNNING"
  | OperationRetryWait => "RETRY_WAIT"
  | OperationCancelRequested => "CANCEL_REQUESTED"
  | OperationVerifying => "VERIFYING"
  | OperationSucceeded => "SUCCEEDED"
  | OperationFailed => "FAILED"
  | OperationRollingBack => "ROLLING_BACK"
  | OperationRolledBack => "ROLLED_BACK"
  | OperationRollbackFailed => "ROLLBACK_FAILED"
  | OperationNeedsOperator => "NEEDS_OPERATOR"
  | OperationCancelled => "CANCELLED"
  end.

(** [OperationClass] *)
Abbreviation OperationClass := string (only parsing).
Definition OperationClassReadOnly : OperationClass := "READ_ONLY".
Definition OperationClassMutating : OperationClass := "MUTATING".
Definition OperationClassDestructive : OperationClass := "DESTRUCTIVE".

(** [OperationFailureClass] *)
Abbreviation OperationFailureClass := string (only parsing).
Definition OperationFailureTransientNetwork : OperationFailureClass := "TRANSIENT_NETWORK".
Definition OperationFailureRateLimited : OperationFailureClass := "RATE_LIMITED".
Definition OperationFailureDependencyUnavailable : OperationFailureClass := "DEPENDENCY_UNAVAILABLE".
Definition OperationFailureConflict : OperationFailureClass := "CONFLICT".
Definition OperationFailurePermanent : OperationFailureClass := "PERMANENT".
Definition OperationFailureUnknown : OperationFailureClass := "UNKNOWN".

(** [OperationRetryPolicy] *)
Record OperationRetryPolicy := mkOperationRetryPolicy {
  rp_MaxAttempts : Z;
  rp_InitialBackoffSeconds : Z;
  rp_MaxBackoffSeconds : Z;
  rp_RetryableClasses : list OperationFailureClass;
}.

(** [OperationFailureReport] *)
Record OperationFailureReport := mkOperationFailureReport {
  fr_Class : OperationFailureClass;
  fr_Code : string;
  fr_Message : string;
  fr_RetryAfterSeconds : Z;
}.

(** [Operation] *)
Record Operation := mkOperation {
  op_Meta : ResourceMeta;
  op_ProjectID : string;
  op_Kind : string;
  op_TargetRef : string;
  op_DesiredRevision : string;
  op_State : OperationState;
  op_Risk : string;
  op_Class : OperationClass;
  op_RetryPolicy : OperationRetryPolicy;
  op_Attempt : Z;
  op_NextAttemptAt : option Time;
  op_LastFailureClass : OperationFailureClass;
  op_RetryExhausted : bool;
  op_RecoveryCheckpointID : string;
  op_RecoveryEvidenceDigest : string;
  op_RecoveryInventoryDigest : string;
  op_CancelRequestedBy : string;
  op_CancelRequestedAt : option Time;
  op_CancelReason : string;
  op_IdempotencyKey : string;
  op_RequestDigest : string;
  op_ActorID : string;
  op_LeaseOwner : string;
  op_LeaseExpiresAt : option Time;
  op_FenceToken : Z;
  op_LastError : string;
  op_CompensationPlanDigest : string;
  op_CompensationStepCount : Z;
  op_CompensationCursor : Z;
  op_CompensationStartedAt : option Time;
  op_CompensationFinishedAt : option Time;
  op_CompensationFailureStep : string;
}.
#[export] Instance eta_Operation : Eta Operation := fun r =>
  mkOperation
    (op_Meta r) (op_ProjectID r) (op_Kind r) (op_TargetRef r) (op_DesiredRevision r) (op_State
    r) (op_Risk r) (op_Class r) (op_RetryPolicy r) (op_Attempt r) (op_NextAttemptAt r)
    (op_LastFailureClass r) (op_RetryExhausted r) (op_RecoveryCheckpointID r)
    (op_RecoveryEvidenceDigest r) (op_RecoveryInventoryDigest r) (op_CancelRequestedBy r)
    (op_CancelRequestedAt r) (op_CancelReason r) (op_IdempotencyKey r) (op_RequestDigest r)
    (op_ActorID r) (op_LeaseOwner r) (op_LeaseExpiresAt r) (op_FenceToken r) (op_LastError r)
    (op_CompensationPlanDigest r) (op_CompensationStepCount r) (op_CompensationCursor r)
    (op_CompensationStartedAt r) (op_CompensationFinishedAt r) (op_CompensationFailureStep r).
#[export] Instance set_op_Meta : Setter op_Meta := ltac:(derive_setter).
#[export] Instance set_op_State : Setter op_State := ltac:(derive_setter).
#[export] Instance set_op_Attempt : Setter op_Attempt := ltac:(derive_setter).
#[export] Instance set_op_NextAttemptAt : Setter op_NextAttemptAt := ltac:(derive_setter).
#[export] Instance set_op_LastFailureClass : Setter op_LastFailureClass := ltac:(derive_setter).
#[export] Instance set_op_RetryExhausted : Setter op_RetryExhausted := ltac:(derive_setter).
#[export] Instance set_op_RecoveryEvidenceDigest : Setter op_RecoveryEvidenceDigest := ltac:(derive_setter).
#[export] Instance set_op_RecoveryInventoryDigest : Setter op_RecoveryInventoryDigest := ltac:(derive_setter).
#[export] Instance set_op_CancelRequestedBy : Setter op_CancelRequestedBy := ltac:(derive_setter).
#[export] Instance set_op_CancelRequestedAt : Setter op_CancelRequestedAt := ltac:(derive_setter).
#[export] Instance set_op_CancelReason : Setter op_CancelReason := ltac:(derive_setter).
#[export] Instance set_op_LeaseOwner : Setter op_LeaseOwner := ltac:(derive_setter).
#[export] Instance set_op_LeaseExpiresAt : Setter op_LeaseExpiresAt := ltac:(derive_setter).
#[export] Instance set_op_FenceToken : Setter op_FenceToken := ltac:(derive_setter).
#[export] Instance set_op_LastError : Setter op_LastError := ltac:(derive_setter).
#[export] Instance set_op_CompensationPlanDigest : Setter op_CompensationPlanDigest := ltac:(derive_setter).
#[export] Instance set_op_CompensationStepCount : Setter op_CompensationStepCount := ltac:(derive_setter).
#[export] Instance set_op_CompensationCursor : Setter op_CompensationCursor := ltac:(derive_setter).
#[export] Instance set_op_CompensationStartedAt : Setter op_CompensationStartedAt := ltac:(derive_setter).
#[export] Instance set_op_CompensationFinishedAt : Setter op_CompensationFinishedAt := ltac:(derive_setter).
#[export] Instance set_op_CompensationFailureStep : Setter op_CompensationFailureStep := ltac:(derive_setter).

Abbreviation op_ID op := (rm_ID (op_Meta op)).
Abbreviation op_Revision op := (rm_Revision (op_Meta op)).

(** [OperationRequest] *)
Record OperationRequest := mkOperationRequest {
  rq_ProjectID : string;
  rq_Kind : string;
  rq_TargetRef : string;
  rq_DesiredRevision : string;
  rq_Risk : string;
  rq_Class : OperationClass;
  rq_RecoveryCheckpointID : string;
}.
#[export] Instance eta_OperationRequest : Eta OperationRequest := fun r =>
  mkOperationRequest
    (rq_ProjectID r) (rq_Kind r) (rq_TargetRef r) (rq_DesiredRevision r) (rq_Risk r) (rq_Class
    r) (rq_RecoveryCheckpointID r).
#[export] Instance set_rq_Class : Setter rq_Class := ltac:(derive_setter).

(** [ClaimResult] *)
Record ClaimResult := mkClaimResult {
  cl_OperationID : string;
  cl_LeaseOwner : string;
  cl_LeaseExpiresAt : Time;
  cl_FenceToken : Z;
}.

(** [OperationRequestPayload] of operation_request_payload.go *)
Record OperationRequestPayload := mkOperationRequestPayload {
  pl_OperationID : string;
  pl_PayloadDigest : string;
  pl_MediaType : string;
  pl_Payload : Bytes;
  pl_CreatedAt : Time;
}.

(** [OperationStep] *)
Record OperationStep := mkOperationStep {
  st_Meta : ResourceMeta;
  st_OperationID : string;
  st_StepKey : string;
  st_State : OperationState;
  st_Attempt : Z;
  st_FenceToken : Z;
  st_StartedAt : option Time;
  st_FinishedAt : option Time;
  st_LastError : string;
}.
#[export] Instance eta_OperationStep : Eta OperationStep := fun r =>
  mkOperationStep
    (st_Meta r) (st_OperationID r) (st_StepKey r) (st_State r) (st_Attempt r) (st_FenceToken
    r) (st_StartedAt r) (st_FinishedAt r) (st_LastError r).
#[export] Instance set_st_Meta : Setter st_Meta := ltac:(derive_setter).
#[export] Instance set_st_Attempt : Setter st_Attempt := ltac:(derive_setter).

(** ** Step traces and evidence *)

(** [OperationStepPhase] *)
Abbreviation OperationStepPhase := string (only parsing).
Definition OperationStepPhaseForward : OperationStepPhase := "FORWARD".
Definition OperationStepPhaseCompensation : OperationStepPhase := "COMPENSATION".

(** [OperationStepLogLevel] *)
Abbreviation OperationStepLogLevel := string (only parsing).
Definition OperationStepLogDebug : OperationStepLogLevel := "DEBUG".
Definition OperationStepLogInfo : OperationStepLogLevel := "INFO".
Definition OperationStepLogWarn : OperationStepLogLevel := "WARN".
Definition OperationStepLogError : OperationStepLogLevel := "ERROR".

(** [OperationStepTrace] *)
Record OperationStepTrace := mkOperationStepTrace {
  tr_Meta : ResourceMeta;
  tr_OperationID : string;
  tr_Phase : OperationStepPhase;
  tr_StepKey : string;
  tr_Attempt : Z;
  tr_Sequence : Z;
  tr_TraceKey : string;
  tr_Level : OperationStepLogLevel;
  tr_EventType : string;
  tr_Message : string;
  tr_EvidenceID : string;
  tr_EvidenceDigest : string;
}.

(** [OperationStepTraceInput] *)
Record OperationStepTraceInput := mkOperationStepTraceInput {
  ti_OperationID : string;
  ti_Phase : OperationStepPhase;
  ti_StepKey : string;
  ti_TraceKey : string;
  ti_Level : OperationStepLogLevel;
  ti_EventType : string;
  ti_Message : string;
  ti_EvidenceKind : string;
  ti_MediaType : string;
  ti_Location : string;
  ti_Payload : Bytes;
}.

(** [EvidenceMetadata] *)
Record EvidenceMetadata := mkEvidenceMetadata {
  ev_Meta : ResourceMeta;
  ev_OperationID : string;
  ev_Phase : OperationStepPhase;
  ev_StepKey : string;
  ev_Attempt : Z;
  ev_TraceID : string;
  ev_Kind : string;
  ev_Digest : string;
  ev_MediaType : string;
  ev_Location : string;
  ev_Size : Z;
  ev_HasPayload : bool;
  ev_Sealed : bool;
}.
#[export] Instance eta_EvidenceMetadata : Eta EvidenceMetadata := fun r =>
  mkEvidenceMetadata
    (ev_Meta r) (ev_OperationID r) (ev_Phase r) (ev_StepKey r) (ev_Attempt r) (ev_TraceID r)
    (ev_Kind r) (ev_Digest r) (ev_MediaType r) (ev_Location r) (ev_Size r) (ev_HasPayload r)
    (ev_Sealed r).
#[export] Instance set_ev_Meta : Setter ev_Meta := ltac:(derive_setter).
#[export] Instance set_ev_OperationID : Setter ev_OperationID := ltac:(derive_setter).
#[export] Instance set_ev_Kind : Setter ev_Kind := ltac:(derive_setter).
#[export] Instance set_ev_MediaType : Setter ev_MediaType := ltac:(derive_setter).
#[export] Instance set_ev_Location : Setter ev_Location := ltac:(derive_setter).
#[export] Instance set_ev_Sealed : Setter ev_Sealed := ltac:(derive_setter).

(** ** Compensation *)

(** [CompensationStrategy] *)
Abbreviation CompensationStrategy := string (only parsing).
Definition CompensationNone : CompensationStrategy := "NONE".
Definition CompensationAutomaticRollback : CompensationStrategy := "AUTOMATIC_ROLLBACK".
Definition CompensationRestorePreviousRevision : CompensationStrategy := "RESTORE_PREVIOUS_REVISION".
Definition CompensationPreserveDataRestoreController : CompensationStrategy := "PRESERVE_DATA_RESTORE_CONTROLLER".
Definition CompensationProviderRecovery : CompensationStrategy := "PROVIDER_RECOVERY".
Definition CompensationManualRecovery : CompensationStrategy := "MANUAL_RECOVERY".
Definition CompensationIrreversible : CompensationStrategy := "IRREVERSIBLE".

(** [CompensationStepState] *)
Inductive CompensationStepState : Type :=
| CompensationStepPending
| CompensationStepRunning
| CompensationStepSucceeded
| CompensationStepFailed
| CompensationStepSkipped
| CompensationStepManualRequired.
#[export] Instance CompensationStepState_eq_dec : EqDecision CompensationStepState.
Proof. solve_decision. Defined.
Definition CompensationStepState_string (v : CompensationStepState) : string :=
  match v with
  | CompensationStepPending => "PENDING"
  | CompensationStepRunning => "RUNNING"
  | CompensationStepSucceeded => "SUCCEEDED"
  | CompensationStepFailed => "FAILED"
  | CompensationStepSkipped => "SKIPPED"
  | CompensationStepManualRequired => "MANUAL_REQUIRED"
  end.

(** [CompensationPlanStep] *)
Record CompensationPlanStep := mkCompensationPlanStep {
  ps_StepKey : string;
  ps_ForwardOrder : Z;
  ps_Strategy : CompensationStrategy;
  ps_Action : string;
  ps_InputDigest : string;
  ps_MaxAttempts : Z;
}.
#[export] Instance eta_CompensationPlanStep : Eta CompensationPlanStep := fun r =>
  mkCompensationPlanStep
    (ps_StepKey r) (ps_ForwardOrder r) (ps_Strategy r) (ps_Action r) (ps_InputDigest r)
    (ps_MaxAttempts r).
#[export] Instance set_ps_StepKey : Setter ps_StepKey := ltac:(derive_setter).
#[export] Instance set_ps_Action : Setter ps_Action := ltac:(derive_setter).
#[export] Instance set_ps_InputDigest : Setter ps_InputDigest := ltac:(derive_setter).
#[export] Instance set_ps_MaxAttempts : Setter ps_MaxAttempts := ltac:(derive_setter).

(** [OperationCompensationStep] *)
Record OperationCompensationStep := mkOperationCompensationStep {
  cs_Meta : ResourceMeta;
  cs_OperationID : string;
  cs_StepKey : string;
  cs_ForwardOrder : Z;
  cs_Strategy : CompensationStrategy;
  cs_Action : string;
  cs_InputDigest : string;
  cs_MaxAttempts : Z;
  cs_ForwardCompleted : bool;
  cs_ForwardCompletedAt : option Time;
  cs_State : CompensationStepState;
  cs_Attempt : Z;
  cs_FenceToken : Z;
  cs_StartedAt : option Time;
  cs_FinishedAt : option Time;
  cs_EvidenceDigest : string;
  cs_LastError : string;
}.
#[export] Instance eta_OperationCompensationStep : Eta OperationCompensationStep := fun r =>
  mkOperationCompensationStep
    (cs_Meta r) (cs_OperationID r) (cs_StepKey r) (cs_ForwardOrder r) (cs_Strategy r)
    (cs_Action r) (cs_InputDigest r) (cs_MaxAttempts r) (cs_ForwardCompleted r)
    (cs_ForwardCompletedAt r) (cs_State r) (cs_Attempt r) (cs_FenceToken r) (cs_StartedAt r)
    (cs_FinishedAt r) (cs_EvidenceDigest r) (cs_LastError r).
#[export] Instance set_cs_Meta : Setter cs_Meta := ltac:(derive_setter).
#[export] Instance set_cs_ForwardCompleted : Setter cs_ForwardCompleted := ltac:(derive_setter).
#[export] Instance set_cs_ForwardCompletedAt : Setter cs_ForwardCompletedAt := ltac:(derive_setter).
#[export] Instance set_cs_State : Setter cs_State := ltac:(derive_setter).
#[export] Instance set_cs_Attempt : Setter cs_Attempt := ltac:(derive_setter).
#[export] Instance set_cs_FenceToken : Setter cs_FenceToken := ltac:(derive_setter).
#[export] Instance set_cs_StartedAt : Setter cs_StartedAt := ltac:(derive_setter).
#[export] Instance set_cs_FinishedAt : Setter cs_FinishedAt := ltac:(derive_setter).
#[export] Instance set_cs_EvidenceDigest : Setter cs_EvidenceDigest := ltac:(derive_setter).
#[export] Instance set_cs_LastError : Setter cs_LastError := ltac:(derive_setter).

(** [CompensationStepFailure] *)
Record CompensationStepFailure := mkCompensationStepFailure {
  cf_Message : string;
  cf_Retryable : bool;
}.

(** ** Clusters, certificates, recovery checkpoints *)

(** [ManagedCluster] *)
Record ManagedCluster := mkManagedCluster {
  mc_Meta : ResourceMeta;
  mc_ProjectID : string;
  mc_ImportID : string;
  mc_Name : string;
  mc_DisplayName : string;
  mc_ExternalUID : string;
  mc_ConnectionState : string;
  mc_Distribution : string;
  mc_KubernetesVersion : string;
  mc_AgentVersion : string;
  mc_LastSeenAt : option Time;
  mc_InventoryUpdatedAt : option Time;
  mc_InventoryObservedAt : option Time;
  mc_Labels : gmap string string;
  mc_Capabilities : list string;
  mc_InventoryDigest : string;
  mc_MutationRBACBasisDigest : string;
  mc_MutationRBACIssuedForDigest : string;
  mc_TargetRBACRevocationAcknowledgedDigest : string;
  mc_TargetRBACRevocationAcknowledgedAt : option Time;
  mc_TargetRBACRevocationAcknowledgedBy : string;
  mc_ProviderClusterID : string;
}.
#[export] Instance eta_ManagedCluster : Eta ManagedCluster := fun r =>
  mkManagedCluster
    (mc_Meta r) (mc_ProjectID r) (mc_ImportID r) (mc_Name r) (mc_DisplayName r) (mc_ExternalUID r)
    (mc_ConnectionState r) (mc_Distribution r) (mc_KubernetesVersion r) (mc_AgentVersion r)
    (mc_LastSeenAt r) (mc_InventoryUpdatedAt r) (mc_InventoryObservedAt r) (mc_Labels r)
    (mc_Capabilities r) (mc_InventoryDigest r) (mc_MutationRBACBasisDigest r)
    (mc_MutationRBACIssuedForDigest r) (mc_TargetRBACRevocationAcknowledgedDigest r)
    (mc_TargetRBACRevocationAcknowledgedAt r) (mc_TargetRBACRevocationAcknowledgedBy r)
    (mc_ProviderClusterID r).
#[export] Instance set_mc_Meta : Setter mc_Meta := ltac:(derive_setter).
#[export] Instance set_mc_ConnectionState : Setter mc_ConnectionState := ltac:(derive_setter).
#[export] Instance set_mc_Distribution : Setter mc_Distribution := ltac:(derive_setter).
#[export] Instance set_mc_KubernetesVersion : Setter mc_KubernetesVersion := ltac:(derive_setter).
#[export] Instance set_mc_AgentVersion : Setter mc_AgentVersion := ltac:(derive_setter).
#[export] Instance set_mc_LastSeenAt : Setter mc_LastSeenAt := ltac:(derive_setter).
#[export] Instance set_mc_InventoryUpdatedAt : Setter mc_InventoryUpdatedAt := ltac:(derive_setter).
#[export] Instance set_mc_InventoryObservedAt : Setter mc_InventoryObservedAt := ltac:(derive_setter).
#[export] Instance set_mc_Capabilities : Setter mc_Capabilities := ltac:(derive_setter).
#[export] Instance set_mc_InventoryDigest : Setter mc_InventoryDigest := ltac:(derive_setter).
#[export] Instance set_mc_MutationRBACBasisDigest : Setter mc_MutationRBACBasisDigest := ltac:(derive_setter).
#[export] Instance set_mc_MutationRBACIssuedForDigest : Setter mc_MutationRBACIssuedForDigest := ltac:(derive_setter).
#[export] Instance set_mc_TargetRBACRevocationAcknowledgedDigest : Setter mc_TargetRBACRevocationAcknowledgedDigest := ltac:(derive_setter).
#[export] Instance set_mc_TargetRBACRevocationAcknowledgedAt : Setter mc_TargetRBACRevocationAcknowledgedAt := ltac:(derive_setter).
#[export] Instance set_mc_TargetRBACRevocationAcknowledgedBy : Setter mc_TargetRBACRevocationAcknowledgedBy := ltac:(derive_setter).

(** [AgentCertificateState] *)
Inductive AgentCertificateState : Type :=
| AgentCertificateActive
| AgentCertificateRevoked.
#[export] Instance AgentCertificateState_eq_dec : EqDecision AgentCertificateState.
Proof. solve_decision. Defined.

(** [AgentCertificate] *)
Record AgentCertificate := mkAgentCertificate {
  ac_Meta : ResourceMeta;
  ac_ClusterID : string;
  ac_SerialNumber : string;
  ac_Fingerprint : string;
  ac_Subject : string;
  ac_State : AgentCertificateState;
  ac_NotBefore : Time;
  ac_NotAfter : Time;
  ac_IssuedBy : string;
  ac_RevokedBy : string;
  ac_RevokedAt : option Time;
  ac_ReplacedByID : string;
}.
#[export] Instance eta_AgentCertificate : Eta AgentCertificate := fun r =>
  mkAgentCertificate
    (ac_Meta r) (ac_ClusterID r) (ac_SerialNumber r) (ac_Fingerprint r) (ac_Subject r) (ac_State r)
    (ac_NotBefore r) (ac_NotAfter r) (ac_IssuedBy r) (ac_RevokedBy r) (ac_RevokedAt r)
    (ac_ReplacedByID r).
#[export] Instance set_ac_Meta : Setter ac_Meta := ltac:(derive_setter).
#[export] Instance set_ac_State : Setter ac_State := ltac:(derive_setter).
#[export] Instance set_ac_IssuedBy : Setter ac_IssuedBy := ltac:(derive_setter).
#[export] Instance set_ac_RevokedBy : Setter ac_RevokedBy := ltac:(derive_setter).
#[export] Instance set_ac_RevokedAt : Setter ac_RevokedAt := ltac:(derive_setter).
#[export] Instance set_ac_ReplacedByID : Setter ac_ReplacedByID := ltac:(derive_setter).

(** [ClusterImportState] *)
Inductive ClusterImportState : Type :=
| ClusterImportPendingApproval
| ClusterImportApproved
| ClusterImportClaimed
| ClusterImportExpired
| ClusterImportRevoked.
#[export] Instance ClusterImportState_eq_dec : EqDecision ClusterImportState.
Proof. solve_decision. Defined.

(** [ClusterImport] *)
Record ClusterImport := mkClusterImport {
  ci_Meta : ResourceMeta;
  ci_ProjectID : string;
  ci_Name : string;
  ci_DisplayName : string;
  ci_State : ClusterImportState;
  ci_TokenDigest : string;
  ci_AgentTokenDigest : string;
  ci_AgentServiceAccount : string;
  ci_ExpiresAt : Time;
  ci_ApprovedAt : option Time;
  ci_ClaimedAt : option Time;
  ci_ClusterID : string;
  ci_RequestedBy : string;
  ci_ApprovedBy : string;
}.
#[export] Instance eta_ClusterImport : Eta ClusterImport := fun r =>
  mkClusterImport
    (ci_Meta r) (ci_ProjectID r) (ci_Name r) (ci_DisplayName r) (ci_State r) (ci_TokenDigest r)
    (ci_AgentTokenDigest r) (ci_AgentServiceAccount r) (ci_ExpiresAt r) (ci_ApprovedAt r)
    (ci_ClaimedAt r) (ci_ClusterID r) (ci_RequestedBy r) (ci_ApprovedBy r).
#[export] Instance set_ci_Meta : Setter ci_Meta := ltac:(derive_setter).
#[export] Instance set_ci_Name : Setter ci_Name := ltac:(derive_setter).
#[export] Instance set_ci_DisplayName : Setter ci_DisplayName := ltac:(derive_setter).
#[export] Instance set_ci_State : Setter ci_State := ltac:(derive_setter).
#[export] Instance set_ci_TokenDigest : Setter ci_TokenDigest := ltac:(derive_setter).
#[export] Instance set_ci_AgentTokenDigest : Setter ci_AgentTokenDigest := ltac:(derive_setter).
#[export] Instance set_ci_AgentServiceAccount : Setter ci_AgentServiceAccount := ltac:(derive_setter).
#[export] Instance set_ci_ApprovedAt : Setter ci_ApprovedAt := ltac:(derive_setter).
#[export] Instance set_ci_ClaimedAt : Setter ci_ClaimedAt := ltac:(derive_setter).
#[export] Instance set_ci_ClusterID : Setter ci_ClusterID := ltac:(derive_setter).
#[export] Instance set_ci_RequestedBy : Setter ci_RequestedBy := ltac:(derive_setter).
#[export] Instance set_ci_ApprovedBy : Setter ci_ApprovedBy := ltac:(derive_setter).

(** [RecoveryCheckpointState] *)
Inductive RecoveryCheckpointState : Type :=
| RecoveryCheckpointVerified
| RecoveryCheckpointRevoked.
#[export] Instance RecoveryCheckpointState_eq_dec : EqDecision RecoveryCheckpointState.
Proof. solve_decision. Defined.

(** [RecoveryCheckpoint] *)
Record RecoveryCheckpoint := mkRecoveryCheckpoint {
  rc_Meta : ResourceMeta;
  rc_ProjectID : string;
  rc_ClusterID : string;
  rc_Provider : string;
  rc_Reference : string;
  rc_EvidenceDigest : string;
  rc_InventoryDigest : string;
  rc_CompletedAt : Time;
  rc_ExpiresAt : Time;
  rc_State : RecoveryCheckpointState;
  rc_RequestedBy : string;
  rc_RevokedBy : string;
  rc_RevokedAt : option Time;
}.
#[export] Instance eta_RecoveryCheckpoint : Eta RecoveryCheckpoint := fun r =>
  mkRecoveryCheckpoint
    (rc_Meta r) (rc_ProjectID r) (rc_ClusterID r) (rc_Provider r) (rc_Reference r)
    (rc_EvidenceDigest r) (rc_InventoryDigest r) (rc_CompletedAt r) (rc_ExpiresAt r) (rc_State
    r) (rc_RequestedBy r) (rc_RevokedBy r) (rc_RevokedAt r).
#[export] Instance set_rc_Meta : Setter rc_Meta := ltac:(derive_setter).
#[export] Instance set_rc_ProjectID : Setter rc_ProjectID := ltac:(derive_setter).
#[export] Instance set_rc_ClusterID : Setter rc_ClusterID := ltac:(derive_setter).
#[export] Instance set_rc_Provider : Setter rc_Provider := ltac:(derive_setter).
#[export] Instance set_rc_Reference : Setter rc_Reference := ltac:(derive_setter).
#[export] Instance set_rc_EvidenceDigest : Setter rc_EvidenceDigest := ltac:(derive_setter).
#[export] Instance set_rc_InventoryDigest : Setter rc_InventoryDigest := ltac:(derive_setter).
#[export] Instance set_rc_CompletedAt : Setter rc_CompletedAt := ltac:(derive_setter).
#[export] Instance set_rc_ExpiresAt : Setter rc_ExpiresAt := ltac:(derive_setter).
#[export] Instance set_rc_State : Setter rc_State := ltac:(derive_setter).
#[export] Instance set_rc_RequestedBy : Setter rc_RequestedBy := ltac:(derive_setter).
#[export] Instance set_rc_RevokedBy : Setter rc_RevokedBy := ltac:(derive_setter).
#[export] Instance set_rc_RevokedAt : Setter rc_RevokedAt := ltac:(derive_setter).

(** [FleetGatewaySession] of fleet_gateway_session.go; [State] is text in the source *)
Record FleetGatewaySession := mkFleetGatewaySession {
  gs_Authority : string;
  gs_SessionID : string;
  gs_ClusterID : string;
  gs_ExternalUID : string;
  gs_CertificateID : string;
  gs_CertificateFingerprint : string;
  gs_Epoch : Z;
  gs_State : string;
  gs_GatewayInstanceID : string;
  gs_ConnectedAt : Time;
  gs_LastHeartbeatAt : Time;
  gs_DrainRequestedAt : option Time;
  gs_ClosedAt : option Time;
}.
#[export] Instance eta_FleetGatewaySession : Eta FleetGatewaySession := fun r =>
  mkFleetGatewaySession
    (gs_Authority r) (gs_SessionID r) (gs_ClusterID r) (gs_ExternalUID r) (gs_CertificateID r)
    (gs_CertificateFingerprint r) (gs_Epoch r) (gs_State r) (gs_GatewayInstanceID r)
    (gs_ConnectedAt r) (gs_LastHeartbeatAt r) (gs_DrainRequestedAt r) (gs_ClosedAt r).
#[export] Instance set_gs_State : Setter gs_State := ltac:(derive_setter).
#[export] Instance set_gs_LastHeartbeatAt : Setter gs_LastHeartbeatAt := ltac:(derive_setter).
#[export] Instance set_gs_DrainRequestedAt : Setter gs_DrainRequestedAt := ltac:(derive_setter).
#[export] Instance set_gs_ClosedAt : Setter gs_ClosedAt := ltac:(derive_setter).

(** ** Catalogs *)

(** [CatalogVisibility], [CatalogChannel]: text of the request *)
Abbreviation CatalogVisibility := string (only parsing).
Definition CatalogVisibilityPlatform : CatalogVisibility := "PLATFORM".
Definition CatalogVisibilityPrivate : CatalogVisibility := "PRIVATE".
Abbreviation CatalogChannel := string (only parsing).
Definition CatalogChannelCandidate : CatalogChannel := "CANDIDATE".
Definition CatalogChannelRender : CatalogChannel := "RENDER".
Definition CatalogChannelRuntime : CatalogChannel := "RUNTIME".
Definition CatalogChannelProduction : CatalogChannel := "PRODUCTION".

(** [CatalogLifecycleState] *)
Inductive CatalogLifecycleState : Type :=
| CatalogDraft
| CatalogReview
| CatalogPublished
| CatalogDeprecated
| CatalogRevoked.
#[export] Instance CatalogLifecycleState_eq_dec : EqDecision CatalogLifecycleState.
Proof. solve_decision. Defined.
Definition CatalogLifecycleState_string (v : CatalogLifecycleState) : string :=
  match v with
  | CatalogDraft => "DRAFT"
  | CatalogReview => "REVIEW"
  | CatalogPublished => "PUBLISHED"
  | CatalogDeprecated => "DEPRECATED"
  | CatalogRevoked => "REVOKED"
  end.

(** [CatalogTrustKeyState] *)
Inductive CatalogTrustKeyState : Type :=
| CatalogTrustKeyActive
| CatalogTrustKeyRevoked.
#[export] Instance CatalogTrustKeyState_eq_dec : EqDecision CatalogTrustKeyState.
Proof. solve_decision. Defined.

(** [CatalogTrustKey] *)
Record CatalogTrustKey := mkCatalogTrustKey {
  ck_Meta : ResourceMeta;
  ck_OrganizationID : string;
  ck_Name : string;
  ck_Algorithm : string;
  ck_PublicKey : string;
  ck_Fingerprint : string;
  ck_State : CatalogTrustKeyState;
  ck_CreatedBy : string;
  ck_RevokedBy : string;
  ck_RevokedAt : option Time;
}.
#[export] Instance eta_CatalogTrustKey : Eta CatalogTrustKey := fun r =>
  mkCatalogTrustKey
    (ck_Meta r) (ck_OrganizationID r) (ck_Name r) (ck_Algorithm r) (ck_PublicKey r)
    (ck_Fingerprint r) (ck_State r) (ck_CreatedBy r) (ck_RevokedBy r) (ck_RevokedAt r).
#[export] Instance set_ck_Meta : Setter ck_Meta := ltac:(derive_setter).
#[export] Instance set_ck_OrganizationID : Setter ck_OrganizationID := ltac:(derive_setter).
#[export] Instance set_ck_Name : Setter ck_Name := ltac:(derive_setter).
#[export] Instance set_ck_Algorithm : Setter ck_Algorithm := ltac:(derive_setter).
#[export] Instance set_ck_Fingerprint : Setter ck_Fingerprint := ltac:(derive_setter).
#[export] Instance set_ck_State : Setter ck_State := ltac:(derive_setter).
#[export] Instance set_ck_CreatedBy : Setter ck_CreatedBy := ltac:(derive_setter).
#[export] Instance set_ck_RevokedBy : Setter ck_RevokedBy := ltac:(derive_setter).
#[export] Instance set_ck_RevokedAt : Setter ck_RevokedAt := ltac:(derive_setter).

(** [CatalogRevision] *)
Record CatalogRevision := mkCatalogRevision {
  cv_Meta : ResourceMeta;
  cv_OrganizationID : string;
  cv_CatalogName : string;
  cv_CatalogVersion : string;
  cv_ManifestDigest : string;
  cv_Payload : Bytes;
}.
#[export] Instance eta_CatalogRevision : Eta CatalogRevision := fun r =>
  mkCatalogRevision
    (cv_Meta r) (cv_OrganizationID r) (cv_CatalogName r) (cv_CatalogVersion r)
    (cv_ManifestDigest r) (cv_Payload r).
#[export] Instance set_cv_Meta : Setter cv_Meta := ltac:(derive_setter).
#[export] Instance set_cv_OrganizationID : Setter cv_OrganizationID := ltac:(derive_setter).
#[export] Instance set_cv_CatalogName : Setter cv_CatalogName := ltac:(derive_setter).
#[export] Instance set_cv_CatalogVersion : Setter cv_CatalogVersion := ltac:(derive_setter).

(** [CatalogRelease] *)
Record CatalogRelease := mkCatalogRelease {
  cr_Meta : ResourceMeta;
  cr_OrganizationID : string;
  cr_CatalogName : string;
  cr_CatalogVersion : string;
  cr_Visibility : CatalogVisibility;
  cr_Channel : CatalogChannel;
  cr_State : CatalogLifecycleState;
  cr_CurrentRevisionID : string;
  cr_ManifestDigest : string;
  cr_SourceReleaseID : string;
  cr_SigningKeyID : string;
  cr_SigningKeyFingerprint : string;
  cr_Signature : string;
  cr_RequestedBy : string;
  cr_ReviewRequestedAt : option Time;
  cr_PublishedBy : string;
  cr_PublishedAt : option Time;
  cr_DeprecatedBy : string;
  cr_DeprecatedAt : option Time;
  cr_RevokedBy : string;
  cr_RevokedAt : option Time;
}.
#[export] Instance eta_CatalogRelease : Eta CatalogRelease := fun r =>
  mkCatalogRelease
    (cr_Meta r) (cr_OrganizationID r) (cr_CatalogName r) (cr_CatalogVersion r)
    (cr_Visibility r) (cr_Channel r) (cr_State r) (cr_CurrentRevisionID r)
    (cr_ManifestDigest r) (cr_SourceReleaseID r) (cr_SigningKeyID r)
    (cr_SigningKeyFingerprint r) (cr_Signature r) (cr_RequestedBy r) (cr_ReviewRequestedAt r)
    (cr_PublishedBy r) (cr_PublishedAt r) (cr_DeprecatedBy r) (cr_DeprecatedAt r)
    (cr_RevokedBy r) (cr_RevokedAt r).
#[export] Instance set_cr_Meta : Setter cr_Meta := ltac:(derive_setter).
#[export] Instance set_cr_OrganizationID : Setter cr_OrganizationID := ltac:(derive_setter).
#[export] Instance set_cr_CatalogName : Setter cr_CatalogName := ltac:(derive_setter).
#[export] Instance set_cr_CatalogVersion : Setter cr_CatalogVersion := ltac:(derive_setter).
#[export] Instance set_cr_State : Setter cr_State := ltac:(derive_setter).
#[export] Instance set_cr_CurrentRevisionID : Setter cr_CurrentRevisionID := ltac:(derive_setter).
#[export] Instance set_cr_ManifestDigest : Setter cr_ManifestDigest := ltac:(derive_setter).
#[export] Instance set_cr_SourceReleaseID : Setter cr_SourceReleaseID := ltac:(derive_setter).
#[export] Instance set_cr_SigningKeyID : Setter cr_SigningKeyID := ltac:(derive_setter).
#[export] Instance set_cr_SigningKeyFingerprint : Setter cr_SigningKeyFingerprint := ltac:(derive_setter).
#[export] Instance set_cr_Signature : Setter cr_Signature := ltac:(derive_setter).
#[export] Instance set_cr_RequestedBy : Setter cr_RequestedBy := ltac:(derive_setter).
#[export] Instance set_cr_ReviewRequestedAt : Setter cr_ReviewRequestedAt := ltac:(derive_setter).
#[export] Instance set_cr_PublishedBy : Setter cr_PublishedBy := ltac:(derive_setter).
#[export] Instance set_cr_PublishedAt : Setter cr_PublishedAt := ltac:(derive_setter).
#[export] Instance set_cr_DeprecatedBy : Setter cr_DeprecatedBy := ltac:(derive_setter).
#[export] Instance set_cr_DeprecatedAt : Setter cr_DeprecatedAt := ltac:(derive_setter).
#[export] Instance set_cr_RevokedBy : Setter cr_RevokedBy := ltac:(derive_setter).
#[export] Instance set_cr_RevokedAt : Setter cr_RevokedAt := ltac:(derive_setter).

(** ** Blueprints *)

(** [BlueprintOverlayScope]: text of the request *)
Abbreviation BlueprintOverlayScope := string (only parsing).
Definition BlueprintOverlayProvider : BlueprintOverlayScope := "PROVIDER".
Definition BlueprintOverlayEnvironment : BlueprintOverlayScope := "ENVIRONMENT".

(** [BlueprintOverlayChange] *)
Record BlueprintOverlayChange := mkBlueprintOverlayChange {
  oc_Path : string;
  oc_Value : Bytes;
}.

(** [BlueprintOverlay] *)
Record BlueprintOverlay := mkBlueprintOverlay {
  bo_Meta : ResourceMeta;
  bo_ProjectID : string;
  bo_Name : string;
  bo_Version : string;
  bo_Scope : BlueprintOverlayScope;
  bo_ScopeKey : string;
  bo_Digest : string;
  bo_Changes : list BlueprintOverlayChange;
  bo_CreatedBy : string;
}.

(** [BlueprintRevision] *)
Record BlueprintRevision := mkBlueprintRevision {
  bv_Meta : ResourceMeta;
  bv_ProjectID : string;
  bv_BlueprintName : string;
  bv_BlueprintVersion : string;
  bv_BlueprintDigest : string;
  bv_CatalogDigest : string;
  bv_BaseBlueprintDigest : string;
  bv_OverlayDigest : string;
  bv_OwnershipDigest : string;
  bv_ProviderOverlayID : string;
  bv_EnvironmentOverlayID : string;
  bv_BasePayload : Bytes;
  bv_ResolutionPayload : Bytes;
  bv_Payload : Bytes;
}.
#[export] Instance eta_BlueprintRevision : Eta BlueprintRevision := fun r =>
  mkBlueprintRevision
    (bv_Meta r) (bv_ProjectID r) (bv_BlueprintName r) (bv_BlueprintVersion r)
    (bv_BlueprintDigest r) (bv_CatalogDigest r) (bv_BaseBlueprintDigest r)
    (bv_OverlayDigest r) (bv_OwnershipDigest r) (bv_ProviderOverlayID r)
    (bv_EnvironmentOverlayID r) (bv_BasePayload r) (bv_ResolutionPayload r) (bv_Payload r).
#[export] Instance set_bv_Meta : Setter bv_Meta := ltac:(derive_setter).
#[export] Instance set_bv_BaseBlueprintDigest : Setter bv_BaseBlueprintDigest := ltac:(derive_setter).
#[export] Instance set_bv_OverlayDigest : Setter bv_OverlayDigest := ltac:(derive_setter).
#[export] Instance set_bv_OwnershipDigest : Setter bv_OwnershipDigest := ltac:(derive_setter).
#[export] Instance set_bv_BasePayload : Setter bv_BasePayload := ltac:(derive_setter).
#[export] Instance set_bv_ResolutionPayload : Setter bv_ResolutionPayload := ltac:(derive_setter).

(** [BlueprintLifecycleState] *)
Inductive BlueprintLifecycleState : Type :=
| BlueprintDraft
| BlueprintReview
| BlueprintPublished
| BlueprintDeprecated
| BlueprintRevoked.
#[export] Instance BlueprintLifecycleState_eq_dec : EqDecision BlueprintLifecycleState.
Proof. solve_decision. Defined.
Definition BlueprintLifecycleState_string (v : BlueprintLifecycleState) : string :=
  match v with
  | BlueprintDraft => "DRAFT"
  | BlueprintReview => "REVIEW"
  | BlueprintPublished => "PUBLISHED"
  | BlueprintDeprecated => "DEPRECATED"
  | BlueprintRevoked => "REVOKED"
  end.

(** [BlueprintRelease] *)
Record BlueprintRelease := mkBlueprintRelease {
  br_Meta : ResourceMeta;
  br_ProjectID : string;
  br_BlueprintName : string;
  br_BlueprintVersion : string;
  br_State : BlueprintLifecycleState;
  br_CurrentRevisionID : string;
  br_CurrentBlueprintDigest : string;
  br_CatalogDigest : string;
  br_CatalogReleaseID : string;
  br_SourceReleaseID : string;
  br_UpgradeFromIDs : list string;
  br_ExecutionReady : bool;
  br_PlanStatus : string;
  br_RequestedBy : string;
  br_ReviewRequestedAt : option Time;
  br_PublishedBy : string;
  br_PublishedAt : option Time;
  br_DeprecatedBy : string;
  br_DeprecatedAt : option Time;
  br_RevokedBy : string;
  br_RevokedAt : option Time;
}.
#[export] Instance eta_BlueprintRelease : Eta BlueprintRelease := fun r =>
  mkBlueprintRelease
    (br_Meta r) (br_ProjectID r) (br_BlueprintName r) (br_BlueprintVersion r) (br_State r)
    (br_CurrentRevisionID r) (br_CurrentBlueprintDigest r) (br_CatalogDigest r)
    (br_CatalogReleaseID r) (br_SourceReleaseID r) (br_UpgradeFromIDs r)
    (br_ExecutionReady r) (br_PlanStatus r) (br_RequestedBy r) (br_ReviewRequestedAt r)
    (br_PublishedBy r) (br_PublishedAt r) (br_DeprecatedBy r) (br_DeprecatedAt r)
    (br_RevokedBy r) (br_RevokedAt r).
#[export] Instance set_br_Meta : Setter br_Meta := ltac:(derive_setter).
#[export] Instance set_br_ProjectID : Setter br_ProjectID := ltac:(derive_setter).
#[export] Instance set_br_BlueprintName : Setter br_BlueprintName := ltac:(derive_setter).
#[export] Instance set_br_BlueprintVersion : Setter br_BlueprintVersion := ltac:(derive_setter).
#[export] Instance set_br_State : Setter br_State := ltac:(derive_setter).
#[export] Instance set_br_CurrentRevisionID : Setter br_CurrentRevisionID := ltac:(derive_setter).
#[export] Instance set_br_CurrentBlueprintDigest : Setter br_CurrentBlueprintDigest := ltac:(derive_setter).
#[export] Instance set_br_CatalogDigest : Setter br_CatalogDigest := ltac:(derive_setter).
#[export] Instance set_br_UpgradeFromIDs : Setter br_UpgradeFromIDs := ltac:(derive_setter).
#[export] Instance set_br_ExecutionReady : Setter br_ExecutionReady := ltac:(derive_setter).
#[export] Instance set_br_PlanStatus : Setter br_PlanStatus := ltac:(derive_setter).
#[export] Instance set_br_RequestedBy : Setter br_RequestedBy := ltac:(derive_setter).
#[export] Instance set_br_ReviewRequestedAt : Setter br_ReviewRequestedAt := ltac:(derive_setter).
#[export] Instance set_br_PublishedBy : Setter br_PublishedBy := ltac:(derive_setter).
#[export] Instance set_br_PublishedAt : Setter br_PublishedAt := ltac:(derive_setter).
#[export] Instance set_br_DeprecatedBy : Setter br_DeprecatedBy := ltac:(derive_setter).
#[export] Instance set_br_DeprecatedAt : Setter br_DeprecatedAt := ltac:(derive_setter).
#[export] Instance set_br_RevokedBy : Setter br_RevokedBy := ltac:(derive_setter).
#[export] Instance set_br_RevokedAt : Setter br_RevokedAt := ltac:(derive_setter).

(** [Assignment] *)
Record Assignment := mkAssignment {
  as_Meta : ResourceMeta;
  as_ProjectID : string;
  as_TargetRef : string;
  as_BlueprintRevisionID : string;
  as_DesiredGeneration : Z;
  as_ObservedGeneration : Z;
}.
#[export] Instance eta_Assignment : Eta Assignment := fun r =>
  mkAssignment
    (as_Meta r) (as_ProjectID r) (as_TargetRef r) (as_BlueprintRevisionID r)
    (as_DesiredGeneration r) (as_ObservedGeneration r).
#[export] Instance set_as_Meta : Setter as_Meta := ltac:(derive_setter).
#[export] Instance set_as_BlueprintRevisionID : Setter as_BlueprintRevisionID := ltac:(derive_setter).
#[export] Instance set_as_DesiredGeneration : Setter as_DesiredGeneration := ltac:(derive_setter).

(** ** Entitlements and tenant environments *)

(** [Entitlement] *)
Record Entitlement := mkEntitlement {
  en_Meta : ResourceMeta;
  en_OrganizationID : string;
  en_Edition : string;
  en_MaxTenants : Z;
  en_OEMEnabled : bool;
  en_Features : list string;
  en_ExpiresAt : option Time;
  en_IssuedBy : string;
}.
#[export] Instance eta_Entitlement : Eta Entitlement := fun r =>
  mkEntitlement
    (en_Meta r) (en_OrganizationID r) (en_Edition r) (en_MaxTenants r) (en_OEMEnabled r)
    (en_Features r) (en_ExpiresAt r) (en_IssuedBy r).
#[export] Instance set_en_Meta : Setter en_Meta := ltac:(derive_setter).
#[export] Instance set_en_OrganizationID : Setter en_OrganizationID := ltac:(derive_setter).
#[export] Instance set_en_Edition : Setter en_Edition := ltac:(derive_setter).
#[export] Instance set_en_MaxTenants : Setter en_MaxTenants := ltac:(derive_setter).
#[export] Instance set_en_OEMEnabled : Setter en_OEMEnabled := ltac:(derive_setter).
#[export] Instance set_en_Features : Setter en_Features := ltac:(derive_setter).
#[export] Instance set_en_ExpiresAt : Setter en_ExpiresAt := ltac:(derive_setter).
#[export] Instance set_en_IssuedBy : Setter en_IssuedBy := ltac:(derive_setter).

(** [OEMProfile] *)
Record OEMProfile := mkOEMProfile {
  oe_Meta : ResourceMeta;
  oe_OrganizationID : string;
  oe_BrandName : string;
  oe_ProductTitle : string;
  oe_SupportURL : string;
  oe_LogoObjectRef : string;
  oe_AccentColor : string;
  oe_CustomDomain : string;
  oe_DefaultLocale : string;
}.
#[export] Instance eta_OEMProfile : Eta OEMProfile := fun r =>
  mkOEMProfile
    (oe_Meta r) (oe_OrganizationID r) (oe_BrandName r) (oe_ProductTitle r) (oe_SupportURL r)
    (oe_LogoObjectRef r) (oe_AccentColor r) (oe_CustomDomain r) (oe_DefaultLocale r).
#[export] Instance set_oe_Meta : Setter oe_Meta := ltac:(derive_setter).
#[export] Instance set_oe_BrandName : Setter oe_BrandName := ltac:(derive_setter).
#[export] Instance set_oe_ProductTitle : Setter oe_ProductTitle := ltac:(derive_setter).
#[export] Instance set_oe_DefaultLocale : Setter oe_DefaultLocale := ltac:(derive_setter).

(** [TenantState] *)
Inductive TenantState : Type :=
| TenantQueued
| TenantProvisioning
| TenantActive
| TenantSuspendQueued
| TenantSuspending
| TenantSuspended
| TenantResumeQueued
| TenantResuming
| TenantResizeApproval
| TenantResizeQueued
| TenantResizing
| TenantDeleteApproval
| TenantDeleteQueued
| TenantDeleting
| TenantDeleted
| TenantFailed.
#[export] Instance TenantState_eq_dec : EqDecision TenantState.
Proof. solve_decision. Defined.
Definition TenantState_string (v : TenantState) : string :=
  match v with
  | TenantQueued => "QUEUED"
  | TenantProvisioning => "PROVISIONING"
  | TenantActive => "ACTIVE"
  | TenantSuspendQueued => "SUSPEND_QUEUED"
  | TenantSuspending => "SUSPENDING"
  | TenantSuspended => "SUSPENDED"
  | TenantResumeQueued => "RESUME_QUEUED"
  | TenantResuming => "RESUMING"
  | TenantResizeApproval => "RESIZE_AWAITING_APPROVAL"
  | TenantResizeQueued => "RESIZE_QUEUED"
  | TenantResizing => "RESIZING"
  | TenantDeleteApproval => "DELETE_AWAITING_APPROVAL"
  | TenantDeleteQueued => "DELETE_QUEUED"
  | TenantDeleting => "DELETING"
  | TenantDeleted => "DELETED"
  | TenantFailed => "FAILED"
  end.

(** [TenantStoragePolicy] *)
Record TenantStoragePolicy := mkTenantStoragePolicy {
  tsp_ClassSelector : string;
  tsp_StorageClass : string;
  tsp_RequestQuota : string;
  tsp_MaxPVCSize : string;
}.

(** [TenantBackupPolicy] *)
Record TenantBackupPolicy := mkTenantBackupPolicy {
  tbp_Provider : string;
  tbp_Schedule : string;
  tbp_Retention : string;
}.

(** [TenantSecurityPolicy] *)
Record TenantSecurityPolicy := mkTenantSecurityPolicy {
  tsec_PodSecurityLevel : string;
  tsec_DefaultDenyIngress : bool;
  tsec_DefaultDenyEgress : bool;
  tsec_AllowDNS : bool;
}.

(** [TenantEvidenceArtifact] *)
Record TenantEvidenceArtifact := mkTenantEvidenceArtifact {
  tea_Key : string;
  tea_Authority : string;
  tea_Resource : string;
  tea_Status : string;
  tea_Digest : string;
  tea_Detail : string;
}.

(** [TenantEnvironment] *)
Record TenantEnvironment := mkTenantEnvironment {
  te_Meta : ResourceMeta;
  te_OrganizationID : string;
  te_ProjectID : string;
  te_ClusterID : string;
  te_Name : string;
  te_DisplayName : string;
  te_PlanName : string;
  te_Namespace : string;
  te_State : TenantState;
  te_Quota : gmap string string;
  te_StoragePolicy : TenantStoragePolicy;
  te_BackupPolicy : TenantBackupPolicy;
  te_SecurityPolicy : TenantSecurityPolicy;
  te_Evidence : list TenantEvidenceArtifact;
  te_EvidenceDigest : string;
  te_EvidenceSealedAt : option Time;
  te_DesiredDigest : string;
  te_PendingPlanName : string;
  te_PendingQuota : gmap string string;
  te_PendingDesiredDigest : string;
  te_ObservedDigest : string;
  te_RequestedBy : string;
  te_IdempotencyKey : string;
  te_RequestDigest : string;
  te_TaskAttempt : Z;
  te_RuntimeContractVersion : Z;
  te_TaskFenceToken : Z;
  te_TaskLeaseExpiresAt : option Time;
  te_PendingAction : string;
  te_DestructiveOperationID : string;
  te_RecoveryCheckpointID : string;
  te_ApprovedBy : string;
  te_ApprovedAt : option Time;
  te_LastError : string;
}.
#[export] Instance eta_TenantEnvironment : Eta TenantEnvironment := fun r =>
  mkTenantEnvironment
    (te_Meta r) (te_OrganizationID r) (te_ProjectID r) (te_ClusterID r) (te_Name r)
    (te_DisplayName r) (te_PlanName r) (te_Namespace r) (te_State r) (te_Quota r)
    (te_StoragePolicy r) (te_BackupPolicy r) (te_SecurityPolicy r) (te_Evidence r)
    (te_EvidenceDigest r) (te_EvidenceSealedAt r) (te_DesiredDigest r) (te_PendingPlanName r)
    (te_PendingQuota r) (te_PendingDesiredDigest r) (te_ObservedDigest r) (te_RequestedBy r)
    (te_IdempotencyKey r) (te_RequestDigest r) (te_TaskAttempt r) (te_RuntimeContractVersion r)
    (te_TaskFenceToken r) (te_TaskLeaseExpiresAt r) (te_PendingAction r)
    (te_DestructiveOperationID r) (te_RecoveryCheckpointID r) (te_ApprovedBy r) (te_ApprovedAt r)
    (te_LastError r).
#[export] Instance set_te_Meta : Setter te_Meta := ltac:(derive_setter).
#[export] Instance set_te_OrganizationID : Setter te_OrganizationID := ltac:(derive_setter).
#[export] Instance set_te_Name : Setter te_Name := ltac:(derive_setter).
#[export] Instance set_te_PlanName : Setter te_PlanName := ltac:(derive_setter).
#[export] Instance set_te_Namespace : Setter te_Namespace := ltac:(derive_setter).
#[export] Instance set_te_State : Setter te_State := ltac:(derive_setter).
#[export] Instance set_te_Quota : Setter te_Quota := ltac:(derive_setter).
#[export] Instance set_te_Evidence : Setter te_Evidence := ltac:(derive_setter).
#[export] Instance set_te_EvidenceDigest : Setter te_EvidenceDigest := ltac:(derive_setter).
#[export] Instance set_te_EvidenceSealedAt : Setter te_EvidenceSealedAt := ltac:(derive_setter).
#[export] Instance set_te_DesiredDigest : Setter te_DesiredDigest := ltac:(derive_setter).
#[export] Instance set_te_PendingPlanName : Setter te_PendingPlanName := ltac:(derive_setter).
#[export] Instance set_te_PendingQuota : Setter te_PendingQuota := ltac:(derive_setter).
#[export] Instance set_te_PendingDesiredDigest : Setter te_PendingDesiredDigest := ltac:(derive_setter).
#[export] Instance set_te_ObservedDigest : Setter te_ObservedDigest := ltac:(derive_setter).
#[export] Instance set_te_RequestedBy : Setter te_RequestedBy := ltac:(derive_setter).
#[export] Instance set_te_RequestDigest : Setter te_RequestDigest := ltac:(derive_setter).
#[export] Instance set_te_TaskAttempt : Setter te_TaskAttempt := ltac:(derive_setter).
#[export] Instance set_te_RuntimeContractVersion : Setter te_RuntimeContractVersion := ltac:(derive_setter).
#[export] Instance set_te_TaskFenceToken : Setter te_TaskFenceToken := ltac:(derive_setter).
#[export] Instance set_te_TaskLeaseExpiresAt : Setter te_TaskLeaseExpiresAt := ltac:(derive_setter).
#[export] Instance set_te_PendingAction : Setter te_PendingAction := ltac:(derive_setter).
#[export] Instance set_te_DestructiveOperationID : Setter te_DestructiveOperationID := ltac:(derive_setter).
#[export] Instance set_te_RecoveryCheckpointID : Setter te_RecoveryCheckpointID := ltac:(derive_setter).
#[export] Instance set_te_ApprovedBy : Setter te_ApprovedBy := ltac:(derive_setter).
#[export] Instance set_te_ApprovedAt : Setter te_ApprovedAt := ltac:(derive_setter).
#[export] Instance set_te_LastError : Setter te_LastError := ltac:(derive_setter).

(** [TenantTaskResult] *)
Record TenantTaskResult := mkTenantTaskResult {
  ttr_TenantID : string;
  ttr_TaskFenceToken : Z;
  ttr_Action : string;
  ttr_Success : bool;
  ttr_Deleted : bool;
  ttr_ObservedDigest : string;
  ttr_Error : string;
  ttr_Evidence : list TenantEvidenceArtifact;
  ttr_EvidenceDigest : string;
}.

(** ** Decoded JSON

    A [map[string]any] holds decoded JSON: an object keeps its members in the
    order of their keys, a number the text it is written with. *)

Inductive JSONValue : Type :=
| JSONNull
| JSONBool (b : bool)
| JSONNumber (text : string)
| JSONString (s : string)
| JSONArray (items : list JSONValue)
| JSONObject (members : list (string * JSONValue)).

(** ** Compatibility *)

(** [CompatTarget] *)
Record CompatTarget := mkCompatTarget {
  tg_KubernetesVersion : string;
  tg_Architecture : string;
  tg_Distribution : string;
  tg_Provider : string;
}.
#[export] Instance eta_CompatTarget : Eta CompatTarget := fun r =>
  mkCompatTarget
    (tg_KubernetesVersion r) (tg_Architecture r) (tg_Distribution r) (tg_Provider r).
#[export] Instance set_tg_KubernetesVersion : Setter tg_KubernetesVersion := ltac:(derive_setter).
#[export] Instance set_tg_Architecture : Setter tg_Architecture := ltac:(derive_setter).
#[export] Instance set_tg_Distribution : Setter tg_Distribution := ltac:(derive_setter).
#[export] Instance set_tg_Provider : Setter tg_Provider := ltac:(derive_setter).

(** [CompatConstraint] *)
Record CompatConstraint := mkCompatConstraint {
  cn_Name : string;
  cn_KubernetesMinVersion : string;
  cn_KubernetesMaxVersion : string;
  cn_Architectures : list string;
  cn_Distributions : list string;
  cn_Providers : list string;
}.
#[export] Instance eta_CompatConstraint : Eta CompatConstraint := fun r =>
  mkCompatConstraint
    (cn_Name r) (cn_KubernetesMinVersion r) (cn_KubernetesMaxVersion r) (cn_Architectures r)
    (cn_Distributions r) (cn_Providers r).
#[export] Instance set_cn_Name : Setter cn_Name := ltac:(derive_setter).
#[export] Instance set_cn_KubernetesMinVersion : Setter cn_KubernetesMinVersion := ltac:(derive_setter).
#[export] Instance set_cn_KubernetesMaxVersion : Setter cn_KubernetesMaxVersion := ltac:(derive_setter).
#[export] Instance set_cn_Architectures : Setter cn_Architectures := ltac:(derive_setter).
#[export] Instance set_cn_Distributions : Setter cn_Distributions := ltac:(derive_setter).
#[export] Instance set_cn_Providers : Setter cn_Providers := ltac:(derive_setter).

(** [CompatCheck] *)
Record CompatCheck := mkCompatCheck {
  ch_Constraint : string;
  ch_Dimension : string;
  ch_Status : string;
  ch_Target : string;
  ch_Allowed : list string;
  ch_Authority : string;
  ch_Message : string;
}.

(** [CompatDecision] *)
Record CompatDecision := mkCompatDecision {
  de_Method : string;
  de_Status : string;
  de_Target : CompatTarget;
  de_Checks : option (list CompatCheck);
  de_Blockers : list string;
  de_Digest : string;
}.
#[export] Instance eta_CompatDecision : Eta CompatDecision := fun r =>
  mkCompatDecision
    (de_Method r) (de_Status r) (de_Target r) (de_Checks r) (de_Blockers r) (de_Digest r).
#[export] Instance set_de_Digest : Setter de_Digest := ltac:(derive_setter).

(** ** Plan impacts *)

(** [BaselinePlanChange] *)
Record BaselinePlanChange := mkBaselinePlanChange {
  pc_Resource : string;
  pc_Action : string;
  pc_Current : string;
  pc_Desired : string;
  pc_Reason : string;
}.

(** [PlanSchemaCompatibility] *)
Record PlanSchemaCompatibility := mkPlanSchemaCompatibility {
  ps_Status : string;
  ps_Method : string;
  ps_HTTPStatus : Z;
  ps_SchemaIndexVersion : string;
  ps_SchemaIndexDigest : string;
  ps_Warnings : list string;
  ps_FailureDigest : string;
}.

(** [PlanAPIImpact] *)
Record PlanAPIImpact := mkPlanAPIImpact {
  pa_Resource : string;
  pa_APIVersion : string;
  pa_Kind : string;
  pa_DiscoveryStatus : string;
  pa_LifecycleStatus : string;
  pa_DeprecatedIn : string;
  pa_RemovedIn : string;
  pa_Replacement : string;
  pa_CustomResource : bool;
  pa_CRDName : string;
  pa_CRDVersionServed : bool;
  pa_Schema : PlanSchemaCompatibility;
  pa_Severity : string;
  pa_Message : string;
}.

(** [PlanQuotaImpact] *)
Record PlanQuotaImpact := mkPlanQuotaImpact {
  pq_Resource : string;
  pq_Action : string;
  pq_Current : list (string * string);
  pq_Desired : list (string * string);
}.

(** [PlanCapacityEstimate] *)
Record PlanCapacityEstimate := mkPlanCapacityEstimate {
  pe_DemandDeltaKnown : bool;
  pe_CPURequestDeltaMilli : Z;
  pe_MemoryRequestDeltaBytes : Z;
  pe_PodReplicaDelta : Z;
  pe_WorkloadResources : Z;
  pe_CPUAllocatableCeilingMilli : Z;
  pe_MemoryAllocatableCeilingBytes : Z;
  pe_PodsAllocatableCeiling : Z;
  pe_CeilingCheck : string;
  pe_CurrentUsageKnown : bool;
  pe_UnknownReasons : list string;
  pe_QuotaImpacts : list PlanQuotaImpact;
}.

(** [PlanDisruptionEstimate] *)
Record PlanDisruptionEstimate := mkPlanDisruptionEstimate {
  pd_Level : string;
  pd_MaintenanceRecommendation : string;
  pd_Reasons : list string;
  pd_AffectedResources : list string;
}.

(** [PlanRollbackResource] *)
Record PlanRollbackResource := mkPlanRollbackResource {
  pr_Resource : string;
  pr_ChangeAction : string;
  pr_Strategy : string;
  pr_Status : string;
  pr_AuthorizationStatus : string;
  pr_DryRunStatus : string;
  pr_HTTPStatus : Z;
  pr_SchemaIndexVersion : string;
  pr_SchemaIndexDigest : string;
  pr_ObservedUID : string;
  pr_ObservedObjectDigest : string;
  pr_RestoreObjectDigest : string;
  pr_RestoreObject : list (string * JSONValue);
  pr_Warnings : list string;
  pr_FailureDigest : string;
}.

(** [PlanRollbackFeasibility] *)
Record PlanRollbackFeasibility := mkPlanRollbackFeasibility {
  pf_Status : string;
  pf_Method : string;
  pf_Resources : option (list PlanRollbackResource);
  pf_Blockers : list string;
  pf_Warnings : list string;
  pf_Digest : string;
}.
#[export] Instance eta_PlanRollbackFeasibility : Eta PlanRollbackFeasibility := fun r =>
  mkPlanRollbackFeasibility
    (pf_Status r) (pf_Method r) (pf_Resources r) (pf_Blockers r) (pf_Warnings r) (pf_Digest r).
#[export] Instance set_pf_Digest : Setter pf_Digest := ltac:(derive_setter).

(** [PlanEvidenceArtifact] *)
Record PlanEvidenceArtifact := mkPlanEvidenceArtifact {
  px_Key : string;
  px_Kind : string;
  px_Resource : string;
  px_Authority : string;
  px_SourceLocation : string;
  px_OutputLocation : string;
  px_MediaType : string;
  px_Phase : string;
  px_Required : bool;
  px_RetentionDays : Z;
}.

(** [PlanEvidenceCollection] *)
Record PlanEvidenceCollection := mkPlanEvidenceCollection {
  pv_Status : string;
  pv_Method : string;
  pv_RequiredCount : Z;
  pv_Artifacts : option (list PlanEvidenceArtifact);
  pv_Blockers : list string;
  pv_Warnings : list string;
  pv_Digest : string;
}.
#[export] Instance eta_PlanEvidenceCollection : Eta PlanEvidenceCollection := fun r =>
  mkPlanEvidenceCollection
    (pv_Status r) (pv_Method r) (pv_RequiredCount r) (pv_Artifacts r) (pv_Blockers r)
    (pv_Warnings r) (pv_Digest r).
#[export] Instance set_pv_Status : Setter pv_Status := ltac:(derive_setter).
#[export] Instance set_pv_Blockers : Setter pv_Blockers := ltac:(derive_setter).
#[export] Instance set_pv_Digest : Setter pv_Digest := ltac:(derive_setter).

(** [PlanCapabilityCheck] *)
Record PlanCapabilityCheck := mkPlanCapabilityCheck {
  pk_Key : string;
  pk_Domain : string;
  pk_Required : bool;
  pk_Status : string;
  pk_Authority : string;
  pk_Impact : string;
  pk_Detail : string;
  pk_Evidence : list string;
}.

(** [PlanCapabilityPreflight] *)
Record PlanCapabilityPreflight := mkPlanCapabilityPreflight {
  pp_Status : string;
  pp_Method : string;
  pp_InventoryDigest : string;
  pp_Checks : option (list PlanCapabilityCheck);
  pp_Blockers : list string;
  pp_Warnings : list string;
  pp_Digest : string;
}.
#[export] Instance eta_PlanCapabilityPreflight : Eta PlanCapabilityPreflight := fun r =>
  mkPlanCapabilityPreflight
    (pp_Status r) (pp_Method r) (pp_InventoryDigest r) (pp_Checks r) (pp_Blockers r)
    (pp_Warnings r) (pp_Digest r).
#[export] Instance set_pp_Digest : Setter pp_Digest := ltac:(derive_setter).

(** [BaselinePlanImpact] *)
Record BaselinePlanImpact := mkBaselinePlanImpact {
  pi_SchemaVersion : Z;
  pi_InventoryDigest : string;
  pi_Compatibility : CompatDecision;
  pi_Capability : PlanCapabilityPreflight;
  pi_API : option (list PlanAPIImpact);
  pi_Capacity : PlanCapacityEstimate;
  pi_Disruption : PlanDisruptionEstimate;
  pi_Rollback : PlanRollbackFeasibility;
  pi_Evidence : PlanEvidenceCollection;
  pi_ApprovalReady : bool;
  pi_Blockers : list string;
  pi_Warnings : list string;
  pi_Digest : string;
}.
#[export] Instance eta_BaselinePlanImpact : Eta BaselinePlanImpact := fun r =>
  mkBaselinePlanImpact
    (pi_SchemaVersion r) (pi_InventoryDigest r) (pi_Compatibility r) (pi_Capability r) (pi_API r)
    (pi_Capacity r) (pi_Disruption r) (pi_Rollback r) (pi_Evidence r) (pi_ApprovalReady r)
    (pi_Blockers r) (pi_Warnings r) (pi_Digest r).
#[export] Instance set_pi_Digest : Setter pi_Digest := ltac:(derive_setter).

(** ** Baseline deployments *)

(** [BaselineEvidenceArtifact] *)
Record BaselineEvidenceArtifact := mkBaselineEvidenceArtifact {
  be_Key : string;
  be_Kind : string;
  be_Resource : string;
  be_Authority : string;
  be_Digest : string;
  be_MediaType : string;
  be_Location : string;
  be_Size : Z;
  be_Required : bool;
  be_RetentionDays : Z;
  be_CollectedAt : option Time;
  be_RetainUntil : option Time;
  be_Payload : option (list (string * JSONValue));
}.
#[export] Instance eta_BaselineEvidenceArtifact : Eta BaselineEvidenceArtifact := fun r =>
  mkBaselineEvidenceArtifact
    (be_Key r) (be_Kind r) (be_Resource r) (be_Authority r) (be_Digest r) (be_MediaType r)
    (be_Location r) (be_Size r) (be_Required r) (be_RetentionDays r) (be_CollectedAt r)
    (be_RetainUntil r) (be_Payload r).
#[export] Instance set_be_CollectedAt : Setter be_CollectedAt := ltac:(derive_setter).
#[export] Instance set_be_RetainUntil : Setter be_RetainUntil := ltac:(derive_setter).

(** [BaselineDeploymentState] *)
Inductive BaselineDeploymentState : Type :=
| BaselineDeploymentPlanning
| BaselineDeploymentAwaitingApproval
| BaselineDeploymentQueued
| BaselineDeploymentApplying
| BaselineDeploymentSucceeded
| BaselineDeploymentFailed
| BaselineDeploymentRollbackQueued
| BaselineDeploymentRollingBack
| BaselineDeploymentRolledBack.
#[export] Instance BaselineDeploymentState_eq_dec : EqDecision BaselineDeploymentState.
Proof. solve_decision. Defined.
Definition BaselineDeploymentState_string (v : BaselineDeploymentState) : string :=
  match v with
  | BaselineDeploymentPlanning => "PLANNING"
  | BaselineDeploymentAwaitingApproval => "AWAITING_APPROVAL"
  | BaselineDeploymentQueued => "QUEUED"
  | BaselineDeploymentApplying => "APPLYING"
  | BaselineDeploymentSucceeded => "SUCCEEDED"
  | BaselineDeploymentFailed => "FAILED"
  | BaselineDeploymentRollbackQueued => "ROLLBACK_QUEUED"
  | BaselineDeploymentRollingBack => "ROLLING_BACK"
  | BaselineDeploymentRolledBack => "ROLLED_BACK"
  end.

(** [BaselineDeployment] *)
Record BaselineDeployment := mkBaselineDeployment {
  bd_Meta : ResourceMeta;
  bd_ProjectID : string;
  bd_ClusterID : string;
  bd_BaselineID : string;
  bd_BaselineVersion : string;
  bd_TargetNamespace : string;
  bd_State : BaselineDeploymentState;
  bd_Risk : string;
  bd_DesiredDigest : string;
  bd_ObservedDigest : string;
  bd_PreviousDigest : string;
  bd_RequestDigest : string;
  bd_IdempotencyKey : string;
  bd_RequestedBy : string;
  bd_ApprovedBy : string;
  bd_ApprovedAt : option Time;
  bd_StartedAt : option Time;
  bd_FinishedAt : option Time;
  bd_Plan : list BaselinePlanChange;
  bd_PlanCreatedAt : option Time;
  bd_PlanExpiresAt : option Time;
  bd_PlanInventoryDigest : string;
  bd_PlanImpact : BaselinePlanImpact;
  bd_PlanImpactDigest : string;
  bd_PlanContextDigest : string;
  bd_Evidence : list BaselineEvidenceArtifact;
  bd_EvidenceDigest : string;
  bd_PlanRevalidationCount : Z;
  bd_LastError : string;
  bd_TaskAttempt : Z;
  bd_TaskFenceToken : Z;
  bd_TaskLeaseExpiresAt : option Time;
  bd_PendingAction : string;
  bd_DestructiveOperationID : string;
  bd_SourceType : string;
  bd_SourceID : string;
  bd_SourceVersion : string;
}.
#[export] Instance eta_BaselineDeployment : Eta BaselineDeployment := fun r =>
  mkBaselineDeployment
    (bd_Meta r) (bd_ProjectID r) (bd_ClusterID r) (bd_BaselineID r) (bd_BaselineVersion r)
    (bd_TargetNamespace r) (bd_State r) (bd_Risk r) (bd_DesiredDigest r) (bd_ObservedDigest r)
    (bd_PreviousDigest r) (bd_RequestDigest r) (bd_IdempotencyKey r) (bd_RequestedBy r)
    (bd_ApprovedBy r) (bd_ApprovedAt r) (bd_StartedAt r) (bd_FinishedAt r) (bd_Plan r)
    (bd_PlanCreatedAt r) (bd_PlanExpiresAt r) (bd_PlanInventoryDigest r) (bd_PlanImpact r)
    (bd_PlanImpactDigest r) (bd_PlanContextDigest r) (bd_Evidence r) (bd_EvidenceDigest r)
    (bd_PlanRevalidationCount r) (bd_LastError r) (bd_TaskAttempt r) (bd_TaskFenceToken r)
    (bd_TaskLeaseExpiresAt r) (bd_PendingAction r) (bd_DestructiveOperationID r) (bd_SourceType r)
    (bd_SourceID r) (bd_SourceVersion r).
#[export] Instance set_bd_Meta : Setter bd_Meta := ltac:(derive_setter).
#[export] Instance set_bd_ProjectID : Setter bd_ProjectID := ltac:(derive_setter).
#[export] Instance set_bd_ClusterID : Setter bd_ClusterID := ltac:(derive_setter).
#[export] Instance set_bd_BaselineID : Setter bd_BaselineID := ltac:(derive_setter).
#[export] Instance set_bd_BaselineVersion : Setter bd_BaselineVersion := ltac:(derive_setter).
#[export] Instance set_bd_TargetNamespace : Setter bd_TargetNamespace := ltac:(derive_setter).
#[export] Instance set_bd_State : Setter bd_State := ltac:(derive_setter).
#[export] Instance set_bd_Risk : Setter bd_Risk := ltac:(derive_setter).
#[export] Instance set_bd_DesiredDigest : Setter bd_DesiredDigest := ltac:(derive_setter).
#[export] Instance set_bd_ObservedDigest : Setter bd_ObservedDigest := ltac:(derive_setter).
#[export] Instance set_bd_PreviousDigest : Setter bd_PreviousDigest := ltac:(derive_setter).
#[export] Instance set_bd_RequestDigest : Setter bd_RequestDigest := ltac:(derive_setter).
#[export] Instance set_bd_IdempotencyKey : Setter bd_IdempotencyKey := ltac:(derive_setter).
#[export] Instance set_bd_RequestedBy : Setter bd_RequestedBy := ltac:(derive_setter).
#[export] Instance set_bd_ApprovedBy : Setter bd_ApprovedBy := ltac:(derive_setter).
#[export] Instance set_bd_ApprovedAt : Setter bd_ApprovedAt := ltac:(derive_setter).
#[export] Instance set_bd_StartedAt : Setter bd_StartedAt := ltac:(derive_setter).
#[export] Instance set_bd_FinishedAt : Setter bd_FinishedAt := ltac:(derive_setter).
#[export] Instance set_bd_Plan : Setter bd_Plan := ltac:(derive_setter).
#[export] Instance set_bd_PlanCreatedAt : Setter bd_PlanCreatedAt := ltac:(derive_setter).
#[export] Instance set_bd_PlanExpiresAt : Setter bd_PlanExpiresAt := ltac:(derive_setter).
#[export] Instance set_bd_PlanInventoryDigest : Setter bd_PlanInventoryDigest := ltac:(derive_setter).
#[export] Instance set_bd_PlanImpact : Setter bd_PlanImpact := ltac:(derive_setter).
#[export] Instance set_bd_PlanImpactDigest : Setter bd_PlanImpactDigest := ltac:(derive_setter).
#[export] Instance set_bd_PlanContextDigest : Setter bd_PlanContextDigest := ltac:(derive_setter).
#[export] Instance set_bd_Evidence : Setter bd_Evidence := ltac:(derive_setter).
#[export] Instance set_bd_EvidenceDigest : Setter bd_EvidenceDigest := ltac:(derive_setter).
#[export] Instance set_bd_PlanRevalidationCount : Setter bd_PlanRevalidationCount := ltac:(derive_setter).
#[export] Instance set_bd_LastError : Setter bd_LastError := ltac:(derive_setter).
#[export] Instance set_bd_TaskAttempt : Setter bd_TaskAttempt := ltac:(derive_setter).
#[export] Instance set_bd_TaskFenceToken : Setter bd_TaskFenceToken := ltac:(derive_setter).
#[export] Instance set_bd_TaskLeaseExpiresAt : Setter bd_TaskLeaseExpiresAt := ltac:(derive_setter).
#[export] Instance set_bd_PendingAction : Setter bd_PendingAction := ltac:(derive_setter).
#[export] Instance set_bd_DestructiveOperationID : Setter bd_DestructiveOperationID := ltac:(derive_setter).
#[export] Instance set_bd_SourceType : Setter bd_SourceType := ltac:(derive_setter).
#[export] Instance set_bd_SourceID : Setter bd_SourceID := ltac:(derive_setter).
#[export] Instance set_bd_SourceVersion : Setter bd_SourceVersion := ltac:(derive_setter).

(** [BaselineTaskResult] *)
Record BaselineTaskResult := mkBaselineTaskResult {
  btr_DeploymentID : string;
  btr_TaskFenceToken : Z;
  btr_Action : string;
  btr_Success : bool;
  btr_ObservedDigest : string;
  btr_Changes : list BaselinePlanChange;
  btr_Impact : BaselinePlanImpact;
  btr_Evidence : list BaselineEvidenceArtifact;
  btr_Error : string;
}.

(** ** Fleet groups and upgrade campaigns *)

(** [FleetGroup] *)
Record FleetGroup := mkFleetGroup {
  fg_Meta : ResourceMeta;
  fg_ProjectID : string;
  fg_Name : string;
  fg_DisplayName : string;
  fg_ClusterIDs : list string;
  fg_RequestedBy : string;
  fg_IdempotencyKey : string;
  fg_RequestDigest : string;
}.
#[export] Instance eta_FleetGroup : Eta FleetGroup := fun r =>
  mkFleetGroup
    (fg_Meta r) (fg_ProjectID r) (fg_Name r) (fg_DisplayName r) (fg_ClusterIDs r)
    (fg_RequestedBy r) (fg_IdempotencyKey r) (fg_RequestDigest r).
#[export] Instance set_fg_Meta : Setter fg_Meta := ltac:(derive_setter).
#[export] Instance set_fg_Name : Setter fg_Name := ltac:(derive_setter).
#[export] Instance set_fg_ClusterIDs : Setter fg_ClusterIDs := ltac:(derive_setter).
#[export] Instance set_fg_RequestedBy : Setter fg_RequestedBy := ltac:(derive_setter).

(** [UpgradeCampaignState] *)
Inductive UpgradeCampaignState : Type :=
| UpgradeCampaignAwaitingApproval
| UpgradeCampaignQueued
| UpgradeCampaignRunning
| UpgradeCampaignPauseRequested
| UpgradeCampaignPaused
| UpgradeCampaignCancelRequested
| UpgradeCampaignCancelled
| UpgradeCampaignHalted
| UpgradeCampaignSucceeded
| UpgradeCampaignFailed.
#[export] Instance UpgradeCampaignState_eq_dec : EqDecision UpgradeCampaignState.
Proof. solve_decision. Defined.
Definition UpgradeCampaignState_string (v : UpgradeCampaignState) : string :=
  match v with
  | UpgradeCampaignAwaitingApproval => "AWAITING_APPROVAL"
  | UpgradeCampaignQueued => "QUEUED"
  | UpgradeCampaignRunning => "RUNNING"
  | UpgradeCampaignPauseRequested => "PAUSE_REQUESTED"
  | UpgradeCampaignPaused => "PAUSED"
  | UpgradeCampaignCancelRequested => "CANCEL_REQUESTED"
  | UpgradeCampaignCancelled => "CANCELLED"
  | UpgradeCampaignHalted => "HALTED"
  | UpgradeCampaignSucceeded => "SUCCEEDED"
  | UpgradeCampaignFailed => "FAILED"
  end.

(** [UpgradeTargetState] *)
Inductive UpgradeTargetState : Type :=
| UpgradeTargetPending
| UpgradeTargetPlanning
| UpgradeTargetApplying
| UpgradeTargetVerifying
| UpgradeTargetSucceeded
| UpgradeTargetFailed
| UpgradeTargetRollingBack
| UpgradeTargetRolledBack.
#[export] Instance UpgradeTargetState_eq_dec : EqDecision UpgradeTargetState.
Proof. solve_decision. Defined.
Definition UpgradeTargetState_string (v : UpgradeTargetState) : string :=
  match v with
  | UpgradeTargetPending => "PENDING"
  | UpgradeTargetPlanning => "PLANNING"
  | UpgradeTargetApplying => "APPLYING"
  | UpgradeTargetVerifying => "VERIFYING"
  | UpgradeTargetSucceeded => "SUCCEEDED"
  | UpgradeTargetFailed => "FAILED"
  | UpgradeTargetRollingBack => "ROLLING_BACK"
  | UpgradeTargetRolledBack => "ROLLED_BACK"
  end.

(** [UpgradeCampaignTarget] *)
Record UpgradeCampaignTarget := mkUpgradeCampaignTarget {
  ut_ClusterID : string;
  ut_Wave : Z;
  ut_State : UpgradeTargetState;
  ut_PreviousBaselineDeploymentID : string;
  ut_PreviousVersion : string;
  ut_PreviousDigest : string;
  ut_UpgradeDeploymentID : string;
  ut_RuntimeVerificationID : string;
  ut_RollbackDeploymentID : string;
  ut_RollbackVerificationID : string;
  ut_LastError : string;
}.
#[export] Instance eta_UpgradeCampaignTarget : Eta UpgradeCampaignTarget := fun r =>
  mkUpgradeCampaignTarget
    (ut_ClusterID r) (ut_Wave r) (ut_State r) (ut_PreviousBaselineDeploymentID r)
    (ut_PreviousVersion r) (ut_PreviousDigest r) (ut_UpgradeDeploymentID r)
    (ut_RuntimeVerificationID r) (ut_RollbackDeploymentID r) (ut_RollbackVerificationID r)
    (ut_LastError r).
#[export] Instance set_ut_State : Setter ut_State := ltac:(derive_setter).

(** [UpgradeCampaignRevalidation] *)
Record UpgradeCampaignRevalidation := mkUpgradeCampaignRevalidation {
  uv_RecoveryCheckpointIDs : list string;
  uv_MaintenanceWindowStart : Time;
  uv_MaintenanceWindowEnd : Time;
}.

(** [UpgradeCampaign] *)
Record UpgradeCampaign := mkUpgradeCampaign {
  uc_Meta : ResourceMeta;
  uc_ProjectID : string;
  uc_FleetGroupID : string;
  uc_BaselineID : string;
  uc_TargetVersion : string;
  uc_State : UpgradeCampaignState;
  uc_CanaryCount : Z;
  uc_WaveSize : Z;
  uc_HaltAfterFailures : Z;
  uc_CurrentWave : Z;
  uc_Targets : list UpgradeCampaignTarget;
  uc_RequestedBy : string;
  uc_ApprovedBy : string;
  uc_ApprovedAt : option Time;
  uc_StartedAt : option Time;
  uc_FinishedAt : option Time;
  uc_IdempotencyKey : string;
  uc_RequestDigest : string;
  uc_MaintenanceWindowStart : Time;
  uc_MaintenanceWindowEnd : Time;
  uc_RecoveryCheckpointIDs : list string;
  uc_TargetInventoryDigests : gmap string string;
  uc_PlanContextDigest : string;
  uc_PlanCreatedAt : option Time;
  uc_PlanExpiresAt : option Time;
  uc_PlanRevalidationCount : Z;
  uc_PausedBy : string;
  uc_PausedAt : option Time;
  uc_PauseCount : Z;
  uc_CancelRequestedBy : string;
  uc_CancelRequestedAt : option Time;
  uc_CancelledBy : string;
  uc_CancelledAt : option Time;
  uc_ControlReason : string;
  uc_Summary : string;
}.
#[export] Instance eta_UpgradeCampaign : Eta UpgradeCampaign := fun r =>
  mkUpgradeCampaign
    (uc_Meta r) (uc_ProjectID r) (uc_FleetGroupID r) (uc_BaselineID r) (uc_TargetVersion r)
    (uc_State r) (uc_CanaryCount r) (uc_WaveSize r) (uc_HaltAfterFailures r) (uc_CurrentWave r)
    (uc_Targets r) (uc_RequestedBy r) (uc_ApprovedBy r) (uc_ApprovedAt r) (uc_StartedAt r)
    (uc_FinishedAt r) (uc_IdempotencyKey r) (uc_RequestDigest r) (uc_MaintenanceWindowStart r)
    (uc_MaintenanceWindowEnd r) (uc_RecoveryCheckpointIDs r) (uc_TargetInventoryDigests r)
    (uc_PlanContextDigest r) (uc_PlanCreatedAt r) (uc_PlanExpiresAt r) (uc_PlanRevalidationCount r)
    (uc_PausedBy r) (uc_PausedAt r) (uc_PauseCount r) (uc_CancelRequestedBy r)
    (uc_CancelRequestedAt r) (uc_CancelledBy r) (uc_CancelledAt r) (uc_ControlReason r)
    (uc_Summary r).
#[export] Instance set_uc_Meta : Setter uc_Meta := ltac:(derive_setter).
#[export] Instance set_uc_ProjectID : Setter uc_ProjectID := ltac:(derive_setter).
#[export] Instance set_uc_FleetGroupID : Setter uc_FleetGroupID := ltac:(derive_setter).
#[export] Instance set_uc_BaselineID : Setter uc_BaselineID := ltac:(derive_setter).
#[export] Instance set_uc_TargetVersion : Setter uc_TargetVersion := ltac:(derive_setter).
#[export] Instance set_uc_State : Setter uc_State := ltac:(derive_setter).
#[export] Instance set_uc_CanaryCount : Setter uc_CanaryCount := ltac:(derive_setter).
#[export] Instance set_uc_WaveSize : Setter uc_WaveSize := ltac:(derive_setter).
#[export] Instance set_uc_HaltAfterFailures : Setter uc_HaltAfterFailures := ltac:(derive_setter).
#[export] Instance set_uc_CurrentWave : Setter uc_CurrentWave := ltac:(derive_setter).
#[export] Instance set_uc_Targets : Setter uc_Targets := ltac:(derive_setter).
#[export] Instance set_uc_RequestedBy : Setter uc_RequestedBy := ltac:(derive_setter).
#[export] Instance set_uc_ApprovedBy : Setter uc_ApprovedBy := ltac:(derive_setter).
#[export] Instance set_uc_ApprovedAt : Setter uc_ApprovedAt := ltac:(derive_setter).
#[export] Instance set_uc_StartedAt : Setter uc_StartedAt := ltac:(derive_setter).
#[export] Instance set_uc_FinishedAt : Setter uc_FinishedAt := ltac:(derive_setter).
#[export] Instance set_uc_IdempotencyKey : Setter uc_IdempotencyKey := ltac:(derive_setter).
#[export] Instance set_uc_RequestDigest : Setter uc_RequestDigest := ltac:(derive_setter).
#[export] Instance set_uc_MaintenanceWindowStart : Setter uc_MaintenanceWindowStart := ltac:(derive_setter).
#[export] Instance set_uc_MaintenanceWindowEnd : Setter uc_MaintenanceWindowEnd := ltac:(derive_setter).
#[export] Instance set_uc_RecoveryCheckpointIDs : Setter uc_RecoveryCheckpointIDs := ltac:(derive_setter).
#[export] Instance set_uc_TargetInventoryDigests : Setter uc_TargetInventoryDigests := ltac:(derive_setter).
#[export] Instance set_uc_PlanContextDigest : Setter uc_PlanContextDigest := ltac:(derive_setter).
#[export] Instance set_uc_PlanCreatedAt : Setter uc_PlanCreatedAt := ltac:(derive_setter).
#[export] Instance set_uc_PlanExpiresAt : Setter uc_PlanExpiresAt := ltac:(derive_setter).
#[export] Instance set_uc_PlanRevalidationCount : Setter uc_PlanRevalidationCount := ltac:(derive_setter).
#[export] Instance set_uc_PausedBy : Setter uc_PausedBy := ltac:(derive_setter).
#[export] Instance set_uc_PausedAt : Setter uc_PausedAt := ltac:(derive_setter).
#[export] Instance set_uc_PauseCount : Setter uc_PauseCount := ltac:(derive_setter).
#[export] Instance set_uc_CancelRequestedBy : Setter uc_CancelRequestedBy := ltac:(derive_setter).
#[export] Instance set_uc_CancelRequestedAt : Setter uc_CancelRequestedAt := ltac:(derive_setter).
#[export] Instance set_uc_CancelledBy : Setter uc_CancelledBy := ltac:(derive_setter).
#[export] Instance set_uc_CancelledAt : Setter uc_CancelledAt := ltac:(derive_setter).
#[export] Instance set_uc_ControlReason : Setter uc_ControlReason := ltac:(derive_setter).
#[export] Instance set_uc_Summary : Setter uc_Summary := ltac:(derive_setter).

(** ** Service accounts, tokens and delegation *)

(** [ServiceAccountState] *)
Inductive ServiceAccountState : Type :=
| ServiceAccountActive
| ServiceAccountRevoked.
#[export] Instance ServiceAccountState_eq_dec : EqDecision ServiceAccountState.
Proof. solve_decision. Defined.

(** [ServiceAccount] *)
Record ServiceAccount := mkServiceAccount {
  sa_Meta : ResourceMeta;
  sa_OrganizationID : string;
  sa_ProjectID : string;
  sa_Name : string;
  sa_DisplayName : string;
  sa_ProductRole : string;
  sa_State : ServiceAccountState;
  sa_CreatedBy : string;
  sa_RevokedBy : string;
  sa_RevokedAt : option Time;
}.
#[export] Instance eta_ServiceAccount : Eta ServiceAccount := fun r =>
  mkServiceAccount
    (sa_Meta r) (sa_OrganizationID r) (sa_ProjectID r) (sa_Name r) (sa_DisplayName r)
    (sa_ProductRole r) (sa_State r) (sa_CreatedBy r) (sa_RevokedBy r) (sa_RevokedAt r).
#[export] Instance set_sa_Meta : Setter sa_Meta := ltac:(derive_setter).
#[export] Instance set_sa_OrganizationID : Setter sa_OrganizationID := ltac:(derive_setter).
#[export] Instance set_sa_ProjectID : Setter sa_ProjectID := ltac:(derive_setter).
#[export] Instance set_sa_Name : Setter sa_Name := ltac:(derive_setter).
#[export] Instance set_sa_DisplayName : Setter sa_DisplayName := ltac:(derive_setter).
#[export] Instance set_sa_ProductRole : Setter sa_ProductRole := ltac:(derive_setter).
#[export] Instance set_sa_State : Setter sa_State := ltac:(derive_setter).
#[export] Instance set_sa_CreatedBy : Setter sa_CreatedBy := ltac:(derive_setter).
#[export] Instance set_sa_RevokedBy : Setter sa_RevokedBy := ltac:(derive_setter).
#[export] Instance set_sa_RevokedAt : Setter sa_RevokedAt := ltac:(derive_setter).

(** [APITokenState] *)
Inductive APITokenState : Type :=
| APITokenActive
| APITokenRevoked.
#[export] Instance APITokenState_eq_dec : EqDecision APITokenState.
Proof. solve_decision. Defined.

(** [APIToken] *)
Record APIToken := mkAPIToken {
  tk_Meta : ResourceMeta;
  tk_ServiceAccountID : string;
  tk_OrganizationID : string;
  tk_ProjectID : string;
  tk_TokenPrefix : string;
  tk_TokenDigest : string;
  tk_IdempotencyKey : string;
  tk_Permissions : list string;
  tk_State : APITokenState;
  tk_ExpiresAt : Time;
  tk_CreatedBy : string;
  tk_RotatedFromID : string;
  tk_RevokedBy : string;
  tk_RevokedAt : option Time;
}.
#[export] Instance eta_APIToken : Eta APIToken := fun r =>
  mkAPIToken
    (tk_Meta r) (tk_ServiceAccountID r) (tk_OrganizationID r) (tk_ProjectID r) (tk_TokenPrefix
    r) (tk_TokenDigest r) (tk_IdempotencyKey r) (tk_Permissions r) (tk_State r) (tk_ExpiresAt
    r) (tk_CreatedBy r) (tk_RotatedFromID r) (tk_RevokedBy r) (tk_RevokedAt r).
#[export] Instance set_tk_Meta : Setter tk_Meta := ltac:(derive_setter).
#[export] Instance set_tk_ServiceAccountID : Setter tk_ServiceAccountID := ltac:(derive_setter).
#[export] Instance set_tk_OrganizationID : Setter tk_OrganizationID := ltac:(derive_setter).
#[export] Instance set_tk_ProjectID : Setter tk_ProjectID := ltac:(derive_setter).
#[export] Instance set_tk_TokenPrefix : Setter tk_TokenPrefix := ltac:(derive_setter).
#[export] Instance set_tk_TokenDigest : Setter tk_TokenDigest := ltac:(derive_setter).
#[export] Instance set_tk_IdempotencyKey : Setter tk_IdempotencyKey := ltac:(derive_setter).
#[export] Instance set_tk_Permissions : Setter tk_Permissions := ltac:(derive_setter).
#[export] Instance set_tk_State : Setter tk_State := ltac:(derive_setter).
#[export] Instance set_tk_ExpiresAt : Setter tk_ExpiresAt := ltac:(derive_setter).
#[export] Instance set_tk_CreatedBy : Setter tk_CreatedBy := ltac:(derive_setter).
#[export] Instance set_tk_RotatedFromID : Setter tk_RotatedFromID := ltac:(derive_setter).
#[export] Instance set_tk_RevokedBy : Setter tk_RevokedBy := ltac:(derive_setter).
#[export] Instance set_tk_RevokedAt : Setter tk_RevokedAt := ltac:(derive_setter).

(** [MCPTrustedClientState] *)
Inductive MCPTrustedClientState : Type :=
| MCPTrustedClientActive
| MCPTrustedClientRevoked.
#[export] Instance MCPTrustedClientState_eq_dec : EqDecision MCPTrustedClientState.
Proof. solve_decision. Defined.

(** [MCPTrustedClient] *)
Record MCPTrustedClient := mkMCPTrustedClient {
  tc_Meta : ResourceMeta;
  tc_ClientID : string;
  tc_DisplayName : string;
  tc_Provider : string;
  tc_RedirectURIs : list string;
  tc_State : MCPTrustedClientState;
  tc_CreatedBy : string;
  tc_RevokedBy : string;
  tc_RevokedAt : option Time;
}.
#[export] Instance eta_MCPTrustedClient : Eta MCPTrustedClient := fun r =>
  mkMCPTrustedClient
    (tc_Meta r) (tc_ClientID r) (tc_DisplayName r) (tc_Provider r) (tc_RedirectURIs r)
    (tc_State r) (tc_CreatedBy r) (tc_RevokedBy r) (tc_RevokedAt r).
#[export] Instance set_tc_Meta : Setter tc_Meta := ltac:(derive_setter).
#[export] Instance set_tc_ClientID : Setter tc_ClientID := ltac:(derive_setter).
#[export] Instance set_tc_DisplayName : Setter tc_DisplayName := ltac:(derive_setter).
#[export] Instance set_tc_Provider : Setter tc_Provider := ltac:(derive_setter).
#[export] Instance set_tc_RedirectURIs : Setter tc_RedirectURIs := ltac:(derive_setter).
#[export] Instance set_tc_State : Setter tc_State := ltac:(derive_setter).
#[export] Instance set_tc_CreatedBy : Setter tc_CreatedBy := ltac:(derive_setter).
#[export] Instance set_tc_RevokedBy : Setter tc_RevokedBy := ltac:(derive_setter).
#[export] Instance set_tc_RevokedAt : Setter tc_RevokedAt := ltac:(derive_setter).

(** [MCPDelegationAccessProfile]: requests choose the text *)
Abbreviation MCPDelegationAccessProfile := string (only parsing).
Definition MCPDelegationView : MCPDelegationAccessProfile := "VIEW".
Definition MCPDelegationOperate : MCPDelegationAccessProfile := "OPERATE".
Definition MCPDelegationAdministration : MCPDelegationAccessProfile := "ADMINISTRATION".

(** [MCPDelegationGrantState] *)
Inductive MCPDelegationGrantState : Type :=
| MCPDelegationGrantActive
| MCPDelegationGrantRevoked.
#[export] Instance MCPDelegationGrantState_eq_dec : EqDecision MCPDelegationGrantState.
Proof. solve_decision. Defined.

(** [MCPDelegationGrant] *)
Record MCPDelegationGrant := mkMCPDelegationGrant {
  dg_Meta : ResourceMeta;
  dg_Issuer : string;
  dg_Subject : string;
  dg_ClientID : string;
  dg_OrganizationID : string;
  dg_ProjectID : string;
  dg_AccessProfile : MCPDelegationAccessProfile;
  dg_ConsentDigest : string;
  dg_ExpiresAt : Time;
  dg_State : MCPDelegationGrantState;
  dg_CreatedBy : string;
  dg_RevokedBy : string;
  dg_RevokedAt : option Time;
}.
#[export] Instance eta_MCPDelegationGrant : Eta MCPDelegationGrant := fun r =>
  mkMCPDelegationGrant
    (dg_Meta r) (dg_Issuer r) (dg_Subject r) (dg_ClientID r) (dg_OrganizationID r)
    (dg_ProjectID r) (dg_AccessProfile r) (dg_ConsentDigest r) (dg_ExpiresAt r) (dg_State r)
    (dg_CreatedBy r) (dg_RevokedBy r) (dg_RevokedAt r).
#[export] Instance set_dg_Meta : Setter dg_Meta := ltac:(derive_setter).
#[export] Instance set_dg_Issuer : Setter dg_Issuer := ltac:(derive_setter).
#[export] Instance set_dg_Subject : Setter dg_Subject := ltac:(derive_setter).
#[export] Instance set_dg_ClientID : Setter dg_ClientID := ltac:(derive_setter).
#[export] Instance set_dg_OrganizationID : Setter dg_OrganizationID := ltac:(derive_setter).
#[export] Instance set_dg_ProjectID : Setter dg_ProjectID := ltac:(derive_setter).
#[export] Instance set_dg_AccessProfile : Setter dg_AccessProfile := ltac:(derive_setter).
#[export] Instance set_dg_ConsentDigest : Setter dg_ConsentDigest := ltac:(derive_setter).
#[export] Instance set_dg_ExpiresAt : Setter dg_ExpiresAt := ltac:(derive_setter).
#[export] Instance set_dg_State : Setter dg_State := ltac:(derive_setter).
#[export] Instance set_dg_CreatedBy : Setter dg_CreatedBy := ltac:(derive_setter).
#[export] Instance set_dg_RevokedBy : Setter dg_RevokedBy := ltac:(derive_setter).
#[export] Instance set_dg_RevokedAt : Setter dg_RevokedAt := ltac:(derive_setter).

(** ** MCP control jobs *)

(** [MCPControlJobState] *)
Inductive MCPControlJobState : Type :=
| MCPControlJobRunning
| MCPControlJobSucceeded
| MCPControlJobFailed
| MCPControlJobRecoveryRequired.
#[export] Instance MCPControlJobState_eq_dec : EqDecision MCPControlJobState.
Proof. solve_decision. Defined.
Definition MCPControlJobState_string (v : MCPControlJobState) : string :=
  match v with
  | MCPControlJobRunning => "RUNNING"
  | MCPControlJobSucceeded => "SUCCEEDED"
  | MCPControlJobFailed => "FAILED"
  | MCPControlJobRecoveryRequired => "RECOVERY_REQUIRED"
  end.

(** [MCPControlJobRecoveryResolution]: requests choose the text *)
Abbreviation MCPControlJobRecoveryResolution := string (only parsing).
Definition MCPControlJobRecoveryConfirmedSucceeded : MCPControlJobRecoveryResolution := "CONFIRMED_SUCCEEDED".
Definition MCPControlJobRecoveryConfirmedFailed : MCPControlJobRecoveryResolution := "CONFIRMED_FAILED".

(** [MCPControlJob]; the lease of a job that is not leased is the zero time *)
Record MCPControlJob := mkMCPControlJob {
  cj_Meta : ResourceMeta;
  cj_ToolName : string;
  cj_Family : string;
  cj_Action : string;
  cj_Method : string;
  cj_Route : string;
  cj_State : MCPControlJobState;
  cj_Risk : string;
  cj_ActorID : string;
  cj_Authentication : string;
  cj_OAuthClientID : string;
  cj_DelegationProfile : string;
  cj_OrganizationID : string;
  cj_ProjectID : string;
  cj_RequestID : string;
  cj_IdempotencyKey : string;
  cj_RequestDigest : string;
  cj_Attempt : Z;
  cj_LeaseOwner : string;
  cj_LeaseExpiresAt : Time;
  cj_FenceToken : Z;
  cj_StatusCode : Z;
  cj_ResponseDigest : string;
  cj_Response : Bytes;
  cj_ErrorCode : string;
  cj_RecoveryResolution : MCPControlJobRecoveryResolution;
  cj_RecoveryReadbackDigest : string;
  cj_RecoveryEvidenceDigest : string;
  cj_RecoveredBy : string;
  cj_RecoveredAt : option Time;
}.
#[export] Instance eta_MCPControlJob : Eta MCPControlJob := fun r =>
  mkMCPControlJob
    (cj_Meta r) (cj_ToolName r) (cj_Family r) (cj_Action r) (cj_Method r) (cj_Route r)
    (cj_State r) (cj_Risk r) (cj_ActorID r) (cj_Authentication r) (cj_OAuthClientID r)
    (cj_DelegationProfile r) (cj_OrganizationID r) (cj_ProjectID r) (cj_RequestID r)
    (cj_IdempotencyKey r) (cj_RequestDigest r) (cj_Attempt r) (cj_LeaseOwner r)
    (cj_LeaseExpiresAt r) (cj_FenceToken r) (cj_StatusCode r) (cj_ResponseDigest r)
    (cj_Response r) (cj_ErrorCode r) (cj_RecoveryResolution r) (cj_RecoveryReadbackDigest r)
    (cj_RecoveryEvidenceDigest r) (cj_RecoveredBy r) (cj_RecoveredAt r).
#[export] Instance set_cj_Meta : Setter cj_Meta := ltac:(derive_setter).
#[export] Instance set_cj_ToolName : Setter cj_ToolName := ltac:(derive_setter).
#[export] Instance set_cj_Family : Setter cj_Family := ltac:(derive_setter).
#[export] Instance set_cj_Action : Setter cj_Action := ltac:(derive_setter).
#[export] Instance set_cj_Method : Setter cj_Method := ltac:(derive_setter).
#[export] Instance set_cj_Route : Setter cj_Route := ltac:(derive_setter).
#[export] Instance set_cj_State : Setter cj_State := ltac:(derive_setter).
#[export] Instance set_cj_Risk : Setter cj_Risk := ltac:(derive_setter).
#[export] Instance set_cj_ActorID : Setter cj_ActorID := ltac:(derive_setter).
#[export] Instance set_cj_Authentication : Setter cj_Authentication := ltac:(derive_setter).
#[export] Instance set_cj_OAuthClientID : Setter cj_OAuthClientID := ltac:(derive_setter).
#[export] Instance set_cj_DelegationProfile : Setter cj_DelegationProfile := ltac:(derive_setter).
#[export] Instance set_cj_OrganizationID : Setter cj_OrganizationID := ltac:(derive_setter).
#[export] Instance set_cj_ProjectID : Setter cj_ProjectID := ltac:(derive_setter).
#[export] Instance set_cj_RequestID : Setter cj_RequestID := ltac:(derive_setter).
#[export] Instance set_cj_IdempotencyKey : Setter cj_IdempotencyKey := ltac:(derive_setter).
#[export] Instance set_cj_RequestDigest : Setter cj_RequestDigest := ltac:(derive_setter).
#[export] Instance set_cj_Attempt : Setter cj_Attempt := ltac:(derive_setter).
#[export] Instance set_cj_LeaseOwner : Setter cj_LeaseOwner := ltac:(derive_setter).
#[export] Instance set_cj_LeaseExpiresAt : Setter cj_LeaseExpiresAt := ltac:(derive_setter).
#[export] Instance set_cj_FenceToken : Setter cj_FenceToken := ltac:(derive_setter).
#[export] Instance set_cj_StatusCode : Setter cj_StatusCode := ltac:(derive_setter).
#[export] Instance set_cj_ResponseDigest : Setter cj_ResponseDigest := ltac:(derive_setter).
#[export] Instance set_cj_Response : Setter cj_Response := ltac:(derive_setter).
#[export] Instance set_cj_ErrorCode : Setter cj_ErrorCode := ltac:(derive_setter).
#[export] Instance set_cj_RecoveryResolution : Setter cj_RecoveryResolution := ltac:(derive_setter).
#[export] Instance set_cj_RecoveryReadbackDigest : Setter cj_RecoveryReadbackDigest := ltac:(derive_setter).
#[export] Instance set_cj_RecoveryEvidenceDigest : Setter cj_RecoveryEvidenceDigest := ltac:(derive_setter).
#[export] Instance set_cj_RecoveredBy : Setter cj_RecoveredBy := ltac:(derive_setter).
#[export] Instance set_cj_RecoveredAt : Setter cj_RecoveredAt := ltac:(derive_setter).

(** ** Git revisions and drift scans *)

(** [GitDeliveryMode]: requests choose the text *)
Abbreviation GitDeliveryMode := string (only parsing).
Definition GitDeliveryDirectCommit : GitDeliveryMode := "DIRECT_COMMIT".
Definition GitDeliveryPullRequest : GitDeliveryMode := "PULL_REQUEST".

(** [ManagedGitRevision] *)
Record ManagedGitRevision := mkManagedGitRevision {
  gr_Meta : ResourceMeta;
  gr_Organization : string;
  gr_Repository : string;
  gr_Branch : string;
  gr_RevisionID : string;
  gr_Digest : string;
  gr_CommitSHA : string;
  gr_PublicKeyFingerprint : string;
  gr_Source : string;
  gr_DeliveryMode : GitDeliveryMode;
  gr_PullRequestID : string;
  gr_SyncHealthy : bool;
  gr_ObservedDigest : string;
  gr_LastKnownGood : bool;
  gr_LastKnownGoodAt : option Time;
  gr_RecordedBy : string;
}.
#[export] Instance eta_ManagedGitRevision : Eta ManagedGitRevision := fun r =>
  mkManagedGitRevision
    (gr_Meta r) (gr_Organization r) (gr_Repository r) (gr_Branch r) (gr_RevisionID r)
    (gr_Digest r) (gr_CommitSHA r) (gr_PublicKeyFingerprint r) (gr_Source r) (gr_DeliveryMode
    r) (gr_PullRequestID r) (gr_SyncHealthy r) (gr_ObservedDigest r) (gr_LastKnownGood r)
    (gr_LastKnownGoodAt r) (gr_RecordedBy r).
#[export] Instance set_gr_Meta : Setter gr_Meta := ltac:(derive_setter).
#[export] Instance set_gr_Organization : Setter gr_Organization := ltac:(derive_setter).
#[export] Instance set_gr_Repository : Setter gr_Repository := ltac:(derive_setter).
#[export] Instance set_gr_Branch : Setter gr_Branch := ltac:(derive_setter).
#[export] Instance set_gr_RevisionID : Setter gr_RevisionID := ltac:(derive_setter).
#[export] Instance set_gr_Digest : Setter gr_Digest := ltac:(derive_setter).
#[export] Instance set_gr_CommitSHA : Setter gr_CommitSHA := ltac:(derive_setter).
#[export] Instance set_gr_PublicKeyFingerprint : Setter gr_PublicKeyFingerprint := ltac:(derive_setter).
#[export] Instance set_gr_Source : Setter gr_Source := ltac:(derive_setter).
#[export] Instance set_gr_DeliveryMode : Setter gr_DeliveryMode := ltac:(derive_setter).
#[export] Instance set_gr_PullRequestID : Setter gr_PullRequestID := ltac:(derive_setter).
#[export] Instance set_gr_SyncHealthy : Setter gr_SyncHealthy := ltac:(derive_setter).
#[export] Instance set_gr_ObservedDigest : Setter gr_ObservedDigest := ltac:(derive_setter).
#[export] Instance set_gr_LastKnownGood : Setter gr_LastKnownGood := ltac:(derive_setter).
#[export] Instance set_gr_LastKnownGoodAt : Setter gr_LastKnownGoodAt := ltac:(derive_setter).
#[export] Instance set_gr_RecordedBy : Setter gr_RecordedBy := ltac:(derive_setter).

(** [GitDriftClassification]: the evidence of a request may carry any text *)
Abbreviation GitDriftClassification := string (only parsing).
Definition GitDriftNotRequested : GitDriftClassification := "NOT_REQUESTED".
Definition GitDriftInSync : GitDriftClassification := "IN_SYNC".
Definition GitDriftExternalChange : GitDriftClassification := "EXTERNAL_GIT_CHANGE".
Definition GitDriftExternalApplied : GitDriftClassification := "EXTERNAL_GIT_APPLIED".
Definition GitDriftLiveDrift : GitDriftClassification := "LIVE_DRIFT".
Definition GitDriftThreeWayConflict : GitDriftClassification := "THREE_WAY_CONFLICT".
Definition GitDriftUntrustedChange : GitDriftClassification := "UNTRUSTED_GIT_CHANGE".
Definition GitDriftObservedUnknown : GitDriftClassification := "OBSERVED_UNKNOWN".
Definition GitDriftCommitOnlyChange : GitDriftClassification := "GIT_COMMIT_ONLY_CHANGE".

(** [GitDriftEvidence] *)
Record GitDriftEvidence := mkGitDriftEvidence {
  ge_Organization : string;
  ge_Repository : string;
  ge_Branch : string;
  ge_BaseRevisionID : string;
  ge_BaseDigest : string;
  ge_BaseCommitSHA : string;
  ge_CurrentRevisionID : string;
  ge_CurrentDigest : string;
  ge_CurrentCommitSHA : string;
  ge_PublicKeyFingerprint : string;
  ge_CurrentTrusted : bool;
  ge_ChangedFiles : list string;
  ge_ObservedDigest : string;
  ge_Classification : GitDriftClassification;
  ge_Conflict : bool;
  ge_Adoptable : bool;
  ge_Summary : string;
}.
#[export] Instance eta_GitDriftEvidence : Eta GitDriftEvidence := fun r =>
  mkGitDriftEvidence
    (ge_Organization r) (ge_Repository r) (ge_Branch r) (ge_BaseRevisionID r) (ge_BaseDigest
    r) (ge_BaseCommitSHA r) (ge_CurrentRevisionID r) (ge_CurrentDigest r) (ge_CurrentCommitSHA
    r) (ge_PublicKeyFingerprint r) (ge_CurrentTrusted r) (ge_ChangedFiles r)
    (ge_ObservedDigest r) (ge_Classification r) (ge_Conflict r) (ge_Adoptable r) (ge_Summary
    r).
#[export] Instance set_ge_ObservedDigest : Setter ge_ObservedDigest := ltac:(derive_setter).
#[export] Instance set_ge_Classification : Setter ge_Classification := ltac:(derive_setter).
#[export] Instance set_ge_Conflict : Setter ge_Conflict := ltac:(derive_setter).
#[export] Instance set_ge_Adoptable : Setter ge_Adoptable := ltac:(derive_setter).
#[export] Instance set_ge_Summary : Setter ge_Summary := ltac:(derive_setter).

(** [DriftScanState] *)
Inductive DriftScanState : Type :=
| DriftScanQueued
| DriftScanRunning
| DriftScanInSync
| DriftScanDrifted
| DriftScanFailed.
#[export] Instance DriftScanState_eq_dec : EqDecision DriftScanState.
Proof. solve_decision. Defined.
Definition DriftScanState_string (v : DriftScanState) : string :=
  match v with
  | DriftScanQueued => "QUEUED"
  | DriftScanRunning => "RUNNING"
  | DriftScanInSync => "IN_SYNC"
  | DriftScanDrifted => "DRIFTED"
  | DriftScanFailed => "FAILED"
  end.

(** [DriftTargetState] *)
Inductive DriftTargetState : Type :=
| DriftTargetPending
| DriftTargetRunning
| DriftTargetInSync
| DriftTargetDrifted
| DriftTargetFailed.
#[export] Instance DriftTargetState_eq_dec : EqDecision DriftTargetState.
Proof. solve_decision. Defined.

(** [DriftSeverity]: the findings of a request may carry any text *)
Abbreviation DriftSeverity := string (only parsing).
Definition DriftSeverityInfo : DriftSeverity := "INFO".
Definition DriftSeverityLow : DriftSeverity := "LOW".
Definition DriftSeverityMedium : DriftSeverity := "MEDIUM".
Definition DriftSeverityHigh : DriftSeverity := "HIGH".
Definition DriftSeverityCritical : DriftSeverity := "CRITICAL".

(** [DriftRemediation] *)
Record DriftRemediation := mkDriftRemediation {
  dr_Action : string;
  dr_Mode : string;
  dr_Eligible : bool;
  dr_Reason : string;
}.
#[export] Instance eta_DriftRemediation : Eta DriftRemediation := fun r =>
  mkDriftRemediation
    (dr_Action r) (dr_Mode r) (dr_Eligible r) (dr_Reason r).
#[export] Instance set_dr_Action : Setter dr_Action := ltac:(derive_setter).
#[export] Instance set_dr_Mode : Setter dr_Mode := ltac:(derive_setter).

(** [DriftComparison] *)
Record DriftComparison := mkDriftComparison {
  dp_ProductGeneratedDigest : string;
  dp_GitDesiredDigest : string;
  dp_LiveObservedDigest : string;
  dp_Classification : string;
}.
#[export] Instance eta_DriftComparison : Eta DriftComparison := fun r =>
  mkDriftComparison
    (dp_ProductGeneratedDigest r) (dp_GitDesiredDigest r) (dp_LiveObservedDigest r)
    (dp_Classification r).
#[export] Instance set_dp_ProductGeneratedDigest : Setter dp_ProductGeneratedDigest := ltac:(derive_setter).
#[export] Instance set_dp_GitDesiredDigest : Setter dp_GitDesiredDigest := ltac:(derive_setter).
#[export] Instance set_dp_LiveObservedDigest : Setter dp_LiveObservedDigest := ltac:(derive_setter).
#[export] Instance set_dp_Classification : Setter dp_Classification := ltac:(derive_setter).

(** [DriftFinding] *)
Record DriftFinding := mkDriftFinding {
  df_Fingerprint : string;
  df_Category : string;
  df_Code : string;
  df_Severity : DriftSeverity;
  df_Owner : string;
  df_Resource : string;
  df_Summary : string;
  df_FirstSeenAt : Time;
  df_LastSeenAt : Time;
  df_Occurrences : Z;
  df_Remediation : DriftRemediation;
}.
#[export] Instance eta_DriftFinding : Eta DriftFinding := fun r =>
  mkDriftFinding
    (df_Fingerprint r) (df_Category r) (df_Code r) (df_Severity r) (df_Owner r) (df_Resource
    r) (df_Summary r) (df_FirstSeenAt r) (df_LastSeenAt r) (df_Occurrences r) (df_Remediation
    r).
#[export] Instance set_df_Fingerprint : Setter df_Fingerprint := ltac:(derive_setter).
#[export] Instance set_df_Category : Setter df_Category := ltac:(derive_setter).
#[export] Instance set_df_Code : Setter df_Code := ltac:(derive_setter).
#[export] Instance set_df_Severity : Setter df_Severity := ltac:(derive_setter).
#[export] Instance set_df_Owner : Setter df_Owner := ltac:(derive_setter).
#[export] Instance set_df_Resource : Setter df_Resource := ltac:(derive_setter).
#[export] Instance set_df_Summary : Setter df_Summary := ltac:(derive_setter).
#[export] Instance set_df_FirstSeenAt : Setter df_FirstSeenAt := ltac:(derive_setter).
#[export] Instance set_df_LastSeenAt : Setter df_LastSeenAt := ltac:(derive_setter).
#[export] Instance set_df_Occurrences : Setter df_Occurrences := ltac:(derive_setter).
#[export] Instance set_df_Remediation : Setter df_Remediation := ltac:(derive_setter).

(** [DriftScanTarget] *)
Record DriftScanTarget := mkDriftScanTarget {
  dt_ClusterID : string;
  dt_BaselineDeploymentID : string;
  dt_BaselineID : string;
  dt_BaselineVersion : string;
  dt_DesiredDigest : string;
  dt_ObservedDigest : string;
  dt_State : DriftTargetState;
  dt_Changes : list BaselinePlanChange;
  dt_LastError : string;
  dt_StartedAt : option Time;
  dt_FinishedAt : option Time;
  dt_Attempt : Z;
  dt_Git : option GitDriftEvidence;
  dt_Comparison : option DriftComparison;
  dt_Findings : list DriftFinding;
}.
#[export] Instance eta_DriftScanTarget : Eta DriftScanTarget := fun r =>
  mkDriftScanTarget
    (dt_ClusterID r) (dt_BaselineDeploymentID r) (dt_BaselineID r) (dt_BaselineVersion r)
    (dt_DesiredDigest r) (dt_ObservedDigest r) (dt_State r) (dt_Changes r) (dt_LastError r)
    (dt_StartedAt r) (dt_FinishedAt r) (dt_Attempt r) (dt_Git r) (dt_Comparison r)
    (dt_Findings r).
#[export] Instance set_dt_ObservedDigest : Setter dt_ObservedDigest := ltac:(derive_setter).
#[export] Instance set_dt_State : Setter dt_State := ltac:(derive_setter).
#[export] Instance set_dt_Changes : Setter dt_Changes := ltac:(derive_setter).
#[export] Instance set_dt_LastError : Setter dt_LastError := ltac:(derive_setter).
#[export] Instance set_dt_StartedAt : Setter dt_StartedAt := ltac:(derive_setter).
#[export] Instance set_dt_FinishedAt : Setter dt_FinishedAt := ltac:(derive_setter).
#[export] Instance set_dt_Attempt : Setter dt_Attempt := ltac:(derive_setter).
#[export] Instance set_dt_Git : Setter dt_Git := ltac:(derive_setter).
#[export] Instance set_dt_Comparison : Setter dt_Comparison := ltac:(derive_setter).
#[export] Instance set_dt_Findings : Setter dt_Findings := ltac:(derive_setter).

(** [DriftScan] *)
Record DriftScan := mkDriftScan {
  ds_Meta : ResourceMeta;
  ds_ProjectID : string;
  ds_FleetGroupID : string;
  ds_State : DriftScanState;
  ds_Targets : list DriftScanTarget;
  ds_RequestedBy : string;
  ds_IdempotencyKey : string;
  ds_RequestDigest : string;
  ds_StartedAt : option Time;
  ds_FinishedAt : option Time;
  ds_Summary : string;
}.
#[export] Instance eta_DriftScan : Eta DriftScan := fun r =>
  mkDriftScan
    (ds_Meta r) (ds_ProjectID r) (ds_FleetGroupID r) (ds_State r) (ds_Targets r)
    (ds_RequestedBy r) (ds_IdempotencyKey r) (ds_RequestDigest r) (ds_StartedAt r)
    (ds_FinishedAt r) (ds_Summary r).
#[export] Instance set_ds_Meta : Setter ds_Meta := ltac:(derive_setter).
#[export] Instance set_ds_State : Setter ds_State := ltac:(derive_setter).
#[export] Instance set_ds_Targets : Setter ds_Targets := ltac:(derive_setter).
#[export] Instance set_ds_RequestedBy : Setter ds_RequestedBy := ltac:(derive_setter).
#[export] Instance set_ds_StartedAt : Setter ds_StartedAt := ltac:(derive_setter).
#[export] Instance set_ds_FinishedAt : Setter ds_FinishedAt := ltac:(derive_setter).
#[export] Instance set_ds_Summary : Setter ds_Summary := ltac:(derive_setter).

(** [DriftTaskResult] *)
Record DriftTaskResult := mkDriftTaskResult {
  dtr_ScanID : string;
  dtr_ClusterID : string;
  dtr_Success : bool;
  dtr_ObservedDigest : string;
  dtr_Changes : list BaselinePlanChange;
  dtr_GitObservedDigest : string;
  dtr_Error : string;
}.

(** ** Cluster maintenance *)

(** [ClusterEnvironment]: requests choose the text *)
Abbreviation ClusterEnvironment := string (only parsing).
Definition ClusterEnvironmentDevelopment : ClusterEnvironment := "DEVELOPMENT".
Definition ClusterEnvironmentStaging : ClusterEnvironment := "STAGING".
Definition ClusterEnvironmentProduction : ClusterEnvironment := "PRODUCTION".

(** [ClusterMaintenanceProfile] *)
Record ClusterMaintenanceProfile := mkClusterMaintenanceProfile {
  mp_Meta : ResourceMeta;
  mp_ProjectID : string;
  mp_ClusterID : string;
  mp_Environment : ClusterEnvironment;
  mp_DefaultDrainTimeoutSeconds : Z;
  mp_UpdatedBy : string;
}.
#[export] Instance eta_ClusterMaintenanceProfile : Eta ClusterMaintenanceProfile := fun r =>
  mkClusterMaintenanceProfile
    (mp_Meta r) (mp_ProjectID r) (mp_ClusterID r) (mp_Environment r)
    (mp_DefaultDrainTimeoutSeconds r) (mp_UpdatedBy r).
#[export] Instance set_mp_Meta : Setter mp_Meta := ltac:(derive_setter).
#[export] Instance set_mp_ProjectID : Setter mp_ProjectID := ltac:(derive_setter).
#[export] Instance set_mp_Environment : Setter mp_Environment := ltac:(derive_setter).
#[export] Instance set_mp_UpdatedBy : Setter mp_UpdatedBy := ltac:(derive_setter).

(** [ClusterMaintenanceWindowState] *)
Inductive ClusterMaintenanceWindowState : Type :=
| ClusterMaintenanceWindowActive
| ClusterMaintenanceWindowCancelled.
#[export] Instance ClusterMaintenanceWindowState_eq_dec : EqDecision ClusterMaintenanceWindowState.
Proof. solve_decision. Defined.

(** [ClusterMaintenanceWindow] *)
Record ClusterMaintenanceWindow := mkClusterMaintenanceWindow {
  mw_Meta : ResourceMeta;
  mw_ProjectID : string;
  mw_ClusterID : string;
  mw_Name : string;
  mw_StartsAt : Time;
  mw_EndsAt : Time;
  mw_MaxUnavailable : Z;
  mw_DrainTimeoutSeconds : Z;
  mw_State : ClusterMaintenanceWindowState;
  mw_CreatedBy : string;
  mw_CancelledBy : string;
  mw_CancelledAt : option Time;
}.
#[export] Instance eta_ClusterMaintenanceWindow : Eta ClusterMaintenanceWindow := fun r =>
  mkClusterMaintenanceWindow
    (mw_Meta r) (mw_ProjectID r) (mw_ClusterID r) (mw_Name r) (mw_StartsAt r) (mw_EndsAt r)
    (mw_MaxUnavailable r) (mw_DrainTimeoutSeconds r) (mw_State r) (mw_CreatedBy r)
    (mw_CancelledBy r) (mw_CancelledAt r).
#[export] Instance set_mw_Meta : Setter mw_Meta := ltac:(derive_setter).
#[export] Instance set_mw_ProjectID : Setter mw_ProjectID := ltac:(derive_setter).
#[export] Instance set_mw_ClusterID : Setter mw_ClusterID := ltac:(derive_setter).
#[export] Instance set_mw_Name : Setter mw_Name := ltac:(derive_setter).
#[export] Instance set_mw_StartsAt : Setter mw_StartsAt := ltac:(derive_setter).
#[export] Instance set_mw_EndsAt : Setter mw_EndsAt := ltac:(derive_setter).
#[export] Instance set_mw_MaxUnavailable : Setter mw_MaxUnavailable := ltac:(derive_setter).
#[export] Instance set_mw_DrainTimeoutSeconds : Setter mw_DrainTimeoutSeconds := ltac:(derive_setter).
#[export] Instance set_mw_State : Setter mw_State := ltac:(derive_setter).
#[export] Instance set_mw_CreatedBy : Setter mw_CreatedBy := ltac:(derive_setter).
#[export] Instance set_mw_CancelledBy : Setter mw_CancelledBy := ltac:(derive_setter).
#[export] Instance set_mw_CancelledAt : Setter mw_CancelledAt := ltac:(derive_setter).

(** [ClusterMaintenanceRunState] *)
Inductive ClusterMaintenanceRunState : Type :=
| ClusterMaintenanceAwaitingApproval
| ClusterMaintenanceQueued
| ClusterMaintenanceRunning
| ClusterMaintenanceRestoring
| ClusterMaintenanceSucceeded
| ClusterMaintenanceFailed
| ClusterMaintenanceNeedsOperator
| ClusterMaintenanceCancelled.
#[export] Instance ClusterMaintenanceRunState_eq_dec : EqDecision ClusterMaintenanceRunState.
Proof. solve_decision. Defined.
Definition ClusterMaintenanceRunState_string (v : ClusterMaintenanceRunState) : string :=
  match v with
  | ClusterMaintenanceAwaitingApproval => "AWAITING_APPROVAL"
  | ClusterMaintenanceQueued => "QUEUED"
  | ClusterMaintenanceRunning => "RUNNING"
  | ClusterMaintenanceRestoring => "RESTORING"
  | ClusterMaintenanceSucceeded => "SUCCEEDED"
  | ClusterMaintenanceFailed => "FAILED"
  | ClusterMaintenanceNeedsOperator => "NEEDS_OPERATOR"
  | ClusterMaintenanceCancelled => "CANCELLED"
  end.

(** [NodeMaintenanceResult] *)
Record NodeMaintenanceResult := mkNodeMaintenanceResult {
  nr_NodeName : string;
  nr_Cordoned : bool;
  nr_DrainAttempted : bool;
  nr_Drained : bool;
  nr_Uncordoned : bool;
  nr_EvictedPods : list string;
  nr_SkippedPods : list string;
  nr_PDBBlockedPods : list string;
  nr_HostActionAttempted : bool;
  nr_HostActionSucceeded : bool;
  nr_HostActionAuthority : string;
  nr_HostActionEvidence : string;
  nr_RebootRequired : bool;
  nr_Error : string;
}.

(** [TargetNodeLifecycleAction]: requests choose the text *)
Abbreviation TargetNodeLifecycleAction := string (only parsing).
Definition TargetNodeActionAdd : TargetNodeLifecycleAction := "ADD".
Definition TargetNodeActionDrain : TargetNodeLifecycleAction := "DRAIN".
Definition TargetNodeActionRemove : TargetNodeLifecycleAction := "REMOVE".
Definition TargetNodeActionReplace : TargetNodeLifecycleAction := "REPLACE".
Definition TargetNodeActionOSPatch : TargetNodeLifecycleAction := "OS_PATCH".
Definition TargetNodeActionCertificateRenewal : TargetNodeLifecycleAction := "CERTIFICATE_RENEWAL".
Definition TargetNodeActionRemediate : TargetNodeLifecycleAction := "REMEDIATE".

(** [ClusterMaintenanceRun] *)
Record ClusterMaintenanceRun := mkClusterMaintenanceRun {
  mr_Meta : ResourceMeta;
  mr_ProjectID : string;
  mr_ClusterID : string;
  mr_WindowID : string;
  mr_OperationID : string;
  mr_State : ClusterMaintenanceRunState;
  mr_Action : TargetNodeLifecycleAction;
  mr_NodeNames : list string;
  mr_NodeUIDs : gmap string string;
  mr_InventoryDigest : string;
  mr_MaxUnavailable : Z;
  mr_DrainTimeoutSeconds : Z;
  mr_HostActionTimeoutSeconds : Z;
  mr_RequestedBy : string;
  mr_ApprovedBy : string;
  mr_ApprovedAt : option Time;
  mr_StartedAt : option Time;
  mr_FinishedAt : option Time;
  mr_Results : list NodeMaintenanceResult;
  mr_LastError : string;
  mr_IdempotencyKey : string;
  mr_RequestDigest : string;
}.
#[export] Instance eta_ClusterMaintenanceRun : Eta ClusterMaintenanceRun := fun r =>
  mkClusterMaintenanceRun
    (mr_Meta r) (mr_ProjectID r) (mr_ClusterID r) (mr_WindowID r) (mr_OperationID r) (mr_State
    r) (mr_Action r) (mr_NodeNames r) (mr_NodeUIDs r) (mr_InventoryDigest r)
    (mr_MaxUnavailable r) (mr_DrainTimeoutSeconds r) (mr_HostActionTimeoutSeconds r)
    (mr_RequestedBy r) (mr_ApprovedBy r) (mr_ApprovedAt r) (mr_StartedAt r) (mr_FinishedAt r)
    (mr_Results r) (mr_LastError r) (mr_IdempotencyKey r) (mr_RequestDigest r).
#[export] Instance set_mr_Meta : Setter mr_Meta := ltac:(derive_setter).
#[export] Instance set_mr_ProjectID : Setter mr_ProjectID := ltac:(derive_setter).
#[export] Instance set_mr_ClusterID : Setter mr_ClusterID := ltac:(derive_setter).
#[export] Instance set_mr_WindowID : Setter mr_WindowID := ltac:(derive_setter).
#[export] Instance set_mr_OperationID : Setter mr_OperationID := ltac:(derive_setter).
#[export] Instance set_mr_State : Setter mr_State := ltac:(derive_setter).
#[export] Instance set_mr_Action : Setter mr_Action := ltac:(derive_setter).
#[export] Instance set_mr_NodeNames : Setter mr_NodeNames := ltac:(derive_setter).
#[export] Instance set_mr_NodeUIDs : Setter mr_NodeUIDs := ltac:(derive_setter).
#[export] Instance set_mr_InventoryDigest : Setter mr_InventoryDigest := ltac:(derive_setter).
#[export] Instance set_mr_MaxUnavailable : Setter mr_MaxUnavailable := ltac:(derive_setter).
#[export] Instance set_mr_DrainTimeoutSeconds : Setter mr_DrainTimeoutSeconds := ltac:(derive_setter).
#[export] Instance set_mr_HostActionTimeoutSeconds : Setter mr_HostActionTimeoutSeconds := ltac:(derive_setter).
#[export] Instance set_mr_RequestedBy : Setter mr_RequestedBy := ltac:(derive_setter).
#[export] Instance set_mr_ApprovedBy : Setter mr_ApprovedBy := ltac:(derive_setter).
#[export] Instance set_mr_ApprovedAt : Setter mr_ApprovedAt := ltac:(derive_setter).
#[export] Instance set_mr_StartedAt : Setter mr_StartedAt := ltac:(derive_setter).
#[export] Instance set_mr_FinishedAt : Setter mr_FinishedAt := ltac:(derive_setter).
#[export] Instance set_mr_Results : Setter mr_Results := ltac:(derive_setter).
#[export] Instance set_mr_LastError : Setter mr_LastError := ltac:(derive_setter).
#[export] Instance set_mr_IdempotencyKey : Setter mr_IdempotencyKey := ltac:(derive_setter).
#[export] Instance set_mr_RequestDigest : Setter mr_RequestDigest := ltac:(derive_setter).

(** [ClusterMaintenanceTaskResult] *)
Record ClusterMaintenanceTaskResult := mkClusterMaintenanceTaskResult {
  mtr_OperationFenceToken : Z;
  mtr_Success : bool;
  mtr_Results : list NodeMaintenanceResult;
  mtr_Error : string;
}.

(** ** Audit and outbox *)

(** The values the handlers put into audit metadata ([map[string]any]). *)
Inductive MetaValue : Type :=
| MStr (s : string)
| MInt (z : Z)
| MBool (b : bool)
| MTime (t : option Time)
| MStrs (l : list string).

(** [AuditEvent]; metadata keeps the order of the literal *)
Record AuditEvent := mkAuditEvent {
  au_ID : string;
  au_OccurredAt : Time;
  au_ActorID : string;
  au_Action : string;
  au_ResourceType : string;
  au_ResourceID : string;
  au_Revision : Z;
  au_RequestID : string;
  au_Metadata : list (string * MetaValue);
}.

(** The JSON document of an outbox event, kept as the value it encodes. *)
Inductive OutboxPayload : Type :=
| PayloadOrganization (v : Organization)
| PayloadMembership (v : OrganizationMembership)
| PayloadProject (v : Project)
| PayloadOperation (v : Operation)
| PayloadOperationStep (v : OperationStep)
| PayloadOperationStepTrace (v : OperationStepTrace)
| PayloadEvidence (v : EvidenceMetadata)
| PayloadCompensationStep (v : OperationCompensationStep)
| PayloadRecoveryCheckpoint (v : RecoveryCheckpoint)
| PayloadFleetGatewaySession (v : FleetGatewaySession)
| PayloadCatalogTrustKey (v : CatalogTrustKey)
| PayloadCatalogRevision (v : CatalogRevision)
| PayloadCatalogRelease (v : CatalogRelease)
| PayloadBlueprintRevision (v : BlueprintRevision)
| PayloadBlueprintRelease (v : BlueprintRelease)
| PayloadAssignment (v : Assignment)
| PayloadClusterImport (v : ClusterImport)
| PayloadManagedCluster (v : ManagedCluster)
| PayloadAgentCertificate (v : AgentCertificate)
| PayloadCertificateRotation (previous replacement : AgentCertificate)
| PayloadEntitlement (v : Entitlement)
| PayloadOEMProfile (v : OEMProfile)
| PayloadTenant (v : TenantEnvironment)
| PayloadBaselineDeployment (v : BaselineDeployment)
| PayloadFleetGroup (v : FleetGroup)
| PayloadUpgradeCampaign (v : UpgradeCampaign)
| PayloadServiceAccount (v : ServiceAccount)
| PayloadAPIToken (v : APIToken)
| PayloadMCPTrustedClient (v : MCPTrustedClient)
| PayloadMCPDelegationGrant (v : MCPDelegationGrant)
| PayloadManagedGitRevision (v : ManagedGitRevision)
| PayloadDriftScan (v : DriftScan)
| PayloadClusterMaintenanceProfile (v : ClusterMaintenanceProfile)
| PayloadClusterMaintenanceWindow (v : ClusterMaintenanceWindow)
| PayloadClusterMaintenanceRun (v : ClusterMaintenanceRun).

(** [OutboxEvent] *)
Record OutboxEvent := mkOutboxEvent {
  ob_Meta : ResourceMeta;
  ob_AggregateType : string;
  ob_AggregateID : string;
  ob_EventType : string;
  ob_Payload : OutboxPayload;
  ob_AvailableAt : Time;
  ob_ClaimedBy : string;
  ob_ClaimedUntil : option Time;
  ob_Attempt : Z;
  ob_PublishedAt : option Time;
}.
#[export] Instance eta_OutboxEvent : Eta OutboxEvent := fun r =>
  mkOutboxEvent
    (ob_Meta r) (ob_AggregateType r) (ob_AggregateID r) (ob_EventType r) (ob_Payload r)
    (ob_AvailableAt r) (ob_ClaimedBy r) (ob_ClaimedUntil r) (ob_Attempt r) (ob_PublishedAt r).
#[export] Instance set_ob_Meta : Setter ob_Meta := ltac:(derive_setter).
#[export] Instance set_ob_ClaimedBy : Setter ob_ClaimedBy := ltac:(derive_setter).
#[export] Instance set_ob_ClaimedUntil : Setter ob_ClaimedUntil := ltac:(derive_setter).
#[export] Instance set_ob_Attempt : Setter ob_Attempt := ltac:(derive_setter).
#[export] Instance set_ob_PublishedAt : Setter ob_PublishedAt := ltac:(derive_setter).
