(* ===== verification/Ordering.v ===== *)
(** * Orders of resources

    [resource_ordering.go]: listings and task queues are sorted by creation
    time, then identifier.  The order is a total preorder, so the first entry of
    a sorted list precedes every other. *)
From S2P Require Import Prelude GoStrings Model.

Definition resourceCreatedBefore (left right : ResourceMeta) : bool :=
  if rm_CreatedAt left == rm_CreatedAt right then string_lt (rm_ID left) (rm_ID right)
  else rm_CreatedAt left <? rm_CreatedAt right.

(** [left] does not come after [right] *)
Definition created_le (left right : ResourceMeta) : Prop := resourceCreatedBefore right left = false.
#[export] Instance created_le_dec : RelDecision created_le.
Proof. intros a b. unfold created_le. apply _. Defined.

#[export] Instance created_le_total : Total created_le.
Proof.
  intros a b. unfold created_le, resourceCreatedBefore.
  destruct (decide (rm_CreatedAt a = rm_CreatedAt b)) as [E|E].
  - rewrite !bool_decide_eq_true_2 by done. destruct (string_lt (rm_ID b) (rm_ID a)) eqn:Hlt; [right|by left].
    by apply string_lt_asym.
  - rewrite !bool_decide_eq_false_2 by done. lia.
Qed.
#[export] Instance created_le_trans : Transitive created_le.
Proof.
  intros a b c. unfold created_le, resourceCreatedBefore.
  repeat case_bool_decide; try lia; try congruence. eauto using string_not_lt_trans.
Qed.

(** ** Sorting values by their metadata *)

Section by_meta.
Context {V : Type} (meta : V -> ResourceMeta).

Definition by_created (a b : V) : Prop := created_le (meta a) (meta b).
#[export] Instance by_created_dec : RelDecision by_created.
Proof. intros a b. unfold by_created. apply _. Defined.
#[export] Instance by_created_total : Total by_created.
Proof. intros a b. apply created_le_total. Qed.
#[export] Instance by_created_trans : Transitive by_created.
Proof. intros a b c. apply created_le_trans. Qed.

(** the values of a map that pass [P], oldest first *)
Definition oldest_first (P : V -> bool) (m : gmap string V) : list V :=
  merge_sort by_created (map_select (fun _ => P) m).

Lemma elem_of_oldest P m v : v ∈ oldest_first P m <-> exists k, m !! k = Some v /\ P v = true.
Proof. unfold oldest_first. rewrite (merge_sort_Permutation by_created). apply elem_of_map_select. Qed.

Lemma oldest_head P m v rest :
  oldest_first P m = v :: rest ->
  (exists k, m !! k = Some v /\ P v = true) /\
  forall k x, m !! k = Some x -> P x = true -> by_created v x.
Proof.
  intros E. split; [apply elem_of_oldest; rewrite E; left|]. intros k x Hk Hx.
  assert (Hin : x ∈ v :: rest) by (rewrite <- E; apply elem_of_oldest; eauto).
  pose proof (StronglySorted_merge_sort by_created (map_select (fun _ => P) m)) as Hs.
  change (merge_sort by_created _) with (oldest_first P m) in Hs. rewrite E in Hs.
  apply elem_of_cons in Hin as [->|Hin]; [by destruct (by_created_total v v)|].
  apply StronglySorted_inv in Hs as [_ Hs]. rewrite Forall_forall in Hs. by apply Hs.
Qed.
End by_meta.
