(* ===== verification/Listing.v ===== *)
(** * Sorted listings

    Listings collect the values of a map in iteration order and sort them with a
    comparison written as nested tests ([sort.Slice]).  A comparison is a strict
    weak order when it is built lexicographically from keys; sorting by it gives
    a list in which no element precedes an earlier one, and the sorted list does
    not depend on the order of iteration when the keys are distinct. *)
From S2P Require Import Prelude GoStrings.
From Stdlib Require Import Structures.OrdersEx.

(** ** Comparisons *)

Class WeakOrder {A} (less : A -> A -> bool) := {
  less_asym a b : less a b = true -> less b a = false;
  not_less_trans a b c : less b a = false -> less c b = false -> less c a = false
}.

Definition not_after {A} (less : A -> A -> bool) (a b : A) : Prop := less b a = false.
#[export] Instance not_after_dec {A} (less : A -> A -> bool) : RelDecision (not_after less).
Proof. intros a b. unfold not_after. apply _. Defined.
#[export] Instance not_after_total {A} (less : A -> A -> bool) `{!WeakOrder less} : Total (not_after less).
Proof. intros a b. unfold not_after. destruct (less b a) eqn:E; [right; by apply less_asym|by left]. Qed.
#[export] Instance not_after_trans {A} (less : A -> A -> bool) `{!WeakOrder less} : Transitive (not_after less).
Proof. intros a b c. apply not_less_trans. Qed.

(** [sort.Slice(out, less)] *)
Definition sortSlice {A} (less : A -> A -> bool) (l : list A) : list A := merge_sort (not_after less) l.

(** ** Building comparisons *)

Definition earlier (a b : Z) : bool := a <? b.
Definition later_than (a b : Z) : bool := b <? a.
Definition string_gt (a b : string) : bool := string_lt b a.
Definition on {A K} (key : A -> K) (lt : K -> K -> bool) (a b : A) : bool := lt (key a) (key b).

(** [if key(a) != key(b) { return lt(key(a), key(b)) }; return next(a, b)] *)
Definition lexi {A K} `{!EqDecision K} (key : A -> K) (lt : K -> K -> bool) (next : A -> A -> bool) (a b : A) : bool :=
  if key a == key b then next a b else lt (key a) (key b).

(** two different keys are ordered one way or the other *)
Class Linear {K} (lt : K -> K -> bool) := linear a b : lt a b = false -> lt b a = false -> a = b.

#[export] Instance earlier_order : WeakOrder earlier.
Proof. split; unfold earlier; intros; lia. Qed.
#[export] Instance later_order : WeakOrder later_than.
Proof. split; unfold later_than; intros; lia. Qed.
#[export] Instance string_lt_order : WeakOrder string_lt.
Proof. split; [apply string_lt_asym|apply string_not_lt_trans]. Qed.
#[export] Instance string_gt_order : WeakOrder string_gt.
Proof. split; unfold string_gt; [intros a b; apply string_lt_asym|intros a b c H1 H2; eauto using string_not_lt_trans]. Qed.
#[export] Instance on_order {A K} (key : A -> K) lt `{!WeakOrder lt} : WeakOrder (on key lt).
Proof. split; unfold on; [intros a b; apply less_asym|intros a b c; apply not_less_trans]. Qed.

#[export] Instance earlier_linear : Linear earlier.
Proof. intros a b; unfold earlier; lia. Qed.
#[export] Instance later_linear : Linear later_than.
Proof. intros a b; unfold later_than; lia. Qed.
#[export] Instance string_lt_linear : Linear string_lt.
Proof.
  intros a b H1 H2. destruct (String_as_OT.compare_spec a b) as [->|H|H]; [done| |];
    apply string_lt_spec in H; congruence.
Qed.
#[export] Instance string_gt_linear : Linear string_gt.
Proof. intros a b H1 H2. by apply string_lt_linear. Qed.

#[export] Instance lexi_order {A K} `{!EqDecision K} (key : A -> K) lt next
    `{!WeakOrder lt, !Linear lt, !WeakOrder next} : WeakOrder (lexi key lt next).
Proof.
  split; unfold lexi.
  - intros a b. repeat case_bool_decide; try congruence; apply less_asym.
  - intros a b c. repeat case_bool_decide; try congruence; try apply not_less_trans.
    all: intros Hba Hcb; try congruence.
    exfalso. assert (lt (key a) (key b) = false) by congruence.
    assert (key a = key b) by (by apply linear). congruence.
Qed.

(** ** Sorted lists *)

Section sorting.
Context {A : Type} (less : A -> A -> bool) `{!WeakOrder less}.

Lemma sortSlice_perm l : sortSlice less l ≡ₚ l.
Proof. apply merge_sort_Permutation. Qed.

Lemma elem_of_sortSlice x l : x ∈ sortSlice less l <-> x ∈ l.
Proof. by rewrite sortSlice_perm. Qed.

Lemma sortSlice_sorted l : StronglySorted (not_after less) (sortSlice less l).
Proof. apply (StronglySorted_merge_sort (not_after less)). Qed.

Lemma less_irrefl a : less a a = false.
Proof. destruct (less a a) eqn:E; [by rewrite (less_asym _ _ E) in E|done]. Qed.

Lemma less_trans a b c : less a b = true -> less b c = true -> less a c = true.
Proof.
  intros H1 H2. destruct (less a c) eqn:E; [done|]. rewrite (not_less_trans _ _ _ E (less_asym _ _ H1)) in H2. done.
Qed.

(** a sorted list is determined by its elements when no two of them are
    incomparable *)
Lemma sorted_canonical (l l' : list A) :
  l ≡ₚ l' -> (forall a b, a ∈ l -> b ∈ l -> less a b = false -> less b a = false -> a = b) ->
  StronglySorted (not_after less) l -> StronglySorted (not_after less) l' -> l = l'.
Proof.
  revert l'. induction l as [|a l IH]; intros [|b l'] Hp Hu Hs Hs'.
  - done.
  - by apply Permutation_nil_l in Hp.
  - by apply symmetry, Permutation_nil_l in Hp.
  - apply StronglySorted_inv in Hs as [Hs Ha]. apply StronglySorted_inv in Hs' as [Hs' Hb].
    rewrite Forall_forall in Ha. rewrite Forall_forall in Hb.
    assert (a = b) as <-.
    { assert (Hina : a ∈ b :: l') by (rewrite <- Hp; left).
      assert (Hinb : b ∈ a :: l) by (rewrite Hp; left).
      apply Hu; [left|done| |].
      - apply elem_of_cons in Hina as [->|Hina]; [apply less_irrefl|by apply Hb].
      - apply elem_of_cons in Hinb as [->|Hinb]; [apply less_irrefl|by apply Ha]. }
    f_equal. apply IH; [by eapply Permutation_cons_inv| |done|done].
    intros x y Hx Hy. apply Hu; by right.
Qed.

Lemma sortSlice_canonical (l l' : list A) :
  l ≡ₚ l' -> (forall a b, a ∈ l -> b ∈ l -> less a b = false -> less b a = false -> a = b) ->
  sortSlice less l = sortSlice less l'.
Proof.
  intros Hp Hu. apply sorted_canonical; [by rewrite !sortSlice_perm| | |]; [|apply sortSlice_sorted..].
  intros a b. rewrite !elem_of_sortSlice. apply Hu.
Qed.

(** sorting a sorted list changes nothing *)
Lemma sortSlice_sorted_id (l : list A) :
  (forall a b, a ∈ l -> b ∈ l -> less a b = false -> less b a = false -> a = b) ->
  StronglySorted (not_after less) l -> sortSlice less l = l.
Proof.
  intros Hu Hs. apply sorted_canonical; [by rewrite sortSlice_perm| | |done]; [|apply sortSlice_sorted].
  intros a b. rewrite !elem_of_sortSlice. apply Hu.
Qed.
End sorting.

(** ** Boolean filters *)

Section filters.
Context {A : Type}.
Implicit Types (p q : A -> bool) (l : list A).

Lemma elem_of_bfilter p x l : x ∈ List.filter p l <-> x ∈ l /\ p x = true.
Proof. by rewrite !list_elem_of_In, filter_In. Qed.

Lemma elem_of_snoc x y l : x ∈ (l ++ [y])%list <-> x ∈ l \/ x = y.
Proof. by rewrite elem_of_app, list_elem_of_singleton. Qed.

Lemma bfilter_perm p l l' : l ≡ₚ l' -> List.filter p l ≡ₚ List.filter p l'.
Proof.
  induction 1 as [|x l l' _ IH|x y l|l1 l2 l3 _ IH1 _ IH2]; cbn.
  - done.
  - destruct (p x); [by constructor|done].
  - destruct (p x), (p y); try done. constructor.
  - by etrans.
Qed.

Lemma bfilter_and p q l : List.filter (fun x => p x && q x) l = List.filter q (List.filter p l).
Proof. induction l as [|a l IH]; [done|]. cbn. destruct (p a); cbn; [destruct (q a)|]; by rewrite IH. Qed.

Lemma bfilter_all p l : (forall x, x ∈ l -> p x = true) -> List.filter p l = l.
Proof.
  induction l as [|a l IH]; intros H; [done|]. cbn. rewrite (H a) by left. f_equal. apply IH. intros x Hx. apply H. by right.
Qed.
Lemma bfilter_none p l : (forall x, x ∈ l -> p x = false) -> List.filter p l = [].
Proof.
  induction l as [|a l IH]; intros H; [done|]. cbn. rewrite (H a) by left. apply IH. intros x Hx. apply H. by right.
Qed.
Lemma bfilter_ext p q l : (forall x, x ∈ l -> p x = q x) -> List.filter p l = List.filter q l.
Proof.
  induction l as [|a l IH]; intros H; [done|]. cbn. rewrite (H a) by left.
  rewrite IH; [done|]. intros x Hx. apply H. by right.
Qed.

Lemma bfilter_sorted (R : relation A) p l : StronglySorted R l -> StronglySorted R (List.filter p l).
Proof.
  induction 1 as [|a l Hs IH Ha]; cbn; [constructor|]. destruct (p a); [|done].
  constructor; [done|]. rewrite Forall_forall in Ha |- *. intros x [Hx _]%elem_of_bfilter. by apply Ha.
Qed.

Lemma bfilter_NoDup p l : NoDup l -> NoDup (List.filter p l).
Proof.
  induction 1 as [|a l Ha Hl IH]; cbn; [constructor|]. destruct (p a); [|done].
  constructor; [|done]. by intros [? _]%elem_of_bfilter.
Qed.

(** in a strictly sorted list, what comes after an element is what it precedes *)
Lemma bfilter_after (less : A -> A -> bool) `{!WeakOrder less} pre x rest :
  StronglySorted (fun a b => less a b = true) (pre ++ x :: rest) ->
  List.filter (less x) (pre ++ x :: rest) = rest.
Proof.
  intros Hs. apply StronglySorted_app in Hs as (Hpre & _ & Hs). apply StronglySorted_inv in Hs as [_ Hx].
  rewrite Forall_forall in Hx. rewrite List.filter_app. cbn. rewrite (less_irrefl less).
  rewrite bfilter_none by (intros a Ha; apply less_asym, Hpre; [done|left]). by apply bfilter_all.
Qed.
End filters.

(** a sorted list without incomparable elements is strictly sorted *)
Lemma sorted_strict {A} (less : A -> A -> bool) (l : list A) :
  NoDup l -> (forall a b, a ∈ l -> b ∈ l -> less a b = false -> less b a = false -> a = b) ->
  StronglySorted (not_after less) l -> StronglySorted (fun a b => less a b = true) l.
Proof.
  intros Hnd Hu Hs. induction Hs as [|a l Hs IH Ha]; [constructor|]. apply NoDup_cons in Hnd as [Hn Hnd].
  constructor; [apply IH; [done|]; intros x y Hx Hy; apply Hu; by right|].
  rewrite Forall_forall in Ha |- *. intros x Hx. destruct (less a x) eqn:E; [done|exfalso].
  assert (a = x) as <-; [|done]. apply Hu; [left|by right|done|by apply Ha].
Qed.

(** the values of two maps that agree on those that pass a test *)
Lemma map_select_agree {V} (keep : V -> bool) (m m' : gmap string V) :
  (forall k v, keep v = true -> m !! k = Some v <-> m' !! k = Some v) ->
  map_select (fun _ => keep) m ≡ₚ map_select (fun _ => keep) m'.
Proof.
  intros H. unfold map_select. apply fmap_Permutation, NoDup_Permutation.
  1,2: apply bfilter_NoDup, NoDup_map_to_list.
  intros [k v]. rewrite !elem_of_bfilter, !elem_of_map_to_list. cbn. split; intros [Hk Hv]; split; try done; by apply H.
Qed.

(** ** Cutting at a limit *)

(** [if len(out) > limit { out = out[:limit] }], for a positive limit *)
Definition truncateTo {A} (limit : Z) (out : list A) : list A :=
  if limit <? Z.of_nat (length out) then take (Z.to_nat limit) out else out.

Lemma truncateTo_take {A} limit (out : list A) : truncateTo limit out = take (Z.to_nat limit) out.
Proof.
  unfold truncateTo. destruct (Z.ltb_spec limit (Z.of_nat (length out))); [done|].
  by rewrite take_ge by lia.
Qed.

(** the [limit] values of [rows] that come first in an order *)
Definition first_of {A} (less : A -> A -> bool) (limit : Z) (rows : list A) : list A :=
  truncateTo limit (sortSlice less rows).

(** a value that a listing leaves out does not precede any value that it has,
    and the listing is full *)
Lemma first_of_complete {A} (less : A -> A -> bool) `{!WeakOrder less} limit (rows : list A) x :
  0 <= limit -> x ∈ rows ->
  x ∈ first_of less limit rows \/
  (Z.of_nat (length (first_of less limit rows)) = limit /\
   forall y, y ∈ first_of less limit rows -> less x y = false).
Proof.
  intros Hl Hx. unfold first_of. rewrite truncateTo_take. set (l := sortSlice less rows).
  assert (Hin : x ∈ l) by by apply elem_of_sortSlice.
  pose proof (sortSlice_sorted less rows) as Hs. fold l in Hs.
  rewrite <- (take_drop (Z.to_nat limit) l) in Hin, Hs. apply elem_of_app in Hin as [Hin|Hin]; [by left|].
  right. split.
  - rewrite length_take. apply list_elem_of_lookup in Hin as [i Hi]. apply lookup_lt_Some in Hi.
    rewrite length_drop in Hi. lia.
  - intros y Hy. by apply (StronglySorted_app_1_elem_of _ _ _ y x Hs).
Qed.
