(* ===== verification/Calendar.v ===== *)
(** * The calendar of [time.Time] in UTC

    [Time] counts nanoseconds from the zero instant, January 1 of year 1; the
    durations and the fields of the proleptic Gregorian calendar follow from
    it, and so does the RFC 3339 text that [encoding/json] gives a time. *)
From S2P Require Import Prelude GoStrings Digest Model.
From Stdlib Require Import Ascii.
From Stdlib Require String.

(** [time.Second], [time.Minute] in nanoseconds *)
Definition Second : Z := 1000000000.
Definition Minute : Z := 60 * Second.

Definition daysOf (at_ : Time) : Z := at_ / (86400 * Second).
Definition SecondOf (at_ : Time) : Z := (at_ / Second) mod 60.
Definition MinuteOf (at_ : Time) : Z := (at_ / (60 * Second)) mod 60.
Definition HourOf (at_ : Time) : Z := (at_ / (3600 * Second)) mod 24.
(** the zero instant is Monday, January 1 of year 1 *)
Definition WeekdayOf (at_ : Time) : Z := (daysOf at_ + 1) mod 7.
(** year of the four-hundred-year era, month and day; years begin in March *)
Definition yearOfEra (days : Z) : Z :=
  let doe := (days + 306) mod 146097 in
  (doe - doe / 1460 + doe / 36524 - doe / 146096) / 365.
Definition civilOf (days : Z) : Z * Z :=
  let z := days + 306 in
  let doe := z mod 146097 in
  let yoe := (doe - doe / 1460 + doe / 36524 - doe / 146096) / 365 in
  let doy := doe - (365 * yoe + yoe / 4 - yoe / 100) in
  let mp := (5 * doy + 2) / 153 in
  ((if mp <? 10 then mp + 3 else mp - 9), doy - (153 * mp + 2) / 5 + 1).
Definition MonthOf (at_ : Time) : Z := (civilOf (daysOf at_)).1.
Definition DayOf (at_ : Time) : Z := (civilOf (daysOf at_)).2.
Definition YearOf (at_ : Time) : Z :=
  400 * ((daysOf at_ + 306) / 146097) + yearOfEra (daysOf at_) + (if MonthOf at_ <=? 2 then 1 else 0).

(** ** [time.Time.MarshalJSON] *)

Fixpoint decimal (n : nat) (z : Z) : string :=
  match n with
  | O => ""
  | S n' => decimal n' (z / 10) +:+ String.String (hex_digit (z mod 10)) ""
  end.

Fixpoint dropZeros (l : list ascii) : list ascii :=
  match l with
  | a :: l' => if byte_of a =? 48 then dropZeros l' else l
  | [] => []
  end.

(** the fraction of a second, without trailing zeros *)
Definition fractionOf (at_ : Time) : string :=
  if at_ mod Second =? 0 then ""
  else "." +:+ String.string_of_list_ascii
                 (rev (dropZeros (rev (String.list_ascii_of_string (decimal 9 (at_ mod Second)))))).

(** years outside 0..9999 are an error *)
Definition json_time (at_ : Time) : option string :=
  if (YearOf at_ <? 0) || (9999 <? YearOf at_) then None
  else Some (quote +:+ decimal 4 (YearOf at_) +:+ "-" +:+ decimal 2 (MonthOf at_) +:+ "-" +:+ decimal 2 (DayOf at_)
             +:+ "T" +:+ decimal 2 (HourOf at_) +:+ ":" +:+ decimal 2 (MinuteOf at_) +:+ ":" +:+ decimal 2 (SecondOf at_)
             +:+ fractionOf at_ +:+ "Z" +:+ quote).

Example json_time_examples :
  json_time 0 = Some (quote +:+ "0001-01-01T00:00:00Z" +:+ quote) /\
  json_time (739616 * 86400 * Second) = Some (quote +:+ "2026-01-01T00:00:00Z" +:+ quote) /\
  json_time (738944 * 86400 * Second + 45296 * Second + 120450000)
    = Some (quote +:+ "2024-02-29T12:34:56.12045Z" +:+ quote).
Proof. vm_compute. done. Qed.
