(* ===== verification/Inventory.v ===== *)
(** * Cluster inventories

    What an agent reports about its cluster ([model.go]), and the digest the
    control plane takes of it: the JSON document of [ClusterInventoryDigest]
    field by field.  A slice that [encoding/json] writes without [omitempty]
    is an optional list, because a nil slice is [null] and an empty one is
    the empty array; times are written in UTC. *)
From S2P Require Import Prelude GoStrings Digest Model Calendar.

(** ** Records *)

(** [ClusterNode] *)
Record ClusterNode := mkClusterNode {
  nd_Name : string;
  nd_UID : string;
  nd_Roles : list string;
  nd_OS : string;
  nd_Architecture : string;
  nd_KubeletVersion : string;
  nd_Ready : bool;
}.

(** [ClusterAddOn] *)
Record ClusterAddOn := mkClusterAddOn {
  ao_Name : string;
  ao_Namespace : string;
  ao_Version : string;
  ao_Kind : string;
  ao_Healthy : bool;
  ao_Available : string;
  ao_Progressing : string;
  ao_Degraded : string;
  ao_Upgradeable : string;
  ao_Reason : string;
  ao_Message : string;
}.

(** [ClusterStorageClass] *)
Record ClusterStorageClass := mkClusterStorageClass {
  sc_Name : string;
  sc_Provisioner : string;
  sc_ReclaimPolicy : string;
  sc_VolumeBindingMode : string;
  sc_AllowVolumeExpansion : bool;
  sc_Default : bool;
}.

(** [ClusterCapacity] *)
Record ClusterCapacity := mkClusterCapacity {
  cap_CPUCapacityMilli : Z;
  cap_CPUAllocatableMilli : Z;
  cap_MemoryCapacityBytes : Z;
  cap_MemoryAllocatableBytes : Z;
  cap_PodsCapacity : Z;
  cap_PodsAllocatable : Z;
}.

(** [ClusterAPIResourceObservation] *)
Record ClusterAPIResourceObservation := mkClusterAPIResourceObservation {
  ar_APIVersion : string;
  ar_Group : string;
  ar_Version : string;
  ar_Kind : string;
  ar_Resource : string;
  ar_Namespaced : bool;
  ar_Verbs : list string;
}.

(** [ClusterCRDVersionObservation] *)
Record ClusterCRDVersionObservation := mkClusterCRDVersionObservation {
  crv_Name : string;
  crv_Served : bool;
  crv_Storage : bool;
}.

(** [ClusterCRDObservation] *)
Record ClusterCRDObservation := mkClusterCRDObservation {
  crd_Name : string;
  crd_Group : string;
  crd_Kind : string;
  crd_Plural : string;
  crd_Scope : string;
  crd_Versions : option (list ClusterCRDVersionObservation);
}.

(** [ClusterCertificateObservation] *)
Record ClusterCertificateObservation := mkClusterCertificateObservation {
  cco_Name : string;
  cco_Subject : string;
  cco_Issuer : string;
  cco_SerialNumber : string;
  cco_Fingerprint : string;
  cco_NotBefore : Time;
  cco_NotAfter : Time;
}.

(** [ClusterNetworking] *)
Record ClusterNetworking := mkClusterNetworking {
  nw_CNI : string;
  nw_IngressControllers : list string;
  nw_GatewayAPI : bool;
}.

(** [ClusterWorkloadObservation] *)
Record ClusterWorkloadObservation := mkClusterWorkloadObservation {
  wl_Kind : string;
  wl_Namespace : string;
  wl_Name : string;
  wl_DesiredReplicas : Z;
  wl_ReadyReplicas : Z;
  wl_Succeeded : Z;
  wl_Failed : Z;
  wl_Images : list string;
}.

(** [ClusterServicePortObservation] *)
Record ClusterServicePortObservation := mkClusterServicePortObservation {
  spo_Name : string;
  spo_Port : Z;
  spo_Protocol : string;
}.

(** [ClusterServiceObservation] *)
Record ClusterServiceObservation := mkClusterServiceObservation {
  svo_Namespace : string;
  svo_Name : string;
  svo_Type_ : string;
  svo_ClusterIP : string;
  svo_ExternalIPs : list string;
  svo_Ports : list ClusterServicePortObservation;
}.

(** [ClusterIngressObservation] *)
Record ClusterIngressObservation := mkClusterIngressObservation {
  ig_Namespace : string;
  ig_Name : string;
  ig_Class : string;
  ig_Hosts : list string;
  ig_TLSHosts : list string;
}.

(** [ClusterPVCObservation] *)
Record ClusterPVCObservation := mkClusterPVCObservation {
  pvc_Namespace : string;
  pvc_Name : string;
  pvc_StorageClass : string;
  pvc_Phase : string;
  pvc_Requested : string;
}.

(** [ClusterEventObservation] *)
Record ClusterEventObservation := mkClusterEventObservation {
  evo_Namespace : string;
  evo_Type_ : string;
  evo_Reason : string;
  evo_RegardingKind : string;
  evo_RegardingName : string;
  evo_Message : string;
  evo_Count : Z;
  evo_LastObservedAt : Time;
}.

(** [ClusterWorkloadExplorer] *)
Record ClusterWorkloadExplorer := mkClusterWorkloadExplorer {
  we_Authority : string;
  we_Complete : bool;
  we_Truncated : bool;
  we_Workloads : list ClusterWorkloadObservation;
  we_Services : list ClusterServiceObservation;
  we_Ingresses : list ClusterIngressObservation;
  we_PVCs : list ClusterPVCObservation;
  we_Events : list ClusterEventObservation;
}.

(** [ClusterInventory] *)
Record ClusterInventory := mkClusterInventory {
  iv_Meta : ResourceMeta;
  iv_ClusterID : string;
  iv_ObservedAt : Time;
  iv_Distribution : string;
  iv_DistributionEvidenceMethod : string;
  iv_DistributionEvidenceUID : string;
  iv_DistributionEvidenceVersion : string;
  iv_KubernetesVersion : string;
  iv_Nodes : option (list ClusterNode);
  iv_AddOns : option (list ClusterAddOn);
  iv_StorageClasses : option (list ClusterStorageClass);
  iv_Capacity : ClusterCapacity;
  iv_Certificates : option (list ClusterCertificateObservation);
  iv_Networking : ClusterNetworking;
  iv_WorkloadExplorer : ClusterWorkloadExplorer;
  iv_APIResources : option (list ClusterAPIResourceObservation);
  iv_CRDs : option (list ClusterCRDObservation);
  iv_APIDiscoveryComplete : bool;
  iv_CRDDiscoveryComplete : bool;
  iv_SchemaDiscoveryVersion : string;
  iv_SchemaDiscoveryDigest : string;
  iv_SchemaDiscoveryComplete : bool;
  iv_Capabilities : list string;
  iv_Digest : string;
}.
#[export] Instance eta_ClusterInventory : Eta ClusterInventory := fun r =>
  mkClusterInventory
    (iv_Meta r) (iv_ClusterID r) (iv_ObservedAt r) (iv_Distribution r)
    (iv_DistributionEvidenceMethod r) (iv_DistributionEvidenceUID r)
    (iv_DistributionEvidenceVersion r) (iv_KubernetesVersion r) (iv_Nodes r) (iv_AddOns r)
    (iv_StorageClasses r) (iv_Capacity r) (iv_Certificates r) (iv_Networking r)
    (iv_WorkloadExplorer r) (iv_APIResources r) (iv_CRDs r) (iv_APIDiscoveryComplete r)
    (iv_CRDDiscoveryComplete r) (iv_SchemaDiscoveryVersion r) (iv_SchemaDiscoveryDigest r)
    (iv_SchemaDiscoveryComplete r) (iv_Capabilities r) (iv_Digest r).
#[export] Instance set_iv_Meta : Setter iv_Meta := ltac:(derive_setter).
#[export] Instance set_iv_ClusterID : Setter iv_ClusterID := ltac:(derive_setter).
#[export] Instance set_iv_Distribution : Setter iv_Distribution := ltac:(derive_setter).
#[export] Instance set_iv_Capabilities : Setter iv_Capabilities := ltac:(derive_setter).
#[export] Instance set_iv_Digest : Setter iv_Digest := ltac:(derive_setter).

(** ranging over a slice: nil is empty *)
Definition elems {A} (o : option (list A)) : list A := default [] o.

(** ** JSON *)

Definition json_bool (b : bool) : string := if b then "true" else "false".
Definition json_int (z : Z) : string := itoa z.
(** an integer or a list of strings tagged [omitempty] *)
Definition json_opt_int (k : string) (z : Z) : list (string * string) := if z == 0 then [] else [(k, json_int z)].
Definition json_opt_array (k : string) (l : list string) : list (string * string) :=
  match l with [] => [] | _ => [(k, json_array l)] end.
Definition json_opt_strings (k : string) (l : list string) : list (string * string) :=
  json_opt_array k (json_string <$> l).
Definition json_slice {A} (f : A -> string) (o : option (list A)) : string :=
  match o with None => "null" | Some l => json_array (f <$> l) end.

Definition json_ClusterNode (v : ClusterNode) : string :=
  json_object ([("name", json_string (nd_Name v)); ("uid", json_string (nd_UID v))]
    ++ json_opt_strings "roles" (nd_Roles v) ++ json_opt "os" (nd_OS v)
    ++ json_opt "architecture" (nd_Architecture v) ++ json_opt "kubeletVersion" (nd_KubeletVersion v)
    ++ [("ready", json_bool (nd_Ready v))])%list.

Definition json_ClusterAddOn (v : ClusterAddOn) : string :=
  json_object ([("name", json_string (ao_Name v)); ("namespace", json_string (ao_Namespace v))]
    ++ json_opt "version" (ao_Version v) ++ json_opt "kind" (ao_Kind v)
    ++ [("healthy", json_bool (ao_Healthy v))] ++ json_opt "available" (ao_Available v)
    ++ json_opt "progressing" (ao_Progressing v) ++ json_opt "degraded" (ao_Degraded v)
    ++ json_opt "upgradeable" (ao_Upgradeable v) ++ json_opt "reason" (ao_Reason v)
    ++ json_opt "message" (ao_Message v))%list.

Definition json_ClusterStorageClass (v : ClusterStorageClass) : string :=
  json_object ([("name", json_string (sc_Name v)); ("provisioner", json_string (sc_Provisioner v))]
    ++ json_opt "reclaimPolicy" (sc_ReclaimPolicy v) ++ json_opt "volumeBindingMode" (sc_VolumeBindingMode v)
    ++ [("allowVolumeExpansion", json_bool (sc_AllowVolumeExpansion v)); ("default", json_bool (sc_Default v))])%list.

Definition json_ClusterCapacity (v : ClusterCapacity) : string :=
  json_object [("cpuCapacityMilli", json_int (cap_CPUCapacityMilli v));
    ("cpuAllocatableMilli", json_int (cap_CPUAllocatableMilli v));
    ("memoryCapacityBytes", json_int (cap_MemoryCapacityBytes v));
    ("memoryAllocatableBytes", json_int (cap_MemoryAllocatableBytes v));
    ("podsCapacity", json_int (cap_PodsCapacity v)); ("podsAllocatable", json_int (cap_PodsAllocatable v))].

Definition json_ClusterAPIResourceObservation (v : ClusterAPIResourceObservation) : string :=
  json_object ([("apiVersion", json_string (ar_APIVersion v))] ++ json_opt "group" (ar_Group v)
    ++ [("version", json_string (ar_Version v)); ("kind", json_string (ar_Kind v));
        ("resource", json_string (ar_Resource v)); ("namespaced", json_bool (ar_Namespaced v))]
    ++ json_opt_strings "verbs" (ar_Verbs v))%list.

Definition json_ClusterCRDVersionObservation (v : ClusterCRDVersionObservation) : string :=
  json_object [("name", json_string (crv_Name v)); ("served", json_bool (crv_Served v));
    ("storage", json_bool (crv_Storage v))].

Definition json_ClusterCRDObservation (v : ClusterCRDObservation) : string :=
  json_object [("name", json_string (crd_Name v)); ("group", json_string (crd_Group v));
    ("kind", json_string (crd_Kind v)); ("plural", json_string (crd_Plural v)); ("scope", json_string (crd_Scope v));
    ("versions", json_slice json_ClusterCRDVersionObservation (crd_Versions v))].

(** the documents that hold a time fail with it *)
Definition json_ClusterCertificateObservation (v : ClusterCertificateObservation) : option string :=
  notBefore ← json_time (cco_NotBefore v);
  notAfter ← json_time (cco_NotAfter v);
  Some (json_object ([("name", json_string (cco_Name v))] ++ json_opt "subject" (cco_Subject v)
    ++ json_opt "issuer" (cco_Issuer v) ++ json_opt "serialNumber" (cco_SerialNumber v)
    ++ [("fingerprint", json_string (cco_Fingerprint v)); ("notBefore", notBefore); ("notAfter", notAfter)]))%list.

Definition json_ClusterNetworking (v : ClusterNetworking) : string :=
  json_object (json_opt "cni" (nw_CNI v) ++ json_opt_strings "ingressControllers" (nw_IngressControllers v)
    ++ [("gatewayApi", json_bool (nw_GatewayAPI v))])%list.

Definition json_ClusterWorkloadObservation (v : ClusterWorkloadObservation) : string :=
  json_object ([("kind", json_string (wl_Kind v)); ("namespace", json_string (wl_Namespace v));
        ("name", json_string (wl_Name v))]
    ++ json_opt_int "desiredReplicas" (wl_DesiredReplicas v) ++ json_opt_int "readyReplicas" (wl_ReadyReplicas v)
    ++ json_opt_int "succeeded" (wl_Succeeded v) ++ json_opt_int "failed" (wl_Failed v)
    ++ json_opt_strings "images" (wl_Images v))%list.

Definition json_ClusterServicePortObservation (v : ClusterServicePortObservation) : string :=
  json_object (json_opt "name" (spo_Name v) ++ [("port", json_int (spo_Port v))]
    ++ json_opt "protocol" (spo_Protocol v))%list.

Definition json_ClusterServiceObservation (v : ClusterServiceObservation) : string :=
  json_object ([("namespace", json_string (svo_Namespace v)); ("name", json_string (svo_Name v));
        ("type", json_string (svo_Type_ v))]
    ++ json_opt "clusterIp" (svo_ClusterIP v) ++ json_opt_strings "externalIps" (svo_ExternalIPs v)
    ++ json_opt_array "ports" (json_ClusterServicePortObservation <$> svo_Ports v))%list.

Definition json_ClusterIngressObservation (v : ClusterIngressObservation) : string :=
  json_object ([("namespace", json_string (ig_Namespace v)); ("name", json_string (ig_Name v))]
    ++ json_opt "class" (ig_Class v) ++ json_opt_strings "hosts" (ig_Hosts v)
    ++ json_opt_strings "tlsHosts" (ig_TLSHosts v))%list.

Definition json_ClusterPVCObservation (v : ClusterPVCObservation) : string :=
  json_object ([("namespace", json_string (pvc_Namespace v)); ("name", json_string (pvc_Name v))]
    ++ json_opt "storageClass" (pvc_StorageClass v) ++ json_opt "phase" (pvc_Phase v)
    ++ json_opt "requested" (pvc_Requested v))%list.

(** [omitempty] has no effect on a time *)
Definition json_ClusterEventObservation (v : ClusterEventObservation) : option string :=
  lastObservedAt ← json_time (evo_LastObservedAt v);
  Some (json_object ([("namespace", json_string (evo_Namespace v))] ++ json_opt "type" (evo_Type_ v)
    ++ json_opt "reason" (evo_Reason v) ++ json_opt "regardingKind" (evo_RegardingKind v)
    ++ json_opt "regardingName" (evo_RegardingName v) ++ json_opt "message" (evo_Message v)
    ++ json_opt_int "count" (evo_Count v) ++ [("lastObservedAt", lastObservedAt)]))%list.

Definition json_ClusterWorkloadExplorer (v : ClusterWorkloadExplorer) : option string :=
  events ← mapM json_ClusterEventObservation (we_Events v);
  Some (json_object ([("authority", json_string (we_Authority v)); ("complete", json_bool (we_Complete v));
        ("truncated", json_bool (we_Truncated v))]
    ++ json_opt_array "workloads" (json_ClusterWorkloadObservation <$> we_Workloads v)
    ++ json_opt_array "services" (json_ClusterServiceObservation <$> we_Services v)
    ++ json_opt_array "ingresses" (json_ClusterIngressObservation <$> we_Ingresses v)
    ++ json_opt_array "persistentVolumeClaims" (json_ClusterPVCObservation <$> we_PVCs v)
    ++ json_opt_array "events" events))%list.

Definition json_ClusterInventory (v : ClusterInventory) : option string :=
  certificates ← mapM json_ClusterCertificateObservation (elems (iv_Certificates v));
  workloadExplorer ← json_ClusterWorkloadExplorer (iv_WorkloadExplorer v);
  Some (json_object ([("distribution", json_string (iv_Distribution v))]
    ++ json_opt "distributionEvidenceMethod" (iv_DistributionEvidenceMethod v)
    ++ json_opt "distributionEvidenceUid" (iv_DistributionEvidenceUID v)
    ++ json_opt "distributionEvidenceVersion" (iv_DistributionEvidenceVersion v)
    ++ [("kubernetesVersion", json_string (iv_KubernetesVersion v));
        ("nodes", json_slice json_ClusterNode (iv_Nodes v));
        ("addOns", json_slice json_ClusterAddOn (iv_AddOns v));
        ("storageClasses", json_slice json_ClusterStorageClass (iv_StorageClasses v));
        ("capacity", json_ClusterCapacity (iv_Capacity v));
        ("certificates", json_slice id ((fun _ => certificates) <$> iv_Certificates v));
        ("networking", json_ClusterNetworking (iv_Networking v));
        ("workloadExplorer", workloadExplorer);
        ("apiResources", json_slice json_ClusterAPIResourceObservation (iv_APIResources v));
        ("crds", json_slice json_ClusterCRDObservation (iv_CRDs v));
        ("apiDiscoveryComplete", json_bool (iv_APIDiscoveryComplete v));
        ("crdDiscoveryComplete", json_bool (iv_CRDDiscoveryComplete v));
        ("schemaDiscoveryVersion", json_string (iv_SchemaDiscoveryVersion v));
        ("schemaDiscoveryDigest", json_string (iv_SchemaDiscoveryDigest v));
        ("schemaDiscoveryComplete", json_bool (iv_SchemaDiscoveryComplete v));
        ("capabilities", json_array (json_string <$> iv_Capabilities v))]))%list.

(** [fmt.Sprintf("sha256:%x", sha256.Sum256(raw))] *)
Definition digestBytes (raw : Bytes) : string := sha256Digest raw.

(** [raw, _ := json.Marshal(...)]: on an error the digest is that of no bytes;
    the capabilities always come from [dedupeSortedStrings], which is never nil *)
Definition ClusterInventoryDigest (v : ClusterInventory) : string :=
  digestBytes (default "" (json_ClusterInventory v)).
