(* ===== verification/Store.v ===== *)
(** * The in-memory authoritative store

    [MemoryStore] of [internal/controlplane/memory_store.go], restricted to the
    collections of the modelled components, and the four primitives every
    handler is written with: the clock, the identifier source, the audit trail
    and the transactional outbox.

    The store is built from two injected functions, [now] and [id].  Each call
    of them may answer differently, so the record keeps the functions with the
    number of calls made so far; reading the clock or drawing an identifier
    advances that number. *)
From S2P Require Import Prelude GoStrings Model Inventory.

(** [MemoryStore] *)
Record MemoryStore := mkMemoryStore {
  ms_now : nat -> Time;
  ms_id : nat -> string -> string;
  ms_ticks : nat;
  ms_ids : nat;
  ms_organizations : gmap string Organization;
  ms_organizationMemberships : gmap string OrganizationMembership;
  ms_projects : gmap string Project;
  ms_operations : gmap string Operation;
  ms_steps : gmap string OperationStep;
  ms_stepTraces : gmap string OperationStepTrace;
  ms_compensationSteps : gmap string OperationCompensationStep;
  ms_outbox : gmap string OutboxEvent;
  ms_audit : list AuditEvent;
  ms_evidence : gmap string EvidenceMetadata;
  ms_evidencePayloads : gmap string Bytes;
  ms_idempotency : gmap string string;
  ms_managedClusters : gmap string ManagedCluster;
  ms_fleetGatewaySessions : gmap string FleetGatewaySession;
  ms_agentCertificates : gmap string AgentCertificate;
  ms_recoveryCheckpoints : gmap string RecoveryCheckpoint;
  ms_operationRequestPayloads : gmap string OperationRequestPayload;
  ms_catalogTrustKeys : gmap string CatalogTrustKey;
  ms_catalogRevisions : gmap string CatalogRevision;
  ms_catalogReleases : gmap string CatalogRelease;
  ms_blueprintOverlays : gmap string BlueprintOverlay;
  ms_revisions : gmap string BlueprintRevision;
  ms_blueprintReleases : gmap string BlueprintRelease;
  ms_assignments : gmap string Assignment;
  ms_clusterImports : gmap string ClusterImport;
  ms_clusterInventories : gmap string ClusterInventory;
  ms_entitlements : gmap string Entitlement;
  ms_oemProfiles : gmap string OEMProfile;
  ms_tenants : gmap string TenantEnvironment;
  ms_baselineDeployments : gmap string BaselineDeployment;
  ms_fleetGroups : gmap string FleetGroup;
  ms_upgradeCampaigns : gmap string UpgradeCampaign;
  ms_serviceAccounts : gmap string ServiceAccount;
  ms_apiTokens : gmap string APIToken;
  ms_mcpTrustedClients : gmap string MCPTrustedClient;
  ms_mcpDelegationGrants : gmap string MCPDelegationGrant;
  ms_mcpControlJobs : gmap string MCPControlJob;
  ms_mcpControlJobIdempotency : gmap string string;
  ms_managedGitRevisions : gmap string ManagedGitRevision;
  ms_driftScans : gmap string DriftScan;
  ms_clusterMaintenanceProfiles : gmap string ClusterMaintenanceProfile;
  ms_clusterMaintenanceWindows : gmap string ClusterMaintenanceWindow;
  ms_clusterMaintenanceRuns : gmap string ClusterMaintenanceRun;
}.
#[export] Instance eta_MemoryStore : Eta MemoryStore := fun r =>
  mkMemoryStore
    (ms_now r) (ms_id r) (ms_ticks r) (ms_ids r) (ms_organizations r)
    (ms_organizationMemberships r) (ms_projects r) (ms_operations r) (ms_steps r)
    (ms_stepTraces r) (ms_compensationSteps r) (ms_outbox r) (ms_audit r) (ms_evidence r)
    (ms_evidencePayloads r) (ms_idempotency r) (ms_managedClusters r) (ms_fleetGatewaySessions
    r) (ms_agentCertificates r) (ms_recoveryCheckpoints r) (ms_operationRequestPayloads r)
    (ms_catalogTrustKeys r) (ms_catalogRevisions r) (ms_catalogReleases r) (ms_blueprintOverlays r)
    (ms_revisions r) (ms_blueprintReleases r) (ms_assignments r) (ms_clusterImports r)
    (ms_clusterInventories r) (ms_entitlements r) (ms_oemProfiles r) (ms_tenants r)
    (ms_baselineDeployments r) (ms_fleetGroups r) (ms_upgradeCampaigns r)
    (ms_serviceAccounts r) (ms_apiTokens r) (ms_mcpTrustedClients r) (ms_mcpDelegationGrants r)
    (ms_mcpControlJobs r) (ms_mcpControlJobIdempotency r) (ms_managedGitRevisions r) (ms_driftScans
    r) (ms_clusterMaintenanceProfiles r) (ms_clusterMaintenanceWindows r)
    (ms_clusterMaintenanceRuns r).
#[export] Instance set_ms_ticks : Setter ms_ticks := ltac:(derive_setter).
#[export] Instance set_ms_ids : Setter ms_ids := ltac:(derive_setter).
#[export] Instance set_ms_organizations : Setter ms_organizations := ltac:(derive_setter).
#[export] Instance set_ms_organizationMemberships : Setter ms_organizationMemberships := ltac:(derive_setter).
#[export] Instance set_ms_projects : Setter ms_projects := ltac:(derive_setter).
#[export] Instance set_ms_operations : Setter ms_operations := ltac:(derive_setter).
#[export] Instance set_ms_steps : Setter ms_steps := ltac:(derive_setter).
#[export] Instance set_ms_stepTraces : Setter ms_stepTraces := ltac:(derive_setter).
#[export] Instance set_ms_compensationSteps : Setter ms_compensationSteps := ltac:(derive_setter).
#[export] Instance set_ms_outbox : Setter ms_outbox := ltac:(derive_setter).
#[export] Instance set_ms_audit : Setter ms_audit := ltac:(derive_setter).
#[export] Instance set_ms_evidence : Setter ms_evidence := ltac:(derive_setter).
#[export] Instance set_ms_evidencePayloads : Setter ms_evidencePayloads := ltac:(derive_setter).
#[export] Instance set_ms_idempotency : Setter ms_idempotency := ltac:(derive_setter).
#[export] Instance set_ms_managedClusters : Setter ms_managedClusters := ltac:(derive_setter).
#[export] Instance set_ms_fleetGatewaySessions : Setter ms_fleetGatewaySessions := ltac:(derive_setter).
#[export] Instance set_ms_agentCertificates : Setter ms_agentCertificates := ltac:(derive_setter).
#[export] Instance set_ms_recoveryCheckpoints : Setter ms_recoveryCheckpoints := ltac:(derive_setter).
#[export] Instance set_ms_operationRequestPayloads : Setter ms_operationRequestPayloads := ltac:(derive_setter).
#[export] Instance set_ms_catalogTrustKeys : Setter ms_catalogTrustKeys := ltac:(derive_setter).
#[export] Instance set_ms_catalogRevisions : Setter ms_catalogRevisions := ltac:(derive_setter).
#[export] Instance set_ms_catalogReleases : Setter ms_catalogReleases := ltac:(derive_setter).
#[export] Instance set_ms_revisions : Setter ms_revisions := ltac:(derive_setter).
#[export] Instance set_ms_blueprintReleases : Setter ms_blueprintReleases := ltac:(derive_setter).
#[export] Instance set_ms_assignments : Setter ms_assignments := ltac:(derive_setter).
#[export] Instance set_ms_clusterImports : Setter ms_clusterImports := ltac:(derive_setter).
#[export] Instance set_ms_clusterInventories : Setter ms_clusterInventories := ltac:(derive_setter).
#[export] Instance set_ms_entitlements : Setter ms_entitlements := ltac:(derive_setter).
#[export] Instance set_ms_oemProfiles : Setter ms_oemProfiles := ltac:(derive_setter).
#[export] Instance set_ms_tenants : Setter ms_tenants := ltac:(derive_setter).
#[export] Instance set_ms_baselineDeployments : Setter ms_baselineDeployments := ltac:(derive_setter).
#[export] Instance set_ms_fleetGroups : Setter ms_fleetGroups := ltac:(derive_setter).
#[export] Instance set_ms_upgradeCampaigns : Setter ms_upgradeCampaigns := ltac:(derive_setter).
#[export] Instance set_ms_serviceAccounts : Setter ms_serviceAccounts := ltac:(derive_setter).
#[export] Instance set_ms_apiTokens : Setter ms_apiTokens := ltac:(derive_setter).
#[export] Instance set_ms_mcpTrustedClients : Setter ms_mcpTrustedClients := ltac:(derive_setter).
#[export] Instance set_ms_mcpDelegationGrants : Setter ms_mcpDelegationGrants := ltac:(derive_setter).
#[export] Instance set_ms_mcpControlJobs : Setter ms_mcpControlJobs := ltac:(derive_setter).
#[export] Instance set_ms_mcpControlJobIdempotency : Setter ms_mcpControlJobIdempotency := ltac:(derive_setter).
#[export] Instance set_ms_managedGitRevisions : Setter ms_managedGitRevisions := ltac:(derive_setter).
#[export] Instance set_ms_driftScans : Setter ms_driftScans := ltac:(derive_setter).
#[export] Instance set_ms_clusterMaintenanceProfiles : Setter ms_clusterMaintenanceProfiles := ltac:(derive_setter).
#[export] Instance set_ms_clusterMaintenanceWindows : Setter ms_clusterMaintenanceWindows := ltac:(derive_setter).
#[export] Instance set_ms_clusterMaintenanceRuns : Setter ms_clusterMaintenanceRuns := ltac:(derive_setter).

Abbreviation Store := (M MemoryStore).

(** [NewMemoryStoreWith] *)
Definition NewMemoryStoreWith (now : nat -> Time) (id : nat -> string -> string) : MemoryStore :=
  mkMemoryStore now id 0 0 ∅ ∅ ∅ ∅ ∅ ∅ ∅ ∅ [] ∅ ∅ ∅ ∅ ∅ ∅ ∅ ∅ ∅ ∅ ∅ ∅ ∅ ∅ ∅ ∅ ∅ ∅ ∅ ∅ ∅ ∅ ∅ ∅ ∅ ∅ ∅ ∅ ∅ ∅ ∅ ∅ ∅ ∅.

(** ** Clock and identifiers *)

(** [f().UTC().Truncate(time.Microsecond)] *)
Definition truncMicro (t : Time) : Time := t - t mod 1000.
Definition clock (s : MemoryStore) : Time := truncMicro (ms_now s (ms_ticks s)).
Definition tick (s : MemoryStore) : MemoryStore := s <| ms_ticks := S (ms_ticks s) |>.
Definition nowUTC : Store Time := fun s => (tick s, Ok (clock s)).

Definition fresh (s : MemoryStore) (prefix : string) : string := ms_id s (ms_ids s) prefix.
Definition draw (s : MemoryStore) : MemoryStore := s <| ms_ids := S (ms_ids s) |>.
Definition newID (prefix : string) : Store string := fun s => (draw s, Ok (fresh s prefix)).

(** ** Audit trail and outbox *)

Definition appendAuditLocked (actor action resourceType resourceID : string) (revision : Z)
    (metadata : list (string * MetaValue)) : Store unit :=
  let! id := newID "aud" in
  let! now := nowUTC in
  modify (fun s => s <| ms_audit := (ms_audit s ++
    [mkAuditEvent id now actor action resourceType resourceID revision "" metadata])%list |>).

Definition appendOutboxLocked (aggregateType aggregateID eventType : string)
    (payload : OutboxPayload) : Store unit :=
  let! now := nowUTC in
  let! id := newID "evt" in
  let e := mkOutboxEvent (newMeta id now) aggregateType aggregateID eventType payload now "" None 0 None in
  modify (fun s => s <| ms_outbox := <[id := e]> (ms_outbox s) |>).

(** ** Map writes [s.m[k] = v] *)

Definition putOperation (id : string) (v : Operation) : Store unit :=
  modify (fun s => s <| ms_operations := <[id := v]> (ms_operations s) |>).
Definition putStep (key : string) (v : OperationStep) : Store unit :=
  modify (fun s => s <| ms_steps := <[key := v]> (ms_steps s) |>).
Definition putStepTrace (key : string) (v : OperationStepTrace) : Store unit :=
  modify (fun s => s <| ms_stepTraces := <[key := v]> (ms_stepTraces s) |>).
Definition putCompensationStep (key : string) (v : OperationCompensationStep) : Store unit :=
  modify (fun s => s <| ms_compensationSteps := <[key := v]> (ms_compensationSteps s) |>).
Definition putEvidence (id : string) (v : EvidenceMetadata) : Store unit :=
  modify (fun s => s <| ms_evidence := <[id := v]> (ms_evidence s) |>).
Definition putEvidencePayload (id : string) (v : Bytes) : Store unit :=
  modify (fun s => s <| ms_evidencePayloads := <[id := v]> (ms_evidencePayloads s) |>).
Definition putIdempotency (scope id : string) : Store unit :=
  modify (fun s => s <| ms_idempotency := <[scope := id]> (ms_idempotency s) |>).
Definition putOrganization (id : string) (v : Organization) : Store unit :=
  modify (fun s => s <| ms_organizations := <[id := v]> (ms_organizations s) |>).
Definition putProject (id : string) (v : Project) : Store unit :=
  modify (fun s => s <| ms_projects := <[id := v]> (ms_projects s) |>).
Definition putMembership (id : string) (v : OrganizationMembership) : Store unit :=
  modify (fun s => s <| ms_organizationMemberships := <[id := v]> (ms_organizationMemberships s) |>).
Definition putRecoveryCheckpoint (id : string) (v : RecoveryCheckpoint) : Store unit :=
  modify (fun s => s <| ms_recoveryCheckpoints := <[id := v]> (ms_recoveryCheckpoints s) |>).
Definition putOutbox (id : string) (v : OutboxEvent) : Store unit :=
  modify (fun s => s <| ms_outbox := <[id := v]> (ms_outbox s) |>).
Definition putFleetGatewaySession (id : string) (v : FleetGatewaySession) : Store unit :=
  modify (fun s => s <| ms_fleetGatewaySessions := <[id := v]> (ms_fleetGatewaySessions s) |>).
Definition putOperationRequestPayload (id : string) (v : OperationRequestPayload) : Store unit :=
  modify (fun s => s <| ms_operationRequestPayloads := <[id := v]> (ms_operationRequestPayloads s) |>).
Definition putCatalogTrustKey (id : string) (v : CatalogTrustKey) : Store unit :=
  modify (fun s => s <| ms_catalogTrustKeys := <[id := v]> (ms_catalogTrustKeys s) |>).
Definition putCatalogRevision (id : string) (v : CatalogRevision) : Store unit :=
  modify (fun s => s <| ms_catalogRevisions := <[id := v]> (ms_catalogRevisions s) |>).
Definition putCatalogRelease (id : string) (v : CatalogRelease) : Store unit :=
  modify (fun s => s <| ms_catalogReleases := <[id := v]> (ms_catalogReleases s) |>).
Definition putBlueprintRevision (id : string) (v : BlueprintRevision) : Store unit :=
  modify (fun s => s <| ms_revisions := <[id := v]> (ms_revisions s) |>).
Definition putBlueprintRelease (id : string) (v : BlueprintRelease) : Store unit :=
  modify (fun s => s <| ms_blueprintReleases := <[id := v]> (ms_blueprintReleases s) |>).
Definition putAssignment (id : string) (v : Assignment) : Store unit :=
  modify (fun s => s <| ms_assignments := <[id := v]> (ms_assignments s) |>).

Definition putClusterImport (id : string) (v : ClusterImport) : Store unit :=
  modify (fun s => s <| ms_clusterImports := <[id := v]> (ms_clusterImports s) |>).
Definition putManagedCluster (id : string) (v : ManagedCluster) : Store unit :=
  modify (fun s => s <| ms_managedClusters := <[id := v]> (ms_managedClusters s) |>).
Definition putClusterInventory (id : string) (v : ClusterInventory) : Store unit :=
  modify (fun s => s <| ms_clusterInventories := <[id := v]> (ms_clusterInventories s) |>).
Definition putAgentCertificate (id : string) (v : AgentCertificate) : Store unit :=
  modify (fun s => s <| ms_agentCertificates := <[id := v]> (ms_agentCertificates s) |>).

Definition putEntitlement (id : string) (v : Entitlement) : Store unit :=
  modify (fun s => s <| ms_entitlements := <[id := v]> (ms_entitlements s) |>).
Definition putOEMProfile (id : string) (v : OEMProfile) : Store unit :=
  modify (fun s => s <| ms_oemProfiles := <[id := v]> (ms_oemProfiles s) |>).
Definition putTenant (id : string) (v : TenantEnvironment) : Store unit :=
  modify (fun s => s <| ms_tenants := <[id := v]> (ms_tenants s) |>).

Definition putBaselineDeployment (id : string) (v : BaselineDeployment) : Store unit :=
  modify (fun s => s <| ms_baselineDeployments := <[id := v]> (ms_baselineDeployments s) |>).
Definition putFleetGroup (id : string) (v : FleetGroup) : Store unit :=
  modify (fun s => s <| ms_fleetGroups := <[id := v]> (ms_fleetGroups s) |>).
Definition putUpgradeCampaign (id : string) (v : UpgradeCampaign) : Store unit :=
  modify (fun s => s <| ms_upgradeCampaigns := <[id := v]> (ms_upgradeCampaigns s) |>).
Definition putServiceAccount (id : string) (v : ServiceAccount) : Store unit :=
  modify (fun s => s <| ms_serviceAccounts := <[id := v]> (ms_serviceAccounts s) |>).
Definition putAPIToken (id : string) (v : APIToken) : Store unit :=
  modify (fun s => s <| ms_apiTokens := <[id := v]> (ms_apiTokens s) |>).
Definition putMCPTrustedClient (id : string) (v : MCPTrustedClient) : Store unit :=
  modify (fun s => s <| ms_mcpTrustedClients := <[id := v]> (ms_mcpTrustedClients s) |>).
Definition putMCPDelegationGrant (id : string) (v : MCPDelegationGrant) : Store unit :=
  modify (fun s => s <| ms_mcpDelegationGrants := <[id := v]> (ms_mcpDelegationGrants s) |>).
Definition putMCPControlJob (id : string) (v : MCPControlJob) : Store unit :=
  modify (fun s => s <| ms_mcpControlJobs := <[id := v]> (ms_mcpControlJobs s) |>).
Definition putMCPControlJobIdempotency (id : string) (v : string) : Store unit :=
  modify (fun s => s <| ms_mcpControlJobIdempotency := <[id := v]> (ms_mcpControlJobIdempotency s) |>).
Definition putManagedGitRevision (id : string) (v : ManagedGitRevision) : Store unit :=
  modify (fun s => s <| ms_managedGitRevisions := <[id := v]> (ms_managedGitRevisions s) |>).
Definition putDriftScan (id : string) (v : DriftScan) : Store unit :=
  modify (fun s => s <| ms_driftScans := <[id := v]> (ms_driftScans s) |>).
Definition putClusterMaintenanceProfile (id : string) (v : ClusterMaintenanceProfile) : Store unit :=
  modify (fun s => s <| ms_clusterMaintenanceProfiles := <[id := v]> (ms_clusterMaintenanceProfiles s) |>).
Definition putClusterMaintenanceWindow (id : string) (v : ClusterMaintenanceWindow) : Store unit :=
  modify (fun s => s <| ms_clusterMaintenanceWindows := <[id := v]> (ms_clusterMaintenanceWindows s) |>).
Definition putClusterMaintenanceRun (id : string) (v : ClusterMaintenanceRun) : Store unit :=
  modify (fun s => s <| ms_clusterMaintenanceRuns := <[id := v]> (ms_clusterMaintenanceRuns s) |>).

(** ** Same data

    Two stores hold the same data when they differ only in how often the clock
    and the identifier source were read.  A rejected request is required to
    leave the same data, not the same number of clock reads. *)

Definition same_data (s s' : MemoryStore) : Prop :=
  s' = s <| ms_ticks := ms_ticks s' |> <| ms_ids := ms_ids s' |>.

Lemma same_data_alt s s' :
  same_data s s' <-> exists t i, s' = s <| ms_ticks := t |> <| ms_ids := i |>.
Proof.
  split; [intros H; by exists (ms_ticks s'), (ms_ids s')|].
  intros (t & i & ->). done.
Qed.

#[export] Instance same_data_equiv : Equivalence same_data.
Proof.
  split.
  - intros []. done.
  - intros [] s' ->. done.
  - intros [] s' s'' -> ->. done.
Qed.

Lemma same_data_tick s : same_data s (tick s).
Proof. done. Qed.
Lemma same_data_draw s : same_data s (draw s).
Proof. done. Qed.
#[export] Hint Resolve same_data_tick same_data_draw : store.
#[export] Hint Extern 0 (same_data _ _) => reflexivity : store.

(** every collection is a function of the data alone *)
#[export] Instance operations_proper : Proper (same_data ==> eq) ms_operations.
Proof. intros s s' ->. done. Qed.
#[export] Instance audit_proper : Proper (same_data ==> eq) ms_audit.
Proof. intros s s' ->. done. Qed.
#[export] Instance outbox_proper : Proper (same_data ==> eq) ms_outbox.
Proof. intros s s' ->. done. Qed.
#[export] Instance compensationSteps_proper : Proper (same_data ==> eq) ms_compensationSteps.
Proof. intros s s' ->. done. Qed.

(** ** Symbolic execution of the primitives *)

Section prims.
Context {B : Type}.
Implicit Types (Q : result B -> MemoryStore -> Prop) (s : MemoryStore).

Definition addAudit (actor action rt rid : string) (rev : Z)
    (md : list (string * MetaValue)) (s : MemoryStore) : MemoryStore :=
  tick (draw s) <| ms_audit := (ms_audit s ++
    [mkAuditEvent (fresh s "aud") (clock s) actor action rt rid rev "" md])%list |>.

Definition addOutbox (at_ ai et : string) (p : OutboxPayload) (s : MemoryStore) : MemoryStore :=
  draw (tick s) <| ms_outbox :=
    <[fresh s "evt" := mkOutboxEvent (newMeta (fresh s "evt") (clock s)) at_ ai et p (clock s) "" None 0 None]>
      (ms_outbox s) |>.

Lemma wp_bind_nowUTC (k : Time -> Store B) Q s :
  wp (k (clock s)) Q (tick s) -> wp (bind nowUTC k) Q s.
Proof. done. Qed.
Lemma wp_bind_newID p (k : string -> Store B) Q s :
  wp (k (fresh s p)) Q (draw s) -> wp (bind (newID p) k) Q s.
Proof. done. Qed.
Lemma wp_bind_appendAudit a ac rt rid rev md (k : unit -> Store B) Q s :
  wp (k tt) Q (addAudit a ac rt rid rev md s) ->
  wp (bind (appendAuditLocked a ac rt rid rev md) k) Q s.
Proof. done. Qed.
Lemma wp_bind_appendOutbox at_ ai et p (k : unit -> Store B) Q s :
  wp (k tt) Q (addOutbox at_ ai et p s) ->
  wp (bind (appendOutboxLocked at_ ai et p) k) Q s.
Proof. done. Qed.
End prims.

Ltac unfold_puts :=
  unfold putOperation, putStep, putStepTrace, putCompensationStep, putEvidence,
    putEvidencePayload, putIdempotency, putOrganization, putProject, putMembership,
    putRecoveryCheckpoint, putOutbox, putFleetGatewaySession,
    putOperationRequestPayload, putCatalogTrustKey, putCatalogRevision, putCatalogRelease,
    putBlueprintRevision, putBlueprintRelease, putAssignment, putClusterImport, putManagedCluster,
    putClusterInventory, putAgentCertificate, putEntitlement, putOEMProfile, putTenant,
    putBaselineDeployment, putFleetGroup, putUpgradeCampaign,
    putServiceAccount, putAPIToken, putMCPTrustedClient, putMCPDelegationGrant,
    putMCPControlJob, putMCPControlJobIdempotency, putManagedGitRevision, putDriftScan,
    putClusterMaintenanceProfile, putClusterMaintenanceWindow, putClusterMaintenanceRun.

Ltac wp_prim ::=
  lazymatch goal with
  | |- wp (bind nowUTC _) _ _ => apply wp_bind_nowUTC
  | |- wp (bind (newID _) _) _ _ => apply wp_bind_newID
  | |- wp (bind (appendAuditLocked _ _ _ _ _ _) _) _ _ => apply wp_bind_appendAudit
  | |- wp (bind (appendOutboxLocked _ _ _ _) _) _ _ => apply wp_bind_appendOutbox
  end.
