(* ===== verification/Operations.v ===== *)
(** * Durable operations

    The operation engine of the control plane: the lifecycle table
    ([state_machine.go]), creation, orchestration transitions, leases with
    fencing tokens and step records ([memory_store.go]), and the attempt,
    verification, failure, completion and cancellation handlers
    ([operation_retry.go]). *)
From S2P Require Import Prelude GoStrings Digest Model Calendar Store.

(** ** The lifecycle table *)

Definition allowedTransitions (from : OperationState) : list OperationState :=
  match from with
  | OperationDraft => [OperationPlanning; OperationCancelled]
  | OperationPlanning => [OperationPlanFailed; OperationAwaitingApproval; OperationQueued; OperationCancelled]
  | OperationPlanFailed => [OperationPlanning; OperationCancelled]
  | OperationAwaitingApproval => [OperationApproved; OperationCancelled]
  | OperationApproved => [OperationQueued; OperationCancelled]
  | OperationQueued => [OperationRunning; OperationCancelled]
  | OperationRunning => [OperationVerifying; OperationRetryWait; OperationFailed; OperationRollingBack; OperationCancelRequested]
  | OperationRetryWait => [OperationQueued; OperationCancelled]
  | OperationCancelRequested => [OperationCancelled; OperationFailed; OperationRollingBack]
  | OperationVerifying => [OperationSucceeded; OperationRetryWait; OperationFailed; OperationRollingBack; OperationCancelRequested]
  | OperationFailed => [OperationQueued; OperationRollingBack; OperationCancelled]
  | OperationRollingBack => [OperationRolledBack; OperationRollbackFailed; OperationNeedsOperator; OperationCancelRequested]
  | OperationRollbackFailed => [OperationRollingBack; OperationNeedsOperator; OperationCancelled]
  | OperationNeedsOperator => [OperationRollingBack; OperationCancelled]
  | OperationSucceeded | OperationRolledBack | OperationCancelled => []
  end.

Definition CanTransition (from to : OperationState) : bool :=
  bool_decide (to ∈ allowedTransitions from).

Definition CanDirectOperationTransition (from to : OperationState) : bool :=
  match from with
  | OperationDraft => to == OperationPlanning
  | OperationPlanning =>
      (to == OperationPlanFailed) || (to == OperationAwaitingApproval) || (to == OperationQueued)
  | OperationPlanFailed => to == OperationPlanning
  | OperationApproved => to == OperationQueued
  | _ => false
  end.

Definition IsTerminal (state : OperationState) : bool :=
  match state with
  | OperationSucceeded | OperationRolledBack | OperationCancelled => true
  | _ => false
  end.

(** ** Operation classes and retry policies *)

Definition NormalizeOperationClass (v : OperationClass) : result OperationClass :=
  if v == "" then Ok OperationClassMutating
  else if (v == OperationClassReadOnly) || (v == OperationClassMutating)
          || (v == OperationClassDestructive) then Ok v
  else Fail ErrValidation.

Definition RetryPolicyForOperationClass (v : OperationClass) : OperationRetryPolicy :=
  if v == OperationClassReadOnly then
    mkOperationRetryPolicy 5 2 30
      [OperationFailureTransientNetwork; OperationFailureRateLimited;
       OperationFailureDependencyUnavailable; OperationFailureConflict]
  else if v == OperationClassDestructive then
    mkOperationRetryPolicy 2 10 120
      [OperationFailureTransientNetwork; OperationFailureRateLimited;
       OperationFailureDependencyUnavailable]
  else
    mkOperationRetryPolicy 3 5 60
      [OperationFailureTransientNetwork; OperationFailureRateLimited;
       OperationFailureDependencyUnavailable].

(** [t.After(at)] for a [*time.Time]: false on nil *)
Definition after (t : option Time) (at_ : Time) : bool :=
  match t with Some e => at_ <? e | None => false end.

Definition OperationLeaseActive (op : Operation) (worker : string) (fence : Z) (at_ : Time) : bool :=
  let worker := TrimSpace worker in
  (worker != "") && (0 <? fence) && (TrimSpace (op_LeaseOwner op) == worker)
  && (op_FenceToken op == fence) && after (op_LeaseExpiresAt op) at_.

Definition OperationStepReplayCompatible (existing requested : OperationStep) : bool :=
  (st_OperationID existing == st_OperationID requested)
  && (st_Attempt existing == st_Attempt requested)
  && (st_StepKey existing == st_StepKey requested)
  && (st_State existing == st_State requested)
  && (TrimSpace (st_LastError existing) == TrimSpace (st_LastError requested)).

Definition IsRetryableOperationFailure (policy : OperationRetryPolicy) (class : OperationFailureClass) : bool :=
  existsb (fun candidate => candidate == class) (rp_RetryableClasses policy).

Definition ValidOperationFailureClass (v : OperationFailureClass) : bool :=
  (v == OperationFailureTransientNetwork) || (v == OperationFailureRateLimited)
  || (v == OperationFailureDependencyUnavailable) || (v == OperationFailureConflict)
  || (v == OperationFailurePermanent) || (v == OperationFailureUnknown).


(** [for i := 1; i < attempt; i++ { if seconds >= max { seconds = max; break }; seconds *= 2 }] *)
Fixpoint backoffLoop (n : nat) (seconds max : Z) : Z :=
  match n with
  | O => seconds
  | S n' => if max <=? seconds then max else backoffLoop n' (wrap64 (seconds * 2)) max
  end.

Definition backoffSeconds (policy : OperationRetryPolicy) (attempt retryAfter : Z) : Z :=
  let max := rp_MaxBackoffSeconds policy in
  let seconds := rp_InitialBackoffSeconds policy in
  let seconds := if seconds <? 1 then 1 else seconds in
  let seconds := backoffLoop (Z.to_nat (attempt - 1)) seconds max in
  let seconds := if (0 <? max) && (max <? seconds) then max else seconds in
  if seconds <? retryAfter
  then if (0 <? max) && (max <? retryAfter) then max else retryAfter
  else seconds.

(** [time.Duration(seconds) * time.Second] *)
Definition OperationBackoff (policy : OperationRetryPolicy) (attempt retryAfter : Z) : Z :=
  wrap64 (backoffSeconds policy attempt retryAfter * Second).

Definition OperationTargetClusterID (target : string) : string :=
  let target := TrimSpace target in
  if HasPrefix target "cluster:" then TrimSpace (TrimPrefix target "cluster:")
  else if HasPrefix target "cluster/" then TrimSpace (TrimPrefix target "cluster/")
  else "".

Definition validateDestructiveRecoveryLocked (s : MemoryStore) (op : Operation) (at_ : Time)
    : result unit :=
  if op_Class op != OperationClassDestructive then Ok tt else
  let clusterID := OperationTargetClusterID (op_TargetRef op) in
  if clusterID == "" then Fail ErrPrerequisite else
  match ms_recoveryCheckpoints s !! op_RecoveryCheckpointID op with
  | None => Fail ErrPrerequisite
  | Some checkpoint =>
      if (rc_ProjectID checkpoint != op_ProjectID op) || (rc_ClusterID checkpoint != clusterID)
      then Fail ErrPrerequisite else
      if (rc_State checkpoint != RecoveryCheckpointVerified) || negb (at_ <? rc_ExpiresAt checkpoint)
      then Fail ErrPrerequisite else
      match ms_managedClusters s !! clusterID with
      | None => Fail ErrPrerequisite
      | Some cluster =>
          if (TrimSpace (mc_InventoryDigest cluster) == "")
             || (mc_InventoryDigest cluster != rc_InventoryDigest checkpoint)
          then Fail ErrPrerequisite else Ok tt
      end
  end.

(** ** Request digests *)

(** [json.Marshal(OperationRequest)] *)
Definition json_OperationRequest (r : OperationRequest) : string :=
  json_object
    ([("projectId", json_string (rq_ProjectID r)); ("kind", json_string (rq_Kind r));
      ("targetRef", json_string (rq_TargetRef r));
      ("desiredRevision", json_string (rq_DesiredRevision r));
      ("risk", json_string (rq_Risk r))]
     ++ json_opt "class" (rq_Class r)
     ++ json_opt "recoveryCheckpointId" (rq_RecoveryCheckpointID r)).

Definition operationDigest (r : OperationRequest) : string := sha256Digest (json_OperationRequest r).

(** ** Creation *)

Definition idempotencyScope (projectID key : string) : string := projectID +:+ ":" +:+ key.

Definition newOperation (meta : ResourceMeta) (r : OperationRequest) (class : OperationClass)
    (key digest actor : string) : Operation :=
  mkOperation meta (rq_ProjectID r) (rq_Kind r) (rq_TargetRef r) (rq_DesiredRevision r)
    OperationDraft (rq_Risk r) class (RetryPolicyForOperationClass class) 0 None "" false
    (TrimSpace (rq_RecoveryCheckpointID r)) "" "" "" None "" key digest actor
    "" None 0 "" "" 0 0 None None "".

Definition validRisk (risk : string) : bool :=
  (risk == "low") || (risk == "medium") || (risk == "high") || (risk == "critical").

Definition createOperationLocked (r : OperationRequest) (key actor requestID : string)
    : Store (Operation * bool) :=
  fail_if ((TrimSpace key == "") || (200 <? len key)) ErrValidation ;;;
  fail_if (TrimSpace actor == "") ErrValidation ;;;
  fail_if (negb (validRisk (rq_Risk r))) ErrValidation ;;;
  let! class := lift (NormalizeOperationClass (rq_Class r)) in
  let r := r <| rq_Class := class |> in
  let! s := get in
  let! _ := get_opt (ms_projects s !! rq_ProjectID r) ErrNotFound in
  fail_if ((rq_Kind r == "") || (rq_TargetRef r == "") || (rq_DesiredRevision r == "")) ErrValidation ;;;
  let digest := operationDigest r in
  let scope := idempotencyScope (rq_ProjectID r) key in
  match ms_idempotency s !! scope with
  | Some id =>
      let! op := get_opt (ms_operations s !! id) ErrIdempotencyConflict in
      fail_if (op_RequestDigest op != digest) ErrIdempotencyConflict ;;;
      ret (op, true)
  | None =>
      let! now := nowUTC in
      let! id := newID "op" in
      let op := newOperation (newMeta id now) r class key digest actor in
      let! op :=
        (if class == OperationClassDestructive then
           let! checkpoint := get_opt (ms_recoveryCheckpoints s !! op_RecoveryCheckpointID op) ErrPrerequisite in
           let op := op <| op_RecoveryEvidenceDigest := rc_EvidenceDigest checkpoint |>
                        <| op_RecoveryInventoryDigest := rc_InventoryDigest checkpoint |> in
           let! _ := lift (validateDestructiveRecoveryLocked s op now) in
           ret op
         else ret op) in
      putOperation id op ;;;
      putIdempotency scope id ;;;
      appendAuditLocked actor "operation.created" "operation" id (op_Revision op)
        [("requestId", MStr requestID); ("state", MStr (OperationState_string (op_State op)))] ;;;
      appendOutboxLocked "operation" id "operation.created" (PayloadOperation op) ;;;
      ret (op, false)
  end.

Definition CreateOperation := createOperationLocked.

(** ** Orchestration transitions *)

Definition clearLease (op : Operation) : Operation :=
  op <| op_LeaseOwner := "" |> <| op_LeaseExpiresAt := None |>.

Definition transitionOperationLocked (id : string) (expected : Z) (to : OperationState)
    (lastError actor : string) : Store Operation :=
  let! s := get in
  let! op := get_opt (ms_operations s !! id) ErrNotFound in
  fail_if (op_Revision op != expected) ErrConflict ;;;
  fail_if (negb (CanTransition (op_State op) to)) ErrInvalidTransition ;;;
  fail_if (negb (CanDirectOperationTransition (op_State op) to)) ErrPrerequisite ;;;
  fail_if (to == OperationRollingBack) ErrPrerequisite ;;;
  fail_if ((op_State op == OperationFailed) && (to == OperationQueued) && (0 <? op_Attempt op)) ErrPrerequisite ;;;
  let! now := nowUTC in
  let op := op <| op_State := to |> <| op_LastError := lastError |>
               <| op_Meta := bump (op_Meta op) now |> in
  let op := if IsTerminal to then clearLease op else op in
  putOperation id op ;;;
  appendAuditLocked actor "operation.transitioned" "operation" id (op_Revision op)
    [("state", MStr (OperationState_string to))] ;;;
  appendOutboxLocked "operation" id "operation.transitioned" (PayloadOperation op) ;;;
  ret op.

Definition TransitionOperation := transitionOperationLocked.

(** ** Leases and fencing tokens *)

Definition claimable (st : OperationState) : bool :=
  match st with
  | OperationQueued | OperationRunning | OperationVerifying | OperationRollingBack
  | OperationCancelRequested => true
  | _ => false
  end.

Definition ClaimOperation (id worker : string) (ttl : Z) (at_ : Time) : Store ClaimResult :=
  let worker := TrimSpace worker in
  fail_if ((worker == "") || (ttl <=? 0)) ErrValidation ;;;
  let! s := get in
  let! op := get_opt (ms_operations s !! id) ErrNotFound in
  let! op :=
    (if op_State op == OperationRetryWait then
       fail_if (match op_NextAttemptAt op with None => true | Some t => at_ <? t end) ErrNotClaimable ;;;
       let! now := nowUTC in
       let op := op <| op_State := OperationQueued |> <| op_NextAttemptAt := None |>
                    <| op_Meta := bump (op_Meta op) now |> in
       putOperation id op ;;;
       appendAuditLocked worker "operation.retry_due_queued" "operation" id (op_Revision op)
         [("attempt", MInt (inc64 (op_Attempt op)))] ;;;
       appendOutboxLocked "operation" id "operation.retry_due_queued" (PayloadOperation op) ;;;
       ret op
     else ret op) in
  fail_if (negb (claimable (op_State op))) ErrNotClaimable ;;;
  fail_if (after (op_LeaseExpiresAt op) at_ && (TrimSpace (op_LeaseOwner op) != worker)) ErrLeaseHeld ;;;
  let expires := at_ + ttl in
  let! now := nowUTC in
  let op := op <| op_FenceToken := inc64 (op_FenceToken op) |> <| op_LeaseOwner := worker |>
               <| op_LeaseExpiresAt := Some expires |> <| op_Meta := bump (op_Meta op) now |> in
  putOperation id op ;;;
  appendAuditLocked worker "operation.claimed" "operation" id (op_Revision op)
    [("fenceToken", MInt (op_FenceToken op))] ;;;
  ret (mkClaimResult id worker expires (op_FenceToken op)).

Definition RenewOperationLease (id worker : string) (fence ttl : Z) (at_ : Time) : Store ClaimResult :=
  let worker := TrimSpace worker in
  fail_if ((worker == "") || (ttl <=? 0)) ErrValidation ;;;
  let! s := get in
  let! op := get_opt (ms_operations s !! id) ErrNotFound in
  fail_if ((op_FenceToken op != fence) || (TrimSpace (op_LeaseOwner op) != worker)) ErrStaleFence ;;;
  fail_if (negb (after (op_LeaseExpiresAt op) at_)) ErrLeaseHeld ;;;
  let expires := at_ + ttl in
  let! now := nowUTC in
  let op := op <| op_LeaseExpiresAt := Some expires |> <| op_Meta := bump (op_Meta op) now |> in
  putOperation id op ;;;
  ret (mkClaimResult id worker expires fence).

Definition ReleaseOperationLease (id worker : string) (fence : Z) : Store unit :=
  let worker := TrimSpace worker in
  fail_if (worker == "") ErrValidation ;;;
  let! s := get in
  let! op := get_opt (ms_operations s !! id) ErrNotFound in
  fail_if ((op_FenceToken op != fence) || (TrimSpace (op_LeaseOwner op) != worker)) ErrStaleFence ;;;
  let! now := nowUTC in
  putOperation id (clearLease op <| op_Meta := bump (op_Meta op) now |>) ;;;
  ret tt.

(** ** Step records *)

(** [fmt.Sprintf("%s:%d:%s", operationID, attempt, stepKey)] *)
Definition stepMapKey (operationID : string) (attempt : Z) (stepKey : string) : string :=
  operationID +:+ ":" +:+ itoa attempt +:+ ":" +:+ stepKey.

Definition AppendOperationStep (step : OperationStep) (actor : string) : Store OperationStep :=
  let! s := get in
  let! op := get_opt (ms_operations s !! st_OperationID step) ErrNotFound in
  let! now := nowUTC in
  fail_if (negb (OperationLeaseActive op actor (st_FenceToken step) now)) ErrStaleFence ;;;
  fail_if (st_StepKey step == "") ErrValidation ;;;
  fail_if (op_Attempt op <? 1) ErrPrerequisite ;;;
  let step := step <| st_Attempt := op_Attempt op |> in
  let key := stepMapKey (st_OperationID step) (st_Attempt step) (st_StepKey step) in
  match ms_steps s !! key with
  | Some existing =>
      fail_if (negb (OperationStepReplayCompatible existing step)) ErrIdempotencyConflict ;;;
      ret existing
  | None =>
      let! now := nowUTC in
      let! id := newID "stp" in
      let step := step <| st_Meta := newMeta id now |> in
      putStep key step ;;;
      appendAuditLocked actor "operation_step.appended" "operationStep" id 1
        [("operationId", MStr (st_OperationID step)); ("stepKey", MStr (st_StepKey step))] ;;;
      appendOutboxLocked "operationStep" id "operation_step.appended" (PayloadOperationStep step) ;;;
      ret step
  end.

(** ** Attempts *)

Definition StartOperationAttempt (id : string) (expected : Z) (worker : string) (fence : Z)
    (actor : string) : Store Operation :=
  let! s := get in
  let! op := get_opt (ms_operations s !! id) ErrNotFound in
  fail_if (op_Revision op != expected) ErrConflict ;;;
  fail_if (op_State op != OperationQueued) ErrInvalidTransition ;;;
  fail_if ((op_LeaseOwner op != worker) || (op_FenceToken op != fence)
           || (op_LeaseExpiresAt op == None)) ErrStaleFence ;;;
  let! leaseNow := nowUTC in
  fail_if (negb (after (op_LeaseExpiresAt op) leaseNow)) ErrStaleFence ;;;
  let! recoveryNow := nowUTC in
  let! _ := lift (validateDestructiveRecoveryLocked s op recoveryNow) in
  fail_if (rp_MaxAttempts (op_RetryPolicy op) <=? op_Attempt op) ErrPrerequisite ;;;
  let! now := nowUTC in
  let op := op <| op_Attempt := inc64 (op_Attempt op) |> <| op_State := OperationRunning |>
               <| op_NextAttemptAt := None |> <| op_LastFailureClass := "" |>
               <| op_RetryExhausted := false |> <| op_Meta := bump (op_Meta op) now |> in
  putOperation id op ;;;
  appendAuditLocked actor "operation.attempt_started" "operation" id (op_Revision op)
    [("attempt", MInt (op_Attempt op)); ("maxAttempts", MInt (rp_MaxAttempts (op_RetryPolicy op)));
     ("class", MStr (op_Class op)); ("fenceToken", MInt fence)] ;;;
  appendOutboxLocked "operation" id "operation.attempt_started" (PayloadOperation op) ;;;
  ret op.

Definition BeginOperationVerification (id : string) (expected : Z) (worker : string) (fence : Z)
    (actor : string) : Store Operation :=
  let! s := get in
  let! op := get_opt (ms_operations s !! id) ErrNotFound in
  fail_if (op_Revision op != expected) ErrConflict ;;;
  fail_if (op_State op != OperationRunning) ErrInvalidTransition ;;;
  let! leaseNow := nowUTC in
  fail_if (negb (OperationLeaseActive op worker fence leaseNow)) ErrStaleFence ;;;
  let! now := nowUTC in
  let op := op <| op_State := OperationVerifying |> <| op_Meta := bump (op_Meta op) now |> in
  putOperation id op ;;;
  appendAuditLocked actor "operation.verification_started" "operation" id (op_Revision op)
    [("attempt", MInt (op_Attempt op))] ;;;
  appendOutboxLocked "operation" id "operation.verification_started" (PayloadOperation op) ;;;
  ret op.

Definition ReportOperationFailure (id : string) (expected : Z) (worker : string) (fence : Z)
    (report : OperationFailureReport) (actor : string) : Store Operation :=
  let! s := get in
  let! op := get_opt (ms_operations s !! id) ErrNotFound in
  fail_if (op_Revision op != expected) ErrConflict ;;;
  fail_if ((op_State op != OperationRunning) && (op_State op != OperationVerifying)
           && (op_State op != OperationRollingBack)) ErrInvalidTransition ;;;
  let! leaseNow := nowUTC in
  fail_if (negb (OperationLeaseActive op worker fence leaseNow)) ErrStaleFence ;;;
  fail_if (negb (ValidOperationFailureClass (fr_Class report)) || (TrimSpace (fr_Message report) == "")
           || (fr_RetryAfterSeconds report <? 0)) ErrValidation ;;;
  let! now := nowUTC in
  let op := clearLease (op <| op_LastError := TrimSpace (fr_Message report) |>
                           <| op_LastFailureClass := fr_Class report |>) in
  let retryable := IsRetryableOperationFailure (op_RetryPolicy op) (fr_Class report) in
  let max := rp_MaxAttempts (op_RetryPolicy op) in
  let op :=
    if retryable && (op_Attempt op <? max) then
      op <| op_State := OperationRetryWait |>
         <| op_NextAttemptAt := Some (now + OperationBackoff (op_RetryPolicy op) (op_Attempt op) (fr_RetryAfterSeconds report)) |>
         <| op_RetryExhausted := false |>
    else
      op <| op_State := OperationFailed |> <| op_NextAttemptAt := None |>
         <| op_RetryExhausted := retryable && (max <=? op_Attempt op) |> in
  let op := op <| op_Meta := bump (op_Meta op) now |> in
  putOperation id op ;;;
  appendAuditLocked actor "operation.failure_reported" "operation" id (op_Revision op)
    [("attempt", MInt (op_Attempt op)); ("failureClass", MStr (fr_Class report));
     ("code", MStr (fr_Code report)); ("retryable", MBool retryable);
     ("retryExhausted", MBool (op_RetryExhausted op)); ("nextAttemptAt", MTime (op_NextAttemptAt op))] ;;;
  appendOutboxLocked "operation" id "operation.failure_reported" (PayloadOperation op) ;;;
  ret op.

Definition CompleteOperation (id : string) (expected : Z) (worker : string) (fence : Z)
    (actor : string) : Store Operation :=
  let! s := get in
  let! op := get_opt (ms_operations s !! id) ErrNotFound in
  fail_if (op_Revision op != expected) ErrConflict ;;;
  fail_if (op_State op != OperationVerifying) ErrPrerequisite ;;;
  let! leaseNow := nowUTC in
  fail_if (negb (OperationLeaseActive op worker fence leaseNow)) ErrStaleFence ;;;
  let! now := nowUTC in
  let op := clearLease (op <| op_State := OperationSucceeded |>) <| op_NextAttemptAt := None |>
              <| op_Meta := bump (op_Meta op) now |> in
  putOperation id op ;;;
  appendAuditLocked actor "operation.succeeded" "operation" id (op_Revision op)
    [("attempt", MInt (op_Attempt op))] ;;;
  appendOutboxLocked "operation" id "operation.succeeded" (PayloadOperation op) ;;;
  ret op.

(** ** Cancellation *)

Definition RequestOperationCancellation (id : string) (expected : Z) (actor reason : string)
    : Store Operation :=
  let! s := get in
  let! op := get_opt (ms_operations s !! id) ErrNotFound in
  fail_if (op_Revision op != expected) ErrConflict ;;;
  let reason := TrimSpace reason in
  fail_if (reason == "") ErrValidation ;;;
  fail_if (IsTerminal (op_State op) || (op_State op == OperationCancelRequested)) ErrInvalidTransition ;;;
  let! now := nowUTC in
  let op := op <| op_CancelRequestedBy := actor |> <| op_CancelRequestedAt := Some now |>
               <| op_CancelReason := reason |> in
  let op :=
    match op_State op with
    | OperationRunning | OperationVerifying | OperationRollingBack =>
        op <| op_State := OperationCancelRequested |>
    | _ => clearLease (op <| op_State := OperationCancelled |>) <| op_NextAttemptAt := None |>
    end in
  let op := op <| op_Meta := bump (op_Meta op) now |> in
  putOperation id op ;;;
  appendAuditLocked actor "operation.cancellation_requested" "operation" id (op_Revision op)
    [("state", MStr (OperationState_string (op_State op))); ("reason", MStr reason)] ;;;
  appendOutboxLocked "operation" id "operation.cancellation_requested" (PayloadOperation op) ;;;
  ret op.

Definition hasCompensatableForwardLocked (s : MemoryStore) (operationID : string) : bool :=
  map_any (fun _ step => (cs_OperationID step == operationID) && cs_ForwardCompleted step
                         && (cs_Strategy step != CompensationNone)) (ms_compensationSteps s).

Definition AcknowledgeOperationCancellation (id : string) (expected : Z) (worker : string) (fence : Z)
    (actor : string) : Store Operation :=
  let! s := get in
  let! op := get_opt (ms_operations s !! id) ErrNotFound in
  fail_if (op_Revision op != expected) ErrConflict ;;;
  fail_if (op_State op != OperationCancelRequested) ErrInvalidTransition ;;;
  fail_if (hasCompensatableForwardLocked s id) ErrPrerequisite ;;;
  let! leaseNow := nowUTC in
  fail_if (negb (OperationLeaseActive op worker fence leaseNow)) ErrStaleFence ;;;
  let! now := nowUTC in
  let op := clearLease (op <| op_State := OperationCancelled |>) <| op_NextAttemptAt := None |>
              <| op_Meta := bump (op_Meta op) now |> in
  putOperation id op ;;;
  appendAuditLocked actor "operation.cancelled_at_safe_boundary" "operation" id (op_Revision op)
    [("attempt", MInt (op_Attempt op)); ("reason", MStr (op_CancelReason op))] ;;;
  appendOutboxLocked "operation" id "operation.cancelled" (PayloadOperation op) ;;;
  ret op.
