(* ===== verification/Recovery.v ===== *)
(** * Recovery authority

    Recovery checkpoints ([recovery_checkpoint_store.go]), request payloads
    with approval ([operation_request_payload.go]) and the resolution of
    operations whose outcome is unknown ([operation_unknown_recovery.go]). *)
From S2P Require Import Prelude GoStrings Digest Model Calendar Store Operations.

(** ** Recovery checkpoints *)


(** the normalized checkpoint, or the error *)
Definition ValidateRecoveryCheckpointCreate (v : RecoveryCheckpoint) (cluster : ManagedCluster)
    (now : Time) : result RecoveryCheckpoint :=
  let v := v <| rc_ProjectID := TrimSpace (rc_ProjectID v) |>
             <| rc_ClusterID := TrimSpace (rc_ClusterID v) |>
             <| rc_Provider := TrimSpace (rc_Provider v) |>
             <| rc_Reference := TrimSpace (rc_Reference v) |>
             <| rc_EvidenceDigest := TrimSpace (rc_EvidenceDigest v) |> in
  if (rc_ProjectID v == "") || (rc_ClusterID v == "") || (rc_Provider v == "")
     || (rc_Reference v == "") || negb (HasPrefix (rc_EvidenceDigest v) sha256_prefix)
  then Fail ErrValidation else
  if (mc_ProjectID cluster != rc_ProjectID v) || (rm_ID (mc_Meta cluster) != rc_ClusterID v)
  then Fail ErrNotFound else
  if (TrimSpace (mc_InventoryDigest cluster) == "")
     || negb (HasPrefix (mc_InventoryDigest cluster) sha256_prefix)
  then Fail ErrPrerequisite else
  if (rc_CompletedAt v == 0) || (now + Minute <? rc_CompletedAt v)
  then Fail ErrValidation else
  if (rc_ExpiresAt v == 0) || negb (now <? rc_ExpiresAt v) || negb (rc_CompletedAt v <? rc_ExpiresAt v)
  then Fail ErrValidation else Ok v.

Definition CreateRecoveryCheckpoint (v : RecoveryCheckpoint) (actor : string)
    : Store RecoveryCheckpoint :=
  let! s := get in
  let! cluster := get_opt (ms_managedClusters s !! rc_ClusterID v) ErrNotFound in
  let! now := nowUTC in
  let! v := lift (ValidateRecoveryCheckpointCreate v cluster now) in
  fail_if (map_any (fun _ existing =>
             (rc_ProjectID existing == rc_ProjectID v) && (rc_ClusterID existing == rc_ClusterID v)
             && (rc_EvidenceDigest existing == rc_EvidenceDigest v)
             && (rc_State existing != RecoveryCheckpointRevoked)) (ms_recoveryCheckpoints s))
          ErrDuplicateName ;;;
  let! id := newID "rcp" in
  let v := v <| rc_Meta := newMeta id now |> <| rc_InventoryDigest := mc_InventoryDigest cluster |>
             <| rc_State := RecoveryCheckpointVerified |> <| rc_RequestedBy := actor |> in
  putRecoveryCheckpoint id v ;;;
  appendAuditLocked actor "recovery_checkpoint.registered" "recoveryCheckpoint" id 1
    [("clusterId", MStr (rc_ClusterID v)); ("provider", MStr (rc_Provider v));
     ("evidenceDigest", MStr (rc_EvidenceDigest v))] ;;;
  appendOutboxLocked "recoveryCheckpoint" id "recovery_checkpoint.verified" (PayloadRecoveryCheckpoint v) ;;;
  ret v.

Definition RevokeRecoveryCheckpoint (id : string) (expected : Z) (actor : string)
    : Store RecoveryCheckpoint :=
  let! s := get in
  let! v := get_opt (ms_recoveryCheckpoints s !! id) ErrNotFound in
  fail_if (rm_Revision (rc_Meta v) != expected) ErrConflict ;;;
  fail_if (rc_State v != RecoveryCheckpointVerified) ErrInvalidTransition ;;;
  let! now := nowUTC in
  let v := v <| rc_State := RecoveryCheckpointRevoked |> <| rc_RevokedBy := actor |>
             <| rc_RevokedAt := Some now |> <| rc_Meta := bump (rc_Meta v) now |> in
  putRecoveryCheckpoint id v ;;;
  appendAuditLocked actor "recovery_checkpoint.revoked" "recoveryCheckpoint" id (rm_Revision (rc_Meta v)) [] ;;;
  appendOutboxLocked "recoveryCheckpoint" id "recovery_checkpoint.revoked" (PayloadRecoveryCheckpoint v) ;;;
  ret v.

(** ** Sealed request payloads *)

Definition OperationRequestPayloadAuthority : string := "DURABLE_OPERATION_REQUEST_PAYLOAD_AUTHORITY_V1".

Definition OperationRequestPayloadDigest (payload : Bytes) : string := sha256Digest payload.

Definition validateOperationRequestPayload (mediaType : string) (payload : Bytes) : result unit :=
  let mediaType := TrimSpace mediaType in
  if (mediaType == "") || (160 <? len mediaType) then Fail ErrValidation else
  if (len payload == 0) || (1024 * 1024 <? len payload) then Fail ErrValidation else Ok tt.

(** the replay test shared by the three creation handlers *)
Definition replayMatches (stored : option OperationRequestPayload) (digest mediaType : string) : bool :=
  match stored with
  | None => false
  | Some p => (pl_PayloadDigest p == digest) && (pl_MediaType p == TrimSpace mediaType)
  end.

(** seal the payload of a new operation *)
Definition sealRequestPayload (op : Operation) (actor digest mediaType : string) (payload : Bytes)
    (extra : list (string * MetaValue)) : Store unit :=
  let! now := nowUTC in
  putOperationRequestPayload (op_ID op)
    (mkOperationRequestPayload (op_ID op) digest (TrimSpace mediaType) payload now) ;;;
  appendAuditLocked actor "operation.request_payload.sealed" "operation" (op_ID op) (op_Revision op)
    ([("authority", MStr OperationRequestPayloadAuthority); ("payloadDigest", MStr digest);
      ("mediaType", MStr (TrimSpace mediaType))] ++ extra)%list.

(** [delete(s.operations, op.ID); delete(s.idempotency, ...)]: the clean-up
    of a creation whose orchestration transition failed; [op] is then the zero
    operation the failed call returned, so its ID is empty *)
Definition undoCreate (projectID key : string) : Store unit :=
  modify (fun s => s <| ms_operations := delete "" (ms_operations s) |>
                     <| ms_idempotency := delete (idempotencyScope projectID (TrimSpace key)) (ms_idempotency s) |>).

Definition orUndo (projectID key : string) (m : Store Operation) : Store Operation :=
  fun s => match m s with
           | (s', Ok op) => (s', Ok op)
           | (s', Fail e) => ((undoCreate projectID key s').1, Fail e)
           end.

Definition CreateOperationAwaitingApprovalWithPayload (r : OperationRequest)
    (key actor requestID mediaType : string) (payload : Bytes) : Store (Operation * bool) :=
  let! _ := lift (validateOperationRequestPayload mediaType payload) in
  let! (op, replay) := createOperationLocked r key actor requestID in
  let digest := OperationRequestPayloadDigest payload in
  if (replay : bool) then
    let! s := get in
    fail_if (negb (replayMatches (ms_operationRequestPayloads s !! op_ID op) digest mediaType))
      ErrIdempotencyConflict ;;;
    ret (op, true)
  else
    let! op := orUndo (rq_ProjectID r) key
      (transitionOperationLocked (op_ID op) (op_Revision op) OperationPlanning "" actor) in
    let! op := orUndo (rq_ProjectID r) key
      (transitionOperationLocked (op_ID op) (op_Revision op) OperationAwaitingApproval "" actor) in
    sealRequestPayload op actor digest mediaType payload [] ;;;
    ret (op, false).

Definition OperationBlocksExclusiveTargetMutation (op : Operation) : bool :=
  if op_State op == OperationFailed then op_LastFailureClass op == OperationFailureUnknown
  else negb (IsTerminal (op_State op)).

(** what a creation request meets on its exact target *)
Inductive ExclusiveOutcome : Type :=
| Created (op : Operation) (replay : bool)
| Blocked (blocker : Operation).

Definition CreateExclusiveOperationAwaitingApprovalWithPayload (r : OperationRequest)
    (key actor requestID mediaType : string) (payload : Bytes) : Store ExclusiveOutcome :=
  let! _ := lift (validateOperationRequestPayload mediaType payload) in
  let! s := get in
  let blocker :=
    match ms_idempotency s !! idempotencyScope (rq_ProjectID r) key with
    | Some _ => None
    | None =>
        map_find (fun _ candidate =>
          (op_ProjectID candidate == rq_ProjectID r) && (op_Kind candidate == rq_Kind r)
          && (op_TargetRef candidate == rq_TargetRef r)
          && OperationBlocksExclusiveTargetMutation candidate) (ms_operations s)
    end in
  match blocker with
  | Some (_, b) => ret (Blocked b)
  | None =>
      let! (op, replay) := createOperationLocked r key actor requestID in
      let digest := OperationRequestPayloadDigest payload in
      if (replay : bool) then
        let! s := get in
        fail_if (negb (replayMatches (ms_operationRequestPayloads s !! op_ID op) digest mediaType))
          ErrIdempotencyConflict ;;;
        ret (Created op true)
      else
        let! op := orUndo (rq_ProjectID r) key
          (transitionOperationLocked (op_ID op) (op_Revision op) OperationPlanning "" actor) in
        let! op := orUndo (rq_ProjectID r) key
          (transitionOperationLocked (op_ID op) (op_Revision op) OperationAwaitingApproval "" actor) in
        sealRequestPayload op actor digest mediaType payload [("exclusiveTarget", MBool true)] ;;;
        ret (Created op false)
  end.

Definition CreateOperationQueuedWithPayload (r : OperationRequest)
    (key actor requestID mediaType : string) (payload : Bytes) : Store (Operation * bool) :=
  let! _ := lift (validateOperationRequestPayload mediaType payload) in
  let! class := lift (NormalizeOperationClass (rq_Class r)) in
  fail_if (class != OperationClassReadOnly) ErrValidation ;;;
  let r := r <| rq_Class := class |> in
  let! (op, replay) := createOperationLocked r key actor requestID in
  let digest := OperationRequestPayloadDigest payload in
  if (replay : bool) then
    let! s := get in
    fail_if (negb (replayMatches (ms_operationRequestPayloads s !! op_ID op) digest mediaType))
      ErrIdempotencyConflict ;;;
    ret (op, true)
  else
    let! op := orUndo (rq_ProjectID r) key
      (let! op := transitionOperationLocked (op_ID op) (op_Revision op) OperationPlanning "" actor in
       transitionOperationLocked (op_ID op) (op_Revision op) OperationQueued "" actor) in
    sealRequestPayload op actor digest mediaType payload [("readOnlyQueued", MBool true)] ;;;
    ret (op, false).

(** ** Approval with separation of duties *)

Definition ApproveOperationAndQueue (id : string) (expected : Z) (actor : string) : Store Operation :=
  let! s := get in
  let! op := get_opt (ms_operations s !! TrimSpace id) ErrNotFound in
  let actor := TrimSpace actor in
  fail_if (op_Revision op != expected) ErrConflict ;;;
  fail_if ((op_State op != OperationAwaitingApproval) || (actor == "") || (actor == op_ActorID op)) ErrPrerequisite ;;;
  let! now := nowUTC in
  let op := op <| op_State := OperationApproved |> <| op_Meta := bump (op_Meta op) now |> in
  appendAuditLocked actor "operation.approved" "operation" (op_ID op) (op_Revision op)
    [("requester", MStr (op_ActorID op)); ("separationOfDuties", MBool true)] ;;;
  let! now := nowUTC in
  let op := op <| op_State := OperationQueued |> <| op_Meta := bump (op_Meta op) now |> in
  putOperation (op_ID op) op ;;;
  appendAuditLocked actor "operation.queued_after_approval" "operation" (op_ID op) (op_Revision op)
    [("separationOfDuties", MBool true)] ;;;
  appendOutboxLocked "operation" (op_ID op) "operation.queued" (PayloadOperation op) ;;;
  ret op.

(** ** Operations of unknown outcome *)

Definition OperationUnknownOutcomeRecoveryAuthority : string := "OPERATION_UNKNOWN_OUTCOME_RECOVERY_V1".
Definition OperationUnknownOutcomeConfirmedSuccess : string := "CONFIRMED_SUCCESS".
Definition OperationUnknownOutcomeConfirmedNoEffect : string := "CONFIRMED_NO_EFFECT".

Definition NormalizeUnknownOutcomeResolution (value : string) : result string :=
  let v := ToUpper (TrimSpace value) in
  if v == OperationUnknownOutcomeConfirmedSuccess then Ok OperationUnknownOutcomeConfirmedSuccess
  else if v == OperationUnknownOutcomeConfirmedNoEffect then Ok OperationUnknownOutcomeConfirmedNoEffect
  else Fail ErrValidation.

Definition validRecoveryEvidenceDigest (value : string) : bool :=
  let value := TrimSpace (ToLower value) in
  (len value == 71) && HasPrefix value sha256_prefix
  && string_all is_hex_lower (TrimPrefix value sha256_prefix).

Definition ApplyUnknownOutcomeResolution (op : Operation) (expected : Z)
    (resolution evidenceDigest actor : string) : result Operation :=
  if op_Revision op != expected then Fail ErrConflict else
  if (op_State op != OperationFailed) || (op_LastFailureClass op != OperationFailureUnknown)
  then Fail ErrPrerequisite else
  match NormalizeUnknownOutcomeResolution resolution with
  | Fail e => Fail e
  | Ok resolution =>
      let evidenceDigest := ToLower (TrimSpace evidenceDigest) in
      let actor := TrimSpace actor in
      if negb (validRecoveryEvidenceDigest evidenceDigest) || (actor == "") then Fail ErrValidation else
      let op := clearLease (op <| op_RecoveryEvidenceDigest := evidenceDigest |>)
                  <| op_NextAttemptAt := None |>
                  <| op_Meta := bump (op_Meta op) (rm_UpdatedAt (op_Meta op)) |> in
      Ok (if resolution == OperationUnknownOutcomeConfirmedSuccess then
            op <| op_State := OperationSucceeded |> <| op_LastFailureClass := "" |>
               <| op_LastError := "" |> <| op_RetryExhausted := false |>
          else
            op <| op_State := OperationFailed |> <| op_LastFailureClass := OperationFailurePermanent |>
               <| op_LastError := "authoritative recovery readback confirmed no external effect" |>
               <| op_RetryExhausted := true |>)
  end.

(** [next.UpdatedAt = now] *)
Definition stampUpdated (op : Operation) (now : Time) : Operation :=
  op <| op_Meta := mkResourceMeta (op_ID op) (op_Revision op) (rm_CreatedAt (op_Meta op)) now |>.

Definition ResolveUnknownOperationOutcome (id : string) (expected : Z)
    (resolution evidenceDigest actor : string) : Store Operation :=
  let! s := get in
  let! op := get_opt (ms_operations s !! id) ErrNotFound in
  let! next := lift (ApplyUnknownOutcomeResolution op expected resolution evidenceDigest actor) in
  let! now := nowUTC in
  let next := stampUpdated next now in
  putOperation id next ;;;
  appendAuditLocked actor "operation.unknown_outcome_resolved" "operation" id (op_Revision next)
    [("authority", MStr OperationUnknownOutcomeRecoveryAuthority); ("resolution", MStr resolution);
     ("recoveryEvidenceDigest", MStr (op_RecoveryEvidenceDigest next))] ;;;
  appendOutboxLocked "operation" id "operation.unknown_outcome_resolved" (PayloadOperation next) ;;;
  ret next.

Definition setEvidenceText (e : EvidenceMetadata) : EvidenceMetadata :=
  e <| ev_OperationID := TrimSpace (ev_OperationID e) |> <| ev_Kind := TrimSpace (ev_Kind e) |>
    <| ev_MediaType := TrimSpace (ev_MediaType e) |> <| ev_Location := TrimSpace (ev_Location e) |>.

(** [16<<20] bytes *)
Definition maxEvidencePayload : Z := 16 * 2 ^ 20.

(** evidence of the operation itself (no phase, no step) with this digest *)
Definition operationEvidence (id digest : string) (_ : string) (e : EvidenceMetadata) : bool :=
  (ev_OperationID e == id) && (ev_Digest e == digest) && (ev_Phase e == "") && (ev_StepKey e == "").

(** the payload stored for [e] is present and is the one its digest and size seal *)
Definition payloadIntact (s : MemoryStore) (e : EvidenceMetadata) (digest : string) : bool :=
  match ms_evidencePayloads s !! rm_ID (ev_Meta e) with
  | None => false
  | Some stored => (sha256Digest stored == digest) && (len stored == ev_Size e)
  end.

Definition ResolveUnknownOperationOutcomeWithEvidence (id : string) (expected : Z)
    (resolution : string) (in_ : EvidenceMetadata) (payload : Bytes) (actor : string)
    : Store (Operation * EvidenceMetadata) :=
  let id := TrimSpace id in
  let actor := TrimSpace actor in
  let in_ := setEvidenceText in_ in
  fail_if ((id == "") || (ev_OperationID in_ != id) || (ev_Kind in_ == "") || (ev_MediaType in_ == "")
           || (actor == "") || (len payload == 0) || (maxEvidencePayload <? len payload)) ErrValidation ;;;
  let digest := sha256Digest payload in
  fail_if ((ev_Digest in_ != "") && (TrimSpace (ToLower (ev_Digest in_)) != digest)) ErrValidation ;;;
  fail_if ((ev_Size in_ != 0) && (ev_Size in_ != len payload)) ErrValidation ;;;
  let! s := get in
  let! op := get_opt (ms_operations s !! id) ErrNotFound in
  let! resolution := lift (NormalizeUnknownOutcomeResolution resolution) in
  match map_find (operationEvidence id digest) (ms_evidence s) with
  | Some (_, existing) =>
      fail_if (negb (ev_HasPayload existing && ev_Sealed existing && payloadIntact s existing digest)) ErrConflict ;;;
      let successReplay := (resolution == OperationUnknownOutcomeConfirmedSuccess)
                           && (op_State op == OperationSucceeded) in
      let noEffectReplay := (resolution == OperationUnknownOutcomeConfirmedNoEffect)
                            && (op_State op == OperationFailed)
                            && (op_LastFailureClass op == OperationFailurePermanent) in
      fail_if (negb ((op_RecoveryEvidenceDigest op == digest) && (successReplay || noEffectReplay))) ErrConflict ;;;
      ret (op, existing)
  | None =>
      let! next := lift (ApplyUnknownOutcomeResolution op expected resolution digest actor) in
      let! now := nowUTC in
      let! evidenceID := newID "evd" in
      let location := if ev_Location in_ == "" then "authority://operations/" +:+ id +:+ "/recovery/" +:+ evidenceID
                      else ev_Location in_ in
      let evidence := mkEvidenceMetadata (newMeta evidenceID now) id "" "" 0 "" (ev_Kind in_) digest
                        (ev_MediaType in_) location (len payload) true true in
      let next := stampUpdated next now in
      putEvidence evidenceID evidence ;;;
      putEvidencePayload evidenceID payload ;;;
      putOperation id next ;;;
      appendAuditLocked actor "evidence.payload_sealed" "evidence" evidenceID 1
        [("operationId", MStr id); ("digest", MStr digest); ("kind", MStr (ev_Kind in_)); ("recovery", MBool true)] ;;;
      appendOutboxLocked "evidence" evidenceID "evidence.payload_sealed" (PayloadEvidence evidence) ;;;
      appendAuditLocked actor "operation.unknown_outcome_resolved" "operation" id (op_Revision next)
        [("authority", MStr OperationUnknownOutcomeRecoveryAuthority); ("resolution", MStr resolution);
         ("recoveryEvidenceDigest", MStr digest); ("evidenceId", MStr evidenceID)] ;;;
      appendOutboxLocked "operation" id "operation.unknown_outcome_resolved" (PayloadOperation next) ;;;
      ret (next, evidence)
  end.
