(* ===== verification/Evidence.v ===== *)
(** * Step traces and sealed evidence

    [operation_trace.go] and the evidence handlers of [memory_store.go]: an
    execution trace event seals one evidence payload under the worker's lease,
    and terminal success can carry its evidence in the same commit. *)
From S2P Require Import Prelude GoStrings Digest Model Store Operations Recovery.

Definition OperationStepTraceMethod : string := "OPERATION_STEP_TRACE_EVIDENCE_V1".
Definition maxOperationStepTracePayloadBytes : Z := 1024 * 1024.

Definition validOperationStepPhase (v : OperationStepPhase) : bool :=
  (v == OperationStepPhaseForward) || (v == OperationStepPhaseCompensation).

Definition validOperationStepLogLevel (v : OperationStepLogLevel) : bool :=
  (v == OperationStepLogDebug) || (v == OperationStepLogInfo) || (v == OperationStepLogWarn)
  || (v == OperationStepLogError).

Definition operationStepPayloadDigest (payload : Bytes) : string := sha256Digest payload.

(** [fmt.Sprintf("%s:%s:%s:%d:%s", ...)] *)
Definition operationStepTraceMapKey (operationID : string) (phase : OperationStepPhase)
    (stepKey : string) (attempt : Z) (traceKey : string) : string :=
  operationID +:+ ":" +:+ phase +:+ ":" +:+ stepKey +:+ ":" +:+ itoa attempt +:+ ":" +:+ traceKey.

(** who may write a trace: the operation and the attempt the trace belongs to *)
Definition validateOperationStepTraceLocked (in_ : OperationStepTraceInput) (worker : string) (fence : Z)
    : Store (Operation * Z) :=
  let! s := get in
  let! op := get_opt (ms_operations s !! ti_OperationID in_) ErrNotFound in
  fail_if ((TrimSpace worker == "") || (fence <=? 0) || (op_LeaseOwner op != worker)
           || (op_FenceToken op != fence) || (op_LeaseExpiresAt op == None)) ErrStaleFence ;;;
  let! now := nowUTC in
  fail_if (negb (after (op_LeaseExpiresAt op) now)) ErrStaleFence ;;;
  if ti_Phase in_ == OperationStepPhaseForward then
    fail_if ((op_State op != OperationRunning) && (op_State op != OperationVerifying)
             && (op_State op != OperationCancelRequested)) ErrInvalidTransition ;;;
    fail_if (op_Attempt op <? 1) ErrPrerequisite ;;;
    let! _ := get_opt (ms_steps s !! stepMapKey (op_ID op) (op_Attempt op) (ti_StepKey in_)) ErrPrerequisite in
    ret (op, op_Attempt op)
  else if ti_Phase in_ == OperationStepPhaseCompensation then
    fail_if (op_State op != OperationRollingBack) ErrInvalidTransition ;;;
    let! step := get_opt (ms_compensationSteps s !! (op_ID op +:+ ":" +:+ ti_StepKey in_)) ErrNotFound in
    fail_if ((cs_State step != CompensationStepRunning) || (cs_FenceToken step != fence)
             || (cs_Attempt step <? 1)) ErrPrerequisite ;;;
    ret (op, cs_Attempt step)
  else raise ErrValidation.

Definition normalizeOperationStepTraceInput (in_ : OperationStepTraceInput)
    : result OperationStepTraceInput :=
  let in_ := mkOperationStepTraceInput (TrimSpace (ti_OperationID in_)) (ti_Phase in_)
               (TrimSpace (ti_StepKey in_)) (TrimSpace (ti_TraceKey in_)) (ti_Level in_)
               (TrimSpace (ti_EventType in_)) (TrimSpace (ti_Message in_)) (TrimSpace (ti_EvidenceKind in_))
               (TrimSpace (ti_MediaType in_)) (TrimSpace (ti_Location in_)) (ti_Payload in_) in
  if (ti_OperationID in_ == "") || (ti_StepKey in_ == "") || (ti_TraceKey in_ == "")
     || (ti_EventType in_ == "") || (ti_Message in_ == "") then Fail ErrValidation else
  if negb (validOperationStepPhase (ti_Phase in_)) then Fail ErrValidation else
  if negb (validOperationStepLogLevel (ti_Level in_)) then Fail ErrValidation else
  if (ti_EvidenceKind in_ == "") || (ti_MediaType in_ == "") || (len (ti_Payload in_) == 0)
  then Fail ErrValidation else
  if maxOperationStepTracePayloadBytes <? len (ti_Payload in_) then Fail ErrValidation else Ok in_.

(** [sequence] starts at 1 and ends past every trace of the same step and attempt *)
Definition nextSequence (s : MemoryStore) (operationID : string) (phase : OperationStepPhase)
    (stepKey : string) (attempt : Z) : Z :=
  foldr (fun existing sequence =>
           if sequence <=? tr_Sequence existing then inc64 (tr_Sequence existing) else sequence)
    1 (map_select (fun _ existing => (tr_OperationID existing == operationID) && (tr_Phase existing == phase)
                    && (tr_StepKey existing == stepKey) && (tr_Attempt existing == attempt)) (ms_stepTraces s)).

Definition AppendOperationStepTrace (in_ : OperationStepTraceInput) (worker : string) (fence : Z)
    (actor : string) : Store (OperationStepTrace * EvidenceMetadata) :=
  let! n := lift (normalizeOperationStepTraceInput in_) in
  let! (_, attempt) := validateOperationStepTraceLocked n (TrimSpace worker) fence in
  let! s := get in
  let digest := operationStepPayloadDigest (ti_Payload n) in
  let key := operationStepTraceMapKey (ti_OperationID n) (ti_Phase n) (ti_StepKey n) attempt (ti_TraceKey n) in
  match ms_stepTraces s !! key with
  | Some existing =>
      let! evidence := get_opt (ms_evidence s !! tr_EvidenceID existing) ErrIdempotencyConflict in
      fail_if ((tr_Level existing != ti_Level n) || (tr_EventType existing != ti_EventType n)
               || (tr_Message existing != ti_Message n) || (tr_EvidenceDigest existing != digest)
               || (ev_Kind evidence != ti_EvidenceKind n) || (ev_MediaType evidence != ti_MediaType n))
        ErrIdempotencyConflict ;;;
      ret (existing, evidence)
  | None =>
      let sequence := nextSequence s (ti_OperationID n) (ti_Phase n) (ti_StepKey n) attempt in
      let! now := nowUTC in
      let! evidenceID := newID "evd" in
      let location :=
        if ti_Location n == "" then
          "authority://operations/" +:+ ti_OperationID n +:+ "/steps/" +:+ ToLower (ti_Phase n) +:+ "/"
            +:+ ti_StepKey n +:+ "/attempts/" +:+ itoa attempt +:+ "/evidence/" +:+ evidenceID
        else ti_Location n in
      let! traceID := newID "trc" in
      let trace := mkOperationStepTrace (newMeta traceID now) (ti_OperationID n) (ti_Phase n) (ti_StepKey n)
                     attempt sequence (ti_TraceKey n) (ti_Level n) (ti_EventType n) (ti_Message n)
                     evidenceID digest in
      let evidence := mkEvidenceMetadata (newMeta evidenceID now) (ti_OperationID n) (ti_Phase n) (ti_StepKey n)
                        attempt traceID (ti_EvidenceKind n) digest (ti_MediaType n) location
                        (len (ti_Payload n)) true true in
      putStepTrace key trace ;;;
      putEvidence evidenceID evidence ;;;
      putEvidencePayload evidenceID (ti_Payload n) ;;;
      appendAuditLocked actor "operation_step.trace_sealed" "operationStepTrace" traceID 1
        [("method", MStr OperationStepTraceMethod); ("operationId", MStr (ti_OperationID n));
         ("phase", MStr (ti_Phase n)); ("stepKey", MStr (ti_StepKey n)); ("attempt", MInt attempt);
         ("sequence", MInt sequence); ("traceId", MStr traceID); ("traceKey", MStr (ti_TraceKey n));
         ("eventType", MStr (ti_EventType n)); ("level", MStr (ti_Level n));
         ("evidenceId", MStr evidenceID); ("evidenceDigest", MStr digest)] ;;;
      appendOutboxLocked "operationStepTrace" traceID "operation_step.trace_sealed" (PayloadOperationStepTrace trace) ;;;
      ret (trace, evidence)
  end.

(** ** Evidence of an operation *)

(** metadata only: the payload lives elsewhere *)
Definition AppendEvidence (e : EvidenceMetadata) (actor : string) : Store EvidenceMetadata :=
  let! s := get in
  let! _ := get_opt (ms_operations s !! ev_OperationID e) ErrNotFound in
  fail_if (negb (HasPrefix (ev_Digest e) sha256_prefix) || (ev_Location e == "") || (ev_MediaType e == "")
           || (ev_Size e <? 0)) ErrValidation ;;;
  match map_find (fun _ x => (ev_OperationID x == ev_OperationID e) && (ev_Digest x == ev_Digest e)) (ms_evidence s) with
  | Some (_, x) => ret x
  | None =>
      let! now := nowUTC in
      let! id := newID "evd" in
      let e := e <| ev_Meta := newMeta id now |> <| ev_Sealed := true |> in
      putEvidence id e ;;;
      appendAuditLocked actor "evidence.sealed" "evidence" id 1
        [("operationId", MStr (ev_OperationID e)); ("digest", MStr (ev_Digest e))] ;;;
      appendOutboxLocked "evidence" id "evidence.sealed" (PayloadEvidence e) ;;;
      ret e
  end.

Definition AppendOperationEvidencePayload (in_ : EvidenceMetadata) (payload : Bytes) (worker : string)
    (fence : Z) (actor : string) : Store EvidenceMetadata :=
  let worker := TrimSpace worker in
  let actor := TrimSpace actor in
  let in_ := setEvidenceText in_ in
  fail_if ((worker == "") || (actor == "") || (fence <=? 0) || (ev_OperationID in_ == "")
           || (ev_Kind in_ == "") || (ev_MediaType in_ == "")) ErrValidation ;;;
  fail_if ((len payload == 0) || (maxEvidencePayload <? len payload)) ErrValidation ;;;
  let! s := get in
  let! op := get_opt (ms_operations s !! ev_OperationID in_) ErrNotFound in
  let! now := nowUTC in
  fail_if ((TrimSpace (op_LeaseOwner op) != worker) || (op_FenceToken op != fence)
           || negb (after (op_LeaseExpiresAt op) now)) ErrStaleFence ;;;
  let digest := operationStepPayloadDigest payload in
  fail_if ((ev_Digest in_ != "") && (TrimSpace (ev_Digest in_) != digest)) ErrValidation ;;;
  fail_if ((ev_Size in_ != 0) && (ev_Size in_ != len payload)) ErrValidation ;;;
  match map_find (operationEvidence (ev_OperationID in_) digest) (ms_evidence s) with
  | Some (_, existing) =>
      fail_if (negb (payloadIntact s existing digest)) ErrConflict ;;;
      ret existing
  | None =>
      let! id := newID "evd" in
      let location := if ev_Location in_ == "" then
                        "authority://operations/" +:+ ev_OperationID in_ +:+ "/evidence/" +:+ id
                      else ev_Location in_ in
      let out := mkEvidenceMetadata (newMeta id now) (ev_OperationID in_) "" "" 0 "" (ev_Kind in_) digest
                   (ev_MediaType in_) location (len payload) true true in
      putEvidence id out ;;;
      putEvidencePayload id payload ;;;
      appendAuditLocked actor "evidence.payload_sealed" "evidence" id 1
        [("operationId", MStr (ev_OperationID in_)); ("digest", MStr digest); ("kind", MStr (ev_Kind in_));
         ("fenceToken", MInt fence)] ;;;
      appendOutboxLocked "evidence" id "evidence.payload_sealed" (PayloadEvidence out) ;;;
      ret out
  end.

(** the tail of the completion commit, [op] being RUNNING or VERIFYING *)
Definition finishVerified (id : string) (op : Operation) (now : Time) (digest actor : string)
    : Store Operation :=
  let! op :=
    (if op_State op == OperationRunning then
       let op := op <| op_State := OperationVerifying |> <| op_Meta := bump (op_Meta op) now |> in
       appendAuditLocked actor "operation.verification_started" "operation" id (op_Revision op)
         [("attempt", MInt (op_Attempt op)); ("evidenceDigest", MStr digest); ("atomicTerminalCommit", MBool true)] ;;;
       appendOutboxLocked "operation" id "operation.verification_started" (PayloadOperation op) ;;;
       ret op
     else ret op) in
  let op := clearLease (op <| op_State := OperationSucceeded |>) <| op_NextAttemptAt := None |>
              <| op_Meta := bump (op_Meta op) now |> in
  putOperation id op ;;;
  appendAuditLocked actor "operation.succeeded" "operation" id (op_Revision op)
    [("attempt", MInt (op_Attempt op)); ("evidenceDigest", MStr digest); ("atomicTerminalCommit", MBool true)] ;;;
  appendOutboxLocked "operation" id "operation.succeeded" (PayloadOperation op) ;;;
  ret op.

Definition CompleteOperationWithEvidencePayload (id : string) (expected : Z) (in_ : EvidenceMetadata)
    (payload : Bytes) (worker : string) (fence : Z) (actor : string)
    : Store (Operation * EvidenceMetadata) :=
  let id := TrimSpace id in
  let worker := TrimSpace worker in
  let actor := TrimSpace actor in
  let in_ := setEvidenceText in_ in
  fail_if ((id == "") || (ev_OperationID in_ != id) || (worker == "") || (actor == "") || (fence <=? 0)
           || (ev_Kind in_ == "") || (ev_MediaType in_ == "")) ErrValidation ;;;
  fail_if ((len payload == 0) || (maxEvidencePayload <? len payload)) ErrValidation ;;;
  let digest := operationStepPayloadDigest payload in
  fail_if ((ev_Digest in_ != "") && (TrimSpace (ev_Digest in_) != digest)) ErrValidation ;;;
  fail_if ((ev_Size in_ != 0) && (ev_Size in_ != len payload)) ErrValidation ;;;
  let! s := get in
  let! op := get_opt (ms_operations s !! id) ErrNotFound in
  let! sealed :=
    match map_find (operationEvidence id digest) (ms_evidence s) with
    | None => ret None
    | Some (_, existing) =>
        fail_if (negb (ev_HasPayload existing && ev_Sealed existing && payloadIntact s existing digest)) ErrConflict ;;;
        fail_if ((ev_Kind existing != ev_Kind in_) || (ev_MediaType existing != ev_MediaType in_)) ErrConflict ;;;
        ret (Some existing)
    end in
  match op_State op, sealed with
  | OperationSucceeded, Some e => ret (op, e)
  | _, _ =>
      (if op_State op == OperationRunning then
         fail_if (op_Revision op != expected) ErrConflict
       else if op_State op == OperationVerifying then
         fail_if ((op_Revision op != expected) && (op_Revision op != inc64 expected)) ErrConflict ;;;
         fail_if (match sealed with None => true | Some _ => false end) ErrPrerequisite
       else raise ErrPrerequisite) ;;;
      let! now := nowUTC in
      fail_if (negb (OperationLeaseActive op worker fence now)) ErrStaleFence ;;;
      let! sealed :=
        match sealed with
        | Some e => ret e
        | None =>
            let! evidenceID := newID "evd" in
            let location := if ev_Location in_ == "" then
                              "authority://operations/" +:+ id +:+ "/evidence/" +:+ evidenceID
                            else ev_Location in_ in
            let e := mkEvidenceMetadata (newMeta evidenceID now) id "" "" 0 "" (ev_Kind in_) digest
                       (ev_MediaType in_) location (len payload) true true in
            putEvidence evidenceID e ;;;
            putEvidencePayload evidenceID payload ;;;
            appendAuditLocked actor "evidence.payload_sealed" "evidence" evidenceID 1
              [("operationId", MStr id); ("digest", MStr digest); ("kind", MStr (ev_Kind in_));
               ("fenceToken", MInt fence); ("terminalCommit", MBool true)] ;;;
            appendOutboxLocked "evidence" evidenceID "evidence.payload_sealed" (PayloadEvidence e) ;;;
            ret e
        end in
      let! op := finishVerified id op now digest actor in
      ret (op, sealed)
  end.

Definition GetEvidencePayload (evidenceID : string) : Store (EvidenceMetadata * Bytes) :=
  let! s := get in
  let! evidence := get_opt (ms_evidence s !! TrimSpace evidenceID) ErrNotFound in
  let! payload := get_opt (ms_evidencePayloads s !! rm_ID (ev_Meta evidence)) ErrNotFound in
  fail_if (negb (ev_HasPayload evidence)) ErrNotFound ;;;
  fail_if ((operationStepPayloadDigest payload != ev_Digest evidence) || (len payload != ev_Size evidence)) ErrConflict ;;;
  ret (evidence, payload).

Definition hasSealedStepEvidenceLocked (s : MemoryStore) (operationID : string) (phase : OperationStepPhase)
    (stepKey : string) (attempt : Z) (digest : string) : bool :=
  map_any (fun _ e =>
    (ev_OperationID e == operationID) && (ev_Phase e == phase) && (ev_StepKey e == stepKey)
    && (ev_Attempt e == attempt) && (ev_Digest e == digest) && ev_Sealed e && ev_HasPayload e
    && payloadIntact s e digest) (ms_evidence s).
