(* ===== verification/Compensation.v ===== *)
(** * Compensation orchestration

    [compensation.go]: the compensation plan bound while planning, the record
    of completed forward steps, and the rollback that walks them backwards. *)
From S2P Require Import Prelude GoStrings Digest Model Store Operations Evidence.

Definition CompensationPlanMethod : string := "GENERIC_COMPENSATION_ORCHESTRATION_V1".

Definition validCompensationStrategy (v : CompensationStrategy) : bool :=
  (v == CompensationNone) || (v == CompensationAutomaticRollback)
  || (v == CompensationRestorePreviousRevision) || (v == CompensationPreserveDataRestoreController)
  || (v == CompensationProviderRecovery) || (v == CompensationManualRecovery)
  || (v == CompensationIrreversible).

(** ** Plans *)

Definition order_le (a b : CompensationPlanStep) : Prop := ps_ForwardOrder a <= ps_ForwardOrder b.
#[export] Instance order_le_dec : RelDecision order_le.
Proof. intros a b. unfold order_le. apply _. Defined.

(** the body of the normalization loop for the step at index [i] *)
Definition normalizePlanStep (i : Z) (seen : list string) (step : CompensationPlanStep)
    : result CompensationPlanStep :=
  let step := step <| ps_StepKey := TrimSpace (ps_StepKey step) |>
                   <| ps_Action := TrimSpace (ps_Action step) |>
                   <| ps_InputDigest := TrimSpace (ps_InputDigest step) |> in
  if (ps_StepKey step == "") || bool_decide (ps_StepKey step ∈ seen) then Fail ErrValidation else
  if ps_ForwardOrder step != i + 1 then Fail ErrValidation else
  if negb (validCompensationStrategy (ps_Strategy step)) then Fail ErrValidation else
  if (ps_Strategy step != CompensationNone) && (ps_Action step == "") then Fail ErrValidation else
  if negb (HasPrefix (ps_InputDigest step) sha256_prefix) || (len (ps_InputDigest step) != 71)
  then Fail ErrValidation else
  if negb (hex_decodable (TrimPrefix (ps_InputDigest step) sha256_prefix)) then Fail ErrValidation else
  let step := if ps_MaxAttempts step == 0 then step <| ps_MaxAttempts := 3 |> else step in
  if (ps_MaxAttempts step <? 1) || (10 <? ps_MaxAttempts step) then Fail ErrValidation else Ok step.

Fixpoint normalizePlanLoop (i : Z) (seen : list string) (steps : list CompensationPlanStep)
    : result (list CompensationPlanStep) :=
  match steps with
  | [] => Ok []
  | step :: rest =>
      match normalizePlanStep i seen step with
      | Fail e => Fail e
      | Ok step =>
          match normalizePlanLoop (i + 1) (ps_StepKey step :: seen) rest with
          | Fail e => Fail e
          | Ok rest => Ok (step :: rest)
          end
      end
  end.

(** [sort.Slice] is not stable; a plan with two equal orders is rejected by the
    contiguity test, so any sort gives the same accepted plan *)
Definition normalizedCompensationPlan (steps : list CompensationPlanStep)
    : result (list CompensationPlanStep) :=
  match steps with
  | [] => Fail ErrValidation
  | _ => normalizePlanLoop 0 [] (merge_sort order_le steps)
  end.

Definition json_CompensationPlanStep (s : CompensationPlanStep) : string :=
  json_object
    ([("stepKey", json_string (ps_StepKey s)); ("forwardOrder", itoa (ps_ForwardOrder s));
      ("strategy", json_string (ps_Strategy s)); ("action", json_string (ps_Action s));
      ("inputDigest", json_string (ps_InputDigest s))]
     ++ (if ps_MaxAttempts s == 0 then [] else [("maxAttempts", itoa (ps_MaxAttempts s))])).

Definition compensationPlanDigest (steps : list CompensationPlanStep) : string :=
  sha256Digest (json_object
    [("method", json_string CompensationPlanMethod);
     ("steps", json_array (json_CompensationPlanStep <$> steps))]).

(** [id + ":" + stepKey] *)
Definition compensationKey (id stepKey : string) : string := id +:+ ":" +:+ stepKey.

Definition newCompensationStep (meta : ResourceMeta) (id : string) (in_ : CompensationPlanStep)
    : OperationCompensationStep :=
  mkOperationCompensationStep meta id (ps_StepKey in_) (ps_ForwardOrder in_) (ps_Strategy in_)
    (ps_Action in_) (ps_InputDigest in_) (ps_MaxAttempts in_) false None CompensationStepPending
    0 0 None None "" "".

Fixpoint bindPlanRows (id : string) (now : Time) (plan : list CompensationPlanStep)
    : Store (list OperationCompensationStep) :=
  match plan with
  | [] => ret []
  | in_ :: rest =>
      let! cid := newID "cmp" in
      let step := newCompensationStep (newMeta cid now) id in_ in
      putCompensationStep (compensationKey id (cs_StepKey step)) step ;;;
      let! rows := bindPlanRows id now rest in
      ret (step :: rows)
  end.

(** [for key, step := range s.compensationSteps { if step.OperationID == id { delete } }] *)
Definition dropCompensationSteps (id : string) : Store unit :=
  modify (fun s => s <| ms_compensationSteps :=
    filter (fun kv => cs_OperationID kv.2 <> id) (ms_compensationSteps s) |>).

Definition SetOperationCompensationPlan (id : string) (expected : Z)
    (plan : list CompensationPlanStep) (actor : string)
    : Store (Operation * list OperationCompensationStep) :=
  let! s := get in
  let! op := get_opt (ms_operations s !! id) ErrNotFound in
  fail_if (op_Revision op != expected) ErrConflict ;;;
  fail_if (op_State op != OperationPlanning) ErrPrerequisite ;;;
  fail_if (op_Class op == OperationClassReadOnly) ErrValidation ;;;
  let! normalized := lift (normalizedCompensationPlan plan) in
  dropCompensationSteps id ;;;
  let! now := nowUTC in
  let! rows := bindPlanRows id now normalized in
  let op := op <| op_CompensationPlanDigest := compensationPlanDigest normalized |>
               <| op_CompensationStepCount := Z.of_nat (length rows) |>
               <| op_CompensationCursor := 0 |> <| op_CompensationStartedAt := None |>
               <| op_CompensationFinishedAt := None |> <| op_CompensationFailureStep := "" |>
               <| op_Meta := bump (op_Meta op) now |> in
  putOperation id op ;;;
  appendAuditLocked actor "operation.compensation_plan_bound" "operation" id (op_Revision op)
    [("method", MStr CompensationPlanMethod); ("digest", MStr (op_CompensationPlanDigest op));
     ("steps", MInt (Z.of_nat (length rows)))] ;;;
  appendOutboxLocked "operation" id "operation.compensation_plan_bound" (PayloadOperation op) ;;;
  ret (op, rows).

(** ** Forward progress *)

Definition RecordOperationForwardStepCompleted (id stepKey : string) (expected : Z)
    (worker : string) (fence : Z) (actor : string)
    : Store (OperationCompensationStep * Operation) :=
  let! s := get in
  let! op := get_opt (ms_operations s !! id) ErrNotFound in
  fail_if (op_Revision op != expected) ErrConflict ;;;
  fail_if ((op_State op != OperationRunning) && (op_State op != OperationVerifying)) ErrInvalidTransition ;;;
  let! leaseNow := nowUTC in
  fail_if (negb (OperationLeaseActive op worker fence leaseNow)) ErrStaleFence ;;;
  fail_if (op_CompensationPlanDigest op == "") ErrPrerequisite ;;;
  let key := compensationKey id (TrimSpace stepKey) in
  let! step := get_opt (ms_compensationSteps s !! key) ErrNotFound in
  if cs_ForwardCompleted step then ret (step, op) else
  fail_if (map_any (fun _ candidate =>
             (cs_OperationID candidate == id) && (cs_ForwardOrder candidate <? cs_ForwardOrder step)
             && negb (cs_ForwardCompleted candidate)) (ms_compensationSteps s)) ErrPrerequisite ;;;
  let! now := nowUTC in
  let step := step <| cs_ForwardCompleted := true |> <| cs_ForwardCompletedAt := Some now |>
                   <| cs_Meta := bump (cs_Meta step) now |> in
  putCompensationStep key step ;;;
  let op := op <| op_CompensationCursor := cs_ForwardOrder step |> <| op_Meta := bump (op_Meta op) now |> in
  putOperation id op ;;;
  appendAuditLocked actor "operation.forward_step_completed" "operationCompensationStep"
    (rm_ID (cs_Meta step)) (rm_Revision (cs_Meta step))
    [("operationId", MStr id); ("stepKey", MStr (cs_StepKey step)); ("forwardOrder", MInt (cs_ForwardOrder step))] ;;;
  appendOutboxLocked "operationCompensationStep" (rm_ID (cs_Meta step)) "operation.forward_step_completed"
    (PayloadCompensationStep step) ;;;
  ret (step, op).

(** ** Rollback *)

Definition BeginOperationCompensation (id : string) (expected : Z) (actor : string) : Store Operation :=
  let! s := get in
  let! op := get_opt (ms_operations s !! id) ErrNotFound in
  fail_if (op_Revision op != expected) ErrConflict ;;;
  fail_if ((op_State op != OperationFailed) && (op_State op != OperationCancelRequested)) ErrInvalidTransition ;;;
  fail_if ((op_CompensationPlanDigest op == "") || (op_CompensationStepCount op == 0)) ErrPrerequisite ;;;
  let! now := nowUTC in
  let op :=
    if negb (hasCompensatableForwardLocked s id) then
      clearLease (op <| op_State := OperationRolledBack |> <| op_CompensationStartedAt := Some now |>
                     <| op_CompensationFinishedAt := Some now |>)
    else
      clearLease (op <| op_State := OperationRollingBack |> <| op_CompensationStartedAt := Some now |>
                     <| op_CompensationFinishedAt := None |>) in
  let op := op <| op_Meta := bump (op_Meta op) now |> in
  putOperation id op ;;;
  appendAuditLocked actor "operation.compensation_started" "operation" id (op_Revision op)
    [("state", MStr (OperationState_string (op_State op))); ("planDigest", MStr (op_CompensationPlanDigest op))] ;;;
  appendOutboxLocked "operation" id "operation.compensation_started" (PayloadOperation op) ;;;
  ret op.

(** a forward-completed step of [id] that needs compensation *)
Definition compensatable (id : string) (step : OperationCompensationStep) : bool :=
  (cs_OperationID step == id) && cs_ForwardCompleted step && (cs_Strategy step != CompensationNone).

Definition settled (step : OperationCompensationStep) : bool :=
  (cs_State step == CompensationStepSucceeded) || (cs_State step == CompensationStepSkipped).

(** the last of the candidates when sorted by descending order: the greatest [ForwardOrder] *)
Definition later (a b : OperationCompensationStep) : Prop := cs_ForwardOrder b <= cs_ForwardOrder a.
#[export] Instance later_dec : RelDecision later.
Proof. intros a b. unfold later. apply _. Defined.

(** Two refusals of this handler write first: claiming past the last step
    completes the rollback and answers ErrNotFound, and a step that needs an
    operator is recorded before ErrPrerequisite.  The copies of the step and of
    the operation that Go returns beside such an error are those stored. *)
Definition ClaimNextOperationCompensationStep (id worker : string) (fence : Z) (actor : string)
    : Store (OperationCompensationStep * Operation) :=
  let! s := get in
  let! op := get_opt (ms_operations s !! id) ErrNotFound in
  fail_if (op_State op != OperationRollingBack) ErrInvalidTransition ;;;
  fail_if ((op_LeaseOwner op != worker) || (op_FenceToken op != fence)
           || (op_LeaseExpiresAt op == None)) ErrStaleFence ;;;
  let! leaseNow := nowUTC in
  fail_if (negb (after (op_LeaseExpiresAt op) leaseNow)) ErrStaleFence ;;;
  let candidates := map_select (fun _ step => compensatable id step
                      && (cs_State step == CompensationStepPending)) (ms_compensationSteps s) in
  match merge_sort later candidates with
  | [] =>
      let allDone := map_all (fun _ step => negb (compensatable id step) || settled step)
                       (ms_compensationSteps s) in
      if allDone then
        let! now := nowUTC in
        let op := clearLease (op <| op_State := OperationRolledBack |> <| op_CompensationFinishedAt := Some now |>)
                    <| op_Meta := bump (op_Meta op) now |> in
        putOperation id op ;;;
        appendAuditLocked actor "operation.compensation_completed" "operation" id (op_Revision op)
          [("planDigest", MStr (op_CompensationPlanDigest op))] ;;;
        appendOutboxLocked "operation" id "operation.compensation_completed" (PayloadOperation op) ;;;
        raise ErrNotFound
      else raise ErrNotClaimable
  | step :: _ =>
      let key := compensationKey id (cs_StepKey step) in
      let! now := nowUTC in
      if (cs_Strategy step == CompensationManualRecovery) || (cs_Strategy step == CompensationIrreversible) then
        let step := step <| cs_State := CompensationStepManualRequired |>
                         <| cs_LastError := "automatic compensation is not available for strategy " +:+ cs_Strategy step |>
                         <| cs_FinishedAt := Some now |> <| cs_Meta := bump (cs_Meta step) now |> in
        putCompensationStep key step ;;;
        let op := clearLease (op <| op_State := OperationNeedsOperator |>
                                 <| op_CompensationFailureStep := cs_StepKey step |>)
                    <| op_Meta := bump (op_Meta op) now |> in
        putOperation id op ;;;
        appendAuditLocked actor "operation.compensation_needs_operator" "operation" id (op_Revision op)
          [("stepKey", MStr (cs_StepKey step)); ("strategy", MStr (cs_Strategy step))] ;;;
        appendOutboxLocked "operation" id "operation.compensation_needs_operator" (PayloadOperation op) ;;;
        raise ErrPrerequisite
      else
      fail_if (cs_MaxAttempts step <=? cs_Attempt step) ErrPrerequisite ;;;
      let step := step <| cs_State := CompensationStepRunning |> <| cs_Attempt := inc64 (cs_Attempt step) |>
                       <| cs_FenceToken := fence |> <| cs_StartedAt := Some now |>
                       <| cs_FinishedAt := None |> <| cs_LastError := "" |>
                       <| cs_Meta := bump (cs_Meta step) now |> in
      putCompensationStep key step ;;;
      let op := op <| op_CompensationCursor := cs_ForwardOrder step |> <| op_Meta := bump (op_Meta op) now |> in
      putOperation id op ;;;
      appendAuditLocked actor "operation.compensation_step_started" "operationCompensationStep"
        (rm_ID (cs_Meta step)) (rm_Revision (cs_Meta step))
        [("operationId", MStr id); ("stepKey", MStr (cs_StepKey step)); ("attempt", MInt (cs_Attempt step));
         ("forwardOrder", MInt (cs_ForwardOrder step))] ;;;
      appendOutboxLocked "operationCompensationStep" (rm_ID (cs_Meta step)) "operation.compensation_step_started"
        (PayloadCompensationStep step) ;;;
      ret (step, op)
  end.

Definition CompleteOperationCompensationStep (id stepKey worker : string) (fence : Z)
    (evidenceDigest actor : string) : Store (OperationCompensationStep * Operation) :=
  let! s := get in
  let! op := get_opt (ms_operations s !! id) ErrNotFound in
  fail_if (op_State op != OperationRollingBack) ErrStaleFence ;;;
  let! leaseNow := nowUTC in
  fail_if (negb (OperationLeaseActive op worker fence leaseNow)) ErrStaleFence ;;;
  let key := compensationKey id (TrimSpace stepKey) in
  let! step := get_opt (ms_compensationSteps s !! key) ErrNotFound in
  fail_if ((cs_State step != CompensationStepRunning) || (cs_FenceToken step != fence)) ErrInvalidTransition ;;;
  let evidenceDigest := TrimSpace evidenceDigest in
  fail_if (negb (HasPrefix evidenceDigest sha256_prefix) || (len evidenceDigest != 71)) ErrValidation ;;;
  fail_if (negb (hasSealedStepEvidenceLocked s id OperationStepPhaseCompensation (cs_StepKey step)
                   (cs_Attempt step) evidenceDigest)) ErrPrerequisite ;;;
  let! now := nowUTC in
  let step := step <| cs_State := CompensationStepSucceeded |> <| cs_EvidenceDigest := evidenceDigest |>
                   <| cs_FinishedAt := Some now |> <| cs_LastError := "" |>
                   <| cs_Meta := bump (cs_Meta step) now |> in
  putCompensationStep key step ;;;
  let! s := get in
  let remaining := map_any (fun _ candidate => compensatable id candidate && negb (settled candidate))
                     (ms_compensationSteps s) in
  let op := if negb remaining then
              clearLease (op <| op_State := OperationRolledBack |> <| op_CompensationFinishedAt := Some now |>)
            else op in
  let op := op <| op_CompensationFailureStep := "" |> <| op_Meta := bump (op_Meta op) now |> in
  putOperation id op ;;;
  appendAuditLocked actor "operation.compensation_step_succeeded" "operationCompensationStep"
    (rm_ID (cs_Meta step)) (rm_Revision (cs_Meta step))
    [("operationId", MStr id); ("stepKey", MStr (cs_StepKey step)); ("evidenceDigest", MStr evidenceDigest)] ;;;
  appendOutboxLocked "operationCompensationStep" (rm_ID (cs_Meta step)) "operation.compensation_step_succeeded"
    (PayloadCompensationStep step) ;;;
  when (op_State op == OperationRolledBack)
    (appendAuditLocked actor "operation.compensation_completed" "operation" id (op_Revision op)
       [("planDigest", MStr (op_CompensationPlanDigest op))] ;;;
     appendOutboxLocked "operation" id "operation.compensation_completed" (PayloadOperation op)) ;;;
  ret (step, op).

Definition ReportOperationCompensationStepFailure (id stepKey worker : string) (fence : Z)
    (failure : CompensationStepFailure) (actor : string)
    : Store (OperationCompensationStep * Operation) :=
  let! s := get in
  let! op := get_opt (ms_operations s !! id) ErrNotFound in
  fail_if (op_State op != OperationRollingBack) ErrStaleFence ;;;
  let! leaseNow := nowUTC in
  fail_if (negb (OperationLeaseActive op worker fence leaseNow)) ErrStaleFence ;;;
  let key := compensationKey id (TrimSpace stepKey) in
  let! step := get_opt (ms_compensationSteps s !! key) ErrNotFound in
  fail_if ((cs_State step != CompensationStepRunning) || (cs_FenceToken step != fence)) ErrInvalidTransition ;;;
  let message := TrimSpace (cf_Message failure) in
  fail_if (message == "") ErrValidation ;;;
  let! now := nowUTC in
  let retry := cf_Retryable failure && (cs_Attempt step <? cs_MaxAttempts step) in
  let step := step <| cs_LastError := message |> <| cs_FinishedAt := Some now |> in
  let op := if retry then op
            else clearLease (op <| op_State := OperationRollbackFailed |>
                                <| op_CompensationFailureStep := cs_StepKey step |>) in
  let step := if retry then step <| cs_State := CompensationStepPending |> <| cs_FenceToken := 0 |>
              else step <| cs_State := CompensationStepFailed |> in
  let step := step <| cs_Meta := bump (cs_Meta step) now |> in
  putCompensationStep key step ;;;
  let op := op <| op_LastError := message |> <| op_Meta := bump (op_Meta op) now |> in
  putOperation id op ;;;
  appendAuditLocked actor "operation.compensation_step_failed" "operationCompensationStep"
    (rm_ID (cs_Meta step)) (rm_Revision (cs_Meta step))
    [("operationId", MStr id); ("stepKey", MStr (cs_StepKey step)); ("attempt", MInt (cs_Attempt step));
     ("retryable", MBool (cf_Retryable failure)); ("state", MStr (CompensationStepState_string (cs_State step)))] ;;;
  appendOutboxLocked "operationCompensationStep" (rm_ID (cs_Meta step)) "operation.compensation_step_failed"
    (PayloadCompensationStep step) ;;;
  ret (step, op).
