(* ===== verification/OwnerOperations.v ===== *)
(** * Destructive operations owned by a product workflow

    [owner_destructive_operation.go]: baseline rollback, tenant deletion and
    provider-cluster deletion run their destructive step as an [Operation]
    bound to a recovery checkpoint, driven by the owning store under its lock
    instead of by a leased worker. *)
From S2P Require Import Prelude GoStrings Digest Model Store Operations.

Definition OwnerOperationBaselineRollback : string := "baseline.rollback".
Definition OwnerOperationTenantDelete : string := "tenant.delete".
Definition OwnerOperationProviderClusterDelete : string := "provider-cluster.delete".

(** [json.Marshal(map[string]any)] writes the keys in sorted order *)
Definition OwnerDestructiveDesiredRevision (kind ownerID : string) (ownerRevision : Z)
    (desiredDigest recoveryCheckpointID : string) : string :=
  sha256Digest (json_object
    [("desiredDigest", json_string (TrimSpace desiredDigest)); ("kind", json_string kind);
     ("ownerId", json_string ownerID); ("ownerRevision", itoa ownerRevision);
     ("recoveryCheckpointId", json_string (TrimSpace recoveryCheckpointID))]).

Definition transitionOwnerOperationLocked (op : Operation) (to : OperationState) (actor event : string)
    (payload : list (string * MetaValue)) : Store Operation :=
  fail_if (negb (CanTransition (op_State op) to)) ErrInvalidTransition ;;;
  let! now := nowUTC in
  let op := op <| op_State := to |> <| op_Meta := bump (op_Meta op) now |> in
  putOperation (op_ID op) op ;;;
  let event := if event == "" then "operation.transitioned" else event in
  appendAuditLocked actor event "operation" (op_ID op) (op_Revision op)
    (payload ++ [("state", MStr (OperationState_string to))])%list ;;;
  appendOutboxLocked "operation" (op_ID op) event (PayloadOperation op) ;;;
  ret op.

Definition cancelOwnerDestructiveOperationLocked (operationID actor reason : string) : Store unit :=
  let operationID := TrimSpace operationID in
  if operationID == "" then ret tt else
  let! s := get in
  let! op := get_opt (ms_operations s !! operationID) ErrPrerequisite in
  fail_if (op_Class op != OperationClassDestructive) ErrPrerequisite ;;;
  if op_State op == OperationCancelled then ret tt else
  fail_if (negb (CanTransition (op_State op) OperationCancelled)) ErrPrerequisite ;;;
  let! _ := transitionOwnerOperationLocked op OperationCancelled actor "operation.owner_superseded"
              [("reason", MStr (TrimSpace reason))] in
  ret tt.

Definition ownerKey (kind ownerID : string) (ownerRevision : Z) : string :=
  "owner:" +:+ kind +:+ ":" +:+ ownerID +:+ ":" +:+ itoa ownerRevision.

Definition createOwnerDestructiveOperationLocked (projectID clusterID kind ownerID : string)
    (ownerRevision : Z) (desiredDigest recoveryCheckpointID actor requestDigest : string)
    (awaitApproval : bool) : Store Operation :=
  let projectID := TrimSpace projectID in
  let clusterID := TrimSpace clusterID in
  let kind := TrimSpace kind in
  let ownerID := TrimSpace ownerID in
  let recoveryCheckpointID := TrimSpace recoveryCheckpointID in
  fail_if ((projectID == "") || (clusterID == "") || (kind == "") || (ownerID == "")
           || (recoveryCheckpointID == "") || (TrimSpace actor == "")) ErrPrerequisite ;;;
  let desiredRevision := OwnerDestructiveDesiredRevision kind ownerID ownerRevision desiredDigest recoveryCheckpointID in
  let key := ownerKey kind ownerID ownerRevision in
  let request := mkOperationRequest projectID kind ("cluster:" +:+ clusterID) desiredRevision "critical"
                   OperationClassDestructive recoveryCheckpointID in
  let digest := operationDigest request in
  let scope := idempotencyScope projectID key in
  let! s := get in
  match ms_idempotency s !! scope with
  | Some existingID =>
      let! existing := get_opt (ms_operations s !! existingID) ErrIdempotencyConflict in
      fail_if (op_RequestDigest existing != digest) ErrIdempotencyConflict ;;;
      ret existing
  | None =>
      let! now := nowUTC in
      let! id := newID "op" in
      let op := newOperation (newMeta id now) request OperationClassDestructive key digest actor in
      let! checkpoint := get_opt (ms_recoveryCheckpoints s !! recoveryCheckpointID) ErrPrerequisite in
      let op := op <| op_RecoveryEvidenceDigest := rc_EvidenceDigest checkpoint |>
                   <| op_RecoveryInventoryDigest := rc_InventoryDigest checkpoint |> in
      let! _ := lift (validateDestructiveRecoveryLocked s op now) in
      putOperation id op ;;;
      putIdempotency scope id ;;;
      appendAuditLocked actor "operation.created" "operation" id (op_Revision op)
        [("ownerKind", MStr kind); ("ownerId", MStr ownerID); ("requestDigest", MStr requestDigest);
         ("state", MStr (OperationState_string (op_State op)))] ;;;
      appendOutboxLocked "operation" id "operation.created" (PayloadOperation op) ;;;
      let who := [("ownerKind", MStr kind); ("ownerId", MStr ownerID)] in
      let! op := transitionOwnerOperationLocked op OperationPlanning actor "operation.owner_planning" who in
      let! op := transitionOwnerOperationLocked op OperationAwaitingApproval actor "operation.owner_approval_required" who in
      if awaitApproval then ret op else
      let! op := transitionOwnerOperationLocked op OperationApproved actor "operation.owner_approved"
                   (who ++ [("approval", MStr "explicit-destructive-request")])%list in
      transitionOwnerOperationLocked op OperationQueued actor "operation.owner_queued" who
  end.

Definition ownerBound (op : Operation) (projectID clusterID : string) : bool :=
  (op_ProjectID op == projectID) && (OperationTargetClusterID (op_TargetRef op) == clusterID)
  && (op_Class op == OperationClassDestructive).

Definition approveOwnerDestructiveOperationLocked (operationID projectID clusterID actor : string)
    : Store Operation :=
  let! s := get in
  let! op := get_opt (ms_operations s !! TrimSpace operationID) ErrPrerequisite in
  fail_if (negb (ownerBound op projectID clusterID)) ErrPrerequisite ;;;
  fail_if (op_State op != OperationAwaitingApproval) ErrInvalidTransition ;;;
  let! now := nowUTC in
  let! _ := lift (validateDestructiveRecoveryLocked s op now) in
  let! op := transitionOwnerOperationLocked op OperationApproved actor "operation.owner_approved" [] in
  transitionOwnerOperationLocked op OperationQueued actor "operation.owner_queued" [].

Definition startOwnerDestructiveOperationLocked (operationID projectID clusterID actor : string)
    : Store Operation :=
  let! s := get in
  let! op := get_opt (ms_operations s !! TrimSpace operationID) ErrPrerequisite in
  fail_if (negb (ownerBound op projectID clusterID)) ErrPrerequisite ;;;
  fail_if (op_State op != OperationQueued) ErrPrerequisite ;;;
  let! now := nowUTC in
  let! _ := lift (validateDestructiveRecoveryLocked s op now) in
  fail_if (rp_MaxAttempts (op_RetryPolicy op) <=? op_Attempt op) ErrPrerequisite ;;;
  let op := op <| op_Attempt := inc64 (op_Attempt op) |> <| op_State := OperationRunning |>
               <| op_LastFailureClass := "" |> <| op_RetryExhausted := false |>
               <| op_NextAttemptAt := None |> <| op_Meta := bump (op_Meta op) now |> in
  putOperation (op_ID op) op ;;;
  appendAuditLocked actor "operation.owner_attempt_started" "operation" (op_ID op) (op_Revision op)
    [("attempt", MInt (op_Attempt op)); ("owner", MStr (op_Kind op))] ;;;
  appendOutboxLocked "operation" (op_ID op) "operation.owner_attempt_started" (PayloadOperation op) ;;;
  ret op.

Definition finishOwnerDestructiveOperationLocked (operationID : string) (success : bool)
    (lastError actor : string) : Store Operation :=
  let! s := get in
  let! op := get_opt (ms_operations s !! TrimSpace operationID) ErrPrerequisite in
  fail_if (op_Class op != OperationClassDestructive) ErrPrerequisite ;;;
  fail_if (op_State op != OperationRunning) ErrInvalidTransition ;;;
  let! now := nowUTC in
  if negb success then
    let message := TrimSpace lastError in
    let op := op <| op_State := OperationFailed |>
                 <| op_LastError := if message == "" then "owner destructive workflow failed" else message |>
                 <| op_LastFailureClass := OperationFailureUnknown |> <| op_RetryExhausted := true |>
                 <| op_Meta := bump (op_Meta op) now |> in
    putOperation (op_ID op) op ;;;
    appendAuditLocked actor "operation.owner_failed" "operation" (op_ID op) (op_Revision op)
      [("attempt", MInt (op_Attempt op)); ("error", MStr (op_LastError op))] ;;;
    appendOutboxLocked "operation" (op_ID op) "operation.owner_failed" (PayloadOperation op) ;;;
    ret op
  else
    let op := op <| op_State := OperationVerifying |> <| op_Meta := bump (op_Meta op) now |> in
    putOperation (op_ID op) op ;;;
    appendAuditLocked actor "operation.owner_verification_started" "operation" (op_ID op) (op_Revision op)
      [("attempt", MInt (op_Attempt op))] ;;;
    appendOutboxLocked "operation" (op_ID op) "operation.owner_verification_started" (PayloadOperation op) ;;;
    let! now := nowUTC in
    let op := op <| op_State := OperationSucceeded |> <| op_Meta := bump (op_Meta op) now |> in
    putOperation (op_ID op) op ;;;
    appendAuditLocked actor "operation.owner_succeeded" "operation" (op_ID op) (op_Revision op)
      [("attempt", MInt (op_Attempt op))] ;;;
    appendOutboxLocked "operation" (op_ID op) "operation.owner_succeeded" (PayloadOperation op) ;;;
    ret op.
