(* ===== verification/Lifecycle.v ===== *)
(** * The lifecycle specification of an operation

    An abstract machine over the part of an operation that the lifecycle
    contract is about: state, attempt budget, fencing token, revision, whether
    a lease is held and whether a retry is scheduled.  Its rules are the
    promises of the operation engine; [OperationSystem] proves that every
    store handler refines it.  The rules that carry authority (approving,
    starting an attempt, succeeding, resolving an unknown outcome, rolling
    back, acting as the owning workflow) are guarded by a capability; which call holds which
    capability is part of the specification. *)
From S2P Require Import Prelude GoStrings Model Operations.

Record Lifecycle := mkLifecycle {
  lc_state : OperationState;
  lc_attempt : Z;
  lc_max : Z;
  lc_fence : Z;
  lc_rev : Z;
  lc_leased : bool;
  lc_retry : bool;
}.

Definition is_some {A} (o : option A) : bool := match o with Some _ => true | None => false end.

Definition view (op : Operation) : Lifecycle :=
  mkLifecycle (op_State op) (op_Attempt op) (rp_MaxAttempts (op_RetryPolicy op)) (op_FenceToken op)
    (op_Revision op) (is_some (op_LeaseExpiresAt op)) (is_some (op_NextAttemptAt op)).

(** execution states in which a worker drives the operation *)
Definition executing (st : OperationState) : bool :=
  match st with
  | OperationRunning | OperationVerifying | OperationRollingBack => true
  | _ => false
  end.

(** states left by a direct cancellation *)
Definition cancellable (st : OperationState) : bool :=
  negb (IsTerminal st) && negb (executing st) && (st != OperationCancelRequested).

(** states before the first attempt *)
Definition unstarted (st : OperationState) : bool :=
  match st with
  | OperationDraft | OperationPlanning | OperationPlanFailed | OperationAwaitingApproval
  | OperationApproved => true
  | _ => false
  end.

(** ** The rules *)

Inductive Cap : Type := CapApprove | CapStart | CapComplete | CapResolve | CapCompensate | CapOwner.

Definition noCaps : Cap -> bool := fun _ => false.
Definition only (c : Cap) : Cap -> bool := fun c' =>
  match c, c' with
  | CapApprove, CapApprove | CapStart, CapStart | CapComplete, CapComplete
  | CapResolve, CapResolve | CapCompensate, CapCompensate | CapOwner, CapOwner => true
  | _, _ => false
  end.
Definition with_owner (c : Cap -> bool) : Cap -> bool := fun c' => c c' || only CapOwner c'.
(** every capability, the owner's only when [owner] *)
Definition top (owner : bool) : Cap -> bool := fun c =>
  match c with CapOwner => owner | _ => true end.

Inductive lstep (caps : Cap -> bool) : Lifecycle -> Lifecycle -> Prop :=
(* orchestration *)
| L_direct from to a m f r l n :
    CanDirectOperationTransition from to = true ->
    lstep caps (mkLifecycle from a m f r l n) (mkLifecycle to a m f (inc64 r) l n)
| L_approve a m f r l n :
    caps CapApprove = true ->
    lstep caps (mkLifecycle OperationAwaitingApproval a m f r l n)
                (mkLifecycle OperationApproved a m f (inc64 r) l n)
| L_plan a m f r l n :
    lstep caps (mkLifecycle OperationPlanning a m f r l n)
                (mkLifecycle OperationPlanning a m f (inc64 r) l n)
(* leases *)
| L_claim st a m f r l n :
    claimable st = true ->
    lstep caps (mkLifecycle st a m f r l n) (mkLifecycle st a m (inc64 f) (inc64 r) true n)
| L_due a m f r l :
    lstep caps (mkLifecycle OperationRetryWait a m f r l true)
                (mkLifecycle OperationQueued a m f (inc64 r) l false)
| L_renew st a m f r n :
    lstep caps (mkLifecycle st a m f r true n) (mkLifecycle st a m f (inc64 r) true n)
| L_release st a m f r l n :
    lstep caps (mkLifecycle st a m f r l n) (mkLifecycle st a m f (inc64 r) false n)
(* attempts *)
| L_start a m f r l n :
    caps CapStart = true -> a < m ->
    lstep caps (mkLifecycle OperationQueued a m f r l n)
                (mkLifecycle OperationRunning (inc64 a) m f (inc64 r) l false)
| L_verify a m f r l n :
    lstep caps (mkLifecycle OperationRunning a m f r l n)
                (mkLifecycle OperationVerifying a m f (inc64 r) l n)
| L_fail_retry st a m f r l n :
    executing st = true -> a < m ->
    lstep caps (mkLifecycle st a m f r l n)
                (mkLifecycle OperationRetryWait a m f (inc64 r) false true)
| L_fail st a m f r l n :
    executing st = true ->
    lstep caps (mkLifecycle st a m f r l n)
                (mkLifecycle OperationFailed a m f (inc64 r) false false)
| L_complete a m f r l n :
    caps CapComplete = true ->
    lstep caps (mkLifecycle OperationVerifying a m f r l n)
                (mkLifecycle OperationSucceeded a m f (inc64 r) false false)
(* cancellation *)
| L_cancel_request st a m f r l n :
    executing st = true ->
    lstep caps (mkLifecycle st a m f r l n)
                (mkLifecycle OperationCancelRequested a m f (inc64 r) l n)
| L_cancel_now st a m f r l n :
    cancellable st = true ->
    lstep caps (mkLifecycle st a m f r l n)
                (mkLifecycle OperationCancelled a m f (inc64 r) false false)
| L_cancel_ack a m f r l n :
    lstep caps (mkLifecycle OperationCancelRequested a m f r l n)
                (mkLifecycle OperationCancelled a m f (inc64 r) false false)
(* compensation *)
| L_forward st a m f r l n :
    (st = OperationRunning \/ st = OperationVerifying) ->
    lstep caps (mkLifecycle st a m f r l n) (mkLifecycle st a m f (inc64 r) l n)
| L_rollback st to a m f r l n :
    caps CapCompensate = true ->
    (st = OperationFailed \/ st = OperationCancelRequested) ->
    (to = OperationRollingBack \/ to = OperationRolledBack) ->
    lstep caps (mkLifecycle st a m f r l n) (mkLifecycle to a m f (inc64 r) false n)
| L_rollback_progress a m f r l n :
    lstep caps (mkLifecycle OperationRollingBack a m f r l n)
                (mkLifecycle OperationRollingBack a m f (inc64 r) l n)
| L_rollback_end to a m f r l n :
    caps CapCompensate = true ->
    (to = OperationRolledBack \/ to = OperationNeedsOperator \/ to = OperationRollbackFailed) ->
    lstep caps (mkLifecycle OperationRollingBack a m f r l n) (mkLifecycle to a m f (inc64 r) false n)
(* operations of unknown outcome *)
| L_resolve to a m f r l n :
    caps CapResolve = true ->
    (to = OperationSucceeded \/ to = OperationFailed) ->
    lstep caps (mkLifecycle OperationFailed a m f r l n) (mkLifecycle to a m f (inc64 r) false false)
(* owner-driven destructive workflows *)
| L_owner_cancel st a m f r l n :
    caps CapOwner = true -> CanTransition st OperationCancelled = true ->
    lstep caps (mkLifecycle st a m f r l n) (mkLifecycle OperationCancelled a m f (inc64 r) l n)
| L_owner_fail a m f r l n :
    caps CapOwner = true ->
    lstep caps (mkLifecycle OperationRunning a m f r l n)
                (mkLifecycle OperationFailed a m f (inc64 r) l n)
| L_owner_succeed a m f r l n :
    caps CapOwner = true ->
    lstep caps (mkLifecycle OperationVerifying a m f r l n)
                (mkLifecycle OperationSucceeded a m f (inc64 r) l n).

#[export] Hint Constructors lstep : store.

Lemma lstep_weaken (c1 c2 : Cap -> bool) v v' :
  (forall c, c1 c = true -> c2 c = true) -> lstep c1 v v' -> lstep c2 v v'.
Proof. intros Hc. destruct 1; eauto with store. Qed.

(** ** What the rules guarantee *)

(** the invariant of a lifecycle *)
Record lc_wf (owner : bool) (v : Lifecycle) : Prop := {
  wf_budget : 0 <= lc_attempt v <= lc_max v;
  wf_max : lc_max v <= 5;
  (** no attempt was made before QUEUED, one was made in every executing or ended state *)
  wf_unstarted : unstarted (lc_state v) = true -> lc_attempt v = 0;
  wf_started : unstarted (lc_state v) = false -> lc_state v <> OperationQueued ->
               lc_state v <> OperationCancelled -> 1 <= lc_attempt v;
  (** a waiting retry is scheduled and within budget *)
  wf_retry : lc_state v = OperationRetryWait -> lc_retry v = true /\ lc_attempt v < lc_max v;
  (** nobody holds a lease while the retry waits *)
  wf_wait : lc_state v = OperationRetryWait -> lc_leased v = false;
  (** leases are held only where work can be claimed *)
  wf_lease : owner = false -> lc_leased v = true -> claimable (lc_state v) = true;
}.

Lemma lstep_wf caps v v' : lstep caps v v' -> lc_wf (caps CapOwner) v -> lc_wf (caps CapOwner) v'.
Proof.
  intros Hs [Hb Hm Hu Hst Hr Hw Hl]; cbn in *.
  assert (Hinc : forall a m, 0 <= a <= m -> m <= 5 -> a < m -> inc64 a = a + 1).
  { intros; apply (inc64_lt a m); unfold int64_min, int64_max in *; lia. }
  destruct Hs; cbn in *; split; cbn; intros; try done; try lia; auto;
    repeat match goal with
    | H : executing ?s = true |- _ => is_var s; destruct s; try discriminate H; clear H
    | H : _ \/ _ |- _ => destruct H; subst
    end; cbn in *; try done; try lia; auto with lia;
    try (rewrite (Hinc _ _ Hb Hm) by assumption; lia);
    try (by destruct from, to; try done; cbn in *; auto with lia);
    try (by destruct (Hr eq_refl); auto with lia).
  all: first [congruence | by subst].
Qed.

(** terminal states are absorbing: nothing but lease bookkeeping and
    revision bumps happens in SUCCEEDED, ROLLED_BACK and CANCELLED *)
Lemma lstep_terminal caps v v' :
  lstep caps v v' -> IsTerminal (lc_state v) = true -> lc_state v' = lc_state v.
Proof.
  destruct 1; cbn; try done; intros Ht;
    repeat match goal with
    | H : _ \/ _ |- _ => destruct H; subst
    | H : executing ?s = true |- _ => is_var s; destruct s; try discriminate H
    | H : cancellable ?s = true |- _ => is_var s; destruct s; try discriminate H
    | H : CanDirectOperationTransition ?s _ = true |- _ => is_var s; destruct s; try discriminate H
    | H : CanTransition ?s _ = true |- _ => is_var s; destruct s; try discriminate H
    end; try done; try discriminate.
Qed.

(** every rule is one committed write, moves the fence by at most one claim,
    and keeps the attempt limit *)
Lemma lstep_counters caps v v' :
  lstep caps v v' ->
  lc_rev v' = inc64 (lc_rev v) /\ lc_max v' = lc_max v /\
  (lc_fence v' = lc_fence v \/ lc_fence v' = inc64 (lc_fence v)).
Proof. destruct 1; cbn; auto. Qed.

(** the fence moves exactly when a lease is taken *)
Lemma lstep_fence caps v v' :
  lstep caps v v' -> lc_fence v' <> lc_fence v -> lc_leased v' = true.
Proof. destruct 1; cbn; done. Qed.

Definition bounded (v : Lifecycle) (n : nat) : Prop :=
  0 <= lc_fence v /\ lc_fence v + Z.of_nat n <= int64_max /\
  0 <= lc_rev v /\ lc_rev v + Z.of_nat n <= int64_max.

(** over [n] writes, as long as the 64-bit counters do not wrap, the revision
    counts the writes and the fence never decreases *)
Lemma nsteps_counters caps n v v' :
  nsteps (lstep caps) n v v' -> bounded v n ->
  lc_rev v' = lc_rev v + Z.of_nat n /\
  lc_fence v <= lc_fence v' <= lc_fence v + Z.of_nat n.
Proof.
  intros Hn. induction Hn as [v|n v1 v2 v3 H12 H23 IH]; intros (Hf & Hfm & Hr & Hrm); [lia|].
  apply lstep_counters in H12 as (Hrev & _ & Hfence).
  assert (Hrev' : lc_rev v2 = lc_rev v1 + 1).
  { rewrite Hrev. apply (inc64_lt _ int64_max); unfold int64_min; lia. }
  assert (Hfence' : lc_fence v2 = lc_fence v1 \/ lc_fence v2 = lc_fence v1 + 1).
  { destruct Hfence as [->| ->]; [by left|right].
    apply (inc64_lt _ int64_max); unfold int64_min; lia. }
  destruct IH as [IHr IHf]; [unfold bounded; lia|]. lia.
Qed.

Lemma nsteps_wf caps n v v' :
  nsteps (lstep caps) n v v' -> lc_wf (caps CapOwner) v -> lc_wf (caps CapOwner) v'.
Proof. induction 1; eauto using lstep_wf. Qed.

Lemma nsteps_terminal caps n v v' :
  nsteps (lstep caps) n v v' -> IsTerminal (lc_state v) = true -> lc_state v' = lc_state v.
Proof.
  induction 1 as [|n v1 v2 v3 H12 H23 IH]; [done|]. intros Ht.
  pose proof (lstep_terminal _ _ _ H12 Ht) as E. rewrite IH; [done|by rewrite E].
Qed.

Lemma nsteps_max caps n v v' :
  nsteps (lstep caps) n v v' -> lc_max v' = lc_max v.
Proof.
  induction 1 as [|n v1 v2 v3 H12 H23 IH]; [done|].
  apply lstep_counters in H12 as (_ & Hm & _). congruence.
Qed.

(** ** Advancing an operation *)

(** the fields of an operation that no handler changes after creation *)
Definition static (op : Operation) :=
  (op_ID op, rm_CreatedAt (op_Meta op), op_ProjectID op, op_Kind op, op_TargetRef op,
   op_DesiredRevision op, op_Risk op, op_Class op, op_RetryPolicy op, op_RecoveryCheckpointID op,
   op_IdempotencyKey op, op_RequestDigest op, op_ActorID op).

(** a call makes at most [call_steps] lifecycle steps on an operation *)
Definition call_steps : nat := 4.

Definition advance (caps : Cap -> bool) (op op' : Operation) : Prop :=
  op' = op \/
  (static op' = static op /\
   exists n, (1 <= n <= call_steps)%nat /\ nsteps (lstep caps) n (view op) (view op')).

Lemma advance_refl caps op : advance caps op op.
Proof. by left. Qed.

Lemma advance_steps caps op op' n :
  static op' = static op -> (1 <= n <= call_steps)%nat ->
  nsteps (lstep caps) n (view op) (view op') -> advance caps op op'.
Proof. intros Hs Hn Hl. right. split; [done|]. by exists n. Qed.

Lemma advance_once caps op op' :
  static op' = static op -> lstep caps (view op) (view op') -> advance caps op op'.
Proof.
  intros Hs Hl. apply (advance_steps _ _ _ 1); [done|unfold call_steps; lia|].
  by apply nsteps_once.
Qed.

Lemma advance_twice caps op v op' :
  static op' = static op -> lstep caps (view op) v -> lstep caps v (view op') ->
  advance caps op op'.
Proof.
  intros Hs H1 H2. apply (advance_steps _ _ _ 2); [done|unfold call_steps; lia|].
  eapply nsteps_l; [done|]. by apply nsteps_once.
Qed.

(** an advance as a number of lifecycle steps, zero only when nothing changed *)
Lemma advance_nsteps caps op op' :
  advance caps op op' ->
  static op' = static op /\
  exists n, (n <= call_steps)%nat /\ nsteps (lstep caps) n (view op) (view op') /\ (n = 0%nat -> op' = op).
Proof.
  intros [->|(Hs & n & Hn & Hl)].
  - split; [done|]. exists 0%nat. split; [lia|]. split; [constructor|done].
  - split; [done|]. exists n. split; [lia|]. split; [done|]. lia.
Qed.

(** the first value of an operation: DRAFT, revision 1, no attempt, no lease *)
Definition initial (op : Operation) : Prop :=
  view op = mkLifecycle OperationDraft 0 (rp_MaxAttempts (RetryPolicyForOperationClass (op_Class op))) 0 1 false false.

Lemma policy_max class : 2 <= rp_MaxAttempts (RetryPolicyForOperationClass class) <= 5.
Proof. unfold RetryPolicyForOperationClass. repeat case_match; cbn; lia. Qed.

Lemma initial_wf owner op : initial op -> lc_wf owner (view op).
Proof.
  intros ->. pose proof (policy_max (op_Class op)).
  split; cbn; unfold int64_max; try done; try lia.
Qed.

Ltac lstep_once c := apply advance_once; [done|]; unfold view; cbn; eapply c.
