(* ===== verification/OperationSystem.v ===== *)
(** * The operation engine as a system

    Every handler of the engine refines the lifecycle specification on every
    operation and respects the frame of the store: records that are sealed
    once (evidence, payloads, idempotency entries, the audit trail) only
    grow. *)
From S2P Require Import Prelude GoStrings Digest Model Store Operations Recovery Evidence Compensation.
From S2P Require Import OwnerOperations Lifecycle.

(** ** Well-filed stores *)

Definition filed {V} (s : MemoryStore) (m : gmap string V) : Prop :=
  forall k v, m !! k = Some v -> exists n p, (n < ms_ids s)%nat /\ k = ms_id s n p.

(** the payload stored under [k] is the one its evidence record seals *)
Definition sealed_as (evidence : gmap string EvidenceMetadata) (k : string) (payload : Bytes) : Prop :=
  exists e, evidence !! k = Some e /\ rm_ID (ev_Meta e) = k /\ ev_Sealed e = true /\
    ev_HasPayload e = true /\ ev_Digest e = sha256Digest payload /\ ev_Size e = len payload.

(** identifiers are drawn from a source that never repeats itself, every
    record is filed under an identifier drawn earlier, and every evidence
    payload matches its seal *)
Record ids_wf (s : MemoryStore) : Prop := {
  gen_inj : forall n m p q, ms_id s n p = ms_id s m q -> n = m;
  ops_filed : forall id op, ms_operations s !! id = Some op ->
    op_ID op = id /\ exists n, (n < ms_ids s)%nat /\ id = ms_id s n "op";
  evidence_filed : filed s (ms_evidence s);
  evidence_keyed : forall k e, ms_evidence s !! k = Some e -> rm_ID (ev_Meta e) = k;
  payloads_filed : filed s (ms_evidencePayloads s);
  requests_filed : filed s (ms_operationRequestPayloads s);
  payloads_sealed : forall k p, ms_evidencePayloads s !! k = Some p -> sealed_as (ms_evidence s) k p;
}.

(** ** The frame of a call *)

(** [m'] extends [m] by records filed under identifiers drawn in between *)
Definition grows {V} (s s' : MemoryStore) (m m' : gmap string V) : Prop :=
  m ⊆ m' /\ forall k v, m' !! k = Some v ->
    m !! k = Some v \/ exists n p, (ms_ids s <= n < ms_ids s')%nat /\ k = ms_id s n p.

Record frame (s s' : MemoryStore) : Prop := {
  fr_gen : ms_id s' = ms_id s;
  fr_ids : (ms_ids s <= ms_ids s')%nat;
  fr_idempotency : ms_idempotency s ⊆ ms_idempotency s';
  fr_audit : ms_audit s `prefix_of` ms_audit s';
  fr_evidence : grows s s' (ms_evidence s) (ms_evidence s');
  fr_keyed : forall k e, ms_evidence s' !! k = Some e ->
    ms_evidence s !! k = Some e \/ rm_ID (ev_Meta e) = k;
  fr_payloads : grows s s' (ms_evidencePayloads s) (ms_evidencePayloads s');
  fr_requests : grows s s' (ms_operationRequestPayloads s) (ms_operationRequestPayloads s');
  fr_sealed : forall k p, ms_evidencePayloads s' !! k = Some p ->
    ms_evidencePayloads s !! k = Some p \/ sealed_as (ms_evidence s') k p;
}.

Lemma grows_eq {V} s s' (m m' : gmap string V) : m' = m -> grows s s' m m'.
Proof. intros ->. split; [done|]. auto. Qed.

(** a record filed under a freshly drawn identifier *)
Lemma grows_insert {V} s s' (m m' : gmap string V) n p v :
  (forall n m p q, ms_id s n p = ms_id s m q -> n = m) -> filed s m ->
  (ms_ids s <= n < ms_ids s')%nat -> m' = <[ms_id s n p := v]> m -> grows s s' m m'.
Proof.
  intros Hinj Hf Hn ->. split.
  - apply insert_subseteq. destruct (m !! ms_id s n p) as [x|] eqn:E; [|done].
    destruct (Hf _ _ E) as (k & q & Hk & Hq). apply Hinj in Hq. lia.
  - intros k w Hk. apply lookup_insert_Some in Hk as [[<- _]|[_ Hk]]; eauto.
Qed.

Lemma grows_trans {V} s1 s2 s3 (m1 m2 m3 : gmap string V) :
  ms_id s2 = ms_id s1 -> (ms_ids s1 <= ms_ids s2)%nat -> (ms_ids s2 <= ms_ids s3)%nat ->
  grows s1 s2 m1 m2 -> grows s2 s3 m2 m3 -> grows s1 s3 m1 m3.
Proof.
  intros Hg H12 H23 [Hs1 Hn1] [Hs2 Hn2]. split; [by etrans|]. intros k v Hk.
  destruct (Hn2 _ _ Hk) as [Hk2|(n & p & Hn & ->)].
  - destruct (Hn1 _ _ Hk2) as [?|(n & p & Hn & ->)]; [by left|]. right. exists n, p. split; [lia|done].
  - right. exists n, p. rewrite Hg. split; [lia|done].
Qed.

Lemma frame_same s s' :
  ms_id s' = ms_id s -> (ms_ids s <= ms_ids s')%nat -> ms_idempotency s' = ms_idempotency s ->
  ms_audit s `prefix_of` ms_audit s' -> ms_evidence s' = ms_evidence s ->
  ms_evidencePayloads s' = ms_evidencePayloads s ->
  ms_operationRequestPayloads s' = ms_operationRequestPayloads s -> frame s s'.
Proof.
  intros Hg Hi Hidem Ha He Hp Hr. split; try done; try by apply grows_eq.
  - rewrite He. auto.
  - rewrite Hp. auto.
Qed.

#[export] Instance frame_refl : Reflexive frame.
Proof. intros s. by apply frame_same. Qed.

#[export] Instance frame_transitive : Transitive frame.
Proof.
  intros s1 s2 s3 [Hg1 Hi1 Hid1 Ha1 He1 Hke1 Hp1 Hr1 Hs1] [Hg2 Hi2 Hid2 Ha2 He2 Hke2 Hp2 Hr2 Hs2]. split.
  - congruence.
  - lia.
  - by etrans.
  - by etrans.
  - by eapply grows_trans.
  - intros k e Hk. destruct (Hke2 _ _ Hk) as [?|?]; auto.
  - by eapply grows_trans.
  - by eapply grows_trans.
  - intros k p Hk. destruct (Hs2 _ _ Hk) as [Hk2|?]; [|by right].
    destruct (Hs1 _ _ Hk2) as [?|(e & Hke & He)]; [by left|]. right. exists e. split; [|done].
    by eapply lookup_weaken, He2.
Qed.

(** sealing an evidence record, with or without its payload *)
Lemma frame_evidence s s' n p e payload :
  ids_wf s -> ms_id s' = ms_id s -> (ms_ids s <= n < ms_ids s')%nat ->
  ms_idempotency s' = ms_idempotency s -> ms_audit s `prefix_of` ms_audit s' ->
  ms_evidence s' = <[ms_id s n p := e]> (ms_evidence s) ->
  ms_evidencePayloads s' = <[ms_id s n p := payload]> (ms_evidencePayloads s) ->
  ms_operationRequestPayloads s' = ms_operationRequestPayloads s ->
  rm_ID (ev_Meta e) = ms_id s n p -> ev_Sealed e = true -> ev_HasPayload e = true ->
  ev_Digest e = sha256Digest payload -> ev_Size e = len payload ->
  frame s s'.
Proof.
  intros Hwf Hg Hn Hidem Ha He Hp Hr Hid Hs Hh Hd Hz. split; try done; try by apply grows_eq.
  - lia.
  - eapply grows_insert; [apply (gen_inj _ Hwf)|apply (evidence_filed _ Hwf)|done|done].
  - intros k q Hk. rewrite He in Hk. apply lookup_insert_Some in Hk as [[<- <-]|[_ Hk]]; auto.
  - eapply grows_insert; [apply (gen_inj _ Hwf)|apply (payloads_filed _ Hwf)|done|done].
  - intros k q Hk. rewrite Hp in Hk. apply lookup_insert_Some in Hk as [[<- <-]|[_ Hk]]; [|by left].
    right. exists e. by rewrite He, lookup_insert_eq.
Qed.

Lemma frame_metadata s s' n p e :
  ids_wf s -> ms_id s' = ms_id s -> (ms_ids s <= n < ms_ids s')%nat ->
  ms_idempotency s' = ms_idempotency s -> ms_audit s `prefix_of` ms_audit s' ->
  ms_evidence s' = <[ms_id s n p := e]> (ms_evidence s) ->
  ms_evidencePayloads s' = ms_evidencePayloads s ->
  ms_operationRequestPayloads s' = ms_operationRequestPayloads s ->
  rm_ID (ev_Meta e) = ms_id s n p -> frame s s'.
Proof.
  intros Hwf Hg Hn Hidem Ha He Hp Hr Hid. split; try done; try by apply grows_eq.
  - lia.
  - eapply grows_insert; [apply (gen_inj _ Hwf)|apply (evidence_filed _ Hwf)|done|done].
  - intros k q Hk. rewrite He in Hk. apply lookup_insert_Some in Hk as [[<- <-]|[_ Hk]]; auto.
  - rewrite Hp. auto.
Qed.

Lemma filed_grows {V} s s' (m m' : gmap string V) :
  ms_id s' = ms_id s -> (ms_ids s <= ms_ids s')%nat -> grows s s' m m' -> filed s m -> filed s' m'.
Proof.
  intros Hg Hi [_ Hn] Hf k v Hk. rewrite Hg. destruct (Hn _ _ Hk) as [Hk'|(n & p & Hnn & ->)].
  - destruct (Hf _ _ Hk') as (n & p & Hnn & ->). exists n, p. split; [lia|done].
  - exists n, p. split; [lia|done].
Qed.

(** ** Effect on the operations *)

Definition op_effect (caps : Cap -> bool) (s s' : MemoryStore) (id : string) : Prop :=
  match ms_operations s !! id, ms_operations s' !! id with
  | Some op, Some op' => advance caps op op'
  | None, Some op' =>
      (exists n, (n < ms_ids s')%nat /\ id = ms_id s n "op") /\
      exists op0, initial op0 /\ op_ID op0 = id /\ advance caps op0 op'
  | Some _, None => False
  | None, None => True
  end.

Record ops_rel (caps : Cap -> bool) (s s' : MemoryStore) : Prop := {
  rel_frame : frame s s';
  rel_ops : forall id, op_effect caps s s' id;
}.

Lemma ops_rel_same caps s s' :
  ms_operations s' = ms_operations s -> frame s s' -> ops_rel caps s s'.
Proof.
  intros Hops Hf. split; [done|]. intros id. unfold op_effect. rewrite Hops.
  destruct (ms_operations s !! id); [apply advance_refl|done].
Qed.

Lemma ops_rel_update caps s s' id op op' :
  ms_operations s !! id = Some op ->
  ms_operations s' = <[id := op']> (ms_operations s) ->
  frame s s' -> advance caps op op' -> ops_rel caps s s'.
Proof.
  intros Hop Hops Hf Hadv. split; [done|]. intros id'. unfold op_effect. rewrite Hops.
  destruct (decide (id = id')) as [<-|Hne].
  - by rewrite Hop, lookup_insert_eq.
  - rewrite lookup_insert_ne by done.
    destruct (ms_operations s !! id'); [apply advance_refl|done].
Qed.

Lemma ops_rel_create caps s s' n op0 op' :
  ids_wf s -> (ms_ids s <= n)%nat -> (n < ms_ids s')%nat -> frame s s' ->
  ms_operations s' = <[ms_id s n "op" := op']> (ms_operations s) ->
  initial op0 -> op_ID op0 = ms_id s n "op" -> advance caps op0 op' ->
  ops_rel caps s s'.
Proof.
  intros Hwf Hle Hlt Hf Hops Hinit Hopid Hadv. split; [done|].
  intros id. unfold op_effect. rewrite Hops.
  destruct (decide (ms_id s n "op" = id)) as [<-|Hne].
  - rewrite lookup_insert_eq.
    destruct (ms_operations s !! ms_id s n "op") as [op|] eqn:Hop.
    + apply (ops_filed _ Hwf) in Hop as [_ (m & Hm & E)]. apply (gen_inj _ Hwf) in E. lia.
    + split; eauto.
  - rewrite lookup_insert_ne by done.
    destruct (ms_operations s !! id); [apply advance_refl|done].
Qed.

(** audit and outbox records neither move operations nor break the frame *)
Lemma ops_rel_log caps s s1 s2 :
  ops_rel caps s s1 -> frame s1 s2 -> ms_operations s2 = ms_operations s1 -> ms_id s1 = ms_id s ->
  ops_rel caps s s2.
Proof.
  intros [Hf Hops] Hf2 Heq Hg. split; [by etrans|].
  intros id. specialize (Hops id). unfold op_effect in *. rewrite Heq.
  destruct (ms_operations s !! id); [done|]. destruct (ms_operations s1 !! id); [|done].
  destruct Hops as [(n & Hn & ->) Hi]. split; [|done].
  exists n. split; [|done]. pose proof (fr_ids _ _ Hf2). lia.
Qed.

Lemma frame_audit actor action rt rid rev md s : frame s (addAudit actor action rt rid rev md s).
Proof. apply frame_same; try done; [cbn; lia|]. eexists. reflexivity. Qed.

Lemma frame_outbox at_ ai et p s : frame s (addOutbox at_ ai et p s).
Proof. apply frame_same; try done. cbn; lia. Qed.

Lemma ops_rel_audit caps s s1 actor action rt rid rev md :
  ops_rel caps s s1 -> ops_rel caps s (addAudit actor action rt rid rev md s1).
Proof. intros H. eapply ops_rel_log; [exact H|apply frame_audit|done|]. apply (fr_gen _ _ (rel_frame _ _ _ H)). Qed.

Lemma ops_rel_outbox caps s s1 at_ ai et p :
  ops_rel caps s s1 -> ops_rel caps s (addOutbox at_ ai et p s1).
Proof. intros H. eapply ops_rel_log; [exact H|apply frame_outbox|done|]. apply (fr_gen _ _ (rel_frame _ _ _ H)). Qed.

(** ** Automation for the clauses every handler ends with *)

Ltac prefix_tac := first [reflexivity | eexists; cbn; rewrite <- ?app_assoc; reflexivity].
Ltac frame_tac := apply frame_same; [done|cbn; lia|done|prefix_tac|done|done|done].
Ltac ops_logged :=
  repeat lazymatch goal with
  | |- ops_rel _ _ (addOutbox _ _ _ _ _) => apply ops_rel_outbox
  | |- ops_rel _ _ (addAudit _ _ _ _ _ _ _) => apply ops_rel_audit
  end.
Ltac ops_same := apply ops_rel_same; [done|frame_tac].
Ltac ops_update Hop :=
  eapply ops_rel_update; [exact Hop|cbn; rewrite ?insert_insert_eq; reflexivity|try frame_tac|].
(** the handler drew the identifier of the evidence record first *)
Ltac frame_evidence_tac s p :=
  eapply (frame_evidence s _ (ms_ids s) p);
  [done|done|cbn; lia|done|prefix_tac|done|done|done|done|done|done|done|done].

(** rewrite the state tests that passed *)
Ltac use_state :=
  repeat match goal with
  | H : op_State ?a = _ |- context [op_State ?a] => rewrite H
  | H : op_NextAttemptAt ?a = Some _ |- context [op_NextAttemptAt ?a] => rewrite H
  | H : op_LeaseExpiresAt ?a = Some _ |- context [op_LeaseExpiresAt ?a] => rewrite H
  end.
(** one lifecycle rule explains the new value of the operation *)
Ltac by_rule c :=
  apply advance_once; [reflexivity|]; unfold view; cbn; use_state; cbn; eapply c.

Lemma direct_can from to :
  CanDirectOperationTransition from to = true ->
  CanTransition from to = true /\ IsTerminal to = false /\ to <> OperationRollingBack /\
  from <> OperationFailed.
Proof. destruct from, to; cbn; done. Qed.

(** a direct transition that the table admits goes through *)
Section transition_ok.
Context {B : Type}.

Definition directed (op : Operation) (to : OperationState) (lastError : string) (now : Time) :=
  op <| op_State := to |> <| op_LastError := lastError |> <| op_Meta := bump (op_Meta op) now |>.

Definition transitioned (s : MemoryStore) (id : string) (op : Operation) (to : OperationState)
    (lastError actor : string) : MemoryStore :=
  let op' := directed op to lastError (clock s) in
  addOutbox "operation" id "operation.transitioned" (PayloadOperation op')
    (addAudit actor "operation.transitioned" "operation" id (op_Revision op')
       [("state", MStr (OperationState_string to))]
       (tick s <| ms_operations := <[id := op']> (ms_operations s) |>)).

Lemma transition_ok s id op to lastError actor (Q : result Operation -> MemoryStore -> Prop) :
  ms_operations s !! id = Some op ->
  CanDirectOperationTransition (op_State op) to = true ->
  Q (Ok (directed op to lastError (clock s))) (transitioned s id op to lastError actor) ->
  wp (transitionOperationLocked id (op_Revision op) to lastError actor) Q s.
Proof.
  intros Hop Hd HQ. destruct (direct_can _ _ Hd) as (Hc & Ht & Hr & Hf).
  unfold transitionOperationLocked; unfold_puts.
  wp_go; norm_bool; try congruence; simplify_eq.
  rewrite Ht. exact HQ.
Qed.
End transition_ok.

Section refine.
Context (s : MemoryStore) (Hwf : ids_wf s).
Local Abbreviation refines caps m := (wp m (fun _ s' => ops_rel caps s s') s).

Lemma transition_refines id expected to lastError actor :
  refines noCaps (transitionOperationLocked id expected to lastError actor).
Proof.
  unfold transitionOperationLocked; unfold_puts. wp_go; try ops_same.
  norm_bool. ops_update H. destruct (direct_can _ _ H2) as (_ & -> & _).
  by_rule L_direct. done.
Qed.

Lemma claim_refines id worker ttl at_ : refines noCaps (ClaimOperation id worker ttl at_).
Proof.
  unfold ClaimOperation; unfold_puts. wp_go; try ops_same; norm_bool.
  all: ops_update H0.
  - destruct (op_NextAttemptAt a) eqn:En; [|done]; by_rule L_due.
  - destruct (op_NextAttemptAt a) eqn:En; [|done].
    eapply advance_twice; [reflexivity| |].
    + unfold view; cbn; use_state. apply L_due.
    + cbn. apply (L_claim _ OperationQueued). done.
  - by_rule L_claim. done.
Qed.

Lemma renew_refines id worker fence ttl at_ :
  refines noCaps (RenewOperationLease id worker fence ttl at_).
Proof.
  unfold RenewOperationLease; unfold_puts. wp_go; try ops_same; norm_bool.
  ops_update H0. destruct (op_LeaseExpiresAt a) eqn:?; [|done]. by_rule L_renew.
Qed.

Lemma release_refines id worker fence : refines noCaps (ReleaseOperationLease id worker fence).
Proof.
  unfold ReleaseOperationLease; unfold_puts. wp_go; try ops_same; norm_bool.
  ops_update H0. by_rule L_release.
Qed.

Lemma append_step_refines step actor : refines noCaps (AppendOperationStep step actor).
Proof. unfold AppendOperationStep; unfold_puts. wp_go; ops_same. Qed.

Lemma start_refines id expected worker fence actor :
  refines (only CapStart) (StartOperationAttempt id expected worker fence actor).
Proof.
  unfold StartOperationAttempt; unfold_puts. wp_go; try ops_same; norm_bool.
  ops_update H. by_rule L_start; done.
Qed.

Lemma verification_refines id expected worker fence actor :
  refines noCaps (BeginOperationVerification id expected worker fence actor).
Proof.
  unfold BeginOperationVerification; unfold_puts. wp_go; try ops_same; norm_bool.
  ops_update H. by_rule L_verify.
Qed.

Lemma failure_refines id expected worker fence report actor :
  refines noCaps (ReportOperationFailure id expected worker fence report actor).
Proof.
  unfold ReportOperationFailure; unfold_puts. wp_go; try ops_same.
  assert (Hex : executing (op_State a) = true).
  { destruct (op_State a); try done; discriminate. }
  norm_bool. ops_update H. cbn.
  destruct (_ && (op_Attempt a <? _)) eqn:E; norm_bool; [by_rule L_fail_retry; done|by_rule L_fail; done].
Qed.

Lemma complete_refines id expected worker fence actor :
  refines (only CapComplete) (CompleteOperation id expected worker fence actor).
Proof.
  unfold CompleteOperation; unfold_puts. wp_go; try ops_same; norm_bool.
  ops_update H. by_rule L_complete; done.
Qed.

Lemma cancel_refines id expected actor reason :
  refines noCaps (RequestOperationCancellation id expected actor reason).
Proof.
  unfold RequestOperationCancellation; unfold_puts. wp_go; try ops_same; norm_bool.
  ops_update H. cbn.
  destruct (op_State a) eqn:?; try done;
    first [by_rule L_cancel_request; done | by_rule L_cancel_now; done].
Qed.

Lemma ack_refines id expected worker fence actor :
  refines noCaps (AcknowledgeOperationCancellation id expected worker fence actor).
Proof.
  unfold AcknowledgeOperationCancellation; unfold_puts. wp_go; try ops_same; norm_bool.
  ops_update H. by_rule L_cancel_ack.
Qed.

(** *** Recovery *)

Lemma checkpoint_create_refines v actor : refines noCaps (CreateRecoveryCheckpoint v actor).
Proof. unfold CreateRecoveryCheckpoint; unfold_puts. wp_go; ops_same. Qed.

Lemma checkpoint_revoke_refines id expected actor :
  refines noCaps (RevokeRecoveryCheckpoint id expected actor).
Proof. unfold RevokeRecoveryCheckpoint; unfold_puts. wp_go; ops_same. Qed.

Lemma apply_unknown op expected resolution digest actor op' :
  ApplyUnknownOutcomeResolution op expected resolution digest actor = Ok op' ->
  op_State op = OperationFailed /\ static op' = static op /\
  lstep (only CapResolve) (view op) (view op').
Proof.
  unfold ApplyUnknownOutcomeResolution. intros H. repeat case_match; try discriminate;
    norm_bool; simplify_eq; (split; [done|split; [done|]]);
    unfold view; cbn; use_state; cbn; eapply L_resolve; auto.
Qed.

Lemma stamp_advance op op' now :
  static op' = static op -> lstep (only CapResolve) (view op) (view op') ->
  advance (only CapResolve) op (stampUpdated op' now).
Proof. intros Hs Hl. by apply advance_once. Qed.

Lemma resolve_refines id expected resolution digest actor :
  refines (only CapResolve) (ResolveUnknownOperationOutcome id expected resolution digest actor).
Proof.
  unfold ResolveUnknownOperationOutcome; unfold_puts. wp_go; try ops_same.
  apply apply_unknown in H0 as (_ & Hs & Hl). ops_update H. by apply stamp_advance.
Qed.

Lemma resolve_evidence_refines id expected resolution in_ payload actor :
  refines (only CapResolve) (ResolveUnknownOperationOutcomeWithEvidence id expected resolution in_ payload actor).
Proof.
  unfold ResolveUnknownOperationOutcomeWithEvidence; unfold_puts. wp_go; try ops_same.
  apply apply_unknown in H4 as (_ & Hs & Hl).
  ops_logged.
  ops_update H2; [|by apply stamp_advance].
  frame_evidence_tac s "evd".
Qed.

(** *** Evidence *)

Lemma trace_refines in_ worker fence actor :
  refines noCaps (AppendOperationStepTrace in_ worker fence actor).
Proof.
  unfold AppendOperationStepTrace, validateOperationStepTraceLocked; unfold_puts.
  wp_go; try ops_same; (apply ops_rel_same; [done|frame_evidence_tac s "evd"]).
Qed.

Lemma evidence_refines e actor : refines noCaps (AppendEvidence e actor).
Proof.
  unfold AppendEvidence; unfold_puts. wp_go; try ops_same. apply ops_rel_same; [done|].
  eapply (frame_metadata s _ (ms_ids s) "evd");
    [done|done|cbn; lia|done|prefix_tac|reflexivity|done|done|done].
Qed.

Lemma evidence_payload_refines in_ payload worker fence actor :
  refines noCaps (AppendOperationEvidencePayload in_ payload worker fence actor).
Proof.
  unfold AppendOperationEvidencePayload; unfold_puts. wp_go; try ops_same.
  apply ops_rel_same; [done|frame_evidence_tac s "evd"].
Qed.
End refine.

(** ** Compensation handlers *)

(** binding the plan rows touches neither operations nor their identifiers *)
Lemma bindPlanRows_frame id now plan s :
  wp (bindPlanRows id now plan)
     (fun r s' => (exists rows, r = Ok rows) /\ ms_operations s' = ms_operations s /\ frame s s') s.
Proof.
  revert s. induction plan as [|in_ rest IH]; intros s; cbn [bindPlanRows].
  - apply wp_ret. split; [eauto|]. by split.
  - unfold_puts. wp_go. apply wp_bind. eapply wp_mono; [apply IH|].
    intros r s' ((rows & ->) & Hops & Hf). wp_go.
    split; [eauto|]. split; [done|]. etrans; [|exact Hf]. frame_tac.
Qed.

(** the completion commit moves a RUNNING or VERIFYING operation to SUCCEEDED *)
Definition finished (op : Operation) (now : Time) : Operation :=
  let op := if op_State op == OperationRunning
            then op <| op_State := OperationVerifying |> <| op_Meta := bump (op_Meta op) now |>
            else op in
  clearLease (op <| op_State := OperationSucceeded |>) <| op_NextAttemptAt := None |>
    <| op_Meta := bump (op_Meta op) now |>.

Lemma finish_spec id op now digest actor s :
  wp (finishVerified id op now digest actor)
     (fun r s' => r = Ok (finished op now) /\
        ms_operations s' = <[id := finished op now]> (ms_operations s) /\ frame s s') s.
Proof.
  unfold finishVerified, finished; unfold_puts. wp_go.
  all: rewrite H; (split; [done|split; [done|frame_tac]]).
Qed.

Lemma finished_advance op now :
  op_State op = OperationRunning \/ op_State op = OperationVerifying ->
  advance (only CapComplete) op (finished op now).
Proof.
  unfold finished. intros [H|H]; rewrite H; cbn [bool_decide decide_rel]; cbn.
  - eapply advance_twice; [reflexivity| |].
    + unfold view; cbn; rewrite H. apply L_verify.
    + cbn. by apply L_complete.
  - by_rule L_complete; done.
Qed.
#[global] Opaque finished.

Lemma finish_rel {B} s s1 id op now digest actor (k : Operation -> B) :
  ms_operations s !! id = Some op -> ms_operations s1 = ms_operations s ->
  op_State op = OperationRunning \/ op_State op = OperationVerifying ->
  frame s s1 ->
  wp (bind (finishVerified id op now digest actor) (fun op => ret (k op)))
     (fun _ s' => ops_rel (only CapComplete) s s') s1.
Proof.
  intros Hop Hops Hst Hf. apply wp_bind. eapply wp_mono; [apply finish_spec|].
  intros r s' (-> & Hops' & Hf'). apply wp_ret.
  eapply ops_rel_update; [done|by rewrite Hops', Hops|by etrans|by apply finished_advance].
Qed.

Section refine_compensation.
Context (s : MemoryStore) (Hwf : ids_wf s).
Local Abbreviation refines caps m := (wp m (fun _ s' => ops_rel caps s s') s).

Lemma set_plan_refines id expected plan actor :
  refines noCaps (SetOperationCompensationPlan id expected plan actor).
Proof.
  unfold SetOperationCompensationPlan, dropCompensationSteps; unfold_puts. wp_go; try ops_same.
  apply wp_bind. eapply wp_mono; [apply bindPlanRows_frame|].
  intros r s' ((rows & ->) & Hops & Hf). wp_go. norm_bool.
  eapply ops_rel_update; [exact H|cbn; rewrite Hops; reflexivity| |by_rule L_plan].
  transitivity s'; [etrans; [|exact Hf]|]; frame_tac.
Qed.

Lemma forward_refines id stepKey expected worker fence actor :
  refines noCaps (RecordOperationForwardStepCompleted id stepKey expected worker fence actor).
Proof.
  unfold RecordOperationForwardStepCompleted; unfold_puts. wp_go; try ops_same.
  assert (op_State a = OperationRunning \/ op_State a = OperationVerifying).
  { destruct (op_State a); auto; discriminate. }
  ops_update H. by_rule L_forward. done.
Qed.

Lemma begin_compensation_refines id expected actor :
  refines (only CapCompensate) (BeginOperationCompensation id expected actor).
Proof.
  unfold BeginOperationCompensation; unfold_puts. wp_go; try ops_same.
  assert (op_State a = OperationFailed \/ op_State a = OperationCancelRequested).
  { destruct (op_State a); auto; discriminate. }
  ops_update H. destruct (negb (hasCompensatableForwardLocked s id)); by_rule L_rollback; auto.
Qed.

Lemma claim_next_refines id worker fence actor :
  refines (only CapCompensate) (ClaimNextOperationCompensationStep id worker fence actor).
Proof.
  unfold ClaimNextOperationCompensationStep; unfold_puts. wp_go; try ops_same; norm_bool; ops_update H.
  - by_rule L_rollback_end; auto.
  - by_rule L_rollback_end; auto.
  - by_rule L_rollback_progress.
Qed.

Lemma complete_step_refines id stepKey worker fence digest actor :
  refines (only CapCompensate) (CompleteOperationCompensationStep id stepKey worker fence digest actor).
Proof.
  unfold CompleteOperationCompensationStep; unfold_puts. wp_go; try ops_same; norm_bool;
    ops_update H; (destruct (negb (map_any _ _)) in * |- *;
      [by_rule L_rollback_end; auto|by_rule L_rollback_progress]).
Qed.

Lemma step_failure_refines id stepKey worker fence failure actor :
  refines (only CapCompensate) (ReportOperationCompensationStepFailure id stepKey worker fence failure actor).
Proof.
  unfold ReportOperationCompensationStepFailure; unfold_puts. wp_go; try ops_same; norm_bool.
  ops_update H. destruct (cf_Retryable failure && _);
    [by_rule L_rollback_progress|by_rule L_rollback_end; auto].
Qed.

Lemma complete_evidence_refines id expected in_ payload worker fence actor :
  refines (only CapComplete) (CompleteOperationWithEvidencePayload id expected in_ payload worker fence actor).
Proof.
  unfold CompleteOperationWithEvidencePayload; unfold_puts. wp_go; try ops_same; norm_bool.
  all: try discriminate; try congruence.
  all: eapply finish_rel; [exact H3|done|by eauto|]; first [frame_tac|frame_evidence_tac s "evd"].
Qed.
End refine_compensation.

(** ** Creation *)

(** what [createOperationLocked] leaves behind: a replay or an error changes
    no data; otherwise the new DRAFT operation is filed under a fresh
    identifier and remembered under its idempotency scope *)
Definition create_post (s : MemoryStore) (r : OperationRequest) (key : string)
    (res : result (Operation * bool)) (s' : MemoryStore) : Prop :=
  match res with
  | Fail _ => same_data s s' /\ (ms_ids s <= ms_ids s')%nat
  | Ok (op, true) =>
      s' = s /\ exists id, ms_idempotency s !! idempotencyScope (rq_ProjectID r) key = Some id /\
        ms_operations s !! id = Some op
  | Ok (op, false) =>
      initial op /\ op_ID op = fresh s "op" /\ frame s s' /\ (ms_ids s < ms_ids s')%nat /\
      ms_operations s' = <[fresh s "op" := op]> (ms_operations s) /\
      ms_idempotency s !! idempotencyScope (rq_ProjectID r) key = None /\
      ms_idempotency s' = <[idempotencyScope (rq_ProjectID r) key := op_ID op]> (ms_idempotency s) /\
      ms_operationRequestPayloads s' = ms_operationRequestPayloads s
  end.

Lemma frame_idempotency s s' scope id :
  ms_idempotency s !! scope = None -> ms_idempotency s' = <[scope := id]> (ms_idempotency s) ->
  frame s (s' <| ms_idempotency := ms_idempotency s |>) -> frame s s'.
Proof.
  intros Hn Hi [Hg Hid _ Ha He Hk Hp Hr Hs]. split; try done. rewrite Hi. by apply insert_subseteq.
Qed.

Lemma create_spec s r key actor requestID :
  wp (createOperationLocked r key actor requestID) (create_post s r key) s.
Proof.
  unfold createOperationLocked; unfold_puts.
  wp_go; cbn [create_post]; try (split; [done|cbn; lia]); try (split; [done|by eauto]).
  all: repeat split; try done; try (cbn; lia).
  all: eapply frame_idempotency; [exact Heqo|reflexivity|frame_tac].
Qed.
