(* ===== verification/OperationRuns.v ===== *)
(** * Runs of the operation engine

    The creation, approval and owner-driven handlers refine the lifecycle too;
    [Call] gathers every handler, [run] executes a sequence of calls, and the
    invariants of the engine hold in every store a run can reach. *)
From S2P Require Import Prelude GoStrings Digest Model Store Operations Recovery Evidence Compensation.
From S2P Require Import OwnerOperations Lifecycle OperationSystem.

(** ** Creation handlers *)

Lemma advance_id caps op op' : advance caps op op' -> op_ID op' = op_ID op.
Proof. intros [->|(Hs & _)]; [done|]. exact (f_equal (fun t => t.1.1.1.1.1.1.1.1.1.1.1.1) Hs). Qed.


Lemma wp_orUndo_ok projectID key (m : Store Operation) Q s :
  wp m (fun r s' => match r with Ok op => Q (Ok op) s' | Fail _ => False end) s ->
  wp (orUndo projectID key m) Q s.
Proof. unfold wp, orUndo. destruct (m s) as [s' [op|e]]; cbn; done. Qed.

(** the clean-up branch is dead: a transition of the operation just created
    that the direct table admits cannot fail *)
Lemma orUndo_transition {B} projectID key s id op to lastError actor (k : Operation -> Store B) Q :
  ms_operations s !! id = Some op ->
  CanDirectOperationTransition (op_State op) to = true ->
  wp (k (directed op to lastError (clock s))) Q (transitioned s id op to lastError actor) ->
  wp (bind (orUndo projectID key (transitionOperationLocked id (op_Revision op) to lastError actor)) k) Q s.
Proof.
  intros Hop Hd HQ. apply wp_bind, wp_orUndo_ok. eapply transition_ok; [done..|]. exact HQ.
Qed.

(** the two orchestration transitions after a creation end in one store *)
Definition planned (s : MemoryStore) (op : Operation) (to : OperationState) (actor : string) : MemoryStore :=
  let s1 := transitioned s (op_ID op) op OperationPlanning "" actor in
  transitioned s1 (op_ID op) (directed op OperationPlanning "" (clock s)) to "" actor.

Definition plannedOp (s : MemoryStore) (op : Operation) (to : OperationState) (actor : string) : Operation :=
  directed (directed op OperationPlanning "" (clock s)) to ""
    (clock (transitioned s (op_ID op) op OperationPlanning "" actor)).

Lemma transitioned_ops s id op to e actor :
  ms_operations (transitioned s id op to e actor) =
  <[id := directed op to e (clock s)]> (ms_operations s).
Proof. done. Qed.
Lemma transitioned_requests s id op to e actor :
  ms_operationRequestPayloads (transitioned s id op to e actor) = ms_operationRequestPayloads s.
Proof. done. Qed.
Lemma transitioned_frame s id op to e actor : frame s (transitioned s id op to e actor).
Proof. unfold transitioned. frame_tac. Qed.

Lemma directed_static op to e now : static (directed op to e now) = static op.
Proof. done. Qed.
Lemma directed_step caps op to e now :
  CanDirectOperationTransition (op_State op) to = true ->
  lstep caps (view op) (view (directed op to e now)).
Proof. intros H. by apply L_direct. Qed.

Lemma initial_state op : initial op -> op_State op = OperationDraft.
Proof. intros H. exact (f_equal lc_state H). Qed.

Lemma plannedOp_advance caps s op to actor :
  initial op -> CanDirectOperationTransition OperationPlanning to = true ->
  advance caps op (plannedOp s op to actor).
Proof.
  intros Hinit Hto. unfold plannedOp.
  eapply advance_twice; [by rewrite !directed_static| |]; apply directed_step; [|exact Hto].
  by rewrite (initial_state _ Hinit).
Qed.

Lemma planned_frame s op to actor :
  ms_operations (planned s op to actor) =
    <[op_ID op := plannedOp s op to actor]> (ms_operations s) /\
  ms_operationRequestPayloads (planned s op to actor) = ms_operationRequestPayloads s /\
  frame s (planned s op to actor).
Proof.
  unfold planned. cbv zeta.
  rewrite !transitioned_ops, !transitioned_requests, insert_insert_eq.
  split; [done|]. split; [done|]. etrans; apply transitioned_frame.
Qed.

Lemma planned_rel s r key s1 op to actor s' :
  ids_wf s -> create_post s r key (Ok (op, false)) s1 ->
  CanDirectOperationTransition OperationPlanning to = true ->
  ms_operations s' = ms_operations (planned s1 op to actor) ->
  frame s s' -> (ms_ids s1 <= ms_ids s')%nat ->
  ops_rel noCaps s s'.
Proof.
  intros Hwf (Hinit & Hid & Hf1 & Hids & Hops & _) Hto Hops' Hf Hids'.
  destruct (planned_frame s1 op to actor) as (Pops & _ & _).
  eapply (ops_rel_create _ _ _ (ms_ids s) op (plannedOp s1 op to actor));
    [done|lia|lia|done| |done|done|by apply plannedOp_advance].
  rewrite Hops', Pops, Hops, Hid. unfold fresh. by rewrite insert_insert_eq.
Qed.

(** running the two transitions *)
Lemma plan_transitions {B} projectID key s op to actor (k : Operation -> Store B) Q :
  ms_operations s !! op_ID op = Some op -> op_State op = OperationDraft ->
  CanDirectOperationTransition OperationPlanning to = true ->
  wp (k (plannedOp s op to actor)) Q (planned s op to actor) ->
  wp (bind (orUndo projectID key (transitionOperationLocked (op_ID op) (op_Revision op) OperationPlanning "" actor))
        (fun op => bind (orUndo projectID key (transitionOperationLocked (op_ID op) (op_Revision op) to "" actor)) k)) Q s.
Proof.
  intros Hop Hst Hto HQ. eapply orUndo_transition; [done|by rewrite Hst|].
  eapply (orUndo_transition _ _ _ (op_ID op) (directed op OperationPlanning "" (clock s)));
    [by apply lookup_insert_eq|done|]. exact HQ.
Qed.

(** the same two transitions under one clean-up *)
Lemma plan_transitions_once {B} projectID key s op to actor (k : Operation -> Store B) Q :
  ms_operations s !! op_ID op = Some op -> op_State op = OperationDraft ->
  CanDirectOperationTransition OperationPlanning to = true ->
  wp (k (plannedOp s op to actor)) Q (planned s op to actor) ->
  wp (bind (orUndo projectID key
              (let! op := transitionOperationLocked (op_ID op) (op_Revision op) OperationPlanning "" actor in
               transitionOperationLocked (op_ID op) (op_Revision op) to "" actor)) k) Q s.
Proof.
  intros Hop Hst Hto HQ. apply wp_bind, wp_orUndo_ok, wp_bind.
  eapply transition_ok; [done|by rewrite Hst|].
  eapply (transition_ok _ (op_ID op) (directed op OperationPlanning "" (clock s)));
    [by apply lookup_insert_eq|done|]. exact HQ.
Qed.
#[global] Opaque planned plannedOp.

Lemma create_post_found s r key s1 op :
  create_post s r key (Ok (op, false)) s1 ->
  ms_operations s1 !! op_ID op = Some op /\ op_State op = OperationDraft.
Proof.
  intros (Hinit & Hid & _ & _ & Hops & _). split; [|by apply initial_state].
  by rewrite Hops, Hid, lookup_insert_eq.
Qed.

Section refine_creation.
Context (s : MemoryStore) (Hwf : ids_wf s).
Local Abbreviation refines caps m := (wp m (fun _ s' => ops_rel caps s s') s).

Lemma same_data_rel caps s' : same_data s s' -> (ms_ids s <= ms_ids s')%nat -> ops_rel caps s s'.
Proof.
  intros Hs Hi. apply same_data_alt in Hs as (t & i & ->). by apply ops_rel_same; [|apply frame_same].
Qed.

Lemma create_refines r key actor requestID :
  refines noCaps (CreateOperation r key actor requestID).
Proof.
  eapply wp_mono; [apply create_spec|]. intros [[op [|]]|e] s' Hp.
  - destruct Hp as [-> _]. by apply ops_rel_same.
  - destruct Hp as (Hinit & Hid & Hf & Hids & Hops & _).
    eapply (ops_rel_create _ _ _ (ms_ids s) op op);
      [done|lia|lia|done|done|done|done|apply advance_refl].
  - destruct Hp as [Hs Hi]. by apply same_data_rel.
Qed.

(** a creation followed by the replay check or by the planning transitions *)
Ltac after_create :=
  apply wp_bind; eapply wp_mono; [apply create_spec|]; intros [[op [|]]|e] s1 Hp;
  [destruct Hp as [-> _]; wp_go; ops_same
  | destruct (create_post_found _ _ _ _ _ Hp) as [Hfound Hdraft]
  | destruct Hp as [Hs Hi]; by apply same_data_rel ].

(** the request payload is filed under the identifier of the new operation *)
Lemma seal_frame {B} s2 op' actor' digest mediaType payload extra (b : B) n :
  frame s s2 -> ms_operationRequestPayloads s2 = ms_operationRequestPayloads s ->
  op_ID op' = ms_id s n "op" -> (ms_ids s <= n < ms_ids s2)%nat ->
  wp (sealRequestPayload op' actor' digest mediaType payload extra ;;; ret b)
     (fun _ s' => ms_operations s' = ms_operations s2 /\ frame s s' /\
                  (ms_ids s2 <= ms_ids s')%nat) s2.
Proof.
  intros [Hg Hi Hidem Ha He Hke Hp Hr Hs] Hreq Hid Hn. unfold sealRequestPayload; unfold_puts. wp_go.
  split; [done|]. split; [|cbn; lia].
  assert (Hlt : (ms_ids s2 <= S (ms_ids s2))%nat) by lia.
  split; try done; cbn -[ms_id].
  - lia.
  - etrans; [exact Ha|]. prefix_tac.
  - destruct He as [He1 He2]. split; [done|]. intros k v Hk.
    destruct (He2 _ _ Hk) as [?|(m & p & Hm & ->)]; [by left|]. right. exists m, p. cbn. split; [lia|done].
  - destruct Hp as [He1 He2]. split; [done|]. intros k v Hk.
    destruct (He2 _ _ Hk) as [?|(m & p & Hm & ->)]; [by left|]. right. exists m, p. cbn. split; [lia|done].
  - eapply (grows_insert _ _ _ _ n "op"); [apply (gen_inj _ Hwf)|apply (requests_filed _ Hwf)|cbn; lia|].
    by rewrite Hreq, Hid.
Qed.

Lemma seal_rel {B} r key s1 op to actor actor' digest mediaType payload extra (b : B) :
  create_post s r key (Ok (op, false)) s1 ->
  CanDirectOperationTransition OperationPlanning to = true ->
  wp (sealRequestPayload (plannedOp s1 op to actor) actor' digest mediaType payload extra ;;; ret b)
     (fun _ s' => ops_rel noCaps s s') (planned s1 op to actor).
Proof.
  intros Hp Hto. pose proof Hp as (Hinit & Hid & Hf1 & Hids & Hops & _ & _ & Hreq).
  destruct (planned_frame s1 op to actor) as (Pops & Preq & Pf).
  pose proof (advance_id _ _ _ (plannedOp_advance noCaps s1 op to actor Hinit Hto)) as Eid.
  eapply wp_mono; [eapply (seal_frame _ _ _ _ _ _ _ _ (ms_ids s))|].
  - by etrans.
  - by rewrite Preq.
  - by rewrite Eid.
  - pose proof (fr_ids _ _ Pf). lia.
  - intros _ s' (Hops' & Hf & Hids'). eapply planned_rel; [done|done|done|done|done|].
    pose proof (fr_ids _ _ Pf). lia.
Qed.

Lemma create_payload_refines r key actor requestID mediaType payload :
  refines noCaps (CreateOperationAwaitingApprovalWithPayload r key actor requestID mediaType payload).
Proof.
  unfold CreateOperationAwaitingApprovalWithPayload. wp_go; try ops_same. after_create.
  eapply plan_transitions; [done|done|done|]. by eapply seal_rel.
Qed.

Lemma create_exclusive_refines r key actor requestID mediaType payload :
  refines noCaps (CreateExclusiveOperationAwaitingApprovalWithPayload r key actor requestID mediaType payload).
Proof.
  unfold CreateExclusiveOperationAwaitingApprovalWithPayload. wp_go; try ops_same;
    after_create; (eapply plan_transitions; [done|done|done|]; by eapply seal_rel).
Qed.

Lemma create_queued_refines r key actor requestID mediaType payload :
  refines noCaps (CreateOperationQueuedWithPayload r key actor requestID mediaType payload).
Proof.
  unfold CreateOperationQueuedWithPayload. wp_go; try ops_same. after_create.
  eapply plan_transitions_once; [done|done|done|]. by eapply seal_rel.
Qed.

Lemma approve_refines id expected actor : refines (only CapApprove) (ApproveOperationAndQueue id expected actor).
Proof.
  unfold ApproveOperationAndQueue; unfold_puts. wp_go; try ops_same. norm_bool.
  destruct (ops_filed _ Hwf _ _ H) as [Hid _].
  eapply ops_rel_update; [exact H|cbn; rewrite Hid; reflexivity|frame_tac|].
  eapply advance_twice; [reflexivity| |].
  - unfold view; cbn; use_state. by apply L_approve.
  - cbn. by apply L_direct.
Qed.
End refine_creation.

(** ** Owner-driven destructive workflows *)

Definition ownerMoved (op : Operation) (to : OperationState) (now : Time) : Operation :=
  op <| op_State := to |> <| op_Meta := bump (op_Meta op) now |>.

Lemma owner_transition {B} s op to actor event payload (k : Operation -> Store B) Q :
  CanTransition (op_State op) to = true ->
  (forall s', ms_operations s' = <[op_ID op := ownerMoved op to (clock s)]> (ms_operations s) ->
     frame s s' ->
     wp (k (ownerMoved op to (clock s))) Q s') ->
  wp (bind (transitionOwnerOperationLocked op to actor event payload) k) Q s.
Proof.
  intros Hc HQ. unfold transitionOwnerOperationLocked; unfold_puts. wp_go; rewrite Hc in *; [done|].
  apply HQ; [done|frame_tac].
Qed.

Lemma bind_ret_r {B} (m : Store B) Q s : wp (bind m ret) Q s -> wp m Q s.
Proof. unfold wp, bind, ret. destruct (m s) as [s' [b|e]]; done. Qed.

Lemma owner_cancel_step op now :
  CanTransition (op_State op) OperationCancelled = true ->
  lstep (only CapOwner) (view op) (view (ownerMoved op OperationCancelled now)).
Proof. intros H. by apply L_owner_cancel. Qed.

Lemma owner_move_step op to now :
  CanDirectOperationTransition (op_State op) to = true \/
    (op_State op = OperationAwaitingApproval /\ to = OperationApproved) ->
  lstep (with_owner (only CapApprove)) (view op) (view (ownerMoved op to now)).
Proof.
  intros [H|[H ->]]; [by apply L_direct|]. unfold view, ownerMoved. cbn. rewrite H. by apply L_approve.
Qed.

(** the moves a creation makes on the new operation *)
Lemma owner_chain_two op t1 t2 :
  op_State op = OperationDraft ->
  advance (with_owner (only CapApprove)) op (ownerMoved (ownerMoved op OperationPlanning t1) OperationAwaitingApproval t2).
Proof.
  intros H. apply (advance_twice _ _ (view (ownerMoved op OperationPlanning t1))); [done| |].
  - apply owner_move_step. rewrite H. by left.
  - apply owner_move_step. by left.
Qed.

Lemma owner_chain_four op t1 t2 t3 t4 :
  op_State op = OperationDraft ->
  advance (with_owner (only CapApprove)) op (ownerMoved (ownerMoved (ownerMoved (ownerMoved op OperationPlanning t1)
    OperationAwaitingApproval t2) OperationApproved t3) OperationQueued t4).
Proof.
  intros H. apply (advance_steps _ _ _ 4); [done|unfold call_steps; lia|].
  eapply nsteps_l; [apply (owner_move_step op OperationPlanning t1); rewrite H; by left|].
  eapply nsteps_l; [apply (owner_move_step _ OperationAwaitingApproval t2); by left|].
  eapply nsteps_l; [apply (owner_move_step _ OperationApproved t3); by right|].
  apply nsteps_once, owner_move_step. by left.
Qed.

Section refine_owner.
Context (s : MemoryStore) (Hwf : ids_wf s).
Local Abbreviation refines caps m := (wp m (fun _ s' => ops_rel caps s s') s).

Lemma owner_cancel_refines id actor reason :
  refines (only CapOwner) (cancelOwnerDestructiveOperationLocked id actor reason).
Proof.
  unfold cancelOwnerDestructiveOperationLocked. wp_go; try ops_same. norm_bool.
  destruct (ops_filed _ Hwf _ _ H0) as [Hid _].
  apply owner_transition; [done|]. intros s' Hops Hf. wp_go.
  rewrite Hid in Hops. eapply ops_rel_update; [exact H0|exact Hops|done|].
  apply advance_once; [done|]. by apply owner_cancel_step.
Qed.

Lemma owner_approve_refines id projectID clusterID actor :
  refines (with_owner (only CapApprove)) (approveOwnerDestructiveOperationLocked id projectID clusterID actor).
Proof.
  unfold approveOwnerDestructiveOperationLocked. wp_go; try ops_same. norm_bool.
  destruct (ops_filed _ Hwf _ _ H) as [Hid _].
  apply owner_transition; [by rewrite H1|]. intros s1 Hops1 Hf1.
  apply bind_ret_r, owner_transition; [done|]. intros s2 Hops2 Hf2. wp_go.
  cbn in Hops2. rewrite Hops1, Hid, insert_insert_eq in Hops2.
  eapply ops_rel_update; [exact H|exact Hops2| |].
  { transitivity s1; [|done]. etrans; [|exact Hf1]. frame_tac. }
  eapply advance_twice; [reflexivity| |].
  - unfold view; cbn; use_state. by apply L_approve.
  - cbn. by apply L_direct.
Qed.

Lemma owner_start_refines id projectID clusterID actor :
  refines (with_owner (only CapStart)) (startOwnerDestructiveOperationLocked id projectID clusterID actor).
Proof.
  unfold startOwnerDestructiveOperationLocked; unfold_puts. wp_go; try ops_same. norm_bool.
  destruct (ops_filed _ Hwf _ _ H) as [Hid _].
  eapply ops_rel_update; [exact H|cbn; rewrite Hid; reflexivity|frame_tac|].
  by_rule L_start; done.
Qed.

Lemma owner_finish_refines id success lastError actor :
  refines (only CapOwner) (finishOwnerDestructiveOperationLocked id success lastError actor).
Proof.
  unfold finishOwnerDestructiveOperationLocked; unfold_puts. wp_go; try ops_same; norm_bool.
  all: destruct (ops_filed _ Hwf _ _ H) as [Hid _].
  all: eapply ops_rel_update;
    [exact H|cbn; rewrite Hid, ?insert_insert_eq; reflexivity|frame_tac|].
  - by_rule L_owner_fail. done.
  - eapply advance_twice; [reflexivity| |].
    + unfold view; cbn; use_state. apply L_verify.
    + cbn. by apply L_owner_succeed.
Qed.

Lemma owner_create_refines projectID clusterID kind ownerID ownerRevision desiredDigest
    recoveryCheckpointID actor requestDigest awaitApproval :
  refines (with_owner (only CapApprove)) (createOwnerDestructiveOperationLocked projectID clusterID kind ownerID ownerRevision
    desiredDigest recoveryCheckpointID actor requestDigest awaitApproval).
Proof.
  unfold createOwnerDestructiveOperationLocked; unfold_puts. wp_go; try ops_same.
  match goal with
  | |- wp (bind (transitionOwnerOperationLocked ?op _ _ _ _) _) _ ?s0 =>
      assert (Hinit : initial op) by done;
      assert (Hid : op_ID op = ms_id s (ms_ids s) "op") by done;
      assert (Hops : ms_operations s0 = <[op_ID op := op]> (ms_operations s)) by done;
      assert (Hf : frame s s0) by (eapply frame_idempotency; [exact Heqo|reflexivity|frame_tac]);
      assert (Hids : (ms_ids s < ms_ids s0)%nat) by (cbn; lia);
      revert Hinit Hid Hops Hf Hids; generalize op; generalize s0
  end.
  intros s0 op Hinit Hid Hops Hf Hids. pose proof (initial_state _ Hinit) as Hst.
  apply owner_transition; [by rewrite Hst|]. intros s1 Hops1 Hf1.
  apply owner_transition; [done|]. intros s2 Hops2 Hf2.
  pose proof (fr_ids _ _ Hf1). pose proof (fr_ids _ _ Hf2).
  apply wp_if; intros _.
  - wp_go. cbn in Hops2. rewrite Hops1, Hops, !insert_insert_eq, Hid in Hops2.
    eapply (ops_rel_create _ _ _ (ms_ids s) op); [done|lia|lia|by do 2 (etrans; [done|])|exact Hops2|done|done|].
    by apply owner_chain_two.
  - apply owner_transition; [done|]. intros s3 Hops3 Hf3.
    apply bind_ret_r, owner_transition; [done|]. intros s4 Hops4 Hf4. wp_go.
    pose proof (fr_ids _ _ Hf3). pose proof (fr_ids _ _ Hf4).
    cbn in Hops4, Hops3, Hops2.
    rewrite Hops3, Hops2, Hops1, Hops, !insert_insert_eq, Hid in Hops4.
    eapply (ops_rel_create _ _ _ (ms_ids s) op); [done|lia|lia|by do 4 (etrans; [done|])|exact Hops4|done|done|].
    by apply owner_chain_four.
Qed.
End refine_owner.

(** ** Calls *)

Inductive Call : Type :=
| CCreateOperation (r : OperationRequest) (key actor requestID : string)
| CCreateAwaitingApproval (r : OperationRequest) (key actor requestID mediaType : string) (payload : Bytes)
| CCreateExclusive (r : OperationRequest) (key actor requestID mediaType : string) (payload : Bytes)
| CCreateQueued (r : OperationRequest) (key actor requestID mediaType : string) (payload : Bytes)
| CTransition (id : string) (expected : Z) (to : OperationState) (lastError actor : string)
| CApprove (id : string) (expected : Z) (actor : string)
| CClaim (id worker : string) (ttl : Z) (at_ : Time)
| CRenew (id worker : string) (fence ttl : Z) (at_ : Time)
| CRelease (id worker : string) (fence : Z)
| CAppendStep (step : OperationStep) (actor : string)
| CStartAttempt (id : string) (expected : Z) (worker : string) (fence : Z) (actor : string)
| CBeginVerification (id : string) (expected : Z) (worker : string) (fence : Z) (actor : string)
| CReportFailure (id : string) (expected : Z) (worker : string) (fence : Z) (report : OperationFailureReport) (actor : string)
| CComplete (id : string) (expected : Z) (worker : string) (fence : Z) (actor : string)
| CRequestCancellation (id : string) (expected : Z) (actor reason : string)
| CAcknowledgeCancellation (id : string) (expected : Z) (worker : string) (fence : Z) (actor : string)
| CCreateCheckpoint (v : RecoveryCheckpoint) (actor : string)
| CRevokeCheckpoint (id : string) (expected : Z) (actor : string)
| CResolveUnknown (id : string) (expected : Z) (resolution evidenceDigest actor : string)
| CResolveUnknownWithEvidence (id : string) (expected : Z) (resolution : string) (in_ : EvidenceMetadata) (payload : Bytes) (actor : string)
| CAppendTrace (in_ : OperationStepTraceInput) (worker : string) (fence : Z) (actor : string)
| CAppendEvidence (e : EvidenceMetadata) (actor : string)
| CAppendEvidencePayload (in_ : EvidenceMetadata) (payload : Bytes) (worker : string) (fence : Z) (actor : string)
| CCompleteWithEvidence (id : string) (expected : Z) (in_ : EvidenceMetadata) (payload : Bytes) (worker : string) (fence : Z) (actor : string)
| CSetPlan (id : string) (expected : Z) (plan : list CompensationPlanStep) (actor : string)
| CRecordForwardStep (id stepKey : string) (expected : Z) (worker : string) (fence : Z) (actor : string)
| CBeginCompensation (id : string) (expected : Z) (actor : string)
| CClaimCompensationStep (id worker : string) (fence : Z) (actor : string)
| CCompleteCompensationStep (id stepKey worker : string) (fence : Z) (digest actor : string)
| CReportCompensationFailure (id stepKey worker : string) (fence : Z) (failure : CompensationStepFailure) (actor : string)
| CCreateOwner (projectID clusterID kind ownerID : string) (ownerRevision : Z)
    (desiredDigest recoveryCheckpointID actor requestDigest : string) (awaitApproval : bool)
| CApproveOwner (id projectID clusterID actor : string)
| CStartOwner (id projectID clusterID actor : string)
| CFinishOwner (id : string) (success : bool) (lastError actor : string)
| CCancelOwner (id actor reason : string).

(** the error of a call, if any *)
Definition outcome {A} (r : result A) : option Error :=
  match r with Ok _ => None | Fail e => Some e end.
Definition run1 {A} (m : Store A) (s : MemoryStore) : MemoryStore * option Error :=
  ((m s).1, outcome (m s).2).

Lemma run1_leaves {A} (m : Store A) (P : MemoryStore -> Prop) s : wp m (fun _ s' => P s') s -> P (run1 m s).1.
Proof. unfold wp, run1. by destruct (m s) as [s1 [a|e]]. Qed.

Definition exec (c : Call) : MemoryStore -> MemoryStore * option Error :=
  match c with
  | CCreateOperation r key actor rid => run1 (CreateOperation r key actor rid)
  | CCreateAwaitingApproval r key actor rid mt p => run1 (CreateOperationAwaitingApprovalWithPayload r key actor rid mt p)
  | CCreateExclusive r key actor rid mt p => run1 (CreateExclusiveOperationAwaitingApprovalWithPayload r key actor rid mt p)
  | CCreateQueued r key actor rid mt p => run1 (CreateOperationQueuedWithPayload r key actor rid mt p)
  | CTransition id e to le actor => run1 (TransitionOperation id e to le actor)
  | CApprove id e actor => run1 (ApproveOperationAndQueue id e actor)
  | CClaim id w ttl at_ => run1 (ClaimOperation id w ttl at_)
  | CRenew id w f ttl at_ => run1 (RenewOperationLease id w f ttl at_)
  | CRelease id w f => run1 (ReleaseOperationLease id w f)
  | CAppendStep step actor => run1 (AppendOperationStep step actor)
  | CStartAttempt id e w f actor => run1 (StartOperationAttempt id e w f actor)
  | CBeginVerification id e w f actor => run1 (BeginOperationVerification id e w f actor)
  | CReportFailure id e w f report actor => run1 (ReportOperationFailure id e w f report actor)
  | CComplete id e w f actor => run1 (CompleteOperation id e w f actor)
  | CRequestCancellation id e actor reason => run1 (RequestOperationCancellation id e actor reason)
  | CAcknowledgeCancellation id e w f actor => run1 (AcknowledgeOperationCancellation id e w f actor)
  | CCreateCheckpoint v actor => run1 (CreateRecoveryCheckpoint v actor)
  | CRevokeCheckpoint id e actor => run1 (RevokeRecoveryCheckpoint id e actor)
  | CResolveUnknown id e res dig actor => run1 (ResolveUnknownOperationOutcome id e res dig actor)
  | CResolveUnknownWithEvidence id e res in_ p actor => run1 (ResolveUnknownOperationOutcomeWithEvidence id e res in_ p actor)
  | CAppendTrace in_ w f actor => run1 (AppendOperationStepTrace in_ w f actor)
  | CAppendEvidence e actor => run1 (AppendEvidence e actor)
  | CAppendEvidencePayload in_ p w f actor => run1 (AppendOperationEvidencePayload in_ p w f actor)
  | CCompleteWithEvidence id e in_ p w f actor => run1 (CompleteOperationWithEvidencePayload id e in_ p w f actor)
  | CSetPlan id e plan actor => run1 (SetOperationCompensationPlan id e plan actor)
  | CRecordForwardStep id k e w f actor => run1 (RecordOperationForwardStepCompleted id k e w f actor)
  | CBeginCompensation id e actor => run1 (BeginOperationCompensation id e actor)
  | CClaimCompensationStep id w f actor => run1 (ClaimNextOperationCompensationStep id w f actor)
  | CCompleteCompensationStep id k w f d actor => run1 (CompleteOperationCompensationStep id k w f d actor)
  | CReportCompensationFailure id k w f failure actor => run1 (ReportOperationCompensationStepFailure id k w f failure actor)
  | CCreateOwner p c k o r d rc actor rd aw => run1 (createOwnerDestructiveOperationLocked p c k o r d rc actor rd aw)
  | CApproveOwner id p c actor => run1 (approveOwnerDestructiveOperationLocked id p c actor)
  | CStartOwner id p c actor => run1 (startOwnerDestructiveOperationLocked id p c actor)
  | CFinishOwner id ok le actor => run1 (finishOwnerDestructiveOperationLocked id ok le actor)
  | CCancelOwner id actor reason => run1 (cancelOwnerDestructiveOperationLocked id actor reason)
  end.

(** which call holds which capability *)
Definition caps_of (c : Call) : Cap -> bool :=
  match c with
  | CApprove _ _ _ => only CapApprove
  | CStartAttempt _ _ _ _ _ => only CapStart
  | CComplete _ _ _ _ _ | CCompleteWithEvidence _ _ _ _ _ _ _ => only CapComplete
  | CBeginCompensation _ _ _ | CClaimCompensationStep _ _ _ _
  | CCompleteCompensationStep _ _ _ _ _ _ | CReportCompensationFailure _ _ _ _ _ _ => only CapCompensate
  | CResolveUnknown _ _ _ _ _ | CResolveUnknownWithEvidence _ _ _ _ _ _ => only CapResolve
  | CCreateOwner _ _ _ _ _ _ _ _ _ _ | CApproveOwner _ _ _ _ => with_owner (only CapApprove)
  | CStartOwner _ _ _ _ => with_owner (only CapStart)
  | CFinishOwner _ _ _ _ | CCancelOwner _ _ _ => only CapOwner
  | _ => noCaps
  end.

(** the calls of the owner-driven workflows *)
Definition owner_call (c : Call) : bool := caps_of c CapOwner.

Lemma exec_refines c s : ids_wf s -> ops_rel (caps_of c) s (exec c s).1.
Proof.
  intros Hwf. destruct c; cbn [exec run1 caps_of fst].
  - exact (create_refines s Hwf r key actor requestID).
  - exact (create_payload_refines s Hwf r key actor requestID mediaType payload).
  - exact (create_exclusive_refines s Hwf r key actor requestID mediaType payload).
  - exact (create_queued_refines s Hwf r key actor requestID mediaType payload).
  - exact (transition_refines s id expected to lastError actor).
  - exact (approve_refines s Hwf id expected actor).
  - exact (claim_refines s id worker ttl at_).
  - exact (renew_refines s id worker fence ttl at_).
  - exact (release_refines s id worker fence).
  - exact (append_step_refines s step actor).
  - exact (start_refines s id expected worker fence actor).
  - exact (verification_refines s id expected worker fence actor).
  - exact (failure_refines s id expected worker fence report actor).
  - exact (complete_refines s id expected worker fence actor).
  - exact (cancel_refines s id expected actor reason).
  - exact (ack_refines s id expected worker fence actor).
  - exact (checkpoint_create_refines s v actor).
  - exact (checkpoint_revoke_refines s id expected actor).
  - exact (resolve_refines s id expected resolution evidenceDigest actor).
  - exact (resolve_evidence_refines s Hwf id expected resolution in_ payload actor).
  - exact (trace_refines s Hwf in_ worker fence actor).
  - exact (evidence_refines s Hwf e actor).
  - exact (evidence_payload_refines s Hwf in_ payload worker fence actor).
  - exact (complete_evidence_refines s Hwf id expected in_ payload worker fence actor).
  - exact (set_plan_refines s id expected plan actor).
  - exact (forward_refines s id stepKey expected worker fence actor).
  - exact (begin_compensation_refines s id expected actor).
  - exact (claim_next_refines s id worker fence actor).
  - exact (complete_step_refines s id stepKey worker fence digest actor).
  - exact (step_failure_refines s id stepKey worker fence failure actor).
  - exact (owner_create_refines s Hwf projectID clusterID kind ownerID ownerRevision desiredDigest
             recoveryCheckpointID actor requestDigest awaitApproval).
  - exact (owner_approve_refines s Hwf id projectID clusterID actor).
  - exact (owner_start_refines s Hwf id projectID clusterID actor).
  - exact (owner_finish_refines s Hwf id success lastError actor).
  - exact (owner_cancel_refines s Hwf id actor reason).
Qed.

(** ** Steps and reachable stores *)

(** what the other components of the store may do in between: they never
    touch operations and respect the frame *)
Record env_step (s s' : MemoryStore) : Prop := {
  env_ops : ms_operations s' = ms_operations s;
  env_frame : frame s s';
}.

Inductive step (owner : bool) (s : MemoryStore) : MemoryStore -> Prop :=
| step_call c : (owner_call c = true -> owner = true) -> step owner s (exec c s).1
| step_env s' : env_step s s' -> step owner s s'.

(** an identifier source that never answers twice the same *)
Definition id_source (id : nat -> string -> string) : Prop :=
  forall n m p q, id n p = id m q -> n = m.

Definition reachable (owner : bool) (s : MemoryStore) : Prop :=
  exists now id, id_source id /\ rtc (step owner) (NewMemoryStoreWith now id) s.

Section weaken.
Context (c1 c2 : Cap -> bool) (Hc : forall c, c1 c = true -> c2 c = true).

Lemma nsteps_weaken n v v' : nsteps (lstep c1) n v v' -> nsteps (lstep c2) n v v'.
Proof. induction 1; econstructor; eauto using lstep_weaken. Qed.

Lemma advance_weaken op op' : advance c1 op op' -> advance c2 op op'.
Proof.
  intros [->|(Hs & n & Hn & Hl)]; [by left|]. right. split; [done|]. exists n.
  eauto using nsteps_weaken.
Qed.

Lemma ops_rel_weaken s s' : ops_rel c1 s s' -> ops_rel c2 s s'.
Proof.
  intros [Hf Hr]. split; [done|]. intros id. specialize (Hr id). unfold op_effect in *.
  repeat case_match; try done; [by eapply advance_weaken|].
  destruct Hr as (Hid & op0 & Hinit & E & Hadv). split; [done|]. exists op0.
  eauto using advance_weaken.
Qed.
End weaken.

Lemma caps_top c owner cap :
  (owner_call c = true -> owner = true) -> caps_of c cap = true -> top owner cap = true.
Proof. intros Ho Hc. destruct cap; [done..|]. by apply Ho. Qed.

Lemma step_rel owner s s' : step owner s s' -> ids_wf s -> ops_rel (top owner) s s'.
Proof.
  intros [c Ho|s1 [Hops Hf]] Hwf.
  - eapply ops_rel_weaken; [|by apply exec_refines]. intros cap. by apply caps_top.
  - by apply ops_rel_same.
Qed.

(** *** Identifiers stay well filed *)

Lemma ops_rel_ids_wf caps s s' : ops_rel caps s s' -> ids_wf s -> ids_wf s'.
Proof.
  intros [[Hg Hi _ _ He Hke Hp Hq Hs] Hr] [Hinj Hops Hfe Hek Hfp Hfq Hsl].
  split; [by rewrite Hg| |by eapply filed_grows| |by eapply filed_grows..|].
  - rewrite Hg. intros id op Hop. specialize (Hr id). unfold op_effect in Hr. rewrite Hop in Hr.
    destruct (ms_operations s !! id) as [op0|] eqn:E.
    + destruct (Hops _ _ E) as [Hid (n & Hn & ->)]. split; [by rewrite (advance_id _ _ _ Hr)|].
      exists n. split; [lia|done].
    + destruct Hr as [Hn (op1 & _ & Hid & Hadv)]. split; [by rewrite (advance_id _ _ _ Hadv)|done].
  - intros k e Hk. destruct (Hke _ _ Hk); auto.
  - intros k p Hk. destruct (Hs _ _ Hk) as [Hk'|?]; [|done].
    destruct (Hsl _ _ Hk') as (e & Hkx & Hok). exists e. split; [|done].
    by eapply lookup_weaken, He.
Qed.

(** *** The lifecycle invariant *)

Definition ops_wf (owner : bool) (s : MemoryStore) : Prop :=
  forall id op, ms_operations s !! id = Some op -> lc_wf owner (view op).

Lemma advance_wf caps op op' :
  advance caps op op' -> lc_wf (caps CapOwner) (view op) -> lc_wf (caps CapOwner) (view op').
Proof. intros [->|(_ & n & _ & Hl)]; [done|]. by eapply nsteps_wf. Qed.

Lemma ops_rel_wf caps s s' : ops_rel caps s s' -> ops_wf (caps CapOwner) s -> ops_wf (caps CapOwner) s'.
Proof.
  intros [_ Hr] Hwf id op Hop. specialize (Hr id). unfold op_effect in Hr. rewrite Hop in Hr.
  destruct (ms_operations s !! id) as [op0|] eqn:E.
  - eapply advance_wf; [done|]. by eapply Hwf.
  - destruct Hr as (_ & op1 & Hinit & _ & Hadv). eapply advance_wf; [done|]. by apply initial_wf.
Qed.

Record engine_inv (owner : bool) (s : MemoryStore) : Prop := {
  inv_ids : ids_wf s;
  inv_ops : ops_wf owner s;
}.

Lemma step_inv owner s s' : step owner s s' -> engine_inv owner s -> engine_inv owner s'.
Proof.
  intros Hs [Hi Ho]. pose proof (step_rel _ _ _ Hs Hi) as Hr.
  split; [by eapply ops_rel_ids_wf|by eapply (ops_rel_wf (top owner))].
Qed.

Lemma steps_inv owner s s' : rtc (step owner) s s' -> engine_inv owner s -> engine_inv owner s'.
Proof. induction 1; eauto using step_inv. Qed.

Lemma reachable_inv owner s : reachable owner s -> engine_inv owner s.
Proof.
  intros (now & id & Hid & Hr). eapply steps_inv; [done|].
  split; [split; [exact Hid|..]|]; intros k v Hk; cbn in Hk; by rewrite lookup_empty in Hk.
Qed.

(** *** Operations over many steps *)

(** an operation survives every step, over which its view makes at most
    [call_steps] lifecycle steps per store step *)
Lemma steps_operation owner k s s' id op :
  engine_inv owner s -> nsteps (step owner) k s s' -> ms_operations s !! id = Some op ->
  exists op' n, ms_operations s' !! id = Some op' /\ static op' = static op /\
    (n <= k * call_steps)%nat /\ nsteps (lstep (top owner)) n (view op) (view op') /\
    (n = 0%nat -> op' = op).
Proof.
  intros Hinv Hk. revert op Hinv. induction Hk as [s|k s1 s2 s3 H12 H23 IH]; intros op Hinv Hop.
  { exists op, 0%nat. repeat split; try done; try lia; constructor. }
  pose proof (step_rel _ _ _ H12 (inv_ids _ _ Hinv)) as [_ Hr]. specialize (Hr id).
  unfold op_effect in Hr. rewrite Hop in Hr.
  destruct (ms_operations s2 !! id) as [op2|] eqn:Hop2; [|done].
  apply advance_nsteps in Hr as (Hst & n1 & Hn1 & Hl1 & Hz1).
  destruct (IH op2 (step_inv _ _ _ H12 Hinv) eq_refl) as (op3 & n2 & Hop3 & Hst3 & Hn2 & Hl2 & Hz2).
  exists op3, (n1 + n2)%nat. split; [done|]. split; [congruence|]. split; [rewrite Nat.mul_succ_l; lia|].
  split; [by eapply nsteps_trans|]. intros E.
  rewrite Hz2, Hz1 by lia. done.
Qed.
