(* ===== verification/Neutrality.v ===== *)
(** * Handlers beside the operation engine

    [EngineNeutral] is what the engine asks of every other handler of the store:
    it leaves operations alone and never rewrites sealed records.
    [EngineDriven] is weaker: the handler may move operations, but only by a run
    of the engine's own calls.  [Keeps f] says that a handler leaves the
    collection [f] alone.  All three are compositional, and each has a tactic
    that runs through a handler command by command. *)
From S2P Require Import Prelude GoStrings Digest Model Store Operations Recovery Evidence Compensation.
From S2P Require Import OwnerOperations Lifecycle OperationSystem OperationRuns.

Class EngineNeutral {A} (m : Store A) : Prop := neutral : forall s, env_step s (m s).1.

Lemma env_step_refl s : env_step s s.
Proof. split; [done|reflexivity]. Qed.
Lemma env_step_trans s1 s2 s3 : env_step s1 s2 -> env_step s2 s3 -> env_step s1 s3.
Proof. intros [Ho1 Hf1] [Ho2 Hf2]. split; [congruence|by etrans]. Qed.

(** *** Neutrality is compositional *)

Lemma neutral_bind {A B} (m : Store A) (k : A -> Store B) :
  EngineNeutral m -> (forall a, EngineNeutral (k a)) -> EngineNeutral (bind m k).
Proof.
  intros Hm Hk s. unfold bind. specialize (Hm s). destruct (m s) as [s1 [a|e]]; [|exact Hm].
  eapply env_step_trans; [exact Hm|apply Hk].
Qed.
Lemma neutral_when b (m : Store unit) : EngineNeutral m -> EngineNeutral (when b m).
Proof. intros Hm s. destruct b; [apply Hm|apply env_step_refl]. Qed.
Lemma neutral_modify (f : MemoryStore -> MemoryStore) : (forall s, env_step s (f s)) -> EngineNeutral (modify f).
Proof. intros H s. apply H. Qed.
Lemma neutral_pure {A} (m : Store A) : (forall s, (m s).1 = s) -> EngineNeutral m.
Proof. intros H s. rewrite H. apply env_step_refl. Qed.

Lemma fail_if_pure b e s : (@fail_if MemoryStore b e s).1 = s.
Proof. by destruct b. Qed.
Lemma get_opt_pure {A} (o : option A) e s : (@get_opt MemoryStore A o e s).1 = s.
Proof. by destruct o. Qed.
Lemma neutral_nowUTC : EngineNeutral nowUTC.
Proof. intros s. split; [done|frame_tac]. Qed.
Lemma neutral_newID p : EngineNeutral (newID p).
Proof. intros s. split; [done|frame_tac]. Qed.
Lemma neutral_audit a ac rt rid rev md : EngineNeutral (appendAuditLocked a ac rt rid rev md).
Proof. intros s. split; [done|frame_tac]. Qed.
Lemma neutral_outbox t i e p : EngineNeutral (appendOutboxLocked t i e p).
Proof. intros s. split; [done|frame_tac]. Qed.

(** runs through a handler command by command *)
Ltac neutral_step :=
  lazymatch goal with
  | |- forall _, _ => intros ?
  | |- EngineNeutral (let _ := _ in _) => cbv zeta
  | |- EngineNeutral (bind _ _) => apply neutral_bind
  | |- EngineNeutral (when _ _) => apply neutral_when
  | |- EngineNeutral nowUTC => apply neutral_nowUTC
  | |- EngineNeutral (newID _) => apply neutral_newID
  | |- EngineNeutral (appendAuditLocked _ _ _ _ _ _) => apply neutral_audit
  | |- EngineNeutral (appendOutboxLocked _ _ _ _) => apply neutral_outbox
  | |- EngineNeutral (modify _) => apply neutral_modify; intros ?; split; [done|frame_tac]
  | |- EngineNeutral (fail_if _ _) => apply neutral_pure, fail_if_pure
  | |- EngineNeutral (get_opt _ _) => apply neutral_pure, get_opt_pure
  | |- EngineNeutral get => apply neutral_pure; done
  | |- EngineNeutral (ret _) => apply neutral_pure; done
  | |- EngineNeutral (raise _) => apply neutral_pure; done
  | |- EngineNeutral (lift _) => apply neutral_pure; done
  | |- EngineNeutral (if ?b then _ else _) => destruct b
  | |- EngineNeutral (match ?x with _ => _ end) => destruct x
  end.
Ltac neutral_tac := unfold_puts; repeat neutral_step.

(** ** Handlers that drive operations *)

Class EngineDriven {A} (m : Store A) : Prop := driven : forall s, rtc (step true) s (m s).1.

Lemma driven_neutral {A} (m : Store A) : EngineNeutral m -> EngineDriven m.
Proof. intros H s. apply rtc_once, step_env, H. Qed.
Lemma driven_bind {A B} (m : Store A) (k : A -> Store B) :
  EngineDriven m -> (forall a, EngineDriven (k a)) -> EngineDriven (bind m k).
Proof.
  intros Hm Hk s. unfold bind. specialize (Hm s). destruct (m s) as [s1 [a|e]]; [|exact Hm].
  etrans; [exact Hm|apply Hk].
Qed.
Lemma driven_when b (m : Store unit) : EngineDriven m -> EngineDriven (when b m).
Proof. intros Hm s. destruct b; [apply Hm|done]. Qed.

(** the owner-driven calls are calls of the engine *)
Lemma driven_call c {A} (m : Store A) : (forall s, (exec c s).1 = (m s).1) -> EngineDriven m.
Proof. intros H s. apply rtc_once. rewrite <- H. by apply step_call. Qed.
#[export] Instance owner_create_driven p c k o r d rc actor rd aw :
  EngineDriven (createOwnerDestructiveOperationLocked p c k o r d rc actor rd aw).
Proof. by apply (driven_call (CCreateOwner p c k o r d rc actor rd aw)). Qed.
#[export] Instance owner_approve_driven id p c actor : EngineDriven (approveOwnerDestructiveOperationLocked id p c actor).
Proof. by apply (driven_call (CApproveOwner id p c actor)). Qed.
#[export] Instance owner_start_driven id p c actor : EngineDriven (startOwnerDestructiveOperationLocked id p c actor).
Proof. by apply (driven_call (CStartOwner id p c actor)). Qed.
#[export] Instance owner_finish_driven id ok le actor : EngineDriven (finishOwnerDestructiveOperationLocked id ok le actor).
Proof. by apply (driven_call (CFinishOwner id ok le actor)). Qed.
#[export] Instance owner_cancel_driven id actor reason : EngineDriven (cancelOwnerDestructiveOperationLocked id actor reason).
Proof. by apply (driven_call (CCancelOwner id actor reason)). Qed.

Ltac driven_step :=
  lazymatch goal with
  | |- forall _, _ => intros ?
  | |- EngineDriven (let _ := _ in _) => cbv zeta
  | |- EngineDriven (bind _ _) => apply driven_bind
  | |- EngineDriven (when _ _) => apply driven_when
  | |- EngineDriven (if ?b then _ else _) => destruct b
  | |- EngineDriven (match ?x with _ => _ end) => destruct x
  | |- EngineDriven _ => first [exact _ | solve [apply driven_neutral; neutral_tac]]
  end.
Ltac driven_tac := unfold_puts; repeat driven_step.

(** ** Handlers that leave a collection alone *)

Class Keeps {V A} (f : MemoryStore -> V) (m : Store A) : Prop := keeps_eq : forall s, f (m s).1 = f s.

(** a collection that no handler of the engine writes *)
Class Outside {V} (f : MemoryStore -> V) : Prop := {
  out_ticks s n : f (s <| ms_ticks := n |>) = f s;
  out_ids s n : f (s <| ms_ids := n |>) = f s;
  out_operations s m : f (s <| ms_operations := m |>) = f s;
  out_steps s m : f (s <| ms_steps := m |>) = f s;
  out_traces s m : f (s <| ms_stepTraces := m |>) = f s;
  out_compensation s m : f (s <| ms_compensationSteps := m |>) = f s;
  out_outbox s m : f (s <| ms_outbox := m |>) = f s;
  out_audit s l : f (s <| ms_audit := l |>) = f s;
  out_evidence s m : f (s <| ms_evidence := m |>) = f s;
  out_payloads s m : f (s <| ms_evidencePayloads := m |>) = f s;
  out_idempotency s m : f (s <| ms_idempotency := m |>) = f s;
  out_checkpoints s m : f (s <| ms_recoveryCheckpoints := m |>) = f s;
  out_requests s m : f (s <| ms_operationRequestPayloads := m |>) = f s
}.

Section keeps.
Context {V : Type} (f : MemoryStore -> V).

Lemma keeps_bind {A B} (m : Store A) (k : A -> Store B) : Keeps f m -> (forall a, Keeps f (k a)) -> Keeps f (bind m k).
Proof.
  intros Hm Hk s. unfold bind. specialize (Hm s). destruct (m s) as [s1 [a|e]]; [|exact Hm].
  etrans; [apply Hk|exact Hm].
Qed.
Lemma keeps_when b (m : Store unit) : Keeps f m -> Keeps f (when b m).
Proof. intros Hm s. destruct b; [apply Hm|done]. Qed.
Lemma keeps_pure {A} (m : Store A) : (forall s, (m s).1 = s) -> Keeps f m.
Proof. intros H s. by rewrite H. Qed.
Lemma keeps_modify (g : MemoryStore -> MemoryStore) : (forall s, f (g s) = f s) -> Keeps f (modify g).
Proof. intros H s. apply H. Qed.

Context `{!Outside f}.
Lemma keeps_nowUTC : Keeps f nowUTC.
Proof. intros s. apply out_ticks. Qed.
Lemma keeps_newID p : Keeps f (newID p).
Proof. intros s. apply out_ids. Qed.
Lemma keeps_audit a ac rt rid rev md : Keeps f (appendAuditLocked a ac rt rid rev md).
Proof.
  unfold appendAuditLocked. apply keeps_bind; [apply keeps_newID|]. intros id. apply keeps_bind; [apply keeps_nowUTC|].
  intros now. apply keeps_modify. intros s. apply out_audit.
Qed.
Lemma keeps_outbox t i e p : Keeps f (appendOutboxLocked t i e p).
Proof.
  unfold appendOutboxLocked. apply keeps_bind; [apply keeps_nowUTC|]. intros now. apply keeps_bind; [apply keeps_newID|].
  intros id. apply keeps_modify. intros s. apply out_outbox.
Qed.
End keeps.

Ltac keeps_step :=
  lazymatch goal with
  | |- forall _, _ => intros ?
  | |- Keeps _ (let _ := _ in _) => cbv zeta
  | |- Keeps _ (bind _ _) => apply keeps_bind
  | |- Keeps _ (when _ _) => apply keeps_when
  | |- Keeps _ nowUTC => apply keeps_nowUTC, _
  | |- Keeps _ (newID _) => apply keeps_newID, _
  | |- Keeps _ (appendAuditLocked _ _ _ _ _ _) => apply keeps_audit, _
  | |- Keeps _ (appendOutboxLocked _ _ _ _) => apply keeps_outbox, _
  | |- Keeps _ (modify _) => apply keeps_modify; intros ?;
      first [reflexivity | apply out_operations | apply out_steps | apply out_traces | apply out_compensation
            | apply out_evidence | apply out_payloads | apply out_idempotency | apply out_checkpoints | apply out_requests]
  | |- Keeps _ (fail_if _ _) => apply keeps_pure, fail_if_pure
  | |- Keeps _ (get_opt _ _) => apply keeps_pure, get_opt_pure
  | |- Keeps _ get => apply keeps_pure; done
  | |- Keeps _ (ret _) => apply keeps_pure; done
  | |- Keeps _ (raise _) => apply keeps_pure; done
  | |- Keeps _ (lift _) => apply keeps_pure; done
  | |- Keeps _ (if ?b then _ else _) => destruct b
  | |- Keeps _ (match ?x with _ => _ end) => destruct x
  | |- Keeps _ ((fun _ => _) _) => cbv beta
  | |- Keeps _ _ => exact _
  end.
Ltac keeps_tac := unfold_puts; repeat keeps_step.

Section engine_keeps.
Context {V : Type} (f : MemoryStore -> V) `{!Outside f}.

#[export] Instance owner_transition_keeps op to actor event payload :
  Keeps f (transitionOwnerOperationLocked op to actor event payload).
Proof. unfold transitionOwnerOperationLocked. keeps_tac. Qed.
#[export] Instance owner_create_keeps p c k o r d rc actor rd aw :
  Keeps f (createOwnerDestructiveOperationLocked p c k o r d rc actor rd aw).
Proof. unfold createOwnerDestructiveOperationLocked. keeps_tac. Qed.
#[export] Instance owner_approve_keeps id p c actor : Keeps f (approveOwnerDestructiveOperationLocked id p c actor).
Proof. unfold approveOwnerDestructiveOperationLocked. keeps_tac. Qed.
#[export] Instance owner_start_keeps id p c actor : Keeps f (startOwnerDestructiveOperationLocked id p c actor).
Proof. unfold startOwnerDestructiveOperationLocked. keeps_tac. Qed.
#[export] Instance owner_finish_keeps id ok le actor : Keeps f (finishOwnerDestructiveOperationLocked id ok le actor).
Proof. unfold finishOwnerDestructiveOperationLocked. keeps_tac. Qed.
#[export] Instance owner_cancel_keeps id actor reason : Keeps f (cancelOwnerDestructiveOperationLocked id actor reason).
Proof. unfold cancelOwnerDestructiveOperationLocked. keeps_tac. Qed.

(** unfolds the handlers a handler calls *)
Ltac head_of t := lazymatch t with ?g _ => head_of g | _ => t end.
Ltac keeps_deep :=
  unfold_puts; repeat first [keeps_step | lazymatch goal with |- Keeps _ ?m => let h := head_of m in unfold h end].

#[export] Instance undo_keeps projectID key (m : Store Operation) : Keeps f m -> Keeps f (orUndo projectID key m).
Proof.
  intros Hm s. unfold orUndo. specialize (Hm s). destruct (m s) as [s' [op|e]]; [exact Hm|]. rewrite <- Hm.
  cbn. etrans; [apply (out_idempotency _ _)|apply (out_operations _ _)].
Qed.
#[export] Instance bind_rows_keeps id now plan : Keeps f (bindPlanRows id now plan).
Proof. induction plan as [|in_ rest IH]; cbn [bindPlanRows]; keeps_tac. Qed.

(** no call of the engine writes a collection outside it *)
Lemma exec_keeps c s : f (exec c s).1 = f s.
Proof.
  revert s. destruct c; cbn [exec run1 fst];
    match goal with |- forall s, f (?m s).1 = f s => change (Keeps f m) end; keeps_deep;
    apply undo_keeps; keeps_deep.
Qed.
End engine_keeps.
