(* ===== verification/Demo.v ===== *)
(** * A concrete store

    Runs of calls and a small reachable store: one project, a clock that
    advances one second per reading and identifiers numbered in unary.  The
    witnesses of the theorems are evaluated in it. *)
From S2P Require Import Prelude GoStrings Digest Model Calendar Store Operations Recovery Evidence Compensation.
From S2P Require Import OwnerOperations Lifecycle OperationSystem OperationRuns.

Definition run (cs : list Call) (s : MemoryStore) : MemoryStore :=
  foldl (fun s c => (exec c s).1) s cs.

Lemma run_steps owner cs s :
  Forall (fun c => owner_call c = true -> owner = true) cs ->
  nsteps (step owner) (length cs) s (run cs s).
Proof.
  intros H. revert s. induction H as [|c cs Hc _ IH]; intros s; [constructor|].
  cbn. econstructor; [by apply step_call|apply IH].
Qed.

Lemma run_app cs ds s : run (cs ++ ds)%list s = run ds (run cs s).
Proof. apply foldl_app. Qed.

Fixpoint unary (n : nat) : string :=
  match n with O => "" | S n' => "i" +:+ unary n' end.
Definition demo_id (n : nat) (prefix : string) : string := unary n +:+ "-" +:+ prefix.
Definition demo_now (n : nat) : Time := Z.of_nat (S n) * Second.

Lemma demo_id_source : id_source demo_id.
Proof.
  intros n m p q. revert m. unfold demo_id.
  induction n as [|n IH]; intros [|m]; cbn; intros H; try done.
  injection H as H. f_equal. by apply IH.
Qed.

Definition demo_project : Project := mkProject (newMeta "p" 0) "o" "demo" "Demo".

(** the inventory of the demo cluster *)
Definition demo_digest : string := sha256Digest "inventory".
Definition demo_cluster : ManagedCluster :=
  mkManagedCluster (newMeta "c" 0) "p" "" "edge" "Edge" "uid" "CONNECTED" "rke2" "1.31" "1.0" None None None
    ∅ [] demo_digest "" "" "" None "" "".

(** a project and a cluster, put there by the components that own them *)
Definition demo0 : MemoryStore :=
  (NewMemoryStoreWith demo_now demo_id) <| ms_projects := {["p" := demo_project]} |>
    <| ms_managedClusters := {["c" := demo_cluster]} |>.

Lemma demo0_reachable owner : reachable owner demo0.
Proof.
  exists demo_now, demo_id. split; [apply demo_id_source|].
  apply rtc_once, step_env. split; [done|]. by apply frame_same.
Qed.

Lemma run_reachable owner cs s :
  Forall (fun c => owner_call c = true -> owner = true) cs ->
  reachable owner s -> reachable owner (run cs s).
Proof.
  intros Hc (now & id & Hid & Hr). exists now, id. split; [done|].
  etrans; [exact Hr|]. eapply rtc_nsteps_2, run_steps. done.
Qed.

(** an entry of a map, with a property of it read off by evaluation *)
Lemma found {A B} (f : A -> B) o b :
  f <$> o = Some b -> exists a, o = Some a /\ f a = b.
Proof. intros H. apply fmap_Some in H as (a & -> & ->). eauto. Qed.

Definition is_ok {A} (r : result A) : bool := match r with Ok _ => true | Fail _ => false end.

(** a call that succeeds, decided by evaluation *)
Lemma succeeds {A} (m : Store A) s : is_ok (m s).2 = true -> exists s' a, m s = (s', Ok a).
Proof. destruct (m s) as [s' [a|e]]; [eauto|discriminate]. Qed.

Definition demo_request : OperationRequest :=
  mkOperationRequest "p" "release.apply" "cluster:c" "rev-1" "low" "" "".
Definition demo_op : string := "-op".
Definition demo_ttl : Z := 1000 * Second.

(** created, planned, queued *)
Definition demo_queued : list Call :=
  [CCreateOperation demo_request "key" "alice" "req-1";
   CTransition demo_op 1 OperationPlanning "" "alice";
   CTransition demo_op 2 OperationQueued "" "alice"].
(** claimed by worker [w] with fence 1 and started *)
Definition demo_start : list Call :=
  [CClaim demo_op "w" demo_ttl 0; CStartAttempt demo_op 4 "w" 1 "w"].
Definition demo_running : list Call := (demo_queued ++ demo_start)%list.

(** which calls a run may use, decided by evaluation *)
Lemma calls_allowed owner cs :
  forallb (fun c => implb (owner_call c) owner) cs = true ->
  Forall (fun c => owner_call c = true -> owner = true) cs.
Proof.
  rewrite forallb_forall. intros H. apply Forall_forall. intros c Hc Ho.
  specialize (H c (proj1 (list_elem_of_In _ _) Hc)). by rewrite Ho in H.
Qed.
Ltac demo_calls := apply calls_allowed; vm_compute; reflexivity.

Lemma demo_reachable owner cs :
  forallb (fun c => implb (owner_call c) owner) cs = true -> reachable owner (run cs demo0).
Proof. intros H. apply run_reachable; [by apply calls_allowed|apply demo0_reachable]. Qed.

Example demo_running_state :
  op_State <$> ms_operations (run demo_running demo0) !! demo_op = Some OperationRunning.
Proof. vm_compute. reflexivity. Qed.
