(* ===== verification/Authority.v ===== *)
(** * Leases and fencing

    Every handler of a worker checks the lease it presents before it writes:
    nothing in the store changes unless the caller is the current holder.  The
    claims that decide who the holder is exclude each other. *)
From S2P Require Import Prelude GoStrings Digest Model Store Operations Recovery Evidence Compensation.
From S2P Require Import OwnerOperations Lifecycle OperationSystem OperationRuns Demo.

(** the operation, the worker and the fencing token a worker call presents *)
Definition presents (c : Call) : option (string * string * Z) :=
  match c with
  | CRenew id w f _ _ | CRelease id w f
  | CStartAttempt id _ w f _ | CBeginVerification id _ w f _ | CReportFailure id _ w f _ _
  | CComplete id _ w f _ | CAcknowledgeCancellation id _ w f _
  | CRecordForwardStep id _ _ w f _ | CClaimCompensationStep id w f _
  | CCompleteCompensationStep id _ w f _ _ | CReportCompensationFailure id _ w f _ _ => Some (id, w, f)
  | CAppendStep st actor => Some (st_OperationID st, actor, st_FenceToken st)
  | CAppendTrace in_ w f _ => Some (TrimSpace (ti_OperationID in_), w, f)
  | CAppendEvidencePayload in_ _ w f _ => Some (TrimSpace (ev_OperationID in_), w, f)
  | CCompleteWithEvidence id _ _ _ w f _ => Some (TrimSpace id, w, f)
  | _ => None
  end.

(** the moment at which the handler requires the lease to be unexpired; giving
    a lease back is allowed after it expired *)
Definition checked_at (c : Call) (s : MemoryStore) : option Time :=
  match c with
  | CRenew _ _ _ _ at_ => Some at_
  | CRelease _ _ _ => None
  | _ => Some (clock s)
  end.

(** [worker] is the holder of the lease with token [fence] *)
Definition holds (op : Operation) (worker : string) (fence : Z) (at_ : option Time) : Prop :=
  op_FenceToken op = fence /\ TrimSpace (op_LeaseOwner op) = TrimSpace worker /\
  match at_ with Some t => after (op_LeaseExpiresAt op) t = true | None => True end.

Definition authorized (s : MemoryStore) (id worker : string) (fence : Z) (at_ : option Time)
    (s' : MemoryStore) : Prop :=
  same_data s s' \/
  exists op, ms_operations s !! id = Some op /\ holds op worker fence at_.

Lemma lease_active op worker fence at_ :
  OperationLeaseActive op worker fence at_ = true -> holds op worker fence (Some at_).
Proof. unfold OperationLeaseActive. intros H. norm_bool. by split. Qed.

(** close a branch: either nothing was written, or the test that passed shows the holder *)
Ltac authority :=
  first [ left; reflexivity
        | right; norm_bool; eexists; split; [eassumption|];
          first [ by apply lease_active
                | split; [done|split; [first [done|by f_equal]|done]] ] ].

Section authority.
Context (s : MemoryStore).
Local Abbreviation auth m id w f t := (wp m (fun _ s' => authorized s id w f t s') s).

Lemma renew_auth id w f ttl at_ : auth (RenewOperationLease id w f ttl at_) id w f (Some at_).
Proof. unfold RenewOperationLease; unfold_puts. wp_go; authority. Qed.

Lemma release_auth id w f : auth (ReleaseOperationLease id w f) id w f None.
Proof. unfold ReleaseOperationLease; unfold_puts. wp_go; authority. Qed.

Lemma append_step_auth st actor :
  auth (AppendOperationStep st actor) (st_OperationID st) actor (st_FenceToken st) (Some (clock s)).
Proof. unfold AppendOperationStep; unfold_puts. wp_go; authority. Qed.

Lemma start_auth id e w f actor : auth (StartOperationAttempt id e w f actor) id w f (Some (clock s)).
Proof. unfold StartOperationAttempt; unfold_puts. wp_go; authority. Qed.

Lemma verification_auth id e w f actor :
  auth (BeginOperationVerification id e w f actor) id w f (Some (clock s)).
Proof. unfold BeginOperationVerification; unfold_puts. wp_go; authority. Qed.

Lemma failure_auth id e w f report actor :
  auth (ReportOperationFailure id e w f report actor) id w f (Some (clock s)).
Proof. unfold ReportOperationFailure; unfold_puts. wp_go; authority. Qed.

Lemma complete_auth id e w f actor : auth (CompleteOperation id e w f actor) id w f (Some (clock s)).
Proof. unfold CompleteOperation; unfold_puts. wp_go; authority. Qed.

Lemma ack_auth id e w f actor :
  auth (AcknowledgeOperationCancellation id e w f actor) id w f (Some (clock s)).
Proof. unfold AcknowledgeOperationCancellation; unfold_puts. wp_go; authority. Qed.

Lemma trace_auth in_ w f actor :
  auth (AppendOperationStepTrace in_ w f actor) (TrimSpace (ti_OperationID in_)) w f (Some (clock s)).
Proof.
  unfold AppendOperationStepTrace, validateOperationStepTraceLocked; unfold_puts.
  apply wp_bind_lift; [by left|]. intros n Hn.
  assert (ti_OperationID n = TrimSpace (ti_OperationID in_)) as <-.
  { unfold normalizeOperationStepTraceInput in Hn. repeat case_match; try discriminate.
    by simplify_eq. }
  wp_go; try authority.
  all: right; norm_bool; eexists; split; [eassumption|].
  all: split; [done|split; [|done]].
  all: match goal with H : op_LeaseOwner _ = _ |- _ => rewrite H end; apply TrimSpace_idem.
Qed.

Lemma evidence_payload_auth in_ p w f actor :
  auth (AppendOperationEvidencePayload in_ p w f actor) (TrimSpace (ev_OperationID in_)) w f (Some (clock s)).
Proof. unfold AppendOperationEvidencePayload; unfold_puts. wp_go; authority. Qed.

Lemma forward_auth id k e w f actor :
  auth (RecordOperationForwardStepCompleted id k e w f actor) id w f (Some (clock s)).
Proof. unfold RecordOperationForwardStepCompleted; unfold_puts. wp_go; authority. Qed.

Lemma claim_next_auth id w f actor :
  auth (ClaimNextOperationCompensationStep id w f actor) id w f (Some (clock s)).
Proof. unfold ClaimNextOperationCompensationStep; unfold_puts. wp_go; authority. Qed.

Lemma complete_step_auth id k w f d actor :
  auth (CompleteOperationCompensationStep id k w f d actor) id w f (Some (clock s)).
Proof. unfold CompleteOperationCompensationStep; unfold_puts. wp_go; authority. Qed.

Lemma step_failure_auth id k w f failure actor :
  auth (ReportOperationCompensationStepFailure id k w f failure actor) id w f (Some (clock s)).
Proof. unfold ReportOperationCompensationStepFailure; unfold_puts. wp_go; authority. Qed.

Lemma complete_evidence_auth id e in_ p w f actor :
  auth (CompleteOperationWithEvidencePayload id e in_ p w f actor) (TrimSpace id) w f (Some (clock s)).
Proof.
  unfold CompleteOperationWithEvidencePayload; unfold_puts. wp_go; try by left.
  all: apply wp_any; intros r s'; right; norm_bool; eexists; split; [eassumption|].
  all: match goal with H : OperationLeaseActive _ _ _ _ = true |- _ =>
         apply lease_active in H as (Hf & Ho & Ha); split; [done|split; [|done]] end.
  all: by rewrite Ho, TrimSpace_idem.
Qed.

Lemma call_auth c id w f :
  presents c = Some (id, w, f) -> authorized s id w f (checked_at c s) (exec c s).1.
Proof.
  destruct c; intros H; try discriminate H; injection H as <- <- <-; cbn [exec run1 checked_at fst].
  - exact (renew_auth id0 worker fence ttl at_).
  - exact (release_auth id0 worker fence).
  - exact (append_step_auth step actor).
  - exact (start_auth id0 expected worker fence actor).
  - exact (verification_auth id0 expected worker fence actor).
  - exact (failure_auth id0 expected worker fence report actor).
  - exact (complete_auth id0 expected worker fence actor).
  - exact (ack_auth id0 expected worker fence actor).
  - exact (trace_auth in_ worker fence actor).
  - exact (evidence_payload_auth in_ payload worker fence actor).
  - exact (complete_evidence_auth id0 expected in_ payload worker fence actor).
  - exact (forward_auth id0 stepKey expected worker fence actor).
  - exact (claim_next_auth id0 worker fence actor).
  - exact (complete_step_auth id0 stepKey worker fence digest actor).
  - exact (step_failure_auth id0 stepKey worker fence failure actor).
Qed.
End authority.

(** C2: worker authority.  Whenever a call made by a worker changes any data in
    the store, the operation it names exists and the worker is the current
    holder of its lease: the fencing token matches, the lease owner is the
    worker, and (except for handing the lease back) the lease is unexpired at
    the moment of the call.  A worker that lost its lease changes nothing. *)
Theorem worker_calls_need_the_lease s c id worker fence :
  presents c = Some (id, worker, fence) -> ~ same_data s (exec c s).1 ->
  exists op, ms_operations s !! id = Some op /\ holds op worker fence (checked_at c s).
Proof. intros Hc Hd. destruct (call_auth s c id worker fence Hc); [contradiction|done]. Qed.

Lemma worker_calls_need_the_lease_witness :
  exists op, ms_operations (run (take 4 demo_running) demo0) !! demo_op = Some op /\
    holds op "w" 1 (checked_at (CStartAttempt demo_op 4 "w" 1 "w") (run (take 4 demo_running) demo0)).
Proof.
  apply worker_calls_need_the_lease; [reflexivity|].
  intros H. apply (f_equal (fun s => op_State <$> ms_operations s !! demo_op)) in H.
  vm_compute in H. discriminate H.
Defined.

(** ** Stale tokens stay stale *)

Lemma steps_counters owner k s s' id op :
  engine_inv owner s -> nsteps (step owner) k s s' -> ms_operations s !! id = Some op ->
  bounded (view op) (k * call_steps) ->
  exists op', ms_operations s' !! id = Some op' /\ static op' = static op /\
    op_FenceToken op <= op_FenceToken op' /\ op_Revision op <= op_Revision op' /\
    (op_Revision op' = op_Revision op -> op' = op).
Proof.
  intros Hinv Hk Hop Hb.
  destruct (steps_operation _ _ _ _ _ _ Hinv Hk Hop) as (op' & n & Hop' & Hst & Hn & Hl & Hz).
  assert (Hb' : bounded (view op) n) by (unfold bounded in *; lia).
  destruct (nsteps_counters _ _ _ _ Hl Hb') as [Hr Hf]. cbn in Hr, Hf.
  exists op'. split; [done|]. split; [done|]. split; [lia|]. split; [lia|].
  intros E. apply Hz. unfold op_Revision in *. lia.
Qed.

(** Fencing.  Once an operation carries a fencing token greater than the one
    a worker holds, every later call of that worker is inert, whatever other
    calls happen in between and in whatever order, as long as fewer than
    [2^63 / 4] store steps separate the two moments (the 64-bit token cannot
    wrap around). *)
Theorem superseded_worker_is_inert owner k s s' id op c worker fence :
  reachable owner s -> nsteps (step owner) k s s' ->
  ms_operations s !! id = Some op -> fence < op_FenceToken op ->
  bounded (view op) (k * call_steps) ->
  presents c = Some (id, worker, fence) -> same_data s' (exec c s').1.
Proof.
  intros Hr Hk Hop Hlt Hb Hc. apply reachable_inv in Hr.
  destruct (steps_counters _ _ _ _ _ _ Hr Hk Hop Hb) as (op' & Hop' & _ & Hf & _).
  destruct (call_auth s' c id worker fence Hc) as [?|(op1 & Hop1 & E & _)]; [done|].
  rewrite Hop' in Hop1. simplify_eq. lia.
Qed.

(** [w] claimed, the lease ran out, [v] claimed *)
Definition demo_takeover : list Call :=
  (demo_running ++ [CClaim demo_op "v" demo_ttl (demo_ttl + demo_ttl)])%list.

Lemma superseded_worker_is_inert_witness :
  same_data (run demo_takeover demo0)
    (exec (CReportFailure demo_op 6 "w" 1 (mkOperationFailureReport "PERMANENT" "E" "late" 0) "w")
       (run demo_takeover demo0)).1.
Proof.
  destruct (found view (ms_operations (run demo_takeover demo0) !! demo_op) (mkLifecycle OperationRunning 1 3 2 6 true false)) as (op & E & H); [vm_compute; reflexivity|].
  assert (Hf := f_equal lc_fence H). cbn in Hf.
  apply (superseded_worker_is_inert true 0 (run demo_takeover demo0) (run demo_takeover demo0) demo_op op _ "w" 1); [|constructor|exact E| | |reflexivity].
  - apply demo_reachable. vm_compute. reflexivity.
  - rewrite Hf. reflexivity.
  - rewrite H. unfold bounded, int64_max. cbn. lia.
Defined.

(** Optimistic concurrency.  An operation never disappears, its identity and
    request never change, its revision and fencing token never decrease, and a
    revision that a client still finds unchanged denotes exactly the operation
    it read: no handler writes an operation without moving its revision. *)
Theorem revision_identifies_operation owner k s s' id op :
  reachable owner s -> nsteps (step owner) k s s' ->
  ms_operations s !! id = Some op -> bounded (view op) (k * call_steps) ->
  exists op', ms_operations s' !! id = Some op' /\ static op' = static op /\
    op_FenceToken op <= op_FenceToken op' /\ op_Revision op <= op_Revision op' /\
    (op_Revision op' = op_Revision op -> op' = op).
Proof. intros Hr. apply steps_counters. by apply reachable_inv. Qed.

Lemma revision_identifies_operation_witness :
  exists op op', ms_operations (run demo_queued demo0) !! demo_op = Some op /\
    ms_operations (run demo_running demo0) !! demo_op = Some op' /\ static op' = static op /\
    op_FenceToken op <= op_FenceToken op' /\ op_Revision op <= op_Revision op' /\
    (op_Revision op' = op_Revision op -> op' = op).
Proof.
  destruct (found view (ms_operations (run demo_queued demo0) !! demo_op) (mkLifecycle OperationQueued 0 3 0 3 false false)) as (op & E & H); [vm_compute; reflexivity|].
  destruct (revision_identifies_operation false 2 (run demo_queued demo0) (run demo_running demo0) demo_op op)
    as (op' & Hop' & Hrest).
  - apply demo_reachable. vm_compute. reflexivity.
  - unfold demo_running. rewrite run_app. apply (run_steps false demo_start). demo_calls.
  - exact E.
  - rewrite H. unfold bounded, int64_max. cbn. lia.
  - exists op, op'. split; [exact E|]. split; [exact Hop'|exact Hrest].
Defined.

(** ** Claims *)

Lemma claim_held s id op worker ttl at_ :
  ms_operations s !! id = Some op -> claimable (op_State op) = true ->
  after (op_LeaseExpiresAt op) at_ = true -> TrimSpace (op_LeaseOwner op) <> TrimSpace worker ->
  TrimSpace worker <> "" -> 0 < ttl ->
  ClaimOperation id worker ttl at_ s = (s, Fail ErrLeaseHeld).
Proof.
  intros Hop Hc Ha Ho Hw Ht.
  enough (wp (ClaimOperation id worker ttl at_) (fun r s' => s' = s /\ r = Fail ErrLeaseHeld) s) as H.
  { destruct (ClaimOperation id worker ttl at_ s) as [s1 r] eqn:E. by destruct (wp_run _ _ _ _ _ H E) as [-> ->]. }
  unfold ClaimOperation; unfold_puts. rewrite (bool_decide_eq_false_2 (TrimSpace worker = "")) by done.
  replace (ttl <=? 0) with false by lia. wp_go; try done; exfalso; simplify_eq.
  all: repeat match goal with H : bool_decide _ = true |- _ => apply bool_decide_eq_true in H end.
  all: try (match goal with E : op_State _ = _ |- _ => rewrite E in Hc end; done).
  all: rewrite ?Hc, ?Ha, ?(bool_decide_eq_false_2 _ Ho) in *; done.
Qed.

Lemma claim_grants s id worker ttl at_ :
  wp (ClaimOperation id worker ttl at_) (fun r s' => forall cl, r = Ok cl ->
    exists op op', ms_operations s !! id = Some op /\ ms_operations s' !! id = Some op' /\
      claimable (op_State op') = true /\ TrimSpace worker <> "" /\ 0 < ttl /\
      op_LeaseOwner op' = TrimSpace worker /\ op_LeaseExpiresAt op' = Some (at_ + ttl) /\
      op_FenceToken op' = inc64 (op_FenceToken op) /\
      cl = mkClaimResult id (TrimSpace worker) (at_ + ttl) (op_FenceToken op')) s.
Proof.
  unfold ClaimOperation; unfold_puts. wp_go; intros cl E; try discriminate E; norm_bool.
  all: eexists _, _; split; [eassumption|].
  all: split; [apply lookup_insert_eq|]; simplify_eq; done.
Qed.

(** Lease exclusion.  A claim that succeeds gives the worker the lease until
    [at + ttl] under a token different from the one before; until then every
    claim by another worker is refused with ErrLeaseHeld and writes nothing. *)
Theorem claim_excludes_other_workers s s1 id w1 ttl at_ cl op w2 ttl2 at2 :
  ClaimOperation id w1 ttl at_ s = (s1, Ok cl) -> ms_operations s !! id = Some op ->
  TrimSpace w2 <> TrimSpace w1 -> TrimSpace w2 <> "" -> 0 < ttl2 -> at2 < at_ + ttl ->
  cl_FenceToken cl <> op_FenceToken op /\
  ClaimOperation id w2 ttl2 at2 s1 = (s1, Fail ErrLeaseHeld).
Proof.
  intros Hc Hop Hne Hw Ht Hat.
  destruct (wp_run _ _ _ _ _ (claim_grants s id w1 ttl at_) Hc cl eq_refl)
    as (op0 & op' & Hop0 & Hop' & Hcl & Hw1 & Httl & Ho & He & Hf & ->).
  simplify_eq. split; [cbn; rewrite Hf; apply inc64_neq|].
  eapply claim_held; [done|done| |by rewrite Ho, TrimSpace_idem|done|done].
  rewrite He. cbn. by apply Z.ltb_lt.
Qed.

Lemma claim_excludes_other_workers_witness :
  exists s1 cl, ClaimOperation demo_op "w" demo_ttl 0 (run demo_queued demo0) = (s1, Ok cl) /\
    ClaimOperation demo_op "v" 1 5 s1 = (s1, Fail ErrLeaseHeld).
Proof.
  destruct (succeeds (ClaimOperation demo_op "w" demo_ttl 0) (run demo_queued demo0)) as (s1 & cl & E);
    [vm_compute; reflexivity|].
  destruct (found op_State (ms_operations (run demo_queued demo0) !! demo_op) OperationQueued) as (op & Eop & _);
    [vm_compute; reflexivity|].
  exists s1, cl. split; [exact E|].
  apply (claim_excludes_other_workers _ _ _ "w" demo_ttl 0 cl op "v" 1 5 E Eop);
    vm_compute; try reflexivity; discriminate.
Defined.
