(* ===== verification/EngineTheorems.v ===== *)
(** * Correctness of the operation engine

    The properties of every store that calls of the engine can reach. *)
From S2P Require Import Prelude GoStrings Digest Model Store Operations Recovery Evidence Compensation.
From S2P Require Import OwnerOperations Lifecycle OperationSystem OperationRuns Demo.

(** ** The step a rollback turns to *)

#[local] Instance later_total : Total later.
Proof. intros a b. unfold later. lia. Qed.
#[local] Instance later_trans : Transitive later.
Proof. intros a b c. unfold later. lia. Qed.

(** the head of the sorted candidates is one of them and precedes none *)
Lemma merge_sort_head candidates step rest :
  merge_sort later candidates = step :: rest ->
  step ∈ candidates /\ forall c, c ∈ candidates -> cs_ForwardOrder c <= cs_ForwardOrder step.
Proof.
  intros E. assert (Hp : merge_sort later candidates ≡ₚ candidates) by apply merge_sort_Permutation.
  pose proof (StronglySorted_merge_sort later candidates) as Hs. rewrite E in Hp, Hs.
  split; [rewrite <- Hp; left|]. intros c Hc. rewrite <- Hp in Hc.
  apply elem_of_cons in Hc as [->|Hc]; [lia|].
  apply StronglySorted_inv in Hs as [_ Hs]. rewrite Forall_forall in Hs. exact (Hs _ Hc).
Qed.

(** the step a claim works on: pending, and the latest of the pending ones *)
Definition latest_pending (s : MemoryStore) (id : string) (step : OperationCompensationStep) : Prop :=
  (exists k, ms_compensationSteps s !! k = Some step) /\
  compensatable id step = true /\ cs_State step = CompensationStepPending /\
  forall k c, ms_compensationSteps s !! k = Some c -> compensatable id c = true ->
    cs_State c = CompensationStepPending -> cs_ForwardOrder c <= cs_ForwardOrder step.

Lemma head_latest s id step rest :
  merge_sort later (map_select (fun _ step => compensatable id step
    && (cs_State step == CompensationStepPending)) (ms_compensationSteps s)) = step :: rest ->
  latest_pending s id step.
Proof.
  intros E. apply merge_sort_head in E as [Hin Hmax].
  apply elem_of_map_select in Hin as (k & Hk & Hb). norm_bool.
  split; [eauto|]. split; [done|]. split; [done|]. intros k' c Hk' Hc Hst. apply Hmax.
  apply elem_of_map_select. exists k'. split; [done|]. by rewrite Hc, Hst.
Qed.

Definition all_settled (s : MemoryStore) (id : string) : Prop :=
  forall k c, ms_compensationSteps s !! k = Some c -> compensatable id c = true -> settled c = true.

(** ** Refusals write nothing *)

Definition atomic {A} (s : MemoryStore) (r : result A) (s' : MemoryStore) : Prop :=
  match r with Ok _ => True | Fail _ => same_data s s' end.

Section atomic.
Context (s : MemoryStore).
Local Abbreviation safe m := (wp m (atomic s) s).

(** every branch either succeeded or wrote nothing yet *)
Ltac refused := first [exact I | cbn [atomic]; reflexivity].
Ltac refuse := wp_go; refused.

Lemma transition_safe id e to le actor : safe (TransitionOperation id e to le actor).
Proof. unfold TransitionOperation, transitionOperationLocked; unfold_puts. refuse. Qed.
Lemma renew_safe id w f ttl at_ : safe (RenewOperationLease id w f ttl at_).
Proof. unfold RenewOperationLease; unfold_puts. refuse. Qed.
Lemma release_safe id w f : safe (ReleaseOperationLease id w f).
Proof. unfold ReleaseOperationLease; unfold_puts. refuse. Qed.
Lemma append_step_safe st actor : safe (AppendOperationStep st actor).
Proof. unfold AppendOperationStep; unfold_puts. refuse. Qed.
Lemma start_safe id e w f actor : safe (StartOperationAttempt id e w f actor).
Proof. unfold StartOperationAttempt; unfold_puts. refuse. Qed.
Lemma verification_safe id e w f actor : safe (BeginOperationVerification id e w f actor).
Proof. unfold BeginOperationVerification; unfold_puts. refuse. Qed.
Lemma failure_safe id e w f rep actor : safe (ReportOperationFailure id e w f rep actor).
Proof. unfold ReportOperationFailure; unfold_puts. refuse. Qed.
Lemma complete_safe id e w f actor : safe (CompleteOperation id e w f actor).
Proof. unfold CompleteOperation; unfold_puts. refuse. Qed.
Lemma cancel_safe id e actor reason : safe (RequestOperationCancellation id e actor reason).
Proof. unfold RequestOperationCancellation; unfold_puts. refuse. Qed.
Lemma ack_safe id e w f actor : safe (AcknowledgeOperationCancellation id e w f actor).
Proof. unfold AcknowledgeOperationCancellation; unfold_puts. refuse. Qed.
Lemma approve_safe id e actor : safe (ApproveOperationAndQueue id e actor).
Proof. unfold ApproveOperationAndQueue; unfold_puts. refuse. Qed.
Lemma checkpoint_create_safe v actor : safe (CreateRecoveryCheckpoint v actor).
Proof. unfold CreateRecoveryCheckpoint; unfold_puts. refuse. Qed.
Lemma checkpoint_revoke_safe id e actor : safe (RevokeRecoveryCheckpoint id e actor).
Proof. unfold RevokeRecoveryCheckpoint; unfold_puts. refuse. Qed.
Lemma resolve_safe id e res d actor : safe (ResolveUnknownOperationOutcome id e res d actor).
Proof. unfold ResolveUnknownOperationOutcome; unfold_puts. refuse. Qed.
Lemma resolve_evidence_safe id e res in_ p actor :
  safe (ResolveUnknownOperationOutcomeWithEvidence id e res in_ p actor).
Proof. unfold ResolveUnknownOperationOutcomeWithEvidence; unfold_puts. refuse. Qed.
Lemma trace_safe in_ w f actor : safe (AppendOperationStepTrace in_ w f actor).
Proof. unfold AppendOperationStepTrace, validateOperationStepTraceLocked; unfold_puts. refuse. Qed.
Lemma evidence_safe e actor : safe (AppendEvidence e actor).
Proof. unfold AppendEvidence; unfold_puts. refuse. Qed.
Lemma evidence_payload_safe in_ p w f actor : safe (AppendOperationEvidencePayload in_ p w f actor).
Proof. unfold AppendOperationEvidencePayload; unfold_puts. refuse. Qed.
Lemma forward_safe id k e w f actor : safe (RecordOperationForwardStepCompleted id k e w f actor).
Proof. unfold RecordOperationForwardStepCompleted; unfold_puts. refuse. Qed.
Lemma begin_compensation_safe id e actor : safe (BeginOperationCompensation id e actor).
Proof. unfold BeginOperationCompensation; unfold_puts. refuse. Qed.
Lemma complete_step_safe id k w f d actor : safe (CompleteOperationCompensationStep id k w f d actor).
Proof. unfold CompleteOperationCompensationStep; unfold_puts. refuse. Qed.
Lemma step_failure_safe id k w f failure actor :
  safe (ReportOperationCompensationStepFailure id k w f failure actor).
Proof. unfold ReportOperationCompensationStepFailure; unfold_puts. refuse. Qed.
Lemma owner_start_safe id p c actor : safe (startOwnerDestructiveOperationLocked id p c actor).
Proof. unfold startOwnerDestructiveOperationLocked; unfold_puts. refuse. Qed.
Lemma owner_finish_safe id ok le actor : safe (finishOwnerDestructiveOperationLocked id ok le actor).
Proof. unfold finishOwnerDestructiveOperationLocked; unfold_puts. refuse. Qed.

Lemma set_plan_safe id e plan actor : safe (SetOperationCompensationPlan id e plan actor).
Proof.
  unfold SetOperationCompensationPlan, dropCompensationSteps; unfold_puts. wp_go; try refused.
  apply wp_bind. eapply wp_mono; [apply bindPlanRows_frame|].
  intros r s' ((rows & ->) & _). by wp_go.
Qed.

Lemma complete_evidence_safe id e in_ p w f actor :
  safe (CompleteOperationWithEvidencePayload id e in_ p w f actor).
Proof.
  unfold CompleteOperationWithEvidencePayload; unfold_puts. wp_go; try refused.
  all: apply wp_bind; (eapply wp_mono; [apply finish_spec|]); intros r s' (-> & _); by wp_go.
Qed.

Lemma create_safe r key actor rid : safe (CreateOperation r key actor rid).
Proof.
  eapply wp_mono; [apply create_spec|]. intros [[op [|]]|e] s' Hp; [done|done|apply Hp].
Qed.

(** creation, then the replay test or the two transitions that cannot fail *)
Ltac create_refuse plan :=
  apply wp_bind; eapply wp_mono; [apply create_spec|]; intros [[op [|]]|e] s1 Hp;
  [ destruct Hp as [-> _]; refuse
  | destruct (create_post_found _ _ _ _ _ Hp) as [Hf Hd];
    eapply plan; [done|done|done|]; unfold sealRequestPayload; unfold_puts; by wp_go
  | apply Hp ].

Lemma create_payload_safe r key actor rid mt p :
  safe (CreateOperationAwaitingApprovalWithPayload r key actor rid mt p).
Proof.
  unfold CreateOperationAwaitingApprovalWithPayload. wp_go; try refused.
  create_refuse @plan_transitions.
Qed.

Lemma create_exclusive_safe r key actor rid mt p :
  safe (CreateExclusiveOperationAwaitingApprovalWithPayload r key actor rid mt p).
Proof.
  unfold CreateExclusiveOperationAwaitingApprovalWithPayload. wp_go; try refused;
    create_refuse @plan_transitions.
Qed.

Lemma create_queued_safe r key actor rid mt p :
  safe (CreateOperationQueuedWithPayload r key actor rid mt p).
Proof.
  unfold CreateOperationQueuedWithPayload. wp_go; try refused. create_refuse @plan_transitions_once.
Qed.

Lemma owner_cancel_safe id actor reason : safe (cancelOwnerDestructiveOperationLocked id actor reason).
Proof.
  unfold cancelOwnerDestructiveOperationLocked. wp_go; try refused. norm_bool.
  apply owner_transition; [done|]. intros s' _ _. by wp_go.
Qed.

Lemma owner_approve_safe id p c actor : safe (approveOwnerDestructiveOperationLocked id p c actor).
Proof.
  unfold approveOwnerDestructiveOperationLocked. wp_go; try refused. norm_bool.
  apply owner_transition; [by rewrite H1|]. intros s1 _ _.
  apply bind_ret_r, owner_transition; [done|]. intros s2 _ _. by wp_go.
Qed.

Lemma owner_create_safe p c k o rev d rc actor rd aw :
  safe (createOwnerDestructiveOperationLocked p c k o rev d rc actor rd aw).
Proof.
  unfold createOwnerDestructiveOperationLocked; unfold_puts. wp_go; try refused.
  apply owner_transition; [done|]. intros s1 _ _.
  apply owner_transition; [done|]. intros s2 _ _. apply wp_if; intros _; [by wp_go|].
  apply owner_transition; [done|]. intros s3 _ _.
  apply bind_ret_r, owner_transition; [done|]. intros s4 _ _. by wp_go.
Qed.

(** a claim moves a due retry to QUEUED before it tests the lease; the
    invariant says that no lease is held then *)
Lemma claim_safe owner id w ttl at_ : engine_inv owner s -> safe (ClaimOperation id w ttl at_).
Proof.
  intros Hinv. unfold ClaimOperation; unfold_puts. wp_go; try refused; [done|]. norm_bool.
  pose proof (wf_wait _ _ (inv_ops _ _ Hinv _ _ H0) H1) as Hl. cbn in *.
  destruct (op_LeaseExpiresAt a); done.
Qed.
End atomic.

(** ** The two refusals that write *)

(** nothing but operations, compensation steps, audit trail and outbox differs *)
Definition rollback_writes (s s' : MemoryStore) : Prop :=
  same_data (s <| ms_operations := ms_operations s' |> <| ms_compensationSteps := ms_compensationSteps s' |>
               <| ms_audit := ms_audit s' |> <| ms_outbox := ms_outbox s' |>) s'.

Lemma rollback_writes_refl s : rollback_writes s s.
Proof. by destruct s. Qed.

Lemma rollback_writes_more s t t' : rollback_writes s t -> rollback_writes t t' -> rollback_writes s t'.
Proof. unfold rollback_writes, same_data. intros E E'. destruct s. rewrite E', E. reflexivity. Qed.

(** the two ends a claim can find: everything is settled, or the latest pending step
    has no automatic compensation *)
Definition rollback_end (s : MemoryStore) (id : string) (e : Error) (op' : Operation)
    (steps : gmap string OperationCompensationStep) : Prop :=
  op_LeaseOwner op' = "" /\ op_LeaseExpiresAt op' = None /\
  ((e = ErrNotFound /\ op_State op' = OperationRolledBack /\ all_settled s id /\ steps = ms_compensationSteps s) \/
   (e = ErrPrerequisite /\ op_State op' = OperationNeedsOperator /\
      exists old new, latest_pending s id old /\
        (cs_Strategy old = CompensationManualRecovery \/ cs_Strategy old = CompensationIrreversible) /\
        steps = <[compensationKey id (cs_StepKey old) := new]> (ms_compensationSteps s) /\
        cs_State new = CompensationStepManualRequired /\ cs_StepKey new = cs_StepKey old)).

(** a claim of [ClaimNextOperationCompensationStep] that ends the rollback it was
    asked to go on with: it writes the operation [id], which [w] holds, one
    compensation step at most, an audit entry and an event, and answers [e] *)
Definition claim_ends_rollback (s : MemoryStore) (id w : string) (f : Z) (e : Error) (s' : MemoryStore) : Prop :=
  exists op op' entry key event,
    ms_operations s !! id = Some op /\ op_State op = OperationRollingBack /\
    op_LeaseOwner op = w /\ op_FenceToken op = f /\
    ms_operations s' = <[id := op']> (ms_operations s) /\
    ms_audit s' = (ms_audit s ++ [entry])%list /\ ms_outbox s' = <[key := event]> (ms_outbox s) /\
    rollback_writes s s' /\ rollback_end s id e op' (ms_compensationSteps s').

Section written.
Context (s : MemoryStore).
Local Abbreviation writes f := (forall t, rollback_writes s t -> rollback_writes s (f t)).

Ltac one_write := intros t; intros H; apply (rollback_writes_more _ _ _ H); by destruct t.
Lemma written_tick : writes tick.
Proof. one_write. Qed.
Lemma written_operations v : writes (fun t => t <| ms_operations := v |>).
Proof. one_write. Qed.
Lemma written_steps v : writes (fun t => t <| ms_compensationSteps := v |>).
Proof. one_write. Qed.
Lemma written_audit actor action rt rid rev md : writes (addAudit actor action rt rid rev md).
Proof. one_write. Qed.
Lemma written_outbox at_ ai et p : writes (addOutbox at_ ai et p).
Proof. one_write. Qed.
End written.

Ltac rollback_written := repeat
  match goal with
  | |- rollback_writes ?s ?s => exact (rollback_writes_refl s)
  | |- rollback_writes _ (tick _) => apply written_tick
  | |- rollback_writes ?s (?t <| ms_operations := ?v |>) => apply (written_operations s v t)
  | |- rollback_writes ?s (?t <| ms_compensationSteps := ?v |>) => apply (written_steps s v t)
  end.

(** the writes of the end, then the audit entry and the event *)
Lemma settling_claim_ends s t id w f e op op' actor action rt rid rev md at_ ai et p :
  ms_operations s !! id = Some op -> op_State op = OperationRollingBack ->
  op_LeaseOwner op = w -> op_FenceToken op = f ->
  ms_operations t = <[id := op']> (ms_operations s) -> ms_audit t = ms_audit s -> ms_outbox t = ms_outbox s ->
  rollback_writes s t -> rollback_end s id e op' (ms_compensationSteps t) ->
  claim_ends_rollback s id w f e (addOutbox at_ ai et p (addAudit actor action rt rid rev md t)).
Proof.
  intros Hop Hst Hw Hf Ho Ha He Hwr Hend. exists op, op'. eexists _, _, _.
  do 4 (split; [done|]). split; [exact Ho|]. split; [cbn; by rewrite Ha|]. split; [cbn; by rewrite He|].
  split; [by apply written_outbox, written_audit|exact Hend].
Qed.

Ltac ends_rollback :=
  eapply settling_claim_ends; [eassumption..|reflexivity|reflexivity|reflexivity|rollback_written|];
  do 2 (split; [reflexivity|]).

Lemma claim_next_refuses s id w f actor :
  wp (ClaimNextOperationCompensationStep id w f actor) (fun r s' =>
    match r with Ok _ => True | Fail e => same_data s s' \/ claim_ends_rollback s id w f e s' end) s.
Proof.
  unfold ClaimNextOperationCompensationStep; unfold_puts. wp_go; try exact I; try (left; reflexivity); right.
  - norm_bool. ends_rollback. left. do 2 (split; [reflexivity|]). split; [|reflexivity].
    intros k c Hk Hc. rewrite map_all_true in *.
    match goal with H : forall i x, _ !! i = Some x -> _ |- _ => specialize (H k c Hk); cbn in H; by rewrite Hc in H end.
  - apply head_latest in Heql. norm_bool. ends_rollback. right. do 2 (split; [reflexivity|]).
    exists o. eexists. split; [exact Heql|]. split; [|do 2 (split; [reflexivity|]); reflexivity].
    match goal with H : (_ || _) = true |- _ => apply orb_true_iff in H as [H|H] end; norm_bool; auto.
Qed.

(** every call but the compensation claim refuses without a trace *)
Create HintDb refusals.
#[local] Hint Resolve create_safe create_payload_safe create_exclusive_safe create_queued_safe
  transition_safe approve_safe renew_safe release_safe append_step_safe start_safe verification_safe
  failure_safe complete_safe cancel_safe ack_safe checkpoint_create_safe checkpoint_revoke_safe
  resolve_safe resolve_evidence_safe trace_safe evidence_safe evidence_payload_safe
  complete_evidence_safe set_plan_safe forward_safe begin_compensation_safe complete_step_safe
  step_failure_safe owner_create_safe owner_approve_safe owner_start_safe owner_finish_safe
  owner_cancel_safe : refusals.

(** C3: refusals are atomic, but for two.  In every reachable store, a call of the
    engine that answers with an error leaves every collection of the store exactly
    as it was, unless it is a claim of the next compensation step, by the worker
    that holds the rollback, which ends the rollback as it refuses: with nothing
    pending and everything settled it makes the operation ROLLED_BACK and answers
    ErrNotFound; when the latest pending step has no automatic compensation it
    marks that step MANUAL_REQUIRED and the operation NEEDS_OPERATOR and answers
    ErrPrerequisite.  Both give the lease back and write one audit entry and one
    event, and nothing else. *)
Theorem refusals_write_nothing_or_end_rollbacks owner s c e :
  reachable owner s -> (exec c s).2 = Some e ->
  same_data s (exec c s).1 \/
  exists id w f actor, c = CClaimCompensationStep id w f actor /\ claim_ends_rollback s id w f e (exec c s).1.
Proof.
  intros Hr. apply reachable_inv in Hr.
  assert (Hx : forall A (m : Store A), wp m (atomic s) s ->
            (run1 m s).2 = Some e -> same_data s (run1 m s).1).
  { unfold wp, run1. intros A m. destruct (m s) as [s' [a|e']]; cbn; done. }
  destruct c.
  28: { intros He. pose proof (claim_next_refuses s id worker fence actor) as H. unfold wp in H. cbn [exec] in *. unfold run1 in *.
        destruct (ClaimNextOperationCompensationStep id worker fence actor s) as [s' [a|e']]; [discriminate He|].
        injection He as ->. destruct H as [H|H]; [by left|]. right. by eexists _, _, _, _. }
  all: intros He; left; revert He; apply Hx; first [by eapply claim_safe|by auto with refusals].
Qed.

Lemma refusals_write_nothing_or_end_rollbacks_witness :
  same_data (run demo_running demo0) (exec (CComplete demo_op 5 "w" 1 "w") (run demo_running demo0)).1.
Proof.
  destruct (refusals_write_nothing_or_end_rollbacks true (run demo_running demo0) (CComplete demo_op 5 "w" 1 "w")
    ErrPrerequisite) as [H|(id & w & f & actor & E & _)]; [apply demo_reachable|..|exact H|discriminate E];
    vm_compute; reflexivity.
Defined.

(** ** Refinement *)

(** C1: refinement.  In every reachable store, every call of the engine
    simulates the lifecycle specification: each operation makes at most
    [call_steps] lifecycle steps, using only the capabilities of that call, new
    operations start as fresh drafts, and everything sealed (idempotency
    entries, audit trail, evidence and its payloads, request payloads) only
    grows, by records filed under identifiers drawn during the call. *)
Theorem engine_refines_lifecycle owner s c :
  reachable owner s -> ops_rel (caps_of c) s (exec c s).1.
Proof. intros Hr. apply exec_refines, (inv_ids owner), reachable_inv, Hr. Qed.

Lemma engine_refines_lifecycle_witness :
  ops_rel (only CapStart) (run (take 4 demo_running) demo0)
    (exec (CStartAttempt demo_op 4 "w" 1 "w") (run (take 4 demo_running) demo0)).1.
Proof.
  apply (engine_refines_lifecycle false _ (CStartAttempt demo_op 4 "w" 1 "w")), demo_reachable.
  vm_compute. reflexivity.
Defined.

(** C4: lifecycle invariant.  In every reachable store, the attempts of an
    operation stay within the budget of its retry policy, which is at most 5, an
    operation waits for a retry only while the budget allows another attempt,
    with the retry scheduled and the lease given back; an executing operation
    has a counted attempt; and, owner-driven workflows aside, a lease is held
    only in the states in which work can be claimed. *)
Theorem reachable_operations_well_formed owner s id op :
  reachable owner s -> ms_operations s !! id = Some op ->
  op_ID op = id /\
  0 <= op_Attempt op <= rp_MaxAttempts (op_RetryPolicy op) /\ rp_MaxAttempts (op_RetryPolicy op) <= 5 /\
  (op_State op = OperationRetryWait ->
     is_Some (op_NextAttemptAt op) /\ op_LeaseExpiresAt op = None /\
     op_Attempt op < rp_MaxAttempts (op_RetryPolicy op)) /\
  (executing (op_State op) = true -> 1 <= op_Attempt op) /\
  (unstarted (op_State op) = true -> op_Attempt op = 0) /\
  (owner = false -> is_Some (op_LeaseExpiresAt op) -> claimable (op_State op) = true).
Proof.
  intros Hr Hop. apply reachable_inv in Hr as [Hids Hops].
  destruct (Hops _ _ Hop) as [Hb Hm Hu Hst Hre Hw Hl]. cbn in *.
  split; [by apply (ops_filed _ Hids) in Hop as [? _]|]. split; [done|]. split; [done|].
  split; [|split; [|split]].
  - intros E. destruct (Hre E) as [Hn Hlt]. specialize (Hw E).
    destruct (op_NextAttemptAt op), (op_LeaseExpiresAt op); done.
  - intros E. destruct (op_State op); try discriminate E; by apply Hst.
  - done.
  - intros Ho [t Ht]. apply Hl; [done|]. by rewrite Ht.
Qed.

Lemma reachable_operations_well_formed_witness :
  exists op, ms_operations (run demo_running demo0) !! demo_op = Some op /\ op_State op = OperationRunning /\
    1 <= op_Attempt op.
Proof.
  destruct (found op_State (ms_operations (run demo_running demo0) !! demo_op) (OperationRunning)) as (op & E & Hst); [vm_compute; reflexivity|].
  exists op. split; [exact E|]. split; [exact Hst|].
  apply (reachable_operations_well_formed false (run demo_running demo0) demo_op op);
    [apply demo_reachable; vm_compute; reflexivity|exact E|rewrite Hst; reflexivity].
Defined.

(** Terminal states are absorbing.  An operation that reached SUCCEEDED,
    ROLLED_BACK or CANCELLED is in that state in every store reachable from
    there. *)
Theorem terminal_operations_stay_terminal owner s s' id op :
  reachable owner s -> rtc (step owner) s s' ->
  ms_operations s !! id = Some op -> IsTerminal (op_State op) = true ->
  exists op', ms_operations s' !! id = Some op' /\ op_State op' = op_State op.
Proof.
  intros Hr Hs Hop Ht. apply rtc_nsteps_1 in Hs as [k Hk].
  destruct (steps_operation _ _ _ _ _ _ (reachable_inv _ _ Hr) Hk Hop) as (op' & n & Hop' & _ & _ & Hl & _).
  exists op'. split; [done|]. exact (nsteps_terminal _ _ _ _ Hl Ht).
Qed.

Definition demo_cancelled : list Call := (demo_queued ++ [CRequestCancellation demo_op 3 "alice" "stop"])%list.

Lemma terminal_operations_stay_terminal_witness :
  exists op', ms_operations (run [CClaim demo_op "w" demo_ttl 0] (run demo_cancelled demo0)) !! demo_op = Some op' /\
    op_State op' = OperationCancelled.
Proof.
  destruct (found op_State (ms_operations (run demo_cancelled demo0) !! demo_op) (OperationCancelled)) as (op & E & Hst); [vm_compute; reflexivity|].
  rewrite <- Hst.
  apply (terminal_operations_stay_terminal false (run demo_cancelled demo0) _ demo_op op).
  - apply demo_reachable. vm_compute. reflexivity.
  - eapply rtc_nsteps_2, (run_steps false [CClaim demo_op "w" demo_ttl 0]). demo_calls.
  - exact E.
  - rewrite Hst. reflexivity.
Defined.
