(* ===== verification/Capabilities.v ===== *)
(** * Who may approve, start, succeed

    The authority-carrying moves of an operation's life: approval by somebody
    else, attempts under a live recovery checkpoint, success by verification
    or by recovery evidence. *)
From S2P Require Import Prelude GoStrings Digest Model Calendar Store Operations Recovery Evidence Compensation.
From S2P Require Import OwnerOperations Lifecycle OperationSystem OperationRuns Demo Authority.

(** ** Without the capability the lifecycle cannot make the move *)

Section lacks.
Context (caps : Cap -> bool).

(** close the rule cases that do not apply *)
Ltac rule_cases :=
  repeat match goal with
  | H : _ \/ _ |- _ => destruct H; subst
  | H : executing ?s = true |- _ => is_var s; destruct s; try discriminate H
  | H : cancellable ?s = true |- _ => is_var s; destruct s; try discriminate H
  | H : CanDirectOperationTransition ?s ?t = true |- _ => is_var s; is_var t; destruct s, t; try discriminate H
  | H : CanTransition ?s _ = true |- _ => is_var s; destruct s; try discriminate H
  end.

Definition unapproved (st : OperationState) : Prop :=
  st = OperationAwaitingApproval \/ st = OperationCancelled.

Lemma nsteps_unapproved n v v' :
  caps CapApprove = false -> nsteps (lstep caps) n v v' ->
  unapproved (lc_state v) -> unapproved (lc_state v').
Proof.
  intros Hc. induction 1 as [|n v1 v2 v3 H12 _ IH]; [done|]. intros Hu. apply IH.
  revert Hc Hu. unfold unapproved. destruct H12; cbn; intros Hc [Hu|Hu]; subst; auto; try congruence;
    rule_cases; try discriminate; auto.
Qed.

Lemma nsteps_attempt n v v' :
  caps CapStart = false -> nsteps (lstep caps) n v v' -> lc_attempt v' = lc_attempt v.
Proof.
  intros Hc. induction 1 as [|n v1 v2 v3 H12 _ IH]; [done|]. rewrite IH.
  destruct H12; cbn; congruence.
Qed.

Lemma nsteps_unsuccessful n v v' :
  caps CapComplete = false -> caps CapResolve = false -> caps CapOwner = false ->
  nsteps (lstep caps) n v v' -> lc_state v <> OperationSucceeded -> lc_state v' <> OperationSucceeded.
Proof.
  intros Hc Hr Ho. induction 1 as [|n v1 v2 v3 H12 _ IH]; [done|]. intros Hn. apply IH.
  destruct H12; cbn in *; rule_cases; try discriminate; try congruence.
Qed.
End lacks.

Lemma exec_operation owner s c id op op' :
  reachable owner s -> ms_operations s !! id = Some op -> ms_operations (exec c s).1 !! id = Some op' ->
  advance (caps_of c) op op'.
Proof.
  intros Hr Hop Hop'. destruct (exec_refines c s (inv_ids _ _ (reachable_inv _ _ Hr))) as [_ Hx].
  specialize (Hx id). unfold op_effect in Hx. by rewrite Hop, Hop' in Hx.
Qed.

(** ** What the authority-carrying handlers check *)

(** the handler changes at most the operation [id], and only when [P] holds of it *)
Definition touches (s : MemoryStore) (id : string) (P : Operation -> Prop) (s' : MemoryStore) : Prop :=
  ms_operations s' = ms_operations s \/
  exists op op', ms_operations s !! id = Some op /\ P op /\
    ms_operations s' = <[id := op']> (ms_operations s).

Lemma touches_changed s id P s' id' op op' :
  touches s id P s' -> ms_operations s !! id' = Some op -> ms_operations s' !! id' = Some op' ->
  op' <> op -> id' = id /\ P op.
Proof.
  intros [E|(op0 & op1 & Hop0 & HP & E)] Hop Hop' Hne; rewrite E in Hop'; [congruence|].
  apply lookup_insert_Some in Hop' as [[<- <-]|[_ Hop']]; [|congruence].
  rewrite Hop in Hop0. by simplify_eq.
Qed.

(** a destructive operation may run: its checkpoint is verified, unexpired,
    bound to the same project and cluster, and the inventory it covers is the
    cluster's current one *)
Definition recovery_ready (s : MemoryStore) (op : Operation) (at_ : Time) : Prop :=
  exists checkpoint cluster,
    ms_recoveryCheckpoints s !! op_RecoveryCheckpointID op = Some checkpoint /\
    ms_managedClusters s !! OperationTargetClusterID (op_TargetRef op) = Some cluster /\
    rc_ProjectID checkpoint = op_ProjectID op /\
    rc_ClusterID checkpoint = OperationTargetClusterID (op_TargetRef op) /\
    rc_State checkpoint = RecoveryCheckpointVerified /\ at_ < rc_ExpiresAt checkpoint /\
    rc_InventoryDigest checkpoint = mc_InventoryDigest cluster.

Lemma validate_ready s op at_ u :
  validateDestructiveRecoveryLocked s op at_ = Ok u -> op_Class op = OperationClassDestructive ->
  recovery_ready s op at_.
Proof.
  unfold validateDestructiveRecoveryLocked. intros H Hc. rewrite Hc in H. cbn in H.
  repeat case_match; try discriminate; norm_bool.
  eexists _, _. repeat split; eauto; congruence.
Qed.

(** the clock reading at which recovery is checked is the first or the second of the call *)
Definition startable (s : MemoryStore) (op : Operation) : Prop :=
  op_State op = OperationQueued /\ op_Attempt op < rp_MaxAttempts (op_RetryPolicy op) /\
  exists t, (t <= 1)%nat /\
    (op_Class op = OperationClassDestructive -> recovery_ready s op (clock (Nat.iter t tick s))).

Section handlers.
Context (s : MemoryStore) (Hwf : ids_wf s).

(** the two outcomes of a handler on the operations map *)
Ltac touching :=
  first [ by left | right; eexists _, _; split; [eassumption|split; [|reflexivity]] ].

Lemma start_touches id e w f actor :
  wp (StartOperationAttempt id e w f actor) (fun _ => touches s id (startable s)) s.
Proof.
  unfold StartOperationAttempt; unfold_puts. wp_go; touching. norm_bool.
  split; [done|]. split; [done|]. exists 1%nat. split; [lia|]. by eapply validate_ready.
Qed.

Lemma owner_start_touches id p c actor :
  wp (startOwnerDestructiveOperationLocked id p c actor)
     (fun _ => touches s (TrimSpace id) (startable s)) s.
Proof.
  unfold startOwnerDestructiveOperationLocked; unfold_puts. wp_go; try by left. norm_bool.
  destruct (ops_filed _ Hwf _ _ H) as [Hid _].
  right. eexists _, _. split; [eassumption|]. split; [|cbn; by rewrite Hid].
  split; [done|]. split; [done|]. exists 0%nat. split; [lia|]. by eapply validate_ready.
Qed.

Lemma approve_touches id e actor :
  wp (ApproveOperationAndQueue id e actor)
     (fun _ => touches s (TrimSpace id) (fun op => op_State op = OperationAwaitingApproval /\
        e = op_Revision op /\ TrimSpace actor <> "" /\ TrimSpace actor <> op_ActorID op)) s.
Proof.
  unfold ApproveOperationAndQueue; unfold_puts. wp_go; try by left. norm_bool.
  destruct (ops_filed _ Hwf _ _ H) as [Hid _].
  right. eexists _, _. split; [eassumption|]. split; [|cbn; by rewrite Hid]. done.
Qed.

Lemma complete_touches id e w f actor :
  wp (CompleteOperation id e w f actor)
     (fun _ => touches s id (fun op => op_State op = OperationVerifying /\ holds op w f (Some (clock s)))) s.
Proof.
  unfold CompleteOperation; unfold_puts. wp_go; touching. norm_bool.
  split; [done|]. by apply lease_active.
Qed.

Lemma complete_evidence_touches id e in_ p w f actor :
  wp (CompleteOperationWithEvidencePayload id e in_ p w f actor)
     (fun _ s' => touches s (TrimSpace id) (fun op =>
        (op_State op = OperationRunning \/ op_State op = OperationVerifying) /\
        holds op w f (Some (clock s))) s') s.
Proof.
  unfold CompleteOperationWithEvidencePayload; unfold_puts. wp_go; try by left.
  all: apply wp_bind; (eapply wp_mono; [apply finish_spec|]); intros r s' (-> & Hops & _);
    apply wp_ret; norm_bool; try discriminate; try congruence.
  all: right; eexists _, _; split; [eassumption|split; [|exact Hops]].
  all: split; [by eauto|].
  all: match goal with H : OperationLeaseActive _ _ _ _ = true |- _ =>
         apply lease_active in H as (Hf & Ho & Ha); split; [done|split; [|done]] end.
  all: by rewrite Ho, TrimSpace_idem.
Qed.

Lemma resolve_touches id e res d actor :
  wp (ResolveUnknownOperationOutcome id e res d actor)
     (fun _ => touches s id (fun op => op_State op = OperationFailed /\
        op_LastFailureClass op = OperationFailureUnknown)) s.
Proof.
  unfold ResolveUnknownOperationOutcome; unfold_puts. wp_go; touching.
  unfold ApplyUnknownOutcomeResolution in H0. repeat case_match; try discriminate; norm_bool; done.
Qed.

Lemma resolve_evidence_touches id e res in_ p actor :
  wp (ResolveUnknownOperationOutcomeWithEvidence id e res in_ p actor)
     (fun _ => touches s (TrimSpace id) (fun op => op_State op = OperationFailed /\
        op_LastFailureClass op = OperationFailureUnknown)) s.
Proof.
  unfold ResolveUnknownOperationOutcomeWithEvidence; unfold_puts. wp_go; touching.
  unfold ApplyUnknownOutcomeResolution in H4. repeat case_match; try discriminate; norm_bool; done.
Qed.
End handlers.

(** C5: separation of duties.  An operation leaves AWAITING_APPROVAL other than by
    cancellation only through an approval made for exactly the revision that was
    approved, by a named actor who is not the one that requested the operation
    (the owner-driven workflows, which approve with their own product decision,
    aside). *)
Theorem approval_by_somebody_else owner s c id op op' :
  reachable owner s -> owner_call c = false ->
  ms_operations s !! id = Some op -> op_State op = OperationAwaitingApproval ->
  ms_operations (exec c s).1 !! id = Some op' ->
  op_State op' <> OperationAwaitingApproval -> op_State op' <> OperationCancelled ->
  exists id' actor, c = CApprove id' (op_Revision op) actor /\ TrimSpace id' = id /\
    TrimSpace actor <> "" /\ TrimSpace actor <> op_ActorID op.
Proof.
  intros Hr Ho Hop Hst Hop' Hn1 Hn2.
  pose proof (exec_operation _ _ _ _ _ _ Hr Hop Hop') as Hadv.
  destruct (caps_of c CapApprove) eqn:Hc.
  - destruct c; try discriminate Hc; try discriminate Ho.
    pose proof (approve_touches s (inv_ids _ _ (reachable_inv _ _ Hr)) id0 expected actor) as Ht.
    destruct (touches_changed _ _ _ _ _ _ _ Ht Hop Hop') as [Eid (_ & Erev & Ha & Hne)]; [congruence|].
    subst. by exists id0, actor.
  - apply advance_nsteps in Hadv as (_ & n & _ & Hl & _).
    destruct (nsteps_unapproved _ _ _ _ Hc Hl) as [E|E]; [by left|done|done].
Qed.

(** an operation that waits for approval *)
Definition demo_awaiting : list Call :=
  [CCreateAwaitingApproval demo_request "key" "alice" "req-1" "application/json" "{}"].

Lemma approval_by_somebody_else_witness :
  exists op, ms_operations (run demo_awaiting demo0) !! demo_op = Some op /\
  exists id' actor, CApprove demo_op 3 "bob" = CApprove id' (op_Revision op) actor /\
    TrimSpace id' = demo_op /\ TrimSpace actor <> "" /\ TrimSpace actor <> op_ActorID op.
Proof.
  destruct (found op_State (ms_operations (run demo_awaiting demo0) !! demo_op) (OperationAwaitingApproval)) as (op & E & Hst); [vm_compute; reflexivity|].
  destruct (found op_State (ms_operations (exec (CApprove demo_op 3 "bob") (run demo_awaiting demo0)).1 !! demo_op) (OperationQueued)) as (op' & E' & Hst'); [vm_compute; reflexivity|].
  exists op. split; [exact E|].
  apply (approval_by_somebody_else false (run demo_awaiting demo0) _ demo_op op op');
    [apply demo_reachable; vm_compute; reflexivity|reflexivity|exact E|exact Hst|exact E'
    |rewrite Hst'; discriminate|rewrite Hst'; discriminate].
Defined.

(** C6: destructive operations need a way back.  An attempt of an operation is
    counted only by starting it from QUEUED within its budget; when the
    operation is destructive, the start found a verified, unexpired recovery
    checkpoint of the same project and cluster that covers the cluster's current
    inventory. *)
Theorem attempts_need_recovery owner s c id op op' :
  reachable owner s -> ms_operations s !! id = Some op ->
  ms_operations (exec c s).1 !! id = Some op' -> op_Attempt op' <> op_Attempt op ->
  startable s op.
Proof.
  intros Hr Hop Hop' Hne. pose proof (exec_operation _ _ _ _ _ _ Hr Hop Hop') as Hadv.
  assert (Hd : op' <> op) by congruence.
  pose proof (inv_ids _ _ (reachable_inv _ _ Hr)) as Hwf.
  destruct (caps_of c CapStart) eqn:Hc.
  - destruct c; try discriminate Hc.
    + by eapply (touches_changed _ _ _ _ _ _ _ (start_touches s id0 expected worker fence actor)).
    + by eapply (touches_changed _ _ _ _ _ _ _ (owner_start_touches s Hwf id0 projectID clusterID actor)).
  - apply advance_nsteps in Hadv as (_ & n & _ & Hl & _). by apply nsteps_attempt in Hl.
Qed.

Definition demo_checkpoint : RecoveryCheckpoint :=
  mkRecoveryCheckpoint (newMeta "" 0) "p" "c" "velero" "backup-1" demo_digest "" Second (demo_ttl * 10)
    RecoveryCheckpointVerified "" "" None.
Definition demo_destructive : OperationRequest :=
  mkOperationRequest "p" "cluster.reset" "cluster:c" "rev-1" "critical" OperationClassDestructive "-rcp".
Definition demo_destructive_op : string := "iii-op".
(** a destructive operation, claimed and ready to start *)
Definition demo_reset : list Call :=
  [CCreateCheckpoint demo_checkpoint "alice";
   CCreateOperation demo_destructive "key" "alice" "req-1";
   CTransition demo_destructive_op 1 OperationPlanning "" "alice";
   CTransition demo_destructive_op 2 OperationQueued "" "alice";
   CClaim demo_destructive_op "w" demo_ttl 0].

Lemma attempts_need_recovery_witness :
  exists op, ms_operations (run demo_reset demo0) !! demo_destructive_op = Some op /\
    op_Class op = OperationClassDestructive /\ startable (run demo_reset demo0) op.
Proof.
  destruct (found (fun op => (op_Class op, op_Attempt op)) (ms_operations (run demo_reset demo0) !! demo_destructive_op)
              (OperationClassDestructive, 0)) as (op & E & Hx); [vm_compute; reflexivity|].
  pose (c := CStartAttempt demo_destructive_op 4 "w" 1 "w").
  destruct (found op_Attempt (ms_operations (exec c (run demo_reset demo0)).1 !! demo_destructive_op) (1)) as (op' & E' & Hx'); [vm_compute; reflexivity|].
  injection Hx as Hcl Hat. exists op. split; [exact E|]. split; [exact Hcl|].
  apply (attempts_need_recovery false (run demo_reset demo0) c demo_destructive_op op op');
    [apply demo_reachable; vm_compute; reflexivity|exact E|exact E'|].
  rewrite Hat, Hx'. discriminate.
Defined.

(** Success needs authority.  An operation becomes SUCCEEDED only by the
    holder of its unexpired lease while RUNNING or VERIFYING, by resolving a
    failure whose outcome was unknown, or by the workflow that owns it. *)
Theorem success_needs_authority owner s c id op op' :
  reachable owner s -> ms_operations s !! id = Some op -> op_State op <> OperationSucceeded ->
  ms_operations (exec c s).1 !! id = Some op' -> op_State op' = OperationSucceeded ->
  (exists worker fence, presents c = Some (id, worker, fence) /\ holds op worker fence (Some (clock s)) /\
     (op_State op = OperationRunning \/ op_State op = OperationVerifying)) \/
  (op_State op = OperationFailed /\ op_LastFailureClass op = OperationFailureUnknown) \/
  owner_call c = true.
Proof.
  intros Hr Hop Hn Hop' Hs. pose proof (exec_operation _ _ _ _ _ _ Hr Hop Hop') as Hadv.
  assert (Hd : op' <> op) by congruence.
  destruct (owner_call c) eqn:Ho; [auto|]. unfold owner_call in Ho.
  destruct (caps_of c CapComplete) eqn:Hc; [|destruct (caps_of c CapResolve) eqn:Hre].
  - left. destruct c; try discriminate Hc.
    + destruct (touches_changed _ _ _ _ _ _ _ (complete_touches s id0 expected worker fence actor) Hop Hop' Hd)
        as [-> [Hst Hh]]. exists worker, fence. auto.
    + destruct (touches_changed _ _ _ _ _ _ _
                  (complete_evidence_touches s id0 expected in_ payload worker fence actor) Hop Hop' Hd)
        as [-> [Hst Hh]]. exists worker, fence. auto.
  - right. left. destruct c; try discriminate Hre.
    + by eapply (touches_changed _ _ _ _ _ _ _ (resolve_touches s id0 expected resolution evidenceDigest actor)).
    + by eapply (touches_changed _ _ _ _ _ _ _
                   (resolve_evidence_touches s id0 expected resolution in_ payload actor)).
  - apply advance_nsteps in Hadv as (_ & n & _ & Hl & _).
    by pose proof (nsteps_unsuccessful _ _ _ _ Hc Hre Ho Hl Hn).
Qed.

Definition demo_done : Call :=
  CCompleteWithEvidence demo_op 5
    (mkEvidenceMetadata (newMeta "" 0) demo_op "" "" 0 "" "report" "" "text/plain" "" 0 false false)
    "all good" "w" 1 "w".

Lemma success_needs_authority_witness :
  exists op, ms_operations (run demo_running demo0) !! demo_op = Some op /\
    ((exists worker fence, presents demo_done = Some (demo_op, worker, fence) /\
       holds op worker fence (Some (clock (run demo_running demo0))) /\
       (op_State op = OperationRunning \/ op_State op = OperationVerifying)) \/
     (op_State op = OperationFailed /\ op_LastFailureClass op = OperationFailureUnknown) \/
     owner_call demo_done = true).
Proof.
  destruct (found op_State (ms_operations (run demo_running demo0) !! demo_op) (OperationRunning)) as (op & E & Hst); [vm_compute; reflexivity|].
  destruct (found op_State (ms_operations (exec demo_done (run demo_running demo0)).1 !! demo_op) (OperationSucceeded)) as (op' & E' & Hst'); [vm_compute; reflexivity|].
  exists op. split; [exact E|].
  apply (success_needs_authority false (run demo_running demo0) demo_done demo_op op op');
    [apply demo_reachable; vm_compute; reflexivity|exact E|rewrite Hst; discriminate|exact E'|exact Hst'].
Defined.
