(* ===== verification/Records.v ===== *)
(** * Records that are written once

    Idempotent creation, exclusive targets, sealed evidence and the audit
    trail: what a call has recorded stays recorded, whatever happens later. *)
From S2P Require Import Prelude GoStrings Digest Model Store Operations Recovery Evidence Compensation.
From S2P Require Import OwnerOperations Lifecycle OperationSystem OperationRuns Demo.

Lemma steps_frame owner s s' :
  engine_inv owner s -> rtc (step owner) s s' -> frame s s'.
Proof.
  intros Hinv Hs. revert Hinv. induction Hs as [s|s1 s2 s3 H12 _ IH]; intros Hinv; [done|].
  etrans; [|apply IH; by eapply step_inv]. apply (step_rel owner s1 s2 H12), (inv_ids _ _ Hinv).
Qed.

Lemma steps_lookup owner s s' id op :
  engine_inv owner s -> rtc (step owner) s s' -> ms_operations s !! id = Some op ->
  exists op', ms_operations s' !! id = Some op' /\ static op' = static op.
Proof.
  intros Hinv Hs Hop. apply rtc_nsteps_1 in Hs as [k Hk].
  destruct (steps_operation _ _ _ _ _ _ Hinv Hk Hop) as (op' & _ & Hop' & Hst & _). eauto.
Qed.

Lemma reachable_steps owner s s' : reachable owner s -> rtc (step owner) s s' -> reachable owner s'.
Proof. intros (now & id & Hid & H0) Hs. exists now, id. split; [done|]. by etrans. Qed.

(** ** Idempotent creation *)

(** the requests that reach the idempotency check *)
Definition acceptable (s : MemoryStore) (r : OperationRequest) (key actor : string) (class : OperationClass) : Prop :=
  TrimSpace key <> "" /\ len key <= 200 /\ TrimSpace actor <> "" /\ validRisk (rq_Risk r) = true /\
  NormalizeOperationClass (rq_Class r) = Ok class /\ is_Some (ms_projects s !! rq_ProjectID r) /\
  rq_Kind r <> "" /\ rq_TargetRef r <> "" /\ rq_DesiredRevision r <> "".

Lemma create_accepted s r key actor rid :
  wp (createOperationLocked r key actor rid) (fun res _ => forall op b, res = Ok (op, b) ->
    exists class, acceptable s r key actor class /\
      op_RequestDigest op = operationDigest (r <| rq_Class := class |>)) s.
Proof.
  unfold createOperationLocked; unfold_puts. wp_go; intros op b E; try discriminate E; norm_bool.
  all: exists a; simplify_eq; (split; [unfold acceptable; eauto 20|done]).
Qed.

(** what creation answers for a key that is already bound *)
Lemma create_bound s r key actor rid class id op :
  acceptable s r key actor class ->
  ms_idempotency s !! idempotencyScope (rq_ProjectID r) key = Some id ->
  ms_operations s !! id = Some op ->
  CreateOperation r key actor rid s =
    (s, if op_RequestDigest op == operationDigest (r <| rq_Class := class |>)
        then Ok (op, true) else Fail ErrIdempotencyConflict).
Proof.
  intros (Hk & Hkl & Ha & Hri & Hcl & [prj Hp] & Hkd & Ht & Hd) Hi Hop.
  assert (H : wp (CreateOperation r key actor rid) (fun res s' => s' = s /\
    res = if op_RequestDigest op == operationDigest (r <| rq_Class := class |>)
          then Ok (op, true) else Fail ErrIdempotencyConflict) s).
  { unfold CreateOperation, createOperationLocked. unfold_puts.
    wp_go; norm_bool; simplify_eq; try done; cbn in *; try congruence.
    all: repeat match goal with H : (_ || _) = true |- _ => apply orb_true_iff in H as [H|H] end;
      norm_bool; try done; try lia; try congruence.
    all: rewrite Hcl in H2; injection H2 as <-; rewrite Hi in Heqo; injection Heqo as <-;
      rewrite Hop in H5; injection H5 as <-; split; [reflexivity|].
    - by rewrite bool_decide_eq_false_2.
    - by rewrite bool_decide_eq_true_2. }
  unfold wp in H. destruct (CreateOperation r key actor rid s) as [s' res]. cbn in H.
  by destruct H as [-> ->].
Qed.

(** C7: idempotent creation.  Once a request was accepted under an idempotency
    key, the key stays bound to that operation: whatever calls happen later,
    the same request under the same key answers with that operation (in its
    current state) as a replay and writes nothing, and any request with another
    digest under the key is refused with ErrIdempotencyConflict. *)
Theorem creation_is_idempotent owner s s1 s2 r key actor rid op r' actor' rid' class' :
  reachable owner s -> CreateOperation r key actor rid s = (s1, Ok (op, false)) ->
  rtc (step owner) s1 s2 ->
  rq_ProjectID r' = rq_ProjectID r -> acceptable s2 r' key actor' class' ->
  exists op2, ms_operations s2 !! op_ID op = Some op2 /\ static op2 = static op /\
    CreateOperation r' key actor' rid' s2 =
      (s2, if op_RequestDigest op == operationDigest (r' <| rq_Class := class' |>)
           then Ok (op2, true) else Fail ErrIdempotencyConflict).
Proof.
  intros Hr Hc Hs Hpr Hacc.
  pose proof (wp_run _ _ _ _ _ (create_spec s r key actor rid) Hc) as Hp. cbn in Hp.
  destruct Hp as (_ & Hid & _ & _ & Hops & _ & Hidem & _).
  assert (Hstep : step owner s s1).
  { replace s1 with (exec (CCreateOperation r key actor rid) s).1 by (cbn; unfold run1; by rewrite Hc).
    by apply step_call. }
  assert (Hinv : engine_inv owner s1) by (eapply step_inv; [done|by apply reachable_inv]).
  destruct (steps_lookup _ _ _ (op_ID op) op Hinv Hs) as (op2 & Hop2 & Hst).
  { rewrite Hops, Hid. apply lookup_insert_eq. }
  pose proof (fr_idempotency _ _ (steps_frame _ _ _ Hinv Hs)) as Hsub.
  exists op2. split; [done|]. split; [done|].
  assert (Hd : op_RequestDigest op = op_RequestDigest op2)
    by (symmetry; exact (f_equal (fun t => t.1.2) Hst)).
  rewrite Hd. apply create_bound with (id := op_ID op); [done| |done].
  eapply lookup_weaken; [|exact Hsub]. rewrite Hidem, Hpr. apply lookup_insert_eq.
Qed.

Lemma creation_is_idempotent_witness :
  exists op2, ms_operations (run (tail demo_running) (run (take 1 demo_running) demo0)) !! demo_op = Some op2 /\
    CreateOperation demo_request "key" "carol" "req-9" (run (tail demo_running) (run (take 1 demo_running) demo0)) =
      (run (tail demo_running) (run (take 1 demo_running) demo0), Ok (op2, true)).
Proof.
  assert (Hv : match (CreateOperation demo_request "key" "alice" "req-1" demo0).2 with
               | Ok (_, b) => b | Fail _ => true end = false) by (vm_compute; reflexivity).
  destruct (CreateOperation demo_request "key" "alice" "req-1" demo0) as [s1 [[op b]|e]] eqn:E;
    cbn [snd] in Hv; [|discriminate Hv].
  assert (Hs1 : run (take 1 demo_running) demo0 = s1).
  { change (run (take 1 demo_running) demo0) with (CreateOperation demo_request "key" "alice" "req-1" demo0).1.
    by rewrite E. }
  assert (Hop : op_ID op = demo_op /\ op_RequestDigest op = operationDigest (demo_request <| rq_Class := "MUTATING" |>)).
  { assert (Hw : match (CreateOperation demo_request "key" "alice" "req-1" demo0).2 with
                 | Ok (o, _) => Some (op_ID o, op_RequestDigest o) | Fail _ => None end =
                 Some (demo_op, operationDigest (demo_request <| rq_Class := "MUTATING" |>)))
      by (vm_compute; reflexivity).
    rewrite E in Hw. cbn [snd] in Hw. injection Hw as E1 E2. split; assumption. }
  destruct Hop as [Hid Hdig]. subst b. rewrite Hs1.
  destruct (creation_is_idempotent false demo0 s1 (run (tail demo_running) s1) demo_request "key" "alice" "req-1" op
              demo_request "carol" "req-9" "MUTATING") as (op2 & Hop2 & _ & Hc).
  - apply demo0_reachable.
  - exact E.
  - eapply rtc_nsteps_2, run_steps. demo_calls.
  - reflexivity.
  - rewrite <- Hs1. unfold acceptable. repeat split; try (vm_compute; first [reflexivity|discriminate]).
    eexists. vm_compute. reflexivity.
  - exists op2. rewrite <- Hid. split; [exact Hop2|]. rewrite Hc, Hdig.
    rewrite bool_decide_eq_true_2 by reflexivity. reflexivity.
Defined.

(** ** Sealed evidence *)

Lemma get_evidence s k e p eid :
  ids_wf s -> ms_evidence s !! k = Some e -> ms_evidencePayloads s !! k = Some p -> TrimSpace eid = k ->
  GetEvidencePayload eid s = (s, Ok (e, p)).
Proof.
  intros Hwf He Hp <-. destruct (payloads_sealed _ Hwf _ _ Hp) as (e' & He' & Hid & _ & Hh & Hd & Hz).
  rewrite He in He'. injection He' as <-.
  unfold GetEvidencePayload, bind, get, get_opt, fail_if, ret. rewrite He, Hid, Hp, Hh. cbn [negb].
  rewrite Hd, Hz. unfold operationStepPayloadDigest. by rewrite !bool_decide_eq_true_2.
Qed.

(** the stored payload is the one that was sealed, or was sealed before under the same digest *)
Definition the_payload (s : MemoryStore) (e : EvidenceMetadata) (payload p : Bytes) : Prop :=
  p = payload \/
  (ms_evidence s !! rm_ID (ev_Meta e) = Some e /\ ms_evidencePayloads s !! rm_ID (ev_Meta e) = Some p /\
   sha256Digest p = sha256Digest payload).

(** what a successful sealing leaves behind *)
Lemma seal_stored s in_ payload worker fence actor :
  ids_wf s ->
  wp (AppendOperationEvidencePayload in_ payload worker fence actor) (fun r s' => forall e, r = Ok e ->
    exists p, ms_evidence s' !! rm_ID (ev_Meta e) = Some e /\
      ms_evidencePayloads s' !! rm_ID (ev_Meta e) = Some p /\ the_payload s e payload p) s.
Proof.
  intros Hwf. unfold AppendOperationEvidencePayload; unfold_puts.
  wp_go; intros e' E; try discriminate E; injection E as <-.
  - apply map_find_Some in Heqo as [Hk _].
    rewrite (evidence_keyed _ Hwf _ _ Hk). apply negb_false_iff in H5. unfold payloadIntact in H5.
    rewrite (evidence_keyed _ Hwf _ _ Hk) in H5.
    destruct (ms_evidencePayloads s !! s0) as [p'|] eqn:Hp; [|discriminate H5].
    apply andb_true_iff in H5 as [H5 _]. apply bool_decide_eq_true in H5.
    exists p'. do 2 (split; [done|]). right. rewrite (evidence_keyed _ Hwf _ _ Hk). by split_and!.
  - exists payload. cbn. rewrite !lookup_insert_eq. do 2 (split; [done|]). by left.
Qed.

(** C11: evidence round trip.  Evidence sealed for an operation can be read back
    in every later store: the read succeeds, returns the metadata that sealing
    returned, and the very payload that was sealed, unless that evidence record was in
    the store before the call; then it returns the payload the store had for it, which
    has the same digest. *)
Theorem sealed_evidence_round_trip owner s s1 s2 in_ payload worker fence actor e eid :
  reachable owner s ->
  AppendOperationEvidencePayload in_ payload worker fence actor s = (s1, Ok e) ->
  rtc (step owner) s1 s2 -> TrimSpace eid = rm_ID (ev_Meta e) ->
  exists p, GetEvidencePayload eid s2 = (s2, Ok (e, p)) /\ the_payload s e payload p.
Proof.
  intros Hr Hc Hs He.
  assert (Hstep : step owner s s1).
  { replace s1 with (exec (CAppendEvidencePayload in_ payload worker fence actor) s).1
      by (cbn [exec]; unfold run1; by rewrite Hc).
    by apply step_call. }
  assert (Hinv : engine_inv owner s1) by (eapply step_inv; [done|by apply reachable_inv]).
  destruct (wp_run _ _ _ _ _ (seal_stored s _ _ _ _ _ (inv_ids _ _ (reachable_inv _ _ Hr))) Hc e eq_refl)
    as (p & Hev & Hpl & Hd).
  pose proof (steps_frame _ _ _ Hinv Hs) as Hf.
  exists p. split; [|done]. eapply get_evidence; [| | |exact He].
  - apply (inv_ids owner). by eapply steps_inv.
  - eapply lookup_weaken; [exact Hev|apply (fr_evidence _ _ Hf)].
  - eapply lookup_weaken; [exact Hpl|apply (fr_payloads _ _ Hf)].
Qed.

Definition demo_evidence : EvidenceMetadata :=
  mkEvidenceMetadata (newMeta "" 0) demo_op "" "" 0 "" "log" "" "text/plain" "" 0 false false.

Lemma sealed_evidence_round_trip_witness :
  exists s1 e, AppendOperationEvidencePayload demo_evidence "hello" "w" 1 "w" (run demo_running demo0) = (s1, Ok e) /\
    GetEvidencePayload (rm_ID (ev_Meta e)) s1 = (s1, Ok (e, "hello")).
Proof.
  destruct (succeeds (AppendOperationEvidencePayload demo_evidence "hello" "w" 1 "w") (run demo_running demo0))
    as (s1 & e & E); [vm_compute; reflexivity|].
  exists s1, e. split; [exact E|].
  destruct (sealed_evidence_round_trip false (run demo_running demo0) s1 s1 demo_evidence "hello" "w" 1 "w" e (rm_ID (ev_Meta e)))
    as (p & Hp & [->|(_ & Hno & _)]); [apply demo_reachable; vm_compute; reflexivity|exact E|constructor| |exact Hp|].
  2: { assert (Hn : ms_evidencePayloads (run demo_running demo0) = ∅) by (vm_compute; reflexivity).
       rewrite Hn, lookup_empty in Hno. discriminate Hno. }
  assert (Hv : match (AppendOperationEvidencePayload demo_evidence "hello" "w" 1 "w" (run demo_running demo0)).2 with
               | Ok e => TrimSpace (rm_ID (ev_Meta e)) == rm_ID (ev_Meta e) | Fail _ => false end = true)
    by (vm_compute; reflexivity).
  rewrite E in Hv. cbn [snd] in Hv. exact (bool_decide_eq_true_1 _ Hv).
Defined.

(** C8: nothing recorded is lost.  Over any sequence of steps the audit trail is
    only appended to, and every idempotency entry, evidence record, evidence
    payload and request payload stays exactly as it was recorded. *)
Theorem records_are_append_only owner s s' :
  reachable owner s -> rtc (step owner) s s' ->
  ms_audit s `prefix_of` ms_audit s' /\ ms_idempotency s ⊆ ms_idempotency s' /\
  ms_evidence s ⊆ ms_evidence s' /\ ms_evidencePayloads s ⊆ ms_evidencePayloads s' /\
  ms_operationRequestPayloads s ⊆ ms_operationRequestPayloads s'.
Proof.
  intros Hr Hs. destruct (steps_frame _ _ _ (reachable_inv _ _ Hr) Hs) as [_ _ Hi Ha He _ Hp Hq _].
  split; [done|]. split; [done|]. split; [apply He|]. split; [apply Hp|apply Hq].
Qed.

Lemma records_are_append_only_witness :
  ms_audit (run demo_queued demo0) `prefix_of` ms_audit (run demo_start (run demo_queued demo0)).
Proof.
  destruct (records_are_append_only false (run demo_queued demo0) (run demo_start (run demo_queued demo0)))
    as [Ha _].
  - apply demo_reachable. vm_compute. reflexivity.
  - eapply rtc_nsteps_2, run_steps. demo_calls.
  - exact Ha.
Defined.

(** ** Exclusive targets *)

(** an operation of the same kind on the same target that is not finished *)
Definition blocks (r : OperationRequest) (op : Operation) : Prop :=
  op_ProjectID op = rq_ProjectID r /\ op_Kind op = rq_Kind r /\ op_TargetRef op = rq_TargetRef r /\
  OperationBlocksExclusiveTargetMutation op = true.

(** Exclusive targets.  A new operation is created on an exclusive target only
    when no operation of that kind on that target is unfinished or failed with
    unknown outcome; when there is one (and the key is not a replay), the answer
    is such an operation and nothing is written. *)
Theorem exclusive_creation s r key actor rid mediaType payload s' out :
  CreateExclusiveOperationAwaitingApprovalWithPayload r key actor rid mediaType payload s = (s', Ok out) ->
  match out with
  | Created _ false => forall id op, ms_operations s !! id = Some op -> ~ blocks r op
  | Created op true => s' = s /\ exists id, ms_operations s !! id = Some op
  | Blocked b => s' = s /\ blocks r b /\ exists id, ms_operations s !! id = Some b
  end.
Proof.
  intros Hc. revert s' out Hc.
  assert (H : wp (CreateExclusiveOperationAwaitingApprovalWithPayload r key actor rid mediaType payload)
    (fun res s' => match res with Fail _ => True | Ok out => match out with
       | Created _ false => forall id op, ms_operations s !! id = Some op -> ~ blocks r op
       | Created op true => s' = s /\ exists id, ms_operations s !! id = Some op
       | Blocked b => s' = s /\ blocks r b /\ exists id, ms_operations s !! id = Some b end end) s).
  2: { intros s' out Hc. exact (wp_run _ _ _ _ _ H Hc). }
  unfold CreateExclusiveOperationAwaitingApprovalWithPayload. wp_go; try exact I.
  all: try (apply wp_bind; eapply wp_mono; [apply create_spec|]; intros [[op [|]]|e] s1 Hp; [| |exact I]).
  - (* blocked *)
    case_match; [discriminate|]. apply map_find_Some in Heqo as [Hk Hb]. norm_bool.
    split; [done|]. split; [done|eauto].
  - (* a replay *)
    destruct Hp as (-> & id & _ & Hop). wp_go; [exact I|]. eauto.
  - (* created: nothing blocked *)
    destruct (create_post_found _ _ _ _ _ Hp) as [Hf Hd].
    destruct Hp as (_ & _ & _ & _ & _ & Hnone & _). rewrite Hnone in Heqo.
    eapply plan_transitions; [done|done|done|]. unfold sealRequestPayload; unfold_puts. wp_go.
    intros id' op' Hop' (E1 & E2 & E3 & E4).
    rewrite map_find_None in Heqo. specialize (Heqo _ _ Hop'). cbv beta in Heqo.
    rewrite E1, E2, E3, E4, !bool_decide_eq_true_2 in Heqo by done. discriminate Heqo.
Qed.

Lemma exclusive_creation_witness :
  exists s1 op, CreateExclusiveOperationAwaitingApprovalWithPayload demo_request "k2" "alice" "r" "text/plain" "x"
    (run demo_running demo0) = (s1, Ok (Blocked op)) /\ s1 = run demo_running demo0 /\ blocks demo_request op.
Proof.
  assert (Hv : match (CreateExclusiveOperationAwaitingApprovalWithPayload demo_request "k2" "alice" "r"
                        "text/plain" "x" (run demo_running demo0)).2 with
               | Ok (Blocked _) => true | _ => false end = true) by (vm_compute; reflexivity).
  destruct (CreateExclusiveOperationAwaitingApprovalWithPayload demo_request "k2" "alice" "r" "text/plain" "x"
    (run demo_running demo0)) as [s1 [[op b|op]|e]] eqn:E; try discriminate Hv.
  exists s1, op. split; [reflexivity|]. apply exclusive_creation in E. destruct E as (E1 & E2 & _).
  split; assumption.
Defined.
