(* ===== verification/CompensationTheorems.v ===== *)
(** * Correctness of compensation

    Plans are canonical, rollback walks the completed steps backwards, and an
    operation is ROLLED_BACK only when nothing is left to compensate. *)
From S2P Require Import Prelude GoStrings Digest Model Store Operations Recovery Evidence Compensation.
From S2P Require Import OwnerOperations Lifecycle OperationSystem OperationRuns Demo Authority EngineTheorems Capabilities.

(** ** Plans *)

(** what the normalization loop accepts *)
Definition step_ok (step : CompensationPlanStep) : Prop :=
  ps_StepKey step <> "" /\ validCompensationStrategy (ps_Strategy step) = true /\
  (ps_Strategy step <> CompensationNone -> ps_Action step <> "") /\
  HasPrefix (ps_InputDigest step) sha256_prefix = true /\ len (ps_InputDigest step) = 71 /\
  1 <= ps_MaxAttempts step <= 10.

Lemma normalizePlanStep_ok i seen step step' :
  normalizePlanStep i seen step = Ok step' ->
  step_ok step' /\ ps_ForwardOrder step' = i + 1 /\ (ps_StepKey step' ∉ seen) /\
  ps_ForwardOrder step' = ps_ForwardOrder step.
Proof.
  unfold normalizePlanStep. intros H. repeat (case_match; [discriminate|]). simplify_eq. norm_bool.
  unfold step_ok. cbn in *. destruct (ps_MaxAttempts step == 0); cbn in *;
    (split; [|done]); repeat split; try done; try lia; auto.
  all: intros Hs; rewrite bool_decide_eq_false_2 in * by done; cbn in *; norm_bool; done.
Qed.

Lemma normalizePlanLoop_ok steps : forall i seen plan,
  normalizePlanLoop i seen steps = Ok plan ->
  Forall step_ok plan /\ (ps_ForwardOrder <$> plan) = seqZ (i + 1) (Z.of_nat (length steps)) /\
  (ps_ForwardOrder <$> plan) = (ps_ForwardOrder <$> steps) /\
  NoDup (ps_StepKey <$> plan) /\ Forall (fun step => ps_StepKey step ∉ seen) plan.
Proof.
  induction steps as [|step rest IH]; intros i seen plan; cbn [normalizePlanLoop].
  - intros [= <-]. cbn. repeat split; constructor.
  - destruct (normalizePlanStep i seen step) as [step'|e] eqn:E1; [|discriminate].
    destruct (normalizePlanLoop _ _ rest) as [rest'|e] eqn:E2; [|discriminate]. intros [= <-].
    apply normalizePlanStep_ok in E1 as (Hok & Ho & Hs & Ho').
    destruct (IH _ _ _ E2) as (Hr & Hseq & Heq & Hnd & Hns). cbn [length fmap list_fmap].
    split; [by constructor|]. split; [|split; [|split]].
    + rewrite seqZ_cons by lia. cbn. f_equal; [done|]. rewrite Hseq. f_equal; lia.
    + cbn. by rewrite Ho', Heq.
    + constructor; [|done]. intros Hin. apply list_elem_of_fmap in Hin as (x & Hx & Hin).
      rewrite Forall_forall in Hns. specialize (Hns _ Hin). apply Hns. rewrite <- Hx. by left.
    + constructor; [done|]. eapply Forall_impl; [exact Hns|]. intros x Hx Hin. apply Hx. by right.
Qed.

#[local] Instance order_le_total : Total order_le.
Proof. intros a b. unfold order_le. lia. Qed.
#[local] Instance order_le_trans : Transitive order_le.
Proof. intros a b c. unfold order_le. lia. Qed.

(** two sorted arrangements of the same steps agree when their orders are distinct *)
Lemma sorted_unique (l l' : list CompensationPlanStep) :
  l ≡ₚ l' -> NoDup (ps_ForwardOrder <$> l) -> StronglySorted order_le l -> StronglySorted order_le l' ->
  l = l'.
Proof.
  revert l'. induction l as [|a l IH]; intros [|b l'] Hp Hnd Hs Hs'.
  - done.
  - by apply Permutation_nil_l in Hp.
  - apply symmetry, Permutation_nil_l in Hp. done.
  - assert (a = b) as <-.
    { assert (Ha : a ∈ b :: l') by (rewrite <- Hp; left).
      assert (Hb : b ∈ a :: l) by (rewrite Hp; left).
      apply elem_of_cons in Ha as [->|Ha]; [done|].
      apply elem_of_cons in Hb as [->|Hb]; [done|].
      apply StronglySorted_inv in Hs as [_ Hs]. apply StronglySorted_inv in Hs' as [_ Hs'].
      rewrite Forall_forall in Hs, Hs'. specialize (Hs _ Hb). specialize (Hs' _ Ha).
      exfalso. apply NoDup_cons in Hnd as [Hnd _]. apply Hnd. apply list_elem_of_fmap. exists b.
      split; [|done]. unfold order_le in *. lia. }
    f_equal. apply Permutation_cons_inv in Hp. apply NoDup_cons in Hnd as [_ Hnd].
    apply StronglySorted_inv in Hs as [Hs _]. apply StronglySorted_inv in Hs' as [Hs' _]. by apply IH.
Qed.

(** Compensation plans are canonical.  A plan that is accepted numbers its
    steps 1, 2, ..., n without gaps, has distinct non-empty step keys and only
    valid steps; and the accepted plan does not depend on the order in which the
    client listed the steps, so neither does its digest (the unstable
    [sort.Slice] is harmless). *)
Theorem accepted_plans_are_canonical steps steps' plan :
  normalizedCompensationPlan steps = Ok plan -> steps ≡ₚ steps' ->
  (ps_ForwardOrder <$> plan) = seqZ 1 (Z.of_nat (length steps)) /\
  NoDup (ps_StepKey <$> plan) /\ Forall step_ok plan /\
  normalizedCompensationPlan steps' = Ok plan.
Proof.
  unfold normalizedCompensationPlan. intros H Hp. destruct steps as [|a l]; [discriminate|].
  destruct steps' as [|b l']; [by apply symmetry, Permutation_nil_l in Hp|].
  assert (E : merge_sort order_le (a :: l) = merge_sort order_le (b :: l')).
  { apply sorted_unique.
    - by rewrite !merge_sort_Permutation.
    - pose proof (normalizePlanLoop_ok _ _ _ _ H) as (_ & Hseq & Heq & _).
      rewrite <- Heq, Hseq. apply NoDup_seqZ.
    - apply (StronglySorted_merge_sort order_le).
    - apply (StronglySorted_merge_sort order_le). }
  rewrite <- E. pose proof (normalizePlanLoop_ok _ _ _ _ H) as (Hok & Hseq & _ & Hnd & _).
  rewrite (Permutation_length (merge_sort_Permutation order_le (a :: l))) in Hseq. done.
Qed.

Definition demo_step (key : string) (order : Z) (strategy : CompensationStrategy) : CompensationPlanStep :=
  mkCompensationPlanStep key order strategy "undo" demo_digest 2.
Definition demo_plan : list CompensationPlanStep :=
  [demo_step "b" 2 CompensationAutomaticRollback; demo_step "a" 1 CompensationAutomaticRollback].

Lemma accepted_plans_are_canonical_witness :
  normalizedCompensationPlan (rev demo_plan) = Ok (rev demo_plan).
Proof.
  apply (accepted_plans_are_canonical demo_plan (rev demo_plan) (rev demo_plan)).
  - vm_compute. reflexivity.
  - apply Permutation_rev.
Defined.

(** ** Rollback *)

(** Compensation runs backwards.  A claim that succeeds answers with the pending
    step of the greatest forward order, marked RUNNING under the caller's fencing
    token with one more attempt, within its budget. *)
Theorem rollback_claims_latest_step s s' id worker fence actor step op :
  ClaimNextOperationCompensationStep id worker fence actor s = (s', Ok (step, op)) ->
  exists old, latest_pending s id old /\ cs_State step = CompensationStepRunning /\
    cs_StepKey step = cs_StepKey old /\ cs_FenceToken step = fence /\
    cs_Attempt step = inc64 (cs_Attempt old) /\ cs_Attempt old < cs_MaxAttempts old /\
    op_State op = OperationRollingBack.
Proof.
  intros Hc. revert Hc. generalize (eq_refl (@Ok (OperationCompensationStep * Operation) (step, op))).
  intros E Hc. revert E. pattern (@Ok (OperationCompensationStep * Operation) (step, op)) at 1, s'.
  refine (wp_run _ _ _ _ _ _ Hc).
  unfold ClaimNextOperationCompensationStep; unfold_puts. wp_go; intros E; try discriminate E.
  injection E as <- <-. exists o. apply head_latest in Heql. norm_bool. split_and!; done.
Qed.

(** an operation with a two-step plan whose forward steps completed, failed and
    being rolled back by worker [v] *)
Definition demo_rollback : list Call :=
  [CCreateOperation demo_request "key" "alice" "req-1";
   CTransition demo_op 1 OperationPlanning "" "alice";
   CSetPlan demo_op 2 demo_plan "alice";
   CTransition demo_op 3 OperationQueued "" "alice";
   CClaim demo_op "w" demo_ttl 0;
   CStartAttempt demo_op 5 "w" 1 "w";
   CRecordForwardStep demo_op "a" 6 "w" 1 "w";
   CRecordForwardStep demo_op "b" 7 "w" 1 "w";
   CReportFailure demo_op 8 "w" 1 (mkOperationFailureReport OperationFailurePermanent "E1" "broken" 0) "w";
   CBeginCompensation demo_op 9 "alice";
   CClaim demo_op "v" demo_ttl 0].

Example demo_rollback_state :
  op_State <$> ms_operations (run demo_rollback demo0) !! demo_op = Some OperationRollingBack.
Proof. vm_compute. reflexivity. Qed.

Lemma rollback_claims_latest_step_witness :
  exists s1 step op, ClaimNextOperationCompensationStep demo_op "v" 2 "v" (run demo_rollback demo0) =
      (s1, Ok (step, op)) /\
    exists old, latest_pending (run demo_rollback demo0) demo_op old /\ cs_StepKey step = cs_StepKey old.
Proof.
  destruct (succeeds (ClaimNextOperationCompensationStep demo_op "v" 2 "v") (run demo_rollback demo0))
    as (s1 & [step op] & E); [vm_compute; reflexivity|].
  exists s1, step, op. split; [exact E|]. apply rollback_claims_latest_step in E.
  destruct E as (old & Hl & _ & Hk & _). exists old. split; assumption.
Defined.

(** ** ROLLED_BACK means compensated *)

Lemma nsteps_not_rolled_back caps n v v' :
  caps CapCompensate = false -> nsteps (lstep caps) n v v' ->
  lc_state v <> OperationRolledBack -> lc_state v' <> OperationRolledBack.
Proof.
  intros Hc. induction 1 as [|n v1 v2 v3 H12 _ IH]; [done|]. intros Hn. apply IH.
  destruct H12; cbn in *; try congruence; try done.
  all: try (by destruct from, to). all: by destruct H0 as [->| ->].
Qed.

(** the handler leaves an operation ROLLED_BACK only when everything is settled *)
Definition rolls_back_settled (s : MemoryStore) (id : string) (s' : MemoryStore) : Prop :=
  ms_operations s' = ms_operations s \/
  exists op', ms_operations s' = <[id := op']> (ms_operations s) /\
    (op_State op' = OperationRolledBack -> all_settled s' id).

Section settled.
Context (s : MemoryStore).
Local Abbreviation settles id m := (wp m (fun _ s' => rolls_back_settled s id s') s).
Ltac settling := first [by left | right; eexists; split; [reflexivity|]].

Lemma begin_settles id e actor : settles id (BeginOperationCompensation id e actor).
Proof.
  unfold BeginOperationCompensation; unfold_puts. wp_go; settling.
  destruct (hasCompensatableForwardLocked s id) eqn:Hc; cbn; [done|]. intros _ k c Hk Hcmp.
  unfold hasCompensatableForwardLocked in Hc. rewrite map_any_false in Hc.
  specialize (Hc k c Hk). unfold compensatable in Hcmp. cbv beta in Hc. congruence.
Qed.

Lemma claim_next_settles id w f actor : settles id (ClaimNextOperationCompensationStep id w f actor).
Proof.
  unfold ClaimNextOperationCompensationStep; unfold_puts. wp_go; settling; cbn.
  - intros _ k c Hk Hc. rewrite map_all_true in H3. specialize (H3 k c Hk). cbn in H3. by rewrite Hc in H3.
  - done.
  - norm_bool. intros E. rewrite H0 in E. discriminate E.
Qed.

Lemma complete_step_settles id k w f d actor :
  settles id (CompleteOperationCompensationStep id k w f d actor).
Proof.
  unfold CompleteOperationCompensationStep; unfold_puts. wp_go; try settling; norm_bool.
  all: match goal with |- context [negb (map_any ?P ?m)] => destruct (map_any P m) eqn:Hrem end; cbn in *;
    try (intros E; congruence).
  all: intros _ k' c Hk' Hc; rewrite map_any_false in Hrem; specialize (Hrem k' c Hk'); cbn in Hrem;
    rewrite Hc in Hrem; by apply negb_false_iff in Hrem.
Qed.

Lemma step_failure_settles id k w f failure actor :
  settles id (ReportOperationCompensationStepFailure id k w f failure actor).
Proof.
  unfold ReportOperationCompensationStepFailure; unfold_puts. wp_go; settling. norm_bool.
  destruct (cf_Retryable failure && _); cbn; intros E; congruence.
Qed.
End settled.

(** C9: ROLLED_BACK means compensated.  Whatever call makes an operation
    ROLLED_BACK, in the store it leaves every forward-completed step of that
    operation that has a compensation is settled. *)
Theorem rolled_back_means_compensated owner s c id op op' :
  reachable owner s -> ms_operations s !! id = Some op -> op_State op <> OperationRolledBack ->
  ms_operations (exec c s).1 !! id = Some op' -> op_State op' = OperationRolledBack ->
  all_settled (exec c s).1 id.
Proof.
  intros Hr Hop Hn Hop' Hs. pose proof (exec_operation _ _ _ _ _ _ Hr Hop Hop') as Hadv.
  assert (Hx : forall id0 s', rolls_back_settled s id0 s' -> ms_operations s' !! id = Some op' -> all_settled s' id).
  { intros id0 s' [E|(op1 & E & Hall)] Hl; rewrite E in Hl; [congruence|].
    apply lookup_insert_Some in Hl as [[-> ->]|[_ Hl]]; [by apply Hall|congruence]. }
  destruct (caps_of c CapCompensate) eqn:Hc.
  - destruct c; try discriminate Hc.
    + exact (Hx _ _ (begin_settles s id0 expected actor) Hop').
    + exact (Hx _ _ (claim_next_settles s id0 worker fence actor) Hop').
    + exact (Hx _ _ (complete_step_settles s id0 stepKey worker fence digest actor) Hop').
    + exact (Hx _ _ (step_failure_settles s id0 stepKey worker fence failure actor) Hop').
  - apply advance_nsteps in Hadv as (_ & n & _ & Hl & _).
    by pose proof (nsteps_not_rolled_back _ _ _ _ Hc Hl Hn).
Qed.

(** failed before any forward step completed *)
Definition demo_failed : list Call :=
  [CCreateOperation demo_request "key" "alice" "req-1";
   CTransition demo_op 1 OperationPlanning "" "alice";
   CSetPlan demo_op 2 demo_plan "alice";
   CTransition demo_op 3 OperationQueued "" "alice";
   CClaim demo_op "w" demo_ttl 0;
   CStartAttempt demo_op 5 "w" 1 "w";
   CReportFailure demo_op 6 "w" 1 (mkOperationFailureReport OperationFailurePermanent "E1" "broken" 0) "w"].

Lemma rolled_back_means_compensated_witness :
  all_settled (exec (CBeginCompensation demo_op 7 "alice") (run demo_failed demo0)).1 demo_op.
Proof.
  destruct (found op_State (ms_operations (run demo_failed demo0) !! demo_op) (OperationFailed)) as (op & E & Hst); [vm_compute; reflexivity|].
  destruct (found op_State (ms_operations (exec (CBeginCompensation demo_op 7 "alice") (run demo_failed demo0)).1 !! demo_op) (OperationRolledBack)) as (op' & E' & Hst'); [vm_compute; reflexivity|].
  apply (rolled_back_means_compensated false (run demo_failed demo0) _ demo_op op op');
    [apply demo_reachable; vm_compute; reflexivity|exact E|rewrite Hst; discriminate|exact E'|exact Hst'].
Defined.
