(* ===== verification/Rollback.v ===== *)
(** * A rollback that is worked on ends

    A worker that holds the lease of an operation in ROLLING_BACK undoes its
    steps one after the other: it claims the next compensation step, seals the
    evidence of what it did and completes the step, until the operation is
    ROLLED_BACK.  [unwind] is that loop over the handlers of [compensation.go]
    and [operation_trace.go]; its fuel is one more than the number of steps left to undo. *)
From Stdlib Require Import Ascii.
From S2P Require Import Prelude GoStrings Digest Model Calendar Store Operations Recovery Evidence Compensation.
From S2P Require Import OwnerOperations Lifecycle OperationSystem OperationRuns Demo EngineTheorems CompensationTheorems.

(** ** The worker *)

(** the trace a worker seals for a step it has undone *)
Definition undo_trace (id : string) (payload : Bytes) (step : OperationCompensationStep) : OperationStepTraceInput :=
  mkOperationStepTraceInput id OperationStepPhaseCompensation (cs_StepKey step) "undo" OperationStepLogInfo
    "compensation.applied" "step undone" "compensation" "application/json" "" payload.

(** claim the next step, seal its evidence, complete it; again until the rollback is
    finished.  A refusal of one of the three calls ends the loop. *)
Fixpoint unwind (id worker : string) (fence : Z) (payload : Bytes) (fuel : nat) : Store Operation :=
  match fuel with
  | O => raise ErrNotClaimable
  | S fuel =>
      let! (step, _) := ClaimNextOperationCompensationStep id worker fence worker in
      let! _ := AppendOperationStepTrace (undo_trace id payload step) worker fence worker in
      let! (_, op) := CompleteOperationCompensationStep id (cs_StepKey step) worker fence
                        (operationStepPayloadDigest payload) worker in
      if op_State op == OperationRolledBack then ret op else unwind id worker fence payload fuel
  end.

(** ** What a rollback needs to make progress *)

Definition unsettled (id : string) (c : OperationCompensationStep) : bool :=
  compensatable id c && negb (settled c).

(** the lease outlives the next [reads] readings of the clock *)
Definition lease_lasts (s : MemoryStore) (op : Operation) (reads : nat) : Prop :=
  exists t, op_LeaseExpiresAt op = Some t /\
    forall n, (ms_ticks s <= n < ms_ticks s + reads)%nat -> truncMicro (ms_now s n) < t.

(** clock readings of one step: claim, trace, completion *)
Definition reads_per_step : nat := 12.

Fixpoint colon_free (s : string) : bool :=
  match s with
  | EmptyString => true
  | String c s => negb (Ascii.eqb c ":"%char) && colon_free s
  end.

Definition trace_key (id : string) (c : OperationCompensationStep) (attempt : Z) : string :=
  operationStepTraceMapKey id OperationStepPhaseCompensation (cs_StepKey c) attempt "undo".

(** the key a step is stored under, and one its traces can be told apart by *)
Record plain_step (k id : string) (c : OperationCompensationStep) : Prop := {
  plain_at : k = compensationKey id (cs_StepKey c);
  plain_key : cs_StepKey c <> "";
  plain_trim : TrimSpace (cs_StepKey c) = cs_StepKey c;
  plain_colon : colon_free (cs_StepKey c) = true
}.

(** a step that can be claimed: it is waiting, has an automatic compensation
    and an attempt left, for which nothing was sealed before *)
Record awaiting (s : MemoryStore) (id : string) (c : OperationCompensationStep) : Prop := {
  aw_state : cs_State c = CompensationStepPending;
  aw_manual : cs_Strategy c <> CompensationManualRecovery;
  aw_irreversible : cs_Strategy c <> CompensationIrreversible;
  aw_attempt : 0 <= cs_Attempt c < cs_MaxAttempts c;
  aw_max : cs_MaxAttempts c <= int64_max;
  aw_fresh : ms_stepTraces s !! trace_key id c (cs_Attempt c + 1) = None
}.

(** a step the worker has claimed *)
Record claimed (s : MemoryStore) (id : string) (fence : Z) (c : OperationCompensationStep) : Prop := {
  cl_stored : ms_compensationSteps s !! compensationKey id (cs_StepKey c) = Some c;
  cl_plain : plain_step (compensationKey id (cs_StepKey c)) id c;
  cl_ours : compensatable id c = true;
  cl_state : cs_State c = CompensationStepRunning;
  cl_fence : cs_FenceToken c = fence;
  cl_attempt : 1 <= cs_Attempt c
}.

(** the steps left, apart from the one stored under [busy] *)
Definition left_over (s : MemoryStore) (id : string) (busy : option string) : gmap string OperationCompensationStep :=
  filter (fun kc => unsettled id kc.2 = true /\ Some kc.1 <> busy) (ms_compensationSteps s).

Record rolling (s : MemoryStore) (id worker : string) (fence : Z) (busy : option string) (n reads : nat) : Prop := {
  ro_operation : exists op, ms_operations s !! id = Some op /\ op_State op = OperationRollingBack /\
    op_ID op = id /\ op_LeaseOwner op = worker /\ op_FenceToken op = fence /\ lease_lasts s op reads;
  ro_left : size (left_over s id busy) = n;
  ro_steps : forall k c, left_over s id busy !! k = Some c -> plain_step k id c /\ awaiting s id c
}.

(** ** The steps left *)

Lemma left_over_Some s id b k c :
  left_over s id b !! k = Some c <-> ms_compensationSteps s !! k = Some c /\ unsettled id c = true /\ Some k <> b.
Proof. unfold left_over. rewrite map_lookup_filter_Some. naive_solver. Qed.

(** claiming the step at [k] takes it out of the steps left *)
Lemma left_over_claim s s' id k c' :
  ms_compensationSteps s' = <[k := c']> (ms_compensationSteps s) ->
  left_over s' id (Some k) = delete k (left_over s id None).
Proof.
  intros E. apply map_eq. intros j. apply option_eq. intros c. rewrite lookup_delete_Some, !left_over_Some, E.
  destruct (decide (k = j)) as [->|Hj].
  - split; [by intros (_ & _ & H)|by intros [H _]].
  - rewrite lookup_insert_ne by done. split; [intros (H1 & H2 & _); done|].
    intros (_ & H1 & H2 & _). split_and!; [done|done|congruence].
Qed.

(** settling the claimed step leaves the others *)
Lemma left_over_settle s s' id k c' :
  ms_compensationSteps s' = <[k := c']> (ms_compensationSteps s) -> unsettled id c' = false ->
  left_over s' id None = left_over s id (Some k).
Proof.
  intros E Hc. apply map_eq. intros j. apply option_eq. intros c. rewrite !left_over_Some, E.
  destruct (decide (k = j)) as [->|Hj].
  - rewrite lookup_insert_eq. split; [intros (H1 & H2 & _); congruence|by intros (_ & _ & H)].
  - rewrite lookup_insert_ne by done. split; [intros (H1 & H2 & _); split_and!; [done|done|congruence]|].
    intros (H1 & H2 & _). done.
Qed.

Lemma left_over_same s s' id b :
  ms_compensationSteps s' = ms_compensationSteps s -> left_over s' id b = left_over s id b.
Proof. intros E. unfold left_over. by rewrite E. Qed.

Lemma left_over_empty s id : left_over s id None = ∅ -> all_settled s id.
Proof.
  intros E k c Hk Hc. destruct (settled c) eqn:Hs; [done|].
  assert (Hl : left_over s id None !! k = Some c).
  { apply left_over_Some. split_and!; [done| |done]. unfold unsettled. by rewrite Hc, Hs. }
  by rewrite E in Hl.
Qed.

(** ** Trace keys *)

Lemma colon_split a b x y :
  colon_free a = true -> colon_free b = true -> a +:+ ":" +:+ x = b +:+ ":" +:+ y -> a = b.
Proof.
  revert b. induction a as [|c a IH]; intros [|d b]; cbn; intros Ha Hb E; norm_bool; try done.
  - injection E as E _. by rewrite <- E in *.
  - injection E as E _. by rewrite E in *.
  - injection E as -> E. f_equal. by apply IH.
Qed.

Lemma trace_key_inj id c d a b :
  colon_free (cs_StepKey c) = true -> colon_free (cs_StepKey d) = true ->
  trace_key id c a = trace_key id d b -> cs_StepKey c = cs_StepKey d.
Proof.
  intros Hc Hd E. unfold trace_key, operationStepTraceMapKey in E.
  do 4 apply (inj (String.append _)) in E. by apply colon_split in E.
Qed.

(** ** One round *)

Section round.
Context (id worker : string) (fence : Z) (payload : Bytes).

Lemma lease_tick s s' op op' reads k :
  lease_lasts s op (k + reads) -> op_LeaseExpiresAt op' = op_LeaseExpiresAt op ->
  ms_now s' = ms_now s -> ms_ticks s' = (k + ms_ticks s)%nat -> lease_lasts s' op' reads.
Proof.
  intros (t & Ht & Hl) E En Ek. exists t. split; [congruence|]. intros n Hn. rewrite En. apply Hl. lia.
Qed.

(** the next readings of the clock find the lease active *)
Lemma lease_still_active s s' op reads k :
  lease_lasts s op reads -> ms_now s' = ms_now s -> ms_ticks s' = (k + ms_ticks s)%nat -> (k < reads)%nat ->
  after (op_LeaseExpiresAt op) (clock s') = true.
Proof. intros (t & -> & Hl) En Et Hk. unfold clock. rewrite En, Et. apply Z.ltb_lt, Hl. lia. Qed.
Ltac leased Hl k := apply negb_false_iff; eapply (lease_still_active _ _ _ _ k Hl); [reflexivity|reflexivity|lia].

Lemma unsettled_pending c : compensatable id c = true -> cs_State c = CompensationStepPending -> unsettled id c = true.
Proof. intros Hc Hs. unfold unsettled, settled. by rewrite Hc, Hs. Qed.

(** the claim finds a step to work on among the steps left *)
Lemma next_step s n reads :
  rolling s id worker fence None (S n) reads ->
  exists o l, merge_sort later (map_select (fun _ step => compensatable id step
      && (cs_State step == CompensationStepPending)) (ms_compensationSteps s)) = o :: l /\
    left_over s id None !! compensationKey id (cs_StepKey o) = Some o.
Proof.
  intros [_ Hn Hs]. destruct (merge_sort _ _) as [|o l] eqn:E.
  - exfalso. destruct (map_choose (left_over s id None)) as (k & c & Hk).
    { intros H0. rewrite H0, map_size_empty in Hn. discriminate. }
    destruct (Hs k c Hk) as [_ Ha]. apply left_over_Some in Hk as (Hk & Hu & _). unfold unsettled in Hu. norm_bool.
    assert (Hin : c ∈ merge_sort later (map_select (fun _ step => compensatable id step
      && (cs_State step == CompensationStepPending)) (ms_compensationSteps s))).
    { rewrite (merge_sort_Permutation later). apply elem_of_map_select. exists k. split; [done|].
      by rewrite H, (aw_state _ _ _ Ha). }
    rewrite E in Hin. by apply elem_of_nil in Hin.
  - exists o, l. split; [done|]. apply head_latest in E as ((k & Hk) & Hc & Hp & _).
    assert (Hl : left_over s id None !! k = Some o)
      by (apply left_over_Some; split_and!; [done|by apply unsettled_pending|done]).
    destruct (Hs k o Hl) as [Hpl _]. by rewrite <- (plain_at _ _ _ Hpl).
Qed.

Lemma rolling_claims s n reads :
  rolling s id worker fence None (S n) (4 + reads) ->
  wp (ClaimNextOperationCompensationStep id worker fence worker) (fun r s' =>
    exists step op, r = Ok (step, op) /\ claimed s' id fence step /\
      ms_stepTraces s' !! trace_key id step (cs_Attempt step) = None /\
      rolling s' id worker fence (Some (compensationKey id (cs_StepKey step))) n reads) s.
Proof.
  intros Hr. destruct (next_step _ _ _ Hr) as (o & l & El & Ho).
  destruct Hr as [(op & Hop & Hst & Hid & Hw & Hf & Hl) Hn Hs]. destruct (Hs _ _ Ho) as [Hpl Haw].
  pose proof (proj1 (left_over_Some _ _ _ _ _) Ho) as (Hstored & Hu & _). unfold unsettled in Hu.
  assert (Hatt : inc64 (cs_Attempt o) = cs_Attempt o + 1).
  { apply (inc64_lt _ (cs_MaxAttempts o)); destruct Haw; unfold int64_min; lia. }
  unfold ClaimNextOperationCompensationStep; unfold_puts.
  wp_step. apply (wp_bind_found op); [done|]. wp_pass ltac:(by rewrite Hst).
  wp_pass ltac:(destruct Hl as (t & -> & _); rewrite Hw, Hf; decided).
  wp_step. wp_pass ltac:(leased Hl 0%nat).
  cbv zeta. rewrite El. wp_step. apply wp_if; intros Hm.
  { destruct Haw. apply orb_true_iff in Hm as [Hm|Hm]; norm_bool; congruence. }
  wp_pass ltac:(destruct Haw; apply Z.leb_gt; lia). wp_go.
  eexists _, _. split; [reflexivity|]. split; [|split].
  - split; cbn; [by rewrite lookup_insert_eq|by destruct Hpl|by norm_bool|done|done|destruct Haw; lia].
  - cbn. rewrite Hatt. apply Haw.
  - split.
    + exists (op <| op_CompensationCursor := cs_ForwardOrder o |> <| op_Meta := bump (op_Meta op) (clock (tick s)) |>).
      cbn. rewrite lookup_insert_eq. split_and!; try done. by apply (lease_tick s _ op _ reads 4 Hl).
    + cbn. erewrite left_over_claim by reflexivity. rewrite map_size_delete_Some by eauto. lia.
    + intros k c Hk. erewrite left_over_claim in Hk by reflexivity. apply lookup_delete_Some in Hk as [_ Hk].
      destruct (Hs k c Hk) as [Hp [? ? ? ? ? ?]]. by split.
Qed.

Lemma rolling_finishes s reads :
  rolling s id worker fence None 0 (4 + reads) ->
  wp (ClaimNextOperationCompensationStep id worker fence worker) (fun r s' =>
    exists op, r = Fail ErrNotFound /\ op_State op = OperationRolledBack /\
      ms_operations s' !! id = Some op /\ all_settled s' id) s.
Proof.
  intros [(op & Hop & Hst & Hid & Hw & Hf & Hl) Hn Hs]. apply map_size_empty_inv in Hn.
  pose proof (left_over_empty _ _ Hn) as Hall.
  unfold ClaimNextOperationCompensationStep; unfold_puts.
  wp_step. apply (wp_bind_found op); [done|]. wp_pass ltac:(by rewrite Hst).
  wp_pass ltac:(destruct Hl as (t & -> & _); rewrite Hw, Hf; decided).
  wp_step. wp_pass ltac:(leased Hl 0%nat). cbv zeta.
  destruct (merge_sort _ _) as [|o l] eqn:E.
  - rewrite (proj2 (map_all_true _ _)).
    + wp_go. refine (ex_intro _ _ (conj eq_refl (conj _ (conj (lookup_insert_eq _ _ _) _)))); done.
    + intros k c Hk. destruct (compensatable id c) eqn:Hc; [|done]. cbn. by apply (Hall k).
  - exfalso. apply head_latest in E as ((k & Hk) & Hc & Hp & _). specialize (Hall k o Hk Hc).
    unfold settled in Hall. by rewrite Hp in Hall.
Qed.

Hypothesis Hid : TrimSpace id = id /\ id <> "".
Hypothesis Hworker : TrimSpace worker = worker /\ worker <> "".
Hypothesis Hfence : 0 < fence.
Hypothesis Hpayload : 0 < len payload <= maxOperationStepTracePayloadBytes.

(** evidence of the claimed step is on file *)
Definition evidenced (s : MemoryStore) (step : OperationCompensationStep) : Prop :=
  hasSealedStepEvidenceLocked s id OperationStepPhaseCompensation (cs_StepKey step) (cs_Attempt step)
    (operationStepPayloadDigest payload) = true.

Lemma undo_trace_normal step :
  plain_step (compensationKey id (cs_StepKey step)) id step ->
  normalizeOperationStepTraceInput (undo_trace id payload step) = Ok (undo_trace id payload step).
Proof.
  intros [_ Hk Ht _]. destruct Hid as [Hti Hni]. unfold normalizeOperationStepTraceInput, undo_trace. cbn [ti_OperationID ti_StepKey ti_TraceKey ti_Phase ti_Level ti_EventType ti_Message ti_EvidenceKind ti_MediaType ti_Location ti_Payload].
  rewrite Hti, Ht, !(bool_decide_eq_false_2 (_ = "")) by done.
  replace (maxOperationStepTracePayloadBytes <? len payload) with false by (symmetry; apply Z.ltb_ge; lia).
  rewrite (bool_decide_eq_false_2 (len payload = 0)) by lia. reflexivity.
Qed.

Lemma undo_trace_allowed s step n reads :
  rolling s id worker fence (Some (compensationKey id (cs_StepKey step))) n (S reads) ->
  claimed s id fence step ->
  wp (validateOperationStepTraceLocked (undo_trace id payload step) worker fence) (fun r s' =>
    s' = tick s /\ exists op, r = Ok (op, cs_Attempt step)) s.
Proof.
  intros [(op & Hop & Hst & Ho & Hw & Hf & Hl) _ _] [Hc Hpl Hours Hcs Hcf Hca].
  destruct Hworker as [Htw Hnw]. unfold validateOperationStepTraceLocked, undo_trace. cbn [ti_OperationID ti_Phase ti_StepKey].
  wp_step. apply (wp_bind_found op); [done|].
  wp_pass ltac:(rewrite Htw, Hw, Hf; destruct Hl as (t & -> & _);
    replace (fence <=? 0) with false by (symmetry; apply Z.leb_gt; lia); decided).
  wp_step. wp_pass ltac:(leased Hl 0%nat). cbn [bool_decide decide]. 
  wp_pass ltac:(by rewrite Hst).
  apply (wp_bind_found step); [by rewrite Ho|].
  wp_pass ltac:(rewrite Hcs, Hcf; replace (cs_Attempt step <? 1) with false by (symmetry; apply Z.ltb_ge; lia); decided).
  wp_step. split; [done|]. eauto.
Qed.

Lemma rolling_seals s step n reads :
  rolling s id worker fence (Some (compensationKey id (cs_StepKey step))) n (4 + reads) ->
  claimed s id fence step -> ms_stepTraces s !! trace_key id step (cs_Attempt step) = None ->
  wp (AppendOperationStepTrace (undo_trace id payload step) worker fence worker) (fun r s' =>
    exists out, r = Ok out /\ claimed s' id fence step /\ evidenced s' step /\
      rolling s' id worker fence (Some (compensationKey id (cs_StepKey step))) n reads) s.
Proof.
  intros Hr Hcl Hfr. pose proof (undo_trace_allowed _ _ _ _ Hr Hcl) as Hv.
  destruct Hr as [(op & Hop & Hst & Ho & Hw & Hf & Hl) Hn Hs]. destruct Hcl as [Hc Hpl Hours Hcs Hcf Hca].
  unfold AppendOperationStepTrace; unfold_puts.
  apply (wp_bind_lift_ok (undo_trace id payload step)); [by apply undo_trace_normal|].
  rewrite (proj1 Hworker).
  apply wp_bind. eapply wp_mono; [exact Hv|]. intros r s1 (-> & op1 & ->). cbn beta iota.
  wp_step. cbv zeta. change (ms_stepTraces (tick s)) with (ms_stepTraces s). 
  change (operationStepTraceMapKey _ _ _ _ _) with (trace_key id step (cs_Attempt step)). rewrite Hfr.
  wp_go. eexists. split; [reflexivity|]. split; [by split|split].
  - unfold evidenced, hasSealedStepEvidenceLocked. apply map_any_true. eexists _, _. split; [cbn; apply lookup_insert_eq|].
    unfold payloadIntact. cbn. rewrite lookup_insert_eq, !bool_decide_eq_true_2 by done. done.
  - split; [|cbn; by erewrite left_over_same by reflexivity|].
    + exists op. split_and!; try done. by apply (lease_tick s _ op _ reads 4 Hl).
    + intros k c Hk. erewrite left_over_same in Hk by reflexivity. destruct (Hs k c Hk) as [Hp [? ? ? ? ? ?]].
      split; [done|]. split; try done. cbn. rewrite lookup_insert_ne; [done|].
      intros E. apply trace_key_inj in E; [|by destruct Hpl|by destruct Hp].
      apply left_over_Some in Hk as (_ & _ & Hne). apply Hne. by rewrite (plain_at _ _ _ Hp), E.
Qed.

Lemma rolling_completes s step n reads :
  rolling s id worker fence (Some (compensationKey id (cs_StepKey step))) n (4 + reads) ->
  claimed s id fence step -> evidenced s step ->
  wp (CompleteOperationCompensationStep id (cs_StepKey step) worker fence (operationStepPayloadDigest payload) worker)
    (fun r s' => exists step' op, r = Ok (step', op) /\
      ((op_State op = OperationRolledBack /\ ms_operations s' !! id = Some op /\ all_settled s' id) \/
       (op_State op = OperationRollingBack /\ n <> 0%nat /\ rolling s' id worker fence None n reads))) s.
Proof.
  intros [(op & Hop & Hst & Ho & Hw & Hf & Hl) Hn Hs] [Hc Hpl Hours Hcs Hcf Hca] He.
  unfold CompleteOperationCompensationStep; unfold_puts.
  wp_step. apply (wp_bind_found op); [done|]. wp_pass ltac:(by rewrite Hst).
  wp_step. wp_pass ltac:(unfold OperationLeaseActive; destruct Hworker as [Htw Hnw];
    rewrite Hw, Hf, Htw, (lease_still_active s _ _ _ 0 Hl) by (reflexivity || lia);
    replace (0 <? fence) with true by (symmetry; apply Z.ltb_lt; lia); decided).
  destruct Hpl as [Hp1 Hp2 Hp3 Hp4]. rewrite Hp3. cbv zeta. apply (wp_bind_found step); [done|].
  wp_pass ltac:(rewrite Hcs, Hcf; decided).
  unfold operationStepPayloadDigest. rewrite sha256_trimmed.
  wp_pass ltac:(rewrite sha256_prefixed, sha256_length; decided).
  wp_pass ltac:(unfold evidenced, operationStepPayloadDigest in He; by rewrite He).
  wp_step. wp_step. wp_step. cbv beta.
  match goal with |- context [negb (map_any ?P ?m)] => destruct (map_any P m) eqn:Hrem end; cbn [negb] in *.
  - wp_go; [norm_bool; cbn in *; congruence|]. eexists _, _. split; [reflexivity|]. right. split; [done|]. split; [|split].
    + intros ->. apply map_size_empty_inv in Hn. apply map_any_true in Hrem as (k & c & Hk & Hb). cbn in Hk.
      assert (Hlk : left_over s id (Some (compensationKey id (cs_StepKey step))) !! k = Some c).
      { apply left_over_Some. split; [|split].
        - apply lookup_insert_Some in Hk as [[<- <-]|[_ Hk]]; [|done].
          unfold settled in Hb. cbn in Hb. by rewrite andb_false_r in Hb.
        - done.
        - intros [= ->]. rewrite lookup_insert_eq in Hk. injection Hk as <-.
          unfold settled in Hb. cbn in Hb. by rewrite andb_false_r in Hb. }
      by rewrite Hn in Hlk.
    + exists (op <| op_CompensationFailureStep := "" |> <| op_Meta := bump (op_Meta op) (clock (tick s)) |>).
      cbn. rewrite lookup_insert_eq. split_and!; try done. by apply (lease_tick s _ op _ reads 4 Hl).
    + cbn. by erewrite left_over_settle by (reflexivity || (unfold unsettled, settled; cbn; apply andb_false_r)).
    + intros k c Hk. erewrite left_over_settle in Hk by (reflexivity || (unfold unsettled, settled; cbn; apply andb_false_r)).
      destruct (Hs k c Hk) as [Hp [? ? ? ? ? ?]]. by split.
  - wp_go; [|norm_bool; cbn in *; congruence]. eexists _, _. split; [reflexivity|]. left. cbn. rewrite lookup_insert_eq.
    split_and!; [done|done|]. intros k c Hk Hcc. rewrite map_any_false in Hrem. specialize (Hrem k c Hk). cbn in Hrem.
    rewrite Hcc in Hrem. by apply negb_false_iff in Hrem.
Qed.

(** the worker is told with its last completion; when no step was left to undo, the
    claim that finds that out refuses *)
Definition rolled_back (n : nat) (op : Operation) : result Operation :=
  match n with O => Fail ErrNotFound | S _ => Ok op end.

Lemma unwind_ends n s :
  rolling s id worker fence None n (reads_per_step * n + 4) ->
  wp (unwind id worker fence payload (S n)) (fun r s' =>
    exists op, r = rolled_back n op /\ op_State op = OperationRolledBack /\
      ms_operations s' !! id = Some op /\ all_settled s' id) s.
Proof.
  revert s. induction n as [|n IH]; intros s Hr; unfold unwind; fold unwind; apply wp_bind.
  - eapply wp_mono; [exact (rolling_finishes s 0 Hr)|]. intros r s1 (op & -> & H). exists op. by split.
  - replace (reads_per_step * S n + 4)%nat with (4 + (4 + (4 + (reads_per_step * n + 4))))%nat in Hr
      by (unfold reads_per_step; lia).
    eapply wp_mono; [exact (rolling_claims _ _ _ Hr)|]. intros r s1 (step & op & -> & Hc & Hf & Hr1). cbn beta iota.
    apply wp_bind. eapply wp_mono; [exact (rolling_seals _ _ _ _ Hr1 Hc Hf)|].
    intros r s2 (out & -> & Hc2 & He & Hr2). cbn beta iota.
    apply wp_bind. eapply wp_mono; [exact (rolling_completes _ _ _ _ Hr2 Hc2 He)|].
    intros r s3 (step' & op' & -> & [(Hs & Hop & Hall)|(Hs & Hn0 & Hr3)]); cbn beta iota; rewrite Hs; cbn [bool_decide decide].
    + exists op'. done.
    + destruct n as [|n]; [done|]. exact (IH s3 Hr3).
Qed.
End round.

(** C10: a rollback that is worked on ends.  Take an operation in ROLLING_BACK whose
    lease a worker holds, under a positive fencing token, for the next [12 * n + 4]
    readings of the clock, with [n] steps left to undo: each waiting, automatically
    compensable, with an attempt left for which no trace is sealed, and stored under a
    step key without blanks around it or colons.  The identifiers of operation and
    worker are trimmed and not empty, and what the worker seals has 1 byte to 1 MiB.
    Then the worker that keeps claiming the next step, sealing its evidence and
    completing it leaves the operation ROLLED_BACK with every compensation step
    settled after at most [n] rounds, none of whose calls is refused.  When no step
    is left to begin with, the claim that rolls the operation back answers
    ErrNotFound. *)
Theorem rollback_runs_to_completion id worker fence payload n s :
  TrimSpace id = id /\ id <> "" -> TrimSpace worker = worker /\ worker <> "" -> 0 < fence ->
  0 < len payload <= maxOperationStepTracePayloadBytes ->
  rolling s id worker fence None n (reads_per_step * n + 4) ->
  exists s' op, unwind id worker fence payload (S n) s = (s', rolled_back n op) /\
    op_State op = OperationRolledBack /\ ms_operations s' !! id = Some op /\ all_settled s' id.
Proof.
  intros Hi Hw Hf Hp Hr. pose proof (unwind_ends id worker fence payload Hi Hw Hf Hp n s Hr) as H.
  unfold wp in H. destruct (unwind _ _ _ _ _ s) as [s' r]. cbn in H. destruct H as (op & -> & H). eauto.
Qed.

(** the conditions of [plain_step] and [awaiting], decided *)
Definition ready_check (s : MemoryStore) (id k : string) (c : OperationCompensationStep) : bool :=
  (k == compensationKey id (cs_StepKey c)) && (cs_StepKey c != "") && (TrimSpace (cs_StepKey c) == cs_StepKey c)
  && colon_free (cs_StepKey c) && (cs_State c == CompensationStepPending)
  && (cs_Strategy c != CompensationManualRecovery) && (cs_Strategy c != CompensationIrreversible)
  && (0 <=? cs_Attempt c) && (cs_Attempt c <? cs_MaxAttempts c) && (cs_MaxAttempts c <=? int64_max)
  && (ms_stepTraces s !! trace_key id c (cs_Attempt c + 1) == None).
Lemma ready_checked s id k c : ready_check s id k c = true -> plain_step k id c /\ awaiting s id c.
Proof. unfold ready_check. intros H. norm_bool. split; split; done. Qed.

Definition demo_rolling : MemoryStore := run demo_rollback demo0.

Lemma demo_is_rolling : rolling demo_rolling demo_op "v" 2 None 2 28.
Proof.
  split.
  - destruct (found (fun op => (op_State op, op_ID op, op_LeaseOwner op, op_FenceToken op, op_LeaseExpiresAt op))
      (ms_operations demo_rolling !! demo_op)
      (OperationRollingBack, demo_op, "v", 2, Some demo_ttl)) as (op & E & H); [vm_compute; reflexivity|].
    exists op. injection H as H1 H2 H3 H4 H5. split_and!; try assumption. eexists. split; [exact H5|].
    intros n Hn. assert (Et : ms_ticks demo_rolling = 36%nat) by (vm_compute; reflexivity). rewrite Et in Hn.
    assert (En : ms_now demo_rolling = demo_now) by (vm_compute; reflexivity). rewrite En.
    unfold truncMicro, demo_now, demo_ttl. pose proof (Z.mod_pos_bound (Z.of_nat (S n) * Second) 1000).
    change Second with 1000000000 in *. lia.
  - vm_compute. reflexivity.
  - assert (H : map_all (ready_check demo_rolling demo_op) (left_over demo_rolling demo_op None) = true)
      by (vm_compute; reflexivity).
    rewrite map_all_true in H. intros k c Hk. apply ready_checked, (H k c Hk).
Qed.

Lemma rollback_runs_to_completion_witness :
  exists s' op, unwind demo_op "v" 2 "done" 3 demo_rolling = (s', Ok op) /\ op_State op = OperationRolledBack.
Proof.
  destruct (rollback_runs_to_completion demo_op "v" 2 "done" 2 demo_rolling) as (s' & op & E & H & _).
  - split; [vm_compute; reflexivity|discriminate].
  - split; [vm_compute; reflexivity|discriminate].
  - reflexivity.
  - split; [reflexivity|discriminate].
  - exact demo_is_rolling.
  - exists s', op. split; [exact E|exact H].
Defined.
