(* ===== verification/Divergences.v ===== *)
(** * Where the engine departs from its own contract

    Two behaviours of the rollback that the lifecycle table and the purpose of
    the handlers do not suggest, stated as theorems about the code as it is. *)
From S2P Require Import Prelude GoStrings Digest Model Store Operations Recovery Evidence Compensation.
From S2P Require Import OwnerOperations Lifecycle OperationSystem OperationRuns Demo Authority CompensationTheorems.

Lemma fence_mismatch (op : Operation) w f at_ (step : OperationCompensationStep) :
  OperationLeaseActive op w f at_ = true -> cs_FenceToken step = f -> op_FenceToken op = cs_FenceToken step.
Proof. intros H ->. by destruct (lease_active _ _ _ _ H) as [-> _]. Qed.

(** A compensation step outlives its claim.  A step of a rollback whose
    fencing token is not that of its operation (a step left RUNNING when the
    operation was claimed again) can neither be completed nor be failed, by any
    worker with any token. *)
Theorem superseded_compensation_step_is_stuck s id op key step :
  ms_operations s !! id = Some op ->
  ms_compensationSteps s !! compensationKey id (TrimSpace key) = Some step ->
  cs_FenceToken step <> op_FenceToken op ->
  (forall worker fence digest actor,
     exists e, (CompleteOperationCompensationStep id key worker fence digest actor s).2 = Fail e) /\
  (forall worker fence failure actor,
     exists e, (ReportOperationCompensationStepFailure id key worker fence failure actor s).2 = Fail e).
Proof.
  intros Hop Hst Hne.
  split; intros worker fence x actor;
    [change (wp (CompleteOperationCompensationStep id key worker fence x actor) (fun r _ => exists e, r = Fail e) s);
     unfold CompleteOperationCompensationStep
    |change (wp (ReportOperationCompensationStepFailure id key worker fence x actor) (fun r _ => exists e, r = Fail e) s);
     unfold ReportOperationCompensationStepFailure]; unfold_puts; wp_go; try (by eexists); exfalso; norm_bool.
  all: rewrite Hop in *; rewrite Hst in *; simplify_eq; apply Hne; symmetry; by eapply fence_mismatch.
Qed.

(** [v] claims step [b] under token 2, loses the lease, and [u] claims the rollback *)
Definition demo_stuck : list Call :=
  (demo_rollback ++ [CClaimCompensationStep demo_op "v" 2 "v"; CClaim demo_op "u" demo_ttl (demo_ttl + demo_ttl)])%list.

Lemma superseded_compensation_step_is_stuck_witness :
  (exists step, ms_compensationSteps (run demo_stuck demo0) !! compensationKey demo_op "b" = Some step /\
     cs_State step = CompensationStepRunning) /\
  forall worker fence digest actor, exists e,
    (CompleteOperationCompensationStep demo_op "b" worker fence digest actor (run demo_stuck demo0)).2 = Fail e.
Proof.
  destruct (found op_FenceToken (ms_operations (run demo_stuck demo0) !! demo_op) 3) as (op & E & Hf);
    [vm_compute; reflexivity|].
  destruct (found (fun c => (cs_State c, cs_FenceToken c))
              (ms_compensationSteps (run demo_stuck demo0) !! compensationKey demo_op (TrimSpace "b"))
              (CompensationStepRunning, 2)) as (step & Es & Hs); [vm_compute; reflexivity|].
  injection Hs as Hs1 Hs2. split; [exists step; split; [exact Es|exact Hs1]|].
  apply (superseded_compensation_step_is_stuck _ _ op _ step E Es). rewrite Hf, Hs2. discriminate.
Defined.

(** A failure report abandons a rollback.  The lifecycle table has no
    transition from ROLLING_BACK to RETRY_WAIT, but the failure handler accepts
    an operation that is ROLLING_BACK and schedules another forward attempt of
    it when the failure is retryable and the budget allows. *)
Theorem failure_report_abandons_rollback s id op worker fence report actor :
  ms_operations s !! id = Some op -> op_State op = OperationRollingBack ->
  OperationLeaseActive op worker fence (clock s) = true ->
  ValidOperationFailureClass (fr_Class report) = true -> TrimSpace (fr_Message report) <> "" ->
  0 <= fr_RetryAfterSeconds report ->
  IsRetryableOperationFailure (op_RetryPolicy op) (fr_Class report) = true ->
  op_Attempt op < rp_MaxAttempts (op_RetryPolicy op) ->
  (exists s' op', ReportOperationFailure id (op_Revision op) worker fence report actor s = (s', Ok op') /\
     op_State op' = OperationRetryWait) /\
  CanTransition OperationRollingBack OperationRetryWait = false.
Proof.
  intros Hop Hst Hl Hv Hm Hra Hre Hb. split; [|reflexivity].
  assert (H : wp (ReportOperationFailure id (op_Revision op) worker fence report actor)
                (fun r _ => exists op', r = Ok op' /\ op_State op' = OperationRetryWait) s).
  { unfold ReportOperationFailure; unfold_puts.
    wp_go; rewrite ?Hop in *; simplify_eq; norm_bool; try congruence; try (by rewrite Hst in *).
    - exfalso. rewrite Hv in *. cbn in *.
      match goal with H : (_ || _) = true |- _ => apply orb_true_iff in H as [H|H] end; norm_bool; try done; lia.
    - eexists. split; [reflexivity|]. cbn. rewrite Hre. replace (op_Attempt a <? _) with true by lia. done. }
  unfold wp in H. destruct (ReportOperationFailure _ _ _ _ _ _ s) as [s' r]. cbn in H.
  destruct H as (op' & -> & Hs'). eauto.
Qed.

Definition demo_report : OperationFailureReport :=
  mkOperationFailureReport OperationFailureTransientNetwork "E2" "timeout" 0.

Lemma failure_report_abandons_rollback_witness :
  exists s' op', ReportOperationFailure demo_op 11 "v" 2 demo_report "v" (run demo_rollback demo0) = (s', Ok op') /\
    op_State op' = OperationRetryWait.
Proof.
  destruct (found (fun op => (op_State op, op_Revision op,
                OperationLeaseActive op "v" 2 (clock (run demo_rollback demo0)),
                IsRetryableOperationFailure (op_RetryPolicy op) (fr_Class demo_report),
                op_Attempt op <? rp_MaxAttempts (op_RetryPolicy op)))
              (ms_operations (run demo_rollback demo0) !! demo_op)
              (OperationRollingBack, 11, true, true, true)) as (op & E & H); [vm_compute; reflexivity|].
  revert E H. generalize (run demo_rollback demo0). intros s E H.
  injection H as Hst Hrev Hl Hre Hb. apply Z.ltb_lt in Hb.
  rewrite <- Hrev.
  apply (failure_report_abandons_rollback _ _ op "v" 2 demo_report "v" E Hst Hl);
    [reflexivity|discriminate|discriminate|exact Hre|exact Hb].
Defined.
