(* ===== verification/Backoff.v ===== *)
(** * Retry backoff

    The doubling loop of [OperationBackoff] against its closed form, and the
    absence of overflow. *)
From S2P Require Import Prelude GoStrings Digest Model Calendar Store Operations.

(** the intended delay in seconds: the initial delay doubled per failed
    attempt, at least what the provider asked for, never above the cap *)
Definition backoffReference (initial cap attempt retryAfter : Z) : Z :=
  Z.min cap (Z.max retryAfter (Z.min cap (initial * 2 ^ (Z.max 0 (attempt - 1))))).

Lemma backoffLoop_min n : forall seconds cap,
  1 <= seconds -> 1 <= cap <= 2 ^ 62 ->
  Z.min (backoffLoop n seconds cap) cap = Z.min (seconds * 2 ^ Z.of_nat n) cap /\
  1 <= backoffLoop n seconds cap.
Proof.
  induction n as [|n IH]; intros seconds cap Hs Hc; cbn [backoffLoop].
  - rewrite Z.mul_1_r. done.
  - assert (Hpow : 0 < 2 ^ Z.of_nat n) by (apply Z.pow_pos_nonneg; lia).
    rewrite Nat2Z.inj_succ, Z.pow_succ_r by lia.
    destruct (cap <=? seconds) eqn:E; norm_bool.
    + split; [|lia]. rewrite Z.min_id, Z.min_r; [done|]. nia.
    + rewrite wrap64_id by (unfold in_int64, int64_min, int64_max; lia).
      destruct (IH (seconds * 2) cap) as [-> Hr]; [lia|lia|]. split; [|done]. f_equal. lia.
Qed.

Lemma backoffSeconds_reference policy attempt retryAfter :
  1 <= rp_InitialBackoffSeconds policy -> 1 <= rp_MaxBackoffSeconds policy <= 2 ^ 62 ->
  backoffSeconds policy attempt retryAfter =
    backoffReference (rp_InitialBackoffSeconds policy) (rp_MaxBackoffSeconds policy) attempt retryAfter.
Proof.
  intros Hi Hm. unfold backoffSeconds, backoffReference.
  replace (rp_InitialBackoffSeconds policy <? 1) with false by lia.
  destruct (backoffLoop_min (Z.to_nat (attempt - 1)) (rp_InitialBackoffSeconds policy)
              (rp_MaxBackoffSeconds policy) Hi Hm) as [Hmin Hpos].
  replace (Z.of_nat (Z.to_nat (attempt - 1))) with (Z.max 0 (attempt - 1)) in Hmin by lia.
  replace (0 <? rp_MaxBackoffSeconds policy) with true by lia. cbn [andb].
  revert Hm Hmin Hpos. generalize (backoffLoop (Z.to_nat (attempt - 1)) (rp_InitialBackoffSeconds policy)
                                  (rp_MaxBackoffSeconds policy)).
  generalize (rp_InitialBackoffSeconds policy * 2 ^ Z.max 0 (attempt - 1)).
  generalize (rp_MaxBackoffSeconds policy). intros cap p r Hm Hmin Hpos.
  repeat case_match; norm_bool; lia.
Qed.

(** Retry backoff.  For every retry policy the control plane issues and every
    attempt and provider hint, the delay computed by the doubling loop is the
    capped exponential backoff, its conversion to nanoseconds does not overflow,
    and it is between one second and the policy's maximum. *)
Theorem backoff_is_capped_exponential class attempt retryAfter :
  OperationBackoff (RetryPolicyForOperationClass class) attempt retryAfter =
    Second * backoffReference (rp_InitialBackoffSeconds (RetryPolicyForOperationClass class))
               (rp_MaxBackoffSeconds (RetryPolicyForOperationClass class)) attempt retryAfter /\
  Second <= OperationBackoff (RetryPolicyForOperationClass class) attempt retryAfter <=
    Second * rp_MaxBackoffSeconds (RetryPolicyForOperationClass class).
Proof.
  assert (Hp : 2 <= rp_InitialBackoffSeconds (RetryPolicyForOperationClass class) <= 10 /\
               30 <= rp_MaxBackoffSeconds (RetryPolicyForOperationClass class) <= 120)
    by (unfold RetryPolicyForOperationClass; repeat case_match; cbn; lia).
  unfold OperationBackoff.
  rewrite backoffSeconds_reference by lia.
  revert Hp. generalize (rp_InitialBackoffSeconds (RetryPolicyForOperationClass class)).
  generalize (rp_MaxBackoffSeconds (RetryPolicyForOperationClass class)). intros cap initial Hp.
  assert (Hpow : 1 <= 2 ^ Z.max 0 (attempt - 1)) by (apply (Z.pow_le_mono_r 2 0); lia).
  assert (Hr : 1 <= backoffReference initial cap attempt retryAfter <= cap)
    by (unfold backoffReference; nia).
  rewrite wrap64_id by (unfold in_int64, int64_min, int64_max, Second; lia).
  unfold Second. lia.
Qed.
