(* ===== verification/Outbox.v ===== *)
(** * The transactional outbox

    [ClaimOutbox] and [MarkOutboxPublished] of [memory_store.go]: delivery
    workers take the oldest available events under an expiring claim and mark
    them published. *)
From S2P Require Import Prelude GoStrings Digest Model Store.

(** ** Scheduling order *)

(** [left.AvailableAt.Equal(right.AvailableAt) ? left.ID < right.ID : left.AvailableAt.Before(right.AvailableAt)] *)
Definition outboxBefore (left right : OutboxEvent) : bool :=
  if ob_AvailableAt left == ob_AvailableAt right
  then string_lt (rm_ID (ob_Meta left)) (rm_ID (ob_Meta right))
  else ob_AvailableAt left <? ob_AvailableAt right.

Definition outbox_le (left right : string * OutboxEvent) : Prop := outboxBefore right.2 left.2 = false.
#[export] Instance outbox_le_dec : RelDecision outbox_le.
Proof. intros a b. unfold outbox_le. apply _. Defined.

(** [sort.Slice] over the identifiers of the map *)
Definition outboxOrder (m : gmap string OutboxEvent) : list (string * OutboxEvent) :=
  merge_sort outbox_le (map_to_list m).

(** ** Claims *)

(** unpublished, available, and not under an unexpired claim *)
Definition outboxEligible (at_ : Time) (e : OutboxEvent) : bool :=
  negb (match ob_PublishedAt e with Some _ => true | None => false end)
  && negb (at_ <? ob_AvailableAt e)
  && negb (match ob_ClaimedUntil e with Some until => at_ <? until | None => false end).

Definition outboxClaimed (worker : string) (until now : Time) (e : OutboxEvent) : OutboxEvent :=
  e <| ob_ClaimedBy := worker |> <| ob_ClaimedUntil := Some until |>
    <| ob_Attempt := inc64 (ob_Attempt e) |> <| ob_Meta := bump (ob_Meta e) now |>.

Fixpoint claimLoop (worker : string) (limit ttl : Z) (at_ : Time) (ids : list (string * OutboxEvent))
    (out : list OutboxEvent) : Store (list OutboxEvent) :=
  match ids with
  | [] => ret out
  | (id, e) :: rest =>
      if limit <=? Z.of_nat (length out) then ret out else
      if negb (outboxEligible at_ e) then claimLoop worker limit ttl at_ rest out else
      let! now := nowUTC in
      let e := outboxClaimed worker (at_ + ttl) now e in
      putOutbox id e ;;;
      claimLoop worker limit ttl at_ rest (out ++ [e])%list
  end.

Definition ClaimOutbox (worker : string) (limit ttl : Z) (at_ : Time) : Store (list OutboxEvent) :=
  fail_if ((worker == "") || (limit <=? 0) || (ttl <=? 0)) ErrValidation ;;;
  let! s := get in
  claimLoop worker limit ttl at_ (outboxOrder (ms_outbox s)) [].

Definition MarkOutboxPublished (id worker : string) (at_ : Time) : Store unit :=
  let! s := get in
  let! e := get_opt (ms_outbox s !! id) ErrNotFound in
  fail_if ((ob_ClaimedBy e != worker)
           || match ob_ClaimedUntil e with Some until => negb (at_ <? until) | None => true end) ErrStaleFence ;;;
  let! now := nowUTC in
  putOutbox id (e <| ob_PublishedAt := Some at_ |> <| ob_ClaimedBy := "" |> <| ob_ClaimedUntil := None |>
                  <| ob_Meta := bump (ob_Meta e) now |>) ;;;
  ret tt.

(** ** The order is a total preorder *)

#[export] Instance outbox_le_total : Total outbox_le.
Proof.
  intros [k a] [l b]. unfold outbox_le, outboxBefore. cbn.
  destruct (decide (ob_AvailableAt a = ob_AvailableAt b)) as [E|E].
  - rewrite !bool_decide_eq_true_2 by done. destruct (string_lt (rm_ID (ob_Meta b)) _) eqn:Hlt; [right|by left].
    by apply string_lt_asym.
  - rewrite !bool_decide_eq_false_2 by done. lia.
Qed.

#[export] Instance outbox_le_trans : Transitive outbox_le.
Proof.
  intros [k a] [l b] [m c]. unfold outbox_le, outboxBefore. cbn.
  repeat case_bool_decide; try lia; try congruence. eauto using string_not_lt_trans.
Qed.

(** ** What a claim does *)

(** the oldest eligible events, at most [limit] of them *)
Definition selected (at_ : Time) (limit : nat) (ids : list (string * OutboxEvent)) : list (string * OutboxEvent) :=
  take limit (List.filter (fun kv => outboxEligible at_ kv.2) ids).

(** [e'] is [e] claimed at some clock reading *)
Definition claimed_as (worker : string) (until : Time) (e e' : OutboxEvent) : Prop :=
  exists now, e' = outboxClaimed worker until now e.

Lemma claimLoop_spec worker limit ttl at_ ids : forall out s,
  NoDup ids.*1 ->
  wp (claimLoop worker limit ttl at_ ids out) (fun r s' =>
    exists claimed, r = Ok (out ++ claimed)%list /\
      Forall2 (fun kv e' => claimed_as worker (at_ + ttl) kv.2 e' /\ ms_outbox s' !! kv.1 = Some e')
        (selected at_ (Z.to_nat limit - length out) ids) claimed /\
      (forall k, k ∉ (selected at_ (Z.to_nat limit - length out) ids).*1 -> ms_outbox s' !! k = ms_outbox s !! k)) s.
Proof.
  induction ids as [|[id e] rest IH]; intros out s Hnd; cbn [claimLoop].
  - apply wp_ret. exists []. rewrite app_nil_r. unfold selected. rewrite firstn_nil. by repeat split.
  - apply NoDup_cons in Hnd as [Hni Hnd].
    apply wp_if; intros Hl; norm_bool.
    { apply wp_ret. exists []. rewrite app_nil_r.
      replace (Z.to_nat limit - length out)%nat with 0%nat by lia. by repeat split. }
    apply wp_if; intros He; norm_bool.
    { unfold selected. cbn [List.filter snd]. rewrite He. by apply IH. }
    unfold_puts. wp_go. eapply wp_mono; [by apply IH|].
    intros r s' (claimed & -> & Hall & Hframe). rewrite length_app in Hall, Hframe. cbn [length] in Hall, Hframe.
    unfold selected in *. cbn [List.filter snd]. rewrite He.
    replace (Z.to_nat limit - length out)%nat with (S (Z.to_nat limit - (length out + 1)))%nat by lia.
    cbn [take]. eexists. split; [by rewrite <- app_assoc|].
    assert (Hnk : id ∉ (take (Z.to_nat limit - (length out + 1))
                          (List.filter (fun kv => outboxEligible at_ kv.2) rest)).*1).
    { intros Hin. apply Hni. apply list_elem_of_fmap in Hin as (x & -> & Hin). apply list_elem_of_fmap.
      exists x. split; [done|]. apply elem_of_take in Hin as (j & Hj & _).
      apply list_elem_of_lookup_2, list_elem_of_In, filter_In in Hj as [Hj _]. by apply list_elem_of_In. }
    split.
    + constructor; [|done]. split; [by eexists|]. rewrite Hframe by done. apply lookup_insert_eq.
    + intros k Hk. rewrite fmap_cons in Hk. apply not_elem_of_cons in Hk as [Hne Hk].
      rewrite Hframe by done. by apply lookup_insert_ne.
Qed.

Lemma order_entries m kv : kv ∈ outboxOrder m <-> m !! kv.1 = Some kv.2.
Proof.
  unfold outboxOrder. rewrite merge_sort_Permutation. destruct kv. apply elem_of_map_to_list.
Qed.

Lemma order_keys m : NoDup (outboxOrder m).*1.
Proof. unfold outboxOrder. rewrite merge_sort_Permutation. apply NoDup_fst_map_to_list. Qed.

Lemma claim_spec worker limit ttl at_ s s' out :
  ClaimOutbox worker limit ttl at_ s = (s', Ok out) ->
  Forall2 (fun kv e' => claimed_as worker (at_ + ttl) kv.2 e' /\ ms_outbox s' !! kv.1 = Some e')
    (selected at_ (Z.to_nat limit) (outboxOrder (ms_outbox s))) out /\
  (forall k, k ∉ (selected at_ (Z.to_nat limit) (outboxOrder (ms_outbox s))).*1 ->
     ms_outbox s' !! k = ms_outbox s !! k) /\ worker <> "" /\ 0 < limit /\ 0 < ttl.
Proof.
  intros H.
  assert (Hw : wp (ClaimOutbox worker limit ttl at_) (fun r s' => forall out, r = Ok out ->
    Forall2 (fun kv e' => claimed_as worker (at_ + ttl) kv.2 e' /\ ms_outbox s' !! kv.1 = Some e')
      (selected at_ (Z.to_nat limit) (outboxOrder (ms_outbox s))) out /\
    (forall k, k ∉ (selected at_ (Z.to_nat limit) (outboxOrder (ms_outbox s))).*1 ->
       ms_outbox s' !! k = ms_outbox s !! k) /\ worker <> "" /\ 0 < limit /\ 0 < ttl) s).
  { unfold ClaimOutbox. wp_go; [discriminate|].
    eapply wp_mono; [apply claimLoop_spec, order_keys|].
    intros r s1 (claimed & -> & Hall & Hf) o E. cbn [length app] in *. rewrite Nat.sub_0_r in *.
    injection E as <-. norm_bool. done. }
  exact (wp_run _ _ _ _ _ Hw H out eq_refl).
Qed.

(** Outbox delivery order.  A delivery claim takes the eligible events with the
    earliest availability (ties by identifier), never more than asked for, and
    records the worker and the claim's expiry on each of them; an eligible event
    it leaves behind is not earlier than any it took, and is left only because
    the limit was reached.  All other events are untouched. *)
Theorem claims_take_oldest_events worker limit ttl at_ s s' out :
  ClaimOutbox worker limit ttl at_ s = (s', Ok out) ->
  exists taken,
    Forall2 (fun kv e' => ms_outbox s !! kv.1 = Some kv.2 /\ outboxEligible at_ kv.2 = true /\
      claimed_as worker (at_ + ttl) kv.2 e' /\ ms_outbox s' !! kv.1 = Some e') taken out /\
    StronglySorted outbox_le taken /\ Z.of_nat (length out) <= limit /\
    (forall k, k ∉ taken.*1 -> ms_outbox s' !! k = ms_outbox s !! k) /\
    (forall k e, ms_outbox s !! k = Some e -> outboxEligible at_ e = true -> k ∉ taken.*1 ->
       Z.of_nat (length out) = limit /\ Forall (fun kv => outbox_le kv (k, e)) taken).
Proof.
  intros H. apply claim_spec in H as (Hall & Hframe & _ & Hl & _).
  set (el := List.filter (fun kv => outboxEligible at_ kv.2) (outboxOrder (ms_outbox s))).
  assert (Hel : forall kv, kv ∈ el <-> ms_outbox s !! kv.1 = Some kv.2 /\ outboxEligible at_ kv.2 = true).
  { intros kv. unfold el. rewrite list_elem_of_In, filter_In, <- list_elem_of_In, order_entries. done. }
  assert (Hsorted : StronglySorted outbox_le el).
  { unfold el. generalize (StronglySorted_merge_sort outbox_le (map_to_list (ms_outbox s))).
    unfold outboxOrder. induction 1 as [|x l Hs IH Hx]; cbn; [constructor|].
    case_match; [|done]. constructor; [done|]. rewrite Forall_forall in *. intros y Hy.
    apply Hx, list_elem_of_In. apply list_elem_of_In, filter_In in Hy. apply Hy. }
  assert (Hlen := Forall2_length _ _ _ Hall). unfold selected in Hall, Hframe, Hlen. fold el in Hall, Hframe, Hlen.
  rewrite length_take in Hlen.
  exists (take (Z.to_nat limit) el). split; [|split; [|split; [lia|split; [done|]]]].
  - apply Forall2_same_length_lookup in Hall as [Hsl Hall]. apply Forall2_same_length_lookup. split; [done|].
    intros i kv e' Hi He'. destruct (Hall i kv e' Hi He') as [Hc Hk].
    assert (Hin : kv ∈ el).
    { apply lookup_take_Some in Hi as [Hi _]. by eapply list_elem_of_lookup_2. }
    apply Hel in Hin as [Hin1 Hin2]. done.
  - rewrite <- (take_drop (Z.to_nat limit) el) in Hsorted. by apply StronglySorted_app in Hsorted as (_ & ? & _).
  - intros k e Hk He Hni.
    assert (Hin : (k, e) ∈ el) by (by apply Hel).
    rewrite <- (take_drop (Z.to_nat limit) el) in Hin, Hsorted.
    apply elem_of_app in Hin as [Hin|Hin].
    { exfalso. apply Hni. apply list_elem_of_fmap. by exists (k, e). }
    split.
    + assert (drop (Z.to_nat limit) el <> []) by (intros E; rewrite E in Hin; by apply not_elem_of_nil in Hin).
      assert (Z.to_nat limit < length el)%nat; [|lia].
      destruct (decide (Z.to_nat limit < length el)%nat); [done|]. rewrite drop_ge in * by lia. done.
    + apply StronglySorted_app in Hsorted as (Hx & _ & _). apply Forall_forall. intros kv Hkv. by apply Hx.
Qed.

(** a small outbox: event [b] is older than [a]; [c] was published *)
Definition demo_event (id : string) (available : Time) (published : option Time) : OutboxEvent :=
  mkOutboxEvent (newMeta id 0) "operation" "op-1" "operation.created"
    (PayloadOrganization (mkOrganization (newMeta "o" 0) "o" "O")) available "" None 0 published.
Definition demo_outbox : MemoryStore :=
  (NewMemoryStoreWith (fun n => Z.of_nat n) (fun _ p => p)) <| ms_outbox :=
    {["a" := demo_event "a" 7 None; "b" := demo_event "b" 5 None; "c" := demo_event "c" 1 (Some 2)]} |>.

Lemma claims_take_oldest_events_witness :
  exists s' e, ClaimOutbox "w" 1 10 8 demo_outbox = (s', Ok [e]) /\ rm_ID (ob_Meta e) = "b" /\
  exists taken, Forall2 (fun kv e' => ms_outbox demo_outbox !! kv.1 = Some kv.2 /\
      outboxEligible 8 kv.2 = true /\ claimed_as "w" (8 + 10) kv.2 e' /\ ms_outbox s' !! kv.1 = Some e') taken [e].
Proof.
  assert (Hv : match (ClaimOutbox "w" 1 10 8 demo_outbox).2 with
               | Ok [e] => rm_ID (ob_Meta e) == "b" | _ => false end = true) by (vm_compute; reflexivity).
  destruct (ClaimOutbox "w" 1 10 8 demo_outbox) as [s' [[|e [|e2 out]]|err]] eqn:E; try discriminate Hv.
  exists s', e. split; [reflexivity|]. split; [exact (bool_decide_eq_true_1 _ Hv)|].
  apply claims_take_oldest_events in E. destruct E as (taken & Ht & _). exists taken. exact Ht.
Defined.

(** ** Claims exclude each other *)

Lemma claimed_not_eligible worker until e e' at_ :
  claimed_as worker until e e' -> at_ < until -> outboxEligible at_ e' = false.
Proof.
  intros [now ->] H. unfold outboxEligible, outboxClaimed. cbn. replace (at_ <? until) with true by lia.
  by rewrite andb_false_r.
Qed.

Lemma ineligible_untouched worker limit ttl at_ s s' out k e :
  ClaimOutbox worker limit ttl at_ s = (s', Ok out) -> ms_outbox s !! k = Some e ->
  outboxEligible at_ e = false -> ms_outbox s' !! k = Some e.
Proof.
  intros H Hk He. apply claim_spec in H as (_ & Hf & _). rewrite Hf; [done|].
  intros Hin. apply list_elem_of_fmap in Hin as ([k' e'] & -> & Hin).
  unfold selected in Hin. apply elem_of_take in Hin as (j & Hj & _).
  apply list_elem_of_lookup_2, list_elem_of_In, filter_In in Hj as [Hj Hel].
  apply list_elem_of_In, order_entries in Hj. cbn in *. congruence.
Qed.

(** Outbox claims are exclusive.  Until its claim expires, an event that a
    worker claimed is not handed to any other claim (it stays exactly as
    claimed), and the only worker whose publication is accepted is the claimer;
    every other one is refused with ErrStaleFence.  A published event is never
    claimed again. *)
Theorem outbox_claims_are_exclusive w1 l1 ttl1 t1 s s1 out1 e w2 l2 ttl2 t2 s2 out2 k w t3 :
  ClaimOutbox w1 l1 ttl1 t1 s = (s1, Ok out1) -> e ∈ out1 -> ms_outbox s1 !! k = Some e ->
  ClaimOutbox w2 l2 ttl2 t2 s1 = (s2, Ok out2) -> t2 < t1 + ttl1 -> t3 < t1 + ttl1 ->
  ms_outbox s2 !! k = Some e /\
  (w <> w1 -> MarkOutboxPublished k w t3 s2 = (s2, Fail ErrStaleFence)) /\
  exists s3 e3, MarkOutboxPublished k w1 t3 s2 = (s3, Ok tt) /\ ms_outbox s3 !! k = Some e3 /\
    ob_PublishedAt e3 = Some t3 /\
    forall w4 l4 ttl4 t4 s4 out4, ClaimOutbox w4 l4 ttl4 t4 s3 = (s4, Ok out4) -> ms_outbox s4 !! k = Some e3.
Proof.
  intros H1 Hin Hk H2 Ht2 Ht3.
  apply claim_spec in H1 as (Hall & _). apply list_elem_of_lookup in Hin as [i Hi].
  destruct (Forall2_lookup_r _ _ _ _ _ Hall Hi) as (kv & _ & [[now Hc] _]).
  assert (Hk2 : ms_outbox s2 !! k = Some e).
  { eapply ineligible_untouched; [exact H2|done|]. eapply claimed_not_eligible; [by exists now|done]. }
  assert (Hby : ob_ClaimedBy e = w1) by (by rewrite Hc).
  assert (Hun : ob_ClaimedUntil e = Some (t1 + ttl1)) by (by rewrite Hc).
  split; [done|]. split.
  - intros Hw. unfold MarkOutboxPublished, bind, get, get_opt, fail_if, ret, raise.
    rewrite Hk2, Hby. by rewrite bool_decide_eq_false_2.
  - unfold MarkOutboxPublished at 1, bind, get, get_opt, fail_if, nowUTC, putOutbox, modify, ret.
    rewrite Hk2, Hby, Hun. rewrite bool_decide_eq_true_2 by done. replace (t3 <? t1 + ttl1) with true by lia.
    cbn [negb orb]. eexists _, _. split; [reflexivity|].
    split; [apply lookup_insert_eq|]. split; [done|].
    intros w4 l4 ttl4 t4 s4 out4 H4. eapply ineligible_untouched; [exact H4|apply lookup_insert_eq|done].
Qed.

Lemma outbox_claims_are_exclusive_witness :
  exists s1 e s2 out2, ClaimOutbox "w" 1 10 8 demo_outbox = (s1, Ok [e]) /\
    ClaimOutbox "v" 5 10 9 s1 = (s2, Ok out2) /\ ms_outbox s2 !! "b" = Some e.
Proof.
  assert (Hv : match (ClaimOutbox "w" 1 10 8 demo_outbox) with
               | (s1, Ok [e]) => match ms_outbox s1 !! "b", (ClaimOutbox "v" 5 10 9 s1).2 with
                                 | Some e', Ok _ => (ob_ClaimedBy e' == ob_ClaimedBy e)
                                 | _, _ => false end
               | _ => false end = true) by (vm_compute; reflexivity).
  destruct (ClaimOutbox "w" 1 10 8 demo_outbox) as [s1 [[|e [|e2 out]]|err]] eqn:E; try discriminate Hv.
  destruct (ms_outbox s1 !! "b") as [e'|] eqn:Eb; [|discriminate Hv].
  destruct (ClaimOutbox "v" 5 10 9 s1) as [s2 [out2|err]] eqn:E2; [|discriminate Hv].
  assert (e' = e) as ->.
  { vm_compute in E. injection E as <- <-. vm_compute in Eb. congruence. }
  exists s1, e, s2, out2. split; [reflexivity|]. split; [exact E2|].
  apply (outbox_claims_are_exclusive "w" 1 10 8 demo_outbox s1 [e] e "v" 5 10 9 s2 out2 "b" "v" 9 E);
    [left|exact Eb|exact E2|reflexivity|reflexivity].
Defined.
