(* ===== verification/Collections.v ===== *)
(** * Collections of the store

    What the component invariants share: records filed under identifiers that
    were drawn from the identifier source, uniqueness of a key, and collections
    whose records only evolve. *)
From S2P Require Import Prelude GoStrings Model Store OperationSystem.

(** ** Drawn identifiers *)

(** every handler extends the store by drawn identifiers only *)
Record drawn (s s' : MemoryStore) : Prop := {
  dr_gen : ms_id s' = ms_id s;
  dr_ids : (ms_ids s <= ms_ids s')%nat;
}.

Lemma filed_mono {V} s s' (m : gmap string V) : drawn s s' -> filed s m -> filed s' m.
Proof. intros [Hg Hi] Hf k v Hk. destruct (Hf _ _ Hk) as (n & p & Hn & ->). exists n, p. rewrite Hg. split; [lia|done]. Qed.

Lemma filed_insert {V} s s' (m : gmap string V) n p v :
  drawn s s' -> (n < ms_ids s')%nat -> filed s m -> filed s' (<[ms_id s n p := v]> m).
Proof.
  intros Hd Hn Hf k w Hk. apply lookup_insert_Some in Hk as [[<- _]|[_ Hk]].
  - exists n, p. by rewrite (dr_gen _ _ Hd).
  - by apply (filed_mono _ _ _ Hd Hf _ _ Hk).
Qed.

(** inserting a record whose key does not clash keeps a uniqueness property *)
Lemma unique_insert {V} (same : V -> V -> Prop) (m : gmap string V) k v :
  (forall a b, same a b -> same b a) ->
  (forall k1 k2 a b, m !! k1 = Some a -> m !! k2 = Some b -> same a b -> k1 = k2) ->
  (forall k' b, m !! k' = Some b -> same v b -> k' = k) ->
  forall k1 k2 a b, <[k := v]> m !! k1 = Some a -> <[k := v]> m !! k2 = Some b -> same a b -> k1 = k2.
Proof.
  intros Hsym Hu Hn k1 k2 a b H1 H2 Hs.
  apply lookup_insert_Some in H1 as [[<- <-]|[Hne1 H1]];
    apply lookup_insert_Some in H2 as [[<- <-]|[Hne2 H2]]; try done.
  - symmetry. by eapply Hn.
  - eapply Hn; [done|by apply Hsym].
  - by eapply Hu.
Qed.

(** ** Collections that evolve *)

(** every record stays, related to what it was *)
Definition evolves {V} (R : V -> V -> Prop) (m m' : gmap string V) : Prop :=
  forall k v, m !! k = Some v -> exists v', m' !! k = Some v' /\ R v v'.

Lemma evolves_insert {V} (R : V -> V -> Prop) (m : gmap string V) k v :
  (forall x, R x x) -> (forall v0, m !! k = Some v0 -> R v0 v) -> evolves R m (<[k := v]> m).
Proof.
  intros Hr Hk k' v' H. destruct (decide (k = k')) as [->|].
  - rewrite lookup_insert_eq. eauto.
  - rewrite lookup_insert_ne by done. eauto.
Qed.

Lemma evolves_refl {V} (R : V -> V -> Prop) m : (forall x, R x x) -> evolves R m m.
Proof. intros Hr k v H. eauto. Qed.

Lemma evolves_trans {V} (R : V -> V -> Prop) m1 m2 m3 :
  (forall x y z, R x y -> R y z -> R x z) -> evolves R m1 m2 -> evolves R m2 m3 -> evolves R m1 m3.
Proof. intros Ht H1 H2 k v Hk. destruct (H1 _ _ Hk) as (v2 & Hk2 & ?), (H2 _ _ Hk2) as (v3 & ? & ?). eauto. Qed.

(** an identifier that is about to be drawn files nothing yet *)
Lemma fresh_unfiled {V} s (m : gmap string V) n p :
  (forall n m p q, ms_id s n p = ms_id s m q -> n = m) -> filed s m -> (ms_ids s <= n)%nat ->
  m !! ms_id s n p = None.
Proof.
  intros Hg Hf Hn. destruct (m !! _) as [v|] eqn:E; [|done].
  destruct (Hf _ _ E) as (n' & p' & Hlt & He). apply Hg in He. lia.
Qed.

Lemma evolves_fmap {V} (R : V -> V -> Prop) (f : V -> V) (m : gmap string V) : (forall v, R v (f v)) -> evolves R m (f <$> m).
Proof. intros H k v Hk. exists (f v). split; [by rewrite lookup_fmap, Hk|done]. Qed.

(** a single record of a collection changes *)
Lemma evolves_update {V} (R : V -> V -> Prop) (m : gmap string V) k v v' :
  m !! k = Some v -> (forall x, R x x) -> R v v' -> evolves R m (<[k := v']> m).
Proof. intros Hk Hr Hv. apply evolves_insert; [done|]. intros v0 H0. by assert (v0 = v) as -> by congruence. Qed.

(** a record is added under an identifier that was just drawn *)
Lemma evolves_add {V} (R : V -> V -> Prop) s (m : gmap string V) n p v :
  (forall n m p q, ms_id s n p = ms_id s m q -> n = m) -> filed s m -> (ms_ids s <= n)%nat -> (forall x, R x x) ->
  evolves R m (<[ms_id s n p := v]> m).
Proof.
  intros Hid Hf Hn Hr. apply evolves_insert; [done|]. intros v0 Hv. by rewrite (fresh_unfiled s m n p Hid Hf Hn) in Hv.
Qed.

Lemma drawn_trans s1 s2 s3 : drawn s1 s2 -> drawn s2 s3 -> drawn s1 s3.
Proof. intros [? ?] [? ?]. split; [congruence|lia]. Qed.

#[export] Instance drawn_order : PreOrder drawn.
Proof. split; [by split|]. intros s1 s2 s3. apply drawn_trans. Qed.

Ltac drawing :=
  repeat match goal with
  | H : drawn _ _ |- _ => let Hi := fresh "Hi" in destruct H as [_ Hi]; cbn in Hi
  end;
  split; [done|cbn; lia].

(** ** Reading handlers *)

(** a handler that only reads, and what it answers *)
Definition reads {A} (s : MemoryStore) (Q : A -> MemoryStore -> Prop) (r : result A) (s' : MemoryStore) : Prop :=
  same_data s s' /\ drawn s s' /\ match r with Ok a => Q a s' | Fail _ => True end.

Lemma wp_reads {A B} (m : Store A) (k : A -> Store B) Q (P : A -> MemoryStore -> Prop) s0 :
  wp m (reads s0 P) s0 -> (forall e t i, drawn s0 (s0 <| ms_ticks := t |> <| ms_ids := i |>) ->
    Q (Fail e) (s0 <| ms_ticks := t |> <| ms_ids := i |>)) ->
  (forall a t i, drawn s0 (s0 <| ms_ticks := t |> <| ms_ids := i |>) ->
    P a (s0 <| ms_ticks := t |> <| ms_ids := i |>) -> wp (k a) Q (s0 <| ms_ticks := t |> <| ms_ids := i |>)) ->
  wp (bind m k) Q s0.
Proof.
  intros Hm Hf Hk. apply wp_bind. eapply wp_mono; [exact Hm|].
  intros r s' (Hs & Hd & HP). apply same_data_alt in Hs as (t & i & ->). destruct r; auto.
Qed.

Lemma filed_update {V} s s' (m : gmap string V) k v0 v :
  drawn s s' -> filed s m -> m !! k = Some v0 -> filed s' (<[k := v]> m).
Proof.
  intros Hd Hf Hk k' v' [[<- _]|[_ H]]%lookup_insert_Some; by eapply (filed_mono s).
Qed.

(** ** Loops that rewrite a collection in place

    [for k, v := range m { m[k] = settle(v) }]: each round rewrites the entry it
    is at, so every entry of the collection is settled once. *)
Section in_place.
Context {V : Type} (f : MemoryStore -> gmap string V) (settle : V -> V).
Context (round : string -> V -> Store unit) (loop : list (string * V) -> Store unit).
Context (R : MemoryStore -> MemoryStore -> Prop) `{!PreOrder R}.
Hypothesis loop_nil : loop [] = ret tt.
Hypothesis loop_cons : forall k v rest, loop ((k, v) :: rest) = (round k v ;;; loop rest).
Hypothesis round_settles : forall k v s, f s !! k = Some v ->
  wp (round k v) (fun r s' => r = Ok tt /\ R s s' /\ f s' = <[k := settle v]> (f s)) s.

Lemma in_place_entries l : forall s,
  NoDup l.*1 -> (forall kx, kx ∈ l -> f s !! kx.1 = Some kx.2) ->
  wp (loop l) (fun r s' => r = Ok tt /\ R s s' /\
    forall k, f s' !! k = if decide (k ∈ l.*1) then settle <$> f s !! k else f s !! k) s.
Proof.
  induction l as [|[k v] l IH]; intros s Hnd Hl.
  - rewrite loop_nil. split_and!; [done|reflexivity|]. intros k. by rewrite decide_False by apply not_elem_of_nil.
  - apply NoDup_cons in Hnd as [Hk Hnd]. rewrite loop_cons. apply wp_bind.
    assert (Hv : f s !! k = Some v) by (apply (Hl (k, v)); left).
    eapply wp_mono; [by apply round_settles|]. intros r s1 (-> & H1 & E1). cbn.
    eapply wp_mono; [apply IH; [done|]|].
    + intros kx Hkx. rewrite E1, lookup_insert_ne; [apply Hl; by right|]. intros Ek. apply Hk, list_elem_of_fmap. by exists kx.
    + intros r s2 (-> & H2 & E2). split_and!; [done|by etrans|]. intros k'. rewrite E2, E1. cbn.
      destruct (decide (k' = k)) as [->|Hne].
      * rewrite decide_False by done. rewrite decide_True by left. by rewrite lookup_insert_eq, Hv.
      * rewrite lookup_insert_ne by done. destruct (decide (k' ∈ l.*1)).
        -- by rewrite decide_True by by right.
        -- rewrite decide_False; [done|]. rewrite not_elem_of_cons. tauto.
Qed.

Lemma in_place_settles s :
  wp (loop (map_to_list (f s))) (fun r s' => r = Ok tt /\ R s s' /\ f s' = settle <$> f s) s.
Proof.
  eapply wp_mono; [apply in_place_entries|].
  - apply NoDup_fst_map_to_list.
  - intros [k v] H. by apply elem_of_map_to_list in H.
  - intros r s' (-> & HR & E). split_and!; [done|done|]. apply map_eq. intros k. rewrite E, lookup_fmap.
    case_decide as Hk; [done|]. destruct (f s !! k) as [v|] eqn:Ev; [|done]. destruct Hk. apply list_elem_of_fmap.
    exists (k, v). split; [done|]. by apply elem_of_map_to_list.
Qed.
End in_place.
