(* ===== verification/Organizations.v ===== *)
(** * Organizations, projects and memberships

    The tenancy part of [memory_store.go]: unique normalized names, one
    membership per organization and subject, and the guard that keeps the last
    administrator from being revoked. *)
From S2P Require Import Prelude GoStrings Digest Model Store.
From Stdlib Require Import Ascii.

Definition normalizeName (s : string) : string := ToLower (TrimSpace s).

(** ** Operations *)

Definition grantedMeta (m : OrganizationMembership) : list (string * MetaValue) :=
  [("organizationId", MStr (mem_OrganizationID m)); ("subject", MStr (mem_Subject m)); ("role", MStr (mem_Role m))].

Definition CreateOrganization (org : Organization) (actor : string) : Store Organization :=
  fail_if ((normalizeName (org_Name org) == "") || (TrimSpace (org_DisplayName org) == "")) ErrValidation ;;;
  let! s := get in
  fail_if (map_any (fun _ existing => normalizeName (org_Name existing) == normalizeName (org_Name org))
             (ms_organizations s)) ErrDuplicateName ;;;
  let! now := nowUTC in
  let! id := newID "org" in
  let org := org <| org_Meta := newMeta id now |> <| org_Name := normalizeName (org_Name org) |> in
  putOrganization id org ;;;
  when (TrimSpace actor != "")
    (let! mid := newID "mem" in
     let membership := mkOrganizationMembership (newMeta mid now) id (TrimSpace actor) OrganizationAdmin
                         OrganizationMembershipActive (TrimSpace actor) "" None in
     putMembership mid membership ;;;
     appendAuditLocked actor "organization_membership.granted" "organizationMembership" mid 1 (grantedMeta membership) ;;;
     appendOutboxLocked "organizationMembership" mid "organization_membership.granted" (PayloadMembership membership)) ;;;
  appendAuditLocked actor "organization.created" "organization" id 1 [] ;;;
  appendOutboxLocked "organization" id "organization.created" (PayloadOrganization org) ;;;
  ret org.

Definition UpdateOrganization (id : string) (expected : Z) (displayName name actor : string)
    : Store Organization :=
  let! s := get in
  let! org := get_opt (ms_organizations s !! id) ErrNotFound in
  fail_if (rm_Revision (org_Meta org) != expected) ErrConflict ;;;
  let nn := normalizeName name in
  fail_if ((name != "") && (nn == "")) ErrValidation ;;;
  fail_if ((name != "") && map_any (fun oid o => (oid != id) && (normalizeName (org_Name o) == nn))
             (ms_organizations s)) ErrDuplicateName ;;;
  let org := if name != "" then org <| org_Name := nn |> else org in
  let org := if displayName != "" then org <| org_DisplayName := TrimSpace displayName |> else org in
  let! now := nowUTC in
  let org := org <| org_Meta := bump (org_Meta org) now |> in
  putOrganization id org ;;;
  appendAuditLocked actor "organization.updated" "organization" id (rm_Revision (org_Meta org)) [] ;;;
  appendOutboxLocked "organization" id "organization.updated" (PayloadOrganization org) ;;;
  ret org.

Definition GetOrganization (id : string) : Store Organization :=
  let! s := get in get_opt (ms_organizations s !! id) ErrNotFound.

Definition CreateProject (p : Project) (actor : string) : Store Project :=
  let! s := get in
  let! _ := get_opt (ms_organizations s !! prj_OrganizationID p) ErrNotFound in
  fail_if ((normalizeName (prj_Name p) == "") || (TrimSpace (prj_DisplayName p) == "")) ErrValidation ;;;
  fail_if (map_any (fun _ x => (prj_OrganizationID x == prj_OrganizationID p)
                               && (normalizeName (prj_Name x) == normalizeName (prj_Name p)))
             (ms_projects s)) ErrDuplicateName ;;;
  let! now := nowUTC in
  let! id := newID "prj" in
  let p := p <| prj_Meta := newMeta id now |> <| prj_Name := normalizeName (prj_Name p) |> in
  putProject id p ;;;
  appendAuditLocked actor "project.created" "project" id 1 [("organizationId", MStr (prj_OrganizationID p))] ;;;
  appendOutboxLocked "project" id "project.created" (PayloadProject p) ;;;
  ret p.

Definition GetProject (id : string) : Store Project :=
  let! s := get in get_opt (ms_projects s !! id) ErrNotFound.

Definition validOrganizationMembershipRole (role : OrganizationMembershipRole) : bool :=
  (role == OrganizationAdmin) || (role == OrganizationOperator) || (role == OrganizationViewer).

(** the membership of [subject] in [organizationID] *)
Definition isMembership (organizationID subject : string) (_ : string) (m : OrganizationMembership) : bool :=
  (mem_OrganizationID m == organizationID) && (mem_Subject m == subject).

Definition UpsertOrganizationMembership (membership : OrganizationMembership) (expected : Z) (actor : string)
    : Store OrganizationMembership :=
  let! s := get in
  let membership := membership <| mem_OrganizationID := TrimSpace (mem_OrganizationID membership) |>
                               <| mem_Subject := TrimSpace (mem_Subject membership) |> in
  let! _ := get_opt (ms_organizations s !! mem_OrganizationID membership) ErrNotFound in
  fail_if ((mem_Subject membership == "") || negb (validOrganizationMembershipRole (mem_Role membership))) ErrValidation ;;;
  let! now := nowUTC in
  match map_find (isMembership (mem_OrganizationID membership) (mem_Subject membership)) (ms_organizationMemberships s) with
  | Some (id, existing) =>
      fail_if ((expected <=? 0) || (rm_Revision (mem_Meta existing) != expected)) ErrConflict ;;;
      let existing := existing <| mem_Role := mem_Role membership |> <| mem_State := OrganizationMembershipActive |>
                        <| mem_GrantedBy := TrimSpace actor |> <| mem_RevokedAt := None |> <| mem_RevokedBy := "" |>
                        <| mem_Meta := bump (mem_Meta existing) now |> in
      putMembership id existing ;;;
      appendAuditLocked actor "organization_membership.granted" "organizationMembership" id
        (rm_Revision (mem_Meta existing)) (grantedMeta existing) ;;;
      appendOutboxLocked "organizationMembership" id "organization_membership.granted" (PayloadMembership existing) ;;;
      ret existing
  | None =>
      fail_if (expected != 0) ErrConflict ;;;
      let! id := newID "mem" in
      let membership := membership <| mem_Meta := newMeta id now |> <| mem_State := OrganizationMembershipActive |>
                          <| mem_GrantedBy := TrimSpace actor |> <| mem_RevokedAt := None |> <| mem_RevokedBy := "" |> in
      putMembership id membership ;;;
      appendAuditLocked actor "organization_membership.granted" "organizationMembership" id 1 (grantedMeta membership) ;;;
      appendOutboxLocked "organizationMembership" id "organization_membership.granted" (PayloadMembership membership) ;;;
      ret membership
  end.

Definition GetOrganizationMembership (organizationID subject : string) : Store OrganizationMembership :=
  let! s := get in
  match map_find (isMembership (TrimSpace organizationID) (TrimSpace subject)) (ms_organizationMemberships s) with
  | Some (_, m) => ret m
  | None => raise ErrNotFound
  end.

(** an active administrator of the organization *)
Definition activeAdmin (organizationID : string) (_ : string) (m : OrganizationMembership) : bool :=
  (mem_OrganizationID m == organizationID) && (mem_State m == OrganizationMembershipActive)
  && (mem_Role m == OrganizationAdmin).

(** [id == ""] stands for "not found": a membership filed under the empty
    identifier is not found either *)
Definition RevokeOrganizationMembership (organizationID subject : string) (expected : Z) (actor : string)
    : Store OrganizationMembership :=
  let organizationID := TrimSpace organizationID in
  let subject := TrimSpace subject in
  let! s := get in
  let! (id, current) := get_opt (map_find (isMembership organizationID subject) (ms_organizationMemberships s)) ErrNotFound in
  fail_if (id == "") ErrNotFound ;;;
  fail_if (rm_Revision (mem_Meta current) != expected) ErrConflict ;;;
  if mem_State current == OrganizationMembershipRevoked then ret current else
  fail_if ((mem_Role current == OrganizationAdmin)
           && (map_count (activeAdmin organizationID) (ms_organizationMemberships s) <=? 1)%nat) ErrValidation ;;;
  let! now := nowUTC in
  let current := current <| mem_State := OrganizationMembershipRevoked |> <| mem_RevokedBy := TrimSpace actor |>
                   <| mem_RevokedAt := Some now |> <| mem_Meta := bump (mem_Meta current) now |> in
  putMembership id current ;;;
  appendAuditLocked actor "organization_membership.revoked" "organizationMembership" id
    (rm_Revision (mem_Meta current)) [("organizationId", MStr organizationID); ("subject", MStr subject)] ;;;
  appendOutboxLocked "organizationMembership" id "organization_membership.revoked" (PayloadMembership current) ;;;
  ret current.

(** ** Names *)

Lemma lower_byte a :
  byte_of (lower_ascii a) = byte_of a \/ (65 <= byte_of a <= 90 /\ byte_of (lower_ascii a) = byte_of a + 32).
Proof.
  destruct a as [[] [] [] [] [] [] [] []]; vm_compute; first [by left | right; split; [split; discriminate|reflexivity]].
Qed.

Lemma lower_idem a : lower_ascii (lower_ascii a) = lower_ascii a.
Proof. destruct a as [[] [] [] [] [] [] [] []]; vm_compute; reflexivity. Qed.

(** spaces are neither made nor unmade by lower-casing *)
Lemma lower_space1 a : space1 (lower_ascii a) = space1 a.
Proof. unfold space1, in_range. destruct (lower_byte a) as [->|[? ->]]; [done|]. lia. Qed.
Lemma lower_space2 a b : space2 (lower_ascii a) (lower_ascii b) = space2 a b.
Proof.
  unfold space2. destruct (lower_byte a) as [->|[? ->]], (lower_byte b) as [->|[? ->]]; try done; lia.
Qed.
Lemma lower_space3 a b c : space3 (lower_ascii a) (lower_ascii b) (lower_ascii c) = space3 a b c.
Proof.
  unfold space3, in_range.
  destruct (lower_byte a) as [->|[? ->]], (lower_byte b) as [->|[? ->]], (lower_byte c) as [->|[? ->]];
    try done; lia.
Qed.

Lemma trim_map is2 is3 s :
  (forall a b, is2 (lower_ascii a) (lower_ascii b) = is2 a b) ->
  (forall a b c, is3 (lower_ascii a) (lower_ascii b) (lower_ascii c) = is3 a b c) ->
  trim is2 is3 (map lower_ascii s) = map lower_ascii (trim is2 is3 s).
Proof.
  intros H2 H3. remember (length s) as n eqn:Hn. revert s Hn.
  induction n as [n IH] using lt_wf_ind; intros [|a s1] ->; [done|].
  cbn [map trim]. rewrite lower_space1. destruct (space1 a); [by eapply IH; [|reflexivity]; cbn; lia|].
  destruct s1 as [|b s2]; [done|]. cbn [map]. rewrite H2.
  destruct (is2 a b); [by eapply IH; [|reflexivity]; cbn; lia|].
  destruct s2 as [|c s3]; [done|]. cbn [map]. rewrite H3.
  destruct (is3 a b c); [by eapply IH; [|reflexivity]; cbn; lia|done].
Qed.

Lemma map_ascii_list f s : String.list_ascii_of_string (map_ascii f s) = map f (String.list_ascii_of_string s).
Proof. induction s as [|a s IH]; [done|]. cbn. by rewrite IH. Qed.
Lemma map_ascii_string f l : map_ascii f (String.string_of_list_ascii l) = String.string_of_list_ascii (map f l).
Proof. induction l as [|a l IH]; [done|]. cbn. by rewrite IH. Qed.

Lemma TrimSpace_ToLower s : TrimSpace (ToLower s) = ToLower (TrimSpace s).
Proof.
  unfold TrimSpace, ToLower. rewrite map_ascii_list, map_ascii_string. f_equal.
  unfold trimRight, trimLeft. rewrite trim_map by auto using lower_space2, lower_space3.
  rewrite <- map_rev, trim_map, map_rev; auto using lower_space2, lower_space3.
Qed.

Lemma normalizeName_idem s : normalizeName (normalizeName s) = normalizeName s.
Proof.
  unfold normalizeName. rewrite TrimSpace_ToLower, TrimSpace_idem.
  unfold ToLower. induction (TrimSpace s) as [|a s' IH]; [done|]. cbn. by rewrite lower_idem, IH.
Qed.

#[global] Arguments normalizeName : simpl never.
