(* ===== verification/TenancyTheorems.v ===== *)
(** * Correctness of the tenancy handlers

    Uniqueness and ownership invariants and the administrator guard. *)
From S2P Require Import Prelude GoStrings Digest Model Store Lifecycle OperationSystem OperationRuns Collections Organizations.

(** ** Calls *)

Inductive TenancyCall : Type :=
| TCreateOrganization (org : Organization) (actor : string)
| TUpdateOrganization (id : string) (expected : Z) (displayName name actor : string)
| TCreateProject (p : Project) (actor : string)
| TUpsertMembership (m : OrganizationMembership) (expected : Z) (actor : string)
| TRevokeMembership (organizationID subject : string) (expected : Z) (actor : string).

Definition tenancy_exec (c : TenancyCall) : MemoryStore -> MemoryStore * option Error :=
  match c with
  | TCreateOrganization org actor => run1 (CreateOrganization org actor)
  | TUpdateOrganization id e dn n actor => run1 (UpdateOrganization id e dn n actor)
  | TCreateProject p actor => run1 (CreateProject p actor)
  | TUpsertMembership m e actor => run1 (UpsertOrganizationMembership m e actor)
  | TRevokeMembership o subj e actor => run1 (RevokeOrganizationMembership o subj e actor)
  end.

(** ** The invariant *)

Record tenancy_wf (s : MemoryStore) : Prop := {
  tn_gen : forall n m p q, ms_id s n p = ms_id s m q -> n = m;
  tn_filed : filed s (ms_organizations s);
  tn_org_names : forall k1 k2 o1 o2, ms_organizations s !! k1 = Some o1 -> ms_organizations s !! k2 = Some o2 ->
    normalizeName (org_Name o1) = normalizeName (org_Name o2) -> k1 = k2;
  tn_project_names : forall k1 k2 p1 p2, ms_projects s !! k1 = Some p1 -> ms_projects s !! k2 = Some p2 ->
    prj_OrganizationID p1 = prj_OrganizationID p2 ->
    normalizeName (prj_Name p1) = normalizeName (prj_Name p2) -> k1 = k2;
  tn_memberships : forall k1 k2 m1 m2, ms_organizationMemberships s !! k1 = Some m1 ->
    ms_organizationMemberships s !! k2 = Some m2 -> mem_OrganizationID m1 = mem_OrganizationID m2 ->
    mem_Subject m1 = mem_Subject m2 -> k1 = k2;
  tn_project_owner : forall k p, ms_projects s !! k = Some p -> is_Some (ms_organizations s !! prj_OrganizationID p);
  tn_membership_owner : forall k m, ms_organizationMemberships s !! k = Some m ->
    is_Some (ms_organizations s !! mem_OrganizationID m);
}.

Lemma owner_insert (orgs : gmap string Organization) k o x :
  is_Some (orgs !! x) -> is_Some (<[k := o]> orgs !! x).
Proof. intros H. destruct (decide (k = x)) as [->|]; [rewrite lookup_insert_eq|rewrite lookup_insert_ne]; eauto. Qed.

Section preserve.
Context (s : MemoryStore) (Hwf : tenancy_wf s).
Local Abbreviation keeps m := (wp m (fun _ s' => tenancy_wf s') s).

(** a call that stores nothing of the tenancy *)
Lemma wf_same s' :
  drawn s s' -> ms_organizations s' = ms_organizations s -> ms_projects s' = ms_projects s ->
  ms_organizationMemberships s' = ms_organizationMemberships s -> tenancy_wf s'.
Proof.
  intros Hd Ho Hp Hm. destruct Hwf. split; rewrite ?Ho, ?Hp, ?Hm, ?(dr_gen _ _ Hd); eauto using filed_mono.
Qed.

(** a new organization record under the key [k] *)
Lemma wf_organization s' k o ms :
  drawn s s' -> filed s' (<[k := o]> (ms_organizations s)) ->
  ms_organizations s' = <[k := o]> (ms_organizations s) -> ms_projects s' = ms_projects s ->
  ms_organizationMemberships s' = ms ->
  (forall k' o', ms_organizations s !! k' = Some o' ->
     normalizeName (org_Name o) = normalizeName (org_Name o') -> k' = k) ->
  (forall k1 k2 m1 m2, ms !! k1 = Some m1 -> ms !! k2 = Some m2 ->
     mem_OrganizationID m1 = mem_OrganizationID m2 -> mem_Subject m1 = mem_Subject m2 -> k1 = k2) ->
  (forall k' m, ms !! k' = Some m -> is_Some (<[k := o]> (ms_organizations s) !! mem_OrganizationID m)) ->
  tenancy_wf s'.
Proof.
  intros Hd Hf Ho Hp Hm Hname Hmu Hmo.
  split; rewrite ?Ho, ?Hp, ?Hm, ?(dr_gen _ _ Hd); try apply Hwf; try done.
  - eapply (unique_insert (fun a b => normalizeName (org_Name a) = normalizeName (org_Name b)));
      [by intros|apply Hwf|done].
  - intros k' p Hk. by apply owner_insert, (tn_project_owner _ Hwf _ _ Hk).
Qed.

(** a membership record under the key [k] *)
Lemma wf_membership s' k v :
  drawn s s' -> ms_organizations s' = ms_organizations s -> ms_projects s' = ms_projects s ->
  ms_organizationMemberships s' = <[k := v]> (ms_organizationMemberships s) ->
  is_Some (ms_organizations s !! mem_OrganizationID v) ->
  (forall k' m, ms_organizationMemberships s !! k' = Some m ->
     mem_OrganizationID v = mem_OrganizationID m -> mem_Subject v = mem_Subject m -> k' = k) ->
  tenancy_wf s'.
Proof.
  intros Hd Ho Hp Hm Hown Hu.
  split; rewrite ?Ho, ?Hp, ?Hm, ?(dr_gen _ _ Hd); try apply Hwf; try done.
  - eapply filed_mono; [done|apply Hwf].
  - intros k1 k2 m1 m2 H1 H2 E1 E2.
    eapply (unique_insert (fun a b => mem_OrganizationID a = mem_OrganizationID b /\ mem_Subject a = mem_Subject b));
      [by intros ?? []| | |exact H1|exact H2|done].
    + intros ? ? ? ? ? ? []. by eapply (tn_memberships _ Hwf).
    + intros ? ? ? []. by eapply Hu.
  - intros k' m Hk. apply lookup_insert_Some in Hk as [[_ <-]|[_ Hk]]; [done|].
    by apply (tn_membership_owner _ Hwf _ _ Hk).
Qed.

Lemma create_organization_keeps org actor : keeps (CreateOrganization org actor).
Proof.
  unfold CreateOrganization; unfold_puts. wp_go; try (apply wf_same; done || drawing).
  all: assert (Hname : forall k' o', ms_organizations s !! k' = Some o' ->
         normalizeName (normalizeName (org_Name org)) = normalizeName (org_Name o') -> k' = fresh s "org")
    by (rewrite map_any_false in H0; intros k' o' Hk; specialize (H0 _ _ Hk); cbv beta in H0; norm_bool;
        rewrite normalizeName_idem; congruence).
  all: eapply (wf_organization _ (fresh s "org")); try done; try drawing.
  1, 4: by apply (filed_insert s); [drawing|cbn; lia|apply Hwf].
  - intros k1 k2 m1 m2 H1' H2' E1 E2. cbn in H1', H2'.
    eapply (unique_insert (fun a b => mem_OrganizationID a = mem_OrganizationID b /\ mem_Subject a = mem_Subject b));
      [by intros ?? []| | |exact H1'|exact H2'|done].
    + intros ? ? ? ? ? ? []. by eapply (tn_memberships _ Hwf).
    + intros k' b Hk [E _]. cbn in E. destruct (tn_membership_owner _ Hwf _ _ Hk) as [o Ho].
      rewrite <- E in Ho. destruct (tn_filed _ Hwf _ _ Ho) as (n & p & Hn & Hx).
      unfold fresh in Hx. cbn in Hx. apply (tn_gen _ Hwf) in Hx. lia.
  - intros k' m Hk. cbn in Hk. apply lookup_insert_Some in Hk as [[_ <-]|[_ Hk]].
    + cbn. rewrite lookup_insert_eq. eauto.
    + by apply owner_insert, (tn_membership_owner _ Hwf _ _ Hk).
  - apply (tn_memberships _ Hwf).
  - intros k' m Hk. by apply owner_insert, (tn_membership_owner _ Hwf _ _ Hk).
Qed.

Lemma update_organization_keeps id e dn n actor : keeps (UpdateOrganization id e dn n actor).
Proof.
  unfold UpdateOrganization; unfold_puts. wp_go; try (apply wf_same; done || drawing).
  eapply (wf_organization _ id _ (ms_organizationMemberships s)); try done; try drawing.
  - intros k v Hk. apply lookup_insert_Some in Hk as [[<- _]|[_ Hk]];
      (eapply filed_mono; [|apply Hwf|eassumption]); drawing.
  - intros k' o' Hk Hn. destruct (decide (k' = id)) as [|Hne]; [done|].
    destruct (decide (n = "")) as [->|Hn0].
    + apply (tn_org_names _ Hwf k' id o' a); [done|done|].
      change (bool_decide ("" = "")) with true in Hn. cbn [negb] in Hn.
      destruct (negb (bool_decide (dn = ""))); symmetry; exact Hn.
    + rewrite (bool_decide_eq_false_2 (n = "")) in * by done. cbn in H2. rewrite map_any_false in H2.
      specialize (H2 _ _ Hk). cbv beta in H2. rewrite bool_decide_eq_false_2 in H2 by done. cbn in H2.
      norm_bool.
      assert (Hn' : normalizeName (normalizeName n) = normalizeName (org_Name o'))
        by (destruct (negb (bool_decide (dn = ""))); exact Hn).
      rewrite normalizeName_idem in Hn'. congruence.
  - apply (tn_memberships _ Hwf).
  - intros k' m Hk. by apply owner_insert, (tn_membership_owner _ Hwf _ _ Hk).
Qed.

Lemma create_project_keeps p actor : keeps (CreateProject p actor).
Proof.
  unfold CreateProject; unfold_puts. wp_go; try (apply wf_same; done || drawing).
  rewrite map_any_false in H1.
  split; cbn -[filed fresh]; try apply Hwf.
  - eapply (filed_mono s); [drawing|apply Hwf].
  - intros k1 k2 p1 p2 H1' H2' E1 E2.
    eapply (unique_insert (fun a b => prj_OrganizationID a = prj_OrganizationID b /\
              normalizeName (prj_Name a) = normalizeName (prj_Name b)));
      [by intros ?? []| | |exact H1'|exact H2'|done].
    + intros ? ? ? ? ? ? []. by eapply (tn_project_names _ Hwf).
    + intros k' b Hk [E3 E4]. cbn in E3, E4. specialize (H1 _ _ Hk). cbv beta in H1.
      rewrite normalizeName_idem in E4. rewrite E3, E4, !bool_decide_eq_true_2 in H1 by done. discriminate H1.
  - intros k q Hk. apply lookup_insert_Some in Hk as [[_ <-]|[_ Hk]]; [cbn; eauto|].
    by apply (tn_project_owner _ Hwf _ _ Hk).
Qed.

Lemma upsert_membership_keeps m e actor : keeps (UpsertOrganizationMembership m e actor).
Proof.
  unfold UpsertOrganizationMembership; unfold_puts. wp_go; try (apply wf_same; done || drawing).
  - apply map_find_Some in Heqo as [Hk Hb]. unfold isMembership in Hb. norm_bool. cbn in *.
    eapply (wf_membership _ s0); try done; try drawing; cbn; [by apply (tn_membership_owner _ Hwf _ _ Hk)|].
    intros k' m' Hk' E1 E2. by apply (tn_memberships _ Hwf k' s0 m' o).
  - eapply wf_membership; try done; try drawing; cbn.
    intros k' m' Hk' E1 E2. rewrite map_find_None in Heqo. specialize (Heqo _ _ Hk').
    unfold isMembership in Heqo. cbn in Heqo.
    rewrite <- E1, <- E2, !bool_decide_eq_true_2 in Heqo by done. discriminate Heqo.
Qed.

Lemma revoke_membership_keeps o subj e actor : keeps (RevokeOrganizationMembership o subj e actor).
Proof.
  unfold RevokeOrganizationMembership; unfold_puts. wp_go; try (apply wf_same; done || drawing).
  apply map_find_Some in H as [Hk Hb]. unfold isMembership in Hb. norm_bool.
  eapply wf_membership; try done; try drawing; cbn.
  - by apply (tn_membership_owner _ Hwf _ _ Hk).
  - intros k' m' Hk' E1 E2. by eapply (tn_memberships _ Hwf).
Qed.

Lemma tenancy_call_keeps c : tenancy_wf (tenancy_exec c s).1.
Proof.
  destruct c.
  - exact (create_organization_keeps org actor).
  - exact (update_organization_keeps id expected displayName name actor).
  - exact (create_project_keeps p actor).
  - exact (upsert_membership_keeps m expected actor).
  - exact (revoke_membership_keeps organizationID subject expected actor).
Qed.
End preserve.

(** ** Invariants of every history *)

Definition tenancy_run (cs : list TenancyCall) (s : MemoryStore) : MemoryStore :=
  foldl (fun s c => (tenancy_exec c s).1) s cs.

Lemma tenancy_run_wf cs s : tenancy_wf s -> tenancy_wf (tenancy_run cs s).
Proof. revert s. induction cs as [|c cs IH]; intros s H; [done|]. apply IH. by apply tenancy_call_keeps. Qed.

Lemma new_store_tenancy now id : id_source id -> tenancy_wf (NewMemoryStoreWith now id).
Proof.
  intros Hid. split; cbn; try exact Hid.
  all: intros k v; intros; rewrite ?lookup_empty in *; try discriminate.
Qed.

(** C39: tenancy invariant.  After any sequence of tenancy calls, two organizations
    never share a normalized name, two projects of an organization never share a
    normalized name, a subject has at most one membership per organization, and
    every project and membership belongs to an existing organization. *)
Theorem tenancy_histories_are_well_formed now id cs :
  id_source id -> tenancy_wf (tenancy_run cs (NewMemoryStoreWith now id)).
Proof.
  intros Hid. by apply tenancy_run_wf, new_store_tenancy.
Qed.

Definition demo_org : Organization := mkOrganization (newMeta "" 0) " Acme " "Acme Inc".
Definition demo_ids (n : nat) (p : string) : string := pretty n.
Lemma demo_ids_source : id_source demo_ids.
Proof. intros n m p q H. exact (inj pretty _ _ H). Qed.

Lemma tenancy_histories_are_well_formed_witness :
  tenancy_wf (tenancy_run [TCreateOrganization demo_org "alice"; TCreateOrganization demo_org "bob"]
    (NewMemoryStoreWith (fun _ => 0) demo_ids)).
Proof. apply tenancy_histories_are_well_formed. apply demo_ids_source. Defined.

(** ** Administrators *)

Definition has_admin (s : MemoryStore) (organizationID : string) : Prop :=
  exists k m, ms_organizationMemberships s !! k = Some m /\ activeAdmin organizationID k m = true.

(** two entries satisfy the test when the count is at least two *)
Lemma map_count_two {V} (P : string -> V -> bool) (m : gmap string V) k :
  (1 < map_count P m)%nat -> exists k' v, k' <> k /\ m !! k' = Some v /\ P k' v = true.
Proof.
  unfold map_count, map_select. rewrite length_fmap. intros H.
  pose proof (NoDup_fst_map_to_list m) as Hnd.
  assert (Hin : forall kv, kv ∈ List.filter (fun kv => P kv.1 kv.2) (map_to_list m) ->
            m !! kv.1 = Some kv.2 /\ P kv.1 kv.2 = true).
  { intros [k1 v1] Hkv. apply list_elem_of_In, filter_In in Hkv as [Hkv HP].
    split; [|done]. by apply elem_of_map_to_list, list_elem_of_In. }
  assert (Hnd' : NoDup (List.filter (fun kv => P kv.1 kv.2) (map_to_list m)).*1).
  { revert Hnd. generalize (map_to_list m). induction l as [|x l IH]; cbn; [done|]. intros Hx.
    apply NoDup_cons in Hx as [Hx1 Hx2]. destruct (P x.1 x.2); [|by apply IH].
    cbn. apply NoDup_cons. split; [|by apply IH]. intros Hc. apply Hx1.
    apply list_elem_of_fmap in Hc as (y & -> & Hy). apply list_elem_of_fmap. exists y. split; [done|].
    apply list_elem_of_In in Hy. apply filter_In in Hy as [Hy _]. by apply list_elem_of_In. }
  destruct (List.filter _ (map_to_list m)) as [|[k1 v1] [|[k2 v2] rest]]; cbn in H; [lia|lia|].
  destruct (decide (k1 = k)) as [->|Hne].
  - destruct (Hin (k2, v2)) as [H2 P2]; [right; left|]. exists k2, v2. split; [|done].
    intros ->. apply NoDup_cons in Hnd' as [Hx _]. apply Hx. left.
  - destruct (Hin (k1, v1)) as [H1 P1]; [left|]. by exists k1, v1.
Qed.

(** The last administrator cannot be revoked.  A revocation that is accepted
    leaves an organization that had an active administrator with one, and takes
    away nobody else's membership. *)
Theorem revocation_keeps_an_administrator organizationID subject expected actor s s' m org :
  RevokeOrganizationMembership organizationID subject expected actor s = (s', Ok m) ->
  has_admin s org -> has_admin s' org /\
  forall k x, ms_organizationMemberships s !! k = Some x ->
    isMembership (TrimSpace organizationID) (TrimSpace subject) k x = false ->
    ms_organizationMemberships s' !! k = Some x.
Proof.
  intros Hc Ha. revert m Hc.
  assert (H : wp (RevokeOrganizationMembership organizationID subject expected actor) (fun r s' =>
    match r with Fail _ => True | Ok _ => has_admin s' org /\
      forall k x, ms_organizationMemberships s !! k = Some x ->
        isMembership (TrimSpace organizationID) (TrimSpace subject) k x = false ->
        ms_organizationMemberships s' !! k = Some x end) s).
  2: { intros m Hc. exact (wp_run _ _ _ _ _ H Hc). }
  unfold RevokeOrganizationMembership; unfold_puts. wp_go; try exact I; [by split|].
  apply map_find_Some in H as [Hk Hb]. split.
  - destruct Ha as (k & x & Hx & Hadm). destruct (decide (k = s0)) as [->|Hne].
    + assert (x = o) as -> by congruence. unfold activeAdmin in Hadm. norm_bool.
      unfold isMembership in Hb. norm_bool.
      rewrite bool_decide_eq_true_2 in H3 by done. cbn [andb] in H3.
      apply Nat.leb_gt in H3. apply (map_count_two _ _ s0) in H3 as (k' & v & Hne & Hv & HP).
      exists k', v. cbn. rewrite lookup_insert_ne by done. split; [done|]. congruence.
    + exists k, x. cbn. by rewrite lookup_insert_ne.
  - intros k x Hx Hnb. cbn. rewrite lookup_insert_ne; [done|]. intros <-. congruence.
Qed.

(** an organization with the administrators alice and bob *)
Definition demo_admins : list TenancyCall :=
  [TCreateOrganization demo_org "alice";
   TUpsertMembership (mkOrganizationMembership (newMeta "" 0) "0" "bob" OrganizationAdmin
     OrganizationMembershipActive "" "" None) 0 "alice"].
Definition demo_tenancy (cs : list TenancyCall) : MemoryStore :=
  tenancy_run cs (NewMemoryStoreWith (fun _ => 0) demo_ids).

Lemma has_admin_eval s org :
  map_any (activeAdmin org) (ms_organizationMemberships s) = true -> has_admin s org.
Proof. intros H. apply map_any_true in H as (k & m & Hk & Ha). by exists k, m. Qed.

Lemma revocation_keeps_an_administrator_witness :
  exists s' m, RevokeOrganizationMembership "0" "alice" 1 "bob" (demo_tenancy demo_admins) = (s', Ok m) /\
    has_admin s' "0".
Proof.
  assert (Hv : match (RevokeOrganizationMembership "0" "alice" 1 "bob" (demo_tenancy demo_admins)).2 with
               | Ok _ => true | Fail _ => false end = true) by (vm_compute; reflexivity).
  destruct (RevokeOrganizationMembership "0" "alice" 1 "bob" (demo_tenancy demo_admins)) as [s' [m|e]] eqn:E;
    [|discriminate Hv].
  exists s', m. split; [reflexivity|].
  apply (revocation_keeps_an_administrator "0" "alice" 1 "bob" (demo_tenancy demo_admins) s' m "0" E).
  apply has_admin_eval. vm_compute. reflexivity.
Defined.

(** The administrator guard has a gap.  The same organization can lose its
    last administrator through a grant: changing the role of the only active
    administrator's membership is accepted and leaves the organization without
    any, although revoking that membership is refused. *)
Theorem grant_can_demote_the_last_administrator s k m expected actor role :
  (forall k' m', ms_organizationMemberships s !! k' = Some m' ->
     activeAdmin (mem_OrganizationID m) k' m' = true -> k' = k) ->
  tenancy_wf s -> ms_organizationMemberships s !! k = Some m ->
  TrimSpace (mem_OrganizationID m) = mem_OrganizationID m -> TrimSpace (mem_Subject m) = mem_Subject m ->
  mem_Subject m <> "" -> 0 < expected -> rm_Revision (mem_Meta m) = expected ->
  validOrganizationMembershipRole role = true -> role <> OrganizationAdmin ->
  exists s' m', UpsertOrganizationMembership (m <| mem_Role := role |>) expected actor s = (s', Ok m') /\
    ~ has_admin s' (mem_OrganizationID m).
Proof.
  intros Huniq Hwf Hk Ho Hs Hs0 He Hrev Hr Hra.
  assert (Hf : map_find (isMembership (mem_OrganizationID m) (mem_Subject m)) (ms_organizationMemberships s) = Some (k, m)).
  { apply map_find_unique; [done|unfold isMembership; by rewrite !bool_decide_eq_true_2|].
    intros k' m' Hk' Hb. unfold isMembership in Hb. norm_bool. by eapply (tn_memberships _ Hwf). }
  destruct (tn_membership_owner _ Hwf _ _ Hk) as [org Horg].
  assert (H : wp (UpsertOrganizationMembership (m <| mem_Role := role |>) expected actor)
    (fun r s' => (exists m', r = Ok m') /\ ~ has_admin s' (mem_OrganizationID m)) s).
  { unfold UpsertOrganizationMembership; unfold_puts. cbn -[TrimSpace]. rewrite Ho, Hs.
    wp_go; try congruence.
    - exfalso. rewrite Hr in *. cbn in *. rewrite orb_false_r in *. norm_bool. done.
    - exfalso. match goal with H : (_ || _) = true |- _ => apply orb_true_iff in H as [H|H] end; norm_bool; [lia|].
      cbn in *. congruence.
    - split; [eauto|]. intros (k' & x & Hx & Ha). cbn in Hx.
      assert (E : s0 = k /\ o = m) by (rewrite Hf in Heqo; by simplify_eq). destruct E as [-> ->].
      apply lookup_insert_Some in Hx as [[<- <-]|[Hne Hx]].
      + unfold activeAdmin in Ha. cbn in Ha. norm_bool. done.
      + by apply Hne, symmetry, (Huniq _ _ Hx). }
  unfold wp in H. destruct (UpsertOrganizationMembership _ _ _ s) as [s' r]. cbn in H.
  destruct H as [[m' ->] Hn]. eauto.
Qed.

Definition demo_sole : OrganizationMembership :=
  mkOrganizationMembership (newMeta "1" 0) "0" "alice" OrganizationAdmin OrganizationMembershipActive "alice" "" None.

Lemma grant_can_demote_the_last_administrator_witness :
  exists s' m', UpsertOrganizationMembership (demo_sole <| mem_Role := OrganizationViewer |>) 1 "alice"
      (demo_tenancy (take 1 demo_admins)) = (s', Ok m') /\ ~ has_admin s' "0".
Proof.
  assert (Hm : ms_organizationMemberships (demo_tenancy (take 1 demo_admins)) = {["1" := demo_sole]})
    by (vm_compute; reflexivity).
  apply (grant_can_demote_the_last_administrator (demo_tenancy (take 1 demo_admins)) "1" demo_sole 1 "alice"
           OrganizationViewer); try reflexivity; try discriminate.
  - intros k' m' Hk _. rewrite Hm in Hk. apply lookup_singleton_Some in Hk as [<- _]. reflexivity.
  - apply tenancy_run_wf, new_store_tenancy, demo_ids_source.
Defined.
