(* ===== verification/FleetGateway.v ===== *)
(** * Fleet agent gateway sessions

    [fleet_gateway_session.go] and [fleet_gateway_session_store.go]: a cluster
    agent opens a mutually authenticated session with a new epoch, keeps it
    alive by heartbeats, and at most one session per cluster is live.
    [time.Time] zero values are the number 0. *)
From S2P Require Import Prelude GoStrings Digest Model Calendar Store Operations.

Definition FleetAgentGatewaySessionAuthority : string := "FLEET_AGENT_GATEWAY_SESSION_AUTHORITY_V1".
Definition FleetGatewaySessionActive : string := "ACTIVE".
Definition FleetGatewaySessionDraining : string := "DRAINING".
Definition FleetGatewaySessionClosed : string := "CLOSED".

(** the admission decisions *)
Inductive FleetGatewayDecision : Type :=
| FleetGatewayAdmissionNew
| FleetGatewayAdmissionReplay
| FleetGatewayAdmissionReplaceStale
| FleetGatewayAdmissionReject.
#[export] Instance FleetGatewayDecision_eq_dec : EqDecision FleetGatewayDecision.
Proof. solve_decision. Defined.

(** [SessionStaleSeconds] of [FleetGatewayTransportPolicyModel] *)
Definition SessionStaleSeconds : Z := 180.

(** [FleetGatewaySessionRequest] *)
Record FleetGatewaySessionRequest := mkFleetGatewaySessionRequest {
  fr_SessionID : string;
  fr_ClusterID : string;
  fr_ExternalUID : string;
  fr_CertificateID : string;
  fr_CertificateFingerprint : string;
  fr_Epoch : Z;
  fr_Transport : string;
  fr_TargetInitiated : bool;
  fr_MutualTLS : bool;
  fr_GatewayInstanceID : string;
}.

(** [FleetGatewaySessionAdmission]: the decision and the session it concerns
    (the authority and reason texts are determined by them) *)
Record FleetGatewaySessionAdmission := mkFleetGatewaySessionAdmission {
  fa_Decision : FleetGatewayDecision;
  fa_Session : option FleetGatewaySession;
}.

Definition normalizeFleetGatewaySessionRequest (in_ : FleetGatewaySessionRequest)
    : result FleetGatewaySessionRequest :=
  let out := mkFleetGatewaySessionRequest (TrimSpace (fr_SessionID in_)) (TrimSpace (fr_ClusterID in_))
               (TrimSpace (fr_ExternalUID in_)) (TrimSpace (fr_CertificateID in_))
               (ToLower (TrimSpace (fr_CertificateFingerprint in_))) (fr_Epoch in_)
               (ToLower (TrimSpace (fr_Transport in_))) (fr_TargetInitiated in_) (fr_MutualTLS in_)
               (TrimSpace (fr_GatewayInstanceID in_)) in
  if (fr_SessionID out == "") || (fr_ClusterID out == "") || (fr_ExternalUID out == "")
     || (fr_CertificateID out == "") || (fr_GatewayInstanceID out == "") || (fr_Epoch out <=? 0)
  then Fail ErrValidation else
  if (fr_Transport out != "wss") || negb (fr_TargetInitiated out) || negb (fr_MutualTLS out)
  then Fail ErrValidation else
  if negb (HasPrefix (fr_CertificateFingerprint out) sha256_prefix) then Fail ErrValidation else Ok out.

(** [secureEqual]: constant-time equality *)
Definition secureEqual (a b : string) : bool := a == b.

Definition admitNext (req : FleetGatewaySessionRequest) (decision : FleetGatewayDecision) (now : Time)
    : FleetGatewaySessionAdmission :=
  mkFleetGatewaySessionAdmission decision
    (Some (mkFleetGatewaySession FleetAgentGatewaySessionAuthority (fr_SessionID req) (fr_ClusterID req)
             (fr_ExternalUID req) (fr_CertificateID req) (fr_CertificateFingerprint req) (fr_Epoch req)
             FleetGatewaySessionActive (fr_GatewayInstanceID req) now now None None)).

Definition rejectAdmission : FleetGatewaySessionAdmission :=
  mkFleetGatewaySessionAdmission FleetGatewayAdmissionReject None.

(** the certificate authenticates the request for this cluster at [now] *)
Definition certificateMatches (cluster : ManagedCluster) (cert : AgentCertificate)
    (req : FleetGatewaySessionRequest) (now : Time) : bool :=
  (rm_ID (ac_Meta cert) == fr_CertificateID req) && (ac_ClusterID cert == rm_ID (mc_Meta cluster))
  && (ac_State cert == AgentCertificateActive)
  && secureEqual (ToLower (TrimSpace (ac_Fingerprint cert))) (fr_CertificateFingerprint req)
  && negb (now <? ac_NotBefore cert) && (now <? ac_NotAfter cert).

Definition exactReplay (current : FleetGatewaySession) (req : FleetGatewaySessionRequest) : bool :=
  (gs_SessionID current == fr_SessionID req) && (gs_Epoch current == fr_Epoch req)
  && (gs_CertificateID current == fr_CertificateID req)
  && (gs_GatewayInstanceID current == fr_GatewayInstanceID req)
  && secureEqual (gs_CertificateFingerprint current) (fr_CertificateFingerprint req).

Definition AdmitFleetGatewaySessionWithLatestEpoch (cluster : ManagedCluster) (cert : AgentCertificate)
    (req : FleetGatewaySessionRequest) (current : option FleetGatewaySession) (latestEpoch : Z) (now : Time)
    : result FleetGatewaySessionAdmission :=
  match normalizeFleetGatewaySessionRequest req with
  | Fail e => Fail e
  | Ok req =>
      if now == 0 then Fail ErrValidation else
      if latestEpoch <? 0 then Fail ErrValidation else
      if (rm_ID (mc_Meta cluster) != fr_ClusterID req) || (TrimSpace (mc_ExternalUID cluster) != fr_ExternalUID req)
         || (mc_ConnectionState cluster == "REVOKED") then Fail ErrValidation else
      if negb (certificateMatches cluster cert req now) then Fail ErrValidation else
      match current with
      | None =>
          if (0 <? latestEpoch) && (fr_Epoch req <=? latestEpoch) then Ok rejectAdmission
          else Ok (admitNext req FleetGatewayAdmissionNew now)
      | Some c =>
          if gs_ClusterID c != rm_ID (mc_Meta cluster) then Fail ErrValidation else
          if latestEpoch <? gs_Epoch c then Fail ErrConflict else
          if gs_State c == FleetGatewaySessionActive then
            if exactReplay c req then
              if latestEpoch != gs_Epoch c then Fail ErrConflict
              else Ok (mkFleetGatewaySessionAdmission FleetGatewayAdmissionReplay (Some c))
            else
            if negb (SessionStaleSeconds * Second <? now - gs_LastHeartbeatAt c) then Ok rejectAdmission else
            if latestEpoch != gs_Epoch c then Fail ErrConflict else
            if fr_Epoch req <=? latestEpoch then Ok rejectAdmission
            else Ok (admitNext req FleetGatewayAdmissionReplaceStale now)
          else if gs_State c == FleetGatewaySessionDraining then Ok rejectAdmission
          else if gs_State c == FleetGatewaySessionClosed then
            if (0 <? latestEpoch) && (fr_Epoch req <=? latestEpoch) then Ok rejectAdmission
            else Ok (admitNext req FleetGatewayAdmissionNew now)
          else Fail ErrValidation
      end
  end.

Definition AdmitFleetGatewaySession (cluster : ManagedCluster) (cert : AgentCertificate)
    (req : FleetGatewaySessionRequest) (current : option FleetGatewaySession) (now : Time)
    : result FleetGatewaySessionAdmission :=
  AdmitFleetGatewaySessionWithLatestEpoch cluster cert req current
    (match current with Some c => gs_Epoch c | None => 0 end) now.

Definition HeartbeatFleetGatewaySession (in_ : FleetGatewaySession) (sessionID : string) (epoch : Z) (at_ : Time)
    : result FleetGatewaySession :=
  if (gs_Authority in_ != FleetAgentGatewaySessionAuthority) || (gs_State in_ != FleetGatewaySessionActive)
     || (TrimSpace sessionID != gs_SessionID in_) || (epoch != gs_Epoch in_) || (at_ == 0)
     || (at_ <? gs_LastHeartbeatAt in_) then Fail ErrValidation
  else Ok (in_ <| gs_LastHeartbeatAt := at_ |>).

Definition DrainFleetGatewaySession (in_ : FleetGatewaySession) (at_ : Time) : result FleetGatewaySession :=
  if (gs_Authority in_ != FleetAgentGatewaySessionAuthority) || (gs_State in_ != FleetGatewaySessionActive)
     || (at_ == 0) || (at_ <? gs_ConnectedAt in_) then Fail ErrInvalidTransition
  else Ok (in_ <| gs_State := FleetGatewaySessionDraining |> <| gs_DrainRequestedAt := Some at_ |>).

Definition CloseFleetGatewaySession (in_ : FleetGatewaySession) (at_ : Time) : result FleetGatewaySession :=
  if (gs_Authority in_ != FleetAgentGatewaySessionAuthority)
     || ((gs_State in_ != FleetGatewaySessionActive) && (gs_State in_ != FleetGatewaySessionDraining))
     || (at_ == 0) || (at_ <? gs_ConnectedAt in_) then Fail ErrInvalidTransition
  else Ok (in_ <| gs_State := FleetGatewaySessionClosed |> <| gs_ClosedAt := Some at_ |>).

Definition FleetGatewaySessionMayDispatch (in_ : FleetGatewaySession) (now : Time) : bool :=
  (gs_Authority in_ == FleetAgentGatewaySessionAuthority) && (gs_State in_ == FleetGatewaySessionActive)
  && negb (now <? gs_LastHeartbeatAt in_)
  && (now - gs_LastHeartbeatAt in_ <=? SessionStaleSeconds * Second).

(** ** The store *)

Definition liveSession (clusterID : string) (v : FleetGatewaySession) : bool :=
  (gs_ClusterID v == clusterID)
  && ((gs_State v == FleetGatewaySessionActive) || (gs_State v == FleetGatewaySessionDraining)).

(** the loop fails as soon as it meets a second live session *)
Definition fleetGatewaySessionCurrent (values : gmap string FleetGatewaySession) (clusterID : string)
    : result (option FleetGatewaySession) :=
  match map_select (fun _ v => liveSession clusterID v) values with
  | [] => Ok None
  | [v] => Ok (Some v)
  | _ => Fail ErrConflict
  end.

Fixpoint latestLoop (clusterID : string) (values : list FleetGatewaySession) (latest : option FleetGatewaySession)
    : result (option FleetGatewaySession) :=
  match values with
  | [] => Ok latest
  | v :: rest =>
      if gs_ClusterID v != clusterID then latestLoop clusterID rest latest else
      match latest with
      | None => latestLoop clusterID rest (Some v)
      | Some l =>
          if gs_Epoch l <? gs_Epoch v then latestLoop clusterID rest (Some v) else
          if (gs_Epoch v == gs_Epoch l) && (gs_SessionID v != gs_SessionID l) then Fail ErrConflict
          else latestLoop clusterID rest latest
      end
  end.

Definition fleetGatewaySessionLatest (values : gmap string FleetGatewaySession) (clusterID : string)
    : result (option FleetGatewaySession) :=
  latestLoop clusterID (map_to_list values).*2 None.

Definition epochOf (o : option FleetGatewaySession) : Z := match o with Some v => gs_Epoch v | None => 0 end.

(** [s.managedClusters[id].ProjectID], empty for a missing cluster *)
Definition clusterProject (s : MemoryStore) (id : string) : string :=
  match ms_managedClusters s !! id with Some c => mc_ProjectID c | None => "" end.

(** [(s *MemoryStore) AdmitFleetGatewaySession] *)
Definition StoreAdmitFleetGatewaySession (req : FleetGatewaySessionRequest) (at_ : Time) (actor : string)
    : Store FleetGatewaySessionAdmission :=
  let! s := get in
  let! cluster := get_opt (ms_managedClusters s !! TrimSpace (fr_ClusterID req)) ErrNotFound in
  let! cert := get_opt (ms_agentCertificates s !! TrimSpace (fr_CertificateID req)) ErrNotFound in
  let! current := lift (fleetGatewaySessionCurrent (ms_fleetGatewaySessions s) (rm_ID (mc_Meta cluster))) in
  let! latest := lift (fleetGatewaySessionLatest (ms_fleetGatewaySessions s) (rm_ID (mc_Meta cluster))) in
  let! admission := lift (AdmitFleetGatewaySessionWithLatestEpoch cluster cert req current (epochOf latest) at_) in
  if (fa_Decision admission == FleetGatewayAdmissionReject) || (fa_Decision admission == FleetGatewayAdmissionReplay)
  then ret admission else
  (match current with
   | Some c =>
       if fa_Decision admission == FleetGatewayAdmissionReplaceStale then
         let! closed := lift (CloseFleetGatewaySession c at_) in
         putFleetGatewaySession (gs_SessionID closed) closed
       else ret tt
   | None => ret tt
   end) ;;;
  let! session := get_opt (fa_Session admission) ErrValidation in
  putFleetGatewaySession (gs_SessionID session) session ;;;
  let action := if fa_Decision admission == FleetGatewayAdmissionReplaceStale
                then "fleet_gateway_session.replaced_stale" else "fleet_gateway_session.admitted" in
  appendAuditLocked actor action "fleetGatewaySession" (gs_SessionID session) (gs_Epoch session)
    [("projectId", MStr (mc_ProjectID cluster)); ("clusterId", MStr (rm_ID (mc_Meta cluster)));
     ("certificateId", MStr (rm_ID (ac_Meta cert))); ("epoch", MInt (gs_Epoch session));
     ("gatewayInstanceId", MStr (gs_GatewayInstanceID session))] ;;;
  appendOutboxLocked "fleetGatewaySession" (gs_SessionID session) action (PayloadFleetGatewaySession session) ;;;
  ret admission.

Definition GetFleetGatewaySession (sessionID : string) : Store FleetGatewaySession :=
  let! s := get in get_opt (ms_fleetGatewaySessions s !! TrimSpace sessionID) ErrNotFound.

Definition GetCurrentFleetGatewaySession (clusterID : string) : Store FleetGatewaySession :=
  let! s := get in
  let! current := lift (fleetGatewaySessionCurrent (ms_fleetGatewaySessions s) (TrimSpace clusterID)) in
  get_opt current ErrNotFound.

Definition GetLatestFleetGatewaySession (clusterID : string) : Store FleetGatewaySession :=
  let! s := get in
  let! latest := lift (fleetGatewaySessionLatest (ms_fleetGatewaySessions s) (TrimSpace clusterID)) in
  get_opt latest ErrNotFound.

(** [(s *MemoryStore) HeartbeatFleetGatewaySession] *)
Definition StoreHeartbeatFleetGatewaySession (clusterID sessionID : string) (epoch : Z) (certificateID : string)
    (at_ : Time) : Store FleetGatewaySession :=
  let! s := get in
  let! v := get_opt (ms_fleetGatewaySessions s !! TrimSpace sessionID) ErrNotFound in
  fail_if ((gs_ClusterID v != TrimSpace clusterID) || (gs_CertificateID v != TrimSpace certificateID)) ErrNotFound ;;;
  let! cert := get_opt (ms_agentCertificates s !! gs_CertificateID v) ErrValidation in
  fail_if ((ac_State cert != AgentCertificateActive) || (at_ <? ac_NotBefore cert) || negb (at_ <? ac_NotAfter cert))
    ErrValidation ;;;
  let! next := lift (HeartbeatFleetGatewaySession v sessionID epoch at_) in
  putFleetGatewaySession (gs_SessionID next) next ;;;
  ret next.

(** [(s *MemoryStore) DrainFleetGatewaySession] *)
Definition StoreDrainFleetGatewaySession (clusterID : string) (expectedEpoch : Z) (actor : string) (at_ : Time)
    : Store FleetGatewaySession :=
  let! s := get in
  let! current := lift (fleetGatewaySessionCurrent (ms_fleetGatewaySessions s) (TrimSpace clusterID)) in
  let! c := get_opt current ErrNotFound in
  fail_if (gs_Epoch c != expectedEpoch) ErrConflict ;;;
  let! next := lift (DrainFleetGatewaySession c at_) in
  putFleetGatewaySession (gs_SessionID next) next ;;;
  appendAuditLocked actor "fleet_gateway_session.drain_requested" "fleetGatewaySession" (gs_SessionID next) (gs_Epoch next)
    [("projectId", MStr (clusterProject s (gs_ClusterID next))); ("clusterId", MStr (gs_ClusterID next));
     ("epoch", MInt (gs_Epoch next))] ;;;
  appendOutboxLocked "fleetGatewaySession" (gs_SessionID next) "fleet_gateway_session.drain_requested"
    (PayloadFleetGatewaySession next) ;;;
  ret next.

(** [(s *MemoryStore) CloseFleetGatewaySession] *)
Definition StoreCloseFleetGatewaySession (clusterID sessionID : string) (epoch : Z) (certificateID : string)
    (at_ : Time) : Store FleetGatewaySession :=
  let! s := get in
  let! v := get_opt (ms_fleetGatewaySessions s !! TrimSpace sessionID) ErrNotFound in
  fail_if ((gs_ClusterID v != TrimSpace clusterID) || (gs_CertificateID v != TrimSpace certificateID)
           || (gs_Epoch v != epoch)) ErrNotFound ;;;
  let! next := lift (CloseFleetGatewaySession v at_) in
  putFleetGatewaySession (gs_SessionID next) next ;;;
  appendAuditLocked "cluster-agent-gateway" "fleet_gateway_session.closed" "fleetGatewaySession" (gs_SessionID next)
    (gs_Epoch next)
    [("projectId", MStr (clusterProject s (gs_ClusterID next))); ("clusterId", MStr (gs_ClusterID next));
     ("epoch", MInt (gs_Epoch next))] ;;;
  appendOutboxLocked "fleetGatewaySession" (gs_SessionID next) "fleet_gateway_session.closed"
    (PayloadFleetGatewaySession next) ;;;
  ret next.
