(* ===== verification/FleetGatewayTheorems.v ===== *)
(** * Correctness of fleet gateway sessions

    At most one live session per cluster, epochs that only grow, admission only
    with a matching active certificate. *)
From S2P Require Import Prelude GoStrings Digest Model Calendar Store Operations Lifecycle OperationSystem OperationRuns.
From S2P Require Import FleetGateway.

(** ** The invariant of the session table *)

Implicit Types (m : gmap string FleetGatewaySession) (v w : FleetGatewaySession).

Definition live (v : FleetGatewaySession) : Prop :=
  gs_State v = FleetGatewaySessionActive \/ gs_State v = FleetGatewaySessionDraining.

Record sessions_wf m : Prop := {
  gw_keyed : forall k v, m !! k = Some v -> gs_SessionID v = k;
  gw_epoch : forall k v, m !! k = Some v -> 0 < gs_Epoch v;
  gw_unique : forall k l v w, m !! k = Some v -> m !! l = Some w ->
    gs_ClusterID v = gs_ClusterID w -> gs_Epoch v = gs_Epoch w -> k = l;
  gw_live : forall k l v w, m !! k = Some v -> m !! l = Some w ->
    gs_ClusterID v = gs_ClusterID w -> live v -> gs_Epoch w <= gs_Epoch v;
}.

(** two live sessions of a cluster are the same *)
Lemma live_unique m k l v w :
  sessions_wf m -> m !! k = Some v -> m !! l = Some w -> gs_ClusterID v = gs_ClusterID w ->
  live v -> live w -> k = l.
Proof.
  intros Hwf Hk Hl Hc Hv Hw. apply (gw_unique _ Hwf k l v w); [done..|].
  pose proof (gw_live _ Hwf _ _ _ _ Hk Hl Hc Hv).
  pose proof (gw_live _ Hwf _ _ _ _ Hl Hk (eq_sym Hc) Hw). lia.
Qed.

Lemma live_spec c v : liveSession c v = true <-> gs_ClusterID v = c /\ live v.
Proof.
  unfold liveSession, live. rewrite andb_true_iff, orb_true_iff, !bool_decide_eq_true. done.
Qed.

(** a new session whose epoch is beyond the cluster's history *)
Lemma wf_admit m v :
  sessions_wf m -> 0 < gs_Epoch v ->
  (forall k w, m !! k = Some w -> gs_ClusterID w = gs_ClusterID v -> gs_Epoch w < gs_Epoch v /\ ~ live w) ->
  sessions_wf (<[gs_SessionID v := v]> m).
Proof.
  intros Hwf He Hnew. split.
  - intros k w Hk. apply lookup_insert_Some in Hk as [[<- <-]|[_ Hk]]; [done|]. by eapply gw_keyed.
  - intros k w Hk. apply lookup_insert_Some in Hk as [[<- <-]|[_ Hk]]; [done|]. by eapply gw_epoch.
  - intros k l x y Hk Hl Hc Hep.
    apply lookup_insert_Some in Hk as [[<- <-]|[_ Hk]]; apply lookup_insert_Some in Hl as [[<- <-]|[_ Hl]]; try done.
    + destruct (Hnew _ _ Hl (eq_sym Hc)). lia.
    + destruct (Hnew _ _ Hk Hc). lia.
    + by eapply gw_unique.
  - intros k l x y Hk Hl Hc Hlive.
    apply lookup_insert_Some in Hk as [[<- <-]|[_ Hk]]; apply lookup_insert_Some in Hl as [[<- <-]|[_ Hl]]; try lia.
    + destruct (Hnew _ _ Hl (eq_sym Hc)). lia.
    + by destruct (Hnew _ _ Hk Hc) as [_ []].
    + by eapply gw_live.
Qed.

(** an update that keeps identity and epoch and does not revive the session *)
Lemma wf_update m k v v' :
  sessions_wf m -> m !! k = Some v -> gs_SessionID v' = gs_SessionID v -> gs_ClusterID v' = gs_ClusterID v ->
  gs_Epoch v' = gs_Epoch v -> (live v' -> live v) -> sessions_wf (<[gs_SessionID v' := v']> m).
Proof.
  intros Hwf Hk Hs Hc He Hl. rewrite Hs, (gw_keyed _ Hwf _ _ Hk). split.
  - intros l w H. apply lookup_insert_Some in H as [[<- <-]|[_ H]]; [|by eapply gw_keyed].
    by rewrite Hs, (gw_keyed _ Hwf _ _ Hk).
  - intros l w H. apply lookup_insert_Some in H as [[<- <-]|[_ H]]; [rewrite He|]; by eapply gw_epoch.
  - intros a b x y Ha Hb E1 E2.
    apply lookup_insert_Some in Ha as [[<- <-]|[_ Ha]]; apply lookup_insert_Some in Hb as [[<- <-]|[_ Hb]]; try done;
      rewrite ?Hc, ?He in *; by eapply gw_unique.
  - intros a b x y Ha Hb E1 E2.
    apply lookup_insert_Some in Ha as [[<- <-]|[_ Ha]]; apply lookup_insert_Some in Hb as [[<- <-]|[_ Hb]]; try lia;
      rewrite ?Hc, ?He in *; eauto using gw_live.
Qed.

(** ** What the two scans compute *)

Lemma current_spec m c cur :
  fleetGatewaySessionCurrent m c = Ok cur ->
  match cur with
  | None => forall k v, m !! k = Some v -> gs_ClusterID v = c -> ~ live v
  | Some v => (exists k, m !! k = Some v) /\ gs_ClusterID v = c /\ live v
  end.
Proof.
  unfold fleetGatewaySessionCurrent. destruct (map_select _ m) as [|v [|]] eqn:E; [| |discriminate]; intros [= <-].
  - intros k v Hk Hc Hl. assert (Hin : v ∈ map_select (fun _ v => liveSession c v) m).
    { apply elem_of_map_select. exists k. split; [done|]. by apply live_spec. }
    rewrite E in Hin. by apply not_elem_of_nil in Hin.
  - assert (Hin : v ∈ map_select (fun _ v => liveSession c v) m) by (rewrite E; left).
    apply elem_of_map_select in Hin as (k & Hk & Hl). apply live_spec in Hl. eauto.
Qed.

(** the candidate is only replaced by a later one *)
Lemma latestLoop_ge c values : forall l r,
  latestLoop c values (Some l) = Ok r -> gs_Epoch l <= epochOf r.
Proof.
  induction values as [|v rest IH]; intros l r; cbn [latestLoop]; [by intros [= <-]|].
  destruct (_ != c); [by apply IH|]. destruct (gs_Epoch l <? gs_Epoch v) eqn:E; norm_bool.
  - intros H. apply IH in H. lia.
  - destruct (_ && _); [discriminate|]. by apply IH.
Qed.

Lemma latestLoop_bound c values : forall latest r,
  latestLoop c values latest = Ok r -> forall v, v ∈ values -> gs_ClusterID v = c -> gs_Epoch v <= epochOf r.
Proof.
  induction values as [|v rest IH]; intros latest r; cbn [latestLoop]; [by intros _ v Hv%not_elem_of_nil|].
  intros H w Hw Hc. apply elem_of_cons in Hw as [->|Hw].
  - rewrite Hc, bool_decide_eq_true_2 in H by done. cbn [negb] in H. destruct latest as [l|].
    + destruct (gs_Epoch l <? gs_Epoch v) eqn:E; norm_bool; [by apply latestLoop_ge in H|].
      destruct (_ && _); [discriminate|]. apply latestLoop_ge in H. lia.
    + by apply latestLoop_ge in H.
  - repeat case_match; try discriminate; by eapply IH.
Qed.

Lemma latest_spec m c r k v :
  fleetGatewaySessionLatest m c = Ok r -> m !! k = Some v -> gs_ClusterID v = c -> gs_Epoch v <= epochOf r.
Proof.
  unfold fleetGatewaySessionLatest. intros H Hk Hc.
  eapply latestLoop_bound; [exact H| |done].
  apply list_elem_of_fmap. exists (k, v). split; [done|]. by apply elem_of_map_to_list.
Qed.

(** ** Admission *)

(** what every admitted session satisfies *)
Definition admission_sound (cluster : ManagedCluster) (cert : AgentCertificate) (latestEpoch : Z) (now : Time)
    (v : FleetGatewaySession) : Prop :=
  gs_ClusterID v = rm_ID (mc_Meta cluster) /\ gs_State v = FleetGatewaySessionActive /\
  0 < gs_Epoch v /\ latestEpoch < gs_Epoch v /\
  mc_ConnectionState cluster <> "REVOKED" /\
  rm_ID (ac_Meta cert) = gs_CertificateID v /\ ac_ClusterID cert = rm_ID (mc_Meta cluster) /\
  ac_State cert = AgentCertificateActive /\
  ToLower (TrimSpace (ac_Fingerprint cert)) = gs_CertificateFingerprint v /\
  ac_NotBefore cert <= now < ac_NotAfter cert.

Lemma normalize_epoch req req' : normalizeFleetGatewaySessionRequest req = Ok req' -> 0 < fr_Epoch req'.
Proof.
  unfold normalizeFleetGatewaySessionRequest. intros H. repeat (case_match; [discriminate|]).
  simplify_eq. norm_bool. done.
Qed.

Lemma admit_next_sound cluster cert req latestEpoch now d :
  0 < fr_Epoch req -> latestEpoch < fr_Epoch req -> rm_ID (mc_Meta cluster) = fr_ClusterID req ->
  mc_ConnectionState cluster <> "REVOKED" -> certificateMatches cluster cert req now = true ->
  exists v, fa_Session (admitNext req d now) = Some v /\ admission_sound cluster cert latestEpoch now v.
Proof.
  intros He Hl Hc Hr Hm. eexists. split; [reflexivity|]. unfold admission_sound. cbn.
  unfold certificateMatches, secureEqual in Hm. norm_bool. by repeat split.
Qed.

Lemma admit_spec cluster cert req current latestEpoch now a :
  AdmitFleetGatewaySessionWithLatestEpoch cluster cert req current latestEpoch now = Ok a ->
  match fa_Decision a with
  | FleetGatewayAdmissionReject => True
  | FleetGatewayAdmissionReplay => fa_Session a = current /\ is_Some current
  | FleetGatewayAdmissionNew =>
      (forall c, current = Some c -> ~ live c) /\
      exists v, fa_Session a = Some v /\ admission_sound cluster cert latestEpoch now v
  | FleetGatewayAdmissionReplaceStale =>
      (exists c, current = Some c /\ SessionStaleSeconds * Second < now - gs_LastHeartbeatAt c) /\
      exists v, fa_Session a = Some v /\ admission_sound cluster cert latestEpoch now v
  end.
Proof.
  unfold AdmitFleetGatewaySessionWithLatestEpoch.
  destruct (normalizeFleetGatewaySessionRequest req) as [req'|e] eqn:Hn; [|discriminate].
  apply normalize_epoch in Hn. intros H.
  do 4 (case_match; [discriminate|]). norm_bool.
  destruct current as [c|].
  - do 2 (case_match; [discriminate|]).
    destruct (gs_State c == FleetGatewaySessionActive) eqn:Es; norm_bool.
    + destruct (exactReplay c req').
      { case_match; [discriminate|]. simplify_eq. cbn. eauto. }
      destruct (negb (SessionStaleSeconds * Second <? now - gs_LastHeartbeatAt c)) eqn:Hst; [by simplify_eq|].
      case_match; [discriminate|]. case_match; simplify_eq; [done|]. norm_bool.
      cbn [admitNext fa_Decision]. split; [by eauto|]. by apply admit_next_sound.
    + destruct (gs_State c == FleetGatewaySessionDraining) eqn:Ed; norm_bool; [by simplify_eq|].
      destruct (gs_State c == FleetGatewaySessionClosed); [|discriminate].
      case_match; simplify_eq; [done|]. cbn [admitNext fa_Decision]. split.
      { intros c' [= <-] [?|?]; done. }
      apply admit_next_sound; try done. lia.
  - case_match; simplify_eq; [done|]. cbn [admitNext fa_Decision]. split; [done|].
    apply admit_next_sound; try done. lia.
Qed.

(** ** Calls *)

Inductive GatewayCall : Type :=
| GAdmit (req : FleetGatewaySessionRequest) (at_ : Time) (actor : string)
| GHeartbeat (clusterID sessionID : string) (epoch : Z) (certificateID : string) (at_ : Time)
| GDrain (clusterID : string) (expectedEpoch : Z) (actor : string) (at_ : Time)
| GClose (clusterID sessionID : string) (epoch : Z) (certificateID : string) (at_ : Time).

Definition gateway_exec (c : GatewayCall) : MemoryStore -> MemoryStore * option Error :=
  match c with
  | GAdmit req at_ actor => run1 (StoreAdmitFleetGatewaySession req at_ actor)
  | GHeartbeat c sid e cert at_ => run1 (StoreHeartbeatFleetGatewaySession c sid e cert at_)
  | GDrain c e actor at_ => run1 (StoreDrainFleetGatewaySession c e actor at_)
  | GClose c sid e cert at_ => run1 (StoreCloseFleetGatewaySession c sid e cert at_)
  end.

Lemma heartbeat_next v sid e at_ v' :
  HeartbeatFleetGatewaySession v sid e at_ = Ok v' ->
  v' = v <| gs_LastHeartbeatAt := at_ |> /\ gs_State v = FleetGatewaySessionActive /\
  gs_LastHeartbeatAt v <= at_ /\ gs_Epoch v = e.
Proof.
  unfold HeartbeatFleetGatewaySession. intros H. case_match; [discriminate|]. simplify_eq. by norm_bool.
Qed.

Lemma drain_next v at_ v' :
  DrainFleetGatewaySession v at_ = Ok v' ->
  live v /\ v' = v <| gs_State := FleetGatewaySessionDraining |> <| gs_DrainRequestedAt := Some at_ |>.
Proof.
  unfold DrainFleetGatewaySession. intros H. case_match; [discriminate|]. simplify_eq. norm_bool.
  split; [by left|done].
Qed.

Lemma close_next v at_ v' :
  CloseFleetGatewaySession v at_ = Ok v' ->
  v' = v <| gs_State := FleetGatewaySessionClosed |> <| gs_ClosedAt := Some at_ |>.
Proof. unfold CloseFleetGatewaySession. intros H. case_match; [discriminate|]. by simplify_eq. Qed.

Lemma closed_not_live v at_ :
  ~ live (v <| gs_State := FleetGatewaySessionClosed |> <| gs_ClosedAt := Some at_ |>).
Proof. intros [H|H]; cbn in H; discriminate H. Qed.

Section preserve.
Context (s : MemoryStore) (Hwf : sessions_wf (ms_fleetGatewaySessions s)).
Local Abbreviation keeps m := (wp m (fun _ s' => sessions_wf (ms_fleetGatewaySessions s')) s).

Lemma heartbeat_keeps c sid e cert at_ : keeps (StoreHeartbeatFleetGatewaySession c sid e cert at_).
Proof.
  unfold StoreHeartbeatFleetGatewaySession; unfold_puts. wp_go; try done.
  apply heartbeat_next in H3 as (-> & Hst & _). by apply (wf_update _ (TrimSpace sid) a (a <| gs_LastHeartbeatAt := at_ |>)).
Qed.

Lemma drain_keeps c e actor at_ : keeps (StoreDrainFleetGatewaySession c e actor at_).
Proof.
  unfold StoreDrainFleetGatewaySession; unfold_puts. wp_go; try done. subst.
  apply current_spec in H as ([k Hk] & _ & Hl). apply drain_next in H2 as [_ ->].
  by apply (wf_update _ k a0 (a0 <| gs_State := FleetGatewaySessionDraining |> <| gs_DrainRequestedAt := Some at_ |>)).
Qed.

Lemma close_keeps c sid e cert at_ : keeps (StoreCloseFleetGatewaySession c sid e cert at_).
Proof.
  unfold StoreCloseFleetGatewaySession; unfold_puts. wp_go; try done.
  apply close_next in H1 as ->. 
  apply (wf_update _ (TrimSpace sid) a (a <| gs_State := FleetGatewaySessionClosed |> <| gs_ClosedAt := Some at_ |>));
    try done. by intros Hl%closed_not_live.
Qed.

(** sessions of the cluster after closing the current one, if it was replaced *)
Lemma admit_wf cluster cert v latest at_ m :
  admission_sound cluster cert (epochOf latest) at_ v ->
  fleetGatewaySessionLatest (ms_fleetGatewaySessions s) (rm_ID (mc_Meta cluster)) = Ok latest ->
  sessions_wf m ->
  (forall k w, m !! k = Some w -> gs_ClusterID w = rm_ID (mc_Meta cluster) ->
     ~ live w /\ exists w0 k0, ms_fleetGatewaySessions s !! k0 = Some w0 /\
       gs_ClusterID w0 = gs_ClusterID w /\ gs_Epoch w0 = gs_Epoch w) ->
  sessions_wf (<[gs_SessionID v := v]> m).
Proof.
  intros (Hc & _ & He & Hle & _) Hlat Hm Hold. apply wf_admit; [done|done|].
  intros k w Hk Ew. rewrite Hc in Ew. destruct (Hold _ _ Hk Ew) as (Hnl & w0 & k0 & Hk0 & Ec & Ee).
  split; [|done]. rewrite <- Ee. pose proof (latest_spec _ _ _ _ _ Hlat Hk0 ltac:(congruence)). lia.
Qed.

Lemma admit_keeps req at_ actor : keeps (StoreAdmitFleetGatewaySession req at_ actor).
Proof.
  unfold StoreAdmitFleetGatewaySession; unfold_puts. wp_go; try done.
  all: pose proof (admit_spec _ _ _ _ _ _ _ H3) as Hadm; apply current_spec in H1.
  all: destruct (fa_Decision a3) eqn:Hd; try discriminate H4; cbn in H4; try discriminate.
  all: try match goal with H : (FleetGatewayAdmissionNew == _) = true |- _ => discriminate H end.
  all: try match goal with H : (FleetGatewayAdmissionReplaceStale == _) = false |- _ => discriminate H end.
  all: destruct Hadm as [Hcur (v & Hs & Hsound)]; try congruence.
  all: match goal with H : fa_Session _ = Some ?x |- _ => assert (v = x) as -> by congruence end.
  - (* the stale session is closed, the new one admitted *)
    destruct H1 as ([k Hk] & Ecl & Hl). apply close_next in H6 as ->.
    set (f' := f <| gs_State := FleetGatewaySessionClosed |> <| gs_ClosedAt := Some at_ |>).
    assert (Hm : sessions_wf (<[gs_SessionID f' := f']> (ms_fleetGatewaySessions s))).
    { apply (wf_update _ k f f'); done. }
    apply (admit_wf a a0 a5 a2 at_ (<[gs_SessionID f' := f']> (ms_fleetGatewaySessions s))); [done|done|exact Hm|].
    intros k' w Hk' Ew. apply lookup_insert_Some in Hk' as [[<- <-]|[Hne Hk']].
    + split; [apply closed_not_live|]. by exists f, k.
    + split; [|by exists w, k']. intros Hlw. apply Hne.
      cbn. rewrite (gw_keyed _ Hwf _ _ Hk).
      by eapply (live_unique _ _ _ f w Hwf Hk Hk'); [congruence| |].
  - (* a live session excludes a new one *)
    destruct H1 as (_ & _ & Hl). by destruct (Hcur _ eq_refl).
  - (* no live session *)
    eapply admit_wf; [done|done|done|]. intros k w Hk Ew. split; [by eapply H1|by exists w, k].
  - by destruct Hcur as (c & Hc & _).
Qed.

Lemma gateway_call_keeps c : sessions_wf (ms_fleetGatewaySessions (gateway_exec c s).1).
Proof.
  destruct c.
  - exact (admit_keeps req at_ actor).
  - exact (heartbeat_keeps clusterID sessionID epoch certificateID at_).
  - exact (drain_keeps clusterID expectedEpoch actor at_).
  - exact (close_keeps clusterID sessionID epoch certificateID at_).
Qed.
End preserve.

(** ** Histories *)

(** gateway calls, and whatever else happens to the store without touching sessions *)
Inductive gateway_step (s : MemoryStore) : MemoryStore -> Prop :=
| gateway_call c : gateway_step s (gateway_exec c s).1
| gateway_other s' : ms_fleetGatewaySessions s' = ms_fleetGatewaySessions s -> gateway_step s s'.

Lemma gateway_steps_wf s s' :
  rtc gateway_step s s' -> sessions_wf (ms_fleetGatewaySessions s) -> sessions_wf (ms_fleetGatewaySessions s').
Proof.
  induction 1 as [|s1 s2 s3 H12 _ IH]; [done|]. intros Hwf. apply IH.
  destruct H12 as [c|s' ->]; [by apply gateway_call_keeps|done].
Qed.

Lemma no_sessions_wf s : ms_fleetGatewaySessions s = ∅ -> sessions_wf (ms_fleetGatewaySessions s).
Proof. intros ->. split; intros; rewrite lookup_empty in *; discriminate. Qed.

(** C36: one live gateway session per cluster.  However gateway calls and other
    changes of the store are interleaved, two sessions of the same cluster that
    are active or draining (in particular, that may dispatch) are the same
    session, and it has the greatest epoch of the cluster's sessions. *)
Theorem one_live_session_per_cluster s s' k l v w :
  ms_fleetGatewaySessions s = ∅ -> rtc gateway_step s s' ->
  ms_fleetGatewaySessions s' !! k = Some v -> ms_fleetGatewaySessions s' !! l = Some w ->
  gs_ClusterID v = gs_ClusterID w -> live v ->
  gs_Epoch w <= gs_Epoch v /\ (live w -> k = l /\ v = w).
Proof.
  intros H0 Hs Hv Hw Hc Hl. pose proof (gateway_steps_wf _ _ Hs (no_sessions_wf _ H0)) as Hwf.
  split; [by apply (gw_live _ Hwf k l v w)|]. intros Hlw.
  assert (k = l) as -> by (by apply (live_unique _ k l v w Hwf)). split; [done|congruence].
Qed.

(** two clusters with an active certificate each *)
Definition demo_gw_cluster (id : string) : ManagedCluster :=
  mkManagedCluster (newMeta id 0) "p" "" id id id "CONNECTED" "rke2" "1.31" "1.0" None None None
    ∅ [] "" "" "" "" None "" "".
Definition demo_gw_cert (id cluster : string) : AgentCertificate :=
  mkAgentCertificate (newMeta id 0) cluster "1" "sha256:ab" "agent" AgentCertificateActive 0 1000000 "ca" "" None "".
Definition demo_gateway : MemoryStore :=
  (NewMemoryStoreWith (fun _ => 0) (fun _ p => p))
    <| ms_managedClusters := {["a" := demo_gw_cluster "a"; "b" := demo_gw_cluster "b"]} |>
    <| ms_agentCertificates := {["ca" := demo_gw_cert "ca" "a"; "cb" := demo_gw_cert "cb" "b"]} |>.
Definition demo_open (session cluster cert : string) (epoch : Z) : GatewayCall :=
  GAdmit (mkFleetGatewaySessionRequest session cluster cluster cert "SHA256:AB" epoch "wss" true true "gw-1") 10 "agent".
Definition gateway_run (cs : list GatewayCall) (s : MemoryStore) : MemoryStore :=
  foldl (fun s c => (gateway_exec c s).1) s cs.

Lemma gateway_run_steps cs s : rtc gateway_step s (gateway_run cs s).
Proof.
  revert s. induction cs as [|c cs IH]; intros s; [constructor|]. cbn. eapply rtc_l; [apply gateway_call|apply IH].
Qed.

Lemma gateway_run_two c1 c2 s : gateway_run [c1; c2] s = (gateway_exec c2 (gateway_run [c1] s)).1.
Proof. reflexivity. Qed.

Lemma one_live_session_per_cluster_witness :
  exists v, ms_fleetGatewaySessions (gateway_run [demo_open "x" "a" "ca" 5] demo_gateway) !! "x" = Some v /\
    gs_Epoch v <= gs_Epoch v /\ (live v -> "x" = "x" /\ v = v).
Proof.
  assert (Hv : (gs_State <$> ms_fleetGatewaySessions (gateway_run [demo_open "x" "a" "ca" 5] demo_gateway) !! "x")
               = Some FleetGatewaySessionActive) by (vm_compute; reflexivity).
  apply fmap_Some in Hv. destruct Hv as (v & E & Hst). exists v. split; [exact E|].
  apply (one_live_session_per_cluster demo_gateway (gateway_run [demo_open "x" "a" "ca" 5] demo_gateway) "x" "x" v v);
    [reflexivity|apply gateway_run_steps|exact E|exact E|reflexivity|left; symmetry; exact Hst].
Defined.

(** Gateway admission.  A session is admitted for a cluster only when it is
    not revoked, no live session of it remains (a stale one is closed first),
    its epoch is beyond every epoch the store holds for the cluster, and the
    presented certificate is the cluster's own, active, valid at that moment and
    has the presented fingerprint. *)
Theorem admission_advances_the_epoch s req at_ actor s' a :
  StoreAdmitFleetGatewaySession req at_ actor s = (s', Ok a) ->
  fa_Decision a = FleetGatewayAdmissionNew \/ fa_Decision a = FleetGatewayAdmissionReplaceStale ->
  exists cluster cert latest v,
    ms_managedClusters s !! TrimSpace (fr_ClusterID req) = Some cluster /\
    ms_agentCertificates s !! TrimSpace (fr_CertificateID req) = Some cert /\
    fa_Session a = Some v /\ ms_fleetGatewaySessions s' !! gs_SessionID v = Some v /\
    admission_sound cluster cert latest at_ v /\
    forall k w, ms_fleetGatewaySessions s !! k = Some w -> gs_ClusterID w = rm_ID (mc_Meta cluster) ->
      gs_Epoch w <= latest.
Proof.
  revert s' a.
  assert (H : wp (StoreAdmitFleetGatewaySession req at_ actor) (fun r s' => forall a, r = Ok a ->
    fa_Decision a = FleetGatewayAdmissionNew \/ fa_Decision a = FleetGatewayAdmissionReplaceStale ->
    exists cluster cert latest v,
      ms_managedClusters s !! TrimSpace (fr_ClusterID req) = Some cluster /\
      ms_agentCertificates s !! TrimSpace (fr_CertificateID req) = Some cert /\
      fa_Session a = Some v /\ ms_fleetGatewaySessions s' !! gs_SessionID v = Some v /\
      admission_sound cluster cert latest at_ v /\
      forall k w, ms_fleetGatewaySessions s !! k = Some w -> gs_ClusterID w = rm_ID (mc_Meta cluster) ->
        gs_Epoch w <= latest) s).
  2: { intros s' a Hc. exact (wp_run _ _ _ _ _ H Hc a eq_refl). }
  unfold StoreAdmitFleetGatewaySession; unfold_puts. wp_go; intros a' E Hd; try discriminate E; injection E as <-.
  { destruct Hd as [Hd|Hd]; rewrite Hd in *; discriminate. }
  all: assert (Hadm : exists v, fa_Session a3 = Some v /\ admission_sound a a0 (epochOf a2) at_ v)
    by (pose proof (admit_spec _ _ _ _ _ _ _ H3) as Hadm; destruct Hd as [Hd|Hd]; rewrite Hd in Hadm; apply Hadm).
  all: destruct Hadm as (v & Hs & Hsound).
  all: match goal with H : fa_Session _ = Some ?x |- _ => assert (v = x) as -> by congruence end.
  all: exists a, a0, (epochOf a2); eexists; split; [done|]; split; [done|]; split; [exact Hs|].
  all: split; [apply lookup_insert_eq|split; [done|]]; intros k w Hk Ec; by eapply latest_spec.
Qed.

Lemma admission_advances_the_epoch_witness :
  exists s' a v, StoreAdmitFleetGatewaySession
      (mkFleetGatewaySessionRequest "x" "a" "a" "ca" "SHA256:AB" 5 "wss" true true "gw-1") 10 "agent" demo_gateway = (s', Ok a) /\
    fa_Session a = Some v /\ ms_fleetGatewaySessions s' !! gs_SessionID v = Some v.
Proof.
  set (req := mkFleetGatewaySessionRequest "x" "a" "a" "ca" "SHA256:AB" 5 "wss" true true "gw-1").
  assert (Hv : match (StoreAdmitFleetGatewaySession req 10 "agent" demo_gateway).2 with
               | Ok a => Some (fa_Decision a) | Fail _ => None end = Some FleetGatewayAdmissionNew)
    by (vm_compute; reflexivity).
  destruct (StoreAdmitFleetGatewaySession req 10 "agent" demo_gateway) as [s' [a|e]] eqn:E; [|discriminate Hv].
  injection Hv as Hd.
  destruct (admission_advances_the_epoch demo_gateway req 10 "agent" s' a E (or_introl Hd))
    as (cluster & cert & latest & v & _ & _ & Hs & Hk & _).
  exists s', a, v. split; [reflexivity|]. split; [exact Hs|exact Hk].
Defined.

(** Session identifiers are shared between clusters.  The session table is
    keyed by the identifier the agent chose: when an agent of another cluster is
    admitted under the identifier of an existing session, that session, with the
    epoch history it carried, is gone from the store. *)
Theorem foreign_admission_erases_session s req at_ actor s' a v :
  sessions_wf (ms_fleetGatewaySessions s) ->
  StoreAdmitFleetGatewaySession req at_ actor s = (s', Ok a) ->
  fa_Decision a = FleetGatewayAdmissionNew ->
  (exists new, fa_Session a = Some new /\ gs_SessionID new = gs_SessionID v /\ gs_ClusterID new <> gs_ClusterID v) ->
  ms_fleetGatewaySessions s !! gs_SessionID v = Some v ->
  forall k, ms_fleetGatewaySessions s' !! k <> Some v.
Proof.
  intros Hwf Hc Hd (new & Hn & Hid & Hcl) Hv k Hk.
  assert (Hwf' : sessions_wf (ms_fleetGatewaySessions s')).
  { change s' with (s', Ok a : result FleetGatewaySessionAdmission).1. rewrite <- Hc. by apply admit_keeps. }
  pose proof (gw_keyed _ Hwf' _ _ Hk) as Ek.
  assert (Hnew : ms_fleetGatewaySessions s' !! gs_SessionID new = Some new).
  { assert (H : wp (StoreAdmitFleetGatewaySession req at_ actor) (fun r s' => forall a, r = Ok a ->
      fa_Decision a = FleetGatewayAdmissionNew -> forall v, fa_Session a = Some v ->
      ms_fleetGatewaySessions s' !! gs_SessionID v = Some v) s).
    { unfold StoreAdmitFleetGatewaySession; unfold_puts. wp_go; intros a' E Hd' x Hx; try discriminate E; injection E as <-;
        [rewrite Hd' in *; discriminate|..]; rewrite Hx in *; simplify_eq; apply lookup_insert_eq. }
    exact (wp_run _ _ _ _ _ H Hc a eq_refl Hd new Hn). }
  rewrite Hid, Ek, Hk in Hnew. congruence.
Qed.

(** cluster [a] reached epoch 5; [b] takes over its session identifier; then [a]
    is admitted again with epoch 1 *)
Example epoch_is_replayed :
  gs_Epoch <$> ms_fleetGatewaySessions
    (gateway_run [demo_open "x" "a" "ca" 5; demo_open "x" "b" "cb" 1; demo_open "y" "a" "ca" 1] demo_gateway) !! "y" = Some 1.
Proof. vm_compute. reflexivity. Qed.

Lemma foreign_admission_erases_session_witness :
  exists v, ms_fleetGatewaySessions (gateway_run [demo_open "x" "a" "ca" 5] demo_gateway) !! "x" = Some v /\
  forall k, ms_fleetGatewaySessions (gateway_run [demo_open "x" "a" "ca" 5; demo_open "x" "b" "cb" 1] demo_gateway) !! k
    <> Some v.
Proof.
  set (s1 := gateway_run [demo_open "x" "a" "ca" 5] demo_gateway).
  assert (Hv : ((fun v => (gs_SessionID v, gs_ClusterID v)) <$> ms_fleetGatewaySessions s1 !! "x") = Some ("x", "a"))
    by (vm_compute; reflexivity).
  apply fmap_Some in Hv. destruct Hv as (v & E & Hid). injection Hid as Hid Hcl.
  set (req := mkFleetGatewaySessionRequest "x" "b" "b" "cb" "SHA256:AB" 1 "wss" true true "gw-1").
  assert (Hr : match (StoreAdmitFleetGatewaySession req 10 "agent" s1).2 with
               | Ok (mkFleetGatewaySessionAdmission d (Some n)) => Some (d, gs_SessionID n, gs_ClusterID n)
               | _ => None end = Some (FleetGatewayAdmissionNew, "x", "b")) by (vm_compute; reflexivity).
  rewrite gateway_run_two. fold s1. unfold demo_open at 1. cbn [gateway_exec]. fold req.
  unfold run1. cbn [fst].
  destruct (StoreAdmitFleetGatewaySession req 10 "agent" s1) as [s2 [[d [n|]]|e]] eqn:E2; try discriminate Hr.
  injection Hr as Hd Hn1 Hn2.
  exists v. split; [exact E|].
  apply (foreign_admission_erases_session s1 req 10 "agent" s2 (mkFleetGatewaySessionAdmission d (Some n)) v).
  - apply (gateway_steps_wf demo_gateway); [apply gateway_run_steps|by apply no_sessions_wf].
  - exact E2.
  - exact Hd.
  - exists n. split; [reflexivity|]. split; [congruence|]. rewrite Hn2, <- Hcl. discriminate.
  - rewrite <- Hid. exact E.
Defined.
