(* ===== verification/Targets.v ===== *)
(** * Target clusters: distributions, capabilities and mutation authority

    The pure part of [fleet_store.go] and [okd_authority.go], with the
    distribution names of [targetmodel/model.go].  An agent reports an
    inventory with capabilities; the control plane rewrites the capabilities
    so that those which grant mutation authority come from itself alone. *)
From S2P Require Import Prelude GoStrings Digest Model Calendar Inventory.
From Stdlib Require Import Ascii.

(** ** Distributions *)

Definition DistributionKubernetes : string := "kubernetes".
Definition DistributionRKE2 : string := "rke2".
Definition DistributionOKD : string := "okd".
Definition DistributionOpenShift : string := "openshift".

Definition CanonicalDistribution (raw : string) : string :=
  let v := ToLower (TrimSpace raw) in
  if v == "" then ""
  else if ContainsString v "rke2" then DistributionRKE2
  else if (v == "okd") || ContainsString v "okd" then DistributionOKD
  else if (v == "openshift") || ContainsString v "openshift" then DistributionOpenShift
  else if (v == "generic-imported") || (v == "kubespray") || (v == "kubernetes") || (v == "upstream-kubernetes")
          || ContainsString v "kubespray" then DistributionKubernetes
  else v.

(** ** Capabilities *)

Definition DistributionEvidenceOKDClusterV1 : string := "OKD_CLUSTERVERSION_V1".
Definition DistributionEvidenceOpenShiftClusterV1 : string := "OPENSHIFT_CLUSTERVERSION_V1".
Definition TargetReadOnlyAdmissionCapability : string := "target-read-only-admission".
Definition TargetMutationRBACActiveCapability : string := "target-mutation-rbac-active".
Definition OpenChoreoExecutorRBACCapability : string := "openchoreo-executor-rbac-active".
Definition DaprExecutorRBACCapability : string := "dapr-executor-rbac-active".
Definition DaprWorkloadAdmissionRBACCapability : string := "dapr-workload-admission-rbac-active".
Definition ApplicationDeploymentRBACCapability : string := "application-deployment-rbac-active".
Definition TargetMutationRBACActivationIssuedCapability : string := "target-mutation-rbac-activation-issued".
Definition TargetMutationRBACEverIssuedCapability : string := "target-mutation-rbac-ever-issued".
Definition TargetIdentityContinuityCapability : string := "target-cluster-uid-attested".
Definition TargetEnrollmentPrincipalIsolatedCapability : string := "target-enrollment-principal-isolated".
Definition TenantDeleteObservedCapability : string := "tenant-delete-observed".
Definition ClusterMaintenanceFencedReportCapability : string := "cluster-maintenance-fenced-report".

Definition previewMutationCapabilities : list string :=
  ["controlled-baseline-deployment"; TenantDeleteObservedCapability; ClusterMaintenanceFencedReportCapability;
   "strict-schema-dry-run"; TargetMutationRBACActiveCapability; OpenChoreoExecutorRBACCapability;
   DaprExecutorRBACCapability; DaprWorkloadAdmissionRBACCapability; ApplicationDeploymentRBACCapability;
   TargetMutationRBACActivationIssuedCapability; TargetMutationRBACEverIssuedCapability].

(** membership in a slice, as [clusterHasCapability] tests it *)
Definition hasCapability (values : list string) (wanted : string) : bool := bool_decide (wanted ∈ values).
Definition clusterHasCapability (cluster : ManagedCluster) (wanted : string) : bool :=
  hasCapability (mc_Capabilities cluster) wanted.

(** the loop of [dedupeSortedStrings]: [seen] are the values kept so far *)
Fixpoint dedupeLoop (seen values : list string) : list string :=
  match values with
  | [] => []
  | raw :: rest =>
      let value := TrimSpace raw in
      if (value == "") || bool_decide (value ∈ seen) then dedupeLoop seen rest
      else value :: dedupeLoop (value :: seen) rest
  end.
Definition dedupeSortedStrings (values : list string) : list string := sortStrings (dedupeLoop [] values).

Definition removeClusterCapability (values : list string) (unwanted : string) : list string :=
  dedupeSortedStrings (List.filter (fun value => TrimSpace value != unwanted) values).

Definition NormalizeClusterInventoryReadOnly (inv : ClusterInventory) : ClusterInventory :=
  let filtered := List.filter (fun capability => bool_decide (capability ∉ previewMutationCapabilities))
                    (iv_Capabilities inv) in
  inv <| iv_Capabilities := dedupeSortedStrings (filtered ++ [TargetReadOnlyAdmissionCapability])%list |>.

Definition NormalizeClusterInventoryIdentityAuthority (inv : ClusterInventory) (verified : bool) : ClusterInventory :=
  let inv := inv <| iv_Capabilities :=
               List.filter (fun capability => TrimSpace capability != TargetIdentityContinuityCapability)
                 (iv_Capabilities inv) |> in
  if verified
  then inv <| iv_Capabilities :=
         dedupeSortedStrings (iv_Capabilities inv ++ [TargetIdentityContinuityCapability])%list |>
  else NormalizeClusterInventoryReadOnly inv.

(** ** OKD *)

Definition OKDHealthAuthorityMethod : string := "OKD_CLUSTER_OPERATOR_HEALTH_AUTHORITY_V1".
Definition OKDImportAdmissionCapability : string := "okd-import-admitted".
Definition OKDHealthHealthyCapability : string := "okd-health-healthy".
Definition OKDClusterVersionCapability : string := "okd-cluster-version-authority".

Definition okdServerOwnedCapabilities : list string :=
  [OKDImportAdmissionCapability; OKDHealthHealthyCapability; OKDClusterVersionCapability;
   "networking.ovn-kubernetes"; "network-policy.native"; "monitoring.cluster"; "operator-lifecycle.olm";
   "security.scc"; "tenancy.projects"].

Definition stripOKDServerOwnedCapabilities (values : list string) : list string :=
  dedupeSortedStrings
    (List.filter (fun value => bool_decide (TrimSpace value ∉ okdServerOwnedCapabilities)) values).

Definition clusterAddOnKind (addon : ClusterAddOn) (kind : string) : bool := EqualFold (TrimSpace (ao_Kind addon)) kind.
Definition conditionTrue (v : string) : bool := EqualFold (TrimSpace v) "true".
Definition conditionFalse (v : string) : bool := EqualFold (TrimSpace v) "false".

(** [OKDHealthSummary] *)
Record OKDHealthSummary := mkOKDHealthSummary {
  oh_Authority : string;
  oh_Status : string;
  oh_ClusterVersion : string;
  oh_DesiredImage : string;
  oh_OperatorCount : Z;
  oh_Unavailable : list string;
  oh_Progressing : list string;
  oh_Degraded : list string;
  oh_UpgradeBlocked : list string;
  oh_Messages : list string;
  oh_MutationEligible : bool;
}.
#[export] Instance eta_OKDHealthSummary : Eta OKDHealthSummary := fun r =>
  mkOKDHealthSummary
    (oh_Authority r) (oh_Status r) (oh_ClusterVersion r) (oh_DesiredImage r) (oh_OperatorCount r)
    (oh_Unavailable r) (oh_Progressing r) (oh_Degraded r) (oh_UpgradeBlocked r) (oh_Messages r)
    (oh_MutationEligible r).
#[export] Instance set_oh_Status : Setter oh_Status := ltac:(derive_setter).
#[export] Instance set_oh_ClusterVersion : Setter oh_ClusterVersion := ltac:(derive_setter).
#[export] Instance set_oh_OperatorCount : Setter oh_OperatorCount := ltac:(derive_setter).
#[export] Instance set_oh_Unavailable : Setter oh_Unavailable := ltac:(derive_setter).
#[export] Instance set_oh_Progressing : Setter oh_Progressing := ltac:(derive_setter).
#[export] Instance set_oh_Degraded : Setter oh_Degraded := ltac:(derive_setter).
#[export] Instance set_oh_UpgradeBlocked : Setter oh_UpgradeBlocked := ltac:(derive_setter).
#[export] Instance set_oh_Messages : Setter oh_Messages := ltac:(derive_setter).
#[export] Instance set_oh_MutationEligible : Setter oh_MutationEligible := ltac:(derive_setter).

(** [if b { l = append(l, x) }] *)
Definition append_if (b : bool) (l : list string) (x : string) : list string := if b then (l ++ [x])%list else l.

(** the [cluster-version] case of the loop *)
Definition observeClusterVersion (addon : ClusterAddOn) (out : OKDHealthSummary) : OKDHealthSummary :=
  out <| oh_ClusterVersion := TrimSpace (ao_Version addon) |>
      <| oh_Unavailable := append_if (conditionFalse (ao_Available addon)) (oh_Unavailable out) "cluster-version" |>
      <| oh_Progressing := append_if (conditionTrue (ao_Progressing addon)) (oh_Progressing out) "cluster-version" |>
      <| oh_Degraded := append_if (conditionTrue (ao_Degraded addon)) (oh_Degraded out) "cluster-version" |>
      <| oh_UpgradeBlocked := append_if (conditionFalse (ao_Upgradeable addon)) (oh_UpgradeBlocked out) "cluster-version" |>
      <| oh_Messages := append_if (TrimSpace (ao_Message addon) != "") (oh_Messages out) (TrimSpace (ao_Message addon)) |>.

(** the [cluster-operator] case *)
Definition observeClusterOperator (addon : ClusterAddOn) (out : OKDHealthSummary) : OKDHealthSummary :=
  let name := if TrimSpace (ao_Name addon) == "" then "unknown-operator" else TrimSpace (ao_Name addon) in
  out <| oh_OperatorCount := inc64 (oh_OperatorCount out) |>
      <| oh_Unavailable := append_if (conditionFalse (ao_Available addon) || EqualFold (TrimSpace (ao_Available addon)) "Unknown")
                             (oh_Unavailable out) name |>
      <| oh_Progressing := append_if (conditionTrue (ao_Progressing addon)) (oh_Progressing out) name |>
      <| oh_Degraded := append_if (conditionTrue (ao_Degraded addon)) (oh_Degraded out) name |>
      <| oh_UpgradeBlocked := append_if (conditionFalse (ao_Upgradeable addon)) (oh_UpgradeBlocked out) name |>
      <| oh_Messages := append_if ((TrimSpace (ao_Message addon) != "")
                                   && (conditionTrue (ao_Degraded addon) || conditionTrue (ao_Progressing addon)
                                       || conditionFalse (ao_Available addon)))
                          (oh_Messages out) (name +:+ ": " +:+ TrimSpace (ao_Message addon)) |>.

(** the loop over the add-ons: the two flags are [foundVersion] and [foundOperators] *)
Fixpoint observeAddOns (addons : list ClusterAddOn) (acc : bool * bool * OKDHealthSummary) : bool * bool * OKDHealthSummary :=
  match addons with
  | [] => acc
  | addon :: rest =>
      let '(foundVersion, foundOperators, out) := acc in
      observeAddOns rest
        (if clusterAddOnKind addon "cluster-version" then (true, foundOperators, observeClusterVersion addon out)
         else if clusterAddOnKind addon "cluster-operator" then (foundVersion, true, observeClusterOperator addon out)
         else acc)
  end.

(** [sort.Strings] of the five lists *)
Definition sortHealth (out : OKDHealthSummary) : OKDHealthSummary :=
  out <| oh_Unavailable := sortStrings (oh_Unavailable out) |> <| oh_Progressing := sortStrings (oh_Progressing out) |>
      <| oh_Degraded := sortStrings (oh_Degraded out) |> <| oh_UpgradeBlocked := sortStrings (oh_UpgradeBlocked out) |>
      <| oh_Messages := sortStrings (oh_Messages out) |>.

Definition nonEmpty {A} (l : list A) : bool := match l with [] => false | _ => true end.

Definition TranslateOKDHealth (inv : ClusterInventory) : OKDHealthSummary :=
  let out := mkOKDHealthSummary OKDHealthAuthorityMethod "NOT_APPLICABLE" "" "" 0 [] [] [] [] [] false in
  if CanonicalDistribution (iv_Distribution inv) != DistributionOKD then out else
  let '(foundVersion, foundOperators, out) :=
    observeAddOns (elems (iv_AddOns inv)) (false, false, out <| oh_Status := "BLOCKED" |>) in
  let out := sortHealth out in
  let status :=
    if negb foundVersion || negb foundOperators then "BLOCKED"
    else if nonEmpty (oh_Degraded out) then "DEGRADED"
    else if nonEmpty (oh_Unavailable out) then "BLOCKED"
    else if nonEmpty (oh_Progressing out) then "PROGRESSING"
    else "HEALTHY" in
  out <| oh_Status := status |> <| oh_MutationEligible := status == "HEALTHY" |>.

Definition apiResourcePresent (inv : ClusterInventory) (group resource : string) : bool :=
  existsb (fun item => EqualFold (TrimSpace (ar_Group item)) group && EqualFold (TrimSpace (ar_Resource item)) resource)
    (elems (iv_APIResources inv)).

Definition operatorPresent (inv : ClusterInventory) (name : string) : bool :=
  existsb (fun item => clusterAddOnKind item "cluster-operator" && EqualFold (TrimSpace (ao_Name item)) name)
    (elems (iv_AddOns inv)).

(** the capabilities derived from the observations *)
Definition okdDerived (inv : ClusterInventory) : list string :=
  ([OKDClusterVersionCapability]
   ++ (if ContainsString (ToLower (TrimSpace (nw_CNI (iv_Networking inv)))) "ovn"
       then ["networking.ovn-kubernetes"; "network-policy.native"] else [])
   ++ (if operatorPresent inv "monitoring" then ["monitoring.cluster"] else [])
   ++ (if apiResourcePresent inv "operators.coreos.com" "clusterserviceversions"
          || operatorPresent inv "operator-lifecycle-manager" then ["operator-lifecycle.olm"] else [])
   ++ (if apiResourcePresent inv "security.openshift.io" "securitycontextconstraints" then ["security.scc"] else [])
   ++ (if apiResourcePresent inv "project.openshift.io" "projects" then ["tenancy.projects"] else [])
   ++ (if oh_Status (TranslateOKDHealth inv) == "HEALTHY" then [OKDHealthHealthyCapability] else []))%list.

Definition okdRequired : list string :=
  ["networking.ovn-kubernetes"; "monitoring.cluster"; "operator-lifecycle.olm"; "security.scc"; "tenancy.projects";
   OKDHealthHealthyCapability].

Definition NormalizeOKDInventoryAuthority (inv : ClusterInventory) : ClusterInventory :=
  if CanonicalDistribution (iv_Distribution inv) != DistributionOKD then inv else
  let inv := inv <| iv_Capabilities := stripOKDServerOwnedCapabilities (iv_Capabilities inv) |> in
  let inv := inv <| iv_Capabilities := dedupeSortedStrings (iv_Capabilities inv ++ okdDerived inv)%list |> in
  let ready := iv_APIDiscoveryComplete inv && iv_CRDDiscoveryComplete inv && iv_SchemaDiscoveryComplete inv
               && forallb (hasCapability (iv_Capabilities inv)) okdRequired in
  if ready
  then inv <| iv_Capabilities := dedupeSortedStrings (iv_Capabilities inv ++ [OKDImportAdmissionCapability])%list |>
  else inv.

(** the test shared by the inventory and the cluster *)
Definition mutationEligible (distribution : string) (capabilities : list string) : bool :=
  let d := CanonicalDistribution distribution in
  if (d == DistributionKubernetes) || (d == DistributionRKE2) then true
  else if d == DistributionOKD then hasCapability capabilities OKDImportAdmissionCapability
  else false.
Definition ClusterInventoryMutationEligible (inv : ClusterInventory) : bool :=
  mutationEligible (iv_Distribution inv) (iv_Capabilities inv).
Definition ClusterMutationAdmissionEligible (c : ManagedCluster) : bool :=
  mutationEligible (mc_Distribution c) (mc_Capabilities c).

Definition NormalizeClusterInventoryForAdmission (inv : ClusterInventory) : ClusterInventory :=
  let inv := inv <| iv_Distribution := CanonicalDistribution (iv_Distribution inv) |> in
  let inv := if iv_Distribution inv == DistributionOKD then NormalizeOKDInventoryAuthority inv else inv in
  if ClusterInventoryMutationEligible inv then inv else NormalizeClusterInventoryReadOnly inv.

(** ** Lemmas on capability lists *)

Lemma hasCapability_true l c : hasCapability l c = true <-> c ∈ l.
Proof. unfold hasCapability. by rewrite bool_decide_eq_true. Qed.
Lemma hasCapability_false l c : hasCapability l c = false <-> c ∉ l.
Proof. unfold hasCapability. by rewrite bool_decide_eq_false. Qed.

Lemma elem_of_dedupeLoop x l : forall seen,
  x ∈ dedupeLoop seen l <-> x <> "" /\ (x ∉ seen) /\ exists raw, raw ∈ l /\ TrimSpace raw = x.
Proof.
  induction l as [|a l IH]; intros seen; cbn -[TrimSpace].
  - split; [by intros ?%elem_of_nil|]. intros (_ & _ & raw & H & _). by apply elem_of_nil in H.
  - destruct (decide (TrimSpace a = "" \/ TrimSpace a ∈ seen)) as [Hd|Hd].
    + replace (bool_decide (TrimSpace a = "") || bool_decide (TrimSpace a ∈ seen)) with true
        by (symmetry; apply orb_true_iff; rewrite !bool_decide_eq_true; exact Hd).
      rewrite IH. split; intros (H1 & H2 & raw & Hr & E); (split; [done|]; split; [done|]); exists raw.
      * split; [by right|done].
      * apply elem_of_cons in Hr as [->|Hr]; [|done]. subst x. tauto.
    + replace (bool_decide (TrimSpace a = "") || bool_decide (TrimSpace a ∈ seen)) with false
        by (symmetry; apply orb_false_iff; rewrite !bool_decide_eq_false; tauto).
      rewrite elem_of_cons, IH. split.
      * intros [->|(H1 & H2 & raw & Hr & E)]; [split; [tauto|]; split; [tauto|]; exists a; split; [left|done]|].
        split; [done|]. split; [by intros ?; apply H2; right|]. exists raw. split; [by right|done].
      * intros (H1 & H2 & raw & Hr & E). destruct (decide (x = TrimSpace a)) as [|Hne]; [by left|]. right.
        split; [done|]. split; [rewrite elem_of_cons; tauto|]. exists raw. split; [|done].
        apply elem_of_cons in Hr as [->|Hr]; congruence.
Qed.

Lemma elem_of_dedupe x l :
  x ∈ dedupeSortedStrings l <-> x <> "" /\ exists raw, raw ∈ l /\ TrimSpace raw = x.
Proof.
  unfold dedupeSortedStrings. rewrite elem_of_sortStrings, elem_of_dedupeLoop.
  pose proof (not_elem_of_nil x). tauto.
Qed.

(** a list whose entries are trimmed, as every result of [dedupeSortedStrings] is *)
Definition trimmed (l : list string) : Prop := forall x, x ∈ l -> TrimSpace x = x /\ x <> "".

Lemma dedupe_trimmed l : trimmed (dedupeSortedStrings l).
Proof. intros x (Hx & raw & _ & <-)%elem_of_dedupe. by rewrite TrimSpace_idem. Qed.

Lemma elem_of_filter_bool {A} (P : A -> bool) (l : list A) x : x ∈ List.filter P l <-> x ∈ l /\ P x = true.
Proof. by rewrite !list_elem_of_In, filter_In. Qed.

Lemma elem_of_dedupe_trimmed x l : trimmed l -> x ∈ dedupeSortedStrings l <-> x ∈ l.
Proof.
  intros Hl. rewrite elem_of_dedupe. split.
  - intros (_ & raw & Hr & <-). by destruct (Hl _ Hr) as [-> _].
  - intros Hx. destruct (Hl _ Hx). eauto.
Qed.

Lemma trimmed_app l k : trimmed l -> trimmed k -> trimmed (l ++ k).
Proof. intros H1 H2 x [?|?]%elem_of_app; auto. Qed.
Lemma trimmed_filter P l : trimmed l -> trimmed (List.filter P l).
Proof. intros H x [? _]%elem_of_filter_bool. auto. Qed.

Lemma read_only_trimmed inv : trimmed (iv_Capabilities (NormalizeClusterInventoryReadOnly inv)).
Proof. apply dedupe_trimmed. Qed.

(** on trimmed capabilities, the read-only normalization removes exactly the mutating ones *)
Lemma elem_of_read_only inv x :
  trimmed (iv_Capabilities inv) ->
  x ∈ iv_Capabilities (NormalizeClusterInventoryReadOnly inv) <->
  (x ∈ iv_Capabilities inv /\ x ∉ previewMutationCapabilities) \/ x = TargetReadOnlyAdmissionCapability.
Proof.
  intros Ht. unfold NormalizeClusterInventoryReadOnly. cbn [iv_Capabilities setf set_iv_Capabilities].
  rewrite elem_of_dedupe_trimmed.
  - rewrite elem_of_app, elem_of_filter_bool, bool_decide_eq_true, list_elem_of_singleton. done.
  - apply trimmed_app; [by apply trimmed_filter|]. intros y ->%list_elem_of_singleton. done.
Qed.

(** identity continuity is attested exactly when the reported identity was verified *)
Lemma identity_authority_trimmed inv verified :
  trimmed (iv_Capabilities (NormalizeClusterInventoryIdentityAuthority inv verified)).
Proof. destruct verified; apply dedupe_trimmed. Qed.

Lemma identity_authority_attests inv verified :
  TargetIdentityContinuityCapability ∈ iv_Capabilities (NormalizeClusterInventoryIdentityAuthority inv verified)
  <-> verified = true.
Proof.
  unfold NormalizeClusterInventoryIdentityAuthority. destruct verified; cbn -[dedupeSortedStrings TrimSpace].
  - split; [done|]. intros _. apply elem_of_dedupe. split; [done|].
    exists TargetIdentityContinuityCapability. split; [apply elem_of_app; right; left|done].
  - split; [|done]. intros (_ & raw & Hr & E)%elem_of_dedupe. exfalso.
    apply elem_of_app in Hr as [Hr|Hr]; [|apply list_elem_of_singleton in Hr; by subst raw].
    apply elem_of_filter_bool in Hr as [Hr _]. apply elem_of_filter_bool in Hr as [_ Hr]. norm_bool. done.
Qed.

Lemma okd_authority_distribution inv : iv_Distribution (NormalizeOKDInventoryAuthority inv) = iv_Distribution inv.
Proof. unfold NormalizeOKDInventoryAuthority. by repeat case_match. Qed.

Lemma okd_authority_trimmed inv :
  trimmed (iv_Capabilities inv) -> trimmed (iv_Capabilities (NormalizeOKDInventoryAuthority inv)).
Proof. intros H. unfold NormalizeOKDInventoryAuthority. repeat case_match; try done; apply dedupe_trimmed. Qed.

Lemma admission_trimmed inv :
  trimmed (iv_Capabilities inv) -> trimmed (iv_Capabilities (NormalizeClusterInventoryForAdmission inv)).
Proof.
  intros H. unfold NormalizeClusterInventoryForAdmission.
  repeat case_match; auto using read_only_trimmed, okd_authority_trimmed.
Qed.

(** ** Digests carry no space *)

Lemma digest_trimmed raw : TrimSpace (digestBytes raw) = digestBytes raw.
Proof. apply sha256_trimmed. Qed.
Lemma digest_prefixed raw : HasPrefix (digestBytes raw) sha256_prefix = true.
Proof. apply sha256_prefixed. Qed.
