(* ===== verification/Compatibility.v ===== *)
(** * The compatibility matrix

    [compatibility/authority.go]: a target (Kubernetes version, architecture,
    distribution, provider) is evaluated against the constraints of components
    and providers; the decision lists one check per constraint and dimension and
    carries a digest of itself.  [compatibility_authority.go] applies it to
    baselines. *)
From S2P Require Import Prelude GoStrings Text Digest Model Inventory Listing Targets.
From Stdlib Require Import Ascii.

Definition AuthorityMethod : string := "PLATFORM_COMPATIBILITY_MATRIX_V1".

Definition dot : ascii := "."%char.

Definition normalizeKubernetesVersion (v : string) : string :=
  let v := TrimSpace (TrimPrefix v "v") in
  match Split v dot with
  | _ :: part :: _ => "1." +:+ part
  | _ => v
  end.

(** an error is [None] *)
Definition minor (v : string) : option Z :=
  match Split (normalizeKubernetesVersion v) dot with
  | [major; part] => if major != "1" then None else Atoi part
  | _ => None
  end.

(** the values that are neither blank nor repeated *)
Fixpoint keepNew (norm : string -> string) (values seen : list string) : list string :=
  match values with
  | [] => []
  | v :: rest =>
      let v := norm v in
      if (v == "") || bool_decide (v ∈ seen) then keepNew norm rest seen else v :: keepNew norm rest (v :: seen)
  end.

Definition lowerTrim (v : string) : string := ToLower (TrimSpace v).
Definition normalizedSet (values : list string) : list string := sortStrings (keepNew lowerTrim values []).
Definition CanonicalDistributionSet (values : list string) : list string :=
  sortStrings (keepNew CanonicalDistribution values []).

Definition NormalizeTarget (t : CompatTarget) : CompatTarget :=
  t <| tg_KubernetesVersion := normalizeKubernetesVersion (tg_KubernetesVersion t) |>
    <| tg_Architecture := lowerTrim (tg_Architecture t) |>
    <| tg_Distribution := CanonicalDistribution (tg_Distribution t) |>
    <| tg_Provider := lowerTrim (tg_Provider t) |>.

Definition normalizeConstraint (c : CompatConstraint) : CompatConstraint :=
  c <| cn_Name := TrimSpace (cn_Name c) |>
    <| cn_KubernetesMinVersion := normalizeKubernetesVersion (cn_KubernetesMinVersion c) |>
    <| cn_KubernetesMaxVersion := normalizeKubernetesVersion (cn_KubernetesMaxVersion c) |>
    <| cn_Architectures := normalizedSet (cn_Architectures c) |>
    <| cn_Distributions := CanonicalDistributionSet (cn_Distributions c) |>
    <| cn_Providers := normalizedSet (cn_Providers c) |>.

Definition contains (values : list string) (wanted : string) : bool := existsb (fun v => v == wanted) values.

Definition containsAll (outer inner : list string) : bool :=
  contains outer "*" || forallb (fun v => contains outer v) inner.

Definition membershipCheck (name dimension target : string) (allowed : list string) : CompatCheck :=
  let check status message := mkCompatCheck name dimension status target allowed AuthorityMethod message in
  if target == "" then check "FAIL" "target value is required"
  else if contains allowed "*" || contains allowed target then check "PASS" "target is admitted"
  else check "FAIL" "target is outside admitted compatibility set".

(** [v < min || v > max], or a version that cannot be read *)
Definition outsideRange (v min max : option Z) : bool :=
  match v, min, max with
  | Some v, Some min, Some max => (v <? min) || (max <? v)
  | _, _, _ => true
  end.

Definition versionCheck (target : CompatTarget) (c : CompatConstraint) : CompatCheck :=
  let check status message :=
    mkCompatCheck (cn_Name c) "kubernetes" status (tg_KubernetesVersion target)
      [cn_KubernetesMinVersion c +:+ ".." +:+ cn_KubernetesMaxVersion c] AuthorityMethod message in
  if outsideRange (minor (tg_KubernetesVersion target)) (minor (cn_KubernetesMinVersion c)) (minor (cn_KubernetesMaxVersion c))
  then check "FAIL" "Kubernetes minor is outside admitted range"
  else check "PASS" "Kubernetes minor is admitted".

(** the checks of one normalized constraint *)
Definition constraintChecks (target : CompatTarget) (c : CompatConstraint) : list CompatCheck :=
  [versionCheck target c;
   membershipCheck (cn_Name c) "architecture" (tg_Architecture target) (cn_Architectures c);
   membershipCheck (cn_Name c) "distribution" (tg_Distribution target) (cn_Distributions c);
   membershipCheck (cn_Name c) "provider" (tg_Provider target) (cn_Providers c)].

(** ** Digests *)

Definition json_Target (v : CompatTarget) : string :=
  json_object [("kubernetesVersion", json_string (tg_KubernetesVersion v)); ("architecture", json_string (tg_Architecture v));
               ("distribution", json_string (tg_Distribution v)); ("provider", json_string (tg_Provider v))].
Definition json_Check (v : CompatCheck) : string :=
  json_object ([("constraint", json_string (ch_Constraint v)); ("dimension", json_string (ch_Dimension v));
                ("status", json_string (ch_Status v)); ("target", json_string (ch_Target v))]
    ++ json_opt_strings "allowed" (ch_Allowed v)
    ++ [("authority", json_string (ch_Authority v)); ("message", json_string (ch_Message v))])%list.
Definition json_Decision (v : CompatDecision) : string :=
  json_object ([("method", json_string (de_Method v)); ("status", json_string (de_Status v));
                ("target", json_Target (de_Target v)); ("checks", json_slice json_Check (de_Checks v))]
    ++ json_opt_strings "blockers" (de_Blockers v) ++ [("digest", json_string (de_Digest v))])%list.

Definition DecisionDigest (v : CompatDecision) : string := sha256Digest (json_Decision (v <| de_Digest := "" |>)).

(** ** Evaluation *)

Definition checkOrder : CompatCheck -> CompatCheck -> bool := lexi ch_Constraint string_lt (on ch_Dimension string_lt).

Definition blockerOf (check : CompatCheck) : string :=
  ch_Constraint check +:+ ":" +:+ ch_Dimension check +:+ ":" +:+ ch_Message check.

Definition Evaluate (target : CompatTarget) (constraints : list CompatConstraint) : CompatDecision :=
  let target := NormalizeTarget target in
  let normalized := sortSlice (on cn_Name string_lt) (normalizeConstraint <$> constraints) in
  let checks := sortSlice checkOrder (mbind (constraintChecks target) normalized) in
  let blocked := List.filter (fun check => ch_Status check != "PASS") checks in
  let out := mkCompatDecision AuthorityMethod (if nonEmpty blocked then "FAIL" else "PASS") target
               (match checks with [] => None | _ => Some checks end) (sortStrings (blockerOf <$> blocked)) "" in
  out <| de_Digest := DecisionDigest out |>.

Definition Validate (decision : CompatDecision) (constraints : list CompatConstraint) : bool :=
  if (de_Method decision != AuthorityMethod) || ((de_Status decision != "PASS") && (de_Status decision != "FAIL"))
     || negb (HasPrefix (de_Digest decision) "sha256:") then false
  else if de_Digest decision != DecisionDigest decision then false
  else json_Decision decision == json_Decision (Evaluate (de_Target decision) constraints).

(** the message of a refusal wraps no sentinel: acceptance is a boolean *)
Definition CoversConstraint (outer inner : CompatConstraint) : bool :=
  let outer := normalizeConstraint outer in
  let inner := normalizeConstraint inner in
  if match minor (cn_KubernetesMinVersion outer), minor (cn_KubernetesMaxVersion outer),
           minor (cn_KubernetesMinVersion inner), minor (cn_KubernetesMaxVersion inner) with
     | Some outerMin, Some outerMax, Some innerMin, Some innerMax => (innerMin <? outerMin) || (outerMax <? innerMax)
     | _, _, _, _ => true
     end then false
  else if negb (containsAll (cn_Architectures outer) (cn_Architectures inner)) then false
  else if negb (containsAll (cn_Distributions outer) (cn_Distributions inner)) then false
  else negb (nonEmpty (cn_Providers inner) && negb (containsAll (cn_Providers outer) (cn_Providers inner))).

(** ** Baselines *)

(** the constraint of the catalog component [secure-namespace-foundation], as the
    embedded catalog gives it; [None] when the catalog does not load or has no
    such component *)
Definition baselineComponent : string := "component/secure-namespace-foundation".
Definition baselineCompatibilityConstraints (component : option CompatConstraint) : list CompatConstraint :=
  match component with
  | None => [mkCompatConstraint baselineComponent "" "" [] [] []]
  | Some c => [c <| cn_Name := baselineComponent |>]
  end.

Definition ValidateBaselineCompatibilityDecisionContract (component : option CompatConstraint) (v : CompatDecision) : result unit :=
  if Validate v (baselineCompatibilityConstraints component) then Ok tt else Fail ErrValidation.
