(* ===== verification/CompatibilityTheorems.v ===== *)
(** * What compatibility decisions mean *)
From S2P Require Import Prelude GoStrings Text Digest Model Inventory Organizations Listing Targets Compatibility.

(** a target within a constraint, both normalized: its Kubernetes minor lies in
    the range, and each of its other values is named or admitted by ["*"] *)
Definition admitted (t : CompatTarget) (c : CompatConstraint) : Prop :=
  (exists v min max, minor (tg_KubernetesVersion t) = Some v /\ minor (cn_KubernetesMinVersion c) = Some min /\
     minor (cn_KubernetesMaxVersion c) = Some max /\ min <= v <= max) /\
  (tg_Architecture t <> "" /\ ("*" ∈ cn_Architectures c \/ tg_Architecture t ∈ cn_Architectures c)) /\
  (tg_Distribution t <> "" /\ ("*" ∈ cn_Distributions c \/ tg_Distribution t ∈ cn_Distributions c)) /\
  (tg_Provider t <> "" /\ ("*" ∈ cn_Providers c \/ tg_Provider t ∈ cn_Providers c)).

Lemma contains_spec l x : contains l x = true <-> x ∈ l.
Proof.
  unfold contains. rewrite existsb_exists. split.
  - intros (y & Hy & E). apply bool_decide_eq_true in E as ->. by apply list_elem_of_In.
  - intros Hx. exists x. split; [by apply list_elem_of_In|by apply bool_decide_eq_true].
Qed.

Lemma membership_passes name dimension target allowed :
  ch_Status (membershipCheck name dimension target allowed) = "PASS" <->
  target <> "" /\ ("*" ∈ allowed \/ target ∈ allowed).
Proof.
  unfold membershipCheck. rewrite <- !contains_spec. case_bool_decide; cbn; [split; [done|by intros [? _]]|].
  destruct (contains allowed "*"), (contains allowed target); cbn; intuition congruence.
Qed.

Lemma outside_spec v min max :
  outsideRange v min max = false <->
  exists v' min' max', v = Some v' /\ min = Some min' /\ max = Some max' /\ min' <= v' <= max'.
Proof.
  unfold outsideRange. destruct v as [v|], min as [min|], max as [max|]; split; try (by intros (? & ? & ? & ? & ? & ? & ?)); try done.
  - intros H. norm_bool. exists v, min, max. split_and!; [done..|lia|lia].
  - intros (? & ? & ? & [= <-] & [= <-] & [= <-] & ?). apply orb_false_iff. split; apply Z.ltb_ge; lia.
Qed.

Lemma version_passes t c :
  ch_Status (versionCheck t c) = "PASS" <->
  exists v min max, minor (tg_KubernetesVersion t) = Some v /\ minor (cn_KubernetesMinVersion c) = Some min /\
     minor (cn_KubernetesMaxVersion c) = Some max /\ min <= v <= max.
Proof. unfold versionCheck. rewrite <- outside_spec. by destruct (outsideRange _ _ _). Qed.

Lemma checks_pass t c : Forall (fun check => ch_Status check = "PASS") (constraintChecks t c) <-> admitted t c.
Proof.
  unfold constraintChecks, admitted.
  rewrite !Forall_cons, version_passes, !membership_passes. rewrite Forall_nil. tauto.
Qed.

(** the status of an evaluation, by the constraints *)
Lemma evaluate_status t cs :
  de_Status (Evaluate t cs) = "PASS" <-> Forall (fun c => admitted (NormalizeTarget t) (normalizeConstraint c)) cs.
Proof.
  unfold Evaluate. cbv zeta.
  set (normalized := sortSlice _ (normalizeConstraint <$> cs)).
  set (checks := sortSlice checkOrder _).
  transitivity (Forall (fun check => ch_Status check = "PASS") checks).
  - change (de_Status _) with (if nonEmpty (List.filter (fun check => ch_Status check != "PASS") checks) then "FAIL" else "PASS").
    induction checks as [|a l IH]; [split; [constructor|done]|]. cbn. rewrite Forall_cons.
    destruct (decide (ch_Status a = "PASS")) as [E|E].
    + rewrite (bool_decide_eq_true_2 _ E). cbn. rewrite IH. tauto.
    + rewrite (bool_decide_eq_false_2 _ E). cbn. split; [done|by intros [? _]].
  - unfold checks, sortSlice. rewrite merge_sort_Permutation. unfold normalized, sortSlice.
    assert (E : forall l, Forall (fun check => ch_Status check = "PASS") (l ≫= constraintChecks (NormalizeTarget t)) <->
                     Forall (admitted (NormalizeTarget t)) l).
    { induction l as [|c l IH]; [split; constructor|]. rewrite bind_cons, Forall_app, Forall_cons, IH, checks_pass. done. }
    rewrite E, merge_sort_Permutation, Forall_fmap. done.
Qed.

(** ** Accepted decisions *)

(** the text of a decision of this authority determines its status *)
Lemma decision_text_status d d' :
  de_Method d = AuthorityMethod -> de_Method d' = AuthorityMethod ->
  (de_Status d = "PASS" \/ de_Status d = "FAIL") -> (de_Status d' = "PASS" \/ de_Status d' = "FAIL") ->
  json_Decision d = json_Decision d' -> de_Status d = de_Status d'.
Proof.
  intros Hm Hm' Hs Hs'. unfold json_Decision. rewrite Hm, Hm'.
  destruct Hs as [-> | ->], Hs' as [-> | ->]; try done; intros H; exfalso.
  all: cbn in H; discriminate H.
Qed.

Lemma evaluate_pass_or_fail t cs : de_Status (Evaluate t cs) = "PASS" \/ de_Status (Evaluate t cs) = "FAIL".
Proof.
  unfold Evaluate. cbv zeta.
  change (de_Status _) with (if nonEmpty (List.filter (fun check => ch_Status check != "PASS")
    (sortSlice checkOrder (sortSlice (on cn_Name string_lt) (normalizeConstraint <$> cs) ≫= constraintChecks (NormalizeTarget t)))) then "FAIL" else "PASS").
  destruct (nonEmpty _); auto.
Qed.

(** C17: a decision that is accepted is truthful.  Whoever wrote it, a decision that
    [Validate] accepts against some constraints says PASS exactly when its target
    lies within every one of them: the Kubernetes minor in the constraint's range,
    and architecture, distribution and provider in its sets. *)
Theorem accepted_decisions_are_truthful d cs :
  Validate d cs = true ->
  de_Status d = "PASS" <-> Forall (fun c => admitted (NormalizeTarget (de_Target d)) (normalizeConstraint c)) cs.
Proof.
  unfold Validate. case_match eqn:E1; [done|]. case_match eqn:E2; [done|]. intros E3.
  rewrite <- evaluate_status. norm_bool.
  rewrite (decision_text_status d (Evaluate (de_Target d) cs)); try done.
  - destruct (decide (de_Status d = "PASS")) as [?|Hn]; [by left|right].
    match goal with H : (_ && _)%bool = false |- _ => rewrite (bool_decide_eq_false_2 _ Hn) in H; cbn in H; norm_bool; done end.
  - apply evaluate_pass_or_fail.
Qed.

Lemma contains_all_spec outer inner x :
  containsAll outer inner = true -> "*" ∈ inner \/ x ∈ inner -> "*" ∈ outer \/ x ∈ outer.
Proof.
  unfold containsAll. rewrite orb_true_iff, forallb_forall, contains_spec. intros [?|H] Hin; [by left|].
  destruct Hin as [Hin|Hin]; [left|right]; apply contains_spec, H; by apply list_elem_of_In.
Qed.

(** Covering is sound.  When [CoversConstraint] says that one constraint covers
    another, every target that the covered constraint passes is passed by the
    covering one. *)
Theorem covering_constraints_admit_more outer inner t :
  CoversConstraint outer inner = true ->
  de_Status (Evaluate t [inner]) = "PASS" -> de_Status (Evaluate t [outer]) = "PASS".
Proof.
  rewrite !evaluate_status, !Forall_singleton. unfold CoversConstraint. cbv zeta.
  generalize (normalizeConstraint outer) (normalizeConstraint inner) (NormalizeTarget t). clear.
  intros o i t Hc (Hv & [Hna Ha] & [Hnd Hd] & [Hnp Hp]).
  destruct Hv as (v & imin & imax & Et & Eimin & Eimax & Hr).
  destruct (minor (cn_KubernetesMinVersion o)) as [omin|] eqn:Eomin; [|done].
  destruct (minor (cn_KubernetesMaxVersion o)) as [omax|] eqn:Eomax; [|done].
  rewrite Eimin, Eimax in Hc.
  destruct ((imin <? omin) || (omax <? imax)) eqn:Eb; [done|]. norm_bool.
  destruct (containsAll (cn_Architectures o) _) eqn:Ca; [|done].
  destruct (containsAll (cn_Distributions o) _) eqn:Cd; [|done]. cbn in Hc.
  split; [by exists v, omin, omax; split_and!; [..|lia]; try lia|].
  split_and!; try done; try by eapply contains_all_spec.
  destruct (cn_Providers i) as [|p l]; [by destruct Hp as [?%elem_of_nil|?%elem_of_nil]|].
  cbn in Hc. apply (contains_all_spec _ (p :: l)); [|done]. by apply negb_true_iff, negb_false_iff in Hc.
Qed.

Lemma lowerTrim_idem s : lowerTrim (lowerTrim s) = lowerTrim s.
Proof. apply normalizeName_idem. Qed.

Lemma canonical_idem s : CanonicalDistribution (CanonicalDistribution s) = CanonicalDistribution s.
Proof.
  pose proof (normalizeName_idem s) as E. unfold normalizeName in E.
  unfold CanonicalDistribution at 2 3. cbv zeta. repeat (case_match; [reflexivity|]).
  unfold CanonicalDistribution. cbv zeta. rewrite E.
  repeat match goal with H : _ = false |- _ => rewrite H; clear H end. done.
Qed.

(** Decisions round-trip through validation.  The decision computed for a target
    is accepted against the same constraints, for every target whose normalized
    Kubernetes version is stable under normalization. *)
Theorem evaluated_decisions_validate t cs :
  normalizeKubernetesVersion (normalizeKubernetesVersion (tg_KubernetesVersion t)) =
    normalizeKubernetesVersion (tg_KubernetesVersion t) ->
  Validate (Evaluate t cs) cs = true.
Proof.
  intros Hv. assert (E : Evaluate (NormalizeTarget t) cs = Evaluate t cs).
  { unfold Evaluate. assert (NormalizeTarget (NormalizeTarget t) = NormalizeTarget t) as ->; [|done].
    destruct t as [k a d p]. cbn in Hv.
    change (mkCompatTarget (normalizeKubernetesVersion (normalizeKubernetesVersion k)) (lowerTrim (lowerTrim a))
              (CanonicalDistribution (CanonicalDistribution d)) (lowerTrim (lowerTrim p)) =
            mkCompatTarget (normalizeKubernetesVersion k) (lowerTrim a) (CanonicalDistribution d) (lowerTrim p)).
    by rewrite Hv, !lowerTrim_idem, canonical_idem. }
  assert (Hp : HasPrefix (de_Digest (Evaluate t cs)) "sha256:" = true) by apply sha256_prefixed.
  assert (Hd : de_Digest (Evaluate t cs) = DecisionDigest (Evaluate t cs)) by reflexivity.
  assert (Ht : de_Target (Evaluate t cs) = NormalizeTarget t) by reflexivity.
  assert (Hm : de_Method (Evaluate t cs) = AuthorityMethod) by reflexivity.
  pose proof (evaluate_pass_or_fail t cs) as Hs.
  unfold Validate. rewrite Ht, E, Hp, (bool_decide_eq_true_2 _ Hd), (bool_decide_eq_true_2 _ Hm).
  rewrite (bool_decide_eq_true_2 (json_Decision _ = json_Decision _)) by reflexivity.
  generalize dependent (de_Status (Evaluate t cs)). clear. intros st [-> | ->]; reflexivity.
Qed.

(** ** Witnesses: the constraint of the embedded catalog *)

Definition foundation : CompatConstraint :=
  mkCompatConstraint baselineComponent "1.34" "1.35" ["amd64"; "arm64"] ["kubernetes"; "rke2"]
    ["imported"; "cluster-api-topology-v1beta2"].
Definition rke2_target : CompatTarget := mkCompatTarget "v1.34.2+rke2r1" "AMD64" "RKE2" "imported".

Lemma evaluated_decisions_validate_witness :
  de_Status (Evaluate rke2_target [foundation]) = "PASS" /\ Validate (Evaluate rke2_target [foundation]) [foundation] = true.
Proof.
  split; [vm_compute; reflexivity|]. apply evaluated_decisions_validate. vm_compute. reflexivity.
Defined.

Lemma accepted_decisions_are_truthful_witness :
  Forall (fun c => admitted (NormalizeTarget (de_Target (Evaluate rke2_target [foundation]))) (normalizeConstraint c)) [foundation].
Proof.
  apply (accepted_decisions_are_truthful (Evaluate rke2_target [foundation]) [foundation]); vm_compute; reflexivity.
Defined.

Lemma covering_constraints_admit_more_witness :
  de_Status (Evaluate rke2_target [mkCompatConstraint "wide" "1.30" "1.40" ["*"] ["rke2"; "kubernetes"] ["*"]]) = "PASS".
Proof.
  apply (covering_constraints_admit_more _ foundation); vm_compute; reflexivity.
Defined.
