(* ===== verification/Impact.v ===== *)
(** * Plan impacts and completion evidence

    [planning_impact.go]: the digests that seal the parts of a plan's impact,
    the validation of an impact an agent reports, and the validation and sealing
    of the evidence that completes a deployment. *)
From S2P Require Import Prelude GoStrings Text Digest Model Calendar Inventory Listing Targets Compatibility.
From Stdlib Require Import Ascii.
From Stdlib Require String.

Definition PlanningImpactSchemaVersion : Z := 6.
Definition PlanSchemaValidationMethod : string := "KUBE_APISERVER_DRY_RUN_STRICT".
Definition PlanRollbackValidationMethod : string := "KUBE_ROLLBACK_FEASIBILITY_V1".
Definition PlanEvidenceCollectionMethod : string := "BASELINE_EVIDENCE_COLLECTION_V1".
Definition PlanCapabilityPreflightMethod : string := "CLUSTER_CAPABILITY_PREFLIGHT_V1".
Definition PlanEvidencePhasePostApply : string := "POST_APPLY".

(** ** JSON of the parts of an impact *)

Fixpoint json_value (v : JSONValue) : string :=
  match v with
  | JSONNull => "null"
  | JSONBool b => json_bool b
  | JSONNumber text => text
  | JSONString s => json_string s
  | JSONArray items => json_array ((fix go l := match l with [] => [] | x :: l' => json_value x :: go l' end) items)
  | JSONObject members =>
      json_object ((fix go l := match l with [] => [] | (k, x) :: l' => (k, json_value x) :: go l' end) members)
  end.

Definition json_strings_map (k : string) (m : list (string * string)) : list (string * string) :=
  match m with [] => [] | _ => [(k, json_object ((fun kv => (kv.1, json_string kv.2)) <$> m))] end.
Definition json_opt_bool (k : string) (b : bool) : list (string * string) := if b then [(k, json_bool b)] else [].

Definition json_PlanSchemaCompatibility (v : PlanSchemaCompatibility) : string :=
  json_object ([("status", json_string (ps_Status v)); ("method", json_string (ps_Method v));
                ("httpStatus", json_int (ps_HTTPStatus v)); ("schemaIndexVersion", json_string (ps_SchemaIndexVersion v));
                ("schemaIndexDigest", json_string (ps_SchemaIndexDigest v))]
    ++ json_opt_strings "warnings" (ps_Warnings v) ++ json_opt "failureDigest" (ps_FailureDigest v))%list.

Definition json_PlanAPIImpact (v : PlanAPIImpact) : string :=
  json_object ([("resource", json_string (pa_Resource v)); ("apiVersion", json_string (pa_APIVersion v));
                ("kind", json_string (pa_Kind v)); ("discoveryStatus", json_string (pa_DiscoveryStatus v));
                ("lifecycleStatus", json_string (pa_LifecycleStatus v))]
    ++ json_opt "deprecatedIn" (pa_DeprecatedIn v) ++ json_opt "removedIn" (pa_RemovedIn v)
    ++ json_opt "replacement" (pa_Replacement v) ++ [("customResource", json_bool (pa_CustomResource v))]
    ++ json_opt "crdName" (pa_CRDName v) ++ json_opt_bool "crdVersionServed" (pa_CRDVersionServed v)
    ++ [("schema", json_PlanSchemaCompatibility (pa_Schema v)); ("severity", json_string (pa_Severity v));
        ("message", json_string (pa_Message v))])%list.

Definition json_PlanQuotaImpact (v : PlanQuotaImpact) : string :=
  json_object ([("resource", json_string (pq_Resource v)); ("action", json_string (pq_Action v))]
    ++ json_strings_map "current" (pq_Current v) ++ json_strings_map "desired" (pq_Desired v))%list.

Definition json_PlanCapacityEstimate (v : PlanCapacityEstimate) : string :=
  json_object ([("demandDeltaKnown", json_bool (pe_DemandDeltaKnown v));
                ("cpuRequestDeltaMilli", json_int (pe_CPURequestDeltaMilli v));
                ("memoryRequestDeltaBytes", json_int (pe_MemoryRequestDeltaBytes v));
                ("podReplicaDelta", json_int (pe_PodReplicaDelta v));
                ("workloadResources", json_int (pe_WorkloadResources v));
                ("cpuAllocatableCeilingMilli", json_int (pe_CPUAllocatableCeilingMilli v));
                ("memoryAllocatableCeilingBytes", json_int (pe_MemoryAllocatableCeilingBytes v));
                ("podsAllocatableCeiling", json_int (pe_PodsAllocatableCeiling v));
                ("ceilingCheck", json_string (pe_CeilingCheck v));
                ("currentUsageKnown", json_bool (pe_CurrentUsageKnown v))]
    ++ json_opt_strings "unknownReasons" (pe_UnknownReasons v)
    ++ json_opt_array "quotaImpacts" (json_PlanQuotaImpact <$> pe_QuotaImpacts v))%list.

Definition json_PlanDisruptionEstimate (v : PlanDisruptionEstimate) : string :=
  json_object ([("level", json_string (pd_Level v));
                ("maintenanceRecommendation", json_string (pd_MaintenanceRecommendation v))]
    ++ json_opt_strings "reasons" (pd_Reasons v) ++ json_opt_strings "affectedResources" (pd_AffectedResources v))%list.

Definition json_PlanRollbackResource (v : PlanRollbackResource) : string :=
  json_object ([("resource", json_string (pr_Resource v)); ("changeAction", json_string (pr_ChangeAction v));
                ("strategy", json_string (pr_Strategy v)); ("status", json_string (pr_Status v));
                ("authorizationStatus", json_string (pr_AuthorizationStatus v));
                ("dryRunStatus", json_string (pr_DryRunStatus v))]
    ++ json_opt_int "httpStatus" (pr_HTTPStatus v)
    ++ [("schemaIndexVersion", json_string (pr_SchemaIndexVersion v));
        ("schemaIndexDigest", json_string (pr_SchemaIndexDigest v))]
    ++ json_opt "observedUid" (pr_ObservedUID v) ++ json_opt "observedObjectDigest" (pr_ObservedObjectDigest v)
    ++ json_opt "restoreObjectDigest" (pr_RestoreObjectDigest v)
    ++ match pr_RestoreObject v with [] => [] | m => [("restoreObject", json_value (JSONObject m))] end
    ++ json_opt_strings "warnings" (pr_Warnings v) ++ json_opt "failureDigest" (pr_FailureDigest v))%list.

Definition json_PlanRollbackFeasibility (v : PlanRollbackFeasibility) : string :=
  json_object ([("status", json_string (pf_Status v)); ("method", json_string (pf_Method v));
                ("resources", json_slice json_PlanRollbackResource (pf_Resources v))]
    ++ json_opt_strings "blockers" (pf_Blockers v) ++ json_opt_strings "warnings" (pf_Warnings v)
    ++ [("digest", json_string (pf_Digest v))])%list.

Definition json_PlanEvidenceArtifact (v : PlanEvidenceArtifact) : string :=
  json_object ([("key", json_string (px_Key v)); ("kind", json_string (px_Kind v))]
    ++ json_opt "resource" (px_Resource v)
    ++ [("authority", json_string (px_Authority v)); ("sourceLocation", json_string (px_SourceLocation v));
        ("outputLocation", json_string (px_OutputLocation v)); ("mediaType", json_string (px_MediaType v));
        ("phase", json_string (px_Phase v)); ("required", json_bool (px_Required v));
        ("retentionDays", json_int (px_RetentionDays v))])%list.

Definition json_PlanEvidenceCollection (v : PlanEvidenceCollection) : string :=
  json_object ([("status", json_string (pv_Status v)); ("method", json_string (pv_Method v));
                ("requiredCount", json_int (pv_RequiredCount v));
                ("artifacts", json_slice json_PlanEvidenceArtifact (pv_Artifacts v))]
    ++ json_opt_strings "blockers" (pv_Blockers v) ++ json_opt_strings "warnings" (pv_Warnings v)
    ++ [("digest", json_string (pv_Digest v))])%list.

Definition json_PlanCapabilityCheck (v : PlanCapabilityCheck) : string :=
  json_object ([("key", json_string (pk_Key v)); ("domain", json_string (pk_Domain v));
                ("required", json_bool (pk_Required v)); ("status", json_string (pk_Status v));
                ("authority", json_string (pk_Authority v)); ("impact", json_string (pk_Impact v));
                ("detail", json_string (pk_Detail v))]
    ++ json_opt_strings "evidence" (pk_Evidence v))%list.

Definition json_PlanCapabilityPreflight (v : PlanCapabilityPreflight) : string :=
  json_object ([("status", json_string (pp_Status v)); ("method", json_string (pp_Method v));
                ("inventoryDigest", json_string (pp_InventoryDigest v));
                ("checks", json_slice json_PlanCapabilityCheck (pp_Checks v))]
    ++ json_opt_strings "blockers" (pp_Blockers v) ++ json_opt_strings "warnings" (pp_Warnings v)
    ++ [("digest", json_string (pp_Digest v))])%list.

Definition json_BaselinePlanImpact (v : BaselinePlanImpact) : string :=
  json_object ([("schemaVersion", json_int (pi_SchemaVersion v)); ("inventoryDigest", json_string (pi_InventoryDigest v));
                ("compatibility", json_Decision (pi_Compatibility v));
                ("capability", json_PlanCapabilityPreflight (pi_Capability v));
                ("api", json_slice json_PlanAPIImpact (pi_API v));
                ("capacity", json_PlanCapacityEstimate (pi_Capacity v));
                ("disruption", json_PlanDisruptionEstimate (pi_Disruption v));
                ("rollback", json_PlanRollbackFeasibility (pi_Rollback v));
                ("evidence", json_PlanEvidenceCollection (pi_Evidence v));
                ("approvalReady", json_bool (pi_ApprovalReady v))]
    ++ json_opt_strings "blockers" (pi_Blockers v) ++ json_opt_strings "warnings" (pi_Warnings v)
    ++ [("digest", json_string (pi_Digest v))])%list.

Definition PlanningImpactDigest (v : BaselinePlanImpact) : string :=
  sha256Digest (json_BaselinePlanImpact (v <| pi_Digest := "" |>)).
Definition RollbackFeasibilityDigest (v : PlanRollbackFeasibility) : string :=
  sha256Digest (json_PlanRollbackFeasibility (v <| pf_Digest := "" |>)).
Definition EvidenceCollectionPlanDigest (v : PlanEvidenceCollection) : string :=
  sha256Digest (json_PlanEvidenceCollection (v <| pv_Digest := "" |>)).
Definition CapabilityPreflightDigest (v : PlanCapabilityPreflight) : string :=
  sha256Digest (json_PlanCapabilityPreflight (v <| pp_Digest := "" |>)).

(** ** Validation *)

Definition blank (s : string) : bool := TrimSpace s == "".

(** the loop over checks; [seen] holds the keys so far *)
Fixpoint capabilityChecksValid (seen : list string) (checks : list PlanCapabilityCheck) : bool :=
  match checks with
  | [] => true
  | check :: rest =>
      negb (blank (pk_Key check) || blank (pk_Domain check) || blank (pk_Authority check) || blank (pk_Impact check)
            || blank (pk_Detail check) || bool_decide (pk_Key check ∈ seen))
      && negb (pk_Required check && (pk_Status check != "PASS") && (pk_Status check != "FAIL"))
      && negb (negb (pk_Required check) && (pk_Status check != "AVAILABLE") && (pk_Status check != "NOT_REQUIRED"))
      && capabilityChecksValid (pk_Key check :: seen) rest
  end.

Definition ValidateCapabilityPreflight (v : PlanCapabilityPreflight) : result unit :=
  if (pp_Method v != PlanCapabilityPreflightMethod) || ((pp_Status v != "PASS") && (pp_Status v != "FAIL"))
     || negb (HasPrefix (pp_InventoryDigest v) "sha256:") || negb (nonEmpty (elems (pp_Checks v)))
     || negb (HasPrefix (pp_Digest v) "sha256:") || (pp_Digest v != CapabilityPreflightDigest v)
  then Fail ErrValidation
  else if capabilityChecksValid [] (elems (pp_Checks v)) then Ok tt else Fail ErrValidation.

Definition evidenceArtifactInvalid (seen : list string) (item : PlanEvidenceArtifact) : bool :=
  blank (px_Key item) || bool_decide (px_Key item ∈ seen) || blank (px_Kind item) || blank (px_Authority item)
  || blank (px_SourceLocation item) || blank (px_OutputLocation item) || (px_MediaType item != "application/json")
  || (px_Phase item != PlanEvidencePhasePostApply) || (px_RetentionDays item <? 30) || (3650 <? px_RetentionDays item).

(** the number of required artifacts; [None] when one is invalid *)
Fixpoint requiredArtifacts (seen : list string) (required : Z) (items : list PlanEvidenceArtifact) : option Z :=
  match items with
  | [] => Some required
  | item :: rest =>
      if evidenceArtifactInvalid seen item then None
      else requiredArtifacts (px_Key item :: seen) (if px_Required item then required + 1 else required) rest
  end.

Definition ValidateEvidenceCollectionPlan (v : PlanEvidenceCollection) : result unit :=
  if (pv_Status v != "PASS") || (pv_Method v != PlanEvidenceCollectionMethod) || (pv_RequiredCount v <=? 0)
     || negb (nonEmpty (elems (pv_Artifacts v))) then Fail ErrValidation
  else if negb (HasPrefix (pv_Digest v) "sha256:") || (pv_Digest v != EvidenceCollectionPlanDigest v) then Fail ErrValidation
  else match requiredArtifacts [] 0 (elems (pv_Artifacts v)) with
       | Some required => if required != pv_RequiredCount v then Fail ErrValidation else Ok tt
       | None => Fail ErrValidation
       end.

(** ** Completion evidence *)

Definition payloadText (payload : option (list (string * JSONValue))) : string :=
  match payload with None => "null" | Some m => json_value (JSONObject m) end.
Definition baselineEvidencePayloadDigest (payload : option (list (string * JSONValue))) : string * Z :=
  (sha256Digest (payloadText payload), len (payloadText payload)).

(** the members that the set digest covers *)
Definition json_evidenceDigestItem (v : BaselineEvidenceArtifact) : string :=
  json_object [("Key", json_string (be_Key v)); ("Kind", json_string (be_Kind v)); ("Resource", json_string (be_Resource v));
               ("Authority", json_string (be_Authority v)); ("Digest", json_string (be_Digest v));
               ("MediaType", json_string (be_MediaType v)); ("Location", json_string (be_Location v));
               ("Size", json_int (be_Size v)); ("Required", json_bool (be_Required v));
               ("RetentionDays", json_int (be_RetentionDays v))].

Definition evidenceByKey : list BaselineEvidenceArtifact -> list BaselineEvidenceArtifact := sortSlice (on be_Key string_lt).

Definition BaselineEvidenceSetDigest (items : list BaselineEvidenceArtifact) : string :=
  sha256Digest (json_array (json_evidenceDigestItem <$> evidenceByKey items)).

(** [strings.ReplaceAll(s, old, new)] for a nonempty [old]; [skip] counts the bytes
    of an occurrence that are still to be dropped *)
Fixpoint replaceBytes (old new : string) (skip : nat) (s : string) : string :=
  match s with
  | EmptyString => ""
  | String a s' =>
      match skip with
      | S k => replaceBytes old new k s'
      | O => if HasPrefix s old then new +:+ replaceBytes old new (String.length old - 1) s'
             else String a (replaceBytes old new 0 s')
      end
  end.
Definition ReplaceAll (s old new : string) : string := replaceBytes old new 0 s.

(** the last artifact planned under a key *)
Definition plannedArtifact (items : list PlanEvidenceArtifact) (key : string) : option PlanEvidenceArtifact :=
  last (List.filter (fun item => px_Key item == key) items).

Definition collectedMismatch (deploymentID : string) (spec : PlanEvidenceArtifact) (item : BaselineEvidenceArtifact) : bool :=
  let '(digest, size) := baselineEvidencePayloadDigest (be_Payload item) in
  let expectedLocation := if deploymentID != "" then ReplaceAll (px_OutputLocation spec) "{deploymentId}" deploymentID
                          else px_OutputLocation spec in
  (be_Kind item != px_Kind spec) || (be_Resource item != px_Resource spec) || (be_Authority item != px_Authority spec)
  || (be_MediaType item != px_MediaType spec) || (be_Location item != expectedLocation)
  || negb (Bool.eqb (be_Required item) (px_Required spec)) || (be_RetentionDays item != px_RetentionDays spec)
  || (be_Digest item != digest) || (be_Size item != size) || negb (HasPrefix (be_Digest item) "sha256:")
  || ((deploymentID != "")
      && (be_Location item != "/api/v1/baseline-deployments/" +:+ deploymentID +:+ "/evidence/" +:+ be_Key item)).

(** the loop over collected artifacts; the keys seen, or a refusal *)
Fixpoint matchCollected (planned : list PlanEvidenceArtifact) (deploymentID : string) (seen : list string)
    (collected : list BaselineEvidenceArtifact) : option (list string) :=
  match collected with
  | [] => Some seen
  | item :: rest =>
      match plannedArtifact planned (be_Key item) with
      | None => None
      | Some spec => if bool_decide (be_Key item ∈ seen) || collectedMismatch deploymentID spec item then None
                     else matchCollected planned deploymentID (be_Key item :: seen) rest
      end
  end.

Definition ValidateCollectedBaselineEvidence (plan : PlanEvidenceCollection) (deploymentID : string)
    (collected : list BaselineEvidenceArtifact) : result unit :=
  match ValidateEvidenceCollectionPlan plan with
  | Fail e => Fail e
  | Ok _ =>
      let planned := elems (pv_Artifacts plan) in
      if negb (Z.of_nat (length collected) =? Z.of_nat (size (list_to_set (px_Key <$> planned) : gset string)))
      then Fail ErrValidation
      else match matchCollected planned deploymentID [] collected with
           | None => Fail ErrValidation
           | Some seen =>
               if existsb (fun item => px_Required item && negb (bool_decide (px_Key item ∈ seen))) planned
               then Fail ErrValidation else Ok tt
           end
  end.

Definition Hour : Z := 60 * Minute.

Definition sealArtifact (now : Time) (item : BaselineEvidenceArtifact) : BaselineEvidenceArtifact :=
  item <| be_CollectedAt := Some now |>
       <| be_RetainUntil := Some (now + wrap64 (wrap64 (be_RetentionDays item * 24) * Hour)) |>.

Definition SealBaselineEvidence (plan : PlanEvidenceCollection) (deploymentID : string)
    (collected : list BaselineEvidenceArtifact) (now : Time) : result (list BaselineEvidenceArtifact * string) :=
  match ValidateCollectedBaselineEvidence plan deploymentID collected with
  | Fail e => Fail e
  | Ok _ => let out := evidenceByKey (sealArtifact now <$> collected) in Ok (out, BaselineEvidenceSetDigest out)
  end.

(** ** Impacts *)

Definition apiSchemaFails (api : PlanAPIImpact) : bool :=
  (ps_Status (pa_Schema api) != "PASS") || (ps_Method (pa_Schema api) != PlanSchemaValidationMethod)
  || (ps_HTTPStatus (pa_Schema api) <? 200) || (300 <=? ps_HTTPStatus (pa_Schema api))
  || negb (HasPrefix (ps_SchemaIndexDigest (pa_Schema api)) "sha256:").

Definition check (b : bool) (e : Error) (rest : result unit) : result unit := if b then Fail e else rest.
Definition also (r rest : result unit) : result unit := match r with Ok _ => rest | Fail e => Fail e end.

Definition ValidatePlanningImpact (component : option CompatConstraint) (v : BaselinePlanImpact) (inventoryDigest : string)
    (changes : list BaselinePlanChange) : result unit :=
  check ((pi_SchemaVersion v != PlanningImpactSchemaVersion) || blank (pi_InventoryDigest v)
         || (pi_InventoryDigest v != TrimSpace inventoryDigest)) ErrValidation
  (also (ValidateBaselineCompatibilityDecisionContract component (pi_Compatibility v))
  (also (ValidateCapabilityPreflight (pi_Capability v))
  (check (pp_InventoryDigest (pi_Capability v) != pi_InventoryDigest v) ErrValidation
  (check (negb (HasPrefix (pi_Digest v) "sha256:") || (pi_Digest v != PlanningImpactDigest v)) ErrValidation
  (check ((pe_CeilingCheck (pi_Capacity v) == "") || (pd_Level (pi_Disruption v) == "")
          || (pd_MaintenanceRecommendation (pi_Disruption v) == "")) ErrValidation
  (check (nonEmpty changes && negb (nonEmpty (elems (pi_API v)))) ErrValidation
  (check (existsb apiSchemaFails (elems (pi_API v))) ErrValidation
  (check ((pf_Method (pi_Rollback v) != PlanRollbackValidationMethod) || (pf_Status (pi_Rollback v) != "PASS")
          || negb (HasPrefix (pf_Digest (pi_Rollback v)) "sha256:")
          || (pf_Digest (pi_Rollback v) != RollbackFeasibilityDigest (pi_Rollback v))) ErrValidation
  (check (existsb (fun item => (pr_Status item != "PASS") || negb (HasPrefix (pr_SchemaIndexDigest item) "sha256:"))
            (elems (pf_Resources (pi_Rollback v)))) ErrValidation
  (also (ValidateEvidenceCollectionPlan (pi_Evidence v)) (Ok tt))))))))))).

Definition PlanningImpactSchemaReady (v : BaselinePlanImpact) : bool :=
  nonEmpty (elems (pi_API v)) && negb (existsb apiSchemaFails (elems (pi_API v))).
