(* ===== verification/ImpactTheorems.v ===== *)
(** * What sealed completion evidence is worth

    The loops that validate collected evidence, as statements about lists; and
    that sealing keeps the evidence valid, fixes its retention, and does not
    depend on the order in which an agent reported it. *)
From S2P Require Import Prelude GoStrings Text Digest Model Calendar Inventory Listing Targets Compatibility Impact.

(** ** The plan's artifacts *)

Lemma required_artifacts seen n items m :
  requiredArtifacts seen n items = Some m ->
  NoDup (px_Key <$> items) /\ (forall x, x ∈ items -> (px_Key x ∉ seen) /\ 30 <= px_RetentionDays x <= 3650).
Proof.
  revert seen n. induction items as [|x l IH]; intros seen n H; [split; [constructor|by intros ? ?%elem_of_nil]|].
  cbn [requiredArtifacts] in H. destruct (evidenceArtifactInvalid seen x) eqn:Ei; [done|].
  apply IH in H as [Hn Hl]. unfold evidenceArtifactInvalid in Ei. norm_bool. split.
  - rewrite fmap_cons. constructor; [|done]. intros (y & Ek & Hy)%list_elem_of_fmap.
    destruct (Hl y Hy) as [Hne _]. apply Hne. rewrite <- Ek. left.
  - intros y [->|Hy]%elem_of_cons; [done|]. destruct (Hl y Hy) as [Hne ?]. split; [|done].
    intros Hs. apply Hne. by right.
Qed.

Lemma plan_artifacts plan :
  ValidateEvidenceCollectionPlan plan = Ok tt ->
  elems (pv_Artifacts plan) <> [] /\ NoDup (px_Key <$> elems (pv_Artifacts plan)) /\
  Forall (fun x => 30 <= px_RetentionDays x <= 3650) (elems (pv_Artifacts plan)).
Proof.
  unfold ValidateEvidenceCollectionPlan. intros H. case_match eqn:E1; [done|]. case_match; [done|].
  destruct (requiredArtifacts _ _ _) as [m|] eqn:E; [|done]. apply required_artifacts in E as [Hn Hl].
  split_and!; [|done|apply Forall_forall; intros x Hx; by apply Hl]. norm_bool. by destruct (elems _).
Qed.

(** ** Collected artifacts *)

(** the artifact is as some planned one says *)
Definition collectedOK (planned : list PlanEvidenceArtifact) (deploymentID : string) (item : BaselineEvidenceArtifact) : Prop :=
  exists spec, plannedArtifact planned (be_Key item) = Some spec /\ collectedMismatch deploymentID spec item = false.

Lemma match_collected planned id seen items seen' :
  matchCollected planned id seen items = Some seen' <->
  (Forall (collectedOK planned id) items /\ NoDup (be_Key <$> items) /\ (forall x, x ∈ items -> be_Key x ∉ seen)) /\
  seen' = (rev (be_Key <$> items) ++ seen)%list.
Proof.
  revert seen. induction items as [|x l IH]; intros seen; cbn [matchCollected].
  { split; [intros [= <-]; split_and!; [constructor|constructor|by intros ? ?%elem_of_nil|done]|by intros [_ ->]]. }
  rewrite Forall_cons, fmap_cons, NoDup_cons. unfold collectedOK at 1.
  destruct (plannedArtifact planned (be_Key x)) as [spec|]; [|split; [done|]; by intros [(((? & [=] & _) & _) & _) _]].
  destruct (bool_decide (be_Key x ∈ seen)) eqn:Es; cbn [orb].
  { split; [done|]. intros [(_ & _ & Hd) _]. norm_bool. by destruct (Hd x (list_elem_of_here _ _)). }
  destruct (collectedMismatch id spec x) eqn:Em.
  { split; [done|]. intros [(((? & [= <-] & Hm) & _) & _) _]; [congruence]. }
  rewrite IH. cbn [rev]. norm_bool. split.
  - intros [(Hf & Hn & Hd) ->]. split; [|by rewrite <- app_assoc]. split_and!; [by exists spec|done| |done|].
    + intros (y & Ek & Hy)%list_elem_of_fmap. apply (Hd y Hy). rewrite <- Ek. left.
    + intros y [->|Hy]%elem_of_cons; [done|]. intros Hs. apply (Hd y Hy). by right.
  - intros [((_ & Hf) & (Hx & Hn) & Hd) ->]. split; [|by rewrite <- app_assoc]. split_and!; [done|done|].
    intros y Hy [Ek|Hs]%elem_of_cons; [|by apply (Hd y); [right|]].
    apply Hx, list_elem_of_fmap. exists y. by split.
Qed.

(** what validation says of collected evidence *)
Record evidence_covers (plan : PlanEvidenceCollection) (id : string) (items : list BaselineEvidenceArtifact) : Prop := {
  ec_plan : ValidateEvidenceCollectionPlan plan = Ok tt;
  ec_count : length items = length (elems (pv_Artifacts plan));
  ec_items : Forall (collectedOK (elems (pv_Artifacts plan)) id) items;
  ec_keys : NoDup (be_Key <$> items);
  ec_required : forall spec, spec ∈ elems (pv_Artifacts plan) -> px_Required spec = true -> px_Key spec ∈ be_Key <$> items
}.

Lemma validate_collected plan id items :
  ValidateCollectedBaselineEvidence plan id items = Ok tt <-> evidence_covers plan id items.
Proof.
  unfold ValidateCollectedBaselineEvidence. destruct (ValidateEvidenceCollectionPlan plan) as [[]|e] eqn:Ep;
    [|split; [done|intros [Hp _ _ _ _]; congruence]].
  destruct (plan_artifacts _ Ep) as (_ & Hn & _).
  rewrite (size_list_to_set (C := gset string)) by exact Hn. rewrite length_fmap.
  destruct (Z.of_nat (length items) =? _) eqn:El; cbn [negb].
  2: { split; [done|]. intros [_ Hc _ _ _]. rewrite Hc, Z.eqb_refl in El. done. }
  apply Z.eqb_eq, Nat2Z.inj in El.
  destruct (matchCollected _ _ _ _) as [seen|] eqn:Em.
  2: { split; [done|]. intros [_ _ Hi Hk _].
       assert (H : matchCollected (elems (pv_Artifacts plan)) id [] items = Some (rev (be_Key <$> items) ++ [])%list)
         by (apply match_collected; split_and!; [done|done|by intros ? ? ?%elem_of_nil|done]). congruence. }
  apply match_collected in Em as [(Hi & Hk & _) ->]. rewrite app_nil_r.
  assert (Hr : forall k, k ∈ rev (be_Key <$> items) <-> k ∈ be_Key <$> items)
    by (intros k; rewrite !list_elem_of_In; symmetry; apply in_rev).
  destruct (existsb _ _) eqn:Ex.
  - split; [done|]. intros [_ _ _ _ Hq]. apply existsb_exists in Ex as (spec & Hs & E). norm_bool.
    destruct H0. apply Hr, Hq; [by apply list_elem_of_In|done].
  - split; [|done]. intros _. split; try done. intros spec Hs Hreq. apply Hr.
    destruct (decide (px_Key spec ∈ rev (be_Key <$> items))) as [?|Hno]; [done|].
    assert (Ht : existsb (fun item => px_Required item && negb (bool_decide (px_Key item ∈ rev (be_Key <$> items))))
                   (elems (pv_Artifacts plan)) = true).
    { apply existsb_exists. exists spec. split; [by apply list_elem_of_In|]. rewrite Hreq, bool_decide_eq_false_2; done. }
    congruence.
Qed.

Lemma validate_error plan id items e : ValidateCollectedBaselineEvidence plan id items = Fail e -> e = ErrValidation.
Proof. unfold ValidateCollectedBaselineEvidence, ValidateEvidenceCollectionPlan. intros H. repeat case_match; congruence. Qed.

Lemma covers_perm plan id items items' : items ≡ₚ items' -> evidence_covers plan id items -> evidence_covers plan id items'.
Proof.
  intros Hp [H1 H2 H3 H4 H5]. split; [done|by rewrite <- Hp|by rewrite <- Hp|by rewrite <- Hp|].
  intros spec Hs Hr. rewrite <- Hp. by apply H5.
Qed.

Lemma validate_perm plan id items items' :
  items ≡ₚ items' -> ValidateCollectedBaselineEvidence plan id items = ValidateCollectedBaselineEvidence plan id items'.
Proof.
  intros Hp. destruct (ValidateCollectedBaselineEvidence plan id items) as [[]|e] eqn:E.
  - symmetry. apply validate_collected, (covers_perm _ _ items); [done|]. by apply validate_collected.
  - rewrite (validate_error _ _ _ _ E).
    destruct (ValidateCollectedBaselineEvidence plan id items') as [[]|e'] eqn:E'; [|by rewrite (validate_error _ _ _ _ E')].
    apply validate_collected, (covers_perm _ _ _ items), validate_collected in E'; [congruence|done].
Qed.

(** sealing touches nothing that validation looks at *)
Lemma covers_seal plan id now items : evidence_covers plan id items -> evidence_covers plan id (sealArtifact now <$> items).
Proof.
  intros [H1 H2 H3 H4 H5].
  assert (Ek : be_Key <$> (sealArtifact now <$> items) = be_Key <$> items) by (rewrite <- list_fmap_compose; done).
  split; [done|by rewrite length_fmap| |by rewrite Ek|by rewrite Ek].
  apply Forall_fmap. eapply Forall_impl; [exact H3|]. intros x Hx. exact Hx.
Qed.

Lemma planned_in items key spec : plannedArtifact items key = Some spec -> spec ∈ items /\ px_Key spec = key.
Proof.
  unfold plannedArtifact. intros H. apply last_Some_elem_of, elem_of_bfilter in H as [H E]. by norm_bool.
Qed.

Lemma collected_retention plan id items x :
  evidence_covers plan id items -> x ∈ items ->
  exists spec, spec ∈ elems (pv_Artifacts plan) /\ px_Key spec = be_Key x /\ be_Required x = px_Required spec /\
    30 <= be_RetentionDays x <= 3650.
Proof.
  intros [H1 _ H3 _ _] Hx. rewrite Forall_forall in H3. destruct (H3 x Hx) as (spec & Hs & Hm).
  destruct (planned_in _ _ _ Hs) as [Hin Hk]. exists spec.
  destruct (plan_artifacts _ H1) as (_ & _ & Hr). rewrite Forall_forall in Hr. specialize (Hr spec Hin).
  unfold collectedMismatch in Hm. destruct (baselineEvidencePayloadDigest _) as [d z]. norm_bool.
  match goal with H : Bool.eqb _ _ = true |- _ => apply eqb_prop in H end. split_and!; [done|done|done|lia|lia].
Qed.

Lemma by_key_unique items :
  NoDup (be_Key <$> items) ->
  forall a b, a ∈ items -> b ∈ items -> on be_Key string_lt a b = false -> on be_Key string_lt b a = false -> a = b.
Proof.
  intros Hn a b Ha Hb H1 H2. apply list_elem_of_lookup in Ha as [i Ha], Hb as [j Hb].
  assert (Ek : be_Key a = be_Key b) by (by apply string_lt_linear).
  assert (i = j) as ->; [|congruence].
  eapply (NoDup_lookup _ i j (be_Key a) Hn); rewrite list_lookup_fmap; [by rewrite Ha|by rewrite Hb, Ek].
Qed.

Lemma sealed_evidence plan id collected now out digest :
  SealBaselineEvidence plan id collected now = Ok (out, digest) ->
  ValidateCollectedBaselineEvidence plan id out = Ok tt /\ digest = BaselineEvidenceSetDigest out /\ out <> [] /\
  Forall (fun x => be_CollectedAt x = Some now /\
            be_RetainUntil x = Some (now + be_RetentionDays x * 24 * Hour) /\ 30 <= be_RetentionDays x) out.
Proof.
  unfold SealBaselineEvidence. intros H. destruct (ValidateCollectedBaselineEvidence plan id collected) as [[]|e] eqn:E; [|done].
  injection H as <- <-. apply validate_collected in E. pose proof (covers_seal _ _ now _ E) as Es.
  assert (Hp : evidenceByKey (sealArtifact now <$> collected) ≡ₚ sealArtifact now <$> collected) by apply sortSlice_perm.
  split_and!; [|done| |].
  - apply validate_collected. by eapply covers_perm; [symmetry|].
  - intros En. rewrite En in Hp. apply Permutation_nil_l, symmetry, fmap_nil_inv in Hp as ->.
    destruct E as [Hv Hc _ _ _], (plan_artifacts _ Hv) as (Hne & _). by destruct (elems (pv_Artifacts plan)).
  - rewrite Hp. apply Forall_fmap, Forall_forall. intros x Hx. cbn.
    destruct (collected_retention _ _ _ _ E Hx) as (spec & _ & _ & _ & Hd).
    split_and!; [done| |lia]. rewrite (wrap64_id (_ * 24)), wrap64_id; [done|..]; unfold in_int64, Hour, Minute, Second, int64_min, int64_max; lia.
Qed.

(** Sealed completion evidence stays valid.  Evidence that
    [SealBaselineEvidence] seals covers the plan exactly as the agent's report did:
    it is the reported evidence in the order of its keys, it validates again, its
    digest is the digest of the sealed set, and every artifact is marked as
    collected now and retained for the days it names, at least thirty. *)
Theorem sealed_evidence_validates plan id collected now out digest :
  SealBaselineEvidence plan id collected now = Ok (out, digest) ->
  ValidateCollectedBaselineEvidence plan id out = Ok tt /\ digest = BaselineEvidenceSetDigest out /\ out <> [] /\
  out ≡ₚ sealArtifact now <$> collected /\
  Forall (fun x => be_CollectedAt x = Some now /\
            be_RetainUntil x = Some (now + be_RetentionDays x * 24 * Hour) /\ 30 <= be_RetentionDays x) out.
Proof.
  intros H. pose proof (sealed_evidence _ _ _ _ _ _ H) as (H1 & H2 & H3 & H4). split_and!; try done.
  unfold SealBaselineEvidence in H. case_match; [|done]. injection H as <- _. apply sortSlice_perm.
Qed.

(** Sealing does not depend on the order of the report.  Two reports of the same
    artifacts in any order are both refused with the same error or seal to the same
    evidence with the same digest. *)
Theorem sealing_is_order_independent plan id collected collected' now :
  collected ≡ₚ collected' -> SealBaselineEvidence plan id collected now = SealBaselineEvidence plan id collected' now.
Proof.
  intros Hp. unfold SealBaselineEvidence. rewrite <- (validate_perm plan id _ _ Hp).
  destruct (ValidateCollectedBaselineEvidence plan id collected) as [[]|e] eqn:E; [|done].
  apply validate_collected, (covers_seal _ _ now) in E.
  assert (Es : evidenceByKey (sealArtifact now <$> collected) = evidenceByKey (sealArtifact now <$> collected')).
  { apply (sortSlice_canonical (on be_Key string_lt)); [by apply Permutation_map|]. by apply by_key_unique, E. }
  by rewrite Es.
Qed.

(** ** A concrete report *)

Module EvidenceDemo.

Definition planned (key : string) : PlanEvidenceArtifact :=
  mkPlanEvidenceArtifact key "BASELINE_CONVERGENCE" "" "PLATFORM_AGENT" ("platform-agent://" +:+ key)
    ("/api/v1/baseline-deployments/{deploymentId}/evidence/" +:+ key) "application/json" PlanEvidencePhasePostApply true 90.
Definition plan : PlanEvidenceCollection :=
  let v := mkPlanEvidenceCollection "PASS" PlanEvidenceCollectionMethod 2
    (Some [planned "convergence"; planned "audit"]) [] [] "" in
  v <| pv_Digest := EvidenceCollectionPlanDigest v |>.
Definition payload : option (list (string * JSONValue)) := Some [("converged", JSONBool true)].
Definition artifact (key : string) : BaselineEvidenceArtifact :=
  mkBaselineEvidenceArtifact key "BASELINE_CONVERGENCE" "" "PLATFORM_AGENT" (baselineEvidencePayloadDigest payload).1
    "application/json" ("/api/v1/baseline-deployments/d/evidence/" +:+ key) (baselineEvidencePayloadDigest payload).2 true 90
    None None payload.
Definition sealed_keys (r : result (list BaselineEvidenceArtifact * string)) : option (list string) :=
  match r with Ok (out, _) => Some (be_Key <$> out) | Fail _ => None end.
End EvidenceDemo.

Import EvidenceDemo.
Lemma sealing_is_order_independent_witness :
  exists out digest, be_Key <$> out = ["audit"; "convergence"] /\
    SealBaselineEvidence plan "d" (artifact <$> ["convergence"; "audit"]) 7 = Ok (out, digest) /\
    SealBaselineEvidence plan "d" (artifact <$> ["audit"; "convergence"]) 7 = Ok (out, digest).
Proof.
  destruct (SealBaselineEvidence plan "d" (artifact <$> ["convergence"; "audit"]) 7) as [[out digest]|e] eqn:E.
  - exists out, digest. split; [|split; [reflexivity|]].
    + assert (H : sealed_keys (SealBaselineEvidence plan "d" (artifact <$> ["convergence"; "audit"]) 7) =
                  Some ["audit"; "convergence"]) by (vm_compute; reflexivity).
      rewrite E in H. injection H as H. exact H.
    + rewrite <- E. symmetry. apply sealing_is_order_independent. apply Permutation_swap.
  - assert (H : is_Some (sealed_keys (SealBaselineEvidence plan "d" (artifact <$> ["convergence"; "audit"]) 7)))
      by (vm_compute; eexists; reflexivity).
    rewrite E in H. destruct H as [k H]. discriminate.
Defined.
