(* ===== verification/Fleet.v ===== *)
(** * Fleet: cluster imports, managed clusters and agent certificates

    [fleet_store.go] and [agent_certificate_store.go].  A cluster is imported
    with a one-time token, approved by an operator and claimed by its agent;
    the agent then reports inventories, and an operator may authorize mutation
    of the target for exactly the identity that was reported.  Revocation ends
    the agent's authority and fences re-enrolment of the same physical cluster
    until the target side acknowledged it.

    [wall] is the reading of the process clock ([time.Now]) that two guards
    fall back to when the store's clock answers the zero time. *)
From S2P Require Import Prelude GoStrings Digest Model Calendar Inventory Store Organizations FleetGateway Targets.

Definition FleetAgentServiceAccountName (importID : string) : string :=
  "4so-platform-agent-" +:+ String.substring 7 16 (sha256Digest (TrimSpace importID)).

(** ** Mutation authority of a cluster *)

Definition ClusterInventoryAuthorityFreshness : Z := 3 * Minute.
Definition ClusterInventoryObservationFutureSkew : Z := ClusterInventoryAuthorityFreshness.

Definition ClusterMutationRBACActivationCurrent (c : ManagedCluster) : bool :=
  clusterHasCapability c TargetMutationRBACActivationIssuedCapability
  && HasPrefix (TrimSpace (mc_MutationRBACBasisDigest c)) sha256_prefix
  && secureEqual (TrimSpace (mc_MutationRBACBasisDigest c)) (TrimSpace (mc_MutationRBACIssuedForDigest c)).

(** [a != nil && b != nil && a.Equal( *b)] *)
Definition sameInstant (a b : option Time) : bool :=
  match a, b with Some x, Some y => x == y | _, _ => false end.

Definition ClusterTaskAdmitted (c : ManagedCluster) : bool :=
  (mc_ConnectionState c == "CONNECTED") && ClusterMutationAdmissionEligible c
  && (mc_InventoryDigest c != "") && sameInstant (mc_InventoryUpdatedAt c) (mc_LastSeenAt c)
  && clusterHasCapability c TargetMutationRBACActiveCapability
  && ClusterMutationRBACActivationCurrent c.

(** [if now.IsZero() { now = time.Now().UTC() }] *)
Definition orWall (wall now : Time) : Time := if now == 0 then wall else now.

Definition ClusterInventoryAuthorityFreshAt (wall : Time) (c : ManagedCluster) (now : Time) : bool :=
  match mc_LastSeenAt c, mc_InventoryObservedAt c with
  | Some lastSeen, Some observed =>
      (mc_ConnectionState c == "CONNECTED") && (mc_InventoryDigest c != "")
      && sameInstant (mc_InventoryUpdatedAt c) (mc_LastSeenAt c)
      && (let now := orWall wall now in
          let receiptAge := now - lastSeen in
          let observationAge := now - observed in
          (0 <=? receiptAge) && (receiptAge <=? ClusterInventoryAuthorityFreshness)
          && (- ClusterInventoryObservationFutureSkew <=? observationAge)
          && (observationAge <=? ClusterInventoryAuthorityFreshness))
  | _, _ => false
  end.

Definition ValidateClusterInventoryObservationEpoch (wall : Time) (c : ManagedCluster) (observedAt now : Time)
    : result unit :=
  if observedAt == 0 then Fail ErrValidation else
  let now := orWall wall now in
  if now + ClusterInventoryObservationFutureSkew <? observedAt then Fail ErrPrerequisite else
  if ClusterInventoryAuthorityFreshness <? now - observedAt then Fail ErrPrerequisite else
  match mc_InventoryObservedAt c with
  | Some previous => if observedAt <? previous then Fail ErrConflict else Ok tt
  | None => Ok tt
  end.

Definition ClusterTaskClaimAdmittedAt (wall : Time) (c : ManagedCluster) (now : Time) : bool :=
  ClusterTaskAdmitted c && ClusterInventoryAuthorityFreshAt wall c now.

Definition ClusterInventoryMutationBasisDigest (inv : ClusterInventory) : string :=
  digestBytes (json_object ([("distribution", json_string (CanonicalDistribution (iv_Distribution inv)))]
    ++ json_opt "distributionEvidenceMethod" (TrimSpace (iv_DistributionEvidenceMethod inv))
    ++ json_opt "distributionEvidenceUid" (TrimSpace (iv_DistributionEvidenceUID inv))
    ++ json_opt "distributionEvidenceVersion" (TrimSpace (iv_DistributionEvidenceVersion inv))
    ++ [("kubernetesVersion", json_string (TrimSpace (iv_KubernetesVersion inv)));
        ("identityContinuityVerified", json_bool (hasCapability (iv_Capabilities inv) TargetIdentityContinuityCapability));
        ("enrollmentPrincipalIsolated",
         json_bool (hasCapability (iv_Capabilities inv) TargetEnrollmentPrincipalIsolatedCapability))]))%list.

Definition ClusterMayHaveTargetMutationRBAC (c : ManagedCluster) : bool :=
  clusterHasCapability c TargetMutationRBACEverIssuedCapability
  || clusterHasCapability c TargetMutationRBACActivationIssuedCapability
  || clusterHasCapability c TargetMutationRBACActiveCapability.

Definition ClusterTargetRBACRevocationFenceDigest (c : ManagedCluster) : string :=
  let authorityDigest := if TrimSpace (mc_InventoryDigest c) == "" then TrimSpace (mc_MutationRBACBasisDigest c)
                         else TrimSpace (mc_InventoryDigest c) in
  digestBytes (json_object [("clusterId", json_string (TrimSpace (rm_ID (mc_Meta c))));
    ("externalUid", json_string (TrimSpace (mc_ExternalUID c))); ("authorityDigest", json_string authorityDigest);
    ("mutationMayExist", json_bool (ClusterMayHaveTargetMutationRBAC c))]).

Definition ClusterTargetRBACRevocationAcknowledged (c : ManagedCluster) : bool :=
  let expected := ClusterTargetRBACRevocationFenceDigest c in
  (mc_ConnectionState c == "REVOKED") && bool_decide (is_Some (mc_TargetRBACRevocationAcknowledgedAt c))
  && HasPrefix (TrimSpace (mc_TargetRBACRevocationAcknowledgedDigest c)) sha256_prefix
  && secureEqual (TrimSpace (mc_TargetRBACRevocationAcknowledgedDigest c)) expected.

Definition NormalizeClusterInventoryMutationAuthority (inv : ClusterInventory) (current : ManagedCluster)
    (imp : ClusterImport) (identityVerified : bool) (basisDigest : string) : ClusterInventory :=
  let reportedActive := hasCapability (iv_Capabilities inv) TargetMutationRBACActiveCapability in
  let principalAttested := hasCapability (iv_Capabilities inv) TargetEnrollmentPrincipalIsolatedCapability in
  let issued := clusterHasCapability current TargetMutationRBACActivationIssuedCapability
                && secureEqual (TrimSpace (mc_MutationRBACIssuedForDigest current)) (TrimSpace basisDigest) in
  let inv := inv <| iv_Capabilities :=
               removeClusterCapability (iv_Capabilities inv) TargetMutationRBACActivationIssuedCapability |> in
  let inv := inv <| iv_Capabilities :=
               removeClusterCapability (iv_Capabilities inv) TargetMutationRBACEverIssuedCapability |> in
  let allowActive := issued && identityVerified && ClusterInventoryMutationEligible inv && reportedActive in
  let allowActive := if (TrimSpace (ci_AgentServiceAccount imp) != "") && negb principalAttested
                     then false else allowActive in
  if allowActive then inv else NormalizeClusterInventoryReadOnly inv.

Definition ClusterCapabilitiesWithServerMutationAuthority (inv : ClusterInventory) (previous : ManagedCluster)
    (identityVerified : bool) (basisDigest : string) : list string :=
  let values := iv_Capabilities inv in
  let values := append_if (ClusterMayHaveTargetMutationRBAC previous) values TargetMutationRBACEverIssuedCapability in
  let values := append_if (clusterHasCapability previous TargetMutationRBACActivationIssuedCapability
                           && identityVerified && ClusterInventoryMutationEligible inv
                           && secureEqual (TrimSpace (mc_MutationRBACIssuedForDigest previous)) (TrimSpace basisDigest))
                  values TargetMutationRBACActivationIssuedCapability in
  dedupeSortedStrings values.

(** ** The reported API surface *)

Definition nativeClusterVersion (inv : ClusterInventory) : bool :=
  existsb (fun r => (ar_APIVersion r == "config.openshift.io/v1") && (ar_Resource r == "clusterversions")
                    && (ar_Kind r == "ClusterVersion")) (elems (iv_APIResources inv)).

(** distribution identity against its evidence *)
Definition distributionEvidenceValid (inv : ClusterInventory) (distribution : string) : bool :=
  if (distribution == DistributionOKD) || (distribution == DistributionOpenShift) then
    let expectedMethod := if distribution == DistributionOpenShift then DistributionEvidenceOpenShiftClusterV1
                          else DistributionEvidenceOKDClusterV1 in
    let versionLooksOKD := ContainsString (ToLower (TrimSpace (iv_DistributionEvidenceVersion inv))) "okd" in
    negb ((iv_DistributionEvidenceMethod inv != expectedMethod) || (TrimSpace (iv_DistributionEvidenceUID inv) == "")
          || (TrimSpace (iv_DistributionEvidenceVersion inv) == ""))
    && negb ((distribution == DistributionOKD) && negb versionLooksOKD)
    && negb ((distribution == DistributionOpenShift) && versionLooksOKD)
    && negb (negb (iv_APIDiscoveryComplete inv) || negb (iv_CRDDiscoveryComplete inv))
    && nativeClusterVersion inv
    && negb (existsb (fun crd => EqualFold (TrimSpace (crd_Name crd)) "clusterversions.config.openshift.io")
               (elems (iv_CRDs inv)))
  else negb ((iv_DistributionEvidenceMethod inv == DistributionEvidenceOKDClusterV1)
             || (iv_DistributionEvidenceMethod inv == DistributionEvidenceOpenShiftClusterV1)).

Definition schemaDiscoveryValid (inv : ClusterInventory) : bool :=
  if iv_SchemaDiscoveryComplete inv then
    negb ((iv_SchemaDiscoveryVersion inv != "OPENAPI_V3") && (iv_SchemaDiscoveryVersion inv != "OPENAPI_V2"))
    && negb (negb (HasPrefix (iv_SchemaDiscoveryDigest inv) sha256_prefix) || (len (iv_SchemaDiscoveryDigest inv) != 71))
  else negb ((TrimSpace (iv_SchemaDiscoveryVersion inv) != "") || (TrimSpace (iv_SchemaDiscoveryDigest inv) != "")).

Definition apiResourceKey (r : ClusterAPIResourceObservation) : string :=
  ar_APIVersion r +:+ "|" +:+ ar_Kind r +:+ "|" +:+ ar_Resource r.

(** complete and without duplicates; [seen] are the keys met so far *)
Fixpoint apiResourcesValid (seen : list string) (rs : list ClusterAPIResourceObservation) : bool :=
  match rs with
  | [] => true
  | r :: rest =>
      negb ((TrimSpace (ar_APIVersion r) == "") || (TrimSpace (ar_Version r) == "") || (TrimSpace (ar_Kind r) == "")
            || (TrimSpace (ar_Resource r) == ""))
      && negb (bool_decide (apiResourceKey r ∈ seen))
      && apiResourcesValid (apiResourceKey r :: seen) rest
  end.

Definition crdValid (crd : ClusterCRDObservation) : bool :=
  negb ((TrimSpace (crd_Name crd) == "") || (TrimSpace (crd_Group crd) == "") || (TrimSpace (crd_Kind crd) == "")
        || (TrimSpace (crd_Plural crd) == "") || negb (nonEmpty (elems (crd_Versions crd))))
  && forallb (fun v => TrimSpace (crv_Name v) != "") (elems (crd_Versions crd))
  && existsb crv_Served (elems (crd_Versions crd)).

(** every failure is the same sentinel, so the guards are one conjunction in
    the order of the code *)
Definition ValidateClusterInventoryAPISurface (inv : ClusterInventory) : result unit :=
  let distribution := CanonicalDistribution (iv_Distribution inv) in
  if (distribution != "")
     && negb (nativeClusterVersion inv && (distribution != DistributionOKD) && (distribution != DistributionOpenShift))
     && distributionEvidenceValid inv distribution && schemaDiscoveryValid inv
     && negb (iv_APIDiscoveryComplete inv && negb (nonEmpty (elems (iv_APIResources inv))))
     && apiResourcesValid [] (elems (iv_APIResources inv)) && forallb crdValid (elems (iv_CRDs inv))
  then Ok tt else Fail ErrValidation.

(** ** Task admission *)

Definition requireClusterTaskAdmissionLocked (clusterID tokenDigest : string) : Store ManagedCluster :=
  let! s := get in
  let! c := get_opt (ms_managedClusters s !! clusterID) ErrNotFound in
  let! imp := get_opt (ms_clusterImports s !! mc_ImportID c) ErrValidation in
  fail_if (negb (secureEqual (ci_AgentTokenDigest imp) tokenDigest)) ErrValidation ;;;
  fail_if (negb (ClusterTaskAdmitted c)) ErrPrerequisite ;;;
  ret c.

Definition requireFreshClusterTaskAdmissionLocked (wall : Time) (clusterID tokenDigest : string) : Store ManagedCluster :=
  let! c := requireClusterTaskAdmissionLocked clusterID tokenDigest in
  let! now := nowUTC in
  fail_if (negb (ClusterTaskClaimAdmittedAt wall c now)) ErrPrerequisite ;;;
  ret c.

(** ** Cluster imports *)

Definition clusterImportEffectivelyExpired (v : ClusterImport) (now : Time) : bool :=
  ((ci_State v == ClusterImportPendingApproval) || (ci_State v == ClusterImportApproved)) && negb (now <? ci_ExpiresAt v).

Definition effectiveClusterImport (v : ClusterImport) (now : Time) : ClusterImport :=
  if clusterImportEffectivelyExpired v now then v <| ci_State := ClusterImportExpired |> else v.

Definition expireClusterImportLocked (v : ClusterImport) (now : Time) : Store ClusterImport :=
  if negb (clusterImportEffectivelyExpired v now) then ret v else
  let v := v <| ci_State := ClusterImportExpired |> <| ci_TokenDigest := "sha256:expired" |>
             <| ci_Meta := bump (ci_Meta v) now |> in
  putClusterImport (rm_ID (ci_Meta v)) v ;;;
  appendAuditLocked "system" "cluster_import.expired" "clusterImport" (rm_ID (ci_Meta v)) (rm_Revision (ci_Meta v))
    [("projectId", MStr (ci_ProjectID v))] ;;;
  appendOutboxLocked "clusterImport" (rm_ID (ci_Meta v)) "cluster_import.expired" (PayloadClusterImport v) ;;;
  ret v.

(** the loop over the imports of the same project and name: each one that ran
    out is expired on the way, and the first that is still in force refuses *)
Fixpoint expireNamesakes (v : ClusterImport) (now : Time) (imports : list (string * ClusterImport)) : Store unit :=
  match imports with
  | [] => ret tt
  | (_, x) :: rest =>
      if (ci_ProjectID x != ci_ProjectID v) || (ci_Name x != ci_Name v) then expireNamesakes v now rest else
      let! x := expireClusterImportLocked x now in
      fail_if ((ci_State x != ClusterImportRevoked) && (ci_State x != ClusterImportExpired)) ErrDuplicateName ;;;
      expireNamesakes v now rest
  end.

Definition CreateClusterImport (v : ClusterImport) (actor : string) : Store ClusterImport :=
  let! s := get in
  let! _ := get_opt (ms_projects s !! ci_ProjectID v) ErrNotFound in
  let v := v <| ci_Name := normalizeName (ci_Name v) |> <| ci_DisplayName := TrimSpace (ci_DisplayName v) |> in
  let! now := nowUTC in
  fail_if ((ci_Name v == "") || (ci_DisplayName v == "") || negb (HasPrefix (ci_TokenDigest v) sha256_prefix)
           || (ci_ExpiresAt v == 0) || negb (now <? ci_ExpiresAt v)) ErrValidation ;;;
  expireNamesakes v now (map_to_list (ms_clusterImports s)) ;;;
  let! id := newID "imp" in
  let v := v <| ci_Meta := newMeta id now |> <| ci_AgentServiceAccount := FleetAgentServiceAccountName id |>
             <| ci_State := ClusterImportPendingApproval |> <| ci_RequestedBy := actor |> in
  putClusterImport id v ;;;
  appendAuditLocked actor "cluster_import.created" "clusterImport" id 1 [("projectId", MStr (ci_ProjectID v))] ;;;
  appendOutboxLocked "clusterImport" id "cluster_import.created" (PayloadClusterImport v) ;;;
  ret v.

Definition ApproveClusterImport (id : string) (expected : Z) (actor : string) : Store ClusterImport :=
  let! s := get in
  let! v := get_opt (ms_clusterImports s !! id) ErrNotFound in
  fail_if (rm_Revision (ci_Meta v) != expected) ErrConflict ;;;
  fail_if (ci_State v != ClusterImportPendingApproval) ErrInvalidTransition ;;;
  let! now := nowUTC in
  fail_if (clusterImportEffectivelyExpired v now) ErrInvalidTransition ;;;
  let v := v <| ci_State := ClusterImportApproved |> <| ci_ApprovedAt := Some now |> <| ci_ApprovedBy := actor |>
             <| ci_Meta := bump (ci_Meta v) now |> in
  putClusterImport id v ;;;
  appendAuditLocked actor "cluster_import.approved" "clusterImport" id (rm_Revision (ci_Meta v)) [] ;;;
  appendOutboxLocked "clusterImport" id "cluster_import.approved" (PayloadClusterImport v) ;;;
  ret v.

Definition RevokeClusterImport (id : string) (expected : Z) (actor : string) : Store ClusterImport :=
  let! s := get in
  let! v := get_opt (ms_clusterImports s !! id) ErrNotFound in
  fail_if (rm_Revision (ci_Meta v) != expected) ErrConflict ;;;
  fail_if ((ci_State v != ClusterImportPendingApproval) && (ci_State v != ClusterImportApproved)) ErrInvalidTransition ;;;
  let! now := nowUTC in
  fail_if (clusterImportEffectivelyExpired v now) ErrInvalidTransition ;;;
  let v := v <| ci_State := ClusterImportRevoked |> <| ci_TokenDigest := "sha256:revoked" |>
             <| ci_Meta := bump (ci_Meta v) now |> in
  putClusterImport id v ;;;
  appendAuditLocked actor "cluster_import.revoked" "clusterImport" id (rm_Revision (ci_Meta v))
    [("projectId", MStr (ci_ProjectID v))] ;;;
  appendOutboxLocked "clusterImport" id "cluster_import.revoked" (PayloadClusterImport v) ;;;
  ret v.

Definition GetClusterImport (id : string) : Store ClusterImport :=
  let! s := get in
  let! v := get_opt (ms_clusterImports s !! id) ErrNotFound in
  let! now := nowUTC in
  ret (effectiveClusterImport v now).

(** ** Enrolment *)

Definition hasUnacknowledgedRevokedClusterForUIDLocked (s : MemoryStore) (externalUID exceptClusterID : string) : bool :=
  let uid := TrimSpace externalUID in
  (uid != "")
  && map_any (fun _ existing =>
       negb ((rm_ID (mc_Meta existing) == exceptClusterID) || (mc_ConnectionState existing != "REVOKED")
             || negb (secureEqual (TrimSpace (mc_ExternalUID existing)) uid))
       && negb (ClusterTargetRBACRevocationAcknowledged existing)) (ms_managedClusters s).

(** the cluster an agent enrols *)
Definition newManagedCluster (id : string) (now : Time) (v : ClusterImport) (externalUID agentVersion : string)
    : ManagedCluster :=
  mkManagedCluster (newMeta id now) (ci_ProjectID v) (rm_ID (ci_Meta v)) (ci_Name v) (ci_DisplayName v) externalUID
    "CONNECTED" "" "" (TrimSpace agentVersion) (Some now) None None ∅ [] "" "" "" "" None "" "".

Definition ClaimClusterImport (id tokenDigest agentTokenDigest externalUID agentVersion : string)
    : Store (ClusterImport * ManagedCluster) :=
  let! s := get in
  let! v := get_opt (ms_clusterImports s !! id) ErrNotFound in
  let normalizedExternalUID := TrimSpace externalUID in
  let! now := nowUTC in
  fail_if ((ci_State v == ClusterImportExpired) || (ci_State v == ClusterImportRevoked)
           || clusterImportEffectivelyExpired v now) ErrInvalidTransition ;;;
  fail_if (negb (secureEqual (ci_TokenDigest v) tokenDigest)) ErrValidation ;;;
  if ci_State v == ClusterImportClaimed then
    match ms_managedClusters s !! ci_ClusterID v with
    | Some c => if secureEqual (TrimSpace (mc_ExternalUID c)) normalizedExternalUID
                   && secureEqual (ci_AgentTokenDigest v) agentTokenDigest
                then ret (v, c) else raise ErrInvalidTransition
    | None => raise ErrInvalidTransition
    end
  else
  fail_if (ci_State v != ClusterImportApproved) ErrInvalidTransition ;;;
  fail_if ((normalizedExternalUID == "") || negb (HasPrefix agentTokenDigest sha256_prefix)) ErrValidation ;;;
  fail_if (map_any (fun _ existing => (mc_ConnectionState existing != "REVOKED")
                      && secureEqual (TrimSpace (mc_ExternalUID existing)) normalizedExternalUID)
             (ms_managedClusters s)) ErrDuplicateName ;;;
  fail_if (hasUnacknowledgedRevokedClusterForUIDLocked s normalizedExternalUID "") ErrPrerequisite ;;;
  let! cid := newID "clu" in
  let c := newManagedCluster cid now v normalizedExternalUID agentVersion in
  let v := v <| ci_State := ClusterImportClaimed |> <| ci_AgentTokenDigest := agentTokenDigest |>
             <| ci_ClusterID := cid |> <| ci_ClaimedAt := Some now |> <| ci_Meta := bump (ci_Meta v) now |> in
  putClusterImport id v ;;;
  putManagedCluster cid c ;;;
  appendAuditLocked "cluster-agent" "cluster_import.claimed" "clusterImport" id (rm_Revision (ci_Meta v))
    [("clusterId", MStr cid)] ;;;
  appendOutboxLocked "managedCluster" cid "managed_cluster.connected" (PayloadManagedCluster c) ;;;
  ret (v, c).

(** [s.clusterImports[id]], the zero value when there is none *)
Definition zeroClusterImport : ClusterImport :=
  mkClusterImport (mkResourceMeta "" 0 0 0) "" "" "" ClusterImportPendingApproval "" "" "" 0 None None "" "" "".
Definition importOf (s : MemoryStore) (id : string) : ClusterImport :=
  default zeroClusterImport (ms_clusterImports s !! id).

(** ** Inventories *)

(** the inventory as it is stored: the reported one through the four normalizations *)
Definition admittedInventory (inv : ClusterInventory) (c : ManagedCluster) (imp : ClusterImport) (verified : bool)
    : ClusterInventory * string :=
  let inv := NormalizeClusterInventoryForAdmission inv in
  let basisDigest := ClusterInventoryMutationBasisDigest inv in
  let inv := NormalizeClusterInventoryMutationAuthority inv c imp verified basisDigest in
  (inv <| iv_Digest := ClusterInventoryDigest inv |>, basisDigest).

(** the cluster after an inventory was accepted *)
Definition observeInventory (c : ManagedCluster) (inv : ClusterInventory) (verified : bool) (basisDigest : string)
    (now : Time) : ManagedCluster :=
  let issuedForCurrentBasis := clusterHasCapability c TargetMutationRBACActivationIssuedCapability
                               && secureEqual (TrimSpace (mc_MutationRBACIssuedForDigest c)) basisDigest in
  c <| mc_Distribution := TrimSpace (iv_Distribution inv) |>
    <| mc_KubernetesVersion := TrimSpace (iv_KubernetesVersion inv) |>
    <| mc_Capabilities := ClusterCapabilitiesWithServerMutationAuthority inv c verified basisDigest |>
    <| mc_MutationRBACIssuedForDigest := if issuedForCurrentBasis then mc_MutationRBACIssuedForDigest c else "" |>
    <| mc_MutationRBACBasisDigest := basisDigest |> <| mc_InventoryDigest := iv_Digest inv |>
    <| mc_ConnectionState := "CONNECTED" |> <| mc_LastSeenAt := Some now |> <| mc_InventoryUpdatedAt := Some now |>
    <| mc_InventoryObservedAt := Some (iv_ObservedAt inv) |> <| mc_Meta := bump (mc_Meta c) now |>.

Definition UpsertClusterInventory (wall : Time) (clusterID agentTokenDigest externalUID : string) (inv : ClusterInventory)
    : Store (ManagedCluster * ClusterInventory) :=
  let! s := get in
  let! c := get_opt (ms_managedClusters s !! clusterID) ErrNotFound in
  let imp := importOf s (mc_ImportID c) in
  fail_if (negb (secureEqual (ci_AgentTokenDigest imp) agentTokenDigest)) ErrValidation ;;;
  let observedExternalUID := TrimSpace externalUID in
  let identityContinuityVerified := (observedExternalUID != "")
                                    && secureEqual (TrimSpace (mc_ExternalUID c)) observedExternalUID in
  fail_if ((observedExternalUID != "") && negb identityContinuityVerified) ErrValidation ;;;
  let inv := NormalizeClusterInventoryIdentityAuthority inv identityContinuityVerified in
  let! now := nowUTC in
  let! _ := lift (ValidateClusterInventoryObservationEpoch wall c (iv_ObservedAt inv) now) in
  let! _ := lift (ValidateClusterInventoryAPISurface inv) in
  let '(inv, basisDigest) := admittedInventory inv c imp identityContinuityVerified in
  let! id := newID "inv" in
  let inv := inv <| iv_Meta := newMeta id now |> <| iv_ClusterID := clusterID |> in
  let c := observeInventory c inv identityContinuityVerified basisDigest now in
  putManagedCluster clusterID c ;;;
  putClusterInventory clusterID inv ;;;
  appendAuditLocked "cluster-agent" "cluster.inventory.updated" "managedCluster" clusterID (rm_Revision (mc_Meta c))
    [("digest", MStr (iv_Digest inv)); ("nodes", MInt (Z.of_nat (length (elems (iv_Nodes inv)))))] ;;;
  ret (c, inv).

Definition GetLatestClusterInventory (clusterID : string) : Store ClusterInventory :=
  let! s := get in get_opt (ms_clusterInventories s !! clusterID) ErrNotFound.

(** ** Authorization of mutation *)

Definition AuthorizeClusterMutationRBACActivation (wall : Time) (clusterID actor : string)
    : Store (ManagedCluster * ClusterImport) :=
  let! s := get in
  let! c := get_opt (ms_managedClusters s !! clusterID) ErrNotFound in
  let! imp := get_opt (ms_clusterImports s !! mc_ImportID c) ErrNotFound in
  fail_if (negb (ClusterMutationAdmissionEligible c)) ErrPrerequisite ;;;
  let! now := nowUTC in
  fail_if (negb (ClusterInventoryAuthorityFreshAt wall c now)
           || negb (clusterHasCapability c TargetIdentityContinuityCapability)) ErrPrerequisite ;;;
  fail_if (hasUnacknowledgedRevokedClusterForUIDLocked s (mc_ExternalUID c) (rm_ID (mc_Meta c))) ErrPrerequisite ;;;
  fail_if ((TrimSpace (ci_AgentServiceAccount imp) != "")
           && ((ci_AgentServiceAccount imp != FleetAgentServiceAccountName (rm_ID (ci_Meta imp)))
               || negb (clusterHasCapability c TargetEnrollmentPrincipalIsolatedCapability))) ErrPrerequisite ;;;
  fail_if ((TrimSpace (mc_MutationRBACBasisDigest c) == "")
           || negb (HasPrefix (mc_MutationRBACBasisDigest c) sha256_prefix)) ErrPrerequisite ;;;
  if ClusterMutationRBACActivationCurrent c then ret (c, imp) else
  let! now := nowUTC in
  let c := c <| mc_Capabilities := dedupeSortedStrings (mc_Capabilities c ++
                  [TargetMutationRBACActivationIssuedCapability; TargetMutationRBACEverIssuedCapability])%list |>
             <| mc_MutationRBACIssuedForDigest := mc_MutationRBACBasisDigest c |> <| mc_Meta := bump (mc_Meta c) now |> in
  putManagedCluster clusterID c ;;;
  appendAuditLocked actor "cluster.mutation_rbac_activation.authorized" "managedCluster" clusterID
    (rm_Revision (mc_Meta c)) [("inventoryDigest", MStr (mc_InventoryDigest c)); ("importId", MStr (rm_ID (ci_Meta imp)))] ;;;
  appendOutboxLocked "managedCluster" clusterID "managed_cluster.mutation_rbac_activation_authorized"
    (PayloadManagedCluster c) ;;;
  ret (c, imp).

Definition HeartbeatCluster (clusterID agentTokenDigest externalUID agentVersion : string) : Store ManagedCluster :=
  let! s := get in
  let! c := get_opt (ms_managedClusters s !! clusterID) ErrNotFound in
  let imp := importOf s (mc_ImportID c) in
  fail_if (negb (secureEqual (ci_AgentTokenDigest imp) agentTokenDigest)) ErrValidation ;;;
  let observedExternalUID := TrimSpace externalUID in
  if observedExternalUID == "" then ret c else
  fail_if (negb (secureEqual (TrimSpace (mc_ExternalUID c)) observedExternalUID)) ErrValidation ;;;
  let! now := nowUTC in
  let c := c <| mc_ConnectionState := "CONNECTED" |> <| mc_AgentVersion := TrimSpace agentVersion |>
             <| mc_LastSeenAt := Some now |> <| mc_Meta := bump (mc_Meta c) now |> in
  putManagedCluster clusterID c ;;;
  ret c.

Definition GetManagedCluster (id : string) : Store ManagedCluster :=
  let! s := get in get_opt (ms_managedClusters s !! id) ErrNotFound.

(** ** Agent certificates *)

Definition validateAgentCertificate (v : AgentCertificate) : result unit :=
  if (TrimSpace (ac_ClusterID v) == "") || (TrimSpace (ac_SerialNumber v) == "")
     || negb (HasPrefix (ac_Fingerprint v) sha256_prefix) || (TrimSpace (ac_Subject v) == "")
     || (ac_NotBefore v == 0) || (ac_NotAfter v == 0) || negb (ac_NotBefore v <? ac_NotAfter v)
  then Fail ErrValidation else Ok tt.

Definition sameSerial (serial : string) (_ : string) (x : AgentCertificate) : bool := ac_SerialNumber x == serial.

Definition CreateAgentCertificate (v : AgentCertificate) (actor : string) : Store AgentCertificate :=
  let! _ := lift (validateAgentCertificate v) in
  let! s := get in
  let! _ := get_opt (ms_managedClusters s !! ac_ClusterID v) ErrNotFound in
  fail_if (map_any (sameSerial (ac_SerialNumber v)) (ms_agentCertificates s)) ErrDuplicateName ;;;
  let! now := nowUTC in
  let! id := newID "acert" in
  let v := v <| ac_Meta := newMeta id now |> <| ac_State := AgentCertificateActive |> <| ac_IssuedBy := TrimSpace actor |> in
  putAgentCertificate id v ;;;
  appendAuditLocked actor "agent_certificate.issued" "agentCertificate" id 1
    [("clusterId", MStr (ac_ClusterID v)); ("serialNumber", MStr (ac_SerialNumber v));
     ("fingerprint", MStr (ac_Fingerprint v)); ("notAfter", MTime (Some (ac_NotAfter v)))] ;;;
  appendOutboxLocked "agentCertificate" id "agent_certificate.issued" (PayloadAgentCertificate v) ;;;
  ret v.

Definition GetAgentCertificate (id : string) : Store AgentCertificate :=
  let! s := get in get_opt (ms_agentCertificates s !! id) ErrNotFound.

Definition GetAgentCertificateBySerial (serial : string) : Store AgentCertificate :=
  let! s := get in
  match map_find (sameSerial (ToLower (TrimSpace serial))) (ms_agentCertificates s) with
  | Some (_, v) => ret v
  | None => raise ErrNotFound
  end.

Definition RotateAgentCertificate (oldID : string) (next : AgentCertificate) (actor : string)
    : Store (AgentCertificate * AgentCertificate) :=
  let! s := get in
  let! old := get_opt (ms_agentCertificates s !! oldID) ErrNotFound in
  fail_if (ac_State old != AgentCertificateActive) ErrInvalidTransition ;;;
  let! _ := lift (validateAgentCertificate next) in
  fail_if (ac_ClusterID next != ac_ClusterID old) ErrValidation ;;;
  fail_if (map_any (sameSerial (ac_SerialNumber next)) (ms_agentCertificates s)) ErrDuplicateName ;;;
  let! now := nowUTC in
  let! id := newID "acert" in
  let next := next <| ac_Meta := newMeta id now |> <| ac_State := AgentCertificateActive |>
                <| ac_IssuedBy := TrimSpace actor |> in
  putAgentCertificate id next ;;;
  let old := old <| ac_State := AgentCertificateRevoked |> <| ac_RevokedBy := TrimSpace actor |>
               <| ac_RevokedAt := Some now |> <| ac_ReplacedByID := id |> <| ac_Meta := bump (ac_Meta old) now |> in
  putAgentCertificate (rm_ID (ac_Meta old)) old ;;;
  appendAuditLocked actor "agent_certificate.rotated" "agentCertificate" (rm_ID (ac_Meta old)) (rm_Revision (ac_Meta old))
    [("clusterId", MStr (ac_ClusterID old)); ("replacementId", MStr id);
     ("replacementFingerprint", MStr (ac_Fingerprint next))] ;;;
  appendOutboxLocked "agentCertificate" id "agent_certificate.rotated" (PayloadCertificateRotation old next) ;;;
  ret (old, next).

Definition RevokeAgentCertificate (id : string) (rev : Z) (actor : string) : Store AgentCertificate :=
  let! s := get in
  let! v := get_opt (ms_agentCertificates s !! id) ErrNotFound in
  fail_if (rm_Revision (ac_Meta v) != rev) ErrConflict ;;;
  if ac_State v == AgentCertificateRevoked then ret v else
  let! now := nowUTC in
  let v := v <| ac_State := AgentCertificateRevoked |> <| ac_RevokedBy := TrimSpace actor |>
             <| ac_RevokedAt := Some now |> <| ac_Meta := bump (ac_Meta v) now |> in
  putAgentCertificate id v ;;;
  appendAuditLocked actor "agent_certificate.revoked" "agentCertificate" id (rm_Revision (ac_Meta v))
    [("clusterId", MStr (ac_ClusterID v)); ("serialNumber", MStr (ac_SerialNumber v))] ;;;
  appendOutboxLocked "agentCertificate" id "agent_certificate.revoked" (PayloadAgentCertificate v) ;;;
  ret v.

Definition activeOf (clusterID : string) (v : AgentCertificate) : bool :=
  (ac_ClusterID v == clusterID) && (ac_State v == AgentCertificateActive).

Definition revokedCertificate (actor : string) (now : Time) (v : AgentCertificate) : AgentCertificate :=
  v <| ac_State := AgentCertificateRevoked |> <| ac_RevokedBy := actor |> <| ac_RevokedAt := Some now |>
    <| ac_Meta := bump (ac_Meta v) now |>.

Fixpoint revokeLoop (clusterID actor : string) (now : Time) (certs : list (string * AgentCertificate)) : Store unit :=
  match certs with
  | [] => ret tt
  | (id, v) :: rest =>
      when (activeOf clusterID v)
        (let v := revokedCertificate actor now v in
         putAgentCertificate id v ;;;
         appendAuditLocked actor "agent_certificate.revoked" "agentCertificate" id (rm_Revision (ac_Meta v))
           [("clusterId", MStr clusterID); ("reason", MStr "managed-cluster-revoked")]) ;;;
      revokeLoop clusterID actor now rest
  end.

Definition revokeAgentCertificatesLocked (clusterID actor : string) : Store unit :=
  let! now := nowUTC in
  let! s := get in
  revokeLoop clusterID actor now (map_to_list (ms_agentCertificates s)).

(** ** Revocation of a cluster *)

Definition RevokeManagedCluster (clusterID : string) (expected : Z) (actor : string)
    : Store (ManagedCluster * ClusterImport) :=
  let! s := get in
  let! c := get_opt (ms_managedClusters s !! clusterID) ErrNotFound in
  fail_if (rm_Revision (mc_Meta c) != expected) ErrConflict ;;;
  let! imp := get_opt (ms_clusterImports s !! mc_ImportID c) ErrNotFound in
  fail_if ((ci_State imp == ClusterImportRevoked) || (mc_ConnectionState c == "REVOKED")) ErrInvalidTransition ;;;
  let! now := nowUTC in
  let c := if ClusterMayHaveTargetMutationRBAC c
           then c <| mc_Capabilities :=
                  dedupeSortedStrings (mc_Capabilities c ++ [TargetMutationRBACEverIssuedCapability])%list |>
           else c in
  let c := c <| mc_TargetRBACRevocationAcknowledgedDigest := "" |> <| mc_TargetRBACRevocationAcknowledgedAt := None |>
             <| mc_TargetRBACRevocationAcknowledgedBy := "" |> <| mc_ConnectionState := "REVOKED" |>
             <| mc_Meta := bump (mc_Meta c) now |> in
  let imp := imp <| ci_State := ClusterImportRevoked |> <| ci_AgentTokenDigest := "" |>
               <| ci_Meta := bump (ci_Meta imp) now |> in
  putClusterImport (rm_ID (ci_Meta imp)) imp ;;;
  putManagedCluster (rm_ID (mc_Meta c)) c ;;;
  revokeAgentCertificatesLocked (rm_ID (mc_Meta c)) actor ;;;
  appendAuditLocked actor "managed_cluster.revoked" "managedCluster" (rm_ID (mc_Meta c)) (rm_Revision (mc_Meta c))
    [("importId", MStr (rm_ID (ci_Meta imp)))] ;;;
  appendOutboxLocked "managedCluster" (rm_ID (mc_Meta c)) "managed_cluster.revoked" (PayloadManagedCluster c) ;;;
  ret (c, imp).

Definition AcknowledgeManagedClusterTargetRBACRevocation (clusterID : string) (expected : Z) (fenceDigest actor : string)
    : Store ManagedCluster :=
  let! s := get in
  let! c := get_opt (ms_managedClusters s !! clusterID) ErrNotFound in
  fail_if (rm_Revision (mc_Meta c) != expected) ErrConflict ;;;
  fail_if (mc_ConnectionState c != "REVOKED") ErrInvalidTransition ;;;
  let expectedDigest := ClusterTargetRBACRevocationFenceDigest c in
  fail_if (negb (HasPrefix (TrimSpace fenceDigest) sha256_prefix) || negb (secureEqual (TrimSpace fenceDigest) expectedDigest))
    ErrValidation ;;;
  if ClusterTargetRBACRevocationAcknowledged c then ret c else
  let! now := nowUTC in
  let c := c <| mc_TargetRBACRevocationAcknowledgedDigest := expectedDigest |>
             <| mc_TargetRBACRevocationAcknowledgedAt := Some now |>
             <| mc_TargetRBACRevocationAcknowledgedBy := TrimSpace actor |> <| mc_Meta := bump (mc_Meta c) now |> in
  putManagedCluster (rm_ID (mc_Meta c)) c ;;;
  appendAuditLocked actor "managed_cluster.target_rbac_revocation_acknowledged" "managedCluster" (rm_ID (mc_Meta c))
    (rm_Revision (mc_Meta c)) [("fenceDigest", MStr expectedDigest); ("externalUid", MStr (mc_ExternalUID c))] ;;;
  appendOutboxLocked "managedCluster" (rm_ID (mc_Meta c)) "managed_cluster.target_rbac_revocation_acknowledged"
    (PayloadManagedCluster c) ;;;
  ret c.
