(* ===== verification/FleetTheorems.v ===== *)
(** * Correctness of the fleet handlers

    Mutation authority over a target cluster comes from the control plane
    alone, survives no change of the target's identity and is never forgotten;
    a physical cluster has one authority; revocation is final for the agent. *)
From S2P Require Import Prelude GoStrings Digest Model Calendar Inventory Store Lifecycle OperationSystem OperationRuns.
From S2P Require Import Collections Organizations TenancyTheorems FleetGateway Targets Fleet.

(** ** What an inventory can change *)

Abbreviation Active := TargetMutationRBACActiveCapability.
Abbreviation Issued := TargetMutationRBACActivationIssuedCapability.
Abbreviation EverIssued := TargetMutationRBACEverIssuedCapability.
Abbreviation UIDAttested := TargetIdentityContinuityCapability.

Lemma elem_of_remove x l u : trimmed l -> x ∈ removeClusterCapability l u <-> x ∈ l /\ x <> u.
Proof.
  intros Ht. unfold removeClusterCapability. rewrite elem_of_dedupe_trimmed by by apply trimmed_filter.
  rewrite elem_of_filter_bool, negb_true_iff, bool_decide_eq_false.
  split; intros [Hx Hne]; destruct (Ht _ Hx) as [E _]; rewrite E in *; done.
Qed.

Lemma elem_of_append_if b l x y : y ∈ append_if b l x <-> y ∈ l \/ (b = true /\ y = x).
Proof. unfold append_if. destruct b; rewrite ?elem_of_app, ?list_elem_of_singleton; intuition congruence. Qed.

Lemma may_have_rbac c :
  ClusterMayHaveTargetMutationRBAC c = true <->
  EverIssued ∈ mc_Capabilities c \/ Issued ∈ mc_Capabilities c \/ Active ∈ mc_Capabilities c.
Proof.
  unfold ClusterMayHaveTargetMutationRBAC, clusterHasCapability. rewrite !orb_true_iff, !hasCapability_true. tauto.
Qed.

Lemma preview_capabilities :
  Active ∈ previewMutationCapabilities /\ Issued ∈ previewMutationCapabilities /\
  EverIssued ∈ previewMutationCapabilities /\ (UIDAttested ∉ previewMutationCapabilities).
Proof. repeat split; apply (bool_decide_eq_true_1 _); vm_compute; reflexivity. Qed.

Section inventory.
Context (inv : ClusterInventory) (c : ManagedCluster) (imp : ClusterImport) (verified : bool) (basis : string).
Context (Ht : trimmed (iv_Capabilities inv)).
Let inv' := NormalizeClusterInventoryMutationAuthority inv c imp verified basis.

Lemma mutation_authority_capabilities :
  trimmed (iv_Capabilities inv') /\ (Issued ∉ iv_Capabilities inv') /\ (EverIssued ∉ iv_Capabilities inv') /\
  (Active ∈ iv_Capabilities inv' -> Active ∈ iv_Capabilities inv /\ verified = true /\
     clusterHasCapability c Issued = true /\ TrimSpace (mc_MutationRBACIssuedForDigest c) = TrimSpace basis /\
     ClusterInventoryMutationEligible inv' = true) /\
  (UIDAttested ∈ iv_Capabilities inv' <-> UIDAttested ∈ iv_Capabilities inv).
Proof.
  subst inv'. unfold NormalizeClusterInventoryMutationAuthority.
  set (i1 := inv <| iv_Capabilities := _ |>). set (i2 := i1 <| iv_Capabilities := _ |>).
  assert (T1 : trimmed (iv_Capabilities i1)) by apply dedupe_trimmed.
  assert (T2 : trimmed (iv_Capabilities i2)) by apply dedupe_trimmed.
  assert (E2 : forall x, x ∈ iv_Capabilities i2 <-> (x ∈ iv_Capabilities inv /\ x <> Issued) /\ x <> EverIssued).
  { intros x. unfold i2, i1. cbn [iv_Capabilities setf set_iv_Capabilities].
    rewrite elem_of_remove by exact T1. by rewrite elem_of_remove. }
  cbv zeta. destruct (if _ && _ then _ else _) eqn:Ha.
  - split; [done|]. split; [rewrite E2; tauto|]. split; [rewrite E2; tauto|]. split.
    + intros HA. rewrite E2 in HA. destruct (_ && negb _) in Ha; [done|]. unfold secureEqual in Ha. norm_bool. tauto.
    + rewrite E2. split; [tauto|]. intros H. split; [split; [done|]|]; discriminate.
  - split; [apply read_only_trimmed|]. rewrite !elem_of_read_only by done.
    destruct preview_capabilities as (PA & PI & PE & PU). split; [|split; [|split]].
    + intros [[_ H]|H]; [done|discriminate H].
    + intros [[_ H]|H]; [done|discriminate H].
    + intros [[_ H]|H]; [done|discriminate H].
    + rewrite E2. split; [intros [[[[H _] _] _]|H]; [done|discriminate H]|].
      intros H. left. repeat split; done || discriminate.
Qed.

Lemma server_capabilities x :
  x ∈ ClusterCapabilitiesWithServerMutationAuthority inv' c verified basis <->
  x ∈ iv_Capabilities inv' \/ (ClusterMayHaveTargetMutationRBAC c = true /\ x = EverIssued) \/
  ((clusterHasCapability c Issued && verified && ClusterInventoryMutationEligible inv'
    && secureEqual (TrimSpace (mc_MutationRBACIssuedForDigest c)) (TrimSpace basis)) = true /\ x = Issued).
Proof.
  unfold ClusterCapabilitiesWithServerMutationAuthority. rewrite elem_of_dedupe_trimmed, !elem_of_append_if; [tauto|].
  intros y. rewrite !elem_of_append_if. intros [[Hy|[_ ->]]|[_ ->]]; [|done|done].
  by apply mutation_authority_capabilities.
Qed.

(** the four facts about the capabilities the cluster ends up with *)
Lemma server_owned_capabilities :
  let caps := ClusterCapabilitiesWithServerMutationAuthority inv' c verified basis in
  (Issued ∈ caps -> Issued ∈ mc_Capabilities c /\ verified = true /\
     TrimSpace (mc_MutationRBACIssuedForDigest c) = TrimSpace basis) /\
  (EverIssued ∈ caps <-> ClusterMayHaveTargetMutationRBAC c = true) /\
  (Active ∈ caps -> Issued ∈ caps) /\
  (UIDAttested ∈ caps <-> UIDAttested ∈ iv_Capabilities inv).
Proof.
  destruct mutation_authority_capabilities as (_ & Hi & He & Ha & Hu). cbv zeta. rewrite !server_capabilities.
  assert (HE : EverIssued <> Issued /\ Active <> EverIssued /\ Active <> Issued /\ UIDAttested <> EverIssued /\ UIDAttested <> Issued)
    by (repeat split; discriminate).
  destruct HE as (N1 & N2 & N3 & N4 & N5). unfold secureEqual. split; [|split; [|split]].
  - intros [H|[[_ H]|[H _]]]; [done|by symmetry in H|]. norm_bool. unfold clusterHasCapability in *.
    rewrite hasCapability_true in *. done.
  - split; [intros [H|[[H _]|[_ H]]]; done|]. intros H. right. by left.
  - intros [H|[[_ H]|[_ H]]]; [|done|done]. destruct (Ha H) as (_ & Hv & Hc & Hd & Hel). right. right. split; [|done].
    rewrite Hc, Hv, Hel. cbn [andb]. by rewrite bool_decide_eq_true.
  - rewrite <- Hu. split; [intros [H|[[_ H]|[_ H]]]; done|]. by left.
Qed.
End inventory.

(** ** The invariant *)

(** an import that can still enrol or has enrolled a cluster *)
Definition live (v : ClusterImport) : Prop := ci_State v <> ClusterImportRevoked /\ ci_State v <> ClusterImportExpired.
Definition namesake (v w : ClusterImport) : Prop := ci_ProjectID v = ci_ProjectID w /\ ci_Name v = ci_Name w.
(** an import that a cluster may belong to *)
Definition enrolled (v : ClusterImport) : Prop := ci_State v = ClusterImportClaimed \/ ci_State v = ClusterImportRevoked.
(** an import whose agent lost its authority *)
Definition stripped (v : ClusterImport) : Prop := ci_State v = ClusterImportRevoked /\ ci_AgentTokenDigest v = "".
Definition revoked (c : ManagedCluster) : Prop := mc_ConnectionState c = "REVOKED".

(** an operator authorized mutation of the cluster [k] *)
Definition authorized (au : list AuditEvent) (k : string) : Prop :=
  exists e, e ∈ au /\ au_Action e = "cluster.mutation_rbac_activation.authorized" /\
    au_ResourceType e = "managedCluster" /\ au_ResourceID e = k.

Definition imports_ok (s : MemoryStore) (I : gmap string ClusterImport) : Prop :=
  filed s I /\ (forall k v, I !! k = Some v -> rm_ID (ci_Meta v) = k) /\
  forall k1 k2 v1 v2, I !! k1 = Some v1 -> I !! k2 = Some v2 -> live v1 -> live v2 -> namesake v1 v2 -> k1 = k2.

Definition cluster_ok (I : gmap string ClusterImport) (au : list AuditEvent) (k : string) (c : ManagedCluster) : Prop :=
  rm_ID (mc_Meta c) = k /\ trimmed (mc_Capabilities c) /\
  (exists v, I !! mc_ImportID c = Some v /\ enrolled v /\ (revoked c -> stripped v)) /\
  (Active ∈ mc_Capabilities c -> Issued ∈ mc_Capabilities c) /\
  (Issued ∈ mc_Capabilities c -> TrimSpace (mc_MutationRBACIssuedForDigest c) = TrimSpace (mc_MutationRBACBasisDigest c)) /\
  (ClusterMayHaveTargetMutationRBAC c = true -> authorized au k).

Definition clusters_ok (s : MemoryStore) (I : gmap string ClusterImport) (au : list AuditEvent)
    (C : gmap string ManagedCluster) : Prop :=
  filed s C /\ (forall k c, C !! k = Some c -> cluster_ok I au k c) /\
  forall k1 k2 c1 c2, C !! k1 = Some c1 -> C !! k2 = Some c2 -> ~ revoked c1 -> ~ revoked c2 ->
    TrimSpace (mc_ExternalUID c1) = TrimSpace (mc_ExternalUID c2) -> k1 = k2.

Definition certificates_ok (s : MemoryStore) (A : gmap string AgentCertificate) : Prop :=
  filed s A /\ (forall k v, A !! k = Some v -> rm_ID (ac_Meta v) = k) /\
  forall k1 k2 v1 v2, A !! k1 = Some v1 -> A !! k2 = Some v2 -> ac_SerialNumber v1 = ac_SerialNumber v2 -> k1 = k2.

Record fleet_wf (s : MemoryStore) : Prop := {
  fw_gen : forall n m p q, ms_id s n p = ms_id s m q -> n = m;
  fw_imports : imports_ok s (ms_clusterImports s);
  fw_clusters : clusters_ok s (ms_clusterImports s) (ms_audit s) (ms_managedClusters s);
  fw_certificates : certificates_ok s (ms_agentCertificates s);
}.

(** ** What never changes back *)

Definition cluster_evolves (c c' : ManagedCluster) : Prop :=
  (rm_ID (mc_Meta c'), mc_ProjectID c', mc_ImportID c', mc_ExternalUID c')
    = (rm_ID (mc_Meta c), mc_ProjectID c, mc_ImportID c, mc_ExternalUID c) /\
  (revoked c -> revoked c') /\
  (ClusterMayHaveTargetMutationRBAC c = true -> ClusterMayHaveTargetMutationRBAC c' = true).
Definition import_evolves (v v' : ClusterImport) : Prop :=
  (rm_ID (ci_Meta v'), ci_ProjectID v', ci_Name v') = (rm_ID (ci_Meta v), ci_ProjectID v, ci_Name v) /\
  (live v' -> live v).
Definition certificate_evolves (v v' : AgentCertificate) : Prop :=
  (rm_ID (ac_Meta v'), ac_ClusterID v', ac_SerialNumber v', ac_Fingerprint v')
    = (rm_ID (ac_Meta v), ac_ClusterID v, ac_SerialNumber v, ac_Fingerprint v) /\
  (ac_State v = AgentCertificateRevoked -> ac_State v' = AgentCertificateRevoked).

Record fleet_kept (s s' : MemoryStore) : Prop := {
  fk_drawn : drawn s s';
  fk_audit : ms_audit s `prefix_of` ms_audit s';
  fk_clusters : evolves cluster_evolves (ms_managedClusters s) (ms_managedClusters s');
  fk_imports : evolves import_evolves (ms_clusterImports s) (ms_clusterImports s');
  fk_certificates : evolves certificate_evolves (ms_agentCertificates s) (ms_agentCertificates s');
}.

Lemma cluster_evolves_refl c : cluster_evolves c c.
Proof. by repeat split. Qed.
Lemma import_evolves_refl v : import_evolves v v.
Proof. by split. Qed.
Lemma certificate_evolves_refl v : certificate_evolves v v.
Proof. by split. Qed.
#[export] Hint Resolve cluster_evolves_refl import_evolves_refl certificate_evolves_refl : store.

Lemma fleet_kept_trans s1 s2 s3 : fleet_kept s1 s2 -> fleet_kept s2 s3 -> fleet_kept s1 s3.
Proof.
  intros [] []. split; [by eapply drawn_trans|by etrans|eapply evolves_trans; [|done|done]..].
  - intros x y z (E1 & ? & ?) (E2 & ? & ?). split; [congruence|]. auto.
  - intros x y z (E1 & ?) (E2 & ?). split; [congruence|]. auto.
  - intros x y z (E1 & ?) (E2 & ?). split; [congruence|]. auto.
Qed.

(** ** Keeping the parts *)

Lemma authorized_mono au au' k : au `prefix_of` au' -> authorized au k -> authorized au' k.
Proof. intros [l ->] (e & He & H). exists e. split; [|done]. apply elem_of_app. by left. Qed.

Lemma imports_mono s s' I : drawn s s' -> imports_ok s I -> imports_ok s' I.
Proof. intros Hd (Hf & H). split; [by eapply filed_mono|done]. Qed.
Lemma certificates_mono s s' A : drawn s s' -> certificates_ok s A -> certificates_ok s' A.
Proof. intros Hd (Hf & H). split; [by eapply filed_mono|done]. Qed.

(** imports may change under the clusters as long as none takes an enrolment back *)
Definition imports_compatible (I I' : gmap string ClusterImport) : Prop :=
  forall k v, I !! k = Some v -> enrolled v -> exists v', I' !! k = Some v' /\ enrolled v' /\ (stripped v -> stripped v').

Lemma imports_compatible_refl I : imports_compatible I I.
Proof. intros k v H. eauto. Qed.
Lemma imports_compatible_insert I k v :
  (forall v0, I !! k = Some v0 -> enrolled v0 -> enrolled v /\ (stripped v0 -> stripped v)) ->
  imports_compatible I (<[k := v]> I).
Proof.
  intros H k' v' Hk Hv. destruct (decide (k = k')) as [->|Hne].
  - exists v. rewrite lookup_insert_eq. split; [done|]. by apply H.
  - exists v'. by rewrite lookup_insert_ne.
Qed.

Lemma cluster_mono I I' au au' k c :
  imports_compatible I I' -> au `prefix_of` au' -> cluster_ok I au k c -> cluster_ok I' au' k c.
Proof.
  intros Hi Ha (Hid & Ht & (v & Hv & He & Hr) & H1 & H2 & H3). split; [done|]. split; [done|]. split.
  - destruct (Hi _ _ Hv He) as (v' & Hv' & He' & Hs). exists v'. auto.
  - repeat split; auto. intros H. by eapply authorized_mono; [|apply H3].
Qed.
Lemma clusters_mono s s' I I' au au' C :
  drawn s s' -> imports_compatible I I' -> au `prefix_of` au' -> clusters_ok s I au C -> clusters_ok s' I' au' C.
Proof.
  intros Hd Hi Ha (Hf & Hc & Hu). split; [by eapply filed_mono|]. split; [|done].
  intros k c Hk. by eapply cluster_mono; [..|apply Hc].
Qed.

(** filing a record under a key that is in use or was drawn *)
Definition filable {V} (s s' : MemoryStore) (m : gmap string V) (k : string) : Prop :=
  is_Some (m !! k) \/ exists n p, (n < ms_ids s')%nat /\ k = ms_id s n p.
Lemma filed_put {V} s s' (m : gmap string V) k v : drawn s s' -> filable s s' m k -> filed s m -> filed s' (<[k := v]> m).
Proof. intros Hd [[v0 Hk]|(n & p & Hn & ->)] Hf; [by eapply filed_update|by apply filed_insert]. Qed.

Lemma imports_insert s s' I k v :
  drawn s s' -> filable s s' I k -> rm_ID (ci_Meta v) = k ->
  (live v -> forall k' w, I !! k' = Some w -> live w -> namesake v w -> k' = k) ->
  imports_ok s I -> imports_ok s' (<[k := v]> I).
Proof.
  intros Hd Hk Hid Hn (Hf & Hi & Hu). split; [by eapply filed_put|]. split.
  - intros k' v' [[<- <-]|[_ H]]%lookup_insert_Some; [done|by apply Hi].
  - intros k1 k2 v1 v2 H1 H2 L1 L2 N.
    eapply (unique_insert (fun a b => live a /\ live b /\ namesake a b)); [| | |exact H1|exact H2|done].
    + intros a b (? & ? & N1 & N2). split; [done|]. split; [done|]. by split.
    + intros ? ? ? ? ? ? (? & ? & ?). by eapply Hu.
    + intros k' b Hk' (? & ? & ?). by eapply Hn.
Qed.

Lemma imports_update s s' I k v0 v :
  drawn s s' -> I !! k = Some v0 -> import_evolves v0 v -> imports_ok s I -> imports_ok s' (<[k := v]> I).
Proof.
  intros Hd Hk [E Hl] Hok. injection E as Ei Ep En. pose proof Hok as (_ & Hi & Hu).
  eapply imports_insert; [done|left; eauto|by rewrite Ei; apply Hi| |done].
  intros L k' w Hk' Lw [N1 N2]. eapply (Hu k' k w v0); [done|done|done|by apply Hl|]. split; congruence.
Qed.

Lemma clusters_insert s s' I au C k c :
  drawn s s' -> filable s s' C k -> cluster_ok I au k c ->
  (~ revoked c -> forall k' w, C !! k' = Some w -> ~ revoked w ->
     TrimSpace (mc_ExternalUID c) = TrimSpace (mc_ExternalUID w) -> k' = k) ->
  clusters_ok s I au C -> clusters_ok s' I au (<[k := c]> C).
Proof.
  intros Hd Hk Hc Hn (Hf & Hi & Hu). split; [by eapply filed_put|]. split.
  - intros k' v' [[<- <-]|[_ H]]%lookup_insert_Some; [done|by apply Hi].
  - intros k1 k2 v1 v2 H1 H2 L1 L2 N.
    eapply (unique_insert (fun a b => ~ revoked a /\ ~ revoked b /\ TrimSpace (mc_ExternalUID a) = TrimSpace (mc_ExternalUID b)));
      [| | |exact H1|exact H2|done].
    + intros a b (? & ? & ?). by repeat split.
    + intros ? ? ? ? ? ? (? & ? & ?). by eapply Hu.
    + intros k' b Hk' (? & ? & ?). by eapply Hn.
Qed.

Lemma clusters_update s s' I au C k c0 c :
  drawn s s' -> C !! k = Some c0 -> cluster_evolves c0 c -> cluster_ok I au k c ->
  clusters_ok s I au C -> clusters_ok s' I au (<[k := c]> C).
Proof.
  intros Hd Hk (E & Hr & _) Hc Hok. injection E as _ _ _ Eu. pose proof Hok as (_ & _ & Hu).
  eapply clusters_insert; [done|left; eauto|done| |done].
  intros L k' w Hk' Lw N. eapply (Hu k' k w c0); [done|done|done|by intros ?%Hr|congruence].
Qed.

Lemma certificates_insert s s' A k v :
  drawn s s' -> filable s s' A k -> rm_ID (ac_Meta v) = k ->
  (forall k' w, A !! k' = Some w -> ac_SerialNumber v = ac_SerialNumber w -> k' = k) ->
  certificates_ok s A -> certificates_ok s' (<[k := v]> A).
Proof.
  intros Hd Hk Hid Hn (Hf & Hi & Hu). split; [by eapply filed_put|]. split.
  - intros k' v' [[<- <-]|[_ H]]%lookup_insert_Some; [done|by apply Hi].
  - intros k1 k2 v1 v2 H1 H2 N.
    eapply (unique_insert (fun a b => ac_SerialNumber a = ac_SerialNumber b)); [by intros|done|done|exact H1|exact H2|done].
Qed.
Lemma certificates_update s s' A k v0 v :
  drawn s s' -> A !! k = Some v0 -> certificate_evolves v0 v -> certificates_ok s A -> certificates_ok s' (<[k := v]> A).
Proof.
  intros Hd Hk [E _] Hok. injection E as Ei _ Es _. pose proof Hok as (_ & Hi & Hu).
  eapply certificates_insert; [done|left; eauto|by rewrite Ei; apply Hi| |done].
  intros k' w Hk' N. eapply (Hu k' k w v0); congruence.
Qed.

(** ** The handlers keep the invariant *)

Ltac auditing := cbn; repeat first [reflexivity | apply prefix_app_r].
Ltac filing := right; eexists _, _; split; [|reflexivity]; cbn; lia.

Lemma fleet_assemble s s' :
  fleet_wf s -> drawn s s' -> ms_audit s `prefix_of` ms_audit s' ->
  imports_ok s' (ms_clusterImports s') -> certificates_ok s' (ms_agentCertificates s') ->
  clusters_ok s' (ms_clusterImports s') (ms_audit s') (ms_managedClusters s') ->
  evolves cluster_evolves (ms_managedClusters s) (ms_managedClusters s') ->
  evolves import_evolves (ms_clusterImports s) (ms_clusterImports s') ->
  evolves certificate_evolves (ms_agentCertificates s) (ms_agentCertificates s') ->
  fleet_wf s' /\ fleet_kept s s'.
Proof. intros Hwf Hd. split; [split; try done|by split]. rewrite (dr_gen _ _ Hd). apply Hwf. Qed.

Section preserve.
Context (s : MemoryStore) (Hwf : fleet_wf s).
Local Abbreviation keeps m := (wp m (fun _ s' => fleet_wf s' /\ fleet_kept s s') s).

Lemma fleet_same s' :
  drawn s s' -> ms_audit s `prefix_of` ms_audit s' -> ms_clusterImports s' = ms_clusterImports s ->
  ms_managedClusters s' = ms_managedClusters s -> ms_agentCertificates s' = ms_agentCertificates s ->
  fleet_wf s' /\ fleet_kept s s'.
Proof.
  intros Hd Ha Hi Hc Hx. destruct Hwf. apply fleet_assemble; try done; rewrite ?Hi, ?Hc, ?Hx;
    eauto using imports_mono, certificates_mono, clusters_mono, imports_compatible_refl, evolves_refl with store.
Qed.

(** a new import, or a change of one that enrolled no cluster yet *)
Lemma fleet_import s' k v :
  drawn s s' -> ms_audit s `prefix_of` ms_audit s' -> ms_clusterImports s' = <[k := v]> (ms_clusterImports s) ->
  ms_managedClusters s' = ms_managedClusters s -> ms_agentCertificates s' = ms_agentCertificates s ->
  imports_ok s' (<[k := v]> (ms_clusterImports s)) ->
  (forall v0, ms_clusterImports s !! k = Some v0 -> import_evolves v0 v /\ ~ enrolled v0) ->
  fleet_wf s' /\ fleet_kept s s'.
Proof.
  intros Hd Ha Hi Hc Hx Hok Hev. destruct Hwf. apply fleet_assemble; try done; rewrite ?Hi, ?Hc, ?Hx; try done.
  - by eapply certificates_mono.
  - eapply clusters_mono; [done| |done|done]. apply imports_compatible_insert.
    intros v0 Hv0 He. by destruct (Hev _ Hv0) as [_ Hne].
  - apply evolves_refl; auto with store.
  - apply evolves_insert; [auto with store|]. intros v0 Hv0. by apply Hev.
  - apply evolves_refl; auto with store.
Qed.

(** a change of a cluster *)
Lemma fleet_cluster s' k c0 c :
  drawn s s' -> ms_audit s `prefix_of` ms_audit s' -> ms_clusterImports s' = ms_clusterImports s ->
  ms_managedClusters s !! k = Some c0 -> ms_managedClusters s' = <[k := c]> (ms_managedClusters s) ->
  ms_agentCertificates s' = ms_agentCertificates s -> cluster_evolves c0 c ->
  cluster_ok (ms_clusterImports s) (ms_audit s') k c ->
  fleet_wf s' /\ fleet_kept s s'.
Proof.
  intros Hd Ha Hi Hk Hc Hx Hev Hok. destruct Hwf. apply fleet_assemble; try done; rewrite ?Hi, ?Hc, ?Hx.
  - by eapply imports_mono.
  - by eapply certificates_mono.
  - eapply (clusters_update s); [done|done|done|done|]. eapply clusters_mono; [|apply imports_compatible_refl|done|done].
    by split.
  - apply evolves_insert; [auto with store|]. by intros ? [= <-]%(eq_trans (eq_sym Hk)).
  - apply evolves_refl; auto with store.
  - apply evolves_refl; auto with store.
Qed.

(** a change of the certificates *)
Lemma fleet_certificates s' :
  drawn s s' -> ms_audit s `prefix_of` ms_audit s' -> ms_clusterImports s' = ms_clusterImports s ->
  ms_managedClusters s' = ms_managedClusters s -> certificates_ok s' (ms_agentCertificates s') ->
  evolves certificate_evolves (ms_agentCertificates s) (ms_agentCertificates s') ->
  fleet_wf s' /\ fleet_kept s s'.
Proof.
  intros Hd Ha Hi Hc Hok Hev. destruct Hwf. apply fleet_assemble; try done; rewrite ?Hi, ?Hc;
    eauto using imports_mono, clusters_mono, imports_compatible_refl, evolves_refl with store.
Qed.

Lemma not_enrolled v : ci_State v <> ClusterImportClaimed -> ci_State v <> ClusterImportRevoked -> ~ enrolled v.
Proof. by intros ? ? [?|?]. Qed.

Lemma approve_import_keeps id e actor : keeps (ApproveClusterImport id e actor).
Proof.
  unfold ApproveClusterImport; unfold_puts. wp_go; try (apply fleet_same; [drawing|auditing|done..]). norm_bool.
  assert (Hev : import_evolves a (a <| ci_State := ClusterImportApproved |> <| ci_ApprovedAt := Some (clock s) |>
    <| ci_ApprovedBy := actor |> <| ci_Meta := bump (ci_Meta a) (clock s) |>)) by (split; [done|]; by split; intros E; rewrite E in *).
  eapply (fleet_import _ id); [drawing|auditing|reflexivity..| |].
  - eapply (imports_update s); [drawing|done|exact Hev|apply Hwf].
  - intros v0 Hv0. simplify_eq. split; [exact Hev|]. apply not_enrolled; congruence.
Qed.

Lemma revoke_import_keeps id e actor : keeps (RevokeClusterImport id e actor).
Proof.
  unfold RevokeClusterImport; unfold_puts. wp_go; try (apply fleet_same; [drawing|auditing|done..]).
  match goal with H : (_ && _) = false |- _ => apply andb_false_iff in H end.
  eapply (fleet_import _ id); [drawing|auditing|reflexivity..| |].
  - eapply (imports_update s); [drawing|done| |apply Hwf]. split; [done|]. by intros [? _].
  - intros v0 Hv0. simplify_eq. split; [split; [done|by intros [? _]]|]. norm_bool.
    apply not_enrolled; intros E;
      match goal with H : _ \/ _ |- _ => destruct H; norm_bool; congruence end.
Qed.
End preserve.

(** *** Creating an import *)

Lemma and_nest (A B C : Prop) : A /\ B -> C -> A /\ B /\ C.
Proof. tauto. Qed.

Lemma expire_keeps s1 k x now :
  fleet_wf s1 -> ms_clusterImports s1 !! k = Some x ->
  wp (expireClusterImportLocked x now) (fun r s' => fleet_wf s' /\ fleet_kept s1 s' /\
    exists x', r = Ok x' /\ ms_clusterImports s' !! k = Some x' /\ namesake x x' /\
      forall k', k' <> k -> ms_clusterImports s' !! k' = ms_clusterImports s1 !! k') s1.
Proof.
  intros Hwf Hk. destruct (fw_imports _ Hwf) as (_ & Hid & _). pose proof (Hid _ _ Hk) as Hx.
  unfold expireClusterImportLocked; unfold_puts. wp_go.
  - apply and_nest; [apply (fleet_same s1 Hwf); [drawing|auditing|done..]|]. exists x. by repeat split.
  - apply and_nest.
    + assert (Hev : import_evolves x (x <| ci_State := ClusterImportExpired |> <| ci_TokenDigest := "sha256:expired" |>
        <| ci_Meta := bump (ci_Meta x) now |>)) by (split; [done|by intros [_ ?]]).
      eapply (fleet_import s1 Hwf _ k); [drawing|auditing|cbn; by rewrite Hx|done|done| |].
      * eapply (imports_update s1); [drawing|done|exact Hev|apply Hwf].
      * intros v0 Hv0. simplify_eq. split; [exact Hev|].
        match goal with H : negb _ = false |- _ => unfold clusterImportEffectivelyExpired in H; norm_bool end.
        match goal with H : (_ || _) = true |- _ => apply orb_true_iff in H end.
        apply not_enrolled; intros E; match goal with H : _ \/ _ |- _ => destruct H; norm_bool; congruence end.
    + eexists. split; [reflexivity|]. cbn. rewrite Hx. split; [apply lookup_insert_eq|]. split; [done|].
      intros k' Hne. by rewrite lookup_insert_ne.
Qed.

Lemma expire_namesakes_keeps v now l : forall s1,
  fleet_wf s1 -> NoDup l.*1 -> (forall kx, kx ∈ l -> ms_clusterImports s1 !! kx.1 = Some kx.2) ->
  wp (expireNamesakes v now l) (fun r s' => fleet_wf s' /\ fleet_kept s1 s' /\
    (forall k, k ∉ l.*1 -> ms_clusterImports s' !! k = ms_clusterImports s1 !! k) /\
    (r = Ok tt -> forall k x', k ∈ l.*1 -> ms_clusterImports s' !! k = Some x' -> namesake v x' -> ~ live x')) s1.
Proof.
  induction l as [|[k x] l IH]; intros s1 Hwf Hnd Hl; cbn [expireNamesakes].
  - wp_go. apply and_nest; [apply (fleet_same s1 Hwf); [drawing|auditing|done..]|].
    split; [done|]. intros _ k x' Hk. by apply elem_of_nil in Hk.
  - apply NoDup_cons in Hnd as [Hk Hnd].
    assert (Hx : ms_clusterImports s1 !! k = Some x) by (apply (Hl (k, x)); left).
    wp_go.
    + match goal with H : (_ || _) = true |- _ => apply orb_true_iff in H as H1 end.
      eapply wp_mono; [apply IH; [done|done|intros kx Hkx; apply Hl; by right]|].
      intros r s' (W & K & Ho & Hd). split; [done|]. split; [done|]. split.
      * intros k' Hk'. apply Ho. intros ?. apply Hk'. by right.
      * intros E k' x' Hk' Hx' [N1 N2]. cbn in Hk'. apply elem_of_cons in Hk' as [->|Hk']; [|by eapply Hd].
        rewrite Ho in Hx' by done. simplify_eq. destruct H1; norm_bool; congruence.
    + apply wp_bind. eapply wp_mono; [by apply (expire_keeps s1 k)|].
      intros r s2 (W & K & x' & -> & Hx' & [N1 N2] & Ho). norm_bool. wp_go.
      * split; [done|]. split; [done|]. split; [|done]. intros k' Hk'. apply Ho. intros ->. apply Hk'. left.
      * eapply wp_mono; [apply IH; [done|done|]|].
        { intros kx Hkx. rewrite Ho; [apply Hl; by right|]. intros E. apply Hk. apply list_elem_of_fmap. by exists kx. }
        intros r s3 (W3 & K3 & Ho3 & Hd3). split; [done|]. split; [by eapply fleet_kept_trans|]. split.
        -- intros k' Hk'. cbn in Hk'. rewrite not_elem_of_cons in Hk'. rewrite Ho3, Ho by tauto. done.
        -- intros E k' x'' Hk' Hx''. apply elem_of_cons in Hk' as [->|Hk']; [|by eapply Hd3].
           cbn in Hx''. rewrite Ho3, Hx' in Hx'' by done. simplify_eq. intros _ [L1 L2].
           match goal with H : (_ && _) = false |- _ => apply andb_false_iff in H as [H|H] end; norm_bool; congruence.
Qed.

Lemma create_import_keeps s v actor :
  fleet_wf s -> wp (CreateClusterImport v actor) (fun _ s' => fleet_wf s' /\ fleet_kept s s') s.
Proof.
  intros Hwf. unfold CreateClusterImport. unfold putClusterImport. wp_go; try (apply (fleet_same s Hwf); [drawing|auditing|done..]).
  assert (W1 : fleet_wf (tick s) /\ fleet_kept s (tick s)) by (apply (fleet_same s Hwf); [drawing|auditing|done..]).
  destruct W1 as [W1 K1]. apply wp_bind.
  eapply wp_mono; [apply (expire_namesakes_keeps _ (clock s) (map_to_list (ms_clusterImports s)) (tick s) W1)|].
  - apply NoDup_fst_map_to_list.
  - intros [k x] Hkx. by apply elem_of_map_to_list in Hkx.
  - intros [[]|e] s1 (W & K & Ho & Hd); [|split; [done|by eapply fleet_kept_trans]]. wp_go.
    set (v' := _ <| ci_RequestedBy := actor |>).
    match goal with |- fleet_wf ?t /\ _ => assert (H' : fleet_wf t /\ fleet_kept s1 t) end.
    { assert (Hnew : ms_clusterImports s1 !! fresh s1 "imp" = None).
      { eapply (fresh_unfiled s1); [apply W|apply W|lia]. }
      eapply (fleet_import s1 W _ (fresh s1 "imp") v'); [drawing|auditing|done..| |].
      - eapply (imports_insert s1); [drawing|filing|done| |apply W].
        intros _ k' w Hk' Lw Hn. exfalso. assert (Hin : k' ∈ (map_to_list (ms_clusterImports s)).*1).
        { destruct (decide (k' ∈ (map_to_list (ms_clusterImports s)).*1)) as [|Hni]; [done|]. exfalso.
          rewrite Ho in Hk' by done. apply Hni. apply list_elem_of_fmap. exists (k', w). split; [done|].
          by apply elem_of_map_to_list. }
        by eapply (Hd eq_refl k' w).
      - intros v0 Hv0. congruence. }
    destruct H' as [W2 K2]. split; [done|]. eapply fleet_kept_trans; [exact K1|]. by eapply fleet_kept_trans.
Qed.

(** *** Agents *)

(** an agent that authenticates with a token digest belongs to a cluster that was not revoked *)
Lemma agent_not_revoked s k c d :
  fleet_wf s -> ms_managedClusters s !! k = Some c -> d <> "" ->
  secureEqual (ci_AgentTokenDigest (importOf s (mc_ImportID c))) d = true -> ~ revoked c.
Proof.
  intros Hwf Hk Hd He Hr. destruct (fw_clusters _ Hwf) as (_ & Hc & _).
  destruct (Hc _ _ Hk) as (_ & _ & (v & Hv & _ & Hs) & _). destruct (Hs Hr) as [_ Ht].
  unfold importOf, secureEqual in He. rewrite Hv in He. norm_bool. cbn in He. congruence.
Qed.

Lemma cluster_ok_of s k c :
  fleet_wf s -> ms_managedClusters s !! k = Some c -> cluster_ok (ms_clusterImports s) (ms_audit s) k c.
Proof. intros Hwf Hk. by apply (fw_clusters _ Hwf). Qed.

(** a change of a cluster that keeps its identity and mutation authority *)
Lemma cluster_ok_stable I au au' k c c' :
  cluster_ok I au k c -> au `prefix_of` au' -> cluster_evolves c c' -> (revoked c' -> revoked c) ->
  mc_Capabilities c' = mc_Capabilities c -> mc_MutationRBACIssuedForDigest c' = mc_MutationRBACIssuedForDigest c ->
  mc_MutationRBACBasisDigest c' = mc_MutationRBACBasisDigest c -> cluster_ok I au' k c'.
Proof.
  intros (Hid & Ht & (v & Hv & He & Hs) & H1 & H2 & H3) Ha (E & _) Hr Hcap Hi Hb. injection E as E1 _ E2 _.
  split; [congruence|]. split; [by rewrite Hcap|]. split; [exists v; rewrite E2; auto|]. rewrite Hcap, Hi, Hb. split; [done|]. split; [done|].
  intros H. eapply authorized_mono; [done|]. apply H3. unfold ClusterMayHaveTargetMutationRBAC, clusterHasCapability in *.
  by rewrite Hcap in H.
Qed.

Lemma connected_not_revoked (c : ManagedCluster) : mc_ConnectionState c = "CONNECTED" -> ~ revoked c.
Proof. unfold revoked. by intros ->. Qed.

Section agents.
Context (s : MemoryStore) (Hwf : fleet_wf s).
Local Abbreviation keeps m := (wp m (fun _ s' => fleet_wf s' /\ fleet_kept s s') s).

Lemma cluster_heartbeat_keeps k d uid version : d <> "" -> keeps (HeartbeatCluster k d uid version).
Proof.
  intros Hd. unfold HeartbeatCluster; unfold_puts. wp_go; try (apply (fleet_same s Hwf); [drawing|auditing|done..]). norm_bool.
  assert (Hr : ~ revoked a) by by apply (agent_not_revoked s k a d).
  assert (Hev : cluster_evolves a (a <| mc_ConnectionState := "CONNECTED" |>
    <| mc_AgentVersion := TrimSpace version |> <| mc_LastSeenAt := Some (clock s) |> <| mc_Meta := bump (mc_Meta a) (clock s) |>))
    by (split; [done|]; by split).
  eapply (fleet_cluster s Hwf _ k a); [drawing|auditing|done|done|reflexivity|done|exact Hev|].
  eapply cluster_ok_stable; [by apply cluster_ok_of|auditing|exact Hev|done..].
Qed.

Lemma inventory_keeps wall k d uid inv : d <> "" -> keeps (UpsertClusterInventory wall k d uid inv).
Proof.
  intros Hd. unfold UpsertClusterInventory, admittedInventory; unfold_puts.
  wp_go; try (apply (fleet_same s Hwf); [drawing|auditing|done..]). norm_bool.
  assert (Hr : ~ revoked a) by by apply (agent_not_revoked s k a d).
  destruct (cluster_ok_of s k a Hwf ltac:(done)) as (Hid & Ht & (v & Hv & He & Hs) & H1' & H2' & H3').
  match goal with |- context [observeInventory a ?i ?vf ?b ?n] => set (c' := observeInventory a i vf b n) end.
  match goal with c' := observeInventory a (?i0 <| iv_Meta := _ |> <| iv_ClusterID := _ |>) ?vf ?b ?n |- _ =>
    set (basis := b) in *; set (verified := vf) in * end.
  match goal with |- context [NormalizeClusterInventoryMutationAuthority ?i a _ verified basis] =>
    pose proof (server_owned_capabilities i a (importOf s (mc_ImportID a)) verified basis
      (admission_trimmed _ (identity_authority_trimmed inv verified))) as (HI & HE & HA & _) end.
  assert (Hev : cluster_evolves a c').
  { split; [done|]. split; [done|]. intros Hm. apply may_have_rbac. left. by apply HE. }
  eapply (fleet_cluster s Hwf _ k a); [drawing|auditing|done|done|reflexivity|done|exact Hev|].
  split; [done|]. split; [apply dedupe_trimmed|].
  split; [exists v; split; [done|]; split; [done|]; by intros ?%connected_not_revoked|].
  split; [exact HA|]. split.
  - intros Hi. destruct (HI Hi) as (Hi0 & _ & Hb). unfold c', observeInventory. cbn -[TrimSpace clusterHasCapability].
    unfold secureEqual. replace (clusterHasCapability a Issued) with true by (symmetry; by apply hasCapability_true).
    cbn [andb]. rewrite bool_decide_eq_true_2; [done|]. rewrite Hb. apply digest_trimmed.
  - intros Hm. apply may_have_rbac in Hm. apply (authorized_mono (ms_audit s)); [auditing|]. apply H3'.
    destruct Hm as [Hm|[Hm|Hm]]; [by apply HE|apply may_have_rbac; right; left; exact (proj1 (HI Hm))|].
    apply may_have_rbac. right. left. exact (proj1 (HI (HA Hm))).
Qed.
End agents.

(** *** Operators *)

Section operators.
Context (s : MemoryStore) (Hwf : fleet_wf s).
Local Abbreviation keeps m := (wp m (fun _ s' => fleet_wf s' /\ fleet_kept s s') s).

Lemma may_have_more c c' :
  (forall x, x ∈ mc_Capabilities c -> x <> "" -> TrimSpace x = x -> x ∈ mc_Capabilities c') ->
  ClusterMayHaveTargetMutationRBAC c = true -> ClusterMayHaveTargetMutationRBAC c' = true.
Proof. intros H Hm. rewrite may_have_rbac in *. destruct Hm as [Hm|[Hm|Hm]]; auto. Qed.

Lemma elem_of_dedupe_app x l k : x <> "" -> TrimSpace x = x -> x ∈ l \/ x ∈ k -> x ∈ dedupeSortedStrings (l ++ k).
Proof. intros H0 H1 H2. apply elem_of_dedupe. split; [done|]. exists x. by rewrite elem_of_app. Qed.

Lemma authorize_keeps wall k actor : keeps (AuthorizeClusterMutationRBACActivation wall k actor).
Proof.
  unfold AuthorizeClusterMutationRBACActivation; unfold_puts.
  wp_go; try (apply (fleet_same s Hwf); [drawing|auditing|done..]).
  match goal with |- context [<[k := ?x]> _] => set (c' := x) end.
  destruct (cluster_ok_of s k a Hwf ltac:(done)) as (Hid & Ht & Himp & H1' & H2' & H3').
  assert (Hev : cluster_evolves a c').
  { split; [done|]. split; [done|]. apply may_have_more. intros x Hx H0' Htx. apply elem_of_dedupe_app; auto. }
  eapply (fleet_cluster s Hwf _ k a); [drawing|auditing|done|done|reflexivity|done|exact Hev|].
  split; [done|]. split; [apply dedupe_trimmed|]. split; [done|]. split; [|split; [done|]].
  - intros _. apply elem_of_dedupe_app; [done|done|]. right. left.
  - intros _. eexists. split; [cbn; apply elem_of_app; right; left|done].
Qed.

Lemma acknowledge_keeps k e fence actor : keeps (AcknowledgeManagedClusterTargetRBACRevocation k e fence actor).
Proof.
  unfold AcknowledgeManagedClusterTargetRBACRevocation; unfold_puts.
  wp_go; try (apply (fleet_same s Hwf); [drawing|auditing|done..]).
  match goal with |- context [<[rm_ID _ := ?x]> _] => set (c' := x) end.
  pose proof (cluster_ok_of s k a Hwf ltac:(done)) as Hok. assert (Hid : rm_ID (mc_Meta a) = k) by apply Hok.
  assert (Hev : cluster_evolves a c') by done.
  eapply (fleet_cluster s Hwf _ k a c'); [drawing|auditing|done|done|cbn; by rewrite Hid|done|exact Hev|].
  apply (cluster_ok_stable _ (ms_audit s) _ k a); [done|auditing|exact Hev|done..].
Qed.

Lemma claim_keeps id token d uid version : keeps (ClaimClusterImport id token d uid version).
Proof.
  unfold ClaimClusterImport; unfold_puts. wp_go; try (apply (fleet_same s Hwf); [drawing|auditing|done..]).
  match goal with H : map_any _ _ = false |- _ => rewrite map_any_false in H; rename H into Hnone end. norm_bool.
  destruct (fw_imports _ Hwf) as (_ & Hids & _).
  set (v' := a <| ci_State := ClusterImportClaimed |> <| ci_AgentTokenDigest := d |>
    <| ci_ClusterID := fresh (tick s) "clu" |> <| ci_ClaimedAt := Some (clock s) |> <| ci_Meta := bump (ci_Meta a) (clock s) |>).
  assert (Hev : import_evolves a v') by (split; [done|]; by split; congruence).
  assert (Hnew : ms_managedClusters s !! fresh (tick s) "clu" = None).
  { eapply (fresh_unfiled s); [apply Hwf|apply Hwf|cbn; lia]. }
  apply fleet_assemble; [done|drawing|auditing|..]; cbn [ms_clusterImports ms_managedClusters ms_agentCertificates].
  - eapply (imports_update s); [drawing|done|exact Hev|apply Hwf].
  - eapply certificates_mono; [|apply Hwf]. drawing.
  - eapply (clusters_insert s); [drawing|filing| | |].
    + split; [done|]. split; [by intros x ?%elem_of_nil|]. split; [|split; [|split]]; [|by intros Hx%elem_of_nil..|].
      * exists v'. cbn [mc_ImportID newManagedCluster]. rewrite (Hids _ _ ltac:(eassumption)).
        split; [apply lookup_insert_eq|]. split; [by left|done].
      * intros Hm%may_have_rbac. by destruct Hm as [Hm|[Hm|Hm]]; apply elem_of_nil in Hm.
    + intros _ k' w Hk' Hw Hu. exfalso. specialize (Hnone _ _ Hk'). cbv beta in Hnone.
      unfold secureEqual in Hnone. cbn [mc_ExternalUID newManagedCluster] in Hu. rewrite TrimSpace_idem in Hu.
      rewrite (bool_decide_eq_true_2 _ (eq_sym Hu)), andb_true_r in Hnone. norm_bool. done.
    + apply (clusters_mono s s (ms_clusterImports s) _ (ms_audit s)); [by split| |auditing|apply Hwf].
      apply imports_compatible_insert. intros v0 Hv0 He. cbn in Hv0. assert (v0 = a) as -> by congruence. by destruct He.
  - apply evolves_insert; [auto with store|]. intros v0 Hv0. cbn in Hv0, Hnew. congruence.
  - apply evolves_insert; [auto with store|]. intros v0 Hv0. cbn in Hv0. by assert (v0 = a) as -> by congruence.
  - apply evolves_refl; auto with store.
Qed.

(** *** Certificates *)

Lemma create_certificate_keeps v actor : keeps (CreateAgentCertificate v actor).
Proof.
  unfold CreateAgentCertificate; unfold_puts. wp_go; try (apply (fleet_same s Hwf); [drawing|auditing|done..]).
  match goal with H : map_any _ _ = false |- _ => rewrite map_any_false in H; rename H into Hnone end.
  assert (Hnew : ms_agentCertificates s !! fresh (tick s) "acert" = None).
  { eapply (fresh_unfiled s); [apply Hwf|apply Hwf|cbn; lia]. }
  apply (fleet_certificates s Hwf); [drawing|auditing|done|done| |].
  - eapply (certificates_insert s); [drawing|filing|done| |apply Hwf].
    intros k' w Hk' E. specialize (Hnone _ _ Hk'). unfold sameSerial in Hnone. norm_bool. cbn in E. congruence.
  - apply evolves_insert; [auto with store|]. intros v0 Hv0. cbn in Hv0, Hnew. congruence.
Qed.

Lemma revoke_certificate_keeps k rev actor : keeps (RevokeAgentCertificate k rev actor).
Proof.
  unfold RevokeAgentCertificate; unfold_puts. wp_go; try (apply (fleet_same s Hwf); [drawing|auditing|done..]).
  apply (fleet_certificates s Hwf); [drawing|auditing|done|done| |].
  - eapply (certificates_update s); [drawing|done|done|apply Hwf].
  - apply evolves_insert; [auto with store|]. intros v0 Hv0. cbn in Hv0. by simplify_eq.
Qed.

Lemma rotate_certificate_keeps k v actor : keeps (RotateAgentCertificate k v actor).
Proof.
  unfold RotateAgentCertificate; unfold_puts. wp_go; try (apply (fleet_same s Hwf); [drawing|auditing|done..]).
  match goal with H : map_any _ _ = false |- _ => rewrite map_any_false in H; rename H into Hnone end.
  assert (Hnew : ms_agentCertificates s !! fresh (tick s) "acert" = None).
  { eapply (fresh_unfiled s); [apply Hwf|apply Hwf|cbn; lia]. }
  destruct (fw_certificates _ Hwf) as (_ & Hids & _). pose proof (Hids _ _ ltac:(eassumption)) as Hk.
  assert (Hne : fresh (tick s) "acert" <> k) by congruence.
  apply (fleet_certificates s Hwf); [drawing|auditing|done|done| |]; cbn [ms_agentCertificates].
  - eapply (certificates_update (draw (tick s)) _ _ _ a); [drawing|cbn; rewrite Hk; by rewrite lookup_insert_ne|done|].
    eapply (certificates_insert s); [drawing|filing|done| |apply Hwf].
    intros k' w Hk' E. specialize (Hnone _ _ Hk'). unfold sameSerial in Hnone. norm_bool. cbn in E. congruence.
  - cbn. rewrite Hk. match goal with |- evolves _ ?m (<[_ := _]> ?m1) => apply (evolves_trans _ m m1) end.
    + intros x y z (E1 & ?) (E2 & ?); split; [congruence|auto].
    + apply evolves_insert; [auto with store|]. intros v0 Hv0. cbn in Hv0, Hnew. congruence.
    + apply evolves_insert; [auto with store|]. rewrite lookup_insert_ne by done. intros v0 Hv0. cbn in Hv0. by simplify_eq.
Qed.
End operators.

(** *** Revocation of a cluster *)

(** what the revocation of a cluster makes of a certificate *)
Definition settle (clusterID actor : string) (now : Time) (v : AgentCertificate) : AgentCertificate :=
  if activeOf clusterID v then revokedCertificate actor now v else v.

(** a run that changes certificates only *)
Record only_certificates (s s' : MemoryStore) : Prop := {
  oc_drawn : drawn s s';
  oc_audit : ms_audit s `prefix_of` ms_audit s';
  oc_imports : ms_clusterImports s' = ms_clusterImports s;
  oc_clusters : ms_managedClusters s' = ms_managedClusters s;
}.
#[export] Instance only_certificates_order : PreOrder only_certificates.
Proof.
  split; [intros s; split; [drawing|auditing|done..]|].
  intros s1 s2 s3 [] []. split; [by eapply drawn_trans|by etrans|congruence|congruence].
Qed.

Lemma revoke_certificates_spec clusterID actor s :
  wp (revokeAgentCertificatesLocked clusterID actor) (fun r s' => r = Ok tt /\ only_certificates s s' /\
    ms_agentCertificates s' = settle clusterID actor (clock s) <$> ms_agentCertificates s) s.
Proof.
  unfold revokeAgentCertificatesLocked. do 2 wp_step. eapply wp_mono.
  - apply (in_place_settles ms_agentCertificates (settle clusterID actor (clock s))
      (fun id v => when (activeOf clusterID v) (let v := revokedCertificate actor (clock s) v in
         putAgentCertificate id v ;;;
         appendAuditLocked actor "agent_certificate.revoked" "agentCertificate" id (rm_Revision (ac_Meta v))
           [("clusterId", MStr clusterID); ("reason", MStr "managed-cluster-revoked")])) _ only_certificates); [done|done|].
    intros k v s1 Hk. unfold settle. destruct (activeOf clusterID v) eqn:E; cbn [when]; unfold_puts; wp_go.
    + split_and!; [done|split; [drawing|auditing|done..]|done].
    + split_and!; [done|done|by rewrite insert_id].
  - intros r s' (-> & Ho & Hc). split_and!; [done| |exact Hc]. etrans; [|exact Ho]. split; [drawing|auditing|done..].
Qed.

Lemma settle_evolves cid actor now v : certificate_evolves v (settle cid actor now v).
Proof. unfold settle. case_match; by split. Qed.

Lemma certificates_settle s s' cid actor now A :
  drawn s s' -> certificates_ok s A -> certificates_ok s' (settle cid actor now <$> A).
Proof.
  intros Hd (Hf & Hi & Hu). split; [|split].
  - intros k v' Hk. apply lookup_fmap_Some in Hk as (v & _ & Hv). by apply (filed_mono _ _ _ Hd Hf _ _ Hv).
  - intros k v' Hk. apply lookup_fmap_Some in Hk as (v & <- & Hv). rewrite <- (Hi _ _ Hv).
    destruct (settle_evolves cid actor now v) as [[=] _]. done.
  - intros k1 k2 v1 v2 H1 H2 E. apply lookup_fmap_Some in H1 as (w1 & <- & H1).
    apply lookup_fmap_Some in H2 as (w2 & <- & H2). eapply Hu; [done|done|].
    destruct (settle_evolves cid actor now w1) as [[=] _], (settle_evolves cid actor now w2) as [[=] _]. congruence.
Qed.

Lemma revoke_cluster_keeps s k e actor :
  fleet_wf s -> wp (RevokeManagedCluster k e actor) (fun _ s' => fleet_wf s' /\ fleet_kept s s') s.
Proof.
  intros Hwf. unfold RevokeManagedCluster. unfold putClusterImport, putManagedCluster.
  wp_go; try (apply (fleet_same s Hwf); [drawing|auditing|done..]).
  rename a into c0, a0 into imp0. pose proof (cluster_ok_of s k c0 Hwf ltac:(done)) as (Hid & Ht & (v & Hv & He & Hs) & H1' & H2' & H3').
  assert (v = imp0) as -> by congruence. destruct (fw_imports _ Hwf) as (_ & Hids & _).
  pose proof (Hids _ _ Hv) as Himp.
  match goal with |- wp _ _ (_ <| ms_managedClusters := <[_ := ?x]> _ |>) => set (c' := x) end.
  match goal with |- wp _ _ (_ <| ms_clusterImports := <[_ := ?x]> _ |> <| ms_managedClusters := _ |>) => set (imp' := x) end.
  apply wp_bind. eapply wp_mono; [apply revoke_certificates_spec|].
  intros r s1 (-> & [Hd Ha Hi Hc] & Hx). wp_go.
  assert (Hcid : rm_ID (mc_Meta c') = k) by (rewrite <- Hid; unfold c'; by destruct (ClusterMayHaveTargetMutationRBAC c0)).
  assert (Htc : trimmed (mc_Capabilities c'))
    by (unfold c'; destruct (ClusterMayHaveTargetMutationRBAC c0); cbn; [apply dedupe_trimmed|done]).
  assert (Hm : forall x, x ∈ mc_Capabilities c' <->
    x ∈ mc_Capabilities c0 \/ (ClusterMayHaveTargetMutationRBAC c0 = true /\ x = EverIssued)).
  { intros x. unfold c'. destruct (ClusterMayHaveTargetMutationRBAC c0); cbn -[dedupeSortedStrings]; [|intuition discriminate].
    rewrite elem_of_dedupe_trimmed; [rewrite elem_of_app, list_elem_of_singleton; tauto|].
    apply trimmed_app; [done|]. by intros y ->%list_elem_of_singleton. }
  assert (Hev : cluster_evolves c0 c').
  { split; [unfold c'; by destruct (ClusterMayHaveTargetMutationRBAC c0)|]. split; [done|].
    apply may_have_more. intros x Hx0 _ _. apply Hm. by left. }
  assert (Hiev : import_evolves imp0 imp') by (split; [done|]; by intros [? _]).
  assert (Hc' : ms_managedClusters s1 = <[k := c']> (ms_managedClusters s)).
  { rewrite Hc. change (<[rm_ID (mc_Meta c') := c']> (ms_managedClusters s) = <[k := c']> (ms_managedClusters s)). by rewrite Hcid. }
  assert (Hi' : ms_clusterImports s1 = <[mc_ImportID c0 := imp']> (ms_clusterImports s)).
  { rewrite Hi. change (<[rm_ID (ci_Meta imp0) := imp']> (ms_clusterImports s) = <[mc_ImportID c0 := imp']> (ms_clusterImports s)).
    by rewrite Himp. }
  change (ms_audit s `prefix_of` ms_audit s1) in Ha.
  assert (Hd1 : drawn s s1) by (destruct Hd; by split).
  match goal with |- fleet_wf ?t /\ _ => assert (Hd' : drawn s t) by (eapply drawn_trans; [exact Hd1|]; drawing) end.
  match goal with |- fleet_wf ?t /\ _ => assert (Ha' : ms_audit s `prefix_of` ms_audit t) by (etrans; [exact Ha|auditing]) end.
  assert (Hx' : exists cid now, ms_agentCertificates s1 = settle cid actor now <$> ms_agentCertificates s)
    by (eexists _, _; exact Hx). destruct Hx' as (cid & now & Hx').
  apply fleet_assemble; [done|done|done|..]; cbn [ms_clusterImports ms_managedClusters ms_agentCertificates setf set_ms_audit set_ms_outbox tick draw addAudit addOutbox set_ms_ticks set_ms_ids].
  all: rewrite ?Hi', ?Hc', ?Hx'.
  - eapply (imports_update s); [done|done|exact Hiev|apply Hwf].
  - eapply (certificates_settle s); [done|apply Hwf].
  - eapply (clusters_update s); [done|done|exact Hev| |].
    + split; [done|]. split; [done|]. rewrite !Hm. split; [|split; [|split]].
      * exists imp'. replace (mc_ImportID c') with (mc_ImportID c0) by (unfold c'; by destruct (ClusterMayHaveTargetMutationRBAC c0)).
        split; [apply lookup_insert_eq|]. split; [by right|done].
      * intros [HA|[_ HA]]; [left; auto|discriminate HA].
      * intros [HI|[_ HI]]; [|discriminate HI]. specialize (H2' HI). unfold c'.
        by destruct (ClusterMayHaveTargetMutationRBAC c0).
      * intros Hmay. apply (authorized_mono (ms_audit s)); [done|]. apply H3'.
        apply may_have_rbac in Hmay. rewrite !Hm in Hmay.
        destruct Hmay as [[HE|[HE _]]|[[HE|[_ HE]]|[HE|[_ HE]]]]; try discriminate HE; try done; apply may_have_rbac; auto.
    + apply (clusters_mono s s (ms_clusterImports s) _ (ms_audit s)); [by split| |done|apply Hwf].
      apply imports_compatible_insert. intros v0 Hv0 _. split; [by right|]. by intros _.
  - apply evolves_insert; [auto with store|]. intros v0 Hv0. by simplify_eq.
  - apply evolves_insert; [auto with store|]. intros v0 Hv0. by simplify_eq.
  - intros k' x Hk'. eexists. split; [by rewrite lookup_fmap, Hk'|]. apply settle_evolves.
Qed.

(** ** Histories *)

Inductive FleetCall : Type :=
| FCreateImport (v : ClusterImport) (actor : string)
| FApproveImport (id : string) (expected : Z) (actor : string)
| FRevokeImport (id : string) (expected : Z) (actor : string)
| FClaimImport (id tokenDigest agentTokenDigest externalUID agentVersion : string)
| FInventory (wall : Time) (clusterID agentTokenDigest externalUID : string) (inv : ClusterInventory)
| FHeartbeat (clusterID agentTokenDigest externalUID agentVersion : string)
| FAuthorize (wall : Time) (clusterID actor : string)
| FRevokeCluster (clusterID : string) (expected : Z) (actor : string)
| FAcknowledge (clusterID : string) (expected : Z) (fenceDigest actor : string)
| FCreateCertificate (v : AgentCertificate) (actor : string)
| FRotateCertificate (oldID : string) (next : AgentCertificate) (actor : string)
| FRevokeCertificate (id : string) (rev : Z) (actor : string).

Definition fleet_exec (c : FleetCall) : MemoryStore -> MemoryStore * option Error :=
  match c with
  | FCreateImport v actor => run1 (CreateClusterImport v actor)
  | FApproveImport id e actor => run1 (ApproveClusterImport id e actor)
  | FRevokeImport id e actor => run1 (RevokeClusterImport id e actor)
  | FClaimImport id t d uid version => run1 (ClaimClusterImport id t d uid version)
  | FInventory wall k d uid inv => run1 (UpsertClusterInventory wall k d uid inv)
  | FHeartbeat k d uid version => run1 (HeartbeatCluster k d uid version)
  | FAuthorize wall k actor => run1 (AuthorizeClusterMutationRBACActivation wall k actor)
  | FRevokeCluster k e actor => run1 (RevokeManagedCluster k e actor)
  | FAcknowledge k e fence actor => run1 (AcknowledgeManagedClusterTargetRBACRevocation k e fence actor)
  | FCreateCertificate v actor => run1 (CreateAgentCertificate v actor)
  | FRotateCertificate id v actor => run1 (RotateAgentCertificate id v actor)
  | FRevokeCertificate id rev actor => run1 (RevokeAgentCertificate id rev actor)
  end.

(** an agent always presents a digest: the API refuses a cluster whose digest
    was cleared ([agentCredentialDigest]) *)
Definition authentic (c : FleetCall) : bool :=
  match c with
  | FInventory _ _ d _ _ | FHeartbeat _ d _ _ => d != ""
  | _ => true
  end.

Inductive fleet_step (s : MemoryStore) : MemoryStore -> Prop :=
| fleet_call c : authentic c = true -> fleet_step s (fleet_exec c s).1
| fleet_env s' : drawn s s' -> ms_audit s `prefix_of` ms_audit s' -> ms_clusterImports s' = ms_clusterImports s ->
    ms_managedClusters s' = ms_managedClusters s -> ms_agentCertificates s' = ms_agentCertificates s -> fleet_step s s'.

Definition fleet_reachable (s : MemoryStore) : Prop :=
  exists now id, id_source id /\ rtc fleet_step (NewMemoryStoreWith now id) s.

Lemma fleet_step_keeps s s' : fleet_wf s -> fleet_step s s' -> fleet_wf s' /\ fleet_kept s s'.
Proof.
  intros Hwf [c Ha|t Hd Hau Hi Hc Hx]; [|by apply fleet_same].
  assert (Hd : forall d, (d != "") = true -> d <> "") by (intros d ?; by norm_bool).
  destruct c; cbn [authentic] in Ha.
  - exact (create_import_keeps s v actor Hwf).
  - exact (approve_import_keeps s Hwf id expected actor).
  - exact (revoke_import_keeps s Hwf id expected actor).
  - exact (claim_keeps s Hwf id tokenDigest agentTokenDigest externalUID agentVersion).
  - exact (inventory_keeps s Hwf wall clusterID agentTokenDigest externalUID inv (Hd _ Ha)).
  - exact (cluster_heartbeat_keeps s Hwf clusterID agentTokenDigest externalUID agentVersion (Hd _ Ha)).
  - exact (authorize_keeps s Hwf wall clusterID actor).
  - exact (revoke_cluster_keeps s clusterID expected actor Hwf).
  - exact (acknowledge_keeps s Hwf clusterID expected fenceDigest actor).
  - exact (create_certificate_keeps s Hwf v actor).
  - exact (rotate_certificate_keeps s Hwf oldID next actor).
  - exact (revoke_certificate_keeps s Hwf id rev actor).
Qed.

Lemma fleet_steps_keep s s' : fleet_wf s -> rtc fleet_step s s' -> fleet_wf s' /\ fleet_kept s s'.
Proof.
  intros Hwf Hs. induction Hs as [s|s1 s2 s3 H1 _ IH]; [by apply fleet_same|].
  destruct (fleet_step_keeps _ _ Hwf H1) as [W2 K2]. destruct (IH W2) as [W3 K3].
  split; [done|]. by eapply fleet_kept_trans.
Qed.

Lemma fleet_reachable_wf s : fleet_reachable s -> fleet_wf s.
Proof.
  intros (now & id & Hid & Hs). eapply fleet_steps_keep; [|exact Hs].
  split; cbn; [exact Hid|split; [|split]..]; intros k; intros; rewrite ?lookup_empty in *; discriminate.
Qed.
