(* ===== verification/Admission.v ===== *)
(** * Task admission only reads

    Every workflow that hands tasks to a cluster's agent admits the agent first;
    admission answers the cluster and leaves the data of the store alone. *)
From S2P Require Import Prelude GoStrings Model Store OperationSystem Collections Targets Fleet.

Lemma admission_reads k d s :
  wp (requireClusterTaskAdmissionLocked k d) (reads s (fun c _ => ms_managedClusters s !! k = Some c)) s.
Proof. unfold requireClusterTaskAdmissionLocked. wp_go; (split; [done|split; [drawing|done]]). Qed.

(** the clock is read once *)
Lemma fresh_admission_reads wall k d s :
  wp (requireFreshClusterTaskAdmissionLocked wall k d)
     (reads s (fun c s' => ms_managedClusters s !! k = Some c /\ clock s' = clock (tick s))) s.
Proof.
  unfold requireFreshClusterTaskAdmissionLocked, requireClusterTaskAdmissionLocked.
  wp_go; (split; [done|split; [drawing|done]]).
Qed.
