(* ===== verification/FleetProperties.v ===== *)
(** * The fleet: properties of every history

    The promises of the fleet component, each with a history that meets its
    hypotheses. *)
From S2P Require Import Prelude GoStrings Digest Model Calendar Inventory Store Lifecycle OperationSystem OperationRuns.
From S2P Require Import Collections Organizations TenancyTheorems FleetGateway Targets Fleet FleetTheorems.

(** C38: one authority per physical cluster.  In every store that the fleet's calls can
    reach, where heartbeats and inventories come with the non-empty digest of a token
    ([authentic]), two managed
    clusters that are not revoked never have the same physical identity, a project
    has at most one import per name that is neither expired nor revoked, no two
    agent certificates share a serial number, and the agent of a revoked cluster
    has lost its import and its token. *)
Theorem reachable_fleets_are_consistent s :
  fleet_reachable s ->
  (forall k1 k2 c1 c2, ms_managedClusters s !! k1 = Some c1 -> ms_managedClusters s !! k2 = Some c2 ->
     ~ revoked c1 -> ~ revoked c2 -> TrimSpace (mc_ExternalUID c1) = TrimSpace (mc_ExternalUID c2) -> k1 = k2) /\
  (forall k1 k2 v1 v2, ms_clusterImports s !! k1 = Some v1 -> ms_clusterImports s !! k2 = Some v2 ->
     live v1 -> live v2 -> namesake v1 v2 -> k1 = k2) /\
  (forall k1 k2 v1 v2, ms_agentCertificates s !! k1 = Some v1 -> ms_agentCertificates s !! k2 = Some v2 ->
     ac_SerialNumber v1 = ac_SerialNumber v2 -> k1 = k2) /\
  (forall k c, ms_managedClusters s !! k = Some c -> revoked c ->
     exists v, ms_clusterImports s !! mc_ImportID c = Some v /\ stripped v).
Proof.
  intros Hr. destruct (fleet_reachable_wf _ Hr) as [_ (_ & _ & Hi) (_ & Hc & Hu) (_ & _ & Hx)].
  split; [done|]. split; [done|]. split; [done|].
  intros k c Hk Hrev. destruct (Hc _ _ Hk) as (_ & _ & (v & Hv & _ & Hs) & _). eauto.
Qed.

(** C37: mutation needs authorization.  A mutating task is admitted only for the agent
    that holds the cluster's token, on a connected cluster; whose inventory was
    received at most three minutes ago (a heartbeat after it is not enough), and was
    observed at most three minutes before, or after, the clock of the store; whose
    mutation rights are active and were issued for exactly the target identity it
    reports now; and only if the audit trail holds an operator's authorization for
    that cluster.  Admission itself writes nothing. *)
Theorem admitted_tasks_were_authorized wall s s' k d c :
  fleet_reachable s -> requireFreshClusterTaskAdmissionLocked wall k d s = (s', Ok c) ->
  ms_managedClusters s !! k = Some c /\ mc_ConnectionState c = "CONNECTED" /\
  (exists v, ms_clusterImports s !! mc_ImportID c = Some v /\ ci_AgentTokenDigest v = d) /\
  TrimSpace (mc_MutationRBACIssuedForDigest c) = TrimSpace (mc_MutationRBACBasisDigest c) /\
  TargetMutationRBACActiveCapability ∈ mc_Capabilities c /\ mc_InventoryDigest c <> "" /\
  (exists received observed, mc_InventoryUpdatedAt c = Some received /\ mc_LastSeenAt c = Some received /\
     mc_InventoryObservedAt c = Some observed /\
     let now := orWall wall (clock s) in
     0 <= now - received <= 3 * Minute /\ - (3 * Minute) <= now - observed <= 3 * Minute) /\
  authorized (ms_audit s) k /\ same_data s s'.
Proof.
  intros Hr Hq. pose proof (fleet_reachable_wf _ Hr) as Hwf.
  assert (H : wp (requireFreshClusterTaskAdmissionLocked wall k d) (fun r t =>
    match r with Fail _ => True | Ok c => ms_managedClusters s !! k = Some c /\ same_data s t /\
      (exists v, ms_clusterImports s !! mc_ImportID c = Some v /\ secureEqual (ci_AgentTokenDigest v) d = true) /\
      ClusterTaskClaimAdmittedAt wall c (clock s) = true end) s).
  { unfold requireFreshClusterTaskAdmissionLocked, requireClusterTaskAdmissionLocked. wp_go; try done. norm_bool.
    split; [done|]. split; [reflexivity|]. split; [eauto|done]. }
  destruct (wp_run _ _ _ _ _ H Hq) as (Hk & Hsd & (v & Hv & Hd) & Ha).
  destruct (cluster_ok_of s k c Hwf Hk) as (_ & _ & _ & _ & Hbasis & Hau).
  unfold ClusterTaskClaimAdmittedAt, ClusterTaskAdmitted, ClusterMutationRBACActivationCurrent, secureEqual in *.
  norm_bool.
  assert (Hi : Issued ∈ mc_Capabilities c) by by apply hasCapability_true.
  split; [done|]. split; [done|]. split; [by exists v|]. split; [by apply Hbasis|].
  split; [by apply hasCapability_true|]. split; [done|]. split; [|split; [|done]].
  - match goal with H : ClusterInventoryAuthorityFreshAt _ _ _ = true |- _ => unfold ClusterInventoryAuthorityFreshAt in H end.
    destruct (mc_LastSeenAt c) as [seen|] eqn:Eseen; [|done]. destruct (mc_InventoryObservedAt c) as [obs|]; [|done].
    norm_bool. unfold sameInstant in *. destruct (mc_InventoryUpdatedAt c) as [received|]; [|done].
    norm_bool. exists seen, obs. unfold ClusterInventoryObservationFutureSkew, ClusterInventoryAuthorityFreshness in *.
    split_and!; try done; try lia. congruence.
  - apply Hau, may_have_rbac. auto.
Qed.

(** What the fleet never forgets.  Over any sequence of steps a cluster keeps its
    identity, a revoked cluster stays revoked, the fact that target-side mutation
    rights may exist is never dropped and a revoked certificate stays revoked;
    and once a cluster is revoked, no token makes its heartbeats, inventories or
    task requests succeed again, and they change nothing. *)
Theorem fleet_history_is_monotone s s' k c :
  fleet_reachable s -> rtc fleet_step s s' -> ms_managedClusters s !! k = Some c ->
  (exists c', ms_managedClusters s' !! k = Some c' /\ cluster_evolves c c' /\
     (revoked c -> forall d, d <> "" -> forall wall uid version inv,
        HeartbeatCluster k d uid version s' = (s', Fail ErrValidation) /\
        UpsertClusterInventory wall k d uid inv s' = (s', Fail ErrValidation) /\
        requireFreshClusterTaskAdmissionLocked wall k d s' = (s', Fail ErrValidation))) /\
  (forall j v, ms_agentCertificates s !! j = Some v ->
     exists v', ms_agentCertificates s' !! j = Some v' /\ certificate_evolves v v').
Proof.
  intros Hr Hs Hk. destruct (fleet_steps_keep _ _ (fleet_reachable_wf _ Hr) Hs) as [W [Hd _ Hc _ Hx]].
  split; [|intros j v Hv; by apply Hx]. destruct (Hc _ _ Hk) as (c' & Hk' & Hev). exists c'. split; [done|]. split; [done|].
  intros Hrev d Hdn wall uid version inv. destruct Hev as (_ & Hrev' & _). specialize (Hrev' Hrev).
  destruct (cluster_ok_of _ _ _ W Hk') as (_ & _ & (v & Hv & _ & Hst) & _). destruct (Hst Hrev') as [_ Ht].
  assert (E : secureEqual (ci_AgentTokenDigest v) d = false) by (unfold secureEqual; rewrite Ht; by apply bool_decide_eq_false_2).
  assert (E' : secureEqual (ci_AgentTokenDigest (importOf s' (mc_ImportID c'))) d = false) by (unfold importOf; by rewrite Hv).
  unfold HeartbeatCluster, UpsertClusterInventory, requireFreshClusterTaskAdmissionLocked, requireClusterTaskAdmissionLocked,
    bind, get, get_opt, fail_if. rewrite Hk'. cbn -[secureEqual]. rewrite E'. cbn -[secureEqual].
  rewrite Hv. cbn -[secureEqual]. by rewrite E.
Qed.

(** ** What an agent can report *)

Lemma okd_derived_owned inv x : x ∈ okdDerived inv -> x ∈ okdServerOwnedCapabilities.
Proof.
  intros Hx. assert (Hall : Forall (fun y => y ∈ okdServerOwnedCapabilities) (okdDerived inv)).
  { unfold okdDerived. repeat apply Forall_app_2; repeat case_match; repeat constructor;
      apply (bool_decide_eq_true_1 _); vm_compute; reflexivity. }
  rewrite Forall_forall in Hall. by apply Hall.
Qed.

(** capabilities that the server-side normalization for admission leaves alone *)
Lemma okd_authority_neutral inv x :
  trimmed (iv_Capabilities inv) -> (x ∉ okdServerOwnedCapabilities) ->
  x ∈ iv_Capabilities (NormalizeOKDInventoryAuthority inv) <-> x ∈ iv_Capabilities inv.
Proof.
  intros Ht Hx. unfold NormalizeOKDInventoryAuthority. destruct (negb _); [done|]. cbv zeta.
  set (i1 := inv <| iv_Capabilities := stripOKDServerOwnedCapabilities (iv_Capabilities inv) |>).
  set (i2 := i1 <| iv_Capabilities := dedupeSortedStrings _ |>).
  assert (E1 : x ∈ iv_Capabilities i1 <-> x ∈ iv_Capabilities inv).
  { unfold i1, stripOKDServerOwnedCapabilities. cbn [iv_Capabilities setf set_iv_Capabilities].
    rewrite elem_of_dedupe_trimmed by by apply trimmed_filter. rewrite elem_of_filter_bool, bool_decide_eq_true.
    split; [tauto|]. intros H. split; [done|]. by destruct (Ht _ H) as [-> _]. }
  assert (Hown : trimmed okdServerOwnedCapabilities).
  { intros y Hy. repeat (apply elem_of_cons in Hy as [->|Hy]; [split; [vm_compute; reflexivity|discriminate]|]).
    by apply elem_of_nil in Hy. }
  assert (T1 : trimmed (iv_Capabilities i1)) by apply dedupe_trimmed.
  assert (E2 : x ∈ iv_Capabilities i2 <-> x ∈ iv_Capabilities inv).
  { rewrite <- E1. unfold i2. cbn [iv_Capabilities setf set_iv_Capabilities].
    rewrite elem_of_dedupe_trimmed.
    - rewrite elem_of_app. split; [|tauto]. by intros [H|H%okd_derived_owned].
    - apply trimmed_app; [done|]. intros y Hy%okd_derived_owned. by apply Hown. }
  destruct (_ && _); [|done]. cbn [iv_Capabilities setf set_iv_Capabilities].
  rewrite elem_of_dedupe_trimmed, elem_of_app, list_elem_of_singleton, E2.
  - split; [|tauto]. intros [H|E]; [done|]. exfalso. apply Hx. rewrite E. left.
  - apply trimmed_app; [apply dedupe_trimmed|]. by intros y ->%list_elem_of_singleton.
Qed.

Lemma admission_keeps_attestation inv :
  trimmed (iv_Capabilities inv) ->
  UIDAttested ∈ iv_Capabilities (NormalizeClusterInventoryForAdmission inv) <-> UIDAttested ∈ iv_Capabilities inv.
Proof.
  intros Ht. unfold NormalizeClusterInventoryForAdmission. cbv zeta.
  set (i1 := inv <| iv_Distribution := _ |>).
  set (i2 := if iv_Distribution i1 == DistributionOKD then _ else i1).
  assert (T2 : trimmed (iv_Capabilities i2)) by (unfold i2; case_match; [by apply okd_authority_trimmed|done]).
  assert (E2 : UIDAttested ∈ iv_Capabilities i2 <-> UIDAttested ∈ iv_Capabilities inv).
  { unfold i2. case_match; [|done]. rewrite okd_authority_neutral; [done|done|].
    apply (bool_decide_eq_true_1 _). vm_compute. reflexivity. }
  destruct (ClusterInventoryMutationEligible i2); [done|].
  rewrite elem_of_read_only, E2 by done. destruct preview_capabilities as (_ & _ & _ & PU).
  split; [intros [[H _]|H]; [done|discriminate H]|]. auto.
Qed.

(** An inventory cannot grant authority.  Whatever capabilities an agent reports,
    after an accepted inventory the cluster counts as authorized for mutation only
    if it was authorized before for exactly the basis digest of the reported target
    and the reported physical identity is the enrolled one; mutation counts as
    active only if it is authorized; the mark that rights were ever issued is kept
    and never invented; and the identity is attested exactly when it matches. *)
Theorem inventories_cannot_grant_authority wall k d uid inv s s' c' inv' :
  UpsertClusterInventory wall k d uid inv s = (s', Ok (c', inv')) ->
  exists c, ms_managedClusters s !! k = Some c /\ ms_managedClusters s' !! k = Some c' /\
  (Issued ∈ mc_Capabilities c' -> Issued ∈ mc_Capabilities c /\
     TrimSpace (mc_MutationRBACIssuedForDigest c) = mc_MutationRBACBasisDigest c' /\
     TrimSpace uid = TrimSpace (mc_ExternalUID c)) /\
  (Active ∈ mc_Capabilities c' -> Issued ∈ mc_Capabilities c') /\
  (EverIssued ∈ mc_Capabilities c' <-> ClusterMayHaveTargetMutationRBAC c = true) /\
  (UIDAttested ∈ mc_Capabilities c' <-> TrimSpace uid = TrimSpace (mc_ExternalUID c) /\ TrimSpace uid <> "").
Proof.
  intros Hq.
  assert (H : wp (UpsertClusterInventory wall k d uid inv) (fun r t =>
    match r with Fail _ => True | Ok (c', _) => exists c v, ms_managedClusters s !! k = Some c /\
      ms_managedClusters t !! k = Some c' /\
      let verified := (TrimSpace uid != "") && secureEqual (TrimSpace (mc_ExternalUID c)) (TrimSpace uid) in
      let inv1 := NormalizeClusterInventoryForAdmission (NormalizeClusterInventoryIdentityAuthority inv verified) in
      let basis := ClusterInventoryMutationBasisDigest inv1 in
      mc_MutationRBACBasisDigest c' = basis /\
      mc_Capabilities c' = ClusterCapabilitiesWithServerMutationAuthority
        (NormalizeClusterInventoryMutationAuthority inv1 c v verified basis) c verified basis end) s).
  { unfold UpsertClusterInventory, admittedInventory; unfold_puts. wp_go; try done.
    eexists _, (importOf s (mc_ImportID a)). split; [done|]. split; [apply lookup_insert_eq|]. by split. }
  destruct (wp_run _ _ _ _ _ H Hq) as (c & v & Hk & Hk' & Hb & Hcap).
  set (verified := (TrimSpace uid != "") && secureEqual (TrimSpace (mc_ExternalUID c)) (TrimSpace uid)) in *.
  set (inv1 := NormalizeClusterInventoryForAdmission (NormalizeClusterInventoryIdentityAuthority inv verified)) in *.
  assert (Hv : verified = true <-> TrimSpace uid = TrimSpace (mc_ExternalUID c) /\ TrimSpace uid <> "").
  { unfold verified, secureEqual. rewrite andb_true_iff, negb_true_iff, bool_decide_eq_false, bool_decide_eq_true.
    split; intros [? ?]; by split. }
  pose proof (identity_authority_trimmed inv verified) as Ht0. pose proof (admission_trimmed _ Ht0) as Ht1.
  destruct (server_owned_capabilities inv1 c v verified (ClusterInventoryMutationBasisDigest inv1) Ht1) as (HI & HE & HA & HU).
  rewrite <- Hcap in HI, HE, HA, HU.
  exists c. split; [done|]. split; [done|]. split; [|split; [done|split; [done|]]].
  - intros Hi. destruct (HI Hi) as (? & Hver & Hd). split; [done|]. split; [|by apply Hv].
    rewrite Hd, Hb. apply digest_trimmed.
  - unfold inv1 in HU. rewrite HU, admission_keeps_attestation, identity_authority_attests by done. exact Hv.
Qed.

(** ** Revocation and re-enrolment *)

(** Revocation strips the agent.  When a cluster is revoked its connection is
    REVOKED, its import is revoked and has no token, none of its certificates is
    active any more, and certificates of other clusters are untouched. *)
Theorem revocation_strips_the_agent s s' k e actor c v :
  fleet_reachable s -> RevokeManagedCluster k e actor s = (s', Ok (c, v)) ->
  ms_managedClusters s' !! k = Some c /\ revoked c /\
  ms_clusterImports s' !! mc_ImportID c = Some v /\ stripped v /\
  (forall j x, ms_agentCertificates s' !! j = Some x -> ac_ClusterID x = k -> ac_State x = AgentCertificateRevoked) /\
  (forall j x, ms_agentCertificates s !! j = Some x -> ac_ClusterID x <> k -> ms_agentCertificates s' !! j = Some x).
Proof.
  intros Hr Hq. pose proof (fleet_reachable_wf _ Hr) as Hwf.
  assert (H : wp (RevokeManagedCluster k e actor) (fun r t =>
    match r with Fail _ => True | Ok (c, v) => ms_managedClusters t !! k = Some c /\ revoked c /\
      ms_clusterImports t !! mc_ImportID c = Some v /\ stripped v /\
      exists now, ms_agentCertificates t = settle k actor now <$> ms_agentCertificates s end) s).
  { unfold RevokeManagedCluster. unfold putClusterImport, putManagedCluster. wp_go; try done.
    destruct (cluster_ok_of s k a Hwf ltac:(done)) as (Hid & _).
    destruct (fw_imports _ Hwf) as (_ & Hids & _). pose proof (Hids _ _ ltac:(eassumption)) as Himp.
    assert (Hid' : rm_ID (mc_Meta (if ClusterMayHaveTargetMutationRBAC a
      then a <| mc_Capabilities := dedupeSortedStrings (mc_Capabilities a ++ [EverIssued]) |> else a)) = k)
      by by destruct (ClusterMayHaveTargetMutationRBAC a).
    apply wp_bind. eapply wp_mono; [apply revoke_certificates_spec|].
    intros r s1 (-> & [_ _ Hi Hc] & Hx). cbn in Hi, Hc, Hx. rewrite Hid' in Hc, Hx. wp_go. cbn.
    rewrite Hc, Hi, Himp. split; [apply lookup_insert_eq|]. split; [done|].
    split; [|split; [done|by eexists]]. destruct (ClusterMayHaveTargetMutationRBAC a); apply lookup_insert_eq. }
  destruct (wp_run _ _ _ _ _ H Hq) as (Hk & Hrev & Hv & Hst & now & Hx).
  split; [done|]. split; [done|]. split; [done|]. split; [done|]. rewrite Hx. split.
  - intros j x Hj Hcl. apply lookup_fmap_Some in Hj as (y & <- & Hy). unfold settle in *.
    destruct (activeOf k y) eqn:Ea; [done|]. unfold activeOf in Ea. rewrite (bool_decide_eq_true_2 _ Hcl) in Ea.
    cbn in Ea. norm_bool. by destruct (ac_State y).
  - intros j x Hj Hcl. rewrite lookup_fmap, Hj. cbn. unfold settle, activeOf. by rewrite (bool_decide_eq_false_2 _ Hcl).
Qed.

(** Re-enrolment is fenced.  An import creates a new cluster for a physical
    identity only when every cluster that had this identity is revoked and its
    target side acknowledged the exact digest of the revocation fence; and
    acknowledging that digest is what lifts the fence. *)
Theorem reenrolment_needs_acknowledgement s s' id t d uid version v c v0 :
  ms_clusterImports s !! id = Some v0 -> ci_State v0 <> ClusterImportClaimed ->
  ClaimClusterImport id t d uid version s = (s', Ok (v, c)) ->
  ci_State v0 = ClusterImportApproved /\ ci_TokenDigest v0 = t /\
  (forall k x, ms_managedClusters s !! k = Some x -> TrimSpace (mc_ExternalUID x) = TrimSpace uid -> rm_ID (mc_Meta x) <> "" ->
     revoked x /\ TrimSpace (mc_TargetRBACRevocationAcknowledgedDigest x) = ClusterTargetRBACRevocationFenceDigest x) /\
  forall k x e actor r r', ms_managedClusters s !! k = Some x -> rm_ID (mc_Meta x) = k ->
    AcknowledgeManagedClusterTargetRBACRevocation k e (ClusterTargetRBACRevocationFenceDigest x) actor s = (r', Ok r) ->
    ClusterTargetRBACRevocationAcknowledged r = true.
Proof.
  intros Hv0 Hnc Hq.
  assert (H : wp (ClaimClusterImport id t d uid version) (fun r _ =>
    match r with Fail _ => True | Ok _ => ci_State v0 = ClusterImportApproved /\ secureEqual (ci_TokenDigest v0) t = true /\
      TrimSpace uid <> "" /\
      map_any (fun _ existing => (mc_ConnectionState existing != "REVOKED")
                 && secureEqual (TrimSpace (mc_ExternalUID existing)) (TrimSpace uid)) (ms_managedClusters s) = false /\
      hasUnacknowledgedRevokedClusterForUIDLocked s (TrimSpace uid) "" = false end) s).
  { unfold ClaimClusterImport; unfold_puts. wp_go; try done; assert (a = v0) as -> by congruence; norm_bool; done. }
  destruct (wp_run _ _ _ _ _ H Hq) as (Hap & Ht & Hu & Hlive & Hfence).
  unfold secureEqual in Ht. norm_bool. split; [done|]. split; [done|]. split.
  - intros k x Hk Hx Hid. rewrite map_any_false in Hlive. specialize (Hlive _ _ Hk). cbv beta in Hlive.
    unfold secureEqual in Hlive. rewrite (bool_decide_eq_true_2 _ Hx), andb_true_r in Hlive. norm_bool.
    split; [done|]. unfold hasUnacknowledgedRevokedClusterForUIDLocked in Hfence. rewrite TrimSpace_idem in Hfence.
    rewrite (bool_decide_eq_false_2 _ Hu) in Hfence. cbn [negb andb] in Hfence. rewrite map_any_false in Hfence.
    specialize (Hfence _ _ Hk). cbv beta in Hfence. unfold secureEqual in Hfence.
    rewrite (bool_decide_eq_false_2 _ Hid), (bool_decide_eq_true_2 _ Hlive), (bool_decide_eq_true_2 _ Hx) in Hfence.
    cbn [negb orb andb] in Hfence. apply negb_false_iff in Hfence.
    unfold ClusterTargetRBACRevocationAcknowledged, secureEqual in Hfence. by norm_bool.
  - intros k x e actor r r' Hk Hid Hack. revert r r' Hack.
    assert (Hw : wp (AcknowledgeManagedClusterTargetRBACRevocation k e (ClusterTargetRBACRevocationFenceDigest x) actor)
      (fun r _ => match r with Fail _ => True | Ok y => ClusterTargetRBACRevocationAcknowledged y = true end) s).
    { unfold AcknowledgeManagedClusterTargetRBACRevocation; unfold_puts. wp_go; try done.
      assert (a = x) as -> by congruence. norm_bool. unfold ClusterTargetRBACRevocationAcknowledged, secureEqual.
      cbn -[ClusterTargetRBACRevocationFenceDigest TrimSpace HasPrefix].
      match goal with H : mc_ConnectionState x = _ |- _ => rewrite (bool_decide_eq_true_2 _ H) end.
      change (ClusterTargetRBACRevocationFenceDigest (x <| mc_TargetRBACRevocationAcknowledgedDigest := _ |> <| mc_TargetRBACRevocationAcknowledgedAt := _ |> <| mc_TargetRBACRevocationAcknowledgedBy := _ |> <| mc_Meta := _ |>)) with (ClusterTargetRBACRevocationFenceDigest x).
      unfold ClusterTargetRBACRevocationFenceDigest. rewrite digest_trimmed, digest_prefixed. cbn [andb].
      by rewrite bool_decide_eq_true_2. }
    intros r r' Hack. exact (wp_run _ _ _ _ _ Hw Hack).
Qed.

(** ** A fleet *)

Module Demo.

Definition now : Time := 1000 * Second.
Definition store0 : MemoryStore := NewMemoryStoreWith (fun _ => now) demo_ids.
Definition only {V} (m : gmap string V) : string := default "" (head (map_to_list m).*1).

(** a project to import into *)
Definition tenancy : list TenancyCall :=
  [TCreateOrganization demo_org "alice"; TCreateProject (mkProject (newMeta "" 0) "0" "edge" "Edge") "alice"].
Definition store1 : MemoryStore := tenancy_run tenancy store0.
Definition project : string := Eval vm_compute in only (ms_projects store1).

Definition request : ClusterImport :=
  mkClusterImport (newMeta "" 0) project "Edge" "Edge cluster" ClusterImportPendingApproval "sha256:token" "" ""
    (2 * now) None None "" "" "".
Definition inventory (caps : list string) : ClusterInventory :=
  mkClusterInventory (newMeta "" 0) "" now "Kubernetes" "" "" "" "v1.31" None None None
    (mkClusterCapacity 0 0 0 0 0 0) None (mkClusterNetworking "cilium" [] false)
    (mkClusterWorkloadExplorer "" false false [] [] [] [] []) None None false false "" "" false caps "".

Definition run_fleet (cs : list FleetCall) (s : MemoryStore) : MemoryStore := foldl (fun s c => (fleet_exec c s).1) s cs.
Definition import : string := Eval vm_compute in only (ms_clusterImports (run_fleet [FCreateImport request "alice"] store1)).
Definition enrolment : list FleetCall :=
  [FCreateImport request "alice"; FApproveImport import 1 "bob";
   FClaimImport import "sha256:token" "sha256:agent" "uid-1" "v1"].
Definition enrolled_store : MemoryStore := run_fleet enrolment store1.
Definition cluster : string := Eval vm_compute in only (ms_managedClusters enrolled_store).

(** the agent reports, an operator authorizes, the agent reports active rights *)
Definition activation : list FleetCall :=
  [FInventory now cluster "sha256:agent" "uid-1" (inventory [TargetEnrollmentPrincipalIsolatedCapability]);
   FAuthorize now cluster "bob";
   FInventory now cluster "sha256:agent" "uid-1" (inventory [TargetEnrollmentPrincipalIsolatedCapability; Active])].
Definition active_store : MemoryStore := run_fleet activation enrolled_store.

Lemma fleet_run_reachable cs s :
  forallb authentic cs = true -> rtc fleet_step s (run_fleet cs s).
Proof.
  revert s. induction cs as [|c cs IH]; intros s Ha; [constructor|]. cbn in Ha. norm_bool.
  eapply rtc_l; [by apply (fleet_call s c)|]. by apply IH.
Qed.

Lemma store1_reachable : rtc fleet_step store0 store1.
Proof.
  apply rtc_once, fleet_env; [split; [done|apply Nat.leb_le; vm_compute; reflexivity]|apply prefix_nil|vm_compute; reflexivity..].
Qed.

Lemma history cs : forallb authentic cs = true -> fleet_reachable (run_fleet cs store1).
Proof.
  intros Ha. exists (fun _ => now), demo_ids. split; [apply demo_ids_source|].
  etrans; [exact store1_reachable|]. by apply fleet_run_reachable.
Qed.
Lemma active_reachable : fleet_reachable active_store.
Proof.
  unfold active_store, enrolled_store, run_fleet. rewrite <- foldl_app.
  apply (history (enrolment ++ activation)). vm_compute. reflexivity.
Qed.

Lemma enrolled_reachable : fleet_reachable enrolled_store.
Proof. unfold enrolled_store. apply history. vm_compute. reflexivity. Qed.

Definition cluster_of (s : MemoryStore) : option ManagedCluster := ms_managedClusters s !! cluster.

End Demo.

Lemma reachable_fleets_are_consistent_witness :
  is_Some (Demo.cluster_of Demo.active_store) /\
  forall k c, ms_managedClusters Demo.active_store !! k = Some c -> ~ revoked c ->
    TrimSpace (mc_ExternalUID c) = "uid-1" -> k = Demo.cluster.
Proof.
  assert (Hd : exists d, Demo.cluster_of Demo.active_store = Some d /\ mc_ConnectionState d = "CONNECTED" /\
    mc_ExternalUID d = "uid-1") by (eexists; split; [vm_compute; reflexivity|split; reflexivity]).
  destruct Hd as (d & Hd & Hs & Hu). split; [by eexists|]. intros k c Hk Hr Huid.
  apply (proj1 (reachable_fleets_are_consistent Demo.active_store Demo.active_reachable) k Demo.cluster c d Hk Hd Hr).
  - by apply connected_not_revoked.
  - rewrite Huid, Hu. reflexivity.
Defined.

Lemma admitted_tasks_were_authorized_witness :
  is_Some (Demo.cluster_of Demo.active_store) /\ authorized (ms_audit Demo.active_store) Demo.cluster.
Proof.
  assert (Hv : match (requireFreshClusterTaskAdmissionLocked 0 Demo.cluster "sha256:agent" Demo.active_store).2 with
               | Ok _ => true | Fail _ => false end = true) by (vm_compute; reflexivity).
  destruct (requireFreshClusterTaskAdmissionLocked 0 Demo.cluster "sha256:agent" Demo.active_store) as [s' [c|e]] eqn:E;
    [|discriminate Hv].
  destruct (admitted_tasks_were_authorized 0 Demo.active_store s' Demo.cluster "sha256:agent" c Demo.active_reachable E)
    as (Hk & _ & _ & _ & _ & _ & _ & Ha & _).
  split; [|exact Ha]. unfold Demo.cluster_of. rewrite Hk. exists c. reflexivity.
Defined.

Lemma fleet_history_is_monotone_witness :
  exists c c', Demo.cluster_of Demo.enrolled_store = Some c /\
    ms_managedClusters (Demo.run_fleet [FRevokeCluster Demo.cluster 1 "bob"] Demo.enrolled_store) !! Demo.cluster = Some c' /\
    cluster_evolves c c'.
Proof.
  destruct (Demo.cluster_of Demo.enrolled_store) as [c|] eqn:E; [|vm_compute in E; discriminate E].
  destruct (fleet_history_is_monotone Demo.enrolled_store
    (Demo.run_fleet [FRevokeCluster Demo.cluster 1 "bob"] Demo.enrolled_store) Demo.cluster c) as [(c' & Hc & Hev & _) _].
  - exact Demo.enrolled_reachable.
  - apply Demo.fleet_run_reachable. reflexivity.
  - exact E.
  - exists c, c'. split; [reflexivity|]. split; [exact Hc|exact Hev].
Defined.

Lemma inventories_cannot_grant_authority_witness :
  exists s' c' inv', UpsertClusterInventory 0 Demo.cluster "sha256:agent" "uid-1"
    (Demo.inventory [" target-mutation-rbac-active"; Issued; EverIssued]) Demo.enrolled_store = (s', Ok (c', inv')) /\
    (Issued ∉ mc_Capabilities c').
Proof.
  assert (Hv : match (UpsertClusterInventory 0 Demo.cluster "sha256:agent" "uid-1"
    (Demo.inventory [" target-mutation-rbac-active"; Issued; EverIssued]) Demo.enrolled_store).2 with
    | Ok _ => true | Fail _ => false end = true) by (vm_compute; reflexivity).
  destruct (UpsertClusterInventory 0 Demo.cluster "sha256:agent" "uid-1"
    (Demo.inventory [" target-mutation-rbac-active"; Issued; EverIssued]) Demo.enrolled_store) as [s' [[c' inv']|e]] eqn:E;
    [|discriminate Hv].
  destruct (inventories_cannot_grant_authority 0 Demo.cluster "sha256:agent" "uid-1"
    (Demo.inventory [" target-mutation-rbac-active"; Issued; EverIssued]) Demo.enrolled_store s' c' inv' E)
    as (c & Hc & _ & Hi & _).
  exists s', c', inv'. split; [reflexivity|]. intros H. destruct (Hi H) as [H0 _].
  assert (Hcap : mc_Capabilities c = []) by (vm_compute in Hc; by injection Hc as <-).
  rewrite Hcap in H0. by apply elem_of_nil in H0.
Defined.

Lemma revocation_strips_the_agent_witness :
  exists s' c v, RevokeManagedCluster Demo.cluster 1 "bob" Demo.enrolled_store = (s', Ok (c, v)) /\ revoked c /\ stripped v.
Proof.
  assert (Hv : match (RevokeManagedCluster Demo.cluster 1 "bob" Demo.enrolled_store).2 with
    | Ok _ => true | Fail _ => false end = true) by (vm_compute; reflexivity).
  destruct (RevokeManagedCluster Demo.cluster 1 "bob" Demo.enrolled_store) as [s' [[c v]|e]] eqn:E; [|discriminate Hv].
  destruct (revocation_strips_the_agent Demo.enrolled_store s' Demo.cluster 1 "bob" c v) as (_ & Hr & _ & Hs & _).
  - exact Demo.enrolled_reachable.
  - exact E.
  - exists s', c, v. split; [reflexivity|]. split; [exact Hr|exact Hs].
Defined.

(** a second import of the revoked cluster, before and after the acknowledgement *)
Definition demo_reimport : list FleetCall :=
  [FRevokeCluster Demo.cluster 1 "bob"; FCreateImport Demo.request "alice"].
Definition demo_revoked : MemoryStore := Demo.run_fleet demo_reimport Demo.enrolled_store.
Definition demo_second : string := Eval vm_compute in
  default "" (head (List.filter (fun k => k != Demo.import) (map_to_list (ms_clusterImports demo_revoked)).*1)).
Definition demo_fence : string := Eval vm_compute in
  default "" (ClusterTargetRBACRevocationFenceDigest <$> Demo.cluster_of demo_revoked).
Definition demo_acknowledged : MemoryStore :=
  Demo.run_fleet [FApproveImport demo_second 1 "bob"; FAcknowledge Demo.cluster 2 demo_fence "bob"] demo_revoked.

Example demo_fence_holds :
  (ClaimClusterImport demo_second "sha256:token" "sha256:agent2" "uid-1" "v2"
     (Demo.run_fleet [FApproveImport demo_second 1 "bob"] demo_revoked)).2 = Fail ErrPrerequisite.
Proof. vm_compute. reflexivity. Qed.

Lemma reenrolment_needs_acknowledgement_witness :
  exists s' v c, ClaimClusterImport demo_second "sha256:token" "sha256:agent2" "uid-1" "v2" demo_acknowledged = (s', Ok (v, c)) /\
    forall k x, ms_managedClusters demo_acknowledged !! k = Some x -> TrimSpace (mc_ExternalUID x) = "uid-1" ->
      rm_ID (mc_Meta x) <> "" -> revoked x.
Proof.
  assert (Hv : match (ClaimClusterImport demo_second "sha256:token" "sha256:agent2" "uid-1" "v2" demo_acknowledged).2 with
    | Ok _ => true | Fail _ => false end = true) by (vm_compute; reflexivity).
  assert (H0 : exists v0, ms_clusterImports demo_acknowledged !! demo_second = Some v0 /\ ci_State v0 <> ClusterImportClaimed)
    by (eexists; split; [vm_compute; reflexivity|discriminate]).
  destruct H0 as (v0 & Hv0 & Hn).
  destruct (ClaimClusterImport demo_second "sha256:token" "sha256:agent2" "uid-1" "v2" demo_acknowledged)
    as [s' [[v c]|e]] eqn:E; [|discriminate Hv].
  destruct (reenrolment_needs_acknowledgement demo_acknowledged s' demo_second "sha256:token" "sha256:agent2" "uid-1" "v2"
    v c v0 Hv0 Hn E) as (_ & _ & Hx & _).
  exists s', v, c. split; [reflexivity|]. intros k x Hk Hu Hid. exact (proj1 (Hx k x Hk Hu Hid)).
Defined.
