(* ===== verification/OwnerRuns.v ===== *)
(** * Workflows on top of the engine

    What the workflows that own destructive operations share: a driven call is
    followed by the engine's steps while the workflow's own collection stays, an
    owned operation outlives every run of the engine, a started operation RUNS
    and a finished one SUCCEEDED. *)
From S2P Require Import Prelude GoStrings Digest Model Store Operations OwnerOperations.
From S2P Require Import Lifecycle OperationSystem OperationRuns Neutrality Collections FleetGateway Targets Fleet.

(** an admission only reads *)
#[export] Instance admission_neutral k d : EngineNeutral (requireClusterTaskAdmissionLocked k d).
Proof. unfold requireClusterTaskAdmissionLocked. neutral_tac. Qed.
#[export] Instance fresh_admission_neutral wall k d : EngineNeutral (requireFreshClusterTaskAdmissionLocked wall k d).
Proof. unfold requireFreshClusterTaskAdmissionLocked, requireClusterTaskAdmissionLocked. neutral_tac. Qed.

Lemma admitted_cluster wall k d s s1 c :
  requireFreshClusterTaskAdmissionLocked wall k d s = (s1, Ok c) -> s1 = tick s /\ ms_managedClusters s !! k = Some c.
Proof.
  assert (H : wp (requireFreshClusterTaskAdmissionLocked wall k d) (fun r s1 =>
    match r with Fail _ => True | Ok c => s1 = tick s /\ ms_managedClusters s !! k = Some c end) s).
  { unfold requireFreshClusterTaskAdmissionLocked, requireClusterTaskAdmissionLocked. wp_go; done. }
  intros E. exact (wp_run _ _ _ _ _ H E).
Qed.

Lemma steps_drawn s s' : rtc (step true) s s' -> engine_inv true s -> drawn s s'.
Proof.
  induction 1 as [s|s1 s2 s3 H12 _ IH]; intros Hinv; [by split|].
  pose proof (step_rel _ _ _ H12 (inv_ids _ _ Hinv)) as [[Hg Hi _ _ _ _ _ _ _] _].
  eapply drawn_trans; [split; [exact Hg|exact Hi]|]. exact (IH (step_inv _ _ _ H12 Hinv)).
Qed.

Lemma bound_static op op' p c : static op' = static op -> ownerBound op' p c = ownerBound op p c.
Proof.
  unfold static, ownerBound. intros E.
  injection E as _ _ Hp _ Ht _ _ Hc _ _ _ _ _. by rewrite Hp, Ht, Hc.
Qed.

(** the operation filed under [id], bound to the project and the cluster *)
Definition owned (s : MemoryStore) (id p c : string) (op : Operation) : Prop :=
  ms_operations s !! TrimSpace id = Some op /\ ownerBound op p c = true.

(** an owned operation outlives every run of the engine, and stays SUCCEEDED *)
Lemma owned_steps s s' id p c op :
  rtc (step true) s s' -> engine_inv true s -> owned s id p c op ->
  exists op', owned s' id p c op' /\ (op_State op = OperationSucceeded -> op_State op' = OperationSucceeded).
Proof.
  intros [k Hk]%rtc_nsteps_1 Hinv [Ho Hb].
  destruct (steps_operation _ _ _ _ _ _ Hinv Hk Ho) as (op' & n & Ho' & Hst & _ & Hl & _).
  exists op'. split; [split; [done|by rewrite (bound_static _ _ _ _ Hst)]|].
  intros Hs. rewrite <- Hs. refine (nsteps_terminal _ _ _ _ Hl _).
  change (IsTerminal (op_State op) = true). by rewrite Hs.
Qed.

(** the call [m] made in [s]: the collection [f] is kept and so is the engine's order *)
Lemma wp_driven {V} (f : MemoryStore -> V) {A B} (m : Store A) (k : A -> Store B) Q s :
  EngineDriven m -> Keeps f m ->
  (forall e s1, rtc (step true) s s1 -> f s1 = f s -> Q (Fail e) s1) ->
  (forall a s1, m s = (s1, Ok a) -> rtc (step true) s s1 -> f s1 = f s -> wp (k a) Q s1) ->
  wp (bind m k) Q s.
Proof.
  intros Hd Hk Hf Ho. apply wp_bind. unfold wp. specialize (Hd s). specialize (Hk s).
  destruct (m s) as [s1 [a|e]] eqn:E; cbn in *; [by apply Ho|by apply Hf].
Qed.

Lemma finish_succeeds s s1 id le actor op :
  engine_inv true s -> finishOwnerDestructiveOperationLocked id true le actor s = (s1, Ok op) ->
  exists op', ms_operations s1 !! TrimSpace id = Some op' /\ op_State op' = OperationSucceeded.
Proof.
  intros Hinv.
  assert (H : wp (finishOwnerDestructiveOperationLocked id true le actor) (fun r s1 =>
    match r with Fail _ => True | Ok _ =>
      exists op', ms_operations s1 !! TrimSpace id = Some op' /\ op_State op' = OperationSucceeded end) s).
  { unfold finishOwnerDestructiveOperationLocked; unfold_puts. wp_go; try exact I; try discriminate.
    destruct (ops_filed _ (inv_ids _ _ Hinv) _ _ H) as [Hid _]. eexists. cbn. rewrite Hid, !lookup_insert_eq. done. }
  intros E. exact (wp_run _ _ _ _ _ H E).
Qed.

(** between [s] and [s1] the queued operation of the workflow was started *)
Definition started (s s1 : MemoryStore) (id p c : string) : Prop :=
  exists queued op, owned s id p c queued /\ op_State queued = OperationQueued /\
    owned s1 id p c op /\ op_State op = OperationRunning /\ op_Attempt op = inc64 (op_Attempt queued).

Lemma start_runs s s1 id p c actor op :
  engine_inv true s -> startOwnerDestructiveOperationLocked id p c actor s = (s1, Ok op) ->
  started s s1 id p c.
Proof.
  intros Hinv.
  assert (H : wp (startOwnerDestructiveOperationLocked id p c actor) (fun r s1 =>
    match r with Fail _ => True | Ok _ => started s s1 id p c end) s).
  { unfold startOwnerDestructiveOperationLocked, started, owned; unfold_puts. wp_go; try exact I.
    destruct (ops_filed _ (inv_ids _ _ Hinv) _ _ H) as [Hid _]. apply negb_false_iff in H0. norm_bool.
    eexists _, _. cbn. rewrite Hid, !lookup_insert_eq. split_and!; done. }
  intros E. exact (wp_run _ _ _ _ _ H E).
Qed.
