(* ===== verification/Tenants.v ===== *)
(** * Entitlements, OEM profiles and tenant environments

    [tenant_store.go], with [agent_task_fencing.go] and
    [tenant_task_result_action.go].  An organization's entitlement bounds its
    tenants; a tenant environment is provisioned, suspended, resumed, resized
    and deleted by tasks that the agent of its cluster claims under a fenced
    lease and reports with sealed evidence.  Deletion runs as a destructive
    operation of the operation engine that the tenant workflow drives. *)
From Stdlib Require Import Ascii.
From S2P Require Import Prelude GoStrings Digest Model Calendar Inventory Store Ordering Operations OwnerOperations.
From S2P Require Import Organizations FleetGateway Targets Fleet.

(** ** Agent task leases *)

Definition AgentTaskLeaseDuration : Z := 10 * Minute.

Definition AgentTaskLeaseActive (expires : option Time) (now : Time) : bool :=
  match expires with Some t => now <? t | None => false end.

(** ** Entitlements *)

Definition entitlementForEdition (edition : string) : option (Z * bool * list string) :=
  let edition := ToLower (TrimSpace edition) in
  if edition == "pilot" then Some (5, false, ["namespace-tenants"])
  else if edition == "enterprise" then Some (100, true, ["namespace-tenants"; "oem-branding"])
  else if edition == "service-provider" then Some (1000, true, ["namespace-tenants"; "oem-branding"; "white-label"])
  else None.

Definition UpsertEntitlement (v : Entitlement) (expected : Z) (actor : string) : Store Entitlement :=
  let! s := get in
  let! _ := get_opt (ms_organizations s !! en_OrganizationID v) ErrNotFound in
  let! (max_oem, features) := get_opt (entitlementForEdition (en_Edition v)) ErrValidation in
  let! now := nowUTC in
  let! meta :=
    match ms_entitlements s !! en_OrganizationID v with
    | Some existing =>
        fail_if ((expected <=? 0) || (rm_Revision (en_Meta existing) != expected)) ErrConflict ;;;
        ret (bump (en_Meta existing) now)
    | None =>
        fail_if (expected != 0) ErrConflict ;;;
        let! id := newID "ent" in
        ret (newMeta id now)
    end in
  let v := v <| en_Meta := meta |> <| en_Edition := ToLower (TrimSpace (en_Edition v)) |>
             <| en_MaxTenants := max_oem.1 |> <| en_OEMEnabled := max_oem.2 |> <| en_Features := features |>
             <| en_IssuedBy := actor |> in
  putEntitlement (en_OrganizationID v) v ;;;
  appendAuditLocked actor "entitlement.upserted" "entitlement" (rm_ID (en_Meta v)) (rm_Revision (en_Meta v))
    [("organizationId", MStr (en_OrganizationID v)); ("edition", MStr (en_Edition v))] ;;;
  appendOutboxLocked "entitlement" (rm_ID (en_Meta v)) "entitlement.upserted" (PayloadEntitlement v) ;;;
  ret v.

Definition GetEntitlement (organizationID : string) : Store Entitlement :=
  let! s := get in
  get_opt (ms_entitlements s !! organizationID) ErrNotFound.

(** [entitlement.ExpiresAt != nil && entitlement.ExpiresAt.Before(nowUTC(s.now))] *)
Definition entitlementExpired (entitlement : Entitlement) : Store bool :=
  match en_ExpiresAt entitlement with
  | None => ret false
  | Some t => let! now := nowUTC in ret (t <? now)
  end.

(** ** OEM profiles *)

(** [^#[0-9A-Fa-f]{6}$] *)
Definition colorPattern (s : string) : bool :=
  HasPrefix s "#" && (len s == 7) && string_all is_hex (TrimPrefix s "#").

(** [strings.ContainsAny(s, " /\t\r\n")] *)
Definition containsBlankOrSlash (s : string) : bool :=
  negb (string_all (fun a => negb ((byte_of a =? 32) || (byte_of a =? 47) || (byte_of a =? 9)
                                   || (byte_of a =? 13) || (byte_of a =? 10))) s).

Definition UpsertOEMProfile (v : OEMProfile) (expected : Z) (actor : string) : Store OEMProfile :=
  let! s := get in
  let! entitlement := get_opt (ms_entitlements s !! oe_OrganizationID v) ErrValidation in
  fail_if (negb (en_OEMEnabled entitlement)) ErrValidation ;;;
  let! expired := entitlementExpired entitlement in
  fail_if expired ErrValidation ;;;
  let v := v <| oe_BrandName := TrimSpace (oe_BrandName v) |> <| oe_ProductTitle := TrimSpace (oe_ProductTitle v) |>
             <| oe_DefaultLocale := TrimSpace (oe_DefaultLocale v) |> in
  fail_if ((oe_BrandName v == "") || (oe_ProductTitle v == "")
           || ((oe_DefaultLocale v != "fa") && (oe_DefaultLocale v != "en"))) ErrValidation ;;;
  fail_if ((oe_AccentColor v != "") && negb (colorPattern (oe_AccentColor v))) ErrValidation ;;;
  fail_if ((oe_LogoObjectRef v != "") && negb (HasPrefix (oe_LogoObjectRef v) "object://")) ErrValidation ;;;
  fail_if ((oe_SupportURL v != "") && negb (HasPrefix (oe_SupportURL v) "https://")) ErrValidation ;;;
  fail_if ((oe_CustomDomain v != "")
           && (ContainsString (oe_CustomDomain v) "://" || containsBlankOrSlash (oe_CustomDomain v))) ErrValidation ;;;
  let! now := nowUTC in
  let! meta :=
    match ms_oemProfiles s !! oe_OrganizationID v with
    | Some existing =>
        fail_if ((expected <=? 0) || (rm_Revision (oe_Meta existing) != expected)) ErrConflict ;;;
        ret (bump (oe_Meta existing) now)
    | None =>
        fail_if (expected != 0) ErrConflict ;;;
        let! id := newID "oem" in
        ret (newMeta id now)
    end in
  let v := v <| oe_Meta := meta |> in
  putOEMProfile (oe_OrganizationID v) v ;;;
  appendAuditLocked actor "oem_profile.upserted" "oemProfile" (rm_ID (oe_Meta v)) (rm_Revision (oe_Meta v))
    [("organizationId", MStr (oe_OrganizationID v))] ;;;
  appendOutboxLocked "oemProfile" (rm_ID (oe_Meta v)) "oem_profile.upserted" (PayloadOEMProfile v) ;;;
  ret v.

Definition GetOEMProfile (organizationID : string) : Store OEMProfile :=
  let! s := get in
  get_opt (ms_oemProfiles s !! organizationID) ErrNotFound.

(** ** Tenant identity *)

Definition CurrentTenantRuntimeContractVersion : Z := 1.

(** the first six bytes of the digest, in hexadecimal *)
Definition TenantBackupScheduleName (tenantID : string) : string :=
  "tenant-platform-backup-" +:+ String.substring 7 12 (sha256Digest (TrimSpace tenantID)).

Definition dash : ascii := "-"%char.
Definition labelRune (a : ascii) : bool := in_range 97 122 a || in_range 48 57 a || Ascii.eqb a dash.

(** one output byte per rune; the name is valid UTF-8, whose runes start at the
    bytes that are not continuation bytes *)
Fixpoint cleanRunes (name : list ascii) : list ascii :=
  match name with
  | [] => []
  | a :: rest =>
      if labelRune a then a :: cleanRunes rest
      else if in_range 128 191 a then cleanRunes rest
      else dash :: cleanRunes rest
  end.

(** [strings.Trim(s, "-")] *)
Fixpoint dropDashes (s : list ascii) : list ascii :=
  match s with
  | a :: rest => if Ascii.eqb a dash then dropDashes rest else s
  | [] => []
  end.
Definition trimDashes (s : list ascii) : list ascii := rev (dropDashes (rev (dropDashes s))).

(** the last six bytes of the identifier *)
Definition namespaceSuffix (id : string) : string :=
  if 6 <? len id then String.substring (String.length id - 6) 6 id else id.

Definition tenantNamespace (name id : string) : string :=
  let clean := trimDashes (cleanRunes (String.list_ascii_of_string (normalizeName name))) in
  let clean := if decide (clean = []) then String.list_ascii_of_string "tenant" else clean in
  let suffix := namespaceSuffix id in
  let maxName := 63 - len "tenant--" - len suffix in
  let clean := if maxName <? Z.of_nat (length clean) then trimDashes (firstn (Z.to_nat maxName) clean) else clean in
  "tenant-" +:+ String.string_of_list_ascii clean +:+ "-" +:+ suffix.

(** ** Creation *)

(** the guard of [CreateTenant] on what the caller sent *)
Definition tenantRequestInvalid (v : TenantEnvironment) : bool :=
  (normalizeName (te_Name v) == "") || (TrimSpace (te_DisplayName v) == "") || (TrimSpace (te_PlanName v) == "")
  || (size (te_Quota v) == 0%nat) || (TrimSpace (te_IdempotencyKey v) == "")
  || negb (HasPrefix (te_RequestDigest v) sha256_prefix) || negb (HasPrefix (te_DesiredDigest v) sha256_prefix)
  || (tsp_StorageClass (te_StoragePolicy v) == "") || (tsp_RequestQuota (te_StoragePolicy v) == "")
  || (tsp_MaxPVCSize (te_StoragePolicy v) == "") || (tbp_Provider (te_BackupPolicy v) != "velero")
  || (tbp_Schedule (te_BackupPolicy v) == "") || (tbp_Retention (te_BackupPolicy v) == "")
  || (tsec_PodSecurityLevel (te_SecurityPolicy v) != "restricted")
  || negb (tsec_DefaultDenyIngress (te_SecurityPolicy v)) || negb (tsec_DefaultDenyEgress (te_SecurityPolicy v))
  || negb (tsec_AllowDNS (te_SecurityPolicy v)).

(** how the loop over the existing tenants ends *)
Inductive TenantScan : Type :=
| ScanRefused (e : Error)
| ScanReplay (existing : TenantEnvironment)
| ScanActive (active : Z).

Fixpoint scanTenants (organizationID : string) (v : TenantEnvironment) (active : Z)
    (existing : list TenantEnvironment) : TenantScan :=
  match existing with
  | [] => ScanActive active
  | x :: rest =>
      let active := if (te_OrganizationID x == organizationID) && (te_State x != TenantDeleted)
                    then inc64 active else active in
      if (te_ProjectID x == te_ProjectID v) && (te_IdempotencyKey x == te_IdempotencyKey v) then
        if te_RequestDigest x != te_RequestDigest v then ScanRefused ErrIdempotencyConflict else ScanReplay x
      else if (te_ProjectID x == te_ProjectID v) && (normalizeName (te_Name x) == normalizeName (te_Name v))
              && (te_State x != TenantDeleted) then ScanRefused ErrDuplicateName
      else scanTenants organizationID v active rest
  end.

Definition CreateTenant (v : TenantEnvironment) (actor : string) : Store (TenantEnvironment * bool) :=
  let! s := get in
  let! project := get_opt (ms_projects s !! te_ProjectID v) ErrNotFound in
  let! cluster := get_opt (ms_managedClusters s !! te_ClusterID v) ErrNotFound in
  fail_if (mc_ProjectID cluster != te_ProjectID v) ErrNotFound ;;;
  let! entitlement := get_opt (ms_entitlements s !! prj_OrganizationID project) ErrValidation in
  let! expired := entitlementExpired entitlement in
  fail_if expired ErrValidation ;;;
  fail_if (tenantRequestInvalid v) ErrValidation ;;;
  match scanTenants (prj_OrganizationID project) v 0 ((map_to_list (ms_tenants s)).*2) with
  | ScanRefused e => raise e
  | ScanReplay existing => ret (existing, true)
  | ScanActive active =>
      fail_if (en_MaxTenants entitlement <=? active) ErrValidation ;;;
      let! now := nowUTC in
      let! id := newID "ten" in
      let name := normalizeName (te_Name v) in
      let v := v <| te_Meta := newMeta id now |> <| te_OrganizationID := prj_OrganizationID project |>
                 <| te_Name := name |> <| te_Namespace := tenantNamespace name id |>
                 <| te_State := TenantQueued |> <| te_PendingAction := "PROVISION" |> <| te_RequestedBy := actor |> in
      putTenant id v ;;;
      appendAuditLocked actor "tenant.created" "tenant" id (rm_Revision (te_Meta v))
        [("clusterId", MStr (te_ClusterID v)); ("namespace", MStr (te_Namespace v)); ("plan", MStr (te_PlanName v))] ;;;
      appendOutboxLocked "tenant" id "tenant.provision.queued" (PayloadTenant v) ;;;
      ret (v, false)
  end.

Definition GetTenant (id : string) : Store TenantEnvironment :=
  let! s := get in
  get_opt (ms_tenants s !! id) ErrNotFound.

Definition ListTenants (projectID clusterID : string) : Store (list TenantEnvironment) :=
  let! s := get in
  ret (oldest_first te_Meta (fun v => ((projectID == "") || (te_ProjectID v == projectID))
                                      && ((clusterID == "") || (te_ClusterID v == clusterID))) (ms_tenants s)).

(** ** Task evidence *)

(** the keys a completed task must have evidence of, each once *)
Definition expectedTenantEvidence (result_ : TenantTaskResult) : list string :=
  (["resource/Namespace/"; "resource/ResourceQuota/tenant-quota"; "resource/LimitRange/tenant-default-limits";
    "resource/NetworkPolicy/tenant-default-deny-all"; "resource/NetworkPolicy/tenant-allow-dns-egress";
    "resource/Schedule/" +:+ TenantBackupScheduleName (ttr_TenantID result_);
    "resource/ConfigMap/tenant-platform-state"; "security/pod-security-admission-negative"]
   ++ if ttr_Action result_ == "SUSPEND" then ["suspension/no-running-pods"] else [])%list.

Definition tenantEvidenceKey (item : TenantEvidenceArtifact) : string :=
  if HasPrefix (tea_Key item) "resource/Namespace/" then "resource/Namespace/" else tea_Key item.

(** [seen] are the expected keys already marked *)
Fixpoint markTenantEvidence (expected seen : list string) (items : list TenantEvidenceArtifact)
    : option (list string) :=
  match items with
  | [] => Some seen
  | item :: rest =>
      if (tea_Status item != "PASS") || negb (HasPrefix (tea_Digest item) sha256_prefix) || (tea_Authority item == "")
      then None
      else
        let key := tenantEvidenceKey item in
        if negb (bool_decide (key ∈ expected)) || bool_decide (key ∈ seen) then None
        else markTenantEvidence expected (key :: seen) rest
  end.

Definition json_TenantEvidenceArtifact (v : TenantEvidenceArtifact) : string :=
  json_object ([("key", json_string (tea_Key v)); ("authority", json_string (tea_Authority v))]
    ++ json_opt "resource" (tea_Resource v)
    ++ [("status", json_string (tea_Status v)); ("digest", json_string (tea_Digest v))]
    ++ json_opt "detail" (tea_Detail v))%list.

Definition tenantEvidenceDigest (items : list TenantEvidenceArtifact) : string :=
  sha256Digest (json_array (json_TenantEvidenceArtifact <$> items)).

Definition ValidateTenantTaskEvidence (result_ : TenantTaskResult) : result unit :=
  let expected := expectedTenantEvidence result_ in
  if negb (bool_decide (length (ttr_Evidence result_) = length expected))
     || negb (HasPrefix (ttr_EvidenceDigest result_) sha256_prefix) then Fail ErrPrerequisite else
  match markTenantEvidence expected [] (ttr_Evidence result_) with
  | None => Fail ErrPrerequisite
  | Some seen =>
      if negb (forallb (fun key => bool_decide (key ∈ seen)) expected) then Fail ErrPrerequisite
      else if ttr_EvidenceDigest result_ != tenantEvidenceDigest (ttr_Evidence result_) then Fail ErrPrerequisite
      else Ok tt
  end.

(** ** Requests *)

Definition QueueTenantResize (id : string) (expected : Z) (planName : string) (quota : gmap string string)
    (desiredDigest actor requestDigest : string) : Store TenantEnvironment :=
  let! s := get in
  let! v := get_opt (ms_tenants s !! id) ErrNotFound in
  fail_if (rm_Revision (te_Meta v) != expected) ErrConflict ;;;
  fail_if (te_State v != TenantActive) ErrInvalidTransition ;;;
  let planName := TrimSpace planName in
  fail_if ((planName == "") || (planName == te_PlanName v) || (size quota == 0%nat)
           || negb (HasPrefix desiredDigest sha256_prefix) || negb (HasPrefix requestDigest sha256_prefix)) ErrValidation ;;;
  let! now := nowUTC in
  let v := v <| te_State := TenantResizeApproval |> <| te_PendingAction := "RESIZE" |>
             <| te_PendingPlanName := planName |> <| te_PendingQuota := quota |>
             <| te_PendingDesiredDigest := desiredDigest |> <| te_RequestDigest := requestDigest |>
             <| te_RequestedBy := actor |> <| te_ApprovedBy := "" |> <| te_ApprovedAt := None |>
             <| te_LastError := "" |> <| te_Meta := bump (te_Meta v) now |> in
  putTenant id v ;;;
  appendAuditLocked actor "tenant.resize.approval_requested" "tenant" id (rm_Revision (te_Meta v))
    [("fromPlan", MStr (te_PlanName v)); ("toPlan", MStr planName); ("desiredDigest", MStr desiredDigest)] ;;;
  appendOutboxLocked "tenant" id "tenant.resize.approval_requested" (PayloadTenant v) ;;;
  ret v.

(** a pending resize that can be carried out *)
Definition pendingResizeComplete (v : TenantEnvironment) : bool :=
  (te_PendingPlanName v != "") && (size (te_PendingQuota v) != 0%nat)
  && HasPrefix (te_PendingDesiredDigest v) sha256_prefix.

(** the state a failed tenant returns to when its action is tried again *)
Definition retryTenant (v : TenantEnvironment) : result TenantEnvironment :=
  if te_PendingAction v == "PROVISION" then Ok (v <| te_State := TenantQueued |>)
  else if te_PendingAction v == "SUSPEND" then Ok (v <| te_State := TenantSuspendQueued |>)
  else if te_PendingAction v == "RESUME" then Ok (v <| te_State := TenantResumeQueued |>)
  else if te_PendingAction v == "RESIZE" then
    if negb (pendingResizeComplete v) then Fail ErrPrerequisite else Ok (v <| te_State := TenantResizeQueued |>)
  else if te_PendingAction v == "DELETE" then Fail ErrPrerequisite
  else Fail ErrValidation.

(** deletion: supersedes an operation that waits, and files a new one *)
Definition requestTenantDelete (v : TenantEnvironment) (actor recoveryCheckpointID requestDigest : string)
    : Store TenantEnvironment :=
  fail_if (negb ((te_State v == TenantActive) || (te_State v == TenantSuspended) || (te_State v == TenantFailed)
                 || (te_State v == TenantDeleteApproval) || (te_State v == TenantDeleteQueued))) ErrInvalidTransition ;;;
  when ((te_State v == TenantDeleteApproval) || (te_State v == TenantDeleteQueued))
    (cancelOwnerDestructiveOperationLocked (te_DestructiveOperationID v) actor
       "recovery checkpoint superseded before tenant delete approval/claim") ;;;
  let! op := createOwnerDestructiveOperationLocked (te_ProjectID v) (te_ClusterID v) OwnerOperationTenantDelete
               (rm_ID (te_Meta v)) (rm_Revision (te_Meta v)) (te_DesiredDigest v) recoveryCheckpointID actor
               requestDigest true in
  ret (v <| te_State := TenantDeleteApproval |> <| te_PendingAction := "DELETE" |>
         <| te_DestructiveOperationID := op_ID op |> <| te_RecoveryCheckpointID := recoveryCheckpointID |>
         <| te_RequestDigest := requestDigest |> <| te_RequestedBy := actor |>
         <| te_ApprovedBy := "" |> <| te_ApprovedAt := None |>).

Definition QueueTenantAction (id : string) (expected : Z) (action actor recoveryCheckpointID requestDigest : string)
    : Store TenantEnvironment :=
  let! s := get in
  let! v := get_opt (ms_tenants s !! id) ErrNotFound in
  fail_if (rm_Revision (te_Meta v) != expected) ErrConflict ;;;
  let action := ToUpper (TrimSpace action) in
  let! v :=
    if action == "SUSPEND" then
      fail_if (te_State v != TenantActive) ErrInvalidTransition ;;;
      ret (v <| te_State := TenantSuspendQueued |> <| te_PendingAction := action |>)
    else if action == "RESUME" then
      fail_if (te_State v != TenantSuspended) ErrInvalidTransition ;;;
      ret (v <| te_State := TenantResumeQueued |> <| te_PendingAction := action |>)
    else if action == "DELETE" then requestTenantDelete v actor recoveryCheckpointID requestDigest
    else if action == "RETRY" then
      fail_if (te_State v != TenantFailed) ErrInvalidTransition ;;;
      lift (retryTenant v)
    else raise ErrValidation in
  let! now := nowUTC in
  let v := v <| te_Meta := bump (te_Meta v) now |> <| te_LastError := "" |> in
  putTenant id v ;;;
  appendAuditLocked actor ("tenant." +:+ ToLower action +:+ ".queued") "tenant" id (rm_Revision (te_Meta v)) [] ;;;
  appendOutboxLocked "tenant" id ("tenant." +:+ ToLower action +:+ ".queued") (PayloadTenant v) ;;;
  ret v.

Definition ApproveTenantAction (id : string) (expected : Z) (actor : string) : Store TenantEnvironment :=
  let! s := get in
  let! v := get_opt (ms_tenants s !! id) ErrNotFound in
  fail_if (rm_Revision (te_Meta v) != expected) ErrConflict ;;;
  let! v :=
    match te_State v with
    | TenantResizeApproval =>
        fail_if (negb (pendingResizeComplete v)) ErrPrerequisite ;;;
        ret (v <| te_State := TenantResizeQueued |>)
    | TenantDeleteApproval =>
        let! _ := approveOwnerDestructiveOperationLocked (te_DestructiveOperationID v) (te_ProjectID v)
                    (te_ClusterID v) actor in
        ret (v <| te_State := TenantDeleteQueued |>)
    | _ => raise ErrInvalidTransition
    end in
  let! now := nowUTC in
  let v := v <| te_ApprovedBy := actor |> <| te_ApprovedAt := Some now |> <| te_Meta := bump (te_Meta v) now |> in
  putTenant id v ;;;
  appendAuditLocked actor "tenant.approved" "tenant" id (rm_Revision (te_Meta v)) [("action", MStr (te_PendingAction v))] ;;;
  appendOutboxLocked "tenant" id "tenant.execution.queued" (PayloadTenant v) ;;;
  ret v.

(** ** Tasks of the cluster agent *)

(** the action a state stands for and the state it runs in *)
Definition tenantActionForState (state : TenantState) : option (string * TenantState) :=
  match state with
  | TenantQueued | TenantProvisioning => Some ("PROVISION", TenantProvisioning)
  | TenantSuspendQueued | TenantSuspending => Some ("SUSPEND", TenantSuspending)
  | TenantResumeQueued | TenantResuming => Some ("RESUME", TenantResuming)
  | TenantResizeQueued | TenantResizing => Some ("RESIZE", TenantResizing)
  | TenantDeleteQueued | TenantDeleting => Some ("DELETE", TenantDeleting)
  | _ => None
  end.

(** an active tenant built by an older agent is provisioned again *)
Definition tenantReconcile (v : TenantEnvironment) : bool :=
  (te_State v == TenantActive) && (te_RuntimeContractVersion v <? CurrentTenantRuntimeContractVersion).

Definition tenantWaiting (state : TenantState) : bool :=
  match state with
  | TenantQueued | TenantSuspendQueued | TenantResumeQueued | TenantResizeQueued | TenantDeleteQueued => true
  | _ => false
  end.

(** a tenant whose task the agent of [cluster] may claim *)
Definition tenantClaimable (cluster : ManagedCluster) (clusterID : string) (now : Time) (v : TenantEnvironment) : bool :=
  (te_ClusterID v == clusterID)
  && negb (((te_State v == TenantDeleteQueued) || (te_State v == TenantDeleting))
           && negb (clusterHasCapability cluster TenantDeleteObservedCapability))
  && (match tenantActionForState (te_State v) with Some _ => true | None => tenantReconcile v end)
  && (tenantWaiting (te_State v) || negb (AgentTaskLeaseActive (te_TaskLeaseExpiresAt v) now)).

Definition tenantDeleteExpired : string :=
  "tenant destructive task lease expired; explicit recovery-bound retry is required".

(** a deletion whose lease ran out is failed, never handed out again *)
Definition failExpiredTenantDelete (v : TenantEnvironment) (now : Time) : Store TenantEnvironment :=
  let! _ := finishOwnerDestructiveOperationLocked (te_DestructiveOperationID v) false tenantDeleteExpired "cluster-agent" in
  let v := v <| te_State := TenantFailed |> <| te_LastError := tenantDeleteExpired |> <| te_TaskLeaseExpiresAt := None |>
             <| te_Meta := bump (te_Meta v) now |> in
  putTenant (rm_ID (te_Meta v)) v ;;;
  appendAuditLocked "cluster-agent" "tenant.task.lease_expired" "tenant" (rm_ID (te_Meta v)) (rm_Revision (te_Meta v))
    [("action", MStr "DELETE"); ("taskFenceToken", MInt (te_TaskFenceToken v))] ;;;
  appendOutboxLocked "tenant" (rm_ID (te_Meta v)) "tenant.state.changed" (PayloadTenant v) ;;;
  raise ErrNotFound.

(** the state the claimed task runs in *)
Definition nextTenantState (v : TenantEnvironment) : TenantState :=
  match tenantActionForState (te_State v) with
  | Some (_, next) => next
  | None => if tenantReconcile v then TenantProvisioning else te_State v
  end.

Definition NextTenantTask (wall : Time) (clusterID agentTokenDigest : string) : Store TenantEnvironment :=
  let! cluster := requireFreshClusterTaskAdmissionLocked wall clusterID agentTokenDigest in
  let! now := nowUTC in
  let! s := get in
  match oldest_first te_Meta (tenantClaimable cluster clusterID now) (ms_tenants s) with
  | [] => raise ErrNotFound
  | v :: _ =>
      if (te_State v == TenantDeleting) && (te_TaskLeaseExpiresAt v != None) then failExpiredTenantDelete v now else
      when (te_State v == TenantDeleteQueued)
        (let! _ := startOwnerDestructiveOperationLocked (te_DestructiveOperationID v) (te_ProjectID v)
                     (te_ClusterID v) "cluster-agent" in
         ret tt) ;;;
      let v := v <| te_State := nextTenantState v |> <| te_TaskAttempt := inc64 (te_TaskAttempt v) |>
                 <| te_TaskFenceToken := inc64 (te_TaskFenceToken v) |>
                 <| te_TaskLeaseExpiresAt := Some (now + AgentTaskLeaseDuration) |>
                 <| te_Meta := bump (te_Meta v) now |> in
      putTenant (rm_ID (te_Meta v)) v ;;;
      ret v
  end.

(** [tenant_task_result_action.go] *)
Definition TenantTaskResultActionMatchesState (state : TenantState) (action : string) : bool :=
  match tenantActionForState state with
  | Some (expected, _) => expected == ToUpper (TrimSpace action)
  | None => false
  end.

(** the tenant after a task that succeeded, by the state it ran in; evidence is
    sealed and the runtime contract recorded except for deletions *)
Definition tenantTaskDone (v : TenantEnvironment) (result_ : TenantTaskResult) : result TenantEnvironment :=
  match te_State v with
  | TenantProvisioning | TenantResuming => Ok (v <| te_State := TenantActive |>)
  | TenantResizing =>
      Ok (v <| te_State := TenantActive |> <| te_PlanName := te_PendingPlanName v |> <| te_Quota := te_PendingQuota v |>
            <| te_DesiredDigest := te_PendingDesiredDigest v |> <| te_PendingPlanName := "" |>
            <| te_PendingQuota := ∅ |> <| te_PendingDesiredDigest := "" |>)
  | TenantSuspending => Ok (v <| te_State := TenantSuspended |>)
  | TenantDeleting => Ok (if ttr_Deleted result_ then v <| te_State := TenantDeleted |> else v)
  | _ => Fail ErrInvalidTransition
  end.

Definition completeTenantTask (v : TenantEnvironment) (result_ : TenantTaskResult) : Store TenantEnvironment :=
  let! v :=
    if te_State v != TenantDeleting then
      let! _ := lift (ValidateTenantTaskEvidence result_) in
      ret (v <| te_RuntimeContractVersion := CurrentTenantRuntimeContractVersion |>)
    else ret v in
  let! v := lift (tenantTaskDone v result_) in
  let v := v <| te_ObservedDigest := ttr_ObservedDigest result_ |> in
  let! v :=
    if (te_State v != TenantDeleting) && (te_State v != TenantDeleted) then
      let! now := nowUTC in
      ret (v <| te_Evidence := ttr_Evidence result_ |> <| te_EvidenceDigest := ttr_EvidenceDigest result_ |>
             <| te_EvidenceSealedAt := Some now |>)
    else ret v in
  let v := if te_State v != TenantDeleting then v <| te_PendingAction := "" |> else v in
  ret (v <| te_LastError := "" |>).

Definition ReportTenantTask (clusterID agentTokenDigest : string) (expected : Z) (result_ : TenantTaskResult)
    : Store TenantEnvironment :=
  let! _ := requireClusterTaskAdmissionLocked clusterID agentTokenDigest in
  let! s := get in
  let! v := get_opt (ms_tenants s !! ttr_TenantID result_) ErrNotFound in
  fail_if (te_ClusterID v != clusterID) ErrNotFound ;;;
  let! now := nowUTC in
  fail_if ((rm_Revision (te_Meta v) != expected) || (ttr_TaskFenceToken result_ <=? 0)
           || (te_TaskFenceToken v != ttr_TaskFenceToken result_)
           || negb (AgentTaskLeaseActive (te_TaskLeaseExpiresAt v) now)) ErrConflict ;;;
  fail_if (negb (TenantTaskResultActionMatchesState (te_State v) (ttr_Action result_))) ErrValidation ;;;
  let wasDelete := te_State v == TenantDeleting in
  let! v := if negb (ttr_Success result_)
            then ret (v <| te_State := TenantFailed |> <| te_LastError := TrimSpace (ttr_Error result_) |>)
            else completeTenantTask v result_ in
  let deleteTerminal := wasDelete && (negb (ttr_Success result_) || ttr_Deleted result_) in
  when deleteTerminal
    (let! _ := finishOwnerDestructiveOperationLocked (te_DestructiveOperationID v)
                 (ttr_Success result_ && ttr_Deleted result_) (te_LastError v) "cluster-agent" in
     ret tt) ;;;
  let v := v <| te_TaskLeaseExpiresAt := None |> <| te_Meta := bump (te_Meta v) now |> in
  putTenant (rm_ID (te_Meta v)) v ;;;
  appendAuditLocked "cluster-agent" "tenant.task.reported" "tenant" (rm_ID (te_Meta v)) (rm_Revision (te_Meta v))
    [("action", MStr (ttr_Action result_)); ("success", MBool (ttr_Success result_)); ("deleted", MBool (ttr_Deleted result_));
     ("evidenceDigest", MStr (ttr_EvidenceDigest result_));
     ("evidenceArtifacts", MInt (Z.of_nat (length (ttr_Evidence result_))));
     ("taskFenceToken", MInt (ttr_TaskFenceToken result_))] ;;;
  appendOutboxLocked "tenant" (rm_ID (te_Meta v)) "tenant.state.changed" (PayloadTenant v) ;;;
  ret v.
