(* ===== verification/TenantTheorems.v ===== *)
(** * Tenant environments stay consistent with the operation engine

    The tenant handlers interleaved with every call of the operation engine and
    with the other components: the handlers move operations only by calls of
    the engine, tenants follow their lifecycle, live names and request keys are
    unique per project, leases exist only while a task runs, and a tenant is
    DELETED only when its destructive operation SUCCEEDED. *)
From S2P Require Import Prelude GoStrings Digest Model Calendar Store Ordering Operations Recovery OwnerOperations.
From S2P Require Import Lifecycle OperationSystem OperationRuns Neutrality Collections Organizations Targets Fleet OwnerRuns Tenants.

(** ** Calls *)

Inductive TenantCall : Type :=
| TUpsertEntitlement (v : Entitlement) (expected : Z) (actor : string)
| TUpsertOEMProfile (v : OEMProfile) (expected : Z) (actor : string)
| TCreateTenant (v : TenantEnvironment) (actor : string)
| TQueueResize (id : string) (expected : Z) (planName : string) (quota : gmap string string)
    (desiredDigest actor requestDigest : string)
| TQueueAction (id : string) (expected : Z) (action actor recoveryCheckpointID requestDigest : string)
| TApprove (id : string) (expected : Z) (actor : string)
| TNextTask (wall : Time) (clusterID agentTokenDigest : string)
| TReportTask (clusterID agentTokenDigest : string) (expected : Z) (result_ : TenantTaskResult).

Definition tenant_exec (c : TenantCall) : MemoryStore -> MemoryStore * option Error :=
  match c with
  | TUpsertEntitlement v e actor => run1 (UpsertEntitlement v e actor)
  | TUpsertOEMProfile v e actor => run1 (UpsertOEMProfile v e actor)
  | TCreateTenant v actor => run1 (CreateTenant v actor)
  | TQueueResize id e plan quota d actor rd => run1 (QueueTenantResize id e plan quota d actor rd)
  | TQueueAction id e action actor rc rd => run1 (QueueTenantAction id e action actor rc rd)
  | TApprove id e actor => run1 (ApproveTenantAction id e actor)
  | TNextTask wall k d => run1 (NextTenantTask wall k d)
  | TReportTask k d e r => run1 (ReportTenantTask k d e r)
  end.

(** what the API sends: a new tenant carries no lease and no fencing token *)
Definition tenant_call_ok (c : TenantCall) : Prop :=
  match c with
  | TCreateTenant v _ => te_TaskLeaseExpiresAt v = None /\ te_TaskFenceToken v = 0
  | _ => True
  end.

(** ** The tenant handlers drive the engine *)

Lemma tenant_exec_driven c s : rtc (step true) s (tenant_exec c s).1.
Proof.
  revert s. destruct c; cbn [tenant_exec run1 fst];
    match goal with |- forall s, rtc (step true) s (?m s).1 => change (EngineDriven m) end.
  - unfold UpsertEntitlement. driven_tac.
  - unfold UpsertOEMProfile, entitlementExpired. driven_tac.
  - unfold CreateTenant, entitlementExpired. driven_tac.
  - unfold QueueTenantResize. driven_tac.
  - unfold QueueTenantAction, requestTenantDelete. driven_tac.
  - unfold ApproveTenantAction. driven_tac.
  - unfold NextTenantTask, failExpiredTenantDelete. driven_tac; apply driven_neutral; exact _.
  - unfold ReportTenantTask, completeTenantTask. driven_tac; apply driven_neutral; exact _.
Qed.

(** ** The lifecycle of a tenant *)

Definition tenant_running (state : TenantState) : bool :=
  match state with
  | TenantProvisioning | TenantSuspending | TenantResuming | TenantResizing | TenantDeleting => true
  | _ => false
  end.

(** the moves the handlers make *)
Definition tenant_next (from to : TenantState) : bool :=
  match from, to with
  | TenantQueued, TenantProvisioning | TenantSuspendQueued, TenantSuspending | TenantResumeQueued, TenantResuming
  | TenantResizeQueued, TenantResizing | TenantDeleteQueued, TenantDeleting => true
  | TenantProvisioning, (TenantProvisioning | TenantActive | TenantFailed) => true
  | TenantResuming, (TenantResuming | TenantActive | TenantFailed) => true
  | TenantResizing, (TenantResizing | TenantActive | TenantFailed) => true
  | TenantSuspending, (TenantSuspending | TenantSuspended | TenantFailed) => true
  | TenantDeleting, (TenantDeleting | TenantDeleted | TenantFailed) => true
  | TenantActive, (TenantProvisioning | TenantSuspendQueued | TenantResizeApproval | TenantDeleteApproval) => true
  | TenantSuspended, (TenantResumeQueued | TenantDeleteApproval) => true
  | TenantResizeApproval, TenantResizeQueued => true
  | TenantDeleteApproval, (TenantDeleteApproval | TenantDeleteQueued) => true
  | TenantDeleteQueued, TenantDeleteApproval => true
  | TenantFailed, (TenantQueued | TenantSuspendQueued | TenantResumeQueued | TenantResizeQueued | TenantDeleteApproval) => true
  | _, _ => false
  end.

(** what never changes of a tenant *)
Definition tenant_identity (t : TenantEnvironment) :=
  (rm_ID (te_Meta t), rm_CreatedAt (te_Meta t), te_OrganizationID t, te_ProjectID t, te_ClusterID t, te_Name t,
   te_Namespace t, te_IdempotencyKey t).

(** fencing tokens and leases: a report or a request leaves the token and may
    end the lease; a claim takes the next token *)
Definition fenced (t t' : TenantEnvironment) : Prop :=
  (te_TaskFenceToken t' = te_TaskFenceToken t /\
     (te_TaskLeaseExpiresAt t' = te_TaskLeaseExpiresAt t \/ te_TaskLeaseExpiresAt t' = None)) \/
  te_TaskFenceToken t' = inc64 (te_TaskFenceToken t).

(** the operation that deletes the tenant *)
Definition deletion_of (s : MemoryStore) (t : TenantEnvironment) (op : Operation) : Prop :=
  owned s (te_DestructiveOperationID t) (te_ProjectID t) (te_ClusterID t) op.

(** a tenant that is being deleted has its operation, which has succeeded when
    the tenant is gone *)
Definition deletion_ok (s : MemoryStore) (t : TenantEnvironment) : Prop :=
  match te_State t with
  | TenantDeleting => exists op, deletion_of s t op
  | TenantDeleted => exists op, deletion_of s t op /\ op_State op = OperationSucceeded
  | _ => True
  end.

Record tenant_ok (s : MemoryStore) (id : string) (t : TenantEnvironment) : Prop := {
  tk_id : rm_ID (te_Meta t) = id;
  tk_name : normalizeName (te_Name t) = te_Name t;
  tk_lease : te_TaskLeaseExpiresAt t <> None -> tenant_running (te_State t) = true;
  tk_deletion : deletion_ok s t
}.

Definition same_key (a b : TenantEnvironment) : Prop :=
  te_ProjectID a = te_ProjectID b /\ te_IdempotencyKey a = te_IdempotencyKey b.
Definition same_live_name (a b : TenantEnvironment) : Prop :=
  te_ProjectID a = te_ProjectID b /\ te_Name a = te_Name b /\ te_State a <> TenantDeleted /\ te_State b <> TenantDeleted.

Record tenants_wf (s : MemoryStore) : Prop := {
  tw_each : forall id t, ms_tenants s !! id = Some t -> tenant_ok s id t;
  tw_filed : filed s (ms_tenants s);
  tw_keys : forall i j a b, ms_tenants s !! i = Some a -> ms_tenants s !! j = Some b -> same_key a b -> i = j;
  tw_names : forall i j a b, ms_tenants s !! i = Some a -> ms_tenants s !! j = Some b -> same_live_name a b -> i = j
}.

(** one tenant moved *)
Record tenant_moves (s' : MemoryStore) (t t' : TenantEnvironment) : Prop := {
  mv_identity : tenant_identity t' = tenant_identity t;
  mv_state : tenant_next (te_State t) (te_State t') = true;
  mv_fence : fenced t t';
  mv_lease : te_TaskLeaseExpiresAt t' <> None -> tenant_running (te_State t') = true;
  mv_deletion : deletion_ok s' t'
}.

(** what a tenant handler does to the tenants: nothing, one tenant moves, or one is added *)
Inductive tenants_effect (s s' : MemoryStore) : Prop :=
| tenants_same : ms_tenants s' = ms_tenants s -> tenants_effect s s'
| tenants_move id t t' : ms_tenants s !! id = Some t -> ms_tenants s' = <[id := t']> (ms_tenants s) ->
    tenant_moves s' t t' -> tenants_effect s s'
| tenants_add n p t : (ms_ids s <= n < ms_ids s')%nat -> ms_tenants s' = <[ms_id s n p := t]> (ms_tenants s) ->
    rm_ID (te_Meta t) = ms_id s n p -> normalizeName (te_Name t) = te_Name t -> te_TaskLeaseExpiresAt t = None ->
    te_State t = TenantQueued ->
    (forall k b, ms_tenants s !! k = Some b -> ~ same_key t b) ->
    (forall k b, ms_tenants s !! k = Some b -> ~ same_live_name t b) -> tenants_effect s s'.

(** ** The engine underneath *)

(** the operations of deletions outlive every step of the engine *)
Lemma deletion_steps s s' t :
  rtc (step true) s s' -> engine_inv true s -> deletion_ok s t -> deletion_ok s' t.
Proof.
  intros Hs Hinv. unfold deletion_ok, deletion_of. destruct (te_State t); try done.
  - intros (op & Ho). destruct (owned_steps _ _ _ _ _ _ Hs Hinv Ho) as (op' & Ho' & _). by exists op'.
  - intros (op & Ho & Ht). destruct (owned_steps _ _ _ _ _ _ Hs Hinv Ho) as (op' & Ho' & Hk). exists op'. auto.
Qed.

(** ** The invariant is preserved *)

Lemma identity_key t t' b : tenant_identity t' = tenant_identity t -> same_key t' b -> same_key t b.
Proof. unfold same_key. intros [= _ _ _ Hp _ _ _ Hk] [E1 E2]. split; congruence. Qed.
Lemma same_key_sym a b : same_key a b -> same_key b a.
Proof. intros []. by split. Qed.
Lemma live_name_sym a b : same_live_name a b -> same_live_name b a.
Proof. intros (? & ? & ? & ?). by repeat split. Qed.

(** a deleted tenant stays deleted *)
Lemma deleted_final to : tenant_next TenantDeleted to = false.
Proof. by destruct to. Qed.

Lemma move_live s' t t' b : tenant_moves s' t t' -> same_live_name t' b -> same_live_name t b.
Proof.
  intros [[= _ _ _ Hp _ Hn _ _] Hst _ _ _] (E1 & E2 & E3 & E4). repeat split; try congruence.
  intros E. rewrite E, deleted_final in Hst. discriminate.
Qed.

Lemma effect_wf s s' :
  tenants_wf s -> engine_inv true s -> rtc (step true) s s' -> tenants_effect s s' -> tenants_wf s'.
Proof.
  intros [He Hf Hk Hn] Hinv Hr Heff. pose proof (steps_drawn _ _ Hr Hinv) as Hd.
  assert (Hold : forall id t, ms_tenants s !! id = Some t -> tenant_ok s' id t).
  { intros id t Ht. destruct (He id t Ht). split; try done. by eapply deletion_steps. }
  destruct Heff as [E|id t t' Ht E Hm|n p t Hn' E Hid Hnm Hl Hst Hkey Hlive].
  - split; rewrite E; try done. by eapply filed_mono.
  - split; rewrite E.
    + intros i x [[<- <-]|[_ Hx]]%lookup_insert_Some; [|by apply Hold].
      destruct (He id t Ht) as [Ti Tn _ _]. destruct Hm as [Hi _ _ Hle Hde]. injection Hi as Hi _ _ _ _ Hnm _ _.
      split; [congruence|congruence|done|done].
    + by eapply filed_update.
    + apply unique_insert; [apply same_key_sym|done|]. intros j b Hj Hs.
      symmetry. exact (Hk _ _ _ _ Ht Hj (identity_key _ _ _ (mv_identity _ _ _ Hm) Hs)).
    + apply unique_insert; [apply live_name_sym|done|]. intros j b Hj Hs.
      symmetry. exact (Hn _ _ _ _ Ht Hj (move_live _ _ _ _ Hm Hs)).
  - split; rewrite E.
    + intros i x [[<- <-]|[_ Hx]]%lookup_insert_Some; [|by apply Hold].
      split; [done|done|by rewrite Hl|]. unfold deletion_ok. by rewrite Hst.
    + apply filed_insert; [done|lia|done].
    + apply unique_insert; [apply same_key_sym|done|]. intros j b Hj Hs. by destruct (Hkey j b Hj).
    + apply unique_insert; [apply live_name_sym|done|]. intros j b Hj Hs. by destruct (Hlive j b Hj).
Qed.

(** ** What the engine calls of a handler leave behind *)

#[export] Instance tenants_outside : Outside ms_tenants.
Proof. by split. Qed.

(** ** Each handler *)

Section handlers.
Context (s : MemoryStore) (Hwf : tenants_wf s) (Hinv : engine_inv true s).
Local Abbreviation keeps m := (wp m (fun _ s' => tenants_effect s s') s).

Ltac untouched := apply tenants_same; done.

Lemma entitlement_keeps v e actor : keeps (UpsertEntitlement v e actor).
Proof. unfold UpsertEntitlement; unfold_puts. wp_go; untouched. Qed.
Lemma oem_keeps v e actor : keeps (UpsertOEMProfile v e actor).
Proof. unfold UpsertOEMProfile, entitlementExpired; unfold_puts. wp_go; untouched. Qed.

(** the scan found no clash *)
Lemma scan_active org v n0 l n :
  scanTenants org v n0 l = ScanActive n ->
  forall x, x ∈ l -> ~ (te_ProjectID x = te_ProjectID v /\ te_IdempotencyKey x = te_IdempotencyKey v) /\
    ~ (te_ProjectID x = te_ProjectID v /\ normalizeName (te_Name x) = normalizeName (te_Name v) /\
       te_State x <> TenantDeleted).
Proof.
  revert n0. induction l as [|y l IH]; intros n0 H x Hx; [by apply elem_of_nil in Hx|].
  cbn [scanTenants] in H. cbv zeta in H.
  destruct (bool_decide (te_ProjectID y = te_ProjectID v) && _) eqn:E1 in H; [by case_match|].
  destruct (bool_decide (te_ProjectID y = te_ProjectID v) && _ && _) eqn:E2 in H; [done|].
  apply elem_of_cons in Hx as [->|Hx]; [|by eapply IH].
  split.
  - intros [Ha Hb]. by rewrite !bool_decide_eq_true_2 in E1 by done.
  - intros (Ha & Hb & Hc). rewrite !bool_decide_eq_true_2, bool_decide_eq_false_2 in E2 by done. done.
Qed.

Lemma create_keeps v actor :
  te_TaskLeaseExpiresAt v = None -> keeps (CreateTenant v actor).
Proof.
  intros Hl. unfold CreateTenant, entitlementExpired; unfold_puts. wp_go; try untouched.
  all: match goal with H : scanTenants _ _ _ _ = ScanActive _ |- _ => pose proof (scan_active _ _ _ _ _ H) as Hs end.
  all: assert (Hin : forall k b, ms_tenants s !! k = Some b -> b ∈ (map_to_list (ms_tenants s)).*2)
    by (intros k b Hk; apply list_elem_of_fmap; exists (k, b); split; [done|by apply elem_of_map_to_list]).
  all: eapply (tenants_add _ _ (ms_ids s) "ten"); cbn; try done; try lia; try apply normalizeName_idem.
  all: intros k b Hk; destruct (Hs b (Hin k b Hk)) as [H1' H2'].
  all: try (intros [Ha Hb]; apply H1'; by split).
  all: intros (Ha & Hb & _ & Hc); apply H2'; cbn in Ha, Hb; split_and!; [done| |done].
  all: rewrite <- Hb; by rewrite normalizeName_idem.
Qed.

(** a tenant that is not running holds no lease *)
Lemma idle_lease id t : ms_tenants s !! id = Some t -> tenant_running (te_State t) = false -> te_TaskLeaseExpiresAt t = None.
Proof.
  intros Ht Hr. destruct (te_TaskLeaseExpiresAt t) eqn:E; [|done].
  rewrite (tk_lease _ _ _ (tw_each _ Hwf _ _ Ht)) in Hr; [done|congruence].
Qed.

(** a request on an idle tenant: the token stays, no lease appears *)
Lemma request_moves id t t' s' :
  ms_tenants s !! id = Some t -> ms_tenants s' = <[id := t']> (ms_tenants s) ->
  tenant_running (te_State t) = false -> tenant_next (te_State t) (te_State t') = true ->
  tenant_identity t' = tenant_identity t -> te_TaskFenceToken t' = te_TaskFenceToken t ->
  te_TaskLeaseExpiresAt t' = te_TaskLeaseExpiresAt t -> te_State t' <> TenantDeleting -> te_State t' <> TenantDeleted ->
  tenants_effect s s'.
Proof.
  intros Ht E Hr Hn Hi Hf Hl Hd1 Hd2. pose proof (idle_lease _ _ Ht Hr) as Hl0.
  eapply tenants_move; [exact Ht|exact E|]. split; [done|done|left; auto|congruence|].
  unfold deletion_ok. by destruct (te_State t').
Qed.

Lemma resize_keeps id e plan quota d actor rd : keeps (QueueTenantResize id e plan quota d actor rd).
Proof.
  unfold QueueTenantResize; unfold_puts. wp_go; try untouched. norm_bool.
  eapply request_moves; [eassumption|reflexivity|by rewrite H1|by rewrite H1|done..].
Qed.

Lemma retry_moves v v' :
  retryTenant v = Ok v' -> te_State v = TenantFailed ->
  exists st, v' = v <| te_State := st |> /\ tenant_next TenantFailed st = true /\ st <> TenantDeleting /\ st <> TenantDeleted.
Proof.
  unfold retryTenant. intros H Hs. repeat case_match; simplify_eq; eexists; (split; [reflexivity|]); done.
Qed.

Lemma delete_request v actor rc rd id :
  ms_tenants s !! id = Some v ->
  wp (requestTenantDelete v actor rc rd) (fun r s1 => ms_tenants s1 = ms_tenants s /\
    match r with Fail _ => True | Ok v' =>
      tenant_next (te_State v) TenantDeleteApproval = true /\ te_State v' = TenantDeleteApproval /\
      tenant_running (te_State v) = false /\
      tenant_identity v' = tenant_identity v /\ te_TaskFenceToken v' = te_TaskFenceToken v /\
      te_TaskLeaseExpiresAt v' = te_TaskLeaseExpiresAt v /\ te_Meta v' = te_Meta v end) s.
Proof.
  intros Hv. unfold requestTenantDelete. apply wp_bind_fail_if; [done|]. intros Hst.
  assert (Hok : tenant_next (te_State v) TenantDeleteApproval = true /\ tenant_running (te_State v) = false).
  { apply negb_false_iff in Hst. by destruct (te_State v). }
  apply (wp_driven ms_tenants); [driven_tac|keeps_tac|done|]. intros _ s1 _ _ E1.
  apply (wp_driven ms_tenants); [exact _|exact _|intros e s2 _ E2; split; [congruence|done]|]. intros op s2 _ _ E2.
  apply wp_ret. split; [congruence|]. destruct Hok. by split_and!.
Qed.

Lemma action_keeps id e action actor rc rd : keeps (QueueTenantAction id e action actor rc rd).
Proof.
  unfold QueueTenantAction; unfold_puts. wp_step. apply wp_bind_get_opt; [intros _; untouched|]. intros v Hv.
  apply wp_bind_fail_if; [intros _; untouched|]. intros _. cbv zeta.
  apply wp_bind. case_bool_decide; [|case_bool_decide; [|case_bool_decide; [|case_bool_decide]]].
  - wp_go; try untouched. norm_bool.
    eapply request_moves; [exact Hv|reflexivity|by rewrite H0|by rewrite H0|done..].
  - wp_go; try untouched. norm_bool.
    eapply request_moves; [exact Hv|reflexivity|by rewrite H1|by rewrite H1|done..].
  - eapply wp_mono; [exact (delete_request v actor rc rd id Hv)|]. intros [v'|err] s1 [E Hm]; [|by apply tenants_same].
    destruct Hm as (Hn & Hst & Hr & Hi & Hf & Hl & Hme). wp_go.
    eapply request_moves; [exact Hv|cbn; rewrite E; reflexivity|done|by cbn; rewrite Hst|..]; cbn; try done.
    all: rewrite Hst; done.
  - apply wp_bind_fail_if; [intros _; untouched|]. intros Hf. norm_bool. apply wp_lift.
    destruct (retryTenant v) as [v'|err] eqn:Er; [|untouched].
    destruct (retry_moves _ _ Er Hf) as (st & -> & Hn & Hd1 & Hd2). wp_go.
    eapply request_moves; [exact Hv|reflexivity|by rewrite Hf|by rewrite Hf|done..].
  - apply wp_raise. untouched.
Qed.

Lemma approve_keeps id e actor : keeps (ApproveTenantAction id e actor).
Proof.
  unfold ApproveTenantAction; unfold_puts. wp_step. apply wp_bind_get_opt; [intros _; untouched|]. intros v Hv.
  apply wp_bind_fail_if; [intros _; untouched|]. intros _. apply wp_bind.
  destruct (te_State v) eqn:Hst; try (apply wp_raise; untouched).
  - wp_go; try untouched. eapply request_moves; [exact Hv|reflexivity|by rewrite Hst|by rewrite Hst|done..].
  - apply (wp_driven ms_tenants); [exact _|exact _|intros err s1 _ E1; by apply tenants_same|]. intros op s1 _ _ E1. wp_go.
    eapply request_moves; [exact Hv|cbn; rewrite E1; reflexivity|by rewrite Hst|by rewrite Hst|done..].
Qed.

(** the head of the claimable tenants: one of them, and no claimable one comes before it *)
Lemma claim_head c k now v rest :
  oldest_first te_Meta (tenantClaimable c k now) (ms_tenants s) = v :: rest ->
  ms_tenants s !! rm_ID (te_Meta v) = Some v /\ tenantClaimable c k now v = true /\
  forall id x, ms_tenants s !! id = Some x -> tenantClaimable c k now x = true -> by_created te_Meta v x.
Proof.
  intros E. apply oldest_head in E as [(id & Hv & Hc) Hmin]. by rewrite (tk_id _ _ _ (tw_each _ Hwf _ _ Hv)).
Qed.

(** the state a claim runs in *)
Lemma claimed_state c k now v :
  tenantClaimable c k now v = true -> (te_State v == TenantDeleting) && (te_TaskLeaseExpiresAt v != None) = false ->
  tenant_next (te_State v) (nextTenantState v) = true /\ tenant_running (nextTenantState v) = true /\
  nextTenantState v <> TenantDeleted /\
  (nextTenantState v = TenantDeleting -> te_State v = TenantDeleteQueued \/ te_State v = TenantDeleting).
Proof.
  unfold tenantClaimable, nextTenantState, tenantReconcile. intros H _. norm_bool.
  destruct (te_State v); cbn in *; try done; try (split_and!; [done|done|done|auto]).
  all: try (split_and!; [done|done|done|discriminate]).
  rewrite H1. split_and!; done.
Qed.

(** what a claim hands out: the oldest claimable tenant, with the next token
    and a new lease; a deletion only with its operation just started, or to go
    on waiting for a deletion that was reported under way *)
Definition claim_answer (k : string) (res : result TenantEnvironment) (s' : MemoryStore) : Prop :=
  match res with
  | Fail _ => True
  | Ok t =>
      exists c old, let now := clock (tick s) in
        ms_managedClusters s !! k = Some c /\ ms_tenants s !! rm_ID (te_Meta t) = Some old /\
        tenantClaimable c k now old = true /\
        (forall id x, ms_tenants s !! id = Some x -> tenantClaimable c k now x = true -> by_created te_Meta old x) /\
        te_TaskFenceToken t = inc64 (te_TaskFenceToken old) /\
        te_TaskLeaseExpiresAt t = Some (now + AgentTaskLeaseDuration) /\
        te_State t = nextTenantState old /\ ms_tenants s' = <[rm_ID (te_Meta t) := t]> (ms_tenants s) /\
        (te_State t = TenantDeleting ->
          (te_State old = TenantDeleteQueued /\
             exists op, deletion_of s' t op /\ op_State op = OperationRunning) \/
          (te_State old = TenantDeleting /\ te_TaskLeaseExpiresAt old = None))
  end.

(** a claim of [v] in a store where the engine has started its deletion, if it is one *)
Lemma claim_effect v v' s2 :
  ms_tenants s !! rm_ID (te_Meta v) = Some v -> ms_tenants s2 = ms_tenants s ->
  tenant_next (te_State v) (te_State v') = true -> tenant_running (te_State v') = true ->
  tenant_identity v' = tenant_identity v -> te_DestructiveOperationID v' = te_DestructiveOperationID v ->
  te_TaskFenceToken v' = inc64 (te_TaskFenceToken v) ->
  (te_State v' = TenantDeleting -> exists op, deletion_of s2 v op) ->
  tenants_effect s (s2 <| ms_tenants := <[rm_ID (te_Meta v) := v']> (ms_tenants s2) |>).
Proof.
  intros Hv E2 Hn Hr Hi Ho Hf Hd. eapply (tenants_move _ _ (rm_ID (te_Meta v)) v); [exact Hv|cbn; by rewrite E2|].
  split; [done|done|by right|done|].
  unfold deletion_ok, deletion_of. cbn. injection Hi as _ _ _ Hp Hk _ _ _. rewrite Ho, Hp, Hk.
  destruct (te_State v') eqn:En; try done. by apply Hd.
Qed.

Lemma expired_spec v now s1 k :
  ms_tenants s !! rm_ID (te_Meta v) = Some v -> ms_tenants s1 = ms_tenants s -> te_State v = TenantDeleting ->
  wp (failExpiredTenantDelete v now) (fun res s' => tenants_effect s s' /\ claim_answer k res s') s1.
Proof.
  intros Hv E1 Hst. unfold failExpiredTenantDelete.
  apply (wp_driven ms_tenants); [exact _|exact _|intros e s2 _ E2; split; [apply tenants_same; congruence|done]|].
  intros op s2 _ Hs2 E2. unfold_puts. wp_go. split; [|done].
  eapply (tenants_move _ _ (rm_ID (te_Meta v)) v); [exact Hv|cbn; rewrite E2; cbn; rewrite E1; reflexivity|].
  split; cbn; try done; [by rewrite Hst|left; auto].
Qed.

Lemma next_spec wall k d : wp (NextTenantTask wall k d) (fun res s' => tenants_effect s s' /\ claim_answer k res s') s.
Proof.
  unfold NextTenantTask. apply (wp_driven ms_tenants).
  { apply driven_neutral, _. }
  { unfold requireFreshClusterTaskAdmissionLocked, requireClusterTaskAdmissionLocked. keeps_tac. }
  { intros e s1 _ E. split; [by apply tenants_same|done]. }
  intros c s1 Ea _ _. apply admitted_cluster in Ea as [-> Hc]. wp_step. wp_step.
  change (ms_tenants (tick (tick s))) with (ms_tenants s).
  destruct (oldest_first _ _ _) as [|v rest] eqn:Eh; [apply wp_raise; split; [by apply tenants_same|done]|].
  apply claim_head in Eh as (Hv & Hcl & Hmin). apply wp_if; intros Hx.
  { norm_bool. by apply expired_spec. }
  destruct (claimed_state _ _ _ _ Hcl Hx) as (Hn & Hr & Hnd & Hdel).
  assert (Ht : rtc (step true) s (tick (tick s)))
    by (etrans; [apply rtc_once, step_env, (neutral_nowUTC s)|apply rtc_once, step_env, (neutral_nowUTC (tick s))]).
  assert (Hinvt : engine_inv true (tick (tick s))) by exact (steps_inv _ _ _ Ht Hinv).
  apply (wp_driven ms_tenants); [driven_tac|keeps_tac|intros e s2 _ E2; split; [by apply tenants_same|done]|].
  intros [] s2 Es Hs2 E2. unfold_puts. wp_step. wp_step.
  assert (Hstart : te_State v = TenantDeleteQueued -> exists op, deletion_of s2 v op /\ op_State op = OperationRunning).
  { intros Hq. rewrite (bool_decide_eq_true_2 _ Hq) in Es. unfold when, bind in Es.
    destruct (startOwnerDestructiveOperationLocked _ _ _ _ _) as [s3 [op|err]] eqn:E3; [|discriminate].
    apply start_runs in E3 as (_ & op' & _ & _ & H1 & H2 & _); [|done]. injection Es as <-. by exists op'. }
  split.
  - apply (claim_effect v); cbn; try done. intros En. destruct (Hdel En) as [Hq|Hq].
    + destruct (Hstart Hq) as (op & Ho & _). by exists op.
    + pose proof (deletion_steps s s2 v (transitivity Ht Hs2) Hinv (tk_deletion _ _ _ (tw_each _ Hwf _ _ Hv))) as Hd.
      unfold deletion_ok in Hd. by rewrite Hq in Hd.
  - exists c, v. cbn. split_and!; try done; [by rewrite E2|]. intros En.
    destruct (Hdel En) as [Hq|Hq]; [left; split; [done|by apply Hstart]|right; split; [done|]].
    rewrite Hq in Hx. cbn in Hx. by destruct (te_TaskLeaseExpiresAt v).
Qed.

(** the tenant as the report leaves it, before its lease is cleared *)
Record reported (r : TenantTaskResult) (v v' : TenantEnvironment) : Prop := {
  rp_meta : te_Meta v' = te_Meta v;
  rp_identity : tenant_identity v' = tenant_identity v;
  rp_fence : te_TaskFenceToken v' = te_TaskFenceToken v;
  rp_operation : te_DestructiveOperationID v' = te_DestructiveOperationID v;
  rp_next : tenant_next (te_State v) (te_State v') = true;
  rp_deleting : te_State v' = TenantDeleting -> te_State v = TenantDeleting;
  rp_deleted : te_State v' = TenantDeleted ->
    te_State v = TenantDeleting /\ ttr_Success r = true /\ ttr_Deleted r = true
}.

(** all that [reported] looks at *)
Definition tenant_core (t : TenantEnvironment) :=
  (te_Meta t, tenant_identity t, te_TaskFenceToken t, te_DestructiveOperationID t, te_State t).
Lemma reported_core r v v1 a a1 :
  tenant_core v1 = tenant_core v -> tenant_core a1 = tenant_core a -> reported r v a -> reported r v1 a1.
Proof.
  intros Ev Ea [H1 H2 H3 H4 H5 H6 H7].
  pose proof (f_equal (fun t => t.1.1.1.2) Ev) as Iv. pose proof (f_equal (fun t => t.1.1.1.2) Ea) as Ia.
  pose proof (f_equal snd Ev) as Sv. pose proof (f_equal snd Ea) as Sa. cbn in Iv, Ia, Sv, Sa.
  injection Ev as Mv. injection Ea as Ma. split; rewrite ?Sv, ?Sa; done || congruence.
Qed.

Lemma task_done r v v' :
  ttr_Success r = true -> tenantTaskDone v r = Ok v' -> reported r v v'.
Proof.
  unfold tenantTaskDone. intros Hs H.
  destruct (te_State v) eqn:Hst; simplify_eq; try (split; cbn; rewrite ?Hst; done).
  destruct (ttr_Deleted r) eqn:Hd; split; cbn; rewrite ?Hst; done.
Qed.

Lemma complete_reports v r s1 :
  ttr_Success r = true ->
  wp (completeTenantTask v r) (fun res _ => match res with Fail _ => True | Ok v' => reported r v v' end) s1.
Proof.
  intros Hs. unfold completeTenantTask. wp_go; try done.
  all: match goal with H : tenantTaskDone _ _ = Ok _ |- _ => apply (task_done _ _ _ Hs) in H;
         eapply reported_core; [| |exact H]; [done|] end.
  all: by case_match.
Qed.

(** the tenant a report leaves, failed or completed *)
Definition settleTenantTask (v : TenantEnvironment) (r : TenantTaskResult) : Store TenantEnvironment :=
  if negb (ttr_Success r)
  then ret (v <| te_State := TenantFailed |> <| te_LastError := TrimSpace (ttr_Error r) |>)
  else completeTenantTask v r.
Lemma settle_reports v r s1 :
  tenant_running (te_State v) = true ->
  wp (settleTenantTask v r) (fun res s2 => ms_tenants s2 = ms_tenants s1 /\ rtc (step true) s1 s2 /\
      match res with Fail _ => True | Ok v' => reported r v v' end) s1.
Proof.
  intros Hr.
  assert (Hd : EngineDriven (settleTenantTask v r)) by (unfold settleTenantTask, completeTenantTask; driven_tac).
  assert (Hk : Keeps ms_tenants (settleTenantTask v r)) by (unfold settleTenantTask, completeTenantTask; keeps_tac).
  unfold wp. split; [apply Hk|]. split; [apply Hd|]. clear Hd Hk.
  change (wp (settleTenantTask v r) (fun res _ => match res with Fail _ => True | Ok v' => reported r v v' end) s1).
  unfold settleTenantTask. destruct (ttr_Success r) eqn:Hs; cbn [negb]; [by apply complete_reports|].
  apply wp_ret. split; cbn; done.
Qed.

(** an accepted report ends the lease it was made under *)
Definition report_answer (r : TenantTaskResult) (res : result TenantEnvironment) (s' : MemoryStore) : Prop :=
  match res with
  | Fail _ => True
  | Ok t => ms_tenants s' !! ttr_TenantID r = Some t /\ te_TaskLeaseExpiresAt t = None /\
      te_TaskFenceToken t = ttr_TaskFenceToken r /\ 0 < ttr_TaskFenceToken r
  end.

Lemma report_spec k d e r :
  wp (ReportTenantTask k d e r) (fun res s' => tenants_effect s s' /\ report_answer r res s') s.
Proof.
  unfold ReportTenantTask. apply (wp_driven ms_tenants).
  { apply driven_neutral, _. }
  { unfold requireClusterTaskAdmissionLocked. keeps_tac. }
  { intros err s1 _ E. split; [by apply tenants_same|done]. }
  intros c s1 _ Hs1 E1. wp_step. rewrite E1. apply wp_bind_get_opt; [intros _; split; [by apply tenants_same|done]|]. intros v Hv.
  apply wp_bind_fail_if; [intros _; split; [by apply tenants_same|done]|]. intros _. wp_step.
  apply wp_bind_fail_if; [intros _; split; [by apply tenants_same|done]|]. intros Hl.
  apply wp_bind_fail_if; [intros _; split; [by apply tenants_same|done]|]. intros _. cbv zeta.
  assert (Hr : tenant_running (te_State v) = true).
  { apply (tk_lease _ _ _ (tw_each _ Hwf _ _ Hv)). intros E. rewrite E in Hl. cbn in Hl. by rewrite orb_true_r in Hl. }
  assert (Ht : rtc (step true) s (tick s1)) by (etrans; [exact Hs1|apply rtc_once, step_env, (neutral_nowUTC s1)]).
  apply wp_bind. fold (settleTenantTask v r). eapply wp_mono; [exact (settle_reports v r (tick s1) Hr)|].
  intros [v'|err] s2 (E2 & Hs2 & Hrep); [|split; [apply tenants_same; rewrite E2; exact E1|done]].
  apply (wp_driven ms_tenants); [driven_tac|keeps_tac|intros err s3 _ E3; split; [apply tenants_same; rewrite E3, E2; exact E1|done]|].
  intros [] s3 Es Hs3 E3. unfold_puts. wp_go.
  destruct Hrep as [Rm Ri Rf Ro Rn Rd1 Rd2].
  assert (H2 : rtc (step true) s s2) by exact (transitivity Ht Hs2).
  assert (Hid : rm_ID (te_Meta v') = ttr_TenantID r) by (rewrite Rm; apply (tw_each _ Hwf _ _ Hv)).
  split.
  2: { cbn. rewrite Hid, lookup_insert_eq. apply orb_false_iff in Hl as [Hl _]. norm_bool. split_and!; congruence || lia. }
  eapply (tenants_move _ _ (ttr_TenantID r) v); [exact Hv|cbn; rewrite Hid, E3, E2; cbn; by rewrite E1|].
  split; cbn; [|done|left; auto|done|].
  - exact Ri.
  - pose proof (deletion_steps s s3 v (transitivity H2 Hs3) Hinv (tk_deletion _ _ _ (tw_each _ Hwf _ _ Hv))) as Hd.
    injection Ri as _ _ _ Hp Hk _ _ _. unfold deletion_ok, deletion_of in *. cbn. rewrite Ro, Hp, Hk.
    destruct (te_State v') eqn:Hst; try done.
    + by rewrite (Rd1 eq_refl) in Hd.
    + destruct (Rd2 eq_refl) as (Hv' & Hsu & Hde). rewrite Hv' in Hd. destruct Hd as (op & Hop & Hb).
      exists op. split; [by split|]. rewrite Hv', Hsu, Hde in Es. rewrite bool_decide_eq_true_2 in Es by done.
      unfold when, bind in Es. cbn [andb] in Es. rewrite orb_true_r in Es. cbn [negb orb] in Es.
      destruct (finishOwnerDestructiveOperationLocked _ _ _ _ s2) as [s4 [o|err]] eqn:Ef; [|discriminate].
      injection Es as <-. apply finish_succeeds in Ef as (op' & Ho' & Hs'); [|exact (steps_inv _ _ _ H2 Hinv)].
      rewrite Ro in Ho'. congruence.
Qed.

Lemma tenant_exec_effect c : tenant_call_ok c -> tenants_effect s (tenant_exec c s).1.
Proof.
  intros Hok. destruct c; cbn [tenant_exec run1 fst].
  - exact (entitlement_keeps v expected actor).
  - exact (oem_keeps v expected actor).
  - exact (create_keeps v actor (proj1 Hok)).
  - exact (resize_keeps id expected planName quota desiredDigest actor requestDigest).
  - exact (action_keeps id expected action actor recoveryCheckpointID requestDigest).
  - exact (approve_keeps id expected actor).
  - exact (proj1 (next_spec wall clusterID agentTokenDigest)).
  - exact (proj1 (report_spec clusterID agentTokenDigest expected result_)).
Qed.
End handlers.

(** ** Histories *)

(** a call of the tenant handlers, a call of the engine, or a step of another component *)
Inductive tenant_step (s : MemoryStore) : MemoryStore -> Prop :=
| ts_tenant c : tenant_call_ok c -> tenant_step s (tenant_exec c s).1
| ts_engine c : tenant_step s (exec c s).1
| ts_env s' : env_step s s' -> ms_tenants s' = ms_tenants s -> tenant_step s s'.

Definition tenant_reachable (s : MemoryStore) : Prop :=
  exists now id, id_source id /\ rtc tenant_step (NewMemoryStoreWith now id) s.

Lemma tenant_step_engine s s' : tenant_step s s' -> rtc (step true) s s'.
Proof.
  intros [c _|c|s1 He _].
  - apply tenant_exec_driven.
  - apply rtc_once. by apply step_call.
  - by apply rtc_once, step_env.
Qed.

Record tenant_inv (s : MemoryStore) : Prop := {
  ti_engine : engine_inv true s;
  ti_tenants : tenants_wf s
}.

Lemma tenant_step_effect s s' : tenant_inv s -> tenant_step s s' -> tenants_effect s s'.
Proof.
  intros [He Hw] [c Hc|c|s1 _ E]; [by apply tenant_exec_effect| |by apply tenants_same].
  apply tenants_same, (exec_keeps ms_tenants).
Qed.

Lemma tenant_step_inv s s' : tenant_step s s' -> tenant_inv s -> tenant_inv s'.
Proof.
  intros Hs Hi. pose proof (tenant_step_engine _ _ Hs) as Hr. pose proof (tenant_step_effect _ _ Hi Hs) as Hf.
  destruct Hi as [He Hw]. split; [by eapply steps_inv|by eapply effect_wf].
Qed.

Lemma tenant_steps_inv s s' : rtc tenant_step s s' -> tenant_inv s -> tenant_inv s'.
Proof. induction 1; eauto using tenant_step_inv. Qed.

Lemma tenant_reachable_inv s : tenant_reachable s -> tenant_inv s.
Proof.
  intros (now & id & Hid & Hr). eapply tenant_steps_inv; [exact Hr|]. split.
  - apply reachable_inv. exists now, id. split; [exact Hid|reflexivity].
  - split; intros i; cbn; intros; by simplify_map_eq.
Qed.
