(* ===== verification/TenantProperties.v ===== *)
(** * What tenants can rely on

    The theorems about tenant environments, in every history of tenant calls,
    engine calls and steps of the other components. *)
From Stdlib Require Import Ascii.
From Stdlib Require String.
From S2P Require Import Prelude GoStrings Digest Model Calendar Store Ordering Operations Recovery OwnerOperations.
From S2P Require Import Lifecycle OperationSystem OperationRuns Neutrality Demo Collections Organizations Targets Fleet.
From S2P Require Import OwnerRuns Tenants TenantTheorems.

(** ** Namespaces are DNS labels *)

Definition alnum (a : ascii) : bool := in_range 97 122 a || in_range 48 57 a.

(** RFC 1123: at most 63 of [a-z0-9-], not starting or ending in a dash *)
Record dns_label (l : list ascii) : Prop := {
  label_length : (1 <= length l <= 63)%nat;
  label_runes : Forall (fun a => labelRune a = true) l;
  label_first : head l <> Some dash;
  label_last : last l <> Some dash
}.

Lemma clean_runes l : Forall (fun a => labelRune a = true) (cleanRunes l).
Proof.
  induction l as [|a l IH]; cbn; [constructor|]. destruct (labelRune a) eqn:E; [by constructor|].
  destruct (in_range 128 191 a); [done|]. by constructor.
Qed.
Lemma drop_dashes l (P : ascii -> Prop) : Forall P l -> Forall P (dropDashes l) /\ (length (dropDashes l) <= length l)%nat.
Proof. induction 1 as [|a l Ha Hl [IH1 IH2]]; cbn; [done|]. case_match; cbn; split; auto; lia. Qed.
Lemma trim_dashes l (P : ascii -> Prop) : Forall P l -> Forall P (trimDashes l) /\ (length (trimDashes l) <= length l)%nat.
Proof.
  intros H. unfold trimDashes. destruct (drop_dashes l P H) as [H1 L1].
  destruct (drop_dashes (rev (dropDashes l)) P) as [H2 L2]; [by apply Forall_rev|].
  split; [by apply Forall_rev|]. rewrite !length_rev in *. lia.
Qed.

Lemma substring_length n m s : (String.length (String.substring n m s) <= m)%nat.
Proof.
  revert n m. induction s as [|a s IH]; intros [|n] [|m]; cbn; try lia; [|apply IH|apply IH].
  specialize (IH 0%nat m). lia.
Qed.
Lemma suffix_length id : (String.length (namespaceSuffix id) <= 6)%nat.
Proof.
  unfold namespaceSuffix. case_match eqn:E; norm_bool; [apply substring_length|]. unfold len in E. lia.
Qed.
Lemma list_length s : length (String.list_ascii_of_string s) = String.length s.
Proof. induction s as [|a s IH]; [done|]. cbn. by rewrite IH. Qed.

Lemma label_assemble clean suffix :
  Forall (fun a => labelRune a = true) clean -> suffix <> "" -> string_all alnum suffix = true ->
  (length clean + 8 + String.length suffix <= 63)%nat ->
  dns_label (String.list_ascii_of_string ("tenant-" +:+ String.string_of_list_ascii clean +:+ "-" +:+ suffix)).
Proof.
  intros Hc Hne Hal Hlen. rewrite !list_ascii_app, String.list_ascii_of_string_of_list_ascii.
  unfold string_all in Hal. rewrite forallb_forall in Hal.
  assert (Hs : String.list_ascii_of_string suffix <> []) by (by destruct suffix). rewrite <- list_length in Hlen.
  revert Hal Hs Hlen. generalize (String.list_ascii_of_string suffix) as l. intros l Hal Hs Hlen.
  set (pre := String.list_ascii_of_string "tenant-"). set (d := String.list_ascii_of_string "-").
  split.
  - rewrite !length_app. unfold pre, d. cbn [String.list_ascii_of_string length]. lia.
  - repeat apply Forall_app_2; [by repeat constructor|done|by repeat constructor|].
    apply Forall_forall. intros a Ha. apply list_elem_of_In, Hal in Ha. unfold alnum in Ha. unfold labelRune.
    by rewrite Ha.
  - done.
  - destruct (exists_last Hs) as (l' & x & ->). rewrite !app_assoc, last_snoc. intros [= ->].
    specialize (Hal dash). cbn in Hal. discriminate Hal. apply in_or_app. right. by left.
Qed.

Lemma tenant_namespace_label name id :
  namespaceSuffix id <> "" -> string_all alnum (namespaceSuffix id) = true ->
  dns_label (String.list_ascii_of_string (tenantNamespace name id)).
Proof.
  intros Hne Hal. pose proof (suffix_length id) as Hl. unfold tenantNamespace. cbv zeta.
  change (len "tenant--") with 8. unfold len.
  destruct (trim_dashes _ _ (clean_runes (String.list_ascii_of_string (normalizeName name)))) as [H0 _].
  revert H0. generalize (trimDashes (cleanRunes (String.list_ascii_of_string (normalizeName name)))) as clean0.
  intros clean0 H0.
  assert (H1 : Forall (fun a => labelRune a = true)
            (if decide (clean0 = []) then String.list_ascii_of_string "tenant" else clean0))
    by (case_decide; [by repeat constructor|done]).
  revert H1. generalize (if decide (clean0 = []) then String.list_ascii_of_string "tenant" else clean0) as clean.
  clear clean0 H0. intros clean H1. apply label_assemble; [|done|done|]; case_match eqn:E; norm_bool; try done.
  - by apply trim_dashes, Forall_take.
  - destruct (trim_dashes (firstn (Z.to_nat (63 - 8 - Z.of_nat (String.length (namespaceSuffix id)))) clean) (fun _ => True))
      as [_ L]; [by apply Forall_true|]. rewrite length_take in L. lia.
  - lia.
Qed.

(** ** Counting live tenants *)

Definition live_in (org : string) (t : TenantEnvironment) : bool :=
  (te_OrganizationID t == org) && (te_State t != TenantDeleted).
Definition live_count (org : string) (l : list TenantEnvironment) : Z := Z.of_nat (length (List.filter (live_in org) l)).
Definition live_tenants (s : MemoryStore) (org : string) : Z := live_count org ((map_to_list (ms_tenants s)).*2).

Lemma scan_count org v l : forall n0 n,
  0 <= n0 -> n0 + Z.of_nat (length l) <= int64_max -> scanTenants org v n0 l = ScanActive n -> n = n0 + live_count org l.
Proof.
  unfold live_count. induction l as [|x l IH]; intros n0 n H0 Hmax H; cbn [scanTenants] in H; cbv zeta in H.
  - injection H as <-. cbn. lia.
  - cbn [length] in Hmax.
    destruct (bool_decide (te_ProjectID x = te_ProjectID v) && _) eqn:E1 in H; [by case_match|].
    destruct (bool_decide (te_ProjectID x = te_ProjectID v) && _ && _) eqn:E2 in H; [done|].
    cbn [List.filter]. unfold live_in at 1. destruct (bool_decide (te_OrganizationID x = org) && _) eqn:El.
    + rewrite (inc64_lt _ int64_max) in H by (unfold int64_min; lia).
      apply IH in H; [|lia|lia]. cbn [length]. lia.
    + apply IH in H; lia.
Qed.

Lemma filter_length {A} (f : A -> bool) l l' : l ≡ₚ l' -> length (List.filter f l) = length (List.filter f l').
Proof. induction 1 as [|x l l' _ IH|x y l|l1 l2 l3 _ IH1 _ IH2]; cbn; repeat case_match; cbn; congruence. Qed.

Lemma live_insert org s s' id t :
  ms_tenants s !! id = None -> ms_tenants s' = <[id := t]> (ms_tenants s) -> live_in org t = true ->
  live_tenants s' org = live_tenants s org + 1.
Proof.
  intros Hn E Hl. unfold live_tenants, live_count. rewrite E.
  assert (Hp : (map_to_list (<[id := t]> (ms_tenants s))).*2 ≡ₚ t :: (map_to_list (ms_tenants s)).*2)
    by (by rewrite map_to_list_insert).
  rewrite (filter_length _ _ _ Hp). cbn [List.filter]. rewrite Hl. cbn [length]. lia.
Qed.

Lemma tenant_create_spec v actor s :
  tenants_wf s -> engine_inv true s -> Z.of_nat (size (ms_tenants s)) <= int64_max ->
  wp (CreateTenant v actor) (fun r s' =>
    match r with
    | Ok (t, false) =>
        exists project entitlement, ms_projects s !! te_ProjectID v = Some project /\
          ms_entitlements s !! prj_OrganizationID project = Some entitlement /\
          te_OrganizationID t = prj_OrganizationID project /\
          live_tenants s' (te_OrganizationID t) <= en_MaxTenants entitlement /\
          te_Namespace t = tenantNamespace (te_Name t) (rm_ID (te_Meta t)) /\
          ms_tenants s' !! rm_ID (te_Meta t) = Some t
    | _ => True
    end) s.
Proof.
  intros Hwf Hinv Hsz. unfold CreateTenant, entitlementExpired; unfold_puts. wp_go; try exact I; try done.
  all: match goal with H : scanTenants _ _ _ _ = ScanActive _ |- _ => apply scan_count in H; [|lia|] end;
    [|by rewrite length_fmap, length_map_to_list].
  all: eexists _, _; split_and!; try eassumption; try done; [|cbn; apply lookup_insert_eq].
  all: norm_bool; cbn [te_OrganizationID].
  all: erewrite (live_insert _ s _ (fresh s "ten")); [|apply (fresh_unfiled _ _ _ _ (gen_inj _ (inv_ids _ _ Hinv)) (tw_filed _ Hwf)); lia
    |cbn; reflexivity|unfold live_in; cbn; rewrite bool_decide_eq_true_2 by done; done].
  all: unfold live_tenants; cbn -[live_count]; lia.
Qed.

(** ** Tenants over a history *)

Lemma effect_tenant s s' id t :
  tenant_inv s -> tenants_effect s s' -> ms_tenants s !! id = Some t ->
  exists t', ms_tenants s' !! id = Some t' /\ (t' = t \/ tenant_moves s' t t').
Proof.
  intros [He Hw] Heff Ht. destruct Heff as [E|i x x' Hx E Hm|n p x Hn E _ _ _ _ _ _]; rewrite E.
  - eauto.
  - destruct (decide (i = id)) as [->|Hne]; [|rewrite lookup_insert_ne by done; eauto].
    rewrite lookup_insert_eq. simplify_eq. eauto.
  - rewrite lookup_insert_ne; [eauto|]. intros <-.
    rewrite (fresh_unfiled s _ n p (gen_inj _ (inv_ids _ _ He)) (tw_filed _ Hw)) in Ht by lia. discriminate.
Qed.

(** the fencing token [f] has been reported: it is behind, or current without a lease *)
Definition spent (f : Z) (t : TenantEnvironment) : Prop :=
  f < te_TaskFenceToken t \/ (te_TaskFenceToken t = f /\ te_TaskLeaseExpiresAt t = None).

Lemma spent_steps n s s' id t f :
  0 < f -> nsteps tenant_step n s s' -> tenant_inv s -> ms_tenants s !! id = Some t -> spent f t ->
  te_TaskFenceToken t + Z.of_nat n <= int64_max ->
  exists t', ms_tenants s' !! id = Some t' /\ spent f t'.
Proof.
  intros Hf Hs. revert t. induction Hs as [s|n s1 s2 s3 H12 _ IH]; intros t Hi Ht Hsp Hmax; [eauto|].
  destruct (effect_tenant _ _ _ _ Hi (tenant_step_effect _ _ Hi H12) Ht) as (t2 & Ht2 & Hm).
  assert (H2 : spent f t2 /\ te_TaskFenceToken t2 <= te_TaskFenceToken t + 1).
  { destruct Hm as [->|[_ _ [[Hk Hl]|Hk] _ _]]; [split; [done|lia]| |].
    - rewrite Hk. unfold spent in *. rewrite Hk. split; [|lia]. destruct Hsp as [?|[? Hn]]; [by left|right].
      split; [done|]. destruct Hl; congruence.
    - rewrite (inc64_lt _ int64_max) in Hk by (unfold spent, int64_min in *; lia).
      unfold spent in *. lia. }
  destruct H2 as [H2 Hle]. apply (IH t2); [by eapply tenant_step_inv|done|done|lia].
Qed.

(** C12: tenants stay consistent.  In every history of tenant calls, operation-engine
    calls and steps of the other components, in which a new tenant comes without a task
    lease and without a fencing token, as the API sends it ([tenant_call_ok]): a tenant is stored under its own
    identifier; live names and request keys are unique in their project; a task
    lease exists only while a task runs; a tenant that is being deleted has its
    destructive operation, bound to its project and cluster, and a tenant is DELETED
    only if that operation SUCCEEDED. *)
Theorem tenants_stay_consistent s : tenant_reachable s -> tenants_wf s.
Proof. intros H. apply (tenant_reachable_inv s H). Qed.

(** C13: tenant workflows refine their lifecycle and the engine's.  Along a history a
    tenant never disappears, keeps its identity, project, cluster, name and
    namespace, and moves only along [tenant_next], so a DELETED tenant stays
    DELETED; and what the history does to operations is a run of the engine's own
    steps. *)
Theorem tenant_histories_refine_lifecycles s s' id t :
  tenant_reachable s -> rtc tenant_step s s' -> ms_tenants s !! id = Some t ->
  rtc (step true) s s' /\
  exists t', ms_tenants s' !! id = Some t' /\ tenant_identity t' = tenant_identity t /\
    rtc (fun a b => tenant_next a b = true) (te_State t) (te_State t') /\
    (te_State t = TenantDeleted -> te_State t' = TenantDeleted).
Proof.
  intros Hr Hs. apply tenant_reachable_inv in Hr. revert t Hr.
  induction Hs as [s|s1 s2 s3 H12 _ IH]; intros t Hi Ht; [split; [done|]; by exists t|].
  destruct (effect_tenant _ _ _ _ Hi (tenant_step_effect _ _ Hi H12) Ht) as (t2 & Ht2 & Hm).
  destruct (IH t2 (tenant_step_inv _ _ H12 Hi) Ht2) as (Hs & t3 & Ht3 & Hid & Hst & Hdel).
  split; [etrans; [by apply tenant_step_engine|done]|]. exists t3. destruct Hm as [->|[Mi Mn _ _ _]]; [done|].
  split_and!; [done|congruence|by eapply rtc_l|].
  intros E. rewrite E, deleted_final in Mn. discriminate.
Qed.

(** Tenant tasks are claimed by one agent at a time.  A claim answers with the
    oldest claimable tenant of the agent's cluster; the previous lease has run out,
    the fencing token is the next one and the lease is new.  A deletion is handed
    out only when its operation was started by this very claim, or when it was
    reported under way; a deletion whose lease ran out is never handed out again. *)
Theorem tenant_claims_are_exclusive s s' wall k d t :
  tenant_reachable s -> NextTenantTask wall k d s = (s', Ok t) ->
  claim_answer s k (Ok t) s' /\
  exists old, ms_tenants s !! rm_ID (te_Meta t) = Some old /\ te_ClusterID old = k /\
    AgentTaskLeaseActive (te_TaskLeaseExpiresAt old) (clock (tick s)) = false.
Proof.
  intros Hr E. apply tenant_reachable_inv in Hr as [He Hw].
  pose proof (wp_run _ _ _ _ _ (next_spec s Hw He wall k d) E) as [_ Ha]. split; [exact Ha|].
  destruct Ha as (c & old & _ & Hold & Hc & _). exists old. split; [done|].
  unfold tenantClaimable in Hc. norm_bool. split; [done|].
  apply orb_true_iff in H0 as [H0|H0]; [|by apply negb_true_iff in H0].
  rewrite (idle_lease s Hw _ _ Hold); [done|]. by destruct (te_State old).
Qed.

(** A tenant task is reported once.  After a report was accepted, no report with
    the same fencing token is accepted in any continuation of the history, as long
    as the token counter does not run over its 64 bits. *)
Theorem tenant_reports_are_single_use n s s1 s2 k d e r t k' d' e' r' :
  tenant_reachable s -> ReportTenantTask k d e r s = (s1, Ok t) -> nsteps tenant_step n s1 s2 ->
  ttr_TaskFenceToken r + Z.of_nat n <= int64_max ->
  ttr_TenantID r' = ttr_TenantID r -> ttr_TaskFenceToken r' = ttr_TaskFenceToken r ->
  exists err, (ReportTenantTask k' d' e' r' s2).2 = Fail err.
Proof.
  intros Hr E Hs Hmax Hid Hf. apply tenant_reachable_inv in Hr as Hi.
  assert (Hst : tenant_step s s1).
  { replace s1 with (tenant_exec (TReportTask k d e r) s).1 by (cbn; by rewrite E). by apply ts_tenant. }
  destruct Hi as [He Hw]. pose proof (wp_run _ _ _ _ _ (report_spec s Hw He k d e r) E) as [_ (Ht & Hl & Hft & Hpos)].
  destruct (spent_steps n s1 s2 _ t (ttr_TaskFenceToken r) Hpos Hs (tenant_step_inv _ _ Hst (tenant_reachable_inv _ Hr)) Ht)
    as (t2 & Ht2 & Hsp); [by right|lia|].
  assert (H : wp (ReportTenantTask k' d' e' r') (fun res _ => exists err, res = Fail err) s2); [|exact H].
  unfold ReportTenantTask. apply (wp_driven ms_tenants); [apply driven_neutral, _| |intros err s3 _ _; by exists err|].
  { unfold requireClusterTaskAdmissionLocked. keeps_tac. }
  intros c s3 _ _ E3. wp_step. rewrite E3, Hid, Ht2. apply (wp_bind_found t2); [done|].
  apply wp_bind_fail_if; [by eexists|]. intros _. wp_step. apply wp_bind_fail_if; [by eexists|]. intros Hg. exfalso.
  apply orb_false_iff in Hg as [Hg Hact]. norm_bool. destruct Hsp as [?|[_ Hn]]; [lia|]. by rewrite Hn in Hact.
Qed.

(** New tenants are within bounds.  A tenant is created only while its
    organization's entitlement allows one more, counting it: afterwards the live
    tenants of the organization are at most the entitlement's maximum; and its
    namespace is a DNS label of at most 63 characters whatever the requested name,
    given the six letters and digits its identifier ends in. *)
Theorem created_tenants_are_bounded s s' v actor t :
  tenant_reachable s -> Z.of_nat (size (ms_tenants s)) <= int64_max ->
  CreateTenant v actor s = (s', Ok (t, false)) ->
  (exists project entitlement, ms_projects s !! te_ProjectID v = Some project /\
     ms_entitlements s !! prj_OrganizationID project = Some entitlement /\
     te_OrganizationID t = prj_OrganizationID project /\
     live_tenants s' (te_OrganizationID t) <= en_MaxTenants entitlement) /\
  (namespaceSuffix (rm_ID (te_Meta t)) <> "" -> string_all alnum (namespaceSuffix (rm_ID (te_Meta t))) = true ->
   dns_label (String.list_ascii_of_string (te_Namespace t))).
Proof.
  intros Hr Hsz E. apply tenant_reachable_inv in Hr as [He Hw].
  pose proof (wp_run _ _ _ _ _ (tenant_create_spec v actor s Hw He Hsz) E) as (p & en & Hp & Hen & Ho & Hle & Hn & _).
  split; [by exists p, en|]. intros H1 H2. rewrite Hn. by apply tenant_namespace_label.
Qed.

(** ** A concrete history

    A tenant of a small store: provisioned by the agent of its cluster, then
    deleted under a recovery checkpoint. *)
Module TenantDemo.

Definition now : Time := 1000 * Second.
Definition cluster : ManagedCluster :=
  mkManagedCluster (newMeta "c" 0) "p" "imp" "edge" "Edge" "uid" "CONNECTED" "kubernetes" "1.31" "1.0" (Some now) (Some now)
    (Some now) ∅ [TargetMutationRBACActiveCapability; TargetMutationRBACActivationIssuedCapability;
      TargetIdentityContinuityCapability; TargetEnrollmentPrincipalIsolatedCapability; TenantDeleteObservedCapability]
    demo_digest demo_digest demo_digest "" None "" "".
Definition import : ClusterImport :=
  mkClusterImport (newMeta "imp" 0) "p" "edge" "Edge" ClusterImportClaimed "" "sha256:agent" "" 0 None None "c" "" "".

(** what the other components have put there *)
Definition seed : MemoryStore :=
  (NewMemoryStoreWith (fun _ => now) demo_id) <| ms_projects := {["p" := demo_project]} |>
    <| ms_organizations := {["o" := mkOrganization (newMeta "o" 0) "org" "Org"]} |>
    <| ms_managedClusters := {["c" := cluster]} |> <| ms_clusterImports := {["imp" := import]} |>.

Definition request : TenantEnvironment :=
  mkTenantEnvironment (newMeta "" 0) "" "p" "c" "Team One" "Team" "small" "" TenantQueued {["cpu" := "4"]}
    (mkTenantStoragePolicy "" "fast" "10Gi" "1Gi") (mkTenantBackupPolicy "velero" "0 1 * * *" "720h")
    (mkTenantSecurityPolicy "restricted" true true true) [] "" None demo_digest "" ∅ "" "" "" "key" demo_digest
    0 0 0 None "" "" "" "" None "".

(** a step of the history *)
Inductive Do : Type := T (c : TenantCall) | E (c : Call).
Definition do (s : MemoryStore) (x : Do) : MemoryStore :=
  match x with T c => (tenant_exec c s).1 | E c => (exec c s).1 end.
Definition history (xs : list Do) : MemoryStore := foldl do seed xs.
Definition fine (x : Do) : bool :=
  match x with
  | T (TCreateTenant v _) => (te_TaskLeaseExpiresAt v == None) && (te_TaskFenceToken v == 0)
  | _ => true
  end.

Lemma do_step s x : fine x = true -> tenant_step s (do s x).
Proof.
  intros H. destruct x as [c|c]; [apply ts_tenant|apply ts_engine]. destruct c; try exact I. cbn in H. by norm_bool.
Qed.
Lemma history_reachable xs : forallb fine xs = true -> tenant_reachable (history xs).
Proof.
  intros H. exists (fun _ => now), demo_id. split; [apply demo_id_source|].
  eapply (rtc_l _ _ seed); [apply ts_env; [split; [done|by apply frame_same]|done]|].
  unfold history. generalize seed. induction xs as [|x xs IH]; intros s; [constructor|].
  cbn in H. norm_bool. cbn. eapply rtc_l; [by apply do_step|by apply IH].
Qed.

Definition created : list Do :=
  [T (TUpsertEntitlement (mkEntitlement (newMeta "" 0) "o" "Pilot" 0 false [] None "") 0 "root");
   T (TCreateTenant request "alice")].
Definition tenant : string := Eval vm_compute in default "" (head (map_to_list (ms_tenants (history created))).*1).

Definition artifact (key : string) : TenantEvidenceArtifact := mkTenantEvidenceArtifact key "agent" "" "PASS" demo_digest "".
Definition evidence : list TenantEvidenceArtifact :=
  artifact <$> expectedTenantEvidence (mkTenantTaskResult tenant 0 "" true false "" "" [] "").
Definition evidence_digest : string := Eval vm_compute in tenantEvidenceDigest evidence.
Definition result_ (fence : Z) (action : string) (deleted : bool) : TenantTaskResult :=
  mkTenantTaskResult tenant fence action true deleted demo_digest "" evidence evidence_digest.

Definition claim : Do := T (TNextTask 0 "c" "sha256:agent").
Definition report (revision fence : Z) (action : string) (deleted : bool) : Do :=
  T (TReportTask "c" "sha256:agent" revision (result_ fence action deleted)).

(** claimed, provisioned, deletion requested and approved *)
Definition provisioned : list Do := (created ++ [claim; report 2 1 "PROVISION" false])%list.
Definition checkpoint : RecoveryCheckpoint :=
  mkRecoveryCheckpoint (newMeta "" 0) "p" "c" "velero" "backup-1" demo_digest "" Second (2 * now)
    RecoveryCheckpointVerified "" "" None.
Definition checkpointed : list Do := (provisioned ++ [E (CCreateCheckpoint checkpoint "alice")])%list.
Definition checkpoint_id : string :=
  Eval vm_compute in default "" (head (map_to_list (ms_recoveryCheckpoints (history checkpointed))).*1).
Definition approved : list Do :=
  (checkpointed ++ [T (TQueueAction tenant 3 "DELETE" "alice" checkpoint_id demo_digest); T (TApprove tenant 4 "bob")])%list.
Definition deleted : list Do := (approved ++ [claim; report 6 2 "DELETE" true])%list.

End TenantDemo.

Import TenantDemo.

Lemma tenants_stay_consistent_witness :
  exists t op, ms_tenants (history deleted) !! tenant = Some t /\ te_State t = TenantDeleted /\
    deletion_of (history deleted) t op /\ op_State op = OperationSucceeded.
Proof.
  destruct (found te_State (ms_tenants (history deleted) !! tenant) TenantDeleted) as (t & Et & Hst); [vm_compute; reflexivity|].
  assert (Hr : tenant_reachable (history deleted)) by (apply history_reachable; vm_compute; reflexivity).
  pose proof (tk_deletion _ _ _ (tw_each _ (tenants_stay_consistent _ Hr) _ _ Et)) as Hd.
  unfold deletion_ok in Hd. rewrite Hst in Hd. destruct Hd as (op & Hop & Hs).
  exists t, op. split; [exact Et|]. split; [exact Hst|]. split; [exact Hop|exact Hs].
Defined.

Lemma history_steps xs ys : forallb fine ys = true -> nsteps tenant_step (length ys) (history xs) (history (xs ++ ys)).
Proof.
  intros H. unfold history. rewrite foldl_app. generalize (foldl do seed xs). induction ys as [|y ys IH]; intros s; [constructor|].
  cbn in H. norm_bool. cbn. econstructor; [by apply do_step|by apply IH].
Qed.

Lemma tenant_histories_refine_lifecycles_witness :
  exists t', ms_tenants (history provisioned) !! tenant = Some t' /\
    rtc (fun a b => tenant_next a b = true) TenantQueued (te_State t').
Proof.
  destruct (found te_State (ms_tenants (history created) !! tenant) TenantQueued) as (t & Et & Hst); [vm_compute; reflexivity|].
  destruct (tenant_histories_refine_lifecycles (history created) (history provisioned) tenant t) as (_ & t' & Ht' & _ & Hs & _).
  - apply history_reachable. vm_compute. reflexivity.
  - eapply rtc_nsteps_2, (history_steps created [claim; report 2 1 "PROVISION" false]). vm_compute. reflexivity.
  - exact Et.
  - exists t'. split; [exact Ht'|]. rewrite <- Hst. exact Hs.
Defined.

Lemma tenant_claims_are_exclusive_witness :
  exists s' t old, NextTenantTask 0 "c" "sha256:agent" (history approved) = (s', Ok t) /\
    ms_tenants (history approved) !! rm_ID (te_Meta t) = Some old /\
    te_TaskFenceToken t = inc64 (te_TaskFenceToken old).
Proof.
  destruct (succeeds (NextTenantTask 0 "c" "sha256:agent") (history approved)) as (s' & t & E); [vm_compute; reflexivity|].
  destruct (tenant_claims_are_exclusive (history approved) s' 0 "c" "sha256:agent" t) as [(c & old & _ & Ho & _ & _ & Hf & _) _].
  - apply history_reachable. vm_compute. reflexivity.
  - exact E.
  - exists s', t, old. split; [exact E|]. split; [exact Ho|exact Hf].
Defined.

Lemma tenant_reports_are_single_use_witness :
  exists s1 t err, ReportTenantTask "c" "sha256:agent" 2 (result_ 1 "PROVISION" false) (history (created ++ [claim])) = (s1, Ok t) /\
    (ReportTenantTask "c" "sha256:agent" 3 (result_ 1 "PROVISION" false) s1).2 = Fail err.
Proof.
  destruct (succeeds (ReportTenantTask "c" "sha256:agent" 2 (result_ 1 "PROVISION" false)) (history (created ++ [claim])))
    as (s1 & t & E); [vm_compute; reflexivity|].
  destruct (tenant_reports_are_single_use 0 (history (created ++ [claim])) s1 s1 "c" "sha256:agent" 2
    (result_ 1 "PROVISION" false) t "c" "sha256:agent" 3 (result_ 1 "PROVISION" false)) as (err & He).
  - apply history_reachable. vm_compute. reflexivity.
  - exact E.
  - constructor.
  - vm_compute. discriminate.
  - reflexivity.
  - reflexivity.
  - exists s1, t, err. split; [exact E|exact He].
Defined.

Definition entitled : list Do := take 1 created.

Lemma created_tenants_are_bounded_witness :
  exists s' t en, CreateTenant request "alice" (history entitled) = (s', Ok (t, false)) /\
    live_tenants s' (te_OrganizationID t) <= en_MaxTenants en.
Proof.
  assert (Hv : match (CreateTenant request "alice" (history entitled)).2 with Ok (_, false) => true | _ => false end = true)
    by (vm_compute; reflexivity).
  destruct (CreateTenant request "alice" (history entitled)) as [s' [[t []]|e]] eqn:E; try discriminate Hv.
  destruct (created_tenants_are_bounded (history entitled) s' request "alice" t) as [(p & en & _ & _ & _ & Hl) _].
  - apply history_reachable. vm_compute. reflexivity.
  - vm_compute. discriminate.
  - exact E.
  - exists s', t, en. split; [reflexivity|exact Hl].
Defined.

(** ** Two observations *)

(** [ValidateTenantTaskEvidence] compares the action as sent with "SUSPEND",
    while the action was matched to the state in upper case and trimmed: a
    suspension reported as "suspend" is accepted without evidence that no pod
    runs, and must not even carry it. *)
Lemma mark_keys expected items : forall seen seen',
  markTenantEvidence expected seen items = Some seen' -> forall x, x ∈ items -> tenantEvidenceKey x ∈ expected.
Proof.
  induction items as [|y items IH]; intros seen seen' H x Hx; [by apply elem_of_nil in Hx|].
  cbn [markTenantEvidence] in H. case_match; [done|]. case_match eqn:E; [done|].
  apply orb_false_iff in E as [E _]. norm_bool. apply elem_of_cons in Hx as [->|Hx]; [done|by eapply IH].
Qed.

Lemma lower_case_suspension_lacks_evidence r x :
  ttr_Action r <> "SUSPEND" -> ValidateTenantTaskEvidence r = Ok tt -> x ∈ ttr_Evidence r ->
  tea_Key x <> "suspension/no-running-pods".
Proof.
  intros Ha Hv Hx Hk. unfold ValidateTenantTaskEvidence in Hv. case_match; [done|].
  destruct (markTenantEvidence _ _ _) as [seen|] eqn:Em; [|done]. pose proof (mark_keys _ _ _ _ Em _ Hx) as Hin.
  unfold tenantEvidenceKey in Hin. rewrite Hk in Hin. unfold expectedTenantEvidence in Hin.
  rewrite (bool_decide_eq_false_2 _ Ha) in Hin. cbn [HasPrefix String.prefix] in Hin.
  repeat (apply elem_of_cons in Hin as [Hin|Hin]; [discriminate Hin|]). by apply elem_of_nil in Hin.
Qed.

Definition suspending : list Do := (provisioned ++ [T (TQueueAction tenant 3 "SUSPEND" "alice" "" ""); claim])%list.
Example suspended_without_evidence :
  te_State <$> ms_tenants (history (suspending ++ [report 5 2 "suspend" false])) !! tenant = Some TenantSuspended.
Proof. vm_compute. reflexivity. Qed.

(** The oldest claimable tenant is claimed or fails the call: a deletion whose
    recovery checkpoint was revoked after the approval keeps the agent of the
    cluster from every younger task. *)
Definition other : TenantEnvironment :=
  mkTenantEnvironment (newMeta "" 0) "" "p" "c" "Team Two" "Team" "small" "" TenantQueued {["cpu" := "4"]}
    (mkTenantStoragePolicy "" "fast" "10Gi" "1Gi") (mkTenantBackupPolicy "velero" "0 1 * * *" "720h")
    (mkTenantSecurityPolicy "restricted" true true true) [] "" None demo_digest "" ∅ "" "" "" "key-2" demo_digest
    0 0 0 None "" "" "" "" None "".
Definition blocked : list Do :=
  (approved ++ [E (CRevokeCheckpoint checkpoint_id 1 "alice"); T (TCreateTenant other "alice")])%list.
Example revoked_checkpoint_blocks_the_queue :
  (tenant_exec (TNextTask 0 "c" "sha256:agent") (history blocked)).2 = Some ErrPrerequisite /\
  length (oldest_first te_Meta (tenantClaimable cluster "c" now) (ms_tenants (history blocked))) = 2%nat.
Proof. split; vm_compute; reflexivity. Qed.
