(* ===== verification/Baselines.v ===== *)
(** * Baseline deployments

    [baseline_store.go]: a baseline is planned by the cluster's agent, approved
    while the plan is fresh, applied and rolled back by agent tasks under fenced
    leases.  A plan binds the desired state, the cluster's inventory and a sealed
    impact; completion seals evidence; a rollback runs as a destructive operation
    of the operation engine. *)
From S2P Require Import Prelude GoStrings Digest Model Calendar Inventory Store Ordering Operations OwnerOperations.
From S2P Require Import FleetGateway Targets Fleet Tenants Compatibility Impact.

Definition ExecutionPlanTTL : Z := 30 * Minute.
Definition BaselineSourceMarketplace : string := "marketplace".

Definition ExecutionPlanContextDigest (desiredDigest observedDigest inventoryDigest impactDigest : string) : string :=
  sha256Digest (json_object [("desired", json_string (TrimSpace desiredDigest)); ("observed", json_string (TrimSpace observedDigest));
                             ("inventory", json_string (TrimSpace inventoryDigest)); ("impact", json_string (TrimSpace impactDigest))]).

Definition accepted {A} (r : result A) : bool := match r with Ok _ => true | Fail _ => false end.

(** an artifact whose retention has not begun or is over *)
Definition evidenceLapsed (now : Time) (item : BaselineEvidenceArtifact) : bool :=
  match be_CollectedAt item, be_RetainUntil item with
  | Some collected, Some until => negb (be_Required item) || negb (collected <? until) || negb (now <? until)
  | _, _ => true
  end.

Definition BaselineCompletionEvidenceReady (v : BaselineDeployment) (now : Time) : bool :=
  if (bd_State v != BaselineDeploymentSucceeded) || (bd_DesiredDigest v == "") || (bd_DesiredDigest v != bd_ObservedDigest v)
  then false
  else if negb (HasPrefix (bd_EvidenceDigest v) "sha256:") || negb (nonEmpty (bd_Evidence v))
          || (bd_EvidenceDigest v != BaselineEvidenceSetDigest (bd_Evidence v)) then false
  else if negb (accepted (ValidateEvidenceCollectionPlan (pi_Evidence (bd_PlanImpact v)))) then false
  else if negb (accepted (ValidateCollectedBaselineEvidence (pi_Evidence (bd_PlanImpact v)) (rm_ID (bd_Meta v)) (bd_Evidence v)))
  then false
  else negb (existsb (evidenceLapsed now) (bd_Evidence v)).

Definition BaselinePlanFresh (v : BaselineDeployment) (cluster : ManagedCluster) (now : Time) : bool :=
  if match bd_PlanCreatedAt v, bd_PlanExpiresAt v with Some _, Some expires => negb (now <? expires) | _, _ => true end then false
  else if blank (bd_PlanInventoryDigest v) || blank (mc_InventoryDigest cluster)
          || (bd_PlanInventoryDigest v != mc_InventoryDigest cluster) then false
  else HasPrefix (bd_PlanImpactDigest v) "sha256:" && (pi_Digest (bd_PlanImpact v) == bd_PlanImpactDigest v)
       && pi_ApprovalReady (bd_PlanImpact v) && (pp_Status (pi_Capability (bd_PlanImpact v)) == "PASS")
       && accepted (ValidateCapabilityPreflight (pi_Capability (bd_PlanImpact v)))
       && PlanningImpactSchemaReady (bd_PlanImpact v)
       && accepted (ValidateEvidenceCollectionPlan (pi_Evidence (bd_PlanImpact v)))
       && (bd_PlanContextDigest v == ExecutionPlanContextDigest (bd_DesiredDigest v) (bd_ObservedDigest v)
                                       (bd_PlanInventoryDigest v) (bd_PlanImpactDigest v)).

(** [BaselinePlanImpact{}] *)
Definition noImpact : BaselinePlanImpact :=
  mkBaselinePlanImpact 0 "" (mkCompatDecision "" "" (mkCompatTarget "" "" "" "") None [] "")
    (mkPlanCapabilityPreflight "" "" "" None [] [] "") None (mkPlanCapacityEstimate false 0 0 0 0 0 0 0 "" false [] [])
    (mkPlanDisruptionEstimate "" "" [] []) (mkPlanRollbackFeasibility "" "" None [] [] "")
    (mkPlanEvidenceCollection "" "" 0 None [] [] "") false [] [] "".

Definition resetBaselineForReplan (v : BaselineDeployment) (now : Time) (reason : string) : BaselineDeployment :=
  v <| bd_State := BaselineDeploymentPlanning |> <| bd_PendingAction := "PLAN" |> <| bd_ApprovedBy := "" |>
    <| bd_ApprovedAt := None |> <| bd_Plan := [] |> <| bd_PlanCreatedAt := None |> <| bd_PlanExpiresAt := None |>
    <| bd_PlanInventoryDigest := "" |> <| bd_PlanImpact := noImpact |> <| bd_PlanImpactDigest := "" |>
    <| bd_PlanContextDigest := "" |> <| bd_Evidence := [] |> <| bd_EvidenceDigest := "" |>
    <| bd_PlanRevalidationCount := inc64 (bd_PlanRevalidationCount v) |> <| bd_LastError := TrimSpace reason |>
    <| bd_FinishedAt := None |> <| bd_Meta := bump (bd_Meta v) now |>.

Definition ValidateBaselineDeploymentCreate (v : BaselineDeployment) : result BaselineDeployment :=
  let v := v <| bd_ProjectID := TrimSpace (bd_ProjectID v) |> <| bd_ClusterID := TrimSpace (bd_ClusterID v) |>
             <| bd_BaselineID := TrimSpace (bd_BaselineID v) |> <| bd_BaselineVersion := TrimSpace (bd_BaselineVersion v) |>
             <| bd_TargetNamespace := TrimSpace (bd_TargetNamespace v) |> <| bd_Risk := ToLower (TrimSpace (bd_Risk v)) |>
             <| bd_IdempotencyKey := TrimSpace (bd_IdempotencyKey v) |>
             <| bd_SourceType := ToLower (TrimSpace (bd_SourceType v)) |> <| bd_SourceID := TrimSpace (bd_SourceID v) |>
             <| bd_SourceVersion := TrimSpace (bd_SourceVersion v) |> in
  if (bd_ProjectID v == "") || (bd_ClusterID v == "") || (bd_BaselineID v == "") || (bd_BaselineVersion v == "")
     || (bd_TargetNamespace v == "") || negb (HasPrefix (bd_DesiredDigest v) sha256_prefix)
     || negb (HasPrefix (bd_RequestDigest v) sha256_prefix) || (bd_IdempotencyKey v == "") then Fail ErrValidation
  else if (bd_SourceType v == "") && (bd_SourceID v == "") && (bd_SourceVersion v == "") then Ok v
  else if (bd_SourceType v != BaselineSourceMarketplace) || (bd_SourceID v == "") || (bd_SourceVersion v == "")
  then Fail ErrValidation
  else Ok v.

(** a deployment that is still on its way *)
Definition baselineInFlight (state : BaselineDeploymentState) : bool :=
  match state with
  | BaselineDeploymentPlanning | BaselineDeploymentAwaitingApproval | BaselineDeploymentQueued
  | BaselineDeploymentApplying | BaselineDeploymentRollbackQueued | BaselineDeploymentRollingBack => true
  | _ => false
  end.

(** how the loop over the existing deployments ends *)
Inductive BaselineScan : Type :=
| BaselineRefused (e : Error)
| BaselineReplay (existing : BaselineDeployment)
| BaselineNew.

Fixpoint scanBaselines (v : BaselineDeployment) (existing : list BaselineDeployment) : BaselineScan :=
  match existing with
  | [] => BaselineNew
  | x :: rest =>
      if (bd_ProjectID x == bd_ProjectID v) && (bd_IdempotencyKey x == bd_IdempotencyKey v) then
        if bd_RequestDigest x != bd_RequestDigest v then BaselineRefused ErrIdempotencyConflict else BaselineReplay x
      else if (bd_ClusterID x == bd_ClusterID v) && (bd_BaselineID x == bd_BaselineID v) && baselineInFlight (bd_State x)
      then BaselineRefused ErrDuplicateName
      else scanBaselines v rest
  end.

Definition CreateBaselineDeployment (v : BaselineDeployment) (actor : string) : Store (BaselineDeployment * bool) :=
  let! s := get in
  let! _ := get_opt (ms_projects s !! bd_ProjectID v) ErrNotFound in
  let! cluster := get_opt (ms_managedClusters s !! bd_ClusterID v) ErrNotFound in
  fail_if (mc_ProjectID cluster != bd_ProjectID v) ErrNotFound ;;;
  let! v := lift (ValidateBaselineDeploymentCreate v) in
  match scanBaselines v ((map_to_list (ms_baselineDeployments s)).*2) with
  | BaselineRefused e => raise e
  | BaselineReplay existing => ret (existing, true)
  | BaselineNew =>
      let! now := nowUTC in
      let! id := newID "bld" in
      let v := v <| bd_Meta := newMeta id now |> <| bd_State := BaselineDeploymentPlanning |>
                 <| bd_PendingAction := "PLAN" |> <| bd_RequestedBy := actor |> <| bd_Plan := [] |> in
      putBaselineDeployment id v ;;;
      appendAuditLocked actor "baseline_deployment.created" "baselineDeployment" id (rm_Revision (bd_Meta v))
        [("clusterId", MStr (bd_ClusterID v)); ("baselineId", MStr (bd_BaselineID v))] ;;;
      appendOutboxLocked "baselineDeployment" id "baseline_deployment.planning_requested" (PayloadBaselineDeployment v) ;;;
      ret (v, false)
  end.

Definition GetBaselineDeployment (id : string) : Store BaselineDeployment :=
  let! s := get in
  get_opt (ms_baselineDeployments s !! id) ErrNotFound.

Definition ListBaselineDeployments (projectID clusterID : string) : Store (list BaselineDeployment) :=
  let! s := get in
  ret (oldest_first bd_Meta (fun v => ((projectID == "") || (bd_ProjectID v == projectID))
                                      && ((clusterID == "") || (bd_ClusterID v == clusterID))) (ms_baselineDeployments s)).

(** the deployment at an expected revision *)
Definition baselineAt (id : string) (expected : Z) : Store BaselineDeployment :=
  let! s := get in
  let! v := get_opt (ms_baselineDeployments s !! id) ErrNotFound in
  fail_if (rm_Revision (bd_Meta v) != expected) ErrConflict ;;;
  ret v.

Definition ApproveBaselineDeployment (id : string) (expected : Z) (actor : string) : Store BaselineDeployment :=
  let! v := baselineAt id expected in
  fail_if (bd_State v != BaselineDeploymentAwaitingApproval) ErrInvalidTransition ;;;
  let! now := nowUTC in
  let! s := get in
  let stale := if (pi_Digest (bd_PlanImpact v) != "") && negb (pi_ApprovalReady (bd_PlanImpact v))
               then ErrPrerequisite else ErrPlanStale in
  let! cluster := get_opt (ms_managedClusters s !! bd_ClusterID v) ErrPlanStale in
  fail_if (negb (BaselinePlanFresh v cluster now)) stale ;;;
  let v := v <| bd_State := BaselineDeploymentQueued |> <| bd_PendingAction := "APPLY" |> <| bd_ApprovedBy := actor |>
             <| bd_ApprovedAt := Some now |> <| bd_Meta := bump (bd_Meta v) now |> in
  putBaselineDeployment id v ;;;
  appendAuditLocked actor "baseline_deployment.approved" "baselineDeployment" id (rm_Revision (bd_Meta v))
    [("desiredDigest", MStr (bd_DesiredDigest v))] ;;;
  appendOutboxLocked "baselineDeployment" id "baseline_deployment.queued" (PayloadBaselineDeployment v) ;;;
  ret v.

Definition RevalidateBaselineDeployment (id : string) (expected : Z) (actor : string) : Store BaselineDeployment :=
  let! v := baselineAt id expected in
  fail_if ((bd_State v != BaselineDeploymentAwaitingApproval) && (bd_State v != BaselineDeploymentQueued)) ErrInvalidTransition ;;;
  let! now := nowUTC in
  let v := resetBaselineForReplan v now "plan revalidation requested" in
  putBaselineDeployment id v ;;;
  appendAuditLocked actor "baseline_deployment.revalidation_requested" "baselineDeployment" id (rm_Revision (bd_Meta v))
    [("revalidationCount", MInt (bd_PlanRevalidationCount v))] ;;;
  appendOutboxLocked "baselineDeployment" id "baseline_deployment.planning_requested" (PayloadBaselineDeployment v) ;;;
  ret v.

(** the state a failed deployment resumes in, by the action that failed *)
Definition resumedBaseline (pendingAction : string) : result BaselineDeploymentState :=
  if pendingAction == "PLAN" then Ok BaselineDeploymentPlanning
  else if pendingAction == "APPLY" then Ok BaselineDeploymentQueued
  else if pendingAction == "ROLLBACK" then Fail ErrPrerequisite
  else Fail ErrValidation.

Definition RetryBaselineDeployment (id : string) (expected : Z) (actor : string) : Store BaselineDeployment :=
  let! v := baselineAt id expected in
  fail_if (bd_State v != BaselineDeploymentFailed) ErrInvalidTransition ;;;
  let! state := lift (resumedBaseline (bd_PendingAction v)) in
  let! now := nowUTC in
  let v := v <| bd_State := state |> <| bd_LastError := "" |> <| bd_FinishedAt := None |> <| bd_Meta := bump (bd_Meta v) now |> in
  putBaselineDeployment id v ;;;
  appendAuditLocked actor "baseline_deployment.retry_queued" "baselineDeployment" id (rm_Revision (bd_Meta v))
    [("action", MStr (bd_PendingAction v))] ;;;
  appendOutboxLocked "baselineDeployment" id "baseline_deployment.retry_queued" (PayloadBaselineDeployment v) ;;;
  ret v.

Definition QueueBaselineRollback (id : string) (expected : Z) (actor recoveryCheckpointID requestDigest : string)
    : Store BaselineDeployment :=
  let! v := baselineAt id expected in
  fail_if ((bd_State v != BaselineDeploymentSucceeded) && (bd_State v != BaselineDeploymentFailed)
           && (bd_State v != BaselineDeploymentRollbackQueued)) ErrInvalidTransition ;;;
  when (bd_State v == BaselineDeploymentRollbackQueued)
    (cancelOwnerDestructiveOperationLocked (bd_DestructiveOperationID v) actor
       "recovery checkpoint superseded before rollback claim") ;;;
  let! op := createOwnerDestructiveOperationLocked (bd_ProjectID v) (bd_ClusterID v) OwnerOperationBaselineRollback
               (rm_ID (bd_Meta v)) (rm_Revision (bd_Meta v)) (bd_DesiredDigest v) recoveryCheckpointID actor requestDigest false in
  let! now := nowUTC in
  let v := v <| bd_State := BaselineDeploymentRollbackQueued |> <| bd_DestructiveOperationID := op_ID op |>
             <| bd_PendingAction := "ROLLBACK" |> <| bd_LastError := "" |> <| bd_FinishedAt := None |>
             <| bd_Meta := bump (bd_Meta v) now |> in
  putBaselineDeployment id v ;;;
  appendAuditLocked actor "baseline_deployment.rollback_queued" "baselineDeployment" id (rm_Revision (bd_Meta v)) [] ;;;
  appendOutboxLocked "baselineDeployment" id "baseline_deployment.rollback_queued" (PayloadBaselineDeployment v) ;;;
  ret v.

(** ** Agent tasks *)

(** a deployment whose task the cluster's agent may claim *)
Definition baselineClaimable (clusterID : string) (now : Time) (v : BaselineDeployment) : bool :=
  (bd_ClusterID v == clusterID)
  && match bd_State v with
     | BaselineDeploymentQueued | BaselineDeploymentRollbackQueued => true
     | BaselineDeploymentPlanning | BaselineDeploymentApplying | BaselineDeploymentRollingBack =>
         negb (AgentTaskLeaseActive (bd_TaskLeaseExpiresAt v) now)
     | _ => false
     end.

Definition baselineRollbackExpired : string :=
  "baseline rollback task lease expired; explicit recovery-bound retry is required".

(** a rollback whose lease ran out is failed, never handed out again *)
Definition failExpiredRollback (v : BaselineDeployment) (now : Time) : Store BaselineDeployment :=
  let! _ := finishOwnerDestructiveOperationLocked (bd_DestructiveOperationID v) false baselineRollbackExpired "cluster-agent" in
  let v := v <| bd_State := BaselineDeploymentFailed |> <| bd_LastError := baselineRollbackExpired |>
             <| bd_TaskLeaseExpiresAt := None |> <| bd_FinishedAt := Some now |> <| bd_Meta := bump (bd_Meta v) now |> in
  putBaselineDeployment (rm_ID (bd_Meta v)) v ;;;
  appendAuditLocked "cluster-agent" "baseline_deployment.task.lease_expired" "baselineDeployment" (rm_ID (bd_Meta v))
    (rm_Revision (bd_Meta v)) [("action", MStr "ROLLBACK"); ("taskFenceToken", MInt (bd_TaskFenceToken v))] ;;;
  appendOutboxLocked "baselineDeployment" (rm_ID (bd_Meta v)) "baseline_deployment.failed" (PayloadBaselineDeployment v) ;;;
  raise ErrNotFound.

(** an approved plan that went stale is planned again *)
Definition replanIfStale (v : BaselineDeployment) (cluster : ManagedCluster) (now : Time) : Store BaselineDeployment :=
  if (bd_State v == BaselineDeploymentQueued) && negb (BaselinePlanFresh v cluster now) then
    let v := resetBaselineForReplan v now "approved plan became stale before apply; a fresh read-only plan is required" in
    putBaselineDeployment (rm_ID (bd_Meta v)) v ;;;
    appendAuditLocked "cluster-agent" "baseline_deployment.plan_stale" "baselineDeployment" (rm_ID (bd_Meta v))
      (rm_Revision (bd_Meta v)) [("inventoryDigest", MStr (mc_InventoryDigest cluster))] ;;;
    appendOutboxLocked "baselineDeployment" (rm_ID (bd_Meta v)) "baseline_deployment.planning_requested"
      (PayloadBaselineDeployment v) ;;;
    ret v
  else ret v.

Definition startedAt (v : BaselineDeployment) (now : Time) : option Time :=
  match bd_StartedAt v with None => Some now | t => t end.

(** the action of the claimed task and the deployment as it runs *)
Definition startBaselineTask (v : BaselineDeployment) (now : Time) : Store (string * BaselineDeployment) :=
  match bd_State v with
  | BaselineDeploymentQueued =>
      ret ("APPLY", v <| bd_State := BaselineDeploymentApplying |> <| bd_StartedAt := startedAt v now |>)
  | BaselineDeploymentApplying => ret ("APPLY", v)
  | BaselineDeploymentRollbackQueued =>
      let! _ := startOwnerDestructiveOperationLocked (bd_DestructiveOperationID v) (bd_ProjectID v) (bd_ClusterID v)
                  "cluster-agent" in
      ret ("ROLLBACK", v <| bd_State := BaselineDeploymentRollingBack |> <| bd_StartedAt := startedAt v now |>)
  | BaselineDeploymentRollingBack => ret ("ROLLBACK", v)
  | _ => ret ("PLAN", v)
  end.

(** the deployment under its new lease *)
Definition leased (v : BaselineDeployment) (now : Time) : BaselineDeployment :=
  v <| bd_TaskAttempt := inc64 (bd_TaskAttempt v) |> <| bd_TaskFenceToken := inc64 (bd_TaskFenceToken v) |>
    <| bd_TaskLeaseExpiresAt := Some (now + AgentTaskLeaseDuration) |> <| bd_Meta := bump (bd_Meta v) now |>.

Definition leaseBaselineTask (action : string) (v : BaselineDeployment) (now : Time) : Store BaselineDeployment :=
  let v := leased v now in
  putBaselineDeployment (rm_ID (bd_Meta v)) v ;;;
  appendAuditLocked "cluster-agent" "baseline_deployment.task_claimed" "baselineDeployment" (rm_ID (bd_Meta v))
    (rm_Revision (bd_Meta v))
    [("action", MStr action); ("attempt", MInt (bd_TaskAttempt v)); ("taskFenceToken", MInt (bd_TaskFenceToken v));
     ("leaseExpiresAt", MTime (Some (now + AgentTaskLeaseDuration)))] ;;;
  ret v.

Definition handOutBaselineTask (v : BaselineDeployment) (cluster : ManagedCluster) (now : Time) : Store BaselineDeployment :=
  let! v := replanIfStale v cluster now in
  let! (action, v) := startBaselineTask v now in
  leaseBaselineTask action v now.

Definition NextBaselineTask (wall : Time) (clusterID agentTokenDigest : string) : Store BaselineDeployment :=
  let! cluster := requireFreshClusterTaskAdmissionLocked wall clusterID agentTokenDigest in
  let! now := nowUTC in
  let! s := get in
  match oldest_first bd_Meta (baselineClaimable clusterID now) (ms_baselineDeployments s) with
  | [] => raise ErrNotFound
  | v :: _ =>
      if (bd_State v == BaselineDeploymentRollingBack) && (bd_TaskLeaseExpiresAt v != None)
      then failExpiredRollback v now else
      handOutBaselineTask v cluster now
  end.

Definition failBaseline (v : BaselineDeployment) (error : string) : BaselineDeployment :=
  v <| bd_State := BaselineDeploymentFailed |> <| bd_LastError := error |>.

(** a reported plan *)
Definition reportPlan (component : option CompatConstraint) (cluster : ManagedCluster) (v : BaselineDeployment)
    (result_ : BaselineTaskResult) (now : Time) : result BaselineDeployment :=
  if negb (btr_Success result_) then Ok ((failBaseline v (TrimSpace (btr_Error result_))) <| bd_FinishedAt := Some now |>)
  else if blank (mc_InventoryDigest cluster) || negb (HasPrefix (mc_InventoryDigest cluster) sha256_prefix)
  then Fail ErrPrerequisite
  else match ValidatePlanningImpact component (btr_Impact result_) (mc_InventoryDigest cluster) (btr_Changes result_) with
       | Fail e => Fail e
       | Ok _ =>
           let v := v <| bd_Plan := btr_Changes result_ |> <| bd_PlanImpact := btr_Impact result_ |>
                      <| bd_PlanImpactDigest := pi_Digest (btr_Impact result_) |>
                      <| bd_PreviousDigest := btr_ObservedDigest result_ |>
                      <| bd_ObservedDigest := btr_ObservedDigest result_ |> <| bd_PlanCreatedAt := Some now |>
                      <| bd_PlanExpiresAt := Some (now + ExecutionPlanTTL) |>
                      <| bd_PlanInventoryDigest := mc_InventoryDigest cluster |> in
           Ok (v <| bd_PlanContextDigest := ExecutionPlanContextDigest (bd_DesiredDigest v) (bd_ObservedDigest v)
                                              (bd_PlanInventoryDigest v) (bd_PlanImpactDigest v) |>
                 <| bd_State := BaselineDeploymentAwaitingApproval |> <| bd_PendingAction := "" |> <| bd_LastError := "" |>)
       end.

(** a reported application *)
Definition reportApply (v : BaselineDeployment) (result_ : BaselineTaskResult) (now : Time) : result BaselineDeployment :=
  if negb (btr_Success result_) || (btr_ObservedDigest result_ != bd_DesiredDigest v) then
    let error := TrimSpace (btr_Error result_) in
    Ok ((failBaseline v (if error == "" then "observed digest does not match desired digest" else error))
          <| bd_FinishedAt := Some now |>)
  else match SealBaselineEvidence (pi_Evidence (bd_PlanImpact v)) (rm_ID (bd_Meta v)) (btr_Evidence result_) now with
       | Fail _ => Fail ErrValidation
       | Ok (sealed, digest) =>
           Ok (v <| bd_State := BaselineDeploymentSucceeded |> <| bd_PendingAction := "" |>
                 <| bd_ObservedDigest := btr_ObservedDigest result_ |> <| bd_Evidence := sealed |>
                 <| bd_EvidenceDigest := digest |> <| bd_LastError := "" |> <| bd_FinishedAt := Some now |>)
       end.

(** a reported rollback *)
Definition reportRollback (v : BaselineDeployment) (result_ : BaselineTaskResult) : BaselineDeployment :=
  if negb (btr_Success result_) then failBaseline v (TrimSpace (btr_Error result_))
  else v <| bd_State := BaselineDeploymentRolledBack |> <| bd_PendingAction := "" |>
         <| bd_ObservedDigest := btr_ObservedDigest result_ |> <| bd_LastError := "" |>.

Definition applyBaselineReport (component : option CompatConstraint) (cluster : ManagedCluster) (v : BaselineDeployment)
    (result_ : BaselineTaskResult) (now : Time) : Store BaselineDeployment :=
  let action := ToUpper (btr_Action result_) in
  if action == "PLAN" then
    fail_if (bd_State v != BaselineDeploymentPlanning) ErrInvalidTransition ;;;
    lift (reportPlan component cluster v result_ now)
  else if action == "APPLY" then
    fail_if (bd_State v != BaselineDeploymentApplying) ErrInvalidTransition ;;;
    lift (reportApply v result_ now)
  else if action == "ROLLBACK" then
    fail_if (bd_State v != BaselineDeploymentRollingBack) ErrInvalidTransition ;;;
    let v := reportRollback v result_ in
    let! _ := finishOwnerDestructiveOperationLocked (bd_DestructiveOperationID v) (btr_Success result_) (bd_LastError v)
                "cluster-agent" in
    ret (v <| bd_FinishedAt := Some now |>)
  else raise ErrValidation.

Definition baselineReportAudit (v : BaselineDeployment) (result_ : BaselineTaskResult) : list (string * MetaValue) :=
  ([("observedDigest", MStr (btr_ObservedDigest result_)); ("taskFenceToken", MInt (btr_TaskFenceToken result_))]
   ++ if EqualFold (btr_Action result_) "PLAN" && btr_Success result_ then
        [("planImpactDigest", MStr (bd_PlanImpactDigest v)); ("approvalReady", MBool (pi_ApprovalReady (bd_PlanImpact v)));
         ("disruption", MStr (pd_Level (pi_Disruption (bd_PlanImpact v))));
         ("maintenance", MStr (pd_MaintenanceRecommendation (pi_Disruption (bd_PlanImpact v))));
         ("apiImpactCount", MInt (Z.of_nat (length (elems (pi_API (bd_PlanImpact v))))));
         ("capacityCeilingCheck", MStr (pe_CeilingCheck (pi_Capacity (bd_PlanImpact v))))]
      else [])%list.

Definition recordBaselineReport (v : BaselineDeployment) (result_ : BaselineTaskResult) (now : Time) : Store BaselineDeployment :=
  let v := v <| bd_Meta := bump (bd_Meta v) now |> in
  let action := "baseline_deployment." +:+ ToLower (BaselineDeploymentState_string (bd_State v)) in
  putBaselineDeployment (rm_ID (bd_Meta v)) v ;;;
  appendAuditLocked "cluster-agent" action "baselineDeployment" (rm_ID (bd_Meta v)) (rm_Revision (bd_Meta v))
    (baselineReportAudit v result_) ;;;
  appendOutboxLocked "baselineDeployment" (rm_ID (bd_Meta v)) action (PayloadBaselineDeployment v) ;;;
  ret v.

Definition ReportBaselineTask (component : option CompatConstraint) (clusterID agentTokenDigest : string) (expected : Z)
    (result_ : BaselineTaskResult) : Store BaselineDeployment :=
  let! cluster := requireClusterTaskAdmissionLocked clusterID agentTokenDigest in
  let! s := get in
  let! v := get_opt (ms_baselineDeployments s !! btr_DeploymentID result_) ErrNotFound in
  fail_if (bd_ClusterID v != clusterID) ErrNotFound ;;;
  let! now := nowUTC in
  fail_if ((rm_Revision (bd_Meta v) != expected) || (btr_TaskFenceToken result_ <=? 0)
           || (bd_TaskFenceToken v != btr_TaskFenceToken result_)
           || negb (AgentTaskLeaseActive (bd_TaskLeaseExpiresAt v) now)) ErrConflict ;;;
  let! v := applyBaselineReport component cluster v result_ now in
  recordBaselineReport v result_ now.
