(* ===== verification/BaselineTheorems.v ===== *)
(** * Baseline deployments stay consistent with the operation engine

    The handlers of baseline deployments interleaved with every call of the
    operation engine and with the other components: deployments follow their
    lifecycle, request keys are unique per project, what is queued or applied
    was approved while its plan was fresh, what succeeded has sealed evidence,
    and what was rolled back has its destructive operation SUCCEEDED. *)
From S2P Require Import Prelude GoStrings Digest Model Calendar Store Ordering Operations OwnerOperations.
From S2P Require Import Lifecycle OperationSystem OperationRuns Neutrality Collections FleetGateway Targets Fleet.
From S2P Require Import OwnerRuns Tenants Compatibility Impact ImpactTheorems Baselines.

(** ** Calls *)

Inductive BaselineCall : Type :=
| BCreate (v : BaselineDeployment) (actor : string)
| BApprove (id : string) (expected : Z) (actor : string)
| BRevalidate (id : string) (expected : Z) (actor : string)
| BRetry (id : string) (expected : Z) (actor : string)
| BQueueRollback (id : string) (expected : Z) (actor recoveryCheckpointID requestDigest : string)
| BNextTask (wall : Time) (clusterID agentTokenDigest : string)
| BReportTask (component : option CompatConstraint) (clusterID agentTokenDigest : string) (expected : Z)
    (result_ : BaselineTaskResult).

Definition baseline_exec (c : BaselineCall) : MemoryStore -> MemoryStore * option Error :=
  match c with
  | BCreate v actor => run1 (CreateBaselineDeployment v actor)
  | BApprove id e actor => run1 (ApproveBaselineDeployment id e actor)
  | BRevalidate id e actor => run1 (RevalidateBaselineDeployment id e actor)
  | BRetry id e actor => run1 (RetryBaselineDeployment id e actor)
  | BQueueRollback id e actor rc rd => run1 (QueueBaselineRollback id e actor rc rd)
  | BNextTask wall k d => run1 (NextBaselineTask wall k d)
  | BReportTask comp k d e r => run1 (ReportBaselineTask comp k d e r)
  end.

Lemma baseline_exec_driven c s : rtc (step true) s (baseline_exec c s).1.
Proof.
  revert s. destruct c; cbn [baseline_exec run1 fst];
    match goal with |- forall s, rtc (step true) s (?m s).1 => change (EngineDriven m) end.
  - unfold CreateBaselineDeployment. driven_tac.
  - unfold ApproveBaselineDeployment, baselineAt. driven_tac.
  - unfold RevalidateBaselineDeployment, baselineAt. driven_tac.
  - unfold RetryBaselineDeployment, baselineAt. driven_tac.
  - unfold QueueBaselineRollback, baselineAt. driven_tac.
  - unfold NextBaselineTask, handOutBaselineTask, failExpiredRollback, replanIfStale, startBaselineTask, leaseBaselineTask. driven_tac; apply driven_neutral; exact _.
  - unfold ReportBaselineTask, applyBaselineReport, recordBaselineReport. driven_tac; apply driven_neutral; exact _.
Qed.

(** ** The lifecycle of a deployment *)

(** the moves the handlers make *)
Definition baseline_next (from to : BaselineDeploymentState) : bool :=
  match from, to with
  | BaselineDeploymentPlanning, (BaselineDeploymentPlanning | BaselineDeploymentAwaitingApproval | BaselineDeploymentFailed) => true
  | BaselineDeploymentAwaitingApproval, (BaselineDeploymentPlanning | BaselineDeploymentQueued) => true
  | BaselineDeploymentQueued, (BaselineDeploymentPlanning | BaselineDeploymentApplying) => true
  | BaselineDeploymentApplying, (BaselineDeploymentApplying | BaselineDeploymentSucceeded | BaselineDeploymentFailed) => true
  | BaselineDeploymentFailed, (BaselineDeploymentPlanning | BaselineDeploymentQueued | BaselineDeploymentRollbackQueued) => true
  | BaselineDeploymentSucceeded, BaselineDeploymentRollbackQueued => true
  | BaselineDeploymentRollbackQueued, (BaselineDeploymentRollbackQueued | BaselineDeploymentRollingBack) => true
  | BaselineDeploymentRollingBack, (BaselineDeploymentRolledBack | BaselineDeploymentFailed) => true
  | _, _ => false
  end.

(** what never changes of a deployment *)
Definition baseline_identity (v : BaselineDeployment) :=
  (rm_ID (bd_Meta v), rm_CreatedAt (bd_Meta v), bd_ProjectID v, bd_ClusterID v, bd_BaselineID v, bd_BaselineVersion v,
   bd_TargetNamespace v, bd_DesiredDigest v, bd_RequestDigest v, bd_IdempotencyKey v, bd_RequestedBy v).

(** the plan expires half an hour after it was reported *)
Definition plan_dated (v : BaselineDeployment) (created : Time) : Prop :=
  bd_PlanCreatedAt v = Some created /\ bd_PlanExpiresAt v = Some (created + ExecutionPlanTTL).

(** the plan was approved before it expired *)
Definition approved_in_time (v : BaselineDeployment) : Prop :=
  exists created approved, plan_dated v created /\ bd_ApprovedAt v = Some approved /\ approved < created + ExecutionPlanTTL.

(** the approved plan is the one that was fresh: it is fresh again at every time
    before it expires, on every cluster with the inventory it was made for *)
Definition plan_intact (v : BaselineDeployment) : Prop :=
  forall cluster now, mc_InventoryDigest cluster = bd_PlanInventoryDigest v ->
    (forall expires, bd_PlanExpiresAt v = Some expires -> now < expires) -> BaselinePlanFresh v cluster now = true.

(** the evidence that completed the deployment, sealed when it finished *)
Record completed (v : BaselineDeployment) (finished : Time) : Prop := {
  cp_finished : bd_FinishedAt v = Some finished;
  cp_converged : bd_ObservedDigest v = bd_DesiredDigest v;
  cp_valid : ValidateCollectedBaselineEvidence (pi_Evidence (bd_PlanImpact v)) (rm_ID (bd_Meta v)) (bd_Evidence v) = Ok tt;
  cp_digest : bd_EvidenceDigest v = BaselineEvidenceSetDigest (bd_Evidence v);
  cp_nonempty : bd_Evidence v <> [];
  cp_retained : Forall (fun x => be_CollectedAt x = Some finished /\
    be_RetainUntil x = Some (finished + be_RetentionDays x * 24 * Hour) /\ 30 <= be_RetentionDays x) (bd_Evidence v)
}.

(** the operation that rolls the deployment back *)
Definition rollback_of (s : MemoryStore) (v : BaselineDeployment) (op : Operation) : Prop :=
  owned s (bd_DestructiveOperationID v) (bd_ProjectID v) (bd_ClusterID v) op.

(** what each stage of the workflow has established *)
Definition stage_ok (s : MemoryStore) (v : BaselineDeployment) : Prop :=
  match bd_State v with
  | BaselineDeploymentPlanning => bd_PendingAction v = "PLAN"
  | BaselineDeploymentAwaitingApproval => exists created, plan_dated v created
  | BaselineDeploymentQueued | BaselineDeploymentApplying =>
      bd_PendingAction v = "APPLY" /\ approved_in_time v /\ plan_intact v
  | BaselineDeploymentSucceeded => approved_in_time v /\ exists finished, completed v finished
  | BaselineDeploymentFailed =>
      bd_PendingAction v ∈ ["PLAN"; "APPLY"; "ROLLBACK"] /\
      (bd_PendingAction v = "APPLY" -> approved_in_time v /\ plan_intact v)
  | BaselineDeploymentRollbackQueued => bd_PendingAction v = "ROLLBACK"
  | BaselineDeploymentRollingBack =>
      bd_PendingAction v = "ROLLBACK" /\ bd_TaskLeaseExpiresAt v <> None /\ exists op, rollback_of s v op
  | BaselineDeploymentRolledBack => exists op, rollback_of s v op /\ op_State op = OperationSucceeded
  end.

Record baseline_ok (s : MemoryStore) (id : string) (v : BaselineDeployment) : Prop := {
  bk_id : rm_ID (bd_Meta v) = id;
  bk_desired : HasPrefix (bd_DesiredDigest v) sha256_prefix = true;
  bk_stage : stage_ok s v
}.

Definition same_request (a b : BaselineDeployment) : Prop :=
  bd_ProjectID a = bd_ProjectID b /\ bd_IdempotencyKey a = bd_IdempotencyKey b.

Record baselines_wf (s : MemoryStore) : Prop := {
  bw_each : forall id v, ms_baselineDeployments s !! id = Some v -> baseline_ok s id v;
  bw_filed : filed s (ms_baselineDeployments s);
  bw_keys : forall i j a b, ms_baselineDeployments s !! i = Some a -> ms_baselineDeployments s !! j = Some b ->
    same_request a b -> i = j
}.

(** one deployment moved *)
Record baseline_moves (s' : MemoryStore) (v v' : BaselineDeployment) : Prop := {
  bm_identity : baseline_identity v' = baseline_identity v;
  bm_next : rtc (fun a b => baseline_next a b = true) (bd_State v) (bd_State v');
  bm_fence : bd_TaskFenceToken v' = bd_TaskFenceToken v \/ bd_TaskFenceToken v' = inc64 (bd_TaskFenceToken v);
  bm_stage : stage_ok s' v'
}.

(** what a handler does to the deployments: nothing, one moves, or one is added *)
Inductive baselines_effect (s s' : MemoryStore) : Prop :=
| baselines_same : ms_baselineDeployments s' = ms_baselineDeployments s -> baselines_effect s s'
| baselines_move id v v' : ms_baselineDeployments s !! id = Some v ->
    ms_baselineDeployments s' = <[id := v']> (ms_baselineDeployments s) -> baseline_moves s' v v' -> baselines_effect s s'
| baselines_add n p v : (ms_ids s <= n < ms_ids s')%nat ->
    ms_baselineDeployments s' = <[ms_id s n p := v]> (ms_baselineDeployments s) ->
    baseline_ok s' (ms_id s n p) v -> bd_State v = BaselineDeploymentPlanning ->
    (forall k b, ms_baselineDeployments s !! k = Some b -> ~ same_request v b) -> baselines_effect s s'.

#[export] Instance baselines_outside : Outside ms_baselineDeployments.
Proof. by split. Qed.

(** ** The invariant is preserved *)

Lemma stage_steps s s' v : rtc (step true) s s' -> engine_inv true s -> stage_ok s v -> stage_ok s' v.
Proof.
  intros Hs Hinv. unfold stage_ok, rollback_of. destruct (bd_State v); try done.
  - intros (Hp & Hl & op & Ho). destruct (owned_steps _ _ _ _ _ _ Hs Hinv Ho) as (op' & Ho' & _). eauto.
  - intros (op & Ho & Ht). destruct (owned_steps _ _ _ _ _ _ Hs Hinv Ho) as (op' & Ho' & Hk). eauto.
Qed.

Definition rollback_key (v : BaselineDeployment) := (bd_DestructiveOperationID v, bd_ProjectID v, bd_ClusterID v).
Lemma rollback_operations s s' v v' op :
  ms_operations s' = ms_operations s -> rollback_key v' = rollback_key v -> rollback_of s v op -> rollback_of s' v' op.
Proof. unfold rollback_of, owned. by intros -> [= -> -> ->]. Qed.

(** *** What the stages need *)

(** the fields approval looked at *)
Definition plan_core (v : BaselineDeployment) :=
  (bd_PlanCreatedAt v, bd_PlanExpiresAt v, bd_ApprovedAt v, bd_PlanInventoryDigest v, bd_PlanImpact v,
   bd_PlanImpactDigest v, bd_PlanContextDigest v, bd_DesiredDigest v, bd_ObservedDigest v).
Definition approved_plan (v : BaselineDeployment) : Prop := approved_in_time v /\ plan_intact v.
Lemma approved_core v v' : plan_core v' = plan_core v -> approved_plan v -> approved_plan v'.
Proof.
  intros [= E1 E2 E3 E4 E5 E6 E7 E8 E9]. unfold approved_plan, approved_in_time, plan_dated, plan_intact, BaselinePlanFresh.
  by rewrite E1, E2, E3, E4, E5, E6, E7, E8, E9.
Qed.

Definition plan_dates (v : BaselineDeployment) := (bd_PlanCreatedAt v, bd_PlanExpiresAt v, bd_ApprovedAt v).
Lemma in_time_core v v' : plan_dates v' = plan_dates v -> approved_in_time v -> approved_in_time v'.
Proof. intros [= E1 E2 E3]. unfold approved_in_time, plan_dated. by rewrite E1, E2, E3. Qed.

Lemma stage_awaiting s v created :
  bd_State v = BaselineDeploymentAwaitingApproval -> bd_PlanCreatedAt v = Some created ->
  bd_PlanExpiresAt v = Some (created + ExecutionPlanTTL) -> stage_ok s v.
Proof. unfold stage_ok, plan_dated. intros ->. eauto. Qed.
Lemma stage_succeeded s v finished :
  bd_State v = BaselineDeploymentSucceeded -> approved_in_time v -> completed v finished -> stage_ok s v.
Proof. unfold stage_ok. intros ->. eauto. Qed.
Lemma stage_rolled_back s v op :
  bd_State v = BaselineDeploymentRolledBack -> rollback_of s v op -> op_State op = OperationSucceeded -> stage_ok s v.
Proof. unfold stage_ok. intros ->. eauto. Qed.
Lemma stage_planning s v : bd_State v = BaselineDeploymentPlanning -> bd_PendingAction v = "PLAN" -> stage_ok s v.
Proof. unfold stage_ok. by intros ->. Qed.
Lemma stage_apply s v :
  bd_State v = BaselineDeploymentQueued \/ bd_State v = BaselineDeploymentApplying ->
  bd_PendingAction v = "APPLY" -> approved_plan v -> stage_ok s v.
Proof. unfold stage_ok. by intros [->| ->]. Qed.
Lemma stage_rolling s v op :
  bd_State v = BaselineDeploymentRollingBack -> bd_PendingAction v = "ROLLBACK" -> bd_TaskLeaseExpiresAt v <> None ->
  rollback_of s v op -> stage_ok s v.
Proof. unfold stage_ok. intros ->. eauto. Qed.
Lemma stage_failed s v :
  bd_State v = BaselineDeploymentFailed -> bd_PendingAction v ∈ ["PLAN"; "APPLY"; "ROLLBACK"] ->
  (bd_PendingAction v = "APPLY" -> approved_plan v) -> stage_ok s v.
Proof. unfold stage_ok. intros ->. eauto. Qed.

(** what a stage gives back *)
Lemma ready_stage s v :
  stage_ok s v -> bd_State v = BaselineDeploymentQueued \/ bd_State v = BaselineDeploymentApplying ->
  bd_PendingAction v = "APPLY" /\ approved_plan v.
Proof. unfold stage_ok. by intros H [E|E]; rewrite E in H. Qed.

(** a stage looks at the operations and at these fields only *)
Definition stage_view (v : BaselineDeployment) :=
  (bd_State v, bd_PendingAction v, rollback_key v, bd_TaskLeaseExpiresAt v, plan_core v,
   (rm_ID (bd_Meta v), bd_FinishedAt v, bd_Evidence v, bd_EvidenceDigest v)).
Lemma stage_operations s s' v v' :
  ms_operations s' = ms_operations s -> stage_view v' = stage_view v -> stage_ok s v -> stage_ok s' v'.
Proof.
  intros Eo Ev. injection Ev as E1 E2 E3 E4 E5 E6 E7 E8 E9 E10 E11 E12 E13 E14 E15 E16 E17 E18 E19.
  unfold stage_ok. rewrite E1, E2. destruct (bd_State v); try done.
  all: unfold approved_in_time, plan_dated, plan_intact, BaselinePlanFresh, rollback_of, owned.
  all: rewrite ?E3, ?E4, ?E5, ?E6, ?E7, ?E8, ?E9, ?E10, ?E11, ?E12, ?E13, ?E14, ?E15, ?Eo; try done.
  intros [Ha [f [C1 C2 C3 C4 C5 C6]]]. split; [done|]. exists f. split; congruence.
Qed.

Lemma request_sym a b : same_request a b -> same_request b a.
Proof. intros []. by split. Qed.
Lemma moved_request s' v v' b : baseline_moves s' v v' -> same_request v' b -> same_request v b.
Proof. intros [[= _ _ Hp _ _ _ _ _ _ Hk _] _ _ _] [E1 E2]. split; congruence. Qed.

Lemma baselines_effect_wf s s' :
  baselines_wf s -> engine_inv true s -> rtc (step true) s s' -> baselines_effect s s' -> baselines_wf s'.
Proof.
  intros [He Hf Hk] Hinv Hr Heff. pose proof (steps_drawn _ _ Hr Hinv) as Hd.
  assert (Hold : forall id v, ms_baselineDeployments s !! id = Some v -> baseline_ok s' id v).
  { intros id v Hv. destruct (He id v Hv). split; [done|done|by eapply stage_steps]. }
  destruct Heff as [E|id v v' Hv E Hm|n p v Hn E Hok Hst Hkey].
  - split; rewrite E; try done. by eapply filed_mono.
  - split; rewrite E.
    + intros i x [[<- <-]|[_ Hx]]%lookup_insert_Some; [|by apply Hold].
      destruct (He id v Hv) as [Hi Hde _]. destruct Hm as [Hid _ _ Hsg].
      injection Hid as Ei _ _ _ _ _ _ Ed _ _ _. split; [congruence|congruence|done].
    + by eapply filed_update.
    + apply unique_insert; [apply request_sym|done|]. intros j b Hj Hs.
      symmetry. exact (Hk _ _ _ _ Hv Hj (moved_request _ _ _ _ Hm Hs)).
  - split; rewrite E.
    + intros i x [[<- <-]|[_ Hx]]%lookup_insert_Some; [done|by apply Hold].
    + apply filed_insert; [done|lia|done].
    + apply unique_insert; [apply request_sym|done|]. intros j b Hj Hs. by destruct (Hkey j b Hj).
Qed.

(** ** Plans *)

(** freshness splits into what the plan says and what time and cluster say *)
Lemma fresh_plan v cluster now :
  BaselinePlanFresh v cluster now = true ->
  (exists created expires, bd_PlanCreatedAt v = Some created /\ bd_PlanExpiresAt v = Some expires /\ now < expires) /\
  mc_InventoryDigest cluster = bd_PlanInventoryDigest v /\ plan_intact v.
Proof.
  unfold plan_intact, BaselinePlanFresh. intros H.
  destruct (bd_PlanCreatedAt v) as [c|], (bd_PlanExpiresAt v) as [e|]; try done.
  destruct (negb (now <? e)) eqn:E1; [done|]. apply negb_false_iff, Z.ltb_lt in E1.
  destruct (blank (bd_PlanInventoryDigest v) || _ || _) eqn:E2; [done|].
  apply orb_false_iff in E2 as [E2 E3]. apply orb_false_iff in E2 as [E2 E4]. clear E4. apply negb_false_iff, bool_decide_eq_true in E3.
  split_and!; [by exists c, e|by symmetry|]. intros cluster' now' Ei He.
  specialize (He _ eq_refl). apply Z.ltb_lt in He. rewrite He. cbn [negb].
  by rewrite Ei, E2, bool_decide_eq_true_2.
Qed.

Lemma create_valid v v' :
  ValidateBaselineDeploymentCreate v = Ok v' ->
  HasPrefix (bd_DesiredDigest v') sha256_prefix = true /\ bd_TaskLeaseExpiresAt v' = bd_TaskLeaseExpiresAt v.
Proof.
  unfold ValidateBaselineDeploymentCreate. intros H. cbn in H.
  repeat case_match; simplify_eq; norm_bool; done.
Qed.

(** ** Each handler *)

Section handlers.
Context (s : MemoryStore) (Hwf : baselines_wf s) (Hinv : engine_inv true s).
Local Abbreviation keeps m := (wp m (fun _ s' => baselines_effect s s') s).

Ltac untouched := apply baselines_same; done.

(** the scan found no deployment with the request's key *)
Lemma scan_new v l : scanBaselines v l = BaselineNew -> forall x, x ∈ l -> ~ same_request v x.
Proof.
  induction l as [|y l IH]; intros H x Hx; [by apply elem_of_nil in Hx|]. cbn [scanBaselines] in H.
  destruct (bool_decide (bd_ProjectID y = bd_ProjectID v) && _) eqn:E in H; [by case_match|].
  destruct (bool_decide (bd_ClusterID y = bd_ClusterID v) && _ && _) in H; [done|].
  apply elem_of_cons in Hx as [->|Hx]; [|by apply IH]. intros [E1 E2].
  by rewrite !bool_decide_eq_true_2 in E by done.
Qed.

Lemma deployment_create_keeps v actor : keeps (CreateBaselineDeployment v actor).
Proof.
  unfold CreateBaselineDeployment; unfold_puts. wp_go; try untouched.
  match goal with H : ValidateBaselineDeploymentCreate _ = Ok _ |- _ => apply create_valid in H as [Hd _] end.
  match goal with H : scanBaselines _ _ = BaselineNew |- _ => pose proof (scan_new _ _ H) as Hs end.
  eapply (baselines_add _ _ (ms_ids s) "bld"); cbn; try done; try lia.
  intros k b Hk Hr. apply (Hs b); [|exact Hr]. apply list_elem_of_fmap. exists (k, b).
  split; [done|by apply elem_of_map_to_list].
Qed.

(** a handler that starts from the deployment at an expected revision *)
Lemma wp_baselineAt {B} id e (k : BaselineDeployment -> Store B) :
  (forall v, ms_baselineDeployments s !! id = Some v -> baseline_ok s id v ->
     wp (k v) (fun _ s' => baselines_effect s s') s) ->
  wp (bind (baselineAt id e) k) (fun _ s' => baselines_effect s s') s.
Proof.
  intros Hk. unfold baselineAt. wp_go; try untouched. apply Hk; [done|]. by apply (bw_each _ Hwf).
Qed.

Lemma deployment_approve_keeps id e actor : keeps (ApproveBaselineDeployment id e actor).
Proof.
  unfold ApproveBaselineDeployment; unfold_puts. apply wp_baselineAt. intros v Hv [_ _ Hsg]. wp_go; try untouched.
  norm_bool. unfold stage_ok in Hsg. rewrite H in Hsg. destruct Hsg as (c & Hc1 & Hc2).
  match goal with H : BaselinePlanFresh _ _ _ = true |- _ => apply fresh_plan in H as ((c' & ex & E1 & E2 & Hlt) & _ & Hin) end.
  simplify_eq. eapply (baselines_move _ _ id v); [done|reflexivity|].
  split; [done|by rewrite H; apply rtc_once|by left|]. unfold stage_ok. cbn.
  split; [done|]. split; [|exact Hin]. exists c, (clock s). by split_and!.
Qed.

(** a deployment that is planned again *)
Lemma replanned v now reason s' :
  baseline_next (bd_State v) BaselineDeploymentPlanning = true -> baseline_moves s' v (resetBaselineForReplan v now reason).
Proof. intros H. split; [done|by apply rtc_once|by left|done]. Qed.

Lemma revalidate_keeps id e actor : keeps (RevalidateBaselineDeployment id e actor).
Proof.
  unfold RevalidateBaselineDeployment; unfold_puts. apply wp_baselineAt. intros v Hv _. wp_go; try untouched.
  eapply (baselines_move _ _ id v); [done|reflexivity|]. apply replanned. apply andb_false_iff in H as [H|H]; norm_bool; by rewrite H.
Qed.

Lemma retry_keeps id e actor : keeps (RetryBaselineDeployment id e actor).
Proof.
  unfold RetryBaselineDeployment; unfold_puts. apply wp_baselineAt. intros v Hv [_ _ Hsg]. wp_go; try untouched.
  norm_bool. unfold stage_ok in Hsg. rewrite H in Hsg. destruct Hsg as [_ Hp].
  match goal with H : resumedBaseline _ = Ok _ |- _ => rename H into Hr end.
  unfold resumedBaseline in Hr. eapply (baselines_move _ _ id v); [done|reflexivity|].
  repeat case_match; simplify_eq; norm_bool; (split; [done|by rewrite H; apply rtc_once|by left|]); unfold stage_ok; cbn.
  - done.
  - by split; [|apply Hp].
Qed.

Lemma rollback_keeps id e actor rc rd : keeps (QueueBaselineRollback id e actor rc rd).
Proof.
  unfold QueueBaselineRollback; unfold_puts. apply wp_baselineAt. intros v Hv _.
  apply wp_bind_fail_if; [intros _; untouched|]. intros Hst.
  assert (Hn : baseline_next (bd_State v) BaselineDeploymentRollbackQueued = true) by (by destruct (bd_State v)).
  apply (wp_driven ms_baselineDeployments); [driven_tac|keeps_tac|intros err s1 _ E; by apply baselines_same|].
  intros _ s1 _ _ E1.
  apply (wp_driven ms_baselineDeployments); [exact _|exact _|intros err s2 _ E2; apply baselines_same; congruence|].
  intros op s2 _ _ E2. wp_go. eapply (baselines_move _ _ id v); [done|cbn; by rewrite E2, E1|].
  split; [done|by apply rtc_once|by left|done].
Qed.

(** ** Claims *)

Lemma deployment_claim_head k now v rest :
  oldest_first bd_Meta (baselineClaimable k now) (ms_baselineDeployments s) = v :: rest ->
  ms_baselineDeployments s !! rm_ID (bd_Meta v) = Some v /\ baselineClaimable k now v = true /\
  forall id x, ms_baselineDeployments s !! id = Some x -> baselineClaimable k now x = true -> by_created bd_Meta v x.
Proof.
  intros E. apply oldest_head in E as [(id & Hv & Hc) Hmin]. by rewrite (bk_id _ _ _ (bw_each _ Hwf _ _ Hv)).
Qed.

(** how the claimed deployment [old] came to run as [v'] *)
Definition claimed_as (s' : MemoryStore) (cluster : ManagedCluster) (now : Time) (old v' : BaselineDeployment) : Prop :=
  match bd_State v' with
  | BaselineDeploymentPlanning =>
      bd_State old = BaselineDeploymentPlanning \/
      (bd_State old = BaselineDeploymentQueued /\ BaselinePlanFresh old cluster now = false /\
       bd_ApprovedBy v' = "" /\ bd_ApprovedAt v' = None)
  | BaselineDeploymentApplying =>
      bd_State old = BaselineDeploymentApplying \/
      (bd_State old = BaselineDeploymentQueued /\ BaselinePlanFresh old cluster now = true)
  | BaselineDeploymentRollingBack =>
      bd_State old = BaselineDeploymentRollbackQueued /\
      started s s' (bd_DestructiveOperationID v') (bd_ProjectID v') (bd_ClusterID v')
  | _ => False
  end.

Lemma claimed_plan s' cluster now old v' :
  bd_State v' = BaselineDeploymentPlanning ->
  bd_State old = BaselineDeploymentPlanning \/
    (bd_State old = BaselineDeploymentQueued /\ BaselinePlanFresh old cluster now = false /\
     bd_ApprovedBy v' = "" /\ bd_ApprovedAt v' = None) -> claimed_as s' cluster now old v'.
Proof. unfold claimed_as. by intros ->. Qed.
Lemma claimed_apply s' cluster now old v' :
  bd_State v' = BaselineDeploymentApplying ->
  bd_State old = BaselineDeploymentApplying \/
    (bd_State old = BaselineDeploymentQueued /\ BaselinePlanFresh old cluster now = true) -> claimed_as s' cluster now old v'.
Proof. unfold claimed_as. by intros ->. Qed.
Lemma claimed_rollback s' cluster now old v' :
  bd_State v' = BaselineDeploymentRollingBack -> bd_State old = BaselineDeploymentRollbackQueued ->
  started s s' (bd_DestructiveOperationID v') (bd_ProjectID v') (bd_ClusterID v') -> claimed_as s' cluster now old v'.
Proof. unfold claimed_as. by intros ->. Qed.

(** what a claim hands out *)
Definition claim_answer (now : Time) (k : string) (res : result BaselineDeployment) (s' : MemoryStore) : Prop :=
  match res with
  | Fail _ => True
  | Ok v' =>
      exists cluster old,
        ms_managedClusters s !! k = Some cluster /\ ms_baselineDeployments s !! rm_ID (bd_Meta v') = Some old /\
        baselineClaimable k now old = true /\
        (forall id x, ms_baselineDeployments s !! id = Some x -> baselineClaimable k now x = true -> by_created bd_Meta old x) /\
        bd_TaskFenceToken v' = inc64 (bd_TaskFenceToken old) /\
        bd_TaskLeaseExpiresAt v' = Some (now + AgentTaskLeaseDuration) /\
        ms_baselineDeployments s' = <[rm_ID (bd_Meta v') := v']> (ms_baselineDeployments s) /\
        claimed_as s' cluster now old v'
  end.

Lemma deployment_expired_spec v now s1 k :
  ms_baselineDeployments s !! rm_ID (bd_Meta v) = Some v -> ms_baselineDeployments s1 = ms_baselineDeployments s ->
  bd_State v = BaselineDeploymentRollingBack ->
  wp (failExpiredRollback v now) (fun res s' => baselines_effect s s' /\ claim_answer now k res s') s1.
Proof.
  intros Hv E1 Hst. unfold failExpiredRollback.
  pose proof (bk_stage _ _ _ (bw_each _ Hwf _ _ Hv)) as Hsg. unfold stage_ok in Hsg. rewrite Hst in Hsg.
  destruct Hsg as (Hp & _).
  apply (wp_driven ms_baselineDeployments);
    [exact _|exact _|intros e s2 _ E2; split; [apply baselines_same; congruence|done]|].
  intros op s2 _ Hs2 E2. unfold_puts. wp_go. split; [|done].
  eapply (baselines_move _ _ (rm_ID (bd_Meta v)) v); [exact Hv|cbn; rewrite E2; cbn; rewrite E1; reflexivity|].
  split; [done|rewrite Hst; by apply rtc_once|by left|]. unfold stage_ok. cbn. rewrite Hp. split; [|done].
  do 2 right. left.
Qed.

(** a claimed deployment stays as it is, or its stale plan is dropped *)
Lemma replan_spec v cluster now s1 :
  wp (replanIfStale v cluster now) (fun r s2 => exists v2, r = Ok v2 /\ rtc (step true) s1 s2 /\
    ((v2 = v /\ s2 = s1 /\
      (bd_State v = BaselineDeploymentQueued -> BaselinePlanFresh v cluster now = true)) \/
     (bd_State v = BaselineDeploymentQueued /\ BaselinePlanFresh v cluster now = false /\
      (exists reason, v2 = resetBaselineForReplan v now reason) /\
      ms_baselineDeployments s2 = <[rm_ID (bd_Meta v) := v2]> (ms_baselineDeployments s1)))) s1.
Proof.
  assert (Hd : EngineDriven (replanIfStale v cluster now)) by (unfold replanIfStale; driven_tac).
  specialize (Hd s1). revert Hd. unfold wp.
  assert (H : wp (replanIfStale v cluster now) (fun r s2 => exists v2, r = Ok v2 /\
    ((v2 = v /\ s2 = s1 /\
      (bd_State v = BaselineDeploymentQueued -> BaselinePlanFresh v cluster now = true)) \/
     (bd_State v = BaselineDeploymentQueued /\ BaselinePlanFresh v cluster now = false /\
      (exists reason, v2 = resetBaselineForReplan v now reason) /\
      ms_baselineDeployments s2 = <[rm_ID (bd_Meta v) := v2]> (ms_baselineDeployments s1)))) s1).
  { unfold replanIfStale; unfold_puts. wp_go; (eexists; split; [reflexivity|]).
    - right. norm_bool. split_and!; [done|done|by eexists|done].
    - left. split_and!; [done|done|]. intros Hq. rewrite (bool_decide_eq_true_2 _ Hq) in H. by apply negb_false_iff in H. }
  revert H. unfold wp. destruct (replanIfStale v cluster now s1) as [s2 r]. cbn. intros (v2 & -> & H). eauto.
Qed.

(** the deployment as the claim starts it *)
Lemma start_spec v now s1 :
  engine_inv true s1 ->
  wp (startBaselineTask v now) (fun r s2 => rtc (step true) s1 s2 /\ ms_baselineDeployments s2 = ms_baselineDeployments s1 /\
    match r with
    | Fail _ => True
    | Ok (_, v2) =>
        (v2 = v /\ bd_State v <> BaselineDeploymentQueued /\ bd_State v <> BaselineDeploymentRollbackQueued) \/
        (bd_State v = BaselineDeploymentQueued /\
         v2 = v <| bd_State := BaselineDeploymentApplying |> <| bd_StartedAt := startedAt v now |>) \/
        (bd_State v = BaselineDeploymentRollbackQueued /\
         v2 = v <| bd_State := BaselineDeploymentRollingBack |> <| bd_StartedAt := startedAt v now |> /\
         started s1 s2 (bd_DestructiveOperationID v) (bd_ProjectID v) (bd_ClusterID v))
    end) s1.
Proof.
  intros Hi. unfold startBaselineTask. destruct (bd_State v) eqn:Hst; try (apply wp_ret; split_and!; [done|done|]).
  all: try (left; done). 1: by right; left.
  apply (wp_driven ms_baselineDeployments); [exact _|exact _|done|]. intros op s2 E Hs2 E2. apply wp_ret.
  split_and!; [done|done|]. right; right. split_and!; [done|done|].
  by eapply start_runs.
Qed.

Lemma lease_spec action v now s2 :
  wp (leaseBaselineTask action v now) (fun r s' => r = Ok (leased v now) /\ ms_operations s' = ms_operations s2 /\
    ms_baselineDeployments s' = <[rm_ID (bd_Meta v) := leased v now]> (ms_baselineDeployments s2)) s2.
Proof. unfold leaseBaselineTask; unfold_puts. wp_go. by split_and!. Qed.

(** the engine's steps reach [s2]; the claim of [v], started as [v3], is put on top *)
Lemma claim_ends k cluster now v v3 s1 s2 s' :
  ms_managedClusters s !! k = Some cluster -> ms_baselineDeployments s !! rm_ID (bd_Meta v) = Some v ->
  baselineClaimable k now v = true ->
  (forall id x, ms_baselineDeployments s !! id = Some x -> baselineClaimable k now x = true -> by_created bd_Meta v x) ->
  ms_baselineDeployments s1 = ms_baselineDeployments s \/
  (exists x, ms_baselineDeployments s1 = <[rm_ID (bd_Meta v) := x]> (ms_baselineDeployments s)) ->
  ms_baselineDeployments s2 = ms_baselineDeployments s1 ->
  ms_baselineDeployments s' = <[rm_ID (bd_Meta v) := leased v3 now]> (ms_baselineDeployments s2) ->
  baseline_identity v3 = baseline_identity v -> bd_TaskFenceToken v3 = bd_TaskFenceToken v ->
  rtc (fun a b => baseline_next a b = true) (bd_State v) (bd_State v3) ->
  stage_ok s' (leased v3 now) ->
  claimed_as s' cluster now v (leased v3 now) ->
  baselines_effect s s' /\ claim_answer now k (Ok (leased v3 now)) s'.
Proof.
  intros Hc Hv Hcl Hmin H1 E2 E' Hid Hf Hn Hsg Has.
  assert (E : ms_baselineDeployments s' = <[rm_ID (bd_Meta v) := leased v3 now]> (ms_baselineDeployments s)).
  { rewrite E', E2. destruct H1 as [->|[x ->]]; [done|]. by rewrite insert_insert_eq. }
  split.
  - eapply (baselines_move _ _ (rm_ID (bd_Meta v)) v); [exact Hv|exact E|].
    split; [exact Hid|exact Hn|right; cbn; by rewrite Hf|exact Hsg].
  - exists cluster, v. injection Hid as Ei _ _ _ _ _ _ _ _ _ _.
    change (rm_ID (bd_Meta (leased v3 now))) with (rm_ID (bd_Meta v3)). rewrite Ei.
    split_and!; try done. cbn. by rewrite Hf.
Qed.

(** [stage_ok] and [claimed_as] have lemmas of their own *)
Ltac settle := try lazymatch goal with |- stage_ok _ _ => fail | |- claimed_as _ _ _ _ _ => fail | |- _ => done end.

(** from the oldest claimable deployment to its new lease *)
Lemma hand_out_spec k c now v s0 :
  ms_managedClusters s !! k = Some c -> ms_baselineDeployments s !! rm_ID (bd_Meta v) = Some v ->
  baselineClaimable k now v = true ->
  (forall id x, ms_baselineDeployments s !! id = Some x -> baselineClaimable k now x = true -> by_created bd_Meta v x) ->
  bd_State v <> BaselineDeploymentRollingBack -> rtc (step true) s s0 -> ms_operations s0 = ms_operations s ->
  ms_baselineDeployments s0 = ms_baselineDeployments s ->
  wp (handOutBaselineTask v c now) (fun res s' => baselines_effect s s' /\ claim_answer now k res s') s0.
Proof.
  intros Hc Hv Hcl Hmin Hnr Hs0 Eo0 E0. pose proof (bk_stage _ _ _ (bw_each _ Hwf _ _ Hv)) as Hsg.
  unfold handOutBaselineTask. apply wp_bind. eapply wp_mono; [apply replan_spec|]. intros r s1 (v2 & -> & Hs1 & Hrep).
  rewrite E0 in Hrep.
  pose proof (transitivity Hs0 Hs1) as H01.
  assert (Hi1 : engine_inv true s1) by exact (steps_inv _ _ _ H01 Hinv).
  apply wp_bind. eapply wp_mono; [apply (start_spec _ _ _ Hi1)|].
  assert (H1 : ms_baselineDeployments s1 = ms_baselineDeployments s \/
    exists x, ms_baselineDeployments s1 = <[rm_ID (bd_Meta v) := x]> (ms_baselineDeployments s)).
  { destruct Hrep as [(_ & -> & _)|(_ & _ & _ & ->)]; [by left|right; by exists v2]. }
  intros r s2 (Hs2 & E2 & Hst). destruct r as [[a v3]|e].
  2: { split; [|done]. destruct Hrep as [(_ & E1 & _)|(Hq & Hf & [reason ->] & E1)]; [apply baselines_same; by rewrite E2, E1|].
       eapply (baselines_move _ _ (rm_ID (bd_Meta v)) v); [exact Hv|by rewrite E2, E1|]. apply replanned. by rewrite Hq. }
  eapply wp_mono; [apply lease_spec|]. intros r s' (-> & Eo & E').
  destruct Hrep as [(-> & E1 & Hfr)|(Hq & Hf & [reason ->] & E1)].
  - destruct Hst as [(-> & Hnq & Hnrq)|[(Hq & ->)|(Hrq & -> & queued & op & Hqd & Hqs & Ho & Hrun & Hatt)]].
    + assert (Hs2' : stage_ok s2 v) by exact (stage_steps _ _ _ (transitivity H01 Hs2) Hinv Hsg).
      assert (Hpa : bd_State v = BaselineDeploymentPlanning \/ bd_State v = BaselineDeploymentApplying).
      { unfold baselineClaimable in Hcl. destruct (bd_State v); cbn in Hcl; rewrite ?andb_false_r in Hcl; auto; done. }
      apply (claim_ends k c now v v s1 s2); settle.
      * destruct Hpa as [E|E].
        -- unfold stage_ok in Hs2'. rewrite E in Hs2'. by apply stage_planning.
        -- destruct (ready_stage _ _ Hs2' (or_intror E)) as [Hp Ha]. apply stage_apply; [by right|done|by apply (approved_core v)].
      * destruct Hpa as [E|E]; [apply claimed_plan|apply claimed_apply]; auto.
    + apply (claim_ends k c now v _ s1 s2); settle.
      * rewrite Hq. by apply rtc_once.
      * destruct (ready_stage _ _ Hsg (or_introl Hq)) as [Hp Ha]. apply stage_apply; [by right|done|by apply (approved_core v)].
      * apply claimed_apply; [done|]. right. split; [done|by apply Hfr].
    + apply (claim_ends k c now v _ s1 s2); settle.
      * rewrite Hrq. by apply rtc_once.
      * unfold stage_ok in Hsg. rewrite Hrq in Hsg.
        by apply (stage_rolling _ _ op); [| | |apply (rollback_operations s2 s' v)].
      * apply claimed_rollback; [done|done|]. subst s1. exists queued, op. unfold owned in *.
        rewrite Eo, <- Eo0. exact (conj Hqd (conj Hqs (conj Ho (conj Hrun Hatt)))).
  - destruct Hst as [(-> & _)|[(Hq' & _)|(Hq' & _)]]; [|discriminate Hq'|discriminate Hq'].
    apply (claim_ends k c now v _ s1 s2); settle.
    + rewrite Hq. by apply rtc_once.
    + by apply stage_planning.
    + apply claimed_plan; [done|]. right. by split_and!.
Qed.

Lemma deployment_next_spec wall k d : wp (NextBaselineTask wall k d) (fun res s' => baselines_effect s s' /\ claim_answer (clock (tick s)) k res s') s.
Proof.
  unfold NextBaselineTask. apply (wp_driven ms_baselineDeployments).
  { apply driven_neutral, _. }
  { unfold requireFreshClusterTaskAdmissionLocked, requireClusterTaskAdmissionLocked. keeps_tac. }
  { intros e s1 _ E. split; [by apply baselines_same|done]. }
  intros c s1 Ea _ _. apply admitted_cluster in Ea as [-> Hc]. wp_step. wp_step.
  change (ms_baselineDeployments (tick (tick s))) with (ms_baselineDeployments s).
  destruct (oldest_first _ _ _) as [|v rest] eqn:Eh; [apply wp_raise; split; [by apply baselines_same|done]|].
  apply deployment_claim_head in Eh as (Hv & Hcl & Hmin). apply wp_if; intros Hx.
  { norm_bool. by apply deployment_expired_spec. }
  apply (hand_out_spec k c _ v); try done.
  - intros Hr. pose proof (bk_stage _ _ _ (bw_each _ Hwf _ _ Hv)) as Hsg. unfold stage_ok in Hsg. rewrite Hr in Hsg, Hx.
    destruct Hsg as (_ & Hl & _). by rewrite bool_decide_eq_true_2, bool_decide_eq_false_2 in Hx.
  - etrans; [apply rtc_once, step_env, (neutral_nowUTC s)|apply rtc_once, step_env, (neutral_nowUTC (tick s))].
Qed.

(** ** Reports *)

(** the deployment as the report leaves it *)
Record reported (s2 : MemoryStore) (v v' : BaselineDeployment) : Prop := {
  rp_meta : bd_Meta v' = bd_Meta v;
  rp_identity : baseline_identity v' = baseline_identity v;
  rp_fence : bd_TaskFenceToken v' = bd_TaskFenceToken v;
  rp_next : baseline_next (bd_State v) (bd_State v') = true;
  rp_stage : stage_ok s2 v'
}.

Lemma plan_reported component cluster v r now v' s2 :
  stage_ok s2 v -> bd_State v = BaselineDeploymentPlanning -> reportPlan component cluster v r now = Ok v' -> reported s2 v v'.
Proof.
  unfold reportPlan. intros Hsg Hst H. unfold stage_ok in Hsg. rewrite Hst in Hsg.
  destruct (negb (btr_Success r)).
  { injection H as <-. split; [done|done|done|by rewrite Hst|]. apply stage_failed; [done| |]; cbn; rewrite Hsg; [left|done]. }
  destruct (_ || _) in H; [done|]. destruct (ValidatePlanningImpact _ _ _ _); [|done]. injection H as <-.
  split; [done|done|done|by rewrite Hst|]. by apply (stage_awaiting _ _ now).
Qed.

Lemma apply_reported v r now v' s2 :
  stage_ok s2 v -> bd_State v = BaselineDeploymentApplying -> reportApply v r now = Ok v' -> reported s2 v v'.
Proof.
  unfold reportApply. intros Hsg Hst H. destruct (ready_stage _ _ Hsg (or_intror Hst)) as [Hp Ha].
  destruct (negb (btr_Success r) || _) eqn:Er.
  { injection H as <-. split; [done|done|done|by rewrite Hst|]. apply stage_failed; [done| |].
    - cbn. rewrite Hp. right. left.
    - intros _. by apply (approved_core v). }
  destruct (SealBaselineEvidence _ _ _ _) as [[sealed digest]|e] eqn:Es; [|done]. injection H as <-.
  split; [done|done|done|by rewrite Hst|]. apply orb_false_iff in Er as [_ Er]. norm_bool.
  apply sealed_evidence in Es as (H1 & H2 & H3 & H4).
  apply (stage_succeeded _ _ now); [done|by apply (in_time_core v), Ha|]. by split.
Qed.

Lemma report_applied component cluster v r now s1 :
  engine_inv true s1 -> stage_ok s1 v ->
  wp (applyBaselineReport component cluster v r now) (fun res s2 =>
    ms_baselineDeployments s2 = ms_baselineDeployments s1 /\ rtc (step true) s1 s2 /\
    match res with Fail _ => True | Ok v' => reported s2 v v' end) s1.
Proof.
  intros Hi Hsg. unfold applyBaselineReport. cbv zeta. case_bool_decide; [|case_bool_decide; [|case_bool_decide]].
  - apply wp_bind_fail_if; [done|]. intros Hst. norm_bool. apply wp_lift.
    destruct (reportPlan _ _ _ _ _) eqn:E; [|done]. split_and!; [done|done|by eapply plan_reported].
  - apply wp_bind_fail_if; [done|]. intros Hst. norm_bool. apply wp_lift.
    destruct (reportApply _ _ _) eqn:E; [|done]. split_and!; [done|done|by eapply apply_reported].
  - apply wp_bind_fail_if; [done|]. intros Hst. norm_bool.
    pose proof Hsg as Hsg'. unfold stage_ok in Hsg'. rewrite Hst in Hsg'. destruct Hsg' as (Hp & Hl & op & Ho).
    apply (wp_driven ms_baselineDeployments); [exact _|exact _|done|]. intros op' s2 E Hs2 E2. apply wp_ret.
    split_and!; [done|done|]. unfold reportRollback in *. destruct (btr_Success r); cbn [negb] in *.
    + apply finish_succeeds in E as (op2 & Ho2 & Hok); [|done]. destruct Ho as [Ho Hb].
      split; [done|done|done|by rewrite Hst|]. apply (stage_rolled_back _ _ op2); [done| |done]. split; [exact Ho2|].
      destruct (owned_steps _ _ _ _ _ _ Hs2 Hi (conj Ho Hb)) as (op3 & [Ho3 Hb3] & _).
      assert (op2 = op3) as ->; [|exact Hb3]. apply (inj Some). rewrite <- Ho2. exact Ho3.
    + split; [done|done|done|by rewrite Hst|]. apply stage_failed; [done| |]; cbn; rewrite Hp; [|done]. do 2 right. left.
  - by apply wp_raise.
Qed.

Lemma record_report_spec v now r s2 :
  wp (recordBaselineReport v r now) (fun res s' => res = Ok (v <| bd_Meta := bump (bd_Meta v) now |>) /\
    ms_operations s' = ms_operations s2 /\
    ms_baselineDeployments s' = <[rm_ID (bd_Meta v) := v <| bd_Meta := bump (bd_Meta v) now |>]> (ms_baselineDeployments s2)) s2.
Proof. unfold recordBaselineReport; unfold_puts. wp_go. by split_and!. Qed.

(** an accepted report: of a deployment of the cluster, under its current token and lease *)
Definition report_answer (k : string) (r : BaselineTaskResult) (res : result BaselineDeployment) (s' : MemoryStore) : Prop :=
  match res with
  | Fail _ => True
  | Ok v' =>
      exists v, ms_baselineDeployments s !! btr_DeploymentID r = Some v /\ bd_ClusterID v = k /\
        ms_baselineDeployments s' = <[btr_DeploymentID r := v']> (ms_baselineDeployments s) /\
        0 < btr_TaskFenceToken r /\ bd_TaskFenceToken v = btr_TaskFenceToken r /\
        (exists lease, bd_TaskLeaseExpiresAt v = Some lease) /\ baseline_next (bd_State v) (bd_State v') = true
  end.

Lemma deployment_report_spec component k d e r :
  wp (ReportBaselineTask component k d e r) (fun res s' => baselines_effect s s' /\ report_answer k r res s') s.
Proof.
  unfold ReportBaselineTask. apply (wp_driven ms_baselineDeployments).
  { apply driven_neutral, _. }
  { unfold requireClusterTaskAdmissionLocked. keeps_tac. }
  { intros err s1 _ E. split; [by apply baselines_same|done]. }
  intros c s1 _ Hs1 E1. wp_step. rewrite E1. apply wp_bind_get_opt; [intros _; split; [by apply baselines_same|done]|]. intros v Hv.
  apply wp_bind_fail_if; [intros _; split; [by apply baselines_same|done]|]. intros Hk. wp_step.
  apply wp_bind_fail_if; [intros _; split; [by apply baselines_same|done]|]. intros Hg.
  assert (Ht : rtc (step true) s (tick s1)) by (etrans; [exact Hs1|apply rtc_once, step_env, (neutral_nowUTC s1)]).
  destruct (bw_each _ Hwf _ _ Hv) as [Hid _ Hsg].
  apply wp_bind. eapply wp_mono.
  { apply report_applied; [exact (steps_inv _ _ _ Ht Hinv)|exact (stage_steps _ _ _ Ht Hinv Hsg)]. }
  intros [v'|err] s2 (E2 & Hs2 & Hrep); [|split; [apply baselines_same; by rewrite E2|done]].
  destruct Hrep as [Rm Ri Rf Rn Rs]. eapply wp_mono; [apply (record_report_spec v' _ r)|].
  intros res s' (-> & Eo & E').
  assert (Hid' : rm_ID (bd_Meta v') = btr_DeploymentID r) by congruence. rewrite Hid', E2 in E'. change (ms_baselineDeployments (tick s1)) with (ms_baselineDeployments s1) in E'.
  rewrite E1 in E'. split.
  - eapply (baselines_move _ _ (btr_DeploymentID r) v); [exact Hv|exact E'|].
    split; [exact Ri|by apply rtc_once|left; exact Rf|].
    apply (stage_operations s2 s' v'); [exact Eo|reflexivity|exact Rs].
  - apply orb_false_iff in Hg as [Hg Hact]. norm_bool. exists v. split_and!; try done.
    destruct (bd_TaskLeaseExpiresAt v) as [l|]; [by exists l|done].
Qed.

Lemma baseline_exec_effect c : baselines_effect s (baseline_exec c s).1.
Proof.
  destruct c; cbn [baseline_exec run1 fst].
  - exact (deployment_create_keeps v actor).
  - exact (deployment_approve_keeps id expected actor).
  - exact (revalidate_keeps id expected actor).
  - exact (retry_keeps id expected actor).
  - exact (rollback_keeps id expected actor recoveryCheckpointID requestDigest).
  - exact (proj1 (deployment_next_spec wall clusterID agentTokenDigest)).
  - exact (proj1 (deployment_report_spec component clusterID agentTokenDigest expected result_)).
Qed.
End handlers.

(** ** Histories *)

(** a call of the deployment handlers, a call of the engine, or a step of another component *)
Inductive baseline_step (s : MemoryStore) : MemoryStore -> Prop :=
| bs_baseline c : baseline_step s (baseline_exec c s).1
| bs_engine c : baseline_step s (exec c s).1
| bs_env s' : env_step s s' -> ms_baselineDeployments s' = ms_baselineDeployments s -> baseline_step s s'.

Definition baseline_reachable (s : MemoryStore) : Prop :=
  exists now id, id_source id /\ rtc baseline_step (NewMemoryStoreWith now id) s.

Lemma baseline_step_engine s s' : baseline_step s s' -> rtc (step true) s s'.
Proof.
  intros [c|c|s1 He _].
  - apply baseline_exec_driven.
  - apply rtc_once. by apply step_call.
  - by apply rtc_once, step_env.
Qed.

Record baseline_inv (s : MemoryStore) : Prop := {
  bi_engine : engine_inv true s;
  bi_baselines : baselines_wf s
}.

Lemma baseline_step_effect s s' : baseline_inv s -> baseline_step s s' -> baselines_effect s s'.
Proof.
  intros [He Hw] [c|c|s1 _ E]; [by apply baseline_exec_effect| |by apply baselines_same].
  apply baselines_same, (exec_keeps ms_baselineDeployments).
Qed.

Lemma baseline_step_inv s s' : baseline_step s s' -> baseline_inv s -> baseline_inv s'.
Proof.
  intros Hs Hi. pose proof (baseline_step_engine _ _ Hs) as Hr. pose proof (baseline_step_effect _ _ Hi Hs) as Hf.
  destruct Hi as [He Hw]. split; [by eapply steps_inv|by eapply baselines_effect_wf].
Qed.

Lemma baseline_reachable_inv s : baseline_reachable s -> baseline_inv s.
Proof.
  intros (now & id & Hid & Hr).
  assert (H0 : baseline_inv (NewMemoryStoreWith now id)).
  { split; [|split; intros i; cbn; intros; by simplify_map_eq].
    apply reachable_inv. exists now, id. split; [exact Hid|reflexivity]. }
  revert H0. induction Hr as [|s1 s2 s3 H12 _ IH]; eauto using baseline_step_inv.
Qed.

(** a deployment outlives every step, as it is or moved *)
Lemma effect_baseline s s' id v :
  baseline_inv s -> baselines_effect s s' -> ms_baselineDeployments s !! id = Some v ->
  exists v', ms_baselineDeployments s' !! id = Some v' /\ (v' = v \/ baseline_moves s' v v').
Proof.
  intros [He Hw] Heff Hv. destruct Heff as [E|i x x' Hx E Hm|n p x Hn E _ _ _]; rewrite E.
  - eauto.
  - destruct (decide (i = id)) as [->|Hne]; [|rewrite lookup_insert_ne by done; eauto].
    rewrite lookup_insert_eq. simplify_eq. eauto.
  - rewrite lookup_insert_ne; [eauto|]. intros <-.
    rewrite (fresh_unfiled s _ n p (gen_inj _ (inv_ids _ _ He)) (bw_filed _ Hw)) in Hv by lia. discriminate.
Qed.
