(* ===== verification/BaselineProperties.v ===== *)
(** * What baseline deployments can rely on

    The theorems about baseline deployments, in every history of deployment
    calls, engine calls and steps of the other components, with a concrete
    history and what it showed. *)
From S2P Require Import Prelude GoStrings Digest Model Calendar Inventory Store Ordering Operations OwnerOperations.
From S2P Require Import Lifecycle OperationSystem OperationRuns Neutrality Demo Collections FleetGateway Targets Fleet.
From S2P Require Import OwnerRuns Tenants TenantProperties Compatibility Impact ImpactTheorems Baselines BaselineTheorems.


Lemma rolled_back_final to :
  rtc (fun a b => baseline_next a b = true) BaselineDeploymentRolledBack to -> to = BaselineDeploymentRolledBack.
Proof.
  intros H. remember BaselineDeploymentRolledBack as from eqn:E.
  induction H as [|a b c Hab _ _]; [done|]. subst a. by destruct b.
Qed.

(** Baseline workflows refine their lifecycle and the engine's.  Along a history a
    deployment never disappears, keeps its identity, cluster, baseline, version and
    desired digest, moves only along [baseline_next] and stays ROLLED_BACK once it
    is; and what the history does to operations is a run of the engine's own steps. *)
Theorem baseline_histories_refine_lifecycles s s' id v :
  baseline_reachable s -> rtc baseline_step s s' -> ms_baselineDeployments s !! id = Some v ->
  rtc (step true) s s' /\
  exists v', ms_baselineDeployments s' !! id = Some v' /\ baseline_identity v' = baseline_identity v /\
    rtc (fun a b => baseline_next a b = true) (bd_State v) (bd_State v') /\
    (bd_State v = BaselineDeploymentRolledBack -> bd_State v' = BaselineDeploymentRolledBack).
Proof.
  intros Hr Hs Hv.
  assert (H : rtc (step true) s s' /\ exists v', ms_baselineDeployments s' !! id = Some v' /\
    baseline_identity v' = baseline_identity v /\ rtc (fun a b => baseline_next a b = true) (bd_State v) (bd_State v')).
  { apply baseline_reachable_inv in Hr. revert v Hr Hv.
    induction Hs as [s|s1 s2 s3 H12 _ IH]; intros v Hi Hv; [split; [done|]; by exists v|].
    destruct (effect_baseline _ _ _ _ Hi (baseline_step_effect _ _ Hi H12) Hv) as (v2 & Hv2 & Hm).
    destruct (IH v2 (baseline_step_inv _ _ H12 Hi) Hv2) as (Hs & v3 & Hv3 & Hid & Hst).
    split; [etrans; [by apply baseline_step_engine|done]|]. exists v3. destruct Hm as [->|[Mi Mn _ _]]; [done|].
    split_and!; [done|congruence|by etrans]. }
  destruct H as (He & v' & Hv' & Hid & Hst). split; [done|]. exists v'. split_and!; [done..|].
  intros E. rewrite E in Hst. by apply rolled_back_final.
Qed.

(** C15: a stale approval never starts.  A claim answers with the oldest claimable
    deployment of the agent's cluster, and stores it under the next fencing token and a
    lease that runs [AgentTaskLeaseDuration] from the claim.
    An application is handed out either again, after its lease ran out, or for a
    deployment that was approved before its plan expired and whose plan is fresh
    now, for the cluster's current inventory; an approved deployment whose plan went
    stale is handed out for planning, its approval gone.  A rollback is handed out
    only when it was queued and this very claim started its operation: QUEUED before
    the claim, it is RUNNING after it, with one more attempt. *)
Theorem stale_approvals_never_start s s' wall k d v :
  baseline_reachable s -> NextBaselineTask wall k d s = (s', Ok v) ->
  exists cluster old, let now := clock (tick s) in
    ms_managedClusters s !! k = Some cluster /\ ms_baselineDeployments s !! rm_ID (bd_Meta v) = Some old /\
    ms_baselineDeployments s' = <[rm_ID (bd_Meta v) := v]> (ms_baselineDeployments s) /\
    bd_ClusterID old = k /\ bd_TaskFenceToken v = inc64 (bd_TaskFenceToken old) /\
    bd_TaskLeaseExpiresAt v = Some (now + AgentTaskLeaseDuration) /\
    (forall id x, ms_baselineDeployments s !! id = Some x -> baselineClaimable k now x = true -> by_created bd_Meta old x) /\
    match bd_State v with
    | BaselineDeploymentApplying =>
        (bd_State old = BaselineDeploymentApplying /\ AgentTaskLeaseActive (bd_TaskLeaseExpiresAt old) now = false) \/
        (bd_State old = BaselineDeploymentQueued /\ approved_in_time old /\ BaselinePlanFresh old cluster now = true)
    | BaselineDeploymentPlanning =>
        bd_State old = BaselineDeploymentPlanning \/
        (BaselinePlanFresh old cluster now = false /\ bd_ApprovedBy v = "" /\ bd_ApprovedAt v = None)
    | BaselineDeploymentRollingBack =>
        bd_State old = BaselineDeploymentRollbackQueued /\
        exists queued op, rollback_of s v queued /\ op_State queued = OperationQueued /\
          rollback_of s' v op /\ op_State op = OperationRunning /\ op_Attempt op = inc64 (op_Attempt queued)
    | _ => False
    end.
Proof.
  intros Hr E. apply baseline_reachable_inv in Hr as [He Hw].
  pose proof (wp_run _ _ _ _ _ (deployment_next_spec s Hw He wall k d) E) as [_ (c & old & Hc & Hold & Hcl & Hmin & Hf & Hlease & Hst & Has)].
  exists c, old. cbv zeta. unfold baselineClaimable in Hcl. apply andb_true_iff in Hcl as [Hk Hl]. norm_bool.
  split_and!; try done. unfold claimed_as in Has. destruct (bd_State v); try done.
  - destruct Has as [H|(_ & H)]; auto.
  - destruct Has as [H|(H & Hfr)]; [left|right].
    + split; [done|]. rewrite H in Hl. by apply negb_true_iff in Hl.
    + split_and!; [done| |done]. destruct (ready_stage _ _ (bk_stage _ _ _ (bw_each _ Hw _ _ Hold)) (or_introl H)) as [_ Ha].
      apply Ha.
Qed.

(** ** Completion *)

Lemma completed_ready v finished now :
  bd_State v = BaselineDeploymentSucceeded -> HasPrefix (bd_DesiredDigest v) sha256_prefix = true -> completed v finished ->
  (forall spec, spec ∈ elems (pv_Artifacts (pi_Evidence (bd_PlanImpact v))) -> px_Required spec = true) ->
  now < finished + 30 * 24 * Hour -> BaselineCompletionEvidenceReady v now = true.
Proof.
  intros Hst Hd [_ Hc Hv Hg Hn Hre] Hq Hlt. unfold BaselineCompletionEvidenceReady.
  assert (Hdn : bd_DesiredDigest v <> "") by (intros E; by rewrite E in Hd).
  rewrite Hst, Hc, Hg, (bool_decide_eq_false_2 _ Hdn), !(bool_decide_eq_true_2 (_ = _)) by done. cbn [negb orb].
  change (HasPrefix _ "sha256:") with (HasPrefix (BaselineEvidenceSetDigest (bd_Evidence v)) sha256_prefix).
  unfold BaselineEvidenceSetDigest at 1. rewrite sha256_prefixed. replace (nonEmpty (bd_Evidence v)) with true by (by destruct (bd_Evidence v)).
  cbn [negb orb]. apply validate_collected in Hv as Hcov. rewrite (ec_plan _ _ _ Hcov), Hv. cbn [accepted negb].
  destruct (existsb (evidenceLapsed now) (bd_Evidence v)) eqn:Ex; [exfalso|done].
  apply existsb_exists in Ex as (x & Hx%list_elem_of_In & El). rewrite Forall_forall in Hre.
  destruct (Hre x Hx) as (E1 & E2 & Hday). destruct (collected_retention _ _ _ _ Hcov Hx) as (spec & Hs & _ & Er & _).
  unfold evidenceLapsed in El. rewrite E1, E2, Er, (Hq spec Hs) in El. cbn [negb orb] in El.
  unfold Hour, Minute, Second in *. lia.
Qed.


(** ** A concrete history

    A deployment of a small store: planned by the agent of its cluster,
    approved, applied with completion evidence, then rolled back under a
    recovery checkpoint. *)
Module BaselineDemo.

Definition now : Time := TenantDemo.now.
Definition component : CompatConstraint :=
  mkCompatConstraint "" "1.34" "1.35" ["amd64"] ["rke2"] ["imported"].

(** what a controller has sealed, before its digest is added *)
Definition capability : PlanCapabilityPreflight :=
  let v := mkPlanCapabilityPreflight "PASS" PlanCapabilityPreflightMethod demo_digest
    (Some [mkPlanCapabilityCheck "api" "Kubernetes" true "PASS" "KUBERNETES_API_SERVER" "none" "served" []]) [] [] "" in
  v <| pp_Digest := CapabilityPreflightDigest v |>.
Definition rollback : PlanRollbackFeasibility :=
  let v := mkPlanRollbackFeasibility "PASS" PlanRollbackValidationMethod (Some []) [] [] "" in
  v <| pf_Digest := RollbackFeasibilityDigest v |>.
Definition location : string := "/api/v1/baseline-deployments/{deploymentId}/evidence/convergence".
Definition collection : PlanEvidenceCollection :=
  let v := mkPlanEvidenceCollection "PASS" PlanEvidenceCollectionMethod 1
    (Some [mkPlanEvidenceArtifact "convergence" "BASELINE_CONVERGENCE" "" "PLATFORM_AGENT" "platform-agent://baseline-convergence"
             location "application/json" PlanEvidencePhasePostApply true 90]) [] [] "" in
  v <| pv_Digest := EvidenceCollectionPlanDigest v |>.
Definition impact : BaselinePlanImpact :=
  Eval vm_compute in
  let v := mkBaselinePlanImpact PlanningImpactSchemaVersion demo_digest
    (Evaluate (mkCompatTarget "v1.34.2" "amd64" "rke2" "imported") (baselineCompatibilityConstraints (Some component)))
    capability
    (Some [mkPlanAPIImpact "Namespace/team" "v1" "Namespace" "SERVED" "STABLE" "" "" "" false "" false
             (mkPlanSchemaCompatibility "PASS" PlanSchemaValidationMethod 200 "v1" demo_digest [] "") "INFO" "served"])
    (mkPlanCapacityEstimate true 0 0 0 0 0 0 0 "PASS" false [] []) (mkPlanDisruptionEstimate "NONE" "NONE" [] [])
    rollback collection true [] [] "" in
  v <| pi_Digest := PlanningImpactDigest v |>.

Definition desired : string := Eval vm_compute in sha256Digest "desired".
Definition observed : string := Eval vm_compute in sha256Digest "observed".
Definition request : BaselineDeployment :=
  mkBaselineDeployment (newMeta "" 0) "p" "c" "secure-namespace" "1.0.0" "team" BaselineDeploymentPlanning "LOW" desired "" ""
    demo_digest "key" "" "" None None None [] None None "" noImpact "" "" [] "" 0 "" 0 0 None "" "" "" "" "".

(** a step of the history *)
Inductive Do : Type := B (c : BaselineCall) | E (c : Call).
Definition do (s : MemoryStore) (x : Do) : MemoryStore :=
  match x with B c => (baseline_exec c s).1 | E c => (exec c s).1 end.
Definition history (xs : list Do) : MemoryStore := foldl do TenantDemo.seed xs.

Lemma deployment_do s x : baseline_step s (do s x).
Proof. destruct x as [c|c]; [apply bs_baseline|apply bs_engine]. Qed.
Lemma deployment_reachable xs : baseline_reachable (history xs).
Proof.
  exists (fun _ => now), demo_id. split; [apply demo_id_source|].
  eapply (rtc_l _ _ TenantDemo.seed); [apply bs_env; [split; [done|by apply frame_same]|done]|].
  unfold history. generalize TenantDemo.seed. induction xs as [|x xs IH]; intros s; [constructor|].
  cbn. eapply rtc_l; [by apply deployment_do|by apply IH].
Qed.
Lemma deployment_steps xs ys : rtc baseline_step (history xs) (history (xs ++ ys)).
Proof.
  unfold history. rewrite foldl_app. generalize (foldl do TenantDemo.seed xs).
  induction ys as [|y ys IH]; intros s; [constructor|]. cbn. eapply rtc_l; [apply deployment_do|apply IH].
Qed.

Definition created : list Do := [B (BCreate request "alice")].
Definition deployment : string :=
  Eval vm_compute in default "" (head (map_to_list (ms_baselineDeployments (history created))).*1).

Definition payload : option (list (string * JSONValue)) := Some [("converged", JSONBool true)].
Definition evidence : list BaselineEvidenceArtifact :=
  [mkBaselineEvidenceArtifact "convergence" "BASELINE_CONVERGENCE" "" "PLATFORM_AGENT"
     (baselineEvidencePayloadDigest payload).1 "application/json" (ReplaceAll location "{deploymentId}" deployment)
     (baselineEvidencePayloadDigest payload).2 true 90 None None payload].
Definition change : BaselinePlanChange := mkBaselinePlanChange "Namespace/team" "CREATE" "" "" "".
Definition result_ (fence : Z) (action digest : string) : BaselineTaskResult :=
  mkBaselineTaskResult deployment fence action true digest [change] impact evidence "".

Definition claim : Do := B (BNextTask 0 "c" "sha256:agent").
Definition report (revision fence : Z) (action digest : string) : Do :=
  B (BReportTask (Some component) "c" "sha256:agent" revision (result_ fence action digest)).

(** planned, approved, applied *)
Definition planned : list Do := (created ++ [claim; report 2 1 "PLAN" observed])%list.
Definition approved : list Do := (planned ++ [B (BApprove deployment 3 "bob")])%list.
Definition applied : list Do := (approved ++ [claim; report 5 2 "APPLY" desired])%list.
(** rolled back under a recovery checkpoint *)
Definition checkpointed : list Do := (applied ++ [E (CCreateCheckpoint TenantDemo.checkpoint "alice")])%list.
Definition checkpoint_id : string :=
  Eval vm_compute in default "" (head (map_to_list (ms_recoveryCheckpoints (history checkpointed))).*1).
Definition rolled_back : list Do :=
  (checkpointed ++ [B (BQueueRollback deployment 6 "alice" checkpoint_id demo_digest); claim;
                    report 8 3 "ROLLBACK" observed])%list.
End BaselineDemo.
Import BaselineDemo.


Lemma baseline_histories_refine_lifecycles_witness :
  exists v', ms_baselineDeployments (history approved) !! deployment = Some v' /\ bd_DesiredDigest v' = desired /\
    rtc (fun a b => baseline_next a b = true) BaselineDeploymentPlanning (bd_State v').
Proof.
  destruct (found (fun v => (bd_State v, bd_DesiredDigest v)) (ms_baselineDeployments (history created) !! deployment)
    (BaselineDeploymentPlanning, desired)) as (v & Ev & Hst); [vm_compute; reflexivity|]. injection Hst as Hst Hd.
  destruct (baseline_histories_refine_lifecycles (history created) (history approved) deployment v)
    as (_ & v' & Ev' & Hid & Hs & _).
  - apply deployment_reachable.
  - exact (deployment_steps created [claim; report 2 1 "PLAN" observed; B (BApprove deployment 3 "bob")]).
  - exact Ev.
  - exists v'. injection Hid as _ _ _ _ _ _ _ Hd' _ _ _. split; [exact Ev'|]. split; [congruence|]. rewrite <- Hst. exact Hs.
Defined.

Lemma stale_approvals_never_start_witness :
  exists s' v old, NextBaselineTask 0 "c" "sha256:agent" (history approved) = (s', Ok v) /\
    ms_baselineDeployments (history approved) !! rm_ID (bd_Meta v) = Some old /\
    bd_TaskFenceToken v = inc64 (bd_TaskFenceToken old).
Proof.
  destruct (succeeds (NextBaselineTask 0 "c" "sha256:agent") (history approved)) as (s' & v & E); [vm_compute; reflexivity|].
  destruct (stale_approvals_never_start (history approved) s' 0 "c" "sha256:agent" v (deployment_reachable approved) E)
    as (c & old & _ & Ho & _ & _ & Hf & _).
  exists s', v, old. split; [exact E|]. split; [exact Ho|exact Hf].
Defined.


(** ** Observations *)

(** A deployment is refused while another one of its baseline is in flight on
    the cluster, but a retry is not: a deployment that failed, and was succeeded
    by a new one, is put in flight beside it. *)
Definition failed_report (revision fence : Z) : Do :=
  B (BReportTask (Some component) "c" "sha256:agent" revision
       (mkBaselineTaskResult deployment fence "PLAN" false "" [] noImpact [] "agent lost its cache")).
Definition failed : list Do := (created ++ [claim; failed_report 2 1])%list.
Definition second : BaselineDeployment := request <| bd_IdempotencyKey := "key-2" |>.
Definition two_in_flight : list Do := (failed ++ [B (BCreate second "alice"); B (BRetry deployment 3 "alice")])%list.
Example retry_bypasses_the_in_flight_guard :
  (fun v => (bd_ClusterID v, bd_BaselineID v, baselineInFlight (bd_State v))) <$>
    (map_to_list (ms_baselineDeployments (history two_in_flight))).*2 =
  [("c", "secure-namespace", true); ("c", "secure-namespace", true)] /\
  (baseline_exec (BCreate (request <| bd_IdempotencyKey := "key-3" |>) "alice") (history two_in_flight)).2 = Some ErrDuplicateName.
Proof. split; vm_compute; reflexivity. Qed.

(** [ReportBaselineTask] leaves the lease of the reported task behind.  After a
    failed plan is retried, no agent can claim it before the old lease runs out;
    and the agent that failed reports again, under the token it already used. *)
Definition retried : list Do := (failed ++ [B (BRetry deployment 3 "alice")])%list.
Example a_reported_lease_lingers :
  (baseline_exec (BNextTask 0 "c" "sha256:agent") (history retried)).2 = Some ErrNotFound /\
  (bd_State <$> ms_baselineDeployments (history (retried ++ [report 4 1 "PLAN" observed])) !! deployment) =
    Some BaselineDeploymentAwaitingApproval.
Proof. split; vm_compute; reflexivity. Qed.

(** The handler ranges over a Go map: whether a replayed request is answered with
    its deployment or refused as a duplicate depends on which of two deployments
    the iteration meets first. *)
Definition finished_first : BaselineDeployment := request <| bd_State := BaselineDeploymentRolledBack |>.
Example replay_depends_on_the_iteration :
  scanBaselines request [finished_first; second] = BaselineReplay finished_first /\
  scanBaselines request [second; finished_first] = BaselineRefused ErrDuplicateName.
Proof. split; reflexivity. Qed.
