(* ===== verification/Campaigns.v ===== *)
(** * Fleet groups and upgrade campaigns

    [fleet_upgrade_store.go] without its drift scans, and the campaign contract
    of [day2_campaign.go].  A campaign upgrades a baseline on the clusters of a
    fleet group in waves: its rollout plan is frozen when it is created, it is
    approved by somebody else, and a target starts only in its wave, inside the
    maintenance window and with a recovery checkpoint of the current inventory. *)
From S2P Require Import Prelude GoStrings Digest Model Calendar Inventory Store Ordering Listing Operations.
From S2P Require Import Organizations Targets Impact Baselines.

(** ** The generalized Day-2 campaign contract *)

Definition GeneralizedDay2CampaignAuthorityMethod : string := "GENERALIZED_DAY2_CAMPAIGN_ENGINE_V1".
Definition Day2CampaignAdapterFleetUpgrade : string := "fleet-upgrade".
Definition GeneralizedDay2CampaignStages : list string :=
  ["PLAN"; "IMPACT"; "WINDOW"; "APPROVAL"; "CANARY_WAVES"; "FENCE"; "EXECUTE"; "VERIFY"; "EVIDENCE"; "RECOVERY"].

Record Day2CampaignContract := mkDay2CampaignContract {
  dc_Authority : string;
  dc_Adapter : string;
  dc_StageOrder : list string;
  dc_TargetCount : Z;
  dc_CanaryCount : Z;
  dc_WaveSize : Z;
  dc_HaltAfterFailures : Z;
  dc_MaxUnavailable : Z;
  dc_IndependentApproval : bool;
  dc_WindowRequired : bool;
  dc_WindowStart : Time;
  dc_WindowEnd : Time;
  dc_FencedExecution : bool;
  dc_VerificationRequired : bool;
  dc_EvidenceRequired : bool;
  dc_RecoveryRequired : bool;
  dc_RecoveryEvidenceCount : Z;
  dc_ExecutionBoundary : string;
}.

Definition Day2ContractForUpgrade (c : UpgradeCampaign) : Day2CampaignContract :=
  mkDay2CampaignContract GeneralizedDay2CampaignAuthorityMethod Day2CampaignAdapterFleetUpgrade GeneralizedDay2CampaignStages
    (Z.of_nat (length (uc_Targets c))) (uc_CanaryCount c) (uc_WaveSize c) (uc_HaltAfterFailures c) (uc_WaveSize c) true true
    (uc_MaintenanceWindowStart c) (uc_MaintenanceWindowEnd c) true true true true
    (Z.of_nat (length (uc_RecoveryCheckpointIDs c))) "baseline-deployment+runtime-verification+recovery-checkpoint".

Definition ValidateDay2CampaignContract (c : Day2CampaignContract) : result unit :=
  check ((dc_Authority c != GeneralizedDay2CampaignAuthorityMethod)
         || negb (Z.of_nat (length (dc_StageOrder c)) =? Z.of_nat (length GeneralizedDay2CampaignStages))) ErrValidation
  (check (dc_StageOrder c != GeneralizedDay2CampaignStages) ErrValidation
  (check ((dc_TargetCount c <? 1) || (dc_CanaryCount c <? 1) || (dc_TargetCount c <? dc_CanaryCount c) || (dc_WaveSize c <? 1)
          || (dc_TargetCount c <? dc_WaveSize c) || (dc_HaltAfterFailures c <? 1) || (dc_MaxUnavailable c <? 1)) ErrValidation
  (check (dc_WindowRequired c && ((dc_WindowStart c =? 0) || negb (dc_WindowStart c <? dc_WindowEnd c))) ErrMaintenanceWindow
  (check (negb (dc_IndependentApproval c) || negb (dc_FencedExecution c) || negb (dc_VerificationRequired c)
          || negb (dc_EvidenceRequired c) || blank (dc_ExecutionBoundary c)) ErrPrerequisite
  (check (dc_RecoveryRequired c && (dc_RecoveryEvidenceCount c <? dc_TargetCount c)) ErrPrerequisite (Ok tt)))))).

Definition ValidateDay2IndependentApproval (requestedBy approver : string) : result unit :=
  let requestedBy := TrimSpace requestedBy in
  let approver := TrimSpace approver in
  if (requestedBy == "local-development") && (approver == "local-development") then Ok tt
  else if (approver == "") || (requestedBy == "") || (approver == requestedBy) then Fail ErrPrerequisite
  else Ok tt.

Definition ValidateDay2ExecutionWindow (start end_ now : Time) : result unit :=
  if (start =? 0) || negb (start <? end_) || (now <? start) || negb (now <? end_) then Fail ErrMaintenanceWindow else Ok tt.

Definition ValidateDay2Fence (expected observed : Z) (leaseExpiresAt : option Time) (now : Time) : result unit :=
  if (expected <=? 0) || (observed <=? 0) || (expected != observed) then Fail ErrStaleFence
  else if negb (match leaseExpiresAt with Some t => now <? t | None => false end) then Fail ErrLeaseHeld
  else Ok tt.

Definition NormalizeDay2RolloutBounds (targetCount canaryCount waveSize haltAfterFailures : Z) : result (Z * Z * Z) :=
  if targetCount <? 1 then Fail ErrValidation
  else
    let atLeastOne n := if n <? 1 then 1 else n in
    let atMost n := if targetCount <? n then targetCount else n in
    Ok (atMost (atLeastOne canaryCount), atMost (atLeastOne waveSize), atLeastOne haltAfterFailures).

(** ** The rollout plan *)

(** targets in a wave *)
Definition waveCount (targets : list UpgradeCampaignTarget) (wave : Z) : Z :=
  Z.of_nat (length (List.filter (fun t => ut_Wave t =? wave) targets)).
Definition maxWave (targets : list UpgradeCampaignTarget) : Z := foldr Z.max 0 (ut_Wave <$> targets).

(** the loop over the targets: unique clusters, positive waves *)
Fixpoint targetsValid (seen : list string) (targets : list UpgradeCampaignTarget) : bool :=
  match targets with
  | [] => true
  | t :: rest =>
      let clusterID := TrimSpace (ut_ClusterID t) in
      negb ((clusterID == "") || bool_decide (clusterID ∈ seen) || (ut_Wave t <? 1)) && targetsValid (clusterID :: seen) rest
  end.

Definition waveValid (c : UpgradeCampaign) (wave : Z) : bool :=
  negb (waveCount (uc_Targets c) wave =? 0) && negb ((1 <? wave) && (uc_WaveSize c <? waveCount (uc_Targets c) wave)).

Definition ValidateDay2UpgradeTopology (c : UpgradeCampaign) : result unit :=
  also (ValidateDay2CampaignContract (Day2ContractForUpgrade c))
  (check (negb (targetsValid [] (uc_Targets c))) ErrValidation
  (check (negb (waveCount (uc_Targets c) 1 =? uc_CanaryCount c)) ErrValidation
  (check (negb (forallb (waveValid c) (seqZ 1 (maxWave (uc_Targets c))))) ErrValidation (Ok tt)))).

(** one target of the current plan against the next one *)
Definition targetChanged (before after : UpgradeCampaignTarget) : bool :=
  (ut_ClusterID before != ut_ClusterID after) || (ut_Wave before != ut_Wave after)
  || (ut_PreviousBaselineDeploymentID before != ut_PreviousBaselineDeploymentID after)
  || (ut_PreviousVersion before != ut_PreviousVersion after) || (ut_PreviousDigest before != ut_PreviousDigest after).
Definition targetStarts (before after : UpgradeCampaignTarget) : bool :=
  (ut_State before == UpgradeTargetPending) && (ut_State after != UpgradeTargetPending).

Fixpoint targetsProgress (currentWave : Z) (before after : list UpgradeCampaignTarget) : result unit :=
  match before, after with
  | b :: before', a :: after' =>
      check (targetChanged b a) ErrValidation
      (check (targetStarts b a && (currentWave <? ut_Wave a)) ErrInvalidTransition (targetsProgress currentWave before' after'))
  | _, _ => Ok tt
  end.

Definition ValidateDay2UpgradeProgression (current next : UpgradeCampaign) : result unit :=
  check ((uc_CanaryCount current != uc_CanaryCount next) || (uc_WaveSize current != uc_WaveSize next)
         || (uc_HaltAfterFailures current != uc_HaltAfterFailures next)
         || negb (bool_decide (length (uc_Targets current) = length (uc_Targets next)))) ErrValidation
  (check ((uc_CurrentWave next <? uc_CurrentWave current) || (inc64 (uc_CurrentWave current) <? uc_CurrentWave next))
     ErrInvalidTransition
  (also (targetsProgress (uc_CurrentWave next) (uc_Targets current) (uc_Targets next)) (ValidateDay2UpgradeTopology next))).

(** ** Safety of a campaign *)

Fixpoint uniqueLoop (seen : list string) (values : list string) : option (list string) :=
  match values with
  | [] => Some []
  | value :: rest =>
      let value := TrimSpace value in
      if (value == "") || bool_decide (value ∈ seen) then None
      else out ← uniqueLoop (value :: seen) rest; Some (value :: out)
  end.
Definition uniqueStrings (values : list string) : option (list string) := sortStrings <$> uniqueLoop [] values.

(** one target as the context digest covers it *)
Definition json_campaignTarget (v : UpgradeCampaign) (item : UpgradeCampaignTarget) : string :=
  json_object [("clusterId", json_string (ut_ClusterID item));
               ("previousDeploymentId", json_string (ut_PreviousBaselineDeploymentID item));
               ("previousVersion", json_string (ut_PreviousVersion item));
               ("previousDigest", json_string (ut_PreviousDigest item));
               ("inventoryDigest", json_string (default "" (uc_TargetInventoryDigests v !! ut_ClusterID item)))].

(** no text when a window bound has a year JSON cannot write *)
Definition json_campaignContext (v : UpgradeCampaign) : option string :=
  windowStart ← json_time (uc_MaintenanceWindowStart v);
  windowEnd ← json_time (uc_MaintenanceWindowEnd v);
  Some (json_object
    [("baselineId", json_string (uc_BaselineID v)); ("targetVersion", json_string (uc_TargetVersion v));
     ("windowStart", windowStart); ("windowEnd", windowEnd);
     ("targets", json_array (json_campaignTarget v <$> sortSlice (on ut_ClusterID string_lt) (uc_Targets v)));
     ("checkpoints", json_array (json_string <$> sortStrings (uc_RecoveryCheckpointIDs v)))]).

(** [raw, _ := json.Marshal(...)]: on an error the digest is that of no bytes *)
Definition UpgradeCampaignContextDigest (v : UpgradeCampaign) : string :=
  sha256Digest (default "" (json_campaignContext v)).

(** the checkpoints of a campaign by cluster *)
Fixpoint checkpointLoop (s : MemoryStore) (projectID : string) (byCluster : gmap string RecoveryCheckpoint) (ids : list string)
    : result (gmap string RecoveryCheckpoint) :=
  match ids with
  | [] => Ok byCluster
  | id :: rest =>
      match ms_recoveryCheckpoints s !! id with
      | Some cp =>
          if rc_ProjectID cp != projectID then Fail ErrPrerequisite
          else if bool_decide (is_Some (byCluster !! rc_ClusterID cp)) then Fail ErrPrerequisite
          else checkpointLoop s projectID (<[rc_ClusterID cp := cp]> byCluster) rest
      | None => Fail ErrPrerequisite
      end
  end.

(** a completed deployment of the baseline on the cluster *)
Definition campaignSource (v : UpgradeCampaign) (clusterID : string) (now : Time) (dep : BaselineDeployment) : bool :=
  (bd_ProjectID dep == uc_ProjectID v) && (bd_ClusterID dep == clusterID) && (bd_BaselineID dep == uc_BaselineID v)
  && BaselineCompletionEvidenceReady dep now.
Definition latestSource (v : UpgradeCampaign) (clusterID : string) (now : Time) (deployments : list BaselineDeployment)
    : string * Time :=
  foldl (fun latest dep =>
           if campaignSource v clusterID now dep && ((latest.1 == "") || (latest.2 <? rm_CreatedAt (bd_Meta dep)))
           then (rm_ID (bd_Meta dep), rm_CreatedAt (bd_Meta dep)) else latest) ("", 0) deployments.
Definition latestSourceID (s : MemoryStore) (v : UpgradeCampaign) (clusterID : string) (now : Time) : string :=
  (latestSource v clusterID now ((map_to_list (ms_baselineDeployments s)).*2)).1.

(** a verified checkpoint of the cluster's current inventory that outlives the window *)
Definition checkpointCurrent (v : UpgradeCampaign) (cluster : ManagedCluster) (cp : option RecoveryCheckpoint) : bool :=
  match cp with
  | Some cp => (rc_State cp == RecoveryCheckpointVerified) && (uc_MaintenanceWindowEnd v <? rc_ExpiresAt cp)
               && (rc_InventoryDigest cp == mc_InventoryDigest cluster)
  | None => false
  end.

(** the cluster of the project, with an inventory *)
Definition campaignCluster (s : MemoryStore) (v : UpgradeCampaign) (clusterID : string) : option ManagedCluster :=
  cluster ← ms_managedClusters s !! clusterID;
  if (mc_ProjectID cluster != uc_ProjectID v) || blank (mc_InventoryDigest cluster) then None else Some cluster.

(** the loop over the pending targets; the inventories they were checked against *)
Fixpoint pendingLoop (s : MemoryStore) (v : UpgradeCampaign) (byCluster : gmap string RecoveryCheckpoint) (now : Time)
    (inventory : gmap string string) (targets : list UpgradeCampaignTarget) : result (gmap string string) :=
  match targets with
  | [] => Ok inventory
  | t :: rest =>
      if ut_State t != UpgradeTargetPending then pendingLoop s v byCluster now inventory rest
      else match campaignCluster s v (ut_ClusterID t) with
           | None => Fail ErrPrerequisite
           | Some cluster =>
               if negb (checkpointCurrent v cluster (byCluster !! ut_ClusterID t)) then Fail ErrPrerequisite
               else
                 let latestID := latestSourceID s v (ut_ClusterID t) now in
                 if (latestID == "") || (latestID != ut_PreviousBaselineDeploymentID t) then Fail ErrPlanStale
                 else pendingLoop s v byCluster now (<[ut_ClusterID t := mc_InventoryDigest cluster]> inventory) rest
           end
  end.

Definition windowInvalid (v : UpgradeCampaign) (now : Time) : bool :=
  (uc_MaintenanceWindowStart v =? 0) || (uc_MaintenanceWindowEnd v =? 0)
  || negb (uc_MaintenanceWindowStart v <? uc_MaintenanceWindowEnd v) || negb (now <? uc_MaintenanceWindowEnd v)
  || (24 * Hour <? uc_MaintenanceWindowEnd v - uc_MaintenanceWindowStart v).

(** [prepareUpgradeSafetyLocked] reads the store and seals the plan of [v] *)
Definition prepareUpgradeSafetyLocked (s : MemoryStore) (v : UpgradeCampaign) (checkpointIDs : list string) (now : Time)
    : result UpgradeCampaign :=
  if windowInvalid v now then Fail ErrValidation
  else match uniqueStrings checkpointIDs with
  | None => Fail ErrPrerequisite
  | Some ids =>
      if negb (Z.of_nat (length ids) =? Z.of_nat (length (uc_Targets v))) then Fail ErrPrerequisite
      else match checkpointLoop s (uc_ProjectID v) ∅ ids with
      | Fail e => Fail e
      | Ok byCluster =>
          match pendingLoop s v byCluster now (uc_TargetInventoryDigests v) (uc_Targets v) with
          | Fail e => Fail e
          | Ok inventory =>
              let v := v <| uc_TargetInventoryDigests := inventory |> <| uc_RecoveryCheckpointIDs := ids |>
                         <| uc_PlanCreatedAt := Some now |> <| uc_PlanExpiresAt := Some (now + ExecutionPlanTTL) |> in
              Ok (v <| uc_PlanContextDigest := UpgradeCampaignContextDigest v |>)
          end
      end
  end.

Definition validateUpgradeSafetyLocked (s : MemoryStore) (v : UpgradeCampaign) (now : Time) (requireOpenWindow : bool)
    : result unit :=
  if match uc_PlanCreatedAt v, uc_PlanExpiresAt v with Some _, Some expires => negb (now <? expires) | _, _ => true end
  then Fail ErrPlanStale
  else if requireOpenWindow && ((now <? uc_MaintenanceWindowStart v) || negb (now <? uc_MaintenanceWindowEnd v))
  then Fail ErrMaintenanceWindow
  else match prepareUpgradeSafetyLocked s v (uc_RecoveryCheckpointIDs v) now with
       | Fail e => Fail e
       | Ok copy => if uc_PlanContextDigest copy != uc_PlanContextDigest v then Fail ErrPlanStale else Ok tt
       end.

(** the clusters whose target leaves PENDING *)
Definition campaignStarts (current next : UpgradeCampaign) : list string :=
  (fun p => ut_ClusterID p.1) <$> List.filter (fun p => targetStarts p.1 p.2) (zip (uc_Targets current) (uc_Targets next)).

(** the checkpoints found, a later one for the same cluster in place of an earlier one *)
Definition checkpointsOf (s : MemoryStore) (ids : list string) : gmap string RecoveryCheckpoint :=
  foldl (fun m id => match ms_recoveryCheckpoints s !! id with Some cp => <[rc_ClusterID cp := cp]> m | None => m end) ∅ ids.

Definition startRefused (s : MemoryStore) (current : UpgradeCampaign) (byCluster : gmap string RecoveryCheckpoint)
    (clusterID : string) : bool :=
  match campaignCluster s current clusterID with
  | None => true
  | Some cluster =>
      negb (checkpointCurrent current cluster (byCluster !! clusterID))
      || (option_map rc_ProjectID (byCluster !! clusterID) != Some (uc_ProjectID current))
      || (default "" (uc_TargetInventoryDigests current !! clusterID) != mc_InventoryDigest cluster)
  end.

Fixpoint startLoop (s : MemoryStore) (current : UpgradeCampaign) (byCluster : gmap string RecoveryCheckpoint) (now : Time)
    (starts : list string) (targets : list UpgradeCampaignTarget) : result unit :=
  match targets with
  | [] => Ok tt
  | target :: rest =>
      if negb (bool_decide (ut_ClusterID target ∈ starts)) then startLoop s current byCluster now starts rest
      else check (startRefused s current byCluster (ut_ClusterID target)) ErrPrerequisite
           (check (latestSourceID s current (ut_ClusterID target) now != ut_PreviousBaselineDeploymentID target) ErrPlanStale
              (startLoop s current byCluster now starts rest))
  end.

Definition validateUpgradeTargetStartsLocked (s : MemoryStore) (current next : UpgradeCampaign) (now : Time) : result unit :=
  let starts := campaignStarts current next in
  if negb (nonEmpty starts) then Ok tt
  else check ((now <? uc_MaintenanceWindowStart current) || negb (now <? uc_MaintenanceWindowEnd current)) ErrMaintenanceWindow
       (startLoop s current (checkpointsOf s (uc_RecoveryCheckpointIDs current)) now starts (uc_Targets current)).

(** ** Fleet groups *)

Inductive GroupScan : Type :=
| GroupRefused (e : Error)
| GroupReplay (existing : FleetGroup)
| GroupNew.

Fixpoint scanGroups (v : FleetGroup) (existing : list FleetGroup) : GroupScan :=
  match existing with
  | [] => GroupNew
  | x :: rest =>
      if (fg_ProjectID x == fg_ProjectID v) && (fg_IdempotencyKey x == fg_IdempotencyKey v) then
        if fg_RequestDigest x != fg_RequestDigest v then GroupRefused ErrIdempotencyConflict else GroupReplay x
      else if (fg_ProjectID x == fg_ProjectID v) && (normalizeName (fg_Name x) == normalizeName (fg_Name v))
      then GroupRefused ErrDuplicateName
      else scanGroups v rest
  end.

Definition CreateFleetGroup (v : FleetGroup) (actor : string) : Store (FleetGroup * bool) :=
  let! s := get in
  let! _ := get_opt (ms_projects s !! fg_ProjectID v) ErrNotFound in
  let! clusters := get_opt (uniqueStrings (fg_ClusterIDs v)) ErrValidation in
  fail_if (negb (nonEmpty clusters) || (normalizeName (fg_Name v) == "") || blank (fg_DisplayName v)
           || blank (fg_IdempotencyKey v) || negb (HasPrefix (fg_RequestDigest v) sha256_prefix)) ErrValidation ;;;
  fail_if (existsb (fun id => match ms_managedClusters s !! id with
                              | Some cluster => mc_ProjectID cluster != fg_ProjectID v
                              | None => true
                              end) clusters) ErrNotFound ;;;
  match scanGroups v ((map_to_list (ms_fleetGroups s)).*2) with
  | GroupRefused e => raise e
  | GroupReplay existing => ret (existing, true)
  | GroupNew =>
      let! now := nowUTC in
      let! id := newID "flg" in
      let v := v <| fg_Meta := newMeta id now |> <| fg_Name := normalizeName (fg_Name v) |>
                 <| fg_ClusterIDs := clusters |> <| fg_RequestedBy := actor |> in
      putFleetGroup id v ;;;
      appendAuditLocked actor "fleet_group.created" "fleetGroup" id (rm_Revision (fg_Meta v))
        [("clusters", MInt (Z.of_nat (length clusters)))] ;;;
      appendOutboxLocked "fleetGroup" id "fleet_group.created" (PayloadFleetGroup v) ;;;
      ret (v, false)
  end.

Definition GetFleetGroup (id : string) : Store FleetGroup :=
  let! s := get in
  get_opt (ms_fleetGroups s !! id) ErrNotFound.

Definition ListFleetGroups (projectID : string) : Store (list FleetGroup) :=
  let! s := get in
  ret (sortSlice (on fg_Name string_lt)
         (List.filter (fun v => (projectID == "") || (fg_ProjectID v == projectID)) ((map_to_list (ms_fleetGroups s)).*2))).

(** ** Campaigns *)

(** the first campaign met with the request's key; its key is unique in the project *)
Definition replayedCampaign (v : UpgradeCampaign) (existing : list UpgradeCampaign) : option UpgradeCampaign :=
  List.find (fun x => (uc_ProjectID x == uc_ProjectID v) && (uc_IdempotencyKey x == uc_IdempotencyKey v)) existing.

Definition campaignRequestInvalid (group : option FleetGroup) (v : UpgradeCampaign) : bool :=
  match group with Some g => fg_ProjectID g != uc_ProjectID v | None => true end
  || negb (nonEmpty (uc_Targets v)) || (uc_CanaryCount v <? 1) || (uc_WaveSize v <? 1) || (uc_HaltAfterFailures v <? 1)
  || blank (uc_TargetVersion v) || blank (uc_IdempotencyKey v) || negb (HasPrefix (uc_RequestDigest v) sha256_prefix).

Definition CreateUpgradeCampaign (v : UpgradeCampaign) (actor : string) : Store (UpgradeCampaign * bool) :=
  let! s := get in
  let! _ := get_opt (ms_projects s !! uc_ProjectID v) ErrNotFound in
  fail_if (campaignRequestInvalid (ms_fleetGroups s !! uc_FleetGroupID v) v) ErrValidation ;;;
  match replayedCampaign v ((map_to_list (ms_upgradeCampaigns s)).*2) with
  | Some existing =>
      fail_if (uc_RequestDigest existing != uc_RequestDigest v) ErrIdempotencyConflict ;;;
      ret (existing, true)
  | None =>
      let! now := nowUTC in
      let! v := lift (prepareUpgradeSafetyLocked s v (uc_RecoveryCheckpointIDs v) now) in
      let! _ := lift (ValidateDay2UpgradeTopology v) in
      let! id := newID "upg" in
      let v := v <| uc_Meta := newMeta id now |> <| uc_State := UpgradeCampaignAwaitingApproval |>
                 <| uc_RequestedBy := actor |> <| uc_CurrentWave := 0 |> in
      putUpgradeCampaign id v ;;;
      appendAuditLocked actor "upgrade_campaign.created" "upgradeCampaign" id (rm_Revision (uc_Meta v))
        [("targets", MInt (Z.of_nat (length (uc_Targets v)))); ("targetVersion", MStr (uc_TargetVersion v))] ;;;
      appendOutboxLocked "upgradeCampaign" id "upgrade_campaign.awaiting_approval" (PayloadUpgradeCampaign v) ;;;
      ret (v, false)
  end.

Definition GetUpgradeCampaign (id : string) : Store UpgradeCampaign :=
  let! s := get in
  get_opt (ms_upgradeCampaigns s !! id) ErrNotFound.

Definition ListUpgradeCampaigns (projectID groupID : string) : Store (list UpgradeCampaign) :=
  let! s := get in
  ret (oldest_first uc_Meta (fun v => ((projectID == "") || (uc_ProjectID v == projectID))
                                      && ((groupID == "") || (uc_FleetGroupID v == groupID))) (ms_upgradeCampaigns s)).

(** the campaign at an expected revision *)
Definition campaignAt (id : string) (expected : Z) : Store UpgradeCampaign :=
  let! s := get in
  let! v := get_opt (ms_upgradeCampaigns s !! id) ErrNotFound in
  fail_if (rm_Revision (uc_Meta v) != expected) ErrConflict ;;;
  ret v.

(** stores the campaign at its next revision, with its audit entry and event *)
Definition recordCampaign (id : string) (v : UpgradeCampaign) (now : Time) (actor action event : string)
    (metadata : list (string * MetaValue)) : Store UpgradeCampaign :=
  let v := v <| uc_Meta := bump (uc_Meta v) now |> in
  putUpgradeCampaign id v ;;;
  appendAuditLocked actor action "upgradeCampaign" id (rm_Revision (uc_Meta v)) metadata ;;;
  appendOutboxLocked "upgradeCampaign" id event (PayloadUpgradeCampaign v) ;;;
  ret v.

Definition ApproveUpgradeCampaign (id : string) (expected : Z) (actor : string) : Store UpgradeCampaign :=
  let! v := campaignAt id expected in
  fail_if (uc_State v != UpgradeCampaignAwaitingApproval) ErrInvalidTransition ;;;
  let! _ := lift (ValidateDay2IndependentApproval (uc_RequestedBy v) actor) in
  let! now := nowUTC in
  let! s := get in
  let! _ := lift (validateUpgradeSafetyLocked s v now false) in
  recordCampaign id (v <| uc_State := UpgradeCampaignQueued |> <| uc_ApprovedBy := actor |> <| uc_ApprovedAt := Some now |>)
    now actor "upgrade_campaign.approved" "upgrade_campaign.queued" [("targetVersion", MStr (uc_TargetVersion v))].

Definition activeTarget (target : UpgradeCampaignTarget) : bool :=
  match ut_State target with
  | UpgradeTargetPlanning | UpgradeTargetApplying | UpgradeTargetVerifying | UpgradeTargetRollingBack => true
  | _ => false
  end.
Definition upgradeCampaignHasActiveTarget (v : UpgradeCampaign) : bool := existsb activeTarget (uc_Targets v).

Definition orDefault (reason otherwise : string) : string := if TrimSpace reason == "" then otherwise else TrimSpace reason.

Definition PauseUpgradeCampaign (id : string) (expected : Z) (actor reason : string) : Store UpgradeCampaign :=
  let! v := campaignAt id expected in
  fail_if (uc_State v != UpgradeCampaignRunning) ErrInvalidTransition ;;;
  let! now := nowUTC in
  let reason := orDefault reason "operator requested pause" in
  let active := upgradeCampaignHasActiveTarget v in
  let v := v <| uc_PausedBy := actor |> <| uc_ControlReason := reason |> <| uc_PauseCount := inc64 (uc_PauseCount v) |>
             <| uc_State := if active then UpgradeCampaignPauseRequested else UpgradeCampaignPaused |>
             <| uc_PausedAt := if active then None else Some now |> in
  let action := if active then "upgrade_campaign.pause_requested" else "upgrade_campaign.paused" in
  recordCampaign id v now actor action action [("wave", MInt (uc_CurrentWave v)); ("reason", MStr reason)].

Definition ResumeUpgradeCampaign (id : string) (expected : Z) (actor : string) : Store UpgradeCampaign :=
  let! v := campaignAt id expected in
  fail_if (uc_State v != UpgradeCampaignPaused) ErrInvalidTransition ;;;
  let! now := nowUTC in
  let! s := get in
  let! _ := lift (validateUpgradeSafetyLocked s v now true) in
  recordCampaign id (v <| uc_State := UpgradeCampaignQueued |> <| uc_PausedAt := None |> <| uc_ControlReason := "" |>)
    now actor "upgrade_campaign.resumed" "upgrade_campaign.queued"
    [("wave", MInt (uc_CurrentWave v)); ("startedAtPreserved", MBool (uc_StartedAt v != None))].

Definition CancelUpgradeCampaign (id : string) (expected : Z) (actor reason : string) : Store UpgradeCampaign :=
  let! v := campaignAt id expected in
  fail_if (match uc_State v with
           | UpgradeCampaignSucceeded | UpgradeCampaignFailed | UpgradeCampaignCancelled | UpgradeCampaignCancelRequested => true
           | _ => false
           end) ErrInvalidTransition ;;;
  let! now := nowUTC in
  let reason := orDefault reason "operator requested cancel" in
  let active := upgradeCampaignHasActiveTarget v in
  fail_if (active && (uc_State v != UpgradeCampaignRunning) && (uc_State v != UpgradeCampaignPauseRequested)
           && (uc_State v != UpgradeCampaignCancelRequested) && (uc_State v != UpgradeCampaignHalted)) ErrInvalidTransition ;;;
  let v := v <| uc_CancelRequestedBy := actor |> <| uc_CancelRequestedAt := Some now |> <| uc_ControlReason := reason |> in
  let v := if active then v <| uc_State := UpgradeCampaignCancelRequested |>
           else v <| uc_State := UpgradeCampaignCancelled |> <| uc_CancelledBy := actor |> <| uc_CancelledAt := Some now |>
                  <| uc_FinishedAt := Some now |> in
  let action := if active then "upgrade_campaign.cancel_requested" else "upgrade_campaign.cancelled" in
  recordCampaign id v now actor action action [("wave", MInt (uc_CurrentWave v)); ("reason", MStr reason)].

Definition RevalidateUpgradeCampaign (id : string) (expected : Z) (input : UpgradeCampaignRevalidation) (actor : string)
    : Store UpgradeCampaign :=
  let! v := campaignAt id expected in
  fail_if ((uc_State v != UpgradeCampaignAwaitingApproval) && (uc_State v != UpgradeCampaignQueued)
           && (uc_State v != UpgradeCampaignRunning) && (uc_State v != UpgradeCampaignPaused)) ErrInvalidTransition ;;;
  fail_if ((uc_State v == UpgradeCampaignRunning) && upgradeCampaignHasActiveTarget v) ErrInvalidTransition ;;;
  let checkpointIDs := if nonEmpty (uv_RecoveryCheckpointIDs input) then uv_RecoveryCheckpointIDs input
                       else uc_RecoveryCheckpointIDs v in
  let v := v <| uc_MaintenanceWindowStart := if uv_MaintenanceWindowStart input =? 0 then uc_MaintenanceWindowStart v
                                             else uv_MaintenanceWindowStart input |>
             <| uc_MaintenanceWindowEnd := if uv_MaintenanceWindowEnd input =? 0 then uc_MaintenanceWindowEnd v
                                           else uv_MaintenanceWindowEnd input |> in
  let! now := nowUTC in
  let! s := get in
  let! v := lift (prepareUpgradeSafetyLocked s v checkpointIDs now) in
  let v := v <| uc_State := UpgradeCampaignAwaitingApproval |> <| uc_ApprovedBy := "" |> <| uc_ApprovedAt := None |>
             <| uc_ControlReason := "" |> <| uc_PlanRevalidationCount := inc64 (uc_PlanRevalidationCount v) |> in
  recordCampaign id v now actor "upgrade_campaign.revalidated" "upgrade_campaign.awaiting_approval"
    [("planContextDigest", MStr (uc_PlanContextDigest v)); ("revalidationCount", MInt (uc_PlanRevalidationCount v))].

(** what an update must leave as it is *)
Definition campaignIdentityChanged (current next : UpgradeCampaign) : bool :=
  (uc_ProjectID next != uc_ProjectID current) || (uc_FleetGroupID next != uc_FleetGroupID current)
  || (uc_BaselineID next != uc_BaselineID current) || (uc_TargetVersion next != uc_TargetVersion current)
  || (uc_IdempotencyKey next != uc_IdempotencyKey current) || (uc_RequestDigest next != uc_RequestDigest current)
  || (uc_PlanContextDigest next != uc_PlanContextDigest current)
  || (uc_MaintenanceWindowStart next != uc_MaintenanceWindowStart current)
  || (uc_MaintenanceWindowEnd next != uc_MaintenanceWindowEnd current).

Definition UpdateUpgradeCampaign (next : UpgradeCampaign) (expected : Z) (actor : string) : Store UpgradeCampaign :=
  let! current := campaignAt (rm_ID (uc_Meta next)) expected in
  fail_if (campaignIdentityChanged current next) ErrValidation ;;;
  let! _ := lift (ValidateDay2UpgradeProgression current next) in
  let! now := nowUTC in
  let! s := get in
  let! _ := lift (if (uc_State current == UpgradeCampaignQueued) && (uc_State next == UpgradeCampaignRunning)
                  then validateUpgradeSafetyLocked s current now true else Ok tt) in
  let! _ := lift (validateUpgradeTargetStartsLocked s current next now) in
  recordCampaign (rm_ID (uc_Meta current)) (next <| uc_Meta := uc_Meta current |>) now actor "upgrade_campaign.progressed" "upgrade_campaign.progressed"
    [("state", MStr (UpgradeCampaignState_string (uc_State next))); ("wave", MInt (uc_CurrentWave next))].

(** ** Independent approval *)

(** requester and approver are both named and are different people; the local
    development principal, which signs its own requests, is the code's exception *)
Definition independent (requestedBy approver : string) : Prop :=
  (TrimSpace requestedBy <> "" /\ TrimSpace approver <> "" /\ TrimSpace approver <> TrimSpace requestedBy) \/
  (TrimSpace requestedBy = "local-development" /\ TrimSpace approver = "local-development").

Lemma independent_approval requestedBy approver :
  ValidateDay2IndependentApproval requestedBy approver = Ok tt -> independent requestedBy approver.
Proof.
  unfold ValidateDay2IndependentApproval, independent. cbv zeta. case_match; [norm_bool; auto|].
  case_match; [done|]. norm_bool. auto.
Qed.
