(* ===== verification/CampaignTheorems.v ===== *)
(** * Upgrade campaigns roll out as planned

    The rollout plan as a statement about waves, the handlers interleaved with
    steps of the other components, and what every history keeps: the plan is
    frozen, waves are reached one at a time, and no target starts ahead of its
    wave, outside the window or without a current recovery checkpoint. *)
From S2P Require Import Prelude GoStrings Digest Model Calendar Inventory Store Ordering Listing Operations.
From S2P Require Import OperationSystem OperationRuns.
From S2P Require Import Collections Organizations Targets Impact Baselines Campaigns.

(** ** The rollout plan *)

Definition waves (c : UpgradeCampaign) : list Z := ut_Wave <$> uc_Targets c.

(** what [ValidateDay2UpgradeTopology] accepts *)
Record rollout_ok (c : UpgradeCampaign) : Prop := {
  ro_canary : 1 <= uc_CanaryCount c <= Z.of_nat (length (uc_Targets c));
  ro_wave : 1 <= uc_WaveSize c <= Z.of_nat (length (uc_Targets c));
  ro_halt : 1 <= uc_HaltAfterFailures c;
  ro_window : uc_MaintenanceWindowStart c <> 0 /\ uc_MaintenanceWindowStart c < uc_MaintenanceWindowEnd c;
  ro_recovery : (length (uc_Targets c) <= length (uc_RecoveryCheckpointIDs c))%nat;
  ro_clusters : NoDup ((fun t => TrimSpace (ut_ClusterID t)) <$> uc_Targets c);
  ro_named : Forall (fun t => TrimSpace (ut_ClusterID t) <> "" /\ 1 <= ut_Wave t) (uc_Targets c);
  ro_first : waveCount (uc_Targets c) 1 = uc_CanaryCount c;
  ro_contiguous : forall w, 1 <= w <= maxWave (uc_Targets c) -> 1 <= waveCount (uc_Targets c) w;
  ro_bounded : forall w, 1 < w -> waveCount (uc_Targets c) w <= uc_WaveSize c
}.

Lemma targets_valid seen ts :
  targetsValid seen ts = true <->
  NoDup ((fun t => TrimSpace (ut_ClusterID t)) <$> ts) /\ (forall t, t ∈ ts -> TrimSpace (ut_ClusterID t) ∉ seen) /\
  Forall (fun t => TrimSpace (ut_ClusterID t) <> "" /\ 1 <= ut_Wave t) ts.
Proof.
  revert seen. induction ts as [|t ts IH]; intros seen; cbn [targetsValid].
  { split; [intros _; split_and!; [constructor|by intros ? ?%elem_of_nil|constructor]|done]. }
  cbv zeta. rewrite andb_true_iff, IH, fmap_cons, NoDup_cons, Forall_cons. split.
  - intros [Ht (Hn & Hs & Hf)]. norm_bool. split_and!; try done.
    + intros (y & Ek & Hy)%list_elem_of_fmap. apply (Hs y Hy). rewrite <- Ek. left.
    + intros x [->|Hx]%elem_of_cons; [done|]. intros Hin. apply (Hs x Hx). by right.
  - intros ((Hx & Hn) & Hs & (H1 & H2) & Hf). split; [|split_and!; [done| |done]].
    + apply negb_true_iff, orb_false_iff. split; [|by apply Z.ltb_ge]. apply orb_false_iff.
      split; apply bool_decide_eq_false; [done|]. apply Hs. left.
    + intros x Hx' [E|Hin]%elem_of_cons; [|by apply (Hs x); [right|]]. apply Hx, list_elem_of_fmap. by exists x.
Qed.

Lemma max_wave_le ts t : t ∈ ts -> ut_Wave t <= maxWave ts.
Proof.
  unfold maxWave. induction ts as [|x ts IH]; intros Hin; [by apply elem_of_nil in Hin|]. cbn.
  apply elem_of_cons in Hin as [->|Hin]; [lia|]. specialize (IH Hin). cbn in IH. lia.
Qed.

(** beyond the last wave there is nobody *)
Lemma wave_beyond ts w : maxWave ts < w -> waveCount ts w = 0.
Proof.
  intros Hw. unfold waveCount. rewrite bfilter_none; [done|]. intros t Ht. apply max_wave_le in Ht. lia.
Qed.

Lemma forall_waves (f : Z -> bool) n : forallb f (seqZ 1 n) = true <-> forall w, 1 <= w <= n -> f w = true.
Proof.
  rewrite forallb_forall. split; intros H w Hw; apply H.
  - apply list_elem_of_In, elem_of_seqZ. lia.
  - apply list_elem_of_In, elem_of_seqZ in Hw. lia.
Qed.

Lemma check_ok b e rest : check b e rest = Ok tt <-> b = false /\ rest = Ok tt.
Proof. destruct b; cbn; [split; [done|by intros []]|tauto]. Qed.
Lemma also_ok r rest : also r rest = Ok tt <-> r = Ok tt /\ rest = Ok tt.
Proof. destruct r as [[]|]; cbn; [tauto|split; [done|by intros []]]. Qed.

Lemma wave_valid c w :
  waveValid c w = true <->
  1 <= waveCount (uc_Targets c) w /\ (1 < w -> waveCount (uc_Targets c) w <= uc_WaveSize c).
Proof.
  unfold waveValid. rewrite andb_true_iff, !negb_true_iff, Z.eqb_neq, andb_false_iff, !Z.ltb_ge.
  assert (0 <= waveCount (uc_Targets c) w) by (unfold waveCount; lia).
  split; [intros [? [?|?]]; lia|]. intros [? Hw]. split; [lia|]. destruct (decide (1 < w)); [right; auto|left; lia].
Qed.

Lemma topology_ok c : ValidateDay2UpgradeTopology c = Ok tt <-> rollout_ok c.
Proof.
  unfold ValidateDay2UpgradeTopology, ValidateDay2CampaignContract.
  rewrite also_ok, !check_ok, !negb_false_iff, targets_valid, Z.eqb_eq, forall_waves. cbn [Day2ContractForUpgrade dc_Authority
    dc_StageOrder dc_TargetCount dc_CanaryCount dc_WaveSize dc_HaltAfterFailures dc_MaxUnavailable dc_WindowRequired
    dc_WindowStart dc_WindowEnd dc_IndependentApproval dc_FencedExecution dc_VerificationRequired dc_EvidenceRequired
    dc_ExecutionBoundary dc_RecoveryRequired dc_RecoveryEvidenceCount andb].
  split.
  - intros ((_ & _ & Hb & Hw & _ & Hr & _) & (Hn & _ & Hf) & H1 & Hc & _). norm_bool.
    split; try done; try lia.
    + intros w Hw'. by apply wave_valid, Hc.
    + intros w Hw'. destruct (decide (w <= maxWave (uc_Targets c))) as [Hle|Hgt].
      * specialize (Hc w ltac:(lia)). apply wave_valid in Hc as [_ Hc]. auto.
      * rewrite wave_beyond by lia. lia.
  - intros [H1 H2 H3 [H4a H4b] H5 H6 H7 H8 H9 H10]. split_and!; try done.
    all: repeat (apply orb_false_iff; split); try (apply Z.ltb_ge; lia); try (apply Z.eqb_neq; done); try done.
    + apply negb_false_iff. apply Z.ltb_lt. lia.
    + by intros ? _ ?%elem_of_nil.
    + intros w Hw. apply wave_valid. auto.
Qed.

(** ** What a campaign keeps *)

(** the part of a target that is planned *)
Definition planned (t : UpgradeCampaignTarget) :=
  (ut_ClusterID t, ut_Wave t, ut_PreviousBaselineDeploymentID t, ut_PreviousVersion t, ut_PreviousDigest t).
(** the part of a campaign that is planned *)
Definition frozen (c : UpgradeCampaign) :=
  (rm_ID (uc_Meta c), rm_CreatedAt (uc_Meta c), uc_ProjectID c, uc_FleetGroupID c, uc_BaselineID c, uc_TargetVersion c,
   uc_CanaryCount c, uc_WaveSize c, uc_HaltAfterFailures c, uc_IdempotencyKey c, uc_RequestDigest c,
   planned <$> uc_Targets c).

(** no target has left PENDING ahead of the current wave *)
Definition confined (c : UpgradeCampaign) : Prop :=
  forall t, t ∈ uc_Targets c -> ut_State t <> UpgradeTargetPending -> ut_Wave t <= uc_CurrentWave c.

Lemma target_unchanged b a : targetChanged b a = false -> planned a = planned b.
Proof. unfold targetChanged, planned. intros H. norm_bool. congruence. Qed.

Lemma progress_spec cw bs : forall az,
  length bs = length az -> targetsProgress cw bs az = Ok tt ->
  planned <$> az = planned <$> bs /\
  forall i b a, bs !! i = Some b -> az !! i = Some a -> targetStarts b a = true -> ut_Wave a <= cw.
Proof.
  induction bs as [|b bs IH]; intros [|a az] Hl H; try done.
  cbn [targetsProgress] in H. apply check_ok in H as [Hc H]. apply check_ok in H as [Hs H].
  destruct (IH az ltac:(by injection Hl) H) as [Hp Hi]. split.
  - cbn. f_equal; [by apply target_unchanged|exact Hp].
  - intros [|i] b' a' Hb Ha Hst; cbn in *; [|by eapply Hi]. simplify_eq. rewrite Hst in Hs. cbn in Hs. lia.
Qed.

Lemma planned_waves (az bs : list UpgradeCampaignTarget) : planned <$> az = planned <$> bs -> ut_Wave <$> az = ut_Wave <$> bs.
Proof.
  intros H. apply (f_equal (fmap (M := list) (fun p => p.1.1.1.2))) in H. rewrite <- !list_fmap_compose in H. exact H.
Qed.

Lemma confined_progress (current next : UpgradeCampaign) :
  length (uc_Targets current) = length (uc_Targets next) -> uc_CurrentWave current <= uc_CurrentWave next ->
  targetsProgress (uc_CurrentWave next) (uc_Targets current) (uc_Targets next) = Ok tt -> confined current -> confined next.
Proof.
  intros Hl Hw Hp Hc a Ha Hst. destruct (progress_spec _ _ _ Hl Hp) as [Hpl Hi]. apply list_elem_of_lookup in Ha as [i Ha].
  assert (Hb : is_Some (uc_Targets current !! i)) by (apply lookup_lt_is_Some; rewrite Hl; by eapply lookup_lt_Some).
  destruct Hb as [b Hb]. destruct (decide (ut_State b = UpgradeTargetPending)) as [E|E].
  - apply (Hi i b a Hb Ha). unfold targetStarts. by rewrite bool_decide_eq_true_2, bool_decide_eq_false_2.
  - assert (ut_Wave a = ut_Wave b) as ->; [|pose proof (Hc b (list_elem_of_lookup_2 _ _ _ Hb) E); lia].
    apply planned_waves in Hpl. apply (f_equal (.!! i)) in Hpl. rewrite !list_lookup_fmap, Ha, Hb in Hpl. by injection Hpl.
Qed.

Lemma inc64_at_most z : 0 <= z -> inc64 z <= z + 1.
Proof.
  intros H. unfold inc64, wrap64. pose proof (Z.mod_le (z + 1 + 2 ^ 63) (2 ^ 64) ltac:(lia) ltac:(lia)). lia.
Qed.

Lemma progression_spec current next r :
  0 <= uc_CurrentWave current -> ValidateDay2UpgradeProgression current next = Ok r ->
  length (uc_Targets current) = length (uc_Targets next) /\
  uc_CurrentWave current <= uc_CurrentWave next <= uc_CurrentWave current + 1 /\
  targetsProgress (uc_CurrentWave next) (uc_Targets current) (uc_Targets next) = Ok tt /\ rollout_ok next /\
  (uc_CanaryCount next = uc_CanaryCount current /\ uc_WaveSize next = uc_WaveSize current /\
   uc_HaltAfterFailures next = uc_HaltAfterFailures current).
Proof.
  intros H0. destruct r. unfold ValidateDay2UpgradeProgression. rewrite !check_ok, also_ok, topology_ok.
  intros (Hb & Hw & Hp & Ht). apply orb_false_iff in Hw as [Hw1 Hw2]. norm_bool.
  pose proof (inc64_at_most (uc_CurrentWave current) H0). split_and!; try done; lia.
Qed.

(** the plan of a campaign, as preparing it seals it *)
Record prepared (s : MemoryStore) (v v' : UpgradeCampaign) (now : Time) : Prop := {
  pr_eq : exists inventory ids digest, v' =
    v <| uc_TargetInventoryDigests := inventory |> <| uc_RecoveryCheckpointIDs := ids |>
      <| uc_PlanCreatedAt := Some now |> <| uc_PlanExpiresAt := Some (now + ExecutionPlanTTL) |> <| uc_PlanContextDigest := digest |>
    /\ length ids = length (uc_Targets v);
  pr_window : uc_MaintenanceWindowStart v <> 0 /\ uc_MaintenanceWindowStart v < uc_MaintenanceWindowEnd v /\
    now < uc_MaintenanceWindowEnd v <= uc_MaintenanceWindowStart v + 24 * Hour
}.

Lemma prepare_spec s v ids now v' : prepareUpgradeSafetyLocked s v ids now = Ok v' -> prepared s v v' now.
Proof.
  unfold prepareUpgradeSafetyLocked, windowInvalid. intros H. case_match eqn:Ew; [done|].
  destruct (uniqueStrings ids) as [ids'|]; [|done]. case_match eqn:El; [done|].
  destruct (checkpointLoop _ _ _ _); [|done]. destruct (pendingLoop _ _ _ _ _ _) as [inventory|]; [|done].
  injection H as <-. split.
  - eexists inventory, ids', _. split; [reflexivity|]. lia.
  - lia.
Qed.

Lemma prepared_frozen s v v' now : prepared s v v' now -> frozen v' = frozen v.
Proof. intros [(inv & ids & d & -> & _) _]. reflexivity. Qed.

(** ** Calls *)

Inductive CampaignCall : Type :=
| UGroup (v : FleetGroup) (actor : string)
| UCreate (v : UpgradeCampaign) (actor : string)
| UApprove (id : string) (expected : Z) (actor : string)
| UPause (id : string) (expected : Z) (actor reason : string)
| UResume (id : string) (expected : Z) (actor : string)
| UCancel (id : string) (expected : Z) (actor reason : string)
| URevalidate (id : string) (expected : Z) (input : UpgradeCampaignRevalidation) (actor : string)
| UUpdate (next : UpgradeCampaign) (expected : Z) (actor : string).

Definition campaign_exec (c : CampaignCall) : MemoryStore -> MemoryStore * option Error :=
  match c with
  | UGroup v actor => run1 (CreateFleetGroup v actor)
  | UCreate v actor => run1 (CreateUpgradeCampaign v actor)
  | UApprove id e actor => run1 (ApproveUpgradeCampaign id e actor)
  | UPause id e actor reason => run1 (PauseUpgradeCampaign id e actor reason)
  | UResume id e actor => run1 (ResumeUpgradeCampaign id e actor)
  | UCancel id e actor reason => run1 (CancelUpgradeCampaign id e actor reason)
  | URevalidate id e input actor => run1 (RevalidateUpgradeCampaign id e input actor)
  | UUpdate next e actor => run1 (UpdateUpgradeCampaign next e actor)
  end.

(** a new campaign has not touched its targets *)
Definition campaign_call_ok (c : CampaignCall) : Prop :=
  match c with
  | UCreate v _ => Forall (fun t => ut_State t = UpgradeTargetPending) (uc_Targets v)
  | _ => True
  end.

(** ** Effects *)

Record campaign_ok (id : string) (c : UpgradeCampaign) : Prop := {
  co_id : rm_ID (uc_Meta c) = id;
  co_rollout : rollout_ok c;
  co_wave : 0 <= uc_CurrentWave c;
  co_confined : confined c
}.
Definition same_campaign (a b : UpgradeCampaign) : Prop :=
  uc_ProjectID a = uc_ProjectID b /\ uc_IdempotencyKey a = uc_IdempotencyKey b.

Record campaigns_wf (s : MemoryStore) : Prop := {
  cw_each : forall id c, ms_upgradeCampaigns s !! id = Some c -> campaign_ok id c;
  cw_filed : filed s (ms_upgradeCampaigns s);
  cw_keys : forall i j a b, ms_upgradeCampaigns s !! i = Some a -> ms_upgradeCampaigns s !! j = Some b ->
    same_campaign a b -> i = j
}.

Record campaign_moves (c c' : UpgradeCampaign) : Prop := {
  cm_frozen : frozen c' = frozen c;
  cm_wave : uc_CurrentWave c <= uc_CurrentWave c' <= uc_CurrentWave c + 1;
  cm_rollout : rollout_ok c';
  cm_confined : confined c'
}.

Inductive campaigns_effect (s s' : MemoryStore) : Prop :=
| campaigns_same : ms_upgradeCampaigns s' = ms_upgradeCampaigns s -> campaigns_effect s s'
| campaigns_move id c c' : ms_upgradeCampaigns s !! id = Some c ->
    ms_upgradeCampaigns s' = <[id := c']> (ms_upgradeCampaigns s) -> campaign_moves c c' -> campaigns_effect s s'
| campaigns_add n p c : (ms_ids s <= n < ms_ids s')%nat ->
    ms_upgradeCampaigns s' = <[ms_id s n p := c]> (ms_upgradeCampaigns s) -> campaign_ok (ms_id s n p) c ->
    uc_CurrentWave c = 0 -> (forall k b, ms_upgradeCampaigns s !! k = Some b -> ~ same_campaign c b) -> campaigns_effect s s'.

Lemma campaign_sym a b : same_campaign a b -> same_campaign b a.
Proof. intros []. by split. Qed.

Lemma campaigns_effect_wf s s' : campaigns_wf s -> drawn s s' -> campaigns_effect s s' -> campaigns_wf s'.
Proof.
  intros [He Hf Hk] Hd Heff. destruct Heff as [E|id c c' Hc E [Hz Hw Hr Hcf]|n p c Hn E Hok _ Hkey].
  - split; rewrite E; try done. by eapply filed_mono.
  - assert (Hz' := Hz). injection Hz' as Ei _ Ep _ _ _ _ _ _ Ek _ _. split; rewrite E.
    + intros i x [[<- <-]|[_ Hx]]%lookup_insert_Some; [|by apply He].
      destruct (He id c Hc) as [Hi _ H0 _]. split; [congruence|done|lia|done].
    + by eapply filed_update.
    + apply unique_insert; [apply campaign_sym|done|]. intros j b Hj [E1 E2].
      symmetry. apply (Hk id j c b Hc Hj). split; congruence.
  - split; rewrite E.
    + intros i x [[<- <-]|[_ Hx]]%lookup_insert_Some; [done|by apply He].
    + apply filed_insert; [done|lia|done].
    + apply unique_insert; [apply campaign_sym|done|]. intros j b Hj Hs. by destruct (Hkey j b Hj).
Qed.

(** ** Each handler *)

(** what the rollout is judged by *)
Definition rollout_view (c : UpgradeCampaign) :=
  (uc_CanaryCount c, uc_WaveSize c, uc_HaltAfterFailures c, uc_Targets c, uc_MaintenanceWindowStart c,
   uc_MaintenanceWindowEnd c, uc_RecoveryCheckpointIDs c).

Lemma rollout_same c c' : rollout_view c' = rollout_view c -> rollout_ok c -> rollout_ok c'.
Proof.
  intros [= E1 E2 E3 E4 E5 E6 E7] [? ? ? ? ? ? ? ? ? ?]. split; rewrite ?E1, ?E2, ?E3, ?E4, ?E5, ?E6, ?E7; done.
Qed.
Lemma confined_same c c' :
  uc_Targets c' = uc_Targets c -> uc_CurrentWave c' = uc_CurrentWave c -> confined c -> confined c'.
Proof. unfold confined. by intros -> ->. Qed.

Section handlers.
Context (s : MemoryStore) (Hwf : campaigns_wf s).
Local Abbreviation leaves := (fun (_ : result _) s' => drawn s s' /\ campaigns_effect s s').

Ltac untouched := split; [drawing|apply campaigns_same; done].

Lemma group_keeps v actor : wp (CreateFleetGroup v actor) leaves s.
Proof. unfold CreateFleetGroup; unfold_puts. wp_go; untouched. Qed.

Lemma wp_campaignAt {B} id e (k : UpgradeCampaign -> Store B) :
  (forall v, ms_upgradeCampaigns s !! id = Some v -> campaign_ok id v -> wp (k v) leaves s) ->
  wp (bind (campaignAt id e) k) leaves s.
Proof. intros Hk. unfold campaignAt. wp_go; try untouched. apply Hk; [done|]. by apply (cw_each _ Hwf). Qed.

(** the campaign [v'] that is recorded for [v] *)
Lemma wp_record id v v' now actor action event metadata s1 :
  ms_upgradeCampaigns s !! id = Some v -> drawn s s1 -> ms_upgradeCampaigns s1 = ms_upgradeCampaigns s ->
  (forall m, rm_ID m = rm_ID (uc_Meta v') -> rm_CreatedAt m = rm_CreatedAt (uc_Meta v') ->
     campaign_moves v (v' <| uc_Meta := m |>)) ->
  wp (recordCampaign id v' now actor action event metadata) leaves s1.
Proof.
  intros Hv Hd E Hm. unfold recordCampaign; unfold_puts. wp_go. split.
  - destruct Hd as [Hg Hi]. split; [exact Hg|cbn; lia].
  - eapply (campaigns_move _ _ id v); [exact Hv|cbn; rewrite E; reflexivity|]. by apply Hm.
Qed.

(** a control call: the plan, the targets and the wave stay *)
Lemma wp_control id v v' now actor action event metadata s1 :
  ms_upgradeCampaigns s !! id = Some v -> campaign_ok id v -> frozen v' = frozen v -> rollout_view v' = rollout_view v ->
  uc_CurrentWave v' = uc_CurrentWave v -> drawn s s1 -> ms_upgradeCampaigns s1 = ms_upgradeCampaigns s ->
  wp (recordCampaign id v' now actor action event metadata) leaves s1.
Proof.
  intros Hv [_ Hr _ Hc] Ef Ev Ew Hd E. apply (wp_record id v); [done|done|done|]. intros m Hm1 Hm2.
  assert (Ew' : uc_CurrentWave (v' <| uc_Meta := m |>) = uc_CurrentWave v) by exact Ew.
  split; [|rewrite Ew'; lia|by apply (rollout_same v)|].
  - rewrite <- Ef. unfold frozen. cbn. by rewrite Hm1, Hm2.
  - apply (confined_same v); [|exact Ew'|exact Hc]. exact (f_equal (fun p => p.1.1.1.2) Ev).
Qed.

Ltac control id v := eapply (wp_control id v); [done|done|done|done|done|drawing|done].

Lemma approve_campaign_keeps id e actor : wp (ApproveUpgradeCampaign id e actor) leaves s.
Proof.
  unfold ApproveUpgradeCampaign. apply wp_campaignAt. intros v Hv Hok. do 5 (wp_step; try untouched). control id v.
Qed.
Lemma pause_keeps id e actor reason : wp (PauseUpgradeCampaign id e actor reason) leaves s.
Proof.
  unfold PauseUpgradeCampaign. apply wp_campaignAt. intros v Hv Hok. do 2 (wp_step; try untouched). cbv zeta. control id v.
Qed.
Lemma resume_keeps id e actor : wp (ResumeUpgradeCampaign id e actor) leaves s.
Proof.
  unfold ResumeUpgradeCampaign. apply wp_campaignAt. intros v Hv Hok. do 4 (wp_step; try untouched). control id v.
Qed.
Lemma cancel_keeps id e actor reason : wp (CancelUpgradeCampaign id e actor reason) leaves s.
Proof.
  unfold CancelUpgradeCampaign. apply wp_campaignAt. intros v Hv Hok. do 2 (wp_step; try untouched). cbv zeta.
  wp_step; [untouched|]. destruct (upgradeCampaignHasActiveTarget v); control id v.
Qed.

Lemma revalidate_campaign_keeps id e input actor : wp (RevalidateUpgradeCampaign id e input actor) leaves s.
Proof.
  unfold RevalidateUpgradeCampaign. apply wp_campaignAt. intros v Hv [_ Hr _ Hc]. do 2 (wp_step; try untouched). cbv zeta.
  do 3 (wp_step; try untouched).
  match goal with H : prepareUpgradeSafetyLocked _ _ _ _ = Ok _ |- _ => apply prepare_spec in H as [(inv & ids & d & -> & Hl) Hw] end.
  eapply (wp_record id v); [done|drawing|done|]. intros m Hm1 Hm2. split.
  - unfold frozen. cbn in *. by rewrite Hm1, Hm2.
  - cbn. lia.
  - destruct Hr as [R1 R2 R3 _ _ R6 R7 R8 R9 R10]. split; try done; cbn in *; lia.
  - exact Hc.
Qed.

Lemma update_keeps next e actor : wp (UpdateUpgradeCampaign next e actor) leaves s.
Proof.
  unfold UpdateUpgradeCampaign. apply wp_campaignAt. intros v Hv [Hid Hr Hz Hc]. do 6 (wp_step; try untouched).
  eapply (wp_record _ v); [by rewrite Hid|drawing|done|]. intros m Hm1 Hm2.
  match goal with H : ValidateDay2UpgradeProgression _ _ = Ok _ |- _ => rename H into Hp end.
  match goal with H : campaignIdentityChanged _ _ = false |- _ => rename H into Hc0 end.
  destruct (progression_spec _ _ _ Hz Hp) as (Hl & Hw & Hpr & Ht & Hpo). unfold campaignIdentityChanged in Hc0. norm_bool.
  split.
  - unfold frozen. cbn in *. rewrite Hm1, Hm2. destruct (progress_spec _ _ _ Hl Hpr) as [-> _]. destruct Hpo as (-> & -> & ->).
    congruence.
  - exact Hw.
  - apply (rollout_same next); [reflexivity|exact Ht].
  - apply (confined_same next); [done|done|]. by eapply confined_progress; [|apply Hw| |].
Qed.

(** the scan found no campaign with the request's key *)
Lemma no_replay v l x : replayedCampaign v l = None -> x ∈ l -> ~ same_campaign v x.
Proof.
  intros H Hx [E1 E2]. apply list_elem_of_In in Hx. pose proof (find_none _ _ H x Hx) as Hn. cbn in Hn.
  by rewrite !bool_decide_eq_true_2 in Hn.
Qed.

Lemma create_campaign_keeps v actor :
  Forall (fun t => ut_State t = UpgradeTargetPending) (uc_Targets v) -> wp (CreateUpgradeCampaign v actor) leaves s.
Proof.
  intros Hpend. unfold CreateUpgradeCampaign; unfold_puts. wp_go; try untouched.
  match goal with H : prepareUpgradeSafetyLocked _ _ _ _ = Ok ?c |- _ => rename c into nv; apply prepare_spec in H as [(inv & ids & d & Ea & Hl) Hw] end.
  match goal with H : ValidateDay2UpgradeTopology _ = Ok ?x |- _ => destruct x; apply topology_ok in H as Ht end.
  match goal with H : replayedCampaign _ _ = None |- _ => rename H into Hk end.
  assert (uc_Targets nv = uc_Targets v /\ uc_ProjectID nv = uc_ProjectID v /\ uc_IdempotencyKey nv = uc_IdempotencyKey v)
    as (Et & Ep & Ei) by (by rewrite Ea).
  clear Ea. split; [drawing|]. eapply (campaigns_add _ _ (ms_ids s) "upg"); [cbn; lia|reflexivity|split|reflexivity|].
  - done.
  - eapply rollout_same; [|exact Ht]. reflexivity.
  - done.
  - intros t Hin Hst. cbn in Hin. rewrite Et in Hin. rewrite Forall_forall in Hpend. by destruct (Hst (Hpend t Hin)).
  - intros k b Hb [K1 K2]. cbn in K1, K2. apply (no_replay v _ b Hk); [apply list_elem_of_fmap; exists (k, b); split; [done|by apply elem_of_map_to_list]|].
    split; congruence.
Qed.

Lemma campaign_exec_effect c : campaign_call_ok c -> drawn s (campaign_exec c s).1 /\ campaigns_effect s (campaign_exec c s).1.
Proof.
  intros Hok. destruct c; cbn [campaign_exec run1 fst].
  - exact (group_keeps v actor).
  - exact (create_campaign_keeps v actor Hok).
  - exact (approve_campaign_keeps id expected actor).
  - exact (pause_keeps id expected actor reason).
  - exact (resume_keeps id expected actor).
  - exact (cancel_keeps id expected actor reason).
  - exact (revalidate_campaign_keeps id expected input actor).
  - exact (update_keeps next expected actor).
Qed.
End handlers.

(** ** Histories *)

(** a campaign call, or a step of another component *)
Inductive campaign_step (s : MemoryStore) : MemoryStore -> Prop :=
| us_call c : campaign_call_ok c -> campaign_step s (campaign_exec c s).1
| us_other s' : drawn s s' -> ms_upgradeCampaigns s' = ms_upgradeCampaigns s -> campaign_step s s'.

Definition campaign_reachable (s : MemoryStore) : Prop :=
  exists now id, id_source id /\ rtc campaign_step (NewMemoryStoreWith now id) s.

Record campaign_inv (s : MemoryStore) : Prop := {
  ui_ids : id_source (ms_id s);
  ui_campaigns : campaigns_wf s
}.

Lemma campaign_step_effect s s' : campaign_inv s -> campaign_step s s' -> drawn s s' /\ campaigns_effect s s'.
Proof. intros [_ Hw] [c Hc|s1 Hd E]; [by apply campaign_exec_effect|]. split; [done|by apply campaigns_same]. Qed.

Lemma campaign_step_inv s s' : campaign_step s s' -> campaign_inv s -> campaign_inv s'.
Proof.
  intros Hs Hi. destruct (campaign_step_effect _ _ Hi Hs) as [Hd Hf]. destruct Hi as [Hg Hw]. split.
  - by rewrite (dr_gen _ _ Hd).
  - by eapply campaigns_effect_wf.
Qed.

Lemma campaign_reachable_inv s : campaign_reachable s -> campaign_inv s.
Proof.
  intros (now & id & Hid & Hr).
  assert (H0 : campaign_inv (NewMemoryStoreWith now id)) by (split; [done|split; intros i; cbn; intros; by simplify_map_eq]).
  revert H0. induction Hr as [|s1 s2 s3 H12 _ IH]; eauto using campaign_step_inv.
Qed.

(** a campaign outlives every step, as it is or moved *)
Lemma effect_campaign s s' id c :
  campaign_inv s -> campaigns_effect s s' -> ms_upgradeCampaigns s !! id = Some c ->
  exists c', ms_upgradeCampaigns s' !! id = Some c' /\ (c' = c \/ campaign_moves c c').
Proof.
  intros [Hg Hw] Heff Hc. destruct Heff as [E|i x x' Hx E Hm|n p x Hn E _ _ _]; rewrite E.
  - eauto.
  - destruct (decide (i = id)) as [->|Hne]; [|rewrite lookup_insert_ne by done; eauto].
    rewrite lookup_insert_eq. simplify_eq. eauto.
  - rewrite lookup_insert_ne; [eauto|]. intros <-.
    rewrite (fresh_unfiled s _ n p Hg (cw_filed _ Hw)) in Hc by lia. discriminate.
Qed.
