(* ===== verification/CampaignProperties.v ===== *)
(** * What upgrade campaigns can rely on

    The theorems about upgrade campaigns, in every history of campaign calls
    and steps of the other components, with a concrete history and what it
    showed. *)
From S2P Require Import Prelude GoStrings Digest Model Calendar Inventory Store Ordering Listing Operations.
From S2P Require Import OperationSystem OperationRuns Demo Collections Organizations Targets Impact Baselines.
From S2P Require Import BaselineProperties Campaigns CampaignTheorems.

(** ** Exposure *)

(** targets an upgrade has touched *)
Definition touched (c : UpgradeCampaign) : Z :=
  Z.of_nat (length (List.filter (fun t => ut_State t != UpgradeTargetPending) (uc_Targets c))).
(** what the rollout policy allows by the current wave *)
Definition exposure (c : UpgradeCampaign) : Z :=
  if uc_CurrentWave c =? 0 then 0 else uc_CanaryCount c + (uc_CurrentWave c - 1) * uc_WaveSize c.

Definition upTo (ts : list UpgradeCampaignTarget) (w : Z) : Z :=
  Z.of_nat (length (List.filter (fun t => ut_Wave t <=? w) ts)).

Lemma filter_implied {A} (p q : A -> bool) l :
  (forall x, x ∈ l -> p x = true -> q x = true) -> (length (List.filter p l) <= length (List.filter q l))%nat.
Proof.
  induction l as [|x l IH]; intros H; cbn; [lia|].
  specialize (IH (fun y Hy => H y (list_elem_of_further _ _ _ Hy))). specialize (H x (list_elem_of_here _ _)).
  destruct (p x); [rewrite H by done|]; [|destruct (q x)]; cbn; lia.
Qed.

Lemma up_to_next ts w : upTo ts (w + 1) = upTo ts w + waveCount ts (w + 1).
Proof.
  unfold upTo, waveCount. induction ts as [|t ts IH]; [done|]. cbn [List.filter].
  destruct (ut_Wave t <=? w + 1) eqn:E1, (ut_Wave t <=? w) eqn:E2, (ut_Wave t =? w + 1) eqn:E3; cbn [length]; lia.
Qed.

Lemma up_to_bound c n : rollout_ok c -> upTo (uc_Targets c) (Z.of_nat n + 1) <= uc_CanaryCount c + Z.of_nat n * uc_WaveSize c.
Proof.
  intros Hr. induction n as [|n IH].
  - change (Z.of_nat 0 + 1) with (0 + 1). rewrite up_to_next. change (0 + 1) with 1. rewrite (ro_first _ Hr). enough (upTo (uc_Targets c) 0 = 0) by lia.
    unfold upTo. rewrite bfilter_none; [done|]. intros t Ht. pose proof (ro_named _ Hr) as Hn. rewrite Forall_forall in Hn.
    destruct (Hn t Ht). lia.
  - replace (Z.of_nat (S n) + 1) with ((Z.of_nat n + 1) + 1) by lia. rewrite up_to_next.
    pose proof (ro_bounded _ Hr (Z.of_nat n + 1 + 1) ltac:(lia)). lia.
Qed.

Lemma touched_exposure c : rollout_ok c -> confined c -> 0 <= uc_CurrentWave c -> touched c <= exposure c.
Proof.
  intros Hr Hc Hw. transitivity (upTo (uc_Targets c) (uc_CurrentWave c)).
  - unfold touched, upTo. apply inj_le, filter_implied. intros t Ht Hst. norm_bool. apply Z.leb_le. by apply Hc.
  - unfold exposure. destruct (uc_CurrentWave c =? 0) eqn:E.
    + apply Z.eqb_eq in E as ->. unfold upTo. rewrite bfilter_none; [done|]. intros t Ht.
      pose proof (ro_named _ Hr) as Hn. rewrite Forall_forall in Hn. destruct (Hn t Ht). apply Z.leb_gt. lia.
    + apply Z.eqb_neq in E. pose proof (up_to_bound c (Z.to_nat (uc_CurrentWave c - 1)) Hr) as H.
      rewrite Z2Nat.id in H by lia. by replace (uc_CurrentWave c - 1 + 1) with (uc_CurrentWave c) in H by lia.
Qed.


(** Rollout plans are frozen.  Along a history a campaign never disappears, keeps
    its project, group, baseline, target version, rollout policy and request, and the
    cluster, wave and previous baseline of every target; the current wave never goes
    back, and by one at most in a step. *)
Theorem rollout_plans_are_frozen n s s' id c :
  campaign_reachable s -> nsteps campaign_step n s s' -> ms_upgradeCampaigns s !! id = Some c ->
  exists c', ms_upgradeCampaigns s' !! id = Some c' /\ frozen c' = frozen c /\
    uc_CurrentWave c <= uc_CurrentWave c' <= uc_CurrentWave c + Z.of_nat n.
Proof.
  intros Hr Hs. apply campaign_reachable_inv in Hr. revert c Hr.
  induction Hs as [s|n s1 s2 s3 H12 _ IH]; intros c Hi Hc; [exists c; split_and!; done || lia|].
  destruct (campaign_step_effect _ _ Hi H12) as [_ Heff].
  destruct (effect_campaign _ _ _ _ Hi Heff Hc) as (c2 & Hc2 & Hm).
  destruct (IH c2 (campaign_step_inv _ _ H12 Hi) Hc2) as (c3 & Hc3 & Hz & Hw).
  exists c3. destruct Hm as [->|[Mz Mw _ _]]; split_and!; try done; try lia. congruence.
Qed.

(** ** Starts *)

Lemma checkpoints_of s ids k cp :
  checkpointsOf s ids !! k = Some cp ->
  exists id, id ∈ ids /\ ms_recoveryCheckpoints s !! id = Some cp /\ rc_ClusterID cp = k.
Proof.
  unfold checkpointsOf. induction ids as [|id ids IH] using rev_ind; [cbn; by rewrite lookup_empty|].
  rewrite foldl_app. cbn. intros H.
  assert (Hold : (exists id, id ∈ ids /\ ms_recoveryCheckpoints s !! id = Some cp /\ rc_ClusterID cp = k) ->
    exists x, x ∈ (ids ++ [id])%list /\ ms_recoveryCheckpoints s !! x = Some cp /\ rc_ClusterID cp = k).
  { intros (x & Hx & H1 & H2). exists x. split; [by apply elem_of_snoc; left|done]. }
  destruct (ms_recoveryCheckpoints s !! id) as [cp'|] eqn:E; [|by apply Hold, IH].
  apply lookup_insert_Some in H as [[Hk ->]|[_ H]]; [|by apply Hold, IH].
  exists id. split_and!; [by apply elem_of_snoc; right|done|done].
Qed.

(** the target can be recovered: a verified checkpoint of the campaign, taken of the
    current inventory of its cluster, outlives the window *)
Definition recoverable (s : MemoryStore) (c : UpgradeCampaign) (clusterID : string) : Prop :=
  exists cluster id cp, ms_managedClusters s !! clusterID = Some cluster /\ mc_ProjectID cluster = uc_ProjectID c /\
    id ∈ uc_RecoveryCheckpointIDs c /\ ms_recoveryCheckpoints s !! id = Some cp /\
    rc_ClusterID cp = clusterID /\ rc_ProjectID cp = uc_ProjectID c /\ rc_State cp = RecoveryCheckpointVerified /\
    uc_MaintenanceWindowEnd c < rc_ExpiresAt cp /\ rc_InventoryDigest cp = mc_InventoryDigest cluster /\
    default "" (uc_TargetInventoryDigests c !! clusterID) = mc_InventoryDigest cluster.

Lemma start_not_refused s c clusterID :
  startRefused s c (checkpointsOf s (uc_RecoveryCheckpointIDs c)) clusterID = false -> recoverable s c clusterID.
Proof.
  unfold startRefused, campaignCluster. intros H.
  destruct (ms_managedClusters s !! clusterID) as [cluster|] eqn:Ec; [|done]. cbn in H.
  destruct (bool_decide (mc_ProjectID cluster = uc_ProjectID c)) eqn:Ep; cbn in H; [|done].
  destruct (blank (mc_InventoryDigest cluster)); cbn in H; [done|].
  destruct (checkpointsOf s (uc_RecoveryCheckpointIDs c) !! clusterID) as [cp|] eqn:Ek; [|done].
  apply checkpoints_of in Ek as (id & Hin & Hcp & Hk). cbn in H. norm_bool.
  exists cluster, id, cp. split_and!; try done. congruence.
Qed.

Lemma start_loop s c byCluster now starts ts r :
  startLoop s c byCluster now starts ts = Ok r ->
  forall t, t ∈ ts -> ut_ClusterID t ∈ starts ->
    startRefused s c byCluster (ut_ClusterID t) = false /\
    latestSourceID s c (ut_ClusterID t) now = ut_PreviousBaselineDeploymentID t.
Proof.
  destruct r. induction ts as [|x ts IH]; intros H t Ht Hs; [by apply elem_of_nil in Ht|]. cbn [startLoop] in H.
  case_bool_decide as Hx; cbn [negb] in H.
  - rewrite !check_ok in H. destruct H as (H1 & H2 & H3). norm_bool.
    apply elem_of_cons in Ht as [->|Ht]; [done|by apply IH].
  - apply elem_of_cons in Ht as [->|Ht]; [done|by apply IH].
Qed.

Lemma update_spec next e actor s :
  wp (UpdateUpgradeCampaign next e actor) (fun r s' =>
    match r with
    | Fail _ => True
    | Ok v => exists current now, ms_upgradeCampaigns s !! rm_ID (uc_Meta next) = Some current /\ now = clock s /\
        uc_Targets v = uc_Targets next /\ uc_CurrentWave v = uc_CurrentWave next /\
        (exists a, ValidateDay2UpgradeProgression current next = Ok a) /\
        exists a, validateUpgradeTargetStartsLocked (tick s) current next now = Ok a
    end) s.
Proof.
  unfold UpdateUpgradeCampaign, campaignAt, recordCampaign; unfold_puts. wp_go; try exact I.
  all: eexists _, _; split_and!; [eassumption|reflexivity|done|done|by eexists|eexists; eassumption].
Qed.

(** C19: targets start when they may.  An update that an accepted report of progress makes
    to a campaign starts a target, by moving it out of PENDING, only in a wave that has
    been reached, inside the maintenance window, while a verified checkpoint of its
    cluster's current inventory outlives the window, and while the baseline it would be
    rolled back to is still the latest completed one. *)
Theorem targets_start_when_they_may s s' next e actor v i b a :
  campaign_reachable s -> UpdateUpgradeCampaign next e actor s = (s', Ok v) ->
  forall current, ms_upgradeCampaigns s !! rm_ID (uc_Meta next) = Some current ->
  uc_Targets current !! i = Some b -> uc_Targets v !! i = Some a ->
  ut_State b = UpgradeTargetPending -> ut_State a <> UpgradeTargetPending ->
  let now := clock s in
  ut_ClusterID a = ut_ClusterID b /\ ut_Wave a = ut_Wave b /\ ut_Wave a <= uc_CurrentWave v <= uc_CurrentWave current + 1 /\
  uc_MaintenanceWindowStart current <= now < uc_MaintenanceWindowEnd current /\
  recoverable s current (ut_ClusterID b) /\
  latestSourceID s current (ut_ClusterID b) now = ut_PreviousBaselineDeploymentID b.
Proof.
  intros Hr E current Hcur Hb Ha Hpb Hpa now. apply campaign_reachable_inv in Hr as [_ Hw].
  pose proof (wp_run _ _ _ _ _ (update_spec next e actor s) E) as (c & t & Hc & -> & Et & Ew & (r1 & Hp) & (r2 & Hs)).
  assert (c = current) as -> by congruence. rewrite Et in Ha.
  destruct (progression_spec _ _ _ (co_wave _ _ (cw_each _ Hw _ _ Hcur)) Hp) as (Hl & Hwave & Hpr & _).
  destruct (progress_spec _ _ _ Hl Hpr) as [Hpl Hi].
  assert (Hst : targetStarts b a = true) by (unfold targetStarts; by rewrite bool_decide_eq_true_2, bool_decide_eq_false_2).
  assert (Hin : ut_ClusterID b ∈ campaignStarts current next).
  { unfold campaignStarts. apply list_elem_of_fmap. exists (b, a). split; [done|]. apply elem_of_bfilter. split; [|done].
    apply list_elem_of_lookup. exists i. rewrite lookup_zip_with, Hb, Ha. reflexivity. }
  assert (Epl : planned a = planned b).
  { apply (f_equal (.!! i)) in Hpl. rewrite !list_lookup_fmap, Ha, Hb in Hpl. by apply (inj Some). }
  injection Epl as E1 E2 _ _ _.
  unfold validateUpgradeTargetStartsLocked in Hs. destruct (campaignStarts current next) as [|x l] eqn:El; [by apply elem_of_nil in Hin|].
  cbn [nonEmpty negb] in Hs. destruct r2. apply check_ok in Hs as [Hwin Hs].
  destruct (start_loop _ _ _ _ _ _ _ Hs b (list_elem_of_lookup_2 _ _ _ Hb) Hin) as [Href Hlat].
  apply start_not_refused in Href. rewrite Ew. apply orb_false_iff in Hwin as [W1 W2]. norm_bool.
  split_and!; try done; try lia. apply (Hi i b a Hb Ha Hst).
Qed.

(** ** Approval *)

(** the pending targets of a prepared plan *)
Definition coverable (s : MemoryStore) (c : UpgradeCampaign) (now : Time) (t : UpgradeCampaignTarget) : Prop :=
  exists cluster cp, ms_managedClusters s !! ut_ClusterID t = Some cluster /\ mc_ProjectID cluster = uc_ProjectID c /\
    rc_State cp = RecoveryCheckpointVerified /\ uc_MaintenanceWindowEnd c < rc_ExpiresAt cp /\
    rc_InventoryDigest cp = mc_InventoryDigest cluster /\
    latestSourceID s c (ut_ClusterID t) now = ut_PreviousBaselineDeploymentID t.

Lemma pending_loop s v byCluster now inventory ts inventory' :
  pendingLoop s v byCluster now inventory ts = Ok inventory' ->
  forall t, t ∈ ts -> ut_State t = UpgradeTargetPending -> coverable s v now t.
Proof.
  revert inventory. induction ts as [|x ts IH]; intros inventory H t Ht Hst; [by apply elem_of_nil in Ht|].
  cbn [pendingLoop] in H. cbv zeta in H. case_bool_decide as Hx; cbn [negb] in H.
  2: { apply elem_of_cons in Ht as [->|Ht]; [done|by eapply IH]. }
  unfold campaignCluster in H. destruct (ms_managedClusters s !! ut_ClusterID x) as [cluster|] eqn:Ec; [cbn [mbind option_bind] in H|done].
  destruct (_ || blank _) eqn:Ep; [done|]. cbv iota in H. destruct (negb (checkpointCurrent _ _ _)) eqn:Ek; [done|].
  destruct (_ || negb (bool_decide (latestSourceID _ _ _ _ = _))) eqn:El; [done|].
  apply negb_false_iff in Ek. apply orb_false_iff in Ep as [Ep _]. apply orb_false_iff in El as [_ El].
  apply elem_of_cons in Ht as [->|Ht]; [|by eapply IH].
  unfold checkpointCurrent in Ek. destruct (byCluster !! ut_ClusterID x) as [cp|]; [|done]. norm_bool.
  exists cluster, cp. by split_and!.
Qed.

Lemma safety_spec s v now window r :
  validateUpgradeSafetyLocked s v now window = Ok r ->
  (exists expires, uc_PlanExpiresAt v = Some expires /\ now < expires) /\ now < uc_MaintenanceWindowEnd v /\
  (window = true -> uc_MaintenanceWindowStart v <= now) /\
  forall t, t ∈ uc_Targets v -> ut_State t = UpgradeTargetPending -> coverable s v now t.
Proof.
  unfold validateUpgradeSafetyLocked. intros H. destruct (uc_PlanCreatedAt v), (uc_PlanExpiresAt v) as [ex|]; try done.
  case_match eqn:Ee; [done|]. case_match eqn:Ew; [done|].
  destruct (prepareUpgradeSafetyLocked _ _ _ _) as [copy|] eqn:Ep; [|done].
  pose proof (pr_window _ _ _ _ (prepare_spec _ _ _ _ _ Ep)) as (_ & _ & Hw).
  unfold prepareUpgradeSafetyLocked in Ep. destruct (windowInvalid _ _); [done|].
  destruct (uniqueStrings (uc_RecoveryCheckpointIDs v)) as [ids|]; [|done]. destruct (negb _) in Ep; [done|].
  destruct (checkpointLoop _ _ _ _) as [byCluster|]; [|done]. destruct (pendingLoop _ _ _ _ _ _) as [inv|] eqn:El; [|done].
  norm_bool. split_and!; [by exists ex|lia| |by apply (pending_loop _ _ _ _ _ _ _ El)].
  intros ->. cbn in Ew. lia.
Qed.

Lemma approve_campaign_spec id e actor s :
  wp (ApproveUpgradeCampaign id e actor) (fun r s' =>
    match r with
    | Fail _ => True
    | Ok v => exists c, ms_upgradeCampaigns s !! id = Some c /\ uc_State c = UpgradeCampaignAwaitingApproval /\
        ValidateDay2IndependentApproval (uc_RequestedBy c) actor = Ok tt /\
        (exists r, validateUpgradeSafetyLocked (tick s) c (clock s) false = Ok r) /\
        uc_State v = UpgradeCampaignQueued /\ uc_ApprovedBy v = actor /\ uc_ApprovedAt v = Some (clock s)
    end) s.
Proof.
  unfold ApproveUpgradeCampaign, campaignAt, recordCampaign; unfold_puts. wp_go; try exact I.
  all: match goal with H : ValidateDay2IndependentApproval _ _ = Ok ?a |- _ => destruct a end; norm_bool.
  all: eexists; split_and!; [eassumption|done|done|eexists; eassumption|done|done|done].
Qed.

(** Campaigns are approved by somebody else, on current facts.  An approval queues a
    campaign that was awaiting it, in the name of an actor other than its requester (the
    local development principal apart), before the plan expires and the maintenance
    window ends, while every pending target has a verified checkpoint of its cluster's
    current inventory and its latest completed baseline is the one recorded. *)
Theorem campaign_approvals_are_independent s s' id e actor v :
  ApproveUpgradeCampaign id e actor s = (s', Ok v) ->
  exists c, ms_upgradeCampaigns s !! id = Some c /\ uc_State c = UpgradeCampaignAwaitingApproval /\
    uc_State v = UpgradeCampaignQueued /\ uc_ApprovedBy v = actor /\
    independent (uc_RequestedBy c) actor /\
    (exists expires, uc_PlanExpiresAt c = Some expires /\ clock s < expires) /\ clock s < uc_MaintenanceWindowEnd c /\
    forall t, t ∈ uc_Targets c -> ut_State t = UpgradeTargetPending -> coverable s c (clock s) t.
Proof.
  intros E. pose proof (wp_run _ _ _ _ _ (approve_campaign_spec id e actor s) E) as (c & Hc & Hst & Hi & (r & Hs) & Hq & Ha & _).
  apply safety_spec in Hs as (Hex & Hw & _ & Hcov). exists c. split_and!; try done.
  by apply independent_approval.
Qed.

(** ** A concrete history *)

Module CampaignDemo.

Definition now : Time := BaselineDemo.now.
Definition sources : MemoryStore := Eval vm_compute in BaselineDemo.history BaselineDemo.checkpointed.

Definition group : FleetGroup :=
  mkFleetGroup (newMeta "" 0) "p" "Edge" "Edge fleet" ["c"] "" "group-key" demo_digest.
Definition target : UpgradeCampaignTarget :=
  mkUpgradeCampaignTarget "c" 1 UpgradeTargetPending BaselineDemo.deployment "1.0.0" BaselineDemo.desired "" "" "" "" "".
Definition campaign (groupID : string) : UpgradeCampaign :=
  mkUpgradeCampaign (newMeta "" 0) "p" groupID "secure-namespace" "1.1.0" UpgradeCampaignAwaitingApproval 1 1 1 0 [target]
    "" "" None None None "campaign-key" demo_digest (now - 500 * Second) (now + 500 * Second) [BaselineDemo.checkpoint_id] ∅
    "" None None 0 "" None 0 "" None "" None "" "".

Definition history (cs : list CampaignCall) : MemoryStore := foldl (fun s c => (campaign_exec c s).1) sources cs.

Definition grouped : list CampaignCall := [UGroup group "alice"].
Definition group_id : string :=
  Eval vm_compute in default "" (head (map_to_list (ms_fleetGroups (history grouped))).*1).
Definition created : list CampaignCall := (grouped ++ [UCreate (campaign group_id) "alice"])%list.
Definition campaign_id : string :=
  Eval vm_compute in default "" (head (map_to_list (ms_upgradeCampaigns (history created))).*1).
Definition approved : list CampaignCall := (created ++ [UApprove campaign_id 1 "bob"])%list.

(** the campaign as the store holds it, moved to its first wave *)
Definition stored (cs : list CampaignCall) : UpgradeCampaign :=
  default (campaign "") (ms_upgradeCampaigns (history cs) !! campaign_id).
Definition moved (v : UpgradeCampaign) : UpgradeCampaign :=
  v <| uc_State := UpgradeCampaignRunning |> <| uc_CurrentWave := 1 |>
    <| uc_Targets := [target <| ut_State := UpgradeTargetPlanning |>] |>.
Definition first_wave : UpgradeCampaign := Eval vm_compute in moved (stored approved).
Definition started : list CampaignCall := (approved ++ [UUpdate first_wave 2 "controller"])%list.

Lemma sources_drawn : drawn (NewMemoryStoreWith (fun _ => now) demo_id) sources.
Proof. split; [reflexivity|]. cbn. lia. Qed.

Lemma campaign_history_steps cs ds : Forall campaign_call_ok ds -> rtc campaign_step (history cs) (history (cs ++ ds)).
Proof.
  unfold history. rewrite foldl_app. generalize (foldl (fun s c => (campaign_exec c s).1) sources cs).
  intros s H. revert s. induction H as [|d ds Hd _ IH]; intros s; [constructor|]. cbn. eapply rtc_l; [by apply us_call|apply IH].
Qed.
Lemma campaign_history_reachable cs : Forall campaign_call_ok cs -> campaign_reachable (history cs).
Proof.
  intros H. exists (fun _ => now), demo_id. split; [apply demo_id_source|].
  eapply (rtc_l _ _ sources); [apply us_other; [apply sources_drawn|reflexivity]|]. by apply (campaign_history_steps []).
Qed.
End CampaignDemo.
Import CampaignDemo.

Lemma demo_ok : Forall campaign_call_ok started.
Proof. repeat constructor. Qed.
Lemma created_ok : Forall campaign_call_ok created.
Proof. repeat constructor. Qed.
Lemma approved_ok : Forall campaign_call_ok approved.
Proof. repeat constructor. Qed.


Lemma rollout_plans_are_frozen_witness :
  exists c', ms_upgradeCampaigns (history approved) !! campaign_id = Some c' /\ uc_TargetVersion c' = "1.1.0" /\
    0 <= uc_CurrentWave c' <= 1.
Proof.
  destruct (found (fun c => (uc_TargetVersion c, uc_CurrentWave c)) (ms_upgradeCampaigns (history created) !! campaign_id)
    ("1.1.0", 0)) as (c & Ec & Hf); [vm_compute; reflexivity|]. injection Hf as Hv Hw.
  destruct (rollout_plans_are_frozen 1 (history created) (history approved) campaign_id c) as (c' & Ec' & Hz & Hb).
  - apply campaign_history_reachable, created_ok.
  - apply nsteps_once. exact (us_call (history created) (UApprove campaign_id 1 "bob") I).
  - exact Ec.
  - exists c'. split; [exact Ec'|]. injection Hz as _ _ _ _ _ Hv' _ _ _ _ _ _. rewrite Hw in Hb. split; [congruence|exact Hb].
Defined.

Lemma targets_start_when_they_may_witness :
  exists s' v, UpdateUpgradeCampaign first_wave 2 "controller" (history approved) = (s', Ok v) /\
    recoverable (history approved) (stored approved) "c".
Proof.
  destruct (succeeds (UpdateUpgradeCampaign first_wave 2 "controller") (history approved)) as (s' & v & E); [vm_compute; reflexivity|].
  assert (Ec : ms_upgradeCampaigns (history approved) !! rm_ID (uc_Meta first_wave) = Some (stored approved)) by (vm_compute; reflexivity).
  assert (Et : uc_Targets (stored approved) !! 0%nat = Some target) by (vm_compute; reflexivity).
  assert (Ev : uc_Targets v !! 0%nat = Some (target <| ut_State := UpgradeTargetPlanning |>)).
  { pose proof (wp_run _ _ _ _ _ (update_spec _ _ _ (history approved)) E) as (_ & _ & _ & _ & -> & _). reflexivity. }
  destruct (targets_start_when_they_may (history approved) s' first_wave 2 "controller" v 0 target _
    (campaign_history_reachable _ approved_ok) E _ Ec Et Ev eq_refl) as (_ & _ & _ & _ & Hr & _); [discriminate|].
  exists s', v. split; [exact E|exact Hr].
Defined.

Lemma campaign_approvals_are_independent_witness :
  exists s' v, ApproveUpgradeCampaign campaign_id 1 "bob" (history created) = (s', Ok v) /\
    independent "alice" "bob".
Proof.
  destruct (succeeds (ApproveUpgradeCampaign campaign_id 1 "bob") (history created)) as (s' & v & E); [vm_compute; reflexivity|].
  destruct (found uc_RequestedBy (ms_upgradeCampaigns (history created) !! campaign_id) "alice") as (c & Ec & Hr); [vm_compute; reflexivity|].
  destruct (campaign_approvals_are_independent _ _ _ _ _ _ E) as (c' & Ec' & _ & _ & _ & Hi & _).
  rewrite Ec in Ec'. injection Ec' as <-. rewrite Hr in Hi. exists s', v. split; [exact E|exact Hi].
Defined.

(** ** Observations *)

(** [UpdateUpgradeCampaign] guards the plan of a campaign but not its state: a campaign
    that nobody has approved is moved to RUNNING and its first target is started. *)
Definition unapproved : UpgradeCampaign := Eval vm_compute in moved (stored created).
Example an_update_skips_the_approval :
  (campaign_exec (UUpdate unapproved 1 "controller") (history created)).2 = None /\
  (fun c => (uc_State c, uc_ApprovedBy c, ut_State <$> uc_Targets c)) <$>
    (ms_upgradeCampaigns (history (created ++ [UUpdate unapproved 1 "controller"])%list) !! campaign_id) =
  Some (UpgradeCampaignRunning, "", [UpgradeTargetPlanning]).
Proof. split; vm_compute; reflexivity. Qed.

(** nor the requester, so the independent approval can be had from the requester *)
Definition disowned : UpgradeCampaign := Eval vm_compute in (stored created) <| uc_RequestedBy := "mallory" |>.
Example an_update_rewrites_the_requester :
  (campaign_exec (UApprove campaign_id 1 "alice") (history created)).2 = Some ErrPrerequisite /\
  (campaign_exec (UApprove campaign_id 2 "alice") (history (created ++ [UUpdate disowned 1 "alice"])%list)).2 = None.
Proof. split; vm_compute; reflexivity. Qed.
