(* ===== verification/Access.v ===== *)
(** * Service accounts, API tokens and delegation

    Machine identities of the control plane: service accounts and the tokens
    issued for them ([service_account_store.go]), and the trusted MCP clients to
    which people delegate their access ([mcp_delegation.go]).  Token digests are
    opaque text here; issuing and hashing the secret happens in the HTTP API. *)
From S2P Require Import Prelude GoStrings Model Calendar Store Ordering Listing Organizations Targets Impact.
From Stdlib Require Import Ascii.

Definition Day : Z := 24 * (60 * (60 * Second)).

(** ** Permissions *)

Definition APITokenPermissionRead : string := "read".
Definition APITokenPermissionOperate : string := "operate".
Definition APITokenPermissionMCPRead : string := "mcp.read".
Definition APITokenPermissionMCPOperate : string := "mcp.operate".
Definition APITokenPermissionAIDiagnose : string := "ai.diagnose".
Definition APITokenPermissionOperationExecute : string := "operation.execute".

Definition validServiceAccountRole (role : string) : bool := (role == "platform-viewer") || (role == "platform-operator").

(** the switch over one permission *)
Definition permissionRefused (role permission : string) : bool :=
  if bool_decide (permission ∈ [APITokenPermissionRead; APITokenPermissionMCPRead]) then false
  else if bool_decide (permission ∈ [APITokenPermissionOperate; APITokenPermissionMCPOperate; APITokenPermissionAIDiagnose;
                                     APITokenPermissionOperationExecute])
  then role != "platform-operator"
  else true.

(** the loop over the permissions of a request; [None] when one is refused *)
Fixpoint permissionLoop (role : string) (seen : list string) (requested : list string) : option (list string) :=
  match requested with
  | [] => Some []
  | raw :: rest =>
      let permission := ToLower (TrimSpace raw) in
      if (permission == "") || bool_decide (permission ∈ seen) then permissionLoop role seen rest
      else if permissionRefused role permission then None
      else out ← permissionLoop role (permission :: seen) rest; Some (permission :: out)
  end.

Definition normalizeTokenPermissions (role : string) (requested : list string) : result (list string) :=
  match permissionLoop role [] requested with
  | None => Fail ErrValidation
  | Some found =>
      let out := if nonEmpty found then found else [APITokenPermissionRead] in
      let out := if negb (bool_decide (APITokenPermissionRead ∈ found)) then (out ++ [APITokenPermissionRead])%list else out in
      Ok (sortStrings out)
  end.

(** ** Service accounts *)

Definition CreateServiceAccount (account : ServiceAccount) (actor : string) : Store ServiceAccount :=
  let account := account <| sa_OrganizationID := TrimSpace (sa_OrganizationID account) |>
                         <| sa_ProjectID := TrimSpace (sa_ProjectID account) |>
                         <| sa_Name := normalizeName (sa_Name account) |>
                         <| sa_DisplayName := TrimSpace (sa_DisplayName account) |>
                         <| sa_ProductRole := TrimSpace (sa_ProductRole account) |> in
  let! s := get in
  let! _ := get_opt (ms_organizations s !! sa_OrganizationID account) ErrNotFound in
  fail_if ((sa_ProjectID account != "")
           && match ms_projects s !! sa_ProjectID account with
              | Some project => prj_OrganizationID project != sa_OrganizationID account
              | None => true
              end) ErrValidation ;;;
  fail_if ((sa_Name account == "") || (sa_DisplayName account == "") || negb (validServiceAccountRole (sa_ProductRole account)))
    ErrValidation ;;;
  fail_if (map_any (fun _ existing => (sa_OrganizationID existing == sa_OrganizationID account)
                                      && (sa_ProjectID existing == sa_ProjectID account)
                                      && (sa_Name existing == sa_Name account)) (ms_serviceAccounts s)) ErrDuplicateName ;;;
  let! now := nowUTC in
  let! id := newID "svc" in
  let account := account <| sa_Meta := newMeta id now |> <| sa_State := ServiceAccountActive |>
                         <| sa_CreatedBy := TrimSpace actor |> <| sa_RevokedBy := "" |> <| sa_RevokedAt := None |> in
  putServiceAccount id account ;;;
  appendAuditLocked actor "service_account.created" "serviceAccount" id (rm_Revision (sa_Meta account))
    [("organizationId", MStr (sa_OrganizationID account)); ("projectId", MStr (sa_ProjectID account));
     ("productRole", MStr (sa_ProductRole account))] ;;;
  appendOutboxLocked "serviceAccount" id "service_account.created" (PayloadServiceAccount account) ;;;
  ret account.

Definition GetServiceAccount (id : string) : Store ServiceAccount :=
  let! s := get in get_opt (ms_serviceAccounts s !! TrimSpace id) ErrNotFound.

Definition ListServiceAccounts (organizationID : string) : Store (list ServiceAccount) :=
  let! s := get in
  let organizationID := TrimSpace organizationID in
  ret (sortSlice (lexi sa_OrganizationID string_lt (on sa_Name string_lt))
         (map_select (fun _ v => (organizationID == "") || (sa_OrganizationID v == organizationID)) (ms_serviceAccounts s))).

Definition revokedToken (actor : string) (now : Time) (token : APIToken) : APIToken :=
  token <| tk_State := APITokenRevoked |> <| tk_Meta := bump (tk_Meta token) now |> <| tk_RevokedBy := TrimSpace actor |>
        <| tk_RevokedAt := Some now |>.

(** the loop that revokes the tokens of an account *)
Fixpoint revokeTokens (id actor : string) (now : Time) (tokens : list (string * APIToken)) : Store unit :=
  match tokens with
  | [] => ret tt
  | (tokenID, token) :: rest =>
      when ((tk_ServiceAccountID token == id) && (tk_State token == APITokenActive))
        (let token := revokedToken actor now token in
         putAPIToken tokenID token ;;;
         appendAuditLocked actor "api_token.revoked" "apiToken" (rm_ID (tk_Meta token)) (rm_Revision (tk_Meta token))
           [("serviceAccountId", MStr id); ("reason", MStr "service-account-revoked")]) ;;;
      revokeTokens id actor now rest
  end.

Definition RevokeServiceAccount (id : string) (expected : Z) (actor : string) : Store ServiceAccount :=
  let id := TrimSpace id in
  let! s := get in
  let! current := get_opt (ms_serviceAccounts s !! id) ErrNotFound in
  fail_if (rm_Revision (sa_Meta current) != expected) ErrConflict ;;;
  if sa_State current == ServiceAccountRevoked then ret current else
  let! now := nowUTC in
  let current := current <| sa_State := ServiceAccountRevoked |> <| sa_Meta := bump (sa_Meta current) now |>
                         <| sa_RevokedBy := TrimSpace actor |> <| sa_RevokedAt := Some now |> in
  putServiceAccount id current ;;;
  revokeTokens id actor now (map_to_list (ms_apiTokens s)) ;;;
  appendAuditLocked actor "service_account.revoked" "serviceAccount" id (rm_Revision (sa_Meta current))
    [("organizationId", MStr (sa_OrganizationID current)); ("projectId", MStr (sa_ProjectID current))] ;;;
  appendOutboxLocked "serviceAccount" id "service_account.revoked" (PayloadServiceAccount current) ;;;
  ret current.

(** ** API tokens *)

Definition redactedAPIToken (token : APIToken) : APIToken := token <| tk_TokenDigest := "" |> <| tk_IdempotencyKey := "" |>.

Definition tokenKeyTaken (accountID key : string) (s : MemoryStore) : bool :=
  map_any (fun _ existing => (tk_ServiceAccountID existing == accountID) && (tk_IdempotencyKey existing == key)) (ms_apiTokens s).

(** [ID: strings.TrimSpace(token.ID)], drawn when there is none *)
Definition tokenID (token : APIToken) : Store string :=
  if TrimSpace (rm_ID (tk_Meta token)) == "" then newID "tok" else ret (TrimSpace (rm_ID (tk_Meta token))).

Definition CreateAPIToken (token : APIToken) (actor : string) : Store APIToken :=
  let! s := get in
  let! account := get_opt (ms_serviceAccounts s !! TrimSpace (tk_ServiceAccountID token)) ErrNotFound in
  fail_if (sa_State account != ServiceAccountActive) ErrValidation ;;;
  fail_if (tk_ExpiresAt token =? 0) ErrValidation ;;;
  let! first := nowUTC in
  fail_if (negb (first <? tk_ExpiresAt token)) ErrValidation ;;;
  let! second := nowUTC in
  fail_if (second + 366 * Day <? tk_ExpiresAt token) ErrValidation ;;;
  let! permissions := lift (normalizeTokenPermissions (sa_ProductRole account) (tk_Permissions token)) in
  fail_if (blank (tk_TokenDigest token) || blank (tk_TokenPrefix token)) ErrValidation ;;;
  let token := token <| tk_IdempotencyKey := TrimSpace (tk_IdempotencyKey token) |> in
  fail_if ((tk_IdempotencyKey token == "") || (200 <? len (tk_IdempotencyKey token))) ErrValidation ;;;
  fail_if (tokenKeyTaken (rm_ID (sa_Meta account)) (tk_IdempotencyKey token) s) ErrConflict ;;;
  let! now := nowUTC in
  let! id := tokenID token in
  let token := token <| tk_Meta := newMeta id now |> <| tk_ServiceAccountID := rm_ID (sa_Meta account) |>
                     <| tk_OrganizationID := sa_OrganizationID account |> <| tk_ProjectID := sa_ProjectID account |>
                     <| tk_Permissions := permissions |> <| tk_State := APITokenActive |> <| tk_CreatedBy := TrimSpace actor |>
                     <| tk_RevokedAt := None |> <| tk_RevokedBy := "" |> in
  putAPIToken id token ;;;
  appendAuditLocked actor "api_token.issued" "apiToken" id (rm_Revision (tk_Meta token))
    [("serviceAccountId", MStr (rm_ID (sa_Meta account))); ("organizationId", MStr (sa_OrganizationID account));
     ("projectId", MStr (sa_ProjectID account)); ("expiresAt", MTime (Some (tk_ExpiresAt token)));
     ("permissions", MStrs permissions)] ;;;
  appendOutboxLocked "apiToken" id "api_token.issued" (PayloadAPIToken (redactedAPIToken token)) ;;;
  ret token.

Definition GetAPIToken (id : string) : Store APIToken :=
  let! s := get in get_opt (ms_apiTokens s !! TrimSpace id) ErrNotFound.

Definition GetAPITokenByIdempotencyKey (serviceAccountID key : string) : Store APIToken :=
  let! s := get in
  match map_find (fun _ v => (tk_ServiceAccountID v == TrimSpace serviceAccountID) && (tk_IdempotencyKey v == TrimSpace key))
          (ms_apiTokens s) with
  | Some (_, v) => ret v
  | None => raise ErrNotFound
  end.

Definition ListAPITokens (serviceAccountID : string) : Store (list APIToken) :=
  let! s := get in
  ret (sortSlice (on (fun v => rm_CreatedAt (tk_Meta v)) earlier)
         (map_select (fun _ v => blank serviceAccountID || (tk_ServiceAccountID v == TrimSpace serviceAccountID)) (ms_apiTokens s))).

Definition RevokeAPIToken (id : string) (expected : Z) (actor : string) : Store APIToken :=
  let! s := get in
  let! current := get_opt (ms_apiTokens s !! TrimSpace id) ErrNotFound in
  fail_if (rm_Revision (tk_Meta current) != expected) ErrConflict ;;;
  if tk_State current == APITokenRevoked then ret current else
  let! now := nowUTC in
  let current := revokedToken actor now current in
  putAPIToken (rm_ID (tk_Meta current)) current ;;;
  appendAuditLocked actor "api_token.revoked" "apiToken" (rm_ID (tk_Meta current)) (rm_Revision (tk_Meta current))
    [("serviceAccountId", MStr (tk_ServiceAccountID current))] ;;;
  appendOutboxLocked "apiToken" (rm_ID (tk_Meta current)) "api_token.revoked" (PayloadAPIToken (redactedAPIToken current)) ;;;
  ret current.

Definition RotateAPIToken (oldID : string) (expected : Z) (replacement : APIToken) (actor : string)
    : Store (APIToken * APIToken) :=
  let! s := get in
  let! old := get_opt (ms_apiTokens s !! TrimSpace oldID) ErrNotFound in
  fail_if (rm_Revision (tk_Meta old) != expected) ErrConflict ;;;
  fail_if (tk_State old != APITokenActive) ErrValidation ;;;
  let! account := get_opt (ms_serviceAccounts s !! tk_ServiceAccountID old) ErrValidation in
  fail_if (sa_State account != ServiceAccountActive) ErrValidation ;;;
  let! now := nowUTC in
  let replacement := if tk_ExpiresAt replacement =? 0 then replacement <| tk_ExpiresAt := tk_ExpiresAt old |> else replacement in
  fail_if (negb (now <? tk_ExpiresAt replacement) || (now + 366 * Day <? tk_ExpiresAt replacement)) ErrValidation ;;;
  let requested := if nonEmpty (tk_Permissions replacement) then tk_Permissions replacement else tk_Permissions old in
  let! permissions := lift (normalizeTokenPermissions (sa_ProductRole account) requested) in
  fail_if (blank (tk_TokenDigest replacement) || blank (tk_TokenPrefix replacement)) ErrValidation ;;;
  let replacement := replacement <| tk_IdempotencyKey := TrimSpace (tk_IdempotencyKey replacement) |> in
  fail_if ((tk_IdempotencyKey replacement == "") || (200 <? len (tk_IdempotencyKey replacement))) ErrValidation ;;;
  fail_if (tokenKeyTaken (rm_ID (sa_Meta account)) (tk_IdempotencyKey replacement) s) ErrConflict ;;;
  let old := revokedToken actor now old in
  putAPIToken (rm_ID (tk_Meta old)) old ;;;
  let! id := tokenID replacement in
  let replacement := replacement <| tk_Meta := newMeta id now |> <| tk_ServiceAccountID := rm_ID (sa_Meta account) |>
                       <| tk_OrganizationID := sa_OrganizationID account |> <| tk_ProjectID := sa_ProjectID account |>
                       <| tk_Permissions := permissions |> <| tk_State := APITokenActive |>
                       <| tk_CreatedBy := TrimSpace actor |> <| tk_RotatedFromID := rm_ID (tk_Meta old) |>
                       <| tk_RevokedAt := None |> <| tk_RevokedBy := "" |> in
  putAPIToken id replacement ;;;
  appendAuditLocked actor "api_token.rotated" "apiToken" id (rm_Revision (tk_Meta replacement))
    [("serviceAccountId", MStr (rm_ID (sa_Meta account))); ("rotatedFromId", MStr (rm_ID (tk_Meta old)));
     ("expiresAt", MTime (Some (tk_ExpiresAt replacement)))] ;;;
  appendOutboxLocked "apiToken" id "api_token.rotated" (PayloadAPIToken (redactedAPIToken replacement)) ;;;
  ret (old, replacement).

(** ** Trusted clients *)

(** the loop over redirect URIs *)
Fixpoint distinctURIs (seen : list string) (uris : list string) : list string :=
  match uris with
  | [] => []
  | u :: rest =>
      let u := TrimSpace u in
      if (u == "") || bool_decide (u ∈ seen) then distinctURIs seen rest else u :: distinctURIs (u :: seen) rest
  end.

Definition normalizeMCPClient (v : MCPTrustedClient) : result MCPTrustedClient :=
  let v := v <| tc_ClientID := TrimSpace (tc_ClientID v) |> <| tc_DisplayName := TrimSpace (tc_DisplayName v) |>
             <| tc_Provider := ToLower (TrimSpace (tc_Provider v)) |> in
  if (tc_ClientID v == "") || (tc_DisplayName v == "") then Fail ErrValidation
  else if negb (bool_decide (tc_Provider v ∈ ["chatgpt"; "claude"; "gemini"; "grok"; "other"])) then Fail ErrValidation
  else Ok (v <| tc_RedirectURIs := sortStrings (distinctURIs [] (tc_RedirectURIs v)) |>).

(** [strings.TrimRight(s, "/")] *)
Fixpoint trimSlashes (s : string) : string :=
  match s with
  | EmptyString => ""
  | String a rest => match trimSlashes rest with
                     | EmptyString => if bool_decide (a = "/"%char) then "" else String a ""
                     | rest => String a rest
                     end
  end.

Definition normalizeMCPGrant (v : MCPDelegationGrant) (now : Time) : result MCPDelegationGrant :=
  let v := v <| dg_Issuer := trimSlashes (TrimSpace (dg_Issuer v)) |> <| dg_Subject := TrimSpace (dg_Subject v) |>
             <| dg_ClientID := TrimSpace (dg_ClientID v) |> <| dg_OrganizationID := TrimSpace (dg_OrganizationID v) |>
             <| dg_ProjectID := TrimSpace (dg_ProjectID v) |> <| dg_ConsentDigest := TrimSpace (dg_ConsentDigest v) |> in
  if (dg_Issuer v == "") || (dg_Subject v == "") || (dg_ClientID v == "") || (dg_ConsentDigest v == "") then Fail ErrValidation
  else if negb (bool_decide (dg_AccessProfile v ∈ [MCPDelegationView; MCPDelegationOperate; MCPDelegationAdministration]))
  then Fail ErrValidation
  else if (dg_ProjectID v != "") && (dg_OrganizationID v == "") then Fail ErrValidation
  else if (dg_ExpiresAt v =? 0) || negb (now <? dg_ExpiresAt v) || (now + 30 * Day <? dg_ExpiresAt v) then Fail ErrValidation
  else Ok v.

Definition trustedClient (clientID : string) (_ : string) (c : MCPTrustedClient) : bool :=
  (tc_ClientID c == clientID) && (tc_State c == MCPTrustedClientActive).

Definition CreateMCPTrustedClient (v : MCPTrustedClient) (actor : string) : Store MCPTrustedClient :=
  let! v := lift (normalizeMCPClient v) in
  let! s := get in
  fail_if (map_any (trustedClient (tc_ClientID v)) (ms_mcpTrustedClients s)) ErrConflict ;;;
  let! now := nowUTC in
  let! id := newID "mcpcli" in
  let v := v <| tc_Meta := newMeta id now |> <| tc_State := MCPTrustedClientActive |> <| tc_CreatedBy := TrimSpace actor |> in
  putMCPTrustedClient id v ;;;
  appendAuditLocked actor "mcp_trusted_client.created" "mcpTrustedClient" id (rm_Revision (tc_Meta v))
    [("clientId", MStr (tc_ClientID v)); ("provider", MStr (tc_Provider v))] ;;;
  appendOutboxLocked "mcpTrustedClient" id "mcp_trusted_client.created" (PayloadMCPTrustedClient v) ;;;
  ret v.

Definition ListMCPTrustedClients : Store (list MCPTrustedClient) :=
  let! s := get in
  ret (sortSlice (on tc_DisplayName string_lt) (map_select (fun _ _ => true) (ms_mcpTrustedClients s))).

Definition GetMCPTrustedClientByClientID (clientID : string) : Store MCPTrustedClient :=
  let! s := get in
  match map_find (fun _ v => tc_ClientID v == TrimSpace clientID) (ms_mcpTrustedClients s) with
  | Some (_, v) => ret v
  | None => raise ErrNotFound
  end.

Definition revokedGrant (actor : string) (now : Time) (g : MCPDelegationGrant) : MCPDelegationGrant :=
  g <| dg_Meta := bump (dg_Meta g) now |> <| dg_State := MCPDelegationGrantRevoked |> <| dg_RevokedBy := TrimSpace actor |>
    <| dg_RevokedAt := Some now |>.

(** the loop that revokes the grants of a client *)
Fixpoint revokeGrants (clientID actor : string) (now : Time) (grants : list (string * MCPDelegationGrant)) : Store unit :=
  match grants with
  | [] => ret tt
  | (gid, g) :: rest =>
      when ((dg_ClientID g == clientID) && (dg_State g == MCPDelegationGrantActive))
        (putMCPDelegationGrant gid (revokedGrant actor now g)) ;;;
      revokeGrants clientID actor now rest
  end.

Definition RevokeMCPTrustedClient (id : string) (expected : Z) (actor : string) : Store MCPTrustedClient :=
  let! s := get in
  let! v := get_opt (ms_mcpTrustedClients s !! TrimSpace id) ErrNotFound in
  fail_if (rm_Revision (tc_Meta v) != expected) ErrConflict ;;;
  if tc_State v == MCPTrustedClientRevoked then ret v else
  let! now := nowUTC in
  let v := v <| tc_Meta := bump (tc_Meta v) now |> <| tc_State := MCPTrustedClientRevoked |>
             <| tc_RevokedBy := TrimSpace actor |> <| tc_RevokedAt := Some now |> in
  putMCPTrustedClient (rm_ID (tc_Meta v)) v ;;;
  revokeGrants (tc_ClientID v) actor now (map_to_list (ms_mcpDelegationGrants s)) ;;;
  appendAuditLocked actor "mcp_trusted_client.revoked" "mcpTrustedClient" (rm_ID (tc_Meta v)) (rm_Revision (tc_Meta v))
    [("clientId", MStr (tc_ClientID v))] ;;;
  appendOutboxLocked "mcpTrustedClient" (rm_ID (tc_Meta v)) "mcp_trusted_client.revoked" (PayloadMCPTrustedClient v) ;;;
  ret v.

(** ** Delegation grants *)

(** the organization and the project of a grant *)
Definition grantScope (s : MemoryStore) (v : MCPDelegationGrant) : result unit :=
  if dg_OrganizationID v == "" then Ok tt
  else match ms_organizations s !! dg_OrganizationID v with
  | None => Fail ErrNotFound
  | Some org =>
      if rm_ID (org_Meta org) == "" then Fail ErrNotFound
      else if dg_ProjectID v == "" then Ok tt
      else match ms_projects s !! dg_ProjectID v with
      | None => Fail ErrNotFound
      | Some p => if prj_OrganizationID p != dg_OrganizationID v then Fail ErrValidation else Ok tt
      end
  end.

(** an unexpired grant of the same subject, client and scope *)
Definition sameGrant (v : MCPDelegationGrant) (now : Time) (_ : string) (g : MCPDelegationGrant) : bool :=
  (dg_Subject g == dg_Subject v) && (dg_ClientID g == dg_ClientID v) && (dg_OrganizationID g == dg_OrganizationID v)
  && (dg_ProjectID g == dg_ProjectID v) && (dg_State g == MCPDelegationGrantActive) && (now <? dg_ExpiresAt g).

Definition CreateMCPDelegationGrant (v : MCPDelegationGrant) (actor : string) : Store MCPDelegationGrant :=
  let! now := nowUTC in
  let! v := lift (normalizeMCPGrant v now) in
  let! s := get in
  fail_if (negb (map_any (trustedClient (dg_ClientID v)) (ms_mcpTrustedClients s))) ErrValidation ;;;
  let! _ := lift (grantScope s v) in
  fail_if (map_any (sameGrant v now) (ms_mcpDelegationGrants s)) ErrConflict ;;;
  let! id := newID "mcpgr" in
  let v := v <| dg_Meta := newMeta id now |> <| dg_State := MCPDelegationGrantActive |> <| dg_CreatedBy := TrimSpace actor |> in
  putMCPDelegationGrant id v ;;;
  appendAuditLocked actor "mcp_delegation_grant.created" "mcpDelegationGrant" id (rm_Revision (dg_Meta v))
    [("clientId", MStr (dg_ClientID v)); ("subject", MStr (dg_Subject v)); ("organizationId", MStr (dg_OrganizationID v));
     ("projectId", MStr (dg_ProjectID v)); ("accessProfile", MStr (dg_AccessProfile v));
     ("expiresAt", MTime (Some (dg_ExpiresAt v)))] ;;;
  appendOutboxLocked "mcpDelegationGrant" id "mcp_delegation_grant.created" (PayloadMCPDelegationGrant v) ;;;
  ret v.

Definition ListMCPDelegationGrants (subject : string) : Store (list MCPDelegationGrant) :=
  let! s := get in
  let subject := TrimSpace subject in
  ret (sortSlice (on (fun v => rm_CreatedAt (dg_Meta v)) earlier)
         (map_select (fun _ v => (subject == "") || (dg_Subject v == subject)) (ms_mcpDelegationGrants s))).

(** a grant that lets [clientID] act for the subject *)
Definition activeGrant (issuer subject clientID : string) (now : Time) (_ : string) (v : MCPDelegationGrant) : bool :=
  (dg_Issuer v == issuer) && (dg_Subject v == subject) && (dg_ClientID v == clientID)
  && (dg_State v == MCPDelegationGrantActive) && (now <? dg_ExpiresAt v).

Definition GetActiveMCPDelegationGrant (issuer subject clientID : string) (now : Time) : Store MCPDelegationGrant :=
  let! s := get in
  match map_find (activeGrant (trimSlashes (TrimSpace issuer)) (TrimSpace subject) (TrimSpace clientID) now)
          (ms_mcpDelegationGrants s) with
  | Some (_, v) => ret v
  | None => raise ErrNotFound
  end.

Definition RevokeMCPDelegationGrant (id : string) (expected : Z) (actor : string) : Store MCPDelegationGrant :=
  let! s := get in
  let! v := get_opt (ms_mcpDelegationGrants s !! TrimSpace id) ErrNotFound in
  fail_if (rm_Revision (dg_Meta v) != expected) ErrConflict ;;;
  if dg_State v == MCPDelegationGrantRevoked then ret v else
  let! now := nowUTC in
  let v := revokedGrant actor now v in
  putMCPDelegationGrant (rm_ID (dg_Meta v)) v ;;;
  appendAuditLocked actor "mcp_delegation_grant.revoked" "mcpDelegationGrant" (rm_ID (dg_Meta v)) (rm_Revision (dg_Meta v))
    [("clientId", MStr (dg_ClientID v)); ("subject", MStr (dg_Subject v))] ;;;
  appendOutboxLocked "mcpDelegationGrant" (rm_ID (dg_Meta v)) "mcp_delegation_grant.revoked" (PayloadMCPDelegationGrant v) ;;;
  ret v.

Example no_permission_reads_twice :
  normalizeTokenPermissions "platform-viewer" [] = Ok ["read"; "read"] /\
  normalizeTokenPermissions "platform-viewer" ["MCP.read"] = Ok ["mcp.read"; "read"] /\
  normalizeTokenPermissions "platform-viewer" ["operate"] = Fail ErrValidation.
Proof. split_and!; vm_compute; reflexivity. Qed.
