(* ===== verification/AccessTheorems.v ===== *)
(** * What machine identities are worth

    The invariant of service accounts, tokens, trusted clients and grants; that
    every call keeps it; and that a revocation reaches everything that was
    derived from what it revokes and is never undone, unless a token is issued again
    under the identifier of a revoked one. *)
From S2P Require Import Prelude GoStrings Model Calendar Store Ordering Listing OperationSystem.
From S2P Require Import OperationRuns Demo Collections Organizations Targets Impact Access.

(** ** Permissions *)

Definition permissionsOK (role : string) (permissions : list string) : Prop :=
  APITokenPermissionRead ∈ permissions /\ Sorted string_le permissions /\
  forall p, p ∈ permissions -> permissionRefused role p = false.

Lemma permission_loop role seen requested out :
  permissionLoop role seen requested = Some out ->
  NoDup out /\ (forall p, p ∈ out -> (p ∉ seen) /\ permissionRefused role p = false /\
                          exists raw, raw ∈ requested /\ p = ToLower (TrimSpace raw)).
Proof.
  revert seen out. induction requested as [|raw rest IH]; intros seen out H; cbn [permissionLoop] in H; cbv zeta in H.
  { injection H as <-. split; [constructor|]. by intros p ?%elem_of_nil. }
  destruct (_ || bool_decide (_ ∈ seen)) eqn:Es.
  - destruct (IH _ _ H) as [Hn Hp]. split; [done|]. intros p Hin. destruct (Hp p Hin) as (? & ? & raw' & ? & ?).
    split_and!; [done|done|]. exists raw'. split; [by right|done].
  - destruct (permissionRefused role _) eqn:Er; [done|].
    destruct (permissionLoop role (_ :: seen) rest) as [out'|] eqn:El; [|done]. cbn in H. injection H as <-.
    destruct (IH _ _ El) as [Hn Hp]. norm_bool. split.
    + constructor; [|done]. intros Hin. destruct (Hp _ Hin) as [Hne _]. apply Hne. left.
    + intros p [->|Hin]%elem_of_cons; [(split_and!; [done|done|exists raw; split; [left|done]])|].
      destruct (Hp p Hin) as (Hne & ? & raw' & ? & ?). split_and!; [|done|exists raw'; split; [by right|done]].
      intros Hs. apply Hne. by right.
Qed.

Lemma read_allowed role : permissionRefused role APITokenPermissionRead = false.
Proof. reflexivity. Qed.

(** what a request asks for, as far as the role allows it, and the right to read *)
Lemma normalized_permissions role requested out :
  normalizeTokenPermissions role requested = Ok out ->
  permissionsOK role out /\
  (forall p, p ∈ out -> p = APITokenPermissionRead \/ exists raw, raw ∈ requested /\ p = ToLower (TrimSpace raw)).
Proof.
  unfold normalizeTokenPermissions. destruct (permissionLoop role [] requested) as [found|] eqn:El; [|done].
  intros H. injection H as <-. destruct (permission_loop _ _ _ _ El) as [_ Hp].
  set (base := if nonEmpty found then found else [APITokenPermissionRead]).
  set (all := if negb _ then _ else _).
  assert (Hall : forall p, p ∈ all -> p = APITokenPermissionRead \/ p ∈ found).
  { intros p. unfold all, base. destruct found as [|x l]; cbn [nonEmpty].
    - destruct (negb _); [intros [H|H]%elem_of_app; by apply list_elem_of_singleton in H; left|].
      intros H. apply list_elem_of_singleton in H. by left.
    - destruct (negb _); [|by right]. intros [H|H]%elem_of_app; [by right|]. apply list_elem_of_singleton in H. by left. }
  assert (Hread : APITokenPermissionRead ∈ all).
  { unfold all. case_bool_decide as Hr; cbn [negb]; [|apply elem_of_app; right; by apply list_elem_of_singleton].
    unfold base. destruct found; [by apply elem_of_nil in Hr|done]. }
  assert (Hperm : forall p, p ∈ sortStrings all <-> p ∈ all) by (intros p; apply elem_of_sortStrings).
  split; [split_and!|]; [by apply Hperm|apply (Sorted_merge_sort (not_after string_lt))| |].
  - intros p Hin%Hperm. destruct (Hall p Hin) as [->|Hf]; [apply read_allowed|]. by destruct (Hp p Hf) as (_ & ? & _).
  - intros p Hin%Hperm. destruct (Hall p Hin) as [->|Hf]; [by left|]. right. by destruct (Hp p Hf) as (_ & _ & ?).
Qed.

(** ** The invariant *)

Record account_ok (id : string) (a : ServiceAccount) : Prop := {
  ao_id : rm_ID (sa_Meta a) = id;
  ao_role : validServiceAccountRole (sa_ProductRole a) = true;
  ao_revoked : sa_State a = ServiceAccountRevoked <-> is_Some (sa_RevokedAt a)
}.
Definition same_account (a b : ServiceAccount) : Prop :=
  sa_OrganizationID a = sa_OrganizationID b /\ sa_ProjectID a = sa_ProjectID b /\ sa_Name a = sa_Name b.

(** the token speaks for the account: its scope, no more than its role, and only
    while the account is active *)
Definition speaks_for (t : APIToken) (a : ServiceAccount) : Prop :=
  tk_OrganizationID t = sa_OrganizationID a /\ tk_ProjectID t = sa_ProjectID a /\
  permissionsOK (sa_ProductRole a) (tk_Permissions t) /\
  (tk_State t = APITokenActive -> sa_State a = ServiceAccountActive).
Record token_ok (A : gmap string ServiceAccount) (id : string) (t : APIToken) : Prop := {
  to_id : rm_ID (tk_Meta t) = id;
  to_account : exists a, A !! tk_ServiceAccountID t = Some a /\ speaks_for t a;
  to_revoked : tk_State t = APITokenRevoked <-> is_Some (tk_RevokedAt t)
}.
Definition same_request (t u : APIToken) : Prop :=
  tk_ServiceAccountID t = tk_ServiceAccountID u /\ tk_IdempotencyKey t = tk_IdempotencyKey u.

Definition client_ok (id : string) (c : MCPTrustedClient) : Prop := rm_ID (tc_Meta c) = id.
Definition trusted (C : gmap string MCPTrustedClient) (clientID : string) : Prop :=
  exists k c, C !! k = Some c /\ tc_ClientID c = clientID /\ tc_State c = MCPTrustedClientActive.
(** two active clients under one client identifier *)
Definition same_client (c d : MCPTrustedClient) : Prop :=
  tc_ClientID c = tc_ClientID d /\ tc_State c = MCPTrustedClientActive /\ tc_State d = MCPTrustedClientActive.

Record grant_ok (C : gmap string MCPTrustedClient) (id : string) (g : MCPDelegationGrant) : Prop := {
  go_id : rm_ID (dg_Meta g) = id;
  go_bounds : rm_CreatedAt (dg_Meta g) < dg_ExpiresAt g <= rm_CreatedAt (dg_Meta g) + 30 * Day;
  go_scope : dg_ProjectID g <> "" -> dg_OrganizationID g <> "";
  go_trusted : dg_State g = MCPDelegationGrantActive -> trusted C (dg_ClientID g)
}.

Record accounts_ok (s : MemoryStore) (A : gmap string ServiceAccount) : Prop := {
  as_filed : filed s A;
  as_each : forall id a, A !! id = Some a -> account_ok id a;
  as_names : forall i j a b, A !! i = Some a -> A !! j = Some b -> same_account a b -> i = j
}.
Record tokens_ok (A : gmap string ServiceAccount) (T : gmap string APIToken) : Prop := {
  ts_each : forall id t, T !! id = Some t -> token_ok A id t;
  ts_keys : forall i j t u, T !! i = Some t -> T !! j = Some u -> same_request t u -> i = j
}.
Record clients_ok (s : MemoryStore) (C : gmap string MCPTrustedClient) : Prop := {
  cs_filed : filed s C;
  cs_each : forall id c, C !! id = Some c -> client_ok id c;
  cs_unique : forall i j c d, C !! i = Some c -> C !! j = Some d -> same_client c d -> i = j
}.
Record grants_ok (s : MemoryStore) (C : gmap string MCPTrustedClient) (G : gmap string MCPDelegationGrant) : Prop := {
  gs_filed : filed s G;
  gs_each : forall id g, G !! id = Some g -> grant_ok C id g
}.
Record access_wf (s : MemoryStore) : Prop := {
  aw_accounts : accounts_ok s (ms_serviceAccounts s);
  aw_tokens : tokens_ok (ms_serviceAccounts s) (ms_apiTokens s);
  aw_clients : clients_ok s (ms_mcpTrustedClients s);
  aw_grants : grants_ok s (ms_mcpTrustedClients s) (ms_mcpDelegationGrants s)
}.

(** ** How records evolve: what they say is frozen, a revocation is final *)

Definition account_identity (a : ServiceAccount) :=
  (rm_ID (sa_Meta a), rm_CreatedAt (sa_Meta a), sa_OrganizationID a, sa_ProjectID a, sa_Name a, sa_DisplayName a,
   sa_ProductRole a, sa_CreatedBy a).
Definition account_evolves (a a' : ServiceAccount) : Prop :=
  account_identity a' = account_identity a /\ (sa_State a = ServiceAccountRevoked -> a' = a).
Definition token_identity (t : APIToken) :=
  (rm_ID (tk_Meta t), rm_CreatedAt (tk_Meta t), tk_ServiceAccountID t, tk_OrganizationID t, tk_ProjectID t, tk_TokenPrefix t,
   tk_TokenDigest t, tk_IdempotencyKey t, tk_Permissions t, tk_ExpiresAt t, tk_CreatedBy t, tk_RotatedFromID t).
Definition token_evolves (t t' : APIToken) : Prop :=
  token_identity t' = token_identity t /\ (tk_State t = APITokenRevoked -> t' = t).
Definition client_identity (c : MCPTrustedClient) :=
  (rm_ID (tc_Meta c), rm_CreatedAt (tc_Meta c), tc_ClientID c, tc_DisplayName c, tc_Provider c, tc_RedirectURIs c, tc_CreatedBy c).
Definition client_evolves (c c' : MCPTrustedClient) : Prop :=
  client_identity c' = client_identity c /\ (tc_State c = MCPTrustedClientRevoked -> c' = c).
Definition grant_identity (g : MCPDelegationGrant) :=
  (rm_ID (dg_Meta g), rm_CreatedAt (dg_Meta g), dg_Issuer g, dg_Subject g, dg_ClientID g, dg_OrganizationID g, dg_ProjectID g,
   dg_AccessProfile g, dg_ConsentDigest g, dg_ExpiresAt g, dg_CreatedBy g).
Definition grant_evolves (g g' : MCPDelegationGrant) : Prop :=
  grant_identity g' = grant_identity g /\ (dg_State g = MCPDelegationGrantRevoked -> g' = g).

Lemma frozen_trans {V K} (identity : V -> K) (gone : V -> Prop) x y z :
  identity y = identity x /\ (gone x -> y = x) -> identity z = identity y /\ (gone y -> z = y) ->
  identity z = identity x /\ (gone x -> z = x).
Proof. intros [E1 H1] [E2 H2]. split; [congruence|]. intros H. assert (y = x) as -> by auto. auto. Qed.

Ltac strictly := try match goal with |- ?b = true -> _ => intros ? end.

(** [strict]: no token was issued under an identifier in use *)
Record access_moves (strict : bool) (s s' : MemoryStore) : Prop := {
  am_accounts : evolves account_evolves (ms_serviceAccounts s) (ms_serviceAccounts s');
  am_tokens : strict = true -> evolves token_evolves (ms_apiTokens s) (ms_apiTokens s');
  am_clients : evolves client_evolves (ms_mcpTrustedClients s) (ms_mcpTrustedClients s');
  am_grants : evolves grant_evolves (ms_mcpDelegationGrants s) (ms_mcpDelegationGrants s')
}.
#[export] Instance access_moves_order strict : PreOrder (access_moves strict).
Proof.
  split.
  - intros s. split; strictly; apply evolves_refl; by split.
  - intros s1 s2 s3 [] []. split; strictly; (eapply evolves_trans; [|eauto..]); intros x y z.
    + apply (frozen_trans account_identity (fun a => sa_State a = ServiceAccountRevoked)).
    + apply (frozen_trans token_identity (fun t => tk_State t = APITokenRevoked)).
    + apply (frozen_trans client_identity (fun c => tc_State c = MCPTrustedClientRevoked)).
    + apply (frozen_trans grant_identity (fun g => dg_State g = MCPDelegationGrantRevoked)).
Qed.

(** ** Steps of the collections *)

Lemma account_sym a b : same_account a b -> same_account b a.
Proof. unfold same_account. intuition congruence. Qed.
Lemma token_request_sym t u : same_request t u -> same_request u t.
Proof. unfold same_request. intuition congruence. Qed.
Lemma client_sym c d : same_client c d -> same_client d c.
Proof. unfold same_client. intuition congruence. Qed.

Lemma speaks_more A A' id t :
  evolves (fun a a' => account_identity a' = account_identity a /\
             (tk_State t = APITokenActive -> sa_State a = ServiceAccountActive -> sa_State a' = ServiceAccountActive)) A A' ->
  token_ok A id t -> token_ok A' id t.
Proof.
  intros He [Hi (a & Ha & Ho & Hp & Hperm & Hs) Hr]. destruct (He _ _ Ha) as (a' & Ha' & Ei & Hst).
  injection Ei as _ _ Eo Ep _ _ Er _. split; [done| |done]. exists a'. split; [done|]. split_and!; [congruence|congruence| |tauto].
  by rewrite Er.
Qed.

Section steps.
Context (s s' : MemoryStore) (Hd : drawn s s').

Lemma accounts_same A : accounts_ok s A -> accounts_ok s' A.
Proof. intros []. split; [by eapply filed_mono|done..]. Qed.
Lemma clients_same C : clients_ok s C -> clients_ok s' C.
Proof. intros []. split; [by eapply filed_mono|done..]. Qed.
Lemma grants_same C G : grants_ok s C G -> grants_ok s' C G.
Proof. intros []. split; [by eapply filed_mono|done]. Qed.

Lemma accounts_update A k a a' :
  accounts_ok s A -> A !! k = Some a -> account_identity a' = account_identity a -> account_ok k a' -> accounts_ok s' (<[k := a']> A).
Proof.
  intros [Hf He Hn] Ha Ei Hok. injection Ei as _ _ Eo Ep En _ _ _. split.
  - by eapply filed_update.
  - intros i b [[<- <-]|[_ Hb]]%lookup_insert_Some; [done|by apply He].
  - apply unique_insert; [apply account_sym|done|]. intros j b Hj (E1 & E2 & E3).
    symmetry. apply (Hn k j a b Ha Hj). split_and!; congruence.
Qed.

Lemma accounts_add A n p a :
  accounts_ok s A -> (ms_ids s <= n < ms_ids s')%nat -> account_ok (ms_id s n p) a ->
  (forall j b, A !! j = Some b -> ~ same_account a b) -> accounts_ok s' (<[ms_id s n p := a]> A).
Proof.
  intros [Hf He Hn] Hin Hok Hnew. split.
  - apply filed_insert; [done|lia|done].
  - intros i b [[<- <-]|[_ Hb]]%lookup_insert_Some; [done|by apply He].
  - apply unique_insert; [apply account_sym|done|]. intros j b Hj Hs. by destruct (Hnew j b Hj).
Qed.

Lemma tokens_insert A T k t :
  tokens_ok A T -> token_ok A k t -> (forall j u, T !! j = Some u -> same_request t u -> j = k) -> tokens_ok A (<[k := t]> T).
Proof.
  intros [He Hk] Hok Hnew. split.
  - intros i u [[<- <-]|[_ Hu]]%lookup_insert_Some; [done|by apply He].
  - by apply unique_insert; [apply token_request_sym|done|].
Qed.

Lemma clients_add C n p c :
  clients_ok s C -> (ms_ids s <= n < ms_ids s')%nat -> client_ok (ms_id s n p) c ->
  (forall j d, C !! j = Some d -> ~ same_client c d) -> clients_ok s' (<[ms_id s n p := c]> C).
Proof.
  intros [Hf He Hn] Hin Hok Hnew. split.
  - apply filed_insert; [done|lia|done].
  - intros i b [[<- <-]|[_ Hb]]%lookup_insert_Some; [done|by apply He].
  - apply unique_insert; [apply client_sym|done|]. intros j b Hj Hs. by destruct (Hnew j b Hj).
Qed.

Lemma clients_revoke C k c c' :
  clients_ok s C -> C !! k = Some c -> client_identity c' = client_identity c -> tc_State c' = MCPTrustedClientRevoked ->
  clients_ok s' (<[k := c']> C).
Proof.
  intros [Hf He Hn] Hc Ei Hst. injection Ei as Ei _ _ _ _ _ _. split.
  - by eapply filed_update.
  - intros i b [[<- <-]|[_ Hb]]%lookup_insert_Some; [|by apply He]. unfold client_ok. rewrite Ei. by apply He.
  - apply unique_insert; [apply client_sym|done|]. intros j b Hj (_ & Hs & _). congruence.
Qed.

Lemma grants_add C G n p g :
  grants_ok s C G -> (ms_ids s <= n < ms_ids s')%nat -> grant_ok C (ms_id s n p) g -> grants_ok s' C (<[ms_id s n p := g]> G).
Proof.
  intros [Hf He] Hin Hok. split.
  - apply filed_insert; [done|lia|done].
  - intros i b [[<- <-]|[_ Hb]]%lookup_insert_Some; [done|by apply He].
Qed.

Lemma grants_update C G k g g' :
  grants_ok s C G -> G !! k = Some g -> grant_ok C k g' -> grants_ok s' C (<[k := g']> G).
Proof.
  intros [Hf He] Hg Hok. split; [by eapply filed_update|].
  intros i b [[<- <-]|[_ Hb]]%lookup_insert_Some; [done|by apply He].
Qed.
End steps.

(** what the revocation of an account makes of a token, and that of a client of a grant *)
Definition settledToken (id actor : string) (now : Time) (t : APIToken) : APIToken :=
  if (tk_ServiceAccountID t == id) && (tk_State t == APITokenActive) then revokedToken actor now t else t.
Definition settledGrant (clientID actor : string) (now : Time) (g : MCPDelegationGrant) : MCPDelegationGrant :=
  if (dg_ClientID g == clientID) && (dg_State g == MCPDelegationGrantActive) then revokedGrant actor now g else g.

Lemma token_revokes actor now t : tk_State t = APITokenActive -> token_evolves t (revokedToken actor now t).
Proof. intros E. split; [done|]. by rewrite E. Qed.
Lemma token_settles id actor now t : token_evolves t (settledToken id actor now t).
Proof. unfold settledToken. case_match eqn:E; [|by split]. norm_bool. by apply token_revokes. Qed.
Lemma grant_revokes actor now g : dg_State g = MCPDelegationGrantActive -> grant_evolves g (revokedGrant actor now g).
Proof. intros E. split; [done|]. by rewrite E. Qed.
Lemma grant_settles id actor now g : grant_evolves g (settledGrant id actor now g).
Proof. unfold settledGrant. case_match eqn:E; [|by split]. norm_bool. by apply grant_revokes. Qed.

(** a token that is revoked says what it said *)
Lemma token_ok_revoked A id actor now t : token_ok A id t -> token_ok A id (revokedToken actor now t).
Proof.
  intros [Hi (a & Ha & Ho & Hp & Hperm & _) _]. split; [done|exists a; by split_and!|]. cbn. split; [by eexists|done].
Qed.

Lemma tokens_settle A T k a a' actor now :
  tokens_ok A T -> A !! k = Some a -> account_identity a' = account_identity a -> tokens_ok (<[k := a']> A) (settledToken k actor now <$> T).
Proof.
  intros [He Hk] Ha Ei. split.
  - intros id u Hu. apply lookup_fmap_Some in Hu as (t & <- & Ht). pose proof (He _ _ Ht) as Hok.
    destruct Hok as [Hi (b & Hb & Ho & Hp & Hperm & Hs) Hr]. unfold settledToken.
    destruct (decide (tk_ServiceAccountID t = k)) as [Ek|Hne].
    + rewrite Ek in Hb. assert (b = a) as -> by congruence. injection Ei as _ _ Eo Ep _ _ Er _.
      assert (Hno : forall u, token_identity u = token_identity t -> tk_State u = APITokenRevoked ->
                is_Some (tk_RevokedAt u) -> token_ok (<[k := a']> A) id u).
      { intros v Ev Hv Hsome. injection Ev as Ev1 _ Ev3 Ev4 Ev5 _ _ _ Ev9 _ _ _. split; [congruence| |done].
        exists a'. rewrite Ev3, Ek, lookup_insert_eq. split; [done|]. split_and!; [congruence|congruence| |congruence].
        by rewrite Ev9, Er. }
      case_match eqn:E; [by apply Hno; [|done|eexists]|]. rewrite (bool_decide_eq_true_2 _ Ek) in E. cbn in E. norm_bool.
      assert (tk_State t = APITokenRevoked) as Hrev by (by destruct (tk_State t)).
      apply Hno; [done|done|by apply Hr].
    + rewrite bool_decide_eq_false_2 by done. cbn [andb]. split; [done| |done]. exists b. by rewrite lookup_insert_ne.
  - intros i j t u Ht Hu Hs. apply lookup_fmap_Some in Ht as (t0 & <- & Ht). apply lookup_fmap_Some in Hu as (u0 & <- & Hu).
    apply (Hk i j t0 u0 Ht Hu). destruct Hs as [E1 E2]. destruct (token_settles k actor now t0) as [[=] _].
    destruct (token_settles k actor now u0) as [[=] _]. split; congruence.
Qed.

Lemma trusted_more C n c id : C !! n = None -> trusted C id -> trusted (<[n := c]> C) id.
Proof. intros Hn (k & d & Hk & ? & ?). exists k, d. split; [|done]. rewrite lookup_insert_ne; [done|congruence]. Qed.

Lemma grants_more s s' C G n c : drawn s s' -> C !! n = None -> grants_ok s C G -> grants_ok s' (<[n := c]> C) G.
Proof.
  intros Hd Hn [Hf He]. split; [by eapply filed_mono|]. intros id g Hg. destruct (He _ _ Hg) as [H1 H2 H3 H4].
  split; [done..|]. intros Ha. by apply trusted_more, H4.
Qed.

Lemma tokens_more A T n a : A !! n = None -> tokens_ok A T -> tokens_ok (<[n := a]> A) T.
Proof.
  intros Hn [He Hk]. split; [|done]. intros id t Ht. eapply speaks_more; [|by apply He]. intros j b Hb. exists b.
  rewrite lookup_insert_ne by congruence. by split.
Qed.

Lemma grants_settle s s' C G k c c' actor now :
  drawn s s' -> grants_ok s C G -> C !! k = Some c ->
  grants_ok s' (<[k := c']> C) (settledGrant (tc_ClientID c) actor now <$> G).
Proof.
  intros Hd [Hf He] Hc. split.
  - intros id g' Hg'. apply lookup_fmap_Some in Hg' as (g & _ & Hg). by apply (filed_mono _ _ _ Hd Hf _ _ Hg).
  - intros id g' Hg'. apply lookup_fmap_Some in Hg' as (g & <- & Hg). destruct (He _ _ Hg) as [H1 H2 H3 H4].
    destruct (grant_settles (tc_ClientID c) actor now g) as [Ei _]. injection Ei as E1 E2 _ _ _ E6 E7 _ _ E10 _.
    split; [congruence|by rewrite E2, E10|by rewrite E6, E7|]. unfold settledGrant. case_match eqn:E; [done|].
    intros Ha. destruct (H4 Ha) as (j & d & Hd' & Hid & Hst). exists j, d. split; [|done].
    rewrite lookup_insert_ne; [done|]. intros ->. assert (d = c) as -> by congruence.
    rewrite !bool_decide_eq_true_2 in E by done. done.
Qed.

(** ** Calls *)

Inductive AccessCall : Type :=
| ACreateAccount (v : ServiceAccount) (actor : string)
| ARevokeAccount (id : string) (expected : Z) (actor : string)
| ACreateToken (v : APIToken) (actor : string)
| ARevokeToken (id : string) (expected : Z) (actor : string)
| ARotateToken (id : string) (expected : Z) (v : APIToken) (actor : string)
| ACreateClient (v : MCPTrustedClient) (actor : string)
| ARevokeClient (id : string) (expected : Z) (actor : string)
| ACreateGrant (v : MCPDelegationGrant) (actor : string)
| ARevokeGrant (id : string) (expected : Z) (actor : string).

Definition access_exec (c : AccessCall) : MemoryStore -> MemoryStore * option Error :=
  match c with
  | ACreateAccount v actor => run1 (CreateServiceAccount v actor)
  | ARevokeAccount id e actor => run1 (RevokeServiceAccount id e actor)
  | ACreateToken v actor => run1 (CreateAPIToken v actor)
  | ARevokeToken id e actor => run1 (RevokeAPIToken id e actor)
  | ARotateToken id e v actor => run1 (RotateAPIToken id e v actor)
  | ACreateClient v actor => run1 (CreateMCPTrustedClient v actor)
  | ARevokeClient id e actor => run1 (RevokeMCPTrustedClient id e actor)
  | ACreateGrant v actor => run1 (CreateMCPDelegationGrant v actor)
  | ARevokeGrant id e actor => run1 (RevokeMCPDelegationGrant id e actor)
  end.

(** the identifier a new token would get files no token yet: the API draws the
    identifiers it supplies at random *)
Definition tokenUnused (s : MemoryStore) (v : APIToken) : Prop :=
  ms_apiTokens s !! (if TrimSpace (rm_ID (tk_Meta v)) == "" then fresh s "tok" else TrimSpace (rm_ID (tk_Meta v))) = None.
Definition access_call_ok (s : MemoryStore) (c : AccessCall) : Prop :=
  match c with ACreateToken v _ => tokenUnused s v | ARotateToken _ _ v _ => tokenUnused s v | _ => True end.

(** ** The two loops *)

(** a run that leaves accounts and clients, and the collection [f], alone *)
Record only {V} (f : MemoryStore -> V) (s s' : MemoryStore) : Prop := {
  on_drawn : drawn s s';
  on_accounts : ms_serviceAccounts s' = ms_serviceAccounts s;
  on_clients : ms_mcpTrustedClients s' = ms_mcpTrustedClients s;
  on_other : f s' = f s
}.
#[export] Instance only_order {V} (f : MemoryStore -> V) : PreOrder (only f).
Proof.
  split; [intros s; by split; [drawing|..]|].
  intros s1 s2 s3 [] []. split; [by eapply drawn_trans|congruence..].
Qed.

Lemma revoke_tokens_spec id actor now T s :
  ms_apiTokens s = T ->
  wp (revokeTokens id actor now (map_to_list T)) (fun r s' => r = Ok tt /\ only ms_mcpDelegationGrants s s' /\
    ms_apiTokens s' = settledToken id actor now <$> T) s.
Proof.
  intros <-. apply (in_place_settles ms_apiTokens (settledToken id actor now)
    (fun tokenID token => when ((tk_ServiceAccountID token == id) && (tk_State token == APITokenActive))
       (let token := revokedToken actor now token in
        putAPIToken tokenID token ;;;
        appendAuditLocked actor "api_token.revoked" "apiToken" (rm_ID (tk_Meta token)) (rm_Revision (tk_Meta token))
          [("serviceAccountId", MStr id); ("reason", MStr "service-account-revoked")])) _ (only ms_mcpDelegationGrants));
    [done|done|].
  intros k t s1 Hk. unfold settledToken. destruct (_ && _); cbn [when]; unfold_puts; wp_go.
  - split_and!; [done|by split; [drawing|..]|done].
  - split_and!; [done|done|by rewrite insert_id].
Qed.

Lemma revoke_grants_spec clientID actor now G s :
  ms_mcpDelegationGrants s = G ->
  wp (revokeGrants clientID actor now (map_to_list G)) (fun r s' => r = Ok tt /\ only ms_apiTokens s s' /\
    ms_mcpDelegationGrants s' = settledGrant clientID actor now <$> G) s.
Proof.
  intros <-. apply (in_place_settles ms_mcpDelegationGrants (settledGrant clientID actor now)
    (fun gid g => when ((dg_ClientID g == clientID) && (dg_State g == MCPDelegationGrantActive))
       (putMCPDelegationGrant gid (revokedGrant actor now g))) _ (only ms_apiTokens)); [done|done|].
  intros k g s1 Hk. unfold settledGrant. destruct (_ && _); cbn [when]; unfold_puts; wp_go.
  - split_and!; [done|by split; [drawing|..]|done].
  - split_and!; [done|done|by rewrite insert_id].
Qed.

(** ** Each handler *)

Section handlers.
Context (strict : bool) (s : MemoryStore) (Hid : id_source (ms_id s)) (Hwf : access_wf s).
Local Abbreviation leaves := (fun (_ : result _) s' => drawn s s' /\ access_wf s' /\ access_moves strict s s').

Lemma access_same s' :
  drawn s s' -> ms_serviceAccounts s' = ms_serviceAccounts s -> ms_apiTokens s' = ms_apiTokens s ->
  ms_mcpTrustedClients s' = ms_mcpTrustedClients s -> ms_mcpDelegationGrants s' = ms_mcpDelegationGrants s ->
  drawn s s' /\ access_wf s' /\ access_moves strict s s'.
Proof.
  intros Hd E1 E2 E3 E4. destruct Hwf. split; [done|]. split; split; rewrite ?E1, ?E2, ?E3, ?E4; strictly; try (apply evolves_refl; by split).
  - by eapply accounts_same.
  - done.
  - by eapply clients_same.
  - by eapply grants_same.
Qed.

Ltac untouched := apply access_same; [drawing|done..].

Ltac landing :=
  destruct Hwf as [Ha Ht Hc Hg]; split; [assumption|split; split];
  repeat match goal with E : _ = _ |- _ => rewrite E; clear E end;
  strictly; first [assumption | by apply evolves_refl; split | by eapply accounts_same | by eapply clients_same | by eapply grants_same | idtac].

Lemma account_lands s' n p a :
  drawn s s' -> ms_serviceAccounts s' = <[ms_id s n p := a]> (ms_serviceAccounts s) -> ms_apiTokens s' = ms_apiTokens s ->
  ms_mcpTrustedClients s' = ms_mcpTrustedClients s -> ms_mcpDelegationGrants s' = ms_mcpDelegationGrants s ->
  (ms_ids s <= n < ms_ids s')%nat -> account_ok (ms_id s n p) a ->
  (forall j b, ms_serviceAccounts s !! j = Some b -> ~ same_account a b) -> drawn s s' /\ access_wf s' /\ access_moves strict s s'.
Proof.
  intros Hd E1 E2 E3 E4 Hn Hok Hnew. landing.
  - by eapply accounts_add.
  - apply tokens_more; [|done]. by apply fresh_unfiled; [|apply Ha|lia].
  - by apply evolves_add; [|apply Ha|lia|].
Qed.

Lemma tokens_land s' T :
  drawn s s' -> ms_serviceAccounts s' = ms_serviceAccounts s -> ms_apiTokens s' = T ->
  ms_mcpTrustedClients s' = ms_mcpTrustedClients s -> ms_mcpDelegationGrants s' = ms_mcpDelegationGrants s ->
  tokens_ok (ms_serviceAccounts s) T -> (strict = true -> evolves token_evolves (ms_apiTokens s) T) -> drawn s s' /\ access_wf s' /\ access_moves strict s s'.
Proof. intros Hd E1 E2 E3 E4 HT Hev. landing; auto. Qed.

Lemma client_lands s' n p c :
  drawn s s' -> ms_serviceAccounts s' = ms_serviceAccounts s -> ms_apiTokens s' = ms_apiTokens s ->
  ms_mcpTrustedClients s' = <[ms_id s n p := c]> (ms_mcpTrustedClients s) ->
  ms_mcpDelegationGrants s' = ms_mcpDelegationGrants s -> (ms_ids s <= n < ms_ids s')%nat -> client_ok (ms_id s n p) c ->
  (forall j d, ms_mcpTrustedClients s !! j = Some d -> ~ same_client c d) -> drawn s s' /\ access_wf s' /\ access_moves strict s s'.
Proof.
  intros Hd E1 E2 E3 E4 Hn Hok Hnew. landing.
  - by eapply clients_add.
  - eapply grants_more; [done| |done]. by apply fresh_unfiled; [|apply Hc|lia].
  - by apply evolves_add; [|apply Hc|lia|].
Qed.

Lemma grants_land s' G :
  drawn s s' -> ms_serviceAccounts s' = ms_serviceAccounts s -> ms_apiTokens s' = ms_apiTokens s ->
  ms_mcpTrustedClients s' = ms_mcpTrustedClients s -> ms_mcpDelegationGrants s' = G ->
  grants_ok s' (ms_mcpTrustedClients s) G -> evolves grant_evolves (ms_mcpDelegationGrants s) G ->
  drawn s s' /\ access_wf s' /\ access_moves strict s s'.
Proof. intros Hd E1 E2 E3 E4 HG Hev. landing; done. Qed.

(** the scan of a creation found no record like the one at hand *)
Ltac no_clash Hb :=
  match goal with
  | H : map_any _ _ = false |- _ =>
      rewrite map_any_false in H; specialize (H _ _ Hb); cbn in H, Hb; cbn in *;
      repeat rewrite bool_decide_eq_true_2 in H by congruence; done
  end.

Lemma create_account_keeps v actor : wp (CreateServiceAccount v actor) leaves s.
Proof.
  unfold CreateServiceAccount; unfold_puts. cbv zeta. wp_go; try untouched.
  eapply (account_lands _ (ms_ids s) "svc"); [drawing|done|done|done|done|cbn; lia| |].
  - norm_bool. split; [done|done|]. cbn. split; [done|by intros [? ?]].
  - intros j b Hb (E1 & E2 & E3). no_clash Hb.
Qed.

Lemma revoke_account_keeps id e actor : wp (RevokeServiceAccount id e actor) leaves s.
Proof.
  unfold RevokeServiceAccount; unfold_puts. cbv zeta. do 6 (wp_step; try untouched).
  match goal with H : ms_serviceAccounts s !! _ = Some ?a |- _ => rename a into cur, H into Hcur end.
  apply wp_bind. eapply wp_mono; [by apply revoke_tokens_spec|]. intros r s1 (-> & [Hd E1 E3 E4] & E2). cbv beta iota. wp_go.
  cbn in E1, E2, E3, E4. norm_bool.
  match type of E1 with _ = <[_ := ?a]> _ => set (cur' := a) in * end.
  assert (Hok : account_ok (TrimSpace id) cur') by (destruct (as_each _ _ (aw_accounts _ Hwf) _ _ Hcur); split; [done|done|]; split; [by eexists|done]).
  assert (Hd' : drawn s s1) by (eapply drawn_trans; [|exact Hd]; drawing).
  split; [destruct Hd' as [Hg Hi]; split; [exact Hg|cbn; lia]|]. destruct Hwf as [Ha Ht Hc Hg].
  split; split; cbn; rewrite ?E1, ?E2, ?E3, ?E4; strictly.
  - eapply (accounts_update s); [|exact Ha|exact Hcur|done|exact Hok]. destruct Hd' as [Hg' Hi]. split; [exact Hg'|cbn; lia].
  - by eapply tokens_settle.
  - eapply (clients_same s); [|exact Hc]. destruct Hd' as [Hg' Hi]. split; [exact Hg'|cbn; lia].
  - eapply (grants_same s); [|exact Hg]. destruct Hd' as [Hg' Hi]. split; [exact Hg'|cbn; lia].
  - eapply evolves_update; [exact Hcur|by split|]. split; [done|]. intros Hr. by destruct (sa_State cur).
  - apply evolves_fmap, token_settles.
  - apply evolves_refl. by split.
  - apply evolves_refl. by split.
Qed.

(** a token revoked in place *)
Lemma token_revoked_in_place k t actor now :
  ms_apiTokens s !! k = Some t -> tk_State t = APITokenActive ->
  rm_ID (tk_Meta (revokedToken actor now t)) = k /\
  tokens_ok (ms_serviceAccounts s) (<[k := revokedToken actor now t]> (ms_apiTokens s)) /\
  evolves token_evolves (ms_apiTokens s) (<[k := revokedToken actor now t]> (ms_apiTokens s)).
Proof.
  intros Ht Hst. destruct (aw_tokens _ Hwf) as [He Hk]. pose proof (He _ _ Ht) as Hok. split_and!.
  - cbn. apply Hok.
  - apply tokens_insert; [done|by apply token_ok_revoked|]. intros j u Hu [E1 E2]. by apply (Hk j k u t); [done..|split].
  - eapply evolves_update; [exact Ht|by split|by apply token_revokes].
Qed.

Lemma revoke_token_keeps id e actor : wp (RevokeAPIToken id e actor) leaves s.
Proof.
  unfold RevokeAPIToken; unfold_puts. wp_go; try untouched. norm_bool.
  match goal with H : ms_apiTokens s !! _ = Some ?t |- _ =>
    destruct (token_revoked_in_place _ t actor (clock s) H) as (Ei & Hok & Hev); [by destruct (tk_State t)|rewrite <- Ei in Hok, Hev] end.
  eapply tokens_land; [drawing|done|reflexivity|done|done|exact Hok|intros _; exact Hev].
Qed.

(** the tokens with a new one, issued for an active account *)
Lemma token_issued T k t a :
  tokens_ok (ms_serviceAccounts s) T -> ms_serviceAccounts s !! rm_ID (sa_Meta a) = Some a ->
  sa_State a = ServiceAccountActive -> rm_ID (tk_Meta t) = k -> tk_ServiceAccountID t = rm_ID (sa_Meta a) ->
  tk_OrganizationID t = sa_OrganizationID a -> tk_ProjectID t = sa_ProjectID a -> tk_State t = APITokenActive ->
  tk_RevokedAt t = None -> permissionsOK (sa_ProductRole a) (tk_Permissions t) ->
  (forall j u, T !! j = Some u -> ~ same_request t u) -> tokens_ok (ms_serviceAccounts s) (<[k := t]> T).
Proof.
  intros HT Ha Hact Hi Hacc Ho Hp Hst Hr Hperm Hnew. apply tokens_insert; [done| |].
  - split; [done| |by rewrite Hst, Hr; split; [done|intros [? ?]]]. exists a. rewrite Hacc. split; [done|].
    by split_and!.
  - intros j u Hu Hs. by destruct (Hnew j u Hu).
Qed.

(** a key that no token of the account has *)
Lemma key_free accountID key j u :
  tokenKeyTaken accountID key s = false -> ms_apiTokens s !! j = Some u ->
  tk_ServiceAccountID u = accountID -> tk_IdempotencyKey u = key -> False.
Proof.
  unfold tokenKeyTaken. rewrite map_any_false. intros H Hu E1 E2. specialize (H j u Hu). cbn in H.
  rewrite !bool_decide_eq_true_2 in H by done. done.
Qed.

Lemma wp_tokenID {B} v (k : string -> Store B) Q s1 :
  (forall id s2, id = (if TrimSpace (rm_ID (tk_Meta v)) == "" then fresh s1 "tok" else TrimSpace (rm_ID (tk_Meta v))) ->
     drawn s1 s2 -> s2 = s1 <| ms_ids := ms_ids s2 |> -> wp (k id) Q s2) -> wp (bind (tokenID v) k) Q s1.
Proof.
  intros H. unfold tokenID. case_bool_decide as E.
  - apply wp_bind_newID. apply H; [done|by split; [|cbn; lia]|done].
  - apply wp_bind_ret. apply H; [done|by split|by destruct s1].
Qed.

Lemma create_token_keeps v actor : (strict = true -> tokenUnused s v) -> wp (CreateAPIToken v actor) leaves s.
Proof.
  intros Hfree. unfold CreateAPIToken; unfold_puts. do 10 (wp_step; try untouched). cbv zeta. do 3 (wp_step; try untouched).
  match goal with H : ms_serviceAccounts s !! _ = Some ?x |- _ => rename x into acc, H into Hacc end.
  match goal with H : normalizeTokenPermissions _ _ = Ok _ |- _ => apply normalized_permissions in H as [Hperm _] end.
  assert (Ea : rm_ID (sa_Meta acc) = TrimSpace (tk_ServiceAccountID v)) by apply (as_each _ _ (aw_accounts _ Hwf) _ _ Hacc).
  norm_bool. apply wp_tokenID. intros id s2 Ei Hd ->. wp_go.
  eapply tokens_land; [drawing|done|reflexivity|done|done| |].
  - eapply token_issued; [apply Hwf|rewrite Ea; exact Hacc|done..|].
    intros j u Hu [E1 E2]. by eapply key_free.
  - intros Hstrict. specialize (Hfree Hstrict). apply evolves_insert; [by split|]. intros v0 Hv. exfalso. change (ms_apiTokens s !! id = Some v0) in Hv.
    rewrite Ei in Hv. unfold tokenUnused in Hfree. change (fresh (tick (tick (tick s))) "tok") with (fresh s "tok") in Hv.
    cbn in Hv. congruence.
Qed.

Lemma rotate_token_keeps id e v actor : (strict = true -> tokenUnused s v) -> wp (RotateAPIToken id e v actor) leaves s.
Proof.
  intros Hfree. unfold RotateAPIToken; unfold_puts. do 7 (wp_step; try untouched). cbv zeta. do 6 (wp_step; try untouched).
  match goal with H : ms_serviceAccounts s !! _ = Some ?x |- _ => rename x into acc, H into Hacc end.
  match goal with H : ms_apiTokens s !! _ = Some ?x |- _ => rename x into old, H into Hold end.
  remember (if tk_ExpiresAt v =? 0 then _ else v) as v1 eqn:Ev1.
  assert (Em : tk_Meta v1 = tk_Meta v) by (rewrite Ev1; destruct (tk_ExpiresAt v =? 0); reflexivity). clear Ev1.
  match goal with H : normalizeTokenPermissions _ _ = Ok _ |- _ => apply normalized_permissions in H as [Hperm _] end.
  assert (Ea : rm_ID (sa_Meta acc) = tk_ServiceAccountID old) by apply (as_each _ _ (aw_accounts _ Hwf) _ _ Hacc).
  norm_bool. destruct (token_revoked_in_place _ old actor (clock s) Hold) as (Eo & Hok & Hev); [done|].
  rewrite <- Eo in Hok, Hev. apply wp_tokenID. intros k s2 Ek Hd ->. wp_go.
  set (T1 := <[rm_ID (tk_Meta (revokedToken actor (clock s) old)) := revokedToken actor (clock s) old]> (ms_apiTokens s)) in *.
  eapply (tokens_land _ (<[k := _]> T1)); [drawing|done|reflexivity|done|done| |].
  - eapply token_issued; [exact Hok|rewrite Ea; exact Hacc|done..|].
    unfold T1. intros j u [[<- <-]|[_ Hu]]%lookup_insert_Some [E1 E2]; [|by eapply key_free].
    by eapply (key_free _ _ _ old); [eassumption|exact Hold|..].
  - intros Hstrict. assert (Hk : ms_apiTokens s !! k = None) by (rewrite Ek; cbn; rewrite Em; exact (Hfree Hstrict)).
    assert (Hne : rm_ID (tk_Meta (revokedToken actor (clock s) old)) <> k) by (rewrite Eo; congruence).
    eapply evolves_trans; [|exact Hev|].
    + intros x y z. apply (frozen_trans token_identity (fun t => tk_State t = APITokenRevoked)).
    + apply evolves_insert; [by split|]. intros v0 Hv. exfalso. unfold T1 in Hv. rewrite lookup_insert_ne in Hv by done. congruence.
Qed.

Lemma create_client_keeps v actor : wp (CreateMCPTrustedClient v actor) leaves s.
Proof.
  unfold CreateMCPTrustedClient; unfold_puts. wp_go; try untouched.
  eapply (client_lands _ (ms_ids s) "mcpcli"); [drawing|done|done|done|done|cbn; lia|done|].
  unfold trustedClient in *. intros j d Hd (E1 & _ & E2). no_clash Hd.
Qed.

Lemma revoke_client_keeps id e actor : wp (RevokeMCPTrustedClient id e actor) leaves s.
Proof.
  unfold RevokeMCPTrustedClient; unfold_puts. cbv zeta. do 6 (wp_step; try untouched).
  match goal with H : ms_mcpTrustedClients s !! _ = Some ?a |- _ => rename a into cur, H into Hcur end.
  assert (Ei : rm_ID (tc_Meta cur) = TrimSpace id) by apply (cs_each _ _ (aw_clients _ Hwf) _ _ Hcur).
  apply wp_bind. eapply wp_mono; [by apply revoke_grants_spec|]. intros r s1 (-> & [Hd E1 E3 E2] & E4). cbv beta iota. wp_go.
  cbn in E1, E2, E3, E4. rewrite Ei in E3. norm_bool.
  match type of E3 with _ = <[_ := ?a]> _ => set (cur' := a) in * end.
  assert (Hd' : forall s2, ms_id s2 = ms_id s1 -> (ms_ids s1 <= ms_ids s2)%nat -> drawn s s2).
  { intros s2 Eg Hl. destruct Hd as [Hg Hi]. cbn in Hg, Hi. split; [congruence|lia]. }
  match goal with |- drawn s ?s2 /\ _ => assert (Hd2 : drawn s s2) by (apply Hd'; [done|cbn; lia]) end.
  split; [exact Hd2|]. destruct Hwf as [Ha Ht Hc Hg].
  split; split; cbn; rewrite ?E1, ?E2, ?E3, ?E4; strictly.
  - eapply (accounts_same s); [exact Hd2|exact Ha].
  - exact Ht.
  - eapply (clients_revoke s); [exact Hd2|exact Hc|exact Hcur|done|done].
  - eapply (grants_settle s); [exact Hd2|exact Hg|exact Hcur].
  - apply evolves_refl. by split.
  - apply evolves_refl. by split.
  - eapply evolves_update; [exact Hcur|by split|]. split; [done|]. intros Hr. by destruct (tc_State cur).
  - apply evolves_fmap, grant_settles.
Qed.

Lemma normalized_grant v now v' :
  normalizeMCPGrant v now = Ok v' ->
  now < dg_ExpiresAt v' <= now + 30 * Day /\ (dg_ProjectID v' <> "" -> dg_OrganizationID v' <> "").
Proof.
  unfold normalizeMCPGrant. cbv zeta. repeat (case_match; [done|]). intros [= <-]. norm_bool. split; [cbn in *; lia|].
  intros Hp. destruct (_ && _) eqn:E in *; [done|]. cbn in *. apply andb_false_iff in E as [E|E]; norm_bool; done.
Qed.

Lemma create_grant_keeps v actor : wp (CreateMCPDelegationGrant v actor) leaves s.
Proof.
  unfold CreateMCPDelegationGrant; unfold_puts. wp_go; try untouched.
  match goal with H : normalizeMCPGrant _ _ = Ok _ |- _ => apply normalized_grant in H as [Hb Hs] end. norm_bool.
  match goal with H : map_any (trustedClient _) _ = true |- _ => apply map_any_true in H as (k & c & Hc & Ht) end.
  unfold trustedClient in Ht. norm_bool. destruct Hwf as [_ _ _ Hg].
  eapply grants_land; [drawing|done|done|done|reflexivity| |].
  - eapply (grants_add s) with (n := ms_ids s) (p := "mcpgr"); [drawing|exact Hg|cbn; lia|]. split; [done|exact Hb|exact Hs|].
    intros _. exists k, c. by split_and!.
  - eapply (evolves_add _ _ _ (ms_ids s)); [exact Hid|apply Hg|cbn; lia|by split].
Qed.

Lemma revoke_grant_keeps id e actor : wp (RevokeMCPDelegationGrant id e actor) leaves s.
Proof.
  unfold RevokeMCPDelegationGrant; unfold_puts. wp_go; try untouched. norm_bool.
  match goal with H : ms_mcpDelegationGrants s !! _ = Some ?x |- _ => rename x into gr, H into Hg end.
  destruct Hwf as [_ _ _ Hgs]. destruct (gs_each _ _ _ Hgs _ _ Hg) as [Hi Hb Hs Ht].
  eapply grants_land; [drawing|done|done|done|reflexivity| |]; cbn [revokedGrant]; cbn; rewrite Hi.
  - eapply (grants_update s); [drawing|exact Hgs|exact Hg|]. by split.
  - eapply evolves_update; [exact Hg|by split|]. apply grant_revokes. by destruct (dg_State gr).
Qed.

Lemma access_exec_effect c :
  (strict = true -> access_call_ok s c) -> drawn s (access_exec c s).1 /\ access_wf (access_exec c s).1 /\ access_moves strict s (access_exec c s).1.
Proof.
  intros Hok. destruct c; cbn [access_exec];
    apply (run1_leaves _ (fun s' => drawn s s' /\ access_wf s' /\ access_moves strict s s')).
  - apply create_account_keeps.
  - apply revoke_account_keeps.
  - by apply create_token_keeps.
  - apply revoke_token_keeps.
  - by apply rotate_token_keeps.
  - apply create_client_keeps.
  - apply revoke_client_keeps.
  - apply create_grant_keeps.
  - apply revoke_grant_keeps.
Qed.
End handlers.

(** ** Histories *)

(** a call of this component, or a step of another one; in a strict history no call
    issues a token under an identifier in use *)
Inductive access_step (strict : bool) (s : MemoryStore) : MemoryStore -> Prop :=
| ac_call c : (strict = true -> access_call_ok s c) -> access_step strict s (access_exec c s).1
| ac_other s' : drawn s s' -> ms_serviceAccounts s' = ms_serviceAccounts s -> ms_apiTokens s' = ms_apiTokens s ->
    ms_mcpTrustedClients s' = ms_mcpTrustedClients s -> ms_mcpDelegationGrants s' = ms_mcpDelegationGrants s -> access_step strict s s'.

Definition access_reachable (s : MemoryStore) : Prop :=
  exists now id, id_source id /\ rtc (access_step false) (NewMemoryStoreWith now id) s.

Definition access_inv (s : MemoryStore) : Prop := id_source (ms_id s) /\ access_wf s.

Lemma access_step_effect strict s s' : access_inv s -> access_step strict s s' -> access_inv s' /\ access_moves strict s s'.
Proof.
  intros [Hid Hwf] Hs.
  assert (drawn s s' /\ access_wf s' /\ access_moves strict s s') as (Hd & Hw & Hm).
  { destruct Hs as [c Hc|s' Hd E1 E2 E3 E4]; [by apply access_exec_effect|by apply access_same]. }
  split; [|done]. split; [by rewrite (dr_gen _ _ Hd)|done].
Qed.

Lemma access_steps strict s s' : rtc (access_step strict) s s' -> access_inv s -> access_inv s' /\ access_moves strict s s'.
Proof.
  induction 1 as [s|s1 s2 s3 H12 _ IH]; intros Hi; [split; [done|reflexivity]|].
  destruct (access_step_effect _ _ _ Hi H12) as [Hi2 Hm]. destruct (IH Hi2) as [Hi3 Hm']. split; [done|by etrans].
Qed.

Lemma access_reachable_inv s : access_reachable s -> access_inv s.
Proof.
  intros (now & id & Hid & Hr). eapply access_steps in Hr as [Hi _]; [exact Hi|]. split; [done|].
  split; split; cbn; intros; simplify_map_eq; try done; intros ??; intros; simplify_map_eq.
Qed.

(** C24: machine identities are bounded.  In every history of this component's calls and
    steps of the others, a token belongs to a stored service account whose organization
    and project it carries, grants no permission the account's role does not allow, and
    is active only while the account is; a delegation grant is active only while its
    client is a trusted one, its client identifier names at most one active client, and
    it expires within thirty days of its creation. *)
Theorem machine_identities_are_bounded s :
  access_reachable s ->
  (forall id t, ms_apiTokens s !! id = Some t ->
     exists a, ms_serviceAccounts s !! tk_ServiceAccountID t = Some a /\ speaks_for t a) /\
  (forall id g, ms_mcpDelegationGrants s !! id = Some g ->
     rm_CreatedAt (dg_Meta g) < dg_ExpiresAt g <= rm_CreatedAt (dg_Meta g) + 30 * Day /\
     (dg_State g = MCPDelegationGrantActive -> trusted (ms_mcpTrustedClients s) (dg_ClientID g))) /\
  (forall i j c d, ms_mcpTrustedClients s !! i = Some c -> ms_mcpTrustedClients s !! j = Some d -> same_client c d -> i = j).
Proof.
  intros [_ [Ha Ht Hc Hg]]%access_reachable_inv. split_and!.
  - intros id t H. apply (ts_each _ _ Ht _ _ H).
  - intros id g H. by destruct (gs_each _ _ _ Hg _ _ H).
  - apply Hc.
Qed.

(** C25: revocation is final and reaches everything derived.  Once a service account is
    revoked no later store of the history has an active token for it, and once a client
    has no active registration no active grant names it until it is registered anew;
    revoked accounts, clients and grants stay exactly as they were.  So do revoked
    tokens, as long as no token is issued under an identifier that is in use: the store
    takes the identifier it is given, and nothing in it checks that
    ([an_issued_token_replaces_another]). *)
Theorem revocation_is_final s s' :
  access_reachable s -> rtc (access_step false) s s' ->
  (forall id a, ms_serviceAccounts s !! id = Some a -> sa_State a = ServiceAccountRevoked ->
     ms_serviceAccounts s' !! id = Some a /\
     forall k t, ms_apiTokens s' !! k = Some t -> tk_ServiceAccountID t = id -> tk_State t = APITokenRevoked) /\
  (forall id c, ms_mcpTrustedClients s !! id = Some c -> tc_State c = MCPTrustedClientRevoked -> ms_mcpTrustedClients s' !! id = Some c) /\
  (forall id g, ms_mcpDelegationGrants s !! id = Some g -> dg_State g = MCPDelegationGrantRevoked ->
     ms_mcpDelegationGrants s' !! id = Some g) /\
  (forall id g, ms_mcpDelegationGrants s' !! id = Some g -> ~ trusted (ms_mcpTrustedClients s') (dg_ClientID g) ->
     dg_State g = MCPDelegationGrantRevoked) /\
  (rtc (access_step true) s s' ->
     forall id t, ms_apiTokens s !! id = Some t -> tk_State t = APITokenRevoked -> ms_apiTokens s' !! id = Some t).
Proof.
  intros Hr Hs. apply access_reachable_inv in Hr. destruct (access_steps _ _ _ Hs Hr) as [[_ [Ha Ht Hc Hg]] [M1 _ M3 M4]].
  split_and!.
  - intros id a H Hst. destruct (M1 _ _ H) as (a' & H' & _ & Heq). rewrite (Heq Hst) in H'. split; [done|].
    intros k t Hk Hid. destruct (to_account _ _ _ (ts_each _ _ Ht _ _ Hk)) as (b & Hb & _ & _ & _ & Hact).
    destruct (tk_State t); [|done]. specialize (Hact eq_refl). congruence.
  - intros id t H Hst. destruct (M3 _ _ H) as (t' & H' & _ & Heq). by rewrite (Heq Hst) in H'.
  - intros id t H Hst. destruct (M4 _ _ H) as (t' & H' & _ & Heq). by rewrite (Heq Hst) in H'.
  - intros id g H Hn. destruct (dg_State g) eqn:E; [|done]. destruct Hn. by apply (go_trusted _ _ _ (gs_each _ _ _ Hg _ _ H)).
  - intros Hstrict id t H Hst. destruct (access_steps _ _ _ Hstrict Hr) as [_ [_ M2 _ _]].
    destruct (M2 eq_refl _ _ H) as (t' & H' & _ & Heq). by rewrite (Heq Hst) in H'.
Qed.

(** the token [t] that a request [v] for the account [a] leaves *)
Record issued (s s' : MemoryStore) (v t : APIToken) (a : ServiceAccount) : Prop := {
  is_account : ms_serviceAccounts s !! TrimSpace (tk_ServiceAccountID v) = Some a /\ sa_State a = ServiceAccountActive;
  is_stored : ms_apiTokens s' = <[rm_ID (tk_Meta t) := t]> (ms_apiTokens s);
  is_token : tk_ServiceAccountID t = rm_ID (sa_Meta a) /\ tk_State t = APITokenActive /\ tk_ExpiresAt t = tk_ExpiresAt v;
  is_expiry : clock s < tk_ExpiresAt t <= clock (tick s) + 366 * Day;
  is_request : forall k u, ms_apiTokens s !! k = Some u -> ~ same_request t u;
  is_permitted : permissionsOK (sa_ProductRole a) (tk_Permissions t);
  is_asked p : p ∈ tk_Permissions t ->
    p = APITokenPermissionRead \/ exists raw, raw ∈ tk_Permissions v /\ p = ToLower (TrimSpace raw)
}.

Lemma issue_spec s v actor :
  wp (CreateAPIToken v actor) (fun r s' => match r with Ok t => exists a, issued s s' v t a | Fail _ => True end) s.
Proof.
  unfold CreateAPIToken; unfold_puts. do 10 (wp_step; try exact I). cbv zeta. do 3 (wp_step; try exact I).
  apply wp_tokenID. intros id s2 Ei Hd ->. wp_go. norm_bool.
  match goal with H : normalizeTokenPermissions _ _ = Ok _ |- _ => apply normalized_permissions in H as [Hp Hq] end.
  eexists. split; [done|done|done|cbn; lia| |exact Hp|exact Hq].
  intros k u Hu [E1 E2]. by eapply key_free.
Qed.

(** Tokens carry what was asked for.  A token that is issued belongs to the active
    account it names, is active under an idempotency key no other token of the account
    has, grants only what was asked for and the right to read, and expires after the
    first and at most 366 days after the second reading of the clock. *)
Theorem issued_tokens_carry_what_was_asked s s' v actor t :
  CreateAPIToken v actor s = (s', Ok t) -> exists a, issued s s' v t a.
Proof. intros E. exact (wp_run _ _ _ _ _ (issue_spec s v actor) E). Qed.

(** ** A concrete history *)

Module AccessDemo.

Definition now : Time := 1000 * Second.
Definition organizations : MemoryStore :=
  (NewMemoryStoreWith (fun _ => now) demo_id) <| ms_projects := {["p" := demo_project]} |>
    <| ms_organizations := {["o" := mkOrganization (newMeta "o" 0) "org" "Org"]} |>.
Definition history (cs : list AccessCall) : MemoryStore := foldl (fun s c => (access_exec c s).1) organizations cs.

Definition account : ServiceAccount :=
  mkServiceAccount (newMeta "" 0) "o" "" "CI" "Continuous integration" "platform-operator" ServiceAccountActive "" "" None.
Definition account_id : string :=
  Eval vm_compute in default "" (head (map_to_list (ms_serviceAccounts (history [ACreateAccount account "alice"]))).*1).
Definition token (id key : string) : APIToken :=
  mkAPIToken (newMeta id 0) account_id "" "" "4so_" "sha256:t" key [" Operate "] APITokenActive (now + 30 * Day) "" "" "" None.
Definition client : MCPTrustedClient :=
  mkMCPTrustedClient (newMeta "" 0) "assistant" "Assistant" "Claude" [] MCPTrustedClientActive "" "" None.
Definition grant (issuer scope : string) (profile : string) : MCPDelegationGrant :=
  mkMCPDelegationGrant (newMeta "" 0) issuer "bob" "assistant" scope "" profile "sha256:consent" (now + Day)
    MCPDelegationGrantActive "" "" None.

Definition opened : list AccessCall :=
  [ACreateAccount account "alice"; ACreateToken (token "t1" "k1") "alice"; ACreateClient client "alice";
   ACreateGrant (grant "https://idp/" "" "VIEW") "bob"].
Definition client_id : string :=
  Eval vm_compute in default "" (head (map_to_list (ms_mcpTrustedClients (history opened))).*1).
Definition grant_id : string :=
  Eval vm_compute in default "" (head (map_to_list (ms_mcpDelegationGrants (history opened))).*1).
Definition closed : list AccessCall :=
  (opened ++ [ARevokeAccount account_id 1 "alice"; ARevokeClient client_id 1 "alice"])%list.

Fixpoint history_ok (s : MemoryStore) (cs : list AccessCall) : Prop :=
  match cs with [] => True | c :: rest => access_call_ok s c /\ history_ok (access_exec c s).1 rest end.

Lemma calls_steps strict s cs :
  (strict = true -> history_ok s cs) -> rtc (access_step strict) s (foldl (fun s c => (access_exec c s).1) s cs).
Proof.
  revert s. induction cs as [|c rest IH]; intros s H; [constructor|].
  eapply rtc_l; [apply (ac_call strict s c); apply H|apply IH; apply H].
Qed.

Lemma organizations_reachable : access_reachable organizations.
Proof.
  exists (fun _ => now), demo_id. split; [apply demo_id_source|]. apply rtc_once, ac_other; [drawing|reflexivity..].
Qed.

Lemma calls_reachable cs : access_reachable (history cs).
Proof.
  destruct organizations_reachable as (n & id & Hid & Hr). exists n, id. split; [exact Hid|].
  etrans; [exact Hr|by apply calls_steps].
Qed.
Definition reopened : list AccessCall := (closed ++ [ACreateClient client "alice"])%list.
Lemma reopened_steps strict : rtc (access_step strict) (history closed) (history reopened).
Proof. unfold history, reopened. rewrite foldl_app. apply calls_steps. intros _. by split. Qed.
End AccessDemo.
Import AccessDemo.

Lemma machine_identities_are_bounded_witness :
  exists t a c, ms_apiTokens (history opened) !! "t1" = Some t /\ tk_State t = APITokenActive /\ speaks_for t a /\
    ms_mcpTrustedClients (history opened) !! client_id = Some c /\ trusted (ms_mcpTrustedClients (history opened)) "assistant".
Proof.
  destruct (machine_identities_are_bounded (history opened) (calls_reachable _)) as (H1 & H2 & _).
  destruct (found tk_State (ms_apiTokens (history opened) !! "t1") APITokenActive) as (t & Et & Hst); [vm_compute; reflexivity|].
  destruct (H1 _ _ Et) as (a & _ & Hs).
  destruct (found tc_ClientID (ms_mcpTrustedClients (history opened) !! client_id) "assistant") as (c & Ec & _);
    [vm_compute; reflexivity|].
  destruct (found (fun g => (dg_ClientID g, dg_State g)) (ms_mcpDelegationGrants (history opened) !! grant_id)
    ("assistant", MCPDelegationGrantActive)) as (g & Eg & Hg); [vm_compute; reflexivity|]. injection Hg as Hg1 Hg2.
  destruct (H2 _ _ Eg) as [_ Ht]. rewrite Hg1 in Ht.
  exists t, a, c. split; [exact Et|]. split; [exact Hst|]. split; [exact Hs|]. split; [exact Ec|]. exact (Ht Hg2).
Defined.

(** a client is registered anew after everything was revoked *)
Lemma revocation_is_final_witness :
  exists a t g, ms_serviceAccounts (history reopened) !! account_id = Some a /\ sa_State a = ServiceAccountRevoked /\
    ms_apiTokens (history opened) !! "t1" = Some t /\ tk_State t = APITokenActive /\
    (exists t', ms_apiTokens (history reopened) !! "t1" = Some t' /\ tk_State t' = APITokenRevoked) /\
    ms_mcpDelegationGrants (history reopened) !! grant_id = Some g /\ dg_State g = MCPDelegationGrantRevoked.
Proof.
  destruct (revocation_is_final (history closed) (history reopened) (calls_reachable _) (reopened_steps false))
    as (H1 & _ & H3 & _ & H5).
  destruct (found sa_State (ms_serviceAccounts (history closed) !! account_id) ServiceAccountRevoked) as (a & Ea & Ha);
    [vm_compute; reflexivity|].
  destruct (found tk_State (ms_apiTokens (history opened) !! "t1") APITokenActive) as (t & Et & Ht); [vm_compute; reflexivity|].
  destruct (found tk_State (ms_apiTokens (history closed) !! "t1") APITokenRevoked) as (t' & Et' & Ht');
    [vm_compute; reflexivity|].
  destruct (found dg_State (ms_mcpDelegationGrants (history closed) !! grant_id) MCPDelegationGrantRevoked) as (g & Eg & Hg);
    [vm_compute; reflexivity|].
  exists a, t, g. split; [exact (proj1 (H1 _ _ Ea Ha))|]. split; [exact Ha|]. split; [exact Et|]. split; [exact Ht|].
  split; [exists t'; split; [exact (H5 (reopened_steps true) _ _ Et' Ht')|exact Ht']|].
  split; [exact (H3 _ _ Eg Hg)|exact Hg].
Defined.

Lemma issued_tokens_carry_what_was_asked_witness :
  exists s s' t a, CreateAPIToken (token "t1" "k1") "alice" s = (s', Ok t) /\ issued s s' (token "t1" "k1") t a.
Proof.
  destruct (succeeds (CreateAPIToken (token "t1" "k1") "alice") (history [ACreateAccount account "alice"])) as (s' & t & E);
    [vm_compute; reflexivity|].
  destruct (issued_tokens_carry_what_was_asked _ _ _ _ _ E) as (a & H).
  exists (history [ACreateAccount account "alice"]), s', t, a. split; [exact E|exact H].
Defined.

(** ** Observations *)

(** Nothing checks that the identifier of an issued token is new: a token issued
    under the identifier of another one takes its place, a revoked one included,
    and the revocation is gone. *)
Definition reissued : list AccessCall :=
  (opened ++ [ARevokeToken "t1" 1 "alice"; ACreateToken (token "t1" "k2") "alice"])%list.
Example an_issued_token_replaces_another :
  (fun t => (tk_State t, tk_IdempotencyKey t)) <$> ms_apiTokens (history (opened ++ [ARevokeToken "t1" 1 "alice"])%list) !! "t1" =
    Some (APITokenRevoked, "k1") /\
  (fun t => (tk_State t, tk_IdempotencyKey t)) <$> ms_apiTokens (history reissued) !! "t1" = Some (APITokenActive, "k2").
Proof. split; vm_compute; reflexivity. Qed.

(** A client identifier that was revoked can be registered anew; which of the two
    registrations a lookup by client identifier answers is up to the iteration. *)
Example lookups_may_answer_a_revoked_registration :
  (fun c => (tc_ClientID c, tc_State c)) <$> (map_to_list (ms_mcpTrustedClients (history reopened))).*2 ≡ₚ
    [("assistant", MCPTrustedClientRevoked); ("assistant", MCPTrustedClientActive)].
Proof. vm_compute. constructor; constructor; constructor || apply perm_swap. Qed.

(** A second grant for another organization is no duplicate, but whoever asks for
    the active grant of the client gets either of them: its profile and its scope
    depend on the iteration. *)
Definition granted_twice : list AccessCall :=
  (opened ++ [ACreateGrant (grant "https://idp" "o" "OPERATE") "bob"])%list.
Example several_grants_are_active :
  (fun g => (dg_OrganizationID g, dg_AccessProfile g)) <$>
    filter (fun g => activeGrant "https://idp" "bob" "assistant" now "" g = true)
      (map_to_list (ms_mcpDelegationGrants (history granted_twice))).*2 ≡ₚ [("", "VIEW"); ("o", "OPERATE")].
Proof. vm_compute. constructor; constructor; constructor || apply perm_swap. Qed.

(** The guard against duplicates does not look at the issuer: a subject of another
    issuer that happens to have the same name is refused a grant of its own. *)
Example issuers_are_not_told_apart :
  (access_exec (ACreateGrant (grant "https://other" "" "VIEW") "bob") (history opened)).2 = Some ErrConflict /\
  (GetActiveMCPDelegationGrant "https://other" "bob" "assistant" now (history opened)).2 = Fail ErrNotFound.
Proof. split; vm_compute; reflexivity. Qed.
