(* ===== verification/ControlJobs.v ===== *)
(** * Control jobs

    Tool calls of MCP clients that change the platform run as durable jobs
    ([mcp_control_job.go]): a call is replayed under its idempotency key, its
    result is written once under a revision and a fence, and a job whose outcome
    is unknown waits for somebody who confirms what became of it. *)
From S2P Require Import Prelude GoStrings Digest Model Calendar Store Ordering Listing.
From Stdlib Require Import Ascii.
From Stdlib Require String.

Definition MCPDurableControlJobAuthority : string := "MCP_DURABLE_CONTROL_JOB_AUTHORITY_V1".
Definition MCPControlJobRecoveryAuthority : string := "MCP_CONTROL_JOB_RECOVERY_AUTHORITY_V1".
Definition outcomeIndeterminate : string := "MCP_CONTROL_JOB_OUTCOME_INDETERMINATE".
Definition recoveryConfirmedFailed : string := "MCP_CONTROL_JOB_RECOVERY_CONFIRMED_FAILED".

Definition MCPControlRequestDigest (tool : string) (arguments : Bytes) : string :=
  sha256Digest (TrimSpace tool +:+ nul +:+ arguments).

(** the trimmed fields of a request *)
Definition trimmedJob (v : MCPControlJob) : MCPControlJob :=
  v <| cj_ToolName := TrimSpace (cj_ToolName v) |> <| cj_Family := TrimSpace (cj_Family v) |>
    <| cj_Action := TrimSpace (cj_Action v) |> <| cj_Method := ToUpper (TrimSpace (cj_Method v)) |>
    <| cj_Route := TrimSpace (cj_Route v) |> <| cj_Risk := ToLower (TrimSpace (cj_Risk v)) |>
    <| cj_ActorID := TrimSpace (cj_ActorID v) |> <| cj_Authentication := TrimSpace (cj_Authentication v) |>
    <| cj_OAuthClientID := TrimSpace (cj_OAuthClientID v) |>
    <| cj_DelegationProfile := ToUpper (TrimSpace (cj_DelegationProfile v)) |>
    <| cj_OrganizationID := TrimSpace (cj_OrganizationID v) |> <| cj_ProjectID := TrimSpace (cj_ProjectID v) |>
    <| cj_RequestID := TrimSpace (cj_RequestID v) |> <| cj_IdempotencyKey := TrimSpace (cj_IdempotencyKey v) |>
    <| cj_RequestDigest := TrimSpace (cj_RequestDigest v) |> <| cj_LeaseOwner := TrimSpace (cj_LeaseOwner v) |>.

Definition jobIncomplete (v : MCPControlJob) : bool :=
  (cj_ToolName v == "") || (cj_Family v == "") || (cj_Action v == "") || (cj_Method v == "") || (cj_Route v == "")
  || (cj_ActorID v == "") || (cj_IdempotencyKey v == "") || (cj_RequestDigest v == "") || (cj_LeaseOwner v == "").

Definition jobOutOfBounds (v : MCPControlJob) : bool :=
  (200 <? len (cj_IdempotencyKey v)) || (200 <? len (cj_ToolName v)) || (1000 <? len (cj_Route v)) || (96 <? len (cj_RequestDigest v)).

Definition NormalizeMCPControlJob (v : MCPControlJob) (lease : Z) (now : Time) : result MCPControlJob :=
  let v := trimmedJob v in
  if jobIncomplete v then Fail ErrValidation
  else if jobOutOfBounds v then Fail ErrValidation
  else if (cj_Risk v != "low") && (cj_Risk v != "medium") && (cj_Risk v != "high") && (cj_Risk v != "critical")
  then Fail ErrValidation
  else
    let lease := if (lease <=? 0) || (10 * Minute <? lease) then 2 * Minute else lease in
    Ok (v <| cj_State := MCPControlJobRunning |> <| cj_Attempt := 1 |> <| cj_FenceToken := 1 |>
          <| cj_LeaseExpiresAt := now + lease |>).

Definition mcpControlJobIdempotencyScope (v : MCPControlJob) : string :=
  String.concat nul [cj_ActorID v; cj_OAuthClientID v; cj_DelegationProfile v; cj_OrganizationID v; cj_ProjectID v;
                     cj_ToolName v; cj_IdempotencyKey v].

(** a running job whose lease ran out: nobody knows what became of it *)
Definition indeterminate (now : Time) (v : MCPControlJob) : MCPControlJob :=
  v <| cj_State := MCPControlJobRecoveryRequired |> <| cj_Meta := bump (cj_Meta v) now |>
    <| cj_ErrorCode := outcomeIndeterminate |>.

(** the branch that answers a request under a key that was used before; a job that
    is not there is the zero job, whose digest is no request's *)
Definition replayJob (v : MCPControlJob) (id : string) (now : Time) : Store (MCPControlJob * bool) :=
  let! s := get in
  let! existing := get_opt (ms_mcpControlJobs s !! id) ErrIdempotencyConflict in
  fail_if (cj_RequestDigest existing != cj_RequestDigest v) ErrIdempotencyConflict ;;;
  if (cj_State existing == MCPControlJobRunning) && negb (now <? cj_LeaseExpiresAt existing) then
    let! stamp := nowUTC in
    let existing := indeterminate stamp existing in
    putMCPControlJob id existing ;;;
    appendAuditLocked (cj_ActorID v) "mcp.control_job.recovery_required" "mcp-control-job" id (rm_Revision (cj_Meta existing))
      [("authority", MStr MCPDurableControlJobAuthority); ("requestDigest", MStr (cj_RequestDigest existing))] ;;;
    ret (existing, true)
  else ret (existing, true).

Definition CreateMCPControlJob (input : MCPControlJob) (lease : Z) (now : Time) : Store (MCPControlJob * bool) :=
  let! v := lift (NormalizeMCPControlJob input lease now) in
  let scope := mcpControlJobIdempotencyScope v in
  let! s := get in
  match ms_mcpControlJobIdempotency s !! scope with
  | Some id => replayJob v id now
  | None =>
      let! stamp := nowUTC in
      let! id := newID "mcpjob" in
      let v := v <| cj_Meta := newMeta id stamp |> in
      putMCPControlJob id v ;;;
      putMCPControlJobIdempotency scope id ;;;
      appendAuditLocked (cj_ActorID v) "mcp.control_job.created" "mcp-control-job" id (rm_Revision (cj_Meta v))
        [("authority", MStr MCPDurableControlJobAuthority); ("tool", MStr (cj_ToolName v));
         ("requestDigest", MStr (cj_RequestDigest v)); ("oauthClientId", MStr (cj_OAuthClientID v));
         ("delegationProfile", MStr (cj_DelegationProfile v))] ;;;
      ret (v, false)
  end.

(** what a response makes of a running job *)
Definition completedJob (status : Z) (response : Bytes) (v : MCPControlJob) : MCPControlJob :=
  v <| cj_StatusCode := status |> <| cj_Response := response |> <| cj_ResponseDigest := sha256Digest response |>
    <| cj_State := if (200 <=? status) && (status <? 400) then MCPControlJobSucceeded else MCPControlJobFailed |>
    <| cj_LeaseExpiresAt := 0 |>.

Definition CompleteMCPControlJob (id : string) (expectedRevision fence status : Z) (response : Bytes) (actor : string)
    : Store MCPControlJob :=
  fail_if (65536 <? len response) ErrValidation ;;;
  let! s := get in
  let! v := get_opt (ms_mcpControlJobs s !! TrimSpace id) ErrNotFound in
  fail_if ((rm_Revision (cj_Meta v) != expectedRevision) || (cj_FenceToken v != fence)) ErrConflict ;;;
  fail_if (cj_State v != MCPControlJobRunning) ErrPrerequisite ;;;
  let! now := nowUTC in
  let v := (completedJob status response v) <| cj_Meta := bump (cj_Meta v) now |> in
  putMCPControlJob (rm_ID (cj_Meta v)) v ;;;
  appendAuditLocked (TrimSpace actor) "mcp.control_job.completed" "mcp-control-job" (rm_ID (cj_Meta v)) (rm_Revision (cj_Meta v))
    [("authority", MStr MCPDurableControlJobAuthority); ("state", MStr (MCPControlJobState_string (cj_State v)));
     ("statusCode", MInt status); ("responseDigest", MStr (cj_ResponseDigest v))] ;;;
  ret v.

Definition MarkMCPControlJobRecoveryRequired (id : string) (expected : Z) (actor : string) : Store MCPControlJob :=
  let! s := get in
  let! v := get_opt (ms_mcpControlJobs s !! TrimSpace id) ErrNotFound in
  fail_if (rm_Revision (cj_Meta v) != expected) ErrConflict ;;;
  fail_if (cj_State v != MCPControlJobRunning) ErrPrerequisite ;;;
  let! now := nowUTC in
  let v := (indeterminate now v) <| cj_LeaseExpiresAt := 0 |> in
  putMCPControlJob (rm_ID (cj_Meta v)) v ;;;
  appendAuditLocked (TrimSpace actor) "mcp.control_job.recovery_required" "mcp-control-job" (rm_ID (cj_Meta v))
    (rm_Revision (cj_Meta v)) [("authority", MStr MCPDurableControlJobAuthority)] ;;;
  ret v.

Definition validMCPRecoveryDigest (value : string) : bool :=
  let value := TrimSpace value in
  (len value =? 71) && HasPrefix value sha256_prefix && hex_decodable (TrimPrefix value sha256_prefix).

Definition mcpRecoverySummary (v : MCPControlJob) : Bytes :=
  json_object
    [("authority", json_string MCPControlJobRecoveryAuthority);
     ("automaticRedispatch", "false");
     ("evidenceDigest", json_string (cj_RecoveryEvidenceDigest v));
     ("readbackDigest", json_string (cj_RecoveryReadbackDigest v));
     ("recovered", "true");
     ("resolution", json_string (cj_RecoveryResolution v))].

Definition ApplyMCPControlJobRecoveryResolution (v : MCPControlJob) (expected : Z) (resolution : MCPControlJobRecoveryResolution)
    (readbackDigest evidenceDigest actor : string) (now : Time) : result MCPControlJob :=
  let readbackDigest := TrimSpace readbackDigest in
  let evidenceDigest := TrimSpace evidenceDigest in
  let actor := TrimSpace actor in
  if (actor == "") || negb (validMCPRecoveryDigest readbackDigest) || negb (validMCPRecoveryDigest evidenceDigest)
  then Fail ErrValidation
  else if (resolution != MCPControlJobRecoveryConfirmedSucceeded) && (resolution != MCPControlJobRecoveryConfirmedFailed)
  then Fail ErrValidation
  else if rm_Revision (cj_Meta v) != expected then Fail ErrConflict
  else if cj_State v != MCPControlJobRecoveryRequired then Fail ErrPrerequisite
  else
    let v := v <| cj_RecoveryResolution := resolution |> <| cj_RecoveryReadbackDigest := readbackDigest |>
               <| cj_RecoveryEvidenceDigest := evidenceDigest |> <| cj_RecoveredBy := actor |>
               <| cj_RecoveredAt := Some now |> <| cj_LeaseExpiresAt := 0 |> in
    let v := if resolution == MCPControlJobRecoveryConfirmedSucceeded
             then v <| cj_State := MCPControlJobSucceeded |> <| cj_StatusCode := 200 |> <| cj_ErrorCode := "" |>
             else v <| cj_State := MCPControlJobFailed |> <| cj_StatusCode := 500 |> <| cj_ErrorCode := recoveryConfirmedFailed |> in
    let v := v <| cj_Response := mcpRecoverySummary v |> in
    Ok (v <| cj_ResponseDigest := sha256Digest (cj_Response v) |> <| cj_Meta := bump (cj_Meta v) now |>).

Definition ResolveMCPControlJobRecovery (id : string) (expected : Z) (resolution : MCPControlJobRecoveryResolution)
    (readbackDigest evidenceDigest actor : string) : Store MCPControlJob :=
  let! s := get in
  let! v := get_opt (ms_mcpControlJobs s !! TrimSpace id) ErrNotFound in
  let! now := nowUTC in
  let! resolved := lift (ApplyMCPControlJobRecoveryResolution v expected resolution readbackDigest evidenceDigest actor now) in
  putMCPControlJob (rm_ID (cj_Meta resolved)) resolved ;;;
  appendAuditLocked (TrimSpace actor) "mcp.control_job.recovery_resolved" "mcp-control-job" (rm_ID (cj_Meta resolved))
    (rm_Revision (cj_Meta resolved))
    [("authority", MStr MCPControlJobRecoveryAuthority); ("resolution", MStr resolution);
     ("readbackDigest", MStr (cj_RecoveryReadbackDigest resolved));
     ("evidenceDigest", MStr (cj_RecoveryEvidenceDigest resolved)); ("automaticRedispatch", MBool false)] ;;;
  ret resolved.

Definition GetMCPControlJob (id : string) : Store MCPControlJob :=
  let! s := get in get_opt (ms_mcpControlJobs s !! TrimSpace id) ErrNotFound.

Definition ListMCPControlJobs (organizationID projectID : string) (limit : Z) : Store (list MCPControlJob) :=
  let! s := get in
  let limit := if (limit <=? 0) || (500 <? limit) then 100 else limit in
  ret (take (Z.to_nat limit)
         (sortSlice (on (fun v => rm_CreatedAt (cj_Meta v)) later_than)
            (map_select (fun _ v => negb ((organizationID != "") && (cj_OrganizationID v != organizationID))
                                    && negb ((projectID != "") && (cj_ProjectID v != projectID))) (ms_mcpControlJobs s)))).
