(* ===== verification/ControlJobTheorems.v ===== *)
(** * What becomes of a control job

    The life of a job as an abstract machine, the index of idempotency scopes,
    and what callers can rely on: a request runs once, and its outcome is written
    once. *)
From S2P Require Import Prelude GoStrings Digest Model Calendar Store Ordering Listing OperationSystem.
From S2P Require Import OperationRuns Demo Collections ControlJobs.
From Stdlib Require Import Ascii.
From Stdlib Require String.

(** ** The life of a job *)

(** a step of a job, of its revision and its state; every call takes at most one *)
Inductive job_step : MCPControlJobState -> MCPControlJobState -> Prop :=
| job_succeeds : job_step MCPControlJobRunning MCPControlJobSucceeded
| job_fails : job_step MCPControlJobRunning MCPControlJobFailed
| job_lost : job_step MCPControlJobRunning MCPControlJobRecoveryRequired
| job_recovered : job_step MCPControlJobRecoveryRequired MCPControlJobSucceeded
| job_given_up : job_step MCPControlJobRecoveryRequired MCPControlJobFailed.

Definition finished (st : MCPControlJobState) : bool :=
  match st with MCPControlJobSucceeded | MCPControlJobFailed => true | _ => false end.

Lemma finished_stuck st st' : finished st = true -> ~ job_step st st'.
Proof. intros H Hs. by destruct Hs. Qed.

(** what a request said, which no call changes *)
Definition job_identity (v : MCPControlJob) :=
  (rm_ID (cj_Meta v), rm_CreatedAt (cj_Meta v), cj_ToolName v, cj_Family v, cj_Action v, cj_Method v, cj_Route v, cj_Risk v,
   (cj_ActorID v, cj_Authentication v, cj_OAuthClientID v, cj_DelegationProfile v, cj_OrganizationID v, cj_ProjectID v,
    cj_RequestID v, cj_IdempotencyKey v, cj_RequestDigest v, cj_Attempt v, cj_LeaseOwner v, cj_FenceToken v)).

Lemma identity_scope v w : job_identity v = job_identity w -> mcpControlJobIdempotencyScope v = mcpControlJobIdempotencyScope w.
Proof. intros [=]. unfold mcpControlJobIdempotencyScope. congruence. Qed.

Record job_advances (v v' : MCPControlJob) : Prop := {
  ja_identity : job_identity v' = job_identity v;
  ja_state : rtc job_step (cj_State v) (cj_State v');
  ja_final : finished (cj_State v) = true -> v' = v
}.
Lemma advances_refl v : job_advances v v.
Proof. by split; [|constructor|]. Qed.
Lemma advances_trans u v w : job_advances u v -> job_advances v w -> job_advances u w.
Proof.
  intros [I1 S1 F1] [I2 S2 F2]. split; [congruence|by etrans|]. intros H. specialize (F1 H) as ->. auto.
Qed.

(** the outcome a finished job carries, under its digest *)
Record outcome_ok (v : MCPControlJob) : Prop := {
  oo_digest : cj_ResponseDigest v = sha256Digest (cj_Response v);
  oo_lease : cj_LeaseExpiresAt v = 0;
  oo_status : cj_State v = MCPControlJobSucceeded <-> 200 <= cj_StatusCode v < 400
}.
Record job_ok (id : string) (v : MCPControlJob) : Prop := {
  jo_id : rm_ID (cj_Meta v) = id;
  jo_fields : jobIncomplete v = false /\ jobOutOfBounds v = false;
  jo_outcome : finished (cj_State v) = true -> outcome_ok v
}.

(** ** The invariant *)

Record jobs_ok (s : MemoryStore) (J : gmap string MCPControlJob) (X : gmap string string) : Prop := {
  js_filed : filed s J;
  js_each : forall id v, J !! id = Some v -> job_ok id v;
  js_index : forall scope id, X !! scope = Some id -> exists v, J !! id = Some v /\ mcpControlJobIdempotencyScope v = scope;
  js_indexed : forall id v, J !! id = Some v -> X !! mcpControlJobIdempotencyScope v = Some id
}.
Definition jobs_wf (s : MemoryStore) : Prop := jobs_ok s (ms_mcpControlJobs s) (ms_mcpControlJobIdempotency s).

Record jobs_move (s s' : MemoryStore) : Prop := {
  jm_jobs : evolves job_advances (ms_mcpControlJobs s) (ms_mcpControlJobs s');
  jm_index : ms_mcpControlJobIdempotency s ⊆ ms_mcpControlJobIdempotency s'
}.
#[export] Instance jobs_move_order : PreOrder jobs_move.
Proof.
  split.
  - intros s. split; [apply evolves_refl, advances_refl|done].
  - intros s1 s2 s3 [] []. split; [by eapply evolves_trans; [apply advances_trans|..]|by etrans].
Qed.

(** a job that takes a step *)
Lemma jobs_update s s' J X k v v' :
  drawn s s' -> jobs_ok s J X -> J !! k = Some v -> job_identity v' = job_identity v -> job_ok k v' -> jobs_ok s' (<[k := v']> J) X.
Proof.
  intros Hd [Hf He Hx Hi] Hv Ei Hok. apply identity_scope in Ei. split.
  - by eapply filed_update.
  - intros i w [[<- <-]|[_ Hw]]%lookup_insert_Some; [done|by apply He].
  - intros scope i Hs. destruct (Hx _ _ Hs) as (w & Hw & Hsc). destruct (decide (k = i)) as [->|Hne].
    + exists v'. rewrite lookup_insert_eq. split; [done|]. congruence.
    + exists w. by rewrite lookup_insert_ne.
  - intros i w [[<- <-]|[_ Hw]]%lookup_insert_Some; [rewrite Ei|]; by apply Hi.
Qed.

(** a job of a scope that is not in use *)
Lemma jobs_add s s' J X n p v :
  id_source (ms_id s) -> drawn s s' -> jobs_ok s J X -> (ms_ids s <= n < ms_ids s')%nat ->
  X !! mcpControlJobIdempotencyScope v = None -> job_ok (ms_id s n p) v ->
  jobs_ok s' (<[ms_id s n p := v]> J) (<[mcpControlJobIdempotencyScope v := ms_id s n p]> X).
Proof.
  intros Hid Hd [Hf He Hx Hi] Hn Hfree Hok.
  assert (Hnew : J !! ms_id s n p = None) by (apply fresh_unfiled; [done|done|lia]). split.
  - apply filed_insert; [done|lia|done].
  - intros i w [[<- <-]|[_ Hw]]%lookup_insert_Some; [done|by apply He].
  - intros scope i [[<- <-]|[_ Hs]]%lookup_insert_Some.
    + exists v. by rewrite lookup_insert_eq.
    + destruct (Hx _ _ Hs) as (w & Hw & Hsc). exists w. rewrite lookup_insert_ne; [done|congruence].
  - intros i w [[<- <-]|[_ Hw]]%lookup_insert_Some; [by rewrite lookup_insert_eq|].
    rewrite lookup_insert_ne; [by apply Hi|]. intros Es. specialize (Hi _ _ Hw). congruence.
Qed.

(** ** Calls *)

Inductive JobCall : Type :=
| JCreate (v : MCPControlJob) (lease : Z) (now : Time)
| JComplete (id : string) (expected fence status : Z) (response : Bytes) (actor : string)
| JMarkRecovery (id : string) (expected : Z) (actor : string)
| JResolve (id : string) (expected : Z) (resolution : MCPControlJobRecoveryResolution) (readback evidence actor : string).

Definition job_exec (c : JobCall) : MemoryStore -> MemoryStore * option Error :=
  match c with
  | JCreate v lease now => run1 (CreateMCPControlJob v lease now)
  | JComplete id e f st resp actor => run1 (CompleteMCPControlJob id e f st resp actor)
  | JMarkRecovery id e actor => run1 (MarkMCPControlJobRecoveryRequired id e actor)
  | JResolve id e res rb ev actor => run1 (ResolveMCPControlJobRecovery id e res rb ev actor)
  end.

Section handlers.
Context (s : MemoryStore) (Hid : id_source (ms_id s)) (Hwf : jobs_wf s).
Local Abbreviation leaves := (fun (_ : result _) s' => drawn s s' /\ jobs_wf s' /\ jobs_move s s').

Lemma jobs_same s' :
  drawn s s' -> ms_mcpControlJobs s' = ms_mcpControlJobs s -> ms_mcpControlJobIdempotency s' = ms_mcpControlJobIdempotency s ->
  drawn s s' /\ jobs_wf s' /\ jobs_move s s'.
Proof.
  intros Hd E1 E2. destruct Hwf as [Hf He Hx Hi]. split; [done|]. split; split; rewrite ?E1, ?E2; try done.
  - by eapply filed_mono.
  - apply evolves_refl, advances_refl.
Qed.

Ltac untouched := apply jobs_same; [drawing|done..].

(** one job takes a step *)
Lemma job_lands s' k v v' :
  ms_mcpControlJobs s !! k = Some v -> drawn s s' -> ms_mcpControlJobs s' = <[k := v']> (ms_mcpControlJobs s) ->
  ms_mcpControlJobIdempotency s' = ms_mcpControlJobIdempotency s ->
  job_identity v' = job_identity v -> job_step (cj_State v) (cj_State v') -> (finished (cj_State v') = true -> outcome_ok v') ->
  drawn s s' /\ jobs_wf s' /\ jobs_move s s'.
Proof.
  intros Hv Hd E1 E2 Ei Hst Ho. split; [done|]. destruct (js_each _ _ _ Hwf _ _ Hv) as [Hi [Hf1 Hf2] _].
  pose proof Ei as Ei'. injection Ei' as F1 _ F3 F4 F5 F6 F7 _ F9 _ _ _ _ _ _ F16 F17 _ F19 _. split; [|split].
  - unfold jobs_wf. rewrite E1, E2. eapply jobs_update; [done|exact Hwf|exact Hv|done|]. split; [congruence| |done].
    unfold jobIncomplete, jobOutOfBounds in *. by rewrite F3, F4, F5, F6, F7, F9, F16, F17, F19.
  - rewrite E1. eapply evolves_update; [exact Hv|apply advances_refl|]. split; [done|by apply rtc_once|].
    intros Hfin. by destruct (finished_stuck _ _ Hfin Hst).
  - by rewrite E2.
Qed.

(** a job starts under a scope that is not in use *)
Lemma job_starts s' n p scope v :
  drawn s s' -> ms_mcpControlJobs s' = <[ms_id s n p := v]> (ms_mcpControlJobs s) ->
  ms_mcpControlJobIdempotency s' = <[scope := ms_id s n p]> (ms_mcpControlJobIdempotency s) ->
  scope = mcpControlJobIdempotencyScope v -> (ms_ids s <= n < ms_ids s')%nat ->
  ms_mcpControlJobIdempotency s !! scope = None -> job_ok (ms_id s n p) v -> drawn s s' /\ jobs_wf s' /\ jobs_move s s'.
Proof.
  intros Hd E1 E2 -> Hn Hfree Hok. split; [done|]. split; [|split].
  - unfold jobs_wf. rewrite E1, E2. by apply (jobs_add s).
  - rewrite E1. eapply evolves_add; [exact Hid|apply Hwf|lia|apply advances_refl].
  - rewrite E2. by apply insert_subseteq.
Qed.

Lemma normalized_job v lease now v' :
  NormalizeMCPControlJob v lease now = Ok v' ->
  cj_State v' = MCPControlJobRunning /\ jobIncomplete v' = false /\ jobOutOfBounds v' = false /\
  now < cj_LeaseExpiresAt v' <= now + 10 * Minute.
Proof.
  unfold NormalizeMCPControlJob. generalize (trimmedJob v) as t. intros t. cbv zeta.
  destruct (jobIncomplete t) eqn:E1; [done|]. destruct (jobOutOfBounds t) eqn:E2; [done|]. case_match; [done|].
  intros [= <-]. split; [done|]. split; [exact E1|]. split; [exact E2|]. cbn [cj_LeaseExpiresAt setf set_cj_LeaseExpiresAt].
  destruct ((lease <=? 0) || (10 * Minute <? lease)) eqn:E; unfold Minute, Second in *; [lia|].
  apply orb_false_iff in E as [? ?]. lia.
Qed.

Lemma create_job_keeps v lease now : wp (CreateMCPControlJob v lease now) leaves s.
Proof.
  unfold CreateMCPControlJob, replayJob; unfold_puts. cbv zeta. wp_go; try untouched.
  - norm_bool. match goal with H : ms_mcpControlJobs s !! _ = Some ?x |- _ => rename x into old, H into Hold end.
    eapply job_lands; [exact Hold|drawing|reflexivity|done|reflexivity| |done].
    match goal with E : cj_State old = _ |- _ => rewrite E end. constructor.
  - match goal with H : NormalizeMCPControlJob _ _ _ = Ok _ |- _ => apply normalized_job in H as (Hst & Hf1 & Hf2 & _) end.
    eapply (job_starts _ (ms_ids s) "mcpjob"); [drawing|reflexivity|reflexivity|reflexivity|cbn; lia|done|].
    split; [done|by split|]. cbn. by rewrite Hst.
Qed.

Lemma complete_job_keeps id e f st resp actor : wp (CompleteMCPControlJob id e f st resp actor) leaves s.
Proof.
  unfold CompleteMCPControlJob; unfold_puts. cbv zeta. wp_go; try untouched. norm_bool.
  match goal with H : ms_mcpControlJobs s !! _ = Some ?x |- _ => rename x into old, H into Hold end.
  rewrite <- (jo_id _ _ (js_each _ _ _ Hwf _ _ Hold)) in Hold.
  assert (Hst : cj_State old = MCPControlJobRunning) by (by destruct (cj_State old)).
  eapply job_lands; [exact Hold|drawing|reflexivity|done|reflexivity| |].
  - rewrite Hst. cbn. destruct ((200 <=? st) && (st <? 400)); constructor.
  - intros _. split; [done..|]. cbn. destruct ((200 <=? st) && (st <? 400)) eqn:E; (split; [|]); try done; lia.
Qed.

Lemma mark_job_keeps id e actor : wp (MarkMCPControlJobRecoveryRequired id e actor) leaves s.
Proof.
  unfold MarkMCPControlJobRecoveryRequired; unfold_puts. cbv zeta. wp_go; try untouched. norm_bool.
  match goal with H : ms_mcpControlJobs s !! _ = Some ?x |- _ => rename x into old, H into Hold end.
  rewrite <- (jo_id _ _ (js_each _ _ _ Hwf _ _ Hold)) in Hold.
  assert (Hst : cj_State old = MCPControlJobRunning) by (by destruct (cj_State old)).
  eapply job_lands; [exact Hold|drawing|reflexivity|done|reflexivity| |done]. rewrite Hst. constructor.
Qed.

Lemma applied_resolution v e res rb ev actor now v' :
  ApplyMCPControlJobRecoveryResolution v e res rb ev actor now = Ok v' ->
  job_identity v' = job_identity v /\ cj_State v = MCPControlJobRecoveryRequired /\ job_step (cj_State v) (cj_State v') /\
  outcome_ok v' /\ rm_Revision (cj_Meta v) = e /\ rm_Revision (cj_Meta v') = inc64 e /\
  cj_RecoveredBy v' = TrimSpace actor /\ TrimSpace actor <> "" /\
  cj_RecoveryReadbackDigest v' = TrimSpace rb /\ cj_RecoveryEvidenceDigest v' = TrimSpace ev /\ cj_Response v' = mcpRecoverySummary v'.
Proof.
  unfold ApplyMCPControlJobRecoveryResolution. cbv zeta. do 4 (case_match; [done|]). norm_bool.
  intros [= <-]. assert (Hst : cj_State v = MCPControlJobRecoveryRequired) by (by destruct (cj_State v)).
  destruct (res == _) eqn:E; norm_bool; subst; cbn [setf].
  - split_and!; [done|done|rewrite Hst; exact job_recovered|split; [reflexivity|reflexivity|split; [intros _|done]; split; done]|done..].
  - split_and!; [done|done|rewrite Hst; exact job_given_up|split; [reflexivity|reflexivity|split; [done|intros [_ Hlt]; done]]|done..].
Qed.

Lemma resolve_job_keeps id e res rb ev actor : wp (ResolveMCPControlJobRecovery id e res rb ev actor) leaves s.
Proof.
  unfold ResolveMCPControlJobRecovery; unfold_puts. cbv zeta. wp_go; try untouched.
  match goal with H : ms_mcpControlJobs s !! _ = Some ?x |- _ => rename x into old, H into Hold end.
  rewrite <- (jo_id _ _ (js_each _ _ _ Hwf _ _ Hold)) in Hold.
  match goal with H : ApplyMCPControlJobRecoveryResolution _ _ _ _ _ _ _ = Ok _ |- _ =>
    apply applied_resolution in H as (Ei & _ & Hst & Ho & _) end.
  eapply job_lands; [exact Hold|drawing| |done|done|done|done]. injection Ei as -> _. done.
Qed.

Lemma job_exec_effect c : drawn s (job_exec c s).1 /\ jobs_wf (job_exec c s).1 /\ jobs_move s (job_exec c s).1.
Proof.
  destruct c; cbn [job_exec]; apply (run1_leaves _ (fun s' => drawn s s' /\ jobs_wf s' /\ jobs_move s s')).
  - apply create_job_keeps.
  - apply complete_job_keeps.
  - apply mark_job_keeps.
  - apply resolve_job_keeps.
Qed.
End handlers.

(** ** Histories *)

Inductive jobs_step (s : MemoryStore) : MemoryStore -> Prop :=
| jb_call c : jobs_step s (job_exec c s).1
| jb_other s' : drawn s s' -> ms_mcpControlJobs s' = ms_mcpControlJobs s ->
    ms_mcpControlJobIdempotency s' = ms_mcpControlJobIdempotency s -> jobs_step s s'.

Definition jobs_reachable (s : MemoryStore) : Prop :=
  exists now id, id_source id /\ rtc jobs_step (NewMemoryStoreWith now id) s.
Definition jobs_inv (s : MemoryStore) : Prop := id_source (ms_id s) /\ jobs_wf s.

Lemma jobs_steps s s' : rtc jobs_step s s' -> jobs_inv s -> jobs_inv s' /\ jobs_move s s'.
Proof.
  induction 1 as [s|s1 s2 s3 H12 _ IH]; intros Hi; [split; [done|reflexivity]|].
  assert (jobs_inv s2 /\ jobs_move s1 s2) as [Hi2 Hm].
  { destruct Hi as [Hid Hwf]. assert (drawn s1 s2 /\ jobs_wf s2 /\ jobs_move s1 s2) as (Hd & Hw & Hm).
    { destruct H12 as [c|s' Hd E1 E2]; [by apply job_exec_effect|by apply jobs_same]. }
    split; [|done]. split; [by rewrite (dr_gen _ _ Hd)|done]. }
  destruct (IH Hi2) as [Hi3 Hm']. split; [done|by etrans].
Qed.

Lemma jobs_reachable_inv s : jobs_reachable s -> jobs_inv s.
Proof.
  intros (now & id & Hid & Hr). eapply jobs_steps in Hr as [Hi _]; [exact Hi|]. split; [done|].
  split; cbn; intros; simplify_map_eq; try done.
Qed.

(** every call that would write the outcome of the job [id] *)
Definition settles (id : string) (c : JobCall) : Prop :=
  match c with
  | JCreate _ _ _ => False
  | JComplete k _ _ _ _ _ | JMarkRecovery k _ _ | JResolve k _ _ _ _ _ => TrimSpace k = id
  end.

Lemma settled_once s c id v :
  settles id c -> ms_mcpControlJobs s !! id = Some v -> finished (cj_State v) = true ->
  ms_mcpControlJobs (job_exec c s).1 = ms_mcpControlJobs s /\ (job_exec c s).2 <> None.
Proof.
  intros Hc Hv Hf. assert (Hr : cj_State v <> MCPControlJobRunning /\ cj_State v <> MCPControlJobRecoveryRequired) by (by destruct (cj_State v)).
  assert (forall A (m : Store A), wp m (fun r s' => ms_mcpControlJobs s' = ms_mcpControlJobs s /\ outcome r <> None) s ->
    ms_mcpControlJobs (run1 m s).1 = ms_mcpControlJobs s /\ (run1 m s).2 <> None) as Hrun by (intros A m H; exact H).
  destruct c; cbn [job_exec settles] in *; [done|..]; apply Hrun; clear Hrun; subst.
  - unfold CompleteMCPControlJob; unfold_puts. cbv zeta. wp_go; try done; norm_bool; simplify_eq; tauto.
  - unfold MarkMCPControlJobRecoveryRequired; unfold_puts. cbv zeta. wp_go; try done; norm_bool; simplify_eq; tauto.
  - unfold ResolveMCPControlJobRecovery; unfold_puts. cbv zeta. wp_go; try done. exfalso. simplify_eq.
    match goal with H : ApplyMCPControlJobRecoveryResolution _ _ _ _ _ _ _ = Ok _ |- _ =>
      apply applied_resolution in H as (_ & H & _) end. tauto.
Qed.

(** C26: the outcome of a control job is written once.  In every history a job keeps its
    identity and moves along its life cycle; once it has succeeded or failed it stays
    exactly as it is, its response under its digest and its status on the side of its
    state, and every later call that would write an outcome is refused. *)
Theorem outcomes_are_written_once s s' id v :
  jobs_reachable s -> rtc jobs_step s s' -> ms_mcpControlJobs s !! id = Some v ->
  exists v', ms_mcpControlJobs s' !! id = Some v' /\ job_identity v' = job_identity v /\
    rtc job_step (cj_State v) (cj_State v') /\
    (finished (cj_State v) = true -> v' = v) /\
    (finished (cj_State v') = true -> outcome_ok v' /\
      forall c, settles id c -> ms_mcpControlJobs (job_exec c s').1 = ms_mcpControlJobs s' /\ (job_exec c s').2 <> None).
Proof.
  intros Hr%jobs_reachable_inv Hs Hv. destruct (jobs_steps _ _ Hs Hr) as [[_ Hwf] [Hj _]].
  destruct (Hj _ _ Hv) as (v' & Hv' & [Hi Hst Hf]). exists v'. split_and!; [done..|]. intros Hf'. split.
  - by apply (jo_outcome _ _ (js_each _ _ _ Hwf _ _ Hv')).
  - intros c Hc. by eapply settled_once.
Qed.

(** A request runs once.  While a job is stored, a request under its idempotency
    scope creates no job: it is answered with that very job, put up for recovery if its
    lease ran out, or refused and without effect when it asks for something else. *)
Theorem control_jobs_run_once s s' id j v lease now n r :
  jobs_reachable s -> ms_mcpControlJobs s !! id = Some j ->
  NormalizeMCPControlJob v lease now = Ok n -> mcpControlJobIdempotencyScope n = mcpControlJobIdempotencyScope j ->
  CreateMCPControlJob v lease now s = (s', r) ->
  dom (ms_mcpControlJobs s') = dom (ms_mcpControlJobs s) /\
  ms_mcpControlJobIdempotency s' = ms_mcpControlJobIdempotency s /\
  (cj_RequestDigest n = cj_RequestDigest j ->
     exists j', r = Ok (j', true) /\ ms_mcpControlJobs s' !! id = Some j' /\ job_advances j j' /\
       (j' = j \/ cj_State j' = MCPControlJobRecoveryRequired /\ cj_LeaseExpiresAt j <= now)) /\
  (cj_RequestDigest n <> cj_RequestDigest j -> s' = s /\ r = Fail ErrIdempotencyConflict).
Proof.
  intros [_ Hwf]%jobs_reachable_inv Hj Hn Hsc E. pattern r, s'. eapply wp_run; [|exact E]. clear s' r E.
  assert (Hx := js_indexed _ _ _ Hwf _ _ Hj). rewrite <- Hsc in Hx.
  unfold CreateMCPControlJob. rewrite Hn. apply wp_bind, wp_lift. cbv beta iota zeta. wp_step. rewrite Hx.
  unfold replayJob; unfold_puts. wp_step. rewrite Hj. cbn [get_opt]. wp_go; norm_bool.
  - by split_and!.
  - split; [apply dom_insert_lookup_L; by rewrite Hj|]. split; [done|]. split; [|done]. intros _.
    eexists. split; [done|]. split; [apply lookup_insert_eq|]. split; [|right; split; [done|lia]].
    match goal with E : cj_State j = _ |- _ => rename E into Est end.
    split; [done|rewrite Est; apply rtc_once, job_lost|by rewrite Est].
  - split_and!; try done. intros _. exists j. split_and!; [done|done|apply advances_refl|by left].
Qed.

(** ** Idempotency scopes *)

Definition nul_free (s : string) : bool := string_all (fun a => negb (bool_decide (a = ascii_of_N 0))) s.

Lemma nul_cut x y r r' : nul_free x = true -> nul_free y = true -> x +:+ nul +:+ r = y +:+ nul +:+ r' -> x = y /\ r = r'.
Proof.
  revert y. induction x as [|a x IH]; intros [|b y] Hx Hy E.
  - by injection E.
  - exfalso. cbn in E, Hy. by injection E as <- _.
  - exfalso. cbn in E, Hx. by injection E as -> _.
  - cbn in E, Hx, Hy. injection E as -> E. unfold nul_free, string_all in *. cbn in Hx, Hy.
    apply andb_true_iff in Hx as [_ Hx], Hy as [_ Hy]. destruct (IH y Hx Hy E) as [-> ->]. done.
Qed.

(** [strings.Join] with NUL is one-to-one on texts without NUL *)
Lemma nul_join l l' :
  length l = length l' -> Forall (fun s => nul_free s = true) l -> Forall (fun s => nul_free s = true) l' ->
  String.concat nul l = String.concat nul l' -> l = l'.
Proof.
  revert l'. induction l as [|x l IH]; intros [|y l'] Hlen Hl Hl' E; try done.
  apply Forall_cons in Hl as [Hx Hl], Hl' as [Hy Hl']. injection Hlen as Hlen.
  destruct l as [|x2 l], l' as [|y2 l']; try done; [cbn in E; by subst|].
  change (x +:+ nul +:+ String.concat nul (x2 :: l) = y +:+ nul +:+ String.concat nul (y2 :: l')) in E.
  apply nul_cut in E as [-> E]; [|done..]. f_equal. by apply IH.
Qed.

Definition scope_fields (v : MCPControlJob) : list string :=
  [cj_ActorID v; cj_OAuthClientID v; cj_DelegationProfile v; cj_OrganizationID v; cj_ProjectID v; cj_ToolName v; cj_IdempotencyKey v].

(** Idempotency scopes identify requests.  When no field holds a NUL byte, two jobs
    share their idempotency scope exactly when actor, client, delegation profile,
    organization, project, tool and idempotency key agree; so in every history at most
    one job is stored for such a request. *)
Theorem idempotency_scopes_identify s i j v w :
  jobs_reachable s -> ms_mcpControlJobs s !! i = Some v -> ms_mcpControlJobs s !! j = Some w ->
  Forall (fun s => nul_free s = true) (scope_fields v) -> Forall (fun s => nul_free s = true) (scope_fields w) ->
  (mcpControlJobIdempotencyScope v = mcpControlJobIdempotencyScope w <-> scope_fields v = scope_fields w) /\
  (scope_fields v = scope_fields w -> i = j).
Proof.
  intros [_ Hwf]%jobs_reachable_inv Hv Hw Fv Fw.
  assert (Heq : scope_fields v = scope_fields w -> mcpControlJobIdempotencyScope v = mcpControlJobIdempotencyScope w).
  { intros E. unfold mcpControlJobIdempotencyScope. by change (String.concat nul (scope_fields v) = String.concat nul (scope_fields w)); rewrite E. }
  split; [split; [by apply nul_join|done]|]. intros E%Heq.
  pose proof (js_indexed _ _ _ Hwf _ _ Hv) as H1. pose proof (js_indexed _ _ _ Hwf _ _ Hw) as H2. congruence.
Qed.

(** ** A concrete history *)

Module JobDemo.

Definition now : Time := 1000 * Second.
Definition empty : MemoryStore := NewMemoryStoreWith (fun _ => now) demo_id.
Definition history (cs : list JobCall) : MemoryStore := foldl (fun s c => (job_exec c s).1) empty cs.

Definition request (actor client key digest : string) : MCPControlJob :=
  mkMCPControlJob (newMeta "" 0) "clusters.drain" "clusters" "drain" "post" "/v1/clusters" MCPControlJobRunning "High" actor
    "oauth" client "operate" "o" "p" "req-1" key digest 0 "api-1" 0 0 0 "" "" "" "" "" "" "" None.
Definition bob : MCPControlJob := request "bob" "assistant" "k" "sha256:d".
Definition started : list JobCall := [JCreate bob Minute now].
Definition job : string := Eval vm_compute in default "" (head (map_to_list (ms_mcpControlJobs (history started))).*1).
Definition done_ : list JobCall := (started ++ [JComplete job 1 1 200 "{}" "bob"])%list.
(** and a second request, under another key *)
Definition two : list JobCall := (started ++ [JCreate (request "bob" "assistant" "k2" "sha256:d") Minute now])%list.
Definition second : string :=
  Eval vm_compute in default "" (head (List.filter (fun k => k != job) (map_to_list (ms_mcpControlJobs (history two))).*1)).
Definition digest : string := sha256Digest "readback".
(** the lease runs out before the outcome is known, and somebody settles it *)
Definition lost : list JobCall := (started ++ [JCreate bob Minute (now + Minute)])%list.
Definition recovered : list JobCall :=
  (lost ++ [JResolve job 2 MCPControlJobRecoveryConfirmedSucceeded digest digest "carol"])%list.

Lemma job_calls_steps s cs : rtc jobs_step s (foldl (fun s c => (job_exec c s).1) s cs).
Proof. revert s. induction cs as [|c rest IH]; intros s; [constructor|]. eapply rtc_l; [apply jb_call|apply IH]. Qed.
Lemma jobs_history cs : jobs_reachable (history cs).
Proof. exists (fun _ => now), demo_id. split; [apply demo_id_source|apply job_calls_steps]. Qed.
End JobDemo.
Import JobDemo.

Lemma outcomes_are_written_once_witness :
  exists v v', ms_mcpControlJobs (history lost) !! job = Some v /\ cj_State v = MCPControlJobRecoveryRequired /\
    ms_mcpControlJobs (history recovered) !! job = Some v' /\ outcome_ok v' /\
    (job_exec (JComplete job 3 1 200 "{}" "bob") (history recovered)).2 <> None.
Proof.
  destruct (found cj_State (ms_mcpControlJobs (history lost) !! job) MCPControlJobRecoveryRequired) as (v & Ev & Hst);
    [vm_compute; reflexivity|].
  destruct (outcomes_are_written_once (history lost) (history recovered) job v (jobs_history lost)) as (v' & Ev' & _ & _ & _ & Hf);
    [unfold history, recovered; rewrite foldl_app; apply job_calls_steps|exact Ev|].
  destruct (found cj_State (ms_mcpControlJobs (history recovered) !! job) MCPControlJobSucceeded) as (w & Ew & Hw);
    [vm_compute; reflexivity|].
  assert (w = v') as -> by congruence. rewrite Hw in Hf. destruct (Hf eq_refl) as [Ho Hc].
  exists v, v'. split; [exact Ev|]. split; [exact Hst|]. split; [exact Ev'|]. split; [exact Ho|].
  apply (Hc (JComplete job 3 1 200 "{}" "bob")). vm_compute. reflexivity.
Defined.

Lemma control_jobs_run_once_witness :
  exists s' j, CreateMCPControlJob bob Minute (now + 5) (history done_) = (s', Ok (j, true)) /\
    cj_State j = MCPControlJobSucceeded /\ dom (ms_mcpControlJobs s') = dom (ms_mcpControlJobs (history done_)).
Proof.
  destruct (found cj_State (ms_mcpControlJobs (history done_) !! job) MCPControlJobSucceeded) as (j & Ej & Hst);
    [vm_compute; reflexivity|].
  destruct (found (fun v => (cj_RequestDigest v, mcpControlJobIdempotencyScope v)) (ms_mcpControlJobs (history done_) !! job)
    (cj_RequestDigest bob, mcpControlJobIdempotencyScope (trimmedJob bob))) as (j2 & Ej2 & Hd); [vm_compute; reflexivity|].
  assert (j2 = j) as -> by congruence. injection Hd as Hd1 Hd2.
  destruct (NormalizeMCPControlJob bob Minute (now + 5)) as [n|] eqn:En; [|exfalso; revert En; vm_compute; discriminate].
  assert (En' : Ok (cj_RequestDigest n, mcpControlJobIdempotencyScope n) =
    Ok (cj_RequestDigest bob, mcpControlJobIdempotencyScope (trimmedJob bob))).
  { revert En. vm_compute. intros [= <-]. reflexivity. }
  injection En' as En1 En2.
  destruct (CreateMCPControlJob bob Minute (now + 5) (history done_)) as [s' r] eqn:E.
  destruct (control_jobs_run_once _ s' job j bob Minute (now + 5) n r (jobs_history done_) Ej En (eq_trans En2 (eq_sym Hd2)) E)
    as (Hdom & _ & Hr & _).
  destruct (Hr (eq_trans En1 (eq_sym Hd1))) as (j' & -> & _ & [_ _ Hf] & _).
  exists s', j'. rewrite Hst in Hf. rewrite (Hf eq_refl). split; [reflexivity|]. split; [exact Hst|exact Hdom].
Defined.

Lemma idempotency_scopes_identify_witness :
  exists v w, ms_mcpControlJobs (history two) !! job = Some v /\ ms_mcpControlJobs (history two) !! second = Some w /\
    (mcpControlJobIdempotencyScope v = mcpControlJobIdempotencyScope w -> False).
Proof.
  destruct (found scope_fields (ms_mcpControlJobs (history two) !! job) (scope_fields (trimmedJob bob))) as (v & Ev & Hv);
    [vm_compute; reflexivity|].
  destruct (found scope_fields (ms_mcpControlJobs (history two) !! second)
    (scope_fields (trimmedJob (request "bob" "assistant" "k2" "sha256:d")))) as (w & Ew & Hw); [vm_compute; reflexivity|].
  exists v, w. split; [exact Ev|]. split; [exact Ew|]. intros E.
  destruct (idempotency_scopes_identify (history two) job second v w (jobs_history two) Ev Ew) as [[H _] _];
    [rewrite Hv; vm_compute; repeat constructor|rewrite Hw; vm_compute; repeat constructor|].
  specialize (H E). rewrite Hv, Hw in H. vm_compute in H. discriminate H.
Defined.

(** ** Observations *)

(** A field may hold the byte that separates the fields of a scope (texts of JSON
    requests can): two requests of different actors then share a scope, and the
    second one is answered with the job of the first. *)
Definition mallory : MCPControlJob := request "a" ("b" +:+ nul +:+ "c") "k" "sha256:d".
Definition alice : MCPControlJob := request ("a" +:+ nul +:+ "b") "c" "k" "sha256:d".
Example scopes_collide_on_nul :
  cj_ActorID mallory <> cj_ActorID alice /\
  mcpControlJobIdempotencyScope (trimmedJob mallory) = mcpControlJobIdempotencyScope (trimmedJob alice) /\
  (fun r => match r with Ok (j, replayed) => Some (cj_ActorID j, replayed) | Fail _ => None end)
    (CreateMCPControlJob alice Minute now (history [JCreate mallory Minute now])).2 = Some ("a", true).
Proof. split_and!; [done|vm_compute; reflexivity..]. Qed.

(** The lease of a job bounds nothing by itself: a completion that arrives after it ran
    out, with nobody having asked again, is accepted. *)
Example late_completions_are_accepted :
  cj_LeaseExpiresAt <$> ms_mcpControlJobs (history [JCreate bob Minute (now - 2 * Minute)]) !! job = Some (now - Minute) /\
  (job_exec (JComplete job 1 1 200 "{}" "bob") (history [JCreate bob Minute (now - 2 * Minute)])).2 = None.
Proof. split; vm_compute; reflexivity. Qed.
