(* ===== verification/GitRevisions.v ===== *)
(** * Managed Git revisions

    What the platform published to a Git repository, which of it was last seen
    healthy, and how drift between the platform's base, Git and the cluster is
    classified ([git_drift_store.go]).  The digest that a cluster observes comes
    from its agent. *)
From S2P Require Import Prelude GoStrings Model Calendar Store Ordering Listing.
From Stdlib Require Import Ascii.
From Stdlib Require String.

Definition normalizeGitIdentity (v : string) : string := ToLower (TrimSpace v).

(** [^[a-fA-F0-9]{40}([a-fA-F0-9]{24})?$] *)
Definition IsFullCommitSHA (value : string) : bool :=
  ((len value =? 40) || (len value =? 64)) && string_all is_hex value.

Definition defaultBranch (branch : string) : string := if TrimSpace branch == "" then "main" else TrimSpace branch.

(** the normalized fields of a revision *)
Definition normalizedRevision (v : ManagedGitRevision) : ManagedGitRevision :=
  v <| gr_Organization := normalizeGitIdentity (gr_Organization v) |> <| gr_Repository := normalizeGitIdentity (gr_Repository v) |>
    <| gr_Branch := defaultBranch (gr_Branch v) |> <| gr_RevisionID := TrimSpace (gr_RevisionID v) |>
    <| gr_Digest := TrimSpace (gr_Digest v) |> <| gr_CommitSHA := TrimSpace (gr_CommitSHA v) |>
    <| gr_PublicKeyFingerprint := TrimSpace (gr_PublicKeyFingerprint v) |>
    <| gr_Source := if TrimSpace (gr_Source v) == "" then "PLATFORM_PUBLISHED" else TrimSpace (gr_Source v) |>
    <| gr_DeliveryMode := if gr_DeliveryMode v == "" then GitDeliveryDirectCommit else gr_DeliveryMode v |>
    <| gr_PullRequestID := TrimSpace (gr_PullRequestID v) |> <| gr_ObservedDigest := TrimSpace (gr_ObservedDigest v) |>.

Definition revisionIncomplete (v : ManagedGitRevision) : bool :=
  (gr_Organization v == "") || (gr_Repository v == "") || (gr_RevisionID v == "") || negb (HasPrefix (gr_Digest v) sha256_prefix)
  || negb (IsFullCommitSHA (gr_CommitSHA v)) || negb (HasPrefix (gr_PublicKeyFingerprint v) sha256_prefix).

(** the branch of a repository *)
Definition onBranch (organization repository branch : string) (v : ManagedGitRevision) : bool :=
  (gr_Organization v == organization) && (gr_Repository v == repository) && (gr_Branch v == branch).
Definition sameBranch (w v : ManagedGitRevision) : bool := onBranch (gr_Organization w) (gr_Repository w) (gr_Branch w) v.

Definition RecordManagedGitRevision (v : ManagedGitRevision) (actor : string) : Store ManagedGitRevision :=
  let v := normalizedRevision v in
  fail_if ((gr_DeliveryMode v != GitDeliveryDirectCommit) && (gr_DeliveryMode v != GitDeliveryPullRequest)) ErrValidation ;;;
  fail_if ((gr_DeliveryMode v == GitDeliveryPullRequest) && (gr_PullRequestID v == "")) ErrValidation ;;;
  fail_if (revisionIncomplete v) ErrValidation ;;;
  let! s := get in
  match map_find (fun _ existing => sameBranch v existing && (gr_CommitSHA existing == gr_CommitSHA v)) (ms_managedGitRevisions s) with
  | Some (_, existing) =>
      fail_if ((gr_Digest existing != gr_Digest v) || (gr_RevisionID existing != gr_RevisionID v)
               || (gr_PublicKeyFingerprint existing != gr_PublicKeyFingerprint v)) ErrConflict ;;;
      ret existing
  | None =>
      let! now := nowUTC in
      let! id := newID "gtr" in
      let v := v <| gr_Meta := newMeta id now |> <| gr_RecordedBy := TrimSpace actor |> in
      putManagedGitRevision id v ;;;
      appendAuditLocked actor "git_revision.recorded" "managedGitRevision" id (rm_Revision (gr_Meta v))
        [("organization", MStr (gr_Organization v)); ("repository", MStr (gr_Repository v)); ("branch", MStr (gr_Branch v));
         ("commitSha", MStr (gr_CommitSHA v)); ("source", MStr (gr_Source v)); ("deliveryMode", MStr (gr_DeliveryMode v));
         ("pullRequestId", MStr (gr_PullRequestID v))] ;;;
      appendOutboxLocked "managedGitRevision" id "git_revision.recorded" (PayloadManagedGitRevision v) ;;;
      ret v
  end.

Definition GetManagedGitRevision (id : string) : Store ManagedGitRevision :=
  let! s := get in get_opt (ms_managedGitRevisions s !! TrimSpace id) ErrNotFound.

(** the loop that keeps the revision with the latest [stamp], by identifier among equals *)
Definition laterRevision (stamp : ManagedGitRevision -> Time) (found : option ManagedGitRevision) (v : ManagedGitRevision) : bool :=
  match found with
  | None => true
  | Some f => (stamp f <? stamp v) || ((stamp v =? stamp f) && string_lt (rm_ID (gr_Meta f)) (rm_ID (gr_Meta v)))
  end.
Fixpoint latestRevision (P : ManagedGitRevision -> bool) (stamp : ManagedGitRevision -> Time) (found : option ManagedGitRevision)
    (l : list ManagedGitRevision) : option ManagedGitRevision :=
  match l with
  | [] => found
  | v :: rest => latestRevision P stamp (if P v && laterRevision stamp found v then Some v else found) rest
  end.

Definition GetLatestManagedGitRevision (organization repository branch : string) : Store ManagedGitRevision :=
  let! s := get in
  let P := onBranch (normalizeGitIdentity organization) (normalizeGitIdentity repository) (defaultBranch branch) in
  get_opt (latestRevision P (fun v => rm_CreatedAt (gr_Meta v)) None (map_to_list (ms_managedGitRevisions s)).*2) ErrNotFound.

Definition GetLastKnownGoodGitRevision (organization repository branch : string) : Store ManagedGitRevision :=
  let! s := get in
  let P v := onBranch (normalizeGitIdentity organization) (normalizeGitIdentity repository) (defaultBranch branch) v
             && gr_LastKnownGood v in
  get_opt (latestRevision P (fun v => rm_UpdatedAt (gr_Meta v)) None (map_to_list (ms_managedGitRevisions s)).*2) ErrNotFound.

(** another revision of the branch that was the last known good one *)
Definition superseded (v other : ManagedGitRevision) : bool :=
  (rm_ID (gr_Meta other) != rm_ID (gr_Meta v)) && sameBranch v other && gr_LastKnownGood other.
Definition demoted (now : Time) (other : ManagedGitRevision) : ManagedGitRevision :=
  other <| gr_LastKnownGood := false |> <| gr_Meta := bump (gr_Meta other) now |>.
Fixpoint demoteLoop (v : ManagedGitRevision) (now : Time) (l : list (string * ManagedGitRevision)) : Store unit :=
  match l with
  | [] => ret tt
  | (key, other) :: rest =>
      when (superseded v other) (putManagedGitRevision key (demoted now other)) ;;;
      demoteLoop v now rest
  end.

(** the revision that was seen healthy *)
Definition knownGood (observedDigest : string) (now : Time) (v : ManagedGitRevision) : ManagedGitRevision :=
  v <| gr_Meta := bump (gr_Meta v) now |> <| gr_SyncHealthy := true |> <| gr_ObservedDigest := observedDigest |>
    <| gr_LastKnownGood := true |> <| gr_LastKnownGoodAt := Some now |>.

(** the second lookup finds the revision again: the loop leaves it alone *)
Definition MarkManagedGitRevisionSynchronized (id : string) (expected : Z) (observedDigest : string) (healthy : bool)
    (actor : string) : Store ManagedGitRevision :=
  let! s := get in
  let! v := get_opt (ms_managedGitRevisions s !! TrimSpace id) ErrNotFound in
  fail_if (rm_Revision (gr_Meta v) != expected) ErrConflict ;;;
  let observedDigest := TrimSpace observedDigest in
  fail_if (negb healthy || (observedDigest == "") || (observedDigest != gr_Digest v)) ErrValidation ;;;
  let! now := nowUTC in
  demoteLoop v now (map_to_list (ms_managedGitRevisions s)) ;;;
  let! s := get in
  let! v := get_opt (ms_managedGitRevisions s !! rm_ID (gr_Meta v)) ErrNotFound in
  let v := knownGood observedDigest now v in
  putManagedGitRevision (rm_ID (gr_Meta v)) v ;;;
  appendAuditLocked actor "git_revision.last_known_good" "managedGitRevision" (rm_ID (gr_Meta v)) (rm_Revision (gr_Meta v))
    [("organization", MStr (gr_Organization v)); ("repository", MStr (gr_Repository v)); ("branch", MStr (gr_Branch v));
     ("commitSha", MStr (gr_CommitSHA v)); ("digest", MStr (gr_Digest v))] ;;;
  appendOutboxLocked "managedGitRevision" (rm_ID (gr_Meta v)) "git_revision.last_known_good" (PayloadManagedGitRevision v) ;;;
  ret v.

Definition ListManagedGitRevisions (organization repository : string) : Store (list ManagedGitRevision) :=
  let! s := get in
  let organization := normalizeGitIdentity organization in
  let repository := normalizeGitIdentity repository in
  ret (sortSlice (lexi (fun v => rm_CreatedAt (gr_Meta v)) earlier (on (fun v => rm_ID (gr_Meta v)) string_lt))
         (map_select (fun _ v => ((organization == "") || (gr_Organization v == organization))
                                 && ((repository == "") || (gr_Repository v == repository))) (ms_managedGitRevisions s))).

(** ** Three-way classification *)

Definition classified (v : GitDriftEvidence) (c : GitDriftClassification) (conflict adoptable : bool) (summary : string)
    : GitDriftEvidence :=
  v <| ge_Classification := c |> <| ge_Conflict := conflict |> <| ge_Adoptable := adoptable |> <| ge_Summary := summary |>.

Definition ClassifyGitDrift (input : GitDriftEvidence) (observedDigest : string) : GitDriftEvidence :=
  let v := input <| ge_ObservedDigest := TrimSpace observedDigest |> in
  let gitChanged := (ge_CurrentCommitSHA v != ge_BaseCommitSHA v) || (ge_CurrentDigest v != ge_BaseDigest v) in
  if ge_ObservedDigest v == "" then
    classified v GitDriftObservedUnknown false false "live GitOps revision could not be observed"
  else if negb gitChanged then
    if ge_ObservedDigest v == ge_BaseDigest v
    then classified v GitDriftInSync false false "platform base, Git desired state and live state are in sync"
    else classified v GitDriftLiveDrift true false "live state differs while Git still matches the platform-published base"
  else if negb (ge_CurrentTrusted v) then
    classified v GitDriftUntrustedChange true false "Git changed outside the trusted platform signing identity"
  else if (ge_CurrentDigest v == ge_BaseDigest v) && (ge_CurrentCommitSHA v != ge_BaseCommitSHA v) then
    classified v GitDriftCommitOnlyChange false false "Git commit changed but the signed desired-state digest is unchanged"
  else if ge_ObservedDigest v == ge_BaseDigest v then
    classified v GitDriftExternalChange false false "trusted Git desired state changed externally and has not been observed live"
  else if ge_ObservedDigest v == ge_CurrentDigest v then
    classified v GitDriftExternalApplied false true
      "trusted external Git desired state is already observed live and may be adopted without overwrite"
  else classified v GitDriftThreeWayConflict true false
         "platform base, Git desired state and live observed state all diverge".
