(* ===== verification/GitRevisionTheorems.v ===== *)
(** * What a branch is known to be

    At most one revision of a branch is its last known good one, and what was
    recorded about a commit never changes; the classification of drift against
    its decision table. *)
From S2P Require Import Prelude GoStrings Digest Model Calendar Store Ordering Listing OperationSystem.
From S2P Require Import OperationRuns Demo Collections GitRevisions.

(** ** The invariant *)

Record revision_ok (id : string) (v : ManagedGitRevision) : Prop := {
  ro_id : rm_ID (gr_Meta v) = id;
  ro_complete : revisionIncomplete v = false;
  ro_good : gr_LastKnownGood v = true ->
    gr_SyncHealthy v = true /\ gr_ObservedDigest v = gr_Digest v /\ is_Some (gr_LastKnownGoodAt v)
}.
Definition branch_of (v : ManagedGitRevision) := (gr_Organization v, gr_Repository v, gr_Branch v).
Definition same_commit (v w : ManagedGitRevision) : Prop := branch_of v = branch_of w /\ gr_CommitSHA v = gr_CommitSHA w.
Definition both_good (v w : ManagedGitRevision) : Prop :=
  branch_of v = branch_of w /\ gr_LastKnownGood v = true /\ gr_LastKnownGood w = true.

Lemma sameBranch_spec v w : sameBranch v w = true <-> branch_of v = branch_of w.
Proof.
  unfold sameBranch, onBranch, branch_of. rewrite !andb_true_iff, !bool_decide_eq_true. split; [|by intros [=]].
  intros [[-> ->] ->]. done.
Qed.

Record revisions_ok (s : MemoryStore) (G : gmap string ManagedGitRevision) : Prop := {
  rs_filed : filed s G;
  rs_each : forall id v, G !! id = Some v -> revision_ok id v;
  rs_commits : forall i j v w, G !! i = Some v -> G !! j = Some w -> same_commit v w -> i = j;
  rs_good : forall i j v w, G !! i = Some v -> G !! j = Some w -> both_good v w -> i = j
}.
Definition git_wf (s : MemoryStore) : Prop := revisions_ok s (ms_managedGitRevisions s).

(** what was recorded about a commit *)
Definition revision_identity (v : ManagedGitRevision) :=
  (rm_ID (gr_Meta v), rm_CreatedAt (gr_Meta v), branch_of v, gr_RevisionID v, gr_Digest v, gr_CommitSHA v,
   gr_PublicKeyFingerprint v, gr_Source v, gr_DeliveryMode v, gr_PullRequestID v, gr_RecordedBy v).
Definition revision_evolves (v v' : ManagedGitRevision) : Prop := revision_identity v' = revision_identity v.

(** ** Steps *)

Definition settledRevision (v : ManagedGitRevision) (now : Time) (other : ManagedGitRevision) : ManagedGitRevision :=
  if superseded v other then demoted now other else other.

Lemma settled_identity v now w : revision_identity (settledRevision v now w) = revision_identity w.
Proof. unfold settledRevision. by case_match. Qed.
Lemma settled_good v now w :
  gr_LastKnownGood (settledRevision v now w) = true ->
  settledRevision v now w = w /\ (branch_of v = branch_of w -> rm_ID (gr_Meta w) = rm_ID (gr_Meta v)).
Proof.
  unfold settledRevision. destruct (superseded v w) eqn:E; [done|]. intros Hg. split; [done|]. intros Hb.
  unfold superseded in E. apply sameBranch_spec in Hb. rewrite Hb, Hg, !andb_true_r in E. by norm_bool.
Qed.

Lemma identity_branch v w : revision_identity v = revision_identity w -> branch_of v = branch_of w /\ gr_CommitSHA v = gr_CommitSHA w.
Proof. unfold revision_identity. generalize (branch_of v) (branch_of w). intros b c E. by injection E. Qed.

Lemma identity_complete v w :
  revision_identity v = revision_identity w -> revisionIncomplete v = revisionIncomplete w /\ rm_ID (gr_Meta v) = rm_ID (gr_Meta w).
Proof.
  unfold revision_identity, branch_of. intros E. injection E as E1 _ E2 E3 _ E5 E6 E7 E8 _ _ _ _.
  unfold revisionIncomplete. by rewrite E2, E3, E5, E6, E7, E8.
Qed.

Lemma known_good_lands s s' G k v od now :
  drawn s s' -> revisions_ok s G -> G !! k = Some v -> od = gr_Digest v ->
  revisions_ok s' (<[k := knownGood od now v]> (settledRevision v now <$> G)).
Proof.
  intros Hd [Hf He Hc Hg] Hv ->.
  set (G' := <[k := _]> _).
  assert (HG : forall i w', G' !! i = Some w' -> exists w, G !! i = Some w /\ revision_identity w' = revision_identity w).
  { intros i w' [[<- <-]|[_ H]]%lookup_insert_Some; [by exists v|].
    apply lookup_fmap_Some in H as (w & <- & Hw). exists w. split; [done|apply settled_identity]. }
  assert (Hid : rm_ID (gr_Meta v) = k) by apply (He _ _ Hv). split.
  - intros i w' Hw'. destruct (HG _ _ Hw') as (w & Hw & _). by apply (filed_mono _ _ _ Hd Hf _ _ Hw).
  - intros i w' Hw'. destruct (HG _ _ Hw') as (w & Hw & Hi). destruct (identity_complete _ _ Hi) as [Hc' Hi'].
    destruct (He _ _ Hw) as [H1 H2 H3]. split; [congruence|congruence|].
    apply lookup_insert_Some in Hw' as [[<- <-]|[_ Hw']]; [intros _; split_and!; [done|done|by eexists]|].
    apply lookup_fmap_Some in Hw' as (w0 & <- & Hw0). assert (w0 = w) as -> by congruence.
    intros Hgood. destruct (settled_good _ _ _ Hgood) as [Es _]. rewrite Es in *. auto.
  - intros i j w1' w2' H1 H2 Hs. destruct (HG _ _ H1) as (w1 & E1 & I1), (HG _ _ H2) as (w2 & E2 & I2).
    apply (Hc i j w1 w2 E1 E2). apply identity_branch in I1 as [B1 C1], I2 as [B2 C2]. destruct Hs. split; congruence.
  - assert (Hk : forall i w', G' !! i = Some w' -> gr_LastKnownGood w' = true -> branch_of w' = branch_of v -> i = k).
    { intros i w' [[<- _]|[_ H]]%lookup_insert_Some Hgood Hb; [done|]. apply lookup_fmap_Some in H as (w & <- & Hw).
      destruct (settled_good _ _ _ Hgood) as [Es Hi]. rewrite Es in Hb. rewrite <- Hid, <- (Hi (eq_sym Hb)).
      symmetry. apply (He _ _ Hw). }
    intros i j w1 w2 H1 H2 (Hb & G1 & G2).
    destruct (decide (branch_of w1 = branch_of v)) as [E|Hne].
    + rewrite (Hk _ _ H1 G1 E). symmetry. by apply (Hk _ _ H2 G2); congruence.
    + assert (Hold : forall i w', G' !! i = Some w' -> gr_LastKnownGood w' = true -> branch_of w' = branch_of w1 -> G !! i = Some w').
      { intros i' w' [[<- <-]|[_ H]]%lookup_insert_Some Hgood Hb'; [done|].
        apply lookup_fmap_Some in H as (w & <- & Hw). by destruct (settled_good _ _ _ Hgood) as [-> _]. }
      apply (Hg i j w1 w2); [by apply Hold|by apply Hold|done].
Qed.

Lemma revisions_add s s' G n p v :
  drawn s s' -> revisions_ok s G -> (ms_ids s <= n < ms_ids s')%nat -> revision_ok (ms_id s n p) v -> gr_LastKnownGood v = false ->
  (forall j w, G !! j = Some w -> ~ same_commit v w) -> revisions_ok s' (<[ms_id s n p := v]> G).
Proof.
  intros Hd [Hf He Hc Hg] Hn Hok Hnot Hnew. split.
  - apply filed_insert; [done|lia|done].
  - intros i w [[<- <-]|[_ Hw]]%lookup_insert_Some; [done|by apply He].
  - apply unique_insert; [|done|].
    + unfold same_commit. intuition congruence.
    + intros j w Hw Hs. by destruct (Hnew j w Hw).
  - apply unique_insert; [|done|].
    + unfold both_good. intuition congruence.
    + intros j w Hw (_ & H & _). congruence.
Qed.

(** ** Calls *)

Inductive GitCall : Type :=
| GRecord (v : ManagedGitRevision) (actor : string)
| GSynchronized (id : string) (expected : Z) (observedDigest : string) (healthy : bool) (actor : string).

Definition git_exec (c : GitCall) : MemoryStore -> MemoryStore * option Error :=
  match c with
  | GRecord v actor => run1 (RecordManagedGitRevision v actor)
  | GSynchronized id e od h actor => run1 (MarkManagedGitRevisionSynchronized id e od h actor)
  end.

(** the API records revisions that nobody has seen healthy yet *)
Definition git_call_ok (c : GitCall) : Prop :=
  match c with GRecord v _ => gr_LastKnownGood v = false | GSynchronized _ _ _ _ _ => True end.

Lemma demote_spec v now G s :
  ms_managedGitRevisions s = G ->
  wp (demoteLoop v now (map_to_list G)) (fun r s' => r = Ok tt /\ drawn s s' /\
    ms_managedGitRevisions s' = settledRevision v now <$> G) s.
Proof.
  intros <-. apply (in_place_settles ms_managedGitRevisions (settledRevision v now)
    (fun key other => when (superseded v other) (putManagedGitRevision key (demoted now other))) _ drawn); [done|done|].
  intros k w s1 Hk. unfold settledRevision. destruct (superseded v w); cbn [when]; unfold_puts; wp_go.
  - split_and!; [done|drawing|done].
  - split_and!; [done|drawing|by rewrite insert_id].
Qed.

(** what a successful synchronization leaves *)
Record synchronized (s s' : MemoryStore) (id od : string) (v' : ManagedGitRevision) : Prop := {
  sy_revision : exists v now, ms_managedGitRevisions s !! TrimSpace id = Some v /\ TrimSpace od = gr_Digest v /\
    v' = knownGood (TrimSpace od) now v /\
    ms_managedGitRevisions s' = <[TrimSpace id := v']> (settledRevision v now <$> ms_managedGitRevisions s)
}.

Section handlers.
Context (s : MemoryStore) (Hid : id_source (ms_id s)) (Hwf : git_wf s).
Local Abbreviation leaves :=
  (fun (_ : result _) s' => drawn s s' /\ git_wf s' /\ evolves revision_evolves (ms_managedGitRevisions s) (ms_managedGitRevisions s')).

Lemma git_same s' :
  drawn s s' -> ms_managedGitRevisions s' = ms_managedGitRevisions s ->
  drawn s s' /\ git_wf s' /\ evolves revision_evolves (ms_managedGitRevisions s) (ms_managedGitRevisions s').
Proof.
  intros Hd E. unfold git_wf. rewrite E. split_and!; [done| |by apply evolves_refl].
  destruct Hwf. split; [by eapply filed_mono|done..].
Qed.
Ltac untouched := apply git_same; [drawing|done].

Lemma git_lands s' G :
  drawn s s' -> ms_managedGitRevisions s' = G -> revisions_ok s' G -> evolves revision_evolves (ms_managedGitRevisions s) G ->
  drawn s s' /\ git_wf s' /\ evolves revision_evolves (ms_managedGitRevisions s) (ms_managedGitRevisions s').
Proof. intros Hd <- HG Hev. done. Qed.

Lemma record_keeps v actor : gr_LastKnownGood v = false -> wp (RecordManagedGitRevision v actor) leaves s.
Proof.
  intros Hnot. unfold RecordManagedGitRevision; unfold_puts.
  assert (gr_LastKnownGood (normalizedRevision v) = false) as Hn by exact Hnot. revert Hn.
  generalize (normalizedRevision v) as n. clear Hnot. intros n Hn. cbv zeta. wp_go; try untouched.
  eapply git_lands; [drawing|reflexivity| |].
  - apply (revisions_add s); [drawing|exact Hwf|cbn; lia|split; [done|done|intros Hg; change (gr_LastKnownGood n = true) in Hg; congruence]|exact Hn|].
    intros j w Hw [Hb Hc]. match goal with H : map_find _ _ = None |- _ => rewrite map_find_None in H; specialize (H _ _ Hw) as Hno end.
    apply sameBranch_spec in Hb. change (gr_CommitSHA n = gr_CommitSHA w) in Hc. change (sameBranch n w = true) in Hb.
    cbv beta in Hno. rewrite Hb, Hc, bool_decide_eq_true_2 in Hno by done. done.
  - eapply (evolves_add _ _ _ (ms_ids s)); [exact Hid|apply Hwf|cbn; lia|done].
Qed.

Lemma synchronized_spec id e od h actor :
  wp (MarkManagedGitRevisionSynchronized id e od h actor) (fun r s' =>
    match r with Ok v' => drawn s s' /\ synchronized s s' id od v' | Fail _ => drawn s s' /\ ms_managedGitRevisions s' = ms_managedGitRevisions s end) s.
Proof.
  unfold MarkManagedGitRevisionSynchronized; unfold_puts. do 4 (wp_step; try (split; [drawing|done])). cbv zeta.
  wp_step.
  match goal with H : ms_managedGitRevisions s !! _ = Some ?x |- _ => rename x into v, H into Hv end.
  assert (Hi : rm_ID (gr_Meta v) = TrimSpace id) by apply (rs_each _ _ Hwf _ _ Hv).
  apply wp_bind. eapply wp_mono; [by apply demote_spec|]. intros r s1 (-> & Hd & E). cbv beta iota.
  change (ms_managedGitRevisions (tick s)) with (ms_managedGitRevisions s) in E.
  assert (Hv1 : ms_managedGitRevisions s1 !! rm_ID (gr_Meta v) = Some v).
  { rewrite E, lookup_fmap, Hi, Hv. cbn. unfold settledRevision, superseded.
    rewrite bool_decide_eq_true_2 by done. done. }
  wp_step. rewrite Hv1. cbn [get_opt]. wp_go. norm_bool.
  split; [destruct Hd as [Hg Hl]; split; [exact Hg|cbn in *; lia]|]. split. exists v, (clock s). split_and!; [done|done|done|].
  change (rm_ID (gr_Meta (knownGood (TrimSpace od) (clock s) v))) with (rm_ID (gr_Meta v)). by rewrite Hi, <- E.
Qed.

Lemma synchronized_keeps id e od h actor : wp (MarkManagedGitRevisionSynchronized id e od h actor) leaves s.
Proof.
  eapply wp_mono; [apply synchronized_spec|]. intros [v'|e'] s' [Hd H]; [|by apply git_same].
  destruct H as [(v & now & Hv & Hdig & -> & E)]. eapply git_lands; [done|exact E| |].
  - by eapply known_good_lands.
  - eapply (evolves_trans _ _ (settledRevision v now <$> ms_managedGitRevisions s)).
    + unfold revision_evolves. congruence.
    + apply evolves_fmap. intros w. apply settled_identity.
    + apply evolves_insert; [done|]. intros w Hw. rewrite lookup_fmap, Hv in Hw. injection Hw as <-.
      unfold revision_evolves. by rewrite settled_identity.
Qed.

Lemma git_exec_effect c :
  git_call_ok c -> drawn s (git_exec c s).1 /\ git_wf (git_exec c s).1 /\
  evolves revision_evolves (ms_managedGitRevisions s) (ms_managedGitRevisions (git_exec c s).1).
Proof.
  intros Hc. destruct c; cbn [git_exec];
    apply (run1_leaves _ (fun s' => drawn s s' /\ git_wf s' /\ evolves revision_evolves (ms_managedGitRevisions s) (ms_managedGitRevisions s'))).
  - by apply record_keeps.
  - apply synchronized_keeps.
Qed.
End handlers.

(** ** The latest revision *)

Definition by_stamp (stamp : ManagedGitRevision -> Time) : ManagedGitRevision -> ManagedGitRevision -> bool :=
  lexi stamp earlier (on (fun v => rm_ID (gr_Meta v)) string_lt).

Lemma later_by_stamp stamp f v : laterRevision stamp (Some f) v = by_stamp stamp f v.
Proof.
  cbn. unfold by_stamp, lexi, earlier, on. case_bool_decide as E.
  - rewrite E, Z.ltb_irrefl, Z.eqb_refl. done.
  - replace (stamp v =? stamp f) with false by (symmetry; apply Z.eqb_neq; congruence). cbn. by rewrite orb_false_r.
Qed.

(** the loop answers a revision that no other one of the branch is later than *)
Lemma latest_revision P stamp l : forall found v,
  latestRevision P stamp found l = Some v ->
  (found = Some v \/ v ∈ l /\ P v = true) /\ (forall f, found = Some f -> by_stamp stamp v f = false) /\
  forall w, w ∈ l -> P w = true -> by_stamp stamp v w = false.
Proof.
  induction l as [|x l IH]; intros found v H; cbn [latestRevision] in H.
  - subst. split_and!; [by left| |by intros w ?%elem_of_nil]. intros f [= ->]. unfold by_stamp, lexi, on.
    rewrite bool_decide_eq_true_2 by done. destruct (string_lt _ _) eqn:E; [|done]. by pose proof (string_lt_asym _ _ E); congruence.
  - destruct (IH _ _ H) as (H1 & H2 & H3). clear IH H. destruct (P x && laterRevision stamp found x) eqn:E.
    + apply andb_true_iff in E as [Ep El]. split_and!.
      * right. destruct H1 as [[= ->]|[? ?]]; (split; [|done]); [left|by right].
      * intros f ->. rewrite later_by_stamp in El. eapply not_less_trans; [apply less_asym, El|by apply H2].
      * intros w [->|Hw]%elem_of_cons Hp; [by apply H2|by apply H3].
    + split_and!; [|done|].
      * destruct H1 as [?|[? ?]]; [by left|right; split; [by right|done]].
      * intros w [->|Hw]%elem_of_cons Hp; [|by apply H3]. rewrite Hp in E. cbn in E. destruct found as [f|]; [|done].
        rewrite later_by_stamp in E. eapply not_less_trans; [exact E|by apply H2].
Qed.

Lemma latest_none P stamp l : forall found,
  latestRevision P stamp found l = None -> found = None /\ forall w, w ∈ l -> P w = false.
Proof.
  induction l as [|x l IH]; intros found H; cbn [latestRevision] in H; [split; [done|by intros w ?%elem_of_nil]|].
  destruct (IH _ H) as [H1 H2]. destruct (P x && laterRevision stamp found x) eqn:E; [done|]. subst. split; [done|].
  intros w [->|Hw]%elem_of_cons; [|by apply H2]. cbn in E. by rewrite andb_true_r in E.
Qed.

(** a branch with one candidate *)
Lemma latest_unique P stamp l v : v ∈ l -> P v = true -> (forall w, w ∈ l -> P w = true -> w = v) -> latestRevision P stamp None l = Some v.
Proof.
  intros Hv Hp Hu. destruct (latestRevision P stamp None l) as [w|] eqn:E.
  - destruct (latest_revision _ _ _ _ _ E) as ([[=]|[Hw Hpw]] & _). f_equal. by apply Hu.
  - destruct (latest_none _ _ _ _ E) as [_ Hn]. rewrite (Hn _ Hv) in Hp. done.
Qed.

(** ** Histories *)

Inductive git_step (s : MemoryStore) : MemoryStore -> Prop :=
| gi_call c : git_call_ok c -> git_step s (git_exec c s).1
| gi_other s' : drawn s s' -> ms_managedGitRevisions s' = ms_managedGitRevisions s -> git_step s s'.

Definition git_reachable (s : MemoryStore) : Prop :=
  exists now id, id_source id /\ rtc git_step (NewMemoryStoreWith now id) s.
Definition git_inv (s : MemoryStore) : Prop := id_source (ms_id s) /\ git_wf s.

Lemma git_steps s s' :
  rtc git_step s s' -> git_inv s -> git_inv s' /\ evolves revision_evolves (ms_managedGitRevisions s) (ms_managedGitRevisions s').
Proof.
  induction 1 as [s|s1 s2 s3 H12 _ IH]; intros Hi; [split; [done|by apply evolves_refl]|].
  destruct Hi as [Hid Hwf].
  assert (drawn s1 s2 /\ git_wf s2 /\ evolves revision_evolves (ms_managedGitRevisions s1) (ms_managedGitRevisions s2)) as (Hd & Hw & Hm).
  { destruct H12 as [c Hc|s' Hd E]; [by apply git_exec_effect|by apply git_same]. }
  destruct IH as [Hi3 Hm']; [split; [by rewrite (dr_gen _ _ Hd)|done]|]. split; [done|].
  eapply evolves_trans; [|exact Hm|exact Hm']. unfold revision_evolves. congruence.
Qed.

Lemma git_reachable_inv s : git_reachable s -> git_inv s.
Proof.
  intros (now & id & Hid & Hr). eapply git_steps in Hr as [Hi _]; [exact Hi|]. split; [done|].
  split; cbn; intros; simplify_map_eq; done.
Qed.

(** C27: what a branch is known to be.  In every history of recordings and
    synchronizations, in which no revision is recorded as already known good, as the API
    records it ([git_call_ok]), and leaving aside [CommitMergedGitPullRequest] of the
    delivery store, which records merges, what was recorded about a commit never changes and a commit is
    recorded once; at most one revision of a branch is its last known good one, and that
    one was observed healthy at its own digest. *)
Theorem one_known_good_revision s s' :
  git_reachable s -> rtc git_step s s' ->
  (forall id v, ms_managedGitRevisions s !! id = Some v ->
     exists v', ms_managedGitRevisions s' !! id = Some v' /\ revision_identity v' = revision_identity v) /\
  (forall i j v w, ms_managedGitRevisions s' !! i = Some v -> ms_managedGitRevisions s' !! j = Some w -> same_commit v w -> i = j) /\
  (forall i j v w, ms_managedGitRevisions s' !! i = Some v -> ms_managedGitRevisions s' !! j = Some w -> both_good v w -> i = j) /\
  (forall id v, ms_managedGitRevisions s' !! id = Some v -> gr_LastKnownGood v = true ->
     gr_SyncHealthy v = true /\ gr_ObservedDigest v = gr_Digest v).
Proof.
  intros Hr%git_reachable_inv Hs. destruct (git_steps _ _ Hs Hr) as [[_ [Hf He Hc Hg]] Hm].
  split; [exact Hm|]. split; [exact Hc|]. split; [exact Hg|]. intros id v Hv Hgood.
  by destruct (ro_good _ _ (He _ _ Hv) Hgood) as (? & ? & _).
Qed.

(** A synchronization moves the branch.  When a revision is seen healthy at its own
    digest, it is what the branch's last-known-good lookup answers from then on, the
    revision that was known good before no longer is, and revisions of other branches
    stay as they are. *)
Theorem synchronization_moves_the_branch s s' id e od h actor v organization repository branch :
  git_reachable s -> MarkManagedGitRevisionSynchronized id e od h actor s = (s', Ok v) ->
  branch_of v = (normalizeGitIdentity organization, normalizeGitIdentity repository, defaultBranch branch) ->
  GetLastKnownGoodGitRevision organization repository branch s' = (s', Ok v) /\
  gr_Digest v = TrimSpace od /\
  (forall j w, ms_managedGitRevisions s' !! j = Some w -> branch_of w = branch_of v -> gr_LastKnownGood w = true -> w = v) /\
  (forall j w, ms_managedGitRevisions s !! j = Some w -> branch_of w <> branch_of v -> ms_managedGitRevisions s' !! j = Some w).
Proof.
  intros [Hid Hwf]%git_reachable_inv E Hb.
  pose proof (wp_run _ _ _ _ _ (synchronized_spec s Hwf id e od h actor) E) as [Hd [(v0 & now & Hv0 & Hdig & Ev & EG)]].
  pose proof (wp_run _ _ _ _ _ (synchronized_keeps s Hwf id e od h actor) E) as (_ & Hwf' & _).
  assert (Hv : ms_managedGitRevisions s' !! TrimSpace id = Some v) by (by rewrite EG, lookup_insert_eq).
  assert (Hvb : branch_of v = branch_of v0) by (by rewrite Ev). assert (Hg : gr_LastKnownGood v = true) by (by rewrite Ev).
  assert (Honly : forall j w, ms_managedGitRevisions s' !! j = Some w -> branch_of w = branch_of v -> gr_LastKnownGood w = true -> w = v).
  { intros j w Hw Hbw Hgw. assert (j = TrimSpace id) as -> by (by apply (rs_good _ _ Hwf' _ _ w v)). congruence. }
  split_and!; [|by rewrite Ev, Hdig|done|].
  - unfold GetLastKnownGoodGitRevision, bind, get. cbn [fst snd].
    rewrite (latest_unique _ _ _ v); [done| | |].
    + apply list_elem_of_fmap. exists (TrimSpace id, v). split; [done|]. by apply elem_of_map_to_list.
    + rewrite Hg, andb_true_r. injection Hb as E1 E2 E3. unfold onBranch. by rewrite !bool_decide_eq_true_2.
    + intros w ([j w'] & -> & Hin)%list_elem_of_fmap Hp. apply elem_of_map_to_list in Hin.
      apply andb_true_iff in Hp as [Hp Hgw]. apply (Honly j); [done| |done]. rewrite Hb. unfold onBranch in Hp. norm_bool.
      unfold branch_of. congruence.
  - intros j w Hw Hne. rewrite EG. assert (j <> TrimSpace id) as Hj by (intros ->; congruence).
    rewrite lookup_insert_ne by done. rewrite lookup_fmap, Hw. cbn. f_equal. unfold settledRevision, superseded.
    destruct (sameBranch v0 w) eqn:Eb; [apply sameBranch_spec in Eb; congruence|]. by rewrite andb_false_r.
Qed.

(** ** Classification of drift *)

(** the evidence a request carries, without what the classification says about it *)
Definition drift_facts (v : GitDriftEvidence) :=
  (ge_Organization v, ge_Repository v, ge_Branch v, ge_BaseRevisionID v, ge_BaseDigest v, ge_BaseCommitSHA v,
   ge_CurrentRevisionID v, ge_CurrentDigest v, ge_CurrentCommitSHA v, ge_PublicKeyFingerprint v, ge_CurrentTrusted v, ge_ChangedFiles v).

Definition git_unchanged (v : GitDriftEvidence) : Prop :=
  ge_CurrentCommitSHA v = ge_BaseCommitSHA v /\ ge_CurrentDigest v = ge_BaseDigest v.

(** the table: what is wrong, as a relation between the evidence and the live digest *)
Inductive classifies (v : GitDriftEvidence) (live : string) : GitDriftClassification -> bool -> bool -> Prop :=
| cl_unknown : live = "" -> classifies v live GitDriftObservedUnknown false false
| cl_in_sync : live <> "" -> git_unchanged v -> live = ge_BaseDigest v -> classifies v live GitDriftInSync false false
| cl_live : live <> "" -> git_unchanged v -> live <> ge_BaseDigest v -> classifies v live GitDriftLiveDrift true false
| cl_untrusted : live <> "" -> ~ git_unchanged v -> ge_CurrentTrusted v = false -> classifies v live GitDriftUntrustedChange true false
| cl_commit : live <> "" -> ge_CurrentTrusted v = true -> ge_CurrentCommitSHA v <> ge_BaseCommitSHA v ->
    ge_CurrentDigest v = ge_BaseDigest v -> classifies v live GitDriftCommitOnlyChange false false
| cl_external : live <> "" -> ge_CurrentTrusted v = true -> ge_CurrentDigest v <> ge_BaseDigest v -> live = ge_BaseDigest v ->
    classifies v live GitDriftExternalChange false false
| cl_applied : live <> "" -> ge_CurrentTrusted v = true -> ge_CurrentDigest v <> ge_BaseDigest v -> live = ge_CurrentDigest v ->
    classifies v live GitDriftExternalApplied false true
| cl_three_way : live <> "" -> ge_CurrentTrusted v = true -> ge_CurrentDigest v <> ge_BaseDigest v -> live <> ge_BaseDigest v ->
    live <> ge_CurrentDigest v -> classifies v live GitDriftThreeWayConflict true false.

Lemma classifies_unique v live c1 x1 a1 c2 x2 a2 :
  classifies v live c1 x1 a1 -> classifies v live c2 x2 a2 -> c1 = c2 /\ x1 = x2 /\ a1 = a2.
Proof. intros [] Hr; inversion Hr; subst; try done; exfalso; unfold git_unchanged in *; intuition congruence. Qed.

(** C28: the classification is the table.  Whatever the evidence said about itself, the
    classification of a digest, its conflict and its adoptable flag are those of exactly
    one row of the table, and the facts are kept; a change can be adopted exactly when
    it is trusted, changes the desired state and is what runs already. *)
Theorem drift_classification_is_the_table v observed :
  let v' := ClassifyGitDrift v observed in
  (forall c x a, classifies v (TrimSpace observed) c x a <->
     c = ge_Classification v' /\ x = ge_Conflict v' /\ a = ge_Adoptable v') /\
  drift_facts v' = drift_facts v /\ ge_ObservedDigest v' = TrimSpace observed /\
  (ge_Adoptable v' = true <->
     ge_CurrentTrusted v = true /\ ge_CurrentDigest v <> ge_BaseDigest v /\ TrimSpace observed = ge_CurrentDigest v /\
     TrimSpace observed <> "").
Proof.
  cbv zeta.
  assert (Hrow : let v' := ClassifyGitDrift v observed in
    classifies v (TrimSpace observed) (ge_Classification v') (ge_Conflict v') (ge_Adoptable v') /\
    drift_facts v' = drift_facts v /\ ge_ObservedDigest v' = TrimSpace observed).
  { cbv zeta. unfold ClassifyGitDrift. cbn [ge_ObservedDigest ge_CurrentCommitSHA ge_BaseCommitSHA ge_CurrentDigest ge_BaseDigest
      ge_CurrentTrusted setf set_ge_ObservedDigest].
    generalize (TrimSpace observed) as live. intros live.
    repeat case_match; (split; [|done]); cbn [classified ge_Classification ge_Conflict ge_Adoptable setf set_ge_Classification
      set_ge_Conflict set_ge_Adoptable set_ge_Summary].
    all: repeat match goal with
         | H : bool_decide _ = true |- _ => apply bool_decide_eq_true in H
         | H : bool_decide _ = false |- _ => apply bool_decide_eq_false in H
         | H : negb _ = _ |- _ => apply (f_equal negb) in H; rewrite negb_involutive in H; cbn [negb] in H
         | H : _ && _ = true |- _ => apply andb_true_iff in H as [? ?]
         | H : _ || _ = false |- _ => apply orb_false_iff in H as [? ?]
         | H : _ || _ = true |- _ => apply orb_true_iff in H
         | H : _ && _ = false |- _ => apply andb_false_iff in H
         | H : _ \/ _ |- _ => destruct H
         end.
    all: constructor; unfold git_unchanged; try done; tauto. }
  destruct Hrow as (Hrow & Hf & Ho).
  assert (Htable : forall c x a, classifies v (TrimSpace observed) c x a <->
     c = ge_Classification (ClassifyGitDrift v observed) /\ x = ge_Conflict (ClassifyGitDrift v observed) /\
     a = ge_Adoptable (ClassifyGitDrift v observed)).
  { intros c x a. split; [intros H; by eapply classifies_unique|]. by intros (-> & -> & ->). }
  split; [exact Htable|]. split; [exact Hf|]. split; [exact Ho|]. split.
  - intros Ha. rewrite Ha in Hrow. by inversion Hrow.
  - intros (H1 & H2 & H3 & H4). destruct (Htable GitDriftExternalApplied false true) as [H _].
    destruct H as (_ & _ & <-); [by constructor|done].
Qed.

(** ** A concrete history *)

Module GitDemo.

Definition now : Time := 1000 * Second.
Definition empty : MemoryStore := NewMemoryStoreWith (fun n => now + Z.of_nat n) demo_id.
Definition history (cs : list GitCall) : MemoryStore := foldl (fun s c => (git_exec c s).1) empty cs.

Definition sha (c : string) : string := String.concat "" (repeat c 40).
Definition revision (c : string) : ManagedGitRevision :=
  mkManagedGitRevision (newMeta "" 0) "Org" "Repo" "" ("rev-" +:+ c) ("sha256:" +:+ c) (sha c) "sha256:key" "" "" "" false "" false None "".
Definition published : list GitCall := [GRecord (revision "a") "alice"; GRecord (revision "b") "alice"].
Definition find_id (c : string) (s : MemoryStore) : string :=
  default "" (fst <$> map_find (fun _ v => gr_CommitSHA v == sha c) (ms_managedGitRevisions s)).
Definition id_a : string := Eval vm_compute in find_id "a" (history published).
Definition id_b : string := Eval vm_compute in find_id "b" (history published).
Definition healthy_a : list GitCall := (published ++ [GSynchronized id_a 1 "sha256:a" true "agent"])%list.
Definition healthy_b : list GitCall := (healthy_a ++ [GSynchronized id_b 1 "sha256:b" true "agent"])%list.

Lemma git_calls_steps s cs : Forall git_call_ok cs -> rtc git_step s (foldl (fun s c => (git_exec c s).1) s cs).
Proof. intros H. revert s. induction H as [|c rest Hc _ IH]; intros s; [constructor|]. eapply rtc_l; [by apply gi_call|apply IH]. Qed.
Lemma git_history cs : Forall git_call_ok cs -> git_reachable (history cs).
Proof. intros H. exists (fun n => now + Z.of_nat n), demo_id. split; [apply demo_id_source|by apply git_calls_steps]. Qed.
Lemma healthy_ok : Forall git_call_ok healthy_a /\ Forall git_call_ok healthy_b.
Proof. split; repeat constructor. Qed.
End GitDemo.
Import GitDemo.

Lemma one_known_good_revision_witness :
  exists a b, ms_managedGitRevisions (history healthy_b) !! id_a = Some a /\ gr_LastKnownGood a = false /\
    ms_managedGitRevisions (history healthy_b) !! id_b = Some b /\ gr_LastKnownGood b = true /\ gr_ObservedDigest b = gr_Digest b.
Proof.
  destruct (one_known_good_revision (history healthy_b) (history healthy_b) (git_history _ (proj2 healthy_ok)) (rtc_refl _ _))
    as (_ & _ & _ & H).
  destruct (found gr_LastKnownGood (ms_managedGitRevisions (history healthy_b) !! id_a) false) as (a & Ea & Ha); [vm_compute; reflexivity|].
  destruct (found gr_LastKnownGood (ms_managedGitRevisions (history healthy_b) !! id_b) true) as (b & Eb & Hb); [vm_compute; reflexivity|].
  exists a, b. split; [exact Ea|]. split; [exact Ha|]. split; [exact Eb|]. split; [exact Hb|exact (proj2 (H _ _ Eb Hb))].
Defined.

Lemma synchronization_moves_the_branch_witness :
  exists s' v, MarkManagedGitRevisionSynchronized id_b 1 "sha256:b" true "agent" (history healthy_a) = (s', Ok v) /\
    GetLastKnownGoodGitRevision "org" "REPO" "main" s' = (s', Ok v).
Proof.
  destruct (succeeds (MarkManagedGitRevisionSynchronized id_b 1 "sha256:b" true "agent") (history healthy_a)) as (s' & v & E);
    [vm_compute; reflexivity|].
  assert (Hb : match (MarkManagedGitRevisionSynchronized id_b 1 "sha256:b" true "agent" (history healthy_a)).2 with
               | Ok v => branch_of v = (normalizeGitIdentity "org", normalizeGitIdentity "REPO", defaultBranch "main")
               | Fail _ => False end) by (vm_compute; reflexivity).
  rewrite E in Hb. cbn [snd] in Hb.
  destruct (synchronization_moves_the_branch _ _ _ _ _ _ _ _ "org" "REPO" "main" (git_history _ (proj1 healthy_ok)) E Hb) as (H & _).
  exists s', v. split; [exact E|exact H].
Defined.

(** ** Observations *)

(** A commit that changes nothing but the commit hides what runs: the live digest is not
    looked at, and drift that was a conflict before the commit is none after it. *)
Definition drifted_base : GitDriftEvidence :=
  mkGitDriftEvidence "org" "repo" "main" "rev-a" "sha256:a" (sha "a") "rev-a" "sha256:a" (sha "a") "sha256:key" true [] "" "" false false "".
Definition drifted_commit : GitDriftEvidence :=
  mkGitDriftEvidence "org" "repo" "main" "rev-a" "sha256:a" (sha "a") "rev-a" "sha256:a" (sha "b") "sha256:key" true [] "" "" false false "".
Example commits_hide_live_drift :
  (fun v => (ge_Classification v, ge_Conflict v)) (ClassifyGitDrift drifted_base "sha256:live") = (GitDriftLiveDrift, true) /\
  (fun v => (ge_Classification v, ge_Conflict v)) (ClassifyGitDrift drifted_commit "sha256:live") = (GitDriftCommitOnlyChange, false).
Proof. split; vm_compute; reflexivity. Qed.
