(* ===== verification/Drift.v ===== *)
(** * Drift scans

    A scan asks the agents of a project's clusters whether what runs still is
    what a baseline deployment put there ([fleet_upgrade_store.go]), and turns
    their reports into findings with a history ([drift_findings.go]). *)
From S2P Require Import Prelude GoStrings Digest Model Calendar Store Ordering Listing Organizations Targets Impact Fleet Baselines GitRevisions.
From Stdlib Require Import Ascii.
From Stdlib Require String.

(** ** Findings *)

Definition DriftFindingFingerprint (clusterID category code resource : string) : string :=
  sha256Digest (ToLower (TrimSpace clusterID) +:+ nul +:+ ToUpper (TrimSpace category) +:+ nul
                +:+ ToUpper (TrimSpace code) +:+ nul +:+ TrimSpace resource).

Definition severityRank (v : DriftSeverity) : Z :=
  if v == DriftSeverityCritical then 5
  else if v == DriftSeverityHigh then 4
  else if v == DriftSeverityMedium then 3
  else if v == DriftSeverityLow then 2
  else 1.

(** what earlier scans found on the cluster, in the order of the loops *)
Definition priorFindings (clusterID : string) (prior : list DriftScan) : list DriftFinding :=
  scan ← prior; target ← List.filter (fun t => dt_ClusterID t == clusterID) (ds_Targets scan); dt_Findings target.

(** the latest sighting of every finding; the first one among equals *)
Definition latestSighting (history : gmap string DriftFinding) (finding : DriftFinding) : gmap string DriftFinding :=
  if df_Fingerprint finding == "" then history else
  match history !! df_Fingerprint finding with
  | None => <[df_Fingerprint finding := finding]> history
  | Some old => if df_LastSeenAt old <? df_LastSeenAt finding then <[df_Fingerprint finding := finding]> history else history
  end.

Definition normalizedFinding (clusterID : string) (f : DriftFinding) : DriftFinding :=
  let f := f <| df_Category := ToUpper (TrimSpace (df_Category f)) |> <| df_Code := ToUpper (TrimSpace (df_Code f)) |>
             <| df_Owner := TrimSpace (df_Owner f) |> <| df_Resource := TrimSpace (df_Resource f) |>
             <| df_Summary := TrimSpace (df_Summary f) |>
             <| df_Remediation := (df_Remediation f) <| dr_Action := ToUpper (TrimSpace (dr_Action (df_Remediation f))) |>
                                                   <| dr_Mode := ToUpper (TrimSpace (dr_Mode (df_Remediation f))) |> |> in
  if df_Fingerprint f == ""
  then f <| df_Fingerprint := DriftFindingFingerprint clusterID (df_Category f) (df_Code f) (df_Resource f) |> else f.

Definition datedFinding (history : gmap string DriftFinding) (now : Time) (f : DriftFinding) : DriftFinding :=
  match history !! df_Fingerprint f with
  | Some old => f <| df_FirstSeenAt := df_FirstSeenAt old |> <| df_Occurrences := inc64 (df_Occurrences old) |> <| df_LastSeenAt := now |>
  | None => f <| df_FirstSeenAt := now |> <| df_Occurrences := 1 |> <| df_LastSeenAt := now |>
  end.

(** a finding that was reported twice: the worse severity, the later text and advice *)
Definition mergedFinding (old f : DriftFinding) : DriftFinding :=
  let old := if severityRank (df_Severity old) <? severityRank (df_Severity f) then old <| df_Severity := df_Severity f |> else old in
  let old := if df_Summary f != "" then old <| df_Summary := df_Summary f |> else old in
  if dr_Action (df_Remediation f) != "" then old <| df_Remediation := df_Remediation f |> else old.

Definition dedupFinding (dedup : gmap string DriftFinding) (f : DriftFinding) : gmap string DriftFinding :=
  <[df_Fingerprint f := match dedup !! df_Fingerprint f with Some old => mergedFinding old f | None => f end]> dedup.

Definition worstFirst : DriftFinding -> DriftFinding -> bool :=
  lexi (fun f => severityRank (df_Severity f)) later_than (lexi df_Category string_lt (on df_Fingerprint string_lt)).

Definition MergeDriftFindingHistory (clusterID : string) (prior : list DriftScan) (findings : list DriftFinding) (now : Time)
    : list DriftFinding :=
  let history := foldl latestSighting ∅ (priorFindings clusterID prior) in
  let dedup := foldl dedupFinding ∅ ((fun f => datedFinding history now (normalizedFinding clusterID f)) <$> findings) in
  sortSlice worstFirst (map_to_list dedup).*2.

(** ** What a report says *)

Definition newFinding (category code : string) (severity : DriftSeverity) (owner resource summary : string)
    (remediation : DriftRemediation) : DriftFinding :=
  mkDriftFinding "" category code severity owner resource summary 0 0 0 remediation.
Definition reapplyBaseline : DriftRemediation := mkDriftRemediation "REAPPLY_BASELINE" "OPERATION" true "".

Definition policyResource (resource : string) : bool :=
  let upper := ToUpper resource in
  ContainsString upper "NETWORKPOLICY/" || ContainsString upper "RESOURCEQUOTA/" || ContainsString upper "LIMITRANGE/".

(** the finding of a change, unless it changes nothing *)
Definition changeFinding (change : BaselinePlanChange) : option DriftFinding :=
  let action := ToUpper (TrimSpace (pc_Action change)) in
  if (action == "") || (action == "NOOP") then None else
  let resource := TrimSpace (pc_Resource change) in
  let policy := policyResource resource in
  Some (newFinding (if policy then "POLICY" else "BASELINE") ("RESOURCE_" +:+ action)
          (if policy then DriftSeverityHigh else DriftSeverityMedium) "platform-operator" resource
          (action +:+ " change detected for " +:+ resource) reapplyBaseline).

(** the switch over the Git classification *)
Definition gitFinding (git : GitDriftEvidence) : option DriftFinding :=
  let repository := ge_Organization git +:+ "/" +:+ ge_Repository git in
  let classification := ge_Classification git in
  if classification == GitDriftThreeWayConflict then
    Some (newFinding "GIT" "THREE_WAY_CONFLICT" DriftSeverityCritical "platform-operator" repository
            "product-generated, Git desired and live observed state conflict"
            (mkDriftRemediation "RESOLVE_THREE_WAY" "GUIDANCE" false "automatic overwrite is intentionally disabled"))
  else if classification == GitDriftUntrustedChange then
    Some (newFinding "GIT" "UNTRUSTED_GIT_CHANGE" DriftSeverityCritical "security-operator" repository
            "Git desired state changed without a trusted platform signature"
            (mkDriftRemediation "REVIEW_UNTRUSTED_GIT" "GUIDANCE" false "untrusted Git state cannot be adopted automatically"))
  else if classification == GitDriftLiveDrift then
    Some (newFinding "GIT" "LIVE_DRIFT" DriftSeverityHigh "platform-operator" repository
            "live observed state differs from the trusted Git desired state" reapplyBaseline)
  else if classification == GitDriftExternalApplied then
    Some (newFinding "GIT" "TRUSTED_EXTERNAL_APPLIED" DriftSeverityLow "platform-operator" repository
            "trusted external Git change is already applied live and can be adopted"
            (mkDriftRemediation "ADOPT_TRUSTED_GIT" "DIRECT_ACTION" (ge_Adoptable git) ""))
  else if classification == GitDriftExternalChange then
    Some (newFinding "GIT" "TRUSTED_EXTERNAL_CHANGE" DriftSeverityMedium "platform-operator" repository
            "trusted external Git change differs from the managed base" (mkDriftRemediation "REVIEW_EXTERNAL_GIT" "GUIDANCE" false ""))
  else if classification == GitDriftObservedUnknown then
    Some (newFinding "GIT" "LIVE_OBSERVED_UNKNOWN" DriftSeverityMedium "platform-operator" repository
            "live digest is unavailable for three-way comparison" (mkDriftRemediation "RERUN_DRIFT_SCAN" "GUIDANCE" false ""))
  else if classification == GitDriftCommitOnlyChange then
    Some (newFinding "GIT" "COMMIT_ONLY_CHANGE" DriftSeverityLow "platform-operator" repository
            "Git commit changed without a desired-state digest change" (mkDriftRemediation "REVIEW_GIT_COMMIT" "GUIDANCE" false ""))
  else None.

(** the finding of the digest that runs, and the comparison with it *)
Definition digestFinding (target : DriftScanTarget) (live : string) : option DriftFinding :=
  if (live == "") || (live == dt_DesiredDigest target) then None
  else Some (newFinding "BASELINE" "LIVE_DIGEST_MISMATCH" DriftSeverityHigh "platform-operator" (dt_ClusterID target)
               "live observed digest differs from the platform-generated desired digest" reapplyBaseline).
Definition runtimeComparison (target : DriftScanTarget) (live : string) : DriftComparison :=
  match dt_Git target with
  | Some git => mkDriftComparison (ge_BaseDigest git) (ge_CurrentDigest git) (ge_ObservedDigest git) (ge_Classification git)
  | None => mkDriftComparison (dt_DesiredDigest target) "" live
              (if live == "" then GitDriftObservedUnknown
               else if live == dt_DesiredDigest target then GitDriftInSync else GitDriftLiveDrift)
  end.

Definition RuntimeDriftFindings (target : DriftScanTarget) (result_ : DriftTaskResult) (prior : list DriftScan) (now : Time)
    : DriftComparison * list DriftFinding :=
  let live := TrimSpace (dtr_ObservedDigest result_) in
  let findings := (dt_Findings target ++ option_list (digestFinding target live) ++ omap changeFinding (dtr_Changes result_)
                   ++ (git ← option_list (dt_Git target); option_list (gitFinding git)))%list in
  (runtimeComparison target live, MergeDriftFindingHistory (dt_ClusterID target) prior findings now).

(** ** Scans *)

(** the loop over the targets of a request *)
Fixpoint scanTargets (s : MemoryStore) (projectID : string) (seen : list string) (targets : list DriftScanTarget)
    : Store (list DriftScanTarget) :=
  match targets with
  | [] => ret []
  | t :: rest =>
      let! cluster := get_opt (ms_managedClusters s !! dt_ClusterID t) ErrValidation in
      fail_if ((mc_ProjectID cluster != projectID) || bool_decide (dt_ClusterID t ∈ seen)) ErrValidation ;;;
      let! deployment := get_opt (ms_baselineDeployments s !! dt_BaselineDeploymentID t) ErrValidation in
      fail_if (bd_ClusterID deployment != dt_ClusterID t) ErrValidation ;;;
      let! now := nowUTC in
      fail_if (negb (BaselineCompletionEvidenceReady deployment now) || (bd_DesiredDigest deployment != dt_DesiredDigest t))
        ErrValidation ;;;
      let! out := scanTargets s projectID (dt_ClusterID t :: seen) rest in
      ret (t <| dt_State := DriftTargetPending |> <| dt_Changes := [] |> :: out)
  end.

Definition CreateDriftScan (v : DriftScan) (actor : string) : Store (DriftScan * bool) :=
  let! s := get in
  let! _ := get_opt (ms_projects s !! ds_ProjectID v) ErrNotFound in
  fail_if (negb (nonEmpty (ds_Targets v)) || blank (ds_IdempotencyKey v) || negb (HasPrefix (ds_RequestDigest v) sha256_prefix))
    ErrValidation ;;;
  match map_find (fun _ existing => (ds_ProjectID existing == ds_ProjectID v) && (ds_IdempotencyKey existing == ds_IdempotencyKey v))
          (ms_driftScans s) with
  | Some (_, existing) =>
      fail_if (ds_RequestDigest existing != ds_RequestDigest v) ErrIdempotencyConflict ;;;
      ret (existing, true)
  | None =>
      let! targets := scanTargets s (ds_ProjectID v) [] (ds_Targets v) in
      let! now := nowUTC in
      let! id := newID "drf" in
      let v := v <| ds_Targets := targets |> <| ds_Meta := newMeta id now |> <| ds_State := DriftScanQueued |>
                 <| ds_RequestedBy := actor |> in
      putDriftScan id v ;;;
      appendAuditLocked actor "drift_scan.created" "driftScan" id (rm_Revision (ds_Meta v))
        [("targets", MInt (Z.of_nat (length targets)))] ;;;
      appendOutboxLocked "driftScan" id "drift_scan.queued" (PayloadDriftScan v) ;;;
      ret (v, false)
  end.

Definition GetDriftScan (id : string) : Store DriftScan :=
  let! s := get in get_opt (ms_driftScans s !! id) ErrNotFound.

Definition ListDriftScans (projectID groupID : string) : Store (list DriftScan) :=
  let! s := get in
  ret (oldest_first ds_Meta (fun v => ((projectID == "") || (ds_ProjectID v == projectID))
                                      && ((groupID == "") || (ds_FleetGroupID v == groupID))) (ms_driftScans s)).

(** a target that the cluster's agent has yet to report *)
Definition openTarget (clusterID : string) (t : DriftScanTarget) : bool :=
  (dt_ClusterID t == clusterID) && ((dt_State t == DriftTargetPending) || (dt_State t == DriftTargetRunning)).

Definition startedTarget (now : Time) (t : DriftScanTarget) : DriftScanTarget :=
  t <| dt_State := DriftTargetRunning |> <| dt_Attempt := inc64 (dt_Attempt t) |> <| dt_StartedAt := Some now |>.

(** the loop over the targets of the scan: the target of the cluster, whether it
    starts now, and the targets with it *)
Fixpoint handOutTarget (clusterID : string) (now : Time) (targets : list DriftScanTarget)
    : option (bool * DriftScanTarget * list DriftScanTarget) :=
  match targets with
  | [] => None
  | t :: rest =>
      if dt_ClusterID t != clusterID then
        '(starts, found, rest) ← handOutTarget clusterID now rest; Some (starts, found, t :: rest)
      else if dt_State t == DriftTargetPending then Some (true, startedTarget now t, startedTarget now t :: rest)
      else Some (false, t, t :: rest)
  end.

Definition NextDriftTask (wall : Time) (clusterID agentTokenDigest : string) : Store (DriftScan * DriftScanTarget) :=
  let! _ := requireFreshClusterTaskAdmissionLocked wall clusterID agentTokenDigest in
  let! s := get in
  match oldest_first ds_Meta (fun scan => existsb (openTarget clusterID) (ds_Targets scan)) (ms_driftScans s) with
  | [] => raise ErrNotFound
  | scan :: _ =>
      let! now := nowUTC in
      match handOutTarget clusterID now (ds_Targets scan) with
      | None => raise ErrNotFound
      | Some (starts, target, targets) =>
          let scan' := scan <| ds_Targets := targets |>
                            <| ds_StartedAt := match ds_StartedAt scan with Some t => Some t | None => Some now end |>
                            <| ds_State := DriftScanRunning |> <| ds_Meta := bump (ds_Meta scan) now |> in
          if starts : bool then
            putDriftScan (rm_ID (ds_Meta scan)) scan' ;;;
            ret (scan', target)
          else ret (scan, target)
      end
  end.

(** does the report of a healthy agent show drift? *)
Definition reportsDrift (t : DriftScanTarget) (result_ : DriftTaskResult) : bool :=
  (dtr_ObservedDigest result_ != dt_DesiredDigest t)
  || match dt_Git t with
     | Some git => (ge_Classification git != GitDriftInSync) && (ge_Classification git != GitDriftNotRequested)
     | None => false
     end
  || existsb (fun change => ToUpper (pc_Action change) != "NOOP") (dtr_Changes result_).

Definition reportedTarget (result_ : DriftTaskResult) (prior : list DriftScan) (now : Time) (t : DriftScanTarget) : DriftScanTarget :=
  let t := t <| dt_ObservedDigest := dtr_ObservedDigest result_ |> <| dt_Changes := dtr_Changes result_ |>
             <| dt_Git := (fun git => ClassifyGitDrift git (dtr_GitObservedDigest result_)) <$> dt_Git t |> in
  let found := RuntimeDriftFindings t result_ prior now in
  let t := t <| dt_Comparison := Some (found.1) |> <| dt_Findings := found.2 |> <| dt_FinishedAt := Some now |> in
  if negb (dtr_Success result_) then t <| dt_State := DriftTargetFailed |> <| dt_LastError := TrimSpace (dtr_Error result_) |>
  else t <| dt_State := if reportsDrift t result_ then DriftTargetDrifted else DriftTargetInSync |> <| dt_LastError := "" |>.

(** the loop that reports on the running target of the cluster *)
Fixpoint reportTargets (clusterID : string) (report : DriftScanTarget -> DriftScanTarget) (targets : list DriftScanTarget)
    : option (list DriftScanTarget) :=
  match targets with
  | [] => None
  | t :: rest =>
      if (dt_ClusterID t != clusterID) || (dt_State t != DriftTargetRunning)
      then rest ← reportTargets clusterID report rest; Some (t :: rest)
      else Some (report t :: rest)
  end.

Definition targetIn (st : DriftTargetState) (t : DriftScanTarget) : bool := dt_State t == st.

(** the scan after the loop that counts its targets *)
Definition summedUp (now : Time) (scan : DriftScan) : DriftScan :=
  if existsb (targetIn DriftTargetPending) (ds_Targets scan) || existsb (targetIn DriftTargetRunning) (ds_Targets scan) then scan else
  let scan := scan <| ds_FinishedAt := Some now |> in
  if existsb (targetIn DriftTargetFailed) (ds_Targets scan) then
    scan <| ds_State := DriftScanFailed |> <| ds_Summary := "one or more cluster drift checks failed" |>
  else if existsb (targetIn DriftTargetDrifted) (ds_Targets scan) then
    scan <| ds_State := DriftScanDrifted |> <| ds_Summary := "managed baseline drift was detected" |>
  else scan <| ds_State := DriftScanInSync |> <| ds_Summary := "all managed baseline resources are in sync" |>.

Definition ReportDriftTask (clusterID agentTokenDigest : string) (expected : Z) (result_ : DriftTaskResult) : Store DriftScan :=
  let! _ := requireClusterTaskAdmissionLocked clusterID agentTokenDigest in
  let! s := get in
  let! scan := get_opt (ms_driftScans s !! dtr_ScanID result_) ErrNotFound in
  fail_if (rm_Revision (ds_Meta scan) != expected) ErrConflict ;;;
  let! now := nowUTC in
  let prior := map_select (fun id previous => (id != rm_ID (ds_Meta scan)) && (ds_ProjectID previous == ds_ProjectID scan))
                 (ms_driftScans s) in
  let! targets := get_opt (reportTargets clusterID (reportedTarget result_ prior now) (ds_Targets scan)) ErrInvalidTransition in
  let scan := (summedUp now (scan <| ds_Targets := targets |>)) <| ds_Meta := bump (ds_Meta scan) now |> in
  putDriftScan (rm_ID (ds_Meta scan)) scan ;;;
  let action := "drift_scan." +:+ ToLower (DriftScanState_string (ds_State scan)) in
  appendAuditLocked "cluster-agent" action "driftScan" (rm_ID (ds_Meta scan)) (rm_Revision (ds_Meta scan))
    [("clusterId", MStr clusterID)] ;;;
  appendOutboxLocked "driftScan" (rm_ID (ds_Meta scan)) action (PayloadDriftScan scan) ;;;
  ret scan.
