(* ===== verification/DriftTheorems.v ===== *)
(** * What a drift scan says

    A scan's state is the sum of its targets in every history; targets move one
    way; a scan that is in sync saw no drift; findings are merged without losing
    any of them. *)
From S2P Require Import BaselineProperties.
From S2P Require Import Prelude GoStrings Digest Model Calendar Store Ordering Listing OperationSystem.
From S2P Require Import OperationRuns Demo Collections Organizations Targets Impact Fleet Admission Baselines GitRevisions Drift.

(** ** Targets *)

Definition finishedTarget (st : DriftTargetState) : bool :=
  match st with DriftTargetInSync | DriftTargetDrifted | DriftTargetFailed => true | _ => false end.

Inductive target_step : DriftTargetState -> DriftTargetState -> Prop :=
| target_starts : target_step DriftTargetPending DriftTargetRunning
| target_ends st : finishedTarget st = true -> target_step DriftTargetRunning st.

(** nothing on the cluster differs from what was deployed *)
Definition no_drift (t : DriftScanTarget) : Prop :=
  dt_ObservedDigest t = dt_DesiredDigest t /\ (forall c, c ∈ dt_Changes t -> ToUpper (pc_Action c) = "NOOP") /\
  forall git, dt_Git t = Some git -> ge_Classification git = GitDriftInSync \/ ge_Classification git = GitDriftNotRequested.

Record target_ok (t : DriftScanTarget) : Prop := {
  tg_in_sync : dt_State t = DriftTargetInSync -> no_drift t;
  tg_started : dt_State t = DriftTargetRunning -> is_Some (dt_StartedAt t);
  tg_finished : finishedTarget (dt_State t) = true -> is_Some (dt_FinishedAt t)
}.
Definition target_identity (t : DriftScanTarget) :=
  (dt_ClusterID t, dt_BaselineDeploymentID t, dt_BaselineID t, dt_BaselineVersion t, dt_DesiredDigest t).
Record target_advances (t t' : DriftScanTarget) : Prop := {
  ta_identity : target_identity t' = target_identity t;
  ta_state : rtc target_step (dt_State t) (dt_State t');
  ta_final : finishedTarget (dt_State t) = true -> t' = t
}.
#[export] Instance target_advances_order : PreOrder target_advances.
Proof.
  split; [intros t; by split; [|constructor|]|].
  intros t u v [I1 S1 F1] [I2 S2 F2]. split; [congruence|by etrans|]. intros H. specialize (F1 H) as ->. auto.
Qed.

Lemma started_target now t : dt_State t = DriftTargetPending -> target_ok (startedTarget now t) /\ target_advances t (startedTarget now t).
Proof.
  intros E. split; (split; [done| |]).
  - intros _. by eexists.
  - done.
  - rewrite E. apply rtc_once, target_starts.
  - by rewrite E.
Qed.

(** what a report makes of a running target *)
Lemma reported_target result_ prior now t :
  dt_State t = DriftTargetRunning ->
  target_ok (reportedTarget result_ prior now t) /\ target_advances t (reportedTarget result_ prior now t) /\
  finishedTarget (dt_State (reportedTarget result_ prior now t)) = true.
Proof.
  intros E. unfold reportedTarget. cbv zeta.
  generalize (RuntimeDriftFindings (t <| dt_ObservedDigest := dtr_ObservedDigest result_ |> <| dt_Changes := dtr_Changes result_ |>
    <| dt_Git := (fun git => ClassifyGitDrift git (dtr_GitObservedDigest result_)) <$> dt_Git t |>) result_ prior now) as found.
  intros found. set (t1 := _ <| dt_FinishedAt := Some now |>).
  assert (Hfin : forall st e, finishedTarget st = true -> target_advances t (t1 <| dt_State := st |> <| dt_LastError := e |>)).
  { intros st e Hst. split; [done|rewrite E; by apply rtc_once, target_ends|by rewrite E]. }
  destruct (dtr_Success result_); cbn [negb].
  - assert (Hst : finishedTarget (if reportsDrift t1 result_ then DriftTargetDrifted else DriftTargetInSync) = true) by (by case_match).
    split_and!; [|by apply Hfin|done]. split.
    + cbn. destruct (reportsDrift t1 result_) eqn:Er; [done|]. intros _. unfold reportsDrift in Er.
      apply orb_false_iff in Er as [[H1 H2]%orb_false_iff H3]. split; [|split]; cbn.
      * norm_bool. done.
      * intros c Hc. destruct (bool_decide (ToUpper (pc_Action c) = "NOOP")) eqn:Ec; [by apply bool_decide_eq_true in Ec|].
        rewrite <- not_true_iff_false in H3. destruct H3. apply existsb_exists. exists c. split; [by apply list_elem_of_In|].
        by rewrite Ec.
      * intros git Hg. cbn in H2. rewrite Hg in H2. apply andb_false_iff in H2 as [H2|H2]; norm_bool; tauto.
    + cbn. by destruct (reportsDrift t1 result_).
    + intros _. by eexists.
  - split_and!; [|by apply Hfin|done]. split; [done|done|]. intros _. by eexists.
Qed.

(** ** The sum of the targets *)

Definition sumState (targets : list DriftScanTarget) : DriftScanState :=
  if forallb (targetIn DriftTargetPending) targets then DriftScanQueued
  else if existsb (targetIn DriftTargetPending) targets || existsb (targetIn DriftTargetRunning) targets then DriftScanRunning
  else if existsb (targetIn DriftTargetFailed) targets then DriftScanFailed
  else if existsb (targetIn DriftTargetDrifted) targets then DriftScanDrifted
  else DriftScanInSync.

Definition finishedScan (st : DriftScanState) : bool :=
  match st with DriftScanInSync | DriftScanDrifted | DriftScanFailed => true | _ => false end.

Lemma in_state st l : existsb (targetIn st) l = true <-> exists t, t ∈ l /\ dt_State t = st.
Proof.
  rewrite existsb_exists. unfold targetIn. split.
  - intros (t & Hin & H). exists t. norm_bool. split; [by apply list_elem_of_In|done].
  - intros (t & Hin & H). exists t. split; [by apply list_elem_of_In|by rewrite bool_decide_eq_true_2].
Qed.
Lemma not_in_state st l : existsb (targetIn st) l = false <-> forall t, t ∈ l -> dt_State t <> st.
Proof.
  rewrite <- not_true_iff_false, in_state. split; [intros H t Ht E; apply H; by exists t|].
  intros H (t & Ht & E). by apply (H t).
Qed.
Lemma not_all_pending l t : t ∈ l -> dt_State t <> DriftTargetPending -> forallb (targetIn DriftTargetPending) l = false.
Proof.
  intros Ht Hs. apply not_true_iff_false. rewrite forallb_forall. intros H. apply Hs.
  apply list_elem_of_In in Ht. specialize (H t Ht). unfold targetIn in H. by norm_bool.
Qed.

(** a scan is finished when every target is *)
Lemma sum_finished l : l <> [] -> finishedScan (sumState l) = true <-> forall t, t ∈ l -> finishedTarget (dt_State t) = true.
Proof.
  intros Hne. unfold sumState. destruct (forallb _ l) eqn:Ep.
  { split; [done|]. intros H. rewrite forallb_forall in Ep. destruct l as [|t l]; [done|].
    specialize (Ep t (or_introl eq_refl)). specialize (H t ltac:(left)). unfold targetIn in Ep. norm_bool. by rewrite Ep in H. }
  destruct (_ || _) eqn:Eo.
  { split; [done|]. intros H. apply orb_true_iff in Eo as [(t & Ht & E)%in_state|(t & Ht & E)%in_state]; specialize (H t Ht); by rewrite E in H. }
  apply orb_false_iff in Eo as [H1 H2]. rewrite not_in_state in H1, H2. split; [|by repeat case_match].
  intros _ t Ht. specialize (H1 t Ht). specialize (H2 t Ht). by destruct (dt_State t).
Qed.

Lemma sum_in_sync l : sumState l = DriftScanInSync -> forall t, t ∈ l -> dt_State t = DriftTargetInSync.
Proof.
  unfold sumState. intros H t Ht. destruct (forallb _ l); [done|]. destruct (_ || _) eqn:Eo; [done|].
  destruct (existsb (targetIn DriftTargetFailed) l) eqn:E3; [done|]. destruct (existsb (targetIn DriftTargetDrifted) l) eqn:E4; [done|].
  apply orb_false_iff in Eo as [E1 E2]. rewrite not_in_state in E1, E2, E3, E4.
  specialize (E1 t Ht). specialize (E2 t Ht). specialize (E3 t Ht). specialize (E4 t Ht). by destruct (dt_State t).
Qed.

(** ** Replacing a target *)

Definition replaces (l l' : list DriftScanTarget) (t t' : DriftScanTarget) : Prop :=
  exists pre post, l = (pre ++ t :: post)%list /\ l' = (pre ++ t' :: post)%list.

Lemma replaces_advances l l' t t' : replaces l l' t t' -> target_advances t t' -> Forall2 target_advances l l'.
Proof.
  intros (pre & post & -> & ->) Ht. apply Forall2_app; [reflexivity|]. constructor; [done|reflexivity].
Qed.
Lemma replaces_all (P : DriftScanTarget -> Prop) l l' t t' : replaces l l' t t' -> Forall P l -> P t' -> Forall P l'.
Proof. intros (pre & post & -> & ->) [H1 [_ H2]%Forall_cons]%Forall_app Ht. apply Forall_app. split; [done|by constructor]. Qed.
Lemma replaces_clusters l l' t t' : replaces l l' t t' -> dt_ClusterID t' = dt_ClusterID t -> dt_ClusterID <$> l' = dt_ClusterID <$> l.
Proof. intros (pre & post & -> & ->) E. by rewrite !fmap_app, !fmap_cons, E. Qed.
Lemma replaces_in l l' t t' : replaces l l' t t' -> t ∈ l /\ t' ∈ l'.
Proof. intros (pre & post & -> & ->). split; apply elem_of_app; right; left. Qed.

Lemma handed_out c now l b t l' :
  handOutTarget c now l = Some (b, t, l') ->
  (b = false /\ l' = l /\ t ∈ l /\ dt_ClusterID t = c /\ dt_State t <> DriftTargetPending) \/
  (b = true /\ exists t0, replaces l l' t0 t /\ t = startedTarget now t0 /\ dt_ClusterID t0 = c /\ dt_State t0 = DriftTargetPending).
Proof.
  revert b t l'. induction l as [|x l IH]; intros b t l' H; cbn [handOutTarget] in H; [done|].
  destruct (dt_ClusterID x != c) eqn:Ec.
  - destruct (handOutTarget c now l) as [[[b0 t0] l0]|] eqn:E; [|done]. cbn in H. injection H as <- <- <-.
    destruct (IH _ _ _ eq_refl) as [(-> & -> & Hin & H1 & H2)|(-> & t1 & (pre & post & -> & ->) & H1)].
    + left. split_and!; [done|done|by right|done|done].
    + right. split; [done|]. exists t1. split; [by exists (x :: pre), post|done].
  - norm_bool. case_bool_decide as Es; injection H as <- <- <-.
    + right. split; [done|]. exists x. split; [by exists [], l|done].
    + left. split_and!; [done|done|left|done|done].
Qed.

Lemma reported c rep l l' :
  reportTargets c rep l = Some l' ->
  exists t, replaces l l' t (rep t) /\ dt_ClusterID t = c /\ dt_State t = DriftTargetRunning.
Proof.
  revert l'. induction l as [|x l IH]; intros l' H; cbn [reportTargets] in H; [done|].
  destruct (_ || _) eqn:Ec.
  - destruct (reportTargets c rep l) as [l0|] eqn:E; [|done]. cbn in H. injection H as <-.
    destruct (IH _ eq_refl) as (t & (pre & post & -> & ->) & H1). exists t. split; [by exists (x :: pre), post|done].
  - injection H as <-. apply orb_false_iff in Ec as [E1 E2]. norm_bool. exists x. split; [by exists [], l|done].
Qed.

(** the running targets of a finished list: none *)
Lemma report_finds_none c rep l : (forall t, t ∈ l -> dt_State t <> DriftTargetRunning) -> reportTargets c rep l = None.
Proof.
  intros H. destruct (reportTargets c rep l) as [l'|] eqn:E; [|done]. destruct (reported _ _ _ _ E) as (t & Hr & _ & Hs).
  by destruct (H t (proj1 (replaces_in _ _ _ _ Hr))).
Qed.

(** ** The invariant *)

Record scan_ok (id : string) (v : DriftScan) : Prop := {
  sn_id : rm_ID (ds_Meta v) = id;
  sn_targets : ds_Targets v <> [] /\ NoDup (dt_ClusterID <$> ds_Targets v);
  sn_state : ds_State v = sumState (ds_Targets v);
  sn_each : Forall target_ok (ds_Targets v);
  sn_finished : finishedScan (ds_State v) = true -> is_Some (ds_FinishedAt v)
}.
Definition same_scan_request (v w : DriftScan) : Prop :=
  ds_ProjectID v = ds_ProjectID w /\ ds_IdempotencyKey v = ds_IdempotencyKey w.
Record scans_ok (s : MemoryStore) (D : gmap string DriftScan) : Prop := {
  sc_filed : filed s D;
  sc_each : forall id v, D !! id = Some v -> scan_ok id v;
  sc_keys : forall i j v w, D !! i = Some v -> D !! j = Some w -> same_scan_request v w -> i = j
}.
Definition drift_wf (s : MemoryStore) : Prop := scans_ok s (ms_driftScans s).

Definition scan_identity (v : DriftScan) :=
  (rm_ID (ds_Meta v), rm_CreatedAt (ds_Meta v), ds_ProjectID v, ds_FleetGroupID v, ds_RequestedBy v, ds_IdempotencyKey v, ds_RequestDigest v).
Record scan_advances (v v' : DriftScan) : Prop := {
  sv_identity : scan_identity v' = scan_identity v;
  sv_targets : Forall2 target_advances (ds_Targets v) (ds_Targets v');
  sv_final : finishedScan (ds_State v) = true -> v' = v
}.
#[export] Instance scan_advances_order : PreOrder scan_advances.
Proof.
  split; [intros v; by split|]. intros u v w [I1 T1 F1] [I2 T2 F2]. split; [congruence|by etrans|].
  intros H. specialize (F1 H) as ->. auto.
Qed.

(** ** Calls *)

Inductive DriftCall : Type :=
| DCreate (v : DriftScan) (actor : string)
| DNext (wall : Time) (clusterID agentTokenDigest : string)
| DReport (clusterID agentTokenDigest : string) (expected : Z) (result_ : DriftTaskResult).

Definition drift_exec (c : DriftCall) : MemoryStore -> MemoryStore * option Error :=
  match c with
  | DCreate v actor => run1 (CreateDriftScan v actor)
  | DNext wall k d => run1 (NextDriftTask wall k d)
  | DReport k d e r => run1 (ReportDriftTask k d e r)
  end.

(** a target of a new scan is backed by what was deployed *)
Definition backed (s : MemoryStore) (project : string) (t : DriftScanTarget) : Prop :=
  exists cluster deployment now,
    ms_managedClusters s !! dt_ClusterID t = Some cluster /\ mc_ProjectID cluster = project /\
    ms_baselineDeployments s !! dt_BaselineDeploymentID t = Some deployment /\ bd_ClusterID deployment = dt_ClusterID t /\
    bd_DesiredDigest deployment = dt_DesiredDigest t /\ BaselineCompletionEvidenceReady deployment now = true.
Definition queuedTarget (t : DriftScanTarget) : DriftScanTarget := t <| dt_State := DriftTargetPending |> <| dt_Changes := [] |>.

Lemma scan_targets_spec s project seen ts : forall s1,
  wp (scanTargets s project seen ts) (fun r s2 => drawn s1 s2 /\ same_data s1 s2 /\
    match r with
    | Ok out => out = queuedTarget <$> ts /\ NoDup (dt_ClusterID <$> ts) /\ Forall (fun t => dt_ClusterID t ∉ seen) ts /\
        Forall (backed s project) ts
    | Fail _ => True
    end) s1.
Proof.
  revert seen. induction ts as [|t ts IH]; intros seen s1; cbn [scanTargets].
  - wp_go. split_and!; [drawing|done|done|constructor|constructor|constructor].
  - repeat (wp_step; try (split_and!; [drawing|done|done])). apply wp_bind.
    eapply wp_mono; [apply IH|]. intros [out|e] s2 (Hd & Hs & Hout); cbn beta iota;
      (assert (Hd' : drawn s1 s2) by (etrans; [|exact Hd]; drawing); split; [exact Hd'|]; split; [by etrans|]); [|done].
    wp_go. destruct Hout as (-> & Hn & Hns & Hb). norm_bool. split; [done|]. rewrite fmap_cons. split; [|split].
    + constructor; [|done]. intros (t' & Et & Ht')%list_elem_of_fmap. rewrite Forall_forall in Hns.
      apply (Hns t' Ht'). rewrite <- Et. left.
    + constructor; [done|]. eapply Forall_impl; [exact Hns|]. intros t' Ht' Hin. apply Ht'. by right.
    + constructor; [|done]. eexists _, _, _. split_and!; done.
Qed.

Section handlers.
Context (s : MemoryStore) (Hid : id_source (ms_id s)) (Hwf : drift_wf s).
Local Abbreviation leaves :=
  (fun (_ : result _) s' => drawn s s' /\ drift_wf s' /\ evolves scan_advances (ms_driftScans s) (ms_driftScans s')).

Lemma drift_same s' :
  drawn s s' -> ms_driftScans s' = ms_driftScans s ->
  drawn s s' /\ drift_wf s' /\ evolves scan_advances (ms_driftScans s) (ms_driftScans s').
Proof.
  intros Hd E. unfold drift_wf. rewrite E. split_and!; [done| |by apply evolves_refl].
  destruct Hwf. split; [by eapply filed_mono|done..].
Qed.
Ltac untouched := apply drift_same; [drawing|done].

(** a scan one of whose targets moved *)
Lemma scan_lands s' k v v' t t' :
  drawn s s' -> ms_driftScans s' = <[k := v']> (ms_driftScans s) -> ms_driftScans s !! k = Some v ->
  scan_identity v' = scan_identity v -> replaces (ds_Targets v) (ds_Targets v') t t' -> target_advances t t' -> target_ok t' ->
  finishedTarget (dt_State t) = false -> ds_State v' = sumState (ds_Targets v') ->
  (finishedScan (ds_State v') = true -> is_Some (ds_FinishedAt v')) ->
  drawn s s' /\ drift_wf s' /\ evolves scan_advances (ms_driftScans s) (ms_driftScans s').
Proof.
  intros Hd E Hv Ei Hr Ha Ht Hopen Hst Hfin. split; [done|]. unfold drift_wf. rewrite E.
  destruct Hwf as [Hf He Hk]. destruct (He _ _ Hv) as [H1 [H2 H3] H4 H5 H6].
  assert (Hn : ds_Targets v' <> []).
  { intros En. destruct (replaces_in _ _ _ _ Hr) as [_ Hin]. rewrite En in Hin. by apply elem_of_nil in Hin. }
  pose proof Ei as Ei'. injection Ei' as E1 _ E3 _ _ E6 _. split.
  - split.
    + by eapply filed_update.
    + intros i w [[<- <-]|[_ Hw]]%lookup_insert_Some; [|by apply He]. split; [congruence| |done| |done].
      * split; [done|]. destruct Ha as [Hti _ _]. injection Hti as Hti _ _ _ _. by rewrite (replaces_clusters _ _ _ _ Hr Hti).
      * by eapply replaces_all.
    + apply unique_insert; [|done|]; unfold same_scan_request.
      * intuition congruence.
      * intros j w Hw [K1 K2]. symmetry. apply (Hk k j v w Hv Hw). split; congruence.
  - eapply evolves_update; [exact Hv|done|]. split; [done|by eapply replaces_advances|].
    intros Hdone. exfalso. rewrite H4 in Hdone. rewrite sum_finished in Hdone by done.
    specialize (Hdone _ (proj1 (replaces_in _ _ _ _ Hr))). congruence.
Qed.

(** a scan that is new *)
Lemma scan_starts s' n p v :
  drawn s s' -> ms_driftScans s' = <[ms_id s n p := v]> (ms_driftScans s) -> (ms_ids s <= n < ms_ids s')%nat ->
  scan_ok (ms_id s n p) v -> (forall j w, ms_driftScans s !! j = Some w -> ~ same_scan_request v w) ->
  drawn s s' /\ drift_wf s' /\ evolves scan_advances (ms_driftScans s) (ms_driftScans s').
Proof.
  intros Hd E Hn Hok Hnew. split; [done|]. unfold drift_wf. rewrite E. destruct Hwf as [Hf He Hk]. split; [split|].
  - apply filed_insert; [done|lia|done].
  - intros j w [[<- <-]|[_ Hw]]%lookup_insert_Some; [done|by apply He].
  - apply unique_insert; [unfold same_scan_request; intuition congruence|done|].
    intros j w Hw Hs. by destruct (Hnew j w Hw).
  - eapply evolves_add; [exact Hid|exact Hf|lia|done].
Qed.

Lemma create_scan_keeps v actor : wp (CreateDriftScan v actor) leaves s.
Proof.
  unfold CreateDriftScan; unfold_puts. do 3 (wp_step; try untouched). wp_go; try untouched. apply wp_bind.
  eapply wp_mono; [apply scan_targets_spec|]. intros [out|e] s1 (Hd & Hs & Hout); cbn beta iota;
    apply same_data_alt in Hs as (t & i & ->); [|untouched].
  destruct Hout as (-> & Hn & _ & _). wp_go. destruct Hd as [_ Hl]. cbn in Hl. norm_bool.
  match goal with H : map_find _ _ = None |- _ => rewrite map_find_None in H; rename H into Hnone end.
  assert (Hq : queuedTarget <$> ds_Targets v <> []) by (by destruct (ds_Targets v)).
  eapply (scan_starts _ i "drf"); [drawing|reflexivity|cbn; lia|split; [done| | | |done]; cbn|].
  - split; [done|]. rewrite <- list_fmap_compose. exact Hn.
  - unfold sumState. replace (forallb _ _) with true; [done|]. symmetry. apply forallb_forall.
    intros x Hx. apply list_elem_of_In, list_elem_of_fmap in Hx as (y & -> & _). done.
  - apply Forall_fmap, Forall_true. intros x. by split.
  - intros j w Hw [K1 K2]. cbn in K1, K2. specialize (Hnone _ _ Hw). cbn in Hnone.
    rewrite !bool_decide_eq_true_2 in Hnone by done. done.
Qed.

Lemma next_drift_keeps wall k d : wp (NextDriftTask wall k d) leaves s.
Proof.
  unfold NextDriftTask; unfold_puts. eapply wp_reads; [apply fresh_admission_reads| |].
  { intros e t i Hd. untouched. }
  intros c t i Hd [_ _]. wp_step. destruct (oldest_first _ _ _) as [|v rest] eqn:Eo; [wp_go; untouched|].
  apply oldest_head in Eo as [(j & Hv & _) _]. cbn in Hv. destruct (sc_each _ _ Hwf _ _ Hv) as [H1 [H2 H3] H4 H5 H6].
  wp_step. destruct (handOutTarget _ _ _) as [[[b x] l]|] eqn:Eh; [|wp_go; untouched].
  apply handed_out in Eh as [(-> & -> & _)|(-> & t0 & Hr & -> & Hc & Hp)]; wp_go; [untouched|].
  destruct (started_target (clock (s <| ms_ticks := t |> <| ms_ids := i |>)) t0 Hp) as [Hok Ha].
  rewrite H1. eapply scan_lands; [drawing|reflexivity|exact Hv|reflexivity|exact Hr|exact Ha|exact Hok|by rewrite Hp| |done].
  change (DriftScanRunning = sumState l). unfold sumState. destruct (replaces_in _ _ _ _ Hr) as [_ Hin].
  rewrite (not_all_pending _ _ Hin) by done.
  assert (existsb (targetIn DriftTargetRunning) l = true) as -> by (apply in_state; eexists; split; [exact Hin|done]).
  by rewrite orb_true_r.
Qed.

Lemma summed_up now v :
  forallb (targetIn DriftTargetPending) (ds_Targets v) = false -> ds_State v = DriftScanRunning ->
  ds_State (summedUp now v) = sumState (ds_Targets v) /\ ds_Targets (summedUp now v) = ds_Targets v /\
  scan_identity (summedUp now v) = scan_identity v /\ (finishedScan (ds_State (summedUp now v)) = true -> is_Some (ds_FinishedAt (summedUp now v))).
Proof.
  intros Hp Hst. unfold summedUp, sumState. rewrite Hp. destruct (_ || _); [by rewrite Hst|].
  destruct (existsb (targetIn DriftTargetFailed) (ds_Targets v)) eqn:E1.
  { change (ds_Targets (v <| ds_FinishedAt := Some now |>)) with (ds_Targets v). rewrite E1. split_and!; [done..|]. by eexists. }
  change (ds_Targets (v <| ds_FinishedAt := Some now |>)) with (ds_Targets v). rewrite E1.
  destruct (existsb (targetIn DriftTargetDrifted) (ds_Targets v)); (split_and!; [done..|]; by eexists).
Qed.

Lemma report_drift_keeps k d e result_ : wp (ReportDriftTask k d e result_) leaves s.
Proof.
  unfold ReportDriftTask; unfold_puts. eapply wp_reads; [apply admission_reads| |].
  { intros e' t i Hd. untouched. }
  intros c t i Hd _. do 4 (wp_step; try untouched). cbv zeta.
  match goal with H : ms_driftScans _ !! _ = Some ?x |- _ => rename x into v, H into Hv end.
  change (ms_driftScans s !! dtr_ScanID result_ = Some v) in Hv.
  destruct (sc_each _ _ Hwf _ _ Hv) as [H1 [H2 H3] H4 H5 H6]. wp_step; [untouched|].
  match goal with H : reportTargets _ (reportedTarget _ ?p ?n) _ = Some ?x |- _ =>
    set (prior := p) in *; set (now := n) in *; rename x into l, H into Er end.
  destruct (reported _ _ _ _ Er) as (t0 & Hr & Hc & Hst).
  destruct (reported_target result_ prior now t0 Hst) as (Hok & Ha & Hfin).
  assert (Hsum : ds_State v = DriftScanRunning).
  { rewrite H4. unfold sumState. destruct (replaces_in _ _ _ _ Hr) as [Hin _]. rewrite (not_all_pending _ _ Hin) by congruence.
    assert (existsb (targetIn DriftTargetRunning) (ds_Targets v) = true) as -> by (apply in_state; by exists t0). by rewrite orb_true_r. }
  destruct (summed_up now (v <| ds_Targets := l |>)) as (Hs1 & Hs2 & Hs3 & Hs4); [|done|].
  { cbn. destruct (replaces_in _ _ _ _ Hr) as [_ Hin]. apply (not_all_pending _ _ Hin). by intros Ep; rewrite Ep in Hfin. }
  revert Hs1 Hs2 Hs3 Hs4. generalize (summedUp now (v <| ds_Targets := l |>)) as v'. intros v' Hs1 Hs2 Hs3 Hs4. cbn in Hs1, Hs2.
  wp_go. rewrite <- H1 in Hv.
  eapply (scan_lands _ (rm_ID (ds_Meta v)) v); [drawing|reflexivity|exact Hv| | |exact Ha|exact Hok|by rewrite Hst| |exact Hs4].
  - unfold scan_identity in *. cbn in *. by injection Hs3 as _ _ -> -> -> -> ->.
  - change (replaces (ds_Targets v) (ds_Targets v') t0 (reportedTarget result_ prior now t0)). by rewrite Hs2.
  - change (ds_State v' = sumState (ds_Targets v')). by rewrite Hs1, Hs2.
Qed.

Lemma drift_exec_effect c :
  drawn s (drift_exec c s).1 /\ drift_wf (drift_exec c s).1 /\ evolves scan_advances (ms_driftScans s) (ms_driftScans (drift_exec c s).1).
Proof.
  destruct c; cbn [drift_exec];
    apply (run1_leaves _ (fun s' => drawn s s' /\ drift_wf s' /\ evolves scan_advances (ms_driftScans s) (ms_driftScans s'))).
  - apply create_scan_keeps.
  - apply next_drift_keeps.
  - apply report_drift_keeps.
Qed.
End handlers.

(** ** Findings *)

Lemma merged_finding old f :
  df_Fingerprint (mergedFinding old f) = df_Fingerprint old /\
  (df_FirstSeenAt (mergedFinding old f), df_LastSeenAt (mergedFinding old f), df_Occurrences (mergedFinding old f)) =
    (df_FirstSeenAt old, df_LastSeenAt old, df_Occurrences old) /\
  severityRank (df_Severity (mergedFinding old f)) = Z.max (severityRank (df_Severity old)) (severityRank (df_Severity f)) /\
  (df_Severity (mergedFinding old f) = df_Severity old \/ df_Severity (mergedFinding old f) = df_Severity f).
Proof.
  unfold mergedFinding. destruct (severityRank (df_Severity old) <? severityRank (df_Severity f)) eqn:E;
    destruct (df_Summary f != ""), (dr_Action (df_Remediation f) != ""); cbn; split_and!; try done; try (by left); try (by right); lia.
Qed.

(** folding a map entry by entry: every key sees the elements that carry it *)
Lemma fold_by_key {X V} (key : X -> string) (step : gmap string V -> X -> gmap string V) (upd : option V -> X -> option V) :
  (forall h x k, step h x !! k = if decide (key x = k) then upd (h !! k) x else h !! k) ->
  forall l h k, foldl step h l !! k = foldl upd (h !! k) (filter (fun x => key x = k) l).
Proof.
  intros Hstep. induction l as [|x l IH]; intros h k; [done|]. cbn [foldl]. rewrite IH, Hstep, filter_cons.
  by destruct (decide (key x = k)).
Qed.

Definition sight (o : option DriftFinding) (x : DriftFinding) : option DriftFinding :=
  if df_Fingerprint x == "" then o else
  match o with Some old => if df_LastSeenAt old <? df_LastSeenAt x then Some x else Some old | None => Some x end.
Definition gather (o : option DriftFinding) (x : DriftFinding) : option DriftFinding :=
  Some (match o with Some old => mergedFinding old x | None => x end).

Lemma latest_lookup h x k : latestSighting h x !! k = if decide (df_Fingerprint x = k) then sight (h !! k) x else h !! k.
Proof.
  unfold latestSighting, sight. case_bool_decide as E; [by case_decide|]. case_decide as Ek.
  - subst k. destruct (h !! df_Fingerprint x) as [old|] eqn:Eh; [|by rewrite lookup_insert_eq].
    case_match; [by rewrite lookup_insert_eq|done].
  - destruct (h !! df_Fingerprint x) as [old|]; [|by rewrite lookup_insert_ne]. case_match; [by rewrite lookup_insert_ne|done].
Qed.
Lemma dedup_lookup h x k : dedupFinding h x !! k = if decide (df_Fingerprint x = k) then gather (h !! k) x else h !! k.
Proof.
  unfold dedupFinding, gather. case_decide as Ek; [subst k; by rewrite lookup_insert_eq|by rewrite lookup_insert_ne].
Qed.

(** the latest sighting of a fingerprint *)
Definition lastSighting (l : list DriftFinding) (fp : string) (p : DriftFinding) : Prop :=
  p ∈ l /\ df_Fingerprint p = fp /\ forall q, q ∈ l -> df_Fingerprint q = fp -> df_LastSeenAt q <= df_LastSeenAt p.

Lemma sight_fold l : forall o p,
  Forall (fun x => df_Fingerprint x <> "") l -> foldl sight o l = Some p ->
  (o = Some p \/ p ∈ l) /\ (forall q, o = Some q -> df_LastSeenAt q <= df_LastSeenAt p) /\
  forall q, q ∈ l -> df_LastSeenAt q <= df_LastSeenAt p.
Proof.
  induction l as [|x l IH]; intros o p Hl H; cbn [foldl] in H.
  - subst. split_and!; [by left|intros q [= ->]; lia|by intros q ?%elem_of_nil].
  - apply Forall_cons in Hl as [Hx Hl]. destruct (IH _ _ Hl H) as (H1 & H2 & H3).
    unfold sight in H1, H2. rewrite bool_decide_eq_false_2 in H1, H2 by done.
    split; [|split].
    + destruct o as [old|]; [destruct (df_LastSeenAt old <? _)|]; destruct H1 as [H1|H1]; try (right; by right); [|by left|];
        injection H1 as ->; right; left.
    + intros q ->. destruct (df_LastSeenAt q <? _) eqn:E; [specialize (H2 x eq_refl); lia|by apply H2].
    + intros q [->|Hq]%elem_of_cons; [|by apply H3]. destruct o as [old|]; [|by apply H2].
      destruct (df_LastSeenAt old <? _) eqn:E; [by apply H2|specialize (H2 old eq_refl); lia].
Qed.
Lemma sight_some l o : Forall (fun x => df_Fingerprint x <> "") l -> foldl sight o l = None -> o = None /\ l = [].
Proof.
  revert o. induction l as [|x l IH]; intros o Hl H; [done|]. apply Forall_cons in Hl as [Hx Hl]. cbn [foldl] in H.
  destruct (IH _ Hl H) as [Hs _]. unfold sight in Hs. rewrite bool_decide_eq_false_2 in Hs by done. destruct o; [by case_match|done].
Qed.

Lemma history_spec l fp :
  fp <> "" ->
  match foldl latestSighting ∅ l !! fp with
  | Some p => lastSighting l fp p
  | None => forall q, q ∈ l -> df_Fingerprint q <> fp
  end.
Proof.
  intros Hne. rewrite (fold_by_key df_Fingerprint latestSighting sight latest_lookup), lookup_empty.
  set (f := filter _ l). assert (Hf : forall q, q ∈ f <-> df_Fingerprint q = fp /\ q ∈ l) by (intros q; unfold f; by rewrite list_elem_of_filter).
  assert (Hall : Forall (fun x => df_Fingerprint x <> "") f) by (apply Forall_forall; intros q Hq; apply Hf in Hq as [Hq _]; congruence).
  destruct (foldl sight None f) as [p|] eqn:E.
  - destruct (sight_fold _ _ _ Hall E) as ([[=]|Hp] & _ & Hmax). apply Hf in Hp as [Hp Hin]. split_and!; [done|done|].
    intros q Hq Hfq. apply Hmax, Hf. done.
  - destruct (sight_some _ _ Hall E) as [_ Hnil]. intros q Hq Hfq. assert (Hin : q ∈ f) by (by apply Hf). rewrite Hnil in Hin.
    by apply elem_of_nil in Hin.
Qed.

(** everything that was reported under a fingerprint, gathered into one finding *)
Definition dates (f : DriftFinding) := (df_FirstSeenAt f, df_LastSeenAt f, df_Occurrences f).
Lemma gather_fold l : forall o g,
  foldl gather o l = Some g ->
  (forall f, o = Some f -> df_Fingerprint g = df_Fingerprint f /\ dates g = dates f /\ severityRank (df_Severity f) <= severityRank (df_Severity g)) /\
  (o = None -> exists f, f ∈ l /\ df_Fingerprint g = df_Fingerprint f /\ dates g = dates f) /\
  (forall f, f ∈ l -> severityRank (df_Severity f) <= severityRank (df_Severity g)) /\
  (exists f, (o = Some f \/ f ∈ l) /\ df_Severity g = df_Severity f).
Proof.
  induction l as [|x l IH]; intros o g H; cbn [foldl] in H.
  - subst. split_and!; [intros f [= ->]; by split_and!|done|by intros f ?%elem_of_nil|exists g; split; [by left|done]].
  - destruct (IH _ _ H) as (H1 & _ & H3 & (f0 & Hf0 & Hsev)). specialize (H1 _ eq_refl) as (Hfp & Hd & Hr).
    destruct o as [old|]; cbn in *.
    + destruct (merged_finding old x) as (M1 & M2 & M3 & M4). split_and!.
      * intros f [= ->]. split; [congruence|]. split; [by rewrite Hd|lia].
      * done.
      * intros f [->|Hf]%elem_of_cons; [lia|by apply H3].
      * destruct Hf0 as [[= <-]|Hf0]; [|exists f0; split; [right; by right|done]].
        destruct M4 as [M4|M4]; [exists old|exists x]; (split; [|congruence]); [by left|right; left].
    + split_and!; [done| | |].
      * intros _. exists x. split; [left|done].
      * intros f [->|Hf]%elem_of_cons; [done|by apply H3].
      * destruct Hf0 as [[= <-]|Hf0]; [exists x|exists f0]; (split; [|done]); right; [left|by right].
Qed.
Lemma gather_some l o : foldl gather o l = None -> o = None /\ l = [].
Proof. revert o. induction l as [|x l IH]; intros o H; [done|]. cbn [foldl] in H. by destruct (IH _ H) as [[=] _]. Qed.

Lemma sorted_weaken {A} (R S : A -> A -> Prop) l : (forall x y, R x y -> S x y) -> StronglySorted R l -> StronglySorted S l.
Proof. intros H. induction 1 as [|x l _ IH Hx]; constructor; [done|]. eapply Forall_impl; [exact Hx|]. apply H. Qed.

Lemma fingerprint_named c category code resource : DriftFindingFingerprint c category code resource <> "".
Proof.
  unfold DriftFindingFingerprint. generalize (ToLower (TrimSpace c) +:+ nul +:+ ToUpper (TrimSpace category) +:+ nul
    +:+ ToUpper (TrimSpace code) +:+ nul +:+ TrimSpace resource). intros raw H.
  pose proof (sha256_prefixed raw) as Hp. by rewrite H in Hp.
Qed.
Lemma renamed_finding x d : d <> "" -> df_Fingerprint (x <| df_Fingerprint := d |>) <> "".
Proof. done. Qed.
Lemma normalized_named clusterID f : df_Fingerprint (normalizedFinding clusterID f) <> "".
Proof. unfold normalizedFinding. cbv zeta. case_bool_decide as E; [apply renamed_finding, fingerprint_named|exact E]. Qed.
Lemma normalized_severity clusterID f : df_Severity (normalizedFinding clusterID f) = df_Severity f.
Proof. unfold normalizedFinding. cbv zeta. by case_bool_decide. Qed.

Section merge.
Context (clusterID : string) (prior : list DriftScan) (findings : list DriftFinding) (now : Time).
Let history := foldl latestSighting ∅ (priorFindings clusterID prior).
Let dated f := datedFinding history now (normalizedFinding clusterID f).
Let merged := foldl dedupFinding ∅ (dated <$> findings).

Lemma dated_keeps f :
  df_Fingerprint (dated f) = df_Fingerprint (normalizedFinding clusterID f) /\ df_Severity (dated f) = df_Severity f.
Proof.
  unfold dated, datedFinding. rewrite <- (normalized_severity clusterID f). generalize (normalizedFinding clusterID f) as n. intros n.
  by destruct (history !! _).
Qed.

Lemma merged_lookup k g :
  merged !! k = Some g -> df_Fingerprint g = k /\
  (exists f, f ∈ findings /\ df_Fingerprint (dated f) = k /\ dates g = dates (dated f)) /\
  (exists f, f ∈ findings /\ df_Fingerprint (dated f) = k /\ df_Severity g = df_Severity f) /\
  forall f, f ∈ findings -> df_Fingerprint (dated f) = k -> severityRank (df_Severity f) <= severityRank (df_Severity g).
Proof.
  unfold merged. rewrite (fold_by_key df_Fingerprint dedupFinding gather dedup_lookup), lookup_empty. intros H.
  assert (Hin : forall x, x ∈ filter (fun x => df_Fingerprint x = k) (dated <$> findings) <->
                  df_Fingerprint x = k /\ exists f, x = dated f /\ f ∈ findings).
  { intros x. by rewrite list_elem_of_filter, list_elem_of_fmap. }
  destruct (gather_fold _ _ _ H) as (_ & H2 & H3 & (x & [[=]|Hx] & Hsev)). destruct (H2 eq_refl) as (y & Hy & Efp & Ed).
  apply Hin in Hy as [Hyk (f & -> & Hf)]. apply Hin in Hx as [Hxk (f' & -> & Hf')].
  split; [congruence|]. split; [by exists f|]. split; [exists f'; split_and!; [done|done|by rewrite <- (proj2 (dated_keeps f'))]|].
  intros f1 Hf1 Hk. rewrite <- (proj2 (dated_keeps f1)). apply H3, Hin. split; [done|by exists f1].
Qed.
Lemma merged_finds f : f ∈ findings -> is_Some (merged !! df_Fingerprint (dated f)).
Proof.
  intros Hf. destruct (merged !! _) as [g|] eqn:E; [by eexists|]. exfalso. revert E.
  unfold merged. rewrite (fold_by_key df_Fingerprint dedupFinding gather dedup_lookup), lookup_empty. intros E.
  apply gather_some in E as [_ E]. assert (Hin : dated f ∈ filter (fun x => df_Fingerprint x = df_Fingerprint (dated f)) (dated <$> findings)).
  { apply list_elem_of_filter. split; [done|]. apply list_elem_of_fmap. by exists f. }
  rewrite E in Hin. by apply elem_of_nil in Hin.
Qed.

Lemma elem_of_merged g : g ∈ sortSlice worstFirst (map_to_list merged).*2 <-> exists k, merged !! k = Some g.
Proof.
  unfold sortSlice. rewrite (merge_sort_Permutation (not_after worstFirst)), list_elem_of_fmap. split.
  - intros ([k v] & -> & H%elem_of_map_to_list). by exists k.
  - intros (k & H). exists (k, g). split; [done|]. by apply elem_of_map_to_list.
Qed.

Lemma merged_names : NoDup (df_Fingerprint <$> sortSlice worstFirst (map_to_list merged).*2).
Proof.
  unfold sortSlice. rewrite (merge_sort_Permutation (not_after worstFirst)). rewrite <- list_fmap_compose.
  rewrite (list_fmap_ext _ fst); [apply NoDup_fst_map_to_list|].
  intros i [k v] H. apply list_elem_of_lookup_2, elem_of_map_to_list in H. apply merged_lookup in H as [H _]; exact H.
Qed.

Lemma dated_history f :
  dates (dated f) = (now, now, 1) /\ (forall q, q ∈ priorFindings clusterID prior -> df_Fingerprint q <> df_Fingerprint (dated f)) \/
  exists p, lastSighting (priorFindings clusterID prior) (df_Fingerprint (dated f)) p /\
    dates (dated f) = (df_FirstSeenAt p, now, inc64 (df_Occurrences p)).
Proof.
  rewrite (proj1 (dated_keeps f)). pose proof (history_spec (priorFindings clusterID prior) _ (normalized_named clusterID f)) as H.
  unfold dated, datedFinding, history in *. destruct (foldl _ _ _ !! _) as [p|]; [right; by exists p|by left].
Qed.
End merge.

(** C30: findings are merged without losing any.  A merged list names every fingerprint
    once, worst first; every reported finding is in it, no less severe than it was
    reported; nothing is in it that was not reported; and the history of a finding starts
    now, or goes on from the latest of its earlier sightings. *)
Theorem findings_are_merged clusterID prior findings now :
  let out := MergeDriftFindingHistory clusterID prior findings now in
  let names f g := df_Fingerprint g = df_Fingerprint (normalizedFinding clusterID f) in
  NoDup (df_Fingerprint <$> out) /\
  StronglySorted (fun f g => severityRank (df_Severity g) <= severityRank (df_Severity f)) out /\
  (forall f, f ∈ findings -> exists g, g ∈ out /\ names f g /\ severityRank (df_Severity f) <= severityRank (df_Severity g)) /\
  (forall g, g ∈ out -> exists f, f ∈ findings /\ names f g /\ df_Severity g = df_Severity f) /\
  (forall g, g ∈ out -> df_LastSeenAt g = now /\
     ((forall q, q ∈ priorFindings clusterID prior -> df_Fingerprint q <> df_Fingerprint g) /\
        df_FirstSeenAt g = now /\ df_Occurrences g = 1 \/
      exists p, lastSighting (priorFindings clusterID prior) (df_Fingerprint g) p /\
        df_FirstSeenAt g = df_FirstSeenAt p /\ df_Occurrences g = inc64 (df_Occurrences p))).
Proof.
  cbv zeta. unfold MergeDriftFindingHistory. split; [apply merged_names|]. split; [|split; [|split]].
  - eapply sorted_weaken; [|apply (sortSlice_sorted worstFirst)].
    intros f g H. unfold not_after, worstFirst, lexi, later_than in H. case_bool_decide as E; lia.
  - intros f Hf. destruct (merged_finds clusterID prior findings now f Hf) as [g Hg]. exists g. split; [apply elem_of_merged; by eexists|].
    destruct (merged_lookup clusterID prior findings now _ _ Hg) as (Hfp & _ & _ & Hr). split; [|by apply Hr].
    rewrite Hfp. apply (dated_keeps clusterID prior now f).
  - intros g [k Hg]%elem_of_merged. destruct (merged_lookup clusterID prior findings now _ _ Hg) as (Hfp & _ & (f & Hf & Hk & Hs) & _).
    exists f. split_and!; [done| |done]. rewrite Hfp, <- Hk. apply (dated_keeps clusterID prior now f).
  - intros g [k Hg]%elem_of_merged. destruct (merged_lookup clusterID prior findings now _ _ Hg) as (Hfp & (f & Hf & Hk & Hd) & _).
    rewrite Hfp, <- Hk. destruct (dated_history clusterID prior now f) as [[Hn Hno]|(p & Hp & Hn)];
      rewrite Hn in Hd; injection Hd as D1 D2 D3; (split; [done|]); [left|right; exists p]; done.
Qed.

(** ** What a report finds *)

Lemma merge_finds clusterID prior findings now :
  MergeDriftFindingHistory clusterID prior findings now = [] <-> findings = [].
Proof.
  split; [|by intros ->]. intros H. destruct findings as [|f fs]; [done|]. exfalso.
  destruct (merged_finds clusterID prior (f :: fs) now f ltac:(left)) as [g Hg].
  assert (Hin : g ∈ MergeDriftFindingHistory clusterID prior (f :: fs) now) by (apply elem_of_merged; by eexists).
  rewrite H in Hin. by apply elem_of_nil in Hin.
Qed.

(** every classification but "in sync" is worth a finding *)
Lemma classified_found git live :
  gitFinding (ClassifyGitDrift git live) = None <-> ge_Classification (ClassifyGitDrift git live) = GitDriftInSync.
Proof. unfold ClassifyGitDrift. repeat case_match; split; done. Qed.
Lemma classified_requested git live : ge_Classification (ClassifyGitDrift git live) <> GitDriftNotRequested.
Proof. unfold ClassifyGitDrift. repeat case_match; done. Qed.

(** a report as agents write them: digests and actions without white space around *)
Definition plain_report (r : DriftTaskResult) : Prop :=
  TrimSpace (dtr_ObservedDigest r) = dtr_ObservedDigest r /\ dtr_ObservedDigest r <> "" /\
  forall c, c ∈ dtr_Changes r -> TrimSpace (pc_Action c) = pc_Action c /\ pc_Action c <> "".

Lemma upper_empty s : ToUpper s = "" -> s = "".
Proof. by destruct s. Qed.

Lemma change_found c :
  TrimSpace (pc_Action c) = pc_Action c -> pc_Action c <> "" -> changeFinding c = None <-> ToUpper (pc_Action c) = "NOOP".
Proof.
  intros Et Hne. unfold changeFinding. rewrite Et. rewrite (bool_decide_eq_false_2 (ToUpper _ = "")).
  - cbn [orb]. case_bool_decide; split; done.
  - intros E. by apply Hne, upper_empty.
Qed.

Lemma digest_found t live : live <> "" -> option_list (digestFinding t live) = [] <-> (live != dt_DesiredDigest t) = false.
Proof. intros Hl. unfold digestFinding. rewrite (bool_decide_eq_false_2 _ Hl). cbn [orb]. case_bool_decide; split; done. Qed.

Lemma changes_found l :
  (forall c, c ∈ l -> TrimSpace (pc_Action c) = pc_Action c /\ pc_Action c <> "") ->
  omap changeFinding l = [] <-> existsb (fun change => ToUpper (pc_Action change) != "NOOP") l = false.
Proof.
  induction l as [|c l IH]; intros Hc; [done|]. destruct (Hc c ltac:(left)) as [E1 E2]. pose proof (change_found c E1 E2) as Hcf.
  cbn [existsb omap list_omap]. rewrite orb_false_iff. destruct (changeFinding c) as [f|] eqn:E.
  - split; [done|]. intros [H _]. norm_bool. destruct Hcf as [_ Hcf]. by specialize (Hcf H).
  - rewrite bool_decide_eq_true_2 by tauto. rewrite <- IH; [tauto|]. intros c' Hc'. apply Hc. by right.
Qed.

Lemma git_found o live :
  let git := (fun g => ClassifyGitDrift g live) <$> o in
  (g ← option_list git; option_list (gitFinding g)) = [] <->
  match git with
  | Some g => (ge_Classification g != GitDriftInSync) && (ge_Classification g != GitDriftNotRequested)
  | None => false
  end = false.
Proof.
  destruct o as [g|]; [|done]. cbv zeta.
  change ((option_list (gitFinding (ClassifyGitDrift g live)) ++ [])%list = [] <->
    (ge_Classification (ClassifyGitDrift g live) != GitDriftInSync)
    && (ge_Classification (ClassifyGitDrift g live) != GitDriftNotRequested) = false).
  rewrite app_nil_r, (bool_decide_eq_false_2 _ (classified_requested _ _)), andb_true_r.
  pose proof (classified_found g live) as Hg. destruct (gitFinding _) as [f|].
  - split; [done|]. intros H. norm_bool. destruct Hg as [_ Hg]. by specialize (Hg H).
  - rewrite bool_decide_eq_true_2 by tauto. done.
Qed.

(** Drift and findings agree.  On a target without findings of its own, the plain
    report of a healthy agent leaves the target DRIFTED exactly when it leaves findings
    on it, and IN_SYNC exactly when it leaves none. *)
Theorem drifted_targets_have_findings result_ prior now t :
  plain_report result_ -> dtr_Success result_ = true -> dt_Findings t = [] ->
  let t' := reportedTarget result_ prior now t in
  (dt_State t' = DriftTargetDrifted <-> dt_Findings t' <> []) /\ (dt_State t' = DriftTargetInSync <-> dt_Findings t' = []).
Proof.
  intros (Eo & Ho & Hc) Hs Hf. cbv zeta. unfold reportedTarget. cbv zeta. rewrite Hs. cbn [negb].
  set (git := (fun git => ClassifyGitDrift git (dtr_GitObservedDigest result_)) <$> dt_Git t).
  set (t1 := t <| dt_ObservedDigest := _ |> <| dt_Changes := _ |> <| dt_Git := git |>).
  set (found := RuntimeDriftFindings t1 result_ prior now). set (t2 := t1 <| dt_Comparison := _ |> <| dt_Findings := _ |> <| dt_FinishedAt := _ |>).
  assert (Hfound : found.2 = [] <-> reportsDrift t2 result_ = false).
  { unfold found, RuntimeDriftFindings. cbn [snd]. rewrite merge_finds, Eo. change (dt_Findings t1) with (dt_Findings t). rewrite Hf.
    unfold reportsDrift. change (dt_Git t2) with git. change (dt_Git t1) with git.
    change (dt_DesiredDigest t2) with (dt_DesiredDigest t). cbn [app]. rewrite !orb_false_iff.
    change (digestFinding t1) with (digestFinding t). rewrite <- (digest_found t _ Ho), <- (changes_found _ Hc). unfold git. rewrite <- git_found.
    split; [intros [H4 [H5 H6]%app_eq_nil]%app_eq_nil|intros [[-> ->] ->]]; done. }
  change (dt_Findings (_ <| dt_LastError := "" |>)) with (found.2).
  destruct (reportsDrift t2 result_) eqn:Er; cbn [dt_State setf set_dt_State set_dt_LastError].
  - assert (found.2 <> []) by (intros E; apply Hfound in E; done). split; split; done.
  - assert (found.2 = []) by (by apply Hfound). split; split; done.
Qed.

(** ** Histories *)

Inductive drift_step (s : MemoryStore) : MemoryStore -> Prop :=
| df_call c : drift_step s (drift_exec c s).1
| df_other s' : drawn s s' -> ms_driftScans s' = ms_driftScans s -> drift_step s s'.

Definition drift_reachable (s : MemoryStore) : Prop :=
  exists now id, id_source id /\ rtc drift_step (NewMemoryStoreWith now id) s.
Definition drift_inv (s : MemoryStore) : Prop := id_source (ms_id s) /\ drift_wf s.

Lemma drift_steps s s' :
  rtc drift_step s s' -> drift_inv s -> drift_inv s' /\ evolves scan_advances (ms_driftScans s) (ms_driftScans s').
Proof.
  induction 1 as [s|s1 s2 s3 H12 _ IH]; intros Hi; [split; [done|by apply evolves_refl]|]. destruct Hi as [Hid Hwf].
  assert (drawn s1 s2 /\ drift_wf s2 /\ evolves scan_advances (ms_driftScans s1) (ms_driftScans s2)) as (Hd & Hw & Hm).
  { destruct H12 as [c|s' Hd E]; [by apply drift_exec_effect|by apply drift_same]. }
  destruct IH as [Hi3 Hm']; [split; [by rewrite (dr_gen _ _ Hd)|done]|]. split; [done|].
  eapply evolves_trans; [|exact Hm|exact Hm']. intros x y z. apply transitivity.
Qed.

Lemma drift_reachable_inv s : drift_reachable s -> drift_inv s.
Proof.
  intros (now & id & Hid & Hr). eapply drift_steps in Hr as [Hi _]; [exact Hi|]. split; [done|].
  split; cbn; intros; simplify_map_eq; done.
Qed.

(** C29: a drift scan sums up its targets.  In every history its state is the one its
    targets add up to, so it is finished exactly when every target is and IN_SYNC only if
    every target was reported without any drift; targets only move from pending over
    running to an end, and a finished scan stays exactly as it is. *)
Theorem drift_scans_sum_up_their_targets s s' id v :
  drift_reachable s -> rtc drift_step s s' -> ms_driftScans s !! id = Some v ->
  exists v', ms_driftScans s' !! id = Some v' /\ scan_identity v' = scan_identity v /\
    Forall2 target_advances (ds_Targets v) (ds_Targets v') /\ (finishedScan (ds_State v) = true -> v' = v) /\
    ds_State v' = sumState (ds_Targets v') /\
    (finishedScan (ds_State v') = true <-> forall t, t ∈ ds_Targets v' -> finishedTarget (dt_State t) = true) /\
    (ds_State v' = DriftScanInSync -> Forall no_drift (ds_Targets v')).
Proof.
  intros Hr%drift_reachable_inv Hs Hv. destruct (drift_steps _ _ Hs Hr) as [[_ Hw] Hm].
  destruct (Hm _ _ Hv) as (v' & Hv' & [Hi Ht Hf]). exists v'.
  destruct (sc_each _ _ Hw _ _ Hv') as [_ [Hne _] Hst Hok _]. split_and!; try done.
  - rewrite Hst. by apply sum_finished.
  - intros Hsync. rewrite Hst in Hsync. apply Forall_forall. intros t Ht'. rewrite Forall_forall in Hok.
    apply (tg_in_sync _ (Hok t Ht')), (sum_in_sync _ Hsync t Ht').
Qed.

(** Scans compare with what was deployed.  A scan that is created asks every cluster
    once, each one of the scan's project, about a deployment of that cluster whose
    completion evidence is ready, at the digest that was deployed; a request that was made
    before is answered with its scan, or refused when it asks for something else. *)
Theorem drift_scans_compare_with_deployments s s' v actor w replayed :
  drift_reachable s -> CreateDriftScan v actor s = (s', Ok (w, replayed)) ->
  ms_driftScans s' !! rm_ID (ds_Meta w) = Some w /\ same_scan_request v w /\ ds_RequestDigest w = ds_RequestDigest v /\
  NoDup (dt_ClusterID <$> ds_Targets w) /\
  if replayed : bool then ms_driftScans s' = ms_driftScans s
  else ds_State w = DriftScanQueued /\ Forall (backed s (ds_ProjectID w)) (ds_Targets w) /\
    forall k x, ms_driftScans s !! k = Some x -> ~ same_scan_request v x.
Proof.
  intros [_ Hw]%drift_reachable_inv E.
  enough (H : wp (CreateDriftScan v actor) (fun r s' => match r with Fail _ => True | Ok (w, replayed) =>
    ms_driftScans s' !! rm_ID (ds_Meta w) = Some w /\ same_scan_request v w /\ ds_RequestDigest w = ds_RequestDigest v /\
    NoDup (dt_ClusterID <$> ds_Targets w) /\
    if replayed : bool then ms_driftScans s' = ms_driftScans s
    else ds_State w = DriftScanQueued /\ Forall (backed s (ds_ProjectID w)) (ds_Targets w) /\
      forall k x, ms_driftScans s !! k = Some x -> ~ same_scan_request v x end) s) by exact (wp_run _ _ _ _ _ H E).
  unfold CreateDriftScan; unfold_puts. do 3 (wp_step; try exact I). wp_go; try exact I.
  - match goal with H : map_find _ _ = Some _ |- _ => apply map_find_Some in H as [Hk Hm] end. norm_bool.
    destruct (sc_each _ _ Hw _ _ Hk) as [Hi [_ Hn] _ _ _]. rewrite Hi. by split_and!.
  - match goal with H : map_find _ _ = None |- _ => rewrite map_find_None in H; rename H into Hnone end.
    apply wp_bind. eapply wp_mono; [apply scan_targets_spec|]. intros [out|e] s1 (Hd & Hs & Hout); cbn beta iota; [|done].
    destruct Hout as (-> & Hn & _ & Hb). wp_go. split; [apply lookup_insert_eq|]. split; [done|]. split; [done|].
    split; [cbn; rewrite <- list_fmap_compose; exact Hn|]. split; [done|]. split; [by apply Forall_fmap|].
    intros k x Hx [K1 K2]. specialize (Hnone _ _ Hx). cbn in Hnone. rewrite !bool_decide_eq_true_2 in Hnone by done. done.
Qed.

(** ** A concrete history *)

Module DriftDemo.
Import BaselineProperties.

(** the store in which a baseline was deployed with evidence *)
Definition seed : MemoryStore := BaselineDemo.history BaselineDemo.applied.
Definition target : DriftScanTarget :=
  mkDriftScanTarget "c" BaselineDemo.deployment "secure-namespace" "1.0.0" BaselineDemo.desired "" DriftTargetPending [] "" None None 0
    None None [].
Definition scan : DriftScan := mkDriftScan (newMeta "" 0) "p" "" DriftScanQueued [target] "" "key" "sha256:r" None None "".
Definition history (cs : list DriftCall) : MemoryStore := foldl (fun s c => (drift_exec c s).1) seed cs.
Definition started : list DriftCall := [DCreate scan "alice"; DNext BaselineDemo.now "c" "sha256:agent"].
Definition id : string := Eval vm_compute in default "" (head (map_to_list (ms_driftScans (history started))).*1).
Definition report (observed : string) (changes : list BaselinePlanChange) : DriftCall :=
  DReport "c" "sha256:agent" 2 (mkDriftTaskResult id "c" true observed changes "" "").
Definition in_sync : list DriftCall := (started ++ [report BaselineDemo.desired []])%list.
Definition drifted : list DriftCall := (started ++ [report BaselineDemo.observed []])%list.

Lemma drift_calls_steps s cs : rtc drift_step s (foldl (fun s c => (drift_exec c s).1) s cs).
Proof. revert s. induction cs as [|c rest IH]; intros s; [constructor|]. eapply rtc_l; [apply df_call|apply IH]. Qed.
Lemma drift_history cs : drift_reachable (history cs).
Proof.
  exists (fun _ => BaselineDemo.now), demo_id. split; [apply demo_id_source|]. transitivity seed; [|apply drift_calls_steps].
  apply rtc_once, df_other; [split; [vm_compute; reflexivity|vm_compute; lia]|vm_compute; reflexivity].
Qed.
End DriftDemo.

Lemma drift_scans_sum_up_their_targets_witness :
  exists v v', ms_driftScans (DriftDemo.history DriftDemo.started) !! DriftDemo.id = Some v /\ ds_State v = DriftScanRunning /\
    ms_driftScans (DriftDemo.history DriftDemo.in_sync) !! DriftDemo.id = Some v' /\ Forall no_drift (ds_Targets v').
Proof.
  destruct (found ds_State (ms_driftScans (DriftDemo.history DriftDemo.started) !! DriftDemo.id) DriftScanRunning) as (v & Ev & Hst);
    [vm_compute; reflexivity|].
  destruct (drift_scans_sum_up_their_targets (DriftDemo.history DriftDemo.started) (DriftDemo.history DriftDemo.in_sync) DriftDemo.id v
    (DriftDemo.drift_history _)) as (v' & Ev' & _ & _ & _ & _ & _ & Hsync);
    [unfold DriftDemo.history, DriftDemo.in_sync; rewrite foldl_app; apply DriftDemo.drift_calls_steps|exact Ev|].
  destruct (found ds_State (ms_driftScans (DriftDemo.history DriftDemo.in_sync) !! DriftDemo.id) DriftScanInSync) as (w & Ew & Hw);
    [vm_compute; reflexivity|].
  rewrite Ev' in Ew. injection Ew as ->.
  exists v, w. split; [exact Ev|]. split; [exact Hst|]. split; [exact Ev'|exact (Hsync Hw)].
Defined.

Lemma drift_scans_compare_with_deployments_witness :
  exists s' w, CreateDriftScan DriftDemo.scan "alice" DriftDemo.seed = (s', Ok (w, false)) /\
    Forall (backed DriftDemo.seed (ds_ProjectID w)) (ds_Targets w).
Proof.
  destruct (succeeds (CreateDriftScan DriftDemo.scan "alice") DriftDemo.seed) as (s' & [w b] & E); [vm_compute; reflexivity|].
  assert (Hb : match (CreateDriftScan DriftDemo.scan "alice" DriftDemo.seed).2 with Ok (_, b) => b = false | Fail _ => False end)
    by (vm_compute; reflexivity).
  rewrite E in Hb. cbn [snd] in Hb. subst b.
  destruct (drift_scans_compare_with_deployments DriftDemo.seed s' DriftDemo.scan "alice" w false (DriftDemo.drift_history []) E)
    as (_ & _ & _ & _ & _ & Hf & _).
  exists s', w. split; [exact E|exact Hf].
Defined.

Definition demo_report (observed : string) (changes : list BaselinePlanChange) : DriftTaskResult :=
  mkDriftTaskResult DriftDemo.id "c" true observed changes "" "".
Definition running_target : DriftScanTarget := DriftDemo.target <| dt_State := DriftTargetRunning |>.
Definition change (resource action : string) : BaselinePlanChange := mkBaselinePlanChange resource action "" "" "".

Lemma drifted_targets_have_findings_witness :
  let t' := reportedTarget (demo_report "sha256:other" [change "networkpolicy/team" "update"]) [] 5 running_target in
  dt_State t' = DriftTargetDrifted /\ dt_Findings t' <> [].
Proof.
  assert (Hp : plain_report (demo_report "sha256:other" [change "networkpolicy/team" "update"])).
  { split; [vm_compute; reflexivity|]. split; [discriminate|]. intros c Hc. apply list_elem_of_singleton in Hc as ->.
    split; [vm_compute; reflexivity|discriminate]. }
  destruct (drifted_targets_have_findings _ [] 5 running_target Hp eq_refl eq_refl) as [[Hd _] _].
  assert (Hst : dt_State (reportedTarget (demo_report "sha256:other" [change "networkpolicy/team" "update"]) [] 5 running_target) =
    DriftTargetDrifted) by (vm_compute; reflexivity).
  split; [exact Hst|exact (Hd Hst)].
Defined.

(** ** Observations *)

(** Where the report is not plain, the target drifts but nobody finds out what: the state
    compares the texts of the report as they are, the findings trim them and skip actions
    that are empty; and an agent that saw no digest at all leaves a drifted target without
    a finding. *)
Example drift_without_findings :
  Forall (fun r => let t' := reportedTarget r [] 5 running_target in dt_State t' = DriftTargetDrifted /\ dt_Findings t' = [])
    [demo_report "" [];
     demo_report (BaselineProperties.BaselineDemo.desired +:+ " ") [];
     demo_report BaselineProperties.BaselineDemo.desired [change "namespace/team" ""];
     demo_report BaselineProperties.BaselineDemo.desired [change "namespace/team" "noop "]].
Proof. repeat constructor; vm_compute; reflexivity. Qed.

(** A running target has no lease: as long as no report came, every admitted claim of the
    cluster gets the same target again, under the same attempt. *)
Example running_targets_are_offered_again :
  let s := DriftDemo.history DriftDemo.started in
  (drift_exec (DNext BaselineProperties.BaselineDemo.now "c" "sha256:agent") s).2 = None /\
  (dt_Attempt <$> (ds_Targets <$> ms_driftScans (drift_exec (DNext BaselineProperties.BaselineDemo.now "c" "sha256:agent") s).1
     !! DriftDemo.id) ≫= head) = Some 1.
Proof. split; vm_compute; reflexivity. Qed.
