(* ===== verification/NodeLifecycle.v ===== *)
(** * Lifecycle of target nodes

    [target_node_lifecycle.go]: which actions on the nodes of a target cluster
    are executable, which executor performs them and what they need, and the
    plan of one action on one node with its digest.  Everything here is a pure
    function of the cluster's inventory; the stores ask the same descriptors
    before they admit a run. *)
From S2P Require Import Prelude GoStrings Digest Model Encoding Calendar Inventory Listing Targets Impact Baselines Campaigns.

Definition TargetNodeLifecycleAuthorityMethod : string := "TARGET_NODE_LIFECYCLE_AUTHORITY_V1".
Definition TargetNodePhysicalCertificationDeferred : string := "DEFERRED_UNTIL_DEVELOPMENT_CLOSURE".
Definition TargetNodeProviderLifecycleCapability : string := "target-node-provider-lifecycle".
Definition TargetNodeProviderMachineLifecycleCapability : string := "provider-machine-lifecycle-v1".
Definition TargetNodeHostMaintenanceCapability : string := "target-node-host-maintenance-executor-v1".
Definition TargetNodeOSPatchCapability : string := "target-node-os-patch".

(** [TargetNodeLifecycleActionDescriptor] *)
Record TargetNodeLifecycleActionDescriptor := mkTargetNodeLifecycleActionDescriptor {
  ld_Action : TargetNodeLifecycleAction;
  ld_Executor : string;
  ld_Risk : string;
  ld_RequiresNode : bool;
  ld_RequiresMaintenanceWindow : bool;
  ld_RequiresIndependentApproval : bool;
  ld_RequiredCapabilities : list string;
  ld_MissingCapabilities : list string;
  ld_DevelopmentReady : bool;
  ld_Executable : bool;
  ld_Blockers : list string;
}.
#[export] Instance eta_TargetNodeLifecycleActionDescriptor : Eta TargetNodeLifecycleActionDescriptor := fun r =>
  mkTargetNodeLifecycleActionDescriptor (ld_Action r) (ld_Executor r) (ld_Risk r) (ld_RequiresNode r)
    (ld_RequiresMaintenanceWindow r) (ld_RequiresIndependentApproval r) (ld_RequiredCapabilities r)
    (ld_MissingCapabilities r) (ld_DevelopmentReady r) (ld_Executable r) (ld_Blockers r).
#[export] Instance set_ld_Executor : Setter ld_Executor := ltac:(derive_setter).
#[export] Instance set_ld_RequiresNode : Setter ld_RequiresNode := ltac:(derive_setter).
#[export] Instance set_ld_RequiresMaintenanceWindow : Setter ld_RequiresMaintenanceWindow := ltac:(derive_setter).
#[export] Instance set_ld_RequiredCapabilities : Setter ld_RequiredCapabilities := ltac:(derive_setter).
#[export] Instance set_ld_MissingCapabilities : Setter ld_MissingCapabilities := ltac:(derive_setter).
#[export] Instance set_ld_DevelopmentReady : Setter ld_DevelopmentReady := ltac:(derive_setter).
#[export] Instance set_ld_Executable : Setter ld_Executable := ltac:(derive_setter).
#[export] Instance set_ld_Blockers : Setter ld_Blockers := ltac:(derive_setter).

(** ** Nodes that may be mutated *)

Definition lifecycleCapabilitySet (inv : ClusterInventory) : gset string :=
  list_to_set (List.filter (fun v => v != "") ((fun raw => ToLower (TrimSpace raw)) <$> iv_Capabilities inv)).

Definition workerRole (role : string) : bool := ToLower (TrimSpace role) == "worker".
Definition controlPlaneRole (role : string) : bool :=
  bool_decide (ToLower (TrimSpace role) ∈ ["control-plane"; "controlplane"; "master"; "server"]).

Definition TargetNodeProviderWorkerEligible (node : ClusterNode) : bool :=
  if blank (nd_Name node) || blank (nd_UID node) then false
  else existsb workerRole (nd_Roles node) && negb (existsb controlPlaneRole (nd_Roles node)).

Definition TargetNodeProviderMutationEligibleFor (action : TargetNodeLifecycleAction) (node : ClusterNode) : bool :=
  if negb (TargetNodeProviderWorkerEligible node) then false
  else if action == TargetNodeActionRemediate then negb (nd_Ready node)
  else if bool_decide (action ∈ [TargetNodeActionRemove; TargetNodeActionReplace; TargetNodeActionCertificateRenewal])
  then nd_Ready node
  else false.

Definition TargetNodeProviderMutationEligible (node : ClusterNode) : bool :=
  TargetNodeProviderMutationEligibleFor TargetNodeActionReplace node.

Definition IsTargetNodeProviderReplacementAction (action : TargetNodeLifecycleAction) : bool :=
  bool_decide (ToUpper (TrimSpace action) ∈
    [TargetNodeActionReplace; TargetNodeActionCertificateRenewal; TargetNodeActionRemediate]).

Definition IsTargetNodeProviderPendingAction (action : string) : bool :=
  bool_decide (ToUpper (TrimSpace action) ∈
    ["TARGET_NODE_REMOVE"; "TARGET_NODE_REPLACE"; "TARGET_NODE_CERTIFICATE_RENEWAL"; "TARGET_NODE_REMEDIATE"]).

(** ** Descriptors *)

Definition providerMachine : list string :=
  [TargetNodeProviderLifecycleCapability; TargetNodeProviderMachineLifecycleCapability].

(** the [switch] over the action; [None] for an action it does not know *)
Definition actionDescriptor (action : TargetNodeLifecycleAction) (providerBound : bool)
    (d : TargetNodeLifecycleActionDescriptor) : option TargetNodeLifecycleActionDescriptor :=
  if action == TargetNodeActionDrain then
    Some (d <| ld_Executor := "cluster-agent" |> <| ld_RequiresNode := true |>
            <| ld_RequiredCapabilities := [TargetMutationRBACActiveCapability; ClusterMaintenanceFencedReportCapability] |>)
  else if action == TargetNodeActionAdd then
    Some (d <| ld_Executor := "infrastructure-provider-adapter" |> <| ld_RequiresMaintenanceWindow := false |>
            <| ld_RequiredCapabilities := [TargetNodeProviderLifecycleCapability] |>
            <| ld_Blockers := if providerBound then [] else ["TARGET_NODE_PROVIDER_BINDING_PENDING"] |>)
  else if (action == TargetNodeActionRemove) || (action == TargetNodeActionReplace) then
    Some (d <| ld_Executor := "infrastructure-provider-adapter" |> <| ld_RequiresNode := true |>
            <| ld_RequiredCapabilities := providerMachine |>)
  else if action == TargetNodeActionOSPatch then
    Some (d <| ld_Executor := "cluster-agent-host-maintenance-job" |> <| ld_RequiresNode := true |>
            <| ld_RequiredCapabilities := [TargetMutationRBACActiveCapability; ClusterMaintenanceFencedReportCapability;
                                           TargetNodeHostMaintenanceCapability; TargetNodeOSPatchCapability] |>)
  else if action == TargetNodeActionCertificateRenewal then
    Some (d <| ld_Executor := "infrastructure-provider-machine-replacement-certificate-renewal" |>
            <| ld_RequiresNode := true |> <| ld_RequiredCapabilities := providerMachine |>)
  else if action == TargetNodeActionRemediate then
    Some (d <| ld_Executor := "infrastructure-provider-machine-remediation" |>
            <| ld_RequiresNode := true |> <| ld_RequiredCapabilities := providerMachine |>)
  else None.

(** [providerMachineReady] is the variadic tail of the function *)
Definition lifecycleDescriptor (action : TargetNodeLifecycleAction) (inv : ClusterInventory) (providerBound : bool)
    (providerMachineReady : list bool) : TargetNodeLifecycleActionDescriptor :=
  let capabilities := lifecycleCapabilitySet inv in
  let capabilities := if providerBound then {[ToLower TargetNodeProviderLifecycleCapability]} ∪ capabilities else capabilities in
  let capabilities := if hd false providerMachineReady
                      then {[ToLower TargetNodeProviderMachineLifecycleCapability]} ∪ capabilities else capabilities in
  let d := mkTargetNodeLifecycleActionDescriptor action "" "high" false true true [] [] true false [] in
  match actionDescriptor action providerBound d with
  | None => d <| ld_DevelopmentReady := false |> <| ld_Blockers := ["TARGET_NODE_ACTION_UNKNOWN"] |>
  | Some d =>
      let missing := List.filter (fun requirement => negb (bool_decide (ToLower requirement ∈ capabilities)))
                       (ld_RequiredCapabilities d) in
      let d := d <| ld_MissingCapabilities := sortStrings missing |> in
      d <| ld_Executable := negb (nonEmpty (ld_MissingCapabilities d)) && negb (nonEmpty (ld_Blockers d)) |>
  end.

Definition DescribeTargetNodeLifecycleAction (action : TargetNodeLifecycleAction) (inv : ClusterInventory)
    : TargetNodeLifecycleActionDescriptor := lifecycleDescriptor action inv false [false].

(** [TargetNodeLifecycleAuthority] *)
Record TargetNodeLifecycleAuthority := mkTargetNodeLifecycleAuthority {
  la_Authority : string;
  la_ProviderClusterID : string;
  la_ProviderBindingReady : bool;
  la_CampaignAuthority : string;
  la_ClusterID : string;
  la_ProjectID : string;
  la_Distribution : string;
  la_InventoryDigest : string;
  la_InventoryObservedAt : Time;
  la_PhysicalCertificationStatus : string;
  la_Actions : list TargetNodeLifecycleActionDescriptor;
}.

Definition lifecycleActions : list TargetNodeLifecycleAction :=
  [TargetNodeActionAdd; TargetNodeActionDrain; TargetNodeActionRemove; TargetNodeActionReplace; TargetNodeActionOSPatch;
   TargetNodeActionCertificateRenewal; TargetNodeActionRemediate].

Definition BuildTargetNodeLifecycleAuthority (cluster : ManagedCluster) (inv : ClusterInventory) (providerReadiness : list bool)
    : TargetNodeLifecycleAuthority :=
  let providerReady := match providerReadiness with [] => negb (blank (mc_ProviderClusterID cluster)) | ready :: _ => ready end in
  let providerMachineReady := match providerReadiness with _ :: ready :: _ => ready | _ => false end in
  mkTargetNodeLifecycleAuthority TargetNodeLifecycleAuthorityMethod (TrimSpace (mc_ProviderClusterID cluster)) providerReady
    GeneralizedDay2CampaignAuthorityMethod (rm_ID (mc_Meta cluster)) (mc_ProjectID cluster)
    (ToLower (TrimSpace (iv_Distribution inv))) (iv_Digest inv) (iv_ObservedAt inv) TargetNodePhysicalCertificationDeferred
    ((fun action => lifecycleDescriptor action inv providerReady [providerMachineReady]) <$> lifecycleActions).

Definition findLifecycleDescriptor (authority : TargetNodeLifecycleAuthority) (action : TargetNodeLifecycleAction)
    : option TargetNodeLifecycleActionDescriptor := List.find (fun d => ld_Action d == action) (la_Actions authority).

(** ** Plans *)

(** [TargetNodeLifecyclePlanRequest] *)
Record TargetNodeLifecyclePlanRequest := mkTargetNodeLifecyclePlanRequest {
  pr_Action : TargetNodeLifecycleAction;
  pr_NodeName : string;
}.

(** [TargetNodeLifecyclePlan] *)
Record TargetNodeLifecyclePlan := mkTargetNodeLifecyclePlan {
  lp_Authority : string;
  lp_ProviderClusterID : string;
  lp_ProviderBindingReady : bool;
  lp_CampaignAuthority : string;
  lp_PlanDigest : string;
  lp_ClusterID : string;
  lp_ProjectID : string;
  lp_Distribution : string;
  lp_Action : TargetNodeLifecycleAction;
  lp_NodeName : string;
  lp_NodeUID : string;
  lp_InventoryDigest : string;
  lp_Executable : bool;
  lp_Executor : string;
  lp_RequiresMaintenanceWindow : bool;
  lp_RequiresIndependentApproval : bool;
  lp_Impact : list string;
  lp_Recovery : list string;
  lp_Blockers : list string;
  lp_PhysicalCertificationStatus : string;
}.
#[export] Instance eta_TargetNodeLifecyclePlan : Eta TargetNodeLifecyclePlan := fun r =>
  mkTargetNodeLifecyclePlan (lp_Authority r) (lp_ProviderClusterID r) (lp_ProviderBindingReady r) (lp_CampaignAuthority r)
    (lp_PlanDigest r) (lp_ClusterID r) (lp_ProjectID r) (lp_Distribution r) (lp_Action r) (lp_NodeName r) (lp_NodeUID r)
    (lp_InventoryDigest r) (lp_Executable r) (lp_Executor r) (lp_RequiresMaintenanceWindow r)
    (lp_RequiresIndependentApproval r) (lp_Impact r) (lp_Recovery r) (lp_Blockers r) (lp_PhysicalCertificationStatus r).
#[export] Instance set_lp_PlanDigest : Setter lp_PlanDigest := ltac:(derive_setter).

Definition zeroNode : ClusterNode := mkClusterNode "" "" [] "" "" "" false.

(** the node of the request, or why there is none *)
Definition planNode (inv : ClusterInventory) (descriptor : TargetNodeLifecycleActionDescriptor) (nodeName : string)
    : result ClusterNode :=
  if ld_RequiresNode descriptor then
    if nodeName == "" then Fail ErrValidation
    else match List.find (fun candidate => nd_Name candidate == nodeName) (elems (iv_Nodes inv)) with
         | Some node => if blank (nd_UID node) then Fail ErrPrerequisite else Ok node
         | None => Fail ErrPrerequisite
         end
  else if nodeName != "" then Fail ErrValidation else Ok zeroNode.

Definition missingBlocker (missing : string) : string := "TARGET_CAPABILITY_MISSING:" +:+ missing.

(** an action that replaces or removes the machine of the node *)
Definition machineAction (action : TargetNodeLifecycleAction) : bool :=
  (action == TargetNodeActionRemove) || (action == TargetNodeActionReplace) || (action == TargetNodeActionCertificateRenewal)
  || (action == TargetNodeActionRemediate).

Definition planBlockers (action : TargetNodeLifecycleAction) (descriptor : TargetNodeLifecycleActionDescriptor)
    (node : ClusterNode) : list string :=
  let blockers := (ld_Blockers descriptor ++ (missingBlocker <$> ld_MissingCapabilities descriptor))%list in
  let blockers := append_if ((action == TargetNodeActionDrain) && negb (nd_Ready node)) blockers "TARGET_NODE_NOT_READY" in
  let blockers :=
    if machineAction action then
      let blockers := append_if (negb (TargetNodeProviderWorkerEligible node)) blockers "TARGET_NODE_NOT_WORKER_ONLY" in
      if action == TargetNodeActionRemediate
      then append_if (nd_Ready node) blockers "TARGET_NODE_REMEDIATION_REQUIRES_NOT_READY"
      else append_if (negb (nd_Ready node)) blockers "TARGET_NODE_NOT_READY"
    else blockers in
  sortStrings blockers.

(** what the plan says about impact and recovery of the action *)
Definition actionImpact (action : TargetNodeLifecycleAction) : list string :=
  if action == TargetNodeActionDrain then
    ["selected node is cordoned, PDB-aware drained and uncordoned with maxUnavailable=1"]
  else if action == TargetNodeActionAdd then
    ["new infrastructure capacity and cluster membership would be created by a provider adapter"]
  else if action == TargetNodeActionRemove then
    ["selected node would be drained before provider-backed membership/infrastructure removal"]
  else if action == TargetNodeActionReplace then
    ["replacement capacity must be established and verified before old-node removal"]
  else if action == TargetNodeActionOSPatch then
    ["node workloads are safely evacuated before a node-pinned host package update; reboot is never automatic and is reported separately when required"]
  else if action == TargetNodeActionCertificateRenewal then
    ["selected Ready provider-managed worker is replaced one-for-one so the joining node receives fresh RKE2 node identity and certificates"]
  else if action == TargetNodeActionRemediate then
    ["selected NotReady provider-managed worker is replaced one-for-one using exact CAPI Machine identity"]
  else [].
Definition actionRecovery (action : TargetNodeLifecycleAction) : list string :=
  if action == TargetNodeActionDrain then ["uncordon is attempted even when drain fails"]
  else if action == TargetNodeActionCertificateRenewal then
    ["exact CAPI Machine identity is persisted before delete and replacement readiness is required before completion"]
  else if action == TargetNodeActionRemediate then
    ["retry reuses persisted Machine recovery evidence and cannot resolve a second target"]
  else [].

(** the JSON of the fields the digest is of *)
Definition canonicalPlan (plan : TargetNodeLifecyclePlan) : string :=
  json_object ([("clusterId", json_string (lp_ClusterID plan)); ("distribution", json_string (lp_Distribution plan));
                ("action", json_string (lp_Action plan))]
    ++ json_opt "nodeName" (lp_NodeName plan) ++ json_opt "nodeUid" (lp_NodeUID plan)
    ++ [("inventoryDigest", json_string (lp_InventoryDigest plan)); ("executor", json_string (lp_Executor plan))]
    ++ json_opt "providerClusterId" (lp_ProviderClusterID plan) ++ json_opt_strings "blockers" (lp_Blockers plan))%list.

Definition BuildTargetNodeLifecyclePlan (cluster : ManagedCluster) (inv : ClusterInventory)
    (request : TargetNodeLifecyclePlanRequest) (providerReadiness : list bool) : result TargetNodeLifecyclePlan :=
  let action := ToUpper (TrimSpace (pr_Action request)) in
  let authority := BuildTargetNodeLifecycleAuthority cluster inv providerReadiness in
  match findLifecycleDescriptor authority action with
  | None => Fail ErrValidation
  | Some descriptor =>
      if negb (ld_DevelopmentReady descriptor) then Fail ErrValidation
      else
        let nodeName := TrimSpace (pr_NodeName request) in
        match planNode inv descriptor nodeName with
        | Fail e => Fail e
        | Ok node =>
            let blockers := planBlockers action descriptor node in
            let plan := mkTargetNodeLifecyclePlan TargetNodeLifecycleAuthorityMethod
              (TrimSpace (mc_ProviderClusterID cluster)) (la_ProviderBindingReady authority)
              GeneralizedDay2CampaignAuthorityMethod "" (rm_ID (mc_Meta cluster)) (mc_ProjectID cluster)
              (ToLower (TrimSpace (iv_Distribution inv))) action nodeName (nd_UID node) (iv_Digest inv)
              (ld_Executable descriptor && negb (nonEmpty blockers)) (ld_Executor descriptor)
              (ld_RequiresMaintenanceWindow descriptor) (ld_RequiresIndependentApproval descriptor)
              (["inventory identity is pinned to " +:+ iv_Digest inv; "independent approval is required before mutation"]
                 ++ actionImpact action)%list
              (["unsafe replay after lease/fence loss is rejected"; "operator recovery uses durable operation/evidence state"]
                 ++ actionRecovery action)%list
              blockers TargetNodePhysicalCertificationDeferred in
            Ok (plan <| lp_PlanDigest := sha256Digest (canonicalPlan plan) |>)
        end
  end.
