(* ===== verification/NodeLifecycleTheorems.v ===== *)
(** * When an action on a node is executable

    The plans of [NodeLifecycle] against a table of what each action needs:
    a plan is executable exactly when the target grants every capability of its
    action and the node is in the condition the action starts from. *)
From S2P Require Import Prelude GoStrings Digest Model Encoding Calendar Inventory Listing Targets Impact Campaigns NodeLifecycle Demo.

(** ** The table *)

Definition needs (action : TargetNodeLifecycleAction) : list string :=
  if action == TargetNodeActionAdd then [TargetNodeProviderLifecycleCapability]
  else if machineAction action then [TargetNodeProviderLifecycleCapability; TargetNodeProviderMachineLifecycleCapability]
  else if action == TargetNodeActionOSPatch then
    [TargetMutationRBACActiveCapability; ClusterMaintenanceFencedReportCapability; TargetNodeHostMaintenanceCapability;
     TargetNodeOSPatchCapability]
  else [TargetMutationRBACActiveCapability; ClusterMaintenanceFencedReportCapability].

(** a capability comes from the inventory or from the provider binding *)
Definition granted (inv : ClusterInventory) (bound machine : bool) (c : string) : Prop :=
  (exists raw, raw ∈ iv_Capabilities inv /\ ToLower (TrimSpace raw) = c) \/
  (c = TargetNodeProviderLifecycleCapability /\ bound = true) \/
  (c = TargetNodeProviderMachineLifecycleCapability /\ machine = true).

(** the condition the action starts from *)
Definition fits (bound : bool) (action : TargetNodeLifecycleAction) (node : ClusterNode) : Prop :=
  (action = TargetNodeActionAdd -> bound = true) /\
  (action = TargetNodeActionDrain -> nd_Ready node = true) /\
  (machineAction action = true ->
     TargetNodeProviderWorkerEligible node = true /\ (nd_Ready node = true <-> action <> TargetNodeActionRemediate)).

(** ** Lists of blockers *)

Lemma append_if_nil b l x : append_if b l x = [] <-> l = [] /\ b = false.
Proof. destruct b, l; cbn; intuition congruence. Qed.

Lemma sortStrings_nil l : sortStrings l = [] <-> l = [].
Proof.
  split; [|by intros ->]. intros H. apply Permutation_nil_r. rewrite <- H. unfold sortStrings. symmetry. apply merge_sort_Permutation.
Qed.

Lemma nonEmpty_false {A} (l : list A) : nonEmpty l = false <-> l = [].
Proof. by destruct l. Qed.

Lemma filter_nil {A} (f : A -> bool) l : List.filter f l = [] <-> forall x, x ∈ l -> f x = false.
Proof.
  induction l as [|y l IH]; cbn; [split; [by intros _ x ?%elem_of_nil|done]|]. destruct (f y) eqn:E.
  - split; [done|]. intros H. specialize (H y). rewrite E in H. by discriminate H; left.
  - rewrite IH. split; [intros H x [->|Hx]%elem_of_cons; [done|auto]|intros H x Hx; apply H; by right].
Qed.

(** ** Descriptors *)

Lemma capability_set inv c :
  c <> "" -> (c ∈ lifecycleCapabilitySet inv <-> exists raw, raw ∈ iv_Capabilities inv /\ ToLower (TrimSpace raw) = c).
Proof.
  intros Hc. unfold lifecycleCapabilitySet. rewrite elem_of_list_to_set, list_elem_of_In, filter_In, <- list_elem_of_In.
  rewrite list_elem_of_fmap. split.
  - intros [(raw & -> & Hr) _]. eauto.
  - intros (raw & Hr & <-). split; [eauto|]. by rewrite bool_decide_eq_false_2.
Qed.

Section descriptors.
Context (inv : ClusterInventory) (bound machine : bool).

Lemma descriptor_action a : ld_Action (lifecycleDescriptor a inv bound [machine]) = a.
Proof. unfold lifecycleDescriptor, actionDescriptor. repeat case_match; simplify_eq; done. Qed.

Lemma needs_plain a c : c ∈ needs a -> ToLower c = c /\ c <> "".
Proof. unfold needs. repeat case_match; intros Hc; repeat (apply elem_of_cons in Hc as [->|Hc]; [done|]); by apply elem_of_nil in Hc. Qed.

Lemma descriptor_spec a :
  a ∈ lifecycleActions ->
  let d := lifecycleDescriptor a inv bound [machine] in
  ld_DevelopmentReady d = true /\ ld_RequiresNode d = (a != TargetNodeActionAdd) /\
  (ld_Blockers d = [] <-> (a = TargetNodeActionAdd -> bound = true)) /\
  (ld_MissingCapabilities d = [] <-> forall c, c ∈ needs a -> granted inv bound machine c) /\
  (ld_Executable d = true <-> ld_MissingCapabilities d = [] /\ ld_Blockers d = []).
Proof.
  intros Ha. cbv zeta.
  assert (Hd : exists d0, actionDescriptor a bound
      (mkTargetNodeLifecycleActionDescriptor a "" "high" false true true [] [] true false []) = Some d0 /\
    ld_DevelopmentReady d0 = true /\ ld_RequiresNode d0 = (a != TargetNodeActionAdd) /\ ld_RequiredCapabilities d0 = needs a /\
    (ld_Blockers d0 = [] <-> (a = TargetNodeActionAdd -> bound = true))).
  { unfold lifecycleActions in Ha. repeat (apply elem_of_cons in Ha as [->|Ha]; [eexists; split; [reflexivity|]|]);
      [destruct bound| | | | | | |by apply elem_of_nil in Ha]; split_and!; (done || (split; [intros ?; by intros|intros H; by discriminate (H eq_refl)])). }
  destruct Hd as (d0 & E & H1 & H2 & H3 & H4). unfold lifecycleDescriptor. rewrite E. cbn. rewrite H3.
  split_and!; [done|done|done| |].
  - rewrite sortStrings_nil, filter_nil. unfold granted.
    split; intros H c Hc; specialize (H c Hc); destruct (needs_plain _ _ Hc) as [Hl Hne].
    + norm_bool. rewrite Hl in H. revert H.
      destruct machine, bound; cbv beta iota; rewrite ?elem_of_union, ?elem_of_singleton, capability_set by done; tauto.
    + apply negb_false_iff, bool_decide_eq_true. rewrite Hl.
      destruct machine, bound; cbv beta iota; rewrite ?elem_of_union, ?elem_of_singleton, capability_set by done; intuition congruence.
  - rewrite andb_true_iff, !negb_true_iff, !nonEmpty_false. done.
Qed.

Lemma plan_blockers a node :
  a ∈ lifecycleActions ->
  (planBlockers a (lifecycleDescriptor a inv bound [machine]) node = [] <->
     (forall c, c ∈ needs a -> granted inv bound machine c) /\ fits bound a node).
Proof.
  intros Ha. destruct (descriptor_spec a Ha) as (_ & _ & Hb & Hm & _). rewrite <- Hm.
  unfold planBlockers, fits. rewrite <- Hb, sortStrings_nil.
  assert (Hcore : forall base, append_if ((a == TargetNodeActionDrain) && negb (nd_Ready node)) base "TARGET_NODE_NOT_READY" = [] <->
    base = [] /\ (a = TargetNodeActionDrain -> nd_Ready node = true)).
  { intros base. rewrite append_if_nil. case_bool_decide; destruct (nd_Ready node); cbn; intuition congruence. }
  assert (Hbase : forall d, (ld_Blockers d ++ (missingBlocker <$> ld_MissingCapabilities d))%list = [] <->
    ld_Blockers d = [] /\ ld_MissingCapabilities d = []).
  { intros d. rewrite app_nil. split; intros [? H]; (split; [done|]); [by apply fmap_nil_inv in H|by rewrite H]. }
  destruct (machineAction a).
  - destruct (bool_decide (a = TargetNodeActionRemediate)) eqn:Er; norm_bool; rewrite append_if_nil, append_if_nil, Hcore, Hbase, ?negb_false_iff;
      destruct (nd_Ready node), (TargetNodeProviderWorkerEligible node); intuition congruence.
  - rewrite Hcore, Hbase. intuition congruence.
Qed.
End descriptors.

Lemma found_descriptor cluster inv readiness a d :
  let authority := BuildTargetNodeLifecycleAuthority cluster inv readiness in
  findLifecycleDescriptor authority a = Some d ->
  a ∈ lifecycleActions /\
  d = lifecycleDescriptor a inv (la_ProviderBindingReady authority)
        [match readiness with _ :: ready :: _ => ready | _ => false end].
Proof.
  cbv zeta. unfold findLifecycleDescriptor. intros [Hin He]%find_some. norm_bool.
  apply list_elem_of_In, list_elem_of_fmap in Hin as (b & -> & Hb). rewrite descriptor_action in *. by subst b.
Qed.

(** ** Plans *)

(** C23: plans are executable exactly when they are admitted.  A plan is for one of the
    seven actions and pins the inventory it was made from; it names a node of that
    inventory with its identity, or none for an action that needs none; and it is
    executable exactly when it has no blocker, which is when the target grants every
    capability of the action and the node is in the condition the action starts from. *)
Theorem plans_are_executable_when_admitted cluster inv request readiness plan :
  BuildTargetNodeLifecyclePlan cluster inv request readiness = Ok plan ->
  let bound := lp_ProviderBindingReady plan in
  let machine := match readiness with _ :: ready :: _ => ready | _ => false end in
  lp_Action plan ∈ lifecycleActions /\ lp_Action plan = ToUpper (TrimSpace (pr_Action request)) /\
  lp_InventoryDigest plan = iv_Digest inv /\ lp_PlanDigest plan = sha256Digest (canonicalPlan plan) /\
  (lp_Executable plan = true <-> lp_Blockers plan = []) /\
  exists node,
    (lp_Action plan = TargetNodeActionAdd /\ lp_NodeName plan = "" /\ node = zeroNode \/
     lp_Action plan <> TargetNodeActionAdd /\ node ∈ elems (iv_Nodes inv) /\ nd_Name node = lp_NodeName plan /\
     lp_NodeUID plan = nd_UID node /\ TrimSpace (nd_UID node) <> "") /\
    (lp_Executable plan = true <->
       (forall c, c ∈ needs (lp_Action plan) -> granted inv bound machine c) /\ fits bound (lp_Action plan) node).
Proof.
  unfold BuildTargetNodeLifecyclePlan. destruct (findLifecycleDescriptor _ _) as [d|] eqn:Ef; [|done].
  apply found_descriptor in Ef as [Ha ->]. set (a := ToUpper (TrimSpace (pr_Action request))) in *.
  set (bound := la_ProviderBindingReady _). set (machine := match readiness with _ :: _ :: _ => _ | _ => _ end).
  destruct (descriptor_spec inv bound machine a Ha) as (Hr & Hn & Hb & Hm & He).
  pose proof (fun node => plan_blockers inv bound machine a node Ha) as Hp.
  set (d := lifecycleDescriptor a inv bound [machine]) in *. rewrite Hr. cbn [negb].
  destruct (planNode inv d (TrimSpace (pr_NodeName request))) as [node|e] eqn:En; [|done].
  intros H. injection H as <-. cbn. specialize (Hp node).
  assert (Hx : ld_Executable d && negb (nonEmpty (planBlockers a d node)) = true <-> planBlockers a d node = []).
  { rewrite andb_true_iff, negb_true_iff, nonEmpty_false, He, Hm, Hb, Hp. unfold fits. tauto. }
  split_and!; [done|done|done|done|exact Hx|]. exists node. split; [|by rewrite Hx].
  revert En. unfold planNode. rewrite Hn. case_bool_decide as Ea; cbn [negb].
  - case_bool_decide as E2; cbn [negb]; [|done]. intros Hok. injection Hok as <-. by left.
  - case_bool_decide; [done|]. destruct (List.find _ _) as [n|] eqn:E; [|done]. destruct (blank (nd_UID n)) eqn:Eb; [done|].
    intros Hok. injection Hok as <-. right. apply find_some in E as [Hin Hname]. unfold blank in Eb. norm_bool.
    split_and!; [done|by apply list_elem_of_In|done|done|done].
Qed.

(** ** A concrete target *)

Module NodeDemo.

Definition worker (ready : bool) : ClusterNode := mkClusterNode "worker-1" "node-1" [" Worker"] "" "" "" ready.
Definition inventory (caps : list string) (nodes : list ClusterNode) : ClusterInventory :=
  mkClusterInventory (newMeta "" 0) "c" 5 "RKE2" "" "" "" "v1.33.1" (Some nodes) None None
    (mkClusterCapacity 0 0 0 0 0 0) None (mkClusterNetworking "cilium" [] false)
    (mkClusterWorkloadExplorer "" false false [] [] [] [] []) None None false false "" "" false caps "sha256:inv".
Definition patchable (ready : bool) : ClusterInventory :=
  inventory [TargetMutationRBACActiveCapability; ClusterMaintenanceFencedReportCapability; TargetNodeHostMaintenanceCapability;
             " Target-Node-OS-Patch"] [worker ready].
Definition plan (inv : ClusterInventory) (action : string) : option (bool * list string) :=
  match BuildTargetNodeLifecyclePlan demo_cluster inv (mkTargetNodeLifecyclePlanRequest action "worker-1") [true; true] with
  | Ok p => Some (lp_Executable p, lp_Blockers p)
  | Fail _ => None
  end.
End NodeDemo.
Import NodeDemo.

Example plans_of_a_worker :
  plan (patchable true) "drain" = Some (true, []) /\ plan (patchable true) " replace " = Some (true, []) /\
  plan (patchable true) "REMEDIATE" = Some (false, ["TARGET_NODE_REMEDIATION_REQUIRES_NOT_READY"]) /\
  plan (inventory [] [worker true]) "DRAIN" =
    Some (false, ["TARGET_CAPABILITY_MISSING:cluster-maintenance-fenced-report";
                  "TARGET_CAPABILITY_MISSING:target-mutation-rbac-active"]) /\
  plan (inventory [] []) "DRAIN" = None.
Proof. split_and!; vm_compute; reflexivity. Qed.

(** A package update of a node that is not ready is planned as executable, although
    every run that selects such a node is refused. *)
Example not_ready_nodes_are_planned_for_patching :
  plan (patchable false) "OS_PATCH" = Some (true, []) /\ plan (patchable false) "DRAIN" = Some (false, ["TARGET_NODE_NOT_READY"]).
Proof. split; vm_compute; reflexivity. Qed.

Lemma plans_are_executable_when_admitted_witness :
  exists plan, lp_Executable plan = true /\ lp_NodeUID plan = "node-1" /\ fits true (lp_Action plan) (worker true) /\
    forall c, c ∈ needs (lp_Action plan) -> granted (patchable true) true true c.
Proof.
  destruct (BuildTargetNodeLifecyclePlan demo_cluster (patchable true)
    (mkTargetNodeLifecyclePlanRequest "drain" "worker-1") [true; true]) as [plan|e] eqn:E; [|vm_compute in E; discriminate].
  pose proof (plans_are_executable_when_admitted _ _ _ _ _ E) as H.
  assert (Hp : (lp_Executable plan, lp_ProviderBindingReady plan, lp_NodeUID plan, lp_Action plan) = (true, true, "node-1", "DRAIN")).
  { assert (Hv : match BuildTargetNodeLifecyclePlan demo_cluster (patchable true)
      (mkTargetNodeLifecyclePlanRequest "drain" "worker-1") [true; true] with
      | Ok p => (lp_Executable p, lp_ProviderBindingReady p, lp_NodeUID p, lp_Action p) | Fail _ => (false, false, "", "") end
      = (true, true, "node-1", "DRAIN")) by (vm_compute; reflexivity). by rewrite E in Hv. }
  injection Hp as E1 E2 E3 E4. cbv zeta in H. rewrite E1, E2, E4 in H.
  destruct H as (_ & _ & _ & _ & _ & node & [(H & _)|(_ & Hin & _)] & Hx); [done|].
  exists plan. rewrite E4. destruct (proj1 Hx eq_refl) as [Hc Hf].
  assert (node = worker true) as -> by (by apply list_elem_of_singleton in Hin). done.
Defined.
