(* ===== verification/Maintenance.v ===== *)
(** * Cluster maintenance

    [cluster_maintenance_store.go], with the contract of node maintenance in
    [day2_campaign.go].  A cluster has a profile and maintenance windows; a run
    drains (and patches) selected nodes of the cluster's current inventory
    inside a window, after somebody else approved it, and is executed by the
    cluster's agent under the lease and the fencing token of a linked
    operation.  These handlers write the linked operation themselves, not
    through the handlers of the engine. *)
From S2P Require Import Prelude GoStrings Digest Model Calendar Inventory Store Ordering Listing Operations Organizations.
From S2P Require Import Fleet Targets Impact Campaigns NodeLifecycle.

Definition ClusterMaintenanceAuthorityMethod : string := "KUBERNETES_NODE_MAINTENANCE_V1".
Definition defaultHostActionTimeoutSeconds : Z := 3600.
Definition hostMaintenanceExecutor : string := "TARGET_NODE_HOST_MAINTENANCE_EXECUTOR_V1".
Definition Microsecond : Z := 1000.
(** [t.Truncate(d)]: down to a multiple of [d] since the zero time *)
Definition Truncate (d t : Z) : Time := t - t mod d.

Definition normalizeClusterEnvironment (v : ClusterEnvironment) : option ClusterEnvironment :=
  let env := ToUpper (TrimSpace v) in
  if bool_decide (env ∈ [ClusterEnvironmentDevelopment; ClusterEnvironmentStaging; ClusterEnvironmentProduction])
  then Some env else None.

Definition validateDrainTimeout (seconds : Z) : bool := (30 <=? seconds) && (seconds <=? 3600).

Definition normalizeMaintenanceAction (action : TargetNodeLifecycleAction) : TargetNodeLifecycleAction * bool :=
  let action := ToUpper (TrimSpace action) in
  let action := if action == "" then TargetNodeActionDrain else action in
  (action, (action == TargetNodeActionDrain) || (action == TargetNodeActionOSPatch)).

Definition clusterMaintenanceLeaseDuration (v : ClusterMaintenanceRun) : Z :=
  let nodes := Z.of_nat (length (mr_NodeNames v)) in
  let nodes := if nodes <? 1 then 1 else nodes in
  let secondsPerNode := mr_DrainTimeoutSeconds v in
  let secondsPerNode :=
    if mr_Action v == TargetNodeActionOSPatch then
      wrap64 (secondsPerNode + (if mr_HostActionTimeoutSeconds v <=? 0 then defaultHostActionTimeoutSeconds
                                else mr_HostActionTimeoutSeconds v))
    else secondsPerNode in
  let seconds := wrap64 (nodes * secondsPerNode) in
  let seconds := if seconds <? 30 then 30 else seconds in
  wrap64 (wrap64 (seconds * Second) + 2 * Minute).

(** the zero value a lookup without [ok] answers *)
Definition zeroRun : ClusterMaintenanceRun :=
  mkClusterMaintenanceRun (mkResourceMeta "" 0 0 0) "" "" "" "" ClusterMaintenanceAwaitingApproval "" [] ∅ "" 0 0 0 "" "" None None
    None [] "" "" "".

Definition maintenanceOwner (clusterID : string) : string := "cluster-maintenance-agent:" +:+ clusterID.

(** ** Runs whose agent vanished *)

Definition staleMaintenance : string :=
  "maintenance agent lease expired or ownership changed before task completion; operator recovery is required".

Definition endedRun (st : ClusterMaintenanceRunState) (message : string) (now : Time) (v : ClusterMaintenanceRun)
    : ClusterMaintenanceRun :=
  v <| mr_State := st |> <| mr_LastError := message |> <| mr_FinishedAt := Some now |> <| mr_Meta := bump (mr_Meta v) now |>.
Definition endedOperation (st : OperationState) (message : string) (now : Time) (op : Operation) : Operation :=
  clearLease (op <| op_State := st |> <| op_LastError := message |>) <| op_Meta := bump (op_Meta op) now |>.

Definition failStaleRunningMaintenanceLocked (v : ClusterMaintenanceRun) (op : Operation) (now : Time) (message : string)
    : Store unit :=
  let v := endedRun ClusterMaintenanceNeedsOperator message now v in
  let op := endedOperation OperationNeedsOperator message now op in
  putClusterMaintenanceRun (rm_ID (mr_Meta v)) v ;;;
  putOperation (op_ID op) op ;;;
  appendAuditLocked "cluster-agent" "cluster_maintenance.run_lease_expired" "clusterMaintenanceRun" (rm_ID (mr_Meta v))
    (rm_Revision (mr_Meta v)) [("operationId", MStr (op_ID op)); ("error", MStr message)] ;;;
  appendOutboxLocked "clusterMaintenanceRun" (rm_ID (mr_Meta v)) "cluster_maintenance.needs_operator" (PayloadClusterMaintenanceRun v) ;;;
  appendOutboxLocked "operation" (op_ID op) "operation.needs_operator" (PayloadOperation op).

(** the agent of the cluster still holds the lease of the operation *)
Definition maintenanceLeaseHeld (clusterID : string) (now : Time) (op : Operation) : bool :=
  (op_State op == OperationRunning) && (op_LeaseOwner op == maintenanceOwner clusterID) && after (op_LeaseExpiresAt op) now.

Fixpoint expireLoop (clusterID : string) (now : Time) (runs : list (string * ClusterMaintenanceRun)) : Store unit :=
  match runs with
  | [] => ret tt
  | (_, v) :: rest =>
      (if (mr_ClusterID v != clusterID) || (mr_State v != ClusterMaintenanceRunning) then ret tt
       else
         let! s := get in
         match ms_operations s !! mr_OperationID v with
         | None => ret tt
         | Some op => when (negb (maintenanceLeaseHeld clusterID now op)) (failStaleRunningMaintenanceLocked v op now staleMaintenance)
         end) ;;;
      expireLoop clusterID now rest
  end.

Definition expireStaleRunningMaintenanceLocked (clusterID : string) (now : Time) : Store unit :=
  let! s := get in expireLoop clusterID now (map_to_list (ms_clusterMaintenanceRuns s)).

(** ** Profiles *)

(** the cluster is known, and of the project when one is named *)
Definition maintainedCluster (clusterID projectID : string) : Store ManagedCluster :=
  let! s := get in
  let! cluster := get_opt (ms_managedClusters s !! clusterID) ErrNotFound in
  fail_if (negb (blank projectID) && (mc_ProjectID cluster != TrimSpace projectID)) ErrNotFound ;;;
  ret cluster.

Definition UpsertClusterMaintenanceProfile (v : ClusterMaintenanceProfile) (expected : Z) (actor : string)
    : Store ClusterMaintenanceProfile :=
  let! cluster := maintainedCluster (mp_ClusterID v) (mp_ProjectID v) in
  let! env := get_opt (normalizeClusterEnvironment (mp_Environment v)) ErrValidation in
  fail_if (negb (validateDrainTimeout (mp_DefaultDrainTimeoutSeconds v))) ErrValidation ;;;
  let! now := nowUTC in
  let! s := get in
  let! meta :=
    match ms_clusterMaintenanceProfiles s !! mp_ClusterID v with
    | Some existing =>
        fail_if ((expected == 0) || (rm_Revision (mp_Meta existing) != expected)) ErrConflict ;;;
        ret (bump (mp_Meta existing) now)
    | None =>
        fail_if (expected != 0) ErrConflict ;;;
        let! id := newID "cmp" in ret (newMeta id now)
    end in
  let v := v <| mp_Meta := meta |> <| mp_ProjectID := mc_ProjectID cluster |> <| mp_Environment := env |>
             <| mp_UpdatedBy := TrimSpace actor |> in
  putClusterMaintenanceProfile (mp_ClusterID v) v ;;;
  appendAuditLocked actor "cluster_maintenance.profile_upserted" "clusterMaintenanceProfile" (rm_ID (mp_Meta v))
    (rm_Revision (mp_Meta v))
    [("clusterId", MStr (mp_ClusterID v)); ("environment", MStr (mp_Environment v)); ("method", MStr ClusterMaintenanceAuthorityMethod)] ;;;
  appendOutboxLocked "clusterMaintenanceProfile" (rm_ID (mp_Meta v)) "cluster_maintenance.profile_upserted"
    (PayloadClusterMaintenanceProfile v) ;;;
  ret v.

Definition GetClusterMaintenanceProfile (clusterID : string) : Store ClusterMaintenanceProfile :=
  let! s := get in get_opt (ms_clusterMaintenanceProfiles s !! clusterID) ErrNotFound.

(** ** Windows *)

Definition sameWindow (v : ClusterMaintenanceWindow) (_ : string) (existing : ClusterMaintenanceWindow) : bool :=
  (mw_ClusterID existing == mw_ClusterID v) && (mw_State existing == ClusterMaintenanceWindowActive)
  && (normalizeName (mw_Name existing) == normalizeName (mw_Name v))
  && (mw_StartsAt existing == mw_StartsAt v) && (mw_EndsAt existing == mw_EndsAt v).

Definition CreateClusterMaintenanceWindow (v : ClusterMaintenanceWindow) (actor : string) : Store ClusterMaintenanceWindow :=
  let! cluster := maintainedCluster (mw_ClusterID v) (mw_ProjectID v) in
  let! s := get in
  let! _ := get_opt (ms_clusterMaintenanceProfiles s !! mw_ClusterID v) ErrPrerequisite in
  let v := v <| mw_Name := TrimSpace (mw_Name v) |> <| mw_StartsAt := Truncate Microsecond (mw_StartsAt v) |>
             <| mw_EndsAt := Truncate Microsecond (mw_EndsAt v) |> in
  fail_if ((mw_Name v == "") || (mw_StartsAt v =? 0) || negb (mw_StartsAt v <? mw_EndsAt v)) ErrValidation ;;;
  let! at_ := nowUTC in
  fail_if (negb (at_ <? mw_EndsAt v)) ErrValidation ;;;
  let v := if mw_MaxUnavailable v =? 0 then v <| mw_MaxUnavailable := 1 |> else v in
  fail_if (mw_MaxUnavailable v != 1) ErrValidation ;;;
  fail_if (negb (validateDrainTimeout (mw_DrainTimeoutSeconds v))) ErrValidation ;;;
  fail_if (map_any (sameWindow v) (ms_clusterMaintenanceWindows s)) ErrDuplicateName ;;;
  let! now := nowUTC in
  let! id := newID "cmw" in
  let v := v <| mw_Meta := newMeta id now |> <| mw_ProjectID := mc_ProjectID cluster |>
             <| mw_State := ClusterMaintenanceWindowActive |> <| mw_CreatedBy := TrimSpace actor |> in
  putClusterMaintenanceWindow id v ;;;
  appendAuditLocked actor "cluster_maintenance.window_created" "clusterMaintenanceWindow" id (rm_Revision (mw_Meta v))
    [("clusterId", MStr (mw_ClusterID v)); ("startsAt", MTime (Some (mw_StartsAt v))); ("endsAt", MTime (Some (mw_EndsAt v)));
     ("maxUnavailable", MInt (mw_MaxUnavailable v))] ;;;
  appendOutboxLocked "clusterMaintenanceWindow" id "cluster_maintenance.window_created" (PayloadClusterMaintenanceWindow v) ;;;
  ret v.

Definition GetClusterMaintenanceWindow (id : string) : Store ClusterMaintenanceWindow :=
  let! s := get in get_opt (ms_clusterMaintenanceWindows s !! id) ErrNotFound.

Definition ListClusterMaintenanceWindows (clusterID : string) : Store (list ClusterMaintenanceWindow) :=
  let! s := get in
  ret (sortSlice (lexi mw_StartsAt Z.ltb (on (fun w => rm_ID (mw_Meta w)) string_lt))
        (map_select (fun _ v => (clusterID == "") || (mw_ClusterID v == clusterID)) (ms_clusterMaintenanceWindows s))).

(** a run of the window that has not ended *)
Definition activeRun (st : ClusterMaintenanceRunState) : bool :=
  match st with
  | ClusterMaintenanceAwaitingApproval | ClusterMaintenanceQueued | ClusterMaintenanceRunning | ClusterMaintenanceRestoring => true
  | _ => false
  end.
Definition boundTo (id : string) (_ : string) (run : ClusterMaintenanceRun) : bool :=
  (mr_WindowID run == id) && activeRun (mr_State run).

Definition CancelClusterMaintenanceWindow (id : string) (expected : Z) (actor : string) : Store ClusterMaintenanceWindow :=
  let! s := get in
  let! v := get_opt (ms_clusterMaintenanceWindows s !! id) ErrNotFound in
  fail_if (rm_Revision (mw_Meta v) != expected) ErrConflict ;;;
  fail_if (mw_State v != ClusterMaintenanceWindowActive) ErrInvalidTransition ;;;
  fail_if (map_any (boundTo id) (ms_clusterMaintenanceRuns s)) ErrPrerequisite ;;;
  let! now := nowUTC in
  let v := v <| mw_State := ClusterMaintenanceWindowCancelled |> <| mw_CancelledBy := TrimSpace actor |>
             <| mw_CancelledAt := Some now |> <| mw_Meta := bump (mw_Meta v) now |> in
  putClusterMaintenanceWindow id v ;;;
  appendAuditLocked actor "cluster_maintenance.window_cancelled" "clusterMaintenanceWindow" id (rm_Revision (mw_Meta v))
    [("clusterId", MStr (mw_ClusterID v))] ;;;
  appendOutboxLocked "clusterMaintenanceWindow" id "cluster_maintenance.window_cancelled" (PayloadClusterMaintenanceWindow v) ;;;
  ret v.

(** ** Node identities *)

(** the text of a sentinel; the reason of a failed run contains it *)
Definition Error_text (e : Error) : string :=
  match e with
  | ErrNotFound => "not found"
  | ErrConflict => "revision conflict"
  | ErrDuplicateName => "duplicate name"
  | ErrIdempotencyConflict => "idempotency key used with a different request"
  | ErrInvalidTransition => "invalid operation transition"
  | ErrLeaseHeld => "operation lease is held by another worker"
  | ErrNotClaimable => "operation state is not claimable"
  | ErrStaleFence => "stale fencing token"
  | ErrImmutable => "resource is immutable"
  | ErrPlanStale => "execution plan is stale and must be revalidated"
  | ErrMaintenanceWindow => "operation is outside its maintenance window"
  | ErrPrerequisite => "operation prerequisite is not satisfied"
  | ErrValidation => "validation failed"
  end.

(** an error with its text: [fmt.Errorf("%w: ...", e)] *)
Definition errorf (e : Error) (message : string) : Error * string := (e, Error_text e +:+ ": " +:+ message).

(** the loop over the names of a request: their nodes' UIDs, or what is wrong *)
Fixpoint selectNodes (nodes : gmap string ClusterNode) (seen : list string) (names : list string)
    : list (string * string) + Error * string :=
  match names with
  | [] => inl []
  | raw :: rest =>
      let name := TrimSpace raw in
      if (name == "") || bool_decide (name ∈ seen) then inr (errorf ErrValidation "node names must be non-empty and unique")
      else match nodes !! name with
      | None => inr (errorf ErrValidation ("node " +:+ name +:+ " is not present in current inventory"))
      | Some node =>
          if negb (nd_Ready node) then inr (errorf ErrPrerequisite ("node " +:+ name +:+ " is not Ready"))
          else if blank (nd_UID node) then inr (errorf ErrPrerequisite ("node " +:+ name +:+ " is missing a stable UID"))
          else match selectNodes nodes (name :: seen) rest with
               | inl out => inl ((name, TrimSpace (nd_UID node)) :: out)
               | inr e => inr e
               end
      end
  end.

(** the nodes by name, the last one of a name *)
Definition nodesByName (inv : ClusterInventory) : gmap string ClusterNode :=
  foldl (fun nodes n => <[nd_Name n := n]> nodes) ∅ (elems (iv_Nodes inv)).

Definition validateMaintenanceNodeSelection (inv : ClusterInventory) (names : list string)
    : (list string * gmap string string) + Error * string :=
  match names with
  | [] => inr (errorf ErrValidation "at least one node is required")
  | _ =>
      match selectNodes (nodesByName inv) [] names with
      | inl out => inl (out.*1, list_to_map out)
      | inr e => inr e
      end
  end.

(** [None] when the nodes are still the ones that were approved *)
Definition maintenanceNodeIdentityMatches (inv : ClusterInventory) (names : list string) (expected : gmap string string)
    : option (Error * string) :=
  match validateMaintenanceNodeSelection inv names with
  | inr e => Some e
  | inl (_, current) =>
      if negb (Z.of_nat (size expected) =? Z.of_nat (size current))
      then Some (errorf ErrPrerequisite "approved maintenance node identity is incomplete")
      else match map_find (fun name uid => TrimSpace (default "" (expected !! name)) != uid) current with
           | Some (name, _) => Some (errorf ErrPrerequisite ("node " +:+ name +:+ " identity changed after maintenance request"))
           | None => None
           end
  end.

(** ** The contract of node maintenance *)

Definition Day2CampaignAdapterNodeMaintenance : string := "node-maintenance".

Definition minPositive (a b : Z) : Z := if (a <=? 0) || (b <=? 0) then 0 else if a <? b then a else b.

Definition Day2ContractForMaintenance (run : ClusterMaintenanceRun) (window : ClusterMaintenanceWindow) : Day2CampaignContract :=
  let targetCount := Z.of_nat (length (mr_NodeNames run)) in
  let wave := if mr_MaxUnavailable run <=? 0 then mw_MaxUnavailable window else mr_MaxUnavailable run in
  mkDay2CampaignContract GeneralizedDay2CampaignAuthorityMethod Day2CampaignAdapterNodeMaintenance GeneralizedDay2CampaignStages
    targetCount (minPositive targetCount 1) wave 1 wave true true (mw_StartsAt window) (mw_EndsAt window) true true true false 0
    "durable-operation-fence+cluster-agent-node-identity".

(** [Day2CampaignEngineDescriptor] *)
Record Day2CampaignEngineDescriptor := mkDay2CampaignEngineDescriptor {
  de_Authority : string;
  de_StageOrder : list string;
  de_Adapters : list string;
  de_Policies : gmap string string;
}.

Definition Day2CampaignEngineModel : Day2CampaignEngineDescriptor :=
  mkDay2CampaignEngineDescriptor GeneralizedDay2CampaignAuthorityMethod GeneralizedDay2CampaignStages
    [Day2CampaignAdapterNodeMaintenance; Day2CampaignAdapterFleetUpgrade]
    (list_to_map
      [("approval", "independent actor for disruptive mutations");
       ("window", "execution may start only inside the bound maintenance window");
       ("rollout", "bounded canary/waves or single-target serial adapter semantics");
       ("fence", "worker execution must be lease/fence protected directly or through the delegated durable operation");
       ("verification", "successful mutation is not campaign success until adapter verification completes");
       ("evidence", "terminal success must remain evidence-addressable through the owning workflow");
       ("recovery", "high-impact rollout requires current recovery evidence before execution")]).

(** ** Requests *)

Definition runScope (v : ClusterMaintenanceRun) : string :=
  "cluster-maintenance:" +:+ mr_ProjectID v +:+ ":" +:+ mr_IdempotencyKey v.

Definition prepareClusterMaintenanceRunLocked (v : ClusterMaintenanceRun) (actor : string) : Store ClusterMaintenanceRun :=
  let! s := get in
  let! cluster := get_opt (ms_managedClusters s !! mr_ClusterID v) ErrNotFound in
  fail_if (mc_ProjectID cluster != mr_ProjectID v) ErrNotFound ;;;
  fail_if (blank (mr_IdempotencyKey v) || (200 <? len (mr_IdempotencyKey v))
           || negb (HasPrefix (mr_RequestDigest v) sha256_prefix)) ErrValidation ;;;
  let! window := get_opt (ms_clusterMaintenanceWindows s !! mr_WindowID v) ErrPrerequisite in
  fail_if ((mw_ClusterID window != mr_ClusterID v) || (mw_State window != ClusterMaintenanceWindowActive)) ErrPrerequisite ;;;
  let! at_ := nowUTC in
  fail_if (negb (at_ <? mw_EndsAt window)) ErrMaintenanceWindow ;;;
  let! inv := get_opt (ms_clusterInventories s !! mr_ClusterID v) ErrPrerequisite in
  fail_if ((iv_Digest inv == "") || (mc_InventoryDigest cluster != iv_Digest inv)) ErrPrerequisite ;;;
  match validateMaintenanceNodeSelection inv (mr_NodeNames v) with
  | inr (e, _) => raise e
  | inl (nodes, nodeUIDs) =>
      let '(action, validAction) := normalizeMaintenanceAction (mr_Action v) in
      fail_if (negb validAction) ErrValidation ;;;
      fail_if ((action == TargetNodeActionOSPatch) && negb (ld_Executable (lifecycleDescriptor action inv false []))) ErrPrerequisite ;;;
      let v := v <| mr_NodeNames := nodes |> <| mr_NodeUIDs := nodeUIDs |> <| mr_InventoryDigest := iv_Digest inv |>
                 <| mr_MaxUnavailable := mw_MaxUnavailable window |> <| mr_DrainTimeoutSeconds := mw_DrainTimeoutSeconds window |>
                 <| mr_Action := action |>
                 <| mr_HostActionTimeoutSeconds := if action == TargetNodeActionOSPatch then defaultHostActionTimeoutSeconds else 0 |>
                 <| mr_RequestedBy := TrimSpace actor |> in
      let! _ := lift (ValidateDay2CampaignContract (Day2ContractForMaintenance v window)) in
      ret v
  end.

(** the operation that a run is executed under *)
Definition maintenanceOperation (v : ClusterMaintenanceRun) (op : Operation) : bool :=
  (op_ProjectID op == mr_ProjectID v) && (op_Kind op == "CLUSTER_MAINTENANCE")
  && (op_TargetRef op == "cluster/" +:+ mr_ClusterID v).

Definition createPreparedClusterMaintenanceRunLocked (v : ClusterMaintenanceRun) (actor : string) : Store ClusterMaintenanceRun :=
  let! s := get in
  let! op := get_opt (ms_operations s !! mr_OperationID v) ErrPrerequisite in
  fail_if (negb (maintenanceOperation v op) || (op_State op != OperationAwaitingApproval)) ErrPrerequisite ;;;
  let! now := nowUTC in
  let! id := newID "cmr" in
  let v := v <| mr_Meta := newMeta id now |> <| mr_State := ClusterMaintenanceAwaitingApproval |> in
  putClusterMaintenanceRun id v ;;;
  putIdempotency (runScope v) id ;;;
  appendAuditLocked actor "cluster_maintenance.run_requested" "clusterMaintenanceRun" id (rm_Revision (mr_Meta v))
    [("clusterId", MStr (mr_ClusterID v)); ("windowId", MStr (mr_WindowID v)); ("operationId", MStr (mr_OperationID v));
     ("action", MStr (mr_Action v)); ("nodes", MStrs (mr_NodeNames v)); ("inventoryDigest", MStr (mr_InventoryDigest v))] ;;;
  appendOutboxLocked "clusterMaintenanceRun" id "cluster_maintenance.run_requested" (PayloadClusterMaintenanceRun v) ;;;
  ret v.

Definition CreateClusterMaintenanceRun (v : ClusterMaintenanceRun) (actor : string) : Store (ClusterMaintenanceRun * bool) :=
  let! s := get in
  match ms_idempotency s !! runScope v with
  | Some id =>
      let existing := default zeroRun (ms_clusterMaintenanceRuns s !! id) in
      fail_if (mr_RequestDigest existing != mr_RequestDigest v) ErrIdempotencyConflict ;;;
      ret (existing, true)
  | None =>
      let! prepared := prepareClusterMaintenanceRunLocked v actor in
      let! created := createPreparedClusterMaintenanceRunLocked prepared actor in
      ret (created, false)
  end.

Definition CreateClusterMaintenanceRunRequest (v : ClusterMaintenanceRun) (opRequest : OperationRequest)
    (opKey actor requestID : string) : Store (ClusterMaintenanceRun * Operation * bool) :=
  let! s := get in
  match ms_idempotency s !! runScope v with
  | Some id =>
      let existing := default zeroRun (ms_clusterMaintenanceRuns s !! id) in
      fail_if (mr_RequestDigest existing != mr_RequestDigest v) ErrIdempotencyConflict ;;;
      let! op := get_opt (ms_operations s !! mr_OperationID existing) ErrPrerequisite in
      ret (existing, op, true)
  | None =>
      let! prepared := prepareClusterMaintenanceRunLocked v actor in
      let! created := createOperationLocked opRequest opKey actor requestID in
      let '(op, opReplay) := created in
      fail_if (opReplay && negb (maintenanceOperation prepared op)) ErrIdempotencyConflict ;;;
      let! op := if op_State op == OperationDraft
                 then transitionOperationLocked (op_ID op) (op_Revision op) OperationPlanning "" actor else ret op in
      let! op := if op_State op == OperationPlanning
                 then transitionOperationLocked (op_ID op) (op_Revision op) OperationAwaitingApproval "" actor else ret op in
      fail_if (op_State op != OperationAwaitingApproval) ErrPrerequisite ;;;
      let! created := createPreparedClusterMaintenanceRunLocked (prepared <| mr_OperationID := op_ID op |>) actor in
      ret (created, op, false)
  end.

Definition GetClusterMaintenanceRun (id : string) : Store ClusterMaintenanceRun :=
  let! s := get in get_opt (ms_clusterMaintenanceRuns s !! id) ErrNotFound.

Definition ListClusterMaintenanceRuns (clusterID : string) : Store (list ClusterMaintenanceRun) :=
  let! s := get in
  ret (oldest_first mr_Meta (fun v => (clusterID == "") || (mr_ClusterID v == clusterID)) (ms_clusterMaintenanceRuns s)).

(** ** Approval *)

Definition ApproveClusterMaintenanceRun (id : string) (expected : Z) (actor : string) : Store ClusterMaintenanceRun :=
  let! s := get in
  let! v := get_opt (ms_clusterMaintenanceRuns s !! id) ErrNotFound in
  fail_if (rm_Revision (mr_Meta v) != expected) ErrConflict ;;;
  fail_if (mr_State v != ClusterMaintenanceAwaitingApproval) ErrInvalidTransition ;;;
  let! _ := lift (ValidateDay2IndependentApproval (mr_RequestedBy v) actor) in
  let! window := get_opt (ms_clusterMaintenanceWindows s !! mr_WindowID v) ErrMaintenanceWindow in
  fail_if (mw_State window != ClusterMaintenanceWindowActive) ErrMaintenanceWindow ;;;
  let! at_ := nowUTC in
  fail_if (negb (at_ <? mw_EndsAt window)) ErrMaintenanceWindow ;;;
  let! inv := get_opt (ms_clusterInventories s !! mr_ClusterID v) ErrPrerequisite in
  fail_if (iv_Digest inv != mr_InventoryDigest v) ErrPrerequisite ;;;
  match maintenanceNodeIdentityMatches inv (mr_NodeNames v) (mr_NodeUIDs v) with
  | Some (e, _) => raise e
  | None =>
      let! op := get_opt (ms_operations s !! mr_OperationID v) ErrPrerequisite in
      fail_if (op_State op != OperationAwaitingApproval) ErrPrerequisite ;;;
      let! now := nowUTC in
      let op := op <| op_State := OperationQueued |> <| op_Meta := bump (bump (op_Meta op) now) now |> in
      putOperation (op_ID op) op ;;;
      let v := v <| mr_State := ClusterMaintenanceQueued |> <| mr_ApprovedBy := TrimSpace actor |>
                 <| mr_ApprovedAt := Some now |> <| mr_Meta := bump (mr_Meta v) now |> in
      putClusterMaintenanceRun id v ;;;
      appendAuditLocked actor "cluster_maintenance.run_approved" "clusterMaintenanceRun" id (rm_Revision (mr_Meta v))
        [("operationId", MStr (mr_OperationID v)); ("windowId", MStr (mr_WindowID v))] ;;;
      appendAuditLocked actor "operation.approved_queued" "operation" (op_ID op) (op_Revision op) [("maintenanceRunId", MStr id)] ;;;
      appendOutboxLocked "clusterMaintenanceRun" id "cluster_maintenance.run_queued" (PayloadClusterMaintenanceRun v) ;;;
      appendOutboxLocked "operation" (op_ID op) "operation.queued" (PayloadOperation op) ;;;
      ret v
  end.

(** ** Claims *)

Definition failQueuedMaintenanceRunLocked (v : ClusterMaintenanceRun) (op : Operation) (message : string) (now : Time) : Store unit :=
  let v := endedRun ClusterMaintenanceFailed message now v in
  let op := endedOperation OperationFailed message now op in
  putClusterMaintenanceRun (rm_ID (mr_Meta v)) v ;;;
  putOperation (op_ID op) op ;;;
  appendAuditLocked "cluster-agent" "cluster_maintenance.run_failed_before_claim" "clusterMaintenanceRun" (rm_ID (mr_Meta v))
    (rm_Revision (mr_Meta v)) [("error", MStr message); ("operationId", MStr (op_ID op))] ;;;
  appendOutboxLocked "clusterMaintenanceRun" (rm_ID (mr_Meta v)) "cluster_maintenance.run_failed" (PayloadClusterMaintenanceRun v).

(** what the loop of a claim does with a queued run *)
Inductive ClaimVerdict : Type :=
| ClaimSkip
| ClaimFail (op : Operation) (message : string)
| ClaimStart (op : Operation).

Definition claimVerdict (s : MemoryStore) (cluster : ManagedCluster) (clusterID : string) (now : Time) (v : ClusterMaintenanceRun)
    : ClaimVerdict :=
  match ms_operations s !! mr_OperationID v, ms_clusterMaintenanceWindows s !! mr_WindowID v with
  | None, _ => ClaimSkip
  | Some op, None => ClaimFail op "maintenance authority state is inconsistent"
  | Some op, Some window =>
      if op_State op != OperationQueued then ClaimFail op "maintenance authority state is inconsistent"
      else if mw_State window != ClusterMaintenanceWindowActive then ClaimFail op "maintenance window is no longer active"
      else match ValidateDay2ExecutionWindow (mw_StartsAt window) (mw_EndsAt window) now with
      | Fail _ => if now <? mw_StartsAt window then ClaimSkip else ClaimFail op "maintenance window expired before task claim"
      | Ok _ =>
          match ms_clusterInventories s !! clusterID with
          | None => ClaimFail op "cluster inventory changed after maintenance approval; submit a new run"
          | Some inv =>
              if (iv_Digest inv != mr_InventoryDigest v) || (mc_InventoryDigest cluster != mr_InventoryDigest v)
              then ClaimFail op "cluster inventory changed after maintenance approval; submit a new run"
              else match maintenanceNodeIdentityMatches inv (mr_NodeNames v) (mr_NodeUIDs v) with
              | Some (_, message) => ClaimFail op message
              | None =>
                  if (mr_Action v == TargetNodeActionOSPatch) && negb (ld_Executable (lifecycleDescriptor (mr_Action v) inv false []))
                  then ClaimFail op "OS patch target capability/executor admission changed after approval"
                  else ClaimStart op
              end
          end
      end
  end.

Definition startedRun (now : Time) (v : ClusterMaintenanceRun) : ClusterMaintenanceRun :=
  v <| mr_State := ClusterMaintenanceRunning |> <| mr_StartedAt := Some now |> <| mr_Meta := bump (mr_Meta v) now |>.
Definition claimedOperation (clusterID : string) (lease now : Time) (op : Operation) : Operation :=
  op <| op_State := OperationRunning |> <| op_Attempt := inc64 (op_Attempt op) |> <| op_FenceToken := inc64 (op_FenceToken op) |>
     <| op_LeaseOwner := maintenanceOwner clusterID |> <| op_LeaseExpiresAt := Some lease |> <| op_Meta := bump (op_Meta op) now |>.

Fixpoint claimRuns (cluster : ManagedCluster) (clusterID : string) (now : Time) (ids : list string)
    : Store (ClusterMaintenanceRun * Operation) :=
  match ids with
  | [] => raise ErrNotFound
  | id :: rest =>
      let! s := get in
      let v := default zeroRun (ms_clusterMaintenanceRuns s !! id) in
      match claimVerdict s cluster clusterID now v with
      | ClaimSkip => claimRuns cluster clusterID now rest
      | ClaimFail op message => failQueuedMaintenanceRunLocked v op message now ;;; claimRuns cluster clusterID now rest
      | ClaimStart op =>
          let v := startedRun now v in
          let op := claimedOperation clusterID (now + clusterMaintenanceLeaseDuration v) now op in
          putClusterMaintenanceRun id v ;;;
          putOperation (op_ID op) op ;;;
          appendAuditLocked "cluster-agent" "cluster_maintenance.run_claimed" "clusterMaintenanceRun" id (rm_Revision (mr_Meta v))
            [("operationId", MStr (op_ID op)); ("fenceToken", MInt (op_FenceToken op))] ;;;
          appendOutboxLocked "clusterMaintenanceRun" id "cluster_maintenance.run_started" (PayloadClusterMaintenanceRun v) ;;;
          ret (v, op)
      end
  end.

(** the queued runs of the cluster, oldest first *)
Definition queuedRun (clusterID : string) (kv : string * ClusterMaintenanceRun) : bool :=
  (mr_ClusterID kv.2 == clusterID) && (mr_State kv.2 == ClusterMaintenanceQueued).
Definition queuedRuns (clusterID : string) (s : MemoryStore) : list string :=
  (sortSlice (lexi (fun kv => rm_CreatedAt (mr_Meta kv.2)) Z.ltb (on fst string_lt))
    (List.filter (queuedRun clusterID) (map_to_list (ms_clusterMaintenanceRuns s)))).*1.

Definition NextClusterMaintenanceTask (wall : Time) (clusterID agentTokenDigest : string)
    : Store (ClusterMaintenanceRun * Operation) :=
  let! cluster := requireFreshClusterTaskAdmissionLocked wall clusterID agentTokenDigest in
  let! now := nowUTC in
  expireStaleRunningMaintenanceLocked clusterID now ;;;
  fail_if (negb (clusterHasCapability cluster ClusterMaintenanceFencedReportCapability)) ErrNotFound ;;;
  let! s := get in
  claimRuns cluster clusterID now (queuedRuns clusterID s).

(** ** Reports *)

(** the node went through the whole contract of the action *)
Definition nodeSafe (action : TargetNodeLifecycleAction) (r : NodeMaintenanceResult) : bool :=
  nr_Cordoned r && nr_DrainAttempted r && nr_Drained r && nr_Uncordoned r && blank (nr_Error r)
  && ((action != TargetNodeActionOSPatch)
      || (nr_HostActionAttempted r && nr_HostActionSucceeded r && (nr_HostActionAuthority r == hostMaintenanceExecutor)
          && negb (blank (nr_HostActionEvidence r)))).

(** the loop over the results: the nodes seen, whether an operator is needed, and
    whether every node is safe *)
Fixpoint reportLoop (action : TargetNodeLifecycleAction) (selected seen : gset string) (needsOperator allSafe : bool)
    (results : list NodeMaintenanceResult) : result (gset string * bool * bool) :=
  match results with
  | [] => Ok (seen, needsOperator, allSafe)
  | r :: rest =>
      if negb (bool_decide (nr_NodeName r ∈ selected)) || bool_decide (nr_NodeName r ∈ seen) then Fail ErrValidation
      else reportLoop action selected ({[nr_NodeName r]} ∪ seen) (needsOperator || (nr_Cordoned r && negb (nr_Uncordoned r)))
             (allSafe && nodeSafe action r) rest
  end.

(** the run and its operation after the report *)
Definition reportedRun (result_ : ClusterMaintenanceTaskResult) (needsOperator : bool) (now : Time) (v : ClusterMaintenanceRun)
    : ClusterMaintenanceRun :=
  let message := TrimSpace (mtr_Error result_) in
  let orElse text := if message == "" then text else message in
  let v := v <| mr_Results := mtr_Results result_ |> <| mr_FinishedAt := Some now |> <| mr_Meta := bump (mr_Meta v) now |> in
  if mtr_Success result_ then v <| mr_State := ClusterMaintenanceSucceeded |> <| mr_LastError := message |>
  else if needsOperator then
    v <| mr_State := ClusterMaintenanceNeedsOperator |>
      <| mr_LastError := orElse "one or more nodes could not be restored to schedulable state" |>
  else v <| mr_State := ClusterMaintenanceFailed |> <| mr_LastError := orElse "cluster maintenance task failed" |>.
Definition reportedOperation (result_ : ClusterMaintenanceTaskResult) (needsOperator : bool) (lastError : string) (now : Time)
    (op : Operation) : Operation :=
  clearLease
    (if mtr_Success result_
     then op <| op_State := OperationSucceeded |> <| op_LastError := "" |> <| op_Meta := bump (bump (op_Meta op) now) now |>
     else if needsOperator
     then op <| op_State := OperationNeedsOperator |> <| op_LastError := lastError |> <| op_Meta := bump (bump (op_Meta op) now) now |>
     else op <| op_State := OperationFailed |> <| op_LastError := lastError |> <| op_Meta := bump (op_Meta op) now |>).

Definition ReportClusterMaintenanceTask (clusterID runID : string) (expected : Z) (result_ : ClusterMaintenanceTaskResult)
    : Store (ClusterMaintenanceRun * Operation) :=
  let! s := get in
  let! cluster := get_opt (ms_managedClusters s !! clusterID) ErrNotFound in
  fail_if (negb (ClusterTaskAdmitted cluster)) ErrPrerequisite ;;;
  let! v := get_opt (ms_clusterMaintenanceRuns s !! runID) ErrNotFound in
  fail_if (mr_ClusterID v != clusterID) ErrNotFound ;;;
  fail_if (rm_Revision (mr_Meta v) != expected) ErrConflict ;;;
  fail_if (mr_State v != ClusterMaintenanceRunning) ErrInvalidTransition ;;;
  let! now := nowUTC in
  let! op := get_opt (ms_operations s !! mr_OperationID v) ErrPrerequisite in
  fail_if ((op_State op != OperationRunning) || (op_LeaseOwner op != maintenanceOwner clusterID)) ErrPrerequisite ;;;
  let! _ := lift (ValidateDay2Fence (op_FenceToken op) (mtr_OperationFenceToken result_) (op_LeaseExpiresAt op) now) in
  fail_if (negb (nonEmpty (mtr_Results result_))) ErrValidation ;;;
  let selected : gset string := list_to_set (mr_NodeNames v) in
  let! report := lift (reportLoop (mr_Action v) selected ∅ false true (mtr_Results result_)) in
  let '(seen, needsOperator, allSafe) := report in
  fail_if (negb (Z.of_nat (size seen) =? Z.of_nat (size selected))) ErrValidation ;;;
  fail_if (mtr_Success result_ && negb allSafe) ErrValidation ;;;
  let v := reportedRun result_ needsOperator now v in
  let op := reportedOperation result_ needsOperator (mr_LastError v) now op in
  putClusterMaintenanceRun runID v ;;;
  putOperation (op_ID op) op ;;;
  appendAuditLocked "cluster-agent" "cluster_maintenance.run_reported" "clusterMaintenanceRun" runID (rm_Revision (mr_Meta v))
    [("operationId", MStr (op_ID op)); ("state", MStr (ClusterMaintenanceRunState_string (mr_State v)));
     ("action", MStr (mr_Action v)); ("nodes", MInt (Z.of_nat (length (mr_Results v))));
     ("method", MStr ClusterMaintenanceAuthorityMethod)] ;;;
  appendOutboxLocked "clusterMaintenanceRun" runID "cluster_maintenance.run_completed" (PayloadClusterMaintenanceRun v) ;;;
  appendOutboxLocked "operation" (op_ID op) "operation.completed" (PayloadOperation op) ;;;
  ret (v, op).
