(* ===== verification/MaintenanceTheorems.v ===== *)
(** * What cluster maintenance guarantees

    The invariant of windows and runs, that every call keeps it, under which
    conditions a run is handed to the agent, and what a reported run went
    through.  The linked operations are written by these handlers directly; what
    that breaks is shown at the end. *)
From S2P Require Import Prelude GoStrings Digest Model Calendar Inventory Store Ordering Listing Operations OperationSystem.
From S2P Require Import OperationRuns Demo Collections Organizations Fleet Admission Targets Impact Campaigns NodeLifecycle Maintenance.

(** ** Node identities *)

Definition nodeNamed (inv : ClusterInventory) (name uid : string) : Prop :=
  exists node, node ∈ elems (iv_Nodes inv) /\ nd_Name node = name /\ nd_Ready node = true /\ TrimSpace (nd_UID node) = uid.

Lemma nodes_by_name l (m : gmap string ClusterNode) name node :
  foldl (fun nodes n => <[nd_Name n := n]> nodes) m l !! name = Some node ->
  m !! name = Some node \/ node ∈ l /\ nd_Name node = name.
Proof.
  revert m. induction l as [|n l IH]; intros m H; [by left|]. cbn in H. destruct (IH _ H) as [Hm|[Hin Hn]].
  - apply lookup_insert_Some in Hm as [[E ->]|[_ Hm]]; [right; split; [left|done]|by left].
  - right. split; [by right|done].
Qed.

Lemma select_spec nodes seen names out :
  selectNodes nodes seen names = inl out ->
  out.*1 = TrimSpace <$> names /\ NoDup out.*1 /\ Forall (fun x => x ∉ seen) out.*1 /\
  Forall (fun '(name, uid) => name <> "" /\ uid <> "" /\
    exists node, nodes !! name = Some node /\ nd_Ready node = true /\ TrimSpace (nd_UID node) = uid) out.
Proof.
  revert seen out. induction names as [|raw names IH]; intros seen out H; cbn [selectNodes] in H; cbv zeta in H.
  { injection H as <-. split_and!; [done|constructor|constructor|constructor]. }
  destruct (_ || _) eqn:E; [done|]. destruct (nodes !! TrimSpace raw) as [node|] eqn:En; [|done].
  destruct (nd_Ready node) eqn:Er; cbn [negb] in H; [|done]. destruct (blank (nd_UID node)) eqn:Eb; [done|].
  destruct (selectNodes nodes _ names) as [out'|] eqn:El; [|done]. injection H as <-.
  destruct (IH _ _ El) as (H1 & H2 & H3 & H4). unfold blank in Eb. norm_bool. rewrite Forall_forall in H3. split_and!.
  - cbn. by rewrite H1.
  - constructor; [|done]. intros Hin. apply (H3 _ Hin). left.
  - constructor; [done|]. apply Forall_forall. intros x Hx Hs. apply (H3 _ Hx). by right.
  - constructor; [|done]. split_and!; [done|done|]. by exists node.
Qed.

Lemma selection_spec inv names out uids :
  validateMaintenanceNodeSelection inv names = inl (out, uids) ->
  out <> [] /\ NoDup out /\ (forall name, is_Some (uids !! name) <-> name ∈ out) /\
  forall name uid, uids !! name = Some uid -> name <> "" /\ uid <> "" /\ nodeNamed inv name uid.
Proof.
  unfold validateMaintenanceNodeSelection. destruct names as [|raw names]; [done|].
  destruct (selectNodes _ _ _) as [sel|] eqn:E; [|done]. intros H. injection H as <- <-.
  destruct (select_spec _ _ _ _ E) as (H1 & H2 & _ & H4). split_and!; [by rewrite H1|done| |].
  - intros name. split.
    + intros [uid Hu]. apply elem_of_list_to_map_2 in Hu. apply list_elem_of_fmap. by exists (name, uid).
    + intros ([n uid] & -> & Hin)%list_elem_of_fmap. exists uid. by apply elem_of_list_to_map_1.
  - intros name uid Hu. apply elem_of_list_to_map_2 in Hu. rewrite Forall_forall in H4.
    destruct (H4 _ Hu) as (? & ? & node & Hn & Hr & Ht). split_and!; [done|done|]. exists node.
    destruct (nodes_by_name _ _ _ _ Hn) as [Hm|[Hin Hname]]; [by rewrite lookup_empty in Hm|]. done.
Qed.

Lemma identity_spec inv names expected :
  maintenanceNodeIdentityMatches inv names expected = None ->
  forall name uid, expected !! name = Some uid -> nodeNamed inv name (TrimSpace uid).
Proof.
  unfold maintenanceNodeIdentityMatches. destruct (validateMaintenanceNodeSelection inv names) as [[out cur]|] eqn:E; [|done].
  destruct (selection_spec _ _ _ _ E) as (_ & _ & _ & Hc).
  destruct (Z.eqb_spec (Z.of_nat (size expected)) (Z.of_nat (size cur))) as [Hs|]; cbn [negb]; [|done].
  destruct (map_find _ cur) as [[k v]|] eqn:Em; [done|]. rewrite map_find_None in Em. intros _ name uid Hn.
  assert (Hk : forall k u, cur !! k = Some u -> TrimSpace (default "" (expected !! k)) = u /\ u <> "").
  { intros k u Hk. specialize (Em _ _ Hk). norm_bool. destruct (Hc _ _ Hk) as (_ & ? & _). done. }
  assert (Hd : dom cur = dom expected).
  { apply set_subseteq_size_eq; [|rewrite !size_dom; lia]. intros k [u Hu]%elem_of_dom. apply elem_of_dom.
    destruct (Hk _ _ Hu) as [Hx Hne]. destruct (expected !! k) as [e|]; [by eexists|]. cbn in Hx. by rewrite <- Hx in Hne. }
  assert (is_Some (cur !! name)) as [u Hu] by (apply elem_of_dom; rewrite Hd; apply elem_of_dom; by eexists).
  destruct (Hk _ _ Hu) as [Hx _]. rewrite Hn in Hx. cbn in Hx. subst u. by destruct (Hc _ _ Hu) as (_ & _ & ?).
Qed.

(** ** Reports *)

Lemma report_loop action selected rs : forall seen no safe out no' safe',
  reportLoop action selected seen no safe rs = Ok (out, no', safe') ->
  out = seen ∪ list_to_set (nr_NodeName <$> rs) /\ NoDup (nr_NodeName <$> rs) /\
  Forall (fun r => nr_NodeName r ∈ selected /\ nr_NodeName r ∉ seen) rs /\
  (safe' = true <-> safe = true /\ Forall (fun r => nodeSafe action r = true) rs) /\
  (no' = true <-> no = true \/ Exists (fun r => nr_Cordoned r = true /\ nr_Uncordoned r = false) rs).
Proof.
  induction rs as [|r rs IH]; intros seen no safe out no' safe' H; cbn [reportLoop] in H.
  { injection H as <- <- <-. split_and!; [set_solver|constructor|constructor| |].
    - split; [split; [done|constructor]|tauto].
    - split; [tauto|]. intros [?|Hx]; [done|by apply Exists_nil in Hx]. }
  destruct (_ || _) eqn:E; [done|]. destruct (IH _ _ _ _ _ _ H) as (-> & H2 & H3 & H4 & H5). norm_bool.
  rewrite Forall_forall in H3. split_and!.
  - set_solver.
  - constructor; [|done]. intros (r' & Er & Hr')%list_elem_of_fmap. destruct (H3 _ Hr') as [_ Hn]. set_solver.
  - constructor; [done|]. apply Forall_forall. intros r' Hr'. destruct (H3 _ Hr') as [? Hn]. set_solver.
  - rewrite H4, Forall_cons, andb_true_iff. tauto.
  - rewrite H5, Exists_cons, orb_true_iff, andb_true_iff, negb_true_iff. tauto.
Qed.

(** what a node goes through: cordoned, drained and uncordoned without an error, and when
    the action patches it, patched by the host executor, with evidence *)
Record node_safe (action : TargetNodeLifecycleAction) (r : NodeMaintenanceResult) : Prop := {
  ns_drained : nr_Cordoned r = true /\ nr_DrainAttempted r = true /\ nr_Drained r = true;
  ns_back : nr_Uncordoned r = true /\ TrimSpace (nr_Error r) = "";
  ns_patched : action = TargetNodeActionOSPatch ->
    nr_HostActionAttempted r = true /\ nr_HostActionSucceeded r = true /\
    nr_HostActionAuthority r = hostMaintenanceExecutor /\ TrimSpace (nr_HostActionEvidence r) <> ""
}.

Lemma nodeSafe_spec action r : nodeSafe action r = true -> node_safe action r.
Proof.
  unfold nodeSafe, blank. intros H. norm_bool. split; [done..|]. intros Ha.
  match goal with H : (_ || _) = true |- _ => apply orb_true_iff in H as [H|H] end; norm_bool; done.
Qed.

Lemma nodes_safe action rs : Forall (fun r => nodeSafe action r = true) rs -> Forall (node_safe action) rs.
Proof. intros H. eapply Forall_impl; [exact H|]. apply nodeSafe_spec. Qed.

(** every node of the run has exactly one result, and went through the contract *)
Definition every_node_safe (v : ClusterMaintenanceRun) : Prop :=
  NoDup (nr_NodeName <$> mr_Results v) /\ (forall name, name ∈ nr_NodeName <$> mr_Results v <-> name ∈ mr_NodeNames v) /\
  Forall (node_safe (mr_Action v)) (mr_Results v).

Lemma report_covers action (names : list string) rs out no safe :
  reportLoop action (list_to_set names) ∅ false true rs = Ok (out, no, safe) ->
  size out = size (list_to_set names : gset string) ->
  NoDup (nr_NodeName <$> rs) /\ (forall name, name ∈ nr_NodeName <$> rs <-> name ∈ names) /\
  (safe = true <-> Forall (fun r => nodeSafe action r = true) rs) /\
  (no = true <-> Exists (fun r => nr_Cordoned r = true /\ nr_Uncordoned r = false) rs).
Proof.
  intros H Hs. destruct (report_loop _ _ _ _ _ _ _ _ _ H) as (-> & H2 & H3 & H4 & H5).
  assert (E : list_to_set (nr_NodeName <$> rs) = (list_to_set names : gset string)).
  { apply set_subseteq_size_eq; [|rewrite union_empty_l_L in Hs; lia].
    intros x (r & -> & Hr)%elem_of_list_to_set%list_elem_of_fmap. rewrite Forall_forall in H3. by apply H3. }
  split_and!; [done| |tauto|].
  - intros name. rewrite <- !(elem_of_list_to_set (C := gset string)), E. done.
  - rewrite H5. intuition discriminate.
Qed.

(** ** The invariant *)

Record window_ok (id : string) (w : ClusterMaintenanceWindow) : Prop := {
  wo_id : rm_ID (mw_Meta w) = id;
  wo_times : mw_StartsAt w <> 0 /\ mw_StartsAt w < mw_EndsAt w;
  wo_one : mw_MaxUnavailable w = 1;
  wo_drain : validateDrainTimeout (mw_DrainTimeoutSeconds w) = true
}.
(** two active windows of a cluster under one name and at the same times *)
Definition same_window (v w : ClusterMaintenanceWindow) : Prop :=
  mw_ClusterID v = mw_ClusterID w /\ mw_State v = ClusterMaintenanceWindowActive /\ mw_State w = ClusterMaintenanceWindowActive /\
  normalizeName (mw_Name v) = normalizeName (mw_Name w) /\ mw_StartsAt v = mw_StartsAt w /\ mw_EndsAt v = mw_EndsAt w.

(** handed to the agent, and not failed since *)
Definition begun (st : ClusterMaintenanceRunState) : bool :=
  match st with
  | ClusterMaintenanceRunning | ClusterMaintenanceSucceeded | ClusterMaintenanceNeedsOperator => true
  | _ => false
  end.
Definition startedIn (w : ClusterMaintenanceWindow) (v : ClusterMaintenanceRun) : Prop :=
  exists t, mr_StartedAt v = Some t /\ mw_StartsAt w <= t < mw_EndsAt w.
Definition windowed (W : gmap string ClusterMaintenanceWindow) (v : ClusterMaintenanceRun) : Prop :=
  exists w, W !! mr_WindowID v = Some w /\ mw_ClusterID w = mr_ClusterID v /\
    (activeRun (mr_State v) = true -> mw_State w = ClusterMaintenanceWindowActive) /\
    (begun (mr_State v) = true -> startedIn w v).

(** what a request fixes *)
Record request_ok (v : ClusterMaintenanceRun) : Prop := {
  qo_nodes : mr_NodeNames v <> [] /\ NoDup (mr_NodeNames v);
  qo_uids : forall name, is_Some (mr_NodeUIDs v !! name) <-> name ∈ mr_NodeNames v;
  qo_stable : forall name uid, mr_NodeUIDs v !! name = Some uid -> uid <> "" /\ TrimSpace uid = uid;
  qo_bounds : mr_MaxUnavailable v = 1 /\ validateDrainTimeout (mr_DrainTimeoutSeconds v) = true;
  qo_action : mr_Action v = TargetNodeActionDrain /\ mr_HostActionTimeoutSeconds v = 0 \/
              mr_Action v = TargetNodeActionOSPatch /\ mr_HostActionTimeoutSeconds v = defaultHostActionTimeoutSeconds
}.
Record run_ok (W : gmap string ClusterMaintenanceWindow) (id : string) (v : ClusterMaintenanceRun) : Prop := {
  mo_id : rm_ID (mr_Meta v) = id;
  mo_request : request_ok v;
  mo_window : windowed W v;
  mo_approved : mr_State v <> ClusterMaintenanceAwaitingApproval ->
    independent (mr_RequestedBy v) (mr_ApprovedBy v);
  mo_safe : mr_State v = ClusterMaintenanceSucceeded -> every_node_safe v
}.

Record maint_ok (s : MemoryStore) (W : gmap string ClusterMaintenanceWindow) (R : gmap string ClusterMaintenanceRun)
    (I : gmap string string) : Prop := {
  mk_windows_filed : filed s W;
  mk_windows : forall id w, W !! id = Some w -> window_ok id w;
  mk_unique : forall i j v w, W !! i = Some v -> W !! j = Some w -> same_window v w -> i = j;
  mk_runs_filed : filed s R;
  mk_runs : forall id v, R !! id = Some v -> run_ok W id v;
  mk_scopes : forall id v, R !! id = Some v -> I !! runScope v = Some id
}.
Definition maint_wf (s : MemoryStore) : Prop :=
  maint_ok s (ms_clusterMaintenanceWindows s) (ms_clusterMaintenanceRuns s) (ms_idempotency s).
Definition maint_inv (s : MemoryStore) : Prop := id_source (ms_id s) /\ maint_wf s.

(** ** How windows and runs evolve *)

Definition window_identity (w : ClusterMaintenanceWindow) :=
  (rm_ID (mw_Meta w), rm_CreatedAt (mw_Meta w), mw_ProjectID w, mw_ClusterID w, mw_Name w, mw_StartsAt w, mw_EndsAt w,
   mw_MaxUnavailable w, mw_DrainTimeoutSeconds w, mw_CreatedBy w).
Definition window_advances (w w' : ClusterMaintenanceWindow) : Prop :=
  window_identity w' = window_identity w /\ (mw_State w = ClusterMaintenanceWindowCancelled -> w' = w).

Inductive run_step : ClusterMaintenanceRunState -> ClusterMaintenanceRunState -> Prop :=
| rs_approve : run_step ClusterMaintenanceAwaitingApproval ClusterMaintenanceQueued
| rs_claim : run_step ClusterMaintenanceQueued ClusterMaintenanceRunning
| rs_refuse : run_step ClusterMaintenanceQueued ClusterMaintenanceFailed
| rs_succeed : run_step ClusterMaintenanceRunning ClusterMaintenanceSucceeded
| rs_fail : run_step ClusterMaintenanceRunning ClusterMaintenanceFailed
| rs_operator : run_step ClusterMaintenanceRunning ClusterMaintenanceNeedsOperator.

Definition endedState (st : ClusterMaintenanceRunState) : bool :=
  match st with ClusterMaintenanceSucceeded | ClusterMaintenanceFailed | ClusterMaintenanceNeedsOperator => true | _ => false end.

Definition run_identity (v : ClusterMaintenanceRun) :=
  (rm_ID (mr_Meta v), rm_CreatedAt (mr_Meta v), (mr_ProjectID v, mr_ClusterID v, mr_WindowID v, mr_OperationID v),
   (mr_Action v, mr_NodeNames v, mr_NodeUIDs v, mr_InventoryDigest v), (mr_MaxUnavailable v, mr_DrainTimeoutSeconds v,
   mr_HostActionTimeoutSeconds v), mr_RequestedBy v, mr_IdempotencyKey v, mr_RequestDigest v).
Record run_advances (v v' : ClusterMaintenanceRun) : Prop := {
  ra_identity : run_identity v' = run_identity v;
  ra_steps : rtc run_step (mr_State v) (mr_State v');
  ra_final : endedState (mr_State v) = true -> v' = v
}.
#[export] Instance window_advances_order : PreOrder window_advances.
Proof.
  split; [intros w; by split|]. intros u v w [I1 F1] [I2 F2]. split; [congruence|].
  intros H. specialize (F1 H) as ->. auto.
Qed.
#[export] Instance run_advances_order : PreOrder run_advances.
Proof.
  split; [intros v; by split|]. intros u v w [I1 T1 F1] [I2 T2 F2]. split; [congruence|by etrans|].
  intros H. specialize (F1 H) as ->. auto.
Qed.

(** a call moves the store: it keeps the invariant and windows and runs evolve *)
Definition moves (s s' : MemoryStore) : Prop :=
  drawn s s' /\ (maint_inv s -> maint_inv s' /\
    evolves window_advances (ms_clusterMaintenanceWindows s) (ms_clusterMaintenanceWindows s') /\
    evolves run_advances (ms_clusterMaintenanceRuns s) (ms_clusterMaintenanceRuns s')).
#[export] Instance moves_order : PreOrder moves.
Proof.
  split.
  - intros s. split; [drawing|]. intros H. split; [done|]. split; apply evolves_refl; intros x; reflexivity.
  - intros s1 s2 s3 [D1 H1] [D2 H2]. split; [by etrans|]. intros H. destruct (H1 H) as (Hi & E1 & E2).
    destruct (H2 Hi) as (Hi' & F1 & F2). split; [done|].
    split; (eapply evolves_trans; [intros x y z; apply transitivity|eassumption|eassumption]).
Qed.

Ltac rewrite_fields v' := repeat match goal with E : ?f v' = _ |- context [?f v'] => rewrite E end.

Lemma request_kept v v' : run_identity v' = run_identity v -> request_ok v -> request_ok v'.
Proof.
  intros Hi [Q1 Q2 Q3 Q4 Q5]. unfold run_identity in Hi. injection Hi as E1 E2 E3 E4 E5 E6 E7 E8 E9 E10 E11 E12 E13 E14 E15 E16.
  split; rewrite_fields v'; done.
Qed.

(** ** Landing *)

Lemma windowed_grows W W' v :
  (forall id w, W !! id = Some w -> exists w', W' !! id = Some w' /\ window_advances w w' /\
     (id = mr_WindowID v -> activeRun (mr_State v) = true -> mw_State w' = mw_State w)) ->
  windowed W v -> windowed W' v.
Proof.
  intros HW (w & Hw & Hc & Ha & Hb). destruct (HW _ _ Hw) as (w' & Hw' & [Hi _] & Hst). injection Hi as _ _ _ Ec _ Es Ee _ _ _.
  exists w'. split_and!; [done|congruence| |].
  - intros H. rewrite (Hst eq_refl H). auto.
  - intros H. destruct (Hb H) as (t & Ht & Hin). exists t. by rewrite Es, Ee.
Qed.

Lemma moves_same s s' :
  drawn s s' -> ms_clusterMaintenanceWindows s' = ms_clusterMaintenanceWindows s ->
  ms_clusterMaintenanceRuns s' = ms_clusterMaintenanceRuns s -> ms_idempotency s ⊆ ms_idempotency s' -> moves s s'.
Proof.
  intros Hd EW ER HI. split; [done|]. intros [Hid [H1 H2 H3 H4 H5 H6]]. split; [split|].
  - by rewrite (dr_gen _ _ Hd).
  - unfold maint_wf. rewrite EW, ER. split; [by eapply filed_mono|done|done|by eapply filed_mono|done|].
    intros id v Hv. eapply lookup_weaken; [by apply H6|done].
  - rewrite EW, ER. split; apply evolves_refl; intros x; reflexivity.
Qed.

(** the run of a key is replaced by what became of it *)
Lemma run_lands s s' k v v' :
  drawn s s' -> ms_clusterMaintenanceWindows s' = ms_clusterMaintenanceWindows s -> ms_idempotency s' = ms_idempotency s ->
  ms_clusterMaintenanceRuns s' = <[k := v']> (ms_clusterMaintenanceRuns s) -> ms_clusterMaintenanceRuns s !! k = Some v ->
  run_identity v' = run_identity v -> run_step (mr_State v) (mr_State v') ->
  (run_ok (ms_clusterMaintenanceWindows s) k v -> windowed (ms_clusterMaintenanceWindows s) v' /\
     (mr_State v' <> ClusterMaintenanceAwaitingApproval ->
        independent (mr_RequestedBy v') (mr_ApprovedBy v')) /\
     (mr_State v' = ClusterMaintenanceSucceeded -> every_node_safe v')) ->
  moves s s'.
Proof.
  intros Hd EW EI ER Hv Hi Hst Hok. split; [done|]. intros [Hid [H1 H2 H3 H4 H5 H6]].
  pose proof (H5 _ _ Hv) as Hr. destruct (Hok Hr) as (Hw & Ha & Hs). destruct Hr as [Hk Hq _ _ _].
  pose proof Hi as Hi'. unfold run_identity in Hi'.
  injection Hi' as E1 E2 E3 E4 E5 E6 E7 E8 E9 E10 E11 E12 E13 E14 E15 E16.
  split; [split|split].
  - by rewrite (dr_gen _ _ Hd).
  - unfold maint_wf. rewrite EW, ER, EI. split; [by eapply filed_mono|done|done|by eapply filed_update| |].
    + intros id x [[<- <-]|[_ Hx]]%lookup_insert_Some; [|by apply H5].
      split; [congruence|by eapply request_kept|done|done|done].
    + intros id x [[<- <-]|[_ Hx]]%lookup_insert_Some; [|by apply H6].
      rewrite <- (H6 _ _ Hv). unfold runScope. congruence.
  - rewrite EW. apply evolves_refl; intros x; reflexivity.
  - rewrite ER. eapply evolves_update; [exact Hv|intros x; reflexivity|]. split; [done|by apply rtc_once|].
    intros He. destruct Hst; done.
Qed.

(** a run that is new, under a scope no run has *)
Lemma run_starts s s' n p v :
  drawn s s' -> ms_clusterMaintenanceWindows s' = ms_clusterMaintenanceWindows s -> (ms_ids s <= n < ms_ids s')%nat ->
  ms_clusterMaintenanceRuns s' = <[ms_id s n p := v]> (ms_clusterMaintenanceRuns s) ->
  ms_idempotency s !! runScope v = None -> ms_idempotency s' !! runScope v = Some (ms_id s n p) ->
  (forall k i, ms_idempotency s !! k = Some i -> k <> runScope v -> ms_idempotency s' !! k = Some i) ->
  run_ok (ms_clusterMaintenanceWindows s) (ms_id s n p) v -> moves s s'.
Proof.
  intros Hd EW Hn ER Hnone Hscope HI Hok. split; [done|]. intros [Hid [H1 H2 H3 H4 H5 H6]]. split; [split|split].
  - by rewrite (dr_gen _ _ Hd).
  - unfold maint_wf. rewrite EW, ER. split; [by eapply filed_mono|done|done|apply filed_insert; [done|lia|done]| |].
    + intros id x [[<- <-]|[_ Hx]]%lookup_insert_Some; [done|by apply H5].
    + intros id x [[<- <-]|[_ Hx]]%lookup_insert_Some; [done|]. pose proof (H6 _ _ Hx) as Hi. apply HI; [done|]. congruence.
  - rewrite EW. apply evolves_refl; intros x; reflexivity.
  - rewrite ER. eapply evolves_add; [exact Hid|exact H4|lia|intros x; reflexivity].
Qed.

Lemma window_starts s s' n p w :
  drawn s s' -> ms_clusterMaintenanceRuns s' = ms_clusterMaintenanceRuns s -> ms_idempotency s' = ms_idempotency s ->
  (ms_ids s <= n < ms_ids s')%nat -> ms_clusterMaintenanceWindows s' = <[ms_id s n p := w]> (ms_clusterMaintenanceWindows s) ->
  window_ok (ms_id s n p) w -> (forall k x, ms_clusterMaintenanceWindows s !! k = Some x -> ~ same_window w x) -> moves s s'.
Proof.
  intros Hd ER EI Hn EW Hok Hnew. split; [done|]. intros [Hid [H1 H2 H3 H4 H5 H6]].
  assert (Hev : evolves window_advances (ms_clusterMaintenanceWindows s) (ms_clusterMaintenanceWindows s')).
  { rewrite EW. eapply evolves_add; [exact Hid|exact H1|lia|intros x; reflexivity]. }
  assert (Hfresh : ms_clusterMaintenanceWindows s !! ms_id s n p = None) by (eapply fresh_unfiled; [exact Hid|exact H1|lia]).
  split; [split|split; [done|]].
  - by rewrite (dr_gen _ _ Hd).
  - unfold maint_wf. rewrite ER, EI, EW. split; [apply filed_insert; [done|lia|done]| | |by eapply filed_mono| |done].
    + intros id x [[<- <-]|[_ Hx]]%lookup_insert_Some; [done|by apply H2].
    + apply unique_insert; [unfold same_window; intuition congruence|done|]. intros k x Hx Hs. by destruct (Hnew k x Hx).
    + intros id v Hv. destruct (H5 _ _ Hv) as [Q1 Q2 Q3 Q4 Q5]. split; try done. eapply windowed_grows; [|exact Q3].
      intros k x Hx. exists x. split; [|by split]. rewrite lookup_insert_ne; [done|]. intros E. rewrite E, Hx in Hfresh. done.
  - rewrite ER. apply evolves_refl; intros x; reflexivity.
Qed.

Lemma window_ends s s' k w w' :
  drawn s s' -> ms_clusterMaintenanceRuns s' = ms_clusterMaintenanceRuns s -> ms_idempotency s' = ms_idempotency s ->
  ms_clusterMaintenanceWindows s' = <[k := w']> (ms_clusterMaintenanceWindows s) -> ms_clusterMaintenanceWindows s !! k = Some w ->
  window_identity w' = window_identity w -> mw_State w = ClusterMaintenanceWindowActive ->
  mw_State w' = ClusterMaintenanceWindowCancelled ->
  (forall id v, ms_clusterMaintenanceRuns s !! id = Some v -> mr_WindowID v = k -> activeRun (mr_State v) = false) -> moves s s'.
Proof.
  intros Hd ER EI EW Hw Hi Ha Hc Hfree. split; [done|]. intros [Hid [H1 H2 H3 H4 H5 H6]].
  assert (Had : window_advances w w') by (split; [done|congruence]).
  split; [split|split].
  - by rewrite (dr_gen _ _ Hd).
  - unfold maint_wf. rewrite ER, EI, EW. split; [by eapply filed_update| | |by eapply filed_mono| |done].
    + intros id x [[<- <-]|[_ Hx]]%lookup_insert_Some; [|by apply H2]. destruct (H2 _ _ Hw) as [K1 K2 K3 K4].
      unfold window_identity in Hi. injection Hi as E1 E2 E3 E4 E5 E6 E7 E8 E9 E10. split; [congruence|rewrite_fields w'; done..].
    + apply unique_insert; [unfold same_window; intuition congruence|done|]. intros j x _ (_ & Hx & _). congruence.
    + intros id v Hv. destruct (H5 _ _ Hv) as [Q1 Q2 Q3 Q4 Q5]. split; try done. eapply windowed_grows; [|exact Q3].
      intros j x Hx. destruct (decide (k = j)) as [<-|Hne].
      * exists w'. rewrite lookup_insert_eq. assert (x = w) as -> by congruence. split_and!; [done|done|].
        intros E Hact. rewrite (Hfree _ _ Hv (eq_sym E)) in Hact. done.
      * exists x. by rewrite lookup_insert_ne.
  - rewrite EW. eapply evolves_update; [exact Hw|intros x; reflexivity|done].
  - rewrite ER. apply evolves_refl; intros x; reflexivity.
Qed.

(** ** Profiles and windows *)

Ltac untouched := apply moves_same; [drawing|done|done|first [done|reflexivity]].

Lemma maintained_reads k p s : wp (maintainedCluster k p) (reads s (fun _ _ => True)) s.
Proof. unfold maintainedCluster. wp_go; (split; [done|split; [drawing|done]]). Qed.

Lemma profile_moves v expected actor s : wp (UpsertClusterMaintenanceProfile v expected actor) (fun _ s' => moves s s') s.
Proof.
  unfold UpsertClusterMaintenanceProfile; unfold_puts. eapply wp_reads; [apply maintained_reads|intros; untouched|].
  intros cluster t i Hd _. wp_go; untouched.
Qed.

Lemma window_moves v actor s : wp (CreateClusterMaintenanceWindow v actor) (fun _ s' => moves s s') s.
Proof.
  unfold CreateClusterMaintenanceWindow; unfold_puts. eapply wp_reads; [apply maintained_reads|intros; untouched|].
  intros cluster t i Hd _.
  set (w := v <| mw_Name := _ |> <| mw_StartsAt := _ |> <| mw_EndsAt := _ |>).
  set (w1 := if mw_MaxUnavailable w =? 0 then w <| mw_MaxUnavailable := 1 |> else w).
  assert (Hw : mw_StartsAt w1 = mw_StartsAt w /\ mw_EndsAt w1 = mw_EndsAt w) by (unfold w1; by destruct (_ =? 0)).
  destruct Hw as [Es Ee]. wp_go; try untouched. norm_bool. destruct Hd as [_ Hd]. cbn in Hd.
  match goal with H : map_any _ _ = false |- _ => rename H into Hany end.
  match goal with |- moves s ?s' => eapply (window_starts s s' i "cmw") end; [drawing|done|done|cbn; lia|reflexivity| |].
  - split; [done|split; cbn; rewrite ?Es, ?Ee; lia|cbn; lia|done].
  - intros k x Hx (E1 & _ & E3 & E4 & E5 & E6). cbn in *.
    assert (map_any (sameWindow w1) (ms_clusterMaintenanceWindows s) = true) as Ht; [|congruence].
    apply map_any_true. exists k, x. split; [done|]. unfold sameWindow. rewrite !bool_decide_eq_true_2 by done. done.
Qed.

Lemma cancel_moves id expected actor s : wp (CancelClusterMaintenanceWindow id expected actor) (fun _ s' => moves s s') s.
Proof.
  unfold CancelClusterMaintenanceWindow; unfold_puts. wp_go; try untouched. norm_bool.
  match goal with H : map_any _ _ = false |- _ => rename H into Hany end.
  eapply window_ends; [drawing|done|done|reflexivity|eassumption|done|done|done|].
  intros k v Hv Ew. destruct (activeRun (mr_State v)) eqn:Ea; [|done].
  assert (map_any (boundTo id) (ms_clusterMaintenanceRuns s) = true) as Ht; [|congruence].
  apply map_any_true. exists k, v. split; [done|]. unfold boundTo. by rewrite bool_decide_eq_true_2.
Qed.

(** ** Requests *)

(** a request that was prepared: admitted nodes and the bounds of an active window *)
Definition prepared (s : MemoryStore) (v v' : ClusterMaintenanceRun) : Prop :=
  runScope v' = runScope v /\ (maint_inv s -> request_ok v' /\
    exists w, ms_clusterMaintenanceWindows s !! mr_WindowID v' = Some w /\ mw_ClusterID w = mr_ClusterID v' /\
      mw_State w = ClusterMaintenanceWindowActive).

Lemma trimmed_uid inv name uid : nodeNamed inv name uid -> TrimSpace uid = uid.
Proof. intros (node & _ & _ & _ & <-). apply TrimSpace_idem. Qed.

Lemma prepare_reads v actor s : wp (prepareClusterMaintenanceRunLocked v actor) (reads s (fun v' _ => prepared s v v')) s.
Proof.
  unfold prepareClusterMaintenanceRunLocked. wp_go; (split; [done|split; [drawing|]]); try done.
  match goal with E : validateMaintenanceNodeSelection _ _ = _ |- _ => destruct (selection_spec _ _ _ _ E) as (N1 & N2 & N3 & N4) end.
  match goal with E : normalizeMaintenanceAction _ = _ |- _ => unfold normalizeMaintenanceAction in E; injection E as Ea Ev end.
  norm_bool. split; [done|]. intros [_ [_ Hwin _ _ _ _]].
  match goal with H : ms_clusterMaintenanceWindows s !! _ = Some ?w |- _ => destruct (Hwin _ _ H) as [_ _ W3 W4]; split; [|by exists w] end.
  split; cbn; [done|done| |done|].
  - intros name uid Hu. destruct (N4 _ _ Hu) as (_ & Hne & Hn). split; [done|by eapply trimmed_uid].
  - subst. repeat case_bool_decide; simplify_eq; eauto; try congruence.
Qed.

Definition elsewhere (s s' : MemoryStore) : Prop :=
  drawn s s' /\ ms_clusterMaintenanceWindows s' = ms_clusterMaintenanceWindows s /\
  ms_clusterMaintenanceRuns s' = ms_clusterMaintenanceRuns s /\ ms_idempotency s ⊆ ms_idempotency s'.
#[export] Instance elsewhere_order : PreOrder elsewhere.
Proof.
  split; [intros s; by split; [drawing|]|]. intros s1 s2 s3 (D1 & W1 & R1 & I1) (D2 & W2 & R2 & I2).
  split_and!; [by etrans|congruence|congruence|by etrans].
Qed.
Lemma elsewhere_moves s s' : elsewhere s s' -> moves s s'.
Proof. intros (Hd & EW & ER & HI). by apply moves_same. Qed.

Ltac aside := split_and!; [drawing|done|done|first [reflexivity|by apply insert_subseteq]].

Lemma operation_elsewhere r key actor rid s : wp (createOperationLocked r key actor rid) (fun _ s' => elsewhere s s') s.
Proof. unfold createOperationLocked; unfold_puts. wp_go; aside. Qed.
Lemma transition_elsewhere id e to le actor s : wp (transitionOperationLocked id e to le actor) (fun _ s' => elsewhere s s') s.
Proof. unfold transitionOperationLocked; unfold_puts. wp_go; aside. Qed.

Lemma created_moves s s1 v0 v actor :
  elsewhere s s1 -> ms_idempotency s !! runScope v0 = None -> prepared s v0 v ->
  wp (createPreparedClusterMaintenanceRunLocked v actor) (fun _ s' => moves s s') s1.
Proof.
  intros He Hnone [Hsc Hp]. unfold createPreparedClusterMaintenanceRunLocked; unfold_puts.
  wp_go; try (apply elsewhere_moves; etrans; [exact He|aside]).
  destruct He as ([Hg Hl] & EW & ER & HI). split.
  { split; [done|cbn; lia]. }
  intros Hinv. destruct (Hp Hinv) as (Hq & w & Hw & Hc & Ha). rewrite <- Hsc in Hnone.
  match goal with |- maint_inv ?s' /\ _ =>
    assert (moves s s') as [_ Hm]; [|exact (Hm Hinv)]; eapply (run_starts s s' (ms_ids s1) "cmr") end.
  - split; [done|cbn; lia].
  - exact EW.
  - cbn; lia.
  - cbn. rewrite ER. unfold fresh. cbn. rewrite Hg. reflexivity.
  - exact Hnone.
  - cbn. unfold fresh. cbn. rewrite Hg. apply lookup_insert_eq.
  - intros k i Hk Hne. cbn. rewrite lookup_insert_ne by (by intros E; apply Hne). by eapply lookup_weaken.
  - split.
    + done.
    + destruct Hq as [Q1 Q2 Q3 Q4 Q5]. by split.
    + exists w. split_and!; [done|done|done|]. by intros ?.
    + done.
    + done.
Qed.

Lemma create_run_moves v actor s : wp (CreateClusterMaintenanceRun v actor) (fun _ s' => moves s s') s.
Proof.
  unfold CreateClusterMaintenanceRun. wp_step. destruct (ms_idempotency s !! runScope v) as [id|] eqn:Ei; [wp_go; untouched|].
  eapply wp_reads; [apply prepare_reads|intros; untouched|]. intros v' t i Hd Hp.
  apply wp_bind. eapply wp_mono; [eapply created_moves; [|exact Ei|exact Hp]|].
  - split_and!; [drawing|done|done|reflexivity].
  - intros [r|e] s'; cbn; intros Hm; [|exact Hm]. wp_go. exact Hm.
Qed.

Lemma create_request_moves v r key actor rid s :
  wp (CreateClusterMaintenanceRunRequest v r key actor rid) (fun _ s' => moves s s') s.
Proof.
  unfold CreateClusterMaintenanceRunRequest. wp_step.
  destruct (ms_idempotency s !! runScope v) as [id|] eqn:Ei; [wp_go; untouched|].
  eapply wp_reads; [apply prepare_reads|intros; untouched|]. intros v' t i Hd Hp.
  assert (H0 : elsewhere s (s <| ms_ticks := t |> <| ms_ids := i |>)) by (split_and!; [drawing|done|done|reflexivity]).
  apply wp_bind. eapply wp_mono; [apply operation_elsewhere|]. intros [[op replay]|e] s1 H1; cbn beta iota;
    (assert (Hs1 : elsewhere s s1) by (by etrans)); [|by apply elsewhere_moves].
  wp_step; [by apply elsewhere_moves|].
  apply wp_bind. eapply wp_mono with (Q := fun _ s' => elsewhere s s').
  { case_bool_decide; [|by apply wp_ret]. eapply wp_mono; [apply transition_elsewhere|]. intros ? s2 Hs2. by etrans. }
  intros [op2|e] s2 Hs2; cbn beta iota; [|by apply elsewhere_moves].
  apply wp_bind. eapply wp_mono with (Q := fun _ s' => elsewhere s s').
  { case_bool_decide; [|by apply wp_ret]. eapply wp_mono; [apply transition_elsewhere|]. intros ? s3 Hs3. by etrans. }
  intros [op3|e] s3 Hs3; cbn beta iota; [|by apply elsewhere_moves].
  wp_step; [by apply elsewhere_moves|].
  apply wp_bind. eapply wp_mono; [eapply (created_moves s _ v); [exact Hs3|exact Ei|]|].
  - destruct Hp as [Hsc Hp]. split; [done|]. intros Hinv. destruct (Hp Hinv) as ([Q1 Q2 Q3 Q4 Q5] & Hw). split; [by split|exact Hw].
  - intros [x|e] s'; cbn; intros Hm; [|exact Hm]. wp_go. exact Hm.
Qed.

(** ** Approval *)

Lemma approval_trimmed r actor :
  ValidateDay2IndependentApproval r actor = Ok tt -> independent r (TrimSpace actor).
Proof. intros H. apply independent_approval in H. unfold independent in *. by rewrite TrimSpace_idem. Qed.

Lemma approve_moves id expected actor s : wp (ApproveClusterMaintenanceRun id expected actor) (fun _ s' => moves s s') s.
Proof.
  unfold ApproveClusterMaintenanceRun; unfold_puts. wp_go; try untouched. norm_bool.
  match goal with x : unit |- _ => destruct x end.
  match goal with H : mr_State ?x = _ |- _ => rename x into v, H into Hst end.
  match goal with H : ms_clusterMaintenanceRuns s !! id = Some _ |- _ => rename H into Hv end.
  eapply (run_lands s _ id v); [drawing|done|done|reflexivity|exact Hv|done|cbn; rewrite Hst; constructor|].
  intros [_ _ (w & Hw & Hc & Hact & _) _ _]. split_and!; [|intros _; cbn; by apply approval_trimmed|done].
  exists w. split_and!; [done|done| |done]. intros _. apply Hact. by rewrite Hst.
Qed.

(** ** Runs that end without a report *)

(** the run and its operation are ended together *)
Record ends (st : ClusterMaintenanceRunState) (ost : OperationState) (v : ClusterMaintenanceRun) (op : Operation)
    (message : string) (now : Time) (s s' : MemoryStore) : Prop := {
  en_drawn : drawn s s';
  en_windows : ms_clusterMaintenanceWindows s' = ms_clusterMaintenanceWindows s;
  en_idempotency : ms_idempotency s' = ms_idempotency s;
  en_inventories : ms_clusterInventories s' = ms_clusterInventories s;
  en_runs : ms_clusterMaintenanceRuns s' = <[rm_ID (mr_Meta v) := endedRun st message now v]> (ms_clusterMaintenanceRuns s);
  en_operations : ms_operations s' = <[op_ID op := endedOperation ost message now op]> (ms_operations s)
}.

Lemma stale_ends v op now message s :
  wp (failStaleRunningMaintenanceLocked v op now message)
    (fun r s' => r = Ok tt /\ ends ClusterMaintenanceNeedsOperator OperationNeedsOperator v op message now s s') s.
Proof. unfold failStaleRunningMaintenanceLocked; unfold_puts. wp_go. split; [done|]. split; [drawing|done..]. Qed.
Lemma queued_ends v op message now s :
  wp (failQueuedMaintenanceRunLocked v op message now)
    (fun r s' => r = Ok tt /\ ends ClusterMaintenanceFailed OperationFailed v op message now s s') s.
Proof. unfold failQueuedMaintenanceRunLocked; unfold_puts. wp_go. split; [done|]. split; [drawing|done..]. Qed.

(** the calls before a claim only end runs and operations that are not queued *)
Record calm (s s' : MemoryStore) : Prop := {
  ca_windows : ms_clusterMaintenanceWindows s' = ms_clusterMaintenanceWindows s;
  ca_inventories : ms_clusterInventories s' = ms_clusterInventories s;
  ca_runs : forall id v, ms_clusterMaintenanceRuns s' !! id = Some v -> mr_State v = ClusterMaintenanceQueued ->
    ms_clusterMaintenanceRuns s !! id = Some v;
  ca_operations : forall id op, ms_operations s' !! id = Some op -> op_State op = OperationQueued ->
    ms_operations s !! id = Some op
}.
#[export] Instance calm_order : PreOrder calm.
Proof.
  split; [intros s; by split|]. intros s1 s2 s3 [W1 I1 R1 O1] [W2 I2 R2 O2]. split; [congruence|congruence|auto|auto].
Qed.
Definition settles (s s' : MemoryStore) : Prop := moves s s' /\ calm s s'.
#[export] Instance settles_order : PreOrder settles.
Proof. split; [intros s; split; reflexivity|]. intros s1 s2 s3 [M1 C1] [M2 C2]. split; by etrans. Qed.

Lemma settles_inv s s' : settles s s' -> maint_inv s -> maint_inv s'.
Proof. intros [[_ H] _] Hi. by destruct (H Hi). Qed.

Lemma ended_settles st ost k v op message now s s' :
  ends st ost v op message now s s' -> maint_inv s -> ms_clusterMaintenanceRuns s !! k = Some v ->
  run_step (mr_State v) st -> st = ClusterMaintenanceFailed \/ st = ClusterMaintenanceNeedsOperator /\ begun (mr_State v) = true ->
  ost <> OperationQueued ->
  settles s s' /\ ms_clusterMaintenanceRuns s' = <[k := endedRun st message now v]> (ms_clusterMaintenanceRuns s).
Proof.
  intros [Hd EW EI EV ER EO] Hinv Hv Hst Hend Host. destruct (mk_runs _ _ _ _ (proj2 Hinv) _ _ Hv) as [Hk _ _ _ _].
  rewrite Hk in ER. split; [|done]. split.
  - eapply (run_lands s s' k v); [done|done|done|exact ER|exact Hv|done|done|].
    intros [_ _ (w & Hw & Hc & _ & Hb) Ha _]. split_and!.
    + exists w. split_and!; [done|done|by destruct Hend as [->|[-> _]]|]. cbn. intros Hbegun.
      destruct Hend as [->|[-> Hbv]]; [done|]. exact (Hb Hbv).
    + intros _. apply Ha. intros E. rewrite E in Hst. destruct Hend as [->|[-> _]]; inversion Hst.
    + cbn. intros ->. by destruct Hend as [|[? _]].
  - split; [done|done| |].
    + intros id x Hx Hq. rewrite ER in Hx. apply lookup_insert_Some in Hx as [[_ <-]|[_ Hx]]; [|done].
      cbn in Hq. rewrite Hq in Hend. by destruct Hend as [|[? _]].
    + intros id x Hx Hq. rewrite EO in Hx. by apply lookup_insert_Some in Hx as [[_ <-]|[_ Hx]].
Qed.

Lemma expire_settles clusterID now l : forall s,
  maint_inv s -> NoDup l.*1 -> (forall k v, (k, v) ∈ l -> ms_clusterMaintenanceRuns s !! k = Some v) ->
  wp (expireLoop clusterID now l) (fun r s' => r = Ok tt /\ settles s s') s.
Proof.
  induction l as [|[k v] l IH]; intros s Hi Hnd Hl; cbn [expireLoop]; [apply wp_ret; by split|].
  apply NoDup_cons in Hnd as [Hk Hnd]. assert (Hv := Hl k v ltac:(left)).
  assert (Hrest : forall s1, settles s s1 -> (forall k', k' <> k -> ms_clusterMaintenanceRuns s1 !! k' = ms_clusterMaintenanceRuns s !! k') ->
    wp (expireLoop clusterID now l) (fun r s' => r = Ok tt /\ settles s s') s1).
  { intros s1 Hs Hsame. eapply wp_mono; [apply IH; [by eapply settles_inv|done|]|].
    - intros k' v' Hin. rewrite Hsame; [apply Hl; by right|]. intros ->. apply Hk, list_elem_of_fmap. by exists (k, v').
    - intros r s' [-> Hs']. split; [done|by etrans]. }
  apply wp_bind. destruct (_ || _) eqn:E; [apply wp_ret; cbn; by apply Hrest|]. norm_bool. wp_step.
  destruct (ms_operations s !! mr_OperationID v) as [op|]; [|apply wp_ret; cbn; by apply Hrest].
  unfold when. destruct (negb _); [|apply wp_ret; cbn; by apply Hrest].
  eapply wp_mono; [apply stale_ends|]. intros r s1 [-> He]. cbn.
  match goal with H : mr_State v = _ |- _ => rename H into Hst end.
  destruct (ended_settles _ _ k _ _ _ _ _ _ He Hi Hv) as [Hs ER]; [rewrite Hst; constructor|right; by rewrite Hst|done|].
  apply Hrest; [done|]. intros k' Hne. by rewrite ER, lookup_insert_ne.
Qed.

(** ** Claims *)

(** why a run may start now *)
Record startable (s : MemoryStore) (cluster : ManagedCluster) (clusterID : string) (now : Time) (v : ClusterMaintenanceRun)
    (op : Operation) : Prop := {
  sb_operation : ms_operations s !! mr_OperationID v = Some op /\ op_State op = OperationQueued;
  sb_window : exists w, ms_clusterMaintenanceWindows s !! mr_WindowID v = Some w /\
    mw_State w = ClusterMaintenanceWindowActive /\ mw_StartsAt w <= now < mw_EndsAt w;
  sb_nodes : exists inv, ms_clusterInventories s !! clusterID = Some inv /\ iv_Digest inv = mr_InventoryDigest v /\
    mc_InventoryDigest cluster = mr_InventoryDigest v /\
    (forall name uid, mr_NodeUIDs v !! name = Some uid -> nodeNamed inv name (TrimSpace uid)) /\
    (mr_Action v = TargetNodeActionOSPatch -> ld_Executable (lifecycleDescriptor (mr_Action v) inv false []) = true)
}.

Lemma verdict_spec s cluster clusterID now v :
  match claimVerdict s cluster clusterID now v with
  | ClaimSkip => True
  | ClaimFail op _ => ms_operations s !! mr_OperationID v = Some op
  | ClaimStart op => startable s cluster clusterID now v op
  end.
Proof.
  unfold claimVerdict. destruct (ms_operations s !! mr_OperationID v) as [op|] eqn:Eo; [|done].
  destruct (ms_clusterMaintenanceWindows s !! mr_WindowID v) as [w|] eqn:Ew; [|done].
  destruct (op_State op != OperationQueued) eqn:E1; [done|]. destruct (mw_State w != ClusterMaintenanceWindowActive) eqn:E2; [done|].
  destruct (ValidateDay2ExecutionWindow _ _ _) as [u|e] eqn:E3; [|by destruct (now <? mw_StartsAt w)].
  destruct (ms_clusterInventories s !! clusterID) as [inv|] eqn:E4; [|done].
  destruct (_ || _) eqn:E5; [done|]. destruct (maintenanceNodeIdentityMatches _ _ _) as [[e m]|] eqn:E6; [done|].
  destruct (_ && _) eqn:E7; [done|]. unfold ValidateDay2ExecutionWindow in E3. destruct (_ || negb (now <? _)) eqn:E8; [done|].
  norm_bool. split; [done| |].
  - exists w. split_and!; [done|done|lia|lia].
  - exists inv. split_and!; [done|done|done|by apply (identity_spec _ _ _ E6)|]. intros Ha. rewrite Ha in E7.
    rewrite bool_decide_eq_true_2 in E7 by done. cbn in E7. rewrite Ha. by apply negb_false_iff.
Qed.

Record started (s s' : MemoryStore) (cluster : ManagedCluster) (clusterID : string) (now : Time) (v' : ClusterMaintenanceRun)
    (op' : Operation) (id : string) (v : ClusterMaintenanceRun) (op : Operation) : Prop := {
  st_queued : ms_clusterMaintenanceRuns s !! id = Some v /\ mr_State v = ClusterMaintenanceQueued /\ mr_ClusterID v = clusterID;
  st_running : ms_clusterMaintenanceRuns s' !! id = Some v' /\ v' = startedRun now v;
  st_startable : startable s cluster clusterID now v op;
  st_claimed : ms_operations s' !! op_ID op = Some op' /\
    op' = claimedOperation clusterID (now + clusterMaintenanceLeaseDuration v) now op
}.

Lemma started_calm s0 s s' cluster c now v' op' id v op :
  calm s0 s -> started s s' cluster c now v' op' id v op -> started s0 s' cluster c now v' op' id v op.
Proof.
  intros [EW EV HR HO] [(Q1 & Q2 & Q3) H2 [[O1 O2] Hw Hn] H4]. split; [by split_and!; [apply HR|..]|done| |done].
  split; [split; [by apply HO|done]| |].
  - by rewrite <- EW.
  - by rewrite <- EV.
Qed.

Lemma claim_runs_spec cluster clusterID now ids : forall s,
  maint_inv s -> NoDup ids ->
  (forall id, id ∈ ids -> exists v, ms_clusterMaintenanceRuns s !! id = Some v /\ mr_State v = ClusterMaintenanceQueued /\ mr_ClusterID v = clusterID) ->
  wp (claimRuns cluster clusterID now ids) (fun r s' => moves s s' /\
    match r with Ok (v', op') => exists id v op, started s s' cluster clusterID now v' op' id v op | Fail _ => True end) s.
Proof.
  induction ids as [|id ids IH]; intros s Hi Hnd Hq; cbn [claimRuns]; [apply wp_raise; by split|].
  apply NoDup_cons in Hnd as [Hid Hnd]. destruct (Hq id ltac:(left)) as (v & Hv & Hst & Hc).
  wp_step. rewrite Hv. change (default zeroRun (Some v)) with v. cbv zeta. pose proof (verdict_spec s cluster clusterID now v) as Hverdict.
  destruct (claimVerdict s cluster clusterID now v) as [|op message|op].
  - apply IH; [done|done|]. intros id' Hin. apply Hq. by right.
  - apply wp_bind. eapply wp_mono; [apply queued_ends|]. intros r s1 [-> He]. cbn.
    destruct (ended_settles _ _ id _ _ _ _ _ _ He Hi Hv) as [Hs ER]; [rewrite Hst; constructor|by left|done|].
    eapply wp_mono; [apply IH; [by eapply settles_inv|done|]|].
    + intros id' Hin. destruct (Hq id' ltac:(by right)) as (v' & Hv' & Hst'). exists v'. split; [|done].
      rewrite ER, lookup_insert_ne; [done|]. intros ->. done.
    + intros r s' [Hm Hr]. destruct Hs as [Hm1 Hcalm]. split; [by etrans|]. destruct r as [[v' op']|e]; [|done].
      destruct Hr as (id' & w & o & Hr). exists id', w, o. by eapply started_calm.
  - unfold_puts. wp_go. split.
    + eapply (run_lands s _ id v); [drawing|done|done|reflexivity|exact Hv|done|cbn; rewrite Hst; constructor|].
      intros [_ _ (w & Hw & Hwc & Hact & _) Ha _]. destruct Hverdict as [_ (w' & Hw' & Hwa & Hin) _].
      assert (w' = w) as -> by congruence. split_and!; [|intros _; apply Ha; by rewrite Hst|done].
      exists w. split_and!; [done|done|done|]. intros _. by exists now.
    + exists id, v, op. split; [by split_and!|split; [cbn; by rewrite lookup_insert_eq|done]|done|split; [cbn; by rewrite lookup_insert_eq|done]].
Qed.

Lemma queued_runs c s id :
  id ∈ queuedRuns c s <-> exists v, ms_clusterMaintenanceRuns s !! id = Some v /\ mr_State v = ClusterMaintenanceQueued /\ mr_ClusterID v = c.
Proof.
  unfold queuedRuns. rewrite list_elem_of_fmap. setoid_rewrite elem_of_sortSlice. split.
  - intros ([k v] & -> & Hin). apply list_elem_of_In, filter_In in Hin as [Hin%list_elem_of_In%elem_of_map_to_list Hq].
    unfold queuedRun in Hq. norm_bool. by exists v.
  - intros (v & Hv & Hst & Hc). exists (id, v). split; [done|]. apply list_elem_of_In, filter_In.
    split; [by apply list_elem_of_In, elem_of_map_to_list|]. unfold queuedRun. cbn. by rewrite !bool_decide_eq_true_2.
Qed.
Lemma queued_nodup c s : NoDup (queuedRuns c s).
Proof.
  unfold queuedRuns. set (l := List.filter _ _).
  assert (Hp : sortSlice (lexi (fun kv : string * ClusterMaintenanceRun => rm_CreatedAt (mr_Meta kv.2)) Z.ltb (on fst string_lt)) l ≡ₚ l)
    by apply merge_sort_Permutation.
  rewrite (fmap_Permutation fst _ _ Hp). eapply sublist_NoDup.
  - apply (NoDup_fst_map_to_list (ms_clusterMaintenanceRuns s)).
  - unfold l. clear. induction (map_to_list _) as [|x m IH]; cbn; [constructor|]. by destruct (queuedRun c x); constructor.
Qed.

(** the claim of an agent: the runs whose agent vanished are ended first *)
Lemma next_run_spec wall c d s :
  maint_inv s ->
  wp (NextClusterMaintenanceTask wall c d) (fun r s' => moves s s' /\
    match r with
    | Ok (v', op') => exists cluster id v op, ms_managedClusters s !! c = Some cluster /\
        clusterHasCapability cluster ClusterMaintenanceFencedReportCapability = true /\
        started s s' cluster c (clock (tick s)) v' op' id v op
    | Fail _ => True
    end) s.
Proof.
  intros Hi. unfold NextClusterMaintenanceTask. eapply wp_reads; [apply fresh_admission_reads| |].
  { intros e t i Hd. split; [untouched|done]. }
  intros cluster t i Hd [Hc Hnow]. wp_step. rewrite Hnow.
  match goal with |- wp _ _ ?x => assert (H1 : settles s x) by (split; [untouched|by split]); set (s1 := x) in * end.
  apply wp_bind. unfold expireStaleRunningMaintenanceLocked. wp_step.
  eapply wp_mono; [apply expire_settles; [by eapply settles_inv|apply NoDup_fst_map_to_list|]|].
  { intros k v Hin. by apply elem_of_map_to_list in Hin. }
  intros r s2 [-> H2]. cbn. assert (H02 : settles s s2) by (by etrans).
  wp_step; [split; [apply H02|done]|]. wp_step.
  eapply wp_mono; [apply claim_runs_spec; [by eapply settles_inv|apply queued_nodup|intros id Hid; by apply queued_runs in Hid]|].
  intros r s' [Hm Hr]. destruct H02 as [Hm0 Hcalm]. split; [by etrans|]. destruct r as [[v' op']|e]; [|done].
  destruct Hr as (id & v & op & Hr). norm_bool. exists cluster, id, v, op. split_and!; [exact Hc|done|by eapply started_calm].
Qed.

(** ** Reports *)

(** what a report was checked against, and what it did *)
Record accounted (s s' : MemoryStore) (c id : string) (result_ : ClusterMaintenanceTaskResult) (v' : ClusterMaintenanceRun)
    (op' : Operation) (v : ClusterMaintenanceRun) (op : Operation) (now : Time) (needsOperator : bool) : Prop := {
  ac_run : ms_clusterMaintenanceRuns s !! id = Some v /\ mr_State v = ClusterMaintenanceRunning /\ mr_ClusterID v = c;
  ac_operation : ms_operations s !! mr_OperationID v = Some op /\ op_State op = OperationRunning;
  ac_lease : op_LeaseOwner op = maintenanceOwner c /\ op_FenceToken op = mtr_OperationFenceToken result_ /\
    exists t, op_LeaseExpiresAt op = Some t /\ now < t;
  ac_nodes : NoDup (nr_NodeName <$> mtr_Results result_) /\
    forall name, name ∈ nr_NodeName <$> mtr_Results result_ <-> name ∈ mr_NodeNames v;
  ac_safe : mtr_Success result_ = true -> Forall (node_safe (mr_Action v)) (mtr_Results result_);
  ac_restored : needsOperator = true <-> Exists (fun r => nr_Cordoned r = true /\ nr_Uncordoned r = false) (mtr_Results result_);
  ac_result : ms_clusterMaintenanceRuns s' = <[id := v']> (ms_clusterMaintenanceRuns s) /\ v' = reportedRun result_ needsOperator now v;
  ac_ended : ms_operations s' = <[op_ID op := op']> (ms_operations s) /\
    op' = reportedOperation result_ needsOperator (mr_LastError v') now op
}.

Lemma reported_run result_ no now v :
  let v' := reportedRun result_ no now v in
  run_identity v' = run_identity v /\ mr_Results v' = mtr_Results result_ /\ mr_StartedAt v' = mr_StartedAt v /\
  mr_ApprovedBy v' = mr_ApprovedBy v /\
  mr_State v' = if mtr_Success result_ then ClusterMaintenanceSucceeded
                else if no then ClusterMaintenanceNeedsOperator else ClusterMaintenanceFailed.
Proof. unfold reportedRun. destruct (mtr_Success result_), no; done. Qed.

Lemma reported_operation_id result_ no message now op : op_ID (reportedOperation result_ no message now op) = op_ID op.
Proof. unfold reportedOperation. by destruct (mtr_Success result_), no. Qed.

Lemma fence_valid expected observed lease now u :
  ValidateDay2Fence expected observed lease now = Ok u -> expected = observed /\ exists t, lease = Some t /\ now < t.
Proof.
  unfold ValidateDay2Fence. destruct (_ || (expected != observed)) eqn:E1; [done|]. destruct lease as [t|]; [|done].
  destruct (now <? t) eqn:E2; [|done]. intros _. norm_bool. eauto.
Qed.

Lemma report_run_spec c id expected result_ s :
  wp (ReportClusterMaintenanceTask c id expected result_) (fun r s' => moves s s' /\
    match r with
    | Ok (v', op') => exists v op no, accounted s s' c id result_ v' op' v op (clock s) no
    | Fail _ => same_data s s'
    end) s.
Proof.
  unfold ReportClusterMaintenanceTask; unfold_puts.
  wp_go; try (split; [untouched|reflexivity]). norm_bool.
  rename a0 into v, a1 into op, b0 into no, H1 into Hv, H4 into Hst, H9 into Eloop, H10 into Esize, H11 into Hall.
  apply Z.eqb_eq, Nat2Z.inj in Esize. destruct (report_covers _ _ _ _ _ _ Eloop Esize) as (Hn & Hc & Hsafe & Hno).
  match goal with E : ValidateDay2Fence _ _ _ _ = Ok _ |- _ => apply fence_valid in E as [Hf Hl] end.
  destruct (reported_run result_ no (clock s) v) as (Ei & Er & Et & Ea & Es).
  set (now := clock s) in *. set (v' := reportedRun result_ no now v) in *.
  assert (Hok : mtr_Success result_ = true -> Forall (node_safe (mr_Action v)) (mtr_Results result_)).
  { intros Hx. apply nodes_safe. rewrite Hx in Hall. cbn in Hall. apply negb_false_iff in Hall. by apply Hsafe. }
  split.
  - eapply (run_lands s _ id v v'); [drawing|done|done|reflexivity|exact Hv|exact Ei| |].
    + rewrite Hst, Es. destruct (mtr_Success result_), no; constructor.
    + pose proof Ei as Ei'. unfold run_identity in Ei'.
      injection Ei' as E1 E2 E3 E4 E5 E6 E7 E8 E9 E10 E11 E12 E13 E14 E15 E16.
      intros [_ _ (w & Hw & Hwc & _ & Hb) Happ _]. split_and!.
      * exists w. rewrite E5, E4. split_and!; [done|done| |].
        -- rewrite Es. by destruct (mtr_Success result_), no.
        -- intros _. unfold startedIn. rewrite Et. apply Hb. by rewrite Hst.
      * intros _. rewrite E14, Ea. apply Happ. by rewrite Hst.
      * intros Hx. unfold every_node_safe. rewrite Er, E8, E7. split_and!; [done|done|]. apply Hok.
        rewrite Es in Hx. destruct (mtr_Success result_), no; done.
  - exists v, op, no. split; [by split_and!|done|by split_and!|by split|exact Hok|exact Hno|by split|].
    rewrite <- (reported_operation_id result_ no (mr_LastError v') now op). by split.
Qed.

(** ** Histories *)

Inductive MaintenanceCall : Type :=
| MProfile (v : ClusterMaintenanceProfile) (expected : Z) (actor : string)
| MWindow (v : ClusterMaintenanceWindow) (actor : string)
| MCancelWindow (id : string) (expected : Z) (actor : string)
| MCreateRun (v : ClusterMaintenanceRun) (actor : string)
| MCreateRequest (v : ClusterMaintenanceRun) (r : OperationRequest) (key actor requestID : string)
| MApprove (id : string) (expected : Z) (actor : string)
| MNext (wall : Time) (clusterID agentTokenDigest : string)
| MReport (clusterID runID : string) (expected : Z) (result_ : ClusterMaintenanceTaskResult).

Definition maintenance_exec (c : MaintenanceCall) : MemoryStore -> MemoryStore * option Error :=
  match c with
  | MProfile v e a => run1 (UpsertClusterMaintenanceProfile v e a)
  | MWindow v a => run1 (CreateClusterMaintenanceWindow v a)
  | MCancelWindow id e a => run1 (CancelClusterMaintenanceWindow id e a)
  | MCreateRun v a => run1 (CreateClusterMaintenanceRun v a)
  | MCreateRequest v r k a rid => run1 (CreateClusterMaintenanceRunRequest v r k a rid)
  | MApprove id e a => run1 (ApproveClusterMaintenanceRun id e a)
  | MNext wall c d => run1 (NextClusterMaintenanceTask wall c d)
  | MReport c id e r => run1 (ReportClusterMaintenanceTask c id e r)
  end.

Lemma exec_moves c s : maint_inv s -> moves s (maintenance_exec c s).1.
Proof.
  intros Hi. destruct c; cbn [maintenance_exec]; apply (run1_leaves _ (fun s' => moves s s')).
  - apply profile_moves.
  - apply window_moves.
  - apply cancel_moves.
  - apply create_run_moves.
  - apply create_request_moves.
  - apply approve_moves.
  - eapply wp_mono; [by apply next_run_spec|]. by intros r s' [H _].
  - eapply wp_mono; [apply report_run_spec|]. by intros r s' [H _].
Qed.

(** a call of this component, or a step of another one *)
Inductive maintenance_step (s : MemoryStore) : MemoryStore -> Prop :=
| mt_call c : maintenance_step s (maintenance_exec c s).1
| mt_other s' : elsewhere s s' -> maintenance_step s s'.

Definition maintenance_reachable (s : MemoryStore) : Prop :=
  exists now id, id_source id /\ rtc maintenance_step (NewMemoryStoreWith now id) s.

Lemma maintenance_steps s s' : rtc maintenance_step s s' -> maint_inv s -> moves s s'.
Proof.
  induction 1 as [s|s1 s2 s3 H12 _ IH]; intros Hi; [reflexivity|].
  assert (Hm : moves s1 s2) by (destruct H12; [by apply exec_moves|by apply elsewhere_moves]).
  etrans; [exact Hm|]. apply IH. by destruct (proj2 Hm Hi).
Qed.

Lemma maintenance_reachable_inv s : maintenance_reachable s -> maint_inv s.
Proof.
  intros (now & id & Hid & Hr). assert (H0 : maint_inv (NewMemoryStoreWith now id)).
  { split; [done|]. split; cbn; intros; simplify_map_eq; try done; intros ??; intros; simplify_map_eq. }
  by destruct (proj2 (maintenance_steps _ _ Hr H0) H0).
Qed.

(** C20: maintenance runs are what was admitted and approved.  In every history a run keeps
    what its request fixed and only moves along its life cycle, where its end is final; it
    names distinct nodes with stable identities, one of which at a time may be
    unavailable; it belongs to a window of its cluster that stays active as long as the
    run is; it leaves the approval queue only through the approval of somebody other than its
    requester, both of them named ([independent]: the local development principal, which
    signs for itself, is the exception); once it was handed out it was handed out inside its window; a succeeded one has one result
    for each of its nodes, each of which went through the whole contract of the action;
    and no other run answers the same request. *)
Theorem maintenance_runs_are_admitted_and_approved s s' id v :
  maintenance_reachable s -> rtc maintenance_step s s' -> ms_clusterMaintenanceRuns s !! id = Some v ->
  exists v', ms_clusterMaintenanceRuns s' !! id = Some v' /\ run_identity v' = run_identity v /\
    rtc run_step (mr_State v) (mr_State v') /\ (endedState (mr_State v) = true -> v' = v) /\
    request_ok v' /\ windowed (ms_clusterMaintenanceWindows s') v' /\
    (mr_State v' <> ClusterMaintenanceAwaitingApproval ->
       independent (mr_RequestedBy v') (mr_ApprovedBy v')) /\
    (mr_State v' = ClusterMaintenanceSucceeded -> every_node_safe v') /\
    (forall j w, ms_clusterMaintenanceRuns s' !! j = Some w -> runScope w = runScope v -> j = id).
Proof.
  intros Hi%maintenance_reachable_inv Hs Hv. destruct (maintenance_steps _ _ Hs Hi) as [_ Hm].
  destruct (Hm Hi) as ([_ [_ _ _ _ Hr Hsc]] & _ & Hev). destruct (Hev _ _ Hv) as (v' & Hv' & [Ei Hst Hfin]).
  destruct (Hr _ _ Hv') as [_ Hq Hw Ha Hsafe]. exists v'. split_and!; try done.
  intros j w Hw' Esc. assert (E : runScope v' = runScope v).
  { unfold run_identity in Ei. injection Ei as E1 E2 E3 E4 E5 E6 E7 E8 E9 E10 E11 E12 E13 E14 E15 E16.
    unfold runScope. by rewrite E3, E15. }
  pose proof (Hsc _ _ Hw') as H1. pose proof (Hsc _ _ Hv') as H2. rewrite Esc, <- E in H1. congruence.
Qed.

(** C21: maintenance starts when it may.  The run that a claim hands out was queued, so
    somebody other than its requester approved it ([independent]); its window is active
    and open at the time of the claim; the cluster's inventory is the one that was
    approved and its nodes are still the ready ones that were selected; a package update
    is admitted by the target; and the run and its operation, which was queued, are
    running now, the operation with one more attempt and leased to the agent, under the
    next fencing token, for as long as the work may take. *)
Theorem maintenance_starts_when_it_may s s' wall c d v' op' :
  maintenance_reachable s -> NextClusterMaintenanceTask wall c d s = (s', Ok (v', op')) ->
  exists cluster id v op, let now := clock (tick s) in
    ms_managedClusters s !! c = Some cluster /\ clusterHasCapability cluster ClusterMaintenanceFencedReportCapability = true /\
    started s s' cluster c now v' op' id v op /\ request_ok v /\ independent (mr_RequestedBy v) (mr_ApprovedBy v) /\
    mr_State v' = ClusterMaintenanceRunning /\ mr_StartedAt v' = Some now /\ run_identity v' = run_identity v /\
    op_State op' = OperationRunning /\ op_Attempt op' = inc64 (op_Attempt op) /\
    op_LeaseOwner op' = maintenanceOwner c /\ op_FenceToken op' = inc64 (op_FenceToken op) /\
    op_LeaseExpiresAt op' = Some (now + clusterMaintenanceLeaseDuration v).
Proof.
  intros Hi%maintenance_reachable_inv E. destruct (wp_run _ _ _ _ _ (next_run_spec wall c d s Hi) E) as [_ Hr].
  destruct Hr as (cluster & id & v & op & Hc & Hcap & Hst). exists cluster, id, v, op. cbv zeta.
  destruct (st_running _ _ _ _ _ _ _ _ _ _ Hst) as [_ Ev]. destruct (st_claimed _ _ _ _ _ _ _ _ _ _ Hst) as [_ Eo].
  destruct (st_queued _ _ _ _ _ _ _ _ _ _ Hst) as (Hv & Hq & _).
  destruct (mk_runs _ _ _ _ (proj2 Hi) _ _ Hv) as [_ Hreq _ Ha _].
  split_and!; try done; try (by rewrite Ev || rewrite Eo). apply Ha. by rewrite Hq.
Qed.

(** C22: reports are accounted for.  A report that is accepted comes from the agent that
    holds the lease of the run's operation, under its fencing token and before it expires;
    it has one result for each node of the run, and claims success only if each node is
    safe ([node_safe]); it ends the run and the operation together, gives the lease
    back, and asks for an operator when a node was left cordoned; and in every later
    store every further report of the run is refused and leaves every collection of the
    store as it is. *)
Theorem maintenance_reports_are_accounted_for s s' c id expected result_ v' op' :
  maintenance_reachable s -> ReportClusterMaintenanceTask c id expected result_ s = (s', Ok (v', op')) ->
  (exists v op no, accounted s s' c id result_ v' op' v op (clock s) no /\
     (mr_State v', op_State op') =
       (if mtr_Success result_ then (ClusterMaintenanceSucceeded, OperationSucceeded)
        else if no then (ClusterMaintenanceNeedsOperator, OperationNeedsOperator)
        else (ClusterMaintenanceFailed, OperationFailed)) /\
     mr_Results v' = mtr_Results result_ /\ op_LeaseOwner op' = "" /\ op_LeaseExpiresAt op' = None) /\
  endedState (mr_State v') = true /\
  forall t c' expected' again, rtc maintenance_step s' t ->
    ms_clusterMaintenanceRuns t !! id = Some v' /\
    (maintenance_exec (MReport c' id expected' again) t).2 <> None /\
    same_data t (maintenance_exec (MReport c' id expected' again) t).1.
Proof.
  intros Hi%maintenance_reachable_inv E. destruct (wp_run _ _ _ _ _ (report_run_spec c id expected result_ s) E) as [[_ Hm] Hr].
  destruct (Hm Hi) as (Hi' & _). destruct Hr as (v & op & no & Ha). pose proof Ha as [_ _ _ _ _ _ [ER Ev] [_ Eo]].
  assert (Hend : endedState (mr_State v') = true).
  { rewrite Ev. destruct (reported_run result_ no (clock s) v) as (_ & _ & _ & _ & ->). by destruct (mtr_Success result_), no. }
  split; [|split; [done|]].
  { exists v, op, no. split; [exact Ha|]. rewrite Ev, Eo. unfold reportedRun, reportedOperation.
    by destruct (mtr_Success result_), no. }
  intros t c' expected' again Ht.
  assert (Hv' : ms_clusterMaintenanceRuns t !! id = Some v').
  { destruct (proj2 (maintenance_steps _ _ Ht Hi') Hi') as (_ & _ & Hev). destruct (Hev id v') as (x & Hx & [_ _ Hfin]).
    - rewrite ER. apply lookup_insert_eq.
    - by rewrite (Hfin Hend) in Hx. }
  split; [done|]. cbn [maintenance_exec]. pose proof (report_run_spec c' id expected' again t) as Hrep. unfold wp in Hrep. unfold run1.
  destruct (ReportClusterMaintenanceTask c' id expected' again t) as [t1 [[x o]|e]]; [|by destruct Hrep].
  destruct Hrep as [_ (x0 & o0 & b0 & Hacc)]. destruct (ac_run _ _ _ _ _ _ _ _ _ _ _ Hacc) as (Hx & Hst & _).
  assert (x0 = v') as -> by congruence. by rewrite Hst in Hend.
Qed.

(** The lease covers the work.  The lease of a claimed run lasts as long as draining,
    and patching, all of its nodes one after the other may take, and two minutes more. *)
Theorem maintenance_leases_cover_the_work v :
  request_ok v -> Z.of_nat (length (mr_NodeNames v)) <= 2 ^ 20 ->
  clusterMaintenanceLeaseDuration v =
    Z.of_nat (length (mr_NodeNames v)) * (mr_DrainTimeoutSeconds v + mr_HostActionTimeoutSeconds v) * Second + 2 * Minute /\
  150 * Second <= clusterMaintenanceLeaseDuration v < 2 ^ 63.
Proof.
  intros [[Hne _] _ _ [_ Hd] Ha] Hn. unfold validateDrainTimeout in Hd. norm_bool.
  assert (Hlen : 1 <= Z.of_nat (length (mr_NodeNames v))) by (destruct (mr_NodeNames v); [done|cbn; lia]).
  set (n := Z.of_nat (length (mr_NodeNames v))) in *. set (drain := mr_DrainTimeoutSeconds v) in *.
  assert (Hwrap : forall z, 0 <= z < 2 ^ 63 -> wrap64 z = z).
  { intros z Hz. unfold wrap64. rewrite Z.mod_small; lia. }
  unfold clusterMaintenanceLeaseDuration. fold n drain. rewrite (proj2 (Z.ltb_ge n 1)) by lia.
  unfold defaultHostActionTimeoutSeconds, Minute, Second in *.
  assert (Hcase : exists host, mr_HostActionTimeoutSeconds v = host /\ (host = 0 \/ host = 3600) /\
    (if mr_Action v == TargetNodeActionOSPatch
     then wrap64 (drain + (if mr_HostActionTimeoutSeconds v <=? 0 then 3600 else mr_HostActionTimeoutSeconds v)) else drain) = drain + host).
  { destruct Ha as [[-> ->]|[-> ->]]; eexists; (split; [reflexivity|]).
    - split; [by left|]. rewrite bool_decide_eq_false_2 by done. lia.
    - split; [by right|]. rewrite bool_decide_eq_true_2 by done. change (3600 <=? 0) with false. cbv beta iota. rewrite Hwrap; lia. }
  destruct Hcase as (host & -> & Hh & ->).
  assert (Hs : 30 <= n * (drain + host) <= 2 ^ 20 * 7200) by (destruct Hh as [->| ->]; nia).
  rewrite (Hwrap (n * (drain + host))) by lia. rewrite (proj2 (Z.ltb_ge _ 30)) by lia.
  set (work := n * (drain + host)) in *. rewrite (Hwrap (work * 1000000000)) by lia. rewrite Hwrap by lia. lia.
Qed.

(** ** A concrete history *)

Module MaintenanceDemo.

Definition now : Time := 1000 * Second.
Definition node (name : string) : ClusterNode := mkClusterNode name ("uid-" +:+ name) ["worker"] "" "" "" true.
Definition inventory : ClusterInventory :=
  mkClusterInventory (newMeta "inv" 0) "c" now "rke2" "" "" "" "v1.33.1" (Some [node "worker-1"; node "worker-2"]) None None
    (mkClusterCapacity 0 0 0 0 0 0) None (mkClusterNetworking "cilium" [] false)
    (mkClusterWorkloadExplorer "" false false [] [] [] [] []) None None false false "" "" false
    [TargetMutationRBACActiveCapability; ClusterMaintenanceFencedReportCapability] demo_digest.
Definition cluster : ManagedCluster :=
  mkManagedCluster (newMeta "c" 0) "p" "imp" "edge" "Edge" "uid" "CONNECTED" "kubernetes" "1.31" "1.0" (Some now) (Some now)
    (Some now) ∅ [TargetMutationRBACActiveCapability; TargetMutationRBACActivationIssuedCapability;
      TargetIdentityContinuityCapability; TargetEnrollmentPrincipalIsolatedCapability; ClusterMaintenanceFencedReportCapability]
    demo_digest demo_digest demo_digest "" None "" "".
Definition import : ClusterImport :=
  mkClusterImport (newMeta "imp" 0) "p" "edge" "Edge" ClusterImportClaimed "" "sha256:agent" "" 0 None None "c" "" "".
Definition seed : MemoryStore :=
  (NewMemoryStoreWith (fun _ => now) demo_id) <| ms_projects := {["p" := demo_project]} |>
    <| ms_managedClusters := {["c" := cluster]} |> <| ms_clusterImports := {["imp" := import]} |>
    <| ms_clusterInventories := {["c" := inventory]} |>.

Definition profile : ClusterMaintenanceProfile := mkClusterMaintenanceProfile (newMeta "" 0) "" "c" "production" 300 "".
Definition window : ClusterMaintenanceWindow :=
  mkClusterMaintenanceWindow (newMeta "" 0) "" "c" "weekly" (now - Minute) (now + 60 * Minute) 0 300 ClusterMaintenanceWindowActive "" "" None.
Definition prepare : list MaintenanceCall := [MProfile profile 0 "alice"; MWindow window "alice"].

(** steps of the history: maintenance and the engine *)
Inductive Do : Type := M (c : MaintenanceCall) | E (c : Call).
Definition do (s : MemoryStore) (x : Do) : MemoryStore :=
  match x with M c => (maintenance_exec c s).1 | E c => (exec c s).1 end.
Definition run (xs : list Do) : MemoryStore := foldl do seed xs.
Definition history (cs : list MaintenanceCall) : MemoryStore := foldl (fun s c => (maintenance_exec c s).1) seed cs.
Definition window_id : string :=
  Eval vm_compute in default "" (head (map_to_list (ms_clusterMaintenanceWindows (history prepare))).*1).

Definition ask (nodes : list string) (key : string) : ClusterMaintenanceRun :=
  zeroRun <| mr_ProjectID := "p" |> <| mr_ClusterID := "c" |> <| mr_WindowID := window_id |> <| mr_NodeNames := nodes |>
    <| mr_IdempotencyKey := key |> <| mr_RequestDigest := "sha256:" +:+ key |>.
Definition operation (kind : string) : OperationRequest := mkOperationRequest "p" kind "cluster/c" "rev-1" "low" "" "".
Definition request (nodes : list string) (key : string) : MaintenanceCall :=
  MCreateRequest (ask nodes key) (operation "CLUSTER_MAINTENANCE") key "alice" "".
Definition only_run (s : MemoryStore) : string := default "" (head (map_to_list (ms_clusterMaintenanceRuns s)).*1).
Definition only_operation (s : MemoryStore) : string := default "" (head (map_to_list (ms_operations s)).*1).

Definition requested : list MaintenanceCall := (prepare ++ [request ["worker-1"; " worker-2"] "k1"])%list.
Definition run_id : string := Eval vm_compute in only_run (history requested).
Definition operation_id : string := Eval vm_compute in only_operation (history requested).
Definition approved : list MaintenanceCall := (requested ++ [MApprove run_id 1 "bob"])%list.
Definition claimed : list MaintenanceCall := (approved ++ [MNext now "c" "sha256:agent"])%list.
Definition drained (name : string) : NodeMaintenanceResult :=
  mkNodeMaintenanceResult name true true true true [] [] [] false false "" "" false "".
Definition success : ClusterMaintenanceTaskResult := mkClusterMaintenanceTaskResult 1 true [drained "worker-2"; drained "worker-1"] "".
Definition reported : list MaintenanceCall := (claimed ++ [MReport "c" run_id 3 success])%list.

Definition states (s : MemoryStore) : list ClusterMaintenanceRunState := mr_State <$> (map_to_list (ms_clusterMaintenanceRuns s)).*2.
Definition operation_state (s : MemoryStore) (id : string) : option OperationState := op_State <$> ms_operations s !! id.

Lemma call_steps cs s : rtc maintenance_step s (foldl (fun s c => (maintenance_exec c s).1) s cs).
Proof. revert s. induction cs as [|c cs IH]; intros s; [constructor|]. eapply rtc_l; [apply mt_call|apply IH]. Qed.
Lemma maintenance_history cs : maintenance_reachable (history cs).
Proof.
  exists (fun _ => now), demo_id. split; [apply demo_id_source|]. transitivity seed; [|apply call_steps].
  apply rtc_once, mt_other. split_and!; [by split|done|done|done].
Qed.
Lemma maintenance_history_steps cs ds : rtc maintenance_step (history cs) (history (cs ++ ds)).
Proof. unfold history. rewrite foldl_app. apply call_steps. Qed.
End MaintenanceDemo.
Import MaintenanceDemo.

Example a_run_from_request_to_success :
  (states (history requested), states (history approved), states (history claimed), states (history reported)) =
  ([ClusterMaintenanceAwaitingApproval], [ClusterMaintenanceQueued], [ClusterMaintenanceRunning], [ClusterMaintenanceSucceeded]) /\
  operation_state (history claimed) operation_id = Some OperationRunning /\
  operation_state (history reported) operation_id = Some OperationSucceeded.
Proof. split_and!; vm_compute; reflexivity. Qed.

(** Nothing keeps a second run from starting while one is running: two runs of one
    window make two nodes of a cluster unavailable at once, although each of them and
    their window say that at most one may be. *)
Definition overlapping : list MaintenanceCall :=
  (prepare ++ [request ["worker-1"] "k1"; request ["worker-2"] "k2"])%list.
Definition approve_all (s : MemoryStore) : list MaintenanceCall :=
  (fun kv => MApprove kv.1 1 "bob") <$> map_to_list (ms_clusterMaintenanceRuns s).
Example two_runs_at_once :
  let s := history (overlapping ++ approve_all (history overlapping) ++
                    [MNext now "c" "sha256:agent"; MNext now "c" "sha256:agent"])%list in
  (fun v => (mr_State v, mr_NodeNames v, mr_MaxUnavailable v)) <$> (map_to_list (ms_clusterMaintenanceRuns s)).*2 ≡ₚ
    [(ClusterMaintenanceRunning, ["worker-1"], 1); (ClusterMaintenanceRunning, ["worker-2"], 1)].
Proof. vm_compute. constructor; constructor; constructor || apply perm_swap. Qed.

(** A claim that finds the operation of a queued run in another state fails both: an
    operation that was cancelled, which is terminal for the engine, becomes failed. *)
Example a_cancelled_operation_fails :
  let cancelled := run ((M <$> approved) ++ [E (CRequestCancellation operation_id 5 "alice" "not today")])%list in
  let s := do cancelled (M (MNext now "c" "sha256:agent")) in
  operation_state cancelled operation_id = Some OperationCancelled /\ operation_state s operation_id = Some OperationFailed /\
  states s = [ClusterMaintenanceFailed].
Proof. split_and!; vm_compute; reflexivity. Qed.

(** A request is validated before its operation is created, but whether the operation
    fits the run is checked after that: an operation of another kind is left behind,
    awaiting approval, by the request that was refused. *)
Example refused_requests_leave_operations :
  let c := MCreateRequest (ask ["worker-1"] "k1") (operation "release.apply") "k1" "alice" "" in
  let s := history prepare in
  (maintenance_exec c s).2 = Some ErrPrerequisite /\
  (op_State <$> (map_to_list (ms_operations s)).*2, op_State <$> (map_to_list (ms_operations (maintenance_exec c s).1)).*2) =
    ([], [OperationAwaitingApproval]).
Proof. split; vm_compute; reflexivity. Qed.

(** A run that awaits approval has no end but the approval: once its window is over it
    cannot be approved any more, and the window cannot be cancelled because of it. *)
Lemma unapproved_runs_block_their_window s id v w :
  ms_clusterMaintenanceRuns s !! id = Some v -> mr_State v = ClusterMaintenanceAwaitingApproval ->
  ms_clusterMaintenanceWindows s !! mr_WindowID v = Some w -> mw_EndsAt w <= clock s ->
  (forall expected actor, is_ok (ApproveClusterMaintenanceRun id expected actor s).2 = false) /\
  (forall expected actor, is_ok (CancelClusterMaintenanceWindow (mr_WindowID v) expected actor s).2 = false).
Proof.
  intros Hv Hst Hw Hend.
  assert (Hwp : forall A (m : Store A), wp m (fun r _ => is_ok r = false) s -> is_ok (m s).2 = false).
  { intros A m H. unfold wp in H. by destruct (m s). }
  split; intros expected actor; apply Hwp.
  - unfold ApproveClusterMaintenanceRun; unfold_puts. wp_go; try done. norm_bool. simplify_eq. lia.
  - unfold CancelClusterMaintenanceWindow; unfold_puts. wp_go; try done. exfalso.
    match goal with H : map_any _ _ = false |- _ => rename H into Hany end.
    assert (map_any (boundTo (mr_WindowID v)) (ms_clusterMaintenanceRuns s) = true) as Ht; [|congruence].
    apply map_any_true. exists id, v. split; [done|]. unfold boundTo. by rewrite bool_decide_eq_true_2, Hst.
Qed.

(** ** Witnesses *)

Lemma maintenance_runs_are_admitted_and_approved_witness :
  exists v v', ms_clusterMaintenanceRuns (history requested) !! run_id = Some v /\
    ms_clusterMaintenanceRuns (history reported) !! run_id = Some v' /\ run_identity v' = run_identity v /\
    mr_State v = ClusterMaintenanceAwaitingApproval /\ every_node_safe v'.
Proof.
  destruct (found mr_State (ms_clusterMaintenanceRuns (history requested) !! run_id) ClusterMaintenanceAwaitingApproval)
    as (v & Ev & Hst); [vm_compute; reflexivity|].
  destruct (found mr_State (ms_clusterMaintenanceRuns (history reported) !! run_id) ClusterMaintenanceSucceeded)
    as (w & Ew & Hsw); [vm_compute; reflexivity|].
  assert (Hs : rtc maintenance_step (history requested) (history reported)).
  { unfold reported, claimed, approved. rewrite <- !app_assoc. apply maintenance_history_steps. }
  destruct (maintenance_runs_are_admitted_and_approved _ _ _ _ (maintenance_history _) Hs Ev)
    as (v' & Ev' & Hi & _ & _ & _ & _ & _ & Hsafe & _).
  rewrite Ev' in Ew. injection Ew as ->. exists v, w. split; [exact Ev|]. split; [exact Ev'|]. split; [exact Hi|].
  split; [exact Hst|exact (Hsafe Hsw)].
Defined.

Lemma maintenance_starts_when_it_may_witness :
  exists s' v' op' v, NextClusterMaintenanceTask now "c" "sha256:agent" (history approved) = (s', Ok (v', op')) /\
    request_ok v /\ independent (mr_RequestedBy v) (mr_ApprovedBy v).
Proof.
  destruct (succeeds (NextClusterMaintenanceTask now "c" "sha256:agent") (history approved)) as (s' & [v' op'] & E);
    [vm_compute; reflexivity|].
  destruct (maintenance_starts_when_it_may _ _ _ _ _ _ _ (maintenance_history approved) E) as (_ & _ & v & _ & _ & _ & _ & Hq & Ha & _).
  exists s', v', op', v. split; [exact E|]. split; [exact Hq|exact Ha].
Defined.

Lemma maintenance_reports_are_accounted_for_witness :
  exists s' v' op', ReportClusterMaintenanceTask "c" run_id 3 success (history claimed) = (s', Ok (v', op')) /\
    endedState (mr_State v') = true /\ (maintenance_exec (MReport "c" run_id 4 success) s').2 <> None.
Proof.
  destruct (succeeds (ReportClusterMaintenanceTask "c" run_id 3 success) (history claimed)) as (s' & [v' op'] & E);
    [vm_compute; reflexivity|].
  destruct (maintenance_reports_are_accounted_for _ _ _ _ _ _ _ _ (maintenance_history claimed) E) as (_ & He & Hagain).
  exists s', v', op'. split; [exact E|]. split; [exact He|].
  destruct (Hagain s' "c" 4 success (rtc_refl _ _)) as (_ & H & _). exact H.
Defined.

Lemma maintenance_leases_cover_the_work_witness :
  exists v, ms_clusterMaintenanceRuns (history requested) !! run_id = Some v /\
    150 * Second <= clusterMaintenanceLeaseDuration v < 2 ^ 63.
Proof.
  destruct (found (fun v => length (mr_NodeNames v)) (ms_clusterMaintenanceRuns (history requested) !! run_id) 2%nat)
    as (v & Ev & Hn); [vm_compute; reflexivity|].
  exists v. split; [exact Ev|].
  destruct (mk_runs _ _ _ _ (proj2 (maintenance_reachable_inv _ (maintenance_history requested))) _ _ Ev) as [_ Hq _ _ _].
  apply (maintenance_leases_cover_the_work v Hq). rewrite Hn. lia.
Defined.
