(* ===== verification/Pages.v ===== *)
(** * Listings and pages

    The read operations of the control plane: the plain listings
    ([memory_store.go], [fleet_store.go], [catalog_governance_store.go] and
    their neighbours), the operation pages and worker queues
    ([operation_page.go]), evidence and execution-log pages
    ([evidence_page.go], [operations_observability.go]), audit pages
    ([audit_store.go]), and the cursor pages of operator collections
    ([operator_collection_page.go] of the store and of the HTTP API).  Where the
    comparison of a listing leaves two values unordered, Go's [sort.Slice] may
    put them in either order; here they keep their order of iteration. *)
From S2P Require Import Prelude GoStrings Model Inventory Store Ordering Listing.
From S2P Require Import FleetGateway Fleet Tenants Impact Baselines Campaigns Drift.

(** the values of a collection that pass a test, sorted *)
Definition listing {V} (less : V -> V -> bool) (keep : V -> bool) (m : gmap string V) : list V :=
  sortSlice less (map_select (fun _ => keep) m).

Definition anyOr (wanted value : string) : bool := (wanted == "") || (value == wanted).

(** ** Plain listings *)

Definition ListOrganizations : Store (list Organization) :=
  let! s := get in
  ret (listing (on org_Name string_lt) (fun _ => true) (ms_organizations s)).

Definition ListProjects (orgID : string) : Store (list Project) :=
  let! s := get in
  ret (listing (lexi prj_OrganizationID string_lt (on prj_Name string_lt))
         (fun v => anyOr orgID (prj_OrganizationID v)) (ms_projects s)).

Definition ListOrganizationMemberships (organizationID : string) : Store (list OrganizationMembership) :=
  let organizationID := TrimSpace organizationID in
  let! s := get in
  ret (listing (lexi mem_OrganizationID string_lt (on mem_Subject string_lt))
         (fun v => anyOr organizationID (mem_OrganizationID v)) (ms_organizationMemberships s)).

Definition ListSubjectOrganizationMemberships (subject : string) : Store (list OrganizationMembership) :=
  let subject := TrimSpace subject in
  let! s := get in
  ret (listing (on mem_OrganizationID string_lt)
         (fun v => (mem_Subject v == subject) && (mem_State v == OrganizationMembershipActive))
         (ms_organizationMemberships s)).

Definition ListBlueprintOverlays (projectID : string) (scope : BlueprintOverlayScope) : Store (list BlueprintOverlay) :=
  let! s := get in
  ret (listing (lexi bo_Name string_lt (lexi bo_Version string_lt (on (fun v => rm_ID (bo_Meta v)) string_lt)))
         (fun v => anyOr projectID (bo_ProjectID v) && anyOr scope (bo_Scope v)) (ms_blueprintOverlays s)).

Definition ListBlueprintReleases (projectID : string) : Store (list BlueprintRelease) :=
  let! s := get in
  ret (listing (lexi br_BlueprintName string_lt (lexi br_BlueprintVersion string_lt (on (fun v => rm_ID (br_Meta v)) string_lt)))
         (fun v => anyOr projectID (br_ProjectID v)) (ms_blueprintReleases s)).

Definition ListCatalogTrustKeys (organizationID : string) : Store (list CatalogTrustKey) :=
  let organizationID := TrimSpace organizationID in
  let! s := get in
  ret (listing (lexi ck_OrganizationID string_lt (on ck_Name string_lt))
         (fun v => anyOr organizationID (ck_OrganizationID v)) (ms_catalogTrustKeys s)).

Definition ListCatalogReleases (organizationID : string) : Store (list CatalogRelease) :=
  let organizationID := TrimSpace organizationID in
  let! s := get in
  ret (listing (lexi cr_CatalogName string_lt (lexi cr_CatalogVersion string_lt (on cr_Channel string_lt)))
         (fun v => anyOr organizationID (cr_OrganizationID v)) (ms_catalogReleases s)).

Definition ListClusterImports (projectID : string) : Store (list ClusterImport) :=
  let! now := nowUTC in
  let! s := get in
  ret (sortSlice (on (fun v => rm_CreatedAt (ci_Meta v)) earlier)
         ((fun v => effectiveClusterImport v now)
          <$> map_select (fun _ v => anyOr projectID (ci_ProjectID v)) (ms_clusterImports s))).

Definition ListManagedClusters (projectID : string) : Store (list ManagedCluster) :=
  let! s := get in
  ret (listing (on mc_Name string_lt) (fun v => anyOr projectID (mc_ProjectID v)) (ms_managedClusters s)).

Definition ListAgentCertificates (clusterID : string) : Store (list AgentCertificate) :=
  let! s := get in
  ret (listing (on (fun v => rm_CreatedAt (ac_Meta v)) later_than)
         (fun v => anyOr clusterID (ac_ClusterID v)) (ms_agentCertificates s)).

Definition ListRecoveryCheckpoints (projectID clusterID : string) : Store (list RecoveryCheckpoint) :=
  let! s := get in
  ret (listing (on (fun v => rm_CreatedAt (rc_Meta v)) earlier)
         (fun v => anyOr projectID (rc_ProjectID v) && anyOr clusterID (rc_ClusterID v)) (ms_recoveryCheckpoints s)).

Definition ListOperations (projectID : string) : Store (list Operation) :=
  let! s := get in
  ret (listing (lexi (fun v => rm_CreatedAt (op_Meta v)) earlier (on (fun v => rm_ID (op_Meta v)) string_lt))
         (fun v => anyOr projectID (op_ProjectID v)) (ms_operations s)).

Definition ListOperationSteps (operationID : string) : Store (list OperationStep) :=
  let! s := get in
  ret (listing (on st_StepKey string_lt) (fun v => st_OperationID v == operationID) (ms_steps s)).

Definition ListOperationCompensationSteps (operationID : string) : Store (list OperationCompensationStep) :=
  let! s := get in
  ret (listing (on cs_ForwardOrder earlier) (fun v => cs_OperationID v == operationID) (ms_compensationSteps s)).

Definition ListOperationStepTraces (operationID : string) : Store (list OperationStepTrace) :=
  let! s := get in
  ret (listing (lexi tr_Attempt earlier (lexi tr_Phase string_lt (lexi tr_StepKey string_lt
                 (lexi tr_Sequence earlier (on (fun v => rm_ID (tr_Meta v)) string_lt)))))
         (fun v => anyOr operationID (tr_OperationID v)) (ms_stepTraces s)).

Definition ListEvidence (operationID : string) : Store (list EvidenceMetadata) :=
  let! s := get in
  ret (listing (on (fun v => rm_CreatedAt (ev_Meta v)) earlier)
         (fun v => anyOr operationID (ev_OperationID v)) (ms_evidence s)).

(** ** Pages of operations *)

(** most recently updated first, then newest, then greatest identifier *)
Definition newestChronology {V} (meta : V -> ResourceMeta) : V -> V -> bool :=
  lexi (fun v => rm_UpdatedAt (meta v)) later_than
    (lexi (fun v => rm_CreatedAt (meta v)) later_than (on (fun v => rm_ID (meta v)) string_gt)).

(** [if limit <= 0 || limit > most { limit = otherwise }] *)
Definition limitOr (limit most otherwise : Z) : Z := if (limit <=? 0) || (most <? limit) then otherwise else limit.

(** [allowedProjects] is a nil map or a set of projects *)
Definition listOperationsPageLocked (s : MemoryStore) (projectID : string) (allowedProjects : option (gset string))
    (limit : Z) : list Operation :=
  first_of (newestChronology op_Meta) (limitOr limit 500 200)
    (map_select (fun _ operation =>
       negb ((projectID != "") && (op_ProjectID operation != projectID))
       && negb (match allowedProjects with Some allowed => negb (bool_decide (op_ProjectID operation ∈ allowed)) | None => false end))
       (ms_operations s)).

Definition ListOperationsPage (projectID : string) (limit : Z) : Store (list Operation) :=
  let! s := get in
  ret (listOperationsPageLocked s projectID None limit).

(** the identifiers that are not blank, trimmed *)
Definition scopeSet (ids : list string) : gset string :=
  list_to_set (List.filter (fun id => id != "") (TrimSpace <$> ids)).

Definition ListOperationsPageByProjects (projectIDs : list string) (limit : Z) : Store (list Operation) :=
  let! s := get in
  let allowed := scopeSet projectIDs in
  if allowed == ∅ then ret [] else ret (listOperationsPageLocked s "" (Some allowed) limit).

Definition ListOperationsByKindTargetPage (projectID kind targetRef : string) (limit : Z) : Store (list Operation) :=
  let projectID := TrimSpace projectID in
  let kind := TrimSpace kind in
  let targetRef := TrimSpace targetRef in
  fail_if ((projectID == "") || (kind == "") || (targetRef == "") || (limit <=? 0) || (200 <? limit)) ErrValidation ;;;
  let! s := get in
  ret (first_of (newestChronology op_Meta) limit
         (map_select (fun _ operation =>
            negb ((op_ProjectID operation != projectID) || (op_Kind operation != kind)
                  || (op_TargetRef operation != targetRef))) (ms_operations s))).

(** ** Worker queues *)

Definition workerEligible (at_ : Time) (op : Operation) : bool :=
  (op_State op == OperationQueued)
  || ((op_State op == OperationRetryWait)
      && match op_NextAttemptAt op with Some t => negb (at_ <? t) | None => false end)
  || ((op_State op == OperationRunning)
      && match op_LeaseExpiresAt op with Some t => negb (at_ <? t) | None => true end).

(** retries are due at their retry time, other work at its creation *)
Definition queueTime (op : Operation) : Time :=
  if op_State op == OperationRetryWait then default (rm_CreatedAt (op_Meta op)) (op_NextAttemptAt op)
  else rm_CreatedAt (op_Meta op).

Definition queueOrder : Operation -> Operation -> bool :=
  lexi queueTime earlier (on (fun op => rm_ID (op_Meta op)) string_lt).

Definition ListClaimableOperationsByKind (kind : string) (at_ : Time) (limit : Z) : Store (list Operation) :=
  let kind := TrimSpace kind in
  fail_if ((kind == "") || (limit <=? 0) || (200 <? limit)) ErrValidation ;;;
  let! s := get in
  ret (first_of queueOrder limit
         (map_select (fun _ op => (op_Kind op == kind) && workerEligible at_ op) (ms_operations s))).

Definition ListClaimableOperationsByKindTargetPrefix (kind targetPrefix : string) (at_ : Time) (limit : Z)
    : Store (list Operation) :=
  let kind := TrimSpace kind in
  let targetPrefix := TrimSpace targetPrefix in
  fail_if ((kind == "") || (targetPrefix == "") || (limit <=? 0) || (200 <? limit)) ErrValidation ;;;
  let! s := get in
  ret (first_of queueOrder limit
         (map_select (fun _ op => negb ((op_Kind op != kind) || negb (HasPrefix (op_TargetRef op) targetPrefix))
                                  && workerEligible at_ op) (ms_operations s))).

Definition ListUnknownRecoveryOperationsByKindTargetPrefix (kind targetPrefix : string) (limit : Z)
    : Store (list Operation) :=
  let kind := TrimSpace kind in
  let targetPrefix := TrimSpace targetPrefix in
  fail_if ((kind == "") || (targetPrefix == "") || (limit <=? 0) || (200 <? limit)) ErrValidation ;;;
  let! s := get in
  ret (first_of (lexi (fun op => rm_UpdatedAt (op_Meta op)) earlier (on (fun op => rm_ID (op_Meta op)) string_lt)) limit
         (map_select (fun _ op =>
            negb ((op_Kind op != kind) || negb (HasPrefix (op_TargetRef op) targetPrefix)
                  || (op_State op != OperationFailed) || (op_LastFailureClass op != OperationFailureUnknown)))
            (ms_operations s))).

(** ** Evidence, execution logs and the audit trail *)

Definition ListEvidencePageByProject (projectID : string) (limit : Z) : Store (list EvidenceMetadata) :=
  let projectID := TrimSpace projectID in
  if projectID == "" then ret [] else
  let! s := get in
  let operationIDs : gset string :=
    list_to_set ((fun op => rm_ID (op_Meta op))
                 <$> map_select (fun _ op => op_ProjectID op == projectID) (ms_operations s)) in
  ret (first_of (newestChronology ev_Meta) (limitOr limit 500 200)
         (map_select (fun _ ev => bool_decide (ev_OperationID ev ∈ operationIDs)) (ms_evidence s))).

Definition ListEvidencePageByOperation (operationID : string) (limit : Z) : Store (list EvidenceMetadata) :=
  let operationID := TrimSpace operationID in
  if operationID == "" then ret [] else
  let! s := get in
  let! _ := get_opt (ms_operations s !! operationID) ErrNotFound in
  ret (first_of (newestChronology ev_Meta) (limitOr limit 500 100)
         (map_select (fun _ ev => ev_OperationID ev == operationID) (ms_evidence s))).

Record ScopedOperationTrace := mkScopedOperationTrace {
  so_Trace : OperationStepTrace;
  so_ProjectID : string;
  so_OperationKind : string;
  so_TargetRef : string;
}.

Definition scopedTraces (s : MemoryStore) (visible : Operation -> bool) : list ScopedOperationTrace :=
  omap (fun trace =>
    match ms_operations s !! tr_OperationID trace with
    | Some op => if visible op then Some (mkScopedOperationTrace trace (op_ProjectID op) (op_Kind op) (op_TargetRef op))
                 else None
    | None => None
    end) (map_select (fun _ _ => true) (ms_stepTraces s)).

Definition traceOrder : ScopedOperationTrace -> ScopedOperationTrace -> bool :=
  lexi (fun v => rm_CreatedAt (tr_Meta (so_Trace v))) later_than (on (fun v => rm_ID (tr_Meta (so_Trace v))) string_gt).

Definition ListOperationTracesPage (operationID : string) (limit : Z) : Store (list ScopedOperationTrace) :=
  let operationID := TrimSpace operationID in
  let! s := get in
  ret (first_of traceOrder (limitOr limit 500 200)
         (scopedTraces s (fun op => negb ((operationID != "") && (rm_ID (op_Meta op) != operationID))))).

Definition ListOperationTracesPageByProjects (projectIDs : list string) (operationID : string) (limit : Z)
    : Store (list ScopedOperationTrace) :=
  let operationID := TrimSpace operationID in
  let allowed := scopeSet projectIDs in
  if allowed == ∅ then ret [] else
  let! s := get in
  ret (first_of traceOrder (limitOr limit 500 200)
         (scopedTraces s (fun op => negb (negb (bool_decide (op_ProjectID op ∈ allowed))
                                          || ((operationID != "") && (rm_ID (op_Meta op) != operationID)))))).

Definition auditNewestFirst : AuditEvent -> AuditEvent -> bool :=
  lexi au_OccurredAt later_than (on au_ID string_gt).

Definition ListAudit (limit : Z) : Store (list AuditEvent) :=
  let! s := get in
  ret (first_of auditNewestFirst (limitOr limit 1000 100) (ms_audit s)).

Definition ListAuditPageByResource (resourceType resourceID : string) (limit : Z) : Store (list AuditEvent) :=
  let resourceType := TrimSpace resourceType in
  let resourceID := TrimSpace resourceID in
  fail_if ((resourceType == "") || (resourceID == "")) ErrValidation ;;;
  let! s := get in
  ret (first_of auditNewestFirst (limitOr limit 200 50)
         (List.filter (fun event => (au_ResourceType event == resourceType) && (au_ResourceID event == resourceID))
            (ms_audit s))).

(** ** Cursor pages of operator collections *)

Record CollectionCursor := mkCollectionCursor {
  cu_UpdatedAt : Time;
  cu_ID : string;
}.

(** most recently updated first, then greatest identifier *)
Definition newestUpdate : ResourceMeta -> ResourceMeta -> bool :=
  lexi rm_UpdatedAt later_than (on rm_ID string_gt).

(** a resource strictly beyond the cursor *)
Definition beyondCursor (cursor : CollectionCursor) (resource : ResourceMeta) : bool :=
  (rm_UpdatedAt resource <? cu_UpdatedAt cursor)
  || ((rm_UpdatedAt resource == cu_UpdatedAt cursor) && string_lt (rm_ID resource) (cu_ID cursor)).

Section collection.
Context {T : Type} (project : T -> string) (meta : T -> ResourceMeta).

Definition newestItem : T -> T -> bool := on meta newestUpdate.

(** [if limit > 0 && len(out) > limit { out = out[:limit] }] *)
Definition boundedBy (limit : Z) (out : list T) : list T :=
  if 0 <? limit then truncateTo limit out else out.

Definition boundedNewest (items : list T) (limit : Z) : list T := boundedBy limit (sortSlice newestItem items).

Definition projectAllowed (id : string) (ids : list string) (all : bool) : bool :=
  all || existsb (fun v => v == id) ids.

Definition beyond (cursor : option CollectionCursor) (item : T) : bool :=
  match cursor with Some cursor => beyondCursor cursor (meta item) | None => true end.

Definition filterProjectNewest (items : list T) (ids : list string) (all : bool) (cursor : option CollectionCursor)
    (limit : Z) : list T :=
  boundedNewest (List.filter (fun item => projectAllowed (project item) ids all && beyond cursor item) items) limit.

(** [authz.go] *)
Definition filterProjectScoped (items : list T) (allowed : gset string) (all : bool) : list T :=
  if all then items else List.filter (fun item => bool_decide (project item ∈ allowed)) items.

(** [server.go]: the identifiers of the set that are not blank *)
Definition boolSetIDs (values : gset string) : list string :=
  List.filter (fun id => TrimSpace id != "") (elements values).

Definition boundedCollectionWindow (items : list T) (cursor : option CollectionCursor) (limit : Z) : list T :=
  boundedBy limit (List.filter (beyond cursor) (sortSlice newestItem items)).

(** the boundary of a page as the next request presents it: the cursor's token
    is refused for a blank or long identifier and for the zero time *)
Definition nextCursor (last : ResourceMeta) : result CollectionCursor :=
  let id := TrimSpace (rm_ID last) in
  if (id == "") || (256 <? len id) || (rm_UpdatedAt last =? 0) then Fail ErrValidation
  else Ok (mkCollectionCursor (rm_UpdatedAt last) id).

(** the projects of a request: one that it names, or those accessible to it *)
Definition requestScope (projectID : string) (allowed : gset string) (all : bool)
    : list string * bool * gset string :=
  let projectID := TrimSpace projectID in
  if projectID != "" then ([projectID], false, {[projectID]}) else (boolSetIDs allowed, all, allowed).

(** [boundedProjectCollection] for the accessible projects [allowed] (all of
    them when [all]), a parsed limit and cursor, and either a store's page
    function or the collection itself; the result is the page and the cursor of
    the next one, if there is more *)
Definition boundedProjectCollection (projectID : string) (allowed : gset string) (all : bool)
    (source : (list string -> bool -> option CollectionCursor -> Z -> list T) + list T)
    (limit : Z) (cursor : option CollectionCursor) : result (list T * option CollectionCursor) :=
  let '(ids, idsAll, filterAllowed) := requestScope projectID allowed all in
  let fetchLimit := limit + 1 in
  let values :=
    match source with
    | inl page => page ids idsAll cursor fetchLimit
    | inr legacy => boundedCollectionWindow (filterProjectScoped legacy filterAllowed idsAll) cursor fetchLimit
    end in
  let values := boundedCollectionWindow values None fetchLimit in
  let hasMore := limit <? Z.of_nat (length values) in
  let values := if hasMore then take (Z.to_nat limit) values else values in
  match last values with
  | Some item => if hasMore then match nextCursor (meta item) with
                                 | Ok next => Ok (values, Some next)
                                 | Fail e => Fail e
                                 end
                 else Ok (values, None)
  | None => Ok (values, None)
  end.
End collection.

Definition ListManagedClustersPage ids all cursor limit : Store (list ManagedCluster) :=
  let! v := ListManagedClusters "" in
  ret (filterProjectNewest mc_ProjectID mc_Meta v ids all cursor limit).

Definition ListClusterImportsPage ids all cursor limit : Store (list ClusterImport) :=
  let! v := ListClusterImports "" in
  ret (filterProjectNewest ci_ProjectID ci_Meta v ids all cursor limit).

Definition ListTenantsPage ids all cluster cursor limit : Store (list TenantEnvironment) :=
  let! v := ListTenants "" cluster in
  ret (filterProjectNewest te_ProjectID te_Meta v ids all cursor limit).

Definition ListBlueprintReleasesPage ids all cursor limit : Store (list BlueprintRelease) :=
  let! v := ListBlueprintReleases "" in
  ret (filterProjectNewest br_ProjectID br_Meta v ids all cursor limit).

Definition ListRecoveryCheckpointsPage ids all cluster cursor limit : Store (list RecoveryCheckpoint) :=
  let! v := ListRecoveryCheckpoints "" cluster in
  ret (filterProjectNewest rc_ProjectID rc_Meta v ids all cursor limit).

Definition ListBaselineDeploymentsPage ids all cluster cursor limit : Store (list BaselineDeployment) :=
  let! v := ListBaselineDeployments "" cluster in
  ret (filterProjectNewest bd_ProjectID bd_Meta v ids all cursor limit).

Definition ListMarketplaceInstallationsPage ids all cluster cursor limit : Store (list BaselineDeployment) :=
  let! v := ListBaselineDeployments "" cluster in
  let filtered := List.filter (fun item => bd_SourceType item == BaselineSourceMarketplace) v in
  ret (filterProjectNewest bd_ProjectID bd_Meta filtered ids all cursor limit).

Definition ListFleetGroupsPage ids all cursor limit : Store (list FleetGroup) :=
  let! v := ListFleetGroups "" in
  ret (filterProjectNewest fg_ProjectID fg_Meta v ids all cursor limit).

Definition ListUpgradeCampaignsPage ids all group cursor limit : Store (list UpgradeCampaign) :=
  let! v := ListUpgradeCampaigns "" group in
  ret (filterProjectNewest uc_ProjectID uc_Meta v ids all cursor limit).

Definition ListDriftScansPage ids all group cursor limit : Store (list DriftScan) :=
  let! v := ListDriftScans "" group in
  ret (filterProjectNewest ds_ProjectID ds_Meta v ids all cursor limit).
