(* ===== verification/PageTheorems.v ===== *)
(** * Walks over pages, isolation of scopes and worker queues *)
From S2P Require Import Prelude GoStrings Model Inventory Store Ordering Listing FleetGateway Fleet Tenants Pages.
From S2P Require Import Operations OperationSystem OperationRuns Demo.

(** ** The order of operator collections *)

#[export] Instance newest_update_order : WeakOrder newestUpdate.
Proof. unfold newestUpdate. apply _. Qed.
#[export] Instance newest_item_order {T} (meta : T -> ResourceMeta) : WeakOrder (newestItem meta).
Proof. unfold newestItem. apply _. Qed.

Lemma newest_item_key {T} (meta : T -> ResourceMeta) a b :
  newestItem meta a b = false -> newestItem meta b a = false -> rm_ID (meta a) = rm_ID (meta b).
Proof.
  unfold newestItem, newestUpdate, on, lexi. repeat case_bool_decide; try congruence.
  - intros. by apply string_gt_linear.
  - intros. exfalso. assert (rm_UpdatedAt (meta a) = rm_UpdatedAt (meta b)); [by apply later_linear|done].
Qed.

(** a cursor compares like a resource *)
Lemma beyondCursor_order cursor resource :
  beyondCursor cursor resource = newestUpdate (mkResourceMeta (cu_ID cursor) 0 0 (cu_UpdatedAt cursor)) resource.
Proof.
  destruct cursor as [t i]. unfold beyondCursor, newestUpdate, on, lexi, later_than, string_gt. cbn.
  destruct (decide (t = rm_UpdatedAt resource)) as [E|E].
  - rewrite !bool_decide_eq_true_2 by done. by rewrite E, Z.ltb_irrefl.
  - rewrite !bool_decide_eq_false_2 by congruence. apply orb_false_r.
Qed.

(** the rows of a collection carry distinct, trimmed identifiers *)
Definition well_keyed {T} (meta : T -> ResourceMeta) (rows : list T) : Prop :=
  NoDup ((fun v => rm_ID (meta v)) <$> rows) /\
  forall v, v ∈ rows -> TrimSpace (rm_ID (meta v)) = rm_ID (meta v).

(** the requests of a client that follows the cursors it is given, one request
    each; [None] when the requests run out or one is refused *)
Fixpoint followCursors {T} (requests : list (option CollectionCursor -> result (list T * option CollectionCursor)))
    (cursor : option CollectionCursor) : option (list (list T)) :=
  match requests with
  | [] => None
  | request :: later =>
      match request cursor with
      | Ok (page, None) => Some [page]
      | Ok (page, Some next) => cons page <$> followCursors later (Some next)
      | Fail _ => None
      end
  end.

Section walks.
Context {T : Type} (project : T -> string) (meta : T -> ResourceMeta).
Context (projectID : string) (allowed : gset string) (all : bool) (limit : Z).
Local Abbreviation order := (newestItem meta).
Local Abbreviation cursor_of v := (mkCollectionCursor (rm_UpdatedAt (meta v)) (rm_ID (meta v))).
Implicit Types rows : list T.

(** the rows a request may see *)
Definition may_see (v : T) : bool :=
  let '(ids, idsAll, _) := requestScope projectID allowed all in projectAllowed (project v) ids idsAll.

(** one request against a snapshot of the collection *)
Definition request rows (cursor : option CollectionCursor) : result (list T * option CollectionCursor) :=
  boundedProjectCollection project meta projectID allowed all (inl (filterProjectNewest project meta rows)) limit cursor.

Definition visible rows : list T := List.filter may_see (sortSlice order rows).

Lemma keyed_unique rows a b :
  NoDup ((fun v => rm_ID (meta v)) <$> rows) -> a ∈ rows -> b ∈ rows ->
  order a b = false -> order b a = false -> a = b.
Proof.
  intros Hnd Ha Hb H1 H2. pose proof (newest_item_key _ _ _ H1 H2) as E.
  apply list_elem_of_lookup in Ha as [i Hi]. apply list_elem_of_lookup in Hb as [j Hj].
  assert (i = j) as ->; [|congruence].
  eapply (NoDup_lookup _ _ _ _ Hnd); rewrite list_lookup_fmap; [by rewrite Hi|by rewrite Hj, E].
Qed.

Lemma beyond_order x y : beyond meta (Some (cursor_of x)) y = order x y.
Proof.
  unfold beyond. rewrite beyondCursor_order. unfold newestItem, newestUpdate, on, lexi. done.
Qed.

Lemma beyond_trans cursor item x :
  beyond meta cursor item = true -> order item x = true -> beyond meta cursor x = true.
Proof. destruct cursor as [c|]; [|done]. unfold beyond. rewrite !beyondCursor_order. unfold newestItem, on. apply (less_trans newestUpdate). Qed.

Lemma sort_filter p rows :
  NoDup ((fun v => rm_ID (meta v)) <$> rows) ->
  sortSlice order (List.filter p rows) = List.filter p (sortSlice order rows).
Proof.
  intros Hnd. apply (sorted_canonical order).
  - rewrite sortSlice_perm. by apply bfilter_perm; rewrite sortSlice_perm.
  - intros a b. rewrite !elem_of_sortSlice, !elem_of_bfilter. intros [Ha _] [Hb _]. by eapply keyed_unique.
  - apply sortSlice_sorted, _.
  - apply bfilter_sorted, sortSlice_sorted, _.
Qed.

Lemma visible_strict rows :
  NoDup ((fun v => rm_ID (meta v)) <$> rows) -> StronglySorted (fun a b => order a b = true) (visible rows).
Proof.
  intros Hnd. apply bfilter_sorted, sorted_strict; [| |apply sortSlice_sorted, _].
  - rewrite sortSlice_perm. by eapply NoDup_fmap_1.
  - intros a b. rewrite !elem_of_sortSlice. by apply keyed_unique.
Qed.

Lemma elem_of_visible rows v : v ∈ visible rows <-> v ∈ rows /\ may_see v = true.
Proof. unfold visible. by rewrite elem_of_bfilter, elem_of_sortSlice. Qed.

(** the answer of a request: the rows beyond its cursor, cut at the limit *)
Definition page_of (rows : list T) : result (list T * option CollectionCursor) :=
  if limit <? Z.of_nat (length rows) then
    let page := take (Z.to_nat limit) rows in
    match last page with
    | Some item => match nextCursor (meta item) with Ok next => Ok (page, Some next) | Fail e => Fail e end
    | None => Ok (page, None)
    end
  else Ok (rows, None).

Lemma boundedBy_take n (rows : list T) : 0 < n -> boundedBy n rows = take (Z.to_nat n) rows.
Proof. intros Hn. unfold boundedBy. rewrite (proj2 (Z.ltb_lt 0 n)) by done. apply truncateTo_take. Qed.

(** sorting and cutting the fetched window again changes nothing *)
Lemma window_again (rows : list T) n :
  0 < n -> StronglySorted (fun a b => order a b = true) rows ->
  boundedCollectionWindow meta (take (Z.to_nat n) rows) None n = take (Z.to_nat n) rows.
Proof.
  intros Hn Hs. unfold boundedCollectionWindow. rewrite boundedBy_take by done.
  rewrite bfilter_all by done.
  assert (Hs' : StronglySorted (fun a b => order a b = true) (take (Z.to_nat n) rows)).
  { rewrite <- (take_drop (Z.to_nat n) rows) in Hs. by eapply StronglySorted_app_1_l. }
  rewrite sortSlice_sorted_id; [by rewrite take_take, Nat.min_id|apply _| |].
  - clear Hs. induction Hs' as [|a l Hs IH Ha]; intros x y Hx Hy H1 H2; [by apply elem_of_nil in Hx|].
    rewrite Forall_forall in Ha. apply elem_of_cons in Hx as [->|Hx], Hy as [->|Hy]; [done| | |by apply IH].
    + by rewrite (Ha y Hy) in H1.
    + by rewrite (Ha x Hx) in H2.
  - induction Hs' as [|a l _ IH Ha]; constructor; [done|].
    eapply Forall_impl; [exact Ha|]. intros b. apply less_asym.
Qed.

Lemma page_of_window (rows : list T) :
  0 < limit -> StronglySorted (fun a b => order a b = true) rows ->
  (let values := boundedCollectionWindow meta (take (Z.to_nat (limit + 1)) rows) None (limit + 1) in
   let hasMore := limit <? Z.of_nat (length values) in
   let values := if hasMore then take (Z.to_nat limit) values else values in
   match last values with
   | Some item => if hasMore then match nextCursor (meta item) with
                                  | Ok next => Ok (values, Some next)
                                  | Fail e => Fail e
                                  end
                  else Ok (values, None)
   | None => Ok (values, None)
   end) = page_of rows.
Proof.
  intros Hl Hs. cbn zeta. rewrite window_again by (done || lia). unfold page_of. rewrite length_take.
  destruct (Z.ltb_spec limit (Z.of_nat (length rows))).
  - rewrite (proj2 (Z.ltb_lt limit _)) by lia. rewrite take_take, Nat.min_l by lia. done.
  - rewrite (proj2 (Z.ltb_ge limit _)) by lia. rewrite take_ge by lia. by destruct (last rows).
Qed.

Lemma request_page rows cursor :
  0 < limit -> NoDup ((fun v => rm_ID (meta v)) <$> rows) ->
  request rows cursor = page_of (List.filter (beyond meta cursor) (visible rows)).
Proof.
  intros Hl Hnd. unfold request, boundedProjectCollection, visible, may_see.
  pose proof (visible_strict rows Hnd) as Hs. unfold visible, may_see in Hs.
  destruct (requestScope projectID allowed all) as [[ids idsAll] scope].
  unfold filterProjectNewest, boundedNewest. rewrite boundedBy_take by lia.
  rewrite sort_filter, bfilter_and by done. apply page_of_window; [done|]. by apply bfilter_sorted.
Qed.

Lemma nextCursor_of v next :
  TrimSpace (rm_ID (meta v)) = rm_ID (meta v) -> nextCursor (meta v) = Ok next -> next = cursor_of v.
Proof. unfold nextCursor. intros ->. case_match; [done|]. by intros [= <-]. Qed.

(** a page that has a successor ends with the row its cursor names, and what is
    left beyond that cursor is what the page did not take *)
Lemma page_of_next (rows page : list T) next :
  0 < limit -> (forall v, v ∈ rows -> TrimSpace (rm_ID (meta v)) = rm_ID (meta v)) ->
  page_of rows = Ok (page, Some next) ->
  exists before item, page = (before ++ [item])%list /\ next = cursor_of item /\
    rows = (page ++ drop (Z.to_nat limit) rows)%list /\ Z.of_nat (length page) = limit.
Proof.
  intros Hl Ht. unfold page_of. case_match eqn:El; [|done]. apply Z.ltb_lt in El.
  destruct (last (take (Z.to_nat limit) rows)) as [item|] eqn:Elast; [|done].
  destruct (nextCursor (meta item)) as [c|] eqn:Ec; [|done]. intros [= <- <-].
  apply last_Some in Elast as [before E]. exists before, item.
  assert (item ∈ rows) by (rewrite <- (take_drop (Z.to_nat limit) rows), E; apply elem_of_app; left; apply elem_of_snoc; by right).
  split; [done|]. split; [by apply nextCursor_of; [apply Ht|]|]. split; [by rewrite take_drop|].
  rewrite length_take. lia.
Qed.

Lemma page_of_end (rows page : list T) : page_of rows = Ok (page, None) -> 0 < limit -> page = rows.
Proof.
  unfold page_of. case_match eqn:El; [|by intros [= <-]]. apply Z.ltb_lt in El. intros H Hl.
  destruct (last (take (Z.to_nat limit) rows)) eqn:E; [by repeat case_match|].
  apply last_None in E. apply (f_equal length) in E. rewrite length_take in E. cbn in E. lia.
Qed.

(** the rows of a walk from a cursor: strictly ordered, beyond the cursor, seen
    in some snapshot, and every row that was in all snapshots is there *)
Lemma walk_spec snapshots cursor pages :
  0 < limit -> Forall (well_keyed meta) snapshots ->
  followCursors (request <$> snapshots) cursor = Some pages ->
  StronglySorted (fun a b => order a b = true) (concat pages) /\
  (forall x, x ∈ concat pages ->
     beyond meta cursor x = true /\ may_see x = true /\ exists rows, rows ∈ snapshots /\ x ∈ rows) /\
  (forall x, may_see x = true -> beyond meta cursor x = true -> (forall rows, rows ∈ snapshots -> x ∈ rows) ->
     x ∈ concat pages).
Proof.
  intros Hl. revert cursor pages. induction snapshots as [|rows later IH]; intros cursor pages Hk Hw; [done|].
  apply Forall_cons in Hk as [[Hnd Ht] Hk]. cbn [followCursors fmap list_fmap] in Hw.
  rewrite request_page in Hw by done. set (L := List.filter _ _) in Hw.
  assert (HL : forall x, x ∈ L <-> x ∈ rows /\ may_see x = true /\ beyond meta cursor x = true).
  { intros x. unfold L. rewrite elem_of_bfilter, elem_of_visible. tauto. }
  assert (Hs : StronglySorted (fun a b => order a b = true) L) by (by apply bfilter_sorted, visible_strict).
  destruct (page_of L) as [[page [next|]]|] eqn:Ep; [| |done].
  - apply fmap_Some in Hw as (rest & Hw & ->).
    apply page_of_next in Ep as (before & item & Epage & -> & EL & _); [|done|by intros v [Hv _]%HL; apply Ht].
    destruct (IH _ _ Hk Hw) as (Hsr & Hin & Hall). cbn.
    rewrite EL in Hs. pose proof (StronglySorted_app_1_l _ _ _ Hs) as Hpage.
    assert (Hlast : item ∈ page) by (rewrite Epage; apply elem_of_snoc; by right).
    assert (Hitem : forall x, x ∈ page -> x = item \/ order x item = true).
    { intros x Hx. rewrite Epage in Hx, Hpage. apply elem_of_snoc in Hx as [Hx| ->]; [|by left].
      right. eapply (StronglySorted_app_1_elem_of _ _ _ _ _ Hpage); [done|left]. }
    assert (Hrest : forall y, y ∈ concat rest -> order item y = true).
    { intros y Hy. rewrite <- beyond_order. by destruct (Hin y Hy). }
    split; [|split].
    + apply StronglySorted_app_2; [|done|done]. intros x y Hx Hy. pose proof (Hrest y Hy) as Hiy.
      destruct (Hitem x Hx) as [->|Hxi]; [done|]. by apply (less_trans order x item).
    + intros x [Hx|Hx]%elem_of_app.
      * assert (x ∈ L) as (? & ? & ?)%HL by (rewrite EL; apply elem_of_app; by left). split_and!; [done..|]. exists rows. split; [left|done].
      * destruct (Hin x Hx) as (_ & ? & rows' & ? & ?). split; [|split; [done|exists rows'; split; [by right|done]]].
        assert (item ∈ L) as (_ & _ & Hb)%HL by (rewrite EL; apply elem_of_app; by left).
        apply (beyond_trans cursor item); [done|by apply Hrest].
    + intros x Hsee Hb Hx. apply elem_of_app.
      assert (Hxl : x ∈ L) by (apply HL; split_and!; [apply Hx; left|done|done]).
      rewrite EL in Hxl. apply elem_of_app in Hxl as [Hxl|Hxl]; [by left|]. right.
      apply Hall; [done| |intros r Hr; apply Hx; by right]. rewrite beyond_order.
      eapply (StronglySorted_app_1_elem_of _ _ _ _ _ Hs); [|done]. done.
  - injection Hw as <-. apply page_of_end in Ep as ->; [|done]. cbn. rewrite app_nil_r.
    split; [done|split].
    + intros x (? & ? & ?)%HL. split_and!; [done..|]. exists rows. split; [left|done].
    + intros x ? ? Hx. apply HL. split_and!; [apply Hx; left|done|done].
Qed.

(** a row whose position a cursor can carry *)
Definition cursor_ok (v : T) : Prop :=
  rm_ID (meta v) <> "" /\ len (rm_ID (meta v)) <= 256 /\ rm_UpdatedAt (meta v) <> 0.

Lemma nextCursor_ok v :
  TrimSpace (rm_ID (meta v)) = rm_ID (meta v) -> cursor_ok v -> nextCursor (meta v) = Ok (cursor_of v).
Proof.
  unfold nextCursor. intros -> (Hid & Hlen & Ht). rewrite (bool_decide_eq_false_2 _ Hid).
  rewrite (proj2 (Z.ltb_ge 256 _)), (proj2 (Z.eqb_neq _ 0)) by done. done.
Qed.

(** more rows than a page holds: the page, its last row and the rest *)
Lemma page_of_more (rows : list T) :
  0 < limit -> limit < Z.of_nat (length rows) ->
  (forall v, v ∈ rows -> TrimSpace (rm_ID (meta v)) = rm_ID (meta v) /\ cursor_ok v) ->
  exists before item rest, rows = (before ++ item :: rest)%list /\
    Z.of_nat (length (before ++ [item])%list) = limit /\ page_of rows = Ok ((before ++ [item])%list, Some (cursor_of item)).
Proof.
  intros Hl Hlen Hok. set (page := take (Z.to_nat limit) rows).
  assert (Hpl : Z.of_nat (length page) = limit) by (unfold page; rewrite length_take; lia).
  destruct (last page) as [item|] eqn:El; [|apply last_None in El; rewrite El in Hpl; cbn in Hpl; lia].
  pose proof El as Elast. apply last_Some in El as [before E]. exists before, item, (drop (Z.to_nat limit) rows).
  assert (Erows : rows = (before ++ item :: drop (Z.to_nat limit) rows)%list).
  { rewrite <- (take_drop (Z.to_nat limit) rows) at 1. fold page. rewrite E. by rewrite <- (assoc app). }
  split; [done|]. rewrite <- E. split; [done|].
  unfold page_of. rewrite (proj2 (Z.ltb_lt limit _)) by done. cbn zeta. fold page. rewrite Elast.
  destruct (Hok item) as [Ht Hc]; [rewrite Erows; apply elem_of_app; right; left|]. by rewrite nextCursor_ok.
Qed.

Lemma walk_ends rows L cursor n :
  0 < limit -> well_keyed meta rows -> (forall v, v ∈ L -> cursor_ok v) ->
  List.filter (beyond meta cursor) (visible rows) = L -> (exists pre, visible rows = (pre ++ L)%list) ->
  (1 <= n)%nat -> Z.of_nat (length L) <= Z.of_nat n * limit ->
  exists pages, followCursors (replicate n (request rows)) cursor = Some pages /\ concat pages = L /\
    Forall (fun page => Z.of_nat (length page) <= limit) pages /\
    (Z.of_nat (length pages) - 1) * limit <= Z.of_nat (length L).
Proof.
  intros Hl [Hnd Ht]. revert L cursor. induction n as [|n IH]; intros L cursor Hok HL [pre Hpre] Hn Hlen; [lia|].
  cbn [replicate followCursors]. rewrite request_page, HL by done.
  destruct (decide (limit < Z.of_nat (length L))) as [Hm|Hm].
  - assert (HLrows : forall v, v ∈ L -> v ∈ rows).
    { intros v Hv. apply (elem_of_visible rows v). rewrite Hpre. apply elem_of_app. by right. }
    destruct (page_of_more L) as (before & item & rest & EL & Hpl & Ep); [done..|by auto|].
    rewrite Ep. rewrite length_app in Hpl. cbn in Hpl.
    assert (Hlr : Z.of_nat (length L) = limit + Z.of_nat (length rest)) by (rewrite EL, length_app; cbn; lia).
    destruct (IH rest (Some (cursor_of item))) as (pages & Hw & Hc & Hf & Hp).
    + intros v Hv. apply Hok. rewrite EL. apply elem_of_app. right. by right.
    + rewrite Hpre, EL, (assoc app). erewrite bfilter_ext; [|intros x _; apply beyond_order].
      apply bfilter_after; [apply _|]. rewrite <- (assoc app), <- EL, <- Hpre. by apply visible_strict.
    + exists (pre ++ before ++ [item])%list. rewrite Hpre, EL. by rewrite <- !(assoc app).
    + destruct n; [lia|lia].
    + lia.
    + exists ((before ++ [item])%list :: pages). rewrite Hw. split; [done|]. cbn [concat length].
      rewrite Hc, EL. split; [by rewrite <- (assoc app)|]. rewrite <- EL.
      split; [constructor; [rewrite length_app; cbn; lia|done]|]. lia.
  - unfold page_of. rewrite (proj2 (Z.ltb_ge limit _)) by lia. exists [L]. cbn. rewrite app_nil_r.
    split_and!; [done|done| |lia]. constructor; [lia|constructor].
Qed.
End walks.

(** C31: Paging is complete and ordered while the collection changes.  A client that
    requests page after page, each against the collection as it is at that
    moment, receives rows in strictly descending order of update, hence none
    twice; every row it receives was in the collection and in its scope; and it
    receives every row in its scope that the collection held, unchanged, at each
    of the requests. *)
Theorem page_walks_miss_no_stable_row {T} (project : T -> string) (meta : T -> ResourceMeta)
    projectID allowed all limit (snapshots : list (list T)) pages :
  0 < limit -> Forall (well_keyed meta) snapshots ->
  followCursors (request project meta projectID allowed all limit <$> snapshots) None = Some pages ->
  StronglySorted (fun a b => newestItem meta a b = true) (concat pages) /\
  (forall x, x ∈ concat pages -> may_see project projectID allowed all x = true /\
     exists rows, rows ∈ snapshots /\ x ∈ rows) /\
  (forall x, may_see project projectID allowed all x = true -> (forall rows, rows ∈ snapshots -> x ∈ rows) ->
     x ∈ concat pages).
Proof.
  intros Hl Hk Hw. destruct (walk_spec _ _ _ _ _ _ _ _ _ Hl Hk Hw) as (Hs & Hin & Hall).
  split; [done|]. split; [intros x Hx; by destruct (Hin x Hx)|]. intros x Hsee. by apply Hall.
Qed.

(** C32: Following cursors terminates.  Over a collection that does not change, as
    many requests as are needed to hold its visible rows at [limit] rows a page
    end the walk, with every visible row listed once, newest update first, no
    page above the limit, and no more pages than one for each full limit of rows
    and one more. *)
Theorem page_walks_terminate {T} (project : T -> string) (meta : T -> ResourceMeta)
    projectID allowed all limit (rows : list T) n :
  0 < limit -> well_keyed meta rows -> (forall v, v ∈ rows -> cursor_ok meta v) ->
  (1 <= n)%nat -> Z.of_nat (length (visible project meta projectID allowed all rows)) <= Z.of_nat n * limit ->
  exists pages,
    followCursors (replicate n (request project meta projectID allowed all limit rows)) None = Some pages /\
    concat pages = visible project meta projectID allowed all rows /\
    Forall (fun page => Z.of_nat (length page) <= limit) pages /\
    (Z.of_nat (length pages) - 1) * limit <= Z.of_nat (length (visible project meta projectID allowed all rows)).
Proof.
  intros Hl Hk Hok Hn Hlen. apply walk_ends; try done.
  - intros v [Hv _]%elem_of_visible. by apply Hok.
  - by apply bfilter_all.
  - by exists [].
Qed.

(** ** Collections without a page function *)

Lemma elem_of_boolSetIDs x (allowed : gset string) :
  x ∈ boolSetIDs allowed <-> x ∈ allowed /\ TrimSpace x <> "".
Proof.
  unfold boolSetIDs. rewrite elem_of_bfilter, elem_of_elements, negb_true_iff, bool_decide_eq_false. done.
Qed.

Lemma scope_agrees projectID (allowed : gset string) all x :
  TrimSpace x <> "" ->
  let '(ids, idsAll, filterAllowed) := requestScope projectID allowed all in
  projectAllowed x ids idsAll = idsAll || bool_decide (x ∈ filterAllowed).
Proof.
  intros Hx. unfold requestScope, projectAllowed. destruct (negb (TrimSpace projectID == "")).
  - cbn. rewrite orb_false_r. apply bool_decide_ext. set_solver.
  - f_equal. destruct (bool_decide (x ∈ allowed)) eqn:Ea.
    + apply bool_decide_eq_true in Ea. apply existsb_exists. exists x. split; [|by apply bool_decide_eq_true].
      apply list_elem_of_In, elem_of_boolSetIDs. done.
    + apply bool_decide_eq_false in Ea. apply not_true_iff_false. intros (y & Hy & Exy)%existsb_exists.
      apply bool_decide_eq_true in Exy as ->. by apply list_elem_of_In, elem_of_boolSetIDs in Hy as [? _].
Qed.

(** A collection served without a page function gives the pages its page
    function would give: the same rows and the same next cursor for every scope,
    cursor and limit. *)
Theorem collection_pages_agree {T} (project : T -> string) (meta : T -> ResourceMeta)
    projectID allowed all limit (rows : list T) cursor :
  0 < limit -> well_keyed meta rows -> (forall v, v ∈ rows -> TrimSpace (project v) <> "") ->
  boundedProjectCollection project meta projectID allowed all (inr rows) limit cursor =
  boundedProjectCollection project meta projectID allowed all (inl (filterProjectNewest project meta rows)) limit cursor.
Proof.
  intros Hl [Hnd _] Hp. pose proof (fun v Hv => scope_agrees projectID allowed all (project v) (Hp v Hv)) as Hsc.
  unfold boundedProjectCollection. destruct (requestScope projectID allowed all) as [[ids idsAll] scope].
  assert (E : boundedCollectionWindow meta (filterProjectScoped project rows scope idsAll) cursor (limit + 1) =
              filterProjectNewest project meta rows ids idsAll cursor (limit + 1)); [|by rewrite E].
  unfold boundedCollectionWindow, filterProjectNewest, boundedNewest. f_equal.
  rewrite bfilter_and, <- (sort_filter meta (beyond meta cursor)).
  - unfold filterProjectScoped. f_equal. f_equal. destruct idsAll.
    + symmetry. by apply bfilter_all.
    + apply bfilter_ext. intros v Hv. by rewrite (Hsc v Hv).
  - clear Hsc. revert Hnd. unfold filterProjectScoped. destruct idsAll; [done|].
    induction rows as [|a rows IH]; [done|]. cbn. intros [Ha Hnd]%NoDup_cons.
    specialize (IH (fun v Hv => Hp v (list_elem_of_further _ _ _ Hv)) Hnd).
    case_bool_decide; [|done]. cbn. apply NoDup_cons. split; [|done]. intros (v & Ev & [Hv _]%elem_of_bfilter)%list_elem_of_fmap.
    apply Ha, list_elem_of_fmap. by exists v.
Qed.

(** ** Isolation of scopes *)

#[export] Instance chronology_order {V} (meta : V -> ResourceMeta) : WeakOrder (newestChronology meta).
Proof. unfold newestChronology. apply _. Qed.

Lemma chronology_key {V} (meta : V -> ResourceMeta) a b :
  newestChronology meta a b = false -> newestChronology meta b a = false -> rm_ID (meta a) = rm_ID (meta b).
Proof.
  unfold newestChronology, lexi, on. repeat case_bool_decide; try congruence.
  - intros. by apply string_gt_linear.
  - intros. exfalso. assert (rm_CreatedAt (meta a) = rm_CreatedAt (meta b)); [by apply later_linear|done].
  - intros. exfalso. assert (rm_UpdatedAt (meta a) = rm_UpdatedAt (meta b)); [by apply later_linear|done].
Qed.

(** the page of a collection depends only on the values that pass its test *)
Lemma chronology_agree {V} (meta : V -> ResourceMeta) keep limit (m m' : gmap string V) :
  (forall k v, m !! k = Some v -> rm_ID (meta v) = k) ->
  (forall k v, keep v = true -> m !! k = Some v <-> m' !! k = Some v) ->
  first_of (newestChronology meta) limit (map_select (fun _ => keep) m) =
  first_of (newestChronology meta) limit (map_select (fun _ => keep) m').
Proof.
  intros Hk Ha. unfold first_of. f_equal. apply sortSlice_canonical; [apply _|by apply map_select_agree|].
  intros a b (k & Hka & _)%elem_of_map_select (k' & Hkb & _)%elem_of_map_select H1 H2.
  pose proof (chronology_key _ _ _ H1 H2) as E. rewrite (Hk _ _ Hka), (Hk _ _ Hkb) in E. congruence.
Qed.

(** two stores with the same operations in the projects [P], and the same
    evidence of those operations *)
Record same_scope (P : gset string) (s s' : MemoryStore) : Prop := {
  scope_operations id op : op_ProjectID op ∈ P ->
    ms_operations s !! id = Some op <-> ms_operations s' !! id = Some op;
  scope_evidence id op k ev : ms_operations s !! id = Some op -> op_ProjectID op ∈ P -> ev_OperationID ev = id ->
    ms_evidence s !! k = Some ev <-> ms_evidence s' !! k = Some ev
}.

Lemma same_scope_sym P s s' : same_scope P s s' -> same_scope P s' s.
Proof.
  intros [H1 H2]. split; [intros id op ?; by rewrite H1|]. intros id op k ev Hop HP Hev.
  apply H1 in Hop; [|done]. by rewrite (H2 id op).
Qed.

Lemma scope_ids o o' P s s' projectID :
  reachable o s -> reachable o' s' -> same_scope P s s' -> projectID ∈ P ->
  forall id : string,
    id ∈ (list_to_set ((fun op => rm_ID (op_Meta op))
           <$> map_select (fun _ op => op_ProjectID op == projectID) (ms_operations s)) : gset string) <->
    exists op, ms_operations s !! id = Some op /\ ms_operations s' !! id = Some op /\ op_ProjectID op = projectID.
Proof.
  intros Hr Hr' Hs HP id. rewrite elem_of_list_to_set, list_elem_of_fmap. split.
  - intros (op & -> & (k & Hk & Hp)%elem_of_map_select). apply bool_decide_eq_true in Hp.
    destruct (ops_filed _ (inv_ids _ _ (reachable_inv _ _ Hr)) _ _ Hk) as [<- _].
    exists op. split_and!; [done| |done]. apply (scope_operations _ _ _ Hs); [by rewrite Hp|done].
  - intros (op & Hop & _ & Hp). exists op. split.
    + by destruct (ops_filed _ (inv_ids _ _ (reachable_inv _ _ Hr)) _ _ Hop) as [<- _].
    + apply elem_of_map_select. exists id. split; [done|]. by apply bool_decide_eq_true.
Qed.

(** Pages are isolated between projects.  In two stores the engine can reach
    that agree on the operations of some projects and on the evidence of those
    operations, the page of operations scoped to these projects and the page of
    evidence of each of them are the same, whatever work, of whatever age and
    amount, the other projects have in either store: unrelated activity neither
    shows up in a scoped page nor evicts a row from it. *)
Theorem scoped_pages_are_isolated o o' s s' projectIDs limit :
  reachable o s -> reachable o' s' -> same_scope (scopeSet projectIDs) s s' ->
  (ListOperationsPageByProjects projectIDs limit s).2 = (ListOperationsPageByProjects projectIDs limit s').2 /\
  forall projectID, TrimSpace projectID ∈ scopeSet projectIDs ->
    (ListEvidencePageByProject projectID limit s).2 = (ListEvidencePageByProject projectID limit s').2.
Proof.
  intros Hr Hr' Hs. pose proof (inv_ids _ _ (reachable_inv _ _ Hr)) as Hi. split.
  - unfold ListOperationsPageByProjects, listOperationsPageLocked, bind, get, ret. case_bool_decide; [done|].
    cbn. f_equal. apply (chronology_agree op_Meta).
    + intros k op Hk. by destruct (ops_filed _ Hi _ _ Hk).
    + intros k op Hkeep. apply (scope_operations _ _ _ Hs). cbn in Hkeep.
      rewrite negb_involutive, andb_true_iff, bool_decide_eq_true in Hkeep. by destruct Hkeep.
  - intros projectID HP. unfold ListEvidencePageByProject, bind, get, ret. case_bool_decide; [done|]. cbn. f_equal.
    assert (E : (list_to_set ((fun op => rm_ID (op_Meta op))
        <$> map_select (fun _ op => op_ProjectID op == TrimSpace projectID) (ms_operations s)) : gset string) =
      list_to_set ((fun op => rm_ID (op_Meta op))
        <$> map_select (fun _ op => op_ProjectID op == TrimSpace projectID) (ms_operations s'))).
    { apply set_eq. intros id. rewrite (scope_ids _ _ _ _ _ _ Hr Hr' Hs HP), (scope_ids _ _ _ _ _ _ Hr' Hr (same_scope_sym _ _ _ Hs) HP).
      split; intros (op & ? & ? & ?); eauto. }
    rewrite <- E. apply (chronology_agree ev_Meta).
    + intros k ev Hk. by apply (evidence_keyed _ Hi).
    + intros k ev Hkeep. apply bool_decide_eq_true in Hkeep.
      apply (scope_ids o o' _ s s' _ Hr Hr' Hs HP) in Hkeep as (op & Hop & _ & Hp).
      eapply (scope_evidence _ _ _ Hs); [done|by rewrite Hp|done].
Qed.

(** ** Worker queues *)

#[export] Instance queue_order : WeakOrder queueOrder.
Proof. unfold queueOrder. apply _. Qed.

(** no other worker holds a lease on the operation that is still running *)
Definition lease_free (op : Operation) (worker : string) (at_ : Time) : Prop :=
  after (op_LeaseExpiresAt op) at_ && (TrimSpace (op_LeaseOwner op) != TrimSpace worker) = false.

Lemma eligible_cases at_ op :
  workerEligible at_ op = true ->
  op_State op = OperationQueued \/
  (op_State op = OperationRetryWait /\ exists t, op_NextAttemptAt op = Some t /\ t <= at_) \/
  op_State op = OperationRunning.
Proof.
  unfold workerEligible. rewrite !orb_true_iff, !andb_true_iff, !bool_decide_eq_true.
  intros [[?|[? H]]|[? _]]; [by left| |by right; right]. right; left. split; [done|].
  destruct (op_NextAttemptAt op) as [t|]; [|done]. exists t. split; [done|]. norm_bool. done.
Qed.

Lemma eligible_claims s op id worker ttl at_ :
  ms_operations s !! id = Some op -> workerEligible at_ op = true -> lease_free op worker at_ ->
  TrimSpace worker <> "" -> 0 < ttl ->
  wp (ClaimOperation id worker ttl at_) (fun r s' => exists claim, r = Ok claim) s.
Proof.
  intros Hop He Hf Hw Ht. unfold ClaimOperation, putOperation. unfold lease_free in Hf. cbn zeta.
  wp_pass ltac:(rewrite bool_decide_eq_false_2 by done; lia). apply wp_bind_get.
  eapply wp_bind_found; [exact Hop|].
  apply eligible_cases in He as [Hs|[(Hs & t & Hn & Ht')|Hs]]; rewrite Hs.
  2: { rewrite bool_decide_eq_true_2 by done. apply wp_bind_assoc.
       wp_pass ltac:(rewrite Hn; by apply Z.ltb_ge).
       repeat lazymatch goal with |- wp (bind (fail_if _ _) _) _ _ => fail | _ => wp_step end.
       wp_pass ltac:(done). wp_pass ltac:(exact Hf). wp_go. eauto. }
  all: rewrite bool_decide_eq_false_2 by done; apply wp_bind_ret; wp_pass ltac:(by rewrite Hs).
  all: wp_pass ltac:(exact Hf); wp_go; eauto.
Qed.

Lemma guarded_list {S A} b e (f : S -> A) (s : S) a :
  ((fail_if b e ;;; let! s := get in ret (f s)) s).2 = Ok a -> b = false /\ a = f s.
Proof. destruct b; cbn; [done|]. by intros [= <-]. Qed.

(** The worker queues offer claimable work and withhold none.  An operation that
    [ListClaimableOperationsByKind], or its variant for a target prefix, lists at
    an instant is of the requested kind, and a claim of it at that instant
    succeeds for any worker, unless another worker's lease on it is still
    running; an operation of the kind that is due and not listed comes, in the
    order of due times, after every listed one, and the list is full. *)
Theorem worker_queues_offer_claimable_work o s kind prefix limit at_ ops worker ttl :
  reachable o s -> TrimSpace worker <> "" -> 0 < ttl ->
  (ListClaimableOperationsByKind kind at_ limit s).2 = Ok ops \/
  (ListClaimableOperationsByKindTargetPrefix kind prefix at_ limit s).2 = Ok ops ->
  (forall op, op ∈ ops -> op_Kind op = TrimSpace kind /\
     (lease_free op worker at_ -> exists claim, (ClaimOperation (op_ID op) worker ttl at_ s).2 = Ok claim)) /\
  (forall id op, ms_operations s !! id = Some op -> op_Kind op = TrimSpace kind ->
     HasPrefix (op_TargetRef op) (TrimSpace prefix) = true -> workerEligible at_ op = true ->
     op ∈ ops \/ (Z.of_nat (length ops) = limit /\ forall listed, listed ∈ ops -> queueOrder op listed = false)).
Proof.
  intros Hr Hw Ht Hl. pose proof (inv_ids _ _ (reachable_inv _ _ Hr)) as Hi.
  assert (exists keep, 0 <= limit /\ ops = first_of queueOrder limit (map_select (fun _ => keep) (ms_operations s)) /\
    (forall op, keep op = true -> op_Kind op = TrimSpace kind /\ workerEligible at_ op = true) /\
    (forall op, op_Kind op = TrimSpace kind -> HasPrefix (op_TargetRef op) (TrimSpace prefix) = true ->
       workerEligible at_ op = true -> keep op = true)) as (keep & Hlim & -> & Hkeep & Hall).
  { destruct Hl as [H|H]; apply guarded_list in H as [Hg ->]; eexists; (split; [lia|]); (split; [done|]);
      split; intros op; rewrite ?andb_true_iff, ?negb_true_iff, ?orb_false_iff, ?negb_false_iff, ?bool_decide_eq_true; tauto. }
  split.
  - intros op Hop. unfold first_of in Hop. rewrite truncateTo_take in Hop.
    assert (Hin : op ∈ map_select (fun _ => keep) (ms_operations s)).
    { apply (elem_of_sortSlice queueOrder). rewrite <- (take_drop (Z.to_nat limit) (sortSlice _ _)).
      apply elem_of_app. by left. }
    apply elem_of_map_select in Hin as (id & Hid & Hk). apply Hkeep in Hk as [? He]. split; [done|]. intros Hf.
    destruct (ops_filed _ Hi _ _ Hid) as [-> _]. by apply (eligible_claims s op).
  - intros id op Hop Hkd Hp He. apply first_of_complete; [apply _|done|]. apply elem_of_map_select. exists id. auto.
Qed.

(** ** Witnesses *)

Definition row (id : string) (at_ : Time) : ManagedCluster := demo_cluster <| mc_Meta := mkResourceMeta id 1 0 at_ |>.
Definition rows_first : list ManagedCluster := [row "c1" 30; row "c2" 50; row "c3" 40].
(** the cluster [c3] is updated between the first page and the second *)
Definition rows_second : list ManagedCluster := [row "c1" 30; row "c2" 50; row "c3" 60].

Ltac by_rows := let v := fresh "v" in let Hv := fresh "Hv" in
  intros v Hv; repeat (apply elem_of_cons in Hv as [->|Hv]; [by vm_compute|]); by apply elem_of_nil in Hv.
Lemma rows_first_keyed : well_keyed mc_Meta rows_first.
Proof. split; [apply (bool_decide_unpack _); vm_compute; exact I|by_rows]. Qed.
Lemma rows_second_keyed : well_keyed mc_Meta rows_second.
Proof. split; [apply (bool_decide_unpack _); vm_compute; exact I|by_rows]. Qed.

Lemma snapshots_keyed : Forall (well_keyed mc_Meta) [rows_first; rows_second].
Proof.
  apply Forall_cons. split; [apply rows_first_keyed|].
  apply Forall_cons. split; [apply rows_second_keyed|]. constructor.
Qed.

Lemma page_walks_miss_no_stable_row_witness :
  followCursors (request mc_ProjectID mc_Meta "p" ∅ false 1 <$> [rows_first; rows_second]) None =
    Some [[row "c2" 50]; [row "c1" 30]] /\
  row "c1" 30 ∈ concat [[row "c2" 50]; [row "c1" 30]].
Proof.
  assert (E : followCursors (request mc_ProjectID mc_Meta "p" ∅ false 1 <$> [rows_first; rows_second]) None =
    Some [[row "c2" 50]; [row "c1" 30]]) by (vm_compute; reflexivity).
  split; [exact E|].
  destruct (page_walks_miss_no_stable_row mc_ProjectID mc_Meta "p" ∅ false 1 [rows_first; rows_second] _ eq_refl
    snapshots_keyed E) as (_ & _ & H).
  apply H; [vm_compute; reflexivity|]. intros rows Hrows.
  apply elem_of_cons in Hrows as [->|Hrows]; [left|]. apply list_elem_of_singleton in Hrows as ->. left.
Defined.

Lemma page_walks_terminate_witness :
  exists pages, followCursors (replicate 2 (request mc_ProjectID mc_Meta "" {["p"]} false 2 rows_first)) None = Some pages /\
    concat pages = [row "c2" 50; row "c3" 40; row "c1" 30].
Proof.
  destruct (page_walks_terminate mc_ProjectID mc_Meta "" {["p"]} false 2 rows_first 2) as (pages & Hw & Hc & _).
  - reflexivity.
  - exact rows_first_keyed.
  - intros v Hv. repeat (apply elem_of_cons in Hv as [->|Hv]; [repeat split; vm_compute; discriminate|]). by apply elem_of_nil in Hv.
  - lia.
  - vm_compute. discriminate.
  - exists pages. split; [exact Hw|]. rewrite Hc. vm_compute. reflexivity.
Defined.

Lemma collection_pages_agree_witness :
  boundedProjectCollection mc_ProjectID mc_Meta "" {["p"]} false (inr rows_first) 2 None =
  Ok ([row "c2" 50; row "c3" 40], Some (mkCollectionCursor 40 "c3")).
Proof.
  rewrite (collection_pages_agree mc_ProjectID mc_Meta "" {["p"]} false 2 rows_first None).
  - vm_compute. reflexivity.
  - reflexivity.
  - exact rows_first_keyed.
  - by_rows.
Defined.

(** two projects; the second one has work of its own in one of the stores *)
Definition two_projects : MemoryStore :=
  demo0 <| ms_projects := {["p" := demo_project; "q" := demo_project <| prj_Meta := newMeta "q" 0 |>]} |>.
Definition quiet : MemoryStore := run demo_running two_projects.
Definition other_request : OperationRequest :=
  mkOperationRequest "q" "release.apply" "cluster:c" "rev-1" "low" "" "".
Definition busy : MemoryStore := run [CCreateOperation other_request "other" "bob" "req-2"] quiet.

Lemma two_projects_reachable : reachable false two_projects.
Proof.
  destruct (demo0_reachable false) as (now & id & Hid & Hr). exists now, id. split; [exact Hid|].
  eapply rtc_r; [exact Hr|]. apply step_env. split; [done|]. by apply frame_same.
Qed.
Lemma quiet_reachable : reachable false quiet.
Proof. apply run_reachable; [demo_calls|apply two_projects_reachable]. Qed.
Lemma busy_reachable : reachable false busy.
Proof. apply run_reachable; [demo_calls|apply quiet_reachable]. Qed.

(** operations of other projects do not matter *)
Lemma same_scope_added P s s' k added :
  ms_operations s' = <[k := added]> (ms_operations s) -> ms_operations s !! k = None ->
  op_ProjectID added ∉ P -> ms_evidence s' = ms_evidence s -> same_scope P s s'.
Proof.
  intros Ho Hk HP He. split; [|intros; by rewrite He].
  intros id op Hp. rewrite Ho. destruct (decide (id = k)) as [->|Hn]; [|by rewrite lookup_insert_ne].
  rewrite lookup_insert_eq, Hk. split; [done|]. intros [= ->]. done.
Qed.

Definition other_op : string := "iiiiiiiiii-op".
Definition other_operation : option Operation := ms_operations busy !! other_op.

Lemma some_fmap {A B} (f : A -> B) x y : Some y = f <$> Some x -> y = f x.
Proof. by intros [= ->]. Qed.

Lemma busy_same_scope : same_scope (scopeSet ["p"]) quiet busy.
Proof.
  destruct other_operation as [added|] eqn:E; [|vm_compute in E; discriminate].
  apply (same_scope_added _ _ _ other_op added).
  - assert (H : Some (ms_operations busy) = (fun a => <[other_op := a]> (ms_operations quiet)) <$> other_operation)
      by (vm_compute; reflexivity).
    rewrite E in H. exact (some_fmap _ _ _ H).
  - vm_compute. reflexivity.
  - assert (H : Some "q" = op_ProjectID <$> other_operation) by (vm_compute; reflexivity).
    rewrite E in H. apply some_fmap in H as <-. apply (bool_decide_eq_false_1 ("q" ∈ scopeSet ["p"])). vm_compute. reflexivity.
  - vm_compute. reflexivity.
Qed.

Lemma scoped_pages_are_isolated_witness :
  op_ProjectID <$> other_operation = Some "q" /\
  (ListOperationsPageByProjects ["p"] 1 quiet).2 = (ListOperationsPageByProjects ["p"] 1 busy).2.
Proof.
  split; [vm_compute; reflexivity|].
  exact (proj1 (scoped_pages_are_isolated false false quiet busy ["p"] 1 quiet_reachable busy_reachable busy_same_scope)).
Defined.

(** a store with one queued operation *)
Definition waiting : MemoryStore := run demo_queued demo0.

Lemma worker_queues_offer_claimable_work_witness :
  exists op, (ListClaimableOperationsByKind "release.apply" 0 10 waiting).2 = Ok [op] /\
    exists claim, (ClaimOperation (op_ID op) "w" demo_ttl 0 waiting).2 = Ok claim.
Proof.
  destruct (ListClaimableOperationsByKind "release.apply" 0 10 waiting).2 as [[|op [|]]|] eqn:E;
    try (exfalso; vm_compute in E; discriminate).
  exists op. split; [reflexivity|].
  destruct (worker_queues_offer_claimable_work false waiting "release.apply" "cluster" 10 0 [op] "w" demo_ttl) as [H _].
  - apply demo_reachable. vm_compute. reflexivity.
  - vm_compute. discriminate.
  - reflexivity.
  - left. exact E.
  - apply (H op); [left|].
    assert (Hl : op_LeaseExpiresAt op = None).
    { assert (E' : match (ListClaimableOperationsByKind "release.apply" 0 10 waiting).2 with
                   | Ok [op] => op_LeaseExpiresAt op | _ => Some 0 end = None) by (vm_compute; reflexivity).
      by rewrite E in E'. }
    unfold lease_free. rewrite Hl. reflexivity.
Defined.
