(* ===== verification/Catalog.v ===== *)
(** * Catalog governance

    [internal/controlplane/catalog_governance_store.go]: trust keys, immutable
    catalog revisions, and catalog releases that move through
    DRAFT, REVIEW, PUBLISHED, DEPRECATED and REVOKED under an Ed25519 signature.
    Signature verification itself ([ed25519.Verify]) is the parameter [Verify]
    of every operation that uses it. *)
From S2P Require Import Prelude GoStrings Digest Encoding Model Store Organizations.

Definition validSHA256 (value : string) : bool :=
  let value := TrimSpace value in
  negb ((len value != 7 + 64) || negb (HasPrefix value sha256_prefix))
  && hex_decodable (TrimPrefix value sha256_prefix).

Definition digestPayload (raw : Bytes) : string := sha256Digest raw.

Definition catalogChannelValid (channel : CatalogChannel) : bool :=
  (channel == CatalogChannelCandidate) || (channel == CatalogChannelRender)
  || (channel == CatalogChannelRuntime) || (channel == CatalogChannelProduction).

Definition nextCatalogChannel (channel : CatalogChannel) : CatalogChannel :=
  if channel == CatalogChannelCandidate then CatalogChannelRender
  else if channel == CatalogChannelRender then CatalogChannelRuntime
  else if channel == CatalogChannelRuntime then CatalogChannelProduction
  else "".

(** a [to] outside the five states is refused like any other it does not list *)
Definition validCatalogTransition (from to : CatalogLifecycleState) : bool :=
  match from with
  | CatalogDraft => to == CatalogReview
  | CatalogReview => (to == CatalogDraft) || (to == CatalogPublished)
  | CatalogPublished => (to == CatalogDeprecated) || (to == CatalogRevoked)
  | CatalogDeprecated => to == CatalogRevoked
  | CatalogRevoked => false
  end.

(** ** Signatures *)

(** [json.Marshal(catalogSignatureEnvelope{...})] *)
Definition CatalogSignaturePayload (release : CatalogRelease) : Bytes :=
  json_object (
    [("schema", json_string "platform.4so.io/catalog-release-signature/v1")]
    ++ json_opt "organizationId" (TrimSpace (cr_OrganizationID release))
    ++ [("catalogName", json_string (normalizeName (cr_CatalogName release)));
        ("catalogVersion", json_string (TrimSpace (cr_CatalogVersion release)));
        ("visibility", json_string (cr_Visibility release));
        ("channel", json_string (cr_Channel release));
        ("manifestDigest", json_string (TrimSpace (cr_ManifestDigest release)))]
    ++ json_opt "sourceReleaseId" (TrimSpace (cr_SourceReleaseID release))
    ++ [("currentRevisionId", json_string (TrimSpace (cr_CurrentRevisionID release)))])%list.

Definition PublicKeySize : Z := 32.
Definition SignatureSize : Z := 64.

(** decoded key of the right size, or the error of [CatalogKeyFingerprint] *)
Definition CatalogKeyFingerprint (publicKeyBase64 : string) : result string :=
  match base64Decode (TrimSpace publicKeyBase64) with
  | Some publicKey => if len publicKey == PublicKeySize then Ok (sha256Digest publicKey) else Fail ErrValidation
  | None => Fail ErrValidation
  end.

Section signatures.
Variable Verify : Bytes -> Bytes -> Bytes -> bool.

Definition VerifyCatalogReleaseSignature (release : CatalogRelease) (key : CatalogTrustKey) : result unit :=
  if ck_State key != CatalogTrustKeyActive then Fail ErrValidation
  else if ToLower (TrimSpace (ck_Algorithm key)) != "ed25519" then Fail ErrValidation
  else if (cr_Visibility release == CatalogVisibilityPlatform) && (TrimSpace (ck_OrganizationID key) != "")
    then Fail ErrValidation
  else if (cr_Visibility release == CatalogVisibilityPrivate) && (TrimSpace (ck_OrganizationID key) != "")
          && (TrimSpace (ck_OrganizationID key) != TrimSpace (cr_OrganizationID release))
    then Fail ErrValidation
  else match CatalogKeyFingerprint (ck_PublicKey key) with
  | Fail e => Fail e
  | Ok fingerprint =>
      if (fingerprint != TrimSpace (ck_Fingerprint key))
         || (fingerprint != TrimSpace (cr_SigningKeyFingerprint release))
         || (rm_ID (ck_Meta key) != TrimSpace (cr_SigningKeyID release)) then Fail ErrValidation
      else match base64Decode (TrimSpace (cr_Signature release)) with
      | None => Fail ErrValidation
      | Some signature =>
          if len signature != SignatureSize then Fail ErrValidation
          else if negb (Verify (default "" (base64Decode (TrimSpace (ck_PublicKey key))))
                          (CatalogSignaturePayload release) signature) then Fail ErrValidation
          else Ok tt
      end
  end.

(** ** Trust keys *)

Definition CreateCatalogTrustKey (key : CatalogTrustKey) (actor : string) : Store CatalogTrustKey :=
  let key := key <| ck_OrganizationID := TrimSpace (ck_OrganizationID key) |>
                 <| ck_Name := normalizeName (ck_Name key) |> in
  fail_if ((ck_Name key == "") || (TrimSpace actor == "")) ErrValidation ;;;
  let! s := get in
  fail_if ((ck_OrganizationID key != "")
           && bool_decide (ms_organizations s !! ck_OrganizationID key = None)) ErrNotFound ;;;
  let key := key <| ck_Algorithm := "Ed25519" |> in
  let! fingerprint := lift (CatalogKeyFingerprint (ck_PublicKey key)) in
  fail_if (map_any (fun _ current => (ck_OrganizationID current == ck_OrganizationID key)
             && ((ck_Fingerprint current == fingerprint) || (ck_Name current == ck_Name key)))
             (ms_catalogTrustKeys s)) ErrDuplicateName ;;;
  let! now := nowUTC in
  let! id := newID "ctk" in
  let key := key <| ck_Meta := newMeta id now |> <| ck_Fingerprint := fingerprint |>
                 <| ck_State := CatalogTrustKeyActive |> <| ck_CreatedBy := TrimSpace actor |> in
  putCatalogTrustKey id key ;;;
  appendAuditLocked actor "catalog_trust_key.created" "catalogTrustKey" id 1
    [("organizationId", MStr (ck_OrganizationID key)); ("fingerprint", MStr fingerprint)] ;;;
  appendOutboxLocked "catalogTrustKey" id "catalog_trust_key.created" (PayloadCatalogTrustKey key) ;;;
  ret key.

Definition GetCatalogTrustKey (id : string) : Store CatalogTrustKey :=
  let! s := get in get_opt (ms_catalogTrustKeys s !! id) ErrNotFound.

Definition RevokeCatalogTrustKey (id : string) (expected : Z) (actor : string) : Store CatalogTrustKey :=
  let! s := get in
  let! current := get_opt (ms_catalogTrustKeys s !! id) ErrNotFound in
  fail_if (rm_Revision (ck_Meta current) != expected) ErrConflict ;;;
  if ck_State current == CatalogTrustKeyRevoked then ret current else
  let! now := nowUTC in
  let current := current <| ck_State := CatalogTrustKeyRevoked |> <| ck_RevokedBy := TrimSpace actor |>
                   <| ck_RevokedAt := Some now |> <| ck_Meta := bump (ck_Meta current) now |> in
  putCatalogTrustKey id current ;;;
  appendAuditLocked actor "catalog_trust_key.revoked" "catalogTrustKey" id (rm_Revision (ck_Meta current))
    [("fingerprint", MStr (ck_Fingerprint current))] ;;;
  appendOutboxLocked "catalogTrustKey" id "catalog_trust_key.revoked" (PayloadCatalogTrustKey current) ;;;
  ret current.

(** ** Revisions *)

Definition sameCatalogRevision (revision current : CatalogRevision) : bool :=
  (cv_OrganizationID current == cv_OrganizationID revision) && (cv_CatalogName current == cv_CatalogName revision)
  && (cv_CatalogVersion current == cv_CatalogVersion revision)
  && (cv_ManifestDigest current == cv_ManifestDigest revision).

(** the revision to use and whether the store has it already *)
Definition prepareCatalogRevisionLocked (revision : CatalogRevision) : Store (CatalogRevision * bool) :=
  let revision := revision <| cv_OrganizationID := TrimSpace (cv_OrganizationID revision) |>
                    <| cv_CatalogName := normalizeName (cv_CatalogName revision) |>
                    <| cv_CatalogVersion := TrimSpace (cv_CatalogVersion revision) |> in
  let! s := get in
  fail_if ((cv_OrganizationID revision != "")
           && bool_decide (ms_organizations s !! cv_OrganizationID revision = None)) ErrNotFound ;;;
  fail_if ((cv_CatalogName revision == "") || (cv_CatalogVersion revision == "") || (len (cv_Payload revision) == 0)
           || negb (JSON.Valid (cv_Payload revision)) || negb (validSHA256 (cv_ManifestDigest revision))) ErrValidation ;;;
  fail_if (digestPayload (cv_Payload revision) != cv_ManifestDigest revision) ErrValidation ;;;
  match map_find (fun _ current => sameCatalogRevision revision current) (ms_catalogRevisions s) with
  | Some (_, current) => ret (current, true)
  | None =>
      let! now := nowUTC in
      let! id := newID "ctr" in
      ret (revision <| cv_Meta := newMeta id now |>, false)
  end.

Definition commitCatalogRevisionLocked (revision : CatalogRevision) (actor : string) : Store unit :=
  let id := rm_ID (cv_Meta revision) in
  putCatalogRevision id revision ;;;
  appendAuditLocked actor "catalog_revision.created" "catalogRevision" id 1
    [("organizationId", MStr (cv_OrganizationID revision)); ("manifestDigest", MStr (cv_ManifestDigest revision))] ;;;
  appendOutboxLocked "catalogRevision" id "catalog_revision.created" (PayloadCatalogRevision revision).

Definition CreateCatalogRevision (revision : CatalogRevision) (actor : string) : Store CatalogRevision :=
  let! (prepared, existing) := prepareCatalogRevisionLocked revision in
  when (negb existing) (commitCatalogRevisionLocked prepared actor) ;;;
  ret prepared.

Definition GetCatalogRevision (id : string) : Store CatalogRevision :=
  let! s := get in get_opt (ms_catalogRevisions s !! id) ErrNotFound.

(** ** Releases *)

Definition unsigned (release : CatalogRelease) : CatalogRelease :=
  release <| cr_SigningKeyID := "" |> <| cr_SigningKeyFingerprint := "" |> <| cr_Signature := "" |>.

Definition promotableFrom (source release : CatalogRelease) : bool :=
  negb ((cr_OrganizationID source != cr_OrganizationID release) || (cr_CatalogName source != cr_CatalogName release)
        || (cr_CatalogVersion source != cr_CatalogVersion release)
        || ((cr_State source != CatalogPublished) && (cr_State source != CatalogDeprecated))
        || (nextCatalogChannel (cr_Channel source) != cr_Channel release)
        || (cr_ManifestDigest source != cr_ManifestDigest release)).

Definition sameCatalogRelease (release current : CatalogRelease) : bool :=
  (cr_OrganizationID current == cr_OrganizationID release) && (cr_CatalogName current == cr_CatalogName release)
  && (cr_CatalogVersion current == cr_CatalogVersion release) && (cr_Channel current == cr_Channel release).

Definition prepareCatalogReleaseLocked (release : CatalogRelease) (revision : CatalogRevision) (actor : string)
    : Store CatalogRelease :=
  let release := release <| cr_OrganizationID := TrimSpace (cr_OrganizationID release) |>
                   <| cr_CatalogName := normalizeName (cr_CatalogName release) |>
                   <| cr_CatalogVersion := TrimSpace (cr_CatalogVersion release) |>
                   <| cr_SourceReleaseID := TrimSpace (cr_SourceReleaseID release) |> in
  fail_if ((cr_CatalogName release == "") || (cr_CatalogVersion release == "") || (cr_CurrentRevisionID release == "")
           || negb (validSHA256 (cr_ManifestDigest release)) || negb (catalogChannelValid (cr_Channel release))
           || (TrimSpace actor == "")) ErrValidation ;;;
  fail_if (((cr_Visibility release == CatalogVisibilityPrivate) && (cr_OrganizationID release == ""))
           || ((cr_Visibility release == CatalogVisibilityPlatform) && (cr_OrganizationID release != ""))
           || ((cr_Visibility release != CatalogVisibilityPrivate)
               && (cr_Visibility release != CatalogVisibilityPlatform))) ErrValidation ;;;
  let! s := get in
  fail_if ((cr_OrganizationID release != "")
           && bool_decide (ms_organizations s !! cr_OrganizationID release = None)) ErrNotFound ;;;
  fail_if ((cv_OrganizationID revision != cr_OrganizationID release)
           || (cv_CatalogName revision != cr_CatalogName release)
           || (cv_CatalogVersion revision != cr_CatalogVersion release)
           || (cv_ManifestDigest revision != cr_ManifestDigest release)) ErrValidation ;;;
  fail_if (map_any (fun _ current => sameCatalogRelease release current) (ms_catalogReleases s)) ErrDuplicateName ;;;
  when (cr_SourceReleaseID release != "")
    (let! source := get_opt (ms_catalogReleases s !! cr_SourceReleaseID release) ErrNotFound in
     fail_if (negb (promotableFrom source release)) ErrValidation) ;;;
  let! now := nowUTC in
  let! id := newID "ctl" in
  ret (unsigned (release <| cr_Meta := newMeta id now |> <| cr_State := CatalogDraft |>
                   <| cr_RequestedBy := TrimSpace actor |>)).

Definition commitCatalogReleaseLocked (release : CatalogRelease) (actor : string) : Store unit :=
  let id := rm_ID (cr_Meta release) in
  putCatalogRelease id release ;;;
  appendAuditLocked actor "catalog_release.created" "catalogRelease" id 1
    [("organizationId", MStr (cr_OrganizationID release)); ("channel", MStr (cr_Channel release));
     ("manifestDigest", MStr (cr_ManifestDigest release))] ;;;
  appendOutboxLocked "catalogRelease" id "catalog_release.created" (PayloadCatalogRelease release).

Definition CreateCatalogRelease (release : CatalogRelease) (actor : string) : Store CatalogRelease :=
  let! s := get in
  let! revision := get_opt (ms_catalogRevisions s !! cr_CurrentRevisionID release) ErrNotFound in
  let! prepared := prepareCatalogReleaseLocked release revision actor in
  commitCatalogReleaseLocked prepared actor ;;;
  ret prepared.

Definition CreateCatalogReleaseWithRevision (revision : CatalogRevision) (release : CatalogRelease) (actor : string)
    : Store (CatalogRevision * CatalogRelease) :=
  let! (preparedRevision, existing) := prepareCatalogRevisionLocked revision in
  let release := release <| cr_OrganizationID := cv_OrganizationID preparedRevision |>
                   <| cr_CatalogName := cv_CatalogName preparedRevision |>
                   <| cr_CatalogVersion := cv_CatalogVersion preparedRevision |>
                   <| cr_CurrentRevisionID := rm_ID (cv_Meta preparedRevision) |>
                   <| cr_ManifestDigest := cv_ManifestDigest preparedRevision |> in
  let! preparedRelease := prepareCatalogReleaseLocked release preparedRevision actor in
  when (negb existing) (commitCatalogRevisionLocked preparedRevision actor) ;;;
  commitCatalogReleaseLocked preparedRelease actor ;;;
  ret (preparedRevision, preparedRelease).

Definition GetCatalogRelease (id : string) : Store CatalogRelease :=
  let! s := get in get_opt (ms_catalogReleases s !! id) ErrNotFound.

Definition prepareCatalogDraftUpdateLocked (id : string) (expected : Z) (revision : CatalogRevision)
    : Store CatalogRelease :=
  let! s := get in
  let! current := get_opt (ms_catalogReleases s !! id) ErrNotFound in
  fail_if (rm_Revision (cr_Meta current) != expected) ErrConflict ;;;
  fail_if (cr_State current != CatalogDraft) ErrImmutable ;;;
  fail_if ((cv_OrganizationID revision != cr_OrganizationID current)
           || (cv_CatalogName revision != cr_CatalogName current)
           || (cv_CatalogVersion revision != cr_CatalogVersion current)) ErrValidation ;;;
  let current := unsigned (current <| cr_CurrentRevisionID := rm_ID (cv_Meta revision) |>
                             <| cr_ManifestDigest := cv_ManifestDigest revision |>) in
  let! now := nowUTC in
  ret (current <| cr_Meta := bump (cr_Meta current) now |>).

Definition commitCatalogDraftUpdateLocked (current : CatalogRelease) (actor : string) : Store unit :=
  let id := rm_ID (cr_Meta current) in
  putCatalogRelease id current ;;;
  appendAuditLocked actor "catalog_release.draft_updated" "catalogRelease" id (rm_Revision (cr_Meta current))
    [("revisionId", MStr (cr_CurrentRevisionID current)); ("manifestDigest", MStr (cr_ManifestDigest current))] ;;;
  appendOutboxLocked "catalogRelease" id "catalog_release.draft_updated" (PayloadCatalogRelease current).

Definition UpdateCatalogReleaseDraft (id : string) (expected : Z) (revisionID manifestDigest actor : string)
    : Store CatalogRelease :=
  let! s := get in
  let! revision := get_opt (ms_catalogRevisions s !! revisionID) ErrNotFound in
  fail_if (cv_ManifestDigest revision != manifestDigest) ErrValidation ;;;
  let! updated := prepareCatalogDraftUpdateLocked id expected revision in
  commitCatalogDraftUpdateLocked updated actor ;;;
  ret updated.

Definition UpdateCatalogReleaseDraftWithRevision (id : string) (expected : Z) (revision : CatalogRevision)
    (actor : string) : Store (CatalogRevision * CatalogRelease) :=
  let! s := get in
  let! current := get_opt (ms_catalogReleases s !! id) ErrNotFound in
  fail_if (rm_Revision (cr_Meta current) != expected) ErrConflict ;;;
  fail_if (cr_State current != CatalogDraft) ErrImmutable ;;;
  let! (preparedRevision, existing) := prepareCatalogRevisionLocked revision in
  let! updated := prepareCatalogDraftUpdateLocked id expected preparedRevision in
  when (negb existing) (commitCatalogRevisionLocked preparedRevision actor) ;;;
  commitCatalogDraftUpdateLocked updated actor ;;;
  ret (preparedRevision, updated).

Definition SubmitCatalogReleaseReview (id : string) (expected : Z) (keyID fingerprint signature actor : string)
    : Store CatalogRelease :=
  let! s := get in
  let! current := get_opt (ms_catalogReleases s !! id) ErrNotFound in
  fail_if (rm_Revision (cr_Meta current) != expected) ErrConflict ;;;
  fail_if (cr_State current != CatalogDraft) ErrInvalidTransition ;;;
  let! key := get_opt (ms_catalogTrustKeys s !! TrimSpace keyID) ErrNotFound in
  let current := current <| cr_SigningKeyID := TrimSpace keyID |>
                   <| cr_SigningKeyFingerprint := TrimSpace fingerprint |>
                   <| cr_Signature := TrimSpace signature |> in
  let! _ := lift (VerifyCatalogReleaseSignature current key) in
  let! now := nowUTC in
  let current := current <| cr_State := CatalogReview |> <| cr_RequestedBy := TrimSpace actor |>
                   <| cr_ReviewRequestedAt := Some now |> <| cr_Meta := bump (cr_Meta current) now |> in
  putCatalogRelease id current ;;;
  appendAuditLocked actor "catalog_release.review" "catalogRelease" id (rm_Revision (cr_Meta current))
    [("signingKeyId", MStr (rm_ID (ck_Meta key))); ("fingerprint", MStr (ck_Fingerprint key))] ;;;
  appendOutboxLocked "catalogRelease" id "catalog_release.review" (PayloadCatalogRelease current) ;;;
  ret current.

(** the fields of [current] written by a transition to [to], in the order of the code *)
Definition stampCatalogRelease (current : CatalogRelease) (to : CatalogLifecycleState) (actor : string) (now : Time)
    : CatalogRelease :=
  let current := if to == CatalogPublished
                 then current <| cr_PublishedBy := TrimSpace actor |> <| cr_PublishedAt := Some now |> else current in
  let current := if to == CatalogDeprecated
                 then current <| cr_DeprecatedBy := TrimSpace actor |> <| cr_DeprecatedAt := Some now |> else current in
  let current := if to == CatalogRevoked
                 then current <| cr_RevokedBy := TrimSpace actor |> <| cr_RevokedAt := Some now |> else current in
  current <| cr_State := to |> <| cr_Meta := bump (cr_Meta current) now |>.

Definition TransitionCatalogRelease (id : string) (expected : Z) (to : CatalogLifecycleState) (actor : string)
    : Store CatalogRelease :=
  let! s := get in
  let! current := get_opt (ms_catalogReleases s !! id) ErrNotFound in
  fail_if (rm_Revision (cr_Meta current) != expected) ErrConflict ;;;
  let from := cr_State current in
  fail_if (negb (validCatalogTransition from to)) ErrInvalidTransition ;;;
  let! now := nowUTC in
  let current := if (from == CatalogReview) && (to == CatalogDraft)
                 then unsigned (current <| cr_ReviewRequestedAt := None |>) else current in
  when (to == CatalogPublished)
    (let! key := get_opt (ms_catalogTrustKeys s !! cr_SigningKeyID current) ErrNotFound in
     let! _ := lift (VerifyCatalogReleaseSignature current key) in
     ret tt) ;;;
  let current := stampCatalogRelease current to actor now in
  putCatalogRelease id current ;;;
  let action := "catalog_release." +:+ ToLower (CatalogLifecycleState_string to) in
  appendAuditLocked actor action "catalogRelease" id (rm_Revision (cr_Meta current))
    [("from", MStr (CatalogLifecycleState_string from)); ("to", MStr (CatalogLifecycleState_string to));
     ("channel", MStr (cr_Channel current))] ;;;
  appendOutboxLocked "catalogRelease" id action (PayloadCatalogRelease current) ;;;
  ret current.
End signatures.
