(* ===== verification/CatalogTheorems.v ===== *)
(** * Correctness of catalog governance

    The chain of trust of a published catalog release, and what the handlers
    never change: revisions, the identity of keys and releases, and everything
    about a release once it is published. *)
From S2P Require Import Prelude GoStrings Digest Encoding Model Store Lifecycle OperationSystem OperationRuns.
From S2P Require Import Demo Collections Organizations TenancyTheorems Catalog.

(** ** What a release keeps *)

Definition settled_state (st : CatalogLifecycleState) : bool :=
  match st with CatalogDraft | CatalogReview => false | _ => true end.

Definition stage (st : CatalogLifecycleState) : nat :=
  match st with
  | CatalogDraft | CatalogReview => 0
  | CatalogPublished => 1
  | CatalogDeprecated => 2
  | CatalogRevoked => 3
  end.

Definition identity (r : CatalogRelease) :=
  (rm_ID (cr_Meta r), cr_OrganizationID r, cr_CatalogName r, cr_CatalogVersion r, cr_Visibility r, cr_Channel r,
   cr_SourceReleaseID r).
Definition content (r : CatalogRelease) :=
  (cr_CurrentRevisionID r, cr_ManifestDigest r, cr_SigningKeyID r, cr_SigningKeyFingerprint r, cr_Signature r,
   cr_PublishedBy r, cr_PublishedAt r).

Definition release_evolves (r r' : CatalogRelease) : Prop :=
  identity r' = identity r /\
  (settled_state (cr_State r) = true -> content r' = content r /\ (stage (cr_State r) <= stage (cr_State r'))%nat).

Definition key_identity (k : CatalogTrustKey) :=
  (rm_ID (ck_Meta k), ck_OrganizationID k, ck_Name k, ck_Algorithm k, ck_PublicKey k, ck_Fingerprint k).
Definition key_evolves (k k' : CatalogTrustKey) : Prop :=
  key_identity k' = key_identity k /\ (ck_State k = CatalogTrustKeyRevoked -> ck_State k' = CatalogTrustKeyRevoked).

Lemma settled_stage st : settled_state st = true <-> (1 <= stage st)%nat.
Proof. destruct st; cbn; split; intros; try done; lia. Qed.

Lemma release_evolves_refl r : release_evolves r r.
Proof. split; [done|]. intros _. split; [done|lia]. Qed.
Lemma release_evolves_trans r1 r2 r3 : release_evolves r1 r2 -> release_evolves r2 r3 -> release_evolves r1 r3.
Proof.
  intros [Hi Hs] [Hi' Hs']. split; [congruence|]. intros H. destruct (Hs H) as [Hc Hr].
  destruct Hs' as [Hc' Hr']; [apply settled_stage; apply settled_stage in H; lia|]. split; [congruence|lia].
Qed.
Lemma key_evolves_refl k : key_evolves k k.
Proof. by split. Qed.
Lemma key_evolves_trans k1 k2 k3 : key_evolves k1 k2 -> key_evolves k2 k3 -> key_evolves k1 k3.
Proof. intros [? ?] [? ?]. split; [congruence|auto]. Qed.

(** everything the handlers keep, whatever they do *)
Record catalog_kept (s s' : MemoryStore) : Prop := {
  ct_drawn : drawn s s';
  ct_keys : evolves key_evolves (ms_catalogTrustKeys s) (ms_catalogTrustKeys s');
  ct_revisions : ms_catalogRevisions s ⊆ ms_catalogRevisions s';
  ct_releases : evolves release_evolves (ms_catalogReleases s) (ms_catalogReleases s');
}.

Lemma catalog_kept_same s s' :
  drawn s s' -> ms_catalogTrustKeys s' = ms_catalogTrustKeys s -> ms_catalogRevisions s' = ms_catalogRevisions s ->
  ms_catalogReleases s' = ms_catalogReleases s -> catalog_kept s s'.
Proof.
  intros Hd Hk Hv Hr. split; [done| | |]; rewrite ?Hk, ?Hv, ?Hr;
    eauto using evolves_refl, key_evolves_refl, release_evolves_refl.
Qed.

Lemma catalog_kept_trans s1 s2 s3 : catalog_kept s1 s2 -> catalog_kept s2 s3 -> catalog_kept s1 s3.
Proof.
  intros [] []. split; [by eapply drawn_trans|by eapply evolves_trans; [apply key_evolves_trans|..]|by etrans|
    by eapply evolves_trans; [apply release_evolves_trans|..]].
Qed.

(** ** The chain of trust *)

Section trust.
Variable Verify : Bytes -> Bytes -> Bytes -> bool.

(** the signature of the release verifies under the key *)
Definition signed_by (key : CatalogTrustKey) (r : CatalogRelease) : Prop :=
  exists pk sig, base64Decode (TrimSpace (ck_PublicKey key)) = Some pk /\ len pk = PublicKeySize /\
    base64Decode (TrimSpace (cr_Signature r)) = Some sig /\ len sig = SignatureSize /\
    Verify pk (CatalogSignaturePayload r) sig = true /\
    sha256Digest pk = TrimSpace (cr_SigningKeyFingerprint r) /\
    (cr_Visibility r = CatalogVisibilityPlatform -> TrimSpace (ck_OrganizationID key) = "") /\
    (cr_Visibility r = CatalogVisibilityPrivate -> TrimSpace (ck_OrganizationID key) = "" \/
       TrimSpace (ck_OrganizationID key) = TrimSpace (cr_OrganizationID r)).

Lemma verify_signed r key :
  VerifyCatalogReleaseSignature Verify r key = Ok tt ->
  ck_State key = CatalogTrustKeyActive /\ rm_ID (ck_Meta key) = TrimSpace (cr_SigningKeyID r) /\ signed_by key r.
Proof.
  unfold VerifyCatalogReleaseSignature, CatalogKeyFingerprint. intros H.
  destruct (base64Decode (TrimSpace (ck_PublicKey key))) as [pk|] eqn:Hpk; [|by repeat (case_match; try discriminate)].
  destruct (bool_decide (len pk = PublicKeySize)) eqn:Hl; [|by repeat (case_match; try discriminate)].
  destruct (base64Decode (TrimSpace (cr_Signature r))) as [sg|] eqn:Hsg; [|by repeat (case_match; try discriminate)].
  repeat (case_match; try discriminate). cbn in *. norm_bool. split; [done|]. split; [done|].
  exists pk, sg. repeat split; try done.
  - intros Hv. rewrite Hv in *. match goal with Hb : bool_decide _ && _ = false |- _ => revert Hb end.
    rewrite bool_decide_eq_true_2 by done. cbn. by intros ?%negb_false_iff%bool_decide_eq_true.
  - intros Hv. match goal with Hb : bool_decide (cr_Visibility r = CatalogVisibilityPrivate) && _ && _ = false |- _ => revert Hb end.
    rewrite Hv, bool_decide_eq_true_2 by done. cbn. intros [?|?]%andb_false_iff; norm_bool; auto.
Qed.

(** the payload that is signed is a function of identity and content *)
Lemma payload_stable r r' :
  identity r' = identity r -> content r' = content r -> CatalogSignaturePayload r' = CatalogSignaturePayload r.
Proof.
  unfold identity, content. intros [= Hid Ho Hn Hv Hvis Hch Hsrc] [= Hrev Hman Hkey Hfp Hsg Hpb Hpa].
  unfold CatalogSignaturePayload. by rewrite Ho, Hn, Hv, Hvis, Hch, Hsrc, Hrev, Hman.
Qed.

(** what a signature vouches for *)
Definition signed_content (r : CatalogRelease) :=
  (TrimSpace (cr_OrganizationID r), normalizeName (cr_CatalogName r), TrimSpace (cr_CatalogVersion r), cr_Visibility r,
   cr_Channel r, TrimSpace (cr_ManifestDigest r), TrimSpace (cr_SourceReleaseID r), TrimSpace (cr_CurrentRevisionID r)).

(** two releases with the same bytes to sign have the same content *)
Lemma payload_pins r r' : CatalogSignaturePayload r' = CatalogSignaturePayload r -> signed_content r' = signed_content r.
Proof.
  assert (E : forall r, exists o src, CatalogSignaturePayload r = json_object (json_entry <$> (
    [("schema", "platform.4so.io/catalog-release-signature/v1")] ++ o ++
    [("catalogName", normalizeName (cr_CatalogName r)); ("catalogVersion", TrimSpace (cr_CatalogVersion r));
     ("visibility", cr_Visibility r); ("channel", cr_Channel r); ("manifestDigest", TrimSpace (cr_ManifestDigest r))]
    ++ src ++ [("currentRevisionId", TrimSpace (cr_CurrentRevisionID r))])%list) /\
    o = (if TrimSpace (cr_OrganizationID r) == "" then [] else [("organizationId", TrimSpace (cr_OrganizationID r))]) /\
    src = (if TrimSpace (cr_SourceReleaseID r) == "" then [] else [("sourceReleaseId", TrimSpace (cr_SourceReleaseID r))])).
  { intros x. do 2 eexists. split; [|split; reflexivity]. unfold CatalogSignaturePayload, json_opt.
    by destruct (TrimSpace (cr_OrganizationID x) == ""), (TrimSpace (cr_SourceReleaseID x) == ""). }
  destruct (E r) as (o & src & -> & Eo & Es). destruct (E r') as (o' & src' & -> & Eo' & Es').
  intros H%json_object_inj. unfold signed_content. subst.
  repeat case_bool_decide; cbn in H; simplify_eq; congruence.
Qed.

Lemma signed_stable key key' r r' :
  key_identity key' = key_identity key -> identity r' = identity r -> content r' = content r ->
  signed_by key r -> signed_by key' r'.
Proof.
  intros Hk Hi Hc (pk & sig & H). exists pk, sig. rewrite (payload_stable r r') by done.
  unfold key_identity, identity, content in *. injection Hk as _ Ho _ _ Hp _.
  injection Hi as _ Ho' _ _ Hvis _ _. injection Hc as _ _ _ Hf Hsg _ _.
  by rewrite Ho, Hp, Ho', Hvis, Hf, Hsg.
Qed.

(** ** The invariant *)

Definition revisions_ok (s : MemoryStore) (m : gmap string CatalogRevision) : Prop :=
  filed s m /\ forall k v, m !! k = Some v ->
    rm_ID (cv_Meta v) = k /\ sha256Digest (cv_Payload v) = cv_ManifestDigest v /\ JSON.Valid (cv_Payload v) = true.

Definition points_to (m : gmap string CatalogRevision) (r : CatalogRelease) : Prop :=
  exists v, m !! cr_CurrentRevisionID r = Some v /\ cv_OrganizationID v = cr_OrganizationID r /\
    cv_CatalogName v = cr_CatalogName r /\ cv_CatalogVersion v = cr_CatalogVersion r /\
    cv_ManifestDigest v = cr_ManifestDigest r.

Definition signed_in (keys : gmap string CatalogTrustKey) (r : CatalogRelease) : Prop :=
  exists key, keys !! cr_SigningKeyID r = Some key /\ signed_by key r.

Record catalog_wf (s : MemoryStore) : Prop := {
  cw_gen : forall n m p q, ms_id s n p = ms_id s m q -> n = m;
  cw_keys : filed s (ms_catalogTrustKeys s);
  cw_key_ids : forall k v, ms_catalogTrustKeys s !! k = Some v -> rm_ID (ck_Meta v) = k;
  cw_revisions : revisions_ok s (ms_catalogRevisions s);
  cw_filed : filed s (ms_catalogReleases s);
  cw_ids : forall k r, ms_catalogReleases s !! k = Some r -> rm_ID (cr_Meta r) = k;
  cw_points : forall k r, ms_catalogReleases s !! k = Some r -> points_to (ms_catalogRevisions s) r;
  cw_signed : forall k r, ms_catalogReleases s !! k = Some r -> settled_state (cr_State r) = true ->
    signed_in (ms_catalogTrustKeys s) r;
  cw_unique : forall k1 k2 r1 r2, ms_catalogReleases s !! k1 = Some r1 -> ms_catalogReleases s !! k2 = Some r2 ->
    sameCatalogRelease r1 r2 = true -> k1 = k2;
}.

Definition good (s s' : MemoryStore) : Prop := catalog_wf s' /\ catalog_kept s s'.

Lemma revisions_ok_mono s s' m : drawn s s' -> revisions_ok s m -> revisions_ok s' m.
Proof. intros Hd [Hf H]. split; [by eapply filed_mono|done]. Qed.

Lemma points_mono m m' r : m ⊆ m' -> points_to m r -> points_to m' r.
Proof. intros Hs (v & Hv & H). exists v. split; [by eapply lookup_weaken|done]. Qed.

Lemma signed_evolves keys keys' r :
  evolves key_evolves keys keys' -> signed_in keys r -> signed_in keys' r.
Proof.
  intros He (key & Hk & Hs). destruct (He _ _ Hk) as (key' & Hk' & Hi & _). exists key'. split; [done|].
  by eapply (signed_stable key).
Qed.

(** sameCatalogRelease is an equality of keys *)
Lemma same_release_sym r1 r2 : sameCatalogRelease r1 r2 = true -> sameCatalogRelease r2 r1 = true.
Proof. unfold sameCatalogRelease. intros H. norm_bool. rewrite !andb_true_iff, !bool_decide_eq_true. intuition congruence. Qed.
Lemma same_release_identity r1 r1' r2 :
  identity r1' = identity r1 -> sameCatalogRelease r1' r2 = sameCatalogRelease r1 r2.
Proof. unfold identity. intros [= _ Ho Hn Hv _ Hch _]. unfold sameCatalogRelease. by rewrite Ho, Hn, Hv, Hch. Qed.

Section preserve.
Context (s : MemoryStore) (Hwf : catalog_wf s).

(** nothing of the catalog is stored *)
Lemma good_same s' :
  drawn s s' -> ms_catalogTrustKeys s' = ms_catalogTrustKeys s -> ms_catalogRevisions s' = ms_catalogRevisions s ->
  ms_catalogReleases s' = ms_catalogReleases s -> good s s'.
Proof.
  intros Hd Hk Hv Hr. split; [|by apply catalog_kept_same]. destruct Hwf.
  split; rewrite ?Hk, ?Hv, ?Hr, ?(dr_gen _ _ Hd); eauto using filed_mono, revisions_ok_mono.
Qed.

(** a key is stored *)
Lemma good_key s' k v :
  drawn s s' -> ms_catalogTrustKeys s' = <[k := v]> (ms_catalogTrustKeys s) ->
  ms_catalogRevisions s' = ms_catalogRevisions s -> ms_catalogReleases s' = ms_catalogReleases s ->
  filed s' (<[k := v]> (ms_catalogTrustKeys s)) -> rm_ID (ck_Meta v) = k ->
  (forall v0, ms_catalogTrustKeys s !! k = Some v0 -> key_evolves v0 v) -> good s s'.
Proof.
  intros Hd Hk Hv Hr Hf Hid He.
  assert (Hev : evolves key_evolves (ms_catalogTrustKeys s) (<[k := v]> (ms_catalogTrustKeys s)))
    by (apply evolves_insert; [apply key_evolves_refl|done]).
  split; [|split; rewrite ?Hk, ?Hv, ?Hr; eauto using evolves_refl, release_evolves_refl].
  destruct Hwf. split; rewrite ?Hk, ?Hv, ?Hr, ?(dr_gen _ _ Hd); eauto using filed_mono, revisions_ok_mono.
  - intros k' v' [[<- <-]|[_ ?]]%lookup_insert_Some; eauto.
  - intros k' r Hl Hs. eapply signed_evolves; eauto.
Qed.

(** revisions are added, and a release is stored *)
Lemma good_release s' revs k r :
  drawn s s' -> ms_catalogTrustKeys s' = ms_catalogTrustKeys s -> ms_catalogRevisions s' = revs ->
  ms_catalogReleases s' = <[k := r]> (ms_catalogReleases s) ->
  ms_catalogRevisions s ⊆ revs -> revisions_ok s' revs ->
  filed s' (<[k := r]> (ms_catalogReleases s)) -> rm_ID (cr_Meta r) = k -> points_to revs r ->
  (settled_state (cr_State r) = true -> signed_in (ms_catalogTrustKeys s) r) ->
  (forall k' r', ms_catalogReleases s !! k' = Some r' -> sameCatalogRelease r r' = true -> k' = k) ->
  (forall r0, ms_catalogReleases s !! k = Some r0 -> release_evolves r0 r) -> good s s'.
Proof.
  intros Hd Hk Hv Hr Hsub Hok Hf Hid Hp Hs Hu He. split.
  - destruct Hwf. split; rewrite ?Hk, ?Hv, ?Hr, ?(dr_gen _ _ Hd); eauto using filed_mono.
    + intros k' r' [[<- <-]|[_ ?]]%lookup_insert_Some; eauto.
    + intros k' r' [[<- <-]|[_ ?]]%lookup_insert_Some; eauto using points_mono.
    + intros k' r' [[<- <-]|[_ ?]]%lookup_insert_Some; eauto.
    + apply unique_insert; [apply same_release_sym|done|done].
  - split; rewrite ?Hk, ?Hv, ?Hr; eauto using evolves_refl, key_evolves_refl.
    apply evolves_insert; [apply release_evolves_refl|done].
Qed.

(** only a revision is added *)
Lemma good_revision s' revs :
  drawn s s' -> ms_catalogTrustKeys s' = ms_catalogTrustKeys s -> ms_catalogRevisions s' = revs ->
  ms_catalogReleases s' = ms_catalogReleases s -> ms_catalogRevisions s ⊆ revs -> revisions_ok s' revs -> good s s'.
Proof.
  intros Hd Hk Hv Hr Hsub Hok. split.
  - destruct Hwf. split; rewrite ?Hk, ?Hv, ?Hr, ?(dr_gen _ _ Hd); eauto using filed_mono, points_mono.
  - split; rewrite ?Hk, ?Hv, ?Hr; eauto using evolves_refl, key_evolves_refl, release_evolves_refl.
Qed.
End preserve.

(** ** Handlers *)

(** the revisions after committing a prepared one *)
Definition afterRevision (m : gmap string CatalogRevision) (rev : CatalogRevision) (existing : bool)
    : gmap string CatalogRevision :=
  if existing then m else <[rm_ID (cv_Meta rev) := rev]> m.

(** committing a prepared revision keeps the revisions in order *)
Definition prepared_ok (s : MemoryStore) (rev : CatalogRevision) (existing : bool) (s' : MemoryStore) : Prop :=
  let m := afterRevision (ms_catalogRevisions s) rev existing in
  ms_catalogRevisions s ⊆ m /\ revisions_ok s' m /\ m !! rm_ID (cv_Meta rev) = Some rev.

Lemma prepared_mono s rev ex s1 s' : drawn s1 s' -> prepared_ok s rev ex s1 -> prepared_ok s rev ex s'.
Proof. intros Hd (? & ? & ?). split_and!; [done|by eapply revisions_ok_mono|done]. Qed.

(** the release that creation prepares is a fresh unsigned draft of the revision *)
Lemma prepare_release s rel0 rev actor :
  wp (prepareCatalogReleaseLocked rel0 rev actor) (reads s (fun r s' =>
    (exists n, (ms_ids s <= n < ms_ids s')%nat /\ rm_ID (cr_Meta r) = ms_id s n "ctl") /\
    cr_State r = CatalogDraft /\ cr_CurrentRevisionID r = cr_CurrentRevisionID rel0 /\
    cv_OrganizationID rev = cr_OrganizationID r /\ cv_CatalogName rev = cr_CatalogName r /\
    cv_CatalogVersion rev = cr_CatalogVersion r /\ cv_ManifestDigest rev = cr_ManifestDigest r /\
    forall k' r', ms_catalogReleases s !! k' = Some r' -> sameCatalogRelease r r' = false)) s.
Proof.
  unfold prepareCatalogReleaseLocked. wp_go; try (split; [done|split; [drawing|done]]).
  all: split; [done|split; [drawing|]]; norm_bool; rewrite map_any_false in H3.
  all: split; [exists (ms_ids s); cbn; split; [lia|done]|]; split_and!; done.
Qed.

Section handlers.
Context (s : MemoryStore) (Hwf : catalog_wf s).

Lemma prepare_revision rev0 :
  wp (prepareCatalogRevisionLocked rev0) (reads s (fun p s' => prepared_ok s p.1 p.2 s')) s.
Proof.
  unfold prepareCatalogRevisionLocked. wp_go; try (split; [done|split; [drawing|done]]).
  - apply map_find_Some in Heqo as [Hk _]. destruct (cw_revisions _ Hwf) as [Hf Hok].
    split; [done|]. split; [drawing|]. split; [done|]. split; [done|].
    cbn. by rewrite (proj1 (Hok _ _ Hk)).
  - split; [done|]. split; [drawing|]. cbn [fst snd]. norm_bool.
    destruct (cw_revisions _ Hwf) as [Hf Hok].
    split_and!; cbn [afterRevision].
    + apply insert_subseteq. by apply (fresh_unfiled s _ (ms_ids s) "ctr"); [apply Hwf|done|lia].
    + split; [apply (filed_insert s); [drawing|cbn; lia|done]|].
      intros k v [[<- <-]|[_ Hk]]%lookup_insert_Some; [|by apply Hok]. by split_and!.
    + apply lookup_insert_eq.
Qed.

Local Abbreviation keeps m := (wp m (fun _ s' => good s s') s).

Lemma create_key_keeps key actor : keeps (CreateCatalogTrustKey key actor).
Proof.
  unfold CreateCatalogTrustKey; unfold_puts. wp_go; try (apply good_same; done || drawing).
  eapply (good_key s Hwf _ (fresh s "ctk")); try done; [drawing| |].
  - apply (filed_insert s); [drawing|cbn; lia|apply Hwf].
  - intros v0 Hv. exfalso. unfold fresh in Hv.
    rewrite (fresh_unfiled s _ (ms_ids s)) in Hv; [discriminate|apply Hwf|apply Hwf|lia].
Qed.

Lemma revoke_key_keeps id e actor : keeps (RevokeCatalogTrustKey id e actor).
Proof.
  unfold RevokeCatalogTrustKey; unfold_puts. wp_go; try (apply good_same; done || drawing).
  eapply (good_key s Hwf _ id); try done; [drawing|eapply (filed_update s); [drawing|apply Hwf|done]| |].
  - exact (cw_key_ids _ Hwf _ _ H).
  - intros v0 Hv. assert (v0 = a) as -> by congruence. by split.
Qed.

Lemma create_revision_keeps rev actor : keeps (CreateCatalogRevision rev actor).
Proof.
  unfold CreateCatalogRevision. eapply wp_reads; [apply prepare_revision| |].
  - intros e t i Hd. by apply good_same.
  - intros [v ex] t i Hd Hp. cbn [fst snd] in Hp. unfold commitCatalogRevisionLocked; unfold_puts.
    wp_go; [|by apply good_same].
    destruct ex; [discriminate|]. destruct Hp as (Hsub & Hok & _).
    eapply good_revision; [done|drawing|done|reflexivity|done|exact Hsub|].
    eapply revisions_ok_mono; [|exact Hok]. drawing.
Qed.

(** the release that creation stores, with the revisions it stores before *)
Lemma created_good rev ex r sp s' :
  prepared_ok s rev ex sp -> drawn s sp -> drawn sp s' ->
  (exists n, (ms_ids sp <= n < ms_ids s')%nat /\ rm_ID (cr_Meta r) = ms_id sp n "ctl") ->
  cr_State r = CatalogDraft -> cr_CurrentRevisionID r = rm_ID (cv_Meta rev) ->
  cv_OrganizationID rev = cr_OrganizationID r -> cv_CatalogName rev = cr_CatalogName r ->
  cv_CatalogVersion rev = cr_CatalogVersion r -> cv_ManifestDigest rev = cr_ManifestDigest r ->
  (forall k' r', ms_catalogReleases s !! k' = Some r' -> sameCatalogRelease r r' = false) ->
  ms_catalogTrustKeys s' = ms_catalogTrustKeys s ->
  ms_catalogRevisions s' = afterRevision (ms_catalogRevisions s) rev ex ->
  ms_catalogReleases s' = <[rm_ID (cr_Meta r) := r]> (ms_catalogReleases s) -> good s s'.
Proof.
  intros (Hsub & Hok & Hlook) Hd1 Hd2 (n & Hn & Hid) Hst Hcur Ho Hna Hv Hm Hu Hk Hr Hrel.
  pose proof (drawn_trans _ _ _ Hd1 Hd2) as Hd. rewrite (dr_gen _ _ Hd1) in Hid.
  assert (Hle : (ms_ids s <= n)%nat) by (destruct Hd1; lia).
  eapply good_release; [done|done|done|exact Hr|exact Hrel|exact Hsub|exact (revisions_ok_mono _ _ _ Hd2 Hok)| |done| | | |].
  - rewrite Hid. apply (filed_insert s); [done|lia|apply Hwf].
  - exists rev. rewrite Hcur. by split_and!.
  - by rewrite Hst.
  - intros k' r' Hk' Hsame. by rewrite (Hu _ _ Hk') in Hsame.
  - intros r0 Hr0. exfalso. rewrite Hid, (fresh_unfiled s) in Hr0; [done|apply Hwf|apply Hwf|done].
Qed.

Lemma create_release_keeps rel actor : keeps (CreateCatalogRelease rel actor).
Proof.
  unfold CreateCatalogRelease. do 2 wp_step; [apply good_same; done || drawing|].
  rename a into rev, H into Hrev.
  eapply wp_reads; [apply prepare_release|intros; by apply good_same|].
  intros r t i Hd (Hn & Hst & Hcur & Ho & Hna & Hv & Hm & Hu).
  unfold commitCatalogReleaseLocked; unfold_puts. wp_go.
  destruct (cw_revisions _ Hwf) as [Hf Hok].
  assert (Hrid : rm_ID (cv_Meta rev) = cr_CurrentRevisionID rel) by by apply Hok.
  eapply (created_good rev true r s); try done.
  - unfold prepared_ok, afterRevision. rewrite Hrid. by split_and!.
  - drawing.
  - destruct Hn as (n & Hlt & Hid). exists n. cbn in *. split; [lia|done].
  - congruence.
Qed.

Lemma create_release_revision_keeps rev rel actor : keeps (CreateCatalogReleaseWithRevision rev rel actor).
Proof.
  unfold CreateCatalogReleaseWithRevision.
  eapply wp_reads; [apply prepare_revision|intros; by apply good_same|].
  intros [v ex] t i Hd Hp. cbn [fst snd] in Hp. cbv zeta.
  eapply wp_reads; [apply prepare_release|intros; apply good_same; done || drawing|].
  intros r t' i' Hd' (Hn & Hst & Hcur & Ho & Hna & Hv & Hm & Hu).
  unfold commitCatalogRevisionLocked, commitCatalogReleaseLocked; unfold_puts. wp_go.
  all: eapply (created_good v ex r); [exact Hp|done| |destruct Hn as (n & Hlt & Hid); exists n; cbn in *; split; [lia|exact Hid]
    |done|done|done|done|done|done|done|done| |done].
  all: try drawing; destruct ex; done.
Qed.

(** a stored release is replaced by one of the same identity *)
Lemma updated_good revs id r0 r s' :
  ms_catalogReleases s !! id = Some r0 -> drawn s s' -> ms_catalogTrustKeys s' = ms_catalogTrustKeys s ->
  ms_catalogRevisions s' = revs -> ms_catalogRevisions s ⊆ revs -> revisions_ok s' revs ->
  ms_catalogReleases s' = <[id := r]> (ms_catalogReleases s) -> identity r = identity r0 -> points_to revs r ->
  (settled_state (cr_State r) = true -> signed_in (ms_catalogTrustKeys s) r) ->
  (settled_state (cr_State r0) = true -> content r = content r0 /\ (stage (cr_State r0) <= stage (cr_State r))%nat) ->
  good s s'.
Proof.
  intros Hr0 Hd Hk Hv Hsub Hok Hr Hi Hp Hs Hc.
  eapply good_release; [done|done|done|exact Hv|exact Hr|exact Hsub|exact Hok| | |done|done| |].
  - by eapply (filed_update s); [|apply Hwf|].
  - unfold identity in Hi. injection Hi as -> _ _ _ _ _ _. exact (cw_ids _ Hwf _ _ Hr0).
  - intros k' r' Hk' Hsame. rewrite (same_release_identity r0 r) in Hsame by done.
    symmetry. exact (cw_unique _ Hwf _ _ _ _ Hr0 Hk' Hsame).
  - intros r1 Hr1. assert (r1 = r0) as -> by congruence. by split.
Qed.

(** nothing is added to the revisions *)
Lemma updated_alone id r0 r s' :
  ms_catalogReleases s !! id = Some r0 -> drawn s s' -> ms_catalogTrustKeys s' = ms_catalogTrustKeys s ->
  ms_catalogRevisions s' = ms_catalogRevisions s ->
  ms_catalogReleases s' = <[id := r]> (ms_catalogReleases s) -> identity r = identity r0 ->
  points_to (ms_catalogRevisions s) r ->
  (settled_state (cr_State r) = true -> signed_in (ms_catalogTrustKeys s) r) ->
  (settled_state (cr_State r0) = true -> content r = content r0 /\ (stage (cr_State r0) <= stage (cr_State r))%nat) ->
  good s s'.
Proof.
  intros Hr0 Hd Hk Hv Hr Hi Hp Hs Hc. eapply updated_good; [exact Hr0|done|done|exact Hv|done| |exact Hr|done..].
  eapply revisions_ok_mono; [exact Hd|apply Hwf].
Qed.

(** the draft that points to the committed revision *)
Lemma draft_updated id r0 rev ex sp s' now :
  ms_catalogReleases s !! id = Some r0 -> cr_State r0 = CatalogDraft -> prepared_ok s rev ex sp -> drawn s sp ->
  drawn sp s' -> cv_OrganizationID rev = cr_OrganizationID r0 -> cv_CatalogName rev = cr_CatalogName r0 ->
  cv_CatalogVersion rev = cr_CatalogVersion r0 -> ms_catalogTrustKeys s' = ms_catalogTrustKeys s ->
  ms_catalogRevisions s' = afterRevision (ms_catalogRevisions s) rev ex ->
  ms_catalogReleases s' =
    (let r := unsigned (r0 <| cr_CurrentRevisionID := rm_ID (cv_Meta rev) |>
                           <| cr_ManifestDigest := cv_ManifestDigest rev |>) in
     <[rm_ID (cr_Meta r0) := r <| cr_Meta := bump (cr_Meta r) now |>]> (ms_catalogReleases s)) ->
  good s s'.
Proof.
  intros Hr0 Hst (Hsub & Hok & Hlook) Hd1 Hd2 Ho Hn Hv Hk Hr Hrel. cbv zeta in Hrel.
  rewrite (cw_ids _ Hwf _ _ Hr0) in Hrel.
  eapply updated_good; [exact Hr0|by eapply drawn_trans|done|exact Hr|done| |exact Hrel|done| | |].
  - exact (revisions_ok_mono _ _ _ Hd2 Hok).
  - by exists rev.
  - cbn. by rewrite Hst.
  - by rewrite Hst.
Qed.

Lemma update_draft_keeps id e rid md actor : keeps (UpdateCatalogReleaseDraft id e rid md actor).
Proof.
  unfold UpdateCatalogReleaseDraft, prepareCatalogDraftUpdateLocked, commitCatalogDraftUpdateLocked; unfold_puts.
  wp_go; try (apply good_same; done || drawing). norm_bool.
  eapply (draft_updated id a0 a true s); try done; [|drawing].
  destruct (cw_revisions _ Hwf) as [Hf Hok]. unfold prepared_ok, afterRevision.
  rewrite (proj1 (Hok _ _ H)). by split_and!.
Qed.

Lemma update_draft_revision_keeps id e rev actor : keeps (UpdateCatalogReleaseDraftWithRevision id e rev actor).
Proof.
  unfold UpdateCatalogReleaseDraftWithRevision. do 4 (wp_step; try (apply good_same; done || drawing)).
  eapply wp_reads; [apply prepare_revision|intros; by apply good_same|].
  intros [v known] t i Hd Hp. cbn [fst snd] in Hp.
  unfold prepareCatalogDraftUpdateLocked, commitCatalogRevisionLocked, commitCatalogDraftUpdateLocked; unfold_puts.
  wp_go; try (apply good_same; done || drawing). all: norm_bool; cbn in *; simplify_eq.
  all: eapply (draft_updated id); [done|done|exact Hp|exact Hd| |done|done|done|done| |done].
  all: first [drawing | by destruct known | done].
Qed.

Lemma submit_keeps id e kid fp sg actor : keeps (SubmitCatalogReleaseReview Verify id e kid fp sg actor).
Proof.
  unfold SubmitCatalogReleaseReview; unfold_puts. wp_go; try (apply good_same; done || drawing). norm_bool.
  eapply (updated_alone id a); try done; try drawing.
  - exact (cw_points _ Hwf _ _ H).
  - by rewrite H1.
Qed.

(** the release a transition leaves *)
Definition moved (a : CatalogRelease) (to : CatalogLifecycleState) (actor : string) (now : Time) : CatalogRelease :=
  stampCatalogRelease
    (if (cr_State a == CatalogReview) && (to == CatalogDraft)
     then unsigned (a <| cr_ReviewRequestedAt := None |>) else a) to actor now.

Lemma moved_identity a to actor now : identity (moved a to actor now) = identity a.
Proof. unfold moved. destruct (cr_State a), to; reflexivity. Qed.
Lemma moved_state a to actor now : cr_State (moved a to actor now) = to.
Proof. done. Qed.
Lemma moved_points m a to actor now : points_to m a -> points_to m (moved a to actor now).
Proof. unfold moved. by destruct (cr_State a), to. Qed.

(** what a transition keeps of a published release, and of one being published *)
Lemma moved_content a to actor now :
  validCatalogTransition (cr_State a) to = true -> settled_state (cr_State a) = true ->
  content (moved a to actor now) = content a /\ (stage (cr_State a) <= stage to)%nat.
Proof. unfold moved. destruct (cr_State a), to; intros Hv Hs; try discriminate; split; (reflexivity || cbn; lia). Qed.

Lemma published_signature key a actor now :
  cr_State a = CatalogReview -> signed_by key a -> signed_by key (moved a CatalogPublished actor now).
Proof. unfold moved. by intros ->. Qed.

Lemma transition_keeps id e to actor : keeps (TransitionCatalogRelease Verify id e to actor).
Proof.
  unfold TransitionCatalogRelease; unfold_puts. wp_go; try (apply good_same; done || drawing). all: norm_bool.
  all: eapply (updated_alone id a (moved a to actor (clock s)));
    [done|drawing|done|done|reflexivity|apply moved_identity|apply moved_points, (cw_points _ Hwf _ _ H)| |by apply moved_content].
  - intros _. destruct a1. subst to.
    assert (Hst : cr_State a = CatalogReview) by (destruct (cr_State a); done).
    rewrite Hst in H3, H4. cbn in H3, H4. apply verify_signed in H4 as (_ & _ & Hs).
    exists a0. split; [|by apply published_signature]. unfold moved. rewrite Hst. exact H3.
  - rewrite moved_state. intros Hto. assert (Hs : settled_state (cr_State a) = true)
      by (destruct (cr_State a), to; done).
    destruct (moved_content a to actor (clock s) H1 Hs) as [Hc _].
    destruct (cw_signed _ Hwf _ _ H Hs) as (key & Hk & Hsig). exists key. split.
    + assert (E : cr_SigningKeyID (moved a to actor (clock s)) = cr_SigningKeyID a)
        by exact (f_equal (fun c => c.1.1.1.1.2) Hc).
      by rewrite E.
    + eapply (signed_stable key); [done|apply moved_identity|exact Hc|exact Hsig].
Qed.
End handlers.

(** ** Histories *)

Inductive CatalogCall : Type :=
| KCreateKey (key : CatalogTrustKey) (actor : string)
| KRevokeKey (id : string) (expected : Z) (actor : string)
| KCreateRevision (rev : CatalogRevision) (actor : string)
| KCreateRelease (r : CatalogRelease) (actor : string)
| KCreateReleaseWithRevision (rev : CatalogRevision) (r : CatalogRelease) (actor : string)
| KUpdateDraft (id : string) (expected : Z) (revisionID manifestDigest actor : string)
| KUpdateDraftWithRevision (id : string) (expected : Z) (rev : CatalogRevision) (actor : string)
| KSubmit (id : string) (expected : Z) (keyID fingerprint signature actor : string)
| KTransition (id : string) (expected : Z) (to : CatalogLifecycleState) (actor : string).

Definition catalog_exec (c : CatalogCall) : MemoryStore -> MemoryStore * option Error :=
  match c with
  | KCreateKey key actor => run1 (CreateCatalogTrustKey key actor)
  | KRevokeKey id e actor => run1 (RevokeCatalogTrustKey id e actor)
  | KCreateRevision rev actor => run1 (CreateCatalogRevision rev actor)
  | KCreateRelease r actor => run1 (CreateCatalogRelease r actor)
  | KCreateReleaseWithRevision rev r actor => run1 (CreateCatalogReleaseWithRevision rev r actor)
  | KUpdateDraft id e rid md actor => run1 (UpdateCatalogReleaseDraft id e rid md actor)
  | KUpdateDraftWithRevision id e rev actor => run1 (UpdateCatalogReleaseDraftWithRevision id e rev actor)
  | KSubmit id e kid fp sg actor => run1 (SubmitCatalogReleaseReview Verify id e kid fp sg actor)
  | KTransition id e to actor => run1 (TransitionCatalogRelease Verify id e to actor)
  end.

(** catalog calls, and whatever else happens to the store beside its catalogs *)
Inductive catalog_step (s : MemoryStore) : MemoryStore -> Prop :=
| catalog_call c : catalog_step s (catalog_exec c s).1
| catalog_other s' : drawn s s' -> ms_catalogTrustKeys s' = ms_catalogTrustKeys s ->
    ms_catalogRevisions s' = ms_catalogRevisions s -> ms_catalogReleases s' = ms_catalogReleases s ->
    catalog_step s s'.

Lemma catalog_call_good s c : catalog_wf s -> good s (catalog_exec c s).1.
Proof.
  intros Hwf. destruct c.
  - exact (create_key_keeps s Hwf key actor).
  - exact (revoke_key_keeps s Hwf id expected actor).
  - exact (create_revision_keeps s Hwf rev actor).
  - exact (create_release_keeps s Hwf r actor).
  - exact (create_release_revision_keeps s Hwf rev r actor).
  - exact (update_draft_keeps s Hwf id expected revisionID manifestDigest actor).
  - exact (update_draft_revision_keeps s Hwf id expected rev actor).
  - exact (submit_keeps s Hwf id expected keyID fingerprint signature actor).
  - exact (transition_keeps s Hwf id expected to actor).
Qed.

Lemma catalog_steps_good s s' : rtc catalog_step s s' -> catalog_wf s -> good s s'.
Proof.
  induction 1 as [s|s1 s2 s3 H12 _ IH]; intros Hwf.
  - split; [done|]. by apply catalog_kept_same.
  - assert (H : good s1 s2) by (destruct H12; [by apply catalog_call_good|by apply good_same]).
    destruct (IH (proj1 H)) as [Hwf3 Hk3], H as [Hwf2 Hk2]. split; [done|by eapply catalog_kept_trans].
Qed.

Definition catalog_reachable (s : MemoryStore) : Prop :=
  exists now id, id_source id /\ rtc catalog_step (NewMemoryStoreWith now id) s.

Lemma catalog_reachable_wf s : catalog_reachable s -> catalog_wf s.
Proof.
  intros (now & id & Hid & Hs). eapply catalog_steps_good; [exact Hs|].
  split; [exact Hid|..]; cbn; try (intros k v; intros; by rewrite lookup_empty in *).
  split; intros k v; intros; by rewrite lookup_empty in *.
Qed.

(** C34: the chain of trust of a published catalog.  In every reachable store, a
    catalog release that is published, deprecated or revoked points to a stored
    revision of its own organization, catalog and version, whose payload is valid JSON
    with the release's manifest digest.  Its signature verifies, under a trust key of
    the store with the fingerprint the release names, a platform key for a platform
    release and a platform key or the organization's own for a private one, over bytes
    that no release with another organization, catalog, version, visibility, channel,
    manifest digest, source or revision has ([signed_content]). *)
Theorem published_catalogs_are_signed s id r :
  catalog_reachable s -> ms_catalogReleases s !! id = Some r -> settled_state (cr_State r) = true ->
  exists rev key,
    ms_catalogRevisions s !! cr_CurrentRevisionID r = Some rev /\ cv_OrganizationID rev = cr_OrganizationID r /\
    cv_CatalogName rev = cr_CatalogName r /\ cv_CatalogVersion rev = cr_CatalogVersion r /\ JSON.Valid (cv_Payload rev) = true /\
    sha256Digest (cv_Payload rev) = cr_ManifestDigest r /\
    ms_catalogTrustKeys s !! cr_SigningKeyID r = Some key /\ signed_by key r /\
    (forall other, CatalogSignaturePayload other = CatalogSignaturePayload r -> signed_content other = signed_content r).
Proof.
  intros Hreach Hr Hs. pose proof (catalog_reachable_wf _ Hreach) as Hwf.
  destruct (cw_points _ Hwf _ _ Hr) as (rev & Hrev & Ho & Hn & Hv & Hm).
  destruct (cw_signed _ Hwf _ _ Hr Hs) as (key & Hk & Hsig).
  destruct (proj2 (cw_revisions _ Hwf) _ _ Hrev) as (_ & Hd & Hj).
  exists rev, key. rewrite <- Hm. split_and!; try done. intros other. apply payload_pins.
Qed.

(** Catalogs are immutable where they must be.  Over any sequence of steps,
    catalog revisions never change, a trust key keeps its name, organization and
    public key and is never un-revoked, a release keeps its identity, and a
    release that was published keeps its revision, digest, signature and
    publication record and only moves on towards REVOKED. *)
Theorem published_catalogs_are_frozen s s' :
  catalog_reachable s -> rtc catalog_step s s' ->
  ms_catalogRevisions s ⊆ ms_catalogRevisions s' /\
  evolves key_evolves (ms_catalogTrustKeys s) (ms_catalogTrustKeys s') /\
  evolves release_evolves (ms_catalogReleases s) (ms_catalogReleases s').
Proof.
  intros Hr Hs. destruct (catalog_steps_good _ _ Hs (catalog_reachable_wf _ Hr)) as [_ []]. by split_and!.
Qed.
End trust.

(** ** A worked history *)

(** a keyed digest in the place of Ed25519 *)
Definition demo_verify (pk msg sig : Bytes) : bool := TrimPrefix (sha256Digest (pk +:+ msg)) sha256_prefix == sig.

Definition demo_payload : Bytes := "[1]".
Definition demo_pk : string := "MDEyMzQ1Njc4OWFiY2RlZjAxMjM0NTY3ODlhYmNkZWY=".
Definition demo_fingerprint : string := sha256Digest "0123456789abcdef0123456789abcdef".
Definition demo_key : CatalogTrustKey :=
  mkCatalogTrustKey (newMeta "" 0) "" "Release Key" "" demo_pk "" CatalogTrustKeyActive "" "" None.
Definition demo_revision : CatalogRevision :=
  mkCatalogRevision (newMeta "" 0) "" "Core" "1.0.0" (sha256Digest demo_payload) demo_payload.
Definition demo_release : CatalogRelease :=
  mkCatalogRelease (newMeta "" 0) "" "" "" CatalogVisibilityPlatform CatalogChannelCandidate CatalogDraft "" "" "" "" ""
    "" "" None "" None "" None "" None.
Definition demo_signature : string := "NzM4OTMxNTExNGJmNDlmYWQ5NjQyMDhkNjU2ZTk3NzNlY2Q4ZmEwMGRkNDVlNTBhNTkzMTg2NDgxNGUwOTY2ZQ==".

Definition demo_catalog : list CatalogCall :=
  [KCreateKey demo_key "alice";
   KCreateReleaseWithRevision demo_revision demo_release "alice";
   KSubmit "4" 1 "0" demo_fingerprint demo_signature "alice";
   KTransition "4" 2 CatalogPublished "bob"].

Definition catalog_run (cs : list CatalogCall) (s : MemoryStore) : MemoryStore :=
  foldl (fun s c => (catalog_exec demo_verify c s).1) s cs.
Definition demo_catalog_store : MemoryStore := catalog_run demo_catalog (NewMemoryStoreWith (fun _ => 0) demo_ids).

Lemma catalog_run_steps cs : forall s, rtc (catalog_step demo_verify) s (catalog_run cs s).
Proof. induction cs as [|c cs IH]; intros s; [constructor|]. econstructor; [apply catalog_call|apply IH]. Qed.

Lemma demo_catalog_reachable : catalog_reachable demo_verify demo_catalog_store.
Proof. exists (fun _ => 0), demo_ids. split; [apply demo_ids_source|apply catalog_run_steps]. Qed.

Example demo_catalog_published :
  (fun r => (cr_State r, cr_PublishedBy r)) <$> (ms_catalogReleases demo_catalog_store !! "4") =
    Some (CatalogPublished, "bob").
Proof. vm_compute. reflexivity. Qed.

Lemma published_catalogs_are_signed_witness :
  exists r key, ms_catalogReleases demo_catalog_store !! "4" = Some r /\ signed_by demo_verify key r.
Proof.
  destruct (found (fun r => cr_State r) (ms_catalogReleases demo_catalog_store !! "4") CatalogPublished)
    as (r & E & Hst); [vm_compute; reflexivity|].
  destruct (published_catalogs_are_signed demo_verify demo_catalog_store "4" r) as (rev & key & _ & _ & _ & _ & _ & _ & _ & Hs & _).
  - apply demo_catalog_reachable.
  - exact E.
  - rewrite Hst. reflexivity.
  - exists r, key. split; [exact E|exact Hs].
Defined.

Lemma published_catalogs_are_frozen_witness :
  evolves release_evolves (ms_catalogReleases demo_catalog_store)
    (ms_catalogReleases (catalog_run [KRevokeKey "0" 1 "alice"; KTransition "4" 3 CatalogRevoked "bob"] demo_catalog_store)).
Proof.
  apply (published_catalogs_are_frozen demo_verify demo_catalog_store); [apply demo_catalog_reachable|].
  apply catalog_run_steps.
Defined.
