(* ===== verification/Blueprints.v ===== *)
(** * Blueprint revisions, releases and assignments

    The blueprint part of [memory_store.go]: immutable revisions, releases that
    move through DRAFT, REVIEW, PUBLISHED, DEPRECATED and REVOKED, and the
    assignment of a revision to a target.  A release may be linked to a catalog
    release, whose signature is checked again when it is published. *)
From S2P Require Import Prelude GoStrings Digest Encoding Model Store Organizations Catalog.

Definition historicalResolutionDigest : string :=
  "sha256:0000000000000000000000000000000000000000000000000000000000000000".

(** {"fields":[],"migration":"historical-pre-overlay"} *)
Definition historicalResolution : Bytes :=
  json_object [("fields", "[]"); ("migration", json_string "historical-pre-overlay")].

Definition NormalizeBlueprintRevisionResolution (v : BlueprintRevision) : BlueprintRevision :=
  let v := if bv_BaseBlueprintDigest v == "" then v <| bv_BaseBlueprintDigest := bv_BlueprintDigest v |> else v in
  let v := if bv_OverlayDigest v == "" then v <| bv_OverlayDigest := historicalResolutionDigest |> else v in
  let v := if bv_OwnershipDigest v == "" then v <| bv_OwnershipDigest := historicalResolutionDigest |> else v in
  let v := if len (bv_BasePayload v) == 0 then v <| bv_BasePayload := bv_Payload v |> else v in
  if len (bv_ResolutionPayload v) == 0 then v <| bv_ResolutionPayload := historicalResolution |> else v.

(** ** Revisions *)

Definition sameBlueprintRevision (r x : BlueprintRevision) : bool :=
  (bv_ProjectID x == bv_ProjectID r) && (bv_BlueprintDigest x == bv_BlueprintDigest r)
  && (bv_CatalogDigest x == bv_CatalogDigest r) && (bv_BaseBlueprintDigest x == bv_BaseBlueprintDigest r)
  && (bv_OverlayDigest x == bv_OverlayDigest r) && (bv_OwnershipDigest x == bv_OwnershipDigest r).

(** the overlay a revision names exists, in the same project and of the right scope *)
Definition checkOverlay (s : MemoryStore) (r : BlueprintRevision) (overlayID : string)
    (scope : BlueprintOverlayScope) : Store unit :=
  when (overlayID != "")
    (let! overlay := get_opt (ms_blueprintOverlays s !! overlayID) ErrNotFound in
     fail_if ((bo_ProjectID overlay != bv_ProjectID r) || (bo_Scope overlay != scope)) ErrValidation).

Definition missingJSON (raw : Bytes) : bool := (len raw == 0) || negb (JSON.Valid raw).

Definition prepareBlueprintRevisionLocked (r : BlueprintRevision) : Store (BlueprintRevision * bool) :=
  let r := NormalizeBlueprintRevisionResolution r in
  let! s := get in
  let! _ := get_opt (ms_projects s !! bv_ProjectID r) ErrNotFound in
  fail_if (negb (HasPrefix (bv_BlueprintDigest r) sha256_prefix) || negb (HasPrefix (bv_CatalogDigest r) sha256_prefix)
           || negb (HasPrefix (bv_BaseBlueprintDigest r) sha256_prefix)
           || negb (HasPrefix (bv_OverlayDigest r) sha256_prefix)
           || negb (HasPrefix (bv_OwnershipDigest r) sha256_prefix) || missingJSON (bv_Payload r)
           || missingJSON (bv_BasePayload r) || missingJSON (bv_ResolutionPayload r)) ErrValidation ;;;
  checkOverlay s r (bv_ProviderOverlayID r) BlueprintOverlayProvider ;;;
  checkOverlay s r (bv_EnvironmentOverlayID r) BlueprintOverlayEnvironment ;;;
  match map_find (fun _ x => sameBlueprintRevision r x) (ms_revisions s) with
  | Some (_, x) => ret (x, true)
  | None =>
      let! now := nowUTC in
      let! id := newID "bpr" in
      ret (r <| bv_Meta := newMeta id now |>, false)
  end.

Definition commitBlueprintRevisionLocked (r : BlueprintRevision) (actor : string) : Store unit :=
  let id := rm_ID (bv_Meta r) in
  putBlueprintRevision id r ;;;
  appendAuditLocked actor "blueprint_revision.created" "blueprintRevision" id (rm_Revision (bv_Meta r))
    [("projectId", MStr (bv_ProjectID r))] ;;;
  appendOutboxLocked "blueprintRevision" id "blueprint_revision.created" (PayloadBlueprintRevision r).

Definition CreateBlueprintRevision (r : BlueprintRevision) (actor : string) : Store BlueprintRevision :=
  let! (prepared, existing) := prepareBlueprintRevisionLocked r in
  when (negb existing) (commitBlueprintRevisionLocked prepared actor) ;;;
  ret prepared.

Definition GetBlueprintRevision (id : string) : Store BlueprintRevision :=
  let! s := get in get_opt (ms_revisions s !! id) ErrNotFound.

(** ** Releases *)

(** a [to] outside the five states is refused like any other it does not list *)
Definition validBlueprintTransition (from to : BlueprintLifecycleState) : bool :=
  match from with
  | BlueprintDraft => to == BlueprintReview
  | BlueprintReview => (to == BlueprintDraft) || (to == BlueprintPublished)
  | BlueprintPublished => (to == BlueprintDeprecated) || (to == BlueprintRevoked)
  | BlueprintDeprecated => to == BlueprintRevoked
  | BlueprintRevoked => false
  end.

Definition upgradable (st : BlueprintLifecycleState) : bool :=
  (st == BlueprintPublished) || (st == BlueprintDeprecated).

(** the loop over upgradeFromIds: [ok] accepts a source release *)
Fixpoint checkUpgradeSources (s : MemoryStore) (self : option string) (ok : BlueprintRelease -> bool)
    (seen ids : list string) : Store unit :=
  match ids with
  | [] => ret tt
  | sourceID :: rest =>
      fail_if (bool_decide (self = Some sourceID) || (sourceID == "") || bool_decide (sourceID ∈ seen)) ErrValidation ;;;
      fail_if (match ms_blueprintReleases s !! sourceID with Some source => negb (ok source) | None => true end)
        ErrValidation ;;;
      checkUpgradeSources s self ok (sourceID :: seen) rest
  end.

Section signatures.
Variable Verify : Bytes -> Bytes -> Bytes -> bool.

(** published, of the same manifest, and visible to the project *)
Definition catalogReleaseUsable (catalogRelease : CatalogRelease) (catalogDigest organizationID : string) : bool :=
  negb ((cr_State catalogRelease != CatalogPublished) || (cr_ManifestDigest catalogRelease != catalogDigest)
        || ((cr_Visibility catalogRelease == CatalogVisibilityPrivate)
            && (cr_OrganizationID catalogRelease != organizationID))).

(** [s.projects[id].OrganizationID], the zero value when there is none *)
Definition projectOrganization (s : MemoryStore) (projectID : string) : string :=
  match ms_projects s !! projectID with Some p => prj_OrganizationID p | None => "" end.

(** the signature of a linked catalog release, under its key *)
Definition checkCatalogSignature (s : MemoryStore) (catalogRelease : CatalogRelease) : Store unit :=
  let! key := get_opt (ms_catalogTrustKeys s !! cr_SigningKeyID catalogRelease) ErrNotFound in
  let! _ := lift (VerifyCatalogReleaseSignature Verify catalogRelease key) in
  ret tt.

Definition prepareBlueprintReleaseLocked (release : BlueprintRelease) (revision : BlueprintRevision) (actor : string)
    : Store BlueprintRelease :=
  let! s := get in
  let! _ := get_opt (ms_projects s !! br_ProjectID release) ErrNotFound in
  fail_if ((bv_ProjectID revision != br_ProjectID release) || (bv_BlueprintName revision != br_BlueprintName release)
           || (bv_BlueprintVersion revision != br_BlueprintVersion release)
           || (bv_BlueprintDigest revision != br_CurrentBlueprintDigest release)
           || (bv_CatalogDigest revision != br_CatalogDigest release)) ErrValidation ;;;
  when (TrimSpace (br_CatalogReleaseID release) != "")
    (let! catalogRelease := get_opt (ms_catalogReleases s !! TrimSpace (br_CatalogReleaseID release)) ErrNotFound in
     fail_if (negb (catalogReleaseUsable catalogRelease (br_CatalogDigest release)
                      (projectOrganization s (br_ProjectID release)))) ErrValidation ;;;
     checkCatalogSignature s catalogRelease) ;;;
  fail_if ((normalizeName (br_BlueprintName release) == "") || (TrimSpace (br_BlueprintVersion release) == ""))
    ErrValidation ;;;
  fail_if (map_any (fun _ existing => (br_ProjectID existing == br_ProjectID release)
             && (normalizeName (br_BlueprintName existing) == normalizeName (br_BlueprintName release))
             && (br_BlueprintVersion existing == br_BlueprintVersion release))
             (ms_blueprintReleases s)) ErrDuplicateName ;;;
  checkUpgradeSources s None (fun source => (br_ProjectID source == br_ProjectID release)
      && (normalizeName (br_BlueprintName source) == normalizeName (br_BlueprintName release))
      && upgradable (br_State source)) [] (br_UpgradeFromIDs release) ;;;
  let! now := nowUTC in
  let! id := newID "bpl" in
  ret (release <| br_Meta := newMeta id now |> <| br_State := BlueprintDraft |>
         <| br_BlueprintName := normalizeName (br_BlueprintName release) |>
         <| br_RequestedBy := TrimSpace actor |>
         <| br_UpgradeFromIDs := sortStrings (br_UpgradeFromIDs release) |>).

Definition commitBlueprintReleaseLocked (release : BlueprintRelease) (actor : string) : Store unit :=
  let id := rm_ID (br_Meta release) in
  putBlueprintRelease id release ;;;
  appendAuditLocked actor "blueprint_release.created" "blueprintRelease" id (rm_Revision (br_Meta release))
    [("projectId", MStr (br_ProjectID release)); ("blueprintName", MStr (br_BlueprintName release));
     ("blueprintVersion", MStr (br_BlueprintVersion release))] ;;;
  appendOutboxLocked "blueprintRelease" id "blueprint_release.created" (PayloadBlueprintRelease release).

Definition CreateBlueprintRelease (release : BlueprintRelease) (actor : string) : Store BlueprintRelease :=
  let! s := get in
  let! revision := get_opt (ms_revisions s !! br_CurrentRevisionID release) ErrNotFound in
  let! prepared := prepareBlueprintReleaseLocked release revision actor in
  commitBlueprintReleaseLocked prepared actor ;;;
  ret prepared.

Definition CreateBlueprintReleaseWithRevision (revision : BlueprintRevision) (release : BlueprintRelease)
    (actor : string) : Store (BlueprintRevision * BlueprintRelease) :=
  let! (preparedRevision, existing) := prepareBlueprintRevisionLocked revision in
  let release := release <| br_ProjectID := bv_ProjectID preparedRevision |>
                   <| br_BlueprintName := bv_BlueprintName preparedRevision |>
                   <| br_BlueprintVersion := bv_BlueprintVersion preparedRevision |>
                   <| br_CurrentRevisionID := rm_ID (bv_Meta preparedRevision) |>
                   <| br_CurrentBlueprintDigest := bv_BlueprintDigest preparedRevision |>
                   <| br_CatalogDigest := bv_CatalogDigest preparedRevision |> in
  let! preparedRelease := prepareBlueprintReleaseLocked release preparedRevision actor in
  when (negb existing) (commitBlueprintRevisionLocked preparedRevision actor) ;;;
  commitBlueprintReleaseLocked preparedRelease actor ;;;
  ret (preparedRevision, preparedRelease).

Definition GetBlueprintRelease (id : string) : Store BlueprintRelease :=
  let! s := get in get_opt (ms_blueprintReleases s !! id) ErrNotFound.

Definition prepareBlueprintDraftUpdateLocked (id : string) (expected : Z) (revision : BlueprintRevision)
    (executionReady : bool) (planStatus : string) (upgradeFromIDs : list string) : Store BlueprintRelease :=
  let! s := get in
  let! current := get_opt (ms_blueprintReleases s !! id) ErrNotFound in
  fail_if (rm_Revision (br_Meta current) != expected) ErrConflict ;;;
  fail_if (br_State current != BlueprintDraft) ErrImmutable ;;;
  fail_if ((bv_ProjectID revision != br_ProjectID current) || (bv_BlueprintName revision != br_BlueprintName current)
           || (bv_BlueprintVersion revision != br_BlueprintVersion current)) ErrValidation ;;;
  checkUpgradeSources s (Some id) (fun source => (br_ProjectID source == br_ProjectID current)
      && (br_BlueprintName source == br_BlueprintName current) && upgradable (br_State source)) [] upgradeFromIDs ;;;
  let! now := nowUTC in
  ret (current <| br_CurrentRevisionID := rm_ID (bv_Meta revision) |>
         <| br_CurrentBlueprintDigest := bv_BlueprintDigest revision |>
         <| br_CatalogDigest := bv_CatalogDigest revision |> <| br_ExecutionReady := executionReady |>
         <| br_PlanStatus := TrimSpace planStatus |> <| br_UpgradeFromIDs := sortStrings upgradeFromIDs |>
         <| br_Meta := bump (br_Meta current) now |>).

Definition commitBlueprintDraftUpdateLocked (current : BlueprintRelease) (actor : string) : Store unit :=
  let id := rm_ID (br_Meta current) in
  putBlueprintRelease id current ;;;
  appendAuditLocked actor "blueprint_release.draft_updated" "blueprintRelease" id (rm_Revision (br_Meta current))
    [("revisionId", MStr (br_CurrentRevisionID current));
     ("blueprintDigest", MStr (br_CurrentBlueprintDigest current))] ;;;
  appendOutboxLocked "blueprintRelease" id "blueprint_release.draft_updated" (PayloadBlueprintRelease current).

Definition UpdateBlueprintReleaseDraft (id : string) (expected : Z) (revisionID blueprintDigest catalogDigest : string)
    (executionReady : bool) (planStatus : string) (upgradeFromIDs : list string) (actor : string)
    : Store BlueprintRelease :=
  let! s := get in
  let! revision := get_opt (ms_revisions s !! revisionID) ErrNotFound in
  fail_if ((bv_BlueprintDigest revision != blueprintDigest) || (bv_CatalogDigest revision != catalogDigest))
    ErrValidation ;;;
  let! updated := prepareBlueprintDraftUpdateLocked id expected revision executionReady planStatus upgradeFromIDs in
  commitBlueprintDraftUpdateLocked updated actor ;;;
  ret updated.

Definition UpdateBlueprintReleaseDraftWithRevision (id : string) (expected : Z) (revision : BlueprintRevision)
    (executionReady : bool) (planStatus : string) (upgradeFromIDs : list string) (actor : string)
    : Store (BlueprintRevision * BlueprintRelease) :=
  let! s := get in
  let! current := get_opt (ms_blueprintReleases s !! id) ErrNotFound in
  fail_if (rm_Revision (br_Meta current) != expected) ErrConflict ;;;
  fail_if (br_State current != BlueprintDraft) ErrImmutable ;;;
  let! (preparedRevision, existing) := prepareBlueprintRevisionLocked revision in
  let! updated := prepareBlueprintDraftUpdateLocked id expected preparedRevision executionReady planStatus upgradeFromIDs in
  when (negb existing) (commitBlueprintRevisionLocked preparedRevision actor) ;;;
  commitBlueprintDraftUpdateLocked updated actor ;;;
  ret (preparedRevision, updated).

(** the checks made when a release is published *)
Definition publicationGate (s : MemoryStore) (current : BlueprintRelease) (actor : string) : Store unit :=
  fail_if (TrimSpace actor == "") ErrValidation ;;;
  when (TrimSpace (br_CatalogReleaseID current) != "")
    (let! catalogRelease :=
       match ms_catalogReleases s !! br_CatalogReleaseID current with
       | Some r => if catalogReleaseUsable r (br_CatalogDigest current) (projectOrganization s (br_ProjectID current))
                   then ret r else raise ErrValidation
       | None => raise ErrValidation
       end in
     checkCatalogSignature s catalogRelease) ;;;
  fail_if (negb (forallb (fun sourceID =>
             match ms_blueprintReleases s !! sourceID with
             | Some source => upgradable (br_State source)
             | None => false
             end) (br_UpgradeFromIDs current))) ErrValidation.

(** the fields of [current] written by a transition to [to], in the order of the code *)
Definition stampBlueprintRelease (current : BlueprintRelease) (to : BlueprintLifecycleState) (actor : string)
    (now : Time) : BlueprintRelease :=
  let from := br_State current in
  let current := if to == BlueprintPublished
                 then current <| br_PublishedBy := actor |> <| br_PublishedAt := Some now |> else current in
  let current := if to == BlueprintReview
                 then current <| br_RequestedBy := actor |> <| br_ReviewRequestedAt := Some now |> else current in
  let current := if (from == BlueprintReview) && (to == BlueprintDraft)
                 then current <| br_ReviewRequestedAt := None |> else current in
  let current := if to == BlueprintDeprecated
                 then current <| br_DeprecatedBy := actor |> <| br_DeprecatedAt := Some now |> else current in
  let current := if to == BlueprintRevoked
                 then current <| br_RevokedBy := actor |> <| br_RevokedAt := Some now |> else current in
  current <| br_State := to |> <| br_Meta := bump (br_Meta current) now |>.

Definition TransitionBlueprintRelease (id : string) (expected : Z) (to : BlueprintLifecycleState) (actor : string)
    : Store BlueprintRelease :=
  let! s := get in
  let! current := get_opt (ms_blueprintReleases s !! id) ErrNotFound in
  fail_if (rm_Revision (br_Meta current) != expected) ErrConflict ;;;
  let from := br_State current in
  fail_if (negb (validBlueprintTransition from to)) ErrInvalidTransition ;;;
  let! now := nowUTC in
  when (to == BlueprintPublished) (publicationGate s current actor) ;;;
  let current := stampBlueprintRelease current to actor now in
  putBlueprintRelease id current ;;;
  let action := "blueprint_release." +:+ ToLower (BlueprintLifecycleState_string to) in
  appendAuditLocked actor action "blueprintRelease" id (rm_Revision (br_Meta current))
    [("from", MStr (BlueprintLifecycleState_string from)); ("to", MStr (BlueprintLifecycleState_string to))] ;;;
  appendOutboxLocked "blueprintRelease" id action (PayloadBlueprintRelease current) ;;;
  ret current.
End signatures.

(** ** Assignments *)

Definition CreateAssignment (a : Assignment) (actor : string) : Store Assignment :=
  let! s := get in
  let! _ := get_opt (ms_projects s !! as_ProjectID a) ErrNotFound in
  let! _ := get_opt (ms_revisions s !! as_BlueprintRevisionID a) ErrNotFound in
  fail_if (TrimSpace (as_TargetRef a) == "") ErrValidation ;;;
  fail_if (map_any (fun _ x => (as_ProjectID x == as_ProjectID a) && (as_TargetRef x == as_TargetRef a))
             (ms_assignments s)) ErrDuplicateName ;;;
  let! now := nowUTC in
  let! id := newID "asn" in
  let a := a <| as_Meta := newMeta id now |> <| as_DesiredGeneration := 1 |> in
  putAssignment id a ;;;
  appendAuditLocked actor "assignment.created" "assignment" id 1 [] ;;;
  appendOutboxLocked "assignment" id "assignment.created" (PayloadAssignment a) ;;;
  ret a.

Definition UpdateAssignment (id : string) (expected : Z) (revisionID : string) (generation : Z) (actor : string)
    : Store Assignment :=
  let! s := get in
  let! a := get_opt (ms_assignments s !! id) ErrNotFound in
  fail_if (rm_Revision (as_Meta a) != expected) ErrConflict ;;;
  let! _ := get_opt (ms_revisions s !! revisionID) ErrNotFound in
  fail_if (generation <=? as_DesiredGeneration a) ErrValidation ;;;
  let! now := nowUTC in
  let a := a <| as_BlueprintRevisionID := revisionID |> <| as_DesiredGeneration := generation |>
             <| as_Meta := bump (as_Meta a) now |> in
  putAssignment id a ;;;
  appendAuditLocked actor "assignment.updated" "assignment" id (rm_Revision (as_Meta a))
    [("desiredGeneration", MInt generation)] ;;;
  appendOutboxLocked "assignment" id "assignment.updated" (PayloadAssignment a) ;;;
  ret a.

Definition GetAssignment (id : string) : Store Assignment :=
  let! s := get in get_opt (ms_assignments s !! id) ErrNotFound.
