(* ===== verification/BlueprintTheorems.v ===== *)
(** * Correctness of blueprint releases and assignments

    Uniqueness and reference integrity, what never changes once a release is
    published, and the checks that publication makes. *)
From S2P Require Import Prelude GoStrings Digest Encoding Model Store Lifecycle OperationSystem OperationRuns.
From S2P Require Import Demo Collections Organizations TenancyTheorems Catalog CatalogTheorems Blueprints.

Module Blueprint.

(** ** What the records keep *)

Definition settled_state (st : BlueprintLifecycleState) : bool :=
  match st with BlueprintDraft | BlueprintReview => false | _ => true end.

Definition stage (st : BlueprintLifecycleState) : nat :=
  match st with
  | BlueprintDraft | BlueprintReview => 0
  | BlueprintPublished => 1
  | BlueprintDeprecated => 2
  | BlueprintRevoked => 3
  end.

Definition identity (r : BlueprintRelease) :=
  (rm_ID (br_Meta r), br_ProjectID r, br_BlueprintName r, br_BlueprintVersion r, br_CatalogReleaseID r,
   br_SourceReleaseID r).
Definition content (r : BlueprintRelease) :=
  (br_CurrentRevisionID r, br_CurrentBlueprintDigest r, br_CatalogDigest r, br_UpgradeFromIDs r, br_ExecutionReady r,
   br_PlanStatus r, br_PublishedBy r, br_PublishedAt r).

Definition release_evolves (r r' : BlueprintRelease) : Prop :=
  identity r' = identity r /\
  (settled_state (br_State r) = true -> content r' = content r /\ (stage (br_State r) <= stage (br_State r'))%nat).

(** a generation names one revision for good *)
Definition assignment_evolves (a a' : Assignment) : Prop :=
  rm_ID (as_Meta a') = rm_ID (as_Meta a) /\ as_ProjectID a' = as_ProjectID a /\ as_TargetRef a' = as_TargetRef a /\
  (as_DesiredGeneration a' = as_DesiredGeneration a /\ as_BlueprintRevisionID a' = as_BlueprintRevisionID a \/
   as_DesiredGeneration a < as_DesiredGeneration a').

Lemma bp_settled_stage st : settled_state st = true <-> (1 <= stage st)%nat.
Proof. destruct st; cbn; split; intros; try done; lia. Qed.

Lemma bp_release_evolves_refl r : release_evolves r r.
Proof. split; [done|]. intros _. split; [done|lia]. Qed.
Lemma bp_release_evolves_trans r1 r2 r3 : release_evolves r1 r2 -> release_evolves r2 r3 -> release_evolves r1 r3.
Proof.
  intros [Hi Hs] [Hi' Hs']. split; [congruence|]. intros H. destruct (Hs H) as [Hc Hr].
  destruct Hs' as [Hc' Hr']; [apply bp_settled_stage; apply bp_settled_stage in H; lia|]. split; [congruence|lia].
Qed.
Lemma assignment_evolves_refl a : assignment_evolves a a.
Proof. split_and!; [done..|by left]. Qed.
Lemma assignment_evolves_trans a b c : assignment_evolves a b -> assignment_evolves b c -> assignment_evolves a c.
Proof.
  intros (? & ? & ? & [[? ?]|?]) (? & ? & ? & [[? ?]|?]); split_and!; try congruence; [left; split; congruence|right; lia..].
Qed.

Record kept (s s' : MemoryStore) : Prop := {
  kp_drawn : drawn s s';
  kp_revisions : ms_revisions s ⊆ ms_revisions s';
  kp_releases : evolves release_evolves (ms_blueprintReleases s) (ms_blueprintReleases s');
  kp_assignments : evolves assignment_evolves (ms_assignments s) (ms_assignments s');
}.

Lemma kept_same s s' :
  drawn s s' -> ms_revisions s' = ms_revisions s -> ms_blueprintReleases s' = ms_blueprintReleases s ->
  ms_assignments s' = ms_assignments s -> kept s s'.
Proof.
  intros Hd Hk Hv Hr. split; [done| | |]; rewrite ?Hk, ?Hv, ?Hr;
    eauto using evolves_refl, bp_release_evolves_refl, assignment_evolves_refl.
Qed.

Lemma kept_trans s1 s2 s3 : kept s1 s2 -> kept s2 s3 -> kept s1 s3.
Proof.
  intros [] []. split; [by eapply drawn_trans|by etrans|by eapply evolves_trans; [apply bp_release_evolves_trans|..]|
    by eapply evolves_trans; [apply assignment_evolves_trans|..]].
Qed.

(** ** The invariant *)

Definition revisions_ok (s : MemoryStore) (m : gmap string BlueprintRevision) : Prop :=
  filed s m /\ (forall k v, m !! k = Some v -> rm_ID (bv_Meta v) = k) /\
  (forall k1 k2 v1 v2, m !! k1 = Some v1 -> m !! k2 = Some v2 -> sameBlueprintRevision v1 v2 = true -> k1 = k2).

(** the revision a release points to *)
Definition points_to (m : gmap string BlueprintRevision) (r : BlueprintRelease) : Prop :=
  exists v, m !! br_CurrentRevisionID r = Some v /\ bv_ProjectID v = br_ProjectID r /\
    normalizeName (bv_BlueprintName v) = br_BlueprintName r /\ bv_BlueprintVersion v = br_BlueprintVersion r /\
    bv_BlueprintDigest v = br_CurrentBlueprintDigest r /\ bv_CatalogDigest v = br_CatalogDigest r.

Definition same_name (r1 r2 : BlueprintRelease) : Prop :=
  br_ProjectID r1 = br_ProjectID r2 /\ normalizeName (br_BlueprintName r1) = normalizeName (br_BlueprintName r2) /\
  br_BlueprintVersion r1 = br_BlueprintVersion r2.
Definition same_target (a1 a2 : Assignment) : Prop :=
  as_ProjectID a1 = as_ProjectID a2 /\ as_TargetRef a1 = as_TargetRef a2.

Record blueprint_wf (s : MemoryStore) : Prop := {
  bw_gen : forall n m p q, ms_id s n p = ms_id s m q -> n = m;
  bw_revisions : revisions_ok s (ms_revisions s);
  bw_filed : filed s (ms_blueprintReleases s);
  bw_ids : forall k r, ms_blueprintReleases s !! k = Some r -> rm_ID (br_Meta r) = k;
  bw_points : forall k r, ms_blueprintReleases s !! k = Some r -> points_to (ms_revisions s) r;
  bw_unique : forall k1 k2 r1 r2, ms_blueprintReleases s !! k1 = Some r1 -> ms_blueprintReleases s !! k2 = Some r2 ->
    same_name r1 r2 -> k1 = k2;
  bw_assigned : filed s (ms_assignments s);
  bw_assignments : forall k a, ms_assignments s !! k = Some a ->
    is_Some (ms_revisions s !! as_BlueprintRevisionID a) /\ 1 <= as_DesiredGeneration a;
  bw_targets : forall k1 k2 a1 a2, ms_assignments s !! k1 = Some a1 -> ms_assignments s !! k2 = Some a2 ->
    same_target a1 a2 -> k1 = k2;
}.

Definition good (s s' : MemoryStore) : Prop := blueprint_wf s' /\ kept s s'.

Lemma bp_revisions_ok_mono s s' m : drawn s s' -> revisions_ok s m -> revisions_ok s' m.
Proof. intros Hd (Hf & H). split; [by eapply filed_mono|done]. Qed.
Lemma bp_points_mono m m' r : m ⊆ m' -> points_to m r -> points_to m' r.
Proof. intros Hs (v & Hv & H). exists v. split; [by eapply lookup_weaken|done]. Qed.
Lemma some_mono (m m' : gmap string BlueprintRevision) k : m ⊆ m' -> is_Some (m !! k) -> is_Some (m' !! k).
Proof. intros Hs [v Hv]. exists v. by eapply lookup_weaken. Qed.
Lemma same_name_sym r1 r2 : same_name r1 r2 -> same_name r2 r1.
Proof. by intros (? & ? & ?). Qed.
Lemma same_target_sym a1 a2 : same_target a1 a2 -> same_target a2 a1.
Proof. by intros (? & ?). Qed.
Lemma same_revision_sym r1 r2 : sameBlueprintRevision r1 r2 = true -> sameBlueprintRevision r2 r1 = true.
Proof.
  unfold sameBlueprintRevision. intros H. norm_bool. rewrite !andb_true_iff, !bool_decide_eq_true. intuition congruence.
Qed.

Section preserve.
Context (s : MemoryStore) (Hwf : blueprint_wf s).

Lemma bp_good_same s' :
  drawn s s' -> ms_revisions s' = ms_revisions s -> ms_blueprintReleases s' = ms_blueprintReleases s ->
  ms_assignments s' = ms_assignments s -> good s s'.
Proof.
  intros Hd Hk Hv Hr. split; [|by apply kept_same]. destruct Hwf.
  split; rewrite ?Hk, ?Hv, ?Hr, ?(dr_gen _ _ Hd); eauto using filed_mono, bp_revisions_ok_mono.
Qed.

(** revisions are added *)
Lemma bp_good_revision s' revs :
  drawn s s' -> ms_revisions s' = revs -> ms_blueprintReleases s' = ms_blueprintReleases s ->
  ms_assignments s' = ms_assignments s -> ms_revisions s ⊆ revs -> revisions_ok s' revs -> good s s'.
Proof.
  intros Hd Hv Hr Ha Hsub Hok. split.
  - destruct Hwf as [? ? ? ? ? ? ? Has ?].
    split; rewrite ?Ha, ?Hv, ?Hr, ?(dr_gen _ _ Hd); eauto using filed_mono, bp_points_mono.
    intros k a Hk. destruct (Has _ _ Hk). eauto using some_mono.
  - split; rewrite ?Ha, ?Hv, ?Hr; eauto using evolves_refl, bp_release_evolves_refl, assignment_evolves_refl.
Qed.

(** revisions are added, and a release is stored *)
Lemma bp_good_release s' revs k r :
  drawn s s' -> ms_revisions s' = revs -> ms_blueprintReleases s' = <[k := r]> (ms_blueprintReleases s) ->
  ms_assignments s' = ms_assignments s -> ms_revisions s ⊆ revs -> revisions_ok s' revs ->
  filed s' (<[k := r]> (ms_blueprintReleases s)) -> rm_ID (br_Meta r) = k -> points_to revs r ->
  (forall k' r', ms_blueprintReleases s !! k' = Some r' -> same_name r r' -> k' = k) ->
  (forall r0, ms_blueprintReleases s !! k = Some r0 -> release_evolves r0 r) -> good s s'.
Proof.
  intros Hd Hv Hr Ha Hsub Hok Hf Hid Hp Hu He. split.
  - destruct Hwf as [? ? ? ? ? ? ? Has ?].
    split; rewrite ?Ha, ?Hv, ?Hr, ?(dr_gen _ _ Hd); eauto using filed_mono.
    + intros k' r' [[<- <-]|[_ ?]]%lookup_insert_Some; eauto.
    + intros k' r' [[<- <-]|[_ ?]]%lookup_insert_Some; eauto using bp_points_mono.
    + apply unique_insert; [apply same_name_sym|done|done].
    + intros k' a Hk. destruct (Has _ _ Hk). eauto using some_mono.
  - split; rewrite ?Ha, ?Hv, ?Hr; eauto using evolves_refl, assignment_evolves_refl.
    apply evolves_insert; [apply bp_release_evolves_refl|done].
Qed.

(** an assignment is stored *)
Lemma good_assignment s' k a :
  drawn s s' -> ms_revisions s' = ms_revisions s -> ms_blueprintReleases s' = ms_blueprintReleases s ->
  ms_assignments s' = <[k := a]> (ms_assignments s) -> filed s' (<[k := a]> (ms_assignments s)) ->
  is_Some (ms_revisions s !! as_BlueprintRevisionID a) -> 1 <= as_DesiredGeneration a ->
  (forall k' a', ms_assignments s !! k' = Some a' -> same_target a a' -> k' = k) ->
  (forall a0, ms_assignments s !! k = Some a0 -> assignment_evolves a0 a) -> good s s'.
Proof.
  intros Hd Hv Hr Ha Hf Hp Hg Hu He. split.
  - destruct Hwf. split; rewrite ?Ha, ?Hv, ?Hr, ?(dr_gen _ _ Hd); eauto using filed_mono, bp_revisions_ok_mono.
    + intros k' a' [[<- <-]|[_ ?]]%lookup_insert_Some; eauto.
    + apply unique_insert; [apply same_target_sym|done|done].
  - split; rewrite ?Ha, ?Hv, ?Hr; eauto using evolves_refl, bp_release_evolves_refl.
    apply evolves_insert; [apply assignment_evolves_refl|done].
Qed.
End preserve.

(** ** Handlers *)

Definition afterRevision (m : gmap string BlueprintRevision) (rev : BlueprintRevision) (existing : bool)
    : gmap string BlueprintRevision :=
  if existing then m else <[rm_ID (bv_Meta rev) := rev]> m.

Definition prepared_ok (s : MemoryStore) (rev : BlueprintRevision) (existing : bool) (s' : MemoryStore) : Prop :=
  let m := afterRevision (ms_revisions s) rev existing in
  ms_revisions s ⊆ m /\ revisions_ok s' m /\ m !! rm_ID (bv_Meta rev) = Some rev.

(** a stored revision needs no commit *)
Lemma stored_prepared s k rev : blueprint_wf s -> ms_revisions s !! k = Some rev -> prepared_ok s rev true s.
Proof.
  intros Hwf Hk. destruct (bw_revisions _ Hwf) as (Hf & Hid & Hu).
  split_and!; [done|done|]. cbn. by rewrite (Hid _ _ Hk).
Qed.

Lemma check_sources_reads s0 self ok ids : forall seen s,
  wp (checkUpgradeSources s0 self ok seen ids) (fun _ s' => s' = s) s.
Proof. induction ids as [|i ids IH]; intros seen s; cbn [checkUpgradeSources]; wp_go; try done; apply IH. Qed.

Lemma check_overlay_reads s0 r o sc s : wp (checkOverlay s0 r o sc) (fun _ s' => s' = s) s.
Proof. unfold checkOverlay, when. wp_go; try done. unfold fail_if. by wp_go. Qed.

(** a check that leaves the store alone *)
Lemma wp_bind_check {B} (m : Store unit) (k : unit -> Store B) Q s :
  wp m (fun _ s' => s' = s) s -> (forall e, Q (Fail e) s) -> wp (k tt) Q s -> wp (bind m k) Q s.
Proof. intros Hm Hf Hk. apply wp_bind. eapply wp_mono; [exact Hm|]. by intros [[]|e] s' ->. Qed.

Lemma bp_prepare_revision s rev0 : blueprint_wf s ->
  wp (prepareBlueprintRevisionLocked rev0) (reads s (fun p s' => prepared_ok s p.1 p.2 s')) s.
Proof.
  intros Hwf. unfold prepareBlueprintRevisionLocked. wp_go; try (split; [done|split; [drawing|done]]).
  do 2 (apply wp_bind_check; [apply check_overlay_reads|split; [done|split; [drawing|done]]|]).
  wp_go.
  - split; [done|]. split; [drawing|]. apply map_find_Some in Heqo as [Hk _]. by eapply stored_prepared.
  - split; [done|]. split; [drawing|]. cbn [fst snd].
    destruct (bw_revisions _ Hwf) as (Hf & Hid & Hu). rewrite map_find_None in Heqo.
    split_and!; cbn [afterRevision].
    + apply insert_subseteq. by apply (fresh_unfiled s _ (ms_ids s) "bpr"); [apply Hwf|done|lia].
    + split_and!; [apply (filed_insert s); [drawing|cbn; lia|done]| |].
      * intros k v [[<- <-]|[_ Hk]]%lookup_insert_Some; [done|by apply Hid].
      * apply (unique_insert (fun a b => sameBlueprintRevision a b = true));
          [apply same_revision_sym|done|]. intros k' b Hb Hs. pose proof (Heqo _ _ Hb) as Hn.
        unfold sameBlueprintRevision in Hs, Hn. cbn -[NormalizeBlueprintRevisionResolution] in Hs. congruence.
    + apply lookup_insert_eq.
Qed.

Section handlers.
Variable Verify : Bytes -> Bytes -> Bytes -> bool.

Definition matches (rev : BlueprintRevision) (r : BlueprintRelease) : Prop :=
  bv_ProjectID rev = br_ProjectID r /\ normalizeName (bv_BlueprintName rev) = br_BlueprintName r /\
  bv_BlueprintVersion rev = br_BlueprintVersion r /\ bv_BlueprintDigest rev = br_CurrentBlueprintDigest r /\
  bv_CatalogDigest rev = br_CatalogDigest r.

(** the release that creation prepares is a fresh draft of the revision *)
Lemma bp_prepare_release s rel0 rev actor :
  wp (prepareBlueprintReleaseLocked Verify rel0 rev actor) (reads s (fun r s' =>
    (exists n, (ms_ids s <= n < ms_ids s')%nat /\ rm_ID (br_Meta r) = ms_id s n "bpl") /\
    br_State r = BlueprintDraft /\ br_CurrentRevisionID r = br_CurrentRevisionID rel0 /\ matches rev r /\
    forall k' r', ms_blueprintReleases s !! k' = Some r' -> ~ same_name r r')) s.
Proof.
  unfold prepareBlueprintReleaseLocked, checkCatalogSignature.
  wp_go; try (split; [done|split; [drawing|done]]).
  all: apply wp_bind_check; [apply check_sources_reads|split; [done|split; [drawing|done]]|].
  all: wp_go; split; [done|split; [drawing|]]; norm_bool.
  all: match goal with Hm : map_any _ _ = false |- _ => rewrite map_any_false in Hm; rename Hm into Hdup end.
  all: split; [exists (ms_ids s); cbn; split; [lia|done]|]; split; [done|split; [done|]].
  all: split; [split_and!; cbn; congruence|].
  all: intros k' r' Hk' (E1 & E2 & E3); cbn in E1, E2, E3; rewrite normalizeName_idem in E2.
  all: pose proof (Hdup _ _ Hk') as Hd; cbv beta in Hd.
  all: by rewrite E1, E2, E3, !bool_decide_eq_true_2 in Hd.
Qed.

Section store.
Context (s : MemoryStore) (Hwf : blueprint_wf s).
Local Abbreviation keeps m := (wp m (fun _ s' => good s s') s).

Lemma bp_created_good rev known r sp s' :
  prepared_ok s rev known sp -> drawn s sp -> drawn sp s' ->
  (exists n, (ms_ids sp <= n < ms_ids s')%nat /\ rm_ID (br_Meta r) = ms_id sp n "bpl") ->
  br_State r = BlueprintDraft -> br_CurrentRevisionID r = rm_ID (bv_Meta rev) -> matches rev r ->
  (forall k' r', ms_blueprintReleases s !! k' = Some r' -> ~ same_name r r') ->
  ms_revisions s' = afterRevision (ms_revisions s) rev known ->
  ms_blueprintReleases s' = <[rm_ID (br_Meta r) := r]> (ms_blueprintReleases s) ->
  ms_assignments s' = ms_assignments s -> good s s'.
Proof.
  intros (Hsub & Hok & Hlook) Hd1 Hd2 (n & Hn & Hid) Hst Hcur Hm Hu Hr Hrel Ha.
  pose proof (drawn_trans _ _ _ Hd1 Hd2) as Hd. rewrite (dr_gen _ _ Hd1) in Hid.
  assert (Hle : (ms_ids s <= n)%nat) by (destruct Hd1; lia).
  eapply bp_good_release; [done|done|exact Hr|exact Hrel|done|exact Hsub|exact (bp_revisions_ok_mono _ _ _ Hd2 Hok)| |done| | |].
  - rewrite Hid. apply (filed_insert s); [done|lia|apply Hwf].
  - exists rev. rewrite Hcur. by split.
  - intros k' r' Hk' Hsame. by destruct (Hu _ _ Hk').
  - intros r0 Hr0. exfalso. rewrite Hid, (fresh_unfiled s) in Hr0; [done|apply Hwf|apply Hwf|done].
Qed.

Lemma bp_create_revision_keeps rev actor : keeps (CreateBlueprintRevision rev actor).
Proof.
  unfold CreateBlueprintRevision.
  eapply wp_reads; [by apply bp_prepare_revision|intros; by apply bp_good_same|].
  intros [v known] t i Hd (Hsub & Hok & _). unfold commitBlueprintRevisionLocked; unfold_puts.
  wp_go; [|by apply bp_good_same]. destruct known; [discriminate|].
  eapply bp_good_revision; [done|drawing|reflexivity|done|done|exact Hsub|].
  eapply bp_revisions_ok_mono; [|exact Hok]. drawing.
Qed.

Lemma bp_create_release_keeps rel actor : keeps (CreateBlueprintRelease Verify rel actor).
Proof.
  unfold CreateBlueprintRelease. do 2 wp_step; [apply bp_good_same; done || drawing|].
  rename a into rev, H into Hrev.
  eapply wp_reads; [apply bp_prepare_release|intros; by apply bp_good_same|].
  intros r t i Hd (Hn & Hst & Hcur & Hm & Hu). unfold commitBlueprintReleaseLocked; unfold_puts. wp_go.
  pose proof (stored_prepared _ _ _ Hwf Hrev) as Hp.
  eapply (bp_created_good rev true r s); [exact Hp|drawing|drawing| |done| |done|done|done|done|done].
  - destruct Hn as (n & Hlt & Hid). exists n. cbn in *. split; [lia|done].
  - rewrite Hcur. symmetry. exact (proj1 (proj2 (bw_revisions _ Hwf)) _ _ Hrev).
Qed.

Lemma bp_create_both_keeps rev rel actor : keeps (CreateBlueprintReleaseWithRevision Verify rev rel actor).
Proof.
  unfold CreateBlueprintReleaseWithRevision.
  eapply wp_reads; [by apply bp_prepare_revision|intros; by apply bp_good_same|].
  intros [v known] t i Hd Hp. cbn [fst snd] in Hp. cbv zeta.
  eapply wp_reads; [apply bp_prepare_release|intros; apply bp_good_same; done || drawing|].
  intros r t' i' Hd' (Hn & Hst & Hcur & Hm & Hu).
  unfold commitBlueprintRevisionLocked, commitBlueprintReleaseLocked; unfold_puts. wp_go.
  all: eapply (bp_created_good v known r); [exact Hp|done| |destruct Hn as (n & Hlt & Hid); exists n; cbn in *; split; [lia|exact Hid]
    |done|done|done|done| |done|done].
  all: first [drawing | by destruct known].
Qed.

(** a stored release is replaced by one of the same identity *)
Lemma bp_updated_good revs id r0 r s' :
  ms_blueprintReleases s !! id = Some r0 -> drawn s s' -> ms_revisions s' = revs -> ms_revisions s ⊆ revs ->
  revisions_ok s' revs -> ms_blueprintReleases s' = <[id := r]> (ms_blueprintReleases s) ->
  ms_assignments s' = ms_assignments s -> identity r = identity r0 -> points_to revs r ->
  (settled_state (br_State r0) = true -> content r = content r0 /\ (stage (br_State r0) <= stage (br_State r))%nat) ->
  good s s'.
Proof.
  intros Hr0 Hd Hv Hsub Hok Hr Ha Hi Hp Hc.
  eapply bp_good_release; [done|done|exact Hv|exact Hr|done|exact Hsub|exact Hok| | |done| |].
  - by eapply (filed_update s); [|apply Hwf|].
  - unfold identity in Hi. injection Hi as -> _ _ _ _ _. exact (bw_ids _ Hwf _ _ Hr0).
  - intros k' r' Hk' (E1 & E2 & E3). unfold identity in Hi. injection Hi as _ I1 I2 I3 _ _.
    symmetry. eapply (bw_unique _ Hwf _ _ _ _ Hr0 Hk'). split_and!; congruence.
  - intros r1 Hr1. assert (r1 = r0) as -> by congruence. by split.
Qed.

(** a stored release carries a normalized name *)
Lemma stored_name id r : ms_blueprintReleases s !! id = Some r -> normalizeName (br_BlueprintName r) = br_BlueprintName r.
Proof. intros Hr. destruct (bw_points _ Hwf _ _ Hr) as (v & _ & _ & <- & _). apply normalizeName_idem. Qed.

Lemma bp_draft_updated id r0 rev known sp s' ready plan ups now :
  ms_blueprintReleases s !! id = Some r0 -> br_State r0 = BlueprintDraft -> prepared_ok s rev known sp -> drawn s sp ->
  drawn sp s' -> bv_ProjectID rev = br_ProjectID r0 -> bv_BlueprintName rev = br_BlueprintName r0 ->
  bv_BlueprintVersion rev = br_BlueprintVersion r0 -> ms_revisions s' = afterRevision (ms_revisions s) rev known ->
  ms_blueprintReleases s' =
    <[rm_ID (br_Meta r0) := r0 <| br_CurrentRevisionID := rm_ID (bv_Meta rev) |>
         <| br_CurrentBlueprintDigest := bv_BlueprintDigest rev |>
         <| br_CatalogDigest := bv_CatalogDigest rev |> <| br_ExecutionReady := ready |>
         <| br_PlanStatus := plan |> <| br_UpgradeFromIDs := ups |>
         <| br_Meta := bump (br_Meta r0) now |>]> (ms_blueprintReleases s) ->
  ms_assignments s' = ms_assignments s -> good s s'.
Proof.
  intros Hr0 Hst (Hsub & Hok & Hlook) Hd1 Hd2 Ho Hn Hv Hr Hrel Ha.
  rewrite (bw_ids _ Hwf _ _ Hr0) in Hrel.
  eapply bp_updated_good; [exact Hr0|by eapply drawn_trans|exact Hr|done| |exact Hrel|done|done| |].
  - exact (bp_revisions_ok_mono _ _ _ Hd2 Hok).
  - exists rev. split; [done|]. cbn. split_and!; try done. rewrite Hn. by eapply stored_name.
  - by rewrite Hst.
Qed.

Lemma bp_update_draft_keeps id e rid bd cd ready plan ups actor :
  keeps (UpdateBlueprintReleaseDraft id e rid bd cd ready plan ups actor).
Proof.
  unfold UpdateBlueprintReleaseDraft, prepareBlueprintDraftUpdateLocked. wp_go; try (apply bp_good_same; done || drawing).
  apply wp_bind_check; [apply check_sources_reads|intros; apply bp_good_same; done || drawing|].
  unfold commitBlueprintDraftUpdateLocked; unfold_puts. wp_go. norm_bool.
  eapply (bp_draft_updated id a0 a true s); try done; [by eapply stored_prepared|drawing].
Qed.

Lemma bp_update_both_keeps id e rev ready plan ups actor :
  keeps (UpdateBlueprintReleaseDraftWithRevision id e rev ready plan ups actor).
Proof.
  unfold UpdateBlueprintReleaseDraftWithRevision. do 4 (wp_step; try (apply bp_good_same; done || drawing)).
  eapply wp_reads; [by apply bp_prepare_revision|intros; by apply bp_good_same|].
  intros [v known] t i Hd Hp. cbn [fst snd] in Hp. unfold prepareBlueprintDraftUpdateLocked.
  wp_go; try (apply bp_good_same; done || drawing).
  apply wp_bind_check; [apply check_sources_reads|intros; apply bp_good_same; done || drawing|].
  unfold commitBlueprintRevisionLocked, commitBlueprintDraftUpdateLocked; unfold_puts. wp_go. all: norm_bool.
  all: eapply (bp_draft_updated id a0); [done|done|exact Hp|exact Hd| |done|done|done| |done|done].
  all: first [drawing | by destruct known | by subst].
Qed.

Lemma stamp_identity a to actor now : identity (stampBlueprintRelease a to actor now) = identity a.
Proof. unfold stampBlueprintRelease. destruct (br_State a), to; reflexivity. Qed.
Lemma stamp_points m a to actor now : points_to m a -> points_to m (stampBlueprintRelease a to actor now).
Proof. unfold stampBlueprintRelease. by destruct (br_State a), to. Qed.
Lemma stamp_content a to actor now :
  validBlueprintTransition (br_State a) to = true -> settled_state (br_State a) = true ->
  content (stampBlueprintRelease a to actor now) = content a /\ (stage (br_State a) <= stage to)%nat.
Proof.
  unfold stampBlueprintRelease. destruct (br_State a), to; intros Hv Hs; try discriminate; split; (reflexivity || cbn; lia).
Qed.

Lemma gate_reads s0 r actor s1 : wp (publicationGate Verify s0 r actor) (fun _ s' => s' = s1) s1.
Proof. unfold publicationGate, checkCatalogSignature. wp_go; unfold fail_if; by wp_go. Qed.

Lemma bp_transition_keeps id e to actor : keeps (TransitionBlueprintRelease Verify id e to actor).
Proof.
  unfold TransitionBlueprintRelease; unfold_puts. do 5 (wp_step; try (apply bp_good_same; done || drawing)).
  apply wp_bind_check.
  - unfold when. apply wp_if; intros _; [apply gate_reads|done].
  - intros. apply bp_good_same; done || drawing.
  - wp_go. norm_bool. eapply (bp_updated_good _ id a); [done|drawing|reflexivity|done| |reflexivity|done|apply stamp_identity| |].
    + eapply bp_revisions_ok_mono; [|apply Hwf]. drawing.
    + apply stamp_points. exact (bw_points _ Hwf _ _ H).
    + by apply stamp_content.
Qed.

Lemma assignment_create_keeps a actor : keeps (CreateAssignment a actor).
Proof.
  unfold CreateAssignment; unfold_puts. wp_go; try (apply bp_good_same; done || drawing).
  rewrite map_any_false in H2.
  eapply (good_assignment s Hwf _ (fresh s "asn")); try done.
  - drawing.
  - apply (filed_insert s); [drawing|cbn; lia|apply Hwf].
  - cbn. intros k' a' Hk' [E1 E2]. cbn in E1, E2. specialize (H2 _ _ Hk'). cbv beta in H2.
    by rewrite E1, E2, !bool_decide_eq_true_2 in H2.
  - intros a0' Ha0. exfalso. unfold fresh in Ha0.
    rewrite (fresh_unfiled s _ (ms_ids s)) in Ha0; [discriminate|apply Hwf|apply Hwf|lia].
Qed.

Lemma assignment_update_keeps id e rid g actor : keeps (UpdateAssignment id e rid g actor).
Proof.
  unfold UpdateAssignment; unfold_puts. wp_go; try (apply bp_good_same; done || drawing). norm_bool.
  destruct (bw_assignments _ Hwf _ _ H) as [_ Hg].
  eapply (good_assignment s Hwf _ id); try done.
  - drawing.
  - by eapply (filed_update s); [drawing|apply Hwf|].
  - cbn. lia.
  - intros k' a' Hk' Ht. symmetry. by eapply (bw_targets _ Hwf _ _ _ _ H Hk').
  - intros a1' Ha1. assert (a1' = a) as -> by congruence. split_and!; try done. by right.
Qed.
End store.

(** ** Histories *)

Inductive BlueprintCall : Type :=
| BCreateRevision (rev : BlueprintRevision) (actor : string)
| BCreateRelease (r : BlueprintRelease) (actor : string)
| BCreateReleaseWithRevision (rev : BlueprintRevision) (r : BlueprintRelease) (actor : string)
| BUpdateDraft (id : string) (expected : Z) (revisionID blueprintDigest catalogDigest : string) (ready : bool)
    (planStatus : string) (upgradeFromIDs : list string) (actor : string)
| BUpdateDraftWithRevision (id : string) (expected : Z) (rev : BlueprintRevision) (ready : bool)
    (planStatus : string) (upgradeFromIDs : list string) (actor : string)
| BTransition (id : string) (expected : Z) (to : BlueprintLifecycleState) (actor : string)
| BCreateAssignment (a : Assignment) (actor : string)
| BUpdateAssignment (id : string) (expected : Z) (revisionID : string) (generation : Z) (actor : string).

Definition blueprint_exec (c : BlueprintCall) : MemoryStore -> MemoryStore * option Error :=
  match c with
  | BCreateRevision rev actor => run1 (CreateBlueprintRevision rev actor)
  | BCreateRelease r actor => run1 (CreateBlueprintRelease Verify r actor)
  | BCreateReleaseWithRevision rev r actor => run1 (CreateBlueprintReleaseWithRevision Verify rev r actor)
  | BUpdateDraft id e rid bd cd ready plan ups actor => run1 (UpdateBlueprintReleaseDraft id e rid bd cd ready plan ups actor)
  | BUpdateDraftWithRevision id e rev ready plan ups actor =>
      run1 (UpdateBlueprintReleaseDraftWithRevision id e rev ready plan ups actor)
  | BTransition id e to actor => run1 (TransitionBlueprintRelease Verify id e to actor)
  | BCreateAssignment a actor => run1 (CreateAssignment a actor)
  | BUpdateAssignment id e rid g actor => run1 (UpdateAssignment id e rid g actor)
  end.

(** blueprint calls, and whatever else happens to the store beside its blueprints *)
Inductive blueprint_step (s : MemoryStore) : MemoryStore -> Prop :=
| blueprint_call c : blueprint_step s (blueprint_exec c s).1
| blueprint_other s' : drawn s s' -> ms_revisions s' = ms_revisions s ->
    ms_blueprintReleases s' = ms_blueprintReleases s -> ms_assignments s' = ms_assignments s -> blueprint_step s s'.

Lemma blueprint_call_good s c : blueprint_wf s -> good s (blueprint_exec c s).1.
Proof.
  intros Hwf. destruct c.
  - exact (bp_create_revision_keeps s Hwf rev actor).
  - exact (bp_create_release_keeps s Hwf r actor).
  - exact (bp_create_both_keeps s Hwf rev r actor).
  - exact (bp_update_draft_keeps s Hwf id expected revisionID blueprintDigest catalogDigest ready planStatus upgradeFromIDs actor).
  - exact (bp_update_both_keeps s Hwf id expected rev ready planStatus upgradeFromIDs actor).
  - exact (bp_transition_keeps s Hwf id expected to actor).
  - exact (assignment_create_keeps s Hwf a actor).
  - exact (assignment_update_keeps s Hwf id expected revisionID generation actor).
Qed.

Lemma blueprint_steps_good s s' : rtc blueprint_step s s' -> blueprint_wf s -> good s s'.
Proof.
  induction 1 as [s|s1 s2 s3 H12 _ IH]; intros Hwf.
  - split; [done|]. by apply kept_same.
  - assert (H : good s1 s2) by (destruct H12; [by apply blueprint_call_good|by apply bp_good_same]).
    destruct (IH (proj1 H)) as [Hwf3 Hk3], H as [Hwf2 Hk2]. split; [done|by eapply kept_trans].
Qed.

Definition blueprint_reachable (s : MemoryStore) : Prop :=
  exists now id, id_source id /\ rtc blueprint_step (NewMemoryStoreWith now id) s.

Lemma blueprint_reachable_wf s : blueprint_reachable s -> blueprint_wf s.
Proof.
  intros (now & id & Hid & Hs). eapply blueprint_steps_good; [exact Hs|].
  split; [exact Hid|..]; cbn; try (intros k v; intros; by rewrite lookup_empty in *).
  split_and!; intros k v; intros; by rewrite lookup_empty in *.
Qed.

(** C35: blueprint integrity.  In every reachable store, a project has at most one
    release per normalized name and version and one assignment per target, equal
    revisions (project and all five digests) are stored once, every release
    points to a stored revision of its project, name, version and digests, and
    every assignment to a stored revision. *)
Theorem reachable_blueprints_are_consistent s :
  blueprint_reachable s ->
  (forall k1 k2 r1 r2, ms_blueprintReleases s !! k1 = Some r1 -> ms_blueprintReleases s !! k2 = Some r2 ->
     same_name r1 r2 -> k1 = k2) /\
  (forall k1 k2 v1 v2, ms_revisions s !! k1 = Some v1 -> ms_revisions s !! k2 = Some v2 ->
     sameBlueprintRevision v1 v2 = true -> k1 = k2) /\
  (forall k r, ms_blueprintReleases s !! k = Some r -> points_to (ms_revisions s) r) /\
  (forall k a, ms_assignments s !! k = Some a -> is_Some (ms_revisions s !! as_BlueprintRevisionID a)) /\
  (forall k1 k2 a1 a2, ms_assignments s !! k1 = Some a1 -> ms_assignments s !! k2 = Some a2 ->
     same_target a1 a2 -> k1 = k2).
Proof.
  intros Hr. destruct (blueprint_reachable_wf _ Hr) as [? (? & ? & ?) ? ? ? ? ? Ha ?].
  split_and!; try done. intros k a Hk. by apply Ha in Hk as [? _].
Qed.

(** Published blueprints are locked.  Over any sequence of steps, revisions
    never change; a release keeps its identity, and one that was published keeps
    its revision, digests, upgrade sources and publication record and only moves
    on towards REVOKED; an assignment keeps its target, and its revision changes
    only with a greater desired generation. *)
Theorem published_blueprints_are_frozen s s' :
  blueprint_reachable s -> rtc blueprint_step s s' ->
  ms_revisions s ⊆ ms_revisions s' /\
  evolves release_evolves (ms_blueprintReleases s) (ms_blueprintReleases s') /\
  evolves assignment_evolves (ms_assignments s) (ms_assignments s').
Proof.
  intros Hr Hs. destruct (blueprint_steps_good _ _ Hs (blueprint_reachable_wf _ Hr)) as [_ []]. by split_and!.
Qed.

(** ** Publication *)

(** what the gate has checked about a linked catalog release *)
Definition catalog_ready (s : MemoryStore) (r : BlueprintRelease) : Prop :=
  exists c key, ms_catalogReleases s !! br_CatalogReleaseID r = Some c /\ cr_State c = CatalogPublished /\
    cr_ManifestDigest c = br_CatalogDigest r /\
    (cr_Visibility c = CatalogVisibilityPrivate -> cr_OrganizationID c = projectOrganization s (br_ProjectID r)) /\
    ms_catalogTrustKeys s !! cr_SigningKeyID c = Some key /\ ck_State key = CatalogTrustKeyActive /\
    signed_by Verify key c.

Definition source_ready (s : MemoryStore) (sourceID : string) : Prop :=
  exists r, ms_blueprintReleases s !! sourceID = Some r /\ (br_State r = BlueprintPublished \/ br_State r = BlueprintDeprecated).

Lemma usable_catalog c digest org :
  catalogReleaseUsable c digest org = true ->
  cr_State c = CatalogPublished /\ cr_ManifestDigest c = digest /\
  (cr_Visibility c = CatalogVisibilityPrivate -> cr_OrganizationID c = org).
Proof.
  unfold catalogReleaseUsable. intros H. norm_bool. split_and!; [done|done|]. intros Hv.
  match goal with Hb : _ && _ = false |- _ => rewrite Hv, bool_decide_eq_true_2 in Hb by done; cbn in Hb end. by norm_bool.
Qed.

Lemma ready_sources s ids :
  forallb (fun sourceID => match ms_blueprintReleases s !! sourceID with
                           | Some source => upgradable (br_State source)
                           | None => false
                           end) ids = true -> Forall (source_ready s) ids.
Proof.
  rewrite forallb_forall. intros H. apply Forall_forall. intros i Hi. apply list_elem_of_In in Hi.
  specialize (H _ Hi). cbv beta in H. unfold source_ready, upgradable in *.
  destruct (ms_blueprintReleases s !! i) as [r|]; [|discriminate]. exists r. split; [done|].
  apply orb_true_iff in H as [H|H]; norm_bool; auto.
Qed.

Lemma gate_passed s0 r actor s1 :
  wp (publicationGate Verify s0 r actor) (fun res _ => res = Ok tt ->
    TrimSpace actor <> "" /\ (TrimSpace (br_CatalogReleaseID r) <> "" -> catalog_ready s0 r) /\
    Forall (source_ready s0) (br_UpgradeFromIDs r)) s1.
Proof.
  unfold publicationGate, checkCatalogSignature. wp_go; unfold fail_if; wp_go; try done; intros _.
  all: norm_bool; split; [done|].
  all: match goal with Hf : forallb _ _ = true |- _ => apply ready_sources in Hf as Hsrc end.
  all: split; [|exact Hsrc]; try (intros Hn; by destruct Hn).
  intros _. match goal with Hu : catalogReleaseUsable _ _ _ = true |- _ => apply usable_catalog in Hu as (Hp & Hd & Hv) end.
  match goal with Hs : VerifyCatalogReleaseSignature _ _ _ = Ok ?u |- _ => destruct u; apply verify_signed in Hs as (Ha & _ & Hsig) end.
  do 2 eexists. by split_and!.
Qed.

(** The publication gate.  A blueprint release becomes PUBLISHED only from
    REVIEW, at the revision the publisher named, by a named actor; if it is
    linked to a catalog release, that one is published, has the release's
    catalog digest, is visible to the project's organization and carries a
    signature that verifies under an active trust key; and every release it
    upgrades from is still published or deprecated.  What is published is what
    was reviewed. *)
Theorem publication_gate s s' id e actor r :
  TransitionBlueprintRelease Verify id e BlueprintPublished actor s = (s', Ok r) ->
  exists r0, ms_blueprintReleases s !! id = Some r0 /\ br_State r0 = BlueprintReview /\ rm_Revision (br_Meta r0) = e /\
    TrimSpace actor <> "" /\ (TrimSpace (br_CatalogReleaseID r0) <> "" -> catalog_ready s r0) /\
    Forall (source_ready s) (br_UpgradeFromIDs r0) /\
    ms_blueprintReleases s' !! id = Some r /\ br_State r = BlueprintPublished /\ br_PublishedBy r = actor /\
    identity r = identity r0 /\ br_CurrentRevisionID r = br_CurrentRevisionID r0 /\
    br_CurrentBlueprintDigest r = br_CurrentBlueprintDigest r0.
Proof.
  intros Hrun. refine (wp_run _ (fun res s' => match res with Ok r => _ | Fail _ => True end) _ _ _ _ Hrun). clear.
  unfold TransitionBlueprintRelease; unfold_puts. do 5 (wp_step; try done).
  change (BlueprintPublished == BlueprintPublished) with true. cbn [when].
  apply wp_bind. eapply wp_mono; [apply wp_and; [apply gate_passed|apply gate_reads]|].
  intros [[]|err] s1 [Hg ->]; [|done]. destruct (Hg eq_refl) as (Hact & Hcat & Hsrc). wp_go. norm_bool.
  assert (Hst : br_State a = BlueprintReview) by (destruct (br_State a); done).
  exists a. split_and!; try done; cbn; rewrite ?lookup_insert_eq; try done; unfold stampBlueprintRelease; by rewrite Hst.
Qed.

(** ** Where creation and the later handlers disagree *)

(** Names with capitals block draft updates.  Creation accepts a revision whose
    blueprint name is not normalized and stores the release under the normalized
    name, but a draft update compares the names literally: in every reachable
    store, updating a draft with a revision whose name is not normalized is
    refused, so a release created from such a revision can not even be updated
    to its own revision. *)
Theorem unnormalized_revision_is_refused s id e rid bd cd ready plan ups actor rev :
  blueprint_reachable s -> ms_revisions s !! rid = Some rev ->
  normalizeName (bv_BlueprintName rev) <> bv_BlueprintName rev ->
  exists err, (UpdateBlueprintReleaseDraft id e rid bd cd ready plan ups actor s).2 = Fail err.
Proof.
  intros Hr Hrev Hn. pose proof (blueprint_reachable_wf _ Hr) as Hwf.
  change (wp (UpdateBlueprintReleaseDraft id e rid bd cd ready plan ups actor)
            (fun res _ => exists err, res = Fail err) s).
  unfold UpdateBlueprintReleaseDraft, prepareBlueprintDraftUpdateLocked. wp_go; eauto.
  exfalso. norm_bool. simplify_eq. apply Hn.
  match goal with Hb : bv_BlueprintName _ = br_BlueprintName _ |- _ => rewrite Hb end.
  by eapply (stored_name s Hwf).
Qed.

(** A padded catalog link blocks publication.  Creation looks the linked
    catalog release up under the trimmed identifier but stores the link as sent;
    publication looks it up literally: as catalog releases have no identifiers
    with surrounding space, a release with a padded link can not be published. *)
Theorem padded_catalog_link_blocks_publication s id e actor r :
  (forall k c, ms_catalogReleases s !! k = Some c -> TrimSpace k = k) ->
  ms_blueprintReleases s !! id = Some r -> TrimSpace (br_CatalogReleaseID r) <> "" ->
  TrimSpace (br_CatalogReleaseID r) <> br_CatalogReleaseID r ->
  exists err, (TransitionBlueprintRelease Verify id e BlueprintPublished actor s).2 = Fail err.
Proof.
  intros Hids Hr Hlink Hpad.
  assert (Hnone : ms_catalogReleases s !! br_CatalogReleaseID r = None).
  { destruct (ms_catalogReleases s !! _) as [c|] eqn:E; [|done]. by destruct (Hpad (Hids _ _ E)). }
  change (wp (TransitionBlueprintRelease Verify id e BlueprintPublished actor)
            (fun res _ => exists err, res = Fail err) s).
  unfold TransitionBlueprintRelease. do 5 (wp_step; eauto). simplify_eq.
  change (BlueprintPublished == BlueprintPublished) with true. cbn [when]. unfold publicationGate.
  rewrite Hnone. wp_go; eauto. exfalso. norm_bool. congruence.
Qed.
End handlers.

(** ** A worked history *)

(** a store whose projects and catalogs other components have filled *)
Definition seeded (projects : gmap string Project) (keys : gmap string CatalogTrustKey)
    (releases : gmap string CatalogRelease) : MemoryStore :=
  (NewMemoryStoreWith (fun _ => 0) demo_ids) <| ms_projects := projects |>
    <| ms_catalogTrustKeys := keys |> <| ms_catalogReleases := releases |>.
Definition demo_bp_store : MemoryStore :=
  seeded {["p" := mkProject (newMeta "p" 0) "o" "demo" "Demo"]} (ms_catalogTrustKeys demo_catalog_store)
    (ms_catalogReleases demo_catalog_store).

Definition demo_bp_revision (name : string) : BlueprintRevision :=
  mkBlueprintRevision (newMeta "" 0) "p" name "1.0.0" (sha256Digest "bp") (sha256Digest demo_payload) "" "" "" "" ""
    "" "" "{}".
Definition demo_bp_release (link : string) : BlueprintRelease :=
  mkBlueprintRelease (newMeta "" 0) "" "" "" BlueprintDraft "" "" "" link "" [] true "" "" None "" None "" None "" None.

Definition demo_reviewed (name link : string) : list BlueprintCall :=
  [BCreateReleaseWithRevision (demo_bp_revision name) (demo_bp_release link) "alice"; BTransition "1" 1 BlueprintReview "alice"].
Definition demo_assignment : Assignment := mkAssignment (newMeta "" 0) "p" "cluster-1" "0" 0 0.

Definition blueprint_run (cs : list BlueprintCall) (s : MemoryStore) : MemoryStore :=
  foldl (fun s c => (blueprint_exec demo_verify c s).1) s cs.

Lemma blueprint_run_steps cs : forall s, rtc (blueprint_step demo_verify) s (blueprint_run cs s).
Proof. induction cs as [|c cs IH]; intros s; [constructor|]. econstructor; [apply blueprint_call|apply IH]. Qed.

Lemma seeded_step projects keys releases :
  blueprint_step demo_verify (NewMemoryStoreWith (fun _ => 0) demo_ids) (seeded projects keys releases).
Proof. apply blueprint_other; [split; [reflexivity|apply le_n]|reflexivity..]. Qed.

Lemma demo_bp_reachable cs : blueprint_reachable demo_verify (blueprint_run cs demo_bp_store).
Proof.
  exists (fun _ => 0), demo_ids. split; [apply demo_ids_source|].
  exact (rtc_l _ _ demo_bp_store _ (seeded_step _ _ _) (blueprint_run_steps cs demo_bp_store)).
Qed.

(** the store of a worked history, as any store with the facts computed of it *)
Tactic Notation "any_store" constr(t) "as" ident(s) :=
  let E := fresh in remember t as s eqn:E in *; clear E.

Lemma reachable_blueprints_are_consistent_witness :
  exists r, ms_blueprintReleases (blueprint_run (demo_reviewed "core" "4") demo_bp_store) !! "1" = Some r /\
    points_to (ms_revisions (blueprint_run (demo_reviewed "core" "4") demo_bp_store)) r.
Proof.
  pose proof (demo_bp_reachable (demo_reviewed "core" "4")) as Hr.
  destruct (found br_State (ms_blueprintReleases (blueprint_run (demo_reviewed "core" "4") demo_bp_store) !! "1")
              BlueprintReview) as (r & E & _); [vm_compute; reflexivity|].
  any_store (blueprint_run (demo_reviewed "core" "4") demo_bp_store) as s.
  exists r. split; [exact E|].
  destruct (reachable_blueprints_are_consistent demo_verify s Hr) as (_ & _ & Hp & _). exact (Hp _ _ E).
Defined.

Lemma published_blueprints_are_frozen_witness :
  let s := blueprint_run (demo_reviewed "core" "4") demo_bp_store in
  evolves assignment_evolves (ms_assignments s)
    (ms_assignments (blueprint_run [BTransition "1" 2 BlueprintPublished "bob"; BCreateAssignment demo_assignment "bob"] s)).
Proof.
  pose proof (demo_bp_reachable (demo_reviewed "core" "4")) as Hr. cbv zeta.
  any_store (blueprint_run (demo_reviewed "core" "4") demo_bp_store) as s.
  exact (proj2 (proj2 (published_blueprints_are_frozen demo_verify s _ Hr (blueprint_run_steps _ s)))).
Defined.

Lemma publication_gate_witness :
  exists r0, ms_blueprintReleases (blueprint_run (demo_reviewed "core" "4") demo_bp_store) !! "1" = Some r0 /\
    catalog_ready demo_verify (blueprint_run (demo_reviewed "core" "4") demo_bp_store) r0.
Proof.
  destruct (succeeds (TransitionBlueprintRelease demo_verify "1" 2 BlueprintPublished "bob")
              (blueprint_run (demo_reviewed "core" "4") demo_bp_store)) as (s' & r & E); [vm_compute; reflexivity|].
  destruct (found br_CatalogReleaseID (ms_blueprintReleases (blueprint_run (demo_reviewed "core" "4") demo_bp_store) !! "1")
              "4") as (r0 & E0 & Hl); [vm_compute; reflexivity|].
  any_store (blueprint_run (demo_reviewed "core" "4") demo_bp_store) as s.
  destruct (publication_gate demo_verify s s' _ _ _ r E) as (r1 & E1 & _ & _ & _ & Hc & _).
  exists r0. split; [exact E0|]. assert (r1 = r0) as -> by congruence. apply Hc. rewrite Hl. discriminate.
Defined.

Lemma unnormalized_revision_is_refused_witness :
  (exists r, ms_blueprintReleases (blueprint_run (demo_reviewed "Core" "") demo_bp_store) !! "1" = Some r /\
     br_CurrentRevisionID r = "0") /\
  exists err, (UpdateBlueprintReleaseDraft "1" 1 "0" (sha256Digest "bp") (sha256Digest demo_payload) true "" [] "alice"
    (blueprint_run (demo_reviewed "Core" "") demo_bp_store)).2 = Fail err.
Proof.
  pose proof (demo_bp_reachable (demo_reviewed "Core" "")) as Hr.
  destruct (found br_CurrentRevisionID (ms_blueprintReleases (blueprint_run (demo_reviewed "Core" "") demo_bp_store) !! "1")
              "0") as (r & Er & Hc); [vm_compute; reflexivity|].
  destruct (found bv_BlueprintName (ms_revisions (blueprint_run (demo_reviewed "Core" "") demo_bp_store) !! "0") "Core")
    as (rev & E & Hn); [vm_compute; reflexivity|].
  any_store (blueprint_run (demo_reviewed "Core" "") demo_bp_store) as s.
  split; [exists r; split; [exact Er|exact Hc]|].
  apply (unnormalized_revision_is_refused demo_verify s _ _ _ _ _ _ _ _ _ rev Hr E). rewrite Hn. discriminate.
Defined.

Lemma padded_catalog_link_blocks_publication_witness :
  (exists r, ms_blueprintReleases (blueprint_run (demo_reviewed "core" " 4 ") demo_bp_store) !! "1" = Some r /\
     br_State r = BlueprintReview) /\
  exists err, (TransitionBlueprintRelease demo_verify "1" 2 BlueprintPublished "bob"
    (blueprint_run (demo_reviewed "core" " 4 ") demo_bp_store)).2 = Fail err.
Proof.
  destruct (found (fun r => (br_State r, br_CatalogReleaseID r))
              (ms_blueprintReleases (blueprint_run (demo_reviewed "core" " 4 ") demo_bp_store) !! "1")
              (BlueprintReview, " 4 ")) as (r & E & Hl); [vm_compute; reflexivity|].
  assert (Hall : map_all (fun k _ => bool_decide (TrimSpace k = k))
    (ms_catalogReleases (blueprint_run (demo_reviewed "core" " 4 ") demo_bp_store)) = true) by (vm_compute; reflexivity).
  any_store (blueprint_run (demo_reviewed "core" " 4 ") demo_bp_store) as s.
  injection Hl as Hst Hl. split; [exists r; split; [exact E|exact Hst]|].
  apply (padded_catalog_link_blocks_publication demo_verify s _ _ _ r); [|exact E| |]; rewrite ?Hl; try discriminate.
  rewrite map_all_true in Hall. intros k c Hk. exact (bool_decide_eq_true_1 _ (Hall _ _ Hk)).
Defined.
End Blueprint.
