(* ===== verification/Interference.v ===== *)
(** * The other components beside the operation engine

    Tenancy, outbox, gateway, catalog, blueprint, fleet, access, control job, git
    revision and drift handlers are proved [EngineNeutral], so the engine's theorems
    hold in histories in which their calls are interleaved with the engine's. *)
From S2P Require Import Prelude GoStrings Digest Model Store Operations Lifecycle OperationSystem OperationRuns Neutrality.
From S2P Require Import Organizations TenancyTheorems Outbox FleetGateway FleetGatewayTheorems.
From S2P Require Import Collections Catalog CatalogTheorems Blueprints BlueprintTheorems Fleet FleetTheorems.
From S2P Require Import Access AccessTheorems ControlJobs ControlJobTheorems GitRevisions GitRevisionTheorems.
From S2P Require Import Drift DriftTheorems OwnerRuns Demo Records.
Import Blueprint.

#[export] Instance create_organization_neutral org actor : EngineNeutral (CreateOrganization org actor).
Proof. unfold CreateOrganization. neutral_tac. Qed.
#[export] Instance update_organization_neutral id e dn n actor : EngineNeutral (UpdateOrganization id e dn n actor).
Proof. unfold UpdateOrganization. neutral_tac. Qed.
#[export] Instance create_project_neutral p actor : EngineNeutral (CreateProject p actor).
Proof. unfold CreateProject. neutral_tac. Qed.
#[export] Instance upsert_membership_neutral m e actor : EngineNeutral (UpsertOrganizationMembership m e actor).
Proof. unfold UpsertOrganizationMembership. neutral_tac. Qed.
#[export] Instance revoke_membership_neutral o subj e actor : EngineNeutral (RevokeOrganizationMembership o subj e actor).
Proof. unfold RevokeOrganizationMembership. neutral_tac. Qed.
#[export] Instance admit_neutral req at_ actor : EngineNeutral (StoreAdmitFleetGatewaySession req at_ actor).
Proof. unfold StoreAdmitFleetGatewaySession. neutral_tac. Qed.
#[export] Instance heartbeat_neutral c sid e cert at_ : EngineNeutral (StoreHeartbeatFleetGatewaySession c sid e cert at_).
Proof. unfold StoreHeartbeatFleetGatewaySession. neutral_tac. Qed.
#[export] Instance drain_neutral c e actor at_ : EngineNeutral (StoreDrainFleetGatewaySession c e actor at_).
Proof. unfold StoreDrainFleetGatewaySession. neutral_tac. Qed.
#[export] Instance close_neutral c sid e cert at_ : EngineNeutral (StoreCloseFleetGatewaySession c sid e cert at_).
Proof. unfold StoreCloseFleetGatewaySession. neutral_tac. Qed.
#[export] Instance publish_neutral id worker at_ : EngineNeutral (MarkOutboxPublished id worker at_).
Proof. unfold MarkOutboxPublished. neutral_tac. Qed.

Lemma claimLoop_neutral worker limit ttl at_ ids : forall out, EngineNeutral (claimLoop worker limit ttl at_ ids out).
Proof. induction ids as [|[id e] rest IH]; intros out; cbn [claimLoop]; neutral_tac; apply IH. Qed.
#[export] Instance claim_outbox_neutral worker limit ttl at_ : EngineNeutral (ClaimOutbox worker limit ttl at_).
Proof. unfold ClaimOutbox. neutral_tac. apply claimLoop_neutral. Qed.

Lemma run1_neutral {A} (m : Store A) s : EngineNeutral m -> env_step s (run1 m s).1.
Proof. intros H. exact (H s). Qed.
Lemma tenancy_neutral c s : env_step s (tenancy_exec c s).1.
Proof. destruct c; cbn [tenancy_exec]; apply run1_neutral, _. Qed.
Lemma gateway_neutral c s : env_step s (gateway_exec c s).1.
Proof. destruct c; cbn [gateway_exec]; apply run1_neutral, _. Qed.

(** *** Catalogs and blueprints *)

#[export] Instance create_key_neutral key actor : EngineNeutral (CreateCatalogTrustKey key actor).
Proof. unfold CreateCatalogTrustKey. neutral_tac. Qed.
#[export] Instance revoke_key_neutral id e actor : EngineNeutral (RevokeCatalogTrustKey id e actor).
Proof. unfold RevokeCatalogTrustKey. neutral_tac. Qed.
Lemma catalog_revision_neutral rev : EngineNeutral (prepareCatalogRevisionLocked rev).
Proof. unfold prepareCatalogRevisionLocked. neutral_tac. Qed.
Lemma catalog_release_neutral rel rev actor : EngineNeutral (prepareCatalogReleaseLocked rel rev actor).
Proof. unfold prepareCatalogReleaseLocked. neutral_tac. Qed.
Lemma catalog_draft_neutral id e rev : EngineNeutral (prepareCatalogDraftUpdateLocked id e rev).
Proof. unfold prepareCatalogDraftUpdateLocked. neutral_tac. Qed.
Lemma check_sources_neutral s0 self ok ids : forall seen, EngineNeutral (checkUpgradeSources s0 self ok seen ids).
Proof. induction ids as [|i ids IH]; intros seen; cbn [checkUpgradeSources]; neutral_tac; apply IH. Qed.
Lemma blueprint_revision_neutral rev : EngineNeutral (prepareBlueprintRevisionLocked rev).
Proof. unfold prepareBlueprintRevisionLocked, checkOverlay. neutral_tac. Qed.
Lemma blueprint_draft_neutral id e rev ready plan ups :
  EngineNeutral (prepareBlueprintDraftUpdateLocked id e rev ready plan ups).
Proof. unfold prepareBlueprintDraftUpdateLocked. neutral_tac. apply check_sources_neutral. Qed.
Lemma blueprint_release_neutral Verify rel rev actor : EngineNeutral (prepareBlueprintReleaseLocked Verify rel rev actor).
Proof. unfold prepareBlueprintReleaseLocked, checkCatalogSignature. neutral_tac. apply check_sources_neutral. Qed.

Create HintDb neutral.
#[local] Hint Resolve catalog_revision_neutral catalog_release_neutral catalog_draft_neutral
  blueprint_revision_neutral blueprint_draft_neutral blueprint_release_neutral : neutral.

Section releases.
Variable Verify : Bytes -> Bytes -> Bytes -> bool.

Lemma catalog_neutral c s : env_step s (catalog_exec Verify c s).1.
Proof.
  revert s. destruct c; cbn [catalog_exec run1 fst];
    match goal with |- forall s, env_step s (?m s).1 => change (EngineNeutral m) end; try apply _.
  - unfold CreateCatalogRevision, commitCatalogRevisionLocked. neutral_tac. auto with neutral.
  - unfold CreateCatalogRelease, commitCatalogReleaseLocked. neutral_tac. auto with neutral.
  - unfold CreateCatalogReleaseWithRevision, commitCatalogRevisionLocked, commitCatalogReleaseLocked.
    neutral_tac; auto with neutral.
  - unfold UpdateCatalogReleaseDraft, commitCatalogDraftUpdateLocked. neutral_tac. auto with neutral.
  - unfold UpdateCatalogReleaseDraftWithRevision, commitCatalogRevisionLocked, commitCatalogDraftUpdateLocked.
    neutral_tac; auto with neutral.
  - unfold SubmitCatalogReleaseReview. neutral_tac.
  - unfold TransitionCatalogRelease. neutral_tac.
Qed.

Lemma blueprint_neutral c s : env_step s (blueprint_exec Verify c s).1.
Proof.
  revert s. destruct c; cbn [blueprint_exec run1 fst];
    match goal with |- forall s, env_step s (?m s).1 => change (EngineNeutral m) end.
  - unfold CreateBlueprintRevision, commitBlueprintRevisionLocked. neutral_tac. auto with neutral.
  - unfold CreateBlueprintRelease, commitBlueprintReleaseLocked. neutral_tac. auto with neutral.
  - unfold CreateBlueprintReleaseWithRevision, commitBlueprintRevisionLocked, commitBlueprintReleaseLocked.
    neutral_tac; auto with neutral.
  - unfold UpdateBlueprintReleaseDraft, commitBlueprintDraftUpdateLocked. neutral_tac. auto with neutral.
  - unfold UpdateBlueprintReleaseDraftWithRevision, commitBlueprintRevisionLocked, commitBlueprintDraftUpdateLocked.
    neutral_tac; auto with neutral.
  - unfold TransitionBlueprintRelease, publicationGate, checkCatalogSignature. neutral_tac.
  - unfold CreateAssignment. neutral_tac.
  - unfold UpdateAssignment. neutral_tac.
Qed.

(** *** The fleet *)

Lemma expire_namesakes_neutral v now l : EngineNeutral (expireNamesakes v now l).
Proof. induction l as [|[k x] l IH]; cbn [expireNamesakes]; unfold expireClusterImportLocked; neutral_tac; exact IH. Qed.
Lemma revoke_loop_neutral cid actor now l : EngineNeutral (revokeLoop cid actor now l).
Proof. induction l as [|[k x] l IH]; cbn [revokeLoop]; neutral_tac; exact IH. Qed.

Lemma fleet_neutral c s : env_step s (fleet_exec c s).1.
Proof.
  revert s. destruct c; cbn [fleet_exec run1 fst];
    match goal with |- forall s, env_step s (?m s).1 => change (EngineNeutral m) end.
  - unfold CreateClusterImport. neutral_tac. apply expire_namesakes_neutral.
  - unfold ApproveClusterImport. neutral_tac.
  - unfold RevokeClusterImport. neutral_tac.
  - unfold ClaimClusterImport. neutral_tac.
  - unfold UpsertClusterInventory. neutral_tac.
  - unfold HeartbeatCluster. neutral_tac.
  - unfold AuthorizeClusterMutationRBACActivation. neutral_tac.
  - unfold RevokeManagedCluster, revokeAgentCertificatesLocked. neutral_tac. apply revoke_loop_neutral.
  - unfold AcknowledgeManagedClusterTargetRBACRevocation. neutral_tac.
  - unfold CreateAgentCertificate. neutral_tac.
  - unfold RotateAgentCertificate. neutral_tac.
  - unfold RevokeAgentCertificate. neutral_tac.
Qed.

(** *** Access, control jobs, git revisions, drift *)

Lemma revoke_tokens_neutral id actor now l : EngineNeutral (revokeTokens id actor now l).
Proof. induction l as [|[k x] l IH]; cbn [revokeTokens]; neutral_tac; exact IH. Qed.
Lemma revoke_grants_neutral cid actor now l : EngineNeutral (revokeGrants cid actor now l).
Proof. induction l as [|[k x] l IH]; cbn [revokeGrants]; neutral_tac; exact IH. Qed.
Lemma demote_neutral v now l : EngineNeutral (demoteLoop v now l).
Proof. induction l as [|[k x] l IH]; cbn [demoteLoop]; neutral_tac; exact IH. Qed.

#[export] Instance create_account_neutral v actor : EngineNeutral (CreateServiceAccount v actor).
Proof. unfold CreateServiceAccount. neutral_tac. Qed.
#[export] Instance revoke_account_neutral id e actor : EngineNeutral (RevokeServiceAccount id e actor).
Proof. unfold RevokeServiceAccount. neutral_tac. apply revoke_tokens_neutral. Qed.
#[export] Instance create_token_neutral v actor : EngineNeutral (CreateAPIToken v actor).
Proof. unfold CreateAPIToken, tokenID. neutral_tac. Qed.
#[export] Instance revoke_token_neutral id e actor : EngineNeutral (RevokeAPIToken id e actor).
Proof. unfold RevokeAPIToken. neutral_tac. Qed.
#[export] Instance rotate_token_neutral id e v actor : EngineNeutral (RotateAPIToken id e v actor).
Proof. unfold RotateAPIToken, tokenID. neutral_tac. Qed.
#[export] Instance create_client_neutral v actor : EngineNeutral (CreateMCPTrustedClient v actor).
Proof. unfold CreateMCPTrustedClient. neutral_tac. Qed.
#[export] Instance revoke_client_neutral id e actor : EngineNeutral (RevokeMCPTrustedClient id e actor).
Proof. unfold RevokeMCPTrustedClient. neutral_tac. apply revoke_grants_neutral. Qed.
#[export] Instance create_grant_neutral v actor : EngineNeutral (CreateMCPDelegationGrant v actor).
Proof. unfold CreateMCPDelegationGrant. neutral_tac. Qed.
#[export] Instance revoke_grant_neutral id e actor : EngineNeutral (RevokeMCPDelegationGrant id e actor).
Proof. unfold RevokeMCPDelegationGrant. neutral_tac. Qed.

#[export] Instance create_job_neutral v lease now : EngineNeutral (CreateMCPControlJob v lease now).
Proof. unfold CreateMCPControlJob, replayJob. neutral_tac. Qed.
#[export] Instance complete_job_neutral id e f st resp actor : EngineNeutral (CompleteMCPControlJob id e f st resp actor).
Proof. unfold CompleteMCPControlJob. neutral_tac. Qed.
#[export] Instance mark_job_neutral id e actor : EngineNeutral (MarkMCPControlJobRecoveryRequired id e actor).
Proof. unfold MarkMCPControlJobRecoveryRequired. neutral_tac. Qed.
#[export] Instance resolve_job_neutral id e res rb ev actor : EngineNeutral (ResolveMCPControlJobRecovery id e res rb ev actor).
Proof. unfold ResolveMCPControlJobRecovery. neutral_tac. Qed.

#[export] Instance record_revision_neutral v actor : EngineNeutral (RecordManagedGitRevision v actor).
Proof. unfold RecordManagedGitRevision. neutral_tac. Qed.
#[export] Instance synchronized_neutral id e od h actor : EngineNeutral (MarkManagedGitRevisionSynchronized id e od h actor).
Proof. unfold MarkManagedGitRevisionSynchronized. neutral_tac. apply demote_neutral. Qed.

Lemma scan_targets_neutral s0 project ts : forall seen, EngineNeutral (scanTargets s0 project seen ts).
Proof. induction ts as [|t ts IH]; intros seen; cbn [scanTargets]; neutral_tac; apply IH. Qed.
#[export] Instance create_scan_neutral v actor : EngineNeutral (CreateDriftScan v actor).
Proof. unfold CreateDriftScan. neutral_tac. apply scan_targets_neutral. Qed.
#[export] Instance next_drift_neutral wall k d : EngineNeutral (NextDriftTask wall k d).
Proof. unfold NextDriftTask. neutral_tac; apply _. Qed.
#[export] Instance report_drift_neutral k d e r : EngineNeutral (ReportDriftTask k d e r).
Proof. unfold ReportDriftTask. neutral_tac; apply _. Qed.

Lemma access_neutral c s : env_step s (access_exec c s).1.
Proof. destruct c; cbn [access_exec]; apply run1_neutral, _. Qed.
Lemma job_neutral c s : env_step s (job_exec c s).1.
Proof. destruct c; cbn [job_exec]; apply run1_neutral, _. Qed.
Lemma git_neutral c s : env_step s (git_exec c s).1.
Proof. destruct c; cbn [git_exec]; apply run1_neutral, _. Qed.
Lemma drift_neutral c s : env_step s (drift_exec c s).1.
Proof. destruct c; cbn [drift_exec]; apply run1_neutral, _. Qed.

(** the calls of the components beside the engine *)
Inductive OtherCall : Type :=
| OTenancy (c : TenancyCall)
| OGateway (c : GatewayCall)
| OCatalog (c : CatalogCall)
| OBlueprint (c : BlueprintCall)
| OFleet (c : FleetCall)
| OAccess (c : AccessCall)
| OJob (c : JobCall)
| OGit (c : GitCall)
| ODrift (c : DriftCall)
| OClaimOutbox (worker : string) (limit ttl : Z) (at_ : Time)
| OMarkPublished (id worker : string) (at_ : Time).

Definition other_exec (c : OtherCall) : MemoryStore -> MemoryStore * option Error :=
  match c with
  | OTenancy c => tenancy_exec c
  | OGateway c => gateway_exec c
  | OCatalog c => catalog_exec Verify c
  | OBlueprint c => blueprint_exec Verify c
  | OFleet c => fleet_exec c
  | OAccess c => access_exec c
  | OJob c => job_exec c
  | OGit c => git_exec c
  | ODrift c => drift_exec c
  | OClaimOutbox w l ttl at_ => run1 (ClaimOutbox w l ttl at_)
  | OMarkPublished id w at_ => run1 (MarkOutboxPublished id w at_)
  end.

Lemma other_neutral c s : env_step s (other_exec c s).1.
Proof.
  destruct c; cbn [other_exec].
  - apply tenancy_neutral.
  - apply gateway_neutral.
  - apply catalog_neutral.
  - apply blueprint_neutral.
  - apply fleet_neutral.
  - apply access_neutral.
  - apply job_neutral.
  - apply git_neutral.
  - apply drift_neutral.
  - apply run1_neutral, _.
  - apply run1_neutral, _.
Qed.

(** calls of the engine and of the other components, in any order *)
Inductive mixed_step (owner : bool) (s : MemoryStore) : MemoryStore -> Prop :=
| mx_engine c : (owner_call c = true -> owner = true) -> mixed_step owner s (exec c s).1
| mx_other c : mixed_step owner s (other_exec c s).1.

Lemma mixed_engine owner s s' : mixed_step owner s s' -> step owner s s'.
Proof. intros [c Hc|c]; [by apply step_call|apply step_env, other_neutral]. Qed.

(** C33: the engine's guarantees survive interleaving.  Take any history in which calls
    of the operation engine and calls of the tenancy, outbox, gateway, catalog,
    blueprint, fleet, access, control job, git revision and drift components follow
    each other in any order.  Every operation is still there, with the fields its
    creation fixed, moved only by the lifecycle steps of the engine, and where it was if
    it had ended; the audit trail was only appended to, and no idempotency entry, piece
    of evidence, evidence payload or request payload was changed or lost; and whichever
    of the other components is called next, it leaves every operation as it is. *)
Theorem interleaved_components_keep_the_engine owner s s' :
  reachable owner s -> rtc (mixed_step owner) s s' ->
  (forall id op, ms_operations s !! id = Some op -> exists op', ms_operations s' !! id = Some op' /\
     static op' = static op /\ rtc (lstep (top owner)) (view op) (view op') /\
     (IsTerminal (op_State op) = true -> op_State op' = op_State op)) /\
  (ms_audit s `prefix_of` ms_audit s' /\ ms_idempotency s ⊆ ms_idempotency s' /\ ms_evidence s ⊆ ms_evidence s' /\
   ms_evidencePayloads s ⊆ ms_evidencePayloads s' /\
   ms_operationRequestPayloads s ⊆ ms_operationRequestPayloads s') /\
  (forall c, ms_operations (other_exec c s').1 = ms_operations s') /\ reachable owner s'.
Proof.
  intros Hr Hm. pose proof (reachable_inv _ _ Hr) as Hi.
  assert (Hs : rtc (step owner) s s') by (eapply (rtc_congruence id); [|exact Hm]; apply mixed_engine).
  split_and!; [|destruct (steps_frame _ _ _ Hi Hs) as [_ _ Hk Ha [He _] _ [Hp _] [Hq _] _]; done..| |].
  - intros id op Hop. apply rtc_nsteps_1 in Hs as [k Hk].
    destruct (steps_operation _ _ _ _ _ _ Hi Hk Hop) as (op' & n & Hop' & Hst & _ & Hl & _).
    exists op'. split_and!; [done|done|by eapply rtc_nsteps_2|]. intros Ht. exact (nsteps_terminal _ _ _ _ Hl Ht).
  - intros c. apply (env_ops _ _ (other_neutral c s')).
  - destruct Hr as (now & g & Hg & Hr). exists now, g. split; [done|by etrans].
Qed.

Lemma mixed_run owner cs s :
  Forall (fun c => owner_call c = true -> owner = true) cs -> rtc (mixed_step owner) s (run cs s).
Proof.
  intros H. revert s. induction H as [|c cs Hc _ IH]; intros s; [constructor|].
  eapply rtc_l; [by apply (mx_engine owner s c)|apply IH].
Qed.
End releases.

(** an organization is created and the outbox claimed around the queued operation of
    [demo_queued], which is then claimed and started *)
Definition interleaved : MemoryStore :=
  let other c s := (other_exec demo_verify c s).1 in
  run demo_start (other (OClaimOutbox "relay" 10 demo_ttl 0)
    (other (OTenancy (TCreateOrganization demo_org "alice")) (run demo_queued demo0))).

Lemma interleaved_components_keep_the_engine_witness :
  exists op op', ms_operations (run demo_queued demo0) !! demo_op = Some op /\ op_State op = OperationQueued /\
    ms_operations interleaved !! demo_op = Some op' /\ op_State op' = OperationRunning /\
    rtc (lstep (top false)) (view op) (view op').
Proof.
  assert (Hs : rtc (mixed_step demo_verify false) (run demo_queued demo0) interleaved).
  { eapply rtc_l; [apply (mx_other demo_verify false _ (OTenancy (TCreateOrganization demo_org "alice")))|].
    eapply rtc_l; [apply (mx_other demo_verify false _ (OClaimOutbox "relay" 10 demo_ttl 0))|].
    apply mixed_run. repeat constructor; discriminate. }
  destruct (found op_State (ms_operations (run demo_queued demo0) !! demo_op) OperationQueued) as (op & E & Hst);
    [vm_compute; reflexivity|].
  destruct (found op_State (ms_operations interleaved !! demo_op) OperationRunning) as (op1 & E1 & Hst1);
    [vm_compute; reflexivity|].
  destruct (interleaved_components_keep_the_engine demo_verify false _ _ (demo_reachable false demo_queued ltac:(vm_compute; reflexivity)) Hs)
    as (H & _).
  destruct (H _ _ E) as (op' & E' & _ & Hl & _). rewrite E1 in E'. injection E' as <-.
  exists op, op1. split; [exact E|]. split; [exact Hst|]. split; [exact E1|]. split; [exact Hst1|exact Hl].
Defined.
