(* ===== verification/BackupSchedule.v ===== *)
(** * Backup schedules

    [backup_schedule.go]: the five-field cron grammar evaluated in UTC, with
    the pieces of [strings], [strconv] and [time] it uses.  The grammar's errors
    wrap no sentinel, so the answer is an [option bool]: [None] is an error.  The
    theorem relates the matcher to the grammar itself: schedules as data
    ([cronSchedule]), the text that writes them and the instants they mean ([due]). *)
From S2P Require Import Prelude GoStrings Text Digest Model Calendar Operations.
From Stdlib Require Import Ascii.
From Stdlib Require String.

(** ** Fields of a cron expression *)

Record cronFieldSpec := mkCronFieldSpec { cf_min : Z; cf_max : Z }.

(** the range and step of one list item *)
Record cronItem := mkCronItem { ci_start : Z; ci_end : Z; ci_step : Z }.

Definition slash : ascii := "/"%char.
Definition dash : ascii := "-"%char.
Definition comma : ascii := ","%char.

(** the base and step of an item: [base/step] *)
Definition cronStep (part : string) (spec : cronFieldSpec) : option (string * Z) :=
  if Contains part slash then
    match Split part slash with
    | [p0; p1] =>
        if TrimSpace p1 == "" then None else
        match Atoi (TrimSpace p1) with
        | Some parsed => if (parsed <=? 0) || (cf_max spec - cf_min spec + 1 <? parsed) then None
                         else Some (TrimSpace p0, parsed)
        | None => None
        end
    | _ => None
    end
  else Some (part, 1).

Definition cronRange (base : string) (spec : cronFieldSpec) : option (Z * Z) :=
  if base == "*" then Some (cf_min spec, cf_max spec)
  else if Contains base dash then
    match Split base dash with
    | [p0; p1] =>
        match Atoi (TrimSpace p0) with
        | Some start => match Atoi (TrimSpace p1) with Some end_ => Some (start, end_) | None => None end
        | None => None
        end
    | _ => None
    end
  else match Atoi base with Some parsed => Some (parsed, parsed) | None => None end.

(** one item of the list, up to the test of the value *)
Definition cronItemOf (raw : string) (spec : cronFieldSpec) : option cronItem :=
  let part := TrimSpace raw in
  if part == "" then None else
  match cronStep part spec with
  | None => None
  | Some (base, step) =>
      match cronRange base spec with
      | None => None
      | Some (start, end_) =>
          if (start <? cf_min spec) || (cf_max spec <? start) || (end_ <? cf_min spec) || (cf_max spec <? end_)
          then None else
          if end_ <? start then None else Some (mkCronItem start end_ step)
      end
  end.

(** [(candidate-start)%step == 0] within the range; Go's [%] truncates, and the
    dividend is not negative here *)
Definition itemAdmits (item : cronItem) (candidate : Z) : bool :=
  (ci_start item <=? candidate) && (candidate <=? ci_end item)
  && (Z.rem (candidate - ci_start item) (ci_step item) =? 0).

(** the values an item is tested with: Sunday is also 7 *)
Definition candidates (value : Z) (sundayAlias : bool) : list Z :=
  if sundayAlias && (value =? 0) then [value; 7] else [value].

(** [for _, part := range ...]: stops at the first item that matches or is invalid *)
Fixpoint cronList (parts : list string) (value : Z) (spec : cronFieldSpec) (sundayAlias : bool) : option bool :=
  match parts with
  | [] => Some false
  | part :: rest =>
      match cronItemOf part spec with
      | None => None
      | Some item => if existsb (itemAdmits item) (candidates value sundayAlias) then Some true
                     else cronList rest value spec sundayAlias
      end
  end.

Definition cronFieldMatches (raw : string) (value : Z) (spec : cronFieldSpec) (sundayAlias : bool) : option bool :=
  let raw := TrimSpace raw in
  if raw == "" then None else cronList (Split raw comma) value spec sundayAlias.

(** ** The schedule *)

Definition scheduleSpecs : list cronFieldSpec :=
  [mkCronFieldSpec 0 59; mkCronFieldSpec 0 23; mkCronFieldSpec 1 31; mkCronFieldSpec 1 12; mkCronFieldSpec 0 7].

(** the loop over the five fields; [i] is the index *)
Fixpoint scheduleLoop (i : nat) (fields : list string) (values : list Z) (specs : list cronFieldSpec) : option bool :=
  match fields, values, specs with
  | f :: fs, v :: vs, sp :: sps =>
      match cronFieldMatches f v sp (i =? 4)%nat with
      | None => None
      | Some false => Some false
      | Some true => scheduleLoop (S i) fs vs sps
      end
  | _, _, _ => Some true
  end.

Definition scheduleValues (at_ : Time) : list Z :=
  [MinuteOf at_; HourOf at_; DayOf at_; MonthOf at_; WeekdayOf at_].

Definition BackupScheduleMatchesUTC (schedule : string) (at_ : Time) : option bool :=
  let fields := Fields schedule in
  if (length fields =? 5)%nat then scheduleLoop 0 fields (scheduleValues at_) scheduleSpecs else None.

(** [time.Date(2026, time.January, 1, 0, 0, 0, 0, time.UTC)] *)
Definition referenceInstant : Time := 739616 * 86400 * Second.

(** the schedule test of [ValidateBackupPolicy]: it tries one instant *)
Definition policyAcceptsSchedule (schedule : string) : bool :=
  match BackupScheduleMatchesUTC (JoinSpace (Fields schedule)) referenceInstant with
  | Some _ => true
  | None => false
  end.

(** the cases of the repository's own test, at 2026-09-07 18:30 (a Monday) *)
Definition testInstant : Time := (739865 * 86400 + 18 * 3600 + 30 * 60) * Second.
Example schedule_cases :
  map (fun s => BackupScheduleMatchesUTC s testInstant)
    ["30 18 * * 1"; "*/15 18 * * 1-5"; "0 18 * * 1"; "30 18 * * 0"; "30 18 * * 7"; "30 18 7 9 *";
     "* * *"; "61 * * * *"; "* 24 * * *"; "*/0 * * * *"; "foo * * * *"; "10-2 * * * *"] =
  [Some true; Some true; Some false; Some false; Some false; Some true; None; None; None; None; None; None].
Proof. vm_compute. reflexivity. Qed.

(** ** The grammar, and what it means

    Schedules as they are meant, apart from the code that reads them: a field is a
    list of terms, each a range of values with a step. *)

Inductive cronRangeExpr : Type :=
| Every
| Only (n : Z)
| Between (a b : Z).
Record cronTerm := mkCronTerm { ct_range : cronRangeExpr; ct_every : option Z }.
Record cronSchedule := mkCronSchedule {
  cs_minutes : list cronTerm; cs_hours : list cronTerm; cs_days : list cronTerm; cs_months : list cronTerm;
  cs_weekdays : list cronTerm
}.

Definition digit (d : Z) : ascii := ascii_of_N (Z.to_N (48 + d)).
Definition decimal (n : Z) : string :=
  if n <? 10 then String.String (digit n) "" else String.String (digit (n / 10)) (String.String (digit (n mod 10)) "").
Definition rangeText (r : cronRangeExpr) : string :=
  match r with Every => "*" | Only n => decimal n | Between a b => decimal a +:+ "-" +:+ decimal b end.
Definition termText (t : cronTerm) : string :=
  match ct_every t with None => rangeText (ct_range t) | Some k => rangeText (ct_range t) +:+ "/" +:+ decimal k end.
Fixpoint listText (ts : list cronTerm) : string :=
  match ts with [] => "" | [t] => termText t | t :: ts => termText t +:+ "," +:+ listText ts end.
(** the five fields of a schedule, as [strings.Fields] finds them *)
Definition scheduleText (e : cronSchedule) : list string :=
  [listText (cs_minutes e); listText (cs_hours e); listText (cs_days e); listText (cs_months e); listText (cs_weekdays e)].

(** a term denotes every [step]-th value of its range *)
Definition first (lo : Z) (r : cronRangeExpr) : Z := match r with Every => lo | Only n => n | Between a _ => a end.
Definition last (hi : Z) (r : cronRangeExpr) : Z := match r with Every => hi | Only n => n | Between _ b => b end.
Definition step_of (t : cronTerm) : Z := match ct_every t with Some k => k | None => 1 end.
Definition denotes (lo hi : Z) (t : cronTerm) (v : Z) : Prop :=
  exists k, 0 <= k /\ v = first lo (ct_range t) + k * step_of t /\ v <= last hi (ct_range t).
Definition listed (lo hi : Z) (ts : list cronTerm) (v : Z) : Prop := Exists (fun t => denotes lo hi t v) ts.

(** the schedule is due when each calendar field of the instant is listed; Sunday is 0 and 7 *)
Definition due (e : cronSchedule) (at_ : Time) : Prop :=
  listed 0 59 (cs_minutes e) (MinuteOf at_) /\ listed 0 23 (cs_hours e) (HourOf at_) /\
  listed 1 31 (cs_days e) (DayOf at_) /\ listed 1 12 (cs_months e) (MonthOf at_) /\
  (listed 0 7 (cs_weekdays e) (WeekdayOf at_) \/ WeekdayOf at_ = 0 /\ listed 0 7 (cs_weekdays e) 7).

Definition term_ok (lo hi : Z) (t : cronTerm) : Prop :=
  lo <= first lo (ct_range t) <= last hi (ct_range t) /\ last hi (ct_range t) <= hi /\ 1 <= step_of t <= hi - lo + 1.
Definition terms_ok (lo hi : Z) (ts : list cronTerm) : Prop := ts <> [] /\ Forall (term_ok lo hi) ts.
Definition schedule_ok (e : cronSchedule) : Prop :=
  terms_ok 0 59 (cs_minutes e) /\ terms_ok 0 23 (cs_hours e) /\ terms_ok 1 31 (cs_days e) /\
  terms_ok 1 12 (cs_months e) /\ terms_ok 0 7 (cs_weekdays e).

(** *** Taking text apart *)

Lemma toList_app s t : toList (s +:+ t) = (toList s ++ toList t)%list.
Proof. apply list_ascii_app. Qed.
Lemma ofList_toList s : ofList (toList s) = s.
Proof. apply String.string_of_list_ascii_of_string. Qed.

Lemma contains_app s t c : Contains (s +:+ t) c = Contains s c || Contains t c.
Proof. unfold Contains. by rewrite toList_app, existsb_app. Qed.

Lemma split_bytes c l r : forall cur,
  existsb (fun a => bool_decide (a = c)) l = false ->
  splitBytes c (l ++ r) cur = splitBytes c r (rev l ++ cur).
Proof.
  induction l as [|a l IH]; intros cur H; [done|]. cbn in H. apply orb_false_iff in H as [Ha Hl].
  cbn [app splitBytes rev]. rewrite Ha, IH by done. by rewrite <- app_assoc.
Qed.

Lemma split_one s c : Contains s c = false -> Split s c = [s].
Proof.
  intros H. unfold Split. rewrite <- (app_nil_r (toList s)), split_bytes by exact H. cbn.
  by rewrite app_nil_r, rev_involutive, ofList_toList.
Qed.
Lemma split_two s t c : Contains s c = false -> Split (s +:+ String.String c t) c = s :: Split t c.
Proof.
  intros H. unfold Split. rewrite toList_app, split_bytes by exact H. cbn.
  by rewrite bool_decide_eq_true_2, app_nil_r, rev_involutive, ofList_toList.
Qed.

(** numerals of one or two digits *)
Definition numeral (s : string) (n : Z) : bool :=
  bool_decide (Atoi s = Some n) && forallb (in_range 48 57) (toList s) && (s != "").
Lemma decimal_numeral n : 0 <= n < 100 -> numeral (decimal n) n = true.
Proof.
  intros Hn. assert (Hall : forallb (fun n => numeral (decimal n) n) (seqZ 0 100) = true) by (vm_compute; reflexivity).
  rewrite forallb_forall in Hall. apply Hall, list_elem_of_In, elem_of_seqZ. lia.
Qed.
Lemma decimal_atoi n : 0 <= n < 100 -> Atoi (decimal n) = Some n.
Proof. intros H%decimal_numeral. unfold numeral in H. by norm_bool. Qed.
Lemma decimal_digits n : 0 <= n < 100 -> Forall (fun a => in_range 48 57 a = true) (toList (decimal n)).
Proof. intros H%decimal_numeral. unfold numeral in H. norm_bool. apply Forall_forall. intros a Ha%list_elem_of_In. by eapply forallb_forall. Qed.
Lemma decimal_some n : 0 <= n < 100 -> decimal n <> "".
Proof. intros H%decimal_numeral. unfold numeral in H. by norm_bool. Qed.
Lemma decimal_visible n : 0 <= n < 100 -> all_visible (decimal n).
Proof.
  intros H. eapply Forall_impl; [by apply decimal_digits|]. intros a. unfold visible, in_range. intros Ha. norm_bool. lia.
Qed.
Lemma decimal_free n c : 0 <= n < 100 -> in_range 48 57 c = false -> Contains (decimal n) c = false.
Proof.
  intros H Hc. unfold Contains. apply not_true_is_false. intros (a & Ha & E)%existsb_exists. apply bool_decide_eq_true in E as ->.
  pose proof (decimal_digits n H) as Hd. rewrite Forall_forall in Hd. apply list_elem_of_In, Hd in Ha. congruence.
Qed.
Lemma decimal_trim n : 0 <= n < 100 -> TrimSpace (decimal n) = decimal n.
Proof. intros H. by apply TrimSpace_visible, decimal_visible. Qed.

(** *** Terms are read as they are meant *)

Section field.
Context (lo hi : Z) (Hlo : 0 <= lo) (Hhi : hi < 60).
Local Abbreviation spec := (mkCronFieldSpec lo hi).

Definition range_numbers (r : cronRangeExpr) : Prop :=
  match r with Every => True | Only n => 0 <= n < 100 | Between a b => 0 <= a < 100 /\ 0 <= b < 100 end.
Lemma ok_numbers t : term_ok lo hi t -> range_numbers (ct_range t) /\ 0 <= step_of t < 100.
Proof. unfold term_ok. destruct (ct_range t); cbn; lia. Qed.

Lemma range_visible r : range_numbers r -> all_visible (rangeText r).
Proof.
  destruct r as [|n|a b]; cbn; intros H; [repeat constructor|by apply decimal_visible|].
  destruct H. apply all_visible_app; [by apply decimal_visible|].
  apply all_visible_app; [repeat constructor|by apply decimal_visible].
Qed.
Lemma range_free r c : range_numbers r -> in_range 48 57 c = false -> c <> "*"%char -> c <> "-"%char -> Contains (rangeText r) c = false.
Proof.
  intros Hr Hc H1 H2. destruct r as [|n|a b]; cbn [rangeText range_numbers] in *; [|by apply decimal_free|].
  - unfold Contains. cbn. by rewrite bool_decide_eq_false_2 by congruence.
  - rewrite !contains_app, !decimal_free by tauto. unfold Contains. cbn. by rewrite bool_decide_eq_false_2 by congruence.
Qed.
Lemma range_some r : range_numbers r -> rangeText r <> "".
Proof.
  destruct r as [|n|a b]; cbn; intros H; [done|by apply decimal_some|]. destruct (decimal a) eqn:E; [|done].
  by destruct (decimal_some a); [tauto|].
Qed.
Lemma not_star n : 0 <= n < 100 -> decimal n <> "*".
Proof. intros H E. pose proof (decimal_digits n H) as Hd. rewrite E in Hd. by apply Forall_cons in Hd as [? _]. Qed.

Lemma range_read r : range_numbers r -> cronRange (rangeText r) spec = Some (first lo r, last hi r).
Proof.
  intros Hr. unfold cronRange. destruct r as [|n|a b]; cbn [rangeText range_numbers first last] in *.
  - done.
  - rewrite bool_decide_eq_false_2 by (by apply not_star). by rewrite decimal_free, decimal_atoi.
  - destruct Hr as [Ha Hb]. rewrite bool_decide_eq_false_2.
    2: { intros E. assert (Hs : Contains (decimal a +:+ "-" +:+ decimal b) dash = Contains "*" dash) by (by rewrite E).
         rewrite !contains_app in Hs. by rewrite orb_true_r in Hs. }
    rewrite !contains_app. cbn [orb]. change (Contains "-" dash) with true. rewrite orb_true_r. cbv iota.
    change ("-" +:+ decimal b) with (String.String dash (decimal b)).
    rewrite split_two, split_one by (by apply decimal_free). by rewrite !decimal_trim, !decimal_atoi.
Qed.

Lemma term_visible t : term_ok lo hi t -> all_visible (termText t).
Proof.
  intros H. destruct (ok_numbers t H) as [Hr Hs]. unfold termText, step_of in *. destruct (ct_every t) as [k|]; [|by apply range_visible].
  apply all_visible_app; [by apply range_visible|]. apply all_visible_app; [repeat constructor|by apply decimal_visible].
Qed.
Lemma term_free t : term_ok lo hi t -> Contains (termText t) comma = false.
Proof.
  intros H. destruct (ok_numbers t H) as [Hr Hs]. unfold termText, step_of in *. destruct (ct_every t) as [k|]; [|by apply range_free].
  by rewrite !contains_app, range_free, decimal_free.
Qed.
Lemma term_some t : term_ok lo hi t -> termText t <> "".
Proof.
  intros H. destruct (ok_numbers t H) as [Hr Hs]. unfold termText. pose proof (range_some _ Hr).
  destruct (ct_every t) as [k|]; [|done]. by destruct (rangeText (ct_range t)).
Qed.

Lemma term_read t :
  term_ok lo hi t -> cronItemOf (termText t) spec = Some (mkCronItem (first lo (ct_range t)) (last hi (ct_range t)) (step_of t)).
Proof.
  intros H. destruct (ok_numbers t H) as [Hr Hs]. destruct H as (H1 & H2 & H3). unfold cronItemOf.
  rewrite (TrimSpace_visible (termText t)) by (by apply term_visible). rewrite bool_decide_eq_false_2 by (by apply term_some).
  assert (Estep : cronStep (termText t) spec = Some (rangeText (ct_range t), step_of t)).
  { unfold cronStep, termText, step_of in *. destruct (ct_every t) as [k|]; cbv beta iota in *; [|by rewrite range_free].
    rewrite !contains_app. change (Contains "/" slash) with true. rewrite orb_true_r. cbv iota.
    change ("/" +:+ decimal k) with (String.String slash (decimal k)).
    rewrite split_two by (by apply range_free). rewrite split_one by (by apply decimal_free).
    rewrite decimal_trim, bool_decide_eq_false_2, decimal_atoi by (done || by apply decimal_some).
    rewrite (TrimSpace_visible (rangeText _)) by (by apply range_visible). cbn [cf_min cf_max].
    replace ((k <=? 0) || (hi - lo + 1 <? k)) with false by lia. done. }
  rewrite Estep, range_read by done. cbn [cf_min cf_max].
  match goal with |- (if ?b then _ else _) = _ => replace b with false by lia end.
  match goal with |- (if ?b then _ else _) = _ => replace b with false by lia end. done.
Qed.

Lemma item_denotes t v :
  term_ok lo hi t ->
  itemAdmits (mkCronItem (first lo (ct_range t)) (last hi (ct_range t)) (step_of t)) v = true <-> denotes lo hi t v.
Proof.
  intros (H1 & H2 & H3). unfold itemAdmits, denotes. cbn [ci_start ci_end ci_step]. split.
  - intros H. norm_bool. match goal with H : (Z.rem _ _ =? 0) = true |- _ => apply Z.eqb_eq in H; rename H into Hrem end.
    exists (Z.quot (v - first lo (ct_range t)) (step_of t)).
    pose proof (Z.quot_rem' (v - first lo (ct_range t)) (step_of t)). split_and!; [apply Z.quot_pos; lia|lia|lia].
  - intros (k & Hk & -> & Hl). replace (first lo (ct_range t) + k * step_of t - first lo (ct_range t)) with (k * step_of t) by lia.
    rewrite Z.rem_mul by lia. nia.
Qed.

(** the code tries the value, and 7 for a Sunday *)
Definition admitted (alias : bool) (ts : list cronTerm) (v : Z) : Prop :=
  listed lo hi ts v \/ (alias = true /\ v = 0 /\ listed lo hi ts 7).

Lemma list_read ts v alias :
  Forall (term_ok lo hi) ts ->
  exists b, cronList (termText <$> ts) v spec alias = Some b /\ (b = true <-> admitted alias ts v).
Proof.
  induction 1 as [|t ts Ht _ (b & Eb & Hb)].
  - exists false. split; [done|]. split; [done|]. intros [H|(_ & _ & H)]; by apply Exists_nil in H.
  - cbn [fmap list_fmap cronList]. rewrite term_read by done.
    set (item := mkCronItem _ _ _). assert (Hi : forall x, itemAdmits item x = true <-> denotes lo hi t x) by (intros x; by apply item_denotes).
    destruct (existsb (itemAdmits item) (candidates v alias)) eqn:E.
    + exists true. split; [done|]. split; [intros _|done]. unfold candidates in E. unfold admitted, listed. rewrite !Exists_cons.
      destruct (alias && (v =? 0)) eqn:Ea; cbn in E.
      * norm_bool. rewrite orb_false_r in E. apply orb_true_iff in E as [E|E]; apply Hi in E; [left; by left|].
        right. split_and!; [done|lia|by left].
      * rewrite orb_false_r in E. apply Hi in E. left. by left.
    + exists b. split; [exact Eb|]. rewrite Hb. unfold admitted, listed. rewrite !Exists_cons.
      assert (Hv : ~ denotes lo hi t v /\ (alias = true -> v = 0 -> ~ denotes lo hi t 7)).
      { rewrite <- !Hi. unfold candidates in E. split; [intros Hx|intros -> -> Hx]; [|cbn in E; rewrite Hx, orb_true_r in E; done].
        destruct (alias && (v =? 0)); cbn in E; rewrite Hx in E; done. }
      destruct Hv. intuition.
Qed.

Lemma split_list ts :
  terms_ok lo hi ts -> Split (listText ts) comma = termText <$> ts /\ all_visible (listText ts) /\ listText ts <> "".
Proof.
  intros [Hne Hts]. induction Hts as [|t ts Ht Hts IH]; [done|]. destruct ts as [|t' ts].
  - cbn. split_and!; [by apply split_one, term_free|by apply term_visible|by apply term_some].
  - destruct IH as (IH1 & IH2 & IH3); [done|].
    change (listText (t :: t' :: ts)) with (termText t +:+ String.String comma (listText (t' :: ts))).
    rewrite split_two by (by apply term_free). rewrite IH1. split_and!; [done| |].
    + apply all_visible_app; [by apply term_visible|]. by apply Forall_cons_2.
    + by destruct (termText t).
Qed.

Lemma field_read ts v alias :
  terms_ok lo hi ts ->
  exists b, cronFieldMatches (listText ts) v spec alias = Some b /\ (b = true <-> admitted alias ts v).
Proof.
  intros H. destruct (split_list _ H) as (Hs & Hv & Hn). unfold cronFieldMatches.
  rewrite TrimSpace_visible, bool_decide_eq_false_2, Hs by done. apply list_read, H.
Qed.
End field.

Lemma admitted_plain lo hi ts v : admitted lo hi false ts v <-> listed lo hi ts v.
Proof. unfold admitted. intuition discriminate. Qed.

(** C40: schedule semantics.  Take any schedule of the five-field grammar, built from
    values, ranges and [*], with or without a step, within the bounds of each field,
    and any text whose whitespace-separated fields write it.  The matcher does not
    fail on it, and answers yes exactly when the minute, hour, day, month and weekday
    of the instant in UTC are each one of the values the field lists: every step-th
    value of one of its ranges, with Sunday counting as 0 and as 7. *)
Theorem schedules_mean_what_they_list schedule e at_ :
  schedule_ok e -> Fields schedule = scheduleText e ->
  exists b, BackupScheduleMatchesUTC schedule at_ = Some b /\ (b = true <-> due e at_).
Proof.
  intros (Hm & Hh & Hd & Hmo & Hw) Ef. unfold BackupScheduleMatchesUTC. rewrite Ef.
  unfold scheduleText, scheduleValues, scheduleSpecs, due. cbn [length Nat.eqb scheduleLoop].
  destruct (field_read 0 59 ltac:(lia) ltac:(lia) _ (MinuteOf at_) false Hm) as (b1 & -> & H1). rewrite admitted_plain in H1.
  destruct b1; [|exists false; split; [done|]; rewrite <- H1; clear; intuition discriminate]. cbn [Nat.eqb].
  destruct (field_read 0 23 ltac:(lia) ltac:(lia) _ (HourOf at_) false Hh) as (b2 & -> & H2). rewrite admitted_plain in H2.
  destruct b2; [|exists false; split; [done|]; rewrite <- H2; clear; intuition discriminate]. cbn [Nat.eqb].
  destruct (field_read 1 31 ltac:(lia) ltac:(lia) _ (DayOf at_) false Hd) as (b3 & -> & H3). rewrite admitted_plain in H3.
  destruct b3; [|exists false; split; [done|]; rewrite <- H3; clear; intuition discriminate]. cbn [Nat.eqb].
  destruct (field_read 1 12 ltac:(lia) ltac:(lia) _ (MonthOf at_) false Hmo) as (b4 & -> & H4). rewrite admitted_plain in H4.
  destruct b4; [|exists false; split; [done|]; rewrite <- H4; clear; intuition discriminate]. cbn [Nat.eqb].
  destruct (field_read 0 7 ltac:(lia) ltac:(lia) _ (WeekdayOf at_) true Hw) as (b5 & -> & H5). unfold admitted in H5.
  exists b5. split; [by destruct b5|]. rewrite H5, <- H1, <- H2, <- H3, <- H4. clear. intuition discriminate.
Qed.

(** every quarter of 18 o'clock from Monday to Friday *)
Definition workdays : cronSchedule :=
  mkCronSchedule [mkCronTerm Every (Some 15)] [mkCronTerm (Only 18) None] [mkCronTerm Every None] [mkCronTerm Every None]
    [mkCronTerm (Between 1 5) None].

Lemma schedules_mean_what_they_list_witness :
  due workdays testInstant /\ exists b, BackupScheduleMatchesUTC " */15 18 *  * 1-5" testInstant = Some b.
Proof.
  destruct (schedules_mean_what_they_list " */15 18 *  * 1-5" workdays testInstant) as (b & E & H).
  - unfold schedule_ok, terms_ok, term_ok. cbn. repeat split; try discriminate; repeat constructor; discriminate.
  - vm_compute. reflexivity.
  - split; [|exists b; exact E]. apply H. revert E. vm_compute. intros [= <-]. reflexivity.
Defined.

(** Policies are validated at one instant only.  A schedule is accepted for a
    policy when it evaluates without error at midnight of January 1, 2026; a
    field after the first non-matching one is never looked at.  The schedule
    "1 99 * * *" (hour 99) is accepted although its hour is an error whatever the
    time, and fails at minute 1 of every hour and is not due at any other minute: it
    never runs. *)
Theorem accepted_schedule_can_be_invalid at_ :
  policyAcceptsSchedule "1 99 * * *" = true /\
  (forall hour, cronFieldMatches "99" hour (mkCronFieldSpec 0 23) false = None) /\
  BackupScheduleMatchesUTC "1 99 * * *" at_ = if MinuteOf at_ =? 1 then None else Some false.
Proof.
  assert (Hh : forall v, cronFieldMatches "99" v (mkCronFieldSpec 0 23) false = None)
    by (intros v; vm_compute; reflexivity).
  split; [vm_compute; reflexivity|]. split; [done|].
  unfold BackupScheduleMatchesUTC.
  assert (Hf : Fields "1 99 * * *" = ["1"; "99"; "*"; "*"; "*"]) by (vm_compute; reflexivity).
  rewrite Hf. cbn [length Nat.eqb scheduleLoop scheduleSpecs scheduleValues].
  destruct (field_read 0 59 ltac:(lia) ltac:(lia) [mkCronTerm (Only 1) None] (MinuteOf at_) false) as (b & Eb & Hb).
  { split; [done|]. repeat constructor; unfold step_of; cbn; lia. }
  change (listText [mkCronTerm (Only 1) None]) with "1" in Eb. rewrite Eb, Hh.
  rewrite admitted_plain in Hb. unfold listed in Hb. rewrite Exists_cons, Exists_nil in Hb.
  assert (Hd : denotes 0 59 (mkCronTerm (Only 1) None) (MinuteOf at_) <-> MinuteOf at_ = 1).
  { unfold denotes, step_of. cbn. split; [intros (k & ? & ? & ?); lia|intros ->; exists 0; lia]. }
  rewrite Hd in Hb. destruct b, (Z.eqb_spec (MinuteOf at_) 1); try done; exfalso; intuition congruence.
Qed.
